(* ===== verification/_CoqProject ===== *)
-Q . S2P
Prelude.v
Words.v
Numbers.v
Bitmap.v
Block.v
FsState.v
InodeHash.v
HList.v
Super.v
Inode.v
ReadWrite.v
Dir.v
File.v
Shell.v
Mktestfs.v
Threads.v
Cache.v
Rio.v
Request.v
Client.v
Fileset.v
Server.v
FileTree.v
FileAlloc.v
FileData.v
FileFree.v
DirSpec.v
MkfsSpec.v
FileSpec.v
FileMap.v
DirFiles.v
DirRemove.v
MountSpec.v
ShellSpec.v
ShellFiles.v
Quiet.v
Tree.v
TreeRep.v
TreeOps.v
TreeList.v
TreeShell.v
DirProps.v
TreeSession.v
TreeDisk.v
TreeProps.v
ListSpec.v
HashSpec.v
ListProps.v
FsProps.v
Ample.v
QueueSpec.v
ThreadSpec.v
LockSpec.v
SyncSpec.v
ThreadProps.v
ExitSpec.v
Interrupts.v
TimerProps.v
LruSpec.v
CacheSpec.v
RioSpec.v
RequestSpec.v
ServeSpec.v
ServerSpec.v
ClientSpec.v
FilesetSpec.v
WebProps.v
ClientProps.v
