(* ===== verification/Prelude.v ===== *)
(** * Verification of the operating-systems laboratory programs

    The repository holds three programs: a thread library (src/threads), a web server
    (src/webserver) and a Unix-like file system in a file with its shell (src/fs).
    This library translates their C code function by function and proves what the
    functions guarantee.

    ** Conventions

    A C function is a computation in the monad [M S] of this file: it takes the state
    and either returns ([Val]) or stops ([Fault]).  A failing [assert] is
    [AssertFailed], [exit] is [Exited], and everything that C leaves undefined (storage
    that is not initialised, freed or outside an object) is [Undefined].  [wp m s Q]
    is total correctness: from [s] the computation returns, and its result and final
    state satisfy [Q].  [wlp] is the partial version, used for invariants of runs.
    Machine integers are [Z]; their wrap-around is written out ([u32], [s64], ... of
    Words.v).  A loop of the C code is [while_], whose budget of 2^64 rounds no loop of
    the programs exhausts; that each loop ends is part of every [wp] theorem.
    [malloc] is taken to succeed, except in Threads.v, where any call of it may fail and
    where the storage it returns may be zeroed or not ([mallocs] and [zeroed]).

    ** The file system (src/fs)

    - Bitmap.v (bitmap.c), Block.v (block.c: a device is a map from block numbers to
      8192 bytes, with the position of its stdio stream), FsState.v (the records),
      InodeHash.v and Inode.v (inode.c), Super.v (super.c), ReadWrite.v (read_write.c),
      Dir.v (dir.c), File.v (file.c), Shell.v (testfs.c), Mktestfs.v (mktestfs.c),
      Numbers.v (how texts are read as numbers, also for the web programs).
      Bitmap.v, Super.v and InodeHash.v also hold the lemmas on their operations.
      The reference count of an inode is an unbounded [Z] where the C field is an int,
      and as there is one super block the comparison of [in->sb] with it is left out.
    - HList.v is list.h on pointers: circular lists and hash lists.  ListSpec.v and
      HashSpec.v show that the operations are those on sequences, and that the hash
      table of inode.c on pointers is the table of lists of InodeHash.v; ListProps.v has
      the theorems.
    - FileTree.v gives the abstract file: the map from logical to physical blocks that
      an inode with its indirect blocks stands for.  FileAlloc.v, FileData.v and
      FileFree.v show that allocating, writing, reading and freeing are the operations
      they should be on it; DirSpec.v and MkfsSpec.v treat entries and a new file
      system, FileSpec.v the combination.
    - FileMap.v takes the files together: what one operation on an inode leaves of all
      the others.  On it stand DirFiles.v and DirRemove.v (a directory is a sequence of
      entries; creating and removing files and directories), MountSpec.v (closing and
      mounting again), ShellSpec.v and ShellFiles.v (a command line runs its command).
    - The file system as a whole is a tree (Tree.v): a map from inode numbers to files
      and directories, in which every file but the root has one place and the root
      reaches everything.  Quiet.v shows which functions print nothing; TreeRep.v
      relates the tree and the references to open inodes to the state, TreeOps.v takes
      each operation on files to one on the tree, TreeList.v the recursive listing, whose
      nesting is bounded by the number of inodes (MAX_DEPTH of Dir.v is above it).
      TreeShell.v gives every command of the shell its meaning on the tree ([perform]:
      the answer and the new tree; [prints]: the output), TreeSession.v a list of command
      lines, and TreeDisk.v the whole program on a disk that holds a tree, from mounting
      to unmounting, and what happens when an inode is left open: the program then stops
      in an assertion, between two writes to the disk, which the theorem shows by letting
      the host refuse the later ones ([limit]).  The commands are
      specified for arguments that are words ([arguments_ok]), as long as no directory
      grows to 2^30 bytes ([fits]) and the blocks do not run out ([blocks_of] bounds
      what a command takes).
    - TreeProps.v has the theorems on the whole program: a run refines the fold of
      [perform] over its command lines; every line keeps the tree well formed; what one
      run writes the next run reads; listings end; a listing of a file makes the
      program abort at its end.
    - FsProps.v and DirProps.v have the theorems on the parts: writing and reading refine a sequence
      of bytes and round-trip; allocation takes the first free block and removal returns
      all of them; what is synced is found after a remount; a name that is created is
      found, and is gone when it is removed, also by command lines of the shell.

    ** Threads (src/threads)

    - Threads.v: thread.c with its store: thread control blocks, queue nodes, wait
      queues, locks and condition variables are maps from addresses.  A context switch
      cannot be a C call, so a call that switches returns [Switched] and leaves what the
      caller does next as frames in the context of the thread; [resume] runs them when
      the thread is chosen again.
    - QueueSpec.v: the linked queues refine lists.  ThreadSpec.v: the calls refine the
      abstract scheduler [sched], a map of statuses, a ready list and wait lists.  A
      wait queue that was never initialised is not in [sched]: those of new threads are
      such queues when malloc does not return zeroed storage ([raw]).
      LockSpec.v adds locks; SyncSpec.v shows that all calls, also after any
      interleaving with timer interrupts, keep the invariant.
    - Ample.v: a call that returns although malloc may fail is one in which malloc does
      not fail, except that [thread_create] may give up.  So the invariant and mutual
      exclusion are proved for any behaviour of malloc; that a call returns, and what it
      does, is proved for [mallocs s = []], where no malloc fails from now on (and for
      the two failures that [thread_create] tests).
    - Interrupts.v: interrupt.c with the signal mask, the timer and the clock, of which
      Threads.v needs one flag; TimerProps.v shows that the flag is enough, that sections
      with interrupts off nest, that the timer keeps ticking and that [spin] waits.
    - ExitSpec.v: what [thread_exit] does with the threads that wait for the running one
      in zeroed storage, and that it faults in other storage.
    - ThreadProps.v has the theorems, among them that exactly one thread runs, which
      calls never fault, and where [thread_kill], [thread_wait] and [lock_acquire]
      leave their contract.

    ** The web server (src/webserver)

    - Cache.v: the file cache of server_thread.c.  LruSpec.v and CacheSpec.v: its queue
      refines a list and its open-addressed table a map from names to files.
    - Rio.v: robust reads and writes of common.c.  What the system calls answer is an
      input.  RioSpec.v: the functions do not depend on how the data is split.
    - Request.v: request.c; the file system is an argument [fs].  RequestSpec.v and
      ServeSpec.v: a request is answered with the file, from the disk or the cache.
    - Server.v: the bounded buffer, the workers and the main thread, as a step relation
      between the places where a thread needs the lock, a signal or another thread;
      spurious wakeups are steps too; and [main] of server.c up to its loop.
      ServerSpec.v: the invariant of all runs, progress, and executable schedules.
    - Client.v: client.c and client_simple.c, one connection at a time; Fileset.v:
      fileset.c (its product of sizes is [fileset_total]).  ClientSpec.v and FilesetSpec.v: the clients read what the server and
      fileset write.
    - WebProps.v and ClientProps.v have the theorems, among them that connections are
      served in order, that a file gets from the disk of the server to the terminal of
      the client, that the index of a file set is read back, and that eviction,
      [server_exit] and the buffer of the client leave the contract.

    ** Not modelled

    Option parsing (popt), printing that is not part of a contract and sockets: system
    calls and libraries, whose results are arguments where the code depends on them.
    The random numbers of common.c are floating-point computations; where a program uses
    them they are arguments.  [container_of] of list.h adds a constant to an address, so
    an entry is named by the address of its node.  The threads that client.c starts, the
    tests, the older and unfinished copy of the thread library in src/threads/os-101 and
    the programs that print contexts are left out.  In Server.v a part of
    [do_server_request] under [cache_lock] is one step, because nothing in it waits; the
    counter [dummy] of [request_processfile], which is never used, is left out.  Buffers
    that [sprintf] both reads and writes are taken to be appended to.  Not proved: what
    happens to a thread after it has exited ([free_exited]), and a specification of the
    commands [help], [pwd], [fsstat] and [quit], whose names alone on a line are
    undefined ([bare_command_faults]). *)

From stdpp Require Import base gmap list strings.
From Stdlib Require Import ZArith Lia.
#[local] Open Scope Z_scope.

(** ** Faults and outcomes

    A C function either returns or stops the process.  [AssertFailed] is a
    failing [assert], [Exited] a call of [EXIT]/[exit], [Undefined] a step the C
    standard gives no meaning (a read of uninitialised or freed storage, an
    access outside an object), [OutOfFuel] a loop that did not end within its
    iteration budget. *)
Inductive fault : Type :=
  | AssertFailed
  | Exited
  | Undefined
  | OutOfFuel.

Inductive outcome (A : Type) : Type :=
  | Val (a : A)
  | Fault (f : fault).
Arguments Val {A} a.
Arguments Fault {A} f.

#[global] Instance fault_eq_dec : EqDecision fault.
Proof. solve_decision. Defined.

(** ** Error numbers of <errno.h> *)
Definition ENOENT : Z := 2.
Definition ENOMEM : Z := 12.
Definition EEXIST : Z := 17.
Definition ENOTDIR : Z := 20.
Definition EISDIR : Z := 21.
Definition EINVAL : Z := 22.
Definition EFBIG : Z := 27.
Definition ENOSPC : Z := 28.
Definition ENOTEMPTY : Z := 39.

(** ** The state and fault monad *)

Definition M (S A : Type) : Type := S -> outcome (A * S).

#[export] Instance M_ret {S} : MRet (M S) := fun A a s => Val (a, s).

#[export] Instance M_bind {S} : MBind (M S) := fun A B k m s =>
  match m s with
  | Val (a, s') => k a s'
  | Fault f => Fault f
  end.

Definition stop {S A} (f : fault) : M S A := fun _ => Fault f.
Definition get {S} : M S S := fun s => Val (s, s).
Definition gets {S A} (f : S -> A) : M S A := fun s => Val (f s, s).
Definition modify {S} (f : S -> S) : M S unit := fun s => Val (tt, f s).
Definition lift {S A} (o : outcome A) : M S A := fun s =>
  match o with
  | Val a => Val (a, s)
  | Fault f => Fault f
  end.

(** [assert(b)] *)
Definition assert_ {S} (b : bool) : M S unit :=
  if b then mret tt else stop AssertFailed.

(** dereferencing: [None] is a dangling or null pointer *)
Definition deref {S A} (o : option A) : M S A :=
  match o with
  | Some a => mret a
  | None => stop Undefined
  end.

(** running a computation on a component of the state *)
Definition zoom {S T A} (proj : S -> T) (inj : T -> S -> S) (m : M T A) : M S A := fun s =>
  match m (proj s) with
  | Val (a, t) => Val (a, inj t s)
  | Fault f => Fault f
  end.

(** ** Loops

    [loop n body x] runs [body] from [x] until it answers [inr], for at most
    [2 ^ n] rounds; the budget is binary so that a bound of [2 ^ 64] rounds costs
    nothing to write down or to evaluate. *)
Fixpoint loop {S X R} (n : nat) (body : X -> M S (X + R)) (x : X) : M S (X + R) :=
  match n with
  | O => body x
  | Datatypes.S n' =>
      r ← loop n' body x;
      match r with
      | inl x' => loop n' body x'
      | inr v => mret (inr v)
      end
  end.

(** A C loop: 2^64 rounds are more than any loop of the program can make. *)
Definition while_ {S X R} (body : X -> M S (X + R)) (x : X) : M S R :=
  r ← loop 64 body x;
  match r with
  | inl _ => stop OutOfFuel
  | inr v => mret v
  end.

(** [for (i = lo; i < lo + n; i++) body(i)] *)
Fixpoint for_ {S} (n : nat) (i : Z) (body : Z -> M S unit) : M S unit :=
  match n with
  | O => mret tt
  | Datatypes.S n' => body i ;; for_ n' (i + 1) body
  end.

(** ** Weakest preconditions

    [wp m s Q]: run from [s], [m] returns normally, and the result and the final
    state satisfy [Q].  It is total: a fault falsifies it. *)
Definition wp {S A} (m : M S A) (s : S) (Q : A -> S -> Prop) : Prop :=
  match m s with
  | Val (a, s') => Q a s'
  | Fault _ => False
  end.

Create HintDb wp.

Section wp_rules.
Context {S : Type}.
Implicit Types (s : S).

Lemma wp_ret {A} (a : A) s (Q : A -> S -> Prop) : Q a s -> wp (mret a) s Q.
Proof. done. Qed.

Lemma wp_bind {A B} (m : M S A) (k : A -> M S B) s Q :
  wp m s (fun a s' => wp (k a) s' Q) -> wp (m ≫= k) s Q.
Proof. unfold wp, mbind, M_bind. by destruct (m s) as [[a s']|f]. Qed.

Lemma wp_bind_inv {A B} (m : M S A) (k : A -> M S B) s Q :
  wp (m ≫= k) s Q -> wp m s (fun a s' => wp (k a) s' Q).
Proof. unfold wp, mbind, M_bind. by destruct (m s) as [[a s']|f]. Qed.

Lemma wp_mono {A} (m : M S A) s (P Q : A -> S -> Prop) :
  wp m s P -> (forall a s', P a s' -> Q a s') -> wp m s Q.
Proof. unfold wp. destruct (m s) as [[a s']|f]; auto. Qed.

Lemma wp_val {A} (m : M S A) s a s' (Q : A -> S -> Prop) :
  m s = Val (a, s') -> Q a s' -> wp m s Q.
Proof. unfold wp. by intros ->. Qed.

Lemma wp_inv {A} (m : M S A) s (Q : A -> S -> Prop) :
  wp m s Q -> exists a s', m s = Val (a, s') /\ Q a s'.
Proof. unfold wp. destruct (m s) as [[a s']|f]; eauto; done. Qed.

Lemma wp_and {A} (m : M S A) s (P Q : A -> S -> Prop) :
  wp m s P -> wp m s Q -> wp m s (fun a s' => P a s' /\ Q a s').
Proof. unfold wp. destruct (m s) as [[a s']|f]; auto. Qed.

(** a computation that faults *)
Lemma fault_bind {A B} (m : M S A) (k : A -> M S B) s f : wp m s (fun a s' => k a s' = Fault f) -> (m ≫= k) s = Fault f.
Proof. unfold wp, mbind, M_bind. by destruct (m s) as [[a s']|g]. Qed.

Lemma wp_get s (Q : S -> S -> Prop) : Q s s -> wp get s Q.
Proof. done. Qed.

Lemma wp_gets {A} (f : S -> A) s (Q : A -> S -> Prop) : Q (f s) s -> wp (gets f) s Q.
Proof. done. Qed.

Lemma wp_modify (f : S -> S) s (Q : unit -> S -> Prop) : Q tt (f s) -> wp (modify f) s Q.
Proof. done. Qed.

Lemma wp_assert (b : bool) s (Q : unit -> S -> Prop) :
  b = true -> Q tt s -> wp (assert_ b) s Q.
Proof. by intros ->. Qed.

Lemma wp_deref {A} (o : option A) a s (Q : A -> S -> Prop) :
  o = Some a -> Q a s -> wp (deref o) s Q.
Proof. by intros ->. Qed.

Lemma wp_lift {A} (o : outcome A) a s (Q : A -> S -> Prop) :
  o = Val a -> Q a s -> wp (lift o) s Q.
Proof. by intros ->. Qed.

Lemma wp_zoom {T A} (proj : S -> T) inj (m : M T A) s (Q : A -> S -> Prop) :
  wp m (proj s) (fun a t => Q a (inj t s)) -> wp (zoom proj inj m) s Q.
Proof. unfold wp, zoom. by destruct (m (proj s)) as [[a t]|f]. Qed.

(** Invariant rule for counted loops. *)
Lemma wp_for (Inv : Z -> S -> Prop) body n lo s (Q : unit -> S -> Prop) :
  Inv lo s ->
  (forall i s, lo <= i < lo + Z.of_nat n -> Inv i s ->
     wp (body i) s (fun _ s' => Inv (i + 1) s')) ->
  (forall s', Inv (lo + Z.of_nat n) s' -> Q tt s') ->
  wp (for_ n lo body) s Q.
Proof.
  revert lo s. induction n as [|n IH]; intros lo s Hi Hb Hq; simpl.
  - apply wp_ret, Hq. by replace (lo + Z.of_nat 0) with lo by lia.
  - apply wp_bind. eapply wp_mono; [apply Hb; [lia|done]|].
    intros [] s' Hi'. apply IH; [done| |].
    + intros i s1 ? ?. apply Hb; [lia|done].
    + intros s1 ?. apply Hq. by replace (lo + Z.of_nat (Datatypes.S n)) with (lo + 1 + Z.of_nat n) by lia.
Qed.

(** The binary budget is the unary one. *)
Fixpoint iter {X R} (k : nat) (body : X -> M S (X + R)) (x : X) : M S (X + R) :=
  match k with
  | O => mret (inl x)
  | Datatypes.S k' =>
      r ← body x;
      match r with
      | inl x' => iter k' body x'
      | inr v => mret (inr v)
      end
  end.

Lemma iter_add {X R} k1 k2 (body : X -> M S (X + R)) x s :
  iter (k1 + k2) body x s =
  (r ← iter k1 body x;
   match r with inl x' => iter k2 body x' | inr v => mret (inr v) end) s.
Proof.
  revert x s. induction k1 as [|k1 IH]; intros x s; simpl; [done|].
  unfold mbind at 1 2 3, M_bind. destruct (body x s) as [[[x'|v] s']|f]; try done.
Qed.

Lemma loop_iter {X R} n (body : X -> M S (X + R)) x s :
  loop n body x s = iter (2 ^ n)%nat body x s.
Proof.
  revert x s. induction n as [|n IH]; intros x s.
  - simpl. unfold mbind, mret, M_bind, M_ret. by destruct (body x s) as [[[x'|v] s']|f].
  - rewrite Nat.pow_succ_r'. simpl (2 * 2 ^ n)%nat. rewrite Nat.add_0_r, iter_add.
    simpl. unfold mbind, M_bind. rewrite IH. destruct (iter _ _ _ _) as [[[x'|v] s']|f]; try done.
Qed.

(** Total correctness of [while_]: an invariant and a variant below 2^64, which
    may be a ghost value of the invariant. *)
Lemma wp_while_var {X R} (Inv : Z -> X -> S -> Prop) (n : Z) (body : X -> M S (X + R))
    x s (Q : R -> S -> Prop) :
  Inv n x s ->
  0 <= n < 2 ^ 64 ->
  (forall n x s, Inv n x s -> 0 <= n ->
     wp (body x) s (fun r s' =>
       match r with
       | inl x' => exists n', Inv n' x' s' /\ 0 <= n' < n
       | inr v => Q v s'
       end)) ->
  wp (while_ body x) s Q.
Proof.
  intros Hi Hv Hb. unfold while_. apply wp_bind. unfold wp at 1.
  rewrite loop_iter.
  assert (Hit : forall k n x s, Inv n x s -> 0 <= n < Z.of_nat k ->
    exists v s', iter k body x s = Val (inr v, s') /\ Q v s').
  { clear n x s Hi Hv. induction k as [|k IH]; intros n x s Hi Hv; [lia|].
    simpl. unfold mbind, M_bind.
    destruct (wp_inv _ _ _ (Hb n x s Hi (proj1 Hv))) as (r & s' & -> & Hr).
    destruct r as [x'|v]; [|by eauto].
    destruct Hr as (n' & Hi' & Hv'). apply (IH n'); [done|lia]. }
  destruct (Hit (2 ^ 64)%nat n x s Hi) as (v & s' & -> & HQ).
  { rewrite Nat2Z.inj_pow. done. }
  done.
Qed.

Lemma wp_while {X R} (Inv : X -> S -> Prop) (var : X -> Z) (body : X -> M S (X + R))
    x s (Q : R -> S -> Prop) :
  Inv x s ->
  0 <= var x < 2 ^ 64 ->
  (forall x s, Inv x s -> 0 <= var x ->
     wp (body x) s (fun r s' =>
       match r with
       | inl x' => Inv x' s' /\ 0 <= var x' < var x
       | inr v => Q v s'
       end)) ->
  wp (while_ body x) s Q.
Proof.
  intros Hi Hv Hb. apply (wp_while_var (fun n x s => Inv x s /\ n = var x) (var x)); [done..|].
  intros n y s' [Hy ->] Hn. eapply wp_mono; [by apply Hb|]. intros [x'|v] s2; [|done].
  intros [H1 H2]. by exists (var x').
Qed.

(** a loop that ends within [n] rounds, unrolled *)
Fixpoint wp_rounds {X R} (n : nat) (body : X -> M S (X + R)) (x : X) (s : S) (Q : R -> S -> Prop) : Prop :=
  match n with
  | O => False
  | Datatypes.S n' =>
      wp (body x) s (fun r s' => match r with inl x' => wp_rounds n' body x' s' Q | inr v => Q v s' end)
  end.

Lemma wp_while_rounds {X R} n (body : X -> M S (X + R)) x s (Q : R -> S -> Prop) :
  Z.of_nat n < 2 ^ 64 -> wp_rounds n body x s Q -> wp (while_ body x) s Q.
Proof.
  intros Hn H. destruct n as [|n]; [done|].
  apply (wp_while_var (fun k x s => exists n, k = Z.of_nat n /\ wp_rounds (Datatypes.S n) body x s Q) (Z.of_nat n)).
  - by exists n.
  - lia.
  - clear. intros k x s (n & -> & H) _. cbn [wp_rounds] in H. eapply wp_mono; [exact H|]. intros [x'|v] s' Hr; [|done].
    destruct n as [|n]; [done|]. exists (Z.of_nat n). split; [by exists n|lia].
Qed.

(** ** Partial correctness

    [wlp m s Q]: if [m] returns normally from [s], the result and the final state
    satisfy [Q].  Only used for invariants of sequences of calls that are known to
    return. *)
Definition wlp {A} (m : M S A) s (Q : A -> S -> Prop) : Prop :=
  match m s with
  | Val (a, s') => Q a s'
  | Fault _ => True
  end.

Lemma wlp_run {A} (m : M S A) s r s' (Q : A -> S -> Prop) : m s = Val (r, s') -> wlp m s Q -> Q r s'.
Proof. unfold wlp. by intros ->. Qed.
Lemma wp_wlp {A} (m : M S A) s (Q : A -> S -> Prop) : wp m s Q -> wlp m s Q.
Proof. unfold wp, wlp. by destruct (m s) as [[a s']|f]. Qed.
Lemma wlp_mono {A} (m : M S A) s (Q Q' : A -> S -> Prop) : wlp m s Q -> (forall a s', Q a s' -> Q' a s') -> wlp m s Q'.
Proof. unfold wlp. destruct (m s) as [[a s']|f]; auto. Qed.
Lemma wlp_bind {A B} (m : M S A) (k : A -> M S B) s Q : wlp m s (fun a s' => wlp (k a) s' Q) -> wlp (m ≫= k) s Q.
Proof. unfold wlp, mbind, M_bind. by destruct (m s) as [[a s']|f]. Qed.
Lemma wlp_bind_wp {A B} (m : M S A) (k : A -> M S B) s Q : wp m s (fun a s' => wlp (k a) s' Q) -> wlp (m ≫= k) s Q.
Proof. intros H. apply wlp_bind. by apply wp_wlp. Qed.
Lemma wlp_ret {A} (a : A) s (Q : A -> S -> Prop) : Q a s -> wlp (mret a) s Q.
Proof. done. Qed.
Lemma wlp_get s (Q : S -> S -> Prop) : Q s s -> wlp get s Q.
Proof. done. Qed.
Lemma wlp_gets {A} (f : S -> A) s (Q : A -> S -> Prop) : Q (f s) s -> wlp (gets f) s Q.
Proof. done. Qed.
Lemma wlp_modify f s (Q : unit -> S -> Prop) : Q tt (f s) -> wlp (modify f) s Q.
Proof. done. Qed.
Lemma wlp_stop {A} f s (Q : A -> S -> Prop) : wlp (stop f) s Q.
Proof. done. Qed.
Lemma wlp_deref {A} (o : option A) s (Q : A -> S -> Prop) : (forall a, o = Some a -> Q a s) -> wlp (deref o) s Q.
Proof. destruct o; [|done]. intros H. by apply H. Qed.
Lemma wlp_assert b s (Q : unit -> S -> Prop) : (b = true -> Q tt s) -> wlp (assert_ b) s Q.
Proof. destruct b; [|done]. intros H. by apply H. Qed.

Lemma wlp_loop {X R} (Inv : X -> S -> Prop) n (body : X -> M S (X + R)) x s (Q : R -> S -> Prop) :
  Inv x s ->
  (forall x s, Inv x s -> wlp (body x) s (fun r s' => match r with inl x' => Inv x' s' | inr v => Q v s' end)) ->
  wlp (loop n body x) s (fun r s' => match r with inl x' => Inv x' s' | inr v => Q v s' end).
Proof.
  intros Hi Hb. unfold wlp at 1. rewrite loop_iter. revert x s Hi.
  induction (2 ^ n)%nat as [|k IH]; intros x s Hi; [done|]. simpl. apply wlp_bind.
  eapply wlp_mono; [by apply Hb|]. intros [x'|v] s' Hr; [by apply IH|by apply wlp_ret].
Qed.

Lemma wlp_while {X R} (Inv : X -> S -> Prop) (body : X -> M S (X + R)) x s (Q : R -> S -> Prop) :
  Inv x s ->
  (forall x s, Inv x s -> wlp (body x) s (fun r s' => match r with inl x' => Inv x' s' | inr v => Q v s' end)) ->
  wlp (while_ body x) s Q.
Proof.
  intros Hi Hb. unfold while_. apply wlp_bind. eapply wlp_mono; [by apply (wlp_loop Inv)|].
  intros [x'|v] s' Hr; [apply wlp_stop|by apply wlp_ret].
Qed.
End wp_rules.

#[export] Hint Resolve wp_ret wp_get wp_gets wp_modify : wp.

(** [wsimpl] runs the structural steps of a computation; [wcall H] uses a
    specification [H] for the next call. *)
Ltac wstep :=
  lazymatch goal with
  | |- wp (_ ≫= _) _ _ => apply wp_bind
  | |- wp (mret _) _ _ => apply wp_ret
  | |- wp get _ _ => apply wp_get
  | |- wp (gets _) _ _ => apply wp_gets
  | |- wp (modify _) _ _ => apply wp_modify
  | |- wp (let '(_, _) := ?x in _) _ _ => destruct x eqn:?
  end; cbv beta.
Ltac wsimpl := repeat wstep.
Ltac lstep :=
  lazymatch goal with
  | |- wlp (_ ≫= _) _ _ => apply wlp_bind
  | |- wlp (mret _) _ _ => apply wlp_ret
  | |- wlp get _ _ => apply wlp_get
  | |- wlp (gets _) _ _ => apply wlp_gets
  | |- wlp (modify _) _ _ => apply wlp_modify
  | |- wlp (stop _) _ _ => apply wlp_stop
  end; cbv beta.
Ltac lsimpl := repeat lstep.
Ltac wcall H := eapply wp_mono; [eapply H|].
Ltac wcase :=
  lazymatch goal with
  | |- wp (if ?b then _ else _) _ _ => destruct b eqn:?
  | |- wp (match ?b with _ => _ end) _ _ => destruct b eqn:?
  end.

(** ** Runs *)

Lemma val_inv {A S} (a a' : A) (x x' : S) : Val (a, x) = Val (a', x') -> a = a' /\ x = x'.
Proof. by intros [= -> ->]. Qed.
Lemma val_bind {S A B} (m : M S A) (k : A -> M S B) s r : (m ≫= k) s = Val r -> exists a s', m s = Val (a, s') /\ k a s' = Val r.
Proof. unfold mbind, M_bind. destruct (m s) as [[a s']|f]; [eauto|done]. Qed.

(** a computation that faults at once *)
Lemma bind_fault {S A B} (m : M S A) (k : A -> M S B) s f : m s = Fault f -> (m ≫= k) s = Fault f.
Proof. unfold mbind, M_bind. by intros ->. Qed.
Lemma while_fault {S X R} (body : X -> M S (X + R)) x s f : body x s = Fault f -> while_ body x s = Fault f.
Proof.
  intros Hb. unfold while_, mbind, M_bind. assert (Hl : forall n, loop n body x s = Fault f).
  { induction n as [|n IH]; cbn [loop]; [done|]. unfold mbind, M_bind. by rewrite IH. }
  by rewrite Hl.
Qed.

(** ** Adding and removing one element of a set *)
Section gset_facts.
Implicit Types (X : gset Z) (i j : Z).

Lemma add_size X i : (i ∉ X) -> Z.of_nat (size ({[i]} ∪ X)) = Z.of_nat (size X) + 1.
Proof.
  intros Hi. rewrite size_union, size_singleton; [lia|]. by apply disjoint_singleton_l.
Qed.
Lemma del_size X i : i ∈ X -> Z.of_nat (size (X ∖ {[i]})) = Z.of_nat (size X) - 1.
Proof.
  intros Hi. rewrite size_difference, size_singleton by by apply singleton_subseteq_l.
  assert (size X <> 0%nat); [|lia]. intros Hs%size_empty_inv. set_solver.
Qed.
Lemma elem_size X i : i ∈ X -> 0 < Z.of_nat (size X).
Proof. intros Hi. assert (size X <> 0%nat); [|lia]. intros Hs%size_empty_inv. set_solver. Qed.
Lemma add_other X i j : j <> i -> j ∈ {[i]} ∪ X <-> j ∈ X.
Proof. set_solver. Qed.
Lemma del_other X i j : j <> i -> j ∈ X ∖ {[i]} <-> j ∈ X.
Proof. set_solver. Qed.
End gset_facts.
