(* ===== verification/Words.v ===== *)
(** * Words and buffers

    Fixed-width integers, their little-endian bytes, and byte buffers: a C
    [char] array is a [list Z] of byte values, an access outside it is
    [Undefined], and [((int * )buf)[i]] reads the four bytes at [4 * i]. *)

From stdpp Require Import base list strings.
From Stdlib Require Import ZArith Lia.
From S2P Require Import Prelude.
#[local] Open Scope Z_scope.

(** the bytes of a string literal *)
Definition bytes_of (s : string) : list Z := map (fun a => Z.of_nat (Ascii.nat_of_ascii a)) (String.list_ascii_of_string s).

(** ** Machine integers *)

Definition wrap (w z : Z) : Z := z mod 2 ^ w.
Definition swrap (w z : Z) : Z := (z + 2 ^ (w - 1)) mod 2 ^ w - 2 ^ (w - 1).

Abbreviation u8 := (wrap 8).
Abbreviation u32 := (wrap 32).
Abbreviation u64 := (wrap 64).
Abbreviation s32 := (swrap 32).
Abbreviation s64 := (swrap 64).

Lemma wrap_small w z : 0 <= z < 2 ^ w -> wrap w z = z.
Proof. apply Z.mod_small. Qed.

Lemma wrap_bound w z : 0 <= w -> 0 <= wrap w z < 2 ^ w.
Proof. intros. apply Z.mod_pos_bound. by apply Z.pow_pos_nonneg. Qed.

Lemma swrap_small w z : 0 < w -> - 2 ^ (w - 1) <= z < 2 ^ (w - 1) -> swrap w z = z.
Proof.
  intros Hw Hz. unfold swrap. rewrite Z.mod_small; [lia|].
  replace (2 ^ w) with (2 * 2 ^ (w - 1)); [lia|].
  rewrite <- Z.pow_succ_r by lia. f_equal; lia.
Qed.

Lemma swrap_mod w z : 0 < w -> swrap w (z mod 2 ^ w) = swrap w z.
Proof. intros. unfold swrap. by rewrite Zplus_mod_idemp_l. Qed.

(** solves the range conditions of concrete widths *)
Ltac word_lia :=
  change (2 ^ 8) with 256 in *; change (2 ^ 32) with 4294967296 in *;
  change (2 ^ (32 - 1)) with 2147483648 in *;
  change (2 ^ 64) with 18446744073709551616 in *;
  change (2 ^ (64 - 1)) with 9223372036854775808 in *; lia.

(** [lia] with quotients and remainders by constants *)
Ltac dlia := Z.to_euclidean_division_equations; lia.

Lemma u32_small z : 0 <= z < 4294967296 -> u32 z = z.
Proof. intros. apply wrap_small. word_lia. Qed.
Lemma u64_small z : 0 <= z < 18446744073709551616 -> u64 z = z.
Proof. intros. apply wrap_small. word_lia. Qed.
Lemma s32_small z : -2147483648 <= z < 2147483648 -> s32 z = z.
Proof. intros. apply swrap_small; word_lia. Qed.
Lemma s64_small z : -9223372036854775808 <= z < 9223372036854775808 -> s64 z = z.
Proof. intros. apply swrap_small; word_lia. Qed.

(** ** Buffers *)

Definition zlen (l : list Z) : Z := Z.of_nat (length l).
Definition zeros (n : Z) : list Z := replicate (Z.to_nat n) 0.
Definition byte_at (l : list Z) (i : Z) : Z := nth (Z.to_nat i) l 0.
(** the [n] bytes at offset [off] *)
Definition zsub (l : list Z) (off n : Z) : list Z :=
  take (Z.to_nat n) (drop (Z.to_nat off) l).
(** [memcpy(l + off, src, |src|)] *)
Definition zsplice (l : list Z) (off : Z) (src : list Z) : list Z :=
  take (Z.to_nat off) l ++ src ++ drop (Z.to_nat off + length src) l.

Definition in_buf (l : list Z) (off n : Z) : bool :=
  bool_decide (0 <= off /\ 0 <= n /\ off + n <= zlen l).

(** reading [n] bytes at [off], and writing [src] at [off], with the bounds the
    C object has *)
Definition buf_read {S} (l : list Z) (off n : Z) : M S (list Z) :=
  if in_buf l off n then mret (zsub l off n) else stop Undefined.
Definition buf_write {S} (l : list Z) (off : Z) (src : list Z) : M S (list Z) :=
  if in_buf l off (zlen src) then mret (zsplice l off src) else stop Undefined.

(** ** Little-endian integers *)

Fixpoint le_bytes (n : nat) (z : Z) : list Z :=
  match n with
  | O => []
  | S n' => z mod 256 :: le_bytes n' (z / 256)
  end.

Fixpoint le_val (l : list Z) : Z :=
  match l with
  | [] => 0
  | b :: l' => b + 256 * le_val l'
  end.

Definition get_s32_at (l : list Z) (off : Z) : Z := s32 (le_val (zsub l off 4)).
Definition get_u32_at (l : list Z) (off : Z) : Z := u32 (le_val (zsub l off 4)).
Definition get_u64_at (l : list Z) (off : Z) : Z := u64 (le_val (zsub l off 8)).
Definition get_s64_at (l : list Z) (off : Z) : Z := s64 (le_val (zsub l off 8)).

(** [((int * )l)[i]] as a value, and as an access *)
Definition int_at (l : list Z) (i : Z) : Z := get_s32_at l (4 * i).
Definition int_set (l : list Z) (i v : Z) : list Z := zsplice l (4 * i) (le_bytes 4 v).
Definition int_read {S} (l : list Z) (i : Z) : M S Z :=
  if in_buf l (4 * i) 4 then mret (int_at l i) else stop Undefined.
Definition int_write {S} (l : list Z) (i v : Z) : M S (list Z) :=
  if in_buf l (4 * i) 4 then mret (int_set l i v) else stop Undefined.

(** ** Laws *)

Lemma zlen_length l : zlen l = Z.of_nat (length l).
Proof. done. Qed.

Lemma zlen_nil : zlen [] = 0.
Proof. by rewrite zlen_length. Qed.
Lemma zlen_nonneg l : 0 <= zlen l.
Proof. unfold zlen. lia. Qed.

Lemma zlen_app l1 l2 : zlen (l1 ++ l2) = zlen l1 + zlen l2.
Proof. unfold zlen. rewrite length_app. lia. Qed.

Lemma zlen_cons x l : zlen (x :: l) = 1 + zlen l.
Proof. unfold zlen. simpl. lia. Qed.

Lemma zlen_zeros n : 0 <= n -> zlen (zeros n) = n.
Proof. intros. unfold zlen, zeros. rewrite length_replicate. lia. Qed.

Lemma Forall_zeros (P : Z -> Prop) n : P 0 -> Forall P (zeros n).
Proof. apply Forall_replicate. Qed.

Lemma zlen_zsub l off n :
  0 <= off -> 0 <= n -> off + n <= zlen l -> zlen (zsub l off n) = n.
Proof.
  intros. unfold zlen, zsub in *. rewrite length_take, length_drop. lia.
Qed.

Lemma zlen_zsplice l off src :
  0 <= off -> off + zlen src <= zlen l -> zlen (zsplice l off src) = zlen l.
Proof.
  intros. unfold zlen, zsplice in *. rewrite !length_app, length_take, length_drop. lia.
Qed.

Lemma zlen_le_bytes n z : zlen (le_bytes n z) = Z.of_nat n.
Proof. revert z. induction n; intros z; simpl; [done|]. rewrite zlen_cons, IHn. lia. Qed.

Lemma length_le_bytes n z : length (le_bytes n z) = n.
Proof. revert z. induction n; intros z; simpl; auto. Qed.

Lemma in_buf_true l off n :
  0 <= off -> 0 <= n -> off + n <= zlen l -> in_buf l off n = true.
Proof. intros. unfold in_buf. rewrite bool_decide_eq_true. lia. Qed.

Lemma in_buf_spec l off n :
  in_buf l off n = true <-> 0 <= off /\ 0 <= n /\ off + n <= zlen l.
Proof. unfold in_buf. by rewrite bool_decide_eq_true. Qed.

Lemma byte_at_lookup l i : 0 <= i < zlen l -> l !! Z.to_nat i = Some (byte_at l i).
Proof.
  unfold zlen, byte_at. intros Hi.
  destruct (lookup_lt_is_Some_2 l (Z.to_nat i)) as [x Hx]; [lia|].
  by rewrite nth_lookup, Hx.
Qed.

Lemma byte_at_out l i : zlen l <= i -> byte_at l i = 0.
Proof. intros. unfold byte_at, zlen in *. apply nth_overflow. lia. Qed.

Lemma byte_at_default l i : byte_at l i = default 0 (l !! Z.to_nat i).
Proof. unfold byte_at. by rewrite nth_lookup. Qed.

Lemma list_eq_bytes l1 l2 :
  zlen l1 = zlen l2 -> (forall i, 0 <= i < zlen l1 -> byte_at l1 i = byte_at l2 i) -> l1 = l2.
Proof.
  unfold zlen. intros Hl H. apply list_eq_same_length with (length l1); [lia|done|].
  intros i x y Hi Hx Hy. specialize (H (Z.of_nat i) ltac:(lia)).
  rewrite !byte_at_default, Nat2Z.id, Hx, Hy in H. done.
Qed.

Lemma byte_at_app l1 l2 i :
  0 <= i -> byte_at (l1 ++ l2) i =
  if decide (i < zlen l1) then byte_at l1 i else byte_at l2 (i - zlen l1).
Proof.
  intros. rewrite !byte_at_default. unfold zlen. case_decide.
  - by rewrite lookup_app_l by lia.
  - rewrite lookup_app_r by lia. do 2 f_equal. lia.
Qed.

Lemma byte_at_zeros n i : byte_at (zeros n) i = 0.
Proof.
  rewrite byte_at_default. unfold zeros.
  destruct (replicate (Z.to_nat n) 0 !! Z.to_nat i) eqn:E; [|done].
  by apply lookup_replicate in E as [-> _].
Qed.

Lemma byte_at_zsub l off n i :
  0 <= off -> 0 <= i < n -> byte_at (zsub l off n) i = byte_at l (off + i).
Proof.
  intros. rewrite !byte_at_default. unfold zsub.
  rewrite lookup_take_lt by lia. rewrite lookup_drop. do 2 f_equal. lia.
Qed.

Lemma byte_at_zsplice l off src i :
  0 <= off -> off + zlen src <= zlen l -> 0 <= i ->
  byte_at (zsplice l off src) i =
  if decide (off <= i < off + zlen src) then byte_at src (i - off) else byte_at l i.
Proof.
  intros Ho Hs Hi. unfold zsplice.
  assert (Ht : zlen (take (Z.to_nat off) l) = off).
  { pose proof (zlen_nonneg src). unfold zlen in *. rewrite length_take. lia. }
  rewrite byte_at_app, Ht by lia. destruct (decide (i < off)).
  - rewrite decide_False by lia. rewrite !byte_at_default, lookup_take_lt by lia. done.
  - rewrite byte_at_app by lia. destruct (decide (i - off < zlen src)).
    + by rewrite decide_True by lia.
    + rewrite decide_False by lia. rewrite !byte_at_default, lookup_drop.
      unfold zlen in *. do 2 f_equal. lia.
Qed.

Lemma zsub_zsplice_eq l off src :
  0 <= off -> off + zlen src <= zlen l -> zsub (zsplice l off src) off (zlen src) = src.
Proof.
  intros. pose proof (zlen_nonneg src). apply list_eq_bytes.
  - rewrite zlen_zsub; [done|done|done|]. by rewrite zlen_zsplice.
  - intros i. rewrite zlen_zsub by (rewrite ?zlen_zsplice; done). intros.
    rewrite byte_at_zsub by lia. rewrite byte_at_zsplice by lia.
    rewrite decide_True by lia. f_equal. lia.
Qed.

Lemma zsub_zsplice_disj l off src off' n :
  0 <= off -> off + zlen src <= zlen l -> 0 <= off' -> 0 <= n -> off' + n <= zlen l ->
  off' + n <= off \/ off + zlen src <= off' ->
  zsub (zsplice l off src) off' n = zsub l off' n.
Proof.
  intros. apply list_eq_bytes.
  - rewrite !zlen_zsub; rewrite ?zlen_zsplice; done.
  - intros i. rewrite zlen_zsub by (rewrite ?zlen_zsplice; done). intros.
    rewrite !byte_at_zsub by lia. rewrite byte_at_zsplice by lia.
    by rewrite decide_False by lia.
Qed.

Lemma zsub_all l n : n = zlen l -> zsub l 0 n = l.
Proof. intros ->. unfold zsub, zlen. rewrite Nat2Z.id, drop_0. by apply take_ge. Qed.

Lemma zsub_app_l l1 l2 n : n = zlen l1 -> zsub (l1 ++ l2) 0 n = l1.
Proof. intros ->. unfold zsub, zlen. by rewrite Nat2Z.id, drop_0, take_app_length. Qed.

Lemma zsub_app_r l1 l2 off n :
  zlen l1 <= off -> zsub (l1 ++ l2) off n = zsub l2 (off - zlen l1) n.
Proof.
  intros. unfold zsub, zlen in *. rewrite drop_app_ge by lia. do 2 f_equal. lia.
Qed.

Lemma zsub_app_in l1 l2 off n :
  0 <= off -> 0 <= n -> off + n <= zlen l1 -> zsub (l1 ++ l2) off n = zsub l1 off n.
Proof.
  intros. unfold zsub, zlen in *. rewrite drop_app_le by lia. rewrite take_app_le; [done|].
  rewrite length_drop. lia.
Qed.

Lemma zsub_drop n l off m : 0 <= off -> zsub (drop n l) off m = zsub l (Z.of_nat n + off) m.
Proof. intros. unfold zsub. rewrite drop_drop. do 2 f_equal. lia. Qed.

Lemma zsub_take l n : zsub l 0 n = take (Z.to_nat n) l.
Proof. unfold zsub. by rewrite drop_0. Qed.

Lemma zsub_add l a b : 0 <= a -> 0 <= b -> zsub l 0 (a + b) = zsub l 0 a ++ zsub l a b.
Proof.
  intros. unfold zsub. change (Z.to_nat 0) with O. rewrite drop_0, take_take_drop. f_equal. lia.
Qed.

Lemma zsub_cons l off n : 0 <= off < zlen l -> 0 < n -> zsub l off n = byte_at l off :: zsub l (off + 1) (n - 1).
Proof.
  intros Ho Hn. unfold zsub. rewrite (drop_S l _ _ (byte_at_lookup l off Ho)).
  replace (Z.to_nat n) with (S (Z.to_nat (n - 1))) by lia. cbn [take]. do 3 f_equal. lia.
Qed.

Lemma zsub_0_0 l : zsub l 0 0 = [].
Proof. reflexivity. Qed.

Lemma zsplice_0 l src : zsplice l 0 src = src ++ drop (length src) l.
Proof. reflexivity. Qed.

Lemma le_val_bytes n z : le_val (le_bytes n z) = z mod 2 ^ (8 * Z.of_nat n).
Proof.
  revert z. induction n as [|n IH]; intros z.
  - simpl. by rewrite Z.mod_1_r.
  - cbn [le_bytes le_val]. rewrite IH.
    replace (8 * Z.of_nat (S n)) with (8 + 8 * Z.of_nat n) by lia.
    rewrite Z.pow_add_r by lia. change (2 ^ 8) with 256.
    rewrite Z.rem_mul_r by lia. done.
Qed.

Lemma le_val_zeros n : le_val (replicate n 0) = 0.
Proof. induction n as [|n IH]; simpl; [done|]. rewrite IH. lia. Qed.

Lemma zsub_zeros m off n :
  0 <= off -> 0 <= n -> off + n <= m -> zsub (zeros m) off n = zeros n.
Proof.
  intros. unfold zsub, zeros. rewrite drop_replicate, take_replicate. f_equal. lia.
Qed.

Lemma int_at_zeros m i : 0 <= i -> 4 * i + 4 <= m -> int_at (zeros m) i = 0.
Proof.
  intros. unfold int_at, get_s32_at. rewrite zsub_zeros by lia.
  unfold zeros. by rewrite le_val_zeros.
Qed.

Lemma int_at_set l i v :
  0 <= i -> 4 * i + 4 <= zlen l -> int_at (int_set l i v) i = s32 v.
Proof.
  intros. unfold int_at, int_set, get_s32_at.
  pose proof (zlen_le_bytes 4 v) as Hl. change (Z.of_nat 4) with 4 in Hl.
  rewrite <- Hl at 2. rewrite zsub_zsplice_eq by lia.
  rewrite le_val_bytes. change (8 * Z.of_nat 4) with 32. by apply swrap_mod.
Qed.

Lemma int_at_set_ne l i j v :
  0 <= i -> 4 * i + 4 <= zlen l -> 0 <= j -> 4 * j + 4 <= zlen l -> i <> j ->
  int_at (int_set l i v) j = int_at l j.
Proof.
  intros. unfold int_at, int_set, get_s32_at.
  rewrite zsub_zsplice_disj; rewrite ?zlen_le_bytes; lia || done.
Qed.

Lemma zlen_int_set l i v :
  0 <= i -> 4 * i + 4 <= zlen l -> zlen (int_set l i v) = zlen l.
Proof. intros. apply zlen_zsplice; rewrite ?zlen_le_bytes; lia. Qed.

Lemma s32_bound z : -2147483648 <= s32 z < 2147483648.
Proof.
  unfold swrap. pose proof (Z.mod_pos_bound (z + 2 ^ (32 - 1)) (2 ^ 32)) as H.
  change (2 ^ (32 - 1)) with 2147483648 in *. change (2 ^ 32) with 4294967296 in *. lia.
Qed.

Lemma int_at_bound l i : -2147483648 <= int_at l i < 2147483648.
Proof. apply s32_bound. Qed.

Section buf_wp.
Context {S : Type}.

Lemma wp_buf_read l off n (s : S) Q :
  0 <= off -> 0 <= n -> off + n <= zlen l -> Q (zsub l off n) s -> wp (buf_read l off n) s Q.
Proof. intros. unfold buf_read. by rewrite in_buf_true. Qed.

Lemma wp_buf_write l off src (s : S) Q :
  0 <= off -> off + zlen src <= zlen l -> Q (zsplice l off src) s -> wp (buf_write l off src) s Q.
Proof. intros. unfold buf_write. rewrite in_buf_true; auto using zlen_nonneg. Qed.

Lemma wp_int_read l i (s : S) Q :
  0 <= i -> 4 * i + 4 <= zlen l -> Q (int_at l i) s -> wp (int_read l i) s Q.
Proof. intros. unfold int_read. rewrite in_buf_true by lia. done. Qed.

Lemma wp_int_write l i v (s : S) Q :
  0 <= i -> 4 * i + 4 <= zlen l -> Q (int_set l i v) s -> wp (int_write l i v) s Q.
Proof. intros. unfold int_write. rewrite in_buf_true by lia. done. Qed.
End buf_wp.

#[global] Opaque zlen zsub zsplice zeros byte_at int_at int_set.
