(* ===== verification/Numbers.v ===== *)
(** * Numbers in texts

    What the programs use of <stdlib.h> and <stdio.h> to read numbers in base 10. *)

From stdpp Require Import base list.
From Stdlib Require Import ZArith Lia.
From S2P Require Import Prelude Words.
#[local] Open Scope Z_scope.

(** ** [strtoll] and [strtoull] *)

Definition isspace (x : Z) : bool := (x =? 32) || ((9 <=? x) && (x <=? 13)).
Definition isdigit (x : Z) : bool := (48 <=? x) && (x <=? 57).

Fixpoint skip_space (l : list Z) : list Z :=
  match l with
  | x :: l' => if isspace x then skip_space l' else l
  | [] => []
  end.

(** the value of the leading digits, onto [acc], and what follows them *)
Fixpoint digits (acc : Z) (l : list Z) : Z * list Z :=
  match l with
  | x :: l' => if isdigit x then digits (10 * acc + (x - 48)) l' else (acc, l)
  | [] => (acc, [])
  end.

(** is there a minus sign, the digits, the rest ([end]); without digits nothing
    is consumed *)
Definition strto (str : list Z) : bool * Z * list Z :=
  let l := skip_space str in
  let '(neg, l) :=
    match l with
    | x :: l' => if x =? 45 then (true, l') else if x =? 43 then (false, l') else (false, l)
    | [] => (false, l)
    end in
  match l with
  | x :: _ => if isdigit x then let '(v, rest) := digits 0 l in (neg, v, rest) else (false, 0, str)
  | [] => (false, 0, str)
  end.

Definition LLONG_MAX : Z := 9223372036854775807.
Definition LLONG_MIN : Z := -9223372036854775808.
Definition ULLONG_MAX : Z := 18446744073709551615.

(** the value and [end] *)
Definition strtoll (str : list Z) : Z * list Z :=
  let '(neg, v, rest) := strto str in
  (Z.max LLONG_MIN (Z.min LLONG_MAX (if neg : bool then - v else v)), rest).
Definition strtoull (str : list Z) : Z * list Z :=
  let '(neg, v, rest) := strto str in
  (if ULLONG_MAX <? v then ULLONG_MAX else if neg : bool then u64 (- v) else v, rest).

(** [atoi] is [(int)strtol(str, NULL, 10)], and [long] has 64 bits *)
Definition atoi (str : list Z) : Z := s32 (strtoll str).1.

(** ** [sscanf]

    A format is a sequence of characters that must be there, white space that may be
    there, and conversions; the values converted before the first mismatch count. *)
Inductive directive : Type :=
  | Lit (x : Z)
  | White
  | Percent_d
  | Percent_u
  | Percent_s.

Inductive scanned : Type :=
  | Int (z : Z)
  | Str (l : list Z).

Fixpoint directives (fmt : list Z) : list directive :=
  match fmt with
  | [] => []
  | x :: fmt' =>
      if x =? 37 then
        match fmt' with
        | c :: fmt'' =>
            if c =? 100 then Percent_d :: directives fmt''
            else if c =? 117 then Percent_u :: directives fmt''
            else if c =? 115 then Percent_s :: directives fmt''
            else Lit c :: directives fmt''
        | [] => []
        end
      else if isspace x then White :: directives fmt' else Lit x :: directives fmt'
  end.

(** does a number start here: digits, perhaps after a sign *)
Definition number_ahead (l : list Z) : bool :=
  match l with
  | x :: l' =>
      isdigit x || (((x =? 45) || (x =? 43)) && match l' with y :: _ => isdigit y | [] => false end)
  | [] => false
  end.

(** the characters up to white space, and the rest *)
Fixpoint span_word (l : list Z) : list Z * list Z :=
  match l with
  | x :: l' => if isspace x then ([], l) else let '(w, r) := span_word l' in (x :: w, r)
  | [] => ([], [])
  end.

Fixpoint scan (ds : list directive) (l : list Z) : list scanned :=
  match ds with
  | [] => []
  | Lit x :: ds' => match l with y :: l' => if x =? y then scan ds' l' else [] | [] => [] end
  | White :: ds' => scan ds' (skip_space l)
  | Percent_d :: ds' =>
      let l := skip_space l in
      if number_ahead l then Int (s32 (strtoll l).1) :: scan ds' (strtoll l).2 else []
  | Percent_u :: ds' =>
      let l := skip_space l in
      if number_ahead l then Int (u32 (strtoull l).1) :: scan ds' (strtoull l).2 else []
  | Percent_s :: ds' =>
      match span_word (skip_space l) with
      | ([], _) => []
      | (w, l) => Str w :: scan ds' l
      end
  end.

(** the values that [sscanf(l, fmt, ...)] stores; their number is its value *)
Definition sscanf (l fmt : list Z) : list scanned := scan (directives fmt) l.
