(* ===== verification/Bitmap.v ===== *)
(** * Bitmaps (fs/bitmap.c)

    The bit arrays that record which inodes and which blocks are in use.  A
    [bitmap] is the C structure: its number of bits and its words, one unsigned
    char each.  The operations run on the bitmap as their state.  [bm_set] is the
    abstract value of a bitmap, the set of the indices of its set bits. *)

From stdpp Require Import base gmap list list_numbers.
From Stdlib Require Import ZArith Lia.
From S2P Require Import Prelude Words.
#[local] Open Scope Z_scope.

Definition BITS_PER_WORD : Z := 8.
Definition WORD_ALLBITS : Z := 255.

Record bitmap : Type := mk_bitmap {
  bm_nbits : Z;        (* u_int32_t nbits *)
  bm_v : list Z;       (* unsigned char *v *)
}.

Definition DIVROUNDUP (a b : Z) : Z := u32 (a + b - 1) / b.

(** marks the bits [j .. 7] of word [ix], the leftover bits of the last word *)
Fixpoint mark_leftover (n : nat) (j ix : Z) (ws : list Z) : list Z :=
  match n with
  | O => ws
  | S n' => mark_leftover n' (j + 1) ix
              (alter (fun w => u8 (Z.lor w (u8 (Z.shiftl 1 j)))) (Z.to_nat ix) ws)
  end.

(** [malloc] says whether an allocation succeeds *)
Definition bitmap_create {S} (malloc : M S bool) (nb : Z) : M S (Z * option bitmap) :=
  let words := DIVROUNDUP nb BITS_PER_WORD in
  ok1 ← malloc;
  if negb ok1 then mret (- ENOMEM, None) else
  ok2 ← malloc;
  if negb ok2 then mret (- ENOMEM, None) else
  let ws := zeros words in
  if nb / BITS_PER_WORD <? words then
    let ix := u32 (words - 1) in
    let overbits := u32 (nb - ix * BITS_PER_WORD) in
    assert_ (nb / BITS_PER_WORD =? u32 (words - 1));;
    assert_ ((0 <? overbits) && (overbits <? BITS_PER_WORD));;
    mret (0, Some (mk_bitmap nb (mark_leftover (Z.to_nat (BITS_PER_WORD - overbits)) overbits ix ws)))
  else mret (0, Some (mk_bitmap nb ws)).

Definition bitmap_getdata (b : bitmap) : list Z := bm_v b.
Definition bitmap_getsize (b : bitmap) : Z := bm_nbits b.

(** the inner loop of [bitmap_alloc]: the first clear bit of a word *)
Fixpoint scan_word (n : nat) (offset w : Z) : option Z :=
  match n with
  | O => None
  | S n' => if Z.land w (u8 (Z.shiftl 1 offset)) =? 0 then Some offset
            else scan_word n' (offset + 1) w
  end.

(** the outer loop, from word [ix] on; [ws] are the words from [ix] *)
Fixpoint scan_words {S} (n : nat) (ix : Z) (ws : list Z) : M S (option (Z * Z)) :=
  match n with
  | O => mret None
  | Datatypes.S n' =>
      match ws with
      | [] => stop Undefined
      | w :: ws' =>
          if negb (w =? WORD_ALLBITS) then
            match scan_word 8 0 w with
            | Some offset => mret (Some (ix, offset))
            | None => stop AssertFailed
            end
          else scan_words n' (ix + 1) ws'
      end
  end.

(** returns the return value and [*index] *)
Definition bitmap_alloc : M bitmap (Z * Z) :=
  b ← get;
  let maxix := DIVROUNDUP (bm_nbits b) BITS_PER_WORD in
  found ← scan_words (Z.to_nat maxix) 0 (bm_v b);
  match found with
  | None => mret (- ENOSPC, 0)
  | Some (ix, offset) =>
      let mask := u8 (Z.shiftl 1 offset) in
      modify (fun b => mk_bitmap (bm_nbits b) (alter (fun w => u8 (Z.lor w mask)) (Z.to_nat ix) (bm_v b)));;
      let index := u32 (ix * BITS_PER_WORD + offset) in
      assert_ (index <? bm_nbits b);;
      mret (0, index)
  end.

(** the word index and the mask of a bit *)
Definition bitmap_translate (bitno : Z) : Z * Z :=
  let ix := bitno / BITS_PER_WORD in
  let offset := bitno mod BITS_PER_WORD in
  (ix, u8 (Z.shiftl 1 offset)).

Definition bitmap_mark (index : Z) : M bitmap unit :=
  b ← get;
  assert_ (index <? bm_nbits b);;
  let '(ix, mask) := bitmap_translate index in
  w ← deref (bm_v b !! Z.to_nat ix);
  assert_ (Z.land w mask =? 0);;
  modify (fun b => mk_bitmap (bm_nbits b) (<[Z.to_nat ix := u8 (Z.lor w mask)]> (bm_v b))).

Definition bitmap_unmark (index : Z) : M bitmap unit :=
  b ← get;
  assert_ (index <? bm_nbits b);;
  let '(ix, mask) := bitmap_translate index in
  w ← deref (bm_v b !! Z.to_nat ix);
  assert_ (negb (Z.land w mask =? 0));;
  modify (fun b => mk_bitmap (bm_nbits b) (<[Z.to_nat ix := u8 (Z.land w (Z.lnot mask))]> (bm_v b))).

Definition bitmap_isset (index : Z) : M bitmap Z :=
  b ← get;
  let '(ix, mask) := bitmap_translate index in
  w ← deref (bm_v b !! Z.to_nat ix);
  mret (Z.land w mask).

(** the counting loop of [bitmap_nr_allocated] *)
Fixpoint count_from (n : nat) (i nr : Z) : M bitmap Z :=
  match n with
  | O => mret nr
  | S n' =>
      set ← bitmap_isset i;
      count_from n' (i + 1) (if negb (set =? 0) then nr + 1 else nr)
  end.

Definition bitmap_nr_allocated : M bitmap Z :=
  b ← get;
  count_from (Z.to_nat (bm_nbits b)) 0 0.

(** ** The abstract value *)

(** bit [i] of the words *)
Definition bit (ws : list Z) (i : Z) : bool :=
  Z.testbit (byte_at ws (i / 8)) (i mod 8).

(** the indices of the set bits *)
Definition bm_set (b : bitmap) : gset Z :=
  list_to_set (filter (fun i => bit (bm_v b) i = true) (seqZ 0 (bm_nbits b))).

Definition byte_ok (w : Z) : Prop := 0 <= w < 256.

(** well-formedness: as many words as the bits need, each a byte, and the bits
    past the last one marked in use *)
Record bm_ok (b : bitmap) : Prop := {
  bm_nbits_ok : 0 <= bm_nbits b < 2 ^ 32 - 8;
  bm_words : zlen (bm_v b) = DIVROUNDUP (bm_nbits b) 8;
  bm_bytes : Forall byte_ok (bm_v b);
  bm_leftover : forall i, bm_nbits b <= i < 8 * zlen (bm_v b) -> bit (bm_v b) i = true;
}.

(** ** Bits and masks *)

Lemma mask_pow o : 0 <= o < 8 -> u8 (Z.shiftl 1 o) = 2 ^ o.
Proof.
  intros. rewrite Z.shiftl_1_l. apply wrap_small.
  split; [apply Z.pow_nonneg; lia|]. apply Z.pow_lt_mono_r; lia.
Qed.

Lemma land_mask w o : 0 <= o < 8 ->
  (Z.land w (u8 (Z.shiftl 1 o)) =? 0) = negb (Z.testbit w o).
Proof.
  intros Ho. rewrite mask_pow by done.
  destruct (Z.testbit w o) eqn:E; simpl; [rewrite Z.eqb_neq|rewrite Z.eqb_eq].
  - intros H. apply (f_equal (fun z => Z.testbit z o)) in H.
    rewrite Z.land_spec, E, Z.bits_0, Z.pow2_bits_true in H by lia. done.
  - apply Z.bits_inj. intros k. rewrite Z.land_spec, Z.bits_0.
    destruct (decide (k = o)) as [->|]; [by rewrite E|].
    rewrite Z.pow2_bits_false by done. by rewrite andb_false_r.
Qed.

Lemma byte_bits w : byte_ok w <-> 0 <= w /\ forall k, 8 <= k -> Z.testbit w k = false.
Proof.
  unfold byte_ok. split.
  - intros Hw. split; [lia|]. intros k Hk.
    rewrite <- (Z.mod_small w (2 ^ 8)) by (change (2 ^ 8) with 256; lia).
    by apply Z.mod_pow2_bits_high.
  - intros [H0 Hk]. split; [done|].
    destruct (decide (w = 0)); [lia|].
    assert (Z.log2 w < 8).
    { destruct (Z.lt_ge_cases (Z.log2 w) 8); [done|].
      assert (Z.testbit w (Z.log2 w) = true) by (apply Z.bit_log2; lia).
      rewrite Hk in *; [done|lia]. }
    apply Z.log2_lt_pow2 with (b := 8); lia.
Qed.

Lemma u8_byte w : byte_ok w -> u8 w = w.
Proof. intros [? ?]. apply wrap_small. change (2 ^ 8) with 256. lia. Qed.

(** setting a bit of a byte *)
Lemma set_bit_byte w o : byte_ok w -> 0 <= o < 8 ->
  byte_ok (u8 (Z.lor w (u8 (Z.shiftl 1 o)))) /\
  forall k, 0 <= k -> Z.testbit (u8 (Z.lor w (u8 (Z.shiftl 1 o)))) k =
            (bool_decide (k = o) || Z.testbit w k).
Proof.
  intros Hw Ho. rewrite mask_pow by done.
  assert (Hb : byte_ok (Z.lor w (2 ^ o))).
  { apply byte_bits in Hw as [Hw0 Hw]. apply byte_bits. split.
    - apply Z.lor_nonneg. split; [done|]. apply Z.pow_nonneg; lia.
    - intros k Hk. rewrite Z.lor_spec, Hw, Z.pow2_bits_false by lia. done. }
  rewrite u8_byte by done. split; [done|]. intros k Hk. rewrite Z.lor_spec.
  case_bool_decide as E; [subst; rewrite Z.pow2_bits_true by lia; by rewrite orb_true_r|].
  rewrite Z.pow2_bits_false by lia. by rewrite orb_false_r.
Qed.

(** clearing a bit of a byte *)
Lemma clear_bit_byte w o : byte_ok w -> 0 <= o < 8 ->
  byte_ok (u8 (Z.land w (Z.lnot (u8 (Z.shiftl 1 o))))) /\
  forall k, 0 <= k -> Z.testbit (u8 (Z.land w (Z.lnot (u8 (Z.shiftl 1 o))))) k =
            (negb (bool_decide (k = o)) && Z.testbit w k).
Proof.
  intros Hw Ho. rewrite mask_pow by done.
  assert (Hb : byte_ok (Z.land w (Z.lnot (2 ^ o)))).
  { apply byte_bits in Hw as [Hw0 Hw]. apply byte_bits. split.
    - apply Z.land_nonneg. by left.
    - intros k Hk. rewrite Z.land_spec, Hw by lia. done. }
  rewrite u8_byte by done. split; [done|]. intros k Hk.
  rewrite Z.land_spec, Z.lnot_spec by done.
  case_bool_decide as E; simpl.
  - subst. rewrite Z.pow2_bits_true by lia. by rewrite andb_false_r.
  - rewrite Z.pow2_bits_false by lia. by rewrite andb_true_r.
Qed.

Lemma byte_full w : byte_ok w -> (forall k, 0 <= k < 8 -> Z.testbit w k = true) -> w = WORD_ALLBITS.
Proof.
  intros Hw Hk. apply Z.bits_inj'. intros k Hk0.
  assert (byte_ok WORD_ALLBITS) as Ha by (unfold byte_ok, WORD_ALLBITS; lia).
  apply byte_bits in Hw as [_ Hw]. apply byte_bits in Ha as [_ Ha].
  destruct (Z.lt_ge_cases k 8); [|by rewrite Hw, Ha].
  rewrite Hk by lia. symmetry.
  assert (k = 0 \/ k = 1 \/ k = 2 \/ k = 3 \/ k = 4 \/ k = 5 \/ k = 6 \/ k = 7) as Hc by lia.
  by repeat destruct Hc as [->|Hc]; subst.
Qed.

Lemma allbits_testbit k : 0 <= k < 8 -> Z.testbit WORD_ALLBITS k = true.
Proof.
  intros. assert (k = 0 \/ k = 1 \/ k = 2 \/ k = 3 \/ k = 4 \/ k = 5 \/ k = 6 \/ k = 7) as Hc by lia.
  by repeat destruct Hc as [->|Hc]; subst.
Qed.

Lemma byte_at_byte ws i : Forall byte_ok ws -> byte_ok (byte_at ws i).
Proof.
  intros Hf. rewrite byte_at_default. destruct (ws !! Z.to_nat i) eqn:E; simpl.
  - by eapply Forall_lookup_1.
  - unfold byte_ok. lia.
Qed.

Lemma byte_at_insert ws ix x i : 0 <= ix < zlen ws -> 0 <= i ->
  byte_at (<[Z.to_nat ix := x]> ws) i = if decide (i = ix) then x else byte_at ws i.
Proof.
  intros Hx Hi. rewrite !byte_at_default. case_decide as E.
  - subst. pose proof (byte_at_lookup ws ix Hx) as Hl.
    apply lookup_lt_Some in Hl. by rewrite list_lookup_insert_eq.
  - rewrite list_lookup_insert_ne by lia. done.
Qed.

Lemma zlen_insert n x ws : zlen (<[n := x]> ws) = zlen ws.
Proof. rewrite !zlen_length. by rewrite length_insert. Qed.

(** the words after bit [i] was set to [b] *)
Lemma bit_insert ws i j x (c : bool) : 0 <= i < 8 * zlen ws -> 0 <= j ->
  (forall k, 0 <= k -> Z.testbit x k =
     if decide (k = i mod 8) then c else Z.testbit (byte_at ws (i / 8)) k) ->
  bit (<[Z.to_nat (i / 8) := x]> ws) j = if decide (j = i) then c else bit ws j.
Proof.
  intros Hi Hj Hx. unfold bit.
  pose proof (Z.mod_pos_bound j 8 ltac:(lia)).
  rewrite byte_at_insert by dlia.
  destruct (decide (j / 8 = i / 8)) as [E|E].
  - rewrite Hx by lia. rewrite E. destruct (decide (j = i)) as [->|Hne].
    + by rewrite decide_True.
    + rewrite decide_False by dlia. done.
  - rewrite decide_False by (intros ->; lia). done.
Qed.

Lemma alter_insert {A} (f : A -> A) n (ws : list A) x :
  ws !! n = Some x -> alter f n ws = <[n := f x]> ws.
Proof.
  intros Hx. apply list_eq. intros i. destruct (decide (i = n)) as [->|].
  - rewrite list_lookup_alter_eq, Hx, list_lookup_insert_eq; [done|].
    by apply lookup_lt_Some in Hx.
  - by rewrite list_lookup_alter_ne, list_lookup_insert_ne by done.
Qed.

Lemma elem_of_bm_set b i :
  i ∈ bm_set b <-> 0 <= i < bm_nbits b /\ bit (bm_v b) i = true.
Proof.
  unfold bm_set. rewrite elem_of_list_to_set, list_elem_of_filter, elem_of_seqZ.
  split; intros []; split; lia || done.
Qed.

Lemma words_bits b i : bm_ok b -> 0 <= i < bm_nbits b -> 0 <= i < 8 * zlen (bm_v b).
Proof.
  intros [Hn Hw _ _] Hi. rewrite Hw. unfold DIVROUNDUP.
  rewrite u32_small by word_lia. dlia.
Qed.

(** writing [c] into bit [i] of a well-formed bitmap *)
Lemma bm_ok_set b i x (c : bool) : bm_ok b -> 0 <= i < bm_nbits b -> byte_ok x ->
  (forall k, 0 <= k -> Z.testbit x k =
     if decide (k = i mod 8) then c else Z.testbit (byte_at (bm_v b) (i / 8)) k) ->
  bm_ok (mk_bitmap (bm_nbits b) (<[Z.to_nat (i / 8) := x]> (bm_v b))) /\
  bm_set (mk_bitmap (bm_nbits b) (<[Z.to_nat (i / 8) := x]> (bm_v b))) =
  if c then {[i]} ∪ bm_set b else bm_set b ∖ {[i]}.
Proof.
  intros Hok Hi Hx Hk. pose proof (words_bits b i Hok Hi) as Hr.
  assert (Hbit : forall j, 0 <= j ->
    bit (<[Z.to_nat (i / 8) := x]> (bm_v b)) j = if decide (j = i) then c else bit (bm_v b) j).
  { intros j Hj. by apply bit_insert. }
  destruct Hok as [Hn Hw Hb Hl]. split.
  - split; simpl; [done| | |].
    + by rewrite zlen_insert.
    + by apply Forall_insert.
    + intros j Hj. rewrite zlen_insert in Hj.
      rewrite Hbit, decide_False by lia. by apply Hl.
  - apply set_eq. intros j. rewrite elem_of_bm_set. simpl.
    destruct c; rewrite ?elem_of_union, ?elem_of_difference, elem_of_bm_set, elem_of_singleton.
    all: destruct (Z.lt_ge_cases j 0); [split; [|intros []]; intuition lia|].
    all: rewrite Hbit by done; case_decide; subst; intuition done.
Qed.

Lemma bm_word b i : bm_ok b -> 0 <= i < bm_nbits b ->
  bm_v b !! Z.to_nat (i / 8) = Some (byte_at (bm_v b) (i / 8)) /\
  byte_ok (byte_at (bm_v b) (i / 8)).
Proof.
  intros Hok Hi. pose proof (words_bits b i Hok Hi). split.
  - apply byte_at_lookup. dlia.
  - apply byte_at_byte, Hok.
Qed.

(** ** The search of [bitmap_alloc] *)

Lemma scan_word_spec n o w : byte_ok w -> 0 <= o -> o + Z.of_nat n = 8 ->
  match scan_word n o w with
  | Some o' => o <= o' < 8 /\ Z.testbit w o' = false /\ forall k, o <= k < o' -> Z.testbit w k = true
  | None => forall k, o <= k < 8 -> Z.testbit w k = true
  end.
Proof.
  intros Hw. revert o. induction n as [|n IH]; intros o Ho Hn; simpl; [lia|].
  rewrite land_mask by lia. destruct (Z.testbit w o) eqn:E; simpl.
  - specialize (IH (o + 1) ltac:(lia) ltac:(lia)). destruct (scan_word n (o + 1) w) as [o'|].
    + destruct IH as (H1 & H2 & H3). split_and!; [lia|lia|done|].
      intros k Hk. destruct (decide (k = o)) as [->|]; [done|]. apply H3. lia.
    + intros k Hk. destruct (decide (k = o)) as [->|]; [done|]. apply IH. lia.
  - split_and!; [lia|lia|done|]. lia.
Qed.

Lemma scan_words_spec {S} (ws : list Z) ix (s : S) : Forall byte_ok ws ->
  exists r, scan_words (length ws) ix ws s = Val (r, s) /\
  match r with
  | Some (ix', o) => ix <= ix' < ix + zlen ws /\ 0 <= o < 8 /\
      bit ws (8 * (ix' - ix) + o) = false /\ forall j, 0 <= j < 8 * (ix' - ix) + o -> bit ws j = true
  | None => forall j, 0 <= j < 8 * zlen ws -> bit ws j = true
  end.
Proof.
  revert ix. induction ws as [|w ws IH]; intros ix Hf.
  { exists None. split; [done|]. rewrite zlen_length. simpl. lia. }
  apply Forall_cons in Hf as [Hw Hf].
  assert (Hhd : forall j, 0 <= j < 8 -> bit (w :: ws) j = Z.testbit w j).
  { intros j Hj. unfold bit. rewrite Z.div_small, Z.mod_small by done. done. }
  assert (Htl : forall j, 8 <= j -> bit (w :: ws) j = bit ws (j - 8)).
  { intros j Hj. unfold bit. rewrite !byte_at_default.
    replace (Z.to_nat (j / 8)) with (Datatypes.S (Z.to_nat ((j - 8) / 8))) by dlia. simpl.
    f_equal. dlia. }
  rewrite zlen_cons. pose proof (zlen_nonneg ws). cbn [length scan_words].
  destruct (w =? WORD_ALLBITS) eqn:E; cbn [negb].
  - apply Z.eqb_eq in E. subst w.
    destruct (IH (ix + 1) Hf) as (r & -> & Hr). exists r. split; [done|].
    destruct r as [[ix' o]|].
    + destruct Hr as (H1 & H2 & H3 & H4). split_and!; [lia|lia|lia|lia| |].
      * rewrite Htl by lia. rewrite <- H3. f_equal. lia.
      * intros j Hj. destruct (Z.lt_ge_cases j 8).
        -- rewrite Hhd by lia. apply allbits_testbit; lia.
        -- rewrite Htl by lia. apply H4. lia.
    + intros j Hj. destruct (Z.lt_ge_cases j 8).
      * rewrite Hhd by lia. apply allbits_testbit; lia.
      * rewrite Htl by lia. apply Hr. lia.
  - pose proof (scan_word_spec 8 0 w Hw ltac:(lia) ltac:(lia)) as Hs.
    destruct (scan_word 8 0 w) as [o|].
    + exists (Some (ix, o)). destruct Hs as (H1 & H2 & H3).
      split; [done|]. rewrite Z.sub_diag, Z.mul_0_r, Z.add_0_l.
      split_and!; [lia|lia|lia|lia| |]; [by rewrite Hhd by lia|].
      intros j Hj. rewrite Hhd by lia. by apply H3.
    + exfalso. apply Z.eqb_neq in E. by apply E, byte_full.
Qed.

(** ** Specifications of the operations *)

Lemma bitmap_alloc_spec b : bm_ok b ->
  wp bitmap_alloc b (fun '(rc, i) b' =>
    bm_ok b' /\ bm_nbits b' = bm_nbits b /\ zlen (bm_v b') = zlen (bm_v b) /\
    ((rc = 0 /\ 0 <= i < bm_nbits b /\ (i ∉ bm_set b) /\
      (forall j, 0 <= j < i -> j ∈ bm_set b) /\ bm_set b' = {[i]} ∪ bm_set b) \/
     (rc = - ENOSPC /\ b' = b /\ forall j, 0 <= j < bm_nbits b -> j ∈ bm_set b))).
Proof.
  intros Hok. pose proof Hok as [Hn Hw Hb Hl]. unfold bitmap_alloc. wsimpl.
  unfold BITS_PER_WORD. rewrite <- Hw, zlen_length, Nat2Z.id.
  destruct (scan_words_spec (bm_v b) 0 b Hb) as (r & Hr & Hs). eapply wp_val; [exact Hr|].
  destruct r as [[ix o]|].
  - destruct Hs as (H1 & H2 & H3 & H4). rewrite Z.sub_0_r in H3, H4.
    assert (Hi : 0 <= 8 * ix + o < bm_nbits b).
    { split; [lia|]. destruct (Z.lt_ge_cases (8 * ix + o) (bm_nbits b)); [done|].
      rewrite Hl in H3; [done|lia]. }
    assert (Hdiv : (8 * ix + o) / 8 = ix) by dlia. assert (Hmod : (8 * ix + o) mod 8 = o) by dlia.
    wsimpl.
    destruct (bm_word b _ Hok Hi) as [Hx Hxb]. rewrite Hdiv in Hx, Hxb.
    rewrite (alter_insert _ _ _ _ Hx). destruct (set_bit_byte _ o Hxb H2) as [Hy Hyb].
    replace (ix * 8 + o) with (8 * ix + o) by lia. rewrite u32_small by word_lia.
    destruct (bm_ok_set b (8 * ix + o) _ true Hok Hi Hy) as [Hok' Hset'].
    { intros k Hk. rewrite Hyb, Hdiv, Hmod by done. case_decide; case_bool_decide; done. }
    rewrite Hdiv in Hok', Hset'.
    apply wp_assert; [apply Z.ltb_lt; lia|]. wsimpl.
    split_and!; [done|done|apply zlen_insert|]. left. split_and!; [done|lia|lia| | |done].
    + rewrite elem_of_bm_set, H3. by intros [_ ?].
    + intros j Hj. rewrite elem_of_bm_set. split; [lia|]. by apply H4.
  - wsimpl. split_and!; try done. right. split_and!; try done.
    intros j Hj. rewrite elem_of_bm_set. split; [done|]. by apply Hs, words_bits.
Qed.

Lemma bitmap_mark_spec b i : bm_ok b -> 0 <= i < bm_nbits b -> i ∉ bm_set b ->
  wp (bitmap_mark i) b (fun _ b' =>
    bm_ok b' /\ bm_nbits b' = bm_nbits b /\ bm_set b' = {[i]} ∪ bm_set b).
Proof.
  intros Hok Hi Hni. destruct (bm_word b _ Hok Hi) as [Hx Hxb].
  unfold bitmap_mark, bitmap_translate, BITS_PER_WORD. wsimpl.
  apply wp_assert; [apply Z.ltb_lt; lia|]. wsimpl.
  eapply wp_deref; [done|]. wsimpl. rewrite land_mask by dlia.
  assert (Hbit : Z.testbit (byte_at (bm_v b) (i / 8)) (i mod 8) = false).
  { rewrite elem_of_bm_set in Hni. apply not_true_is_false. intros ?. apply Hni. done. }
  apply wp_assert; [by rewrite Hbit|]. wsimpl.
  destruct (set_bit_byte _ (i mod 8) Hxb ltac:(dlia)) as [Hy Hyb].
  destruct (bm_ok_set b i _ true Hok Hi Hy) as [Hok' Hset']; [|done].
  intros k Hk. rewrite Hyb by done. case_decide; case_bool_decide; done.
Qed.

Lemma bitmap_unmark_spec b i : bm_ok b -> i ∈ bm_set b ->
  wp (bitmap_unmark i) b (fun _ b' =>
    bm_ok b' /\ bm_nbits b' = bm_nbits b /\ zlen (bm_v b') = zlen (bm_v b) /\
    bm_set b' = bm_set b ∖ {[i]}).
Proof.
  intros Hok Hin. apply elem_of_bm_set in Hin as [Hi Hbit].
  destruct (bm_word b _ Hok Hi) as [Hx Hxb].
  unfold bitmap_unmark, bitmap_translate, BITS_PER_WORD. wsimpl.
  apply wp_assert; [apply Z.ltb_lt; lia|]. wsimpl.
  eapply wp_deref; [done|]. wsimpl. rewrite land_mask by dlia.
  apply wp_assert; [unfold bit in Hbit; by rewrite Hbit|]. wsimpl.
  destruct (clear_bit_byte _ (i mod 8) Hxb ltac:(dlia)) as [Hy Hyb].
  destruct (bm_ok_set b i _ false Hok Hi Hy) as [Hok' Hset'].
  { intros k Hk. rewrite Hyb by done. case_decide; case_bool_decide; done. }
  split_and!; [done|done|apply zlen_insert|done].
Qed.

Lemma bitmap_isset_spec b i : bm_ok b -> 0 <= i < bm_nbits b ->
  exists r, bitmap_isset i b = Val (r, b) /\ (r = 0 <-> i ∉ bm_set b).
Proof.
  intros Hok Hi. destruct (bm_word b _ Hok Hi) as [Hx Hxb].
  unfold bitmap_isset, bitmap_translate, BITS_PER_WORD, mbind, M_bind, get.
  rewrite Hx. eexists. split; [done|]. rewrite elem_of_bm_set.
  pose proof (land_mask (byte_at (bm_v b) (i / 8)) (i mod 8) ltac:(dlia)) as Hm.
  unfold bit. destruct (Z.testbit _ _); simpl in Hm;
    [apply Z.eqb_neq in Hm|apply Z.eqb_eq in Hm]; intuition done.
Qed.

Lemma count_from_spec b n i nr : bm_ok b -> 0 <= i -> i + Z.of_nat n <= bm_nbits b ->
  count_from n i nr b =
  Val (nr + Z.of_nat (length (filter (fun j => bit (bm_v b) j = true) (seqZ i (Z.of_nat n)))), b).
Proof.
  intros Hok. revert i nr. induction n as [|n IH]; intros i nr Hi Hn.
  { change (Z.of_nat 0) with 0. rewrite (seqZ_nil i 0) by lia.
    unfold count_from, mret, M_ret. simpl. do 2 f_equal. lia. }
  cbn [count_from]. unfold mbind at 1, M_bind.
  destruct (bitmap_isset_spec b i Hok ltac:(lia)) as (r & -> & Hr).
  rewrite IH by lia. do 2 f_equal.
  rewrite (seqZ_cons i (Z.of_nat (S n))) by lia.
  replace (Z.succ i) with (i + 1) by lia. replace (Z.pred (Z.of_nat (S n))) with (Z.of_nat n) by lia.
  rewrite filter_cons. rewrite elem_of_bm_set in Hr.
  destruct (Z.eqb_spec r 0) as [E|E]; simpl.
  - rewrite decide_False; [done|]. intros Hb. apply Hr in E. apply E. split; [lia|done].
  - rewrite decide_True; [simpl; lia|].
    destruct (bit (bm_v b) i) eqn:Eb; [done|]. exfalso. apply E, Hr. by intros [_ ?].
Qed.

Lemma bitmap_nr_allocated_spec b : bm_ok b ->
  bitmap_nr_allocated b = Val (Z.of_nat (size (bm_set b)), b).
Proof.
  intros Hok. pose proof (bm_nbits_ok b Hok) as Hn. unfold bitmap_nr_allocated, mbind, M_bind, get.
  rewrite count_from_spec by (done || lia). do 3 f_equal. rewrite Z2Nat.id by lia.
  unfold bm_set. rewrite size_list_to_set; [lia|]. apply NoDup_filter, NoDup_seqZ.
Qed.

(** ** Creation *)

Lemma mark_leftover_spec n j ix ws : 0 <= j -> j + Z.of_nat n = 8 -> 0 <= ix < zlen ws ->
  Forall byte_ok ws ->
  zlen (mark_leftover n j ix ws) = zlen ws /\ Forall byte_ok (mark_leftover n j ix ws) /\
  forall i, 0 <= i -> bit (mark_leftover n j ix ws) i =
    (bool_decide (i / 8 = ix /\ j <= i mod 8) || bit ws i).
Proof.
  revert j ws. induction n as [|n IH]; intros j ws Hj Hn Hix Hf; simpl.
  { split_and!; [done|done|]. intros i Hi. rewrite bool_decide_eq_false_2; [done|]. dlia. }
  pose proof (byte_at_lookup ws ix Hix) as Hx. rewrite (alter_insert _ _ _ _ Hx).
  pose proof (byte_at_byte ws ix Hf) as Hxb.
  destruct (set_bit_byte _ j Hxb ltac:(lia)) as [Hy Hyb].
  destruct (IH (j + 1) (<[Z.to_nat ix := u8 (Z.lor (byte_at ws ix) (u8 (Z.shiftl 1 j)))]> ws))
    as (H1 & H2 & H3); [lia|lia|by rewrite zlen_insert|by apply Forall_insert|].
  rewrite zlen_insert in H1. split_and!; [done|done|]. intros i Hi.
  rewrite H3 by done. unfold bit at 1. rewrite byte_at_insert by dlia.
  destruct (decide (i / 8 = ix)) as [<-|Hne].
  - rewrite Hyb by dlia. fold (bit ws i).
    repeat case_bool_decide; simpl; try done; exfalso; dlia.
  - fold (bit ws i). by rewrite !bool_decide_eq_false_2 by (intros []; done).
Qed.

(** A created bitmap is well formed and empty, whatever the number of bits. *)
Lemma bitmap_create_spec {S} (malloc : M S bool) nb (s s1 s2 : S) :
  0 <= nb < 2 ^ 32 - 8 -> malloc s = Val (true, s1) -> malloc s1 = Val (true, s2) ->
  wp (bitmap_create malloc nb) s (fun '(rc, ob) s' => rc = 0 /\ s' = s2 /\
    exists b, ob = Some b /\ bm_ok b /\ bm_nbits b = nb /\ bm_set b = ∅).
Proof.
  intros Hn Hm1 Hm2. unfold bitmap_create, BITS_PER_WORD.
  assert (Hw : DIVROUNDUP nb 8 = (nb + 7) / 8).
  { unfold DIVROUNDUP. rewrite u32_small by word_lia. f_equal. lia. }
  rewrite Hw. wsimpl. eapply wp_val; [exact Hm1|]. cbn [negb]. wsimpl. eapply wp_val; [exact Hm2|]. simpl.
  assert (Hz : forall i, bit (zeros ((nb + 7) / 8)) i = false).
  { intros i. unfold bit. rewrite byte_at_zeros. apply Z.bits_0. }
  assert (Hzb : Forall byte_ok (zeros ((nb + 7) / 8))).
  { apply Forall_zeros. unfold byte_ok. lia. }
  assert (Hempty : forall ws, (forall i, 0 <= i < nb -> bit ws i = false) ->
    bm_set (mk_bitmap nb ws) = ∅).
  { intros ws Hws. apply set_eq. intros i. rewrite elem_of_bm_set. simpl.
    split; [|set_solver]. intros [? Hb]. by rewrite Hws in Hb. }
  wcase.
  - apply Z.ltb_lt in Heqb.
    rewrite (u32_small ((nb + 7) / 8 - 1)) by (word_lia || dlia).
    rewrite u32_small by dlia. wsimpl.
    apply wp_assert; [apply Z.eqb_eq; dlia|]. wsimpl.
    apply wp_assert; [apply andb_true_iff; split; apply Z.ltb_lt; dlia|]. wsimpl.
    edestruct (mark_leftover_spec (Z.to_nat (8 - (nb - ((nb + 7) / 8 - 1) * 8)))
      (nb - ((nb + 7) / 8 - 1) * 8) ((nb + 7) / 8 - 1) (zeros ((nb + 7) / 8))) as (H1 & H2 & H3);
      [dlia|dlia|rewrite zlen_zeros; dlia|done|].
    rewrite zlen_zeros in H1 by dlia.
    do 2 (split; [done|]). eexists. split; [done|]. split_and!; [|done|].
    + split; simpl; [done|by rewrite H1, Hw|done|]. rewrite H1. intros i Hi.
      rewrite H3 by lia. rewrite bool_decide_eq_true_2; [done|]. dlia.
    + apply Hempty. intros i Hi. rewrite H3, Hz by lia.
      rewrite bool_decide_eq_false_2; [done|]. dlia.
  - apply Z.ltb_ge in Heqb. wsimpl. do 2 (split; [done|]). eexists. split; [done|].
    split_and!; [|done|by apply Hempty].
    split; simpl; rewrite ?zlen_zeros by dlia; [done|by rewrite Hw|done|dlia].
Qed.

(** bitmaps without leftover bits are determined, word by word, by their sets *)
Lemma bm_word_ext b b' j : bm_ok b -> bm_ok b' -> bm_nbits b' = bm_nbits b ->
  zlen (bm_v b') = zlen (bm_v b) -> bm_nbits b = 8 * zlen (bm_v b) -> 0 <= j < zlen (bm_v b) ->
  (forall i, i / 8 = j -> i ∈ bm_set b' <-> i ∈ bm_set b) ->
  byte_at (bm_v b') j = byte_at (bm_v b) j.
Proof.
  intros Hok Hok' Hn Hl H8 Hj Hext. apply Z.bits_inj'. intros k Hk.
  pose proof (byte_at_byte _ j (bm_bytes b Hok)) as Hb.
  pose proof (byte_at_byte _ j (bm_bytes b' Hok')) as Hb'.
  apply byte_bits in Hb as [_ Hb]. apply byte_bits in Hb' as [_ Hb'].
  destruct (Z.lt_ge_cases k 8); [|by rewrite Hb, Hb'].
  specialize (Hext (8 * j + k) ltac:(dlia)). rewrite !elem_of_bm_set in Hext. unfold bit in Hext.
  replace ((8 * j + k) / 8) with j in Hext by dlia.
  replace ((8 * j + k) mod 8) with k in Hext by dlia.
  destruct (Z.testbit (byte_at (bm_v b') j) k), (Z.testbit (byte_at (bm_v b) j) k);
    try done; exfalso; intuition lia.
Qed.

(** a set of bits is no larger than the bitmap *)
Lemma bm_set_size b : 0 <= bm_nbits b -> Z.of_nat (size (bm_set b)) <= bm_nbits b.
Proof.
  intros Hn. assert (Hs : (size (bm_set b) <= size (list_to_set (C := gset Z) (seqZ 0 (bm_nbits b))))%nat).
  { apply subseteq_size. intros i. rewrite elem_of_bm_set, elem_of_list_to_set, elem_of_seqZ. lia. }
  rewrite size_list_to_set, length_seqZ in Hs by apply NoDup_seqZ. lia.
Qed.

Lemma bm_set_full b : 0 <= bm_nbits b -> (forall j, 0 <= j < bm_nbits b -> j ∈ bm_set b) ->
  Z.of_nat (size (bm_set b)) = bm_nbits b.
Proof.
  intros Hn Hf. pose proof (bm_set_size b Hn).
  assert (Hs : (size (list_to_set (C := gset Z) (seqZ 0 (bm_nbits b))) <= size (bm_set b))%nat).
  { apply subseteq_size. intros i. rewrite elem_of_list_to_set, elem_of_seqZ. intros. apply Hf. lia. }
  rewrite size_list_to_set, length_seqZ in Hs by apply NoDup_seqZ. lia.
Qed.
