(* ===== verification/Block.v ===== *)
(** * The block device (fs/block.c)

    The device is a file of the host, read and written in whole blocks through
    stdio.  [d_blocks] holds the blocks written so far; a block inside the file
    that was never written is a hole and reads as zeros; [d_nr] is the length of
    the file in blocks, [d_cap] the length at which the host refuses to grow it,
    and [d_pos] the file position in bytes. *)

From stdpp Require Import base gmap list.
From Stdlib Require Import ZArith Lia.
From S2P Require Import Prelude Words.
#[local] Open Scope Z_scope.

Definition BLOCK_SIZE : Z := 8192.

Record device : Type := mk_device {
  d_blocks : gmap Z (list Z);
  d_nr : Z;
  d_cap : Z;
  d_pos : Z;
}.

(** ** <stdio.h> on the device

    Positions are multiples of the block size: the program seeks nowhere else. *)

Definition ftell : M device Z := gets d_pos.

Definition fseek (off : Z) : M device Z :=
  if off <? 0 then mret (-1)
  else modify (fun d => mk_device (d_blocks d) (d_nr d) (d_cap d) off);; mret 0.

Definition blk (d : device) (b : Z) : list Z :=
  default (zeros BLOCK_SIZE) (d_blocks d !! b).

Fixpoint put_blocks (k : nat) (b : Z) (buf : list Z) (m : gmap Z (list Z)) : gmap Z (list Z) :=
  match k with
  | O => m
  | S k' => put_blocks k' (b + 1) (drop (Z.to_nat BLOCK_SIZE) buf)
              (<[b := take (Z.to_nat BLOCK_SIZE) buf]> m)
  end.

Fixpoint get_blocks (k : nat) (b : Z) (d : device) : list Z :=
  match k with
  | O => []
  | S k' => blk d b ++ get_blocks k' (b + 1) d
  end.

(** the number of blocks transferred *)
Definition fwrite (buf : list Z) (nr : Z) : M device Z :=
  d ← get;
  if negb (in_buf buf 0 (nr * BLOCK_SIZE) && (d_pos d mod BLOCK_SIZE =? 0)) then stop Undefined else
  let start := d_pos d / BLOCK_SIZE in
  let k := Z.min nr (Z.max 0 (d_cap d - start)) in
  modify (fun d => mk_device (put_blocks (Z.to_nat k) start buf (d_blocks d))
    (if 0 <? k then Z.max (d_nr d) (start + k) else d_nr d) (d_cap d) (d_pos d + k * BLOCK_SIZE));;
  mret k.

Definition fread (nr : Z) : M device (Z * list Z) :=
  d ← get;
  if negb (d_pos d mod BLOCK_SIZE =? 0) then stop Undefined else
  let start := d_pos d / BLOCK_SIZE in
  let k := Z.min nr (Z.max 0 (d_nr d - start)) in
  modify (fun d => mk_device (d_blocks d) (d_nr d) (d_cap d) (d_pos d + k * BLOCK_SIZE));;
  mret (k, get_blocks (Z.to_nat k) start d).

(** ** block.c *)

Definition write_blocks (blocks : list Z) (start nr : Z) : M device unit :=
  pos ← ftell;
  if pos <? 0 then stop Exited else
  r ← fseek (start * BLOCK_SIZE);
  if r <? 0 then stop Exited else
  n ← fwrite blocks nr;
  if negb (n =? nr) then stop Exited else
  r ← fseek pos;
  if r <? 0 then stop Exited else mret tt.

Definition zero : list Z := zeros BLOCK_SIZE.

Definition zero_blocks (start nr : Z) : M device unit :=
  for_ (Z.to_nat nr) 0 (fun i => write_blocks zero (start + i) 1).

(** returns the bytes read into [blocks] *)
Definition read_blocks (start nr : Z) : M device (list Z) :=
  pos ← ftell;
  if pos <? 0 then stop Exited else
  r ← fseek (start * BLOCK_SIZE);
  if r <? 0 then stop Exited else
  '(n, blocks) ← fread nr;
  if negb (n =? nr) then stop Exited else
  r ← fseek pos;
  if r <? 0 then stop Exited else mret blocks.

(** ** Well-formed devices and their updates *)

Record dev_ok (d : device) : Prop := {
  dev_pos : 0 <= d_pos d;
  dev_len : map_Forall (fun _ l => zlen l = BLOCK_SIZE) (d_blocks d);
  dev_nr : 0 <= d_nr d <= d_cap d;
}.

(** the device after [k] blocks of [buf] were written from block [b] *)
Definition dev_put (k : nat) (b : Z) (buf : list Z) (d : device) : device :=
  mk_device (put_blocks k b buf (d_blocks d)) (Z.max (d_nr d) (b + Z.of_nat k)) (d_cap d) (d_pos d).
(** ... after one block was written *)
Definition dev_write (b : Z) (l : list Z) (d : device) : device :=
  mk_device (<[b := l]> (d_blocks d)) (Z.max (d_nr d) (b + 1)) (d_cap d) (d_pos d).

Lemma zlen_blk d b : dev_ok d -> zlen (blk d b) = BLOCK_SIZE.
Proof.
  intros Hd. unfold blk. destruct (d_blocks d !! b) eqn:E; simpl.
  - by eapply (dev_len d Hd).
  - by rewrite zlen_zeros.
Qed.

Lemma blk_dev_write d b l c : blk (dev_write b l d) c = if decide (c = b) then l else blk d c.
Proof.
  unfold blk, dev_write; simpl. case_decide as E.
  - subst. by rewrite lookup_insert_eq.
  - by rewrite lookup_insert_ne.
Qed.

Lemma dev_ok_write d b l :
  dev_ok d -> 0 <= b < d_cap d -> zlen l = BLOCK_SIZE -> dev_ok (dev_write b l d).
Proof.
  intros [Hp Hl Hn] Hb Hz. split; simpl; [done| |lia].
  by apply map_Forall_insert_2.
Qed.

Lemma write_blocks_at d buf start nr : 0 <= d_pos d ->
  0 <= start -> 0 < nr -> start + nr <= d_cap d -> nr * BLOCK_SIZE <= zlen buf ->
  write_blocks buf start nr d = Val (tt, dev_put (Z.to_nat nr) start buf d).
Proof.
  intros Hp Hs Hnr Hc Hb. unfold write_blocks, ftell, gets, mbind, M_bind.
  rewrite (proj2 (Z.ltb_ge (d_pos d) 0)) by done. unfold fseek.
  rewrite (proj2 (Z.ltb_ge (start * BLOCK_SIZE) 0)) by (unfold BLOCK_SIZE; lia).
  unfold modify, mbind, M_bind, mret, M_ret. change (0 <? 0) with false. cbn [negb].
  unfold fwrite, get, modify, mbind, M_bind, mret, M_ret; cbn [d_pos d_cap d_nr d_blocks].
  rewrite in_buf_true by (unfold BLOCK_SIZE in *; lia).
  rewrite Z.mod_mul, Z.div_mul by done. cbn [negb andb Z.eqb].
  replace (Z.min nr (Z.max 0 (d_cap d - start))) with nr by lia.
  rewrite Z.eqb_refl. cbn [negb].
  rewrite (proj2 (Z.ltb_ge (d_pos d) 0)) by done. cbn [d_blocks d_nr d_cap].
  rewrite (proj2 (Z.ltb_lt 0 nr)) by lia. change (0 <? 0) with false. cbv iota.
  unfold dev_put. by rewrite Z2Nat.id by lia.
Qed.

Lemma write_blocks_spec d buf start nr : dev_ok d ->
  0 <= start -> 0 < nr -> start + nr <= d_cap d -> nr * BLOCK_SIZE <= zlen buf ->
  write_blocks buf start nr d = Val (tt, dev_put (Z.to_nat nr) start buf d).
Proof. intros [Hp _ _]. by apply write_blocks_at. Qed.

Lemma read_blocks_spec d start nr : dev_ok d ->
  0 <= start -> 0 < nr -> start + nr <= d_nr d ->
  read_blocks start nr d = Val (get_blocks (Z.to_nat nr) start d, d).
Proof.
  intros [Hp Hl Hn] Hs Hnr Hc. unfold read_blocks, ftell, gets, mbind, M_bind.
  rewrite (proj2 (Z.ltb_ge (d_pos d) 0)) by done. unfold fseek.
  rewrite (proj2 (Z.ltb_ge (start * BLOCK_SIZE) 0)) by (unfold BLOCK_SIZE; lia).
  unfold modify, mbind, M_bind, mret, M_ret. change (0 <? 0) with false. cbn [negb].
  unfold fread, get, modify, mbind, M_bind, mret, M_ret; cbn [d_pos d_cap d_nr d_blocks].
  rewrite Z.mod_mul, Z.div_mul by done. cbn [negb Z.eqb].
  replace (Z.min nr (Z.max 0 (d_nr d - start))) with nr by lia.
  rewrite Z.eqb_refl. cbn [negb].
  rewrite (proj2 (Z.ltb_ge (d_pos d) 0)) by done. cbn [d_blocks d_nr d_cap].
  change (0 <? 0) with false. cbv iota.
  cbv beta. destruct d as [m n c p]; cbn [d_blocks d_nr d_cap d_pos]. do 2 f_equal.
  generalize (Z.to_nat nr) (start * BLOCK_SIZE). intros k q. clear. revert start.
  induction k as [|k IH]; intros start; simpl; [done|]. by rewrite IH.
Qed.

(** one block at a time, the common case *)
Lemma write_block_spec d buf start : dev_ok d ->
  0 <= start < d_cap d -> zlen buf = BLOCK_SIZE ->
  write_blocks buf start 1 d = Val (tt, dev_write start buf d).
Proof.
  intros Hd Hs Hb. rewrite write_blocks_spec by (done || lia). do 2 f_equal.
  unfold dev_put, dev_write. change (Z.to_nat 1) with 1%nat. simpl put_blocks. f_equal.
  rewrite zlen_length in Hb. rewrite take_ge; [done|lia].
Qed.

Lemma read_block_spec d start : dev_ok d -> 0 <= start < d_nr d ->
  read_blocks start 1 d = Val (blk d start, d).
Proof.
  intros Hd Hs. rewrite read_blocks_spec by (done || lia). do 2 f_equal.
  change (Z.to_nat 1) with 1%nat. simpl. apply app_nil_r.
Qed.

(** [zero_blocks] zeroes exactly its range *)
Lemma zero_blocks_spec d start nr : dev_ok d ->
  0 <= start -> 0 <= nr -> start + nr <= d_cap d ->
  wp (zero_blocks start nr) d (fun _ d' =>
    dev_ok d' /\ d_cap d' = d_cap d /\ d_pos d' = d_pos d /\
    (0 < nr -> d_nr d' = Z.max (d_nr d) (start + nr)) /\
    forall c, blk d' c = if decide (start <= c < start + nr) then zero else blk d c).
Proof.
  intros Hd Hs Hnr Hc. unfold zero_blocks.
  apply (wp_for (fun i d' => dev_ok d' /\ d_cap d' = d_cap d /\ d_pos d' = d_pos d /\
    (0 < i -> d_nr d' = Z.max (d_nr d) (start + i)) /\ (i = 0 -> d_nr d' = d_nr d) /\
    forall c, blk d' c = if decide (start <= c < start + i) then zero else blk d c)).
  - split_and!; try done; try lia. intros c. by rewrite decide_False by lia.
  - intros i d1 Hi (Hd1 & Hc1 & Hp1 & Hn1 & Hz1 & Hb1).
    eapply wp_val; [apply write_block_spec; [done|lia|by apply zlen_zeros]|].
    split_and!; [|done|done| |lia|].
    + apply dev_ok_write; [done|lia|by apply zlen_zeros].
    + intros _. simpl. destruct (decide (i = 0)); [rewrite Hz1 by done|rewrite Hn1 by lia]; lia.
    + intros c. rewrite blk_dev_write. destruct (decide (c = start + i)) as [->|].
      * by rewrite decide_True by lia.
      * rewrite Hb1. by repeat case_decide; try lia.
  - intros d1 (? & ? & ? & Hn1 & _ & ?). rewrite Z.add_0_l, Z2Nat.id in * by lia. done.
Qed.

Lemma zero_block_spec d b : dev_ok d -> 0 <= b < d_cap d ->
  zero_blocks b 1 d = Val (tt, dev_write b zero d).
Proof.
  intros Hd Hb. unfold zero_blocks. change (Z.to_nat 1) with 1%nat. simpl.
  unfold mbind, M_bind. rewrite Z.add_0_r.
  by rewrite write_block_spec by (done || by apply zlen_zeros).
Qed.
