(* ===== verification/FsState.v ===== *)
(** * The file-system state (fs/testfs.h, super.h, inode.h)

    The on-disk structures and their byte layout, the in-memory super block and
    inodes, and the state every operation of the file system runs on.  There is
    one super block, so the [sb] arguments and the [in->sb] field are left out;
    [struct inode *] values are the keys of [fs_heap], where a missing key is a
    freed or invalid pointer. *)

From stdpp Require Import base gmap list strings.
From Stdlib Require Import ZArith Lia.
From S2P Require Import Prelude Words Bitmap Block.
#[local] Open Scope Z_scope.

(** ** testfs.h *)
Definition SUPER_BLOCK_SIZE : Z := 1.
Definition INODE_FREEMAP_SIZE : Z := 1.
Definition BLOCK_FREEMAP_SIZE : Z := 16.
Definition NR_INODE_BLOCKS : Z := 128.

(** ** super.h: the super block on disk *)
Record dsuper_block : Type := mk_dsuper {
  inode_freemap_start : Z;
  block_freemap_start : Z;
  inode_blocks_start : Z;
  data_blocks_start : Z;
  used_inode_count : Z;
  used_block_count : Z;
  max_fs_blocks : Z;
}.

Definition sizeof_dsuper : Z := 32.

Definition dsuper_bytes (s : dsuper_block) : list Z :=
  le_bytes 4 (inode_freemap_start s) ++ le_bytes 4 (block_freemap_start s) ++
  le_bytes 4 (inode_blocks_start s) ++ le_bytes 4 (data_blocks_start s) ++
  le_bytes 4 (used_inode_count s) ++ le_bytes 4 (used_block_count s) ++
  le_bytes 8 (max_fs_blocks s).

Definition dsuper_of (l : list Z) : dsuper_block := {|
  inode_freemap_start := get_u32_at l 0;
  block_freemap_start := get_u32_at l 4;
  inode_blocks_start := get_u32_at l 8;
  data_blocks_start := get_u32_at l 12;
  used_inode_count := get_u32_at l 16;
  used_block_count := get_u32_at l 20;
  max_fs_blocks := get_u64_at l 24;
|}.

(** ** inode.h *)
Definition I_NONE : Z := 0.
Definition I_FILE : Z := 1.
Definition I_DIR : Z := 2.
Definition NR_DIRECT_BLOCKS : Z := 10.
Definition NR_INDIRECT_BLOCKS : Z := BLOCK_SIZE / 4.

(** the inode structure on disk *)
Record dinode : Type := mk_dinode {
  i_type : Z;
  i_block_nr : list Z;    (* NR_DIRECT_BLOCKS of them *)
  i_indirect : Z;
  i_dindirect : Z;
  block_count : Z;
  i_size : Z;
}.

Definition sizeof_dinode : Z := 64.
Definition INODES_PER_BLOCK : Z := BLOCK_SIZE / sizeof_dinode.

Definition dinode_bytes (d : dinode) : list Z :=
  le_bytes 4 (i_type d) ++ concat (map (le_bytes 4) (i_block_nr d)) ++
  le_bytes 4 (i_indirect d) ++ le_bytes 4 (i_dindirect d) ++
  le_bytes 4 (block_count d) ++ le_bytes 8 (i_size d).

Definition dinode_of (l : list Z) : dinode := {|
  i_type := get_s32_at l 0;
  i_block_nr := map (fun i => get_s32_at l (4 + 4 * i)) [0; 1; 2; 3; 4; 5; 6; 7; 8; 9];
  i_indirect := get_s32_at l 44;
  i_dindirect := get_s32_at l 48;
  block_count := get_s32_at l 52;
  i_size := get_s64_at l 56;
|}.

(** [bzero(&in->in, sizeof(struct dinode))] *)
Definition dinode_zero : dinode := mk_dinode 0 (replicate 10 0) 0 0 0 0.

Definition set_i_type (x : Z) (d : dinode) : dinode :=
  mk_dinode x (i_block_nr d) (i_indirect d) (i_dindirect d) (block_count d) (i_size d).
Definition set_i_block_nr (i x : Z) (d : dinode) : dinode :=
  mk_dinode (i_type d) (<[Z.to_nat i := x]> (i_block_nr d)) (i_indirect d) (i_dindirect d)
    (block_count d) (i_size d).
Definition set_i_indirect (x : Z) (d : dinode) : dinode :=
  mk_dinode (i_type d) (i_block_nr d) x (i_dindirect d) (block_count d) (i_size d).
Definition set_i_dindirect (x : Z) (d : dinode) : dinode :=
  mk_dinode (i_type d) (i_block_nr d) (i_indirect d) x (block_count d) (i_size d).
Definition set_block_count (x : Z) (d : dinode) : dinode :=
  mk_dinode (i_type d) (i_block_nr d) (i_indirect d) (i_dindirect d) x (i_size d).
Definition set_i_size (x : Z) (d : dinode) : dinode :=
  mk_dinode (i_type d) (i_block_nr d) (i_indirect d) (i_dindirect d) (block_count d) x.

Definition I_FLAGS_DIRTY : Z := 1.

(** the inode structure in memory *)
Record inode : Type := mk_inode {
  in_ : dinode;
  i_flags : Z;
  i_nr : Z;
  i_count : Z;
}.

Definition set_in (f : dinode -> dinode) (i : inode) : inode :=
  mk_inode (f (in_ i)) (i_flags i) (i_nr i) (i_count i).
Definition set_i_flags (x : Z) (i : inode) : inode :=
  mk_inode (in_ i) x (i_nr i) (i_count i).
Definition set_i_count (x : Z) (i : inode) : inode :=
  mk_inode (in_ i) (i_flags i) (i_nr i) x.
(** [in->i_flags |= I_FLAGS_DIRTY], [in->i_flags &= ~I_FLAGS_DIRTY] *)
Definition mark_dirty (i : inode) : inode := set_i_flags (Z.lor (i_flags i) I_FLAGS_DIRTY) i.
Definition clear_dirty (i : inode) : inode :=
  set_i_flags (Z.land (i_flags i) (Z.lnot I_FLAGS_DIRTY)) i.
Definition is_dirty (i : inode) : bool := negb (Z.land (i_flags i) I_FLAGS_DIRTY =? 0).

(** ** The state *)

(** what the program prints *)
Inductive event : Type :=
  | OutStr (s : string)
  | OutBytes (l : list Z)
  | OutDec (z : Z).

Abbreviation ptr := Z (only parsing).

Record fs : Type := mk_fs {
  fs_dev : device;
  fs_sb : dsuper_block;
  fs_imap : option bitmap;              (* sb->inode_freemap, None is NULL *)
  fs_bmap : option bitmap;              (* sb->block_freemap *)
  fs_hash : option (list (list ptr));   (* inode_hash_table *)
  fs_heap : gmap ptr inode;
  fs_next : ptr;                        (* the next address calloc returns *)
  fs_host : list bool;                  (* outcomes of the next host calls; then they succeed *)
  fs_junk : Z;                          (* what an uninitialised byte reads as *)
  fs_errno : Z;                         (* the errno a failing host call leaves *)
  fs_out : list event;                  (* stdout, latest first *)
}.

Definition with_dev (x : device) (w : fs) : fs :=
  mk_fs x (fs_sb w) (fs_imap w) (fs_bmap w) (fs_hash w) (fs_heap w) (fs_next w) (fs_host w)
    (fs_junk w) (fs_errno w) (fs_out w).
Definition with_sb (x : dsuper_block) (w : fs) : fs :=
  mk_fs (fs_dev w) x (fs_imap w) (fs_bmap w) (fs_hash w) (fs_heap w) (fs_next w) (fs_host w)
    (fs_junk w) (fs_errno w) (fs_out w).
Definition with_imap (x : option bitmap) (w : fs) : fs :=
  mk_fs (fs_dev w) (fs_sb w) x (fs_bmap w) (fs_hash w) (fs_heap w) (fs_next w) (fs_host w)
    (fs_junk w) (fs_errno w) (fs_out w).
Definition with_bmap (x : option bitmap) (w : fs) : fs :=
  mk_fs (fs_dev w) (fs_sb w) (fs_imap w) x (fs_hash w) (fs_heap w) (fs_next w) (fs_host w)
    (fs_junk w) (fs_errno w) (fs_out w).
Definition with_hash (x : option (list (list ptr))) (w : fs) : fs :=
  mk_fs (fs_dev w) (fs_sb w) (fs_imap w) (fs_bmap w) x (fs_heap w) (fs_next w) (fs_host w)
    (fs_junk w) (fs_errno w) (fs_out w).
Definition with_heap (x : gmap ptr inode) (w : fs) : fs :=
  mk_fs (fs_dev w) (fs_sb w) (fs_imap w) (fs_bmap w) (fs_hash w) x (fs_next w) (fs_host w)
    (fs_junk w) (fs_errno w) (fs_out w).
Definition with_next (x : ptr) (w : fs) : fs :=
  mk_fs (fs_dev w) (fs_sb w) (fs_imap w) (fs_bmap w) (fs_hash w) (fs_heap w) x (fs_host w)
    (fs_junk w) (fs_errno w) (fs_out w).
Definition with_host (x : list bool) (w : fs) : fs :=
  mk_fs (fs_dev w) (fs_sb w) (fs_imap w) (fs_bmap w) (fs_hash w) (fs_heap w) (fs_next w) x
    (fs_junk w) (fs_errno w) (fs_out w).
Definition with_out (x : list event) (w : fs) : fs :=
  mk_fs (fs_dev w) (fs_sb w) (fs_imap w) (fs_bmap w) (fs_hash w) (fs_heap w) (fs_next w) (fs_host w)
    (fs_junk w) (fs_errno w) x.

(** a step of block.c on the device of the file system *)
Definition on_dev {A} (m : M device A) : M fs A := zoom fs_dev with_dev m.
Definition read_block (b : Z) : M fs (list Z) := on_dev (read_blocks b 1).
Definition write_block (l : list Z) (b : Z) : M fs unit := on_dev (write_blocks l b 1).

(** a call of the host ([malloc], [calloc], [fopen], ...) succeeds or not;
    [uninit n] is the content of [n] fresh bytes *)
Definition host_ok : M fs bool :=
  w ← get;
  match fs_host w with
  | [] => mret true
  | b :: l => modify (with_host l);; mret b
  end.
Definition uninit (n : Z) : M fs (list Z) :=
  w ← get; mret (replicate (Z.to_nat n) (fs_junk w)).

Definition print (e : event) : M fs unit := modify (fun w => with_out (e :: fs_out w) w).

(** dereferencing and updating an in-memory inode *)
Definition get_inode (p : ptr) : M fs inode := w ← get; deref (fs_heap w !! p).
Definition upd_inode (p : ptr) (f : inode -> inode) : M fs unit :=
  i ← get_inode p; modify (fun w => with_heap (<[p := f i]> (fs_heap w)) w).

(** ** Steps of the state *)

Lemma on_dev_val {A} (m : M device A) w a d :
  m (fs_dev w) = Val (a, d) -> on_dev m w = Val (a, with_dev d w).
Proof. unfold on_dev, zoom. by intros ->. Qed.

Lemma with_dev_id w : with_dev (fs_dev w) w = w.
Proof. by destruct w. Qed.

Lemma read_block_val w b : dev_ok (fs_dev w) -> 0 <= b < d_nr (fs_dev w) ->
  read_block b w = Val (blk (fs_dev w) b, w).
Proof.
  intros. unfold read_block. rewrite (on_dev_val _ _ _ _ (read_block_spec _ _ ltac:(done) ltac:(done))).
  by rewrite with_dev_id.
Qed.

Lemma write_block_val w l b : dev_ok (fs_dev w) -> 0 <= b < d_cap (fs_dev w) -> zlen l = BLOCK_SIZE ->
  write_block l b w = Val (tt, with_dev (dev_write b l (fs_dev w)) w).
Proof. intros. by apply on_dev_val, write_block_spec. Qed.

Lemma wp_read_block w b Q : dev_ok (fs_dev w) -> 0 <= b < d_nr (fs_dev w) ->
  Q (blk (fs_dev w) b) w -> wp (read_block b) w Q.
Proof. intros. eapply wp_val; [by apply read_block_val|done]. Qed.

Lemma wp_write_block w l b (Q : unit -> fs -> Prop) :
  dev_ok (fs_dev w) -> 0 <= b < d_cap (fs_dev w) -> zlen l = BLOCK_SIZE ->
  Q tt (with_dev (dev_write b l (fs_dev w)) w) -> wp (write_block l b) w Q.
Proof. intros. eapply wp_val; [by apply write_block_val|done]. Qed.

Lemma wp_get_inode w p i (Q : inode -> fs -> Prop) :
  fs_heap w !! p = Some i -> Q i w -> wp (get_inode p) w Q.
Proof. intros Hi HQ. unfold get_inode. wsimpl. by eapply wp_deref. Qed.

Lemma wp_upd_inode w p f i (Q : unit -> fs -> Prop) :
  fs_heap w !! p = Some i -> Q tt (with_heap (<[p := f i]> (fs_heap w)) w) ->
  wp (upd_inode p f) w Q.
Proof. intros Hi HQ. unfold upd_inode. wsimpl. eapply wp_get_inode; [done|]. by wsimpl. Qed.

Lemma wp_host_ok w (Q : bool -> fs -> Prop) : fs_host w = [] -> Q true w -> wp host_ok w Q.
Proof. intros Hm HQ. unfold host_ok. wsimpl. by rewrite Hm. Qed.

(** ** Layout: what is written is what is read back *)

Definition u32_ok (z : Z) : Prop := 0 <= z < 4294967296.
Definition s32_ok (z : Z) : Prop := -2147483648 <= z < 2147483648.
Definition s64_ok (z : Z) : Prop := -9223372036854775808 <= z < 9223372036854775808.

Record dsuper_ok (s : dsuper_block) : Prop := {
  dsuper_u32 : Forall u32_ok [inode_freemap_start s; block_freemap_start s; inode_blocks_start s;
                 data_blocks_start s; used_inode_count s; used_block_count s];
  dsuper_u64 : 0 <= max_fs_blocks s < 18446744073709551616;
}.

Record dinode_ok (d : dinode) : Prop := {
  dinode_len : length (i_block_nr d) = 10%nat;
  dinode_blk : Forall s32_ok (i_block_nr d);
  dinode_s32 : Forall s32_ok [i_type d; i_indirect d; i_dindirect d; block_count d];
  dinode_size : s64_ok (i_size d);
}.

Lemma get_s32_at_bytes z : s32_ok z -> s32 (le_val (le_bytes 4 z)) = z.
Proof.
  intros. rewrite le_val_bytes. change (8 * Z.of_nat 4) with 32.
  rewrite swrap_mod by done. by apply s32_small.
Qed.

Lemma get_u32_at_bytes z : u32_ok z -> u32 (le_val (le_bytes 4 z)) = z.
Proof.
  intros. rewrite le_val_bytes. change (8 * Z.of_nat 4) with 32.
  unfold wrap. rewrite Z.mod_mod by done. by apply (u32_small z).
Qed.

Lemma get_u64_at_bytes z : 0 <= z < 18446744073709551616 -> u64 (le_val (le_bytes 8 z)) = z.
Proof.
  intros. rewrite le_val_bytes. change (8 * Z.of_nat 8) with 64.
  unfold wrap. rewrite Z.mod_mod by done. by apply (u64_small z).
Qed.

Lemma get_s64_at_bytes z : s64_ok z -> s64 (le_val (le_bytes 8 z)) = z.
Proof.
  intros. rewrite le_val_bytes. change (8 * Z.of_nat 8) with 64.
  rewrite swrap_mod by done. by apply s64_small.
Qed.

Lemma zlen_dsuper_bytes s : zlen (dsuper_bytes s) = sizeof_dsuper.
Proof. reflexivity. Qed.

(** a field of a structure stored at the front of a buffer *)
Lemma zsub_field pre x post off n :
  off = zlen pre -> n = zlen x -> zsub (pre ++ x ++ post) off n = x.
Proof.
  intros -> ->. rewrite zsub_app_r by lia. rewrite Z.sub_diag. by apply zsub_app_l.
Qed.

Lemma dsuper_of_bytes s post : dsuper_ok s -> dsuper_of (dsuper_bytes s ++ post) = s.
Proof.
  intros [H32 H64]. repeat (apply Forall_cons in H32 as [? H32]).
  destruct s as [a b c d e f g]. cbn [inode_freemap_start block_freemap_start inode_blocks_start
    data_blocks_start used_inode_count used_block_count max_fs_blocks] in *.
  unfold dsuper_of, get_u32_at, get_u64_at.
  change (zsub (dsuper_bytes (mk_dsuper a b c d e f g) ++ post) 0 4) with (le_bytes 4 a).
  change (zsub (dsuper_bytes (mk_dsuper a b c d e f g) ++ post) 4 4) with (le_bytes 4 b).
  change (zsub (dsuper_bytes (mk_dsuper a b c d e f g) ++ post) 8 4) with (le_bytes 4 c).
  change (zsub (dsuper_bytes (mk_dsuper a b c d e f g) ++ post) 12 4) with (le_bytes 4 d).
  change (zsub (dsuper_bytes (mk_dsuper a b c d e f g) ++ post) 16 4) with (le_bytes 4 e).
  change (zsub (dsuper_bytes (mk_dsuper a b c d e f g) ++ post) 20 4) with (le_bytes 4 f).
  change (zsub (dsuper_bytes (mk_dsuper a b c d e f g) ++ post) 24 8) with (le_bytes 8 g).
  by rewrite !get_u32_at_bytes, get_u64_at_bytes.
Qed.

Lemma zlen_dinode_bytes d : length (i_block_nr d) = 10%nat -> zlen (dinode_bytes d) = sizeof_dinode.
Proof.
  destruct d as [t bs ? ? ? ?]. simpl. intros Hl.
  do 10 (destruct bs as [|? bs]; [done|]). by destruct bs.
Qed.

Lemma dinode_of_bytes d : dinode_ok d -> dinode_of (dinode_bytes d) = d.
Proof.
  intros [Hl Hb H32 H64]. repeat (apply Forall_cons in H32 as [? H32]).
  destruct d as [t bs ind dind cnt sz].
  cbn [i_type i_block_nr i_indirect i_dindirect block_count i_size] in *.
  do 10 (destruct bs as [|? bs]; [done|]). destruct bs; [|done].
  repeat (apply Forall_cons in Hb as [? Hb]).
  unfold dinode_of, get_s32_at, get_s64_at.
  match goal with |- context [dinode_bytes ?D] => set (d := D) end.
  change (zsub (dinode_bytes d) 0 4) with (le_bytes 4 t).
  change (zsub (dinode_bytes d) 44 4) with (le_bytes 4 ind).
  change (zsub (dinode_bytes d) 48 4) with (le_bytes 4 dind).
  change (zsub (dinode_bytes d) 52 4) with (le_bytes 4 cnt).
  change (zsub (dinode_bytes d) 56 8) with (le_bytes 8 sz).
  rewrite !get_s32_at_bytes, get_s64_at_bytes by done. unfold d. f_equal.
  cbn [map].
  repeat match goal with
  | |- s32 (le_val ?X) :: _ = ?z :: _ =>
      change X with (le_bytes 4 z); rewrite (get_s32_at_bytes z) by done; f_equal
  end.
Qed.
