(* ===== verification/InodeHash.v ===== *)
(** * The inode hash table (fs/inode.c, first part)

    A table of 256 buckets of in-memory inodes, hashed by inode number.  A bucket
    is the list of the inodes linked in it, most recently inserted first; file
    HList shows that the pointer operations of list.h implement these lists. *)

From stdpp Require Import base gmap list.
From Stdlib Require Import ZArith Lia.
From S2P Require Import Prelude Words Bitmap Block FsState.
#[local] Open Scope Z_scope.

(** ** list.h: the hash function *)
Definition GOLDEN_RATIO_PRIME_32 : Z := 2654404609.   (* 0x9e370001 *)

Definition hash_int (val bits : Z) : Z :=
  let hash := u32 (u64 (u32 val * GOLDEN_RATIO_PRIME_32)) in
  Z.shiftr hash (32 - bits).

(** ** inode.c *)
Definition INODE_HASH_SHIFT : Z := 8.
Definition inode_hashfn (nr : Z) : Z := hash_int (u32 nr) INODE_HASH_SHIFT.
Definition inode_hash_size : Z := Z.shiftl 1 INODE_HASH_SHIFT.

Definition inode_hash_init : M fs unit :=
  ok ← host_ok;
  if negb ok then stop Exited
  else modify (with_hash (Some (replicate (Z.to_nat inode_hash_size) []))).

Definition inode_hash_destroy : M fs unit :=
  w ← get;
  match fs_hash w with
  | None => stop AssertFailed
  | Some t =>
      assert_ (forallb (fun l : list ptr => match l with [] => true | _ => false end) t);;
      modify (with_hash None)
  end.

Fixpoint hash_scan (l : list ptr) (inode_nr : Z) : M fs (option ptr) :=
  match l with
  | [] => mret None
  | p :: l' =>
      i ← get_inode p;
      if i_nr i =? inode_nr then mret (Some p) else hash_scan l' inode_nr
  end.

Definition inode_hash_find (inode_nr : Z) : M fs (option ptr) :=
  w ← get;
  t ← deref (fs_hash w);
  l ← deref (t !! Z.to_nat (inode_hashfn inode_nr));
  hash_scan l inode_nr.

Definition inode_hash_insert (p : ptr) : M fs unit :=
  i ← get_inode p;
  w ← get;
  t ← deref (fs_hash w);
  l ← deref (t !! Z.to_nat (inode_hashfn (i_nr i)));
  modify (with_hash (Some (<[Z.to_nat (inode_hashfn (i_nr i)) := p :: l]> t))).

(** unlinks the inode from the bucket it is in; [hlist_del] of a node that is in
    no list dereferences a null [pprev] *)
Definition inode_hash_remove (p : ptr) : M fs unit :=
  w ← get;
  t ← deref (fs_hash w);
  if existsb (existsb (Z.eqb p)) t
  then modify (with_hash (Some (map (filter (fun q => q <> p)) t)))
  else stop Undefined.

(** ** Well-formed caches

    [cache_ok] : the hash table holds, in the bucket of its number, exactly the
    inodes of the heap, one per inode number, and each is referenced. *)
Definition bucket (t : list (list ptr)) (n : Z) : list ptr :=
  default [] (t !! Z.to_nat n).

Record cache_ok (w : fs) (t : list (list ptr)) : Prop := {
  cache_tbl : fs_hash w = Some t;
  cache_len : length t = Z.to_nat inode_hash_size;
  cache_nodup : forall n, 0 <= n < inode_hash_size -> NoDup (bucket t n);
  cache_in : forall n p, 0 <= n < inode_hash_size -> p ∈ bucket t n ->
    exists i, fs_heap w !! p = Some i /\ inode_hashfn (i_nr i) = n;
  cache_all : forall p i, fs_heap w !! p = Some i -> p ∈ bucket t (inode_hashfn (i_nr i));
  cache_uniq : forall p q i j, fs_heap w !! p = Some i -> fs_heap w !! q = Some j ->
    i_nr i = i_nr j -> p = q;
  cache_next : forall p i, fs_heap w !! p = Some i -> p < fs_next w;
  cache_count : forall p i, fs_heap w !! p = Some i -> 0 < i_count i;
}.

(** the cached inode of a number *)
Definition cached (w : fs) (nr : Z) (p : ptr) : Prop :=
  exists i, fs_heap w !! p = Some i /\ i_nr i = nr.

(** ** The hash function stays inside the table *)

Lemma hash_int_bound val bits : 0 <= bits <= 32 -> 0 <= hash_int val bits < 2 ^ bits.
Proof.
  intros Hb. unfold hash_int. rewrite Z.shiftr_div_pow2 by lia.
  pose proof (wrap_bound 32 (u64 (u32 val * GOLDEN_RATIO_PRIME_32)) ltac:(lia)) as [H1 H2].
  assert (H32 : 2 ^ 32 = 2 ^ bits * 2 ^ (32 - bits)).
  { rewrite <- Z.pow_add_r by lia. f_equal. lia. }
  pose proof (Z.pow_pos_nonneg 2 (32 - bits) ltac:(lia) ltac:(lia)). split.
  - by apply Z.div_pos.
  - apply Z.div_lt_upper_bound; [done|]. lia.
Qed.

Lemma inode_hashfn_bound nr : 0 <= inode_hashfn nr < inode_hash_size.
Proof. apply hash_int_bound. unfold INODE_HASH_SHIFT. lia. Qed.

Lemma bucket_lookup w t n : cache_ok w t -> 0 <= n < inode_hash_size ->
  t !! Z.to_nat n = Some (bucket t n).
Proof.
  intros Hc Hn. unfold bucket. destruct (lookup_lt_is_Some_2 t (Z.to_nat n)) as [l Hl].
  - rewrite (cache_len w t Hc). lia.
  - by rewrite Hl.
Qed.

Lemma bucket_insert t n m l : 0 <= n < Z.of_nat (length t) -> 0 <= m ->
  bucket (<[Z.to_nat n := l]> t) m = if decide (m = n) then l else bucket t m.
Proof.
  intros Hn Hm. unfold bucket. case_decide as E.
  - subst. rewrite list_lookup_insert_eq by lia. done.
  - rewrite list_lookup_insert_ne by lia. done.
Qed.

(** ** Specifications *)

Lemma hash_scan_spec w l nr : (forall p, p ∈ l -> is_Some (fs_heap w !! p)) ->
  exists r, hash_scan l nr w = Val (r, w) /\
    match r with
    | Some p => p ∈ l /\ cached w nr p
    | None => forall p, p ∈ l -> ~ cached w nr p
    end.
Proof.
  induction l as [|p l IH]; intros Hl.
  { exists None. split; [done|]. set_solver. }
  destruct (Hl p) as [i Hi]; [set_solver|].
  destruct IH as (r & Hr & Hs); [set_solver|].
  cbn [hash_scan]. unfold get_inode, mbind, M_bind, get. rewrite Hi. unfold deref, mret, M_ret.
  destruct (Z.eqb_spec (i_nr i) nr) as [E|E].
  - exists (Some p). split; [done|]. split; [set_solver|]. by exists i.
  - exists r. split; [done|]. destruct r as [q|].
    { destruct Hs as [Hq ?]. split; [by apply elem_of_cons; right|done]. }
    intros q [->|Hq]%elem_of_cons; [|by apply Hs]. intros (j & Hj & Hn). congruence.
Qed.

(** [inode_hash_find] returns the cached inode of the number, if there is one *)
Lemma inode_hash_find_spec w t nr : cache_ok w t ->
  exists r, inode_hash_find nr w = Val (r, w) /\
    match r with
    | Some p => cached w nr p
    | None => forall p, ~ cached w nr p
    end.
Proof.
  intros Hc. unfold inode_hash_find, mbind, M_bind, get.
  rewrite (cache_tbl w t Hc). unfold deref at 1, mret, M_ret.
  rewrite (bucket_lookup w t _ Hc (inode_hashfn_bound nr)). unfold deref, mret, M_ret.
  destruct (hash_scan_spec w (bucket t (inode_hashfn nr)) nr) as (r & Hr & Hs).
  { intros p Hp. destruct (cache_in w t Hc _ _ (inode_hashfn_bound nr) Hp) as (i & -> & _). done. }
  exists r. split; [exact Hr|]. destruct r as [p|]; [by destruct Hs|].
  intros p (i & Hi & Hn). apply (Hs p); [|by exists i].
  rewrite <- Hn. by apply (cache_all w t Hc).
Qed.

(** the cache is the heap, the table and the next address *)
Lemma cache_ok_mem w w' t : cache_ok w t -> fs_heap w' = fs_heap w -> fs_hash w' = fs_hash w ->
  fs_next w' = fs_next w -> cache_ok w' t.
Proof.
  intros [H1 H2 H3 H4 H5 H6 H7 H8] Hh Hs Hn. by split; rewrite ?Hh, ?Hs, ?Hn.
Qed.

(** updating an inode in place keeps the cache well formed *)
Lemma cache_ok_upd w t p i j : cache_ok w t -> fs_heap w !! p = Some i ->
  i_nr j = i_nr i -> 0 < i_count j -> cache_ok (with_heap (<[p := j]> (fs_heap w)) w) t.
Proof.
  intros [H1 H2 H3 H4 H5 H6 H7 H8] Hp Hn Hj. split; simpl; try done.
  - intros n q Hq Hin. destruct (H4 n q Hq Hin) as (k & Hk & Hkn).
    destruct (decide (q = p)) as [->|Hne].
    + exists j. rewrite lookup_insert_eq. split; [done|]. rewrite Hn. congruence.
    + exists k. by rewrite lookup_insert_ne.
  - intros q k. rewrite lookup_insert. case_decide; intros; simplify_eq; [rewrite Hn|]; auto.
  - intros q r k l. rewrite !lookup_insert. intros Hk Hl Hkl.
    repeat case_decide; simplify_eq; [done|eapply H6..]; eauto; congruence.
  - intros q k. rewrite lookup_insert. case_decide; intros; simplify_eq; eauto.
  - intros q k. rewrite lookup_insert. case_decide; intros; simplify_eq; eauto.
Qed.

(** linking a fresh inode in the bucket of its number *)
Lemma cache_ok_add w t p i nx : cache_ok w t -> fs_heap w !! p = None -> 0 < i_count i ->
  (forall q, ~ cached w (i_nr i) q) -> fs_next w <= nx -> p < nx ->
  let h := inode_hashfn (i_nr i) in
  let t' := <[Z.to_nat h := p :: bucket t h]> t in
  cache_ok (with_hash (Some t') (with_heap (<[p := i]> (fs_heap w)) (with_next nx w))) t'.
Proof.
  intros [H1 H2 H3 H4 H5 H6 H7 H8] Hp Hi Hfr Hnx Hpx h t'.
  pose proof (inode_hashfn_bound (i_nr i)) as Hh. fold h in Hh.
  assert (Hb : forall m, 0 <= m -> bucket t' m = if decide (m = h) then p :: bucket t h else bucket t m).
  { intros m Hm. apply bucket_insert; lia. }
  assert (Hnp : forall m, 0 <= m < inode_hash_size -> p ∉ bucket t m).
  { intros m Hm Hin. destruct (H4 m p Hm Hin) as (j & Hj & _). congruence. }
  split; simpl; try done.
  - unfold t'. by rewrite length_insert.
  - intros n Hn. rewrite Hb by lia. case_decide; [|by apply H3].
    apply NoDup_cons. split; [by apply Hnp|by apply H3].
  - intros n q Hn. rewrite Hb by lia. intros Hq.
    destruct (decide (q = p)) as [->|Hne].
    + exists i. rewrite lookup_insert_eq. split; [done|]. fold h.
      case_decide; [done|]. exfalso. by eapply (Hnp n).
    + rewrite lookup_insert_ne by done. case_decide as E; [|by apply H4].
      apply elem_of_cons in Hq as [?|Hq]; [done|]. subst n. by apply H4.
  - intros q j. rewrite lookup_insert. case_decide as E.
    + intros [= <-]. subst. fold h. rewrite Hb by lia. rewrite decide_True by done.
      apply elem_of_cons. by left.
    + intros Hq. pose proof (inode_hashfn_bound (i_nr j)). rewrite Hb by lia.
      case_decide as E2; [|by apply H5]. apply elem_of_cons. right. rewrite <- E2. by apply H5.
  - intros q r j k. rewrite !lookup_insert. intros Hj Hk Hjk.
    repeat case_decide; simplify_eq; [done| | |by eapply H6; eauto].
    + exfalso. apply (Hfr q). by exists j.
    + exfalso. apply (Hfr r). by exists k.
  - intros q j. rewrite lookup_insert. case_decide; intros Hq; simplify_eq; [done|].
    apply H7 in Hq. lia.
  - intros q j. rewrite lookup_insert. case_decide; intros Hq; simplify_eq; eauto.
Qed.

(** unlinking an inode *)
Lemma cache_ok_del w t p : cache_ok w t ->
  let t' := map (filter (fun q => q <> p)) t in
  cache_ok (with_heap (delete p (fs_heap w)) (with_hash (Some t') w)) t'.
Proof.
  intros [H1 H2 H3 H4 H5 H6 H7 H8] t'.
  assert (Hb : forall m, bucket t' m = filter (fun q => q <> p) (bucket t m)).
  { intros m. unfold bucket, t'. rewrite list_lookup_fmap. by destruct (t !! Z.to_nat m). }
  split; simpl; try done.
  - unfold t'. by rewrite length_map.
  - intros n Hn. rewrite Hb. by apply NoDup_filter, H3.
  - intros n q Hn. rewrite Hb, list_elem_of_filter. intros [Hne Hq].
    destruct (H4 n q Hn Hq) as (i & Hi & ?). exists i. by rewrite lookup_delete_ne.
  - intros q j Hq. apply lookup_delete_Some in Hq as [Hne Hq].
    rewrite Hb, list_elem_of_filter. split; [done|by apply H5].
  - intros q r j k Hq Hr. apply lookup_delete_Some in Hq as [_ Hq].
    apply lookup_delete_Some in Hr as [_ Hr]. by apply H6.
  - intros q j Hq. apply lookup_delete_Some in Hq as [_ Hq]. eauto.
  - intros q j Hq. apply lookup_delete_Some in Hq as [_ Hq]. eauto.
Qed.

(** the membership test of [inode_hash_remove] *)
Lemma table_mem w t p i : cache_ok w t -> fs_heap w !! p = Some i ->
  existsb (existsb (Z.eqb p)) t = true.
Proof.
  intros Hc Hp. apply existsb_exists. exists (bucket t (inode_hashfn (i_nr i))). split.
  - apply list_elem_of_In, list_elem_of_lookup. eexists.
    by eapply bucket_lookup, inode_hashfn_bound.
  - apply existsb_exists. exists p. split; [|by apply Z.eqb_refl].
    by apply list_elem_of_In, (cache_all w t Hc).
Qed.
