(* ===== verification/HList.v ===== *)
(** * Linked lists (fs/list.h)

    The doubly linked lists of the Linux kernel: circular ones with a [list_head] as
    head, and hash lists whose head is one pointer.  The store has one map for each
    field of the structures; an address that is not in the map is not a node, and
    following it is undefined.  An entry is named by the address of the node in it:
    [container_of] adds a constant. *)

From stdpp Require Import base gmap list.
From Stdlib Require Import ZArith Lia.
From S2P Require Import Prelude FsState InodeHash.
#[local] Open Scope Z_scope.

Definition NULL : ptr := 0.

(** the place of a pointer to a node: [&h->first] or [&n->next] *)
Inductive place : Type :=
  | First (h : ptr)
  | Next (n : ptr).

#[global] Instance place_eq_dec : EqDecision place.
Proof. solve_decision. Defined.

(** the fields of [struct list_head], [struct hlist_head] and [struct hlist_node];
    [None] in [pprevs] is a null [pprev] *)
Record lists : Type := mk_lists {
  nexts : gmap ptr ptr;
  prevs : gmap ptr ptr;
  firsts : gmap ptr ptr;
  hnexts : gmap ptr ptr;
  pprevs : gmap ptr (option place);
}.

Definition with_nexts (m : gmap ptr ptr) (s : lists) : lists := mk_lists m (prevs s) (firsts s) (hnexts s) (pprevs s).
Definition with_prevs (m : gmap ptr ptr) (s : lists) : lists := mk_lists (nexts s) m (firsts s) (hnexts s) (pprevs s).
Definition with_firsts (m : gmap ptr ptr) (s : lists) : lists := mk_lists (nexts s) (prevs s) m (hnexts s) (pprevs s).
Definition with_hnexts (m : gmap ptr ptr) (s : lists) : lists := mk_lists (nexts s) (prevs s) (firsts s) m (pprevs s).
Definition with_pprevs (m : gmap ptr (option place)) (s : lists) : lists := mk_lists (nexts s) (prevs s) (firsts s) (hnexts s) m.

(** reading and writing a field *)
Definition get_next (p : ptr) : M lists ptr := s ← get; deref (nexts s !! p).
Definition get_prev (p : ptr) : M lists ptr := s ← get; deref (prevs s !! p).
Definition get_first (h : ptr) : M lists ptr := s ← get; deref (firsts s !! h).
Definition get_hnext (p : ptr) : M lists ptr := s ← get; deref (hnexts s !! p).
Definition get_pprev (p : ptr) : M lists (option place) := s ← get; deref (pprevs s !! p).
Definition set_next (p v : ptr) : M lists unit :=
  get_next p;; modify (fun s => with_nexts (<[p := v]> (nexts s)) s).
Definition set_prev (p v : ptr) : M lists unit :=
  get_prev p;; modify (fun s => with_prevs (<[p := v]> (prevs s)) s).
Definition set_first (h v : ptr) : M lists unit :=
  get_first h;; modify (fun s => with_firsts (<[h := v]> (firsts s)) s).
Definition set_hnext (p v : ptr) : M lists unit :=
  get_hnext p;; modify (fun s => with_hnexts (<[p := v]> (hnexts s)) s).
Definition set_pprev (p : ptr) (v : option place) : M lists unit :=
  get_pprev p;; modify (fun s => with_pprevs (<[p := v]> (pprevs s)) s).

(** [*pprev = v] *)
Definition set_place (pp : option place) (v : ptr) : M lists unit :=
  match pp with
  | Some (First h) => set_first h v
  | Some (Next n) => set_hnext n v
  | None => stop Undefined
  end.

(** ** Circular lists *)

Definition INIT_LIST_HEAD (list : ptr) : M lists unit := set_next list list;; set_prev list list.

Definition __list_add (new prev next : ptr) : M lists unit :=
  set_prev next new;;
  set_next new next;;
  set_prev new prev;;
  set_next prev new.

Definition list_add (new head : ptr) : M lists unit :=
  next ← get_next head; __list_add new head next.

Definition list_add_tail (new head : ptr) : M lists unit :=
  prev ← get_prev head; __list_add new prev head.

Definition __list_del (prev next : ptr) : M lists unit :=
  set_prev next prev;;
  set_next prev next.

Definition list_del (entry : ptr) : M lists unit :=
  prev ← get_prev entry;
  assert_ (negb (prev =? NULL));;
  next ← get_next entry;
  assert_ (negb (next =? NULL));;
  __list_del prev next;;
  set_prev entry NULL;;
  set_next entry NULL.

Definition list_replace (old new : ptr) : M lists unit :=
  next ← get_next old;
  set_next new next;;
  next ← get_next new;
  set_prev next new;;
  prev ← get_prev old;
  set_prev new prev;;
  prev ← get_prev new;
  set_next prev new.

Definition list_is_last (list head : ptr) : M lists bool :=
  next ← get_next list; mret (next =? head).

Definition list_empty (head : ptr) : M lists bool :=
  next ← get_next head; mret (next =? head).

Definition list_is_singular (head : ptr) : M lists bool :=
  empty ← list_empty head;
  if empty : bool then mret false else
  next ← get_next head;
  prev ← get_prev head;
  mret (next =? prev).

Definition __list_cut_position (list head entry : ptr) : M lists unit :=
  new_first ← get_next entry;
  next ← get_next head;
  set_next list next;;
  next ← get_next list;
  set_prev next list;;
  set_prev list entry;;
  set_next entry list;;
  set_next head new_first;;
  set_prev new_first head.

Definition list_cut_position (list head entry : ptr) : M lists unit :=
  empty ← list_empty head;
  if empty : bool then mret tt else
  singular ← list_is_singular head;
  next ← get_next head;
  if singular && (negb (next =? entry) && negb (head =? entry)) then mret tt else
  if entry =? head then INIT_LIST_HEAD list else __list_cut_position list head entry.

Definition __list_splice (list prev next : ptr) : M lists unit :=
  first ← get_next list;
  last ← get_prev list;
  set_prev first prev;;
  set_next prev first;;
  set_next last next;;
  set_prev next last.

Definition list_splice (list head : ptr) : M lists unit :=
  empty ← list_empty list;
  if empty : bool then mret tt else
  next ← get_next head;
  __list_splice list head next.

Definition list_splice_tail (list head : ptr) : M lists unit :=
  empty ← list_empty list;
  if empty : bool then mret tt else
  prev ← get_prev head;
  __list_splice list prev head.

(** the loops over a list; [body] gets the entry *)
Definition list_for_each_entry (body : ptr -> M lists unit) (head : ptr) : M lists unit :=
  pos ← get_next head;
  while_ (fun pos =>
    if pos =? head then mret (inr tt) else
    body pos;;
    next ← get_next pos;
    mret (inl next)) pos.

(** the part that the two loops that are safe against removal share *)
Definition safe_loop (body : ptr -> M lists unit) (head pos : ptr) : M lists unit :=
  n ← get_next pos;
  while_ (fun '(pos, n) =>
    if pos =? head then mret (inr tt) else
    body pos;;
    next ← get_next n;
    mret (inl (n, next))) (pos, n).

Definition list_for_each_entry_safe (body : ptr -> M lists unit) (head : ptr) : M lists unit :=
  pos ← get_next head;
  safe_loop body head pos.

Definition list_for_each_entry_safe_continue (body : ptr -> M lists unit) (pos head : ptr) : M lists unit :=
  pos ← get_next pos;
  safe_loop body head pos.

(** ** Hash lists *)

Definition INIT_HLIST_HEAD (h : ptr) : M lists unit := set_first h NULL.

Definition INIT_HLIST_NODE (h : ptr) : M lists unit := set_hnext h NULL;; set_pprev h None.

Definition hlist_empty (h : ptr) : M lists bool :=
  first ← get_first h; mret (first =? NULL).

Definition hlist_add_head (n h : ptr) : M lists unit :=
  first ← get_first h;
  set_hnext n first;;
  (if negb (first =? NULL) then set_pprev first (Some (Next n)) else mret tt);;
  set_first h n;;
  set_pprev n (Some (First h)).

Definition hlist_add_before (n next : ptr) : M lists unit :=
  pprev ← get_pprev next;
  set_pprev n pprev;;
  set_hnext n next;;
  set_pprev next (Some (Next n));;
  pprev ← get_pprev n;
  set_place pprev n.

Definition hlist_add_after (n next : ptr) : M lists unit :=
  after ← get_hnext n;
  set_hnext next after;;
  set_hnext n next;;
  set_pprev next (Some (Next n));;
  after ← get_hnext next;
  if negb (after =? NULL) then set_pprev after (Some (Next next)) else mret tt.

Definition hlist_del (n : ptr) : M lists unit :=
  next ← get_hnext n;
  pprev ← get_pprev n;
  set_place pprev next;;
  (if negb (next =? NULL) then set_pprev next pprev else mret tt);;
  INIT_HLIST_NODE n.

Definition hlist_replace (old new : ptr) : M lists unit :=
  next ← get_hnext old;
  pprev ← get_pprev old;
  set_hnext new next;;
  set_pprev new pprev;;
  set_place pprev new;;
  if negb (next =? NULL) then set_pprev next (Some (Next new)) else mret tt.

Definition is_some {A} (o : option A) : bool := match o with Some _ => true | None => false end.

(** [body] answers [Some r] to return [r] from the function the loop is in *)
Definition hlist_for_each_entry {R} (body : ptr -> M lists (option R)) (head : ptr) : M lists (option R) :=
  pos ← get_first head;
  while_ (fun pos =>
    if pos =? NULL then mret (inr None) else
    r ← body pos;
    if is_some r then mret (inr r) else
    next ← get_hnext pos;
    mret (inl next)) pos.

Definition hlist_for_each_entry_safe (body : ptr -> M lists unit) (head : ptr) : M lists unit :=
  pos ← get_first head;
  while_ (fun pos =>
    if pos =? NULL then mret (inr tt) else
    n ← get_hnext pos;
    body pos;;
    mret (inl n)) pos.

(** ** The inode hash table on hash lists (fs/inode.c)

    [InodeHash] keeps a bucket as a list of addresses; these are the same functions
    on the pointers.  [inode_hash_table] is the address of the array and [heap] the
    inodes; [&in->hnode] is named by the address of the inode. *)
Section table.
Context (inode_hash_table : ptr).

(** [&inode_hash_table[i]]; a head is one pointer *)
Definition table_head (i : Z) : ptr := inode_hash_table + 8 * i.

(** [inode_hash_init] after its [malloc] *)
Definition table_init : M lists unit :=
  for_ (Z.to_nat inode_hash_size) 0 (fun i => INIT_HLIST_HEAD (table_head i)).

(** [inode_hash_destroy] up to its [free] *)
Definition table_destroy : M lists unit :=
  for_ (Z.to_nat inode_hash_size) 0 (fun i => empty ← hlist_empty (table_head i); assert_ empty).

Definition table_find (heap : gmap ptr inode) (inode_nr : Z) : M lists (option ptr) :=
  hlist_for_each_entry (fun p =>
    i ← deref (heap !! p);
    mret (if i_nr i =? inode_nr then Some p else None)) (table_head (inode_hashfn inode_nr)).

Definition table_insert (heap : gmap ptr inode) (p : ptr) : M lists unit :=
  INIT_HLIST_NODE p;;
  i ← deref (heap !! p);
  hlist_add_head p (table_head (inode_hashfn (i_nr i))).

Definition table_remove (p : ptr) : M lists unit := hlist_del p.
End table.
