(* ===== verification/Super.v ===== *)
(** * The super block (fs/super.c)

    Making, mounting and unmounting a file system, and the allocation of inode
    numbers and of blocks through the two freemaps.  [fs_rep w I B] says that the
    state [w] is a mounted file system whose allocated inode numbers are [I] and
    whose allocated blocks (relative to the start of the data blocks) are [B];
    the theorems give each operation its effect on these two sets. *)

From stdpp Require Import base gmap list list_numbers strings.
From Stdlib Require Import ZArith Lia.
From S2P Require Import Prelude Words Bitmap Block FsState InodeHash.
#[local] Open Scope Z_scope.

(** a bitmap.c step on one of the freemaps *)
Definition on_imap {A} (m : M bitmap A) : M fs A :=
  w ← get;
  b ← deref (fs_imap w);
  zoom (fun _ => b) (fun b' => with_imap (Some b')) m.
Definition on_bmap {A} (m : M bitmap A) : M fs A :=
  w ← get;
  b ← deref (fs_bmap w);
  zoom (fun _ => b) (fun b' => with_bmap (Some b')) m.

Definition not_null {A} (o : option A) : bool :=
  match o with Some _ => true | None => false end.

Definition testfs_write_super_block : M fs unit :=
  w ← get;
  assert_ (sizeof_dsuper <=? BLOCK_SIZE);;
  block ← buf_write (zeros BLOCK_SIZE) 0 (dsuper_bytes (fs_sb w));
  write_block block 0.

(** block [nr] of the words [freemap], to the disk *)
Definition testfs_write_inode_freemap (inode_nr : Z) : M fs unit :=
  w ← get;
  assert_ (not_null (fs_imap w));;
  b ← deref (fs_imap w);
  let freemap := bitmap_getdata b in
  let nr := Z.quot inode_nr (BLOCK_SIZE * BITS_PER_WORD) in
  seg ← buf_read freemap (nr * BLOCK_SIZE) BLOCK_SIZE;
  write_block seg (u32 (inode_freemap_start (fs_sb w) + nr)).

Definition testfs_write_block_freemap (block_nr : Z) : M fs unit :=
  w ← get;
  assert_ (not_null (fs_bmap w));;
  b ← deref (fs_bmap w);
  let freemap := bitmap_getdata b in
  let nr := Z.quot block_nr (BLOCK_SIZE * BITS_PER_WORD) in
  seg ← buf_read freemap (nr * BLOCK_SIZE) BLOCK_SIZE;
  write_block seg (u32 (block_freemap_start (fs_sb w) + nr)).

Definition testfs_get_block_freemap : M fs Z :=
  w ← get;
  assert_ (not_null (fs_bmap w));;
  '(rc, index) ← on_bmap bitmap_alloc;
  if rc <? 0 then mret rc else
  testfs_write_block_freemap (s32 index);;
  mret (s32 index).

Definition testfs_put_block_freemap (block_nr : Z) : M fs unit :=
  w ← get;
  assert_ (not_null (fs_bmap w));;
  on_bmap (bitmap_unmark (u32 block_nr));;
  testfs_write_block_freemap block_nr.

(** updates of the counters of the super block *)
Definition set_used_inodes (f : Z -> Z) (s : dsuper_block) : dsuper_block :=
  mk_dsuper (inode_freemap_start s) (block_freemap_start s) (inode_blocks_start s)
    (data_blocks_start s) (u32 (f (used_inode_count s))) (used_block_count s) (max_fs_blocks s).
Definition set_used_blocks (f : Z -> Z) (s : dsuper_block) : dsuper_block :=
  mk_dsuper (inode_freemap_start s) (block_freemap_start s) (inode_blocks_start s)
    (data_blocks_start s) (used_inode_count s) (u32 (f (used_block_count s))) (max_fs_blocks s).
Definition upd_sb (f : dsuper_block -> dsuper_block) : M fs unit :=
  modify (fun w => with_sb (f (fs_sb w)) w).

(** ** Making a file system *)

(** [fopen(dev, "w")]: the file is created or truncated *)
Definition fopen_w : M fs bool :=
  ok ← host_ok;
  if negb ok then mret false
  else modify (fun w => with_dev (mk_device ∅ 0 (d_cap (fs_dev w)) 0) w);; mret true.

Definition testfs_make_super_block (max : Z) : M fs unit :=
  ok ← host_ok;
  if negb ok then stop Exited else
  modify (fun w => with_imap None (with_bmap None w));;   (* calloc *)
  ok ← fopen_w;
  if negb ok then stop Exited else
  let ifs := u32 SUPER_BLOCK_SIZE in
  let bfs := u32 (ifs + INODE_FREEMAP_SIZE) in
  let ibs := u32 (bfs + BLOCK_FREEMAP_SIZE) in
  let dbs := u32 (ibs + NR_INODE_BLOCKS) in
  upd_sb (fun _ => mk_dsuper ifs bfs ibs dbs 0 0 max);;
  testfs_write_super_block;;
  inode_hash_init.

Definition testfs_make_inode_freemap : M fs unit :=
  w ← get; on_dev (zero_blocks (inode_freemap_start (fs_sb w)) INODE_FREEMAP_SIZE).

Definition testfs_make_block_freemap : M fs unit :=
  w ← get; on_dev (zero_blocks (block_freemap_start (fs_sb w)) BLOCK_FREEMAP_SIZE).

Definition testfs_make_inode_blocks : M fs unit :=
  w ← get;
  let num_bits_in_freemap := BLOCK_SIZE * INODE_FREEMAP_SIZE * 8 in
  if num_bits_in_freemap <? NR_INODE_BLOCKS * INODES_PER_BLOCK then stop Exited else
  assert_ (BLOCK_SIZE mod sizeof_dinode =? 0);;
  on_dev (zero_blocks (inode_blocks_start (fs_sb w)) NR_INODE_BLOCKS).

(** ** Mounting and unmounting *)

(** a freemap read from the disk into the words of a new bitmap *)
Definition read_freemap (b : bitmap) (start nr : Z) : M fs bitmap :=
  data ← on_dev (read_blocks start nr);
  ws ← buf_write (bitmap_getdata b) 0 data;
  mret (mk_bitmap (bm_nbits b) ws).

Definition testfs_init_super_block : M fs Z :=
  ok ← host_ok;                         (* malloc *)
  if negb ok then mret (- ENOMEM) else
  ok ← host_ok;                         (* open(file, O_RDWR) *)
  if negb ok then gets fs_errno else
  ok ← host_ok;                         (* fdopen *)
  if negb ok then gets fs_errno else
  block ← read_block 0;
  upd_sb (fun _ => dsuper_of (zsub block 0 sizeof_dsuper));;
  '(rc, im) ← bitmap_create host_ok (u32 (BLOCK_SIZE * INODE_FREEMAP_SIZE * BITS_PER_WORD));
  if rc <? 0 then mret rc else
  im ← deref im;
  w ← get;
  im ← read_freemap im (inode_freemap_start (fs_sb w)) INODE_FREEMAP_SIZE;
  modify (with_imap (Some im));;
  '(rc, bm) ← bitmap_create host_ok (u32 (BLOCK_SIZE * BLOCK_FREEMAP_SIZE * BITS_PER_WORD));
  if rc <? 0 then mret rc else
  bm ← deref bm;
  bm ← read_freemap bm (block_freemap_start (fs_sb w)) BLOCK_FREEMAP_SIZE;
  modify (with_bmap (Some bm));;
  inode_hash_init;;
  mret 0.

Definition testfs_close_super_block : M fs unit :=
  testfs_write_super_block;;
  inode_hash_destroy;;
  w ← get;
  (match fs_imap w with
   | Some b =>
       on_dev (write_blocks (bitmap_getdata b) (inode_freemap_start (fs_sb w)) INODE_FREEMAP_SIZE);;
       modify (with_imap None)
   | None => mret tt
   end);;
  (match fs_bmap w with
   | Some b =>
       on_dev (write_blocks (bitmap_getdata b) (block_freemap_start (fs_sb w)) BLOCK_FREEMAP_SIZE);;
       modify (with_bmap None)
   | None => mret tt
   end).

(** ** Inode numbers and blocks *)

Definition testfs_get_inode_freemap : M fs Z :=
  w ← get;
  assert_ (not_null (fs_imap w));;
  '(rc, index) ← on_imap bitmap_alloc;
  if rc <? 0 then mret rc else
  testfs_write_inode_freemap (s32 index);;
  upd_sb (set_used_inodes (fun n => n + 1));;
  testfs_write_super_block;;
  mret (s32 index).

Definition testfs_put_inode_freemap (inode_nr : Z) : M fs unit :=
  w ← get;
  assert_ (not_null (fs_imap w));;
  on_imap (bitmap_unmark (u32 inode_nr));;
  testfs_write_inode_freemap inode_nr;;
  w ← get;
  assert_ (0 <? used_inode_count (fs_sb w));;
  upd_sb (set_used_inodes (fun n => n - 1));;
  testfs_write_super_block.

Definition testfs_alloc_block : M fs Z :=
  w ← get;
  if max_fs_blocks (fs_sb w) <=? used_block_count (fs_sb w) then mret (- ENOSPC) else
  phy_block_nr ← testfs_get_block_freemap;
  if phy_block_nr <? 0 then mret phy_block_nr else
  upd_sb (set_used_blocks (fun n => n + 1));;
  testfs_write_super_block;;
  w ← get;
  mret (s32 (u32 (data_blocks_start (fs_sb w) + phy_block_nr))).

Definition testfs_free_block (block_nr : Z) : M fs Z :=
  on_dev (zero_blocks block_nr 1);;
  w ← get;
  let block_nr := s32 (u32 (block_nr - data_blocks_start (fs_sb w))) in
  assert_ (0 <=? block_nr);;
  testfs_put_block_freemap block_nr;;
  w ← get;
  assert_ (0 <? used_block_count (fs_sb w));;
  upd_sb (set_used_blocks (fun n => n - 1));;
  testfs_write_super_block;;
  mret 0.

(** the counters are [u32], printed with [%d] *)
Definition cmd_fsstat (nargs : Z) : M fs Z :=
  if negb (nargs =? 1) then mret (- EINVAL) else
  w ← get;
  print (OutStr "nr of allocated inodes = ");; print (OutDec (s32 (used_inode_count (fs_sb w))));;
  print (OutStr "nr of allocated blocks = ");; print (OutDec (s32 (used_block_count (fs_sb w))));;
  mret 0.

(** ** The abstract state *)

Definition INODE_BITS : Z := BLOCK_SIZE * INODE_FREEMAP_SIZE * BITS_PER_WORD.
Definition BLOCK_BITS : Z := BLOCK_SIZE * BLOCK_FREEMAP_SIZE * BITS_PER_WORD.
(** the starts of the inode and data blocks *)
Definition INODE_START : Z := 18.
Definition DATA_START : Z := 146.

(** the layout [testfs_make_super_block] writes, and the limits of mktestfs *)
Record sb_layout (s : dsuper_block) : Prop := {
  lay_ifs : inode_freemap_start s = 1;
  lay_bfs : block_freemap_start s = 2;
  lay_ibs : inode_blocks_start s = INODE_START;
  lay_dbs : data_blocks_start s = DATA_START;
  lay_max : 0 <= max_fs_blocks s <= BLOCK_BITS;
}.

(** a freemap of [nb] bits with abstract value [X] *)
Definition freemap (ob : option bitmap) (nb : Z) (X : gset Z) : Prop :=
  exists b, ob = Some b /\ bm_ok b /\ bm_nbits b = nb /\ bm_set b = X.

(** the blocks of the words [ws] are on the device from block [start] on *)
Definition map_synced (d : device) (start nr : Z) (ws : list Z) : Prop :=
  forall k, 0 <= k < nr -> blk d (start + k) = zsub ws (k * BLOCK_SIZE) BLOCK_SIZE.
Definition sb_synced (w : fs) : Prop :=
  dsuper_of (zsub (blk (fs_dev w) 0) 0 sizeof_dsuper) = fs_sb w.
Definition imap_synced (w : fs) : Prop :=
  forall b, fs_imap w = Some b -> map_synced (fs_dev w) 1 INODE_FREEMAP_SIZE (bm_v b).
Definition bmap_synced (w : fs) : Prop :=
  forall b, fs_bmap w = Some b -> map_synced (fs_dev w) 2 BLOCK_FREEMAP_SIZE (bm_v b).

Record fs_rep (w : fs) (I B : gset Z) : Prop := {
  rep_dev : dev_ok (fs_dev w);
  rep_nr : DATA_START <= d_nr (fs_dev w);
  rep_cap : DATA_START + BLOCK_BITS <= d_cap (fs_dev w);
  rep_lay : sb_layout (fs_sb w);
  rep_imap : freemap (fs_imap w) INODE_BITS I;
  rep_bmap : freemap (fs_bmap w) BLOCK_BITS B;
  rep_icount : used_inode_count (fs_sb w) = Z.of_nat (size I);
  rep_bcount : used_block_count (fs_sb w) = Z.of_nat (size B);
  rep_host : fs_host w = [];
  rep_sb_sync : sb_synced w;
  rep_imap_sync : imap_synced w;
  rep_bmap_sync : bmap_synced w;
}.

(** what an operation on the freemaps leaves alone: the inodes in memory and
    everything but the device, the super block and the freemaps *)
Record mem_frame (w w' : fs) : Prop := {
  fr_heap : fs_heap w' = fs_heap w;
  fr_hash : fs_hash w' = fs_hash w;
  fr_next : fs_next w' = fs_next w;
  fr_host : fs_host w' = fs_host w;
  fr_junk : fs_junk w' = fs_junk w;
  fr_errno : fs_errno w' = fs_errno w;
  fr_out : fs_out w' = fs_out w;
}.

#[export] Instance mem_frame_preorder : PreOrder mem_frame.
Proof.
  split; [by intros w|]. intros w1 w2 w3 [] []. split; congruence.
Qed.

(** ... and of the device, every block outside [P] *)
Record dev_frame (P : Z -> Prop) (d d' : device) : Prop := {
  df_cap : d_cap d' = d_cap d;
  df_nr : d_nr d <= d_nr d';
  df_blk : forall c, ~ P c -> blk d' c = blk d c;
}.

Lemma dev_frame_refl P d : dev_frame P d d.
Proof. by split. Qed.

Lemma dev_frame_trans P d1 d2 d3 : dev_frame P d1 d2 -> dev_frame P d2 d3 -> dev_frame P d1 d3.
Proof.
  intros [H1 H2 H3] [G1 G2 G3]. split; [congruence|lia|]. intros c Hc. by rewrite G3, H3.
Qed.

Lemma dev_frame_weaken (P Q : Z -> Prop) d d' :
  dev_frame P d d' -> (forall c, P c -> Q c) -> dev_frame Q d d'.
Proof. intros [? ? H] HPQ. split; [done|done|]. intros c Hc. apply H. auto. Qed.

Lemma dev_frame_write (P : Z -> Prop) d b l : P b -> dev_frame P d (dev_write b l d).
Proof.
  intros Hb. split; simpl; [done|lia|]. intros c Hc. rewrite blk_dev_write.
  case_decide; [by subst|done].
Qed.

(** ** Writing the super block and the freemaps *)

Definition sb_block (s : dsuper_block) : list Z := zsplice (zeros BLOCK_SIZE) 0 (dsuper_bytes s).

Lemma zlen_sb_block s : zlen (sb_block s) = BLOCK_SIZE.
Proof.
  unfold sb_block. rewrite zlen_zsplice; rewrite ?zlen_dsuper_bytes, ?zlen_zeros; try done.
Qed.

Lemma sb_block_read s : dsuper_ok s -> dsuper_of (zsub (sb_block s) 0 sizeof_dsuper) = s.
Proof.
  intros Hs. unfold sb_block. rewrite <- (zlen_dsuper_bytes s).
  rewrite zsub_zsplice_eq; [|done|by rewrite zlen_dsuper_bytes, zlen_zeros].
  rewrite <- (app_nil_r (dsuper_bytes s)). by apply dsuper_of_bytes.
Qed.

Lemma write_super_block_val w : dev_ok (fs_dev w) -> 0 < d_cap (fs_dev w) ->
  testfs_write_super_block w = Val (tt, with_dev (dev_write 0 (sb_block (fs_sb w)) (fs_dev w)) w).
Proof.
  intros Hd Hc. unfold testfs_write_super_block, mbind, M_bind, get.
  change (assert_ (sizeof_dsuper <=? BLOCK_SIZE) w) with (Val (tt, w)). cbv beta iota.
  unfold buf_write. rewrite in_buf_true;
    [|done|by rewrite zlen_dsuper_bytes|by rewrite zlen_dsuper_bytes, zlen_zeros].
  unfold mret, M_ret. apply write_block_val; [done|lia|apply zlen_sb_block].
Qed.

Lemma sb_layout_ok s : sb_layout s -> u32_ok (used_inode_count s) -> u32_ok (used_block_count s) ->
  dsuper_ok s.
Proof.
  intros [H1 H2 H3 H4 H5] ? ?. split.
  - rewrite H1, H2, H3, H4. repeat apply Forall_cons_2; try done; unfold u32_ok, DATA_START, INODE_START; lia.
  - unfold BLOCK_BITS, BLOCK_SIZE, BLOCK_FREEMAP_SIZE, BITS_PER_WORD in H5. lia.
Qed.

Section freemap_write.
(** writing back the block of a freemap that holds bit [i] *)
Context (d : device) (start nr : Z) (b b' : bitmap) (i : Z).
Hypothesis Hb : bm_ok b.
Hypothesis Hb' : bm_ok b'.
Hypothesis Hn : bm_nbits b = nr * BLOCK_SIZE * 8.
Hypothesis Hn' : bm_nbits b' = bm_nbits b.
Hypothesis Hlen : zlen (bm_v b) = nr * BLOCK_SIZE.
Hypothesis Hlen' : zlen (bm_v b') = zlen (bm_v b).
Hypothesis Hi : 0 <= i < bm_nbits b.
Hypothesis Hset : forall j, j <> i -> j ∈ bm_set b' <-> j ∈ bm_set b.

Let k := i / (BLOCK_SIZE * 8).

Lemma freemap_chunk : 0 <= k < nr.
Proof.
  unfold k. unfold BLOCK_SIZE in *. dlia.
Qed.

Lemma map_synced_write : map_synced d start nr (bm_v b) ->
  map_synced (dev_write (start + k) (zsub (bm_v b') (k * BLOCK_SIZE) BLOCK_SIZE) d) start nr (bm_v b').
Proof.
  intros Hs m Hm. rewrite blk_dev_write. pose proof freemap_chunk as Hk.
  case_decide as E; [by replace m with k by lia|].
  rewrite (Hs m Hm). unfold BLOCK_SIZE in *. symmetry. apply list_eq_bytes.
  - rewrite !zlen_zsub; lia.
  - intros j. rewrite zlen_zsub by lia. intros Hj. rewrite !byte_at_zsub by lia.
    apply (bm_word_ext b b'); try done; [lia|lia|].
    intros x Hx. apply Hset. intros ->. apply E. unfold k. f_equal. dlia.
Qed.
End freemap_write.

(** the state after bit [i] of the block freemap changed, with the counters of
    [sb'], both written back *)
Definition commit_bmap (b' : bitmap) (i : Z) (sb' : dsuper_block) (w : fs) : fs :=
  let k := i / (BLOCK_SIZE * 8) in
  with_dev (dev_write 0 (sb_block sb')
              (dev_write (2 + k) (zsub (bm_v b') (k * BLOCK_SIZE) BLOCK_SIZE) (fs_dev w)))
    (with_sb sb' (with_bmap (Some b') w)).
Definition commit_imap (b' : bitmap) (i : Z) (sb' : dsuper_block) (w : fs) : fs :=
  let k := i / (BLOCK_SIZE * 8) in
  with_dev (dev_write 0 (sb_block sb')
              (dev_write (1 + k) (zsub (bm_v b') (k * BLOCK_SIZE) BLOCK_SIZE) (fs_dev w)))
    (with_sb sb' (with_imap (Some b') w)).

Lemma freemap_words b nb : bm_ok b -> bm_nbits b = nb * BLOCK_SIZE * 8 -> zlen (bm_v b) = nb * BLOCK_SIZE.
Proof.
  intros [H1 H2 _ _] Hn. rewrite H2, Hn in *. unfold DIVROUNDUP.
  unfold BLOCK_SIZE in *. rewrite u32_small by word_lia. dlia.
Qed.

Lemma imap_size w I B : fs_rep w I B -> Z.of_nat (size I) <= INODE_BITS.
Proof.
  intros Hr. destruct (rep_imap w I B Hr) as (b & _ & [Hn _ _ _] & <- & <-). apply bm_set_size. lia.
Qed.
Lemma bmap_size w I B : fs_rep w I B -> Z.of_nat (size B) <= BLOCK_BITS.
Proof.
  intros Hr. destruct (rep_bmap w I B Hr) as (b & _ & [Hn _ _ _] & <- & <-). apply bm_set_size. lia.
Qed.

Lemma rep_dsuper_ok w I B : fs_rep w I B -> dsuper_ok (fs_sb w).
Proof.
  intros Hr. apply sb_layout_ok; [apply Hr|rewrite (rep_icount w I B Hr)|rewrite (rep_bcount w I B Hr)].
  - pose proof (imap_size _ _ _ Hr) as H. unfold u32_ok. unfold INODE_BITS, BLOCK_SIZE,
      INODE_FREEMAP_SIZE, BITS_PER_WORD in H. lia.
  - pose proof (bmap_size _ _ _ Hr) as H. unfold u32_ok. unfold BLOCK_BITS, BLOCK_SIZE,
      BLOCK_FREEMAP_SIZE, BITS_PER_WORD in H. lia.
Qed.

Ltac unfold_consts :=
  unfold BLOCK_BITS, INODE_BITS, DATA_START, INODE_START, BITS_PER_WORD, INODE_FREEMAP_SIZE,
    BLOCK_FREEMAP_SIZE, BLOCK_SIZE in *.

(** blocks that carry neither the super block nor a freemap *)
Definition is_meta (c : Z) : Prop := c < INODE_START.

Lemma map_synced_other d start nr ws c l :
  (c < start \/ start + nr <= c) -> map_synced d start nr ws ->
  map_synced (dev_write c l d) start nr ws.
Proof. intros Hc Hs k Hk. rewrite blk_dev_write, decide_False by lia. by apply Hs. Qed.

(** the two ways the freemaps and their counters change keep the representation *)
Lemma commit_bmap_rep w I B b b' i sb' : fs_rep w I B -> fs_bmap w = Some b ->
  bm_ok b' -> bm_nbits b' = bm_nbits b -> zlen (bm_v b') = zlen (bm_v b) ->
  0 <= i < bm_nbits b -> (forall j, j <> i -> j ∈ bm_set b' <-> j ∈ bm_set b) ->
  sb_layout sb' -> used_inode_count sb' = used_inode_count (fs_sb w) ->
  used_block_count sb' = Z.of_nat (size (bm_set b')) -> max_fs_blocks sb' = max_fs_blocks (fs_sb w) ->
  fs_rep (commit_bmap b' i sb' w) I (bm_set b') /\ mem_frame w (commit_bmap b' i sb' w) /\
  dev_frame is_meta (fs_dev w) (fs_dev (commit_bmap b' i sb' w)) /\
  d_nr (fs_dev (commit_bmap b' i sb' w)) = d_nr (fs_dev w).
Proof.
  intros Hr Hb Hok' Hn' Hl' Hi Hset Hlay Hic Hbc Hmax. pose proof Hr as [].
  destruct rep_bmap0 as (b0 & Hb0 & Hok & Hn & HB). rewrite Hb in Hb0. injection Hb0 as <-.
  pose proof (freemap_words b BLOCK_FREEMAP_SIZE Hok) as Hl. unfold commit_bmap.
  assert (Hk : 0 <= i / (BLOCK_SIZE * 8) < 16) by (unfold_consts; dlia).
  set (k := i / (BLOCK_SIZE * 8)) in *.
  assert (Hl2 : zlen (zsub (bm_v b') (k * BLOCK_SIZE) BLOCK_SIZE) = BLOCK_SIZE).
  { apply zlen_zsub; unfold_consts; lia. }
  assert (Hd1 : dev_ok (dev_write (2 + k) (zsub (bm_v b') (k * BLOCK_SIZE) BLOCK_SIZE) (fs_dev w))).
  { apply dev_ok_write; [done| |done]. unfold_consts. lia. }
  assert (Hok2 : dsuper_ok sb').
  { apply sb_layout_ok; [done| |].
    - rewrite Hic. pose proof (rep_dsuper_ok _ _ _ Hr) as [Hu _].
      repeat (apply Forall_cons in Hu as [? Hu]). done.
    - rewrite Hbc. pose proof (bm_set_size b' ltac:(rewrite Hn'; lia)). unfold u32_ok.
      unfold_consts. lia. }
  split_and!.
  - split; simpl; try done.
    + apply dev_ok_write; [done| |apply zlen_sb_block]. simpl. unfold_consts. lia.
    + unfold_consts. lia.
    + exists b'. split_and!; try done. by rewrite Hn'.
    + by rewrite Hic.
    + unfold sb_synced. simpl. rewrite blk_dev_write, decide_True by done. by apply sb_block_read.
    + intros im Him. specialize (rep_imap_sync0 im Him).
      apply map_synced_other; [unfold_consts; lia|]. apply map_synced_other; [unfold_consts; lia|done].
    + intros bm [= <-]. apply map_synced_other; [lia|].
      apply (map_synced_write (fs_dev w) 2 BLOCK_FREEMAP_SIZE b b' i); try done.
      * by apply Hl.
      * by apply rep_bmap_sync0.
  - by split.
  - eapply dev_frame_trans; apply dev_frame_write; unfold is_meta, INODE_START; lia.
  - simpl. unfold_consts. lia.
Qed.

Lemma commit_imap_rep w I B b b' i sb' : fs_rep w I B -> fs_imap w = Some b ->
  bm_ok b' -> bm_nbits b' = bm_nbits b -> zlen (bm_v b') = zlen (bm_v b) ->
  0 <= i < bm_nbits b -> (forall j, j <> i -> j ∈ bm_set b' <-> j ∈ bm_set b) ->
  sb_layout sb' -> used_block_count sb' = used_block_count (fs_sb w) ->
  used_inode_count sb' = Z.of_nat (size (bm_set b')) -> max_fs_blocks sb' = max_fs_blocks (fs_sb w) ->
  fs_rep (commit_imap b' i sb' w) (bm_set b') B /\ mem_frame w (commit_imap b' i sb' w) /\
  dev_frame is_meta (fs_dev w) (fs_dev (commit_imap b' i sb' w)) /\
  d_nr (fs_dev (commit_imap b' i sb' w)) = d_nr (fs_dev w).
Proof.
  intros Hr Hb Hok' Hn' Hl' Hi Hset Hlay Hic Hbc Hmax. pose proof Hr as [].
  destruct rep_imap0 as (b0 & Hb0 & Hok & Hn & HB). rewrite Hb in Hb0. injection Hb0 as <-.
  pose proof (freemap_words b INODE_FREEMAP_SIZE Hok) as Hl. unfold commit_imap.
  assert (Hk : i / (BLOCK_SIZE * 8) = 0) by (unfold_consts; dlia).
  rewrite Hk.
  assert (Hl2 : zlen (zsub (bm_v b') (0 * BLOCK_SIZE) BLOCK_SIZE) = BLOCK_SIZE).
  { apply zlen_zsub; unfold_consts; lia. }
  assert (Hd1 : dev_ok (dev_write (1 + 0) (zsub (bm_v b') (0 * BLOCK_SIZE) BLOCK_SIZE) (fs_dev w))).
  { apply dev_ok_write; [done| |done]. unfold_consts. lia. }
  assert (Hok2 : dsuper_ok sb').
  { apply sb_layout_ok; [done| |].
    - rewrite Hbc. pose proof (bm_set_size b' ltac:(rewrite Hn'; lia)). unfold u32_ok.
      unfold_consts. lia.
    - rewrite Hic. pose proof (rep_dsuper_ok _ _ _ Hr) as [Hu _].
      repeat (apply Forall_cons in Hu as [? Hu]). done. }
  split_and!.
  - split; simpl; try done.
    + apply dev_ok_write; [done| |apply zlen_sb_block]. simpl. unfold_consts. lia.
    + unfold_consts. lia.
    + exists b'. split_and!; try done. by rewrite Hn'.
    + by rewrite Hic.
    + unfold sb_synced. simpl. rewrite blk_dev_write, decide_True by done. by apply sb_block_read.
    + intros bm [= <-]. apply map_synced_other; [lia|]. rewrite <- Hk at 1 2.
      apply (map_synced_write (fs_dev w) 1 INODE_FREEMAP_SIZE b b' i); try done.
      * by apply Hl.
      * by apply rep_imap_sync0.
    + intros bm Hbm. specialize (rep_bmap_sync0 bm Hbm).
      apply map_synced_other; [unfold_consts; lia|]. apply map_synced_other; [unfold_consts; lia|done].
  - by split.
  - eapply dev_frame_trans; apply dev_frame_write; unfold is_meta, INODE_START; lia.
  - simpl. unfold_consts. lia.
Qed.

Lemma wp_on_bmap {A} (m : M bitmap A) w b (Q : A -> fs -> Prop) : fs_bmap w = Some b ->
  wp m b (fun a b' => Q a (with_bmap (Some b') w)) -> wp (on_bmap m) w Q.
Proof.
  intros Hb Hm. unfold on_bmap. wsimpl. eapply wp_deref; [done|]. by apply wp_zoom.
Qed.
Lemma wp_on_imap {A} (m : M bitmap A) w b (Q : A -> fs -> Prop) : fs_imap w = Some b ->
  wp m b (fun a b' => Q a (with_imap (Some b') w)) -> wp (on_imap m) w Q.
Proof.
  intros Hb Hm. unfold on_imap. wsimpl. eapply wp_deref; [done|]. by apply wp_zoom.
Qed.

Lemma wp_write_block_freemap w b i (Q : unit -> fs -> Prop) :
  dev_ok (fs_dev w) -> DATA_START <= d_cap (fs_dev w) -> block_freemap_start (fs_sb w) = 2 ->
  fs_bmap w = Some b -> zlen (bm_v b) = BLOCK_FREEMAP_SIZE * BLOCK_SIZE ->
  0 <= i < BLOCK_BITS ->
  let k := i / (BLOCK_SIZE * 8) in
  Q tt (with_dev (dev_write (2 + k) (zsub (bm_v b) (k * BLOCK_SIZE) BLOCK_SIZE) (fs_dev w)) w) ->
  wp (testfs_write_block_freemap i) w Q.
Proof.
  intros Hd Hc Hs Hb Hl Hi k HQ. unfold testfs_write_block_freemap. wsimpl.
  rewrite Hb. apply wp_assert; [done|]. wsimpl. eapply wp_deref; [done|]. wsimpl.
  unfold bitmap_getdata, BITS_PER_WORD. rewrite Z.quot_div_nonneg by (unfold_consts; lia).
  fold k. assert (0 <= k < 16) by (unfold k; unfold_consts; dlia).
  apply wp_buf_read; [unfold_consts; lia..|].
  rewrite Hs, u32_small by lia.
  apply wp_write_block; [done|unfold_consts; lia| |exact HQ].
  apply zlen_zsub; unfold_consts; lia.
Qed.

Lemma wp_write_inode_freemap w b i (Q : unit -> fs -> Prop) :
  dev_ok (fs_dev w) -> DATA_START <= d_cap (fs_dev w) -> inode_freemap_start (fs_sb w) = 1 ->
  fs_imap w = Some b -> zlen (bm_v b) = INODE_FREEMAP_SIZE * BLOCK_SIZE ->
  0 <= i < INODE_BITS ->
  let k := i / (BLOCK_SIZE * 8) in
  Q tt (with_dev (dev_write (1 + k) (zsub (bm_v b) (k * BLOCK_SIZE) BLOCK_SIZE) (fs_dev w)) w) ->
  wp (testfs_write_inode_freemap i) w Q.
Proof.
  intros Hd Hc Hs Hb Hl Hi k HQ. unfold testfs_write_inode_freemap. wsimpl.
  rewrite Hb. apply wp_assert; [done|]. wsimpl. eapply wp_deref; [done|]. wsimpl.
  unfold bitmap_getdata, BITS_PER_WORD. rewrite Z.quot_div_nonneg by (unfold_consts; lia).
  fold k. assert (k = 0) by (unfold k; unfold_consts; dlia).
  apply wp_buf_read; [unfold_consts; lia..|].
  rewrite Hs, u32_small by lia.
  apply wp_write_block; [done|unfold_consts; lia| |exact HQ].
  apply zlen_zsub; unfold_consts; lia.
Qed.

(** ** Allocating and freeing blocks *)

(** the counters stay 32-bit *)
Lemma set_used_blocks_layout s f : sb_layout s -> sb_layout (set_used_blocks f s).
Proof. by intros []. Qed.
Lemma set_used_inodes_layout s f : sb_layout s -> sb_layout (set_used_inodes f s).
Proof. by intros []. Qed.

Lemma with_bmap_id w b : fs_bmap w = Some b -> with_bmap (Some b) w = w.
Proof. intros <-. by destruct w. Qed.
Lemma with_imap_id w b : fs_imap w = Some b -> with_imap (Some b) w = w.
Proof. intros <-. by destruct w. Qed.

(** what [testfs_alloc_block] may answer on a mounted file system *)
Definition alloc_block_post (w : fs) (I B : gset Z) (r : Z) (w' : fs) : Prop :=
  (Z.of_nat (size B) < max_fs_blocks (fs_sb w) /\
   exists i, 0 <= i < BLOCK_BITS /\ (i ∉ B) /\ (forall j, 0 <= j < i -> j ∈ B) /\
     r = DATA_START + i /\ fs_rep w' I ({[i]} ∪ B) /\ mem_frame w w' /\
     max_fs_blocks (fs_sb w') = max_fs_blocks (fs_sb w) /\
     dev_frame is_meta (fs_dev w) (fs_dev w') /\ d_nr (fs_dev w') = d_nr (fs_dev w)) \/
  (max_fs_blocks (fs_sb w) <= Z.of_nat (size B) /\ r = - ENOSPC /\ w' = w).

Lemma alloc_block_spec w I B : fs_rep w I B ->
  wp testfs_alloc_block w (alloc_block_post w I B).
Proof.
  intros Hr. pose proof Hr as []. unfold testfs_alloc_block. wsimpl.
  wcase; [apply Z.leb_le in Heqb|apply Z.leb_gt in Heqb].
  { wsimpl. right. by rewrite <- rep_bcount0. }
  destruct rep_bmap0 as (b & Hb & Hok & Hn & HB).
  pose proof (freemap_words b BLOCK_FREEMAP_SIZE Hok ltac:(by rewrite Hn)) as Hl.
  unfold testfs_get_block_freemap. wsimpl. apply wp_assert; [by rewrite Hb|]. wsimpl.
  eapply wp_on_bmap; [done|]. eapply wp_mono; [by apply bitmap_alloc_spec|].
  intros [rc i] b' (Hok' & Hn' & Hl' & [(-> & Hi & Hni & Hlt & Hs)|(-> & -> & Hfull)]).
  2: { exfalso. apply bm_set_full in Hfull; [|unfold_consts; lia]. rewrite HB, <- rep_bcount0 in Hfull.
       pose proof (lay_max _ rep_lay0). unfold_consts. lia. }
  rewrite Hn in Hi. change (0 <? 0) with false. cbv iota. wsimpl.
  rewrite s32_small by (unfold_consts; lia).
  eapply (wp_write_block_freemap _ b' i); simpl;
    [assumption|unfold_consts; lia|apply rep_lay0|reflexivity|by rewrite Hl'|assumption|].
  wsimpl. rewrite (proj2 (Z.ltb_ge i 0)) by lia. wsimpl.
  assert (Hsz : Z.of_nat (size (bm_set b')) = Z.of_nat (size B) + 1).
  { rewrite Hs, HB. apply add_size. by rewrite <- HB. }
  pose proof (bm_set_size b' ltac:(rewrite Hn', Hn; unfold_consts; lia)) as Hle.
  rewrite Hn', Hn in Hle.
  destruct (commit_bmap_rep w I B b b' i (set_used_blocks (fun n => n + 1) (fs_sb w)))
    as (Hr' & Hfr & Hdf & Hnr); [assumption..|by rewrite Hn| | |reflexivity| |reflexivity|].
  { intros j Hj. rewrite Hs. by apply add_other. }
  { by apply set_used_blocks_layout. }
  { simpl. rewrite rep_bcount0, u32_small by (unfold_consts; lia). lia. }
  unfold upd_sb. wsimpl. eapply wp_val.
  { apply write_super_block_val; simpl; [|unfold_consts; lia].
    apply dev_ok_write; [done| |].
    - unfold_consts. dlia.
    - apply zlen_zsub; unfold_consts; dlia. }
  wsimpl. simpl. rewrite (lay_dbs _ rep_lay0). rewrite u32_small, s32_small by (unfold_consts; lia).
  left. split; [lia|]. exists i. rewrite HB in Hs, Hni. rewrite <- Hs.
  split_and!; try done; [lia|lia|]. intros j Hj. rewrite <- HB. by apply Hlt.
Qed.

(** With a free block within the limit, the lowest free block is allocated. *)
Lemma alloc_block_some w I B : fs_rep w I B -> Z.of_nat (size B) < max_fs_blocks (fs_sb w) ->
  wp testfs_alloc_block w (fun r w' => exists i, 0 <= i < BLOCK_BITS /\ (i ∉ B) /\
     r = DATA_START + i /\ fs_rep w' I ({[i]} ∪ B) /\ mem_frame w w' /\
     max_fs_blocks (fs_sb w') = max_fs_blocks (fs_sb w) /\
     dev_frame is_meta (fs_dev w) (fs_dev w') /\ d_nr (fs_dev w') = d_nr (fs_dev w)).
Proof.
  intros Hr Hs. eapply wp_mono; [by apply alloc_block_spec|].
  intros r w' [(_ & i & ? & ? & _ & ?)|[? _]]; [|lia]. exists i. intuition.
Qed.

(** Freeing an allocated block returns it to the freemap and zeroes it. *)
Lemma free_block_spec w I B i : fs_rep w I B -> i ∈ B ->
  wp (testfs_free_block (DATA_START + i)) w (fun r w' =>
    r = 0 /\ fs_rep w' I (B ∖ {[i]}) /\ mem_frame w w' /\
    max_fs_blocks (fs_sb w') = max_fs_blocks (fs_sb w) /\
    dev_frame (fun c => is_meta c \/ c = DATA_START + i) (fs_dev w) (fs_dev w') /\
    blk (fs_dev w') (DATA_START + i) = zero).
Proof.
  intros Hr Hi. pose proof Hr as [].
  destruct rep_bmap0 as (b & Hb & Hok & Hn & HB).
  pose proof (freemap_words b BLOCK_FREEMAP_SIZE Hok ltac:(by rewrite Hn)) as Hl.
  assert (Hib : 0 <= i < BLOCK_BITS).
  { rewrite <- HB in Hi. apply elem_of_bm_set in Hi as [Hi _]. by rewrite Hn in Hi. }
  unfold testfs_free_block. wsimpl.
  eapply wp_val; [apply on_dev_val, zero_block_spec; [done|unfold_consts; lia]|]. wsimpl.
  set (w1 := with_dev (dev_write (DATA_START + i) zero (fs_dev w)) w).
  assert (Hd1 : dev_ok (fs_dev w1)).
  { apply dev_ok_write; [done|unfold_consts; lia|by apply zlen_zeros]. }
  assert (Hr1 : fs_rep w1 I B).
  { split; simpl; try done; [unfold_consts; lia|by exists b| | |].
    - unfold sb_synced. simpl. rewrite blk_dev_write, decide_False by (unfold_consts; lia). done.
    - intros im Him. apply map_synced_other; [unfold_consts; lia|]. by apply rep_imap_sync0.
    - intros bm Hbm. apply map_synced_other; [unfold_consts; lia|]. by apply rep_bmap_sync0. }
  simpl. rewrite (lay_dbs _ rep_lay0).
  replace (DATA_START + i - DATA_START) with i by lia.
  rewrite u32_small, s32_small by (unfold_consts; lia).
  apply wp_assert; [apply Z.leb_le; lia|]. wsimpl.
  unfold testfs_put_block_freemap. wsimpl. apply wp_assert; [simpl; by rewrite Hb|]. wsimpl.
  rewrite u32_small by (unfold_consts; lia).
  eapply wp_on_bmap; [done|]. eapply wp_mono; [apply bitmap_unmark_spec; [done|by rewrite HB]|].
  intros [] b' (Hok' & Hn' & Hl' & Hs). wsimpl.
  eapply (wp_write_block_freemap _ b' i); simpl;
    [assumption|unfold_consts; lia|apply rep_lay0|reflexivity|by rewrite Hl'|assumption|].
  assert (Hsz : Z.of_nat (size (bm_set b')) = Z.of_nat (size B) - 1).
  { rewrite Hs, HB. by apply del_size. }
  pose proof (elem_size B i Hi) as Hpos.
  pose proof (bmap_size _ _ _ Hr) as Hle.
  wsimpl. simpl. apply wp_assert; [apply Z.ltb_lt; lia|]. wsimpl.
  destruct (commit_bmap_rep w1 I B b b' i (set_used_blocks (fun n => n - 1) (fs_sb w)))
    as (Hr' & Hfr & Hdf & Hnr); [assumption..|by rewrite Hn| | |reflexivity| |reflexivity|].
  { intros j Hj. rewrite Hs. by apply del_other. }
  { by apply set_used_blocks_layout. }
  { simpl. rewrite rep_bcount0, u32_small by (unfold_consts; lia). lia. }
  unfold upd_sb. wsimpl. eapply wp_val.
  { apply write_super_block_val; simpl; [|unfold_consts; lia].
    apply dev_ok_write; [done| |].
    - simpl. unfold_consts. dlia.
    - apply zlen_zsub; unfold_consts; dlia. }
  wsimpl. split_and!; try done.
  - by rewrite <- HB, <- Hs.
  - eapply dev_frame_trans; [apply (dev_frame_write _ _ (DATA_START + i) zero); by right|].
    eapply dev_frame_weaken; [exact Hdf|]. by left.
  - etrans; [apply (df_blk _ _ _ Hdf)|].
    + unfold is_meta. unfold_consts. lia.
    + simpl. by rewrite blk_dev_write, decide_True.
Qed.

(** ** Allocating and releasing inode numbers *)

Lemma get_inode_freemap_spec w I B : fs_rep w I B ->
  wp testfs_get_inode_freemap w (fun r w' =>
    (exists i, r = i /\ 0 <= i < INODE_BITS /\ (i ∉ I) /\ (forall j, 0 <= j < i -> j ∈ I) /\
       fs_rep w' ({[i]} ∪ I) B /\ mem_frame w w' /\
       max_fs_blocks (fs_sb w') = max_fs_blocks (fs_sb w) /\
       dev_frame is_meta (fs_dev w) (fs_dev w') /\ d_nr (fs_dev w') = d_nr (fs_dev w)) \/
    (r = - ENOSPC /\ w' = w /\ Z.of_nat (size I) = INODE_BITS)).
Proof.
  intros Hr. pose proof Hr as []. unfold testfs_get_inode_freemap. wsimpl.
  destruct rep_imap0 as (b & Hb & Hok & Hn & HI).
  pose proof (freemap_words b INODE_FREEMAP_SIZE Hok ltac:(by rewrite Hn)) as Hl.
  apply wp_assert; [by rewrite Hb|]. wsimpl.
  eapply wp_on_imap; [done|]. eapply wp_mono; [by apply bitmap_alloc_spec|].
  intros [rc i] b' (Hok' & Hn' & Hl' & [(-> & Hi & Hni & Hlt & Hs)|(-> & -> & Hfull)]).
  2: { wsimpl. right. rewrite (with_imap_id _ _ Hb). split_and!; [done|done|].
       rewrite <- HI, <- Hn. apply bm_set_full; [rewrite Hn; unfold_consts; lia|done]. }
  rewrite Hn in Hi. change (0 <? 0) with false. cbv iota. wsimpl.
  rewrite s32_small by (unfold_consts; lia).
  eapply (wp_write_inode_freemap _ b' i); simpl;
    [assumption|unfold_consts; lia|apply rep_lay0|reflexivity|by rewrite Hl'|assumption|].
  assert (Hsz : Z.of_nat (size (bm_set b')) = Z.of_nat (size I) + 1).
  { rewrite Hs, HI. apply add_size. by rewrite <- HI. }
  pose proof (bm_set_size b' ltac:(rewrite Hn', Hn; unfold_consts; lia)) as Hle.
  rewrite Hn', Hn in Hle.
  destruct (commit_imap_rep w I B b b' i (set_used_inodes (fun n => n + 1) (fs_sb w)))
    as (Hr' & Hfr & Hdf & Hnr); [assumption..|by rewrite Hn| | |reflexivity| |reflexivity|].
  { intros j Hj. rewrite Hs. by apply add_other. }
  { by apply set_used_inodes_layout. }
  { simpl. rewrite rep_icount0, u32_small by (unfold_consts; lia). lia. }
  unfold upd_sb. wsimpl. eapply wp_val.
  { apply write_super_block_val; simpl; [|unfold_consts; lia].
    apply dev_ok_write; [done| |].
    - unfold_consts. dlia.
    - apply zlen_zsub; unfold_consts; dlia. }
  wsimpl. left. exists i. rewrite HI in Hs, Hni. rewrite <- Hs.
  split_and!; try done; [lia|lia|]. intros j Hj. rewrite <- HI. by apply Hlt.
Qed.

Lemma put_inode_freemap_spec w I B i : fs_rep w I B -> i ∈ I ->
  wp (testfs_put_inode_freemap i) w (fun _ w' =>
    fs_rep w' (I ∖ {[i]}) B /\ mem_frame w w' /\
    max_fs_blocks (fs_sb w') = max_fs_blocks (fs_sb w) /\
    dev_frame is_meta (fs_dev w) (fs_dev w') /\ d_nr (fs_dev w') = d_nr (fs_dev w)).
Proof.
  intros Hr Hi. pose proof Hr as []. unfold testfs_put_inode_freemap. wsimpl.
  destruct rep_imap0 as (b & Hb & Hok & Hn & HI).
  pose proof (freemap_words b INODE_FREEMAP_SIZE Hok ltac:(by rewrite Hn)) as Hl.
  assert (Hib : 0 <= i < INODE_BITS).
  { rewrite <- HI in Hi. apply elem_of_bm_set in Hi as [Hi _]. by rewrite Hn in Hi. }
  apply wp_assert; [by rewrite Hb|]. wsimpl.
  rewrite u32_small by (unfold_consts; lia).
  eapply wp_on_imap; [done|]. eapply wp_mono; [apply bitmap_unmark_spec; [done|by rewrite HI]|].
  intros [] b' (Hok' & Hn' & Hl' & Hs). wsimpl.
  eapply (wp_write_inode_freemap _ b' i); simpl;
    [assumption|unfold_consts; lia|apply rep_lay0|reflexivity|by rewrite Hl'|assumption|].
  assert (Hsz : Z.of_nat (size (bm_set b')) = Z.of_nat (size I) - 1).
  { rewrite Hs, HI. by apply del_size. }
  pose proof (elem_size I i Hi) as Hpos. pose proof (imap_size _ _ _ Hr) as Hle.
  wsimpl. simpl. apply wp_assert; [apply Z.ltb_lt; lia|].
  destruct (commit_imap_rep w I B b b' i (set_used_inodes (fun n => n - 1) (fs_sb w)))
    as (Hr' & Hfr & Hdf & Hnr); [assumption..|by rewrite Hn| | |reflexivity| |reflexivity|].
  { intros j Hj. rewrite Hs. by apply del_other. }
  { by apply set_used_inodes_layout. }
  { simpl. rewrite rep_icount0, u32_small by (unfold_consts; lia). lia. }
  unfold upd_sb. wsimpl. eapply wp_val.
  { apply write_super_block_val; simpl; [|unfold_consts; lia].
    apply dev_ok_write; [done| |].
    - unfold_consts. dlia.
    - apply zlen_zsub; unfold_consts; dlia. }
  rewrite <- HI, <- Hs. by split_and!.
Qed.

(** ** Mounting *)

Lemma get_blocks_synced d start k ws : map_synced d start (Z.of_nat k) ws ->
  zlen ws = Z.of_nat k * BLOCK_SIZE -> get_blocks k start d = ws.
Proof.
  revert start ws. induction k as [|k IH]; intros start ws Hs Hl.
  - rewrite zlen_length in Hl. by destruct ws.
  - cbn [get_blocks]. pose proof (Hs 0 ltac:(lia)) as H0. rewrite Z.add_0_r in H0.
    rewrite H0. rewrite (IH (start + 1) (drop (Z.to_nat BLOCK_SIZE) ws)).
    + change (0 * BLOCK_SIZE) with 0. rewrite zsub_take. apply take_drop.
    + intros j Hj. rewrite zsub_drop by (unfold BLOCK_SIZE; lia).
      rewrite <- (Z.add_assoc start), (Hs (1 + j)) by lia.
      replace ((1 + j) * BLOCK_SIZE) with (Z.of_nat (Z.to_nat BLOCK_SIZE) + j * BLOCK_SIZE); [done|].
      unfold BLOCK_SIZE. lia.
    + rewrite zlen_length, length_drop in *. unfold BLOCK_SIZE in *. lia.
Qed.

(** a device that holds a consistent file system *)
Record disk_ok (d : device) (s : dsuper_block) (iws bws : list Z) : Prop := {
  disk_dev : dev_ok d;
  disk_nr : DATA_START <= d_nr d;
  disk_cap : DATA_START + BLOCK_BITS <= d_cap d;
  disk_lay : sb_layout s;
  disk_sb : dsuper_of (zsub (blk d 0) 0 sizeof_dsuper) = s;
  disk_iws : map_synced d 1 INODE_FREEMAP_SIZE iws;
  disk_bws : map_synced d 2 BLOCK_FREEMAP_SIZE bws;
  disk_iok : bm_ok (mk_bitmap INODE_BITS iws);
  disk_bok : bm_ok (mk_bitmap BLOCK_BITS bws);
  disk_icount : used_inode_count s = Z.of_nat (size (bm_set (mk_bitmap INODE_BITS iws)));
  disk_bcount : used_block_count s = Z.of_nat (size (bm_set (mk_bitmap BLOCK_BITS bws)));
}.

Lemma host_ok_val w : fs_host w = [] -> host_ok w = Val (true, w).
Proof. intros Hh. unfold host_ok, mbind, M_bind, get. by rewrite Hh. Qed.

Lemma wp_read_freemap w b start nr ws (Q : bitmap -> fs -> Prop) :
  dev_ok (fs_dev w) -> 0 <= start -> 0 < nr -> start + nr <= d_nr (fs_dev w) ->
  map_synced (fs_dev w) start nr ws -> zlen ws = nr * BLOCK_SIZE -> zlen (bm_v b) = zlen ws ->
  Q (mk_bitmap (bm_nbits b) ws) w -> wp (read_freemap b start nr) w Q.
Proof.
  intros Hd Hs Hn Hsn Hm Hl Hb HQ. unfold read_freemap. wsimpl.
  eapply wp_val; [by apply on_dev_val, read_blocks_spec|]. wsimpl.
  rewrite (get_blocks_synced _ _ _ ws); rewrite ?Z2Nat.id by lia; [|done|done].
  unfold bitmap_getdata. apply wp_buf_write; [done|lia|]. wsimpl.
  rewrite zsplice_0, drop_ge, app_nil_r, with_dev_id; [done|].
  rewrite !zlen_length in Hb. lia.
Qed.

(** Mounting a consistent disk yields a state that represents it. *)
Lemma mount_spec w s iws bws : disk_ok (fs_dev w) s iws bws -> fs_host w = [] ->
  wp testfs_init_super_block w (fun r w' => r = 0 /\
    fs_rep w' (bm_set (mk_bitmap INODE_BITS iws)) (bm_set (mk_bitmap BLOCK_BITS bws)) /\
    fs_sb w' = s /\ fs_dev w' = fs_dev w /\ fs_heap w' = fs_heap w /\ fs_next w' = fs_next w /\
    fs_junk w' = fs_junk w /\ fs_out w' = fs_out w /\
    fs_imap w' = Some (mk_bitmap INODE_BITS iws) /\ fs_bmap w' = Some (mk_bitmap BLOCK_BITS bws) /\
    fs_hash w' = Some (replicate (Z.to_nat inode_hash_size) [])).
Proof.
  intros [] Hh. unfold testfs_init_super_block. wsimpl.
  do 3 (apply wp_host_ok; [done|]; cbn [negb]; wsimpl).
  apply wp_read_block; [done|unfold_consts; lia|]. unfold upd_sb. wsimpl.
  rewrite disk_sb0.
  eapply wp_mono.
  { apply (bitmap_create_spec _ _ _ (with_sb s w) (with_sb s w)); [|by apply host_ok_val..].
    rewrite u32_small by (unfold_consts; lia). by unfold_consts. }
  intros [rc ob] w1 (-> & -> & im & -> & Hiok & Hin & _). rewrite u32_small in Hin by (unfold_consts; lia).
  change (0 <? 0) with false. cbv iota. wsimpl. eapply wp_deref; [done|]. wsimpl.
  pose proof (freemap_words _ INODE_FREEMAP_SIZE disk_iok0 eq_refl) as Hil. simpl in Hil.
  pose proof (freemap_words _ INODE_FREEMAP_SIZE Hiok Hin) as Hil'.
  eapply (wp_read_freemap _ _ _ _ iws); simpl; rewrite ?(lay_ifs _ disk_lay0);
    [assumption|lia|reflexivity|unfold_consts; lia|assumption|assumption|by rewrite Hil'|].
  wsimpl. eapply wp_mono.
  { apply (bitmap_create_spec _ _ _ (with_imap (Some (mk_bitmap (bm_nbits im) iws)) (with_sb s w))
      (with_imap (Some (mk_bitmap (bm_nbits im) iws)) (with_sb s w))); [|by apply host_ok_val..].
    rewrite u32_small by (unfold_consts; lia). by unfold_consts. }
  intros [rc ob] w1 (-> & -> & bm & -> & Hbok & Hbn & _). rewrite u32_small in Hbn by (unfold_consts; lia).
  change (0 <? 0) with false. cbv iota. wsimpl. eapply wp_deref; [done|]. wsimpl.
  pose proof (freemap_words _ BLOCK_FREEMAP_SIZE disk_bok0 eq_refl) as Hbl. simpl in Hbl.
  pose proof (freemap_words _ BLOCK_FREEMAP_SIZE Hbok Hbn) as Hbl'.
  eapply (wp_read_freemap _ _ _ _ bws); simpl; rewrite ?(lay_bfs _ disk_lay0);
    [assumption|lia|reflexivity|unfold_consts; lia|assumption|assumption|by rewrite Hbl'|].
  wsimpl. unfold inode_hash_init. wsimpl. apply wp_host_ok; [done|]. cbn [negb]. wsimpl.
  fold BLOCK_BITS in Hbn. fold INODE_BITS in Hin. rewrite Hin, Hbn.
  split; [done|]. split; [|by split_and!].
  split; simpl; try done; [by eexists|by eexists|by intros ? [= <-]|by intros ? [= <-]].
Qed.

(** Remounting after any operation finds the same file system: the disk always
    holds the super block and the freemaps of a represented state. *)
Lemma fs_rep_disk w I B : fs_rep w I B -> exists iws bws,
  disk_ok (fs_dev w) (fs_sb w) iws bws /\
  fs_imap w = Some (mk_bitmap INODE_BITS iws) /\ fs_bmap w = Some (mk_bitmap BLOCK_BITS bws) /\
  bm_set (mk_bitmap INODE_BITS iws) = I /\ bm_set (mk_bitmap BLOCK_BITS bws) = B.
Proof.
  intros [].
  destruct rep_imap0 as ([n iws] & Hi & Hiok & Hin & HI). destruct rep_bmap0 as ([m bws] & Hb & Hbok & Hbn & HB).
  simpl in Hin, Hbn. subst n m. exists iws, bws. split; [|done].
  split; try done; [by apply (rep_imap_sync0 _ Hi)|by apply (rep_bmap_sync0 _ Hb)|by rewrite HI|by rewrite HB].
Qed.
