(* ===== verification/Inode.v ===== *)
(** * Inodes (fs/inode.c, second part)

    Reading inodes into the cache with a reference count, writing dirty ones
    back, dropping references, creating inodes, and the blocks an inode takes and
    gives back.  [testfs_remove_inode] calls read_write.c and is in ReadWrite. *)

From stdpp Require Import base gmap list list_numbers.
From Stdlib Require Import ZArith Lia.
From S2P Require Import Prelude Words Bitmap Block FsState InodeHash Super.
#[local] Open Scope Z_scope.

(** the relative block an inode is stored in *)
Definition testfs_inode_to_block_nr (p : ptr) : M fs Z :=
  i ← get_inode p;
  let block_nr := s32 (u32 (i_nr i) / INODES_PER_BLOCK) in
  assert_ (0 <=? block_nr);;
  assert_ (block_nr <? NR_INODE_BLOCKS);;
  mret block_nr.

(** its offset in that block *)
Definition testfs_inode_to_block_offset (p : ptr) : M fs Z :=
  i ← get_inode p;
  let block_offset := s32 (u32 (i_nr i) mod INODES_PER_BLOCK * sizeof_dinode) in
  assert_ (0 <=? block_offset);;
  assert_ (block_offset <? BLOCK_SIZE);;
  mret block_offset.

Definition testfs_read_inode_block (p : ptr) : M fs (list Z) :=
  block_nr ← testfs_inode_to_block_nr p;
  w ← get;
  read_block (u32 (inode_blocks_start (fs_sb w) + block_nr)).

Definition testfs_write_inode_block (p : ptr) (block : list Z) : M fs unit :=
  block_nr ← testfs_inode_to_block_nr p;
  w ← get;
  write_block block (u32 (inode_blocks_start (fs_sb w) + block_nr)).

(** [calloc] of a [struct inode] *)
Definition new_inode (i : inode) : M fs ptr :=
  w ← get;
  modify (fun w => with_heap (<[fs_next w := i]> (fs_heap w)) (with_next (fs_next w + 1) w));;
  mret (fs_next w).

Definition testfs_get_inode (inode_nr : Z) : M fs ptr :=
  found ← inode_hash_find inode_nr;
  match found with
  | Some p => upd_inode p (fun i => set_i_count (i_count i + 1) i);; mret p
  | None =>
      ok ← host_ok;
      if negb ok then stop Exited else
      p ← new_inode (mk_inode dinode_zero 0 inode_nr 1);
      block ← testfs_read_inode_block p;
      block_offset ← testfs_inode_to_block_offset p;
      bytes ← buf_read block block_offset sizeof_dinode;
      upd_inode p (set_in (fun _ => dinode_of bytes));;
      inode_hash_insert p;;
      mret p
  end.

Definition testfs_sync_inode (p : ptr) : M fs unit :=
  i ← get_inode p;
  if negb (is_dirty i) then mret tt else
  block ← testfs_read_inode_block p;
  block_offset ← testfs_inode_to_block_offset p;
  block ← buf_write block block_offset (dinode_bytes (in_ i));
  testfs_write_inode_block p block;;
  upd_inode p clear_dirty.

Definition testfs_put_inode (p : ptr) : M fs unit :=
  i ← get_inode p;
  assert_ (negb (is_dirty i));;
  upd_inode p (fun i => set_i_count (i_count i - 1) i);;
  if i_count i - 1 =? 0 then
    inode_hash_remove p;;
    modify (fun w => with_heap (delete p (fs_heap w)) w)   (* free(in) *)
  else mret tt.

Definition testfs_inode_get_nr (p : ptr) : M fs Z := i ← get_inode p; mret (i_nr i).
Definition testfs_inode_get_type (p : ptr) : M fs Z := i ← get_inode p; mret (i_type (in_ i)).
Definition testfs_inode_get_size (p : ptr) : M fs Z := i ← get_inode p; mret (i_size (in_ i)).
Definition testfs_inode_get_block_count (p : ptr) : M fs Z :=
  i ← get_inode p; mret (block_count (in_ i)).

(** returns the return value and [*inp] *)
Definition testfs_create_inode (type : Z) : M fs (Z * ptr) :=
  inode_nr ← testfs_get_inode_freemap;
  if inode_nr <? 0 then mret (inode_nr, 0) else
  if NR_INODE_BLOCKS <=? u32 inode_nr / INODES_PER_BLOCK then
    testfs_put_inode_freemap inode_nr;; mret (- ENOSPC, 0)
  else
    p ← testfs_get_inode inode_nr;
    upd_inode p (fun i => mark_dirty (set_in (set_i_type type) i));;
    mret (0, p).

Definition testfs_alloc_block_for_inode (p : ptr) : M fs Z :=
  phy_block_nr ← testfs_alloc_block;
  if 0 <=? phy_block_nr then
    upd_inode p (fun i => mark_dirty (set_in (fun d => set_block_count (s32 (block_count d + 1)) d) i));;
    mret phy_block_nr
  else mret phy_block_nr.

Definition testfs_free_block_from_inode (p : ptr) (phy_block_nr : Z) : M fs unit :=
  if phy_block_nr =? 0 then mret tt else
  testfs_free_block phy_block_nr;;
  upd_inode p (fun i => mark_dirty (set_in (fun d => set_block_count (s32 (block_count d - 1)) d) i)).

(** ** Inodes on the disk *)

Definition NR_INODES : Z := NR_INODE_BLOCKS * INODES_PER_BLOCK.

Definition inode_block (nr : Z) : Z := INODE_START + nr / INODES_PER_BLOCK.
Definition inode_offset (nr : Z) : Z := nr mod INODES_PER_BLOCK * sizeof_dinode.
(** the structure stored for inode [nr] *)
Definition disk_inode (d : device) (nr : Z) : dinode :=
  dinode_of (zsub (blk d (inode_block nr)) (inode_offset nr) sizeof_dinode).

Ltac unfold_inode := unfold NR_INODES, NR_INODE_BLOCKS, INODES_PER_BLOCK, sizeof_dinode in *.

Lemma ipb : INODES_PER_BLOCK = 128.
Proof. reflexivity. Qed.

Lemma inode_block_bound nr : 0 <= nr < NR_INODES -> INODE_START <= inode_block nr < DATA_START.
Proof.
  unfold inode_block, NR_INODES, NR_INODE_BLOCKS. rewrite ipb. unfold_consts. dlia.
Qed.

Lemma inode_offset_bound nr : 0 <= nr < NR_INODES ->
  0 <= inode_offset nr /\ inode_offset nr + sizeof_dinode <= BLOCK_SIZE.
Proof. unfold inode_offset, sizeof_dinode. rewrite ipb. unfold_consts. dlia. Qed.

Lemma wp_inode_block_nr w p i (Q : Z -> fs -> Prop) :
  fs_heap w !! p = Some i -> 0 <= i_nr i < NR_INODES ->
  Q (i_nr i / INODES_PER_BLOCK) w -> wp (testfs_inode_to_block_nr p) w Q.
Proof.
  intros Hi Hn HQ. unfold testfs_inode_to_block_nr. wsimpl. eapply wp_get_inode; [done|].
  unfold NR_INODES, NR_INODE_BLOCKS in *. rewrite ipb in *.
  rewrite u32_small, s32_small by dlia. wsimpl.
  apply wp_assert; [apply Z.leb_le; dlia|]. wsimpl.
  apply wp_assert; [apply Z.ltb_lt; dlia|]. by wsimpl.
Qed.

Lemma wp_inode_block_offset w p i (Q : Z -> fs -> Prop) :
  fs_heap w !! p = Some i -> 0 <= i_nr i < NR_INODES ->
  Q (inode_offset (i_nr i)) w -> wp (testfs_inode_to_block_offset p) w Q.
Proof.
  intros Hi Hn HQ. unfold testfs_inode_to_block_offset. wsimpl. eapply wp_get_inode; [done|].
  unfold inode_offset, NR_INODES, NR_INODE_BLOCKS, sizeof_dinode in *. rewrite ipb in *.
  rewrite u32_small, s32_small by dlia. wsimpl.
  apply wp_assert; [apply Z.leb_le; dlia|]. wsimpl.
  apply wp_assert; [apply Z.ltb_lt; unfold BLOCK_SIZE; dlia|]. by wsimpl.
Qed.

Lemma wp_read_inode_block w I B p i (Q : list Z -> fs -> Prop) :
  fs_rep w I B -> fs_heap w !! p = Some i -> 0 <= i_nr i < NR_INODES ->
  Q (blk (fs_dev w) (inode_block (i_nr i))) w -> wp (testfs_read_inode_block p) w Q.
Proof.
  intros Hr Hi Hn HQ. unfold testfs_read_inode_block. wsimpl.
  eapply wp_inode_block_nr; [done|done|]. wsimpl. rewrite (lay_ibs _ (rep_lay _ _ _ Hr)).
  pose proof (inode_block_bound _ Hn). unfold inode_block in *.
  rewrite u32_small by (unfold_consts; lia). apply wp_read_block; [apply Hr| |done].
  pose proof (rep_nr _ _ _ Hr). unfold_consts. lia.
Qed.

(** writes outside the super block and the freemaps keep the representation *)
Lemma fs_rep_write w I B b l : fs_rep w I B -> INODE_START <= b < d_cap (fs_dev w) ->
  zlen l = BLOCK_SIZE -> fs_rep (with_dev (dev_write b l (fs_dev w)) w) I B.
Proof.
  intros [] Hb Hl. split; simpl; try assumption.
  - by apply dev_ok_write; unfold_consts; [|lia|].
  - unfold_consts. lia.
  - unfold sb_synced. simpl. rewrite blk_dev_write, decide_False by (unfold_consts; lia). done.
  - intros im Him. apply map_synced_other; [unfold_consts; lia|]. by apply rep_imap_sync.
  - intros bm Hbm. apply map_synced_other; [unfold_consts; lia|]. by apply rep_bmap_sync.
Qed.

(** ... and so does anything that changes only the memory *)
Lemma fs_rep_mem w w' I B : fs_rep w I B -> fs_dev w' = fs_dev w -> fs_sb w' = fs_sb w ->
  fs_imap w' = fs_imap w -> fs_bmap w' = fs_bmap w -> fs_host w' = fs_host w -> fs_rep w' I B.
Proof.
  intros [] Hd Hs Hi Hb Hh. split; rewrite ?Hd, ?Hs, ?Hi, ?Hb, ?Hh; try assumption.
  - unfold sb_synced. by rewrite Hd, Hs.
  - unfold imap_synced. by rewrite Hd, Hi.
  - unfold bmap_synced. by rewrite Hd, Hb.
Qed.

(** ** The inode cache *)

(** A fully cached state: represented on disk, with a well-formed hash table. *)
Definition live (w : fs) (I B : gset Z) : Prop := fs_rep w I B /\ exists t, cache_ok w t.

Lemma wp_find w t nr (Q : option ptr -> fs -> Prop) : cache_ok w t ->
  (forall p, cached w nr p -> Q (Some p) w) ->
  ((forall p, ~ cached w nr p) -> Q None w) -> wp (inode_hash_find nr) w Q.
Proof.
  intros Hc H1 H2. destruct (inode_hash_find_spec w t nr Hc) as (r & Hr & Hs).
  eapply wp_val; [exact Hr|]. destruct r; auto.
Qed.

Lemma cache_fresh w t : cache_ok w t -> fs_heap w !! fs_next w = None.
Proof.
  intros Hc. destruct (fs_heap w !! fs_next w) eqn:E; [|done].
  apply (cache_next w t Hc) in E. lia.
Qed.

(** what [testfs_get_inode] returns: the cached inode with one more reference, or
    a fresh copy of the inode on the disk with one reference *)
Definition got_inode (w : fs) (nr : Z) (p : ptr) (i : inode) : Prop :=
  (exists j, fs_heap w !! p = Some j /\ i_nr j = nr /\ i = set_i_count (i_count j + 1) j) \/
  (fs_heap w !! p = None /\ (forall q, ~ cached w nr q) /\
   i = mk_inode (disk_inode (fs_dev w) nr) 0 nr 1).

Lemma get_inode_spec w I B nr : live w I B -> 0 <= nr < NR_INODES ->
  wp (testfs_get_inode nr) w (fun p w' => exists i,
    live w' I B /\ fs_dev w' = fs_dev w /\ fs_sb w' = fs_sb w /\
    got_inode w nr p i /\ fs_heap w' = <[p := i]> (fs_heap w) /\ fs_out w' = fs_out w /\
    fs_junk w' = fs_junk w).
Proof.
  intros [Hr [t Hc]] Hn. unfold testfs_get_inode. wsimpl.
  eapply wp_find; [done|intros p (j & Hj & Hjn)|intros Hnone].
  - wsimpl. eapply wp_upd_inode; [done|]. wsimpl.
    exists (set_i_count (i_count j + 1) j). split_and!; try done; [|by left; exists j].
    split; [by eapply fs_rep_mem|]. exists t.
    pose proof (cache_count w t Hc p j Hj). eapply cache_ok_upd; try done. simpl. lia.
  - wsimpl. apply wp_host_ok; [apply Hr|]. cbn [negb]. unfold new_inode. wsimpl.
    set (w1 := with_heap _ _). set (p := fs_next w).
    assert (Hr1 : fs_rep w1 I B) by by eapply fs_rep_mem.
    assert (Hp1 : fs_heap w1 !! p = Some (mk_inode dinode_zero 0 nr 1)) by apply lookup_insert_eq.
    eapply wp_read_inode_block; [done|done|done|]. simpl i_nr. wsimpl.
    eapply wp_inode_block_offset; [done|done|]. simpl i_nr. wsimpl.
    pose proof (inode_offset_bound nr Hn).
    assert (Hlb : zlen (blk (fs_dev w1) (inode_block nr)) = BLOCK_SIZE) by apply zlen_blk, Hr1.
    apply wp_buf_read; [lia|done|lia|]. wsimpl.
    eapply wp_upd_inode; [done|]. wsimpl. simpl.
    rewrite insert_insert_eq. unfold set_in; simpl.
    set (i := mk_inode _ _ _ _). unfold inode_hash_insert. wsimpl.
    eapply wp_get_inode; [simpl; apply lookup_insert_eq|]. wsimpl.
    eapply wp_deref; [by apply (cache_tbl w t Hc)|]. wsimpl.
    eapply wp_deref; [by eapply bucket_lookup, inode_hashfn_bound|]. wsimpl.
    exists i. split_and!; try done.
    + split; [by eapply fs_rep_mem|]. eexists.
      apply (cache_ok_add w t p i (fs_next w + 1)); try done; [|lia|unfold p; lia].
      by eapply cache_fresh.
    + right. split_and!; [by eapply cache_fresh|done|done].
Qed.

(** Writing an inode back changes its slot of the disk and no other inode. *)
Lemma disk_inode_other d nr nr' bytes : dev_ok d -> 0 <= nr < NR_INODES -> 0 <= nr' < NR_INODES ->
  nr' <> nr -> zlen bytes = sizeof_dinode ->
  disk_inode (dev_write (inode_block nr) (zsplice (blk d (inode_block nr)) (inode_offset nr) bytes) d) nr'
  = disk_inode d nr'.
Proof.
  intros Hd Hn Hn' Hne Hl. unfold disk_inode. rewrite blk_dev_write.
  pose proof (inode_offset_bound nr Hn). pose proof (inode_offset_bound nr' Hn').
  case_decide as E; [|done]. rewrite E. f_equal.
  pose proof (zlen_blk d (inode_block nr) Hd) as Hb. unfold sizeof_dinode in *.
  rewrite zsub_zsplice_disj; [done|lia..|].
  unfold inode_block, inode_offset, sizeof_dinode in *. rewrite ipb in *. rewrite Hl. dlia.
Qed.

Lemma disk_inode_same d nr x : dev_ok d -> 0 <= nr < NR_INODES -> dinode_ok x ->
  disk_inode (dev_write (inode_block nr)
    (zsplice (blk d (inode_block nr)) (inode_offset nr) (dinode_bytes x)) d) nr = x.
Proof.
  intros Hd Hn Hx. unfold disk_inode. rewrite blk_dev_write, decide_True by done.
  pose proof (zlen_dinode_bytes x (dinode_len x Hx)) as Hl.
  pose proof (inode_offset_bound nr Hn). pose proof (zlen_blk d (inode_block nr) Hd) as Hb.
  rewrite <- Hl. rewrite zsub_zsplice_eq by lia. by apply dinode_of_bytes.
Qed.

Lemma clear_dirty_not i : is_dirty (clear_dirty i) = false.
Proof.
  unfold is_dirty, clear_dirty, I_FLAGS_DIRTY; simpl.
  rewrite <- Z.land_assoc. change (Z.land (Z.lnot 1) 1) with 0. by rewrite Z.land_0_r.
Qed.

Lemma mark_dirty_dirty i : is_dirty (mark_dirty i) = true.
Proof.
  unfold is_dirty, mark_dirty, I_FLAGS_DIRTY; simpl. apply negb_true_iff, Z.eqb_neq.
  intros H. apply (f_equal (fun z => Z.testbit z 0)) in H.
  rewrite Z.land_spec, Z.lor_spec in H. simpl in H.
  by rewrite orb_true_r in H.
Qed.

Lemma sync_inode_spec w I B p i : live w I B -> fs_heap w !! p = Some i ->
  0 <= i_nr i < NR_INODES -> dinode_ok (in_ i) ->
  wp (testfs_sync_inode p) w (fun _ w' =>
    live w' I B /\ fs_sb w' = fs_sb w /\ fs_out w' = fs_out w /\ fs_junk w' = fs_junk w /\
    dev_frame (fun c => c = inode_block (i_nr i)) (fs_dev w) (fs_dev w') /\
    (exists j, fs_heap w' = <[p := j]> (fs_heap w) /\ is_dirty j = false /\
       in_ j = in_ i /\ i_nr j = i_nr i /\ i_count j = i_count i) /\
    (forall nr, 0 <= nr < NR_INODES -> nr <> i_nr i ->
       disk_inode (fs_dev w') nr = disk_inode (fs_dev w) nr) /\
    (is_dirty i = true -> disk_inode (fs_dev w') (i_nr i) = in_ i) /\
    (is_dirty i = false -> fs_dev w' = fs_dev w)).
Proof.
  intros [Hr [t Hc]] Hi Hn Hok. unfold testfs_sync_inode. wsimpl.
  eapply wp_get_inode; [done|]. destruct (is_dirty i) eqn:Hdirty; cbn [negb].
  2: { wsimpl. split_and!; try done; [by split; [|exists t]|].
       exists i. by rewrite insert_id. }
  wsimpl. eapply wp_read_inode_block; [done|done|done|]. wsimpl.
  eapply wp_inode_block_offset; [done|done|]. wsimpl.
  pose proof (inode_offset_bound _ Hn). pose proof (inode_block_bound _ Hn).
  pose proof (zlen_blk _ (inode_block (i_nr i)) (rep_dev _ _ _ Hr)) as Hlb.
  pose proof (zlen_dinode_bytes _ (dinode_len _ Hok)) as Hl.
  pose proof (rep_cap _ _ _ Hr) as Hcap.
  apply wp_buf_write; [lia|lia|]. wsimpl.
  unfold testfs_write_inode_block. wsimpl. eapply wp_inode_block_nr; [done|done|]. wsimpl.
  rewrite (lay_ibs _ (rep_lay _ _ _ Hr)), u32_small by (unfold inode_block in *; unfold_consts; lia).
  fold (inode_block (i_nr i)).
  assert (Hzl : zlen (zsplice (blk (fs_dev w) (inode_block (i_nr i))) (inode_offset (i_nr i))
    (dinode_bytes (in_ i))) = BLOCK_SIZE) by (rewrite zlen_zsplice; lia).
  assert (Hcb : INODE_START <= inode_block (i_nr i) < d_cap (fs_dev w)) by (unfold_consts; lia).
  apply wp_write_block; [apply Hr|unfold_consts; lia|done|]. wsimpl.
  eapply wp_upd_inode; [done|]. simpl.
  split_and!; try done.
  - split; [|exists t].
    + eapply fs_rep_mem; [exact (fs_rep_write w I B _ _ Hr Hcb Hzl)|done..].
    + eapply cache_ok_mem; [eapply (cache_ok_upd w t p i (clear_dirty i)); try done|done..].
      exact (cache_count w t Hc p i Hi).
  - by apply dev_frame_write.
  - exists (clear_dirty i). split_and!; try done. apply clear_dirty_not.
  - intros nr Hnr Hne. apply disk_inode_other; try done. apply Hr.
  - intros _. apply disk_inode_same; try done. apply Hr.
Qed.

Lemma put_inode_spec w I B p i : live w I B -> fs_heap w !! p = Some i -> is_dirty i = false ->
  wp (testfs_put_inode p) w (fun _ w' =>
    live w' I B /\ fs_dev w' = fs_dev w /\ fs_sb w' = fs_sb w /\ fs_out w' = fs_out w /\
    fs_junk w' = fs_junk w /\
    fs_heap w' = if decide (i_count i = 1) then delete p (fs_heap w)
                 else <[p := set_i_count (i_count i - 1) i]> (fs_heap w)).
Proof.
  intros [Hr [t Hc]] Hi Hd. unfold testfs_put_inode. wsimpl.
  eapply wp_get_inode; [done|]. wsimpl. apply wp_assert; [by rewrite Hd|]. wsimpl.
  eapply wp_upd_inode; [done|]. pose proof (cache_count w t Hc p i Hi).
  destruct (Z.eqb_spec (i_count i - 1) 0) as [E|E]; wsimpl.
  - rewrite decide_True by lia. unfold inode_hash_remove. wsimpl.
    eapply wp_deref; [by apply (cache_tbl w t Hc)|].
    rewrite (table_mem w t p i Hc Hi). wsimpl. simpl. rewrite delete_insert_eq.
    split_and!; try done. split; [by eapply fs_rep_mem|].
    eexists. pose proof (cache_ok_del w t p Hc) as Hdel. by eapply cache_ok_mem.
  - rewrite decide_False by lia. wsimpl. split_and!; try done.
    split; [by eapply fs_rep_mem|]. exists t. eapply cache_ok_upd; simpl; try done. lia.
Qed.
