(* ===== verification/ReadWrite.v ===== *)
(** * File data (fs/read_write.c and [testfs_remove_inode] of fs/inode.c)

    Mapping the blocks of a file through the direct, indirect and double-indirect
    block numbers of its inode, reading and writing byte ranges, allocating blocks
    on the way, and giving all of them back. *)

From stdpp Require Import base gmap list list_numbers.
From Stdlib Require Import ZArith Lia.
From S2P Require Import Prelude Words Bitmap Block FsState InodeHash Super Inode.
#[local] Open Scope Z_scope.

Definition MAX_BLOCK_NR : Z :=
  NR_DIRECT_BLOCKS + NR_INDIRECT_BLOCKS + NR_INDIRECT_BLOCKS * NR_INDIRECT_BLOCKS.

(** [in->in.i_block_nr[i]], as a value and as an access *)
Definition direct_at (d : dinode) (i : Z) : Z := nth (Z.to_nat i) (i_block_nr d) 0.
Definition direct_read (d : dinode) (i : Z) : M fs Z :=
  if bool_decide (0 <= i < NR_DIRECT_BLOCKS) then mret (direct_at d i) else stop Undefined.

(** changing the inode on disk part of the inode at [p] *)
Definition upd_in (p : ptr) (f : dinode -> dinode) : M fs unit := upd_inode p (set_in f).

(** returns the physical block number and the contents of [block] *)
Definition testfs_read_block (p : ptr) (log_block_nr : Z) (block : list Z) : M fs (Z * list Z) :=
  assert_ (0 <=? log_block_nr);;
  if MAX_BLOCK_NR <=? log_block_nr then mret (- EFBIG, block) else
  i ← get_inode p;
  let found_direct := log_block_nr <? NR_DIRECT_BLOCKS in
  let found_indirect := log_block_nr - NR_DIRECT_BLOCKS <? NR_INDIRECT_BLOCKS in
  let found_dindirect := 0 <=? log_block_nr - NR_DIRECT_BLOCKS - NR_INDIRECT_BLOCKS in
  phy_block_nr ←
    (if found_direct then direct_read (in_ i) log_block_nr
     else if found_indirect then
       let log_block_nr := log_block_nr - NR_DIRECT_BLOCKS in
       if 0 <? i_indirect (in_ i) then
         block ← read_block (i_indirect (in_ i));
         int_read block log_block_nr
       else mret 0
     else if found_dindirect then
       let log_block_nr := log_block_nr - (NR_DIRECT_BLOCKS + NR_INDIRECT_BLOCKS) in
       if 0 <? i_dindirect (in_ i) then
         block ← read_block (i_dindirect (in_ i));
         indir_block_nr ← int_read block (Z.quot log_block_nr NR_INDIRECT_BLOCKS);
         if 0 <? indir_block_nr then
           block ← read_block indir_block_nr;
           int_read block (Z.rem log_block_nr NR_INDIRECT_BLOCKS)
         else mret 0
       else mret 0
     else mret 0);
  if 0 <? phy_block_nr then
    block ← read_block phy_block_nr;
    mret (phy_block_nr, block)
  else mret (phy_block_nr, zero).

(** The rounds of the reading loop.  [buf] is the caller's buffer, [total] both
    [total_read_size] and how far the program's [buf] pointer moved. *)
Definition read_round (p : ptr) (start size : Z) (x : Z * list Z * list Z) :
    M fs ((Z * list Z * list Z) + (Z * list Z)) :=
  let '(total, buf, block) := x in
  if negb (total <? size) then mret (inr (s32 total, buf)) else
  let block_nr := Z.quot (s64 (start + total)) BLOCK_SIZE in
  let block_ix := Z.rem (s64 (start + total)) BLOCK_SIZE in
  '(ret, block) ← testfs_read_block p (s32 block_nr) block;
  if ret <? 0 then mret (inr (ret, buf)) else
  let remaining := u32 (size - total) in
  let current := if remaining <? BLOCK_SIZE - block_ix then remaining else u32 (BLOCK_SIZE - block_ix) in
  bytes ← buf_read block block_ix current;
  buf ← buf_write buf total bytes;
  mret (inl (u32 (total + current), buf, block)).

(** returns the return value and the caller's buffer *)
Definition testfs_read_data (p : ptr) (buf : list Z) (start size : Z) : M fs (Z * list Z) :=
  block ← uninit BLOCK_SIZE;
  let block_nr := Z.quot start BLOCK_SIZE in
  let block_ix := Z.rem start BLOCK_SIZE in
  i ← get_inode p;
  let size := if i_size (in_ i) <? s64 (start + s64 size) then u64 (i_size (in_ i) - start) else size in
  if BLOCK_SIZE <? u64 (block_ix + size) then while_ (read_round p start size) (0, buf, block)
  else
    '(ret, block) ← testfs_read_block p (s32 block_nr) block;
    if ret <? 0 then mret (ret, buf) else
    bytes ← buf_read block block_ix size;
    buf ← buf_write buf 0 bytes;
    mret (s32 (u32 size), buf).

(** [indirect_allocated] and [dindirect_allocated]: [None] is uninitialised *)
Definition test_flag (f : option bool) : M fs bool := deref f.

(** The three branches of [testfs_allocate_block], for a block that does not
    exist: each returns the new physical block number or an error. *)
Definition allocate_direct (p : ptr) (log_block_nr : Z) : M fs Z :=
  i ← get_inode p;
  nr ← direct_read (in_ i) log_block_nr;
  assert_ (nr =? 0);;
  phy_block_nr ← testfs_alloc_block_for_inode p;
  (if 0 <=? phy_block_nr then upd_in p (set_i_block_nr log_block_nr phy_block_nr)
   else mret tt);;
  mret phy_block_nr.

Definition allocate_indirect (p : ptr) (log_block_nr : Z) : M fs Z :=
  let log_block_nr := log_block_nr - NR_DIRECT_BLOCKS in
  i ← get_inode p;
  indirect ←
    (if i_indirect (in_ i) =? 0 then
       phy_block_nr ← testfs_alloc_block_for_inode p;
       if phy_block_nr <? 0 then mret (inr phy_block_nr) else
       upd_in p (set_i_indirect phy_block_nr);;
       mret (inl (zero, Some true))
     else
       indirect ← read_block (i_indirect (in_ i));
       mret (inl (indirect, None)));
  match indirect with
  | inr phy_block_nr => mret phy_block_nr
  | inl (indirect, indirect_allocated) =>
      nr ← int_read indirect log_block_nr;
      assert_ (nr =? 0);;
      phy_block_nr ← testfs_alloc_block_for_inode p;
      i ← get_inode p;
      if 0 <=? phy_block_nr then
        indirect ← int_write indirect log_block_nr phy_block_nr;
        write_block indirect (i_indirect (in_ i));;
        mret phy_block_nr
      else
        allocated ← test_flag indirect_allocated;
        (if allocated : bool then
           testfs_free_block_from_inode p (i_indirect (in_ i));;
           upd_in p (set_i_indirect 0)
         else mret tt);;
        mret phy_block_nr
  end.

Definition allocate_dindirect (p : ptr) (log_block_nr : Z) : M fs Z :=
  let log_block_nr := log_block_nr - (NR_DIRECT_BLOCKS + NR_INDIRECT_BLOCKS) in
  let ix := Z.quot log_block_nr NR_INDIRECT_BLOCKS in
  i ← get_inode p;
  dindirect ←
    (if i_dindirect (in_ i) =? 0 then
       phy_block_nr ← testfs_alloc_block_for_inode p;
       if phy_block_nr <? 0 then mret (inr phy_block_nr) else
       upd_in p (set_i_dindirect phy_block_nr);;
       mret (inl (zero, Some true))
     else
       dindirect ← read_block (i_dindirect (in_ i));
       mret (inl (dindirect, Some false)));
  match dindirect with
  | inr phy_block_nr => mret phy_block_nr
  | inl (dindirect, dindirect_allocated) =>
      nr ← int_read dindirect ix;
      indirect ←
        (if nr =? 0 then
           phy_block_nr ← testfs_alloc_block_for_inode p;
           if phy_block_nr <? 0 then mret (inr phy_block_nr) else
           dindirect ← int_write dindirect ix phy_block_nr;
           mret (inl (dindirect, zero, Some true))
         else
           indirect ← read_block nr;
           mret (inl (dindirect, indirect, None)));
      match indirect with
      | inr phy_block_nr => mret phy_block_nr
      | inl (dindirect, indirect, indirect_allocated) =>
          phy_block_nr ← testfs_alloc_block_for_inode p;
          i ← get_inode p;
          if 0 <=? phy_block_nr then
            indirect ← int_write indirect (Z.rem log_block_nr NR_INDIRECT_BLOCKS) phy_block_nr;
            write_block dindirect (i_dindirect (in_ i));;
            nr ← int_read dindirect ix;
            write_block indirect nr;;
            mret phy_block_nr
          else
            allocated ← test_flag dindirect_allocated;
            (if allocated : bool then
               testfs_free_block_from_inode p (i_dindirect (in_ i));;
               upd_in p (set_i_dindirect 0)
             else mret tt);;
            allocated ← test_flag indirect_allocated;
            (if allocated : bool then
               nr ← int_read dindirect ix;
               testfs_free_block_from_inode p nr
               (* and the entry of the local [dindirect] is zeroed *)
             else mret tt);;
            mret phy_block_nr
      end
  end.

(** returns the physical block number and the contents of [block] *)
Definition testfs_allocate_block (p : ptr) (log_block_nr : Z) (block : list Z) : M fs (Z * list Z) :=
  if MAX_BLOCK_NR <=? log_block_nr then mret (- EFBIG, block) else
  assert_ (0 <=? log_block_nr);;
  let found_direct := log_block_nr <? NR_DIRECT_BLOCKS in
  let found_indirect := log_block_nr - NR_DIRECT_BLOCKS <? NR_INDIRECT_BLOCKS in
  let found_dindirect := 0 <=? log_block_nr - NR_DIRECT_BLOCKS - NR_INDIRECT_BLOCKS in
  '(phy_block_nr, block) ← testfs_read_block p log_block_nr block;
  if negb (phy_block_nr =? 0) then mret (phy_block_nr, block) else
  phy_block_nr ←
    (if found_direct then allocate_direct p log_block_nr
     else if found_indirect then allocate_indirect p log_block_nr
     else if found_dindirect then allocate_dindirect p log_block_nr
     else mret 0);
  mret (phy_block_nr, block).

(** [MAX(in->in.i_size, x)] *)
Definition grow_to (x : Z) (d : dinode) : dinode :=
  set_i_size (if x <=? i_size d then i_size d else x) d.

(** The rounds of the writing loop; [inl] of the result is an early return. *)
Definition write_round (p : ptr) (buf : list Z) (start size : Z) (x : Z * Z * Z * list Z) :
    M fs ((Z * Z * Z * list Z) + (Z + Z * Z * Z * list Z)) :=
  let '(total, block_nr, block_ix, block) := x in
  if negb (BLOCK_SIZE <? s64 (block_ix + u32 (s32 size - total)))
  then mret (inr (inr (total, block_nr, block_ix, block))) else
  '(ret, block) ← testfs_allocate_block p (s32 block_nr) block;
  if ret <? 0 then
    (if ret =? - EFBIG then upd_in p (grow_to (s64 (start + total))) else mret tt);;
    mret (inr (inl ret))
  else
    bytes ← buf_read buf total (BLOCK_SIZE - block_ix);
    block ← buf_write block block_ix bytes;
    write_block block ret;;
    mret (inl (u32 (total + (BLOCK_SIZE - block_ix)), s64 (block_nr + 1), 0, block)).

Definition testfs_write_data (p : ptr) (buf : list Z) (start size : Z) : M fs Z :=
  block ← uninit BLOCK_SIZE;
  r ← while_ (write_round p buf start size)
        (0, Z.quot start BLOCK_SIZE, Z.rem start BLOCK_SIZE, block);
  match r with
  | inl ret => mret ret
  | inr (total, block_nr, block_ix, block) =>
      '(ret, block) ← testfs_allocate_block p (s32 block_nr) block;
      if ret <? 0 then
        upd_in p (grow_to (s64 (start + total)));; mret ret
      else
        bytes ← buf_read buf total (u32 (s32 size - total));
        block ← buf_write block block_ix bytes;
        write_block block ret;;
        (if 0 <? size then upd_in p (grow_to (s64 (start + s64 size))) else mret tt);;
        upd_inode p mark_dirty;;
        mret (s32 size)
  end.

(** [for (i = lo; i < lo + n; i++)] over entries of [block], zeroing each one freed *)
Fixpoint free_entries (n : nat) (j : Z) (p : ptr) (block : list Z) : M fs (list Z) :=
  match n with
  | O => mret block
  | S n' =>
      nr ← int_read block j;
      if nr =? 0 then free_entries n' (j + 1) p block else
      testfs_free_block_from_inode p nr;;
      block ← int_write block j 0;
      free_entries n' (j + 1) p block
  end.

(** how many [i] there are with [i < bound && i < limit], from 0 *)
Definition rounds (bound limit : Z) : nat := Z.to_nat (Z.min bound limit).

Definition free_indirects (p : ptr) (e_block_nr : Z) : Z -> list Z -> nat -> M fs unit :=
  fix go i block n :=
    match n with
    | O => mret tt
    | S n' =>
        nr ← int_read block i;
        if nr =? 0 then go (i + 1) block n' else
        indirect_block ← read_block nr;
        free_entries (rounds (e_block_nr - i * NR_INDIRECT_BLOCKS) NR_INDIRECT_BLOCKS) 0 p indirect_block;;
        testfs_free_block_from_inode p nr;;
        block ← int_write block i 0;
        go (i + 1) block n'
    end.

(** the three parts of [testfs_free_blocks] *)
Definition free_direct_blocks (p : ptr) (e_block_nr : Z) : M fs unit :=
  for_ (rounds e_block_nr NR_DIRECT_BLOCKS) 0 (fun j =>
    i ← get_inode p;
    nr ← direct_read (in_ i) j;
    if nr =? 0 then mret tt else
    testfs_free_block_from_inode p nr;;
    upd_in p (set_i_block_nr j 0)).

Definition free_indirect_blocks (p : ptr) (e_block_nr : Z) : M fs unit :=
  i ← get_inode p;
  if 0 <? i_indirect (in_ i) then
    assert_ (0 <? e_block_nr);;
    block ← read_block (i_indirect (in_ i));
    free_entries (rounds e_block_nr NR_INDIRECT_BLOCKS) 0 p block;;
    testfs_free_block_from_inode p (i_indirect (in_ i));;
    upd_in p (set_i_indirect 0)
  else mret tt.

Definition free_dindirect_blocks (p : ptr) (e_block_nr : Z) : M fs unit :=
  i ← get_inode p;
  if 0 <? e_block_nr then
    block ← read_block (i_dindirect (in_ i));
    free_indirects p e_block_nr 0 block (Z.to_nat NR_INDIRECT_BLOCKS);;
    testfs_free_block_from_inode p (i_dindirect (in_ i));;
    upd_in p (set_i_dindirect 0)
  else mret tt.

Definition testfs_free_blocks (p : ptr) : M fs Z :=
  i ← get_inode p;
  let e_block_nr := s32 (Z.quot (s64 (i_size (in_ i) + BLOCK_SIZE - 1)) BLOCK_SIZE) in
  free_direct_blocks p e_block_nr;;
  let e_block_nr := s32 (e_block_nr - NR_DIRECT_BLOCKS) in
  free_indirect_blocks p e_block_nr;;
  let e_block_nr := s32 (e_block_nr - NR_INDIRECT_BLOCKS) in
  free_dindirect_blocks p e_block_nr;;
  upd_in p (set_i_size 0);;
  upd_inode p mark_dirty;;
  mret 0.

(** inode.c: [testfs_remove_inode] *)
Definition testfs_remove_inode (p : ptr) : M fs unit :=
  testfs_free_blocks p;;
  i ← get_inode p;
  assert_ (block_count (in_ i) =? 0);;
  upd_in p (fun _ => dinode_zero);;
  upd_inode p mark_dirty;;
  testfs_put_inode_freemap (i_nr i);;
  testfs_sync_inode p;;
  testfs_put_inode p.
