(* ===== verification/Dir.v ===== *)
(** * Directories (fs/dir.c)

    A directory is a file whose data is a sequence of entries: two 32-bit
    integers (the length of the name with its terminator, and the inode number,
    negative for a free entry) and the name. *)

From stdpp Require Import base gmap list list_numbers strings.
From Stdlib Require Import ZArith Lia.
From S2P Require Import Prelude Words Bitmap Block FsState InodeHash Super Inode ReadWrite.
#[local] Open Scope Z_scope.

(** ** Strings of the C library

    A C string is its bytes without the terminator; a buffer is raw bytes. *)

Definition c_str (name : list Z) : list Z := name ++ [0].

(** [strcmp(a, b) == 0]; running off the end of a buffer is undefined *)
Fixpoint strcmp_eq {S} (a b : list Z) : M S bool :=
  match a, b with
  | x :: a', y :: b' =>
      if negb (x =? y) then mret false else
      if x =? 0 then mret true else strcmp_eq a' b'
  | _, _ => stop Undefined
  end.

(** the string at the start of a buffer, as [printf("%s")] reads it *)
Fixpoint str_of_buf {S} (l : list Z) : M S (list Z) :=
  match l with
  | [] => stop Undefined
  | x :: l' => if x =? 0 then mret [] else s ← str_of_buf l'; mret (x :: s)
  end.

(** ** Entries *)

(** a [struct dirent] on the heap with the [d_name_len] bytes after it *)
Record dirent : Type := mk_dirent {
  d_name_len : Z;
  d_inode_nr : Z;
  d_name : list Z;
}.

Definition sizeof_dirent : Z := 8.
Definition INVALID_INODE_NR : Z := -1.

Definition dirent_bytes (d : dirent) : list Z :=
  le_bytes 4 (d_name_len d) ++ le_bytes 4 (d_inode_nr d) ++ d_name d.

(** returns the entry ([None] is NULL) and [*offset] *)
Definition testfs_next_dirent (dir : ptr) (offset : Z) : M fs (option dirent * Z) :=
  type ← testfs_inode_get_type dir;
  assert_ (type =? I_DIR);;
  size ← testfs_inode_get_size dir;
  if size <=? offset then mret (None, offset) else
  d ← uninit sizeof_dirent;
  '(ret, d) ← testfs_read_data dir d offset sizeof_dirent;
  if ret <? 0 then mret (None, offset) else
  let len := get_s32_at d 0 in
  assert_ (0 <? len);;
  ok ← host_ok;
  if negb ok then mret (None, offset) else
  name ← uninit len;
  let offset := s64 (offset + sizeof_dirent) in
  '(ret, name) ← testfs_read_data dir name offset len;
  if ret <? 0 then mret (None, offset) else
  mret (Some (mk_dirent len (get_s32_at d 4) name), s64 (offset + len)).

(** The entry of inode [inode_nr] in [dir]. *)
Definition testfs_find_dirent (dir : ptr) (inode_nr : Z) : M fs (option dirent) :=
  type ← testfs_inode_get_type dir;
  assert_ (type =? I_DIR);;
  assert_ (0 <=? inode_nr);;
  while_ (fun offset =>
    '(d, offset) ← testfs_next_dirent dir offset;
    match d with
    | None => mret (inr None)
    | Some d => if d_inode_nr d =? inode_nr then mret (inr (Some d)) else mret (inl offset)
    end) 0.

Definition testfs_write_dirent (dir : ptr) (name : list Z) (len inode_nr offset : Z) : M fs Z :=
  ok ← host_ok;
  if negb ok then mret (- ENOMEM) else
  assert_ (0 <=? inode_nr);;
  buf ← uninit len;
  buf ← buf_write buf 0 (c_str name);      (* strcpy *)
  testfs_write_data dir (dirent_bytes (mk_dirent len inode_nr buf)) offset (sizeof_dirent + len).

(** one round of the search for a free entry: the state is
    [ret], [found], [p_offset] and [offset] *)
Definition add_round (dir : ptr) (name : list Z) (len : Z) (x : Z * bool * Z * Z) :
    M fs ((Z * bool * Z * Z) + (Z * bool * Z)) :=
  let '(ret, found, p_offset, offset) := x in
  if negb ((ret =? 0) && negb found) then mret (inr (ret, found, p_offset)) else
  let p_offset := offset in
  '(d, offset) ← testfs_next_dirent dir offset;
  match d with
  | None => mret (inr (ret, found, p_offset))
  | Some d =>
      same ← (if 0 <=? d_inode_nr d then strcmp_eq (d_name d) (c_str name) else mret false);
      if same : bool then mret (inl (- EEXIST, found, p_offset, offset)) else
      if (0 <=? d_inode_nr d) || negb (d_name_len d =? len)
      then mret (inl (ret, found, p_offset, offset))
      else mret (inl (ret, true, p_offset, offset))
  end.

Definition testfs_add_dirent (dir : ptr) (name : list Z) (inode_nr : Z) : M fs Z :=
  let len := s32 (zlen name + 1) in
  type ← testfs_inode_get_type dir;
  assert_ (type =? I_DIR);;
  '(ret, found, p_offset) ← while_ (add_round dir name len) (0, false, 0, 0);
  if ret <? 0 then mret ret else
  size ← testfs_inode_get_size dir;
  assert_ (found || (p_offset =? size));;
  testfs_write_dirent dir name len inode_nr (s32 p_offset).

Definition dot : list Z := [46].
Definition dotdot : list Z := [46; 46].

(** one round of the search for a file in a directory that is to be removed: the
    state is [ret] and [offset] *)
Definition allowed_round (dir : ptr) (x : Z * Z) : M fs ((Z * Z) + Z) :=
  let '(ret, offset) := x in
  if negb (ret =? 0) then mret (inr ret) else
  '(d, offset) ← testfs_next_dirent dir offset;
  match d with
  | None => mret (inr ret)
  | Some d =>
      if d_inode_nr d <? 0 then mret (inl (ret, offset)) else
      same ← strcmp_eq (d_name d) (c_str dot);
      if same : bool then mret (inl (ret, offset)) else
      same ← strcmp_eq (d_name d) (c_str dotdot);
      if same : bool then mret (inl (ret, offset)) else
      mret (inl (- ENOTEMPTY, offset))
  end.

(** can the file or directory [inode_nr] be removed? *)
Definition testfs_remove_dirent_allowed (inode_nr : Z) : M fs Z :=
  dir ← testfs_get_inode inode_nr;
  type ← testfs_inode_get_type dir;
  ret ←
    (if negb (type =? I_DIR) then mret 0 else
     while_ (allowed_round dir) (0, 0));
  testfs_put_inode dir;;
  mret ret.

(** one round of [testfs_remove_dirent]: the state is [inode_nr], [ret] and
    [offset] *)
Definition remove_round (dir : ptr) (name : list Z) (x : Z * Z * Z) : M fs ((Z * Z * Z) + Z) :=
  let '(inode_nr, ret, offset) := x in
  if negb (inode_nr =? INVALID_INODE_NR) then mret (inr ret) else
  let p_offset := offset in
  '(d, offset) ← testfs_next_dirent dir offset;
  match d with
  | None => mret (inr ret)
  | Some d =>
      if d_inode_nr d <? 0 then mret (inl (inode_nr, ret, offset)) else
      same ← strcmp_eq (d_name d) (c_str name);
      if negb same then mret (inl (inode_nr, ret, offset)) else
      let inode_nr := d_inode_nr d in
      ret ← testfs_remove_dirent_allowed inode_nr;
      if ret <? 0 then mret (inl (inode_nr, ret, offset)) else
      let d := mk_dirent (d_name_len d) INVALID_INODE_NR (d_name d) in
      ret ← testfs_write_data dir (dirent_bytes d) p_offset (u64 (sizeof_dirent + d_name_len d));
      mret (inl (inode_nr, if 0 <=? ret then inode_nr else ret, offset))
  end.

Definition testfs_remove_dirent (dir : ptr) (name : list Z) : M fs Z :=
  special ← strcmp_eq (c_str name) (c_str dot);
  special ← (if special : bool then mret true else strcmp_eq (c_str name) (c_str dotdot));
  if special : bool then mret (- EINVAL) else
  while_ (remove_round dir name) (INVALID_INODE_NR, - ENOENT, 0).

Definition testfs_create_empty_dir (p_inode_nr : Z) (cdir : ptr) : M fs Z :=
  type ← testfs_inode_get_type cdir;
  assert_ (type =? I_DIR);;
  nr ← testfs_inode_get_nr cdir;
  ret ← testfs_add_dirent cdir dot nr;
  if ret <? 0 then mret ret else
  ret ← testfs_add_dirent cdir dotdot p_inode_nr;
  if ret <? 0 then testfs_remove_dirent cdir dot;; mret ret
  else mret 0.

(** one round of the search for [name]: the state is [ret] and [offset] *)
Definition lookup_round (dir : ptr) (name : list Z) (x : Z * Z) : M fs ((Z * Z) + Z) :=
  let '(ret, offset) := x in
  if negb (ret <? 0) then mret (inr ret) else
  '(d, offset) ← testfs_next_dirent dir offset;
  match d with
  | None => mret (inr ret)
  | Some d =>
      if d_inode_nr d <? 0 then mret (inl (ret, offset)) else
      same ← strcmp_eq (d_name d) (c_str name);
      if same : bool then mret (inl (d_inode_nr d, offset)) else mret (inl (ret, offset))
  end.

Definition testfs_dir_name_to_inode_nr (dir : ptr) (name : list Z) : M fs Z :=
  type ← testfs_inode_get_type dir;
  assert_ (type =? I_DIR);;
  while_ (lookup_round dir name) (- ENOENT, 0).

(** [dir] is [None] for the root directory *)
Definition testfs_create_file_or_dir (dir : option ptr) (type : Z) (name : list Z) : M fs Z :=
  exists_ ← (match dir with
             | Some dir => nr ← testfs_dir_name_to_inode_nr dir name; mret (0 <=? nr)
             | None => mret false
             end);
  if exists_ : bool then mret (- EEXIST) else
  '(ret, p) ← testfs_create_inode type;
  if ret <? 0 then mret ret else
  inode_nr ← testfs_inode_get_nr p;
  ret ←
    (if type =? I_DIR then
       p_inode_nr ← (match dir with Some dir => testfs_inode_get_nr dir | None => mret inode_nr end);
       testfs_create_empty_dir p_inode_nr p
     else mret ret);
  if ret <? 0 then testfs_remove_inode p;; mret ret else
  ret ←
    (match dir with
     | Some dir =>
         ret ← testfs_add_dirent dir name inode_nr;
         if ret <? 0 then mret ret else testfs_sync_inode dir;; mret ret
     | None => mret ret
     end);
  if ret <? 0 then testfs_remove_inode p;; mret ret else
  testfs_sync_inode p;;
  testfs_put_inode p;;
  mret 0.

Definition testfs_make_root_dir : M fs Z := testfs_create_file_or_dir None I_DIR [].

(** The recursive walks: [fuel] bounds the depth; a walk deeper than there are
    inodes is on a cycle, and exhausts the stack. *)
Definition MAX_DEPTH : nat := Z.to_nat 16385.

Fixpoint testfs_pwd (fuel : nat) (p : ptr) : M fs Z :=
  match fuel with
  | O => stop OutOfFuel
  | S fuel =>
      nr ← testfs_inode_get_nr p;
      assert_ (0 <=? nr);;
      p_inode_nr ← testfs_dir_name_to_inode_nr p dotdot;
      assert_ (0 <=? p_inode_nr);;
      if p_inode_nr =? nr then print (OutStr "/");; mret 1 else
      p_in ← testfs_get_inode p_inode_nr;
      d ← testfs_find_dirent p_in nr;
      assert_ (not_null d);;
      d ← deref d;
      ret ← testfs_pwd fuel p_in;
      testfs_put_inode p_in;;
      s ← str_of_buf (d_name d);
      print (OutStr (if ret =? 1 then "" else "/"));;
      print (OutBytes s);;
      mret 0
  end.

Fixpoint testfs_ls (fuel : nat) (p : ptr) (recursive : bool) : M fs Z :=
  match fuel with
  | O => stop OutOfFuel
  | S fuel =>
      while_ (fun offset =>
        '(d, offset) ← testfs_next_dirent p offset;
        match d with
        | None => mret (inr 0)
        | Some d =>
            if d_inode_nr d <? 0 then mret (inl offset) else
            cin ← testfs_get_inode (d_inode_nr d);
            s ← str_of_buf (d_name d);
            type ← testfs_inode_get_type cin;
            print (OutBytes s);;
            print (OutStr (if type =? I_DIR then "/" else ""));;
            print (OutBytes [10]);;
            deeper ←
              (if recursive && (type =? I_DIR) then
                 is_dot ← strcmp_eq (d_name d) (c_str dot);
                 is_dotdot ← (if is_dot : bool then mret true else strcmp_eq (d_name d) (c_str dotdot));
                 mret (negb is_dotdot)
               else mret false);
            (if deeper : bool then testfs_ls fuel cin recursive;; mret tt else mret tt);;
            testfs_put_inode cin;;
            mret (inl offset)
        end) 0
  end.

(** ** Commands *)

(** the arguments ([None] is NULL) and the current directory *)
Record context : Type := mk_context {
  nargs : Z;
  cmd : list (option (list Z));
  cur_dir : ptr;
}.

Definition MAX_ARGS : Z := 6.

(** [c->cmd[i]], which the commands dereference *)
Definition arg {S} (c : context) (i : nat) : M S (list Z) :=
  a ← deref (cmd c !! i); deref a.

Definition cmd_ls_internal (c : context) (recursive : bool) : M fs Z :=
  if negb (nargs c =? 2) then mret (- EINVAL) else
  cdir ← arg c 1;
  inode_nr ← testfs_dir_name_to_inode_nr (cur_dir c) cdir;
  if inode_nr <? 0 then mret inode_nr else
  p ← testfs_get_inode inode_nr;
  type ← testfs_inode_get_type p;
  if type =? I_DIR then
    testfs_ls MAX_DEPTH p recursive;;
    testfs_put_inode p;;
    mret 0
  else mret (- ENOTDIR).

(** returns the return value and [c->cur_dir] *)
Definition cmd_cd (c : context) : M fs (Z * ptr) :=
  if negb (nargs c =? 2) then mret (- EINVAL, cur_dir c) else
  name ← arg c 1;
  inode_nr ← testfs_dir_name_to_inode_nr (cur_dir c) name;
  if inode_nr <? 0 then mret (inode_nr, cur_dir c) else
  dir_inode ← testfs_get_inode inode_nr;
  type ← testfs_inode_get_type dir_inode;
  if negb (type =? I_DIR) then
    testfs_put_inode dir_inode;; mret (- ENOTDIR, cur_dir c)
  else
    testfs_put_inode (cur_dir c);;
    mret (0, dir_inode).

Definition cmd_pwd (c : context) : M fs Z :=
  if negb (nargs c =? 1) then mret (- EINVAL) else
  testfs_pwd MAX_DEPTH (cur_dir c);;
  print (OutBytes [10]);;
  mret 0.

Definition cmd_ls (c : context) : M fs Z := cmd_ls_internal c false.
Definition cmd_lsr (c : context) : M fs Z := cmd_ls_internal c true.

Definition cmd_create (c : context) : M fs Z :=
  if negb (nargs c =? 2) then mret (- EINVAL) else
  name ← arg c 1;
  testfs_create_file_or_dir (Some (cur_dir c)) I_FILE name.

Definition cmd_mkdir (c : context) : M fs Z :=
  if negb (nargs c =? 2) then mret (- EINVAL) else
  name ← arg c 1;
  testfs_create_file_or_dir (Some (cur_dir c)) I_DIR name.

Definition cmd_rm (c : context) : M fs Z :=
  if negb (nargs c =? 2) then mret (- EINVAL) else
  name ← arg c 1;
  inode_nr ← testfs_remove_dirent (cur_dir c) name;
  if inode_nr <? 0 then mret inode_nr else
  p ← testfs_get_inode inode_nr;
  testfs_remove_inode p;;
  testfs_sync_inode (cur_dir c);;
  mret 0.

Definition cmd_stat (c : context) : M fs Z :=
  if negb (nargs c =? 2) then mret (- EINVAL) else
  name ← arg c 1;
  inode_nr ← testfs_dir_name_to_inode_nr (cur_dir c) name;
  if inode_nr <? 0 then mret inode_nr else
  p ← testfs_get_inode inode_nr;
  nr ← testfs_inode_get_nr p;
  type ← testfs_inode_get_type p;
  size ← testfs_inode_get_size p;
  count ← testfs_inode_get_block_count p;
  print (OutBytes name);;
  print (OutStr ": i_nr = ");; print (OutDec nr);;
  print (OutStr ", i_type = ");; print (OutDec type);;
  print (OutStr ", i_size = ");; print (OutDec (u64 size));;
  print (OutStr ", block_count = ");; print (OutDec count);;
  print (OutBytes [10]);;
  testfs_put_inode p;;
  mret 0.
