(* ===== verification/File.v ===== *)
(** * Files (fs/file.c, fs/common.c)

    The commands that read and write a byte range of a file, and the parsing of
    their numeric arguments. *)

From stdpp Require Import base gmap list list_numbers strings.
From Stdlib Require Import ZArith Lia.
From S2P Require Import Prelude Words Numbers Bitmap Block FsState InodeHash Super Inode ReadWrite Dir.
#[local] Open Scope Z_scope.

(** ** common.c: the return value and the result *)
Definition str_to_offset (str : list Z) : Z * Z :=
  let '(val, rest) := strtoll str in
  if 0 <? zlen rest then (- EINVAL, 0) else (0, val).

Definition str_to_size (str : list Z) : Z * Z :=
  let '(val, rest) := strtoull str in
  if 0 <? zlen rest then (- EINVAL, 0) else (0, val).

(** ** file.c *)

(** returns the return value and the inode *)
Definition testfs_get_file_inode (dir : ptr) (name : list Z) : M fs (Z * ptr) :=
  inode_nr ← testfs_dir_name_to_inode_nr dir name;
  if inode_nr <? 0 then mret (inode_nr, 0) else
  p ← testfs_get_inode inode_nr;
  type ← testfs_inode_get_type p;
  if type =? I_DIR then testfs_put_inode p;; mret (- EISDIR, 0)
  else mret (0, p).

Definition cmd_read (c : context) : M fs Z :=
  if negb (nargs c =? 4) then mret (- EINVAL) else
  filename ← arg c 1;
  str ← arg c 2;
  let '(ret, offset) := str_to_offset str in
  if ret <? 0 then mret ret else
  if offset <? 0 then mret (- EINVAL) else
  str ← arg c 3;
  let '(ret, size) := str_to_size str in
  if ret <? 0 then mret ret else
  '(ret, p) ← testfs_get_file_inode (cur_dir c) filename;
  if ret <? 0 then mret ret else
  file_size ← testfs_inode_get_size p;
  if file_size <? s64 (offset + s64 size) then
    testfs_put_inode p;; mret (- EINVAL)
  else
    ok ← host_ok;                                      (* malloc(size + 1) *)
    if negb ok then testfs_put_inode p;; mret (- ENOMEM) else
    buf ← uninit (u64 (size + 1));
    '(ret, buf) ← testfs_read_data p buf offset size;
    (if 0 <=? ret then
       buf ← buf_write buf size [0];
       s ← str_of_buf buf;
       print (OutBytes s);; print (OutBytes [10])
     else mret tt);;
    testfs_put_inode p;;
    mret ret.

Definition cmd_write (c : context) : M fs Z :=
  if negb (nargs c =? 4) then mret (- EINVAL) else
  filename ← arg c 1;
  str ← arg c 2;
  let '(ret, offset) := str_to_offset str in
  if ret <? 0 then mret ret else
  if offset <? 0 then mret (- EINVAL) else
  buf ← arg c 3;
  '(ret, p) ← testfs_get_file_inode (cur_dir c) filename;
  if ret <? 0 then mret ret else
  ret ← testfs_write_data p (c_str buf) offset (zlen buf);
  testfs_sync_inode p;;
  testfs_put_inode p;;
  mret ret.
