(* ===== verification/Shell.v ===== *)
(** * The command interpreter (fs/testfs.c)

    Tokenising command lines, the table of commands, and the main loop.  Option
    parsing (popt) is third-party: its results, [hide_prompt] and [verbose], are
    arguments.  Standard input is the list of the lines [getline] returns. *)

From stdpp Require Import base gmap list list_numbers strings.
From Stdlib Require Import ZArith Lia.
From S2P Require Import Prelude Words Bitmap Block FsState InodeHash Super Inode ReadWrite Dir File.
#[local] Open Scope Z_scope.

(** ** <string.h>: [strtok_r]

    The position of a scan is the rest of the string, [None] the null pointer. *)
Section strtok.
Context (delim : list Z).

Definition is_delim (x : Z) : bool := bool_decide (x ∈ delim).

Fixpoint skip_delims (l : list Z) : list Z :=
  match l with
  | x :: l' => if is_delim x then skip_delims l' else l
  | [] => []
  end.

(** a token and what follows its delimiter *)
Fixpoint token (l : list Z) : list Z * list Z :=
  match l with
  | x :: l' => if is_delim x then ([], l') else let '(t, r) := token l' in (x :: t, r)
  | [] => ([], [])
  end.

(** returns the token and [*save]; POSIX leaves a null [*save] undefined *)
Definition strtok_r {S} (s save : option (list Z)) : M S (option (list Z) * option (list Z)) :=
  l ← deref (match s with Some _ => s | None => save end);
  match skip_delims l with
  | [] => mret (None, Some [])
  | l => let '(t, r) := token l in mret (Some t, Some r)
  end.
End strtok.

Definition blank : list Z := [32; 9; 13; 10].    (* " \t\r\n" *)
Definition newline : list Z := [13; 10].         (* "\r\n" *)

(** ** The program's state *)

Record shell : Type := mk_shell {
  sh_fs : fs;
  sh_ctx : context;
  can_quit : bool;
  sh_err : list event;      (* stderr, latest first *)
}.

Definition on_fs {A} (m : M fs A) : M shell A :=
  zoom sh_fs (fun w s => mk_shell w (sh_ctx s) (can_quit s) (sh_err s)) m.
Definition set_ctx (c : context) : M shell unit :=
  modify (fun s => mk_shell (sh_fs s) c (can_quit s) (sh_err s)).
Definition set_quit : M shell unit :=
  modify (fun s => mk_shell (sh_fs s) (sh_ctx s) true (sh_err s)).
Definition eprint (e : event) : M shell unit :=
  modify (fun s => mk_shell (sh_fs s) (sh_ctx s) (can_quit s) (e :: sh_err s)).
Definition out (s : string) : M shell unit := on_fs (print (OutStr s)).

(** ** The table of commands *)

(** the functions the table points to *)
Inductive func : Type :=
  | F_help | F_cd | F_pwd | F_ls | F_lsr | F_create | F_stat | F_rm | F_mkdir | F_read
  | F_write | F_fsstat | F_quit.

Record cmd_entry : Type := mk_cmd {
  cmd_name : string;
  cmd_func : func;
  cmd_max_args : Z;
  cmd_help_text : string;
  cmd_usage : string;
}.

Definition cmdtable : list cmd_entry := [
  mk_cmd "help" F_help 1 "prints this help message." "usage: help";
  mk_cmd "cd" F_cd 2 "changes to directory DIR." "usage: cd DIR";
  mk_cmd "pwd" F_pwd 1 "prints current directory." "usage: pwd";
  mk_cmd "ls" F_ls 2 "lists files and directories in directory DIR." "usage: ls DIR";
  mk_cmd "lsr" F_lsr 2 "recursively lists files and directories in directory DIR." "usage: lsr DIR";
  mk_cmd "create" F_create 2 "creates a new file FILE in the current directory." "usage: create FILE";
  mk_cmd "stat" F_stat 2 "prints information on file or dir named NAME." "usage: stat NAME";
  mk_cmd "rm" F_rm 2 "removes a file or directory with name NAME." "usage: rm NAME";
  mk_cmd "mkdir" F_mkdir 2 "creates a new directory DIR in the current directory." "usage: mkdir DIR";
  mk_cmd "read" F_read 4 "reads SIZE bytes of ascii data from file FILE at offset OFFSET."
    "usage: read FILE OFFSET SIZE";
  mk_cmd "write" F_write 4 "write ascii data DATA to file FILE at offset OFFSET."
    "usage: write FILE OFFSET DATA";
  mk_cmd "fsstat" F_fsstat 1 "print inode and block usage." "usage: fsstat";
  mk_cmd "quit" F_quit 1 "quits this program." "usage: quit"
].

(** [printf("%8s")] *)
Fixpoint spaces (n : nat) : string :=
  match n with
  | O => ""
  | S n' => String.append " " (spaces n')
  end.
Definition pad8 (s : string) : string := String.append (spaces (8 - String.length s)) s.

Fixpoint help_lines (l : list cmd_entry) : M shell unit :=
  match l with
  | [] => mret tt
  | e :: l' =>
      out (pad8 (cmd_name e));; out " - ";; out (cmd_help_text e);; out " ";;
      out (cmd_usage e);; on_fs (print (OutBytes [10]));;
      help_lines l'
  end.

Definition cmd_help : M shell Z :=
  out "Commands:";; on_fs (print (OutBytes [10]));;
  help_lines cmdtable;;
  mret 0.

Definition cmd_quit : M shell Z :=
  out "Bye!";; on_fs (print (OutBytes [10]));;
  set_quit;;
  mret 0.

(** the call [cmdtable[i].func(sb, c)] *)
Definition call_func (f : func) : M shell Z :=
  c ← gets sh_ctx;
  match f with
  | F_help => cmd_help
  | F_cd =>
      '(ret, dir) ← on_fs (cmd_cd c);
      set_ctx (mk_context (nargs c) (cmd c) dir);;
      mret ret
  | F_pwd => on_fs (cmd_pwd c)
  | F_ls => on_fs (cmd_ls c)
  | F_lsr => on_fs (cmd_lsr c)
  | F_create => on_fs (cmd_create c)
  | F_stat => on_fs (cmd_stat c)
  | F_rm => on_fs (cmd_rm c)
  | F_mkdir => on_fs (cmd_mkdir c)
  | F_read => on_fs (cmd_read c)
  | F_write => on_fs (cmd_write c)
  | F_fsstat => on_fs (cmd_fsstat (nargs c))
  | F_quit => cmd_quit
  end.

(** ** Parsing a command line *)

(** The loop of [parse_command]: [n] is [max_args - j]; returns the words, [args]
    and [save]. *)
Fixpoint parse_words {S} (n : nat) (args save : option (list Z)) :
    M S (list (list Z) * option (list Z) * option (list Z)) :=
  match n with
  | O => mret ([], args, save)
  | S n' =>
      '(w, save) ← strtok_r blank args save;
      match w with
      | None => mret ([], args, save)
      | Some w =>
          '(ws, args, save) ← parse_words n' None save;
          mret (w :: ws, args, save)
      end
  end.

(** [c->cmd] has [MAX_ARGS + 1] slots *)
Definition parse_command (max_args : Z) (c : context) (name : list Z) (args : option (list Z)) :
    M shell context :=
  '(ws, args, save) ← parse_words (Z.to_nat (max_args - 1)) args None;
  '(rest, save) ← strtok_r newline args save;
  let words := name :: ws ++ match rest with Some r => [r] | None => [] end in
  if MAX_ARGS + 1 <? Z.of_nat (length words) then stop Undefined else
  mret (mk_context (Z.of_nat (length words))
    (map Some words ++ replicate (Z.to_nat (MAX_ARGS + 1) - length words) None) (cur_dir c)).

Fixpoint find_command (l : list cmd_entry) (name : list Z) : option cmd_entry :=
  match l with
  | [] => None
  | e :: l' => if bool_decide (name = bytes_of (cmd_name e)) then Some e else find_command l' name
  end.

(** the call through the table, and the message when it fails *)
Definition run_command (e : cmd_entry) (name : list Z) : M shell unit :=
  ret ← call_func (cmd_func e);
  if ret <? 0 then
    eprint (OutBytes name);; eprint (OutStr ": ");; eprint (OutDec (- ret));;
    eprint (OutBytes [10]);;
    eprint (OutStr (cmd_usage e));; eprint (OutBytes [10])
  else mret tt.

Definition handle_command (name args : option (list Z)) : M shell unit :=
  match name with
  | None => mret tt
  | Some name =>
      match find_command cmdtable name with
      | Some e =>
          c ← gets sh_ctx;
          c ← parse_command (cmd_max_args e) c name args;
          set_ctx c;;
          run_command e name
      | None =>
          eprint (OutBytes name);;
          eprint (OutStr ": command not found. type ");; eprint (OutBytes (34 :: bytes_of "help" ++ [34; 10]))
      end
  end.

(** ** main *)

(** one pass of the loop over a line *)
Definition handle_line (verbose : bool) (line : list Z) : M shell unit :=
  if bool_decide (head line = Some 35) then mret tt else   (* '#' *)
  (if verbose then on_fs (print (OutBytes line)) else mret tt);;
  '(cname, save) ← strtok_r blank (Some line) None;
  '(pargs, save) ← strtok_r newline None save;
  handle_command cname pargs.

Fixpoint main_loop (hide_prompt verbose : bool) (stdin : list (list Z)) : M shell unit :=
  (if hide_prompt then mret tt else out "% ");;
  match stdin with
  | [] => mret tt
  | line :: stdin =>
      handle_line verbose line;;
      quit ← gets can_quit;
      if quit : bool then mret tt else main_loop hide_prompt verbose stdin
  end.

(** [c.nargs] and [c.cmd] start uninitialised *)
Definition main (hide_prompt verbose : bool) (stdin : list (list Z)) : M shell Z :=
  ret ← on_fs testfs_init_super_block;
  if negb (ret =? 0) then stop Exited else
  root ← on_fs (testfs_get_inode 0);
  set_ctx (mk_context 0 [] root);;
  main_loop hide_prompt verbose stdin;;
  c ← gets sh_ctx;
  on_fs (testfs_put_inode (cur_dir c));;
  on_fs testfs_close_super_block;;
  mret 0.
