(* ===== verification/Mktestfs.v ===== *)
(** * Making a file system (fs/mktestfs.c)

    Option parsing (popt) is third-party: its result, the size in megabytes left
    in [fs_size_mb], and whether exactly one device was named, are arguments. *)

From stdpp Require Import base gmap list list_numbers strings.
From Stdlib Require Import ZArith Lia.
From S2P Require Import Prelude Words Bitmap Block FsState InodeHash Super Inode ReadWrite Dir.
#[local] Open Scope Z_scope.

(** [usage()] ends in [exit(1)] *)
Definition usage {A} : M fs A := stop Exited.

Definition max_fs_size_mb : Z :=
  Z.shiftr (u64 (u64 (BLOCK_FREEMAP_SIZE * BLOCK_SIZE * 8) * BLOCK_SIZE)) 20.

(** the steps between option parsing and the messages *)
Definition make_fs (fs_size_mb : Z) : M fs unit :=
  let max_fs_blocks := u64 (Z.shiftl fs_size_mb 20) / BLOCK_SIZE in
  testfs_make_super_block max_fs_blocks;;
  testfs_make_inode_freemap;;
  testfs_make_block_freemap;;
  testfs_make_inode_blocks;;
  testfs_close_super_block.

Definition main (fs_size_mb : Z) (one_device : bool) : M fs Z :=
  if fs_size_mb <? 1 then usage else
  if max_fs_size_mb <? fs_size_mb then usage else
  if negb one_device then usage else
  let max_fs_blocks := u64 (Z.shiftl fs_size_mb 20) / BLOCK_SIZE in
  make_fs fs_size_mb;;
  ret ← testfs_init_super_block;
  if negb (ret =? 0) then stop Exited else
  testfs_make_root_dir;;
  testfs_close_super_block;;
  print (OutStr "block size: ");; print (OutDec BLOCK_SIZE);; print (OutBytes [10]);;
  print (OutStr "max file system blocks: ");; print (OutDec max_fs_blocks);; print (OutBytes [10]);;
  print (OutStr "max file system size: ");;
  print (OutDec (s64 (u64 (max_fs_blocks * BLOCK_SIZE))));; print (OutBytes [10]);;
  print (OutBytes [10]);;
  print (OutStr "inode size: ");; print (OutDec sizeof_dinode);; print (OutBytes [10]);;
  print (OutStr "max number of inodes: ");;
  print (OutDec (u32 (NR_INODE_BLOCKS * INODES_PER_BLOCK)));; print (OutBytes [10]);;
  let max_file_blocks :=
    NR_DIRECT_BLOCKS + NR_INDIRECT_BLOCKS + NR_INDIRECT_BLOCKS * NR_INDIRECT_BLOCKS in
  print (OutStr "max file size: ");;
  print (OutDec (s64 (u64 (max_file_blocks * BLOCK_SIZE))));;
  print (OutStr " bytes");; print (OutBytes [10; 10]);;
  mret 0.
