(* ===== verification/Threads.v ===== *)
(** * User-level threads (threads/thread.c, threads/interrupt.c)

    The state is the memory the library works on: thread control blocks, queue
    nodes, wait queues, locks and condition variables, each kind a map from
    addresses; a missing address is freed or invalid storage.  A field is
    [None] while it is uninitialised, and a pointer field holds 0 for NULL.

    A call of the library either returns to the calling thread ([Done]) or
    switches to the saved context of another one ([Switched]); [resume] runs the
    rest of the library call that the context was saved in.  Interrupts only
    arrive while they are enabled and call [thread_yield (THREAD_ANY)]. *)

From stdpp Require Import base gmap list list_numbers.
From Stdlib Require Import ZArith Lia.
From S2P Require Import Prelude Words.
#[local] Open Scope Z_scope.

Definition THREAD_MAX_THREADS : Z := 1024.
Definition THREAD_ANY : Z := -1.
Definition THREAD_SELF : Z := -2.
Definition THREAD_INVALID : Z := -3.
Definition THREAD_NONE : Z := -4.
Definition THREAD_NOMORE : Z := -5.
Definition THREAD_NOMEMORY : Z := -6.

Definition thread_ret_ok (ret : Z) : Z := if 0 <=? ret then 1 else 0.

(** ** State *)

Inductive Status : Type := RUNNING | READY | BLOCKED | EXITED.

#[global] Instance Status_eq_dec : EqDecision Status.
Proof. solve_decision. Defined.

(** [struct queue]: a node, or the head of a queue, whose [thread] is not used *)
Record queue : Type := mk_queue {
  q_thread : option Z;
  q_next : option Z;
}.

(** what a library call that sleeps still has to do when the sleep is over *)
Inductive frame : Type :=
  | F_wait (tid : Z) (enabled : bool)        (* thread_wait *)
  | F_lock (lock : Z) (enabled : bool)       (* the loop of lock_acquire *)
  | F_cv_sleep (lock : Z) (enabled : bool)   (* cv_wait, before lock_acquire *)
  | F_cv_end (enabled : bool)                (* cv_wait, after lock_acquire *)
  | F_sigreturn.                             (* the end of a signal handler *)

(** the [ucontext_t] of a thread: where it continues *)
Inductive ucontext : Type :=
  | C_init                                              (* as thread_init saved it *)
  | C_start (fn arg : Z)                                (* thread_stub(fn, arg) *)
  | C_yield (enabled : bool) (ready_thread : Z) (k : list frame)   (* in thread_yield *)
  | C_sleep (enabled : bool) (ready_id : Z) (k : list frame).   (* in thread_sleep *)

Record thread : Type := mk_thread {
  t_id : Z;
  t_status : Status;
  t_context : ucontext;
  t_stack : option Z;
  t_setcontext_called : Z;
  t_killmepls : option Z;
  t_queue : Z;
}.

Record lock : Type := mk_lock {
  l_queue : Z;
  l_thread : option Z;
  l_acquired : Z;
}.

Record st : Type := mk_st {
  threads : list Z;              (* the array: THREAD_MAX_THREADS pointers *)
  tcbs : gmap Z thread;
  nodes : gmap Z queue;
  wqs : gmap Z Z;                (* struct wait_queue: the pointer wait *)
  locks : gmap Z lock;
  cvs : gmap Z Z;                (* struct cv: the pointer queue *)
  ready_queue : Z;
  next_addr : Z;                 (* what malloc returns next *)
  mallocs : list bool;           (* outcomes of the next mallocs; then they succeed *)
  zeroed : bool;                 (* malloc returns zeroed storage *)
  enabled : bool;                (* interrupts *)
  pending : option ucontext;     (* a context switched to and not yet resumed *)
  count_stack : Z;
  count_thread : Z;
  count_queue : Z;
}.

Definition with_threads x s := mk_st x (tcbs s) (nodes s) (wqs s) (locks s) (cvs s) (ready_queue s)
  (next_addr s) (mallocs s) (zeroed s) (enabled s) (pending s) (count_stack s) (count_thread s) (count_queue s).
Definition with_tcbs x s := mk_st (threads s) x (nodes s) (wqs s) (locks s) (cvs s) (ready_queue s)
  (next_addr s) (mallocs s) (zeroed s) (enabled s) (pending s) (count_stack s) (count_thread s) (count_queue s).
Definition with_nodes x s := mk_st (threads s) (tcbs s) x (wqs s) (locks s) (cvs s) (ready_queue s)
  (next_addr s) (mallocs s) (zeroed s) (enabled s) (pending s) (count_stack s) (count_thread s) (count_queue s).
Definition with_wqs x s := mk_st (threads s) (tcbs s) (nodes s) x (locks s) (cvs s) (ready_queue s)
  (next_addr s) (mallocs s) (zeroed s) (enabled s) (pending s) (count_stack s) (count_thread s) (count_queue s).
Definition with_locks x s := mk_st (threads s) (tcbs s) (nodes s) (wqs s) x (cvs s) (ready_queue s)
  (next_addr s) (mallocs s) (zeroed s) (enabled s) (pending s) (count_stack s) (count_thread s) (count_queue s).
Definition with_cvs x s := mk_st (threads s) (tcbs s) (nodes s) (wqs s) (locks s) x (ready_queue s)
  (next_addr s) (mallocs s) (zeroed s) (enabled s) (pending s) (count_stack s) (count_thread s) (count_queue s).
Definition with_ready_queue x s := mk_st (threads s) (tcbs s) (nodes s) (wqs s) (locks s) (cvs s) x
  (next_addr s) (mallocs s) (zeroed s) (enabled s) (pending s) (count_stack s) (count_thread s) (count_queue s).
Definition with_next_addr x s := mk_st (threads s) (tcbs s) (nodes s) (wqs s) (locks s) (cvs s) (ready_queue s)
  x (mallocs s) (zeroed s) (enabled s) (pending s) (count_stack s) (count_thread s) (count_queue s).
Definition with_mallocs x s := mk_st (threads s) (tcbs s) (nodes s) (wqs s) (locks s) (cvs s) (ready_queue s)
  (next_addr s) x (zeroed s) (enabled s) (pending s) (count_stack s) (count_thread s) (count_queue s).
Definition with_enabled x s := mk_st (threads s) (tcbs s) (nodes s) (wqs s) (locks s) (cvs s) (ready_queue s)
  (next_addr s) (mallocs s) (zeroed s) x (pending s) (count_stack s) (count_thread s) (count_queue s).
Definition with_pending x s := mk_st (threads s) (tcbs s) (nodes s) (wqs s) (locks s) (cvs s) (ready_queue s)
  (next_addr s) (mallocs s) (zeroed s) (enabled s) x (count_stack s) (count_thread s) (count_queue s).
Definition with_count_stack x s := mk_st (threads s) (tcbs s) (nodes s) (wqs s) (locks s) (cvs s) (ready_queue s)
  (next_addr s) (mallocs s) (zeroed s) (enabled s) (pending s) x (count_thread s) (count_queue s).
Definition with_count_thread x s := mk_st (threads s) (tcbs s) (nodes s) (wqs s) (locks s) (cvs s) (ready_queue s)
  (next_addr s) (mallocs s) (zeroed s) (enabled s) (pending s) (count_stack s) x (count_queue s).
Definition with_count_queue x s := mk_st (threads s) (tcbs s) (nodes s) (wqs s) (locks s) (cvs s) (ready_queue s)
  (next_addr s) (mallocs s) (zeroed s) (enabled s) (pending s) (count_stack s) (count_thread s) x.

(** the counters are statistics: they are kept, and never read *)
Definition add_count_stack (x : Z) : M st unit := modify (fun s => with_count_stack (s32 (count_stack s + x)) s).
Definition add_count_thread (x : Z) : M st unit := modify (fun s => with_count_thread (s32 (count_thread s + x)) s).
Definition add_count_queue (x : Z) : M st unit := modify (fun s => with_count_queue (s32 (count_queue s + x)) s).

(** ** Storage *)

(** [malloc]: 0 or a fresh address *)
Definition malloc : M st Z :=
  s ← get;
  match mallocs s with
  | false :: l => modify (with_mallocs l);; mret 0
  | l =>
      modify (fun s => with_mallocs (tail l) (with_next_addr (next_addr s + 1) s));;
      mret (next_addr s)
  end.
(** [malloc] whose result is used without a test *)
Definition malloc_used : M st Z :=
  p ← malloc; if p =? 0 then stop Undefined else mret p.
(** the content of a field of fresh storage *)
Definition fresh : M st (option Z) :=
  s ← get; mret (if zeroed s then Some 0 else None).

Definition get_tcb (p : Z) : M st thread := s ← get; deref (tcbs s !! p).
Definition upd_tcb (p : Z) (f : thread -> thread) : M st unit :=
  t ← get_tcb p; modify (fun s => with_tcbs (<[p := f t]> (tcbs s)) s).
Definition get_node (p : Z) : M st queue := s ← get; deref (nodes s !! p).
Definition upd_node (p : Z) (f : queue -> queue) : M st unit :=
  q ← get_node p; modify (fun s => with_nodes (<[p := f q]> (nodes s)) s).
Definition put_node (p : Z) (q : queue) : M st unit :=
  modify (fun s => with_nodes (<[p := q]> (nodes s)) s).
Definition free_node (p : Z) : M st unit :=
  get_node p;; modify (fun s => with_nodes (delete p (nodes s)) s).
Definition next_of (p : Z) : M st Z := q ← get_node p; deref (q_next q).
Definition thread_of (p : Z) : M st Z := q ← get_node p; deref (q_thread q).
Definition set_next (p x : Z) : M st unit := upd_node p (fun q => mk_queue (q_thread q) (Some x)).
(** [threads[i]] *)
Definition thread_at (i : Z) : M st Z :=
  s ← get; if i <? 0 then stop Undefined else deref (threads s !! Z.to_nat i).
Definition set_thread_at (i p : Z) : M st unit :=
  thread_at i;; modify (fun s => with_threads (<[Z.to_nat i := p]> (threads s)) s).
(** the pointer [wait] of a wait queue *)
Definition wait_of (wq : Z) : M st Z := s ← get; deref (wqs s !! wq).

Definition set_t_status (x : Status) (t : thread) : thread :=
  mk_thread (t_id t) x (t_context t) (t_stack t) (t_setcontext_called t) (t_killmepls t) (t_queue t).
Definition set_t_context (x : ucontext) (t : thread) : thread :=
  mk_thread (t_id t) (t_status t) x (t_stack t) (t_setcontext_called t) (t_killmepls t) (t_queue t).
Definition set_t_stack (x : option Z) (t : thread) : thread :=
  mk_thread (t_id t) (t_status t) (t_context t) x (t_setcontext_called t) (t_killmepls t) (t_queue t).
Definition set_t_killmepls (x : Z) (t : thread) : thread :=
  mk_thread (t_id t) (t_status t) (t_context t) (t_stack t) (t_setcontext_called t) (Some x) (t_queue t).

(** ** interrupt.c: the previous state is returned *)
Definition interrupts_set (x : bool) : M st bool :=
  s ← get; modify (with_enabled x);; mret (enabled s).
Definition interrupts_on : M st bool := interrupts_set true.
Definition interrupts_off : M st bool := interrupts_set false.
Definition interrupts_enabled : M st bool := gets enabled.

(** ** Queues *)

Definition queue_count (queue : Z) : M st Z :=
  if queue =? 0 then mret 0 else
  first ← next_of queue;
  if first =? 0 then mret 0 else
  while_ (fun '(curr, count) =>
    next ← next_of curr;
    if next =? 0 then mret (inr count) else mret (inl (next, s32 (count + 1)))) (queue, 0).

Definition get_first (queue : Z) : M st Z :=
  if queue =? 0 then mret THREAD_NONE else
  first ← next_of queue;
  if first =? 0 then mret THREAD_NONE else
  p ← thread_of first;
  t ← get_tcb p;
  mret (t_id t).

Definition add_to_queue (queue thread : Z) : M st unit :=
  if queue =? 0 then mret tt else
  new ← malloc_used;
  add_count_queue 1;;
  put_node new (mk_queue (Some thread) (Some 0));;
  first ← next_of queue;
  if first =? 0 then set_next queue new else
  temp ← while_ (fun temp =>
    next ← next_of temp;
    if next =? 0 then mret (inr temp) else mret (inl next)) queue;
  set_next temp new.

(** the id of the thread of a node *)
Definition node_id (curr : Z) : M st Z := p ← thread_of curr; t ← get_tcb p; mret (t_id t).

Definition delete_from_queue (queue id : Z) : M st unit :=
  if queue =? 0 then mret tt else
  first ← next_of queue;
  if first =? 0 then mret tt else
  '(prev, curr) ← while_ (fun '(prev, curr) =>
    i ← node_id curr;
    if i =? id then mret (inr (prev, curr)) else
    next ← next_of curr;
    if next =? 0 then mret (inr (prev, curr)) else mret (inl (curr, next))) (queue, first);
  i ← node_id curr;
  if i =? id then
    next ← next_of curr;
    set_next prev next;;
    free_node curr;;
    add_count_queue (-1)
  else mret tt.

Definition delete_from_all_queues (id : Z) : M st unit :=
  for_ (Z.to_nat THREAD_MAX_THREADS) 0 (fun i =>
    p ← thread_at i;
    if p =? 0 then mret tt else
    t ← get_tcb p;
    curr ← wait_of (t_queue t);
    next ← next_of curr;
    while_ (fun curr =>
      if curr =? 0 then mret (inr tt) else
      thread ← thread_of curr;
      same ← (if thread =? 0 then mret false else t' ← get_tcb thread; mret (t_id t' =? id));
      (if same : bool then
         p ← thread_at i;
         t ← get_tcb p;
         wait ← wait_of (t_queue t);
         delete_from_queue wait id
       else mret tt);;
      next ← next_of curr;
      mret (inl next)) (if next =? 0 then curr else next)).

(** ** Thread identifiers *)

(** the first index [i >= from] of [l] whose thread satisfies [f] *)
Fixpoint first_thread (f : Z -> M st bool) (l : list Z) (from : Z) : M st (option Z) :=
  match l with
  | [] => mret None
  | p :: l' =>
      b ← f p;
      if b : bool then mret (Some from) else first_thread f l' (from + 1)
  end.

(** [threads[i] != NULL && threads[i]->status == x] *)
Definition has_status (x : Status) (p : Z) : M st bool :=
  if p =? 0 then mret false else t ← get_tcb p; mret (bool_decide (t_status t = x)).

Definition thread_id : M st Z :=
  s ← get;
  r ← first_thread (has_status RUNNING) (threads s) 0;
  mret (default THREAD_INVALID r).

Definition get_id : M st Z :=
  s ← get;
  r ← first_thread (fun p =>
        if p =? 0 then mret true else
        t ← get_tcb p;
        mret (bool_decide (t_status t <> RUNNING /\ t_status t <> READY /\ t_status t <> BLOCKED)))
      (threads s) 0;
  mret (default THREAD_NOMORE r).

(** the control block of the running thread, [threads[thread_id()]] *)
Definition current : M st Z :=
  id ← thread_id;
  p ← thread_at id;
  if p =? 0 then stop Undefined else mret p.

(** ** Wait queues *)

Definition wait_queue_create : M st Z :=
  enabled ← interrupts_off;
  wq ← malloc;
  assert_ (negb (wq =? 0));;
  wait ← malloc_used;
  junk ← fresh;
  put_node wait (mk_queue junk (Some 0));;
  modify (fun s => with_wqs (<[wq := wait]> (wqs s)) s);;
  interrupts_set enabled;;
  mret wq.

Definition wait_queue_destroy (wq : Z) : M st unit :=
  wait ← wait_of wq;
  while_ (fun _ : unit =>
    first ← get_first wait;
    if first =? THREAD_NONE then mret (inr tt) else
    killme ← get_first wait;
    delete_from_queue wait killme;;
    mret (inl tt)) tt;;
  free_node wait;;
  modify (fun s => with_wqs (delete wq (wqs s)) s).

(** wakes up: 1 or all; returns the return value *)
Definition thread_wakeup (queue : Z) (all : bool) : M st Z :=
  enabled ← interrupts_off;
  empty ←
    (if queue =? 0 then mret true else
     wait ← wait_of queue;
     if wait =? 0 then mret true else
     next ← next_of wait;
     mret (next =? 0));
  if empty : bool then interrupts_set enabled;; mret 0 else
  wait ← wait_of queue;
  ready ← gets ready_queue;
  if all then
    wake_id ← get_first wait;
    count ← while_ (fun '(wake_id, count) =>
      if wake_id =? THREAD_NONE then mret (inr count) else
      delete_from_queue wait wake_id;;
      p ← thread_at wake_id;
      add_to_queue ready p;;
      upd_tcb p (set_t_status READY);;
      wake_id ← get_first wait;
      mret (inl (wake_id, s32 (count + 1)))) (wake_id, 0);
    interrupts_set enabled;;
    mret count
  else
    wake_id ← get_first wait;
    (if wake_id =? THREAD_NONE then mret tt else
     delete_from_queue wait wake_id;;
     p ← thread_at wake_id;
     add_to_queue ready p;;
     upd_tcb p (set_t_status READY));;
    interrupts_set enabled;;
    mret 1.

(** ** Creating and freeing threads *)

(** [free(threads[id]->stack)]: an uninitialised pointer may not be freed *)
Definition free_thread (id : Z) : M st unit :=
  p ← thread_at id;
  t ← get_tcb p;
  deref (t_stack t);;
  upd_tcb p (set_t_stack (Some 0));;
  wait_queue_destroy (t_queue t);;
  modify (fun s => with_tcbs (delete p (tcbs s)) s);;
  set_thread_at id 0.

Definition free_exited : M st Z :=
  s ← get;
  r ← first_thread (has_status EXITED) (threads s) 0;
  match r with
  | Some i =>
      ready ← gets ready_queue;
      delete_from_queue ready i;;
      free_thread i;;
      mret i
  | None => mret THREAD_NONE
  end.

Definition thread_init : M st unit :=
  thread0 ← malloc_used;
  wq ← malloc_used;
  wait ← malloc_used;
  junk ← fresh;
  put_node wait (mk_queue junk junk);;
  modify (fun s => with_wqs (<[wq := wait]> (wqs s)) s);;
  modify (fun s => with_tcbs (<[thread0 := mk_thread 0 RUNNING C_init junk 0 junk wq]> (tcbs s)) s);;
  set_thread_at 0 thread0;;
  rq ← malloc_used;
  put_node rq (mk_queue junk (Some 0));;
  modify (with_ready_queue rq).

Definition thread_create (fn parg : Z) : M st Z :=
  enabled ← interrupts_off;
  id ← get_id;
  if id =? THREAD_NOMORE then interrupts_set enabled;; mret THREAD_NOMORE else
  thread_stack ← malloc;
  add_count_stack 1;;
  if thread_stack =? 0 then
    interrupts_set enabled;;
    add_count_stack (-1);;
    mret THREAD_NOMEMORY
  else
    thread ← malloc;
    add_count_thread 1;;
    if thread =? 0 then
      add_count_stack (-1);;
      add_count_thread (-1);;
      interrupts_set enabled;;
      mret THREAD_NOMEMORY
    else
      id ← get_id;
      wq ← malloc_used;
      wait ← malloc_used;
      junk ← fresh;
      put_node wait (mk_queue junk junk);;
      modify (fun s => with_wqs (<[wq := wait]> (wqs s)) s);;
      modify (fun s => with_tcbs (<[thread :=
        mk_thread id READY (C_start fn parg) (Some thread_stack) 0 (Some 0) wq]> (tcbs s)) s);;
      set_thread_at id thread;;
      ready ← gets ready_queue;
      add_to_queue ready thread;;
      interrupts_set enabled;;
      mret id.

(** ** Context switches *)

Inductive control : Type :=
  | Done (v : Z)              (* the running thread continues, with this result *)
  | Switched                  (* another thread is about to continue *)
  | Start (fn arg : Z).       (* a new thread starts running fn(arg) *)

(** [getcontext(&p->context)] at the point [c]; [setcontext(&p->context)] *)
Definition getcontext (p : Z) (c : ucontext) : M st unit := upd_tcb p (set_t_context c).
Definition setcontext (p : Z) : M st control :=
  t ← get_tcb p; modify (with_pending (Some (t_context t)));; mret Switched.

(** [k] is what the caller does after the call *)
Definition thread_yield (want_tid : Z) (k : list frame) : M st control :=
  enabled ← interrupts_off;
  running_id ← thread_id;
  free_exited;;
  let valid_id := (0 <=? want_tid) && (want_tid <? THREAD_MAX_THREADS) in
  running ← thread_id;
  let YIELD_SELF := (want_tid =? THREAD_SELF) || (valid_id && (running =? want_tid)) in
  let YIELD_ANY := want_tid =? THREAD_ANY in
  YIELD_SPECIFIC ←
    (if valid_id then p ← thread_at want_tid; has_status READY p else mret false);
  if YIELD_SELF then interrupts_set enabled;; mret (Done running_id) else
  ready ← gets ready_queue;
  ready_id ← (if YIELD_ANY then get_first ready
              else if YIELD_SPECIFIC : bool then mret want_tid
              else mret THREAD_INVALID);
  if negb YIELD_ANY && negb YIELD_SPECIFIC then interrupts_set enabled;; mret (Done THREAD_INVALID) else
  if ready_id =? THREAD_NONE then interrupts_set enabled;; mret (Done THREAD_NONE) else
  ready_thread ← thread_at ready_id;
  delete_from_queue ready ready_id;;
  free_exited;;
  running_thread ← thread_at running_id;
  getcontext running_thread (C_yield enabled ready_thread k);;
  upd_tcb ready_thread (set_t_status RUNNING);;
  upd_tcb running_thread (set_t_status READY);;
  add_to_queue ready running_thread;;
  setcontext ready_thread.

(** [k] is what the caller does after the sleep *)
Definition thread_sleep (queue : Z) (k : list frame) : M st control :=
  enabled ← interrupts_off;
  if queue =? 0 then interrupts_set enabled;; mret (Done THREAD_INVALID) else
  ready ← gets ready_queue;
  ready_id ← get_first ready;
  if ready_id =? THREAD_NONE then interrupts_set enabled;; mret (Done THREAD_NONE) else
  ready_thread ← thread_at ready_id;
  wait_thread ← current;
  getcontext wait_thread (C_sleep enabled ready_id k);;
  wait ← wait_of queue;
  add_to_queue wait wait_thread;;
  t ← get_tcb ready_thread;
  delete_from_queue ready (t_id t);;
  upd_tcb ready_thread (set_t_status RUNNING);;
  upd_tcb wait_thread (set_t_status BLOCKED);;
  setcontext ready_thread.

Definition yeet : M st control :=
  ready ← gets ready_queue;
  ready_id ← get_first ready;
  if ready_id =? THREAD_NONE then mret (Done THREAD_NONE) else
  p ← thread_at ready_id;
  upd_tcb p (set_t_status RUNNING);;
  t ← get_tcb p;
  delete_from_queue ready (t_id t);;
  setcontext p.

(** it does not return to its caller *)
Definition thread_exit : M st control :=
  enabled ← interrupts_off;
  free_exited;;
  p ← current;
  upd_tcb p (set_t_killmepls 1);;
  id ← thread_id;
  delete_from_all_queues id;;
  p ← current;
  t ← get_tcb p;
  thread_wakeup (t_queue t) true;;
  p ← current;
  upd_tcb p (set_t_status EXITED);;
  r ← yeet;
  match r with
  | Done _ => stop Exited                 (* exit(0) *)
  | _ => mret r
  end.

Definition thread_kill (tid : Z) : M st Z :=
  enabled ← interrupts_off;
  valid_id ←
    (if (0 <=? tid) && (tid <? THREAD_MAX_THREADS) then
       p ← thread_at tid;
       running ← thread_id;
       mret (negb (p =? 0) && negb (tid =? running))
     else mret false);
  if negb valid_id then interrupts_set enabled;; mret THREAD_INVALID else
  p ← thread_at tid;
  upd_tcb p (set_t_status EXITED);;
  ready ← gets ready_queue;
  delete_from_queue ready tid;;
  p ← thread_at tid;
  t ← get_tcb p;
  thread_wakeup (t_queue t) true;;
  delete_from_all_queues tid;;
  free_exited;;
  interrupts_set enabled;;
  mret tid.

Definition thread_wait (tid : Z) : M st control :=
  enabled ← interrupts_off;
  valid_id ←
    (if (0 <=? tid) && (tid <? THREAD_MAX_THREADS) then
       p ← thread_at tid;
       running ← thread_id;
       mret (negb (p =? 0) && negb (tid =? running))
     else mret false);
  if negb valid_id then interrupts_set enabled;; mret (Done THREAD_INVALID) else
  p ← thread_at tid;
  t ← get_tcb p;
  r ← thread_sleep (t_queue t) [F_wait tid enabled];
  match r with
  | Done _ => interrupts_set enabled;; mret (Done tid)
  | _ => mret r
  end.

(** ** Locks and condition variables *)

Definition get_lock (l : Z) : M st lock := s ← get; deref (locks s !! l).
Definition put_lock (l : Z) (x : lock) : M st unit :=
  modify (fun s => with_locks (<[l := x]> (locks s)) s).

Definition lock_create : M st Z :=
  enabled ← interrupts_off;
  l ← malloc;
  assert_ (negb (l =? 0));;
  queue ← wait_queue_create;
  junk ← fresh;
  put_lock l (mk_lock queue junk 0);;
  interrupts_set enabled;;
  mret l.

Definition lock_destroy (l : Z) : M st unit :=
  enabled ← interrupts_off;
  assert_ (negb (l =? 0));;
  x ← get_lock l;
  (if l_acquired x =? 0 then
     wait_queue_destroy (l_queue x);;
     modify (fun s => with_locks (delete l (locks s)) s)
   else mret tt);;
  interrupts_set enabled;;
  mret tt.

(** the loop of [lock_acquire] and what follows it; [k] is what the caller does
    after the acquisition *)
Definition acquire_loop (l : Z) (enabled : bool) (k : list frame) : M st control :=
  while_ (fun _ : unit =>
    x ← get_lock l;
    if l_acquired x =? 1 then
      r ← thread_sleep (l_queue x) (F_lock l enabled :: k);
      match r with
      | Done _ => mret (inl tt)
      | _ => mret (inr r)
      end
    else
      id ← thread_id;
      put_lock l (mk_lock (l_queue x) (Some id) 1);;
      interrupts_set enabled;;
      mret (inr (Done 0))) tt.

Definition lock_acquire (l : Z) (k : list frame) : M st control :=
  enabled ← interrupts_off;
  assert_ (negb (l =? 0));;
  acquire_loop l enabled k.

Definition lock_release (l : Z) : M st unit :=
  enabled ← interrupts_off;
  assert_ (negb (l =? 0));;
  x ← get_lock l;
  mine ← (if l_acquired x =? 1 then
            id ← thread_id; holder ← deref (l_thread x); mret (id =? holder)
          else mret false);
  (if mine : bool then
     put_lock l (mk_lock (l_queue x) (l_thread x) 0);;
     thread_wakeup (l_queue x) true;;
     mret tt
   else mret tt);;
  interrupts_set enabled;;
  mret tt.

(** [lock->thread == thread_id()] *)
Definition holds (l : Z) : M st bool :=
  x ← get_lock l; holder ← deref (l_thread x); id ← thread_id; mret (holder =? id).

Definition get_cv (c : Z) : M st Z := s ← get; deref (cvs s !! c).

Definition cv_create : M st Z :=
  enabled ← interrupts_off;
  c ← malloc;
  assert_ (negb (c =? 0));;
  queue ← wait_queue_create;
  modify (fun s => with_cvs (<[c := queue]> (cvs s)) s);;
  interrupts_set enabled;;
  mret c.

Definition cv_destroy (c : Z) : M st unit :=
  enabled ← interrupts_off;
  assert_ (negb (c =? 0));;
  queue ← get_cv c;
  wait ← wait_of queue;
  next ← next_of wait;
  (if next =? 0 then
     wait_queue_destroy queue;;
     modify (fun s => with_cvs (delete c (cvs s)) s)
   else mret tt);;
  interrupts_set enabled;;
  mret tt.

(** the end of [cv_wait], from the call of [lock_acquire] on *)
Definition cv_acquire (l : Z) (enabled : bool) (k : list frame) : M st control :=
  r ← lock_acquire l (F_cv_end enabled :: k);
  match r with
  | Done _ => interrupts_set enabled;; mret (Done 0)
  | _ => mret r
  end.

Definition cv_wait (c l : Z) : M st control :=
  enabled ← interrupts_off;
  assert_ (negb (c =? 0));;
  assert_ (negb (l =? 0));;
  mine ← holds l;
  if mine : bool then
    lock_release l;;
    queue ← get_cv c;
    r ← thread_sleep queue [F_cv_sleep l enabled];
    match r with
    | Done _ => cv_acquire l enabled []
    | _ => mret r
    end
  else cv_acquire l enabled [].

Definition cv_notify (all : bool) (c l : Z) : M st unit :=
  enabled ← interrupts_off;
  assert_ (negb (c =? 0));;
  assert_ (negb (l =? 0));;
  mine ← holds l;
  (if mine : bool then queue ← get_cv c; thread_wakeup queue all;; mret tt else mret tt);;
  interrupts_set enabled;;
  mret tt.
Definition cv_signal : Z -> Z -> M st unit := cv_notify false.
Definition cv_broadcast : Z -> Z -> M st unit := cv_notify true.

(** ** Resuming a thread *)

(** the frames around a library call that returned *)
Fixpoint run_frames (k : list frame) (v : Z) : M st control :=
  match k with
  | [] => mret (Done v)
  | F_wait tid enabled :: k => interrupts_set enabled;; run_frames k tid
  | F_lock l enabled :: k =>
      r ← acquire_loop l enabled k;
      match r with Done v => run_frames k v | _ => mret r end
  | F_cv_sleep l enabled :: k =>
      r ← cv_acquire l enabled k;
      match r with Done v => run_frames k v | _ => mret r end
  | F_cv_end enabled :: k => interrupts_set enabled;; run_frames k 0
  | F_sigreturn :: k => interrupts_on;; run_frames k v
  end.

(** the thread that was switched to continues *)
Definition resume : M st control :=
  s ← get;
  c ← deref (pending s);
  modify (with_pending None);;
  match c with
  | C_init => stop Undefined             (* thread_init has returned *)
  | C_start fn arg => interrupts_on;; mret (Start fn arg)
  | C_yield enabled ready_thread k =>
      interrupts_set enabled;;
      t ← get_tcb ready_thread;
      run_frames k (t_id t)
  | C_sleep enabled ready_id k =>
      free_exited;;
      interrupts_set enabled;;
      run_frames k ready_id
  end.

(** interrupt.c: the handler, which runs with interrupts disabled *)
Definition interrupt_handler : M st control :=
  e ← interrupts_enabled;
  assert_ (negb e);;
  thread_yield THREAD_ANY [F_sigreturn].

(** The delivery of the timer signal, between two steps of the running thread: it
    is blocked during the handler and unblocked when the handler returns. *)
Definition timer_signal : M st control :=
  interrupts_off;;
  r ← interrupt_handler;
  match r with
  | Done v => interrupts_on;; mret (Done v)
  | _ => mret r
  end.
