(* ===== verification/Cache.v ===== *)
(** * The file cache of the web server (webserver/server_thread.c)

    [mem] is the storage of the process that the cache works on: the structures
    [cache_struct], [file_struct], [file_data] and [queue] and the character arrays,
    each kind a map from addresses; a missing address is freed or invalid storage.
    The array [table] is a map from indices to pointers whose missing entries are
    NULL.  A C string is the list of its bytes without the terminator.

    Everything in this file runs while [cache_lock] is held, except the functions on
    [file_data]. *)

From stdpp Require Import base gmap list list_numbers.
From Stdlib Require Import ZArith Lia.
From S2P Require Import Prelude Words.
#[local] Open Scope Z_scope.

(** ** State *)

Record file_data : Type := mk_data {
  file_name : Z;
  file_buf : Z;
  file_size : Z;
}.

Record file_struct : Type := mk_file {
  f_key : Z;
  f_data : Z;
  f_active : Z;
}.

(** [struct queue]; the index of the head is never set *)
Record lru_node : Type := mk_lru {
  n_index : option Z;
  n_next : Z;
}.

Record cache_struct : Type := mk_cache {
  curr_size : Z;
  max_size : Z;
  table_size : Z;
  c_queue : Z;
  c_table : gmap Z Z;
}.

Record mem : Type := mk_mem {
  m_cache : option cache_struct;
  m_files : gmap Z file_struct;
  m_datas : gmap Z file_data;
  m_chars : gmap Z (list Z);
  m_nodes : gmap Z lru_node;
  m_next : Z;                      (* what malloc returns next *)
}.

Definition with_cache x m := mk_mem x (m_files m) (m_datas m) (m_chars m) (m_nodes m) (m_next m).
Definition with_files x m := mk_mem (m_cache m) x (m_datas m) (m_chars m) (m_nodes m) (m_next m).
Definition with_datas x m := mk_mem (m_cache m) (m_files m) x (m_chars m) (m_nodes m) (m_next m).
Definition with_chars x m := mk_mem (m_cache m) (m_files m) (m_datas m) x (m_nodes m) (m_next m).
Definition with_nodes x m := mk_mem (m_cache m) (m_files m) (m_datas m) (m_chars m) x (m_next m).
Definition with_next x m := mk_mem (m_cache m) (m_files m) (m_datas m) (m_chars m) (m_nodes m) x.

(** [malloc] and [Malloc] are taken to succeed *)
Definition malloc : M mem Z := p ← gets m_next; modify (with_next (p + 1));; mret p.

Definition get_cache : M mem cache_struct := m ← get; deref (m_cache m).
Definition put_cache (c : cache_struct) : M mem unit := get_cache;; modify (with_cache (Some c)).
Definition get_file (p : Z) : M mem file_struct := m ← get; deref (m_files m !! p).
Definition put_file (p : Z) (x : file_struct) : M mem unit := modify (fun m => with_files (<[p := x]> (m_files m)) m).
Definition get_data (p : Z) : M mem file_data := m ← get; deref (m_datas m !! p).
Definition put_data (p : Z) (x : file_data) : M mem unit := modify (fun m => with_datas (<[p := x]> (m_datas m)) m).
Definition get_chars (p : Z) : M mem (list Z) := m ← get; deref (m_chars m !! p).
Definition put_chars (p : Z) (x : list Z) : M mem unit := modify (fun m => with_chars (<[p := x]> (m_chars m)) m).
Definition get_node (p : Z) : M mem lru_node := m ← get; deref (m_nodes m !! p).
Definition put_node (p : Z) (x : lru_node) : M mem unit := modify (fun m => with_nodes (<[p := x]> (m_nodes m)) m).
Definition next_of (p : Z) : M mem Z := n ← get_node p; mret (n_next n).
Definition index_of (p : Z) : M mem Z := n ← get_node p; deref (n_index n).
Definition set_next (p x : Z) : M mem unit := n ← get_node p; put_node p (mk_lru (n_index n) x).

(** [free]: freeing NULL does nothing *)
Definition free_chars (p : Z) : M mem unit :=
  if p =? 0 then mret tt else get_chars p;; modify (fun m => with_chars (delete p (m_chars m)) m).
Definition free_data (p : Z) : M mem unit := get_data p;; modify (fun m => with_datas (delete p (m_datas m)) m).
Definition free_node (p : Z) : M mem unit := get_node p;; modify (fun m => with_nodes (delete p (m_nodes m)) m).

(** [table[index]] *)
Definition table_at (index : Z) : M mem Z :=
  c ← get_cache;
  if (0 <=? index) && (index <? table_size c) then mret (default 0 (c_table c !! index)) else stop Undefined.
Definition table_set (index p : Z) : M mem unit :=
  table_at index;;
  c ← get_cache;
  put_cache (mk_cache (curr_size c) (max_size c) (table_size c) (c_queue c)
    (if p =? 0 then delete index (c_table c) else <[index := p]> (c_table c))).
Definition set_curr_size (x : Z) : M mem unit :=
  c ← get_cache; put_cache (mk_cache (s32 x) (max_size c) (table_size c) (c_queue c) (c_table c)).

(** ** File data *)

Definition file_data_init : M mem Z :=
  data ← malloc;
  put_data data (mk_data 0 0 0);;
  mret data.

Definition file_data_free (data : Z) : M mem unit :=
  d ← get_data data;
  free_chars (file_name d);;
  free_chars (file_buf d);;
  free_data data.

Definition free_cache_element (file : Z) : M mem unit :=
  f ← get_file file;
  free_chars (f_key f);;
  file_data_free (f_data f).

(** ** The LRU queue *)

(** the walk to the last node from [temp] *)
Definition last_node (temp : Z) : M mem Z :=
  while_ (fun temp => next ← next_of temp; if next =? 0 then mret (inr temp) else mret (inl next)) temp.

Definition add_to_front (queue index : Z) : M mem unit :=
  if queue =? 0 then mret tt else
  new ← malloc;
  put_node new (mk_lru (Some index) 0);;
  first ← next_of queue;
  if first =? 0 then set_next queue new else
  temp ← last_node queue;
  set_next temp new.

Definition add_to_end (queue index : Z) : M mem unit :=
  new ← malloc;
  put_node new (mk_lru (Some index) 0);;
  first ← next_of queue;
  if first =? 0 then set_next queue new else
  curr ← last_node first;
  set_next curr new.

Definition delete_from_queue (queue index : Z) : M mem unit :=
  if queue =? 0 then mret tt else
  first ← next_of queue;
  if first =? 0 then mret tt else
  '(prev, curr) ← while_ (fun '(prev, curr) =>
    i ← index_of curr;
    if i =? index then mret (inr (prev, curr)) else
    next ← next_of curr;
    if next =? 0 then mret (inr (prev, curr)) else mret (inl (curr, next))) (queue, first);
  i ← index_of curr;
  if i =? index then
    next ← next_of curr;
    set_next prev next;;
    free_node curr
  else mret tt.

Definition LRU_add (index : Z) : M mem unit := c ← get_cache; add_to_front (c_queue c) index.

Definition LRU_update (index : Z) : M mem unit :=
  c ← get_cache;
  delete_from_queue (c_queue c) index;;
  add_to_end (c_queue c) index.

(** ** The hash table *)

Definition TABLE_SIZE : Z := 2147000.

(** [c] is an int: a char is signed *)
Definition djb2 (word : list Z) : Z :=
  fold_left (fun hash x => u64 (u64 (u64 (Z.shiftl hash 5) + hash) + swrap 8 x)) word 5381.

Definition get_index (word_string : list Z) : M mem Z :=
  c ← get_cache; mret (djb2 word_string mod table_size c).

(** the key of [table[index]], when there is an entry *)
Definition key_at (index : Z) : M mem (option (list Z)) :=
  p ← table_at index;
  if p =? 0 then mret None else
  f ← get_file p;
  k ← get_chars (f_key f);
  mret (Some k).

(** the loop of [cache_lookup] and of [table_insert]: the first index from [index]
    on whose entry is missing or has the key [name] *)
Definition probe (name : list Z) (index : Z) : M mem Z :=
  while_ (fun index =>
    k ← key_at index;
    match k with
    | None => mret (inr index)
    | Some k =>
        if decide (k = name) then mret (inr index) else
        c ← get_cache;
        mret (inl (Z.rem (index + 1) (table_size c)))
    end) index.

Definition cache_lookup (name : list Z) : M mem Z :=
  index ← get_index name;
  index ← probe name (s32 index);
  k ← key_at index;
  if decide (k = Some name) then table_at index else mret 0.

Definition table_insert (data : Z) : M mem Z :=
  d ← get_data data;
  name ← get_chars (file_name d);
  index ← get_index name;
  index ← probe name index;
  file ← malloc;
  key ← malloc;
  put_chars key name;;
  put_file file (mk_file key data 0);;
  table_set index file;;
  c ← get_cache;
  set_curr_size (curr_size c + file_size d);;
  LRU_add (s32 index);;
  table_at index.

(** [curr->next] is read after [delete_from_queue] may have freed [curr] *)
Definition LRU_delete (file_size_ : Z) : M mem Z :=
  c ← get_cache;
  curr ← next_of (c_queue c);
  while_ (fun curr =>
    c ← get_cache;
    if negb (curr =? 0) && (s32 (max_size c - curr_size c) <? file_size_) then
      index ← index_of curr;
      file ← table_at index;
      inactive ← (if file =? 0 then mret false else f ← get_file file; mret (f_active f =? 0));
      (if inactive : bool then
         f ← get_file file;
         d ← get_data (f_data f);
         set_curr_size (curr_size c - file_size d);;
         free_cache_element file;;
         table_set index 0;;
         delete_from_queue (c_queue c) index
       else mret tt);;
      next ← next_of curr;
      mret (inl next)
    else mret (inr tt)) curr;;
  c ← get_cache;
  if file_size_ <=? s32 (max_size c - curr_size c) then mret 1 else mret 0.

Definition cache_evict (file_size_ : Z) : M mem Z :=
  c ← get_cache;
  if max_size c <? file_size_ then mret 0 else
  if file_size_ <=? s32 (max_size c - curr_size c) then mret 1 else
  first ← next_of (c_queue c);
  if first =? 0 then mret 0 else
  LRU_delete file_size_.

Definition cache_insert (data : Z) : M mem Z :=
  d ← get_data data;
  name ← get_chars (file_name d);
  file ← cache_lookup name;
  if negb (file =? 0) then cache_lookup name else
  room ← cache_evict (file_size d);
  if room =? 1 then table_insert data else mret 0.

(** ** The start and the end *)

Definition cache_init (max_cache_size : Z) : M mem unit :=
  queue ← malloc;
  put_node queue (mk_lru None 0);;
  modify (with_cache (Some (mk_cache 0 max_cache_size TABLE_SIZE queue ∅))).

(** the part of [server_exit] that empties the cache; the head of the queue is lost *)
Definition cache_destroy : M mem unit :=
  c ← get_cache;
  for_ (Z.to_nat (table_size c)) 0 (fun i =>
    p ← table_at i;
    if p =? 0 then mret tt else free_cache_element p;; table_set i 0);;
  c ← get_cache;
  current ← next_of (c_queue c);
  while_ (fun current =>
    if current =? 0 then mret (inr tt) else
    next ← next_of current;
    free_node current;;
    mret (inl next)) current;;
  modify (with_cache None).
