(* ===== verification/Rio.v ===== *)
(** * Robust I/O (webserver/common.c)

    [read] and [write] are system calls, so what they answer is an input: the data
    that a descriptor delivers is a list of answers, one for each call, in which a
    chunk that is longer than asked for is delivered in several calls; the end of the
    list is the end of the file.  What [write] accepts is a list of answers too; once
    that list is used up everything is accepted. *)

From stdpp Require Import base list.
From Stdlib Require Import ZArith Lia.
From S2P Require Import Prelude Words.
#[local] Open Scope Z_scope.

(** ** System calls *)

Inductive read_answer : Type :=
  | Data (l : list Z)
  | Read_eintr
  | Read_error.

(** the value of [read], with the bytes or whether [errno] is [EINTR] *)
Inductive read_result : Type :=
  | Got (l : list Z)
  | Failed (eintr : bool).

Definition sys_read (n : Z) : M (list read_answer) read_result :=
  answers ← get;
  match answers with
  | [] => mret (Got [])
  | Data l :: rest =>
      if zlen l <=? n then modify (fun _ => rest);; mret (Got l)
      else modify (fun _ => Data (drop (Z.to_nat n) l) :: rest);; mret (Got (take (Z.to_nat n) l))
  | Read_eintr :: rest => modify (fun _ => rest);; mret (Failed true)
  | Read_error :: rest => modify (fun _ => rest);; mret (Failed false)
  end.

Inductive write_answer : Type :=
  | Accepted (n : Z)
  | Write_eintr
  | Write_error.

(** what a descriptor has accepted, and its further answers *)
Record sink : Type := mk_sink {
  written : list Z;
  answers : list write_answer;
}.

(** the bytes accepted, or whether [errno] is [EINTR]; at least one byte of a
    non-empty buffer is accepted *)
Definition sys_write (bytes : list Z) : M sink (Z + bool) :=
  s ← get;
  match answers s with
  | [] => modify (fun s => mk_sink (written s ++ bytes) []);; mret (inl (zlen bytes))
  | Accepted n :: rest =>
      let n := Z.max 1 (Z.min n (zlen bytes)) in
      modify (fun s => mk_sink (written s ++ take (Z.to_nat n) bytes) rest);; mret (inl n)
  | Write_eintr :: rest => modify (fun s => mk_sink (written s) rest);; mret (inr true)
  | Write_error :: rest => modify (fun s => mk_sink (written s) rest);; mret (inr false)
  end.

(** ** Unbuffered *)

(** [n] bytes are read behind [got]; the value is -1 or what the buffer holds *)
Definition rio_read (n : Z) : M (list read_answer) (option (list Z)) :=
  while_ (fun '(nleft, got) =>
    if nleft <=? 0 then mret (inr (Some got)) else
    r ← sys_read nleft;
    match r with
    | Failed true => mret (inl (nleft, got))
    | Failed false => mret (inr None)
    | Got [] => mret (inr (Some got))
    | Got l => mret (inl (nleft - zlen l, got ++ l))
    end) (n, []).

Definition rio_write (bytes : list Z) : M sink (option Z) :=
  while_ (fun '(nleft, rest) =>
    if nleft <=? 0 then mret (inr (Some (zlen bytes))) else
    r ← sys_write rest;
    match r with
    | inr true => mret (inl (nleft, rest))
    | inr false => mret (inr None)
    | inl k => mret (inl (nleft - k, drop (Z.to_nat k) rest))
    end) (zlen bytes, bytes).

Definition Rio_read (n : Z) : M (list read_answer) (list Z) :=
  r ← rio_read n;
  match r with
  | Some l => mret l
  | None => stop Exited
  end.

Definition Rio_write (bytes : list Z) : M sink unit :=
  r ← rio_write bytes;
  if decide (r = Some (zlen bytes)) then mret tt else stop Exited.

(** ** Buffered *)

Definition RIO_BUFSIZE : Z := 8192.

(** [rio_buf] up to what the last [read] has filled in *)
Record rio : Type := mk_rio {
  rio_cnt : Z;
  rio_bufptr : Z;
  rio_buf : list Z;
}.

(** a connection that is read through [rio] *)
Record source : Type := mk_source {
  src_rio : rio;
  src_answers : list read_answer;
}.

Definition with_rio (r : rio) (s : source) : source := mk_source r (src_answers s).
Definition source_read (n : Z) : M source read_result :=
  zoom src_answers (fun a s => mk_source (src_rio s) a) (sys_read n).

Definition Rio_init : rio := mk_rio 0 0 [].

(** the value is -1 ([None]) or the bytes copied *)
Definition rio_readb (n : Z) : M source (option (list Z)) :=
  more ← while_ (fun _ : unit =>
    s ← get;
    if 0 <? rio_cnt (src_rio s) then mret (inr (Some true)) else
    r ← source_read RIO_BUFSIZE;
    match r with
    | Failed eintr =>
        modify (fun s => with_rio (mk_rio (-1) (rio_bufptr (src_rio s)) (rio_buf (src_rio s))) s);;
        (if (eintr : bool) then mret (inl tt) else mret (inr None))
    | Got [] =>
        modify (fun s => with_rio (mk_rio 0 (rio_bufptr (src_rio s)) (rio_buf (src_rio s))) s);; mret (inr (Some false))
    | Got l => modify (with_rio (mk_rio (zlen l) 0 l));; mret (inl tt)
    end) tt;
  match more with
  | None => mret None
  | Some false => mret (Some [])
  | Some true =>
      s ← get;
      let r := src_rio s in
      let cnt := if rio_cnt r <? n then rio_cnt r else n in
      bytes ← buf_read (rio_buf r) (rio_bufptr r) cnt;
      modify (with_rio (mk_rio (rio_cnt r - cnt) (rio_bufptr r + cnt) (rio_buf r)));;
      mret (Some bytes)
  end.

(** [usrbuf] has [cap] bytes; [line] is what has been stored in it.  The value is
    the count returned and the string in [usrbuf], when one is stored. *)
Definition rio_readlineb (cap maxlen : Z) : M source (option (Z * option (list Z))) :=
  r ← while_ (fun line =>
    if maxlen <=? zlen line then mret (inr (Some (Some line))) else
    c ← rio_readb 1;
    match c with
    | None => mret (inr None)
    | Some [] => if zlen line =? 0 then mret (inr (Some None)) else mret (inr (Some (Some line)))
    | Some (c :: _) =>
        if cap <=? zlen line then stop Undefined else
        if c =? 10 then mret (inr (Some (Some (line ++ [c])))) else mret (inl (line ++ [c]))
    end) [];
  match r with
  | None => mret None
  | Some None => mret (Some (0, None))
  | Some (Some line) => if cap <=? zlen line then stop Undefined else mret (Some (zlen line, Some line))
  end.

Definition Rio_readlineb (cap maxlen : Z) : M source (Z * option (list Z)) :=
  r ← rio_readlineb cap maxlen;
  match r with
  | Some x => mret x
  | None => stop Exited
  end.
