(* ===== verification/Request.v ===== *)
(** * Requests (webserver/request.c)

    A request works on one connection and on the storage of the process.  The file
    system is an argument: [fs name] is what [stat] finds and what reading the file
    delivers.  The text of an error response is built by [sprintf] calls that read the
    buffer they write; each call is taken to append to the buffer. *)

From stdpp Require Import base gmap list strings.
From Stdlib Require Import ZArith Lia DecimalString.
From S2P Require Import Prelude Words Cache Rio.
#[local] Open Scope Z_scope.

(** ** State *)

Definition MAXLINE : Z := 8192.
Definition MAXBUF : Z := 8192.

Record conn : Type := mk_conn {
  k_source : source;
  k_sink : sink;
  k_open : bool;
}.

Record world : Type := mk_world {
  w_mem : mem;
  w_conn : conn;
}.

Definition on_mem {A} (x : M mem A) : M world A := zoom w_mem (fun m w => mk_world m (w_conn w)) x.
Definition on_source {A} (x : M source A) : M world A :=
  zoom (fun w => k_source (w_conn w)) (fun s w => mk_world (w_mem w) (mk_conn s (k_sink (w_conn w)) (k_open (w_conn w)))) x.
Definition on_sink {A} (x : M sink A) : M world A :=
  zoom (fun w => k_sink (w_conn w)) (fun s w => mk_world (w_mem w) (mk_conn (k_source (w_conn w)) s (k_open (w_conn w)))) x.

Record request : Type := mk_request {
  rq_fd : Z;
  rq_data : Z;
}.

(** what [stat] says of a file, and what reading it delivers *)
Record file_info : Type := mk_info {
  fi_regular : bool;
  fi_readable : bool;
  fi_size : Z;
  fi_answers : list read_answer;
}.

(** ** Strings *)

(** a buffer up to the terminator *)
Fixpoint cut (l : list Z) : list Z :=
  match l with
  | [] => []
  | x :: l' => if x =? 0 then [] else x :: cut l'
  end.

Definition dec (z : Z) : list Z := bytes_of (NilZero.string_of_int (Z.to_int z)).
Definition CRLF : list Z := [13; 10].

Definition is_space (x : Z) : bool := (x =? 32) || ((9 <=? x) && (x <=? 13)).

(** the words that [sscanf] finds for a sequence of [%s] *)
Fixpoint words_of (l cur : list Z) : list (list Z) :=
  match l with
  | [] => match cur with [] => [] | _ => [cur] end
  | x :: l' =>
      if is_space x then match cur with [] => words_of l' [] | _ => cur :: words_of l' [] end
      else words_of l' (cur ++ [x])
  end.

Definition to_lower (x : Z) : Z := if (65 <=? x) && (x <=? 90) then x + 32 else x.
Definition strcasecmp_eq (a b : list Z) : bool := bool_decide (map to_lower a = map to_lower b).

Fixpoint is_prefix (p l : list Z) : bool :=
  match p, l with
  | [], _ => true
  | x :: p', y :: l' => (x =? y) && is_prefix p' l'
  | _, [] => false
  end.

(** [strstr(l, p) != NULL] *)
Fixpoint strstr (l p : list Z) : bool :=
  is_prefix p l || match l with [] => false | _ :: l' => strstr l' p end.

(** [strrchr(l, c)] *)
Fixpoint strrchr (l : list Z) (c : Z) : option (list Z) :=
  match l with
  | [] => None
  | x :: l' =>
      match strrchr l' c with
      | Some r => Some r
      | None => if x =? c then Some l else None
      end
  end.

(** the checksum of the bytes *)
Definition checksum (l : list Z) : Z := fold_left (fun csum x => u32 (csum + u8 x)) l 0.

(** ** Errors *)

Definition error_body (cause errnum shortmsg longmsg : list Z) : list Z :=
  bytes_of "<html><title>OS Web Server Error</title>" ++
  bytes_of "<body bgcolor=fffff>" ++ CRLF ++
  bytes_of "<p>" ++ errnum ++ bytes_of ": " ++ shortmsg ++ bytes_of "</p>" ++ CRLF ++
  bytes_of "<p>" ++ longmsg ++ bytes_of ": " ++ cause ++ bytes_of "</p>" ++ CRLF ++
  bytes_of "</body></html>" ++ CRLF.

Definition request_error (cause errnum shortmsg longmsg : list Z) : M world unit :=
  let body := error_body cause errnum shortmsg longmsg in
  if MAXBUF <=? zlen body then stop Undefined else
  on_sink (Rio_write (bytes_of "HTTP/1.0 " ++ errnum ++ bytes_of " " ++ shortmsg ++ CRLF);;
           Rio_write (bytes_of "Content-Type: text/html" ++ CRLF);;
           Rio_write (bytes_of "Content-Length: " ++ dec (zlen body) ++ CRLF);;
           Rio_write (bytes_of "Content-Csum: " ++ dec (checksum body) ++ CRLF ++ CRLF);;
           Rio_write body).

(** ** Reading a request *)

(** [buf] keeps its string when [Rio_readlineb] is at the end *)
Definition read_line_into (buf : option (list Z)) : M source (option (list Z)) :=
  '(_, line) ← Rio_readlineb MAXLINE MAXLINE;
  mret (match line with None => buf | Some l => Some l end).

Definition request_read_headers : M source unit :=
  buf ← read_line_into None;
  while_ (fun buf =>
    line ← deref buf;
    if decide (cut line = CRLF) then mret (inr tt) else
    buf ← read_line_into (Some line);
    mret (inl buf)) buf.

(** [snprintf] stores at most [max - 1] characters *)
Definition request_parse_URI (uri : list Z) (max : Z) : list Z := take (Z.to_nat (max - 1)) (bytes_of "./" ++ uri).

Definition request_destroy (rq : request) : M world unit :=
  w ← get;
  if negb (k_open (w_conn w)) then stop Exited else
  modify (fun w => mk_world (w_mem w) (mk_conn (k_source (w_conn w)) (k_sink (w_conn w)) false)).

(** until [request_parse_URI] the name is not initialised; it is not read either *)
Definition request_init (connfd data : Z) : M world (option request) :=
  assert_ (negb (data =? 0));;
  let rq := mk_request connfd data in
  name ← on_mem malloc;
  on_mem (put_chars name []);;
  on_mem (put_data data (mk_data name 0 0));;
  on_source (modify (with_rio Rio_init));;
  buf ← on_source (read_line_into None);
  line ← deref buf;
  let words := words_of (cut line) [] in
  method ← deref (words !! 0%nat);
  if negb (strcasecmp_eq method (bytes_of "GET")) then
    request_error method (bytes_of "501") (bytes_of "Not Implemented")
      (bytes_of "OS Web Server does not implement this method");;
    request_destroy rq;;
    mret None
  else
    on_source request_read_headers;;
    uri ← deref (words !! 1%nat);
    on_mem (put_chars name (request_parse_URI uri MAXLINE));;
    mret (Some rq).

(** ** Answering a request *)

Definition not_found (cause longmsg : list Z) : M world Z :=
  request_error cause (bytes_of "404") (bytes_of "Not found") longmsg;; mret 0.

(** the names that are not served, with the message *)
Definition refused (name : list Z) : option (list Z) :=
  if decide (head name = Some 47) then Some (bytes_of "OS Web Server doesn't serve files with absolute paths") else
  if strstr name (bytes_of "..") then Some (bytes_of "OS Web Server doesn't serve files with .. in the path") else
  match strrchr name 46 with
  | Some ext =>
      if decide (ext = bytes_of ".c" \/ ext = bytes_of ".h")
      then Some (bytes_of "OS Web Server doesn't serve C or header files ") else None
  | None => None
  end.

Definition request_readfile (fs : list Z -> option file_info) (rq : request) : M world Z :=
  assert_ (negb (rq_data rq =? 0));;
  data ← on_mem (get_data (rq_data rq));
  name ← on_mem (get_chars (file_name data));
  match refused name with
  | Some msg => not_found name msg
  | None =>
  match fs name with
  | None => not_found name (bytes_of "OS Web Server could not find this file")
  | Some info =>
      if negb (fi_regular info) || negb (fi_readable info) then
        request_error name (bytes_of "403") (bytes_of "Forbidden") (bytes_of "OS Web Server could not read this file");;
        mret 0
      else
        let size := s32 (fi_size info) in
        on_mem (put_data (rq_data rq) (mk_data (file_name data) (file_buf data) size));;
        (if size =? 0 then mret tt else
         if size <? 0 then stop Exited else                  (* Malloc fails *)
         buf ← on_mem malloc;
         content ← lift (match Rio_read size (fi_answers info) with Val (l, _) => Val l | Fault f => Fault f end);
         on_mem (put_chars buf content);;
         on_mem (put_data (rq_data rq) (mk_data (file_name data) buf size)));;
        mret 1
  end end.

Definition request_set_data (rq : request) (data : Z) : request := mk_request (rq_fd rq) data.

Definition request_get_file_type (filename : list Z) : list Z :=
  if strstr filename (bytes_of ".html") then bytes_of "text/html" else
  if strstr filename (bytes_of ".gif") then bytes_of "image/gif" else
  if strstr filename (bytes_of ".jpg") then bytes_of "image/jpeg" else bytes_of "text/plain".

Definition response_header (filetype : list Z) (size csum : Z) : list Z :=
  bytes_of "HTTP/1.0 200 OK" ++ CRLF ++
  bytes_of "Server: OS Web Server" ++ CRLF ++
  bytes_of "Content-Type: " ++ filetype ++ CRLF ++
  bytes_of "Content-Length: " ++ dec size ++ CRLF ++
  bytes_of "Content-Csum: " ++ dec csum ++ CRLF ++ CRLF.

(** the bytes [file_buf[0..file_size)]; a read beyond what the file gave is undefined *)
Definition file_bytes (data : file_data) : M mem (list Z) :=
  if file_size data <=? 0 then mret [] else
  buf ← get_chars (file_buf data);
  buf_read buf 0 (file_size data).

Definition request_sendfile (rq : request) : M world unit :=
  assert_ (negb (rq_data rq =? 0));;
  data ← on_mem (get_data (rq_data rq));
  name ← on_mem (get_chars (file_name data));
  content ← on_mem (file_bytes data);
  on_sink (Rio_write (response_header (request_get_file_type name) (file_size data) (checksum content)));;
  if 0 <? file_size data then on_sink (Rio_write content) else mret tt.
