(* ===== verification/Client.v ===== *)
(** * The clients (webserver/client.c, webserver/client_simple.c)

    A client works on one connection at a time and on the terminal.  [printf] texts are
    flushed before the first direct write to the terminal, so the two are kept apart.
    Sockets, threads and the random numbers of [client_request] are not modelled: which
    file a request is for is an argument. *)

From stdpp Require Import base list strings.
From Stdlib Require Import ZArith Lia.
From S2P Require Import Prelude Words Numbers Rio Request.
#[local] Open Scope Z_scope.

(** ** State *)

Record terminal : Type := mk_terminal {
  t_source : source;        (* the connection *)
  t_printed : list Z;       (* by [printf] *)
  t_stdout : sink;          (* by [Rio_write] *)
}.

Definition on_connection {A} (x : M source A) : M terminal A :=
  zoom t_source (fun s t => mk_terminal s (t_printed t) (t_stdout t)) x.
Definition on_stdout {A} (x : M sink A) : M terminal A :=
  zoom t_stdout (fun s t => mk_terminal (t_source t) (t_printed t) s) x.
Definition printf (l : list Z) : M terminal unit :=
  modify (fun t => mk_terminal (t_source t) (t_printed t ++ l) (t_stdout t)).

(** ** Sending a request *)

(** the second [sprintf] reads the buffer it writes; it is taken to append *)
Definition client_send (host filename : list Z) : M sink unit :=
  let buf := bytes_of "GET " ++ filename ++ bytes_of " HTTP/1.0" ++ CRLF in
  let buf := buf ++ bytes_of "host: " ++ host ++ CRLF ++ CRLF in
  if MAXLINE <=? zlen buf then stop Undefined else Rio_write buf.

(** ** Reading the response *)

(** [Rio_readlineb] into [buf]: the count, and what [buf] holds now *)
Definition read_buf (max : Z) (buf : option (list Z)) : M terminal (Z * option (list Z)) :=
  '(n, line) ← on_connection (Rio_readlineb max max);
  mret (n, match line with None => buf | Some l => Some l end).

(** an addition of non-negative [int]s *)
Definition add_int {S} (a b : Z) : M S Z :=
  if 2147483647 <? a + b then stop Undefined else mret (a + b).

(** the first value of a line of the header that has the tag *)
Definition tag (line fmt : list Z) (old : Z) : Z :=
  match sscanf (cut line) fmt with Int z :: _ => z | _ => old end.

Definition LENGTH_TAG : list Z := bytes_of "Content-Length: %d ".
Definition CSUM_TAG : list Z := bytes_of "Content-Csum: %u ".

(** the values of the two tags, and the buffer *)
Definition client_headers (print : bool) : M terminal (Z * Z * option (list Z)) :=
  '(n, buf) ← read_buf MAXBUF None;
  while_ (fun '(n, buf, length, csum) =>
    line ← deref buf;
    if decide (cut line = CRLF) then mret (inr (length, csum, buf)) else
    if negb (0 <? n) then mret (inr (length, csum, buf)) else
    (if print then printf (bytes_of "Header: " ++ cut line) else mret tt);;
    '(n, buf) ← read_buf MAXBUF buf;
    line ← deref buf;
    mret (inl (n, buf, tag line LENGTH_TAG length, tag line CSUM_TAG csum))) (n, buf, 0, 0).

(** the number of bytes and their sum *)
Definition client_body (print : bool) (buf : option (list Z)) : M terminal (Z * Z) :=
  while_ (fun '(buf, length_received, csum_received) =>
    '(n, buf) ← read_buf MAXBUF buf;
    bytes ← (if 0 <? n then line ← deref buf; buf_read line 0 n else mret []);
    (if print then on_stdout (Rio_write bytes) else mret tt);;
    length_received ← add_int length_received n;
    let csum_received := fold_left (fun c x => u32 (c + u8 x)) bytes csum_received in
    if 0 <? n then mret (inl (buf, length_received, csum_received))
    else mret (inr (length_received, csum_received))) (buf, 0, 0).

Definition client_print (orig_csum orig_length : Z) (print : bool) : M terminal unit :=
  on_connection (modify (with_rio Rio_init));;
  '(length, csum, buf) ← client_headers print;
  '(length_received, csum_received) ← client_body print buf;
  assert_ (orig_csum =? csum);;
  assert_ (orig_length =? length);;
  assert_ (length =? length_received);;
  assert_ (csum =? csum_received).

(** [client_print] of client_simple.c, which has only the length *)
Definition simple_headers : M terminal (Z * option (list Z)) :=
  '(n, buf) ← read_buf MAXBUF None;
  while_ (fun '(n, buf, length) =>
    line ← deref buf;
    if decide (cut line = CRLF) then mret (inr (length, buf)) else
    if negb (0 <? n) then mret (inr (length, buf)) else
    printf (bytes_of "Header: " ++ cut line);;
    '(n, buf) ← read_buf MAXBUF buf;
    line ← deref buf;
    mret (inl (n, buf, tag line LENGTH_TAG length))) (n, buf, 0).

Definition simple_body (buf : option (list Z)) : M terminal Z :=
  while_ (fun '(buf, length_received) =>
    '(n, buf) ← read_buf MAXBUF buf;
    bytes ← (if 0 <? n then line ← deref buf; buf_read line 0 n else mret []);
    on_stdout (Rio_write bytes);;
    length_received ← add_int length_received n;
    if 0 <? n then mret (inl (buf, length_received)) else mret (inr length_received)) (buf, 0).

Definition simple_print : M terminal unit :=
  on_connection (modify (with_rio Rio_init));;
  '(length, buf) ← simple_headers;
  length_received ← simple_body buf;
  if negb (length =? 0) then assert_ (length =? length_received) else mret tt.

(** ** The file set *)

(** [None] is a field that is not initialised *)
Record fileinfo : Type := mk_fileinfo {
  name : option (list Z);
  csum : option Z;
  len : option Z;
}.

(** [sscanf(buf, "%s %u %d", fi->name, &fi->csum, &fi->len)] *)
Definition scan_fileinfo (line : list Z) : fileinfo :=
  match sscanf (cut line) (bytes_of "%s %u %d") with
  | [Str name; Int csum; Int len] => mk_fileinfo (Some name) (Some csum) (Some len)
  | [Str name; Int csum] => mk_fileinfo (Some name) (Some csum) None
  | [Str name] => mk_fileinfo (Some name) None None
  | _ => mk_fileinfo None None None
  end.

(** the lines of an index file: the number of files, then one file each; the array has
    [nr_files] elements, of which [fileset] are filled; [fi->name] has [n + 1] bytes *)
Definition init_fileset : M source (list fileinfo) :=
  modify (with_rio Rio_init);;
  while_ (fun '(nr_files, fileset) =>
    '(n, buf) ← Rio_readlineb MAXLINE MAXLINE;
    if n =? 0 then
      assert_ (0 <? nr_files);;
      assert_ (Z.of_nat (length fileset) =? nr_files);;
      mret (inr fileset)
    else
    line ← deref buf;
    let n := if byte_at line (n - 1) =? 10 then n - 1 else n in
    if nr_files =? 0 then
      let nr_files := atoi (cut line) in
      assert_ (0 <? nr_files);;
      mret (inl (nr_files, fileset))
    else
    assert_ (Z.of_nat (length fileset) <? nr_files);;
    let fi := scan_fileinfo line in
    (if n <? zlen (default [] (name fi)) then stop Undefined else mret tt);;
    mret (inl (nr_files, fileset ++ [fi]))) (0, []).

(** ** A client thread *)

Record client : Type := mk_client {
  host : list Z;
  port : Z;
  nr_times : Z;
  nr_threads : Z;
  fileset : list fileinfo;
  timing_mode : Z;
}.

(** one round of [client_request]: [fnr] is what [rand_int] gives, [k] the connection
    that [open_clientfd] opens; returns the connection, closed *)
Definition client_round (cl : client) (fnr : Z) (k : conn) : M terminal conn :=
  modify (fun t => mk_terminal (k_source k) (t_printed t) (t_stdout t));;
  let fnr := fnr - 1 in
  fi ← (if fnr <? 0 then stop Undefined else deref (fileset cl !! Z.to_nat fnr));
  filename ← deref (name fi);
  sent ← lift (match client_send (host cl) filename (k_sink k) with Val (_, s) => Val s | Fault f => Fault f end);
  orig_csum ← deref (csum fi);
  orig_length ← deref (len fi);
  client_print orig_csum orig_length (timing_mode cl =? 0);;
  t ← get;
  mret (mk_conn (t_source t) sent false).

(** [nr_times] rounds *)
Fixpoint client_request (cl : client) (rounds : list (Z * conn)) : M terminal (list conn) :=
  match rounds with
  | [] => mret []
  | (fnr, k) :: rounds' => k ← client_round cl fnr k; ks ← client_request cl rounds'; mret (k :: ks)
  end.

(** [main] up to [init_fileset]: the client and the name of the index file, which is
    [NULL] when [argv] has no more elements *)
Definition client_main (argv : list (list Z)) : outcome (client * option (list Z)) :=
  let argc := Z.of_nat (length argv) in
  if negb (argc =? 6) && negb (argc =? 7) then Fault Exited else
  let at_ i := default [] (argv !! i) in
  let '(timing_mode, i) := if decide (at_ 1%nat = bytes_of "-t") then (1, 2%nat) else (0, 1%nat) in
  let port := atoi (at_ (i + 1)%nat) in
  let nr_times := atoi (at_ (i + 2)%nat) in
  let nr_threads := atoi (at_ (i + 3)%nat) in
  let filename := argv !! (i + 4)%nat in
  if (port <? 1024) || (nr_times <=? 0) || (nr_threads <=? 0) then Fault Exited
  else Val (mk_client (at_ i) port nr_times nr_threads [] timing_mode, filename).
