(* ===== verification/Fileset.v ===== *)
(** * Generating a file set (webserver/fileset.c)

    [main] after option parsing (popt), whose results are its arguments.  The random
    numbers are arguments too: [random i] is the [i]-th that a byte of a file takes,
    and [size k] the length that the floating-point [rand_pareto] gives file [k].
    Files are written whole; calls of the system that make them succeed. *)

From stdpp Require Import base gmap list strings.
From Stdlib Require Import ZArith Lia.
From S2P Require Import Prelude Words Numbers Rio Request Client.
#[local] Open Scope Z_scope.

(** ** State *)

(** what the name of the directory stands for; a name in a directory is a regular file
    with its contents, or something else *)
Inductive directory : Type :=
  | Missing
  | Entries (files : gmap (list Z) (option (list Z)))
  | Other.

Record storage : Type := mk_storage {
  st_dir : directory;
  st_idx : option (list Z);    (* the index file *)
  st_drawn : Z;                (* how many random numbers were drawn *)
  st_out : list Z;             (* stdout *)
}.

Definition with_dir (d : directory) (s : storage) : storage := mk_storage d (st_idx s) (st_drawn s) (st_out s).
Definition say (l : list Z) : M storage unit :=
  modify (fun s => mk_storage (st_dir s) (st_idx s) (st_drawn s) (st_out s ++ l)).

Section fileset.
Context (random : Z -> Z) (size : Z -> Z).

Definition draw : M storage Z :=
  s ← get;
  modify (fun s => mk_storage (st_dir s) (st_idx s) (st_drawn s + 1) (st_out s));;
  mret (random (st_drawn s)).

(** ** Directory and files *)

(** the loop over [readdir] that removes the regular files, or [mkdir] *)
Definition clear_dir : M storage unit :=
  s ← get;
  match st_dir s with
  | Entries files => modify (with_dir (Entries (filter (fun e => e.2 = None) files)))
  | Missing => modify (with_dir (Entries ∅))
  | Other => stop Exited
  end.

(** [open] with [O_CREAT | O_TRUNC] of a file of the directory, and what is written to it *)
Definition write_file (name content : list Z) : M storage unit :=
  s ← get;
  match st_dir s with
  | Entries files =>
      match files !! name with
      | Some None => stop Exited
      | _ => modify (with_dir (Entries (<[name := Some content]> files)))
      end
  | _ => stop Exited
  end.

(** [buf[j] = random() % (0x73 - 0x20) + 0x20] for [n] bytes, and the sum *)
Definition fill (n csum : Z) : M storage (list Z * Z) :=
  while_ (fun '(j, buf, csum) =>
    if n <=? j then mret (inr (buf, csum)) else
    r ← draw;
    let b := Z.rem r (115 - 32) + 32 in
    mret (inl (j + 1, buf ++ [b], u32 (csum + u8 b)))) (0, [], csum).

(** the blocks of a file: the contents and the sum *)
Definition fill_file (file_sz : Z) : M storage (list Z * Z) :=
  while_ (fun '(remaining, content, csum) =>
    if remaining <=? 0 then mret (inr (content, csum)) else
    let sz := if remaining <? 4096 then remaining else 4096 in
    '(buf, csum) ← fill sz csum;
    mret (inl (remaining - sz, content ++ buf, csum))) (file_sz, [], 0).

(** [%05d] of a number that is not negative *)
Definition pad5 (z : Z) : list Z := replicate (5 - length (dec z)) 48 ++ dec z.

(** a [sprintf] into a buffer of [cap] bytes *)
Definition sprintf {S} (cap : Z) (text : list Z) : M S (list Z) :=
  if cap <=? zlen text then stop Undefined else mret text.

Definition mul_int {S} (a b : Z) : M S Z :=
  if 2147483647 <? a * b then stop Undefined else mret (a * b).

(** a line of the index *)
Definition index_line (filename : list Z) (csum file_sz : Z) : list Z :=
  filename ++ bytes_of " " ++ dec csum ++ bytes_of " " ++ dec file_sz ++ [10].

(** ** [main] *)

Definition DIR_NAME_MAX : Z := 1000.
Definition IDX_BUFFER : Z := 4096 * 256.

(** the loop of [main]: how many bytes and files were made, and [idx_buffer] *)
Definition make_files (dir : list Z) (total_fileset_sz : Z) : M storage (Z * Z * list Z) :=
  '(current_fileset_sz, nr_files, _, idx_buffer) ← while_ (fun '(current_fileset_sz, nr_files, cur_size, idx_buffer) =>
    if negb (current_fileset_sz <? total_fileset_sz) then mret (inr (current_fileset_sz, nr_files, cur_size, idx_buffer)) else
    name ← sprintf 10 (bytes_of "/" ++ pad5 nr_files);
    let nr_files := nr_files + 1 in
    filename ← sprintf 1024 (dir ++ name);
    let file_sz := size (nr_files - 1) in
    current_fileset_sz ← add_int current_fileset_sz file_sz;
    '(content, csum) ← fill_file file_sz;
    write_file (drop 1 name) content;;
    say (bytes_of "filename = " ++ filename ++ bytes_of ", csum = " ++ dec csum ++ bytes_of ", len = " ++ dec file_sz ++ [10]);;
    idx_buf ← sprintf 4096 (index_line filename csum file_sz);
    let cur_size := cur_size + zlen idx_buf in
    assert_ (cur_size <? IDX_BUFFER - 1);;
    mret (inl (current_fileset_sz, nr_files, cur_size, idx_buffer ++ idx_buf))) (0, 0, 0, []);
  mret (current_fileset_sz, nr_files, idx_buffer).

(** [default_file_sz * 4096 * default_nr_files], from left to right *)
Definition fileset_total {S} (default_file_sz default_nr_files : Z) : M S Z :=
  file_sz ← mul_int default_file_sz 4096;
  mul_int file_sz default_nr_files.

Definition fileset_main (default_file_sz default_nr_files : Z) (dir : list Z) : M storage unit :=
  if default_file_sz <=? 1 then stop Exited else
  if (default_nr_files <? 1) || (99999 <? default_nr_files) then stop Exited else
  if DIR_NAME_MAX <? zlen dir then stop Exited else
  clear_dir;;
  total_fileset_sz ← fileset_total default_file_sz default_nr_files;
  '(current_fileset_sz, nr_files, idx_buffer) ← make_files dir total_fileset_sz;
  modify (fun s => mk_storage (st_dir s) (Some (dec nr_files ++ [10] ++ idx_buffer)) (st_drawn s) (st_out s));;
  say (bytes_of "file set size = " ++ dec current_fileset_sz ++ bytes_of ", nr files = " ++ dec nr_files ++ [10] ++
       bytes_of "mean file size = " ++ dec (current_fileset_sz / nr_files) ++ bytes_of ", expected mean file size = " ++
       dec (default_file_sz * 4096) ++ [10]).
End fileset.
