(* ===== verification/Server.v ===== *)
(** * The threads of the web server (webserver/server_thread.c)

    The main thread accepts connections and puts their descriptors in a bounded
    buffer; the workers take them out and serve them.  [st] is the state that they
    share; where each thread is in its program is [worker_pc] and [main_pc], and one
    step takes a thread from one of these places to the next.  A step that needs
    [lock], a signal or the end of another thread is taken only when the thread is
    [ready]; the code between [lock] and [unlock] is several steps where it matters
    that [server_exit] takes no lock, and one step for each part that runs under
    [cache_lock].  What comes from outside, the connections and the request to exit,
    is the argument of the step that polls. *)

From stdpp Require Import base gmap list.
From Stdlib Require Import ZArith Lia.
From S2P Require Import Prelude Words Numbers Cache Rio Request.
#[local] Open Scope Z_scope.

(** ** Serving one request *)

Inductive phase : Type :=
  | D_start (connfd : Z)
  | D_lookup (rq : request)
  | D_read (rq : request)
  | D_insert (rq : request)
  | D_send (rq : request) (cached : bool) (file : Z)
  | D_release (rq : request) (file : Z)
  | D_destroy (rq : request).

(** [file->active += n] *)
Definition add_active (file n : Z) : M mem unit :=
  f ← get_file file;
  put_file file (mk_file (f_key f) (f_data f) (s32 (f_active f + n))).

(** the file is in use and becomes the most recently used one: [index] is the hash
    of its name *)
Definition use_file (file data : Z) : M mem unit :=
  add_active file 1;;
  d ← get_data data;
  name ← get_chars (file_name d);
  index ← get_index name;
  LRU_update (s32 index).

Definition lookup_section (data : Z) : M mem (option (Z * Z)) :=
  d ← get_data data;
  name ← get_chars (file_name d);
  file ← cache_lookup name;
  if file =? 0 then mret None else
  f ← get_file file;
  use_file file (f_data f);;
  mret (Some (file, f_data f)).

Definition insert_section (data : Z) : M mem Z :=
  file ← cache_insert data;
  (if file =? 0 then mret tt else use_file file data);;
  mret file.

Section request.
Context (fs : list Z -> option file_info) (max_cache_size : Z).

(** one part of [do_server_request]; [None] is its end *)
Definition do_server_request (p : phase) : M world (option phase) :=
  match p with
  | D_start connfd =>
      data ← on_mem file_data_init;
      rq ← request_init connfd data;
      match rq with
      | None => on_mem (file_data_free data);; mret None
      | Some rq => mret (Some (if 0 <? max_cache_size then D_lookup rq else D_read rq))
      end
  | D_lookup rq =>
      r ← on_mem (lookup_section (rq_data rq));
      match r with
      | Some (file, data) => mret (Some (D_send (request_set_data rq data) true file))
      | None => mret (Some (D_read rq))
      end
  | D_read rq =>
      ret ← request_readfile fs rq;
      mret (Some (if ret =? 0 then D_destroy rq else if 0 <? max_cache_size then D_insert rq else D_send rq false 0))
  | D_insert rq =>
      file ← on_mem (insert_section (rq_data rq));
      mret (Some (D_send (request_set_data rq (rq_data rq)) true file))
  | D_send rq cached file =>
      request_sendfile rq;;
      mret (Some (if (cached : bool) then D_release rq file else D_destroy rq))
  | D_release rq file =>
      on_mem (if file =? 0 then mret tt else add_active file (-1));;
      mret (Some (D_destroy rq))
  | D_destroy rq => request_destroy rq;; mret None
  end.

(** all of it, while no other thread runs *)
Definition serve (connfd : Z) : M world unit :=
  while_ (fun p =>
    next ← do_server_request p;
    match next with
    | Some p => mret (inl p)
    | None => mret (inr tt)
    end) (D_start connfd).
End request.

(** ** State *)

(** [buffer] is NULL or the cells that have been set *)
Record server : Type := mk_server {
  nr_threads : Z;
  max_requests : Z;
  max_cache_size : Z;
  exiting : bool;
  buffer : option (gmap Z Z);
  sv_in : Z;
  sv_out : Z;
  request_counter : Z;
}.

Inductive worker_pc : Type :=
  | W_lock                       (* at the head of the loop *)
  | W_test                       (* has [lock] and tests the counter *)
  | W_wait                       (* has [lock] and is about to wait *)
  | W_waiting
  | W_woken                      (* needs [lock] again *)
  | W_exiting                    (* has [lock] and tests [exiting] *)
  | W_serve (connfd : Z) (p : phase)
  | W_exited.

Inductive main_pc : Type :=
  | M_poll
  | M_serve (connfd : Z) (p : phase)
  | M_lock (connfd : Z)
  | M_test (connfd : Z)
  | M_wait (connfd : Z)
  | M_waiting (connfd : Z)
  | M_woken (connfd : Z)
  | M_exiting (connfd : Z)
  | M_gone                       (* [pthread_exit] in [server_request] *)
  | M_exit                       (* [server_exit] *)
  | M_wake_empty
  | M_wake_full
  | M_join (i : nat)
  | M_free
  | M_done.

Inductive thread : Type := Main | Worker (i : nat).

#[global] Instance thread_eq_dec : EqDecision thread.
Proof. solve_decision. Defined.

Record st : Type := mk_st {
  s_sv : server;
  s_lock : option thread;
  s_workers : list worker_pc;
  s_main : main_pc;
  s_mem : mem;
  s_conns : gmap Z conn;
}.

Definition with_sv x s := mk_st x (s_lock s) (s_workers s) (s_main s) (s_mem s) (s_conns s).
Definition with_lock x s := mk_st (s_sv s) x (s_workers s) (s_main s) (s_mem s) (s_conns s).
Definition with_workers x s := mk_st (s_sv s) (s_lock s) x (s_main s) (s_mem s) (s_conns s).
Definition with_main x s := mk_st (s_sv s) (s_lock s) (s_workers s) x (s_mem s) (s_conns s).
Definition with_conns x s := mk_st (s_sv s) (s_lock s) (s_workers s) (s_main s) (s_mem s) x.

Definition set_pc (t : thread) (w : worker_pc) (m : main_pc) : M st unit :=
  match t with
  | Main => modify (with_main m)
  | Worker i => modify (fun s => with_workers (<[i := w]> (s_workers s)) s)
  end.

Definition set_sv (sv : server) : M st unit := modify (with_sv sv).
Definition set_lock (t : option thread) : M st unit := modify (with_lock t).

(** [pthread_cond_broadcast(&empty)] and [pthread_cond_broadcast(&full)] *)
Definition wake_worker (w : worker_pc) : worker_pc := match w with W_waiting => W_woken | _ => w end.
Definition wake_main (m : main_pc) : main_pc := match m with M_waiting fd => M_woken fd | _ => m end.
Definition broadcast_empty : M st unit := modify (fun s => with_workers (wake_worker <$> s_workers s) s).
Definition broadcast_full : M st unit := modify (fun s => with_main (wake_main (s_main s)) s).

(** a computation on the process and one connection *)
Definition on_world {A} (connfd : Z) (x : M world A) : M st A :=
  s ← get;
  k ← deref (s_conns s !! connfd);
  match x (mk_world (s_mem s) k) with
  | Val (a, w) =>
      modify (fun s => mk_st (s_sv s) (s_lock s) (s_workers s) (s_main s) (w_mem w) (<[connfd := w_conn w]> (s_conns s)));;
      mret a
  | Fault f => stop f
  end.

(** ** The bounded buffer *)

(** [buffer[index]] is in the [max_requests + 1] cells *)
Definition buffer_at (sv : server) (index : Z) : M st (gmap Z Z) :=
  cells ← deref (buffer sv);
  if (0 <=? index) && (index <=? max_requests sv) then mret cells else stop Undefined.

(** [index + 1] modulo the size of the buffer *)
Definition advance (sv : server) (index : Z) : M st Z :=
  if max_requests sv =? 0 then stop Undefined else mret (Z.rem (index + 1) (max_requests sv)).

Definition send_to_buffer (connfd : Z) : M st unit :=
  sv ← gets s_sv;
  cells ← buffer_at sv (sv_in sv);
  (if request_counter sv =? 0 then broadcast_empty else mret tt);;
  next ← advance sv (sv_in sv);
  set_sv (mk_server (nr_threads sv) (max_requests sv) (max_cache_size sv) (exiting sv)
    (Some (<[sv_in sv := connfd]> cells)) next (sv_out sv) (s32 (request_counter sv + 1))).

Definition read_from_buffer : M st Z :=
  sv ← gets s_sv;
  cells ← buffer_at sv (sv_out sv);
  connfd ← deref (cells !! sv_out sv);
  (if request_counter sv =? max_requests sv then broadcast_full else mret tt);;
  next ← advance sv (sv_out sv);
  set_sv (mk_server (nr_threads sv) (max_requests sv) (max_cache_size sv) (exiting sv)
    (buffer sv) (sv_in sv) next (s32 (request_counter sv - 1)));;
  mret connfd.

(** ** Steps *)

(** what a step shows: a descriptor is put in the buffer or taken out, or a thread
    is woken without a signal *)
Inductive event : Type :=
  | Accepted_fd (connfd : Z)
  | Taken_fd (connfd : Z)
  | Spurious.

Section steps.
Context (fs : list Z -> option file_info).

Definition worker_step (i : nat) (w : worker_pc) : M st (option event) :=
  let goto w := set_pc (Worker i) w M_poll in
  match w with
  | W_lock => set_lock (Some (Worker i));; goto W_test;; mret None
  | W_test =>
      sv ← gets s_sv;
      if request_counter sv =? 0 then goto W_wait;; mret None else
      connfd ← read_from_buffer;
      set_lock None;;
      goto (W_serve connfd (D_start connfd));;
      mret (Some (Taken_fd connfd))
  | W_wait => set_lock None;; goto W_waiting;; mret None
  | W_woken => set_lock (Some (Worker i));; goto W_exiting;; mret None
  | W_exiting =>
      sv ← gets s_sv;
      if exiting sv then set_lock None;; goto W_exited;; mret None else goto W_test;; mret None
  | W_serve connfd p =>
      sv ← gets s_sv;
      next ← on_world connfd (do_server_request fs (max_cache_size sv) p);
      goto (match next with Some p => W_serve connfd p | None => W_lock end);;
      mret None
  | W_waiting | W_exited => mret None
  end.

(** a worker that needs [lock] or a signal is blocked without it *)
Definition worker_ready (l : option thread) (w : worker_pc) : bool :=
  match w with
  | W_lock | W_woken => bool_decide (l = None)
  | W_waiting | W_exited => false
  | _ => true
  end.

Definition server_request (connfd : Z) : M st unit :=
  sv ← gets s_sv;
  modify (with_main (if nr_threads sv =? 0 then M_serve connfd (D_start connfd) else M_lock connfd)).

(** [input]: a new connection, or the request to exit *)
Definition main_step (input : option (Z * conn)) : M st (option event) :=
  let goto m := set_pc Main W_lock m in
  m ← gets s_main;
  match m with
  | M_poll =>
      match input with
      | Some (connfd, k) =>
          modify (fun s => with_conns (<[connfd := k]> (s_conns s)) s);; server_request connfd;; mret None
      | None => goto M_exit;; mret None
      end
  | M_serve connfd p =>
      sv ← gets s_sv;
      next ← on_world connfd (do_server_request fs (max_cache_size sv) p);
      goto (match next with Some p => M_serve connfd p | None => M_poll end);;
      mret None
  | M_lock connfd => set_lock (Some Main);; goto (M_test connfd);; mret None
  | M_test connfd =>
      sv ← gets s_sv;
      if request_counter sv =? max_requests sv then goto (M_wait connfd);; mret None else
      send_to_buffer connfd;;
      set_lock None;;
      goto M_poll;;
      mret (Some (Accepted_fd connfd))
  | M_wait connfd => set_lock None;; goto (M_waiting connfd);; mret None
  | M_woken connfd => set_lock (Some Main);; goto (M_exiting connfd);; mret None
  | M_exiting connfd =>
      sv ← gets s_sv;
      if exiting sv then set_lock None;; goto M_gone;; mret None else goto (M_test connfd);; mret None
  | M_exit =>
      sv ← gets s_sv;
      set_sv (mk_server (nr_threads sv) (max_requests sv) (max_cache_size sv) true
        (buffer sv) (sv_in sv) (sv_out sv) (request_counter sv));;
      goto M_wake_empty;; mret None
  | M_wake_empty => broadcast_empty;; goto M_wake_full;; mret None
  | M_wake_full => broadcast_full;; goto (M_join 0);; mret None
  | M_join i =>
      sv ← gets s_sv;
      (if Z.of_nat i <? nr_threads sv then goto (M_join (S i)) else goto M_free);;
      mret None
  | M_free =>
      s ← get;
      (if 0 <? max_cache_size (s_sv s) then
         match cache_destroy (s_mem s) with
         | Val (_, m) => modify (fun s => mk_st (s_sv s) (s_lock s) (s_workers s) (s_main s) m (s_conns s))
         | Fault f => stop f
         end
       else mret tt);;
      goto M_done;;
      mret None
  | M_waiting _ | M_gone | M_done => mret None
  end.

Definition main_ready (s : st) (input : option (Z * conn)) : bool :=
  match s_main s with
  | M_lock _ | M_woken _ => bool_decide (s_lock s = None)
  | M_join i =>
      if Z.of_nat i <? nr_threads (s_sv s) then
        match s_workers s !! i with Some W_exited => true | _ => false end
      else true
  | M_waiting _ | M_gone | M_done => false
  | M_poll =>
      (* a new connection has a descriptor that is not open *)
      match input with
      | Some (connfd, k) =>
          k_open k && match s_conns s !! connfd with Some k' => negb (k_open k') | None => true end
      | None => true
      end
  | _ => true
  end.

Inductive step : st -> option event -> st -> Prop :=
  | step_worker i w s ev s' :
      s_workers s !! i = Some w -> worker_ready (s_lock s) w = true -> worker_step i w s = Val (ev, s') -> step s ev s'
  | step_main input s ev s' :
      main_ready s input = true -> main_step input s = Val (ev, s') -> step s ev s'
  | step_spurious_worker i s :
      s_workers s !! i = Some W_waiting -> step s (Some Spurious) (with_workers (<[i := W_woken]> (s_workers s)) s)
  | step_spurious_main s connfd :
      s_main s = M_waiting connfd -> step s (Some Spurious) (with_main (M_woken connfd) s).

(** any number of steps, with what they show *)
Inductive run : st -> list event -> st -> Prop :=
  | run_done s : run s [] s
  | run_step s tr s' ev s'' : run s tr s' -> step s' ev s'' -> run s (tr ++ option_list ev) s''.
End steps.

(** ** The start *)

Definition server_basic_init (nr_threads max_requests max_cache_size : Z) : server :=
  mk_server nr_threads max_requests max_cache_size false None 0 0 0.

(** the workers run once [server_init] has released [lock] *)
Definition server_init (nr_threads max_requests max_cache_size : Z) : outcome st :=
  let sv := server_basic_init nr_threads max_requests max_cache_size in
  let sv := if 0 <? max_requests
    then mk_server nr_threads max_requests max_cache_size false (Some ∅) 0 0 0 else sv in
  let m := mk_mem None ∅ ∅ ∅ ∅ 1 in
  match (if 0 <? max_cache_size then cache_init max_cache_size else mret tt) m with
  | Val (_, m) => Val (mk_st sv None (replicate (Z.to_nat nr_threads) W_lock) M_poll m ∅)
  | Fault f => Fault f
  end.

(** [main] of server.c up to its loop, the loop being [main_step]; opening the socket and
    the fifo succeeds *)
Definition server_main (argv : list (list Z)) : outcome st :=
  match argv with
  | [_; arg1; arg2; arg3; arg4] =>
      let port := atoi arg1 in
      let nr_threads := atoi arg2 in
      let max_requests := atoi arg3 in
      let max_cache_size := atoi arg4 in
      if port <? 1024 then Fault Exited else
      if (nr_threads <? 0) || (max_requests <? 0) || (max_cache_size <? 0) then Fault Exited else
      server_init nr_threads max_requests max_cache_size
  | _ => Fault Exited
  end.
