(* ===== verification/FileTree.v ===== *)
(** * The block tree of a file

    The specification side of fs/read_write.c: the slots an inode stores block
    numbers in, the invariant that every block is stored in one slot only and is
    allocated, and the contents of the blocks of a file. *)

From stdpp Require Import base gmap list list_numbers.
From Stdlib Require Import ZArith Lia.
From S2P Require Import Prelude Words Bitmap Block FsState InodeHash Super Inode ReadWrite.
#[local] Open Scope Z_scope.

(** ** Slots *)

Inductive slot : Type :=
  | Direct (i : Z)
  | Ind
  | IndE (j : Z)
  | DInd
  | DIndE (i : Z)
  | DIndEE (i j : Z).

#[global] Instance slot_eq_dec : EqDecision slot.
Proof. solve_decision. Defined.

Definition ix_ok (j : Z) : Prop := 0 <= j < NR_INDIRECT_BLOCKS.
Definition slot_ok (s : slot) : Prop :=
  match s with
  | Direct i => 0 <= i < NR_DIRECT_BLOCKS
  | Ind | DInd => True
  | IndE j => ix_ok j
  | DIndE i => ix_ok i
  | DIndEE i j => ix_ok i /\ ix_ok j
  end.

(** entry [j] of the index block [b]; no block has no entries *)
Definition entry (D : device) (b j : Z) : Z := if 0 <? b then int_at (blk D b) j else 0.

Definition slot_val (D : device) (d : dinode) (s : slot) : Z :=
  match s with
  | Direct i => direct_at d i
  | Ind => i_indirect d
  | IndE j => entry D (i_indirect d) j
  | DInd => i_dindirect d
  | DIndE i => entry D (i_dindirect d) i
  | DIndEE i j => entry D (entry D (i_dindirect d) i) j
  end.

(** the slot of a block of the file *)
Definition slot_of (n : Z) : slot :=
  if n <? NR_DIRECT_BLOCKS then Direct n else
  if n - NR_DIRECT_BLOCKS <? NR_INDIRECT_BLOCKS then IndE (n - NR_DIRECT_BLOCKS) else
  let m := n - NR_DIRECT_BLOCKS - NR_INDIRECT_BLOCKS in
  DIndEE (m / NR_INDIRECT_BLOCKS) (m mod NR_INDIRECT_BLOCKS).

(** the physical number of a block of the file, 0 when it is a hole *)
Definition phys (D : device) (d : dinode) (n : Z) : Z := slot_val D d (slot_of n).

(** the contents of a block and of a byte of the file *)
Definition fblock (D : device) (d : dinode) (n : Z) : list Z :=
  if 0 <? phys D d n then blk D (phys D d n) else zero.
Definition fbyte (D : device) (d : dinode) (off : Z) : Z :=
  byte_at (fblock D d (off / BLOCK_SIZE)) (off mod BLOCK_SIZE).
(** the file as the program sees it: [i_size] bytes *)
Definition fbytes (D : device) (d : dinode) (off n : Z) : list Z :=
  map (fun k => fbyte D d (off + Z.of_nat k)) (seq 0 (Z.to_nat n)).

Definition MAX_FILE_SIZE : Z := MAX_BLOCK_NR * BLOCK_SIZE.

(** ** Ownership: [O] is the set of the block numbers the slots hold *)

Record owned (f : slot -> Z) (O : gset Z) : Prop := {
  ow_nz : 0 ∉ O;
  ow_own : forall s, slot_ok s -> f s = 0 \/ f s ∈ O;
  ow_all : forall b, b ∈ O -> exists s, slot_ok s /\ f s = b;
  ow_inj : forall s s', slot_ok s -> slot_ok s' -> f s = f s' -> f s <> 0 -> s = s';
}.

(** the invariant of the inode [d] on the device [D], with the allocated blocks
    [B] of the file system *)
Record ftree (D : device) (d : dinode) (B O : gset Z) : Prop := {
  tr_d : dinode_ok d;
  tr_owned : owned (slot_val D d) O;
  tr_in : forall b, b ∈ O -> (b - DATA_START) ∈ B;
  tr_pos : forall b, b ∈ O -> DATA_START <= b < d_nr D;
  tr_cnt : block_count d = Z.of_nat (size O);
}.

(** ** Size: the blocks of a file lie below its size

    [eblocks] is the number of blocks the size spans.  [testfs_free_blocks] relies
    on this to find every block. *)
Definition eblocks (d : dinode) : Z := (i_size d + BLOCK_SIZE - 1) / BLOCK_SIZE.

Record sized (D : device) (d : dinode) : Prop := {
  sz_bound : 0 <= i_size d <= MAX_FILE_SIZE;
  sz_phys : forall n, 0 <= n < MAX_BLOCK_NR -> phys D d n <> 0 -> n < eblocks d;
  sz_ind : i_indirect d <> 0 -> NR_DIRECT_BLOCKS < eblocks d;
  sz_dind : i_dindirect d <> 0 <-> NR_DIRECT_BLOCKS + NR_INDIRECT_BLOCKS < eblocks d;
}.

Definition upd (f : slot -> Z) (s : slot) (v : Z) : slot -> Z :=
  fun s' => if decide (s' = s) then v else f s'.

Lemma owned_ext f g O : owned f O -> (forall s, slot_ok s -> g s = f s) -> owned g O.
Proof.
  intros [H0 H1 H2 H3] He. split; [done|..].
  - intros s Hs. rewrite He by done. auto.
  - intros b Hb. destruct (H2 b Hb) as (s & Hs & Hfs). exists s. by rewrite He.
  - intros s s' Hs Hs'. rewrite !He by done. auto.
Qed.

Lemma owned_add f O s b : owned f O -> slot_ok s -> f s = 0 -> b <> 0 -> (b ∉ O) ->
  owned (upd f s b) ({[b]} ∪ O).
Proof.
  intros [H0 H1 H2 H3] Hs Hf Hb HO. unfold upd. split.
  - set_solver.
  - intros s' Hs'. case_decide; [set_solver|]. destruct (H1 s' Hs'); set_solver.
  - intros c [->%elem_of_singleton|Hc]%elem_of_union.
    + exists s. by rewrite decide_True.
    + destruct (H2 c Hc) as (s' & Hs' & <-). exists s'. split; [done|].
      rewrite decide_False; [done|]. intros ->. rewrite Hf in Hc. done.
  - intros s1 s2 Hs1 Hs2. destruct (H1 s1 Hs1) as [E1|E1], (H1 s2 Hs2) as [E2|E2];
      repeat case_decide; subst; try done; try (intros; congruence); auto.
Qed.

Lemma owned_del f O s : owned f O -> slot_ok s -> f s <> 0 -> owned (upd f s 0) (O ∖ {[f s]}).
Proof.
  intros [H0 H1 H2 H3] Hs Hf. unfold upd. split.
  - set_solver.
  - intros s' Hs'. case_decide as E; [by left|]. destruct (H1 s' Hs') as [?|Hin]; [by left|].
    right. apply elem_of_difference. split; [done|]. rewrite not_elem_of_singleton.
    intros He. apply E. apply H3; congruence.
  - intros b [Hb Hne]%elem_of_difference. destruct (H2 b Hb) as (s' & Hs' & <-).
    exists s'. split; [done|]. rewrite decide_False; [done|]. intros ->. set_solver.
  - intros s1 s2 Hs1 Hs2. repeat case_decide; subst; try done; auto.
Qed.

Lemma owned_nonneg D d B O s : ftree D d B O -> slot_ok s ->
  slot_val D d s = 0 \/ DATA_START <= slot_val D d s < d_nr D.
Proof. intros Ht Hs. destruct (ow_own _ _ (tr_owned _ _ _ _ Ht) s Hs); [by left|right]. by eapply tr_pos. Qed.

Lemma ftree_elem D d B O s : ftree D d B O -> slot_ok s -> slot_val D d s <> 0 -> slot_val D d s ∈ O.
Proof. intros Ht Hs Hv. by destruct (ow_own _ _ (tr_owned _ _ _ _ Ht) s Hs). Qed.

Lemma MAX_BLOCK_NR_val : MAX_BLOCK_NR = 4196362.
Proof. reflexivity. Qed.
Lemma NR_INDIRECT_val : NR_INDIRECT_BLOCKS = 2048.
Proof. reflexivity. Qed.

Lemma slot_of_ok n : 0 <= n < MAX_BLOCK_NR -> slot_ok (slot_of n).
Proof.
  unfold slot_of, slot_ok, ix_ok. rewrite MAX_BLOCK_NR_val, NR_INDIRECT_val. unfold NR_DIRECT_BLOCKS.
  intros Hn. repeat case_match; simplify_eq; dlia.
Qed.

Lemma slot_of_inj n m : 0 <= n -> 0 <= m -> slot_of n = slot_of m -> n = m.
Proof.
  unfold slot_of. rewrite NR_INDIRECT_val. unfold NR_DIRECT_BLOCKS.
  intros Hn Hm. repeat case_match; intros; simplify_eq; dlia.
Qed.

(** ** Changing the device *)

Lemma entry_ext D D' b j : (b <> 0 -> blk D' b = blk D b) -> entry D' b j = entry D b j.
Proof.
  intros Hb. unfold entry. destruct (0 <? b) eqn:E; [|done]. by rewrite Hb by lia.
Qed.

(** the slots and the blocks of a file depend only on the blocks it owns *)
Lemma slot_val_frame D D' d B O s : ftree D d B O -> (forall b, b ∈ O -> blk D' b = blk D b) ->
  slot_ok s -> slot_val D' d s = slot_val D d s.
Proof.
  intros Ht Hb Hs.
  assert (He : forall s j, slot_ok s -> entry D' (slot_val D d s) j = entry D (slot_val D d s) j).
  { intros s' j Hs'. apply entry_ext. intros Hv. apply Hb. by eapply ftree_elem. }
  destruct s; try done; simpl.
  - by apply (He Ind).
  - by apply (He DInd).
  - pose proof (He DInd i I) as E. simpl in E. rewrite E. destruct Hs. by apply (He (DIndE i)).
Qed.

Lemma phys_frame D D' d B O n : ftree D d B O -> (forall b, b ∈ O -> blk D' b = blk D b) ->
  0 <= n < MAX_BLOCK_NR -> phys D' d n = phys D d n.
Proof. intros Ht Hb Hn. eapply slot_val_frame; [done|done|by apply slot_of_ok]. Qed.

Lemma phys_bound D d B O n : ftree D d B O -> 0 <= n < MAX_BLOCK_NR ->
  phys D d n = 0 \/ DATA_START <= phys D d n < d_nr D.
Proof. intros. eapply owned_nonneg; [done|by apply slot_of_ok]. Qed.

Lemma phys_elem D d B O n : ftree D d B O -> 0 <= n < MAX_BLOCK_NR -> phys D d n <> 0 -> phys D d n ∈ O.
Proof. intros. eapply ftree_elem; [done|by apply slot_of_ok|done]. Qed.

Lemma fblock_frame D D' d B O n : ftree D d B O -> (forall b, b ∈ O -> blk D' b = blk D b) ->
  0 <= n < MAX_BLOCK_NR -> fblock D' d n = fblock D d n.
Proof.
  intros Ht Hb Hn. unfold fblock. rewrite (phys_frame D D' d B O n) by done.
  destruct (Z.ltb_spec 0 (phys D d n)); [|done].
  apply Hb. eapply phys_elem; [done|done|lia].
Qed.

Lemma ftree_frame D D' d B B' O : ftree D d B O -> (forall b, b ∈ O -> blk D' b = blk D b) ->
  d_nr D <= d_nr D' -> (forall b, b ∈ O -> (b - DATA_START) ∈ B') -> ftree D' d B' O.
Proof.
  intros Ht Hb Hn HB. pose proof Ht as [Hd Ho _ Hp Hc]. split; try done.
  - eapply owned_ext; [done|]. intros. by eapply slot_val_frame.
  - intros b HO. specialize (Hp b HO). lia.
Qed.

(** the contents of a file depend on the block numbers of its inode only *)
Definition same_blocks (d d' : dinode) : Prop :=
  i_block_nr d' = i_block_nr d /\ i_indirect d' = i_indirect d /\ i_dindirect d' = i_dindirect d.

#[export] Instance same_blocks_equiv : Equivalence same_blocks.
Proof.
  split; [done|..].
  - intros d d' (H1 & H2 & H3). done.
  - intros d1 d2 d3 (H1 & H2 & H3) (G1 & G2 & G3). unfold same_blocks. split_and!; congruence.
Qed.

Lemma slot_val_same D d d' s : same_blocks d d' -> slot_val D d' s = slot_val D d s.
Proof. intros (H1 & H2 & H3). destruct s; simpl; unfold direct_at; by rewrite ?H1, ?H2, ?H3. Qed.

#[export] Instance slot_val_proper D : Proper (same_blocks ==> eq ==> eq) (slot_val D).
Proof. intros d d' Hd s ? <-. symmetry. by apply slot_val_same. Qed.
Lemma phys_same D d d' n : same_blocks d d' -> phys D d' n = phys D d n.
Proof. apply slot_val_same. Qed.
Lemma fblock_same D d d' n : same_blocks d d' -> fblock D d' n = fblock D d n.
Proof. intros Hs. unfold fblock. by rewrite (phys_same D d d' n Hs). Qed.

Lemma zlen_fblock D d n : dev_ok D -> zlen (fblock D d n) = BLOCK_SIZE.
Proof. intros. unfold fblock. case_match; [by apply zlen_blk|by apply zlen_zeros]. Qed.

(** ** The ways the tree grows

    Each lemma gives the slots after one of the allocations of
    [testfs_allocate_block], on any device [D'] that agrees with [D] on the blocks
    the file owned, but for the index block that was written. *)

Lemma direct_at_set d i n v : length (i_block_nr d) = 10%nat -> 0 <= i < 10 -> 0 <= n ->
  direct_at (set_i_block_nr n v d) i = if decide (i = n) then v else direct_at d i.
Proof.
  intros Hl Hi Hn. unfold direct_at; simpl. rewrite !nth_lookup.
  case_decide as E.
  - subst. by rewrite list_lookup_insert_eq by lia.
  - rewrite list_lookup_insert_ne; [done|]. lia.
Qed.

Section grow.
Context (D D' : device) (d : dinode) (B O : gset Z).
Hypothesis Ht : ftree D d B O.
Implicit Types (p b : Z).

Definition new_block b : Prop := 0 < b < 2147483648 /\ (b ∉ O).

Lemma entry_set b l i v j : blk D' b = int_set l i v -> 0 < b -> zlen l = BLOCK_SIZE -> ix_ok i -> ix_ok j ->
  0 <= v < 2147483648 -> entry D' b j = if decide (j = i) then v else int_at l j.
Proof.
  unfold ix_ok. rewrite NR_INDIRECT_val. unfold BLOCK_SIZE.
  intros Hb Hp Hl Hi Hj Hv. unfold entry. rewrite (proj2 (Z.ltb_lt _ _)), Hb by done. case_decide as E.
  - subst. rewrite int_at_set by lia. apply s32_small. lia.
  - apply int_at_set_ne; lia.
Qed.

Lemma int_at_zero j : ix_ok j -> int_at zero j = 0.
Proof. unfold ix_ok. rewrite NR_INDIRECT_val. intros. apply int_at_zeros; unfold BLOCK_SIZE; lia. Qed.

Lemma agree_entry s j : (forall b, b ∈ O -> blk D' b = blk D b) -> slot_ok s ->
  entry D' (slot_val D d s) j = entry D (slot_val D d s) j.
Proof. intros Ha Hs. apply entry_ext. intros Hv. apply Ha. by eapply ftree_elem. Qed.

Lemma entry_0 E j : entry E 0 j = 0.
Proof. done. Qed.

Lemma slots_direct n b : 0 <= n < NR_DIRECT_BLOCKS -> (forall b, b ∈ O -> blk D' b = blk D b) ->
  forall s, slot_ok s -> slot_val D' (set_i_block_nr n b d) s = upd (slot_val D d) (Direct n) b s.
Proof.
  intros Hn Ha s Hs. unfold upd. case_decide as E.
  - subst. simpl. rewrite direct_at_set, decide_True; try done; [|lia].
    apply (tr_d _ _ _ _ Ht).
  - rewrite <- (slot_val_frame D D' d B O s Ht Ha Hs). destruct s; try done. simpl.
    rewrite direct_at_set, decide_False; try done; [congruence| |lia].
    apply (tr_d _ _ _ _ Ht).
Qed.

Lemma slots_ind_new p j b : i_indirect d = 0 -> new_block p -> new_block b -> ix_ok j ->
  (forall b, b ∈ O -> blk D' b = blk D b) -> blk D' p = int_set zero j b ->
  forall s, slot_ok s ->
  slot_val D' (set_i_indirect p d) s = upd (upd (slot_val D d) Ind p) (IndE j) b s.
Proof.
  intros H0 [Hp _] [Hb _] Hj Ha Hw s Hs. unfold upd. destruct s as [i| |i| |i|i k]; try done; simpl.
  - rewrite (entry_set p zero j b i) by (done || lia || by apply zlen_zeros).
    rewrite H0, entry_0. repeat case_decide; try congruence. by apply int_at_zero.
  - apply (agree_entry DInd i Ha I).
  - pose proof (agree_entry DInd i Ha I) as E. simpl in E. rewrite E. destruct Hs.
    by apply (agree_entry (DIndE i)).
Qed.

Lemma slots_ind_old j b : i_indirect d <> 0 -> new_block b -> ix_ok j -> zlen (blk D (i_indirect d)) = BLOCK_SIZE ->
  (forall b, b ∈ O -> b <> i_indirect d -> blk D' b = blk D b) ->
  blk D' (i_indirect d) = int_set (blk D (i_indirect d)) j b ->
  forall s, slot_ok s -> slot_val D' d s = upd (slot_val D d) (IndE j) b s.
Proof.
  intros H0 [Hb _] Hj Hl Ha Hw s Hs. unfold upd.
  assert (He : forall t k, slot_ok t -> t <> Ind ->
    entry D' (slot_val D d t) k = entry D (slot_val D d t) k).
  { intros t k Ht' Hne. apply entry_ext. intros Hv. apply Ha; [by eapply ftree_elem|].
    intros E. apply Hne. by apply (ow_inj _ _ (tr_owned _ _ _ _ Ht)). }
  assert (Hpos : 0 < i_indirect d).
  { destruct (owned_nonneg D d B O Ind Ht I); simpl in *; unfold DATA_START in *; lia. }
  destruct s as [i| |i| |i|i k]; try done; simpl.
  - rewrite (entry_set _ (blk D (i_indirect d)) j b i) by (done || lia).
    unfold entry. rewrite (proj2 (Z.ltb_lt _ _) Hpos). repeat case_decide; congruence.
  - by apply (He DInd).
  - pose proof (He DInd i I ltac:(done)) as E. simpl in E. rewrite E. destruct Hs.
    by apply (He (DIndE i)).
Qed.

Lemma slots_dind_old i j b : entry D (i_dindirect d) i <> 0 -> new_block b -> ix_ok i -> ix_ok j ->
  zlen (blk D (entry D (i_dindirect d) i)) = BLOCK_SIZE ->
  (forall b, b ∈ O -> b <> entry D (i_dindirect d) i -> blk D' b = blk D b) ->
  blk D' (entry D (i_dindirect d) i) = int_set (blk D (entry D (i_dindirect d) i)) j b ->
  forall s, slot_ok s -> slot_val D' d s = upd (slot_val D d) (DIndEE i j) b s.
Proof.
  intros H0 [Hb _] Hi Hj Hl Ha Hw s Hs. unfold upd. set (q := entry D (i_dindirect d) i) in *.
  assert (He : forall t k, slot_ok t -> t <> DIndE i ->
    entry D' (slot_val D d t) k = entry D (slot_val D d t) k).
  { intros t k Ht' Hne. apply entry_ext. intros Hv. apply Ha; [by eapply ftree_elem|].
    intros E. apply Hne. by apply (ow_inj _ _ (tr_owned _ _ _ _ Ht)). }
  assert (Hpos : 0 < q).
  { destruct (owned_nonneg D d B O (DIndE i) Ht Hi) as [E|E]; simpl in E; fold q in E; unfold DATA_START in *; lia. }
  destruct s as [k| |k| |k|k m]; try done; simpl.
  - by apply (He Ind).
  - by apply (He DInd).
  - pose proof (He DInd k I ltac:(done)) as E. simpl in E. rewrite E. destruct Hs as [Hk Hm].
    destruct (decide (k = i)) as [->|Hne].
    + fold q. rewrite (entry_set _ (blk D q) j b m) by (done || lia).
      unfold entry at 1. rewrite (proj2 (Z.ltb_lt _ _) Hpos). repeat case_decide; congruence.
    + rewrite decide_False by congruence. apply (He (DIndE k)); [done|congruence].
Qed.

Lemma slots_dind_mid q i j b : i_dindirect d <> 0 -> entry D (i_dindirect d) i = 0 ->
  new_block q -> new_block b -> ix_ok i -> ix_ok j -> zlen (blk D (i_dindirect d)) = BLOCK_SIZE ->
  (forall b, b ∈ O -> b <> i_dindirect d -> blk D' b = blk D b) ->
  blk D' (i_dindirect d) = int_set (blk D (i_dindirect d)) i q ->
  blk D' q = int_set zero j b ->
  forall s, slot_ok s ->
  slot_val D' d s = upd (upd (slot_val D d) (DIndE i) q) (DIndEE i j) b s.
Proof.
  intros Hd H0 [Hq Hqn] [Hb _] Hi Hj Hl Ha Hw Hw2 s Hs. unfold upd.
  assert (He : forall t k, slot_ok t -> t <> DInd ->
    entry D' (slot_val D d t) k = entry D (slot_val D d t) k).
  { intros t k Ht' Hne. apply entry_ext. intros Hv. apply Ha; [by eapply ftree_elem|].
    intros E. apply Hne. by apply (ow_inj _ _ (tr_owned _ _ _ _ Ht)). }
  assert (Hpos : 0 < i_dindirect d).
  { destruct (owned_nonneg D d B O DInd Ht I); simpl in *; unfold DATA_START in *; lia. }
  assert (Hm : forall k, ix_ok k -> entry D' (i_dindirect d) k =
    if decide (k = i) then q else entry D (i_dindirect d) k).
  { intros k Hk. rewrite (entry_set _ (blk D (i_dindirect d)) i q k) by (done || lia).
    unfold entry. by rewrite (proj2 (Z.ltb_lt _ _) Hpos). }
  destruct s as [k| |k| |k|k m]; try done; simpl.
  - by apply (He Ind).
  - rewrite Hm by done. repeat case_decide; congruence.
  - destruct Hs as [Hk Hmk]. rewrite Hm by done. destruct (decide (k = i)) as [->|Hne].
    + rewrite (entry_set _ zero j b m) by (done || lia || by apply zlen_zeros).
      rewrite H0, entry_0. repeat case_decide; try congruence. by apply int_at_zero.
    + rewrite !decide_False by congruence. apply (He (DIndE k)); done.
Qed.

Lemma slots_dind_new p q i j b : i_dindirect d = 0 -> new_block p -> new_block q -> new_block b ->
  p <> q -> ix_ok i -> ix_ok j ->
  (forall b, b ∈ O -> blk D' b = blk D b) ->
  blk D' p = int_set zero i q -> blk D' q = int_set zero j b ->
  forall s, slot_ok s ->
  slot_val D' (set_i_dindirect p d) s =
    upd (upd (upd (slot_val D d) DInd p) (DIndE i) q) (DIndEE i j) b s.
Proof.
  intros H0 [Hp _] [Hq _] [Hb _] Hpq Hi Hj Ha Hw Hw2 s Hs. unfold upd.
  assert (Hm : forall k, ix_ok k -> entry D' p k = if decide (k = i) then q else 0).
  { intros k Hk. rewrite (entry_set _ zero i q k) by (done || lia || by apply zlen_zeros).
    case_decide; [done|by apply int_at_zero]. }
  destruct s as [k| |k| |k|k m]; try done; simpl.
  - by apply (agree_entry Ind).
  - rewrite Hm by done. rewrite H0, entry_0. repeat case_decide; congruence.
  - destruct Hs as [Hk Hmk]. rewrite Hm by done. rewrite H0, ?entry_0.
    destruct (decide (k = i)) as [->|Hne].
    + rewrite (entry_set _ zero j b m) by (done || lia || by apply zlen_zeros).
      repeat case_decide; try congruence. by apply int_at_zero.
    + rewrite !decide_False by congruence. by rewrite entry_0.
Qed.
End grow.
