(* ===== verification/FileAlloc.v ===== *)
(** * Finding and allocating the blocks of a file

    The specifications of [testfs_read_block] and [testfs_allocate_block] on the
    block tree of an inode. *)

From stdpp Require Import base gmap list list_numbers.
From Stdlib Require Import ZArith Lia.
From S2P Require Import Prelude Words Bitmap Block FsState InodeHash Super Inode ReadWrite FileTree.
#[local] Open Scope Z_scope.

(** ** What an operation on one file changes *)

(** in memory: the inode at [p], from [i] to [i'], and the freemaps *)
Record file_step (w w' : fs) (p : ptr) (i i' : inode) : Prop := {
  st_heap : fs_heap w' = <[p := i']> (fs_heap w);
  st_hash : fs_hash w' = fs_hash w;
  st_next : fs_next w' = fs_next w;
  st_junk : fs_junk w' = fs_junk w;
  st_errno : fs_errno w' = fs_errno w;
  st_out : fs_out w' = fs_out w;
  st_max : max_fs_blocks (fs_sb w') = max_fs_blocks (fs_sb w);
  st_nr : i_nr i' = i_nr i;
  st_count : i_count i' = i_count i;
  st_type : i_type (in_ i') = i_type (in_ i);
  st_dirty : is_dirty i' = true \/ i' = i;
}.

Lemma mark_dirty_idem i : is_dirty i = true -> is_dirty (mark_dirty i) = true.
Proof. intros _. apply mark_dirty_dirty. Qed.

Lemma file_step_refl w p i : fs_heap w !! p = Some i -> file_step w w p i i.
Proof. intros. split; try done; [by rewrite insert_id|by right]. Qed.

Lemma file_step_trans w1 w2 w3 p i1 i2 i3 :
  file_step w1 w2 p i1 i2 -> file_step w2 w3 p i2 i3 -> file_step w1 w3 p i1 i3.
Proof.
  intros [] []. split; try congruence.
  - rewrite st_heap1, st_heap0. apply insert_insert_eq.
  - destruct st_dirty1 as [?| ->]; [by left|]. done.
Qed.

Lemma file_step_lookup w w' p i i' : file_step w w' p i i' -> fs_heap w' !! p = Some i'.
Proof. intros []. rewrite st_heap0. apply lookup_insert_eq. Qed.

(** changing fields of the inode that keep its identity *)
Lemma file_step_set w p i i' : fs_heap w !! p = Some i ->
  i_nr i' = i_nr i -> i_count i' = i_count i -> i_type (in_ i') = i_type (in_ i) ->
  (is_dirty i' = true \/ i' = i) ->
  file_step w (with_heap (<[p := i']> (fs_heap w)) w) p i i'.
Proof. by split. Qed.

Lemma file_step_dev w p i d : fs_heap w !! p = Some i -> file_step w (with_dev d w) p i i.
Proof. intros. split; try done; [by rewrite insert_id|by right]. Qed.

Lemma live_step w w' I B I' B' p i i' : live w I B -> fs_heap w !! p = Some i ->
  file_step w w' p i i' -> fs_rep w' I' B' -> live w' I' B'.
Proof.
  intros [_ [t Hc]] Hp [] Hr. split; [done|]. exists t.
  eapply cache_ok_mem; [eapply (cache_ok_upd w t p i i'); try done|done..].
  rewrite st_count0. by eapply cache_count.
Qed.

Lemma wp_upd_in w p f i (Q : unit -> fs -> Prop) : fs_heap w !! p = Some i ->
  Q tt (with_heap (<[p := set_in f i]> (fs_heap w)) w) -> wp (upd_in p f) w Q.
Proof. intros. unfold upd_in. by eapply wp_upd_inode. Qed.

Lemma wp_test_flag b w (Q : bool -> fs -> Prop) : Q b w -> wp (test_flag (Some b)) w Q.
Proof. intros. unfold test_flag. by eapply wp_deref. Qed.

Lemma fs_rep_heap w I B h : fs_rep w I B -> fs_rep (with_heap h w) I B.
Proof. intros. by eapply fs_rep_mem. Qed.

(** ** Reading a block *)

Lemma wp_int_read_ix w l j (Q : Z -> fs -> Prop) : zlen l = BLOCK_SIZE -> ix_ok j ->
  Q (int_at l j) w -> wp (int_read l j) w Q.
Proof.
  unfold ix_ok. rewrite NR_INDIRECT_val. unfold BLOCK_SIZE. intros. apply wp_int_read; [lia|lia|done].
Qed.
Lemma wp_int_write_ix w l j v (Q : list Z -> fs -> Prop) : zlen l = BLOCK_SIZE -> ix_ok j ->
  Q (int_set l j v) w -> wp (int_write l j v) w Q.
Proof.
  unfold ix_ok. rewrite NR_INDIRECT_val. unfold BLOCK_SIZE. intros. apply wp_int_write; [lia|lia|done].
Qed.
Lemma zlen_int_set_ix l j v : zlen l = BLOCK_SIZE -> ix_ok j -> zlen (int_set l j v) = BLOCK_SIZE.
Proof.
  unfold ix_ok. rewrite NR_INDIRECT_val. unfold BLOCK_SIZE. intros Hl Hj. by rewrite zlen_int_set by lia.
Qed.

Lemma int_at_set_ix l j v : zlen l = BLOCK_SIZE -> ix_ok j -> 0 <= v < 2147483648 -> int_at (int_set l j v) j = v.
Proof.
  unfold ix_ok. rewrite NR_INDIRECT_val. unfold BLOCK_SIZE. intros Hl Hj Hv.
  rewrite int_at_set by lia. apply s32_small. lia.
Qed.

Lemma quot_rem_ix n : 0 <= n -> 
  Z.quot n NR_INDIRECT_BLOCKS = n / NR_INDIRECT_BLOCKS /\ Z.rem n NR_INDIRECT_BLOCKS = n mod NR_INDIRECT_BLOCKS.
Proof. rewrite NR_INDIRECT_val. intros. by rewrite Z.quot_div_nonneg, Z.rem_mod_nonneg by lia. Qed.

Section on_file.
Context (w : fs) (I B O : gset Z) (p : ptr) (i : inode).
Hypothesis Hr : fs_rep w I B.
Hypothesis Hp : fs_heap w !! p = Some i.
Hypothesis Ht : ftree (fs_dev w) (in_ i) B O.

Lemma wp_read_slot s (Q : list Z -> fs -> Prop) : slot_ok s -> 0 < slot_val (fs_dev w) (in_ i) s ->
  Q (blk (fs_dev w) (slot_val (fs_dev w) (in_ i) s)) w ->
  wp (read_block (slot_val (fs_dev w) (in_ i) s)) w Q.
Proof.
  intros Hs Hv HQ. apply wp_read_block; [apply Hr| |done].
  destruct (owned_nonneg _ _ _ _ s Ht Hs); unfold_consts; lia.
Qed.

Lemma zlen_slot b : zlen (blk (fs_dev w) b) = BLOCK_SIZE.
Proof. apply zlen_blk, Hr. Qed.

Lemma wp_direct_read d j (Q : Z -> fs -> Prop) : 0 <= j < NR_DIRECT_BLOCKS ->
  Q (direct_at d j) w -> wp (direct_read d j) w Q.
Proof. intros. unfold direct_read. by rewrite bool_decide_true by done. Qed.

(** [testfs_read_block] answers with the physical number of the block and its
    contents, and changes nothing *)
Lemma read_block_file n block (Q : Z * list Z -> fs -> Prop) : 0 <= n < MAX_BLOCK_NR ->
  Q (phys (fs_dev w) (in_ i) n, fblock (fs_dev w) (in_ i) n) w ->
  wp (testfs_read_block p n block) w Q.
Proof.
  intros Hn HQ. unfold testfs_read_block. wsimpl.
  apply wp_assert; [apply Z.leb_le; lia|]. rewrite (proj2 (Z.leb_gt MAX_BLOCK_NR n)) by lia. wsimpl.
  eapply wp_get_inode; [done|]. wsimpl.
  eapply (wp_mono _ _ (fun r w' => r = phys (fs_dev w) (in_ i) n /\ w' = w)).
  2: { intros r w' [-> ->]. pose proof (phys_bound _ _ _ _ n Ht Hn) as Hb.
       unfold fblock in HQ. destruct (0 <? phys (fs_dev w) (in_ i) n) eqn:E; [|by wsimpl].
       wsimpl. apply wp_read_slot; [by apply slot_of_ok|unfold phys in E; lia|]. by wsimpl. }
  pose proof (slot_of_ok n Hn) as Hok. unfold phys. unfold slot_of in *.
  destruct (n <? NR_DIRECT_BLOCKS) eqn:E1.
  { by apply wp_direct_read. }
  destruct (n - NR_DIRECT_BLOCKS <? NR_INDIRECT_BLOCKS) eqn:E2.
  { cbn [slot_val]. unfold entry. destruct (0 <? i_indirect (in_ i)) eqn:E3; [|by wsimpl].
    wsimpl. apply (wp_read_slot Ind); [done|simpl; lia|]. wsimpl.
    by apply wp_int_read_ix; [apply zlen_slot|..]. }
  rewrite (proj2 (Z.leb_le 0 (n - NR_DIRECT_BLOCKS - NR_INDIRECT_BLOCKS))) by lia.
  replace (n - (NR_DIRECT_BLOCKS + NR_INDIRECT_BLOCKS)) with (n - NR_DIRECT_BLOCKS - NR_INDIRECT_BLOCKS) by lia.
  destruct (quot_rem_ix (n - NR_DIRECT_BLOCKS - NR_INDIRECT_BLOCKS)) as [-> ->]; [lia|].
  set (a := _ / _) in *. set (b := _ mod _) in *. destruct Hok as [Ha Hb]. simpl.
  destruct (0 <? i_dindirect (in_ i)) eqn:E3.
  2: { wsimpl. by unfold entry at 2; rewrite E3. }
  wsimpl. apply (wp_read_slot DInd); [done|simpl; lia|]. wsimpl.
  apply wp_int_read_ix; [apply zlen_slot|done|]. wsimpl. simpl.
  assert (He : slot_val (fs_dev w) (in_ i) (DIndE a) = int_at (blk (fs_dev w) (i_dindirect (in_ i))) a).
  { simpl. unfold entry. by rewrite E3. }
  rewrite <- He. unfold entry at 1. change (entry _ (i_dindirect (in_ i)) a) with (slot_val (fs_dev w) (in_ i) (DIndE a)).
  destruct (0 <? slot_val (fs_dev w) (in_ i) (DIndE a)) eqn:E4; [|by wsimpl].
  wsimpl. apply wp_read_slot; [done|lia|]. wsimpl.
  by apply wp_int_read_ix; [apply zlen_slot|..].
Qed.
End on_file.

(** ** Allocating one block for an inode *)

Lemma shift_size (O B : gset Z) c : (forall b, b ∈ O -> b - c ∈ B) -> Z.of_nat (size O) <= Z.of_nat (size B).
Proof.
  revert B. induction O as [|x O Hx IH] using set_ind_L; intros B HB.
  - rewrite size_empty. lia.
  - rewrite add_size by done.
    specialize (IH (B ∖ {[x - c]})). rewrite del_size in IH by (apply HB; set_solver).
    assert (Hin : forall b, b ∈ O -> b - c ∈ B ∖ {[x - c]}); [|specialize (IH Hin); lia].
    intros b Hb. apply elem_of_difference. split; [apply HB; set_solver|].
    rewrite not_elem_of_singleton. intros E. assert (b = x) by lia. by subst.
Qed.

Definition bump (i : inode) : inode :=
  mark_dirty (set_in (fun d => set_block_count (block_count d + 1) d) i).

Section allocate.
Context (w : fs) (I B : gset Z) (p : ptr) (i : inode).
Hypothesis Hr : fs_rep w I B.
Hypothesis Hp : fs_heap w !! p = Some i.

Lemma wp_alloc_for_inode (Q : Z -> fs -> Prop) :
  0 <= block_count (in_ i) < 2147483647 -> Z.of_nat (size B) < max_fs_blocks (fs_sb w) ->
  (forall k w1, 0 <= k < BLOCK_BITS -> (k ∉ B) -> fs_rep w1 I ({[k]} ∪ B) ->
     file_step w w1 p i (bump i) -> dev_frame is_meta (fs_dev w) (fs_dev w1) ->
     d_nr (fs_dev w1) = d_nr (fs_dev w) -> Q (DATA_START + k) w1) ->
  wp (testfs_alloc_block_for_inode p) w Q.
Proof.
  intros Hc Hs HQ. unfold testfs_alloc_block_for_inode. wsimpl.
  eapply wp_mono; [by apply alloc_block_some|].
  intros r w1 (k & Hk & HkB & -> & Hr1 & [] & Hmax & Hdf & Hnr).
  rewrite (proj2 (Z.leb_le 0 (DATA_START + k))) by (unfold_consts; lia). wsimpl.
  eapply wp_upd_inode; [by rewrite fr_heap|]. wsimpl.
  assert (Hb : mark_dirty (set_in (fun d => set_block_count (s32 (block_count d + 1)) d) i) = bump i).
  { unfold bump, set_in. rewrite s32_small by lia. done. }
  rewrite Hb. apply HQ; try done; [by apply fs_rep_heap|].
  split; simpl; try done; [by rewrite fr_heap|]. left. by apply mark_dirty_dirty.
Qed.

Lemma alloc_for_inode_full (Q : Z -> fs -> Prop) :
  max_fs_blocks (fs_sb w) <= Z.of_nat (size B) -> Q (- ENOSPC) w ->
  wp (testfs_alloc_block_for_inode p) w Q.
Proof.
  intros Hs HQ. unfold testfs_alloc_block_for_inode. wsimpl.
  eapply wp_mono; [by apply alloc_block_spec|].
  intros r w1 [[? _]|(_ & -> & ->)]; [lia|]. by wsimpl.
Qed.
End allocate.

(** ** The effect of [testfs_allocate_block] *)

(** block [n] of the file is now [l], the others are unchanged *)
Definition wrote (D : device) (d : dinode) (n : Z) (l : list Z) (D' : device) (d' : dinode) : Prop :=
  forall m, 0 <= m < MAX_BLOCK_NR -> fblock D' d' m = if decide (m = n) then l else fblock D d m.

Record grown (w w' : fs) (I B O B' O' : gset Z) (p : ptr) (i i' : inode) : Prop := {
  gr_rep : fs_rep w' I B';
  gr_step : file_step w w' p i i';
  gr_B : B ⊆ B';
  gr_O : O ⊆ O';
  gr_fresh : forall b, b ∈ O' -> (b ∉ O) -> (b - DATA_START ∉ B);
  gr_size : i_size (in_ i') = i_size (in_ i);
  gr_dev : dev_frame (fun c => is_meta c \/ c ∈ O') (fs_dev w) (fs_dev w');
}.

(** the slots on the way to block [n] of the file *)
Definition below (s : slot) (n : Z) : Prop :=
  match s, slot_of n with
  | Direct a, Direct b => a = b
  | Ind, IndE _ => True
  | IndE a, IndE b => a = b
  | DInd, DIndEE _ _ => True
  | DIndE a, DIndEE b _ => a = b
  | DIndEE a c, DIndEE b e => a = b /\ c = e
  | _, _ => False
  end.

(** only empty slots on the way to block [n] were filled *)
Definition filled (D : device) (d : dinode) (n : Z) (D' : device) (d' : dinode) : Prop :=
  forall s, slot_ok s -> slot_val D' d' s = slot_val D d s \/ (below s n /\ slot_val D d s = 0).

(** Block [r] is allocated for block [n] of the file; once the caller has written
    [l] to it, the tree is well formed and has [l] there. *)
Definition allocated (w : fs) (I B O : gset Z) (p : ptr) (i : inode) (n r : Z) (w' : fs) : Prop :=
  exists i' B' O', grown w w' I B O B' O' p i i' /\
    Z.of_nat (size B') <= Z.of_nat (size B) + 3 /\ r ∈ O' /\ 
    DATA_START <= r < d_cap (fs_dev w') /\
    (forall b, b ∈ O' -> b - DATA_START ∈ B') /\
    forall l, zlen l = BLOCK_SIZE ->
      let D' := dev_write r l (fs_dev w') in
      ftree D' (in_ i') B' O' /\ wrote (fs_dev w) (in_ i) n l D' (in_ i') /\
      filled (fs_dev w) (in_ i) n D' (in_ i') /\ phys D' (in_ i') n = r.

(** the slots of file blocks are leaves *)
Lemma wrote_grow D D' d d' B O n b l : ftree D d B O -> 0 < b -> blk D' b = l ->
  (forall m, 0 <= m < MAX_BLOCK_NR -> phys D' d' m = if decide (m = n) then b else phys D d m) ->
  (forall m, 0 <= m < MAX_BLOCK_NR -> m <> n -> phys D d m <> 0 -> blk D' (phys D d m) = blk D (phys D d m)) ->
  wrote D d n l D' d'.
Proof.
  intros Ht Hb Hl Hph Hbl m Hm. unfold fblock. rewrite Hph by done. case_decide as E.
  - by rewrite (proj2 (Z.ltb_lt 0 b)).
  - destruct (Z.ltb_spec 0 (phys D d m)); [|done]. apply Hbl; [done|done|lia].
Qed.

Lemma ftree_grow D D' d d' B B' O O' : ftree D d B O -> owned (slot_val D' d') O' -> dinode_ok d' ->
  (forall b, b ∈ O' -> b ∈ O \/ DATA_START <= b < d_nr D') -> (forall b, b ∈ O' -> b - DATA_START ∈ B') ->
  d_nr D <= d_nr D' -> block_count d' = Z.of_nat (size O') -> ftree D' d' B' O'.
Proof.
  intros [_ _ _ Hpos _] Ho Hd HO HB Hn Hc. split; try done.
  intros b Hb. destruct (HO b Hb) as [Hin|?]; [|done]. specialize (Hpos b Hin). lia.
Qed.

(** the new inode stays well formed *)
Lemma dinode_ok_fields d bs ind dind cnt : dinode_ok d -> length bs = 10%nat -> Forall s32_ok bs ->
  s32_ok ind -> s32_ok dind -> s32_ok cnt -> dinode_ok (mk_dinode (i_type d) bs ind dind cnt (i_size d)).
Proof.
  intros [H1 H2 H3 H4] ? ? ? ? ?. repeat (apply Forall_cons in H3 as [? H3]).
  split; simpl; try done. by repeat apply Forall_cons_2.
Qed.

Lemma dinode_s32_fields d : dinode_ok d -> s32_ok (i_indirect d) /\ s32_ok (i_dindirect d) /\ s32_ok (block_count d).
Proof. intros [_ _ H3 _]. repeat (apply Forall_cons in H3 as [? H3]). done. Qed.

Lemma dinode_ok_ind d q : dinode_ok d -> 0 < q < 2147483648 -> dinode_ok (set_i_indirect q d).
Proof.
  intros Hd Hq. destruct (dinode_s32_fields d Hd) as (? & ? & ?).
  apply dinode_ok_fields; try done; try apply Hd. unfold s32_ok. lia.
Qed.
Lemma dinode_ok_dind d q : dinode_ok d -> 0 < q < 2147483648 -> dinode_ok (set_i_dindirect q d).
Proof.
  intros Hd Hq. destruct (dinode_s32_fields d Hd) as (? & ? & ?).
  apply dinode_ok_fields; try done; try apply Hd. unfold s32_ok. lia.
Qed.

Lemma BLOCK_BITS_val : BLOCK_BITS = 1048576.
Proof. reflexivity. Qed.

Section stages.
Context (w : fs) (I B O : gset Z) (p : ptr) (i : inode).
Hypothesis Hr : fs_rep w I B.
Hypothesis Hp : fs_heap w !! p = Some i.
Hypothesis Ht : ftree (fs_dev w) (in_ i) B O.

Lemma owned_not_meta b : b ∈ O -> ~ is_meta b.
Proof. intros Hb Hm. apply (tr_pos _ _ _ _ Ht) in Hb. unfold is_meta in Hm. unfold_consts. lia. Qed.

Lemma tree_count : block_count (in_ i) = Z.of_nat (size O) /\ Z.of_nat (size O) <= Z.of_nat (size B) /\
  Z.of_nat (size B) <= 1048576.
Proof.
  split; [apply (tr_cnt _ _ _ _ Ht)|]. split; [|rewrite <- BLOCK_BITS_val; by eapply bmap_size].
  apply (shift_size _ _ DATA_START). apply (tr_in _ _ _ _ Ht).
Qed.

(** From [w] to [w1], the blocks [news] were allocated for the inode and nothing
    was written outside the meta data. *)
Record stage (w1 : fs) (i1 : inode) (B1 news : gset Z) : Prop := {
  sg_rep : fs_rep w1 I B1;
  sg_step : file_step w w1 p i i1;
  sg_B : B ⊆ B1;
  sg_sz : Z.of_nat (size B1) = Z.of_nat (size B) + Z.of_nat (size news);
  sg_news : forall b, b ∈ news ->
    DATA_START <= b < DATA_START + BLOCK_BITS /\ (b - DATA_START ∉ B) /\ b - DATA_START ∈ B1;
  sg_dev : dev_frame is_meta (fs_dev w) (fs_dev w1);
  sg_devnr : d_nr (fs_dev w1) = d_nr (fs_dev w);
  sg_cnt : block_count (in_ i1) = block_count (in_ i) + Z.of_nat (size news);
  sg_isz : i_size (in_ i1) = i_size (in_ i);
  sg_ok : dinode_ok (in_ i1);
}.

Lemma stage_0 : stage w i B ∅.
Proof.
  split; try done; rewrite ?size_empty; try lia; try by apply file_step_refl.
  apply (tr_d _ _ _ _ Ht).
Qed.

Lemma stage_lookup w1 i1 B1 news : stage w1 i1 B1 news -> fs_heap w1 !! p = Some i1.
Proof. intros []. by eapply file_step_lookup. Qed.

Lemma stage_not_owned w1 i1 B1 news b : stage w1 i1 B1 news -> b ∈ news -> (b ∉ O).
Proof. intros Hs Hb HO. apply (sg_news _ _ _ _ Hs) in Hb as (_ & Hb & _). by apply Hb, (tr_in _ _ _ _ Ht). Qed.

Lemma stage_new_block w1 i1 B1 news b : stage w1 i1 B1 news -> b ∈ news -> new_block O b.
Proof.
  intros Hs Hb. split; [|by eapply stage_not_owned].
  apply (sg_news _ _ _ _ Hs) in Hb as (Hb & _). rewrite BLOCK_BITS_val in Hb. unfold DATA_START in *. lia.
Qed.

Lemma stage_agree w1 i1 B1 news b : stage w1 i1 B1 news -> b ∈ O -> blk (fs_dev w1) b = blk (fs_dev w) b.
Proof. intros Hs Hb. apply (df_blk _ _ _ (sg_dev _ _ _ _ Hs)). by apply owned_not_meta. Qed.

(** one more allocation *)
Lemma stage_alloc w1 i1 B1 news (Q : Z -> fs -> Prop) : stage w1 i1 B1 news ->
  Z.of_nat (size news) <= 2 -> Z.of_nat (size B1) < max_fs_blocks (fs_sb w) ->
  (forall r w2 B2, 0 <= r -> (r ∉ news ∪ O) -> stage w2 (bump i1) B2 ({[r]} ∪ news) -> Q r w2) ->
  wp (testfs_alloc_block_for_inode p) w1 Q.
Proof.
  intros [] Hn Hs HQ. destruct tree_count as (Hc & Hc1 & Hc2).
  apply (wp_alloc_for_inode w1 I B1 p i1); [done|by eapply file_step_lookup|lia
    |by rewrite (st_max _ _ _ _ _ sg_step0)|].
  intros k w2 Hk HkB Hr2 Hst2 Hdf2 Hnr2.
  assert (HkB0 : k ∉ B) by set_solver.
  assert (Hnk : DATA_START + k ∉ news).
  { intros Hin. apply HkB. apply sg_news0 in Hin as (_ & _ & Hin).
    by replace (DATA_START + k - DATA_START) with k in Hin by lia. }
  apply (HQ _ _ ({[k]} ∪ B1)); [unfold DATA_START; lia| |].
  - apply not_elem_of_union. split; [done|]. intros Hin. apply HkB0.
    apply (tr_in _ _ _ _ Ht) in Hin. by replace (DATA_START + k - DATA_START) with k in Hin by lia.
  - split; try done; [by eapply file_step_trans|set_solver|rewrite !add_size by done; lia| | | | |].
    + intros b [Hb|Hb]%elem_of_union.
      * apply elem_of_singleton in Hb as ->. replace (DATA_START + k - DATA_START) with k by lia.
        split; [lia|]. split; [done|set_solver].
      * destruct (sg_news0 b Hb) as (? & ? & ?). split; [done|]. split; [done|set_solver].
    + by eapply dev_frame_trans.
    + congruence.
    + rewrite add_size by done. simpl. lia.
    + destruct (dinode_s32_fields _ sg_ok0) as (? & ? & ?).
      apply (dinode_ok_fields (in_ i1)); try done; try apply sg_ok0. unfold s32_ok; simpl. lia.
Qed.

(** storing a block number in the inode *)
Lemma stage_upd w1 i1 B1 news f : stage w1 i1 B1 news -> is_dirty i1 = true ->
  (forall d, i_type (f d) = i_type d /\ block_count (f d) = block_count d /\ i_size (f d) = i_size d) ->
  dinode_ok (f (in_ i1)) ->
  stage (with_heap (<[p := set_in f i1]> (fs_heap w1)) w1) (set_in f i1) B1 news.
Proof.
  intros Hs Hdirty Hf Hok. pose proof (stage_lookup _ _ _ _ Hs) as Hl. destruct Hs.
  destruct (Hf (in_ i1)) as (Hft & Hfc & Hfs). split; try done.
  - by apply fs_rep_heap.
  - eapply file_step_trans; [done|]. by apply file_step_set; [|..|left].
  - simpl. lia.
  - simpl. congruence.
Qed.

Context (n : Z).
Hypothesis Hn : 0 <= n < MAX_BLOCK_NR.

(** the index blocks were written: the new tree [f] has all it needs *)
Lemma stage_finish w1 i1 B1 news D2 r f : stage w1 i1 B1 news -> Z.of_nat (size news) <= 3 ->
  r ∈ news -> fs_rep (with_dev D2 w1) I B1 -> dev_frame (fun c => c ∈ news ∪ O) (fs_dev w1) D2 ->
  (forall b, b ∈ news -> b = r \/ b < d_nr D2) ->
  (forall l s, slot_ok s -> slot_val (dev_write r l D2) (in_ i1) s = f s) -> owned f (news ∪ O) ->
  (forall m, 0 <= m < MAX_BLOCK_NR ->
     f (slot_of m) = if decide (m = n) then r else phys (fs_dev w) (in_ i) m) ->
  (forall s, slot_ok s -> f s = slot_val (fs_dev w) (in_ i) s \/
     (below s n /\ slot_val (fs_dev w) (in_ i) s = 0)) ->
  (forall m, 0 <= m < MAX_BLOCK_NR -> phys (fs_dev w) (in_ i) m <> 0 ->
     blk D2 (phys (fs_dev w) (in_ i) m) = blk (fs_dev w) (phys (fs_dev w) (in_ i) m)) ->
  allocated w I B O p i n r (with_dev D2 w1).
Proof.
  intros Hs Hsz3 Hrn Hr2 Hdf Hlt Hslots Hown Hleaf Hfill Hdata. pose proof Hs as [].
  destruct (sg_news0 r Hrn) as (Hrb & HrB & HrB1).
  assert (Hdf2 : dev_frame (fun c => is_meta c \/ c ∈ news ∪ O) (fs_dev w) D2).
  { eapply dev_frame_trans; (eapply dev_frame_weaken; [eassumption|]); [by left|by right]. }
  assert (Hin : forall b, b ∈ news ∪ O -> b - DATA_START ∈ B1).
  { intros b [Hb|Hb]%elem_of_union; [by apply sg_news0|]. apply sg_B0. by apply (tr_in _ _ _ _ Ht). }
  exists i1, B1, (news ∪ O). split; [|split; [lia|split; [set_solver|split; [|split; [done|]]]]].
  - split; try done; [|set_solver|].
    + eapply file_step_trans; [done|]. apply file_step_dev. by eapply stage_lookup.
    + intros b [Hb|Hb]%elem_of_union HbO; [|done]. by apply sg_news0.
  - pose proof (rep_cap _ _ _ Hr2) as Hcap. simpl in *. lia.
  - intros l Hl D'. split; [|split; [|split]].
    + apply (ftree_grow (fs_dev w) D' (in_ i) (in_ i1) B B1 O (news ∪ O)); try done.
      * eapply owned_ext; [exact Hown|]. by apply Hslots.
      * intros b [Hb|Hb]%elem_of_union; [|by left]. right.
        destruct (sg_news0 b Hb) as (Hb1 & _). split; [lia|]. simpl. destruct (Hlt b Hb) as [->|?]; lia.
      * pose proof (df_nr _ _ _ Hdf2). simpl. lia.
      * rewrite sg_cnt0, (tr_cnt _ _ _ _ Ht), size_union; [lia|].
        intros b Hb HO. by eapply stage_not_owned.
    + apply (wrote_grow _ _ _ _ B O n r); try done.
      * unfold DATA_START in *. lia.
      * unfold D'. simpl. by rewrite blk_dev_write, decide_True.
      * intros m Hm. rewrite <- Hleaf by done. apply Hslots. by apply slot_of_ok.
      * intros m Hm Hne Hph. unfold D'. simpl. rewrite blk_dev_write, decide_False; [by apply Hdata|].
        intros E. apply HrB. rewrite <- E. apply (tr_in _ _ _ _ Ht). by eapply phys_elem.
    + intros s Hok. unfold D'. simpl. rewrite Hslots by done. by apply Hfill.
    + unfold phys, D'. simpl. rewrite Hslots by by apply slot_of_ok. rewrite Hleaf by done.
      by rewrite decide_True.
Qed.

(** the slots of the data blocks are the leaves *)
Lemma leaf_upd g s m b : slot_of n = s -> 0 <= m < MAX_BLOCK_NR ->
  upd g s b (slot_of m) = if decide (m = n) then b else g (slot_of m).
Proof.
  intros <- ?. unfold upd. destruct (decide (m = n)) as [->|Hne]; [by rewrite decide_True|].
  rewrite decide_False; [done|]. intros E. apply Hne. apply (slot_of_inj m n); [lia|lia|done].
Qed.

Definition is_node (s : slot) : Prop := match s with Ind | DInd | DIndE _ => True | _ => False end.

Lemma node_upd g s m b : is_node s -> upd g s b (slot_of m) = g (slot_of m).
Proof.
  intros Hs. unfold upd. rewrite decide_False; [done|]. intros <-. unfold slot_of in Hs.
  by repeat case_match.
Qed.

Lemma data_not_node m s : is_node s -> slot_ok s -> 0 <= m < MAX_BLOCK_NR ->
  phys (fs_dev w) (in_ i) m <> 0 -> phys (fs_dev w) (in_ i) m <> slot_val (fs_dev w) (in_ i) s.
Proof.
  intros Hnode Hs Hm Hph E. pose proof (slot_of_ok m Hm) as Hok.
  pose proof (ow_inj _ _ (tr_owned _ _ _ _ Ht) (slot_of m) s Hok Hs E Hph) as <-.
  unfold slot_of in Hnode. by repeat case_match.
Qed.
End stages.

(** ** The branches of [testfs_allocate_block] *)

Lemma size_1 r : Z.of_nat (size ({[r]} ∪ ∅ : gset Z)) = 1.
Proof. rewrite add_size, size_empty; [done|set_solver]. Qed.
Lemma size_2 q r : q <> r -> Z.of_nat (size ({[r]} ∪ ({[q]} ∪ ∅) : gset Z)) = 2.
Proof. intros. rewrite add_size, size_1; [done|set_solver]. Qed.
Lemma size_3 o q r : o <> q -> q <> r -> o <> r ->
  Z.of_nat (size ({[r]} ∪ ({[q]} ∪ ({[o]} ∪ ∅)) : gset Z)) = 3.
Proof. intros. rewrite add_size, size_2; [done|done|set_solver]. Qed.

(** the slots an allocation filled were empty, and on the way to the block *)
Ltac fill_slots Hs Hfree :=
  let HF := fresh in
  pose proof Hfree as HF; unfold phys in HF; rewrite Hs in HF;
  intros s _; unfold upd, below; rewrite Hs; repeat case_decide; subst; auto;
  right; (split; [done|]); simpl in *; try done; try congruence;
  match goal with H : _ = 0 |- _ => by rewrite H end.

Section branches.
Context (w : fs) (I B O : gset Z) (p : ptr) (i : inode) (n : Z).
Hypothesis Hr : fs_rep w I B.
Hypothesis Hp : fs_heap w !! p = Some i.
Hypothesis Ht : ftree (fs_dev w) (in_ i) B O.
Hypothesis Hn : 0 <= n < MAX_BLOCK_NR.
Hypothesis Hfree : phys (fs_dev w) (in_ i) n = 0.
Hypothesis Hroom : Z.of_nat (size B) + 3 <= max_fs_blocks (fs_sb w).

Abbreviation D := (fs_dev w).
Abbreviation d := (in_ i).
Abbreviation staged := (stage w I B p i).

Lemma add_room w1 i1 B1 news : staged w1 i1 B1 news -> Z.of_nat (size news) <= 2 ->
  Z.of_nat (size B1) < max_fs_blocks (fs_sb w).
Proof. intros Hs Hz. rewrite (sg_sz _ _ _ _ _ _ _ _ _ Hs). lia. Qed.

Lemma stage_bound w1 i1 B1 news b : staged w1 i1 B1 news -> b ∈ news ∪ O ->
  DATA_START <= b < d_cap (fs_dev w1).
Proof.
  intros Hs Hb. pose proof (sg_rep _ _ _ _ _ _ _ _ _ Hs) as Hr1.
  pose proof (rep_cap _ _ _ Hr1). pose proof (dev_nr _ (rep_dev _ _ _ Hr1)).
  apply elem_of_union in Hb as [Hb|Hb].
  - apply (sg_news _ _ _ _ _ _ _ _ _ Hs) in Hb as [Hb _]. lia.
  - apply (tr_pos _ _ _ _ Ht) in Hb. rewrite (sg_devnr _ _ _ _ _ _ _ _ _ Hs) in *. lia.
Qed.

Lemma wp_stage_write w1 i1 B1 news b l (Q : unit -> fs -> Prop) : staged w1 i1 B1 news ->
  b ∈ news ∪ O -> zlen l = BLOCK_SIZE ->
  (fs_rep (with_dev (dev_write b l (fs_dev w1)) w1) I B1 ->
   Q tt (with_dev (dev_write b l (fs_dev w1)) w1)) ->
  wp (write_block l b) w1 Q.
Proof.
  intros Hs Hb Hl HQ. pose proof (stage_bound _ _ _ _ _ Hs Hb) as Hbd.
  pose proof (sg_rep _ _ _ _ _ _ _ _ _ Hs) as Hr1.
  apply wp_write_block; [apply Hr1|unfold_consts; lia|done|].
  apply HQ. apply fs_rep_write; [done|unfold_consts; lia|done].
Qed.

Lemma wp_stage_write2 w1 i1 B1 news D2 b l (Q : unit -> fs -> Prop) : staged w1 i1 B1 news ->
  fs_rep (with_dev D2 w1) I B1 -> d_cap D2 = d_cap (fs_dev w1) -> b ∈ news ∪ O -> zlen l = BLOCK_SIZE ->
  (fs_rep (with_dev (dev_write b l D2) w1) I B1 -> Q tt (with_dev (dev_write b l D2) w1)) ->
  wp (write_block l b) (with_dev D2 w1) Q.
Proof.
  intros Hs Hr2 Hcap Hb Hl HQ. pose proof (stage_bound _ _ _ _ _ Hs Hb) as Hbd.
  apply wp_write_block; [apply Hr2|simpl; unfold_consts; lia|done|].
  apply HQ. apply (fs_rep_write (with_dev D2 w1)); [done|simpl; unfold_consts; lia|done].
Qed.

Lemma allocate_direct_spec : n < NR_DIRECT_BLOCKS ->
  wp (allocate_direct p n) w (allocated w I B O p i n).
Proof.
  intros Hn1. assert (Hs : slot_of n = Direct n) by (unfold slot_of; by rewrite (proj2 (Z.ltb_lt n NR_DIRECT_BLOCKS))).
  assert (Hz : direct_at d n = 0) by (revert Hfree; unfold phys; by rewrite Hs).
  unfold allocate_direct. wsimpl. eapply wp_get_inode; [done|]. wsimpl.
  apply wp_direct_read; [lia|]. wsimpl. rewrite Hz. apply wp_assert; [done|]. wsimpl.
  pose proof (stage_0 w I B O p i Hr Hp Ht) as S0.
  eapply stage_alloc; [done|done|done|done|rewrite size_empty; lia|eapply add_room; [done|rewrite size_empty; lia]|].
  intros r w1 B1 Hr0 HrO S1. wsimpl. rewrite (proj2 (Z.leb_le 0 r)) by done.
  eapply wp_upd_in; [by eapply stage_lookup|]. wsimpl.
  assert (Hb : new_block O r) by (eapply stage_new_block; [done|done|set_solver]).
  assert (S2 := stage_upd w I B p i w1 (bump i) B1 _ (set_i_block_nr n r) S1 (mark_dirty_dirty _) ltac:(done)).
  rewrite <- (with_dev_id (with_heap _ w1)).
  eapply (stage_finish w I B O p i Hr Hp Ht n Hn _ _ B1 _ _ r (upd (slot_val D d) (Direct n) r)); [apply S2| | | | | | | | | |].
  - destruct (sg_ok _ _ _ _ _ _ _ _ _ S1) as [Hl Hf H32 H64]. destruct Hb as [Hb _]. split; simpl; try done.
    + by rewrite length_insert.
    + apply Forall_insert; [done|]. unfold s32_ok. lia.
  - rewrite size_1. lia.
  - set_solver.
  - rewrite with_dev_id. by apply fs_rep_heap, (sg_rep _ _ _ _ _ _ _ _ _ S1).
  - apply dev_frame_refl.
  - intros b Hb'. left. set_solver.
  - intros l s Hs'. transitivity (slot_val (dev_write r l (fs_dev w1)) (set_i_block_nr n r d) s);
      [by apply slot_val_same|].
    apply (slots_direct D _ d B O Ht n r); [lia| |done].
    intros b Hb'. rewrite blk_dev_write, decide_False by set_solver. by eapply (stage_agree w I B O p i Ht).
  - rewrite union_empty_r_L. destruct Hb. apply owned_add; [apply (tr_owned _ _ _ _ Ht)|simpl; lia|done|lia|done].
  - intros m Hm. by apply leaf_upd.
  - fill_slots Hs Hfree.
  - intros m Hm Hph. eapply (stage_agree w I B O p i Ht w1); [exact S1|]. by eapply phys_elem.
Qed.
Lemma indirect_slot : NR_DIRECT_BLOCKS <= n < NR_DIRECT_BLOCKS + NR_INDIRECT_BLOCKS ->
  slot_of n = IndE (n - NR_DIRECT_BLOCKS) /\ ix_ok (n - NR_DIRECT_BLOCKS).
Proof.
  unfold slot_of, ix_ok. rewrite NR_INDIRECT_val. unfold NR_DIRECT_BLOCKS. intros Hi.
  rewrite (proj2 (Z.ltb_ge n 10)), (proj2 (Z.ltb_lt (n - 10) 2048)) by lia. split; [done|lia].
Qed.

Lemma allocate_indirect_new : NR_DIRECT_BLOCKS <= n < NR_DIRECT_BLOCKS + NR_INDIRECT_BLOCKS ->
  i_indirect d = 0 -> wp (allocate_indirect p n) w (allocated w I B O p i n).
Proof.
  intros Hi H0. destruct (indirect_slot Hi) as [Hs Hix].
  unfold allocate_indirect. set (j := n - NR_DIRECT_BLOCKS) in *.
  wsimpl. eapply wp_get_inode; [done|]. rewrite H0. change (0 =? 0) with true. cbv iota. wsimpl.
  pose proof (stage_0 w I B O p i Hr Hp Ht) as S0.
  eapply stage_alloc; [done|done|done|done|rewrite size_empty; lia|eapply add_room; [done|rewrite size_empty; lia]|].
  intros q w1 B1 Hq0 HqO S1. rewrite (proj2 (Z.ltb_ge q 0)) by done. wsimpl.
  eapply wp_upd_in; [by eapply stage_lookup|]. wsimpl.
  apply wp_int_read_ix; [by apply zlen_zeros|done|]. rewrite int_at_zero by done. wsimpl.
  apply wp_assert; [done|]. wsimpl.
  assert (Hqb : new_block O q) by (eapply stage_new_block; [done|done|set_solver]).
  assert (S2 := stage_upd w I B p i w1 (bump i) B1 _ (set_i_indirect q) S1 (mark_dirty_dirty _) ltac:(done)
    (dinode_ok_ind _ q (sg_ok _ _ _ _ _ _ _ _ _ S1) (proj1 Hqb))).
  eapply stage_alloc; [done|done|done|exact S2|rewrite size_1; lia|eapply add_room; [exact S2|rewrite size_1; lia]|].
  intros r w3 B3 Hr0 HrO S3. wsimpl. eapply wp_get_inode; [by eapply stage_lookup|].
  rewrite (proj2 (Z.leb_le 0 r)) by done. wsimpl.
  apply wp_int_write_ix; [by apply zlen_zeros|done|]. wsimpl.
  change (i_indirect (in_ (bump (set_in (set_i_indirect q) (bump i))))) with q.
  assert (Hrb : new_block O r) by (eapply stage_new_block; [done|done|set_solver]).
  assert (Hqr : q <> r) by set_solver.
  eapply wp_stage_write; [exact S3|set_solver|by apply zlen_int_set_ix; [apply zlen_zeros|]|].
  intros Hr4. wsimpl.
  eapply (stage_finish w I B O p i Hr Hp Ht n Hn _ _ B3 _ _ r
    (upd (upd (slot_val D d) Ind q) (IndE j) r)); [exact S3| | |exact Hr4| | | | | | |].
  - rewrite size_2 by done. lia.
  - set_solver.
  - apply dev_frame_write. set_solver.
  - intros b Hb. simpl. destruct (decide (b = r)); [by left|right]. assert (b = q) by set_solver. lia.
  - intros l s Hs'. transitivity (slot_val (dev_write r l (dev_write q (int_set zero j r) (fs_dev w3)))
      (set_i_indirect q d) s); [by apply slot_val_same|].
    apply (slots_ind_new D _ d B O Ht q j r); try done.
    + intros b Hb. rewrite !blk_dev_write, !decide_False by set_solver. by eapply (stage_agree w I B O p i Ht).
    + by rewrite blk_dev_write, decide_False, blk_dev_write, decide_True by done.
  - rewrite union_empty_r_L, <- union_assoc_L. destruct Hqb, Hrb.
    apply owned_add; [|done|unfold upd; simpl; by rewrite H0|lia|set_solver].
    apply owned_add; [apply (tr_owned _ _ _ _ Ht)|done|done|lia|done].
  - intros m Hm. rewrite (leaf_upd _ Hn _ _ _ _ Hs) by done. case_decide; [done|]. by rewrite node_upd.
  - fill_slots Hs Hfree.
  - intros m Hm Hph. pose proof (phys_elem _ _ _ _ _ Ht Hm Hph) as Hin.
    rewrite blk_dev_write, decide_False by set_solver. by eapply (stage_agree w I B O p i Ht).
Qed.
Lemma node_pos s : slot_ok s -> slot_val D d s <> 0 -> 0 < slot_val D d s /\ slot_val D d s ∈ O.
Proof.
  intros Hs Hv. split; [|by eapply ftree_elem].
  destruct (owned_nonneg D d B O s Ht Hs) as [?|H]; [done|]. unfold DATA_START in H. lia.
Qed.

Lemma allocate_indirect_old : NR_DIRECT_BLOCKS <= n < NR_DIRECT_BLOCKS + NR_INDIRECT_BLOCKS ->
  i_indirect d <> 0 -> wp (allocate_indirect p n) w (allocated w I B O p i n).
Proof.
  intros Hi H0. destruct (indirect_slot Hi) as [Hs Hix].
  unfold allocate_indirect. set (j := n - NR_DIRECT_BLOCKS) in *.
  destruct (node_pos Ind Logic.I H0) as [Hpos HiO]. simpl in Hpos, HiO.
  assert (Hz : int_at (blk D (i_indirect d)) j = 0).
  { revert Hfree. unfold phys. rewrite Hs. simpl. unfold entry. by rewrite (proj2 (Z.ltb_lt _ _) Hpos). }
  pose proof (zlen_blk D (i_indirect d) (rep_dev _ _ _ Hr)) as Hlb.
  wsimpl. eapply wp_get_inode; [done|]. rewrite (proj2 (Z.eqb_neq _ _) H0). wsimpl.
  apply (wp_read_slot w I B O i Hr Ht Ind); [done|done|]. wsimpl. simpl slot_val.
  apply wp_int_read_ix; [done|done|]. rewrite Hz. wsimpl. apply wp_assert; [done|]. wsimpl.
  pose proof (stage_0 w I B O p i Hr Hp Ht) as S0.
  eapply stage_alloc; [done|done|done|done|rewrite size_empty; lia|eapply add_room; [done|rewrite size_empty; lia]|].
  intros r w1 B1 Hr0 HrO S1. wsimpl. eapply wp_get_inode; [by eapply stage_lookup|].
  rewrite (proj2 (Z.leb_le 0 r)) by done. wsimpl. apply wp_int_write_ix; [done|done|]. wsimpl.
  change (i_indirect (in_ (bump i))) with (i_indirect d).
  assert (Hrb : new_block O r) by (eapply stage_new_block; [done|done|set_solver]).
  eapply wp_stage_write; [exact S1|set_solver|by apply zlen_int_set_ix|]. intros Hr4. wsimpl.
  eapply (stage_finish w I B O p i Hr Hp Ht n Hn _ _ B1 _ _ r
    (upd (slot_val D d) (IndE j) r)); [exact S1| | |exact Hr4| | | | | | |].
  - rewrite size_1. lia.
  - set_solver.
  - apply dev_frame_write. set_solver.
  - intros b Hb. left. set_solver.
  - intros l s Hs'. transitivity (slot_val (dev_write r l (dev_write (i_indirect d)
      (int_set (blk D (i_indirect d)) j r) (fs_dev w1))) d s); [by apply slot_val_same|].
    apply (slots_ind_old D _ d B O Ht j r); try done.
    + intros b Hb Hne. rewrite !blk_dev_write, !decide_False by set_solver. by eapply (stage_agree w I B O p i Ht).
    + rewrite blk_dev_write, decide_False by set_solver. by rewrite blk_dev_write, decide_True.
  - rewrite union_empty_r_L. destruct Hrb. apply owned_add; [apply (tr_owned _ _ _ _ Ht)|done| |lia|done].
    rewrite <- Hs. exact Hfree.
  - intros m Hm. by apply leaf_upd.
  - fill_slots Hs Hfree.
  - intros m Hm Hph. pose proof (phys_elem _ _ _ _ _ Ht Hm Hph) as Hin.
    rewrite blk_dev_write, decide_False; [by eapply (stage_agree w I B O p i Ht)|].
    by apply (data_not_node w B O i Ht m Ind).
Qed.

Lemma dindirect_slot : NR_DIRECT_BLOCKS + NR_INDIRECT_BLOCKS <= n ->
  let m := n - (NR_DIRECT_BLOCKS + NR_INDIRECT_BLOCKS) in
  slot_of n = DIndEE (Z.quot m NR_INDIRECT_BLOCKS) (Z.rem m NR_INDIRECT_BLOCKS) /\
  ix_ok (Z.quot m NR_INDIRECT_BLOCKS) /\ ix_ok (Z.rem m NR_INDIRECT_BLOCKS).
Proof.
  intros Hi m. destruct (quot_rem_ix m) as [-> ->]; [unfold m; lia|].
  pose proof (slot_of_ok n Hn) as Hok. unfold slot_of in *.
  rewrite (proj2 (Z.ltb_ge n NR_DIRECT_BLOCKS)) in * by (rewrite NR_INDIRECT_val in Hi; lia).
  rewrite (proj2 (Z.ltb_ge (n - NR_DIRECT_BLOCKS) NR_INDIRECT_BLOCKS)) in * by lia.
  replace (n - NR_DIRECT_BLOCKS - NR_INDIRECT_BLOCKS) with m in * by (unfold m; lia). done.
Qed.
Lemma allocate_dindirect_old : NR_DIRECT_BLOCKS + NR_INDIRECT_BLOCKS <= n ->
  slot_val D d (DIndE (Z.quot (n - (NR_DIRECT_BLOCKS + NR_INDIRECT_BLOCKS)) NR_INDIRECT_BLOCKS)) <> 0 ->
  wp (allocate_dindirect p n) w (allocated w I B O p i n).
Proof.
  intros Hi Hq. destruct (dindirect_slot Hi) as (Hs & Ha & Hb). unfold allocate_dindirect.
  set (a := Z.quot _ _) in *. set (c := Z.rem _ _) in *.
  assert (H0 : i_dindirect d <> 0) by (intros E; apply Hq; simpl; by rewrite E).
  destruct (node_pos DInd Logic.I H0) as [Hpos HdO]. simpl in Hpos, HdO.
  destruct (node_pos (DIndE a) Ha Hq) as [Hqpos HqO].
  assert (Hqe : int_at (blk D (i_dindirect d)) a = slot_val D d (DIndE a)).
  { simpl. unfold entry. by rewrite (proj2 (Z.ltb_lt _ _) Hpos). }
  set (q := slot_val D d (DIndE a)) in *.
  pose proof (zlen_blk D (i_dindirect d) (rep_dev _ _ _ Hr)) as Hlb.
  pose proof (zlen_blk D q (rep_dev _ _ _ Hr)) as Hlq.
  wsimpl. eapply wp_get_inode; [done|]. rewrite (proj2 (Z.eqb_neq _ _) H0). wsimpl.
  apply (wp_read_slot w I B O i Hr Ht DInd); [done|done|]. wsimpl. simpl slot_val.
  apply wp_int_read_ix; [done|done|]. rewrite Hqe. rewrite (proj2 (Z.eqb_neq _ _) Hq). wsimpl.
  apply (wp_read_slot w I B O i Hr Ht (DIndE a)); [done|done|]. wsimpl.
  pose proof (stage_0 w I B O p i Hr Hp Ht) as S0.
  eapply stage_alloc; [done|done|done|done|rewrite size_empty; lia|eapply add_room; [done|rewrite size_empty; lia]|].
  intros r w1 B1 Hr0 HrO S1. wsimpl. eapply wp_get_inode; [by eapply stage_lookup|].
  rewrite (proj2 (Z.leb_le 0 r)) by done. wsimpl. apply wp_int_write_ix; [done|done|]. wsimpl.
  change (i_dindirect (in_ (bump i))) with (i_dindirect d).
  assert (Hrb : new_block O r) by (eapply stage_new_block; [done|done|set_solver]).
  eapply wp_stage_write; [exact S1|set_solver|done|]. intros Hr4. wsimpl.
  apply wp_int_read_ix; [done|done|]. rewrite Hqe. wsimpl.
  eapply wp_stage_write2; [exact S1|exact Hr4|done|set_solver|by apply zlen_int_set_ix|]. intros Hr5. wsimpl.
  assert (Hqd : i_dindirect d <> q).
  { intros E. by pose proof (ow_inj _ _ (tr_owned _ _ _ _ Ht) DInd (DIndE a) Logic.I Ha E H0). }
  eapply (stage_finish w I B O p i Hr Hp Ht n Hn _ _ B1 _ _ r
    (upd (slot_val D d) (DIndEE a c) r)); [exact S1| | |exact Hr5| | | | | | |].
  - rewrite size_1. lia.
  - set_solver.
  - eapply dev_frame_trans; apply dev_frame_write; set_solver.
  - intros b Hb'. left. set_solver.
  - intros l s Hs'. etransitivity; [eapply (slot_val_same _ d); done|].
    apply (slots_dind_old D _ d B O Ht a c r); try done; change (entry D (i_dindirect d) a) with q.
    + intros b Hb' Hne. rewrite !blk_dev_write. rewrite decide_False by set_solver. rewrite decide_False by done.
      case_decide as E; [by subst|]. by eapply (stage_agree w I B O p i Ht).
    + rewrite blk_dev_write, decide_False by set_solver. by rewrite blk_dev_write, decide_True.
  - rewrite union_empty_r_L. destruct Hrb. apply owned_add; [apply (tr_owned _ _ _ _ Ht)|done| |lia|done].
    rewrite <- Hs. exact Hfree.
  - intros m Hm. by apply leaf_upd.
  - fill_slots Hs Hfree.
  - intros m Hm Hph. pose proof (phys_elem _ _ _ _ _ Ht Hm Hph) as Hin.
    rewrite !blk_dev_write. rewrite decide_False by by apply (data_not_node w B O i Ht m (DIndE a)).
    rewrite decide_False by by apply (data_not_node w B O i Ht m DInd).
    by eapply (stage_agree w I B O p i Ht).
Qed.

Lemma allocate_dindirect_mid : NR_DIRECT_BLOCKS + NR_INDIRECT_BLOCKS <= n -> i_dindirect d <> 0 ->
  slot_val D d (DIndE (Z.quot (n - (NR_DIRECT_BLOCKS + NR_INDIRECT_BLOCKS)) NR_INDIRECT_BLOCKS)) = 0 ->
  wp (allocate_dindirect p n) w (allocated w I B O p i n).
Proof.
  intros Hi H0 Hq. destruct (dindirect_slot Hi) as (Hs & Ha & Hb). unfold allocate_dindirect.
  set (a := Z.quot _ _) in *. set (c := Z.rem _ _) in *.
  destruct (node_pos DInd Logic.I H0) as [Hpos HdO]. simpl in Hpos, HdO.
  assert (Hqe : int_at (blk D (i_dindirect d)) a = 0).
  { revert Hq. simpl. unfold entry. by rewrite (proj2 (Z.ltb_lt _ _) Hpos). }
  pose proof (zlen_blk D (i_dindirect d) (rep_dev _ _ _ Hr)) as Hlb.
  wsimpl. eapply wp_get_inode; [done|]. rewrite (proj2 (Z.eqb_neq _ _) H0). wsimpl.
  apply (wp_read_slot w I B O i Hr Ht DInd); [done|done|]. wsimpl. simpl slot_val.
  apply wp_int_read_ix; [done|done|]. rewrite Hqe. change (0 =? 0) with true. cbv iota. wsimpl.
  pose proof (stage_0 w I B O p i Hr Hp Ht) as S0.
  eapply stage_alloc; [done|done|done|done|rewrite size_empty; lia|eapply add_room; [done|rewrite size_empty; lia]|].
  intros q w1 B1 Hq0 HqO S1. rewrite (proj2 (Z.ltb_ge q 0)) by done. wsimpl.
  apply wp_int_write_ix; [done|done|]. wsimpl.
  assert (Hqb : new_block O q) by (eapply stage_new_block; [done|done|set_solver]).
  eapply stage_alloc; [done|done|done|exact S1|rewrite size_1; lia|eapply add_room; [exact S1|rewrite size_1; lia]|].
  intros r w2 B2 Hr0 HrO S2. wsimpl. eapply wp_get_inode; [by eapply stage_lookup|].
  rewrite (proj2 (Z.leb_le 0 r)) by done. wsimpl. apply wp_int_write_ix; [by apply zlen_zeros|done|]. wsimpl.
  change (i_dindirect (in_ (bump (bump i)))) with (i_dindirect d).
  assert (Hrb : new_block O r) by (eapply stage_new_block; [done|done|set_solver]).
  assert (Hqr : q <> r) by set_solver.
  assert (Hdl : zlen (int_set (blk D (i_dindirect d)) a q) = BLOCK_SIZE) by by apply zlen_int_set_ix.
  eapply wp_stage_write; [exact S2|set_solver|done|]. intros Hr4. wsimpl.
  apply wp_int_read_ix; [done|done|].
  rewrite (int_at_set_ix _ a q) by (done || by destruct Hqb; lia). wsimpl.
  eapply wp_stage_write2; [exact S2|exact Hr4|done|set_solver|by apply zlen_int_set_ix; [apply zlen_zeros|]|].
  intros Hr5. wsimpl.
  eapply (stage_finish w I B O p i Hr Hp Ht n Hn _ _ B2 _ _ r
    (upd (upd (slot_val D d) (DIndE a) q) (DIndEE a c) r)); [exact S2| | |exact Hr5| | | | | | |].
  - rewrite size_2 by done. lia.
  - set_solver.
  - eapply dev_frame_trans; apply dev_frame_write; set_solver.
  - intros b Hb'. simpl. destruct (decide (b = r)); [by left|right]. assert (b = q) by set_solver. lia.
  - intros l s Hs'. etransitivity; [eapply (slot_val_same _ d); done|].
    apply (slots_dind_mid D _ d B O Ht q a c r); try done.
    + intros b Hb' Hne. rewrite !blk_dev_write. rewrite !decide_False by set_solver. by eapply (stage_agree w I B O p i Ht).
    + rewrite !blk_dev_write. rewrite !decide_False by set_solver. by rewrite decide_True.
    + rewrite !blk_dev_write. rewrite decide_False by done. by rewrite decide_True.
  - rewrite union_empty_r_L, <- union_assoc_L. destruct Hqb, Hrb.
    apply owned_add; [|done|rewrite <- Hs; rewrite node_upd by done; exact Hfree|lia|set_solver].
    apply owned_add; [apply (tr_owned _ _ _ _ Ht)|done|done|lia|done].
  - intros m Hm. rewrite (leaf_upd _ Hn _ _ _ _ Hs) by done. case_decide; [done|]. by rewrite node_upd.
  - fill_slots Hs Hfree.
  - intros m Hm Hph. pose proof (phys_elem _ _ _ _ _ Ht Hm Hph) as Hin.
    rewrite !blk_dev_write. rewrite decide_False by set_solver.
    rewrite decide_False by by apply (data_not_node w B O i Ht m DInd).
    by eapply (stage_agree w I B O p i Ht).
Qed.
Lemma allocate_dindirect_new : NR_DIRECT_BLOCKS + NR_INDIRECT_BLOCKS <= n -> i_dindirect d = 0 ->
  wp (allocate_dindirect p n) w (allocated w I B O p i n).
Proof.
  intros Hi H0. destruct (dindirect_slot Hi) as (Hs & Ha & Hb). unfold allocate_dindirect.
  set (a := Z.quot _ _) in *. set (c := Z.rem _ _) in *.
  wsimpl. eapply wp_get_inode; [done|]. rewrite H0. change (0 =? 0) with true. cbv iota. wsimpl.
  pose proof (stage_0 w I B O p i Hr Hp Ht) as S0.
  eapply stage_alloc; [done|done|done|done|rewrite size_empty; lia|eapply add_room; [done|rewrite size_empty; lia]|].
  intros o w1 B1 Ho0 HoO S1. rewrite (proj2 (Z.ltb_ge o 0)) by done. wsimpl.
  eapply wp_upd_in; [by eapply stage_lookup|]. wsimpl.
  assert (Hob : new_block O o) by (eapply stage_new_block; [done|done|set_solver]).
  assert (S2 := stage_upd w I B p i w1 (bump i) B1 _ (set_i_dindirect o) S1 (mark_dirty_dirty _) ltac:(done)
    (dinode_ok_dind _ o (sg_ok _ _ _ _ _ _ _ _ _ S1) (proj1 Hob))).
  apply wp_int_read_ix; [by apply zlen_zeros|done|]. rewrite int_at_zero by done.
  change (0 =? 0) with true. cbv iota. wsimpl.
  eapply stage_alloc; [done|done|done|exact S2|rewrite size_1; lia|eapply add_room; [exact S2|rewrite size_1; lia]|].
  intros q w3 B3 Hq0 HqO S3. rewrite (proj2 (Z.ltb_ge q 0)) by done. wsimpl.
  apply wp_int_write_ix; [by apply zlen_zeros|done|]. wsimpl.
  assert (Hqb : new_block O q) by (eapply stage_new_block; [done|done|set_solver]).
  assert (Hoq : o <> q) by set_solver.
  eapply stage_alloc; [done|done|done|exact S3|rewrite size_2 by done; lia|eapply add_room; [exact S3|rewrite size_2 by done; lia]|].
  intros r w4 B4 Hr0 HrO S4. wsimpl. eapply wp_get_inode; [by eapply stage_lookup|].
  rewrite (proj2 (Z.leb_le 0 r)) by done. wsimpl. apply wp_int_write_ix; [by apply zlen_zeros|done|]. wsimpl.
  change (i_dindirect (in_ (bump (bump (set_in (set_i_dindirect o) (bump i)))))) with o.
  assert (Hrb : new_block O r) by (eapply stage_new_block; [done|done|set_solver]).
  assert (Hor : o <> r) by set_solver. assert (Hqr : q <> r) by set_solver.
  assert (Hdl : zlen (int_set zero a q) = BLOCK_SIZE) by by apply zlen_int_set_ix; [apply zlen_zeros|].
  eapply wp_stage_write; [exact S4|set_solver|done|]. intros Hr5. wsimpl.
  apply wp_int_read_ix; [done|done|].
  rewrite (int_at_set_ix _ a q) by (done || by apply zlen_zeros || by destruct Hqb; lia). wsimpl.
  eapply wp_stage_write2; [exact S4|exact Hr5|done|set_solver|by apply zlen_int_set_ix; [apply zlen_zeros|]|].
  intros Hr6. wsimpl.
  eapply (stage_finish w I B O p i Hr Hp Ht n Hn _ _ B4 _ _ r
    (upd (upd (upd (slot_val D d) DInd o) (DIndE a) q) (DIndEE a c) r)); [exact S4| | |exact Hr6| | | | | | |].
  - rewrite size_3 by done. lia.
  - set_solver.
  - eapply dev_frame_trans; apply dev_frame_write; set_solver.
  - intros b Hb'. simpl. destruct (decide (b = r)); [by left|right].
    assert (b = q \/ b = o) as [-> | ->] by set_solver; lia.
  - intros l s Hs'. etransitivity; [eapply (slot_val_same _ (set_i_dindirect o d)); done|].
    apply (slots_dind_new D _ d B O Ht o q a c r); try done.
    + intros b Hb'. rewrite !blk_dev_write. rewrite !decide_False by set_solver. by eapply (stage_agree w I B O p i Ht).
    + rewrite !blk_dev_write. rewrite !decide_False by done. by rewrite decide_True.
    + rewrite !blk_dev_write. rewrite decide_False by done. by rewrite decide_True.
  - rewrite union_empty_r_L, <- !union_assoc_L. destruct Hob, Hqb, Hrb.
    apply owned_add; [|done|rewrite <- Hs; rewrite !node_upd by done; exact Hfree|lia|set_solver].
    apply owned_add; [|done|unfold upd; simpl; by rewrite H0|lia|set_solver].
    apply owned_add; [apply (tr_owned _ _ _ _ Ht)|done|done|lia|done].
  - intros m Hm. rewrite (leaf_upd _ Hn _ _ _ _ Hs) by done. case_decide; [done|]. by rewrite !node_upd.
  - fill_slots Hs Hfree.
  - intros m Hm Hph. pose proof (phys_elem _ _ _ _ _ Ht Hm Hph) as Hin.
    rewrite !blk_dev_write. rewrite !decide_False by set_solver. by eapply (stage_agree w I B O p i Ht).
Qed.
End branches.

(** ** The whole function, with room for three blocks *)

(** a block that exists is answered with its contents, and nothing changes *)
Lemma allocated_old w I B O p i n : fs_rep w I B -> fs_heap w !! p = Some i ->
  ftree (fs_dev w) (in_ i) B O -> 0 <= n < MAX_BLOCK_NR -> phys (fs_dev w) (in_ i) n <> 0 ->
  allocated w I B O p i n (phys (fs_dev w) (in_ i) n) w.
Proof.
  intros Hr Hp Ht Hn Hph. pose proof (phys_elem _ _ _ _ _ Ht Hn Hph) as Hin.
  pose proof (tr_pos _ _ _ _ Ht _ Hin) as Hpos. set (r := phys _ _ n) in *.
  exists i, B, O. split; [|split; [lia|split; [done|split; [|split; [apply (tr_in _ _ _ _ Ht)|]]]]].
  - split; try done. by apply file_step_refl.
  - pose proof (dev_nr _ (rep_dev _ _ _ Hr)). lia.
  - intros l Hl D'.
    assert (Hsv : forall s, slot_ok s -> slot_val D' (in_ i) s = slot_val (fs_dev w) (in_ i) s).
    { assert (He : forall s j, slot_ok s -> is_node s ->
        entry D' (slot_val (fs_dev w) (in_ i) s) j = entry (fs_dev w) (slot_val (fs_dev w) (in_ i) s) j).
      { intros s j Hs Hnode. apply entry_ext. intros Hv. unfold D'. rewrite blk_dev_write, decide_False; [done|].
        apply not_eq_sym. by eapply data_not_node. }
      intros s Hs. destruct s; try done; simpl.
      - by apply (He Ind).
      - by apply (He DInd).
      - pose proof (He DInd i0 Logic.I Logic.I) as E. simpl in E. rewrite E. destruct Hs. by apply (He (DIndE i0)). }
    assert (Hnr : d_nr (fs_dev w) <= d_nr D') by (simpl; lia).
    split; [|split; [|split]].
    + pose proof Ht as [Hd Ho HB Hps Hc]. split; try done.
      * eapply owned_ext; [exact Ho|done].
      * intros b Hb. specialize (Hps b Hb). lia.
    + apply (wrote_grow _ _ _ _ B O n r); try done.
      * unfold DATA_START in Hpos. lia.
      * unfold D'. by rewrite blk_dev_write, decide_True.
      * intros m Hm. unfold phys at 1. rewrite Hsv by by apply slot_of_ok.
        case_decide as E; [by subst|done].
      * intros m Hm Hne Hpm. unfold D'. rewrite blk_dev_write, decide_False; [done|].
        intros E. apply Hne. apply slot_of_inj; [lia|lia|].
        by apply (ow_inj _ _ (tr_owned _ _ _ _ Ht)); [apply slot_of_ok..| |].
    + intros s Hs. left. by apply Hsv.
    + unfold phys. by rewrite Hsv by by apply slot_of_ok.
Qed.

Lemma allocate_block_spec w I B O p i n block : fs_rep w I B -> fs_heap w !! p = Some i ->
  ftree (fs_dev w) (in_ i) B O -> 0 <= n < MAX_BLOCK_NR ->
  Z.of_nat (size B) + 3 <= max_fs_blocks (fs_sb w) ->
  wp (testfs_allocate_block p n block) w (fun '(r, l) w' =>
    l = fblock (fs_dev w) (in_ i) n /\ allocated w I B O p i n r w').
Proof.
  intros Hr Hp Ht Hn Hroom. unfold testfs_allocate_block.
  rewrite (proj2 (Z.leb_gt MAX_BLOCK_NR n)) by lia. wsimpl. apply wp_assert; [apply Z.leb_le; lia|]. wsimpl.
  eapply read_block_file; [done|done|done|done|]. cbv beta iota.
  destruct (decide (phys (fs_dev w) (in_ i) n = 0)) as [E|E].
  2: { rewrite (proj2 (Z.eqb_neq _ _) E). cbn [negb]. wsimpl. split; [done|]. by apply allocated_old. }
  rewrite E. cbn [negb Z.eqb]. apply wp_bind.
  eapply (wp_mono _ _ (allocated w I B O p i n)); [|by intros r w' Ha; wsimpl; split].
  destruct (Z.ltb_spec n NR_DIRECT_BLOCKS); [by apply allocate_direct_spec|].
  destruct (Z.ltb_spec (n - NR_DIRECT_BLOCKS) NR_INDIRECT_BLOCKS).
  { destruct (decide (i_indirect (in_ i) = 0)).
    - apply allocate_indirect_new; try done. lia.
    - apply allocate_indirect_old; try done. lia. }
  rewrite (proj2 (Z.leb_le 0 (n - NR_DIRECT_BLOCKS - NR_INDIRECT_BLOCKS))) by lia.
  destruct (decide (i_dindirect (in_ i) = 0)); [apply allocate_dindirect_new; try done; lia|].
  destruct (decide (slot_val (fs_dev w) (in_ i)
    (DIndE (Z.quot (n - (NR_DIRECT_BLOCKS + NR_INDIRECT_BLOCKS)) NR_INDIRECT_BLOCKS)) = 0)).
  - apply allocate_dindirect_mid; try done. lia.
  - apply allocate_dindirect_old; try done. lia.
Qed.
