(* ===== verification/FileData.v ===== *)
(** * Reading and writing byte ranges of a file

    [testfs_read_data] and [testfs_write_data] against the contents of the file as
    a function from offsets to bytes. *)

From stdpp Require Import base gmap list list_numbers.
From Stdlib Require Import ZArith Lia.
From S2P Require Import Prelude Words Bitmap Block FsState InodeHash Super Inode ReadWrite FileTree FileAlloc.
#[local] Open Scope Z_scope.

Lemma MAX_FILE_SIZE_val : MAX_FILE_SIZE = 34376597504.
Proof. reflexivity. Qed.

(** ** Bytes of a file *)

Lemma zlen_fbytes D d off n : 0 <= n -> zlen (fbytes D d off n) = n.
Proof. intros. unfold fbytes. rewrite zlen_length, length_map, length_seq. lia. Qed.

Lemma byte_at_fbytes D d off n k : 0 <= k < n -> byte_at (fbytes D d off n) k = fbyte D d (off + k).
Proof.
  intros Hk. rewrite byte_at_default. unfold fbytes. rewrite list_lookup_fmap, lookup_seq_lt by lia.
  simpl. by rewrite Z2Nat.id by lia.
Qed.

Lemma off_split n ix : 0 <= ix < BLOCK_SIZE -> (n * BLOCK_SIZE + ix) / BLOCK_SIZE = n /\
  (n * BLOCK_SIZE + ix) mod BLOCK_SIZE = ix.
Proof. unfold BLOCK_SIZE. intros. split; dlia. Qed.

Lemma fbyte_at D d n ix : 0 <= ix < BLOCK_SIZE -> fbyte D d (n * BLOCK_SIZE + ix) = byte_at (fblock D d n) ix.
Proof. intros H. unfold fbyte. by destruct (off_split n ix H) as [-> ->]. Qed.

(** a block that was spliced, as bytes of the file *)
Lemma wrote_bytes D d D' d' n ix bytes off : dev_ok D -> 0 <= ix -> ix + zlen bytes <= BLOCK_SIZE ->
  wrote D d n (zsplice (fblock D d n) ix bytes) D' d' -> 0 <= off < MAX_FILE_SIZE ->
  fbyte D' d' off =
    if decide (n * BLOCK_SIZE + ix <= off < n * BLOCK_SIZE + ix + zlen bytes)
    then byte_at bytes (off - (n * BLOCK_SIZE + ix)) else fbyte D d off.
Proof.
  intros Hd Hix Hl Hw Hoff. unfold fbyte.
  assert (Hm : 0 <= off / BLOCK_SIZE < MAX_BLOCK_NR).
  { unfold MAX_FILE_SIZE in Hoff. rewrite MAX_BLOCK_NR_val in *. unfold BLOCK_SIZE in *. dlia. }
  rewrite Hw by done. pose proof (zlen_fblock D d n Hd) as Hz. pose proof (zlen_nonneg bytes).
  destruct (decide (off / BLOCK_SIZE = n)) as [<-|Hne].
  - rewrite byte_at_zsplice; [|lia|lia|unfold BLOCK_SIZE; dlia].
    unfold BLOCK_SIZE in *. repeat case_decide; try done; try dlia. f_equal. dlia.
  - rewrite decide_False; [done|]. unfold BLOCK_SIZE in *. dlia.
Qed.

(** ** Reading *)

Section read.
Context (w : fs) (I B O : gset Z) (p : ptr) (i : inode).
Hypothesis Hr : fs_rep w I B.
Hypothesis Hp : fs_heap w !! p = Some i.
Hypothesis Ht : ftree (fs_dev w) (in_ i) B O.

(** the first [total] bytes of the range are in the buffer *)
Definition got (start : Z) (buf : list Z) (total : Z) (buf' : list Z) : Prop :=
  zlen buf' = zlen buf /\ forall k, 0 <= k < zlen buf ->
    byte_at buf' k = if decide (k < total) then fbyte (fs_dev w) (in_ i) (start + k) else byte_at buf k.

Lemma got_splice start buf total buf' : 0 <= total <= zlen buf -> got start buf total buf' ->
  buf' = zsplice buf 0 (fbytes (fs_dev w) (in_ i) start total).
Proof.
  intros Ht' [Hl Hb].
  pose proof (zlen_fbytes (fs_dev w) (in_ i) start total (proj1 Ht')) as Hz. apply list_eq_bytes.
  - rewrite zlen_zsplice; lia.
  - intros k Hk. rewrite byte_at_zsplice by lia. rewrite Hz, Hb by lia.
    repeat case_decide; try lia. rewrite byte_at_fbytes by lia. f_equal. lia.
Qed.

(** copying the part of one block of the file that continues the range *)
Lemma got_more start buf total buf' n ix cur : got start buf total buf' ->
  start + total = n * BLOCK_SIZE + ix -> 0 <= ix -> 0 <= cur -> ix + cur <= BLOCK_SIZE ->
  0 <= total -> total + cur <= zlen buf ->
  got start buf (total + cur) (zsplice buf' total (zsub (fblock (fs_dev w) (in_ i) n) ix cur)).
Proof.
  intros [Hl Hb] Hs Hix Hc Hic Ht' Hbuf.
  pose proof (zlen_fblock (fs_dev w) (in_ i) n (rep_dev _ _ _ Hr)) as Hz.
  assert (Hzl : zlen (zsub (fblock (fs_dev w) (in_ i) n) ix cur) = cur) by (apply zlen_zsub; lia).
  split; [rewrite zlen_zsplice; lia|].
  intros k Hk. rewrite byte_at_zsplice by lia. rewrite Hzl.
  destruct (decide (total <= k < total + cur)) as [Hin|Hout].
  - rewrite decide_True by lia. rewrite byte_at_zsub by lia.
    replace (start + k) with (n * BLOCK_SIZE + (ix + (k - total))) by lia. by rewrite fbyte_at by lia.
  - rewrite Hb by done. repeat case_decide; try done; lia.
Qed.

Lemma got_0 start buf : got start buf 0 buf.
Proof. split; [done|]. intros k Hk. by rewrite decide_False by lia. Qed.

Lemma read_loop start size buf block : 0 <= start -> 0 <= size < 2147483648 ->
  start + size <= MAX_FILE_SIZE -> size <= zlen buf ->
  wp (while_ (read_round p start size) (0, buf, block)) w (fun r w' =>
    r = (size, zsplice buf 0 (fbytes (fs_dev w) (in_ i) start size)) /\ w' = w).
Proof.
  intros Hs Hsz Hmax Hbuf. rewrite MAX_FILE_SIZE_val in Hmax.
  apply (wp_while (fun '(total, buf', _) w' => 0 <= total <= size /\ got start buf total buf' /\ w' = w)
    (fun '(total, _, _) => size - total)).
  { split_and!; [lia|lia|apply got_0|done]. }
  { change (2 ^ 64) with 18446744073709551616. lia. }
  intros [[total buf'] block'] w' (Htot & Hgot & ->) _. unfold read_round. cbv beta iota.
  destruct (Z.ltb_spec total size) as [Hlt|Hge]; cbn [negb]; wsimpl.
  2: { assert (total = size) as -> by lia. rewrite s32_small by lia.
       split; [|done]. f_equal. apply got_splice; [lia|done]. }
  rewrite s64_small by lia. rewrite Z.quot_div_nonneg, Z.rem_mod_nonneg by (unfold BLOCK_SIZE; lia).
  rewrite s32_small by (unfold BLOCK_SIZE; dlia).
  eapply read_block_file; [done|done|done|rewrite MAX_BLOCK_NR_val; unfold BLOCK_SIZE; dlia|].
  pose proof (phys_bound _ _ _ _ ((start + total) / BLOCK_SIZE) Ht
    ltac:(rewrite MAX_BLOCK_NR_val; unfold BLOCK_SIZE; dlia)) as Hph.
  rewrite (proj2 (Z.ltb_ge (phys _ _ _) 0)) by (unfold DATA_START in Hph; lia). wsimpl.
  rewrite (u32_small (size - total)) by lia.
  set (n := (start + total) / BLOCK_SIZE) in *. set (ix := (start + total) mod BLOCK_SIZE).
  assert (Hix : 0 <= ix < BLOCK_SIZE) by (unfold ix; apply Z.mod_pos_bound; done).
  assert (Hsplit : start + total = n * BLOCK_SIZE + ix) by (unfold n, ix; unfold BLOCK_SIZE; dlia).
  set (cur := if _ <? _ then _ else _).
  assert (Hcur : 0 < cur /\ total + cur <= size /\ ix + cur <= BLOCK_SIZE).
  { unfold cur. destruct (Z.ltb_spec (size - total) (BLOCK_SIZE - ix)); [lia|].
    rewrite u32_small by (unfold BLOCK_SIZE in *; lia). lia. }
  apply wp_buf_read; [lia|lia|rewrite zlen_fblock by apply Hr; lia|]. wsimpl.
  assert (Hzl : zlen (zsub (fblock (fs_dev w) (in_ i) n) ix cur) = cur).
  { apply zlen_zsub; [lia|lia|]. rewrite zlen_fblock by apply Hr. lia. }
  apply wp_buf_write; [lia|destruct Hgot; lia|]. wsimpl. rewrite u32_small by lia.
  split_and!; [lia|lia| |done|lia|lia].
  eapply got_more; try done; lia.
Qed.

(** [testfs_read_data] fills the buffer with the bytes of the file from [start]
    on, up to the end of the file, and changes nothing. *)
Lemma read_data_spec start size buf : 0 <= start < MAX_FILE_SIZE -> start <= i_size (in_ i) <= MAX_FILE_SIZE ->
  0 <= size < 2147483648 -> size <= zlen buf ->
  let len := Z.min size (i_size (in_ i) - start) in
  wp (testfs_read_data p buf start size) w (fun r w' =>
    r = (len, zsplice buf 0 (fbytes (fs_dev w) (in_ i) start len)) /\ w' = w).
Proof.
  intros Hs Hi Hsz Hbuf len. unfold testfs_read_data, uninit. wsimpl. eapply wp_get_inode; [done|].
  rewrite MAX_FILE_SIZE_val in *. rewrite (s64_small size), s64_small by lia. cbv zeta.
  assert (Hlen : (if i_size (in_ i) <? start + size then u64 (i_size (in_ i) - start) else size) = len).
  { unfold len. destruct (Z.ltb_spec (i_size (in_ i)) (start + size)); [rewrite u64_small by lia|]; lia. }
  rewrite Hlen. assert (Hl : 0 <= len <= size /\ start + len <= i_size (in_ i)) by (unfold len; lia).
  clearbody len. rewrite Z.quot_div_nonneg, Z.rem_mod_nonneg by (unfold BLOCK_SIZE; lia).
  pose proof (Z.mod_pos_bound start BLOCK_SIZE ltac:(done)) as Hix.
  rewrite u64_small by (unfold BLOCK_SIZE in *; lia).
  destruct (Z.ltb_spec BLOCK_SIZE (start mod BLOCK_SIZE + len)) as [Hbig|Hsmall].
  { apply read_loop; rewrite ?MAX_FILE_SIZE_val; lia. }
  wsimpl. rewrite s32_small by (unfold BLOCK_SIZE; dlia).
  assert (Hn : 0 <= start / BLOCK_SIZE < MAX_BLOCK_NR) by (rewrite MAX_BLOCK_NR_val; unfold BLOCK_SIZE; dlia).
  eapply read_block_file; [done|done|done|done|]. pose proof (phys_bound _ _ _ _ _ Ht Hn) as Hph.
  rewrite (proj2 (Z.ltb_ge (phys _ _ _) 0)) by (unfold DATA_START in Hph; lia). wsimpl.
  apply wp_buf_read; [lia|lia|rewrite zlen_fblock by apply Hr; lia|]. wsimpl.
  assert (Hzl : zlen (zsub (fblock (fs_dev w) (in_ i) (start / BLOCK_SIZE)) (start mod BLOCK_SIZE) len) = len).
  { apply zlen_zsub; [lia|lia|]. rewrite zlen_fblock by apply Hr. lia. }
  apply wp_buf_write; [lia|lia|]. wsimpl. rewrite u32_small, s32_small by lia.
  split; [|done]. f_equal. apply got_splice; [lia|].
  eapply (got_more start buf 0); try done; try lia; [apply got_0|].
  unfold BLOCK_SIZE. dlia.
Qed.
End read.

(** ** Writing *)

Lemma grown_refl w I B O p i : fs_rep w I B -> fs_heap w !! p = Some i -> grown w w I B O B O p i i.
Proof. intros. split; try done. by apply file_step_refl. Qed.

Lemma grown_trans w1 w2 w3 I B1 O1 B2 O2 B3 O3 p i1 i2 i3 :
  grown w1 w2 I B1 O1 B2 O2 p i1 i2 -> grown w2 w3 I B2 O2 B3 O3 p i2 i3 ->
  grown w1 w3 I B1 O1 B3 O3 p i1 i3.
Proof.
  intros [H1 H2 H3 H4 H5 H6 H7] [G1 G2 G3 G4 G5 G6 G7]. split; try done.
  - by eapply file_step_trans.
  - by etrans.
  - by etrans.
  - intros b Hb HbO. destruct (decide (b ∈ O2)) as [Hin|Hin]; [by apply H5|].
    specialize (G5 b Hb Hin). by intros ?%H3.
  - congruence.
  - eapply dev_frame_trans; [|done]. eapply dev_frame_weaken; [done|]. intros c [?|?]; [by left|right; by apply G4].
Qed.

(** updates of the inode that keep its blocks *)
Lemma grown_set w w1 I B O B1 O1 p i i1 i2 : grown w w1 I B O B1 O1 p i i1 ->
  i_nr i2 = i_nr i1 -> i_count i2 = i_count i1 -> i_type (in_ i2) = i_type (in_ i1) ->
  is_dirty i2 = true ->
  file_step w (with_heap (<[p := i2]> (fs_heap w1)) w1) p i i2.
Proof.
  intros Hg H1 H2 H3 H4. eapply file_step_trans; [apply Hg|]. apply file_step_set; auto.
  eapply file_step_lookup, Hg.
Qed.

(** the bytes [src] were written from offset [start] on *)
Definition wrote_range (D : device) (d : dinode) (start : Z) (src : list Z) (D' : device) (d' : dinode) : Prop :=
  forall off, 0 <= off < MAX_FILE_SIZE ->
    fbyte D' d' off = if decide (start <= off < start + zlen src) then byte_at src (off - start) else fbyte D d off.

Lemma wrote_range_0 D d start : wrote_range D d start [] D d.
Proof. intros off _. rewrite decide_False; [done|]. change (zlen []) with 0. lia. Qed.

Lemma wrote_range_app D d D1 d1 D2 d2 start l1 l2 : 
  wrote_range D d start l1 D1 d1 -> wrote_range D1 d1 (start + zlen l1) l2 D2 d2 ->
  wrote_range D d start (l1 ++ l2) D2 d2.
Proof.
  intros H1 H2 off Hoff. rewrite H2, H1 by done. rewrite zlen_app.
  pose proof (zlen_nonneg l1). pose proof (zlen_nonneg l2).
  destruct (decide (start + zlen l1 <= off < start + zlen l1 + zlen l2)).
  - rewrite decide_True by lia. rewrite byte_at_app, decide_False by lia. f_equal. lia.
  - repeat case_decide; try lia. rewrite byte_at_app, decide_True by lia. done.
Qed.

(** blocks [a <= m < b] of the file may have been allocated, and no others *)
Definition touched (D : device) (d : dinode) (a b : Z) (D' : device) (d' : dinode) : Prop :=
  forall s, slot_ok s -> (slot_val D d s <> 0 -> slot_val D' d' s <> 0) /\
    (slot_val D' d' s <> 0 -> slot_val D d s <> 0 \/ exists m, a <= m < b /\ below s m).

Lemma touched_step D d a n D1 d1 D2 d2 : touched D d a n D1 d1 -> filled D1 d1 n D2 d2 -> a <= n ->
  touched D d a (n + 1) D2 d2.
Proof.
  intros H1 H2 Ha s Hs. destruct (H1 s Hs) as [Hm Hf]. destruct (H2 s Hs) as [->|[Hb H0]].
  - split; [done|]. intros Hv. destruct (Hf Hv) as [?|(m & ? & ?)]; [by left|]. right. exists m. split; [lia|done].
  - split; [by intros ?%Hm|]. intros _. right. exists n. split; [lia|done].
Qed.

(** a leaf below a block is its slot *)
Lemma slot_of_leaf n : ~ is_node (slot_of n).
Proof. unfold slot_of. repeat case_match; intros []. Qed.

Lemma below_leaf n m : 0 <= n -> 0 <= m -> below (slot_of n) m -> n = m.
Proof.
  intros Hn Hm Hb. pose proof (slot_of_leaf n) as Hl. apply slot_of_inj; [done|done|].
  unfold below in Hb. destruct (slot_of n), (slot_of m); simpl in *; try done; try (by f_equal); try tauto.
  by destruct Hb as [-> ->].
Qed.

Lemma below_ind n : 0 <= n -> below Ind n -> NR_DIRECT_BLOCKS <= n.
Proof. unfold below, slot_of. intros Hn. repeat case_match; intros; simplify_eq; try done. lia. Qed.

Lemma below_dind n : 0 <= n -> below DInd n -> NR_DIRECT_BLOCKS + NR_INDIRECT_BLOCKS <= n.
Proof. unfold below, slot_of. intros Hn. repeat case_match; intros; simplify_eq; try done. lia. Qed.

(** a block beyond the indirect blocks hangs on the double-indirect one *)
Lemma phys_dind D d n : NR_DIRECT_BLOCKS + NR_INDIRECT_BLOCKS <= n -> phys D d n <> 0 -> i_dindirect d <> 0.
Proof.
  intros Hn Hph E. apply Hph. unfold phys, slot_of. rewrite NR_INDIRECT_val in *.
  rewrite (proj2 (Z.ltb_ge n _)), (proj2 (Z.ltb_ge (n - _) _)) by lia. simpl. by rewrite E.
Qed.

Lemma sized_write D d D' d' start len : sized D d -> 0 <= start -> 0 < len -> start + len <= MAX_FILE_SIZE ->
  let last := (start + len - 1) / BLOCK_SIZE in
  touched D d (start / BLOCK_SIZE) (last + 1) D' d' -> phys D' d' last <> 0 ->
  i_size d' = Z.max (i_size d) (start + len) -> sized D' d'.
Proof.
  intros [Hb Hp Hi Hd] Hs Hl Hm last Ht Hlast Hsz.
  assert (He : eblocks d <= eblocks d' /\ last < eblocks d') by (unfold eblocks, last, BLOCK_SIZE in *; dlia).
  assert (H0 : 0 <= start / BLOCK_SIZE) by (unfold BLOCK_SIZE; dlia).
  split; [lia| | |].
  - intros n Hn Hph. destruct (proj2 (Ht (slot_of n) (slot_of_ok n Hn)) Hph) as [Hold|(m & Hmr & Hbl)].
    + specialize (Hp n Hn Hold). lia.
    + apply below_leaf in Hbl; lia.
  - intros Hph. destruct (proj2 (Ht Ind Logic.I) Hph) as [Hold|(m & Hmr & Hbl)].
    + specialize (Hi Hold). lia.
    + apply below_ind in Hbl; lia.
  - split.
    + intros Hph. destruct (proj2 (Ht DInd Logic.I) Hph) as [Hold|(m & Hmr & Hbl)].
      * apply Hd in Hold. lia.
      * apply below_dind in Hbl; lia.
    + intros Hbig. destruct (decide (NR_DIRECT_BLOCKS + NR_INDIRECT_BLOCKS < eblocks d)) as [Hold|Hnew].
      * apply (proj1 (Ht DInd Logic.I)). by apply Hd.
      * eapply (phys_dind D' d' last); [|done].
        unfold eblocks, last, BLOCK_SIZE in *. rewrite Hsz in Hbig. dlia.
Qed.

Section write.
Context (w : fs) (I B O : gset Z) (p : ptr) (i : inode).
Hypothesis Hr : fs_rep w I B.
Hypothesis Hp : fs_heap w !! p = Some i.
Hypothesis Ht : ftree (fs_dev w) (in_ i) B O.

(** one block: allocate, copy into it, write it back *)
Lemma write_chunk n ix bytes r l w1 : 0 <= n < MAX_BLOCK_NR -> 0 <= ix -> ix + zlen bytes <= BLOCK_SIZE ->
  l = fblock (fs_dev w) (in_ i) n -> allocated w I B O p i n r w1 ->
  exists i2 B2 O2, let D2 := dev_write r (zsplice l ix bytes) (fs_dev w1) in
    0 <= r < d_cap (fs_dev w1) /\ dev_ok (fs_dev w1) /\
    grown w (with_dev D2 w1) I B O B2 O2 p i i2 /\ ftree D2 (in_ i2) B2 O2 /\
    Z.of_nat (size B2) <= Z.of_nat (size B) + 3 /\
    wrote_range (fs_dev w) (in_ i) (n * BLOCK_SIZE + ix) bytes D2 (in_ i2) /\
    filled (fs_dev w) (in_ i) n D2 (in_ i2) /\ phys D2 (in_ i2) n = r /\ r <> 0.
Proof.
  intros Hn Hix Hl -> (i2 & B2 & O2 & Hg & Hsz & HrO & Hrb & _ & Hl2).
  pose proof (zlen_fblock (fs_dev w) (in_ i) n (rep_dev _ _ _ Hr)) as Hz.
  pose proof (zlen_nonneg bytes).
  assert (Hzs : zlen (zsplice (fblock (fs_dev w) (in_ i) n) ix bytes) = BLOCK_SIZE) by (rewrite zlen_zsplice; lia).
  destruct (Hl2 _ Hzs) as (Ht2 & Hw2 & Hf2 & Hph2). exists i2, B2, O2. simpl.
  pose proof Hg as [G1 G2 G3 G4 G5 G6 G7].
  split; [unfold DATA_START in Hrb; lia|]. split; [apply G1|].
  split; [|split; [done|split; [done|split; [|split; [done|split; [done|unfold DATA_START in Hrb; lia]]]]]].
  - split; try done.
    + apply fs_rep_write; [done|unfold_consts; lia|done].
    + eapply file_step_trans; [done|]. apply file_step_dev. by eapply file_step_lookup.
    + eapply dev_frame_trans; [done|]. apply dev_frame_write. by right.
  - intros off Hoff. by apply (wrote_bytes _ _ _ _ n ix bytes off (rep_dev _ _ _ Hr)).
Qed.

End write.

Section write_data.
Context (w : fs) (I B O : gset Z) (p : ptr) (i : inode).
Hypothesis Hr : fs_rep w I B.
Hypothesis Hp : fs_heap w !! p = Some i.
Hypothesis Ht : ftree (fs_dev w) (in_ i) B O.
Context (buf : list Z) (start len : Z).
Hypothesis Hstart : 0 <= start < MAX_FILE_SIZE.
Hypothesis Hsize : 0 <= len < 2147483648.
Hypothesis Hend : start + len <= MAX_FILE_SIZE.
Hypothesis Hbuf : len <= zlen buf.
Hypothesis Hroom : Z.of_nat (size B) + 3 * (len / BLOCK_SIZE + 2) <= max_fs_blocks (fs_sb w).

(** [total] bytes are written, and the next one goes to [block_ix] of [block_nr] *)
Definition writing (total block_nr block_ix : Z) (w1 : fs) (i1 : inode) (B1 O1 : gset Z) : Prop :=
  grown w w1 I B O B1 O1 p i i1 /\ ftree (fs_dev w1) (in_ i1) B1 O1 /\
  0 <= total <= len /\ block_nr * BLOCK_SIZE + block_ix = start + total /\
  0 <= block_ix < BLOCK_SIZE /\ start / BLOCK_SIZE <= block_nr /\
  wrote_range (fs_dev w) (in_ i) start (zsub buf 0 total) (fs_dev w1) (in_ i1) /\
  Z.of_nat (size B1) <= Z.of_nat (size B) + 3 * (block_nr - start / BLOCK_SIZE) /\
  touched (fs_dev w) (in_ i) (start / BLOCK_SIZE) block_nr (fs_dev w1) (in_ i1) /\
  (len = 0 \/ total < len).

Lemma writing_0 : writing 0 (start / BLOCK_SIZE) (start mod BLOCK_SIZE) w i B O.
Proof.
  pose proof (Z.mod_pos_bound start BLOCK_SIZE ltac:(done)).
  split_and!; try done; try lia; [by apply grown_refl|unfold BLOCK_SIZE; dlia| |].
  - rewrite zsub_0_0. apply wrote_range_0.
  - intros s Hs. split; [done|]. by left.
Qed.

(** the next block can be allocated and written *)
Lemma writing_step total n ix w1 i1 B1 O1 cur block : writing total n ix w1 i1 B1 O1 ->
  0 <= cur -> ix + cur <= BLOCK_SIZE -> total + cur <= len ->
  (0 < cur \/ start + total < MAX_FILE_SIZE) ->
  s32 n = n /\ wp (testfs_allocate_block p n block) w1 (fun '(r, l) w2 =>
    0 <= r /\ zlen l = BLOCK_SIZE /\
    wp (write_block (zsplice l ix (zsub buf total cur)) r) w2 (fun _ w3 => exists i3 B3 O3,
      grown w w3 I B O B3 O3 p i i3 /\ ftree (fs_dev w3) (in_ i3) B3 O3 /\
      wrote_range (fs_dev w) (in_ i) start (zsub buf 0 (total + cur)) (fs_dev w3) (in_ i3) /\
      Z.of_nat (size B3) <= Z.of_nat (size B) + 3 * (n + 1 - start / BLOCK_SIZE) /\
      touched (fs_dev w) (in_ i) (start / BLOCK_SIZE) (n + 1) (fs_dev w3) (in_ i3) /\
      phys (fs_dev w3) (in_ i3) n <> 0)).
Proof.
  intros (Hg & Ht1 & Htot & Hpos & Hix & Hn0 & Hw & Hsz & Htou & Hlen) Hc Hic Htc Hlast.
  rewrite MAX_FILE_SIZE_val in *.
  assert (Hn : 0 <= n < MAX_BLOCK_NR) by (rewrite MAX_BLOCK_NR_val; unfold BLOCK_SIZE in *; dlia).
  split; [rewrite MAX_BLOCK_NR_val in Hn; apply s32_small; lia|].
  pose proof Hg as [G1 G2 G3 G4 G5 G6 G7].
  pose proof (file_step_lookup _ _ _ _ _ G2) as Hp1.
  eapply wp_mono; [eapply (allocate_block_spec w1 I B1 O1 p i1 n block G1 Hp1 Ht1 Hn)|].
  { rewrite (st_max _ _ _ _ _ G2). unfold BLOCK_SIZE in *. dlia. }
  intros [r l] w2 [-> Ha].
  pose proof (zlen_fblock (fs_dev w1) (in_ i1) n (rep_dev _ _ _ G1)) as Hz.
  assert (Hzl : zlen (zsub buf total cur) = cur) by (apply zlen_zsub; lia).
  destruct (write_chunk w1 I B1 O1 p i1 G1 n ix (zsub buf total cur) r _ w2 Hn ltac:(lia) ltac:(lia) eq_refl Ha)
    as (i3 & B3 & O3 & Hr3 & Hd2 & Hg3 & Ht3 & Hsz3 & Hw3 & Hf3 & Hph3 & Hrn3).
  split; [lia|]. split; [done|]. apply wp_write_block; [done|done|rewrite zlen_zsplice; lia|].
  exists i3, B3, O3. split; [by eapply grown_trans|]. split; [done|]. split; [|split; [lia|split]].
  - rewrite zsub_add by lia. eapply wrote_range_app; [done|].
    replace (start + zlen (zsub buf 0 total)) with (n * BLOCK_SIZE + ix); [done|].
    rewrite zlen_zsub by lia. lia.
  - by eapply touched_step.
  - simpl. congruence.
Qed.

Lemma write_loop block :
  wp (while_ (write_round p buf start len) (0, start / BLOCK_SIZE, start mod BLOCK_SIZE, block)) w
    (fun r w1 => match r with
     | inl _ => False
     | inr (total, n, ix, _) => ix + (len - total) <= BLOCK_SIZE /\
         exists i1 B1 O1, writing total n ix w1 i1 B1 O1
     end).
Proof.
  apply (wp_while (fun '(total, n, ix, _) w1 => exists i1 B1 O1, writing total n ix w1 i1 B1 O1)
    (fun '(total, _, _, _) => len - total)).
  { exists i, B, O. apply writing_0. }
  { change (2 ^ 64) with 18446744073709551616. lia. }
  intros [[[total n] ix] block'] w1 (i1 & B1 & O1 & Hw) _. unfold write_round. cbv beta iota.
  pose proof Hw as (_ & _ & Htot & Hpos & Hix & _). rewrite (s32_small len) by lia.
  rewrite u32_small by lia. rewrite s64_small by (unfold BLOCK_SIZE in *; lia).
  destruct (Z.ltb_spec BLOCK_SIZE (ix + (len - total))) as [Hlt|Hge]; cbn [negb].
  2: { wsimpl. split; [lia|]. by exists i1, B1, O1. }
  destruct (writing_step total n ix w1 i1 B1 O1 (BLOCK_SIZE - ix) block' Hw) as [Hn Hstep]; [lia..|].
  wsimpl. rewrite Hn. eapply wp_mono; [exact Hstep|]. intros [r l] w2 (Hr0 & Hl & Hwr).
  rewrite (proj2 (Z.ltb_ge r 0)) by done. wsimpl.
  apply wp_buf_read; [lia|lia|lia|]. wsimpl.
  apply wp_buf_write; [lia|rewrite zlen_zsub; lia|]. wsimpl.
  eapply wp_mono; [exact Hwr|]. intros [] w3 (i3 & B3 & O3 & Hg3 & Ht3 & Hw3 & Hsz3 & Htou3 & _). wsimpl.
  destruct Hw as (_ & _ & _ & _ & _ & Hnn & _). rewrite MAX_FILE_SIZE_val in *.
  rewrite u32_small by (unfold BLOCK_SIZE in *; lia).
  rewrite s64_small by (unfold BLOCK_SIZE in *; dlia).
  split; [|unfold BLOCK_SIZE in *; lia]. exists i3, B3, O3.
  split_and!; try done; try lia; unfold BLOCK_SIZE in *; lia.
Qed.

(** the state after [len] bytes of [buf] were written at [start] *)
Record written (w' : fs) (i' : inode) (B' O' : gset Z) : Prop := {
  wr_rep : fs_rep w' I B';
  wr_step : file_step w w' p i i';
  wr_tree : ftree (fs_dev w') (in_ i') B' O';
  wr_B : B ⊆ B';
  wr_O : O ⊆ O';
  wr_fresh : forall b, b ∈ O' -> (b ∉ O) -> (b - DATA_START ∉ B);
  wr_dev : dev_frame (fun c => is_meta c \/ c ∈ O') (fs_dev w) (fs_dev w');
  wr_size : i_size (in_ i') = if decide (0 < len) then Z.max (i_size (in_ i)) (start + len) else i_size (in_ i);
  wr_data : wrote_range (fs_dev w) (in_ i) start (zsub buf 0 len) (fs_dev w') (in_ i');
  wr_sized : 0 < len -> sized (fs_dev w) (in_ i) -> sized (fs_dev w') (in_ i');
  wr_used : Z.of_nat (size B') <= Z.of_nat (size B) + 3 * (len / BLOCK_SIZE + 2);
  wr_dirty : is_dirty i' = true;
}.

Lemma grow_to_max x d : i_size (grow_to x d) = Z.max (i_size d) x.
Proof. unfold grow_to; simpl. destruct (Z.leb_spec x (i_size d)); lia. Qed.

Lemma ftree_size D d x B1 O1 : ftree D d B1 O1 -> s64_ok x -> ftree D (set_i_size x d) B1 O1.
Proof.
  intros [[H1 H2 H3 H4] Ho Hi Hps Hc] Hx. by split.
Qed.

Hypothesis Hi_size : 0 <= i_size (in_ i) <= MAX_FILE_SIZE.

Lemma written_intro w3 i3 B3 O3 n i4 : grown w w3 I B O B3 O3 p i i3 -> ftree (fs_dev w3) (in_ i3) B3 O3 ->
  wrote_range (fs_dev w) (in_ i) start (zsub buf 0 len) (fs_dev w3) (in_ i3) ->
  Z.of_nat (size B3) <= Z.of_nat (size B) + 3 * (n + 1 - start / BLOCK_SIZE) ->
  touched (fs_dev w) (in_ i) (start / BLOCK_SIZE) (n + 1) (fs_dev w3) (in_ i3) ->
  phys (fs_dev w3) (in_ i3) n <> 0 -> start / BLOCK_SIZE <= n <= (start + len) / BLOCK_SIZE ->
  (0 < len -> n = (start + len - 1) / BLOCK_SIZE) ->
  i4 = mark_dirty (if 0 <? len then set_in (grow_to (start + len)) i3 else i3) ->
  written (with_heap (<[p := i4]> (fs_heap w3)) w3) i4 B3 O3.
Proof.
  intros Hg Ht3 Hw Hsz Htou Hph Hn Hlast Hi4. rewrite MAX_FILE_SIZE_val in *.
  pose proof Hg as [G1 G2 G3 G4 G5 G6 G7].
  assert (Hd4 : is_dirty i4 = true) by (subst i4; apply mark_dirty_dirty).
  assert (Hsize4 : i_size (in_ i4) = if decide (0 < len) then Z.max (i_size (in_ i)) (start + len) else i_size (in_ i)).
  { subst i4. rewrite <- G6. destruct (Z.ltb_spec 0 len); simpl.
    - rewrite decide_True by done. unfold set_in; simpl. apply grow_to_max.
    - by rewrite decide_False by lia. }
  assert (Hb4 : same_blocks (in_ i3) (in_ i4)) by (subst i4; by destruct (0 <? len)).
  split; simpl; try done.
  - by apply fs_rep_heap.
  - eapply grown_set; try done; subst i4; by destruct (0 <? len).
  - subst i4. destruct (0 <? len); [|done]. apply ftree_size; [done|]. rewrite G6.
    unfold s64_ok. destruct (start + len <=? i_size (in_ i)); lia.
  - intros off Hoff. unfold fbyte. rewrite (fblock_same _ _ _ _ Hb4). by apply Hw.
  - intros Hl Hsd. apply (sized_write (fs_dev w) (in_ i) _ _ start len); try done; rewrite ?MAX_FILE_SIZE_val;
      try lia; rewrite <- ?Hlast by done.
    + intros s Hs. rewrite (slot_val_same _ _ _ s Hb4). by apply Htou.
    + by rewrite (phys_same _ _ _ _ Hb4).
    + rewrite Hsize4. by rewrite decide_True.
  - unfold BLOCK_SIZE in *. dlia.
Qed.

Lemma write_data_spec :
  wp (testfs_write_data p buf start len) w (fun r w' => r = len /\ exists i' B' O', written w' i' B' O').
Proof.
  unfold testfs_write_data, uninit. wsimpl.
  rewrite Z.quot_div_nonneg, Z.rem_mod_nonneg by (unfold BLOCK_SIZE; lia).
  eapply wp_mono; [apply write_loop|].
  intros [?|[[[total n] ix] block]] w1; [done|]. intros (Hlast & i1 & B1 & O1 & Hw).
  pose proof Hw as (_ & _ & Htot & Hpos & Hix & Hn & _ & _ & _ & Hlen).
  destruct (writing_step total n ix w1 i1 B1 O1 (len - total) block Hw) as [Hsn Hstep]; [lia..|].
  wsimpl. rewrite Hsn. eapply wp_mono; [exact Hstep|]. intros [r l] w2 (Hr0 & Hl & Hwr).
  rewrite (proj2 (Z.ltb_ge r 0)) by done. rewrite (s32_small len), u32_small by lia. wsimpl.
  apply wp_buf_read; [lia|lia|lia|]. wsimpl.
  apply wp_buf_write; [lia|rewrite zlen_zsub; lia|]. wsimpl.
  eapply wp_mono; [exact Hwr|]. intros [] w3 (i3 & B3 & O3 & Hg & Ht3 & Hw3 & Hsz & Htou & Hph).
  replace (total + (len - total)) with len in Hw3 by lia.
  pose proof MAX_FILE_SIZE_val. rewrite (s64_small len), s64_small by lia.
  pose proof (file_step_lookup _ _ _ _ _ (gr_step _ _ _ _ _ _ _ _ _ _ Hg)) as Hp3.
  assert (Hn1 : start / BLOCK_SIZE <= n <= (start + len) / BLOCK_SIZE) by (unfold BLOCK_SIZE in *; dlia).
  assert (Hn2 : 0 < len -> n = (start + len - 1) / BLOCK_SIZE) by (unfold BLOCK_SIZE in *; dlia).
  wsimpl. eapply (wp_mono _ _ (fun _ w4 => fs_heap w4 !! p = Some (if 0 <? len then set_in (grow_to (start + len)) i3 else i3) /\
    w4 = with_heap (<[p := if 0 <? len then set_in (grow_to (start + len)) i3 else i3]> (fs_heap w3)) w3)).
  { destruct (0 <? len).
    - eapply wp_upd_in; [done|]. split; [apply lookup_insert_eq|done].
    - wsimpl. rewrite insert_id by done. split; [done|]. by destruct w3. }
  intros [] w4 [Hp4 ->]. wsimpl. eapply wp_upd_inode; [exact Hp4|]. wsimpl. split; [done|].
  simpl. rewrite insert_insert_eq. eexists _, B3, O3. by eapply (written_intro w3 i3 B3 O3 n).
Qed.
End write_data.
