(* ===== verification/FileFree.v ===== *)
(** * Giving the blocks of a file back

    [testfs_free_blocks] frees exactly the blocks the file owns, and
    [testfs_remove_inode] the inode with them. *)

From stdpp Require Import base gmap list list_numbers.
From Stdlib Require Import ZArith Lia.
From S2P Require Import Prelude Words Bitmap Block FsState InodeHash Super Inode ReadWrite FileTree FileAlloc FileData.
#[local] Open Scope Z_scope.

Section free.
Context (w : fs) (I B O : gset Z) (p : ptr) (i : inode).
Hypothesis Hr : fs_rep w I B.
Hypothesis Hp : fs_heap w !! p = Some i.
Hypothesis Ht : ftree (fs_dev w) (in_ i) B O.

(** On the way: the slots [f] still hold the blocks [O1]; those are as they
    were, and the others are free again. *)
Record freeing (f : slot -> Z) (O1 B1 : gset Z) (w1 : fs) (i1 : inode) : Prop := {
  fg_rep : fs_rep w1 I B1;
  fg_step : file_step w w1 p i i1;
  fg_owned : owned f O1;
  fg_sub : O1 ⊆ O;
  fg_keep : forall b, b ∈ O1 -> blk (fs_dev w1) b = blk (fs_dev w) b;
  fg_set : forall k, k ∈ B1 <-> k ∈ B /\ ~ (DATA_START + k ∈ O /\ (DATA_START + k ∉ O1));
  fg_cnt : block_count (in_ i1) = Z.of_nat (size O1);
  fg_ok : dinode_ok (in_ i1);
  fg_dev : dev_frame (fun c => is_meta c \/ c ∈ O) (fs_dev w) (fs_dev w1);
  fg_zero : forall b, b ∈ O -> (b ∉ O1) -> blk (fs_dev w1) b = zero;
  fg_isz : i_size (in_ i1) = i_size (in_ i);
}.
Definition freeing' (f : slot -> Z) (w1 : fs) (i1 : inode) : Prop :=
  exists O1 B1, freeing f O1 B1 w1 i1.

Lemma freeing_0 : freeing (slot_val (fs_dev w) (in_ i)) O B w i.
Proof.
  split; try done.
  - by apply file_step_refl.
  - apply (tr_owned _ _ _ _ Ht).
  - intros k. split; [|tauto]. intros Hk. split; [done|]. tauto.
  - apply (tr_cnt _ _ _ _ Ht).
  - apply (tr_d _ _ _ _ Ht).
Qed.

Lemma freeing_lookup f O1 B1 w1 i1 : freeing f O1 B1 w1 i1 -> fs_heap w1 !! p = Some i1.
Proof. intros []. by eapply file_step_lookup. Qed.

(** changing the inode in memory *)
Lemma freeing_set f O1 B1 w1 i1 i2 : freeing f O1 B1 w1 i1 -> i_nr i2 = i_nr i1 -> i_count i2 = i_count i1 ->
  i_type (in_ i2) = i_type (in_ i1) -> is_dirty i2 = true -> block_count (in_ i2) = block_count (in_ i1) ->
  i_size (in_ i2) = i_size (in_ i1) -> dinode_ok (in_ i2) ->
  freeing f O1 B1 (with_heap (<[p := i2]> (fs_heap w1)) w1) i2.
Proof.
  intros Hf H1 H2 H3 H4 H5 H6 H7. pose proof (freeing_lookup _ _ _ _ _ Hf) as Hl. destruct Hf. split; try done.
  - by apply fs_rep_heap.
  - eapply file_step_trans; [done|]. apply file_step_set; auto.
  - congruence.
  - congruence.
Qed.

Definition unbump (i1 : inode) : inode :=
  mark_dirty (set_in (fun d => set_block_count (block_count d - 1) d) i1).

(** freeing the block of one slot *)
Lemma free_slot f O1 B1 w1 i1 s (Q : unit -> fs -> Prop) : freeing f O1 B1 w1 i1 -> slot_ok s -> f s <> 0 ->
  (forall w2 B2, freeing (upd f s 0) (O1 ∖ {[f s]}) B2 w2 (unbump i1) -> Q tt w2) ->
  wp (testfs_free_block_from_inode p (f s)) w1 Q.
Proof.
  intros Hf Hs Hv HQ. pose proof (freeing_lookup _ _ _ _ _ Hf) as Hl. destruct Hf.
  assert (Hin : f s ∈ O1) by by destruct (ow_own _ _ fg_owned0 s Hs).
  pose proof (tr_pos _ _ _ _ Ht _ (fg_sub0 _ Hin)) as Hpos.
  unfold testfs_free_block_from_inode. rewrite (proj2 (Z.eqb_neq _ _) Hv). wsimpl.
  replace (f s) with (DATA_START + (f s - DATA_START)) at 1 by lia. set (k := f s - DATA_START).
  assert (Hk : DATA_START + k = f s) by (unfold k; lia).
  assert (HkB : k ∈ B1).
  { apply fg_set0. rewrite Hk. split; [|tauto]. by apply (tr_in _ _ _ _ Ht), fg_sub0. }
  eapply wp_mono; [by apply (free_block_spec w1 I B1 k)|].
  intros _ w2 (_ & Hr2 & [] & Hmax & Hdf & Hz). rewrite Hk in *.
  eapply wp_upd_inode; [by rewrite fr_heap|].
  destruct (tree_count w I B O i Hr Ht) as (_ & Hc1 & Hc2).
  pose proof (elem_size _ _ Hin) as Hpos1. pose proof (del_size _ _ Hin) as Hdel.
  assert (Hsz : Z.of_nat (size O1) <= Z.of_nat (size O)) by by apply Nat2Z.inj_le, subseteq_size.
  assert (Hub : mark_dirty (set_in (fun d => set_block_count (s32 (block_count d - 1)) d) i1) = unbump i1).
  { unfold unbump, set_in. rewrite s32_small by lia. done. }
  rewrite Hub. apply (HQ _ (B1 ∖ {[k]})). split; simpl; try done.
  - by apply fs_rep_heap.
  - eapply file_step_trans; [exact fg_step0|].
    split; simpl; try done; [by rewrite fr_heap|]. left. apply mark_dirty_dirty.
  - by apply owned_del.
  - set_solver.
  - intros b [Hb Hne]%elem_of_difference. rewrite not_elem_of_singleton in Hne.
    rewrite <- fg_keep0 by done. apply (df_blk _ _ _ Hdf). intros [Hm|]; [|done].
    apply (owned_not_meta w B O i Ht b); [by apply fg_sub0|done].
  - intros j. rewrite elem_of_difference, fg_set0, not_elem_of_singleton.
    rewrite elem_of_difference, not_elem_of_singleton.
    assert (Hjk : j = k <-> DATA_START + j = f s) by lia.
    assert (HjO : DATA_START + j = f s -> DATA_START + j ∈ O) by (intros ->; by apply fg_sub0).
    destruct (decide (DATA_START + j ∈ O1)), (decide (DATA_START + j = f s)); tauto.
  - simpl. lia.
  - destruct (dinode_s32_fields _ fg_ok0) as (? & ? & ?).
    apply (dinode_ok_fields (in_ i1)); try done; try apply fg_ok0. unfold s32_ok; simpl. lia.
  - eapply dev_frame_trans; [done|]. eapply dev_frame_weaken; [exact Hdf|].
    intros c [?| ->]; [by left|right]. by apply fg_sub0.
  - intros b Hb HbO. destruct (decide (b = f s)) as [->|Hne]; [done|].
    rewrite (df_blk _ _ _ Hdf).
    + apply fg_zero0; [done|]. set_solver.
    + intros [Hm|]; [|done]. by apply (owned_not_meta w B O i Ht b).
Qed.

(** the entries [lo <= j < hi] of the index block with slots [g] are cleared *)
Definition cleared (g : Z -> slot) (lo hi : Z) (f f' : slot -> Z) : Prop :=
  (forall j, lo <= j < hi -> f' (g j) = 0) /\
  (forall s, (forall j, lo <= j < hi -> s <> g j) -> f' s = f s).

(** an inode field that the loop does not read may differ by [unbump] *)
Definition same_but_count (i1 i2 : inode) : Prop := same_blocks (in_ i1) (in_ i2).

Lemma free_entries_spec g : (forall j, ix_ok j -> slot_ok (g j)) -> (forall j k, g j = g k -> j = k) ->
  forall n j f O1 B1 w1 i1 block, freeing f O1 B1 w1 i1 -> zlen block = BLOCK_SIZE ->
  0 <= j -> j + Z.of_nat n <= NR_INDIRECT_BLOCKS -> (forall k, j <= k < j + Z.of_nat n -> int_at block k = f (g k)) ->
  wp (free_entries n j p block) w1 (fun _ w2 => exists f2 O2 B2 i2, freeing f2 O2 B2 w2 i2 /\
    cleared g j (j + Z.of_nat n) f f2 /\ same_but_count i1 i2 /\ (is_dirty i1 = true -> is_dirty i2 = true)).
Proof.
  intros Hg Hinj n. induction n as [|n IH]; intros j f O1 B1 w1 i1 block Hf Hl Hj Hn Hb; cbn [free_entries].
  { wsimpl. exists f, O1, B1, i1. split; [done|]. split; [|by repeat split]. split; [intros; lia|done]. }
  assert (Hjx : ix_ok j) by (unfold ix_ok; lia).
  wsimpl. apply wp_int_read_ix; [done|done|]. rewrite Hb by lia.
  destruct (Z.eqb_spec (f (g j)) 0) as [E|E].
  - eapply wp_mono; [apply (IH (j + 1) f O1 B1 w1 i1 block); try done; try lia|].
    { intros k Hk. apply Hb. lia. }
    intros _ w2 (f2 & O2 & B2 & i2 & Hf2 & [Hc1 Hc2] & Hsb & Hd). exists f2, O2, B2, i2.
    split; [done|]. split; [|done]. split.
    + intros k Hk. destruct (decide (k = j)) as [->|]; [|apply Hc1; lia].
      rewrite Hc2; [done|]. intros m Hm ?%Hinj. lia.
    + intros s Hs. apply Hc2. intros m Hm. apply Hs. lia.
  - wsimpl. eapply free_slot; [done|by apply Hg|done|]. intros w2 B2 Hf2. wsimpl.
    apply wp_int_write_ix; [done|done|]. wsimpl.
    eapply wp_mono; [apply (IH (j + 1) (upd f (g j) 0) (O1 ∖ {[f (g j)]}) B2 w2 (unbump i1) (int_set block j 0));
      try done; try lia|].
    { by apply zlen_int_set_ix. }
    { intros k Hk. unfold upd. rewrite decide_False by (intros ?%Hinj; lia).
      unfold ix_ok, BLOCK_SIZE in *. rewrite NR_INDIRECT_val in *. rewrite int_at_set_ne by lia. apply Hb. lia. }
    intros _ w3 (f3 & O3 & B3 & i3 & Hf3 & [Hc1 Hc2] & Hsb & Hd). exists f3, O3, B3, i3.
    split; [done|]. split; [|split; [done|intros _; apply Hd, mark_dirty_dirty]]. split.
    + intros k Hk. destruct (decide (k = j)) as [->|]; [|apply Hc1; lia].
      rewrite Hc2; [unfold upd; by rewrite decide_True|]. intros m Hm ?%Hinj. lia.
    + intros s Hs. rewrite Hc2 by (intros m Hm; apply Hs; lia). unfold upd.
      rewrite decide_False; [done|]. intros ->. apply (Hs j); [lia|done].
Qed.

(** the inode in memory holds what the slots [f] say *)
Record agrees (f : slot -> Z) (i1 : inode) : Prop := {
  ag_direct : forall k, 0 <= k < NR_DIRECT_BLOCKS -> direct_at (in_ i1) k = f (Direct k);
  ag_ind : i_indirect (in_ i1) = f Ind;
  ag_dind : i_dindirect (in_ i1) = f DInd;
}.

Lemma agrees_same f i1 i2 : agrees f i1 -> same_blocks (in_ i1) (in_ i2) -> agrees f i2.
Proof.
  intros [H1 H2 H3] (E1 & E2 & E3). split; [|congruence..]. intros k Hk. unfold direct_at. rewrite E1. by apply H1.
Qed.

Abbreviation f0 := (slot_val (fs_dev w) (in_ i)).

Lemma free_direct_spec e :
  wp (free_direct_blocks p e) w (fun _ w2 => exists f2 O2 B2 i2,
    freeing f2 O2 B2 w2 i2 /\ cleared Direct 0 (Z.min e NR_DIRECT_BLOCKS) f0 f2 /\ agrees f2 i2).
Proof.
  unfold free_direct_blocks, rounds. assert (Hn : Z.of_nat (Z.to_nat (Z.min e NR_DIRECT_BLOCKS)) <= NR_DIRECT_BLOCKS).
  { unfold NR_DIRECT_BLOCKS. lia. }
  apply (wp_for (fun j w1 => exists f1 O1 B1 i1,
    freeing f1 O1 B1 w1 i1 /\ cleared Direct 0 j f0 f1 /\ agrees f1 i1)).
  - exists f0, O, B, i. split; [apply freeing_0|]. split; [|done]. split; [intros; lia|done].
  - intros j w1 Hj (f1 & O1 & B1 & i1 & Hf & [Hc1 Hc2] & Ha). wsimpl.
    eapply wp_get_inode; [by eapply freeing_lookup|]. wsimpl. apply wp_direct_read; [lia|].
    rewrite (ag_direct _ _ Ha) by lia. destruct (Z.eqb_spec (f1 (Direct j)) 0) as [E|E].
    + wsimpl. exists f1, O1, B1, i1. split; [done|]. split; [|done]. split.
      * intros k Hk. destruct (decide (k = j)) as [->|]; [done|]. apply Hc1. lia.
      * intros s Hs. apply Hc2. intros k Hk. apply Hs. lia.
    + wsimpl. eapply free_slot; [done|simpl; lia|done|]. intros w2 B2 Hf2.
      eapply wp_upd_in; [by eapply freeing_lookup|].
      pose proof (dinode_len _ (fg_ok _ _ _ _ _ Hf)) as Hlen.
      eexists _, _, _, _. split; [|split].
      * eapply freeing_set; [exact Hf2|done|done|done|apply mark_dirty_dirty|done|done|].
        pose proof (fg_ok _ _ _ _ _ Hf2) as [? Hfa ? ?]. split; simpl; try done.
        { by rewrite length_insert. } apply Forall_insert; [done|]. unfold s32_ok. lia.
      * split.
        { intros k Hk. unfold upd. case_decide as Ek; [done|]. apply Hc1.
          assert (k <> j) by congruence. lia. }
        { intros s Hs. unfold upd. rewrite decide_False by (apply Hs; lia). apply Hc2. intros k Hk. apply Hs. lia. }
      * split; simpl; [|unfold upd; simpl; apply Ha..].
        intros k Hk. change (direct_at (set_i_block_nr j 0 (in_ i1)) k = upd f1 (Direct j) 0 (Direct k)).
        rewrite direct_at_set by (done || (unfold NR_DIRECT_BLOCKS in *; lia)). unfold upd.
        repeat case_decide; try congruence. by apply (ag_direct _ _ Ha).
  - intros w' (f1 & O1 & B1 & i1 & Hf & [Hc1 Hc2] & Ha). exists f1, O1, B1, i1. split; [done|]. split; [|done].
    split; [intros k Hk; apply Hc1; lia|]. intros s Hs. apply Hc2. intros k Hk. apply Hs. lia.
Qed.

(** reading an index block that is still there *)
Lemma wp_read_left f O1 B1 w1 i1 s (Q : list Z -> fs -> Prop) : freeing f O1 B1 w1 i1 -> slot_ok s -> f s <> 0 ->
  Q (blk (fs_dev w) (f s)) w1 -> wp (read_block (f s)) w1 Q.
Proof.
  intros Hf Hs Hv HQ. destruct Hf. assert (Hin : f s ∈ O1) by by destruct (ow_own _ _ fg_owned0 s Hs).
  pose proof (tr_pos _ _ _ _ Ht _ (fg_sub0 _ Hin)) as Hpos. pose proof (df_nr _ _ _ fg_dev0).
  apply wp_read_block; [apply fg_rep0|unfold DATA_START in Hpos; lia|]. by rewrite fg_keep0.
Qed.

Lemma left_pos f O1 B1 w1 i1 s : freeing f O1 B1 w1 i1 -> slot_ok s -> f s = 0 \/ 0 < f s.
Proof.
  intros Hf Hs. destruct Hf. destruct (ow_own _ _ fg_owned0 s Hs) as [?|Hin]; [by left|right].
  apply fg_sub0, (tr_pos _ _ _ _ Ht) in Hin. unfold DATA_START in Hin. lia.
Qed.

Hypothesis Hsized : sized (fs_dev w) (in_ i).

(** entries past the size are empty *)
Lemma ind_past j : ix_ok j -> eblocks (in_ i) - NR_DIRECT_BLOCKS <= j -> f0 (IndE j) = 0.
Proof.
  unfold ix_ok. intros Hj He. destruct (decide (f0 (IndE j) = 0)) as [|Hv]; [done|exfalso].
  pose proof (sz_phys _ _ Hsized (NR_DIRECT_BLOCKS + j)) as Hs. unfold phys, slot_of in Hs.
  rewrite MAX_BLOCK_NR_val, NR_INDIRECT_val in *. unfold NR_DIRECT_BLOCKS in *.
  rewrite (proj2 (Z.ltb_ge (10 + j) 10)), (proj2 (Z.ltb_lt (10 + j - 10) 2048)) in Hs by lia.
  replace (10 + j - 10) with j in Hs by lia. specialize (Hs ltac:(lia) Hv). lia.
Qed.

Lemma dind_past k j : ix_ok k -> ix_ok j ->
  eblocks (in_ i) - NR_DIRECT_BLOCKS - NR_INDIRECT_BLOCKS <= k * NR_INDIRECT_BLOCKS + j -> f0 (DIndEE k j) = 0.
Proof.
  unfold ix_ok. intros Hk Hj He. destruct (decide (f0 (DIndEE k j) = 0)) as [|Hv]; [done|exfalso].
  pose proof (sz_phys _ _ Hsized (NR_DIRECT_BLOCKS + NR_INDIRECT_BLOCKS + (k * NR_INDIRECT_BLOCKS + j))) as Hs.
  unfold phys, slot_of in Hs. rewrite MAX_BLOCK_NR_val, NR_INDIRECT_val in *. unfold NR_DIRECT_BLOCKS in *.
  set (m := k * 2048 + j) in *.
  rewrite (proj2 (Z.ltb_ge (10 + 2048 + m) 10)), (proj2 (Z.ltb_ge (10 + 2048 + m - 10) 2048)) in Hs by lia.
  replace (10 + 2048 + m - 10 - 2048) with m in Hs by lia.
  replace (m / 2048) with k in Hs by (unfold m; dlia). replace (m mod 2048) with j in Hs by (unfold m; dlia).
  specialize (Hs ltac:(lia) Hv). lia.
Qed.

Lemma agrees_other f f' i1 i2 : agrees f i1 -> same_blocks (in_ i1) (in_ i2) ->
  (forall k, f' (Direct k) = f (Direct k)) -> f' Ind = f Ind -> f' DInd = f DInd -> agrees f' i2.
Proof.
  intros Ha Hs H1 H2 H3. destruct (agrees_same _ _ _ Ha Hs) as [G1 G2 G3]. split; [|congruence..].
  intros k Hk. rewrite H1. by apply G1.
Qed.

Lemma free_indirect_spec f1 O1 B1 w1 i1 : freeing f1 O1 B1 w1 i1 -> agrees f1 i1 -> f1 Ind = f0 Ind ->
  (forall j, f1 (IndE j) = f0 (IndE j)) ->
  wp (free_indirect_blocks p (eblocks (in_ i) - NR_DIRECT_BLOCKS)) w1 (fun _ w2 => exists f2 O2 B2 i2,
    freeing f2 O2 B2 w2 i2 /\ agrees f2 i2 /\ f2 Ind = 0 /\ (forall j, ix_ok j -> f2 (IndE j) = 0) /\
    (forall s, s <> Ind -> (forall j, s <> IndE j) -> f2 s = f1 s)).
Proof.
  intros Hf Ha Hi Hie. unfold free_indirect_blocks. wsimpl.
  eapply wp_get_inode; [by eapply freeing_lookup|]. rewrite (ag_ind _ _ Ha).
  destruct (left_pos _ _ _ _ _ Ind Hf Logic.I) as [E|E].
  { rewrite E. change (0 <? 0) with false. cbv iota. wsimpl. exists f1, O1, B1, i1. split_and!; try done.
    intros j _. rewrite Hie. simpl. simpl in Hi. rewrite <- Hi, E. done. }
  rewrite (proj2 (Z.ltb_lt 0 (f1 Ind))) by done. wsimpl.
  assert (He : 0 < eblocks (in_ i) - NR_DIRECT_BLOCKS).
  { pose proof (sz_ind _ _ Hsized) as Hs. simpl in Hi. rewrite <- Hi in Hs. specialize (Hs ltac:(lia)). lia. }
  apply wp_assert; [by apply Z.ltb_lt|]. wsimpl.
  eapply (wp_read_left f1 O1 B1 w1 i1 Ind); [done|done|lia|]. wsimpl.
  set (m := rounds _ _).
  assert (Hm : Z.of_nat m = Z.min (eblocks (in_ i) - NR_DIRECT_BLOCKS) NR_INDIRECT_BLOCKS).
  { unfold m, rounds. rewrite NR_INDIRECT_val. lia. }
  eapply wp_mono; [apply (free_entries_spec IndE ltac:(done) ltac:(congruence) m 0 f1 O1 B1 w1 i1); try done; try lia|].
  { apply zlen_blk, Hr. }
  { intros k Hk. rewrite Hie. simpl. simpl in Hi. rewrite <- Hi. unfold entry.
    by rewrite (proj2 (Z.ltb_lt 0 (f1 Ind))). }
  intros _ w2 (f2 & O2 & B2 & i2 & Hf2 & [Hc1 Hc2] & Hsb & _). wsimpl.
  assert (Hf2i : f2 Ind = f1 Ind) by by apply Hc2.
  rewrite <- Hf2i. eapply free_slot; [exact Hf2|done|lia|]. intros w3 B3 Hf3.
  eapply wp_upd_in; [by eapply freeing_lookup|].
  eexists _, _, _, _. split; [|split; [|split; [|split]]].
  - eapply freeing_set; [exact Hf3|done|done|done|apply mark_dirty_dirty|done|done|].
    pose proof (fg_ok _ _ _ _ _ Hf3) as Hok. destruct (dinode_s32_fields _ Hok) as (? & ? & ?).
    by apply dinode_ok_fields; try done; apply Hok.
  - assert (Hd2 : forall k, f2 (Direct k) = f1 (Direct k)) by (intros k; by apply Hc2).
    assert (Hdd2 : f2 DInd = f1 DInd) by by apply Hc2.
    destruct (agrees_other f1 f2 i1 i2 Ha Hsb Hd2 Hf2i Hdd2) as [G1 G2 G3].
    split; simpl; unfold upd; simpl; [|done|done]. intros k Hk. by apply G1.
  - unfold upd. by rewrite decide_True.
  - intros j Hj. unfold upd. rewrite decide_False by done.
    destruct (decide (j < Z.of_nat m)); [apply Hc1; unfold ix_ok in Hj; lia|].
    rewrite Hc2; [|intros k Hk; unfold ix_ok in Hj; intros [=]; lia]. rewrite Hie. apply ind_past; [done|].
    unfold ix_ok in Hj. lia.
  - intros s Hs1 Hs2. unfold upd. rewrite decide_False by done. apply Hc2. intros j _. apply Hs2.
Qed.

Abbreviation e2 := (eblocks (in_ i) - NR_DIRECT_BLOCKS - NR_INDIRECT_BLOCKS).

(** the subtrees [k <= m < k + n] of the double-indirect block are as they were *)
Definition intact (f : slot -> Z) (block : list Z) (lo hi : Z) : Prop :=
  forall m, lo <= m < hi -> int_at block m = f (DIndE m) /\ f (DIndE m) = f0 (DIndE m) /\
    forall j, f (DIndEE m j) = f0 (DIndEE m j).

(** ... and are gone, while every other slot is as it was *)
Definition pruned (lo hi : Z) (f f' : slot -> Z) : Prop :=
  (forall m, lo <= m < hi -> f' (DIndE m) = 0 /\ forall j, ix_ok j -> f' (DIndEE m j) = 0) /\
  (forall s, (forall m, lo <= m < hi -> s <> DIndE m /\ forall j, s <> DIndEE m j) -> f' s = f s).

Lemma pruned_first lo hi f f1 f' : f1 (DIndE lo) = 0 -> (forall j, ix_ok j -> f1 (DIndEE lo j) = 0) ->
  (forall s, s <> DIndE lo -> (forall j, s <> DIndEE lo j) -> f1 s = f s) ->
  pruned (lo + 1) hi f1 f' -> lo < hi -> pruned lo hi f f'.
Proof.
  intros H1 H2 H3 [Hp1 Hp2] Hlt. split.
  - intros m Hm. destruct (decide (m = lo)) as [->|]; [|apply Hp1; lia]. split.
    + rewrite Hp2; [done|]. intros m Hm'. split; [intros [=]; lia|done].
    + intros j Hj. rewrite Hp2; [by apply H2|]. intros m Hm'. split; [done|intros j' [=]; lia].
  - intros s Hs. rewrite Hp2.
    + apply H3; [by apply Hs; lia|]. intros j. apply (Hs lo). lia.
    + intros m Hm. apply Hs. lia.
Qed.

Lemma free_indirects_spec n : forall k f1 O1 B1 w1 i1 block, freeing f1 O1 B1 w1 i1 -> zlen block = BLOCK_SIZE ->
  0 <= k -> k + Z.of_nat n <= NR_INDIRECT_BLOCKS -> intact f1 block k (k + Z.of_nat n) ->
  wp (free_indirects p e2 k block n) w1 (fun _ w2 => exists f2 O2 B2 i2, freeing f2 O2 B2 w2 i2 /\
    same_blocks (in_ i1) (in_ i2) /\ pruned k (k + Z.of_nat n) f1 f2).
Proof.
  induction n as [|n IH]; intros k f1 O1 B1 w1 i1 block Hf Hl Hk Hn Hin; cbn [free_indirects].
  { wsimpl. exists f1, O1, B1, i1. split; [done|]. split; [done|]. split; [intros; lia|done]. }
  assert (Hkx : ix_ok k) by (unfold ix_ok; lia).
  destruct (Hin k ltac:(lia)) as (Hb & Hfk & Hfe).
  wsimpl. apply wp_int_read_ix; [done|done|]. rewrite Hb. fold (free_indirects p e2).
  destruct (Z.eqb_spec (f1 (DIndE k)) 0) as [E|E].
  { eapply wp_mono; [apply (IH (k + 1) f1 O1 B1 w1 i1 block); try done; try lia|].
    { intros m Hm. apply Hin. lia. }
    intros _ w2 (f2 & O2 & B2 & i2 & Hf2 & Hsb & Hpr). exists f2, O2, B2, i2. split; [done|]. split; [done|].
    replace (k + Z.of_nat (S n)) with (k + 1 + Z.of_nat n) by lia.
    eapply (pruned_first _ _ f1 f1); try done; [|lia].
    intros j Hj. rewrite Hfe. simpl. simpl in Hfk. by rewrite <- Hfk, E. }
  wsimpl. eapply wp_read_left; [done|done|done|]. wsimpl.
  pose proof (left_pos _ _ _ _ _ (DIndE k) Hf Hkx) as Hkpos.
  set (m := rounds _ _).
  assert (Hm : Z.of_nat m = Z.max 0 (Z.min (e2 - k * NR_INDIRECT_BLOCKS) NR_INDIRECT_BLOCKS)) by (unfold m, rounds; lia).
  eapply wp_mono; [apply (free_entries_spec (DIndEE k)) with (f := f1) (O1 := O1) (B1 := B1) (i1 := i1); try done; try lia|].
  { by intros j j' [= ->]. }
  { apply zlen_blk, Hr. }
  { intros j Hj. rewrite Hfe. simpl. simpl in Hfk. rewrite <- Hfk. unfold entry at 1.
    by rewrite (proj2 (Z.ltb_lt 0 (f1 (DIndE k)))) by lia. }
  intros _ w2 (f2 & O2 & B2 & i2 & Hf2 & [Hc1 Hc2] & Hsb & _). wsimpl.
  assert (Hf2k : f2 (DIndE k) = f1 (DIndE k)) by by apply Hc2.
  rewrite <- Hf2k. eapply free_slot; [exact Hf2|done|congruence|]. intros w3 B3 Hf3. wsimpl.
  apply wp_int_write_ix; [done|done|]. wsimpl.
  set (f3 := upd f2 (DIndE k) 0) in *.
  eapply wp_mono; [apply (IH (k + 1) f3 (O2 ∖ {[f2 (DIndE k)]}) B3 w3 (unbump i2) (int_set block k 0)); try done; try lia|].
  { by apply zlen_int_set_ix. }
  { intros j Hj. destruct (Hin j ltac:(lia)) as (G1 & G2 & G3).
    assert (Hj2 : f2 (DIndE j) = f1 (DIndE j)) by by apply Hc2.
    unfold f3, upd. rewrite decide_False by (intros [=]; lia). rewrite Hj2. split; [|split; [done|]].
    - unfold ix_ok, BLOCK_SIZE in *. rewrite NR_INDIRECT_val in *. rewrite int_at_set_ne by lia. done.
    - intros q. rewrite decide_False by done. rewrite <- G3. apply Hc2. intros ? ? [=]. lia. }
  intros _ w4 (f4 & O4 & B4 & i4 & Hf4 & Hsb4 & Hpr). exists f4, O4, B4, i4. split; [done|].
  split; [by etrans; [exact Hsb|exact Hsb4]|].
  replace (k + Z.of_nat (S n)) with (k + 1 + Z.of_nat n) by lia.
  eapply (pruned_first _ _ f1 f3); try done; [| | |lia].
  - unfold f3, upd. by rewrite decide_True.
  - intros j Hj. unfold f3, upd. rewrite decide_False by done.
    destruct (decide (j < Z.of_nat m)); [apply Hc1; unfold ix_ok in Hj; lia|].
    rewrite Hc2; [|intros q Hq; unfold ix_ok in Hj; intros [=]; lia]. rewrite Hfe. apply dind_past; [done|done|].
    unfold ix_ok in Hj. lia.
  - intros s Hs1 Hs2. unfold f3, upd. rewrite decide_False by done. apply Hc2. intros j _. apply Hs2.
Qed.

Lemma free_dindirect_spec f1 O1 B1 w1 i1 : freeing f1 O1 B1 w1 i1 -> agrees f1 i1 -> f1 DInd = f0 DInd ->
  (forall k, f1 (DIndE k) = f0 (DIndE k)) -> (forall k j, f1 (DIndEE k j) = f0 (DIndEE k j)) ->
  wp (free_dindirect_blocks p e2) w1 (fun _ w2 => exists f2 O2 B2 i2,
    freeing f2 O2 B2 w2 i2 /\ agrees f2 i2 /\ f2 DInd = 0 /\
    (forall k, ix_ok k -> f2 (DIndE k) = 0 /\ forall j, ix_ok j -> f2 (DIndEE k j) = 0) /\
    (forall k, f2 (Direct k) = f1 (Direct k)) /\ f2 Ind = f1 Ind /\ (forall j, f2 (IndE j) = f1 (IndE j))).
Proof.
  intros Hf Ha Hd Hde Hdee. unfold free_dindirect_blocks. wsimpl.
  eapply wp_get_inode; [by eapply freeing_lookup|]. rewrite (ag_dind _ _ Ha).
  pose proof (sz_dind _ _ Hsized) as Hsz. simpl in Hd. rewrite <- Hd in Hsz.
  destruct (Z.ltb_spec 0 e2) as [He|He].
  2: { assert (E : f1 DInd = 0) by (destruct (decide (f1 DInd = 0)); [done|]; apply Hsz in n; lia).
       wsimpl. exists f1, O1, B1, i1. split_and!; try done. intros k Hk. rewrite Hde. simpl.
       rewrite <- Hd, E. split; [done|]. intros j Hj. rewrite Hdee. simpl. by rewrite <- Hd, E. }
  assert (E : f1 DInd <> 0) by (apply Hsz; lia).
  wsimpl. eapply wp_read_left; [done|done|done|]. wsimpl.
  pose proof (left_pos _ _ _ _ _ DInd Hf Logic.I) as Hpos.
  eapply wp_mono; [apply (free_indirects_spec _ 0 f1 O1 B1 w1 i1); try done; try lia|].
  { apply zlen_blk, Hr. }
  { intros m Hm. split; [|split; [done|intros j; apply Hdee]]. rewrite Hde. simpl. rewrite <- Hd. unfold entry.
    by rewrite (proj2 (Z.ltb_lt 0 (f1 DInd))) by lia. }
  intros _ w2 (f2 & O2 & B2 & i2 & Hf2 & Hsb & Hp1 & Hp2). wsimpl.
  assert (Hother : forall s, match s with DIndE _ | DIndEE _ _ => False | _ => True end -> f2 s = f1 s).
  { intros s Hs. apply Hp2. intros m _. by destruct s. }
  rewrite <- (Hother DInd) by done. rewrite <- (Hother DInd) in E by done.
  eapply free_slot; [exact Hf2|done|done|]. intros w3 B3 Hf3.
  eapply wp_upd_in; [by eapply freeing_lookup|].
  eexists _, _, _, _. split; [|split; [|split; [|split; [|split; [|split]]]]].
  - eapply freeing_set; [exact Hf3|done|done|done|apply mark_dirty_dirty|done|done|].
    pose proof (fg_ok _ _ _ _ _ Hf3) as Hok. destruct (dinode_s32_fields _ Hok) as (? & ? & ?).
    by apply dinode_ok_fields; try done; apply Hok.
  - destruct (agrees_other f1 f2 i1 i2 Ha Hsb) as [G1 G2 G3]; [intros; by apply Hother|by apply Hother..|].
    split; simpl; unfold upd; simpl; [|done|done]. intros k Hk. by apply G1.
  - unfold upd. by rewrite decide_True.
  - intros k Hk. unfold upd. rewrite decide_False by done.
    assert (Hk2 : 0 <= k < 0 + Z.of_nat (Z.to_nat NR_INDIRECT_BLOCKS)) by (unfold ix_ok in Hk; lia).
    destruct (Hp1 k Hk2) as [G1 G2]. split; [done|]. intros j Hj. rewrite decide_False by done. by apply G2.
  - intros k. unfold upd. rewrite decide_False by done. by apply Hother.
  - unfold upd. rewrite decide_False by done. by apply Hother.
  - intros j. unfold upd. rewrite decide_False by done. by apply Hother.
Qed.

(** the state after all blocks of the file were freed *)
Record freed (w' : fs) (i' : inode) (B' : gset Z) : Prop := {
  fd_rep : fs_rep w' I B';
  fd_step : file_step w w' p i i';
  fd_set : forall k, k ∈ B' <-> k ∈ B /\ (DATA_START + k ∉ O);
  fd_cnt : block_count (in_ i') = 0;
  fd_isz : i_size (in_ i') = 0;
  fd_ok : dinode_ok (in_ i');
  fd_slots : forall D s, slot_ok s -> slot_val D (in_ i') s = 0;
  fd_dev : dev_frame (fun c => is_meta c \/ c ∈ O) (fs_dev w) (fs_dev w');
  fd_zero : forall b, b ∈ O -> blk (fs_dev w') b = zero;
  fd_dirty : is_dirty i' = true;
}.

Lemma freed_intro f O1 B1 w1 i1 : freeing f O1 B1 w1 i1 -> agrees f i1 -> (forall s, slot_ok s -> f s = 0) ->
  let i2 := mark_dirty (set_in (set_i_size 0) i1) in
  freed (with_heap (<[p := i2]> (fs_heap w1)) w1) i2 B1.
Proof.
  intros Hf [A1 A2 A3] H0 i2. pose proof (freeing_lookup _ _ _ _ _ Hf) as Hl. destruct Hf.
  assert (HO : O1 = ∅).
  { apply set_eq. intros b. split; [|by intros ?%not_elem_of_empty]. intros Hb.
    destruct (ow_all _ _ fg_owned0 b Hb) as (s & Hs & Hsb). rewrite H0 in Hsb by done. subst b.
    by destruct (ow_nz _ _ fg_owned0). }
  subst O1. split; simpl; try done.
  - by apply fs_rep_heap.
  - eapply file_step_trans; [done|]. apply file_step_set; try done. left. apply mark_dirty_dirty.
  - intros k. rewrite fg_set0. split; [intros [Hk Hn]; split; [done|]|intros [Hk Hn]; split; [done|tauto]].
    intros Hin. apply Hn. split; [done|]. apply not_elem_of_empty.
  - destruct fg_ok0. by split.
  - intros D s Hs. rewrite (slot_val_same D (in_ i1)) by done.
    destruct s; simpl; rewrite ?A1, ?A2, ?A3 by done; rewrite ?H0 by done; done.
  - intros b Hb. apply fg_zero0; [done|]. apply not_elem_of_empty.
  - apply mark_dirty_dirty.
Qed.

Lemma free_blocks_spec :
  wp (testfs_free_blocks p) w (fun r w' => r = 0 /\ exists i' B', freed w' i' B').
Proof.
  pose proof (sz_bound _ _ Hsized) as Hsz. rewrite MAX_FILE_SIZE_val in Hsz.
  unfold testfs_free_blocks. wsimpl. eapply wp_get_inode; [done|].
  rewrite s64_small by (unfold BLOCK_SIZE; lia). rewrite Z.quot_div_nonneg by (unfold BLOCK_SIZE; lia).
  fold (eblocks (in_ i)).
  assert (He : 0 <= eblocks (in_ i) < 2147483648 - 4096) by (unfold eblocks, BLOCK_SIZE; dlia).
  rewrite (s32_small (eblocks (in_ i))) by lia.
  rewrite (s32_small (eblocks (in_ i) - NR_DIRECT_BLOCKS)) by (unfold NR_DIRECT_BLOCKS; lia).
  rewrite s32_small by (rewrite NR_INDIRECT_val; unfold NR_DIRECT_BLOCKS; lia). wsimpl.
  eapply wp_mono; [apply free_direct_spec|]. intros _ w1 (f1 & O1 & B1 & i1 & Hf1 & [Hc1 Hc2] & Ha1). wsimpl.
  assert (Hd1 : forall k, 0 <= k < NR_DIRECT_BLOCKS -> f1 (Direct k) = 0).
  { intros k Hk. destruct (decide (k < eblocks (in_ i))); [apply Hc1; lia|].
    rewrite Hc2 by (intros j Hj [=]; lia). destruct (decide (f0 (Direct k) = 0)) as [|Hv]; [done|exfalso].
    pose proof (sz_phys _ _ Hsized k) as Hs. unfold phys, slot_of in Hs.
    rewrite (proj2 (Z.ltb_lt k _)) in Hs by lia. rewrite MAX_BLOCK_NR_val in Hs. unfold NR_DIRECT_BLOCKS in Hk.
    specialize (Hs ltac:(lia) Hv). lia. }
  eapply wp_mono; [apply (free_indirect_spec f1 O1 B1 w1 i1); try done; [by apply Hc2|intros; by apply Hc2]|].
  intros _ w2 (f2 & O2 & B2 & i2 & Hf2 & Ha2 & Hi2 & Hie2 & Ho2). wsimpl.
  eapply wp_mono; [apply (free_dindirect_spec f2 O2 B2 w2 i2); try done; intros; rewrite Ho2 by done; by apply Hc2|].
  intros _ w3 (f3 & O3 & B3 & i3 & Hf3 & Ha3 & Hd3 & Hde3 & Hdi3 & Hin3 & Hie3). wsimpl.
  eapply wp_upd_in; [by eapply freeing_lookup|]. wsimpl.
  eapply wp_upd_inode; [simpl; apply lookup_insert_eq|]. wsimpl. split; [done|]. simpl. rewrite insert_insert_eq.
  eexists _, B3. apply (freed_intro f3 O3 B3 w3 i3); [done|done|].
  intros s Hs. destruct s as [k| |j| |k|k j]; simpl in Hs.
  - rewrite Hdi3, Ho2 by done. by apply Hd1.
  - congruence.
  - rewrite Hie3. by apply Hie2.
  - done.
  - by apply Hde3.
  - destruct Hs. by apply Hde3.
Qed.
End free.

(** ** Removing an inode *)

Lemma live_upd w w' I B I' B' p i i' : live w I B -> fs_heap w !! p = Some i ->
  i_nr i' = i_nr i -> i_count i' = i_count i -> fs_heap w' = <[p := i']> (fs_heap w) ->
  fs_hash w' = fs_hash w -> fs_next w' = fs_next w -> fs_rep w' I' B' -> live w' I' B'.
Proof.
  intros [_ [t Hc]] Hp Hn Hcnt Hh Hs Hx Hr. split; [done|]. exists t.
  eapply cache_ok_mem; [eapply (cache_ok_upd w t p i i'); try done|done..].
  rewrite Hcnt. by eapply cache_count.
Qed.

Lemma dinode_zero_ok : dinode_ok dinode_zero.
Proof.
  split; simpl; [done| | |by unfold s64_ok].
  - by apply (Forall_replicate _ 10).
  - repeat apply Forall_cons_2; try done.
Qed.

(** The state after the inode at [p] was removed. *)
Record removed (w : fs) (I B O : gset Z) (p : ptr) (i : inode) (w' : fs) : Prop := {
  rm_B : exists B', live w' (I ∖ {[i_nr i]}) B' /\ forall k, k ∈ B' <-> k ∈ B /\ (DATA_START + k ∉ O);
  rm_disk : disk_inode (fs_dev w') (i_nr i) = dinode_zero;
  rm_heap : exists j, in_ j = dinode_zero /\ is_dirty j = false /\ i_nr j = i_nr i /\ i_count j = i_count i - 1 /\
    fs_heap w' = if decide (i_count i = 1) then delete p (fs_heap w) else <[p := j]> (fs_heap w);
  rm_dev : dev_frame (fun c => is_meta c \/ c ∈ O \/ c = inode_block (i_nr i)) (fs_dev w) (fs_dev w');
  rm_other : forall nr, 0 <= nr < NR_INODES -> nr <> i_nr i ->
    disk_inode (fs_dev w') nr = disk_inode (fs_dev w) nr;
  rm_out : fs_out w' = fs_out w;
}.

(** inodes are stored outside the meta data and the data blocks *)
Lemma disk_inode_frame (P : Z -> Prop) d d' nr : dev_frame P d d' -> 0 <= nr < NR_INODES ->
  (forall c, P c -> c < INODE_START \/ DATA_START <= c) -> disk_inode d' nr = disk_inode d nr.
Proof.
  intros Hd Hn HP. unfold disk_inode. rewrite (df_blk _ _ _ Hd); [done|].
  intros H%HP. pose proof (inode_block_bound nr Hn). lia.
Qed.

Lemma remove_inode_spec w I B O p i : live w I B -> fs_heap w !! p = Some i -> i_nr i ∈ I ->
  0 <= i_nr i < NR_INODES -> ftree (fs_dev w) (in_ i) B O -> sized (fs_dev w) (in_ i) ->
  wp (testfs_remove_inode p) w (fun _ => removed w I B O p i).
Proof.
  intros Hlive Hp HnI Hn Ht Hsz. pose proof Hlive as [Hr _]. unfold testfs_remove_inode. wsimpl.
  eapply wp_mono; [by apply (free_blocks_spec w I B O p i)|].
  intros _ w1 (_ & i1 & B1 & [F1 F2 F3 F4 F5 F6 F7 F8 F9 F10]). wsimpl.
  pose proof (file_step_lookup _ _ _ _ _ F2) as Hp1.
  pose proof (live_step _ _ _ _ _ _ _ _ _ Hlive Hp F2 F1) as Hl1.
  eapply wp_get_inode; [done|]. wsimpl. apply wp_assert; [by rewrite F4|]. wsimpl.
  eapply wp_upd_in; [done|]. wsimpl. eapply wp_upd_inode; [simpl; apply lookup_insert_eq|]. wsimpl.
  set (i2 := mark_dirty (set_in (fun _ => dinode_zero) i1)).
  match goal with |- wp _ ?s _ => set (w2 := s) end.
  assert (Hh2 : fs_heap w2 = <[p := i2]> (fs_heap w1)) by (simpl; apply insert_insert_eq).
  assert (Hr2 : fs_rep w2 I B1) by by eapply fs_rep_mem.
  rewrite (st_nr _ _ _ _ _ F2) in *.
  eapply wp_mono; [by apply (put_inode_freemap_spec w2 I B1 (i_nr i))|].
  intros _ w3 (Hr3 & [M1 M2 M3 M4 M5 M6 M7] & Hmax3 & Hdf3 & Hnr3).
  assert (Hnr1 : i_nr i1 = i_nr i) by apply (st_nr _ _ _ _ _ F2).
  assert (Hl3 : live w3 (I ∖ {[i_nr i]}) B1).
  { eapply (live_upd w1 w3 I B1 _ _ p i1 i2); try done; by rewrite ?M1, ?M2, ?M3. }
  assert (Hp3 : fs_heap w3 !! p = Some i2) by (rewrite M1, Hh2; apply lookup_insert_eq).
  wsimpl. eapply wp_mono; [apply (sync_inode_spec w3 _ _ p i2 Hl3 Hp3)|].
  { simpl. by rewrite Hnr1. } { apply dinode_zero_ok. }
  intros _ w4 (Hl4 & _ & Ho4 & Hj4 & Hdf4 & (j & Hh4 & Hdj & Hij & Hnj & Hcj) & Hoth4 & Hd4 & _).
  assert (Hp4 : fs_heap w4 !! p = Some j) by (rewrite Hh4; apply lookup_insert_eq).
  eapply wp_mono; [by apply (put_inode_spec w4 (I ∖ {[i_nr i]}) B1 p j)|].
  intros _ w5 (Hl5 & Hd5 & _ & Ho5 & _ & Hh5).
  assert (Hcount : i_count j = i_count i) by (rewrite Hcj; apply (st_count _ _ _ _ _ F2)).
  assert (Hdf13 : dev_frame (fun c => is_meta c \/ c ∈ O) (fs_dev w) (fs_dev w3)).
  { eapply dev_frame_trans; [exact F8|]. eapply dev_frame_weaken; [exact Hdf3|]. by left. }
  split.
  - exists B1. done.
  - rewrite Hd5. simpl in Hd4. rewrite Hnr1 in Hd4. apply Hd4. apply mark_dirty_dirty.
  - exists (set_i_count (i_count j - 1) j).
    split; [exact Hij|]. split; [exact Hdj|]. split; [simpl; by rewrite Hnj|].
    split; [simpl; by rewrite Hcount|].
    rewrite Hh5, Hh4, M1, Hh2, (st_heap _ _ _ _ _ F2), Hcount, !insert_insert_eq.
    destruct (decide (i_count i = 1)); [by rewrite delete_insert_eq|done].
  - rewrite Hd5. eapply dev_frame_trans; (eapply dev_frame_weaken; [eassumption|]); simpl; [tauto|].
    intros c ->. rewrite Hnr1. tauto.
  - intros nr Hr' Hne. rewrite Hd5. rewrite Hoth4 by (simpl; congruence).
    eapply disk_inode_frame; [exact Hdf13|done|]. intros c [Hm|Hc]; [by left|right]. by apply (tr_pos _ _ _ _ Ht).
  - rewrite Ho5, Ho4, M7. simpl. apply (st_out _ _ _ _ _ F2).
Qed.
