(* ===== verification/DirSpec.v ===== *)
(** * Directories as sequences of entries

    [dir_rep D d es]: the data of the directory inode [d] is the encoding of the
    entries [es].  The searches of fs/dir.c walk this sequence, and adding an
    entry reuses the first free entry of the same length or appends one. *)

From stdpp Require Import base gmap list list_numbers strings.
From Stdlib Require Import ZArith Lia.
From S2P Require Import Prelude Words Bitmap Block FsState InodeHash Super Inode ReadWrite Dir FileTree FileAlloc FileData.
#[local] Open Scope Z_scope.

(** a file name: not empty is not required, but it has no terminator inside *)
Definition name_ok (name : list Z) : Prop := Forall (fun x => x <> 0) name /\ zlen name < 1073741824.

Record entry_ok (e : dirent) : Prop := {
  eo_name : exists name, name_ok name /\ d_name e = c_str name;
  eo_len : d_name_len e = zlen (d_name e);
  eo_nr : s32_ok (d_inode_nr e);
}.

Definition dir_bytes (es : list dirent) : list Z := concat (map dirent_bytes es).

Record dir_rep (D : device) (d : dinode) (es : list dirent) : Prop := {
  dr_type : i_type d = I_DIR;
  dr_ok : Forall entry_ok es;
  dr_size : i_size d = zlen (dir_bytes es);
  dr_max : i_size d < 1073741824;
  dr_bytes : fbytes D d 0 (i_size d) = dir_bytes es;
}.

(** the inode number of the first entry in use that is called [name] *)
Fixpoint find_name (name : list Z) (es : list dirent) : option Z :=
  match es with
  | [] => None
  | e :: es' =>
      if bool_decide (0 <= d_inode_nr e /\ d_name e = c_str name) then Some (d_inode_nr e)
      else find_name name es'
  end.

(** ** Encodings *)

Lemma zlen_c_str name : zlen (c_str name) = zlen name + 1.
Proof. unfold c_str. rewrite zlen_app. done. Qed.

Lemma c_str_inj a b : c_str a = c_str b -> a = b.
Proof. unfold c_str. intros H. by apply app_inj_tail in H as [-> _]. Qed.

Lemma entry_ok_len e : entry_ok e -> 0 < d_name_len e < 2147483640.
Proof.
  intros [(name & [_ Hl] & Hn) He _]. rewrite He, Hn, zlen_c_str. pose proof (zlen_nonneg name). lia.
Qed.

Lemma zlen_dirent_bytes e : entry_ok e -> zlen (dirent_bytes e) = sizeof_dirent + d_name_len e.
Proof.
  intros He. unfold dirent_bytes. rewrite !zlen_app, !zlen_le_bytes, <- (eo_len _ He). unfold sizeof_dirent. lia.
Qed.

Lemma dir_bytes_app es1 es2 : dir_bytes (es1 ++ es2) = dir_bytes es1 ++ dir_bytes es2.
Proof. unfold dir_bytes. by rewrite map_app, concat_app. Qed.

Lemma dir_bytes_cons e es : dir_bytes (e :: es) = dirent_bytes e ++ dir_bytes es.
Proof. done. Qed.

(** [strcmp] on terminated strings decides equality *)
Lemma strcmp_eq_spec {S} a b rest (s : S) : Forall (fun x => x <> 0) a -> Forall (fun x => x <> 0) b ->
  strcmp_eq (c_str a ++ rest) (c_str b) s = Val (bool_decide (a = b), s).
Proof.
  unfold c_str. revert b. induction a as [|x a IH]; intros [|y b] Ha Hb; cbn [app strcmp_eq].
  - done.
  - apply Forall_cons in Hb as [Hy _]. rewrite (proj2 (Z.eqb_neq 0 y)) by done. by rewrite bool_decide_false.
  - apply Forall_cons in Ha as [Hx _]. rewrite (proj2 (Z.eqb_neq x 0)) by done. by rewrite bool_decide_false.
  - apply Forall_cons in Ha as [Hx Ha]. apply Forall_cons in Hb as [Hy Hb].
    destruct (Z.eqb_spec x y) as [->|Hne]; cbn [negb].
    + rewrite (proj2 (Z.eqb_neq y 0)) by done. rewrite IH by done. do 2 f_equal.
      apply bool_decide_ext. split; congruence.
    + rewrite bool_decide_false; [done|]. congruence.
Qed.

Lemma wp_strcmp {S} e name (s : S) (Q : bool -> S -> Prop) : entry_ok e -> name_ok name ->
  Q (bool_decide (d_name e = c_str name)) s -> wp (strcmp_eq (d_name e) (c_str name)) s Q.
Proof.
  intros [(nm & [Hnm _] & Hn) _ _] [Hok _] HQ. rewrite Hn in *. rewrite <- (app_nil_r (c_str nm)).
  eapply wp_val; [by apply strcmp_eq_spec|]. replace (bool_decide (nm = name)) with (bool_decide (c_str nm = c_str name)); [done|].
  apply bool_decide_ext. split; [apply c_str_inj|congruence].
Qed.

Lemma fbytes_sub D d off n m : 0 <= off -> 0 <= n -> off + n <= m ->
  fbytes D d off n = zsub (fbytes D d 0 m) off n.
Proof.
  intros. apply list_eq_bytes.
  - rewrite zlen_zsub; rewrite ?zlen_fbytes; lia.
  - intros k. rewrite zlen_fbytes by lia. intros Hk.
    by rewrite byte_at_zsub, !byte_at_fbytes by lia.
Qed.

(** ** Walking a directory *)

Section walk.
Context (w : fs) (I B O : gset Z) (p : ptr) (i : inode) (es : list dirent).
Hypothesis Hr : fs_rep w I B.
Hypothesis Hp : fs_heap w !! p = Some i.
Hypothesis Ht : ftree (fs_dev w) (in_ i) B O.
Hypothesis Hd : dir_rep (fs_dev w) (in_ i) es.

Lemma wp_get_type (Q : Z -> fs -> Prop) : Q I_DIR w -> wp (testfs_inode_get_type p) w Q.
Proof.
  intros HQ. unfold testfs_inode_get_type. wsimpl. eapply wp_get_inode; [done|]. wsimpl.
  by rewrite (dr_type _ _ _ Hd).
Qed.

Lemma wp_get_size (Q : Z -> fs -> Prop) : Q (zlen (dir_bytes es)) w -> wp (testfs_inode_get_size p) w Q.
Proof.
  intros HQ. unfold testfs_inode_get_size. wsimpl. eapply wp_get_inode; [done|]. wsimpl.
  by rewrite (dr_size _ _ _ Hd).
Qed.

(** reading a range of the directory *)
Lemma wp_read_dir off n buf (Q : Z * list Z -> fs -> Prop) : 0 <= off -> 0 < n -> zlen buf = n ->
  off + n <= zlen (dir_bytes es) -> Q (n, zsub (dir_bytes es) off n) w ->
  wp (testfs_read_data p buf off n) w Q.
Proof.
  intros Ho Hn Hb Hle HQ. pose proof (dr_size _ _ _ Hd) as Hsz. pose proof (dr_max _ _ _ Hd) as Hmax.
  eapply wp_mono; [eapply (read_data_spec w I B O p i Hr Hp Ht off n buf); rewrite ?MAX_FILE_SIZE_val; lia|].
  intros r w' [-> ->]. replace (Z.min n (i_size (in_ i) - off)) with n by lia.
  rewrite (fbytes_sub _ _ off n (i_size (in_ i))), (dr_bytes _ _ _ Hd) by lia.
  rewrite zsplice_0, drop_ge, app_nil_r; [done|].
  assert (Hzl : zlen (zsub (dir_bytes es) off n) = n) by (apply zlen_zsub; lia).
  rewrite !zlen_length in *. lia.
Qed.

Lemma wp_uninit n (Q : list Z -> fs -> Prop) : 0 <= n ->
  (forall l, zlen l = n -> Q l w) -> wp (uninit n) w Q.
Proof.
  intros Hn HQ. unfold uninit. wsimpl. apply HQ. rewrite zlen_length, length_replicate. lia.
Qed.

Lemma next_dirent_end off : zlen (dir_bytes es) <= off ->
  wp (testfs_next_dirent p off) w (fun r w' => r = (None, off) /\ w' = w).
Proof.
  intros Ho. unfold testfs_next_dirent. wsimpl. apply wp_get_type. wsimpl. apply wp_assert; [done|]. wsimpl.
  apply wp_get_size. rewrite (proj2 (Z.leb_le _ _)) by done. by wsimpl.
Qed.

Lemma next_dirent_spec pre e post : es = pre ++ e :: post ->
  wp (testfs_next_dirent p (zlen (dir_bytes pre))) w (fun r w' =>
    r = (Some e, zlen (dir_bytes (pre ++ [e]))) /\ w' = w).
Proof.
  intros Hes. pose proof (dr_max _ _ _ Hd) as Hmax. pose proof (dr_size _ _ _ Hd) as Hsz.
  assert (He : entry_ok e) by (pose proof (dr_ok _ _ _ Hd) as Hok; rewrite Hes, Forall_app, Forall_cons in Hok; by destruct Hok as (_ & ? & _)).
  pose proof (entry_ok_len e He) as Hlen. pose proof (zlen_dirent_bytes e He) as Hzl.
  assert (Hall : dir_bytes es = dir_bytes pre ++ dirent_bytes e ++ dir_bytes post) by by rewrite Hes, dir_bytes_app.
  pose proof (zlen_nonneg (dir_bytes pre)). pose proof (zlen_nonneg (dir_bytes post)).
  assert (Hle : zlen (dir_bytes pre) + (sizeof_dirent + d_name_len e) <= zlen (dir_bytes es)).
  { rewrite Hall, !zlen_app. lia. }
  unfold sizeof_dirent in *.
  unfold testfs_next_dirent. wsimpl. apply wp_get_type. wsimpl. apply wp_assert; [done|]. wsimpl.
  apply wp_get_size. rewrite (proj2 (Z.leb_gt _ _)) by lia. wsimpl.
  apply wp_uninit; [done|]. intros l Hl. wsimpl. unfold sizeof_dirent in *.
  apply wp_read_dir; [lia|lia|done|lia|]. cbv beta iota. change (8 <? 0) with false. cbv iota.
  assert (Hh : zsub (dir_bytes es) (zlen (dir_bytes pre)) 8 = le_bytes 4 (d_name_len e) ++ le_bytes 4 (d_inode_nr e)).
  { rewrite Hall. unfold dirent_bytes. rewrite (app_assoc (le_bytes 4 _)). rewrite <- (app_assoc _ (d_name e)).
    apply zsub_field; done. }
  rewrite Hh. unfold get_s32_at.
  change (zsub (le_bytes 4 (d_name_len e) ++ le_bytes 4 (d_inode_nr e)) 0 4) with (le_bytes 4 (d_name_len e)).
  change (zsub (le_bytes 4 (d_name_len e) ++ le_bytes 4 (d_inode_nr e)) 4 4) with (le_bytes 4 (d_inode_nr e)).
  rewrite !get_s32_at_bytes by (apply He || (unfold s32_ok; lia)). wsimpl.
  apply wp_assert; [apply Z.ltb_lt; lia|]. wsimpl. apply wp_host_ok; [apply Hr|]. cbn [negb]. wsimpl.
  apply wp_uninit; [lia|]. intros l2 Hl2. wsimpl. rewrite s64_small by lia.
  apply wp_read_dir; [lia|lia|done|lia|]. cbv beta iota.
  rewrite (proj2 (Z.ltb_ge (d_name_len e) 0)) by lia. wsimpl. rewrite s64_small by lia. split; [|done].
  rewrite dir_bytes_app, zlen_app, dir_bytes_cons, app_nil_r, Hzl. f_equal; [|lia]. f_equal.
  rewrite Hall. clear Hall Hh. destruct e as [len nr name]. cbn [d_name_len d_inode_nr] in *. f_equal.
  unfold dirent_bytes; cbn [d_name_len d_inode_nr d_name].
  replace (dir_bytes pre ++ (le_bytes 4 len ++ le_bytes 4 nr ++ name) ++ dir_bytes post)
    with ((dir_bytes pre ++ le_bytes 4 len ++ le_bytes 4 nr) ++ name ++ dir_bytes post)
    by by rewrite <- !app_assoc.
  pose proof (eo_len _ He) as Hlen2. simpl in Hlen2.
  apply zsub_field; [rewrite !zlen_app, !zlen_le_bytes; lia|done].
Qed.

(** the position of a walk: what is before it and what follows *)
Definition at_entry (off : Z) (pre post : list dirent) : Prop :=
  es = pre ++ post /\ off = zlen (dir_bytes pre).

Lemma at_entry_bound off pre post : at_entry off pre post -> 0 <= off <= zlen (dir_bytes es).
Proof.
  intros [-> ->]. rewrite dir_bytes_app, zlen_app.
  pose proof (zlen_nonneg (dir_bytes pre)). pose proof (zlen_nonneg (dir_bytes post)). lia.
Qed.

Lemma dir_bytes_lt pre e : entry_ok e -> zlen (dir_bytes pre) < zlen (dir_bytes (pre ++ [e])).
Proof.
  intros He. rewrite dir_bytes_app, zlen_app, dir_bytes_cons, app_nil_r, zlen_dirent_bytes by done.
  pose proof (entry_ok_len e He). unfold sizeof_dirent. lia.
Qed.

(** one step of a walk *)
Lemma next_at off pre post (Q : option dirent * Z -> fs -> Prop) : at_entry off pre post ->
  (post = [] -> es = pre -> Q (None, off) w) ->
  (forall e post' off', post = e :: post' -> entry_ok e -> at_entry off' (pre ++ [e]) post' -> off < off' ->
     Q (Some e, off') w) ->
  wp (testfs_next_dirent p off) w Q.
Proof.
  intros [Hes ->] Hend Hnext. destruct post as [|e post].
  - rewrite app_nil_r in Hes. subst pre. eapply wp_mono; [by apply next_dirent_end|].
    intros r w' [-> ->]. by apply Hend.
  - assert (He : entry_ok e).
    { pose proof (dr_ok _ _ _ Hd) as Hok. rewrite Hes, Forall_app, Forall_cons in Hok. by destruct Hok as (_ & ? & _). }
    eapply wp_mono; [by eapply next_dirent_spec|]. intros r w' [-> ->].
    eapply Hnext; try done; [|by apply dir_bytes_lt]. split; [|done]. by rewrite <- app_assoc.
Qed.

Lemma find_name_app name pre post : find_name name pre = None ->
  find_name name (pre ++ post) = find_name name post.
Proof.
  induction pre as [|e pre IH]; [done|]. simpl. case_match; [done|]. apply IH.
Qed.

Lemma find_name_snoc name pre e : find_name name pre = None ->
  ~ (0 <= d_inode_nr e /\ d_name e = c_str name) -> find_name name (pre ++ [e]) = None.
Proof. intros Hn He. rewrite find_name_app by done. simpl. by rewrite bool_decide_false. Qed.

Lemma find_name_nonneg name l r : find_name name l = Some r -> 0 <= r.
Proof.
  induction l as [|e l IH]; [done|]. simpl. case_bool_decide as E; [|done]. intros [= <-]. tauto.
Qed.

(** looking a name up *)
Lemma lookup_spec name : name_ok name ->
  wp (testfs_dir_name_to_inode_nr p name) w (fun r w' =>
    r = default (- ENOENT) (find_name name es) /\ w' = w).
Proof.
  intros Hname. unfold testfs_dir_name_to_inode_nr. wsimpl. apply wp_get_type. wsimpl.
  apply wp_assert; [done|]. wsimpl.
  apply (wp_while (fun '(ret, off) w' => w' = w /\
      ((ret = - ENOENT /\ exists pre post, at_entry off pre post /\ find_name name pre = None) \/
       (0 <= ret /\ find_name name es = Some ret)))
    (fun '(ret, off) => if ret <? 0 then 1 + (zlen (dir_bytes es) - off) else 0)).
  { split; [done|]. left. split; [done|]. by exists [], es. }
  { pose proof (dr_size _ _ _ Hd). pose proof (dr_max _ _ _ Hd). pose proof (zlen_nonneg (dir_bytes es)).
    change (- ENOENT <? 0) with true. cbv iota. change (2 ^ 64) with 18446744073709551616. lia. }
  intros [ret off] w' [-> Hst] _. unfold lookup_round. destruct Hst as [(-> & pre & post & Hat & Hno)|[Hret Hf]].
  2: { rewrite (proj2 (Z.ltb_ge ret 0)) by done. cbn [negb]. wsimpl. by rewrite Hf. }
  change (- ENOENT <? 0) with true. cbn [negb]. wsimpl. pose proof (at_entry_bound _ _ _ Hat).
  eapply next_at; [done| |].
  { intros _ ->. wsimpl. by rewrite Hno. }
  intros e post' off' -> He Hat' Hlt. cbv beta iota. pose proof (at_entry_bound _ _ _ Hat').
  destruct (Z.ltb_spec (d_inode_nr e) 0).
  { wsimpl. change (- ENOENT <? 0) with true. cbv iota. split; [|lia]. split; [done|]. left. split; [done|].
    exists (pre ++ [e]), post'. split; [done|]. apply find_name_snoc; [done|lia]. }
  wsimpl. apply wp_strcmp; [done|done|]. case_bool_decide as E; wsimpl; (split; [split; [done|]|]).
  - right. split; [done|]. destruct Hat as [-> _]. rewrite find_name_app by done. simpl.
    by rewrite bool_decide_true.
  - rewrite (proj2 (Z.ltb_ge _ 0)) by done. change (- ENOENT <? 0) with true. cbv iota. lia.
  - left. split; [done|]. exists (pre ++ [e]), post'. split; [done|]. apply find_name_snoc; [done|tauto].
  - change (- ENOENT <? 0) with true. cbv iota. lia.
Qed.
End walk.

(** ** Adding an entry *)

Definition reusable (len : Z) (e : dirent) : Prop := d_inode_nr e < 0 /\ d_name_len e = len.
#[global] Instance reusable_dec len e : Decision (reusable len e).
Proof. unfold reusable. apply _. Defined.

(** the new entry takes the place of the first free one of its length *)
Fixpoint add_entry (e : dirent) (es : list dirent) : list dirent :=
  match es with
  | [] => [e]
  | x :: es' => if decide (reusable (d_name_len e) x) then e :: es' else x :: add_entry e es'
  end.

Lemma add_entry_reuse e pre x post : Forall (fun y => ~ reusable (d_name_len e) y) pre ->
  reusable (d_name_len e) x -> add_entry e (pre ++ x :: post) = pre ++ e :: post.
Proof.
  intros Hp Hx. induction Hp as [|y pre Hy Hp IH]; simpl; [by rewrite decide_True|].
  rewrite decide_False by done. by rewrite IH.
Qed.

Lemma add_entry_append e es : Forall (fun y => ~ reusable (d_name_len e) y) es -> add_entry e es = es ++ [e].
Proof. induction 1 as [|y es Hy Hp IH]; simpl; [done|]. by rewrite decide_False, IH by done. Qed.

(** writing [Y] over [X], or at the end *)
Lemma fbytes_write D d D' d' (A X Y C : list Z) sz : wrote_range D d (zlen A) Y D' d' ->
  fbytes D d 0 sz = A ++ X ++ C -> 0 <= sz -> (zlen X = zlen Y \/ (X = [] /\ C = [])) ->
  Z.max sz (zlen A + zlen Y) <= MAX_FILE_SIZE ->
  fbytes D' d' 0 (Z.max sz (zlen A + zlen Y)) = A ++ Y ++ C.
Proof.
  intros Hw Hold Hsz Hxy Hmax.
  assert (Hlen : sz = zlen A + zlen X + zlen C).
  { rewrite <- (zlen_fbytes D d 0 sz Hsz), Hold, !zlen_app. lia. }
  pose proof (zlen_nonneg A). pose proof (zlen_nonneg X). pose proof (zlen_nonneg Y). pose proof (zlen_nonneg C).
  assert (HX0 : X = [] /\ C = [] -> zlen X = 0 /\ zlen C = 0) by by intros [-> ->].
  assert (Hob : forall k, 0 <= k < sz -> fbyte D d k = byte_at (A ++ X ++ C) k).
  { intros k Hk. rewrite <- Hold, byte_at_fbytes by done. done. }
  apply list_eq_bytes.
  - rewrite zlen_fbytes, !zlen_app by lia. destruct Hxy as [?|?%HX0]; lia.
  - intros k. rewrite zlen_fbytes by lia. intros Hk. rewrite byte_at_fbytes, Z.add_0_l, Hw by lia.
    rewrite (byte_at_app A (Y ++ C)) by lia.
    destruct (decide (zlen A <= k < zlen A + zlen Y)).
    { rewrite decide_False, byte_at_app by lia. by rewrite decide_True by lia. }
    assert (k < sz) by (destruct Hxy as [?|?%HX0]; lia). rewrite Hob, (byte_at_app A) by lia.
    destruct (decide (k < zlen A)); [done|]. rewrite !byte_at_app by lia.
    destruct Hxy as [Hxy|?%HX0]; [|lia]. rewrite Hxy. by rewrite !decide_False by lia.
Qed.

(** ** Writing one entry *)

Section update.
Context (w : fs) (I B O : gset Z) (p : ptr) (i : inode) (es : list dirent).
Hypothesis Hr : fs_rep w I B.
Hypothesis Hp : fs_heap w !! p = Some i.
Hypothesis Ht : ftree (fs_dev w) (in_ i) B O.
Hypothesis Hd : dir_rep (fs_dev w) (in_ i) es.

(** the directory [es'] is what a successful write of [len] bytes leaves *)
Definition dir_written (len : Z) (es' : list dirent) (w' : fs) : Prop :=
  exists buf start i' B' O', 0 <= start /\ 0 < len <= zlen buf /\ written w I B O p i buf start len w' i' B' O' /\
    dir_rep (fs_dev w') (in_ i') es'.

(** [e] takes the place of the entries [mid]: one of the same length, or none
    at the end of the directory *)
Lemma write_entry_spec e pre mid post : es = pre ++ mid ++ post -> entry_ok e ->
  ((exists x, mid = [x] /\ d_name_len x = d_name_len e) \/ (mid = [] /\ post = [])) ->
  zlen (dir_bytes es) + (sizeof_dirent + d_name_len e) < 1073741824 ->
  Z.of_nat (size B) + 3 * ((sizeof_dirent + d_name_len e) / BLOCK_SIZE + 2) <= max_fs_blocks (fs_sb w) ->
  wp (testfs_write_data p (dirent_bytes e) (zlen (dir_bytes pre)) (sizeof_dirent + d_name_len e)) w
    (fun r w' => r = sizeof_dirent + d_name_len e /\ dir_written (sizeof_dirent + d_name_len e) (pre ++ e :: post) w').
Proof.
  intros Hes He Hmid Hmax Hroom. pose proof (entry_ok_len _ He) as Hl.
  pose proof (zlen_dirent_bytes _ He) as Hzl. destruct Hd as [D1 D2 D3 D4 D5].
  pose proof MAX_FILE_SIZE_val as HM. pose proof (zlen_nonneg (dir_bytes pre)).
  pose proof (zlen_nonneg (dir_bytes mid)). pose proof (zlen_nonneg (dir_bytes post)).
  assert (Hall : dir_bytes es = dir_bytes pre ++ dir_bytes mid ++ dir_bytes post) by by rewrite Hes, !dir_bytes_app.
  assert (Hsz : zlen (dir_bytes es) = zlen (dir_bytes pre) + zlen (dir_bytes mid) + zlen (dir_bytes post)).
  { rewrite Hall, !zlen_app. lia. }
  assert (Hok : Forall entry_ok pre /\ Forall entry_ok mid /\ Forall entry_ok post).
  { revert D2. by rewrite Hes, !Forall_app. }
  destruct Hok as (Hpre & Hmo & Hpost). unfold sizeof_dirent in *.
  assert (Hxy : zlen (dir_bytes mid) = zlen (dirent_bytes e) \/ (dir_bytes mid = [] /\ dir_bytes post = [])).
  { destruct Hmid as [(x & -> & Hx)|[-> ->]]; [left|by right]. apply Forall_cons in Hmo as [Hmo _].
    rewrite dir_bytes_cons, zlen_app, (zlen_dirent_bytes x), Hzl by done. change (zlen (dir_bytes [])) with 0. unfold sizeof_dirent. lia. }
  eapply wp_mono.
  { apply (write_data_spec w I B O p i Hr Hp Ht (dirent_bytes e) (zlen (dir_bytes pre)) (8 + d_name_len e)); lia. }
  intros r w' (-> & i' & B' & O' & Hw). split; [done|].
  exists (dirent_bytes e), (zlen (dir_bytes pre)), i', B', O'. do 2 (split; [lia|]). split; [done|].
  pose proof (wr_size _ _ _ _ _ _ _ _ _ _ _ _ _ Hw) as Hs. rewrite decide_True in Hs by lia.
  pose proof (wr_data _ _ _ _ _ _ _ _ _ _ _ _ _ Hw) as Hdat. rewrite zsub_all in Hdat by lia.
  rewrite <- Hzl in Hs.
  assert (Hnew : fbytes (fs_dev w') (in_ i') 0 (i_size (in_ i')) = dir_bytes (pre ++ e :: post)).
  { rewrite Hs, dir_bytes_app, dir_bytes_cons. eapply fbytes_write; [exact Hdat| |lia|exact Hxy|lia].
    by rewrite D5, Hall. }
  split; [|by apply Forall_app_2; [|constructor]| |lia|done].
  - rewrite (st_type _ _ _ _ _ (wr_step _ _ _ _ _ _ _ _ _ _ _ _ _ Hw)). done.
  - rewrite <- Hnew. rewrite zlen_fbytes by lia. done.
Qed.
End update.

Section add.
Context (w : fs) (I B O : gset Z) (p : ptr) (i : inode) (es : list dirent) (name : list Z) (inode_nr : Z).
Hypothesis Hr : fs_rep w I B.
Hypothesis Hp : fs_heap w !! p = Some i.
Hypothesis Ht : ftree (fs_dev w) (in_ i) B O.
Hypothesis Hd : dir_rep (fs_dev w) (in_ i) es.
Hypothesis Hname : name_ok name.
Hypothesis Hnr : 0 <= inode_nr < 2147483648.

Abbreviation len := (zlen name + 1).
Definition new_entry : dirent := mk_dirent len inode_nr (c_str name).

Lemma new_entry_ok : entry_ok new_entry.
Proof. split; simpl; [by exists name|by rewrite zlen_c_str|unfold s32_ok; lia]. Qed.

Lemma name_len : s32 len = len /\ 0 < len < 2147483640.
Proof.
  destruct Hname as [_ Hl]. pose proof (zlen_nonneg name). split; [apply s32_small|]; lia.
Qed.

(** where the search for a free entry ends *)
Definition found_at (found : bool) (off : Z) : Prop :=
  exists pre post, Forall (fun y => ~ reusable len y) pre /\ off = zlen (dir_bytes pre) /\
    if found then exists x, es = pre ++ x :: post /\ reusable len x else es = pre /\ post = [].

Lemma add_search : find_name name es = None ->
  wp (while_ (add_round p name len) (0, false, 0, 0)) w (fun '(ret, found, off) w' =>
    ret = 0 /\ found_at found off /\ w' = w).
Proof.
  intros Hno.
  apply (wp_while (fun '(ret, found, p_off, off) w' => w' = w /\ ret = 0 /\
      if found : bool then found_at true p_off
      else exists pre post, at_entry es off pre post /\ Forall (fun y => ~ reusable len y) pre)
    (fun '(_, found, _, off) => if found : bool then 0 else 1 + (zlen (dir_bytes es) - off))).
  { split_and!; [done|done|]. exists [], es. split; [done|constructor]. }
  { pose proof (dr_size _ _ _ Hd). pose proof (dr_max _ _ _ Hd). pose proof (zlen_nonneg (dir_bytes es)).
    change (2 ^ 64) with 18446744073709551616. lia. }
  intros [[[ret found] p_off] off] w' (-> & -> & Hst) _. unfold add_round.
  destruct found; cbn [negb andb Z.eqb].
  { wsimpl. done. }
  destruct Hst as (pre & post & Hat & Hpre). wsimpl. pose proof (at_entry_bound w i es Hd _ _ _ Hat).
  eapply (next_at w I B O p i es); try done.
  { intros -> ->. wsimpl. split; [done|]. split; [|done]. exists pre, []. destruct Hat as [_ ->]. done. }
  intros e post' off' -> He Hat' Hlt. cbv beta iota. pose proof (at_entry_bound w i es Hd _ _ _ Hat').
  assert (Hne : ~ (0 <= d_inode_nr e /\ d_name e = c_str name)).
  { intros Hin. revert Hno. destruct Hat as [-> _]. clear -Hin.
    induction pre as [|y pre IH]; simpl; [by rewrite bool_decide_true|]. by case_match. }
  apply wp_bind. eapply (wp_mono _ _ (fun same w' => same = false /\ w' = w)).
  { destruct (Z.leb_spec 0 (d_inode_nr e)); [|by wsimpl]. apply wp_strcmp; [done|done|].
    split; [|done]. apply bool_decide_false. tauto. }
  intros same w' [-> ->]. destruct (Z.leb_spec 0 (d_inode_nr e)); cbn [orb].
  { wsimpl. split_and!; try done; [|lia|lia]. exists (pre ++ [e]), post'. split; [done|].
    apply Forall_app_2; [done|]. apply Forall_singleton. unfold reusable. lia. }
  destruct (Z.eqb_spec (d_name_len e) len); cbn [negb]; wsimpl; split_and!; try done; try lia.
  - exists pre, post'. split; [done|]. destruct Hat as [-> ->]. split; [done|]. exists e. done.
  - exists (pre ++ [e]), post'. split; [done|].
    apply Forall_app_2; [done|]. apply Forall_singleton. unfold reusable. lia.
Qed.

Hypothesis Hmax : zlen (dir_bytes es) + (sizeof_dirent + len) < 1073741824.
Hypothesis Hroom : Z.of_nat (size B) + 3 * ((sizeof_dirent + len) / BLOCK_SIZE + 2) <= max_fs_blocks (fs_sb w).

Lemma wp_write_dirent off (Q : Z -> fs -> Prop) :
  wp (testfs_write_data p (dirent_bytes new_entry) off (sizeof_dirent + len)) w Q ->
  wp (testfs_write_dirent p name len inode_nr off) w Q.
Proof.
  intros HQ. destruct name_len as [Hs Hl]. unfold testfs_write_dirent. wsimpl.
  apply wp_host_ok; [apply Hr|]. cbn [negb]. wsimpl. apply wp_assert; [apply Z.leb_le; lia|]. wsimpl.
  apply (wp_uninit w); [lia|]. intros l Hzl. wsimpl.
  apply wp_buf_write; [done|rewrite zlen_c_str; lia|]. wsimpl.
  assert (Hall : zsplice l 0 (c_str name) = c_str name).
  { rewrite <- (zsub_all (zsplice l 0 (c_str name)) (0 + zlen (c_str name))).
    - rewrite Z.add_0_l. apply zsub_zsplice_eq; [done|rewrite zlen_c_str; lia].
    - rewrite zlen_zsplice; rewrite ?zlen_c_str; lia. }
  by rewrite Hall.
Qed.

(** a name that is not there yet is added *)
Lemma add_dirent_spec : find_name name es = None ->
  wp (testfs_add_dirent p name inode_nr) w (fun r w' =>
    r = sizeof_dirent + len /\ dir_written w I B O p i (sizeof_dirent + len) (add_entry new_entry es) w').
Proof.
  intros Hno. destruct name_len as [Hs Hl]. unfold testfs_add_dirent. wsimpl.
  apply (wp_get_type w p i es); try done. wsimpl. apply wp_assert; [done|]. rewrite Hs. wsimpl.
  eapply wp_mono; [by apply add_search|]. intros [[ret found] off] w' (-> & Hf & ->).
  change (0 <? 0) with false. cbv iota. wsimpl. apply (wp_get_size w p i es); try done. wsimpl.
  assert (sizeof_dirent = 8) by done. pose proof new_entry_ok as Hok. destruct Hf as (pre & post & Hpre & -> & Hf).
  pose proof (zlen_nonneg (dir_bytes pre)).
  destruct found; [destruct Hf as (x & Hes & Hx)|destruct Hf as [Hes ->]].
  - assert (zlen (dir_bytes pre) <= zlen (dir_bytes es)).
    { rewrite Hes, dir_bytes_app, zlen_app. pose proof (zlen_nonneg (dir_bytes (x :: post))). lia. }
    apply wp_assert; [done|]. rewrite s32_small by lia. wsimpl. apply wp_write_dirent.
    rewrite Hes, (add_entry_reuse new_entry pre x post) by done.
    apply (write_entry_spec w I B O p i es Hr Hp Ht Hd new_entry pre [x] post); try done.
    left. exists x. split; [done|]. by destruct Hx.
  - subst pre. apply wp_assert; [apply Z.eqb_refl|]. rewrite s32_small by lia. wsimpl.
    apply wp_write_dirent. rewrite add_entry_append by done.
    apply (write_entry_spec w I B O p i es Hr Hp Ht Hd new_entry es [] []); try done; [by rewrite app_nil_r|by right].
Qed.

(** after which the name is found, and every other name as before *)
Lemma find_name_add_same : find_name name es = None -> find_name name (add_entry new_entry es) = Some inode_nr.
Proof.
  assert (Hn : 0 <= d_inode_nr new_entry /\ d_name new_entry = c_str name) by (split; [apply Hnr|done]).
  clear Hd Hmax. induction es as [|x es' IH]; cbn [add_entry find_name]; [by rewrite bool_decide_true|].
  case_bool_decide as E; [done|]. intros Hno.
  destruct (decide (reusable (d_name_len new_entry) x)); cbn [find_name]; [by rewrite bool_decide_true|].
  rewrite bool_decide_false by done. by apply IH.
Qed.

Lemma find_name_add_other name' : name' <> name -> find_name name' (add_entry new_entry es) = find_name name' es.
Proof.
  intros Hne. assert (Hn : ~ (0 <= d_inode_nr new_entry /\ d_name new_entry = c_str name')).
  { intros [_ Heq%c_str_inj]. by apply Hne. }
  clear Hd Hmax. induction es as [|x es' IH]; cbn [add_entry find_name]; [by rewrite bool_decide_false|].
  destruct (decide (reusable (d_name_len new_entry) x)) as [[Hx _]|]; cbn [find_name].
  - rewrite !bool_decide_false; [done| |done]. intros [? _]. lia.
  - by rewrite IH.
Qed.
End add.
