(* ===== verification/MkfsSpec.v ===== *)
(** * A new file system, and new inodes

    fs/mktestfs.c writes a super block, empty freemaps and empty inodes; mounting
    the result gives a file system without inodes and blocks.  [testfs_create_inode]
    takes the first free inode number and leaves an empty file or directory. *)

From stdpp Require Import base gmap list list_numbers strings.
From Stdlib Require Import ZArith Lia.
From S2P Require Import Prelude Words Bitmap Block FsState InodeHash Super Inode ReadWrite Dir Mktestfs FileTree FileAlloc FileData FileFree.
#[local] Open Scope Z_scope.

(** the super block of an empty file system *)
Definition empty_sb (max : Z) : dsuper_block := mk_dsuper 1 2 INODE_START DATA_START 0 0 max.

Definition size_blocks (mb : Z) : Z := u64 (Z.shiftl mb 20) / BLOCK_SIZE.

Lemma size_blocks_bound mb : 1 <= mb <= max_fs_size_mb -> size_blocks mb = 128 * mb /\ 0 <= size_blocks mb <= BLOCK_BITS.
Proof.
  change max_fs_size_mb with 8192. intros Hmb. unfold size_blocks. rewrite Z.shiftl_mul_pow2 by lia. change (2 ^ 20) with 1048576.
  rewrite u64_small by lia. unfold_consts. split; [dlia|]. dlia.
Qed.

Lemma zeros_bitmap nb : 0 <= nb <= BLOCK_FREEMAP_SIZE ->
  bm_ok (mk_bitmap (nb * BLOCK_SIZE * 8) (zeros (nb * BLOCK_SIZE))) /\
  bm_set (mk_bitmap (nb * BLOCK_SIZE * 8) (zeros (nb * BLOCK_SIZE))) = ∅.
Proof.
  intros Hn. assert (Hz : forall i, bit (zeros (nb * BLOCK_SIZE)) i = false).
  { intros i. unfold bit. rewrite byte_at_zeros. apply Z.bits_0. }
  unfold_consts. split.
  - split; simpl; rewrite ?zlen_zeros by lia; [lia| |apply Forall_zeros; unfold byte_ok; lia|lia].
    unfold DIVROUNDUP. rewrite u32_small by word_lia. dlia.
  - apply set_eq. intros i. rewrite elem_of_bm_set. simpl. rewrite Hz. set_solver.
Qed.

(** ** mktestfs *)

(** the blocks in [lo..hi) are zero *)
Definition zeroed (D : device) (lo hi : Z) : Prop := forall c, lo <= c < hi -> blk D c = zero.

Record fresh_disk (D : device) (max : Z) : Prop := {
  fd_dev : dev_ok D;
  fd_nr : d_nr D = DATA_START;
  fd_cap : DATA_START + BLOCK_BITS <= d_cap D;
  fd_sb : blk D 0 = sb_block (empty_sb max);
  fd_zero : zeroed D 1 DATA_START;
}.

Lemma wp_zero_blocks w start nr (Q : unit -> fs -> Prop) : dev_ok (fs_dev w) -> 0 <= start -> 0 < nr ->
  start + nr <= d_cap (fs_dev w) ->
  (forall D, dev_ok D -> d_cap D = d_cap (fs_dev w) -> d_nr D = Z.max (d_nr (fs_dev w)) (start + nr) ->
     (forall c, blk D c = if decide (start <= c < start + nr) then zero else blk (fs_dev w) c) -> Q tt (with_dev D w)) ->
  wp (on_dev (zero_blocks start nr)) w Q.
Proof.
  intros Hd Hs Hn Hc HQ. pose proof (zero_blocks_spec (fs_dev w) start nr Hd Hs ltac:(lia) Hc) as Hz.
  apply wp_inv in Hz as ([] & D & HD & H1 & H2 & _ & H4 & H5). eapply wp_val; [by apply on_dev_val|]. by apply HQ; auto.
Qed.

Lemma make_fs_spec w mb : 1 <= mb <= max_fs_size_mb -> fs_host w = [] -> DATA_START + BLOCK_BITS <= d_cap (fs_dev w) ->
  wp (make_fs mb) w (fun _ w' => fresh_disk (fs_dev w') (size_blocks mb) /\ fs_host w' = [] /\
    fs_heap w' = fs_heap w /\ fs_next w' = fs_next w).
Proof.
  intros Hmb Hh Hcap. unfold make_fs. fold (size_blocks mb). unfold testfs_make_super_block, fopen_w, upd_sb. wsimpl.
  apply wp_host_ok; [done|]. cbn [negb]. wsimpl. apply wp_host_ok; [done|]. cbn [negb]. wsimpl.
  set (D0 := mk_device ∅ 0 (d_cap (fs_dev w)) 0).
  assert (HD0 : dev_ok D0) by (split; simpl; [lia|apply map_Forall_empty|unfold_consts; lia]).
  cbv zeta. cbn [negb]. wsimpl. eapply wp_val; [apply write_super_block_val; [exact HD0|cbn; unfold_consts; lia]|]. cbn [fs_sb with_sb with_dev].
  change (mk_dsuper _ _ _ _ 0 0 (size_blocks mb)) with (empty_sb (size_blocks mb)).
  unfold inode_hash_init. wsimpl. apply wp_host_ok; [done|]. cbn [negb]. wsimpl.
  set (D1 := dev_write 0 (sb_block (empty_sb (size_blocks mb))) D0). assert (HD1 : dev_ok D1).
  { apply dev_ok_write; [done|simpl; unfold_consts; lia|apply zlen_sb_block]. }
  unfold testfs_make_inode_freemap. wsimpl. cbn [fs_sb with_sb with_dev with_hash inode_freemap_start empty_sb].
  apply wp_zero_blocks; [done|lia|done|simpl; unfold_consts; lia|]. intros D2 HD2 Hc2 Hn2 Hb2.
  unfold testfs_make_block_freemap. wsimpl. cbn [fs_sb with_sb with_dev with_hash block_freemap_start empty_sb].
  cbn in Hc2. apply wp_zero_blocks; [done|lia|done|simpl; unfold_consts; lia|]. intros D3 HD3 Hc3 Hn3 Hb3.
  cbn in Hc3. unfold testfs_make_inode_blocks. wsimpl. cbn [fs_sb with_sb with_dev with_hash inode_blocks_start empty_sb].
  change (_ <? NR_INODE_BLOCKS * INODES_PER_BLOCK) with false. cbv iota. wsimpl. apply wp_assert; [done|]. wsimpl.
  apply wp_zero_blocks; [done|unfold_consts; lia|done|simpl; unfold_consts; unfold NR_INODE_BLOCKS; lia|]. intros D4 HD4 Hc4 Hn4 Hb4.
  cbn in Hc4. unfold testfs_close_super_block. wsimpl.
  eapply wp_val; [apply write_super_block_val; [exact HD4|cbn; unfold_consts; lia]|]. cbn [fs_sb with_sb with_dev with_hash].
  unfold inode_hash_destroy. wsimpl. cbn [fs_hash with_hash with_sb with_dev]. wsimpl. apply wp_assert; [done|]. wsimpl.
  cbn. split_and!; try done. split; simpl.
  - apply dev_ok_write; [done|unfold_consts; lia|apply zlen_sb_block].
  - rewrite Hn4. cbn. rewrite Hn3. cbn. rewrite Hn2. cbn. unfold_consts. unfold NR_INODE_BLOCKS. lia.
  - unfold_consts. lia.
  - rewrite blk_dev_write. by rewrite decide_True.
  - intros c Hc. rewrite blk_dev_write, decide_False by lia. rewrite Hb4. case_decide; [done|]. cbn. rewrite Hb3.
    case_decide; [done|]. cbn. rewrite Hb2. case_decide; [done|]. unfold_consts. unfold NR_INODE_BLOCKS in *. lia.
Qed.

(** ** Mounting it *)

Lemma fresh_disk_ok D max : 0 <= max <= BLOCK_BITS -> fresh_disk D max ->
  disk_ok D (empty_sb max) (zeros (INODE_FREEMAP_SIZE * BLOCK_SIZE)) (zeros (BLOCK_FREEMAP_SIZE * BLOCK_SIZE)).
Proof.
  intros Hmax [Hd Hn Hc Hs Hz].
  destruct (zeros_bitmap INODE_FREEMAP_SIZE) as [Hi1 Hi2]; [unfold_consts; lia|].
  destruct (zeros_bitmap BLOCK_FREEMAP_SIZE) as [Hb1 Hb2]; [unfold_consts; lia|].
  assert (Hlay : sb_layout (empty_sb max)) by by split.
  split; [exact Hd|lia|exact Hc|exact Hlay| | | |exact Hi1|exact Hb1| |].
  - rewrite Hs. apply sb_block_read, sb_layout_ok; [done|unfold u32_ok; simpl; lia..].
  - intros k Hk. rewrite Hz by (unfold_consts; lia). by rewrite zsub_zeros by (unfold_consts; lia).
  - intros k Hk. rewrite Hz by (unfold_consts; lia). by rewrite zsub_zeros by (unfold_consts; lia).
  - change INODE_BITS with (INODE_FREEMAP_SIZE * BLOCK_SIZE * 8). by rewrite Hi2.
  - change BLOCK_BITS with (BLOCK_FREEMAP_SIZE * BLOCK_SIZE * 8). by rewrite Hb2.
Qed.

Lemma cache_empty w : fs_heap w = ∅ -> fs_hash w = Some (replicate (Z.to_nat inode_hash_size) []) ->
  cache_ok w (replicate (Z.to_nat inode_hash_size) []).
Proof.
  intros Hh Ht. assert (Hb : forall n, bucket (replicate (Z.to_nat inode_hash_size) []) n = []).
  { intros n. unfold bucket. destruct (replicate _ _ !! _) eqn:E; [|done]. by apply lookup_replicate in E as [-> _]. }
  split; rewrite ?Hh; try done.
  - intros n _. rewrite Hb. constructor.
  - intros n p _. rewrite Hb. set_solver.
Qed.

Lemma disk_inode_zero D nr : 0 <= nr < NR_INODES -> blk D (inode_block nr) = zero -> disk_inode D nr = dinode_zero.
Proof.
  intros Hn Hb. unfold disk_inode. rewrite Hb. pose proof (inode_offset_bound nr Hn) as Ho. unfold zero.
  rewrite zsub_zeros by (unfold sizeof_dinode in *; lia). by vm_compute.
Qed.

(** mounting a new file system: no inode and no block is in use *)
Lemma mkfs_mount_spec w mb : 1 <= mb <= max_fs_size_mb -> fs_host w = [] -> DATA_START + BLOCK_BITS <= d_cap (fs_dev w) ->
  fs_heap w = ∅ ->
  wp (make_fs mb;; testfs_init_super_block) w (fun r w' => r = 0 /\ live w' ∅ ∅ /\ fs_heap w' = ∅ /\
    max_fs_blocks (fs_sb w') = 128 * mb /\ forall nr, 0 <= nr < NR_INODES -> disk_inode (fs_dev w') nr = dinode_zero).
Proof.
  intros Hmb Hh Hc He. destruct (size_blocks_bound mb Hmb) as [Hsz Hb]. apply wp_bind.
  eapply wp_mono; [by apply make_fs_spec|]. intros _ w1 (Hf & Hh1 & He1 & _).
  pose proof (fresh_disk_ok _ _ Hb Hf) as Hok. eapply wp_mono; [by apply (mount_spec _ _ _ _ Hok)|].
  destruct (zeros_bitmap INODE_FREEMAP_SIZE) as [_ Hi2]; [unfold_consts; lia|].
  destruct (zeros_bitmap BLOCK_FREEMAP_SIZE) as [_ Hb2]; [unfold_consts; lia|].
  intros r w2 (-> & Hr & Hs & Hd & Hhp & _ & _ & _ & _ & _ & Ht).
  change INODE_BITS with (INODE_FREEMAP_SIZE * BLOCK_SIZE * 8) in Hr. rewrite Hi2 in Hr.
  change BLOCK_BITS with (BLOCK_FREEMAP_SIZE * BLOCK_SIZE * 8) in Hr. rewrite Hb2 in Hr.
  assert (Hh2 : fs_heap w2 = ∅) by congruence. split; [reflexivity|].
  split; [split; [exact Hr|eexists; by apply cache_empty]|]. split; [exact Hh2|]. split.
  - rewrite Hs. exact Hsz.
  - intros nr Hn. apply disk_inode_zero; [done|]. rewrite Hd. pose proof (inode_block_bound nr Hn).
    apply (fd_zero _ _ Hf). unfold_consts. lia.
Qed.

(** ** Creating an inode *)

(** the inodes that are not in use: not in memory, and zero on the disk *)
Definition idle (w : fs) (I : gset Z) : Prop := forall nr, 0 <= nr < NR_INODES -> (nr ∉ I) ->
  (forall q, ~ cached w nr q) /\ disk_inode (fs_dev w) nr = dinode_zero.

Lemma live_mem w w' I B I' B' : live w I B -> fs_heap w' = fs_heap w -> fs_hash w' = fs_hash w ->
  fs_next w' = fs_next w -> fs_rep w' I' B' -> live w' I' B'.
Proof. intros [_ [t Hc]] H1 H2 H3 Hr. split; [done|]. exists t. by eapply cache_ok_mem. Qed.

Lemma not_meta_block c : is_meta c -> c < INODE_START \/ DATA_START <= c.
Proof. unfold is_meta. by left. Qed.

(** a full bitmap holds every index *)
Lemma bm_set_full_in b j : 0 <= bm_nbits b -> Z.of_nat (size (bm_set b)) = bm_nbits b -> 0 <= j < bm_nbits b -> j ∈ bm_set b.
Proof.
  intros Hn Hf Hj. destruct (decide (j ∈ bm_set b)) as [|Hnot]; [done|]. exfalso.
  assert (Hs : (size ({[j]} ∪ bm_set b) <= size (list_to_set (C := gset Z) (seqZ 0 (bm_nbits b))))%nat).
  { apply subseteq_size. intros i. rewrite elem_of_list_to_set, elem_of_seqZ, elem_of_union, elem_of_singleton, elem_of_bm_set. lia. }
  rewrite size_list_to_set, length_seqZ in Hs by apply NoDup_seqZ. pose proof (add_size (bm_set b) j Hnot). lia.
Qed.

(** the new inode [nr], at [p], of a file or directory without data *)
Record created (w : fs) (I B : gset Z) (type : Z) (p : ptr) (nr : Z) (w' : fs) : Prop := {
  cr_nr : 0 <= nr < NR_INODES;
  cr_new : nr ∉ I;
  cr_first : forall j, 0 <= j < nr -> j ∈ I;
  cr_live : live w' ({[nr]} ∪ I) B;
  cr_idle : idle w' ({[nr]} ∪ I);
  cr_fresh : fs_heap w !! p = None;
  cr_heap : exists i, fs_heap w' = <[p := i]> (fs_heap w) /\ i_nr i = nr /\ i_count i = 1 /\ is_dirty i = true /\
    in_ i = set_i_type type dinode_zero;
  cr_max : max_fs_blocks (fs_sb w') = max_fs_blocks (fs_sb w);
  cr_dev : dev_frame is_meta (fs_dev w) (fs_dev w');
}.

Lemma idle_frame w w' I I' : idle w I -> I ⊆ I' -> dev_frame is_meta (fs_dev w) (fs_dev w') ->
  (forall nr q, (nr ∉ I') -> cached w' nr q -> cached w nr q) -> idle w' I'.
Proof.
  intros Hi Hsub Hd Hc nr Hn Hnot. destruct (Hi nr Hn) as [H1 H2]; [set_solver|]. split.
  - intros q Hq. eapply H1, Hc; done.
  - rewrite <- H2. eapply disk_inode_frame; [exact Hd|done|apply not_meta_block].
Qed.

Lemma create_inode_spec w I B type : live w I B -> idle w I ->
  wp (testfs_create_inode type) w (fun '(r, p) w' =>
    (r = 0 /\ exists nr, created w I B type p nr w') \/
    (r = - ENOSPC /\ p = 0 /\ (forall j, 0 <= j < NR_INODES -> j ∈ I) /\ live w' I B /\ fs_heap w' = fs_heap w /\
       dev_frame is_meta (fs_dev w) (fs_dev w'))).
Proof.
  intros Hl Hidle. pose proof Hl as [Hr _]. unfold testfs_create_inode. wsimpl.
  eapply wp_mono; [by apply (get_inode_freemap_spec w I B)|].
  intros r w1 [(nr & -> & Hnb & Hnew & Hfirst & Hr1 & [M1 M2 M3 M4 M5 M6 M7] & Hmax & Hdf & Hd)|(-> & -> & Hfull)].
  2: { change (- ENOSPC <? 0) with true. cbv iota. wsimpl. right. split_and!; try done. intros j Hj.
    destruct (rep_imap _ _ _ Hr) as (b & _ & Hok & Hn & HI). rewrite <- HI in *.
    apply bm_set_full_in; rewrite Hn; [by unfold_consts|done|]. change NR_INODES with 16384 in Hj. change INODE_BITS with 65536. lia. }
  rewrite (proj2 (Z.ltb_ge nr 0)) by lia. rewrite u32_small by (unfold_consts; lia).
  assert (Hl1 : live w1 ({[nr]} ∪ I) B) by by eapply live_mem.
  destruct (Z.leb_spec NR_INODE_BLOCKS (nr / INODES_PER_BLOCK)) as [Hge|Hlt].
  - wsimpl. eapply wp_mono; [apply (put_inode_freemap_spec w1 ({[nr]} ∪ I) B nr); [done|set_solver]|].
    intros _ w2 (Hr2 & [N1 N2 N3 N4 N5 N6 N7] & _ & Hdf2 & _). wsimpl. right. split_and!; try done.
    + intros j Hj. apply Hfirst. rewrite ipb in Hge. change NR_INODE_BLOCKS with 128 in Hge. change NR_INODES with 16384 in Hj. dlia.
    + replace I with (({[nr]} ∪ I) ∖ {[nr]}) by set_solver. eapply live_mem; [exact Hl1|done..].
    + congruence.
    + by eapply dev_frame_trans.
  - assert (Hn : 0 <= nr < NR_INODES) by (rewrite ipb in Hlt; change NR_INODE_BLOCKS with 128 in Hlt; change NR_INODES with 16384; dlia).
    destruct (Hidle nr Hn Hnew) as [Hnc Hz]. wsimpl.
    eapply wp_mono; [by apply (get_inode_spec w1 ({[nr]} ∪ I) B nr)|].
    intros p w2 (i & Hl2 & Hdev2 & Hsb2 & Hgot & Hh2 & _ & _).
    destruct Hgot as [(j & Hj & Hjn & _)|(Hnone & _ & ->)].
    { exfalso. apply (Hnc p). exists j. by rewrite <- M1. }
    assert (Hz1 : disk_inode (fs_dev w1) nr = dinode_zero).
    { rewrite <- Hz. eapply disk_inode_frame; [exact Hdf|done|apply not_meta_block]. }
    wsimpl. eapply wp_upd_inode; [rewrite Hh2; apply lookup_insert_eq|]. wsimpl. left. split; [done|]. exists nr.
    rewrite Hz1 in *. set (i1 := mark_dirty _). set (w3 := with_heap _ w2).
    assert (Hh3 : fs_heap w3 = <[p := i1]> (fs_heap w)) by (simpl; by rewrite Hh2, insert_insert_eq, M1).
    split; [exact Hn|exact Hnew|exact Hfirst| | | | | |].
    + eapply (live_upd w2 w3 _ _ _ _ p _ i1); [exact Hl2|rewrite Hh2; apply lookup_insert_eq|..]; try done.
      eapply fs_rep_mem; [exact (proj1 Hl2)|done..].
    + eapply (idle_frame w); [exact Hidle|set_solver|simpl; by rewrite Hdev2|].
      intros nr' q Hnot (i2 & Hi2 & Hi2n). exists i2. split; [|done]. rewrite Hh3 in Hi2.
      apply lookup_insert_Some in Hi2 as [[<- <-]|[_ ?]]; [|done]. simpl in Hi2n. set_solver.
    + by rewrite <- M1.
    + exists i1. split; [done|]. split; [done|]. split; [done|]. split; [apply mark_dirty_dirty|done].
    + simpl. congruence.
    + simpl. by rewrite Hdev2.
Qed.

(** a new inode has no data *)
Lemma new_tree D t B : s32_ok t -> ftree D (set_i_type t dinode_zero) B ∅ /\ sized D (set_i_type t dinode_zero).
Proof.
  intros Ht. set (d := set_i_type t dinode_zero).
  assert (Hd : dinode_ok d) 
    by (destruct dinode_zero_ok; split; [done..| |done]; by repeat apply Forall_cons_2).
  assert (Hs : forall s, slot_ok s -> slot_val D d s = 0).
  { intros s Hs. destruct s as [i| |j| |i|i j]; try reflexivity. unfold slot_val, direct_at.
    change (i_block_nr d) with (replicate 10 0).
    by destruct (Z.to_nat i) as [|[|[|[|[|[|[|[|[|[|[|n]]]]]]]]]]]. }
  split.
  - split; try done. split; [set_solver|..].
    + intros s Hok. left. by apply Hs.
    + set_solver.
    + intros s s' Hok _ _ Hne. by rewrite Hs in Hne.
  - assert (Hp : forall n, 0 <= n < MAX_BLOCK_NR -> phys D d n = 0) by (intros n Hn; apply Hs, slot_of_ok; lia).
    split; try done.
    intros n Hn Hne. by rewrite Hp in Hne.
Qed.

(** ** A concrete file system: one megabyte, with one empty file *)

Definition blank_fs : fs :=
  mk_fs (mk_device ∅ 0 (DATA_START + BLOCK_BITS) 0) (mk_dsuper 0 0 0 0 0 0 0) None None None ∅ 1 [] 0 0 [].
Definition example_run : M fs (Z * ptr) :=
  make_fs 1;; testfs_init_super_block;; testfs_create_inode I_FILE.
Definition example : Z * ptr * fs :=
  match example_run blank_fs with Val x => x | Fault _ => (0, 0, blank_fs) end.
Definition example_fs : fs := example.2.
Definition example_p : ptr := example.1.2.

Lemma example_spec : exists i, fs_heap example_fs = {[example_p := i]} /\ i_nr i = 0 /\ i_count i = 1 /\
  in_ i = set_i_type I_FILE dinode_zero /\ live example_fs {[0]} ∅ /\ idle example_fs {[0]} /\
  max_fs_blocks (fs_sb example_fs) = 128.
Proof.
  assert (H : wp example_run blank_fs (fun '(r, p) w => exists i, fs_heap w = {[p := i]} /\ i_nr i = 0 /\ i_count i = 1 /\
    in_ i = set_i_type I_FILE dinode_zero /\ live w {[0]} ∅ /\ idle w {[0]} /\ max_fs_blocks (fs_sb w) = 128)).
  { unfold example_run.
    pose proof (mkfs_mount_spec blank_fs 1 ltac:(change max_fs_size_mb with 8192; lia) eq_refl (Z.le_refl _) eq_refl) as Hm.
    apply wp_bind_inv in Hm. apply wp_bind. eapply wp_mono; [exact Hm|]. clear Hm. cbv beta. intros _ w1 Hm.
    apply wp_bind. eapply wp_mono; [exact Hm|]. clear Hm. cbv beta. intros _ w2 (_ & Hl & Hh & Hmax & Hz).
    assert (Hidle : idle w2 ∅).
    { intros nr Hn _. split; [|by apply Hz]. intros q (i & Hi & _). by rewrite Hh, lookup_empty in Hi. }
    eapply wp_mono; [by apply (create_inode_spec w2 ∅ ∅ I_FILE)|].
    intros [r p] w3 [(_ & nr & Hc)|(_ & _ & Hall & _)]; [|exfalso; specialize (Hall 0 ltac:(change NR_INODES with 16384; lia)); set_solver].
    destruct Hc as [C1 C2 C3 C4 C5 C6 (i & Hi & Hnr & Hcnt & _ & Hin) C8 C9].
    assert (nr = 0) as ->.
    { destruct (decide (nr = 0)) as [|Hne]; [done|]. specialize (C3 0 ltac:(lia)). set_solver. }
    assert (HI : {[0]} ∪ ∅ = ({[0]} : gset Z)) by set_solver. rewrite HI in *.
    exists i. split; [by rewrite Hi, Hh|]. split; [done|]. split; [done|]. split; [done|]. split; [exact C4|].
    split; [exact C5|]. rewrite C8, Hmax. done. }
  apply wp_inv in H as ([r p] & w & Hrun & H). unfold example_fs, example_p, example. rewrite Hrun. exact H.
Qed.

#[global] Opaque example example_fs example_p.
