(* ===== verification/FileSpec.v ===== *)
(** * Files as byte strings

    [is_file w I B p i O c]: the inode [i] at [p] represents a file whose contents
    are the bytes [c] and whose blocks are [O].  Reading and writing a file through
    fs/read_write.c is reading and writing [c], a range that starts behind the end
    being filled with zeros, and no operation on one file is seen in another. *)

From stdpp Require Import base gmap list list_numbers strings.
From Stdlib Require Import ZArith Lia.
From S2P Require Import Prelude Words Bitmap Block FsState InodeHash Super Inode ReadWrite FileTree FileAlloc FileData FileFree MkfsSpec.
#[local] Open Scope Z_scope.

(** ** The specification *)

(** [src] written over [c] from [start] on *)
Definition write_at (c : list Z) (start : Z) (src : list Z) : list Z :=
  zsplice (c ++ zeros (Z.max 0 (start + zlen src - zlen c))) start src.

(** at most [n] bytes of [c] from [start] on *)
Definition read_at (c : list Z) (start n : Z) : list Z := zsub c start (Z.min n (zlen c - start)).

Lemma zlen_write_at c start src : 0 <= start -> zlen (write_at c start src) = Z.max (zlen c) (start + zlen src).
Proof.
  intros Hs. unfold write_at. pose proof (zlen_nonneg c). pose proof (zlen_nonneg src).
  rewrite zlen_zsplice; rewrite ?zlen_app, ?zlen_zeros by lia; lia.
Qed.

Lemma byte_at_write_at c start src k : 0 <= start -> 0 <= k ->
  byte_at (write_at c start src) k = if decide (start <= k < start + zlen src) then byte_at src (k - start) else byte_at c k.
Proof.
  intros Hs Hk. unfold write_at. pose proof (zlen_nonneg c). pose proof (zlen_nonneg src).
  rewrite byte_at_zsplice by (rewrite ?zlen_app, ?zlen_zeros by lia; lia).
  destruct (decide (start <= k < start + zlen src)); [done|]. rewrite byte_at_app by lia.
  destruct (decide (k < zlen c)); [done|]. by rewrite byte_at_zeros, byte_at_out by lia.
Qed.

(** ** The representation *)

Record is_file (w : fs) (I B : gset Z) (p : ptr) (i : inode) (O : gset Z) (c : list Z) : Prop := {
  if_heap : fs_heap w !! p = Some i;
  if_nr : i_nr i ∈ I /\ 0 <= i_nr i < NR_INODES;
  if_tree : ftree (fs_dev w) (in_ i) B O;
  if_sized : sized (fs_dev w) (in_ i);
  if_size : i_size (in_ i) = zlen c;
  if_byte : forall k, 0 <= k < MAX_FILE_SIZE -> fbyte (fs_dev w) (in_ i) k = byte_at c k;
}.

Lemma is_file_size w I B p i O c : is_file w I B p i O c -> zlen c <= MAX_FILE_SIZE.
Proof. intros []. destruct if_sized0 as [[_ ?] _ _ _]. lia. Qed.

Lemma is_file_bytes w I B p i O c off n : is_file w I B p i O c -> 0 <= off -> 0 <= n -> off + n <= zlen c ->
  fbytes (fs_dev w) (in_ i) off n = zsub c off n.
Proof.
  intros Hf Ho Hn Hon. pose proof (is_file_size _ _ _ _ _ _ _ Hf). destruct Hf. apply list_eq_bytes.
  - by rewrite zlen_fbytes, zlen_zsub.
  - intros k. rewrite zlen_fbytes by done. intros Hk. rewrite byte_at_fbytes, byte_at_zsub by lia. by apply if_byte0; lia.
Qed.

(** a file is only affected by changes of its own blocks *)
Lemma is_file_frame w w' I B I' B' p i O c : is_file w I B p i O c -> fs_heap w' !! p = Some i -> i_nr i ∈ I' ->
  (forall b, b ∈ O -> blk (fs_dev w') b = blk (fs_dev w) b) -> d_nr (fs_dev w) <= d_nr (fs_dev w') ->
  (forall b, b ∈ O -> (b - DATA_START) ∈ B') -> is_file w' I' B' p i O c.
Proof.
  intros [H1 [H2 H2'] H3 H4 H5 H6] Hp HI Hb Hd HB.
  assert (Hph : forall n, 0 <= n < MAX_BLOCK_NR -> phys (fs_dev w') (in_ i) n = phys (fs_dev w) (in_ i) n).
  { intros n Hn. by eapply phys_frame. }
  split; try done.
  - by eapply ftree_frame.
  - destruct H4 as [S1 S2 S3 S4]. split; try done. intros n Hn. rewrite Hph by done. by apply S2.
  - intros k Hk. rewrite <- H6 by done. unfold fbyte. f_equal. eapply fblock_frame; [done|done|].
    rewrite MAX_BLOCK_NR_val. rewrite MAX_FILE_SIZE_val in Hk. unfold BLOCK_SIZE. dlia.
Qed.

Lemma new_is_file w I B p i t : fs_heap w !! p = Some i -> i_nr i ∈ I -> 0 <= i_nr i < NR_INODES -> s32_ok t ->
  in_ i = set_i_type t dinode_zero -> is_file w I B p i ∅ [].
Proof.
  intros Hp HI Hn Ht Hi. destruct (new_tree (fs_dev w) t B Ht) as [H1 H2].
  assert (Hph : forall n, 0 <= n < MAX_BLOCK_NR -> phys (fs_dev w) (in_ i) n = 0).
  { intros n Hn'. destruct (decide (phys (fs_dev w) (in_ i) n = 0)) as [|Hne]; [done|].
    rewrite Hi in *. apply (sz_phys _ _ H2 n Hn') in Hne. unfold eblocks in Hne. simpl in Hne.
    change ((0 + BLOCK_SIZE - 1) / BLOCK_SIZE) with 0 in Hne. lia. }
  split; rewrite ?Hi; try done. intros k Hk. unfold fbyte, fblock. rewrite <- Hi, Hph.
  - simpl. unfold zero. rewrite byte_at_zeros. by rewrite byte_at_default, lookup_nil.
  - rewrite MAX_BLOCK_NR_val. rewrite MAX_FILE_SIZE_val in Hk. unfold BLOCK_SIZE. dlia.
Qed.

(** ** Reading and writing refine the specification *)

Section file.
Context (w : fs) (I B O : gset Z) (p : ptr) (i : inode) (c : list Z).
Hypothesis Hl : live w I B.
Hypothesis Hf : is_file w I B p i O c.

Lemma read_refines start n buf : 0 <= start < MAX_FILE_SIZE -> start <= zlen c -> 0 <= n < 2147483648 -> n <= zlen buf ->
  wp (testfs_read_data p buf start n) w (fun r w' =>
    r = (zlen (read_at c start n), zsplice buf 0 (read_at c start n)) /\ w' = w).
Proof.
  intros Hs Hsc Hn Hb. pose proof (is_file_size _ _ _ _ _ _ _ Hf) as Hmax. pose proof Hl as [Hr _].
  pose proof Hf as [H1 H2 H3 H4 H5 H6]. unfold read_at.
  eapply wp_mono; [apply (read_data_spec w I B O p i Hr H1 H3 start n buf); lia|].
  intros r w' [-> ->]. split; [|done]. rewrite H5, (is_file_bytes _ _ _ _ _ _ _ _ _ Hf), zlen_zsub; try done; lia.
Qed.

(** the state after a write: the file holds [c'], the other files are untouched *)
Record rewritten (w' : fs) (c' : list Z) : Prop := {
  rw_live : exists B' O' i', live w' I B' /\ is_file w' I B' p i' O' c' /\
    i_nr i' = i_nr i /\ i_count i' = i_count i /\ is_dirty i' = true /\
    forall q j O2 c2, q <> p -> is_file w I B q j O2 c2 -> O ## O2 -> is_file w' I B' q j O2 c2 /\ O' ## O2;
  rw_max : max_fs_blocks (fs_sb w') = max_fs_blocks (fs_sb w);
  rw_out : fs_out w' = fs_out w;
}.

(** what [testfs_write_data] leaves is the file with the bytes written *)
Lemma written_is_file start len buf w' i' B' O' : 0 <= start -> 0 < len < 2147483648 -> start + len <= MAX_FILE_SIZE ->
  len <= zlen buf -> written w I B O p i buf start len w' i' B' O' -> is_file w' I B' p i' O' (write_at c start (zsub buf 0 len)).
Proof.
  intros Hs Hlen Hend Hb [W1 W2 W3 W4 W5 W6 W7 W8 W9 W10 W11 W12]. pose proof (is_file_size _ _ _ _ _ _ _ Hf) as Hmax.
  pose proof Hf as [H1 H2 H3 H4 H5 H6]. assert (Hz : zlen (zsub buf 0 len) = len) by (apply zlen_zsub; lia).
  pose proof (zlen_nonneg c). split.
  - by eapply file_step_lookup.
  - by rewrite (st_nr _ _ _ _ _ W2).
  - done.
  - apply W10; [lia|done].
  - rewrite W8, zlen_write_at, Hz, decide_True by lia. lia.
  - intros k Hk. rewrite W9, byte_at_write_at by lia. rewrite H6 by done. done.
Qed.

Lemma write_refines start len buf : 0 <= start -> 0 < len < 2147483648 -> start + len <= MAX_FILE_SIZE ->
  len <= zlen buf -> Z.of_nat (size B) + 3 * (len / BLOCK_SIZE + 2) <= max_fs_blocks (fs_sb w) ->
  wp (testfs_write_data p buf start len) w (fun r w' =>
    r = len /\ rewritten w' (write_at c start (zsub buf 0 len))).
Proof.
  intros Hs Hlen Hend Hb Hroom. pose proof (is_file_size _ _ _ _ _ _ _ Hf) as Hmax. pose proof Hl as [Hr _].
  pose proof Hf as [H1 H2 H3 H4 H5 H6].
  eapply wp_mono.
  { apply (write_data_spec w I B O p i Hr H1 H3 buf start len); try done; [lia|lia|apply H4]. }
  intros r w' (-> & i' & B' & O' & Hw). pose proof (written_is_file _ _ _ _ _ _ _ Hs Hlen Hend Hb Hw) as Hf'.
  destruct Hw as [W1 W2 W3 W4 W5 W6 W7 W8 W9 W10 W11 W12]. split; [done|]. split; [|apply W2|apply W2].
  exists B', O', i'. split; [by eapply live_step|]. split; [done|].
  split; [apply W2|]. split; [apply W2|]. split; [exact W12|]. intros q j O2 c2 Hq Hj Hdis. pose proof Hj as [J1 [J2 J2'] J3 _ _ _].
  assert (Hdis' : O' ## O2).
  { intros b Hb1 Hb2. destruct (decide (b ∈ O)) as [Hin|Hnot]; [by apply (Hdis b)|].
    apply (W6 b Hb1 Hnot). by apply (tr_in _ _ _ _ J3). }
  split; [|done]. eapply is_file_frame; [exact Hj| |done| |apply W7|].
  - rewrite (st_heap _ _ _ _ _ W2), lookup_insert_ne by done. done.
  - intros b Hb2. apply (df_blk _ _ _ W7). intros [Hm|Hin]; [|by apply (Hdis' b)].
    pose proof (tr_pos _ _ _ _ J3 b Hb2). unfold is_meta, DATA_START, INODE_START in *. unfold NR_INODE_BLOCKS in *. lia.
  - intros b Hb2. apply W4. by apply (tr_in _ _ _ _ J3).
Qed.
End file.

(** ** Removing a file leaves the others alone *)

Lemma remove_refines w I B O p i c : live w I B -> is_file w I B p i O c ->
  wp (testfs_remove_inode p) w (fun _ w' => exists B', live w' (I ∖ {[i_nr i]}) B' /\
    (forall k, k ∈ B' <-> k ∈ B /\ (DATA_START + k ∉ O)) /\ disk_inode (fs_dev w') (i_nr i) = dinode_zero /\
    (i_count i = 1 -> fs_heap w' !! p = None) /\
    forall q j O2 c2, q <> p -> is_file w I B q j O2 c2 -> O ## O2 -> is_file w' (I ∖ {[i_nr i]}) B' q j O2 c2).
Proof.
  intros Hl [H1 [H2 H2'] H3 H4 H5 H6]. eapply wp_mono; [by apply (remove_inode_spec w I B O p i)|].
  intros _ w' [(B' & R1 & R2) R3 (j0 & _ & _ & _ & _ & R4) R5 R6 R7]. exists B'. split; [done|]. split; [done|].
  split; [done|]. split.
  { intros Hc. rewrite R4, decide_True by done. apply lookup_delete_eq. }
  intros q j O2 c2 Hq Hj Hdis. pose proof Hj as [J1 [J2 J2'] J3 _ _ _].
  assert (Hne : i_nr j <> i_nr i).
  { intros E. pose proof Hl as [_ [t Hc]]. apply Hq. by eapply (cache_uniq w t Hc). }
  eapply is_file_frame; [exact Hj| |set_solver| |apply R5|].
  - rewrite R4. destruct (decide (i_count i = 1)); [by rewrite lookup_delete_ne|by rewrite lookup_insert_ne].
  - intros b Hb. apply (df_blk _ _ _ R5). pose proof (tr_pos _ _ _ _ J3 b Hb).
    pose proof (inode_block_bound _ H2'). intros [Hm|[Hin|E]]; [|by apply (Hdis b)|lia].
    unfold is_meta, DATA_START, INODE_START in *. unfold NR_INODE_BLOCKS in *. lia.
  - intros b Hb. apply R2. split; [by apply (tr_in _ _ _ _ J3)|]. replace (DATA_START + (b - DATA_START)) with b by lia.
    intros Hin. by apply (Hdis b).
Qed.

(** ** The concrete file system of MkfsSpec, and a file with data in it *)

Lemma example_file : exists i, live example_fs {[0]} ∅ /\ is_file example_fs {[0]} ∅ example_p i ∅ [] /\
  idle example_fs {[0]} /\ max_fs_blocks (fs_sb example_fs) = 128 /\
  i_count i = 1 /\ i_nr i = 0.
Proof.
  destruct example_spec as (i & Hh & Hn & Hc & Hin & Hl & Hi & Hm). exists i. split; [exact Hl|]. split; [|split; [exact Hi|split; [exact Hm|by split]]].
  apply (new_is_file _ _ _ _ _ I_FILE);
    [rewrite Hh; apply lookup_singleton_eq|rewrite Hn; apply elem_of_singleton; reflexivity| |unfold s32_ok, I_FILE; lia|exact Hin].
  rewrite Hn. change NR_INODES with 16384. lia.
Qed.

Definition hello : list Z := [104; 101; 108; 108; 111].
Definition written_run : M fs Z := testfs_write_data example_p hello 3 5.
Definition written_fs : fs := match written_run example_fs with Val (_, w) => w | Fault _ => example_fs end.

Lemma written_file_count : exists i O B, live written_fs {[0]} B /\
  is_file written_fs {[0]} B example_p i O [0; 0; 0; 104; 101; 108; 108; 111] /\ i_nr i = 0 /\ i_count i = 1 /\
  is_dirty i = true.
Proof.
  destruct example_file as (i & Hl & Hf & _ & Hm & Hc & Hn).
  pose proof (write_refines example_fs {[0]} ∅ ∅ example_p i [] Hl Hf 3 5 hello) as Hw.
  specialize (Hw ltac:(lia) ltac:(lia) ltac:(rewrite MAX_FILE_SIZE_val; lia) ltac:(vm_compute; discriminate)
    ltac:(rewrite Hm; vm_compute; discriminate)).
  apply wp_inv in Hw as (r & w & Hrun & _ & [(B' & O' & i' & Hl' & Hf' & Hn' & Hc' & Hd' & _) _ _]).
  unfold written_fs, written_run. rewrite Hrun. exists i', O', B'.
  split; [exact Hl'|].
  replace [0; 0; 0; 104; 101; 108; 108; 111] with (write_at [] 3 (zsub hello 0 5)) by (vm_compute; reflexivity).
  split; [exact Hf'|]. split; [rewrite Hn'; exact Hn|]. split; [rewrite Hc'; exact Hc|exact Hd'].
Qed.

Lemma written_file : exists i O B, live written_fs {[0]} B /\
  is_file written_fs {[0]} B example_p i O [0; 0; 0; 104; 101; 108; 108; 111].
Proof. destruct written_file_count as (i & O & B & H1 & H2 & _). exists i, O, B. split; [exact H1|exact H2]. Qed.

#[global] Opaque written_fs.

(** a file without data has no blocks; a byte that is not zero is in a block *)
Lemma empty_block w I B p i n : is_file w I B p i ∅ [] -> 0 <= n < MAX_BLOCK_NR -> fblock (fs_dev w) (in_ i) n = zero.
Proof.
  intros [_ _ H3 _ _ _] Hn. unfold fblock. destruct (Z.ltb_spec 0 (phys (fs_dev w) (in_ i) n)); [|done].
  exfalso. assert (Hin : phys (fs_dev w) (in_ i) n ∈ (∅ : gset Z)) by (eapply phys_elem; [done|done|lia]). set_solver.
Qed.

Lemma written_block w I B p i O c k : is_file w I B p i O c -> 0 <= k < MAX_FILE_SIZE -> byte_at c k <> 0 -> exists b, b ∈ B.
Proof.
  intros [_ _ H3 _ _ H6] Hk Hne. rewrite <- H6 in Hne by done. unfold fbyte, fblock in Hne.
  destruct (Z.ltb_spec 0 (phys (fs_dev w) (in_ i) (k / BLOCK_SIZE))).
  - exists (phys (fs_dev w) (in_ i) (k / BLOCK_SIZE) - DATA_START). apply (tr_in _ _ _ _ H3), (phys_elem _ _ B O); [done| |lia].
    rewrite MAX_BLOCK_NR_val. rewrite MAX_FILE_SIZE_val in Hk. unfold BLOCK_SIZE. dlia.
  - unfold zero in Hne. by rewrite byte_at_zeros in Hne.
Qed.

(** ** Files survive unmounting *)

(** the representation of a file depends on its on-disk inode, its number and the
    device only *)
Lemma is_file_copy w w' I B p q i j O c : is_file w I B p i O c -> fs_heap w' !! q = Some j -> in_ j = in_ i ->
  i_nr j = i_nr i -> (forall b, b ∈ O -> blk (fs_dev w') b = blk (fs_dev w) b) -> d_nr (fs_dev w) <= d_nr (fs_dev w') ->
  is_file w' I B q j O c.
Proof.
  intros Hf Hq Hin Hn Hb Hd.
  assert (Hf' : is_file (with_heap (<[p := i]> (fs_heap w')) w') I B p i O c).
  { eapply is_file_frame; [exact Hf|apply lookup_insert_eq|apply Hf|exact Hb|exact Hd|apply (tr_in _ _ _ _ (if_tree _ _ _ _ _ _ _ Hf))]. }
  destruct Hf' as [_ F2 F3 F4 F5 F6]. split; rewrite ?Hin, ?Hn; done.
Qed.

Lemma sync_refines w I B O p i c : live w I B -> is_file w I B p i O c -> is_dirty i = true ->
  wp (testfs_sync_inode p) w (fun _ w' => live w' I B /\ (exists j, is_file w' I B p j O c /\ is_dirty j = false /\
      in_ j = in_ i /\ i_nr j = i_nr i) /\
    disk_inode (fs_dev w') (i_nr i) = in_ i /\
    forall nr, 0 <= nr < NR_INODES -> nr <> i_nr i -> disk_inode (fs_dev w') nr = disk_inode (fs_dev w) nr).
Proof.
  intros Hl Hf Hd. pose proof Hf as [F1 [F2 F2'] F3 F4 F5 F6].
  eapply wp_mono; [apply (sync_inode_spec w I B p i Hl F1 F2' (tr_d _ _ _ _ F3))|].
  intros _ w' (S1 & _ & _ & _ & S5 & (j & S6 & S7 & S8 & S9 & S10) & S11 & S12 & _).
  split; [done|]. split; [|by split; [apply S12|]]. exists j. split; [|done].
  eapply (is_file_copy w); [exact Hf|by rewrite S6, lookup_insert_eq|done|done| |apply S5].
  intros b Hb. apply (df_blk _ _ _ S5). pose proof (tr_pos _ _ _ _ F3 b Hb). pose proof (inode_block_bound _ F2'). lia.
Qed.

Lemma mount_get w I B O p i c w0 : live w I B -> is_file w I B p i O c -> disk_inode (fs_dev w) (i_nr i) = in_ i ->
  fs_dev w0 = fs_dev w -> fs_host w0 = [] -> fs_heap w0 = ∅ ->
  wp (testfs_init_super_block;; testfs_get_inode (i_nr i)) w0 (fun q w' => live w' I B /\ exists j, is_file w' I B q j O c).
Proof.
  intros [Hr _] Hf Hdisk Hd Hh He. pose proof Hf as [F1 [F2 F2'] F3 F4 F5 F6].
  destruct (fs_rep_disk w I B Hr) as (iws & bws & Hok & _ & _ & HI & HB). rewrite <- Hd in Hok.
  apply wp_bind. eapply wp_mono; [by apply (mount_spec w0 _ _ _ Hok)|].
  intros r w1 (-> & Hr1 & _ & Hd1 & He1 & _ & _ & _ & _ & _ & Ht1). rewrite HI, HB in Hr1.
  assert (Hl1 : live w1 I B) by (split; [done|]; eexists; apply cache_empty; [congruence|exact Ht1]).
  eapply wp_mono; [by apply (get_inode_spec w1 I B (i_nr i))|].
  intros q w2 (j & Hl2 & Hd2 & _ & Hgot & Hh2 & _). split; [done|]. exists j.
  assert (Hdev : fs_dev w2 = fs_dev w) by congruence.
  destruct Hgot as [(j' & Hj' & _)|(_ & _ & ->)].
  { rewrite He1, He in Hj'. by rewrite lookup_empty in Hj'. }
  eapply (is_file_copy w); [exact Hf|by rewrite Hh2, lookup_insert_eq| |done|by rewrite Hdev|by rewrite Hdev].
  simpl. by rewrite Hd1, Hd.
Qed.
