(* ===== verification/FileMap.v ===== *)
(** * All the files of a file system

    [has_file w I B nr d O c]: inode number [nr] is in use, its current inode,
    wherever it is, in memory or on the disk, is [d], and represents a file with
    the contents [c] in the blocks [O].  [keeps X O O' ...]: an operation that works
    on the inodes [X], and on a file whose blocks are [O] before and [O'] after it,
    leaves every file of another inode alone. *)

From stdpp Require Import base gmap list list_numbers strings.
From Stdlib Require Import ZArith Lia.
From S2P Require Import Prelude Words Bitmap Block FsState InodeHash Super Inode ReadWrite FileTree FileAlloc FileData FileFree MkfsSpec FileSpec.
#[local] Open Scope Z_scope.

(** ** Files by number *)

(** the tree of an inode holds the bytes [c] in the blocks [O] *)
Record data_at (D : device) (d : dinode) (B O : gset Z) (c : list Z) : Prop := {
  da_tree : ftree D d B O;
  da_sized : sized D d;
  da_size : i_size d = zlen c;
  da_byte : forall k, 0 <= k < MAX_FILE_SIZE -> fbyte D d k = byte_at c k;
}.

(** the inode [nr] as it is now *)
Definition now (w : fs) (nr : Z) (d : dinode) : Prop :=
  (exists q i, fs_heap w !! q = Some i /\ i_nr i = nr /\ in_ i = d) \/
  ((forall q, ~ cached w nr q) /\ disk_inode (fs_dev w) nr = d).

Record has_file (w : fs) (I B : gset Z) (nr : Z) (d : dinode) (O : gset Z) (c : list Z) : Prop := {
  hf_nr : nr ∈ I /\ 0 <= nr < NR_INODES;
  hf_now : now w nr d;
  hf_data : data_at (fs_dev w) d B O c;
}.

Lemma is_file_split w I B p i O c : is_file w I B p i O c <->
  fs_heap w !! p = Some i /\ (i_nr i ∈ I /\ 0 <= i_nr i < NR_INODES) /\ data_at (fs_dev w) (in_ i) B O c.
Proof.
  split; [intros [H1 H2 H3 H4 H5 H6]|intros (H1 & H2 & [H3 H4 H5 H6])]; [|by split].
  split; [done|]. by split.
Qed.

Lemma file_has w I B p i O c : is_file w I B p i O c -> has_file w I B (i_nr i) (in_ i) O c.
Proof. intros (H1 & H2 & H3)%is_file_split. split; [done| |done]. left. by exists p, i. Qed.

(** the cached inode is the current one *)
Lemma has_cached w I B nr d O c q i : live w I B -> has_file w I B nr d O c -> fs_heap w !! q = Some i ->
  i_nr i = nr -> is_file w I B q i O c /\ in_ i = d.
Proof.
  intros [_ [t Hc]] [H1 H2 H3] Hq Hn. assert (Hd : in_ i = d).
  { destruct H2 as [(q' & i' & Hq' & Hn' & Hd')|[Hno _]].
    - assert (q' = q) as -> by (eapply (cache_uniq w t Hc); [done|done|congruence]). congruence.
    - exfalso. apply (Hno q). by exists i. }
  split; [|done]. apply is_file_split. rewrite Hn, Hd. done.
Qed.

(** opening a file by its number *)
Lemma open_file w I B nr d O c : live w I B -> has_file w I B nr d O c ->
  wp (testfs_get_inode nr) w (fun p w' => exists i, live w' I B /\ fs_dev w' = fs_dev w /\ fs_sb w' = fs_sb w /\
    fs_out w' = fs_out w /\ got_inode w nr p i /\ fs_heap w' = <[p := i]> (fs_heap w) /\
    is_file w' I B p i O c /\ in_ i = d /\ i_nr i = nr).
Proof.
  intros Hl [[H1 H1'] H2 H3]. pose proof Hl as [_ [t Hc]]. eapply wp_mono; [by apply (get_inode_spec w I B nr)|].
  intros p w' (i & G1 & G2 & G3 & G4 & G5 & G6 & _). exists i.
  assert (Hi : in_ i = d /\ i_nr i = nr).
  { destruct G4 as [(j & Hj & Hjn & ->)|(Hp & Hno & ->)]; cbn [in_ i_nr set_i_count].
    - split; [|done]. destruct H2 as [(q & k & Hq & Hqn & <-)|[Hno _]].
      + assert (p = q) as -> by (eapply (cache_uniq w t Hc); [done|done|congruence]). congruence.
      + exfalso. apply (Hno p). by exists j.
    - split; [|done]. destruct H2 as [(q & k & Hq & Hqn & _)|[_ <-]]; [|done]. exfalso. apply (Hno q). by exists k. }
  destruct Hi as [Hid Hin]. split_and!; try done. apply is_file_split. rewrite G5, lookup_insert_eq, Hid, Hin, G2. done.
Qed.

(** ** What other files see of an operation *)

Lemma data_frame D D' d B B' O c : data_at D d B O c -> (forall b, b ∈ O -> blk D' b = blk D b) -> d_nr D <= d_nr D' ->
  (forall b, b ∈ O -> (b - DATA_START) ∈ B') -> data_at D' d B' O c.
Proof.
  intros [H3 H4 H5 H6] Hb Hd HB.
  assert (Hph : forall n, 0 <= n < MAX_BLOCK_NR -> phys D' d n = phys D d n) by (intros n Hn; by eapply phys_frame).
  split; try done.
  - by eapply ftree_frame.
  - destruct H4 as [S1 S2 S3 S4]. split; try done. intros n Hn. rewrite Hph by done. by apply S2.
  - intros k Hk. rewrite <- H6 by done. unfold fbyte. f_equal. eapply fblock_frame; [done|done|].
    rewrite MAX_BLOCK_NR_val. rewrite MAX_FILE_SIZE_val in Hk. unfold BLOCK_SIZE. dlia.
Qed.

Lemma data_new D t B : s32_ok t -> data_at D (set_i_type t dinode_zero) B ∅ [].
Proof.
  intros Ht. destruct (new_tree D t B Ht) as [H1 H2]. split; try done.
  intros k Hk. unfold fbyte, fblock.
  assert (Hn : 0 <= k / BLOCK_SIZE < MAX_BLOCK_NR).
  { rewrite MAX_BLOCK_NR_val. rewrite MAX_FILE_SIZE_val in Hk. unfold BLOCK_SIZE. dlia. }
  destruct (Z.ltb_spec 0 (phys D (set_i_type t dinode_zero) (k / BLOCK_SIZE))) as [Hp|].
  - exfalso. pose proof (phys_elem _ _ _ _ _ H1 Hn ltac:(lia)). set_solver.
  - unfold zero. rewrite byte_at_zeros. by rewrite byte_at_default, lookup_nil.
Qed.

Definition keeps (X O O' : gset Z) (w : fs) (I B : gset Z) (w' : fs) (I' B' : gset Z) : Prop :=
  forall nr d O2 c, (nr ∉ X) -> has_file w I B nr d O2 c -> O ## O2 -> has_file w' I' B' nr d O2 c /\ O' ## O2.

Lemma keeps_refl X O w I B : keeps X O O w I B w I B.
Proof. by intros nr d O2 c _ H. Qed.

Lemma keeps_trans X O1 O2 O3 w1 I1 B1 w2 I2 B2 w3 I3 B3 : keeps X O1 O2 w1 I1 B1 w2 I2 B2 ->
  keeps X O2 O3 w2 I2 B2 w3 I3 B3 -> keeps X O1 O3 w1 I1 B1 w3 I3 B3.
Proof. intros H1 H2 nr d Oo c Hn Hf Hd. destruct (H1 nr d Oo c Hn Hf Hd) as [Hf' Hd']. by apply H2. Qed.

Lemma keeps_more X Y E O O' w I B w' I' B' : keeps X O O' w I B w' I' B' -> X ⊆ Y ->
  keeps Y (O ∪ E) (O' ∪ E) w I B w' I' B'.
Proof.
  intros H Hs nr d O2 c Hn Hf Hd. destruct (H nr d O2 c) as [Hf' Hd']; [set_solver|done|set_solver|].
  split; [done|set_solver].
Qed.

(** the inodes in memory of other files are the same ones *)
Definition mem_others (X : gset Z) (w w' : fs) : Prop :=
  forall q i, (i_nr i ∉ X) -> (fs_heap w !! q = Some i <-> fs_heap w' !! q = Some i).

Lemma mem_others_insert X w w' p i : fs_heap w' = <[p := i]> (fs_heap w) -> i_nr i ∈ X ->
  (forall j, fs_heap w !! p = Some j -> i_nr j ∈ X) -> mem_others X w w'.
Proof.
  intros Hh Hi Hj q k Hk. rewrite Hh. destruct (decide (q = p)) as [->|Hq]; [|by rewrite lookup_insert_ne].
  rewrite lookup_insert_eq. split; [by intros ?%Hj|]. by intros [= ->].
Qed.

Lemma mem_others_delete X w w' p : fs_heap w' = delete p (fs_heap w) ->
  (forall j, fs_heap w !! p = Some j -> i_nr j ∈ X) -> mem_others X w w'.
Proof.
  intros Hh Hj q k Hk. rewrite Hh. destruct (decide (q = p)) as [->|Hq]; [|by rewrite lookup_delete_ne].
  rewrite lookup_delete_eq. split; [by intros ?%Hj|done].
Qed.

(** nothing else in memory, and no other inode on the disk, changes *)
Record local (X : gset Z) (w w' : fs) : Prop := {
  lo_mem : mem_others X w w';
  lo_disk : forall nr, 0 <= nr < NR_INODES -> (nr ∉ X) -> disk_inode (fs_dev w') nr = disk_inode (fs_dev w) nr;
}.

Lemma local_trans X w1 w2 w3 : local X w1 w2 -> local X w2 w3 -> local X w1 w3.
Proof.
  intros [M1 D1] [M2 D2]. split.
  - intros q i Hi. rewrite (M1 q i Hi). by apply M2.
  - intros nr Hn Hx. by rewrite D2, D1.
Qed.

Lemma local_more X Y w w' : local X w w' -> X ⊆ Y -> local Y w w'.
Proof. intros [M D] H. split; [intros q i Hi; apply M; set_solver|intros nr Hn Hx; apply D; [done|set_solver]]. Qed.

Lemma local_now X w w' nr d : local X w w' -> (nr ∉ X) -> 0 <= nr < NR_INODES -> now w nr d -> now w' nr d.
Proof.
  intros [Hm Hd] Hn Hr [(q & i & Hq & Hqn & Hqd)|[Hno Hdi]]; [left|right].
  - exists q, i. split; [|done]. apply Hm; [by rewrite Hqn|done].
  - split; [|by rewrite Hd]. intros q (i & Hi & Hin). apply (Hno q). exists i. split; [|done]. apply Hm; [by rewrite Hin|done].
Qed.

Lemma local_uncached X w w' nr : local X w w' -> (nr ∉ X) -> (forall q, ~ cached w nr q) -> forall q, ~ cached w' nr q.
Proof.
  intros [Hm _] Hn Hno q (i & Hi & Hin). apply (Hno q). exists i. split; [|done]. apply Hm; [by rewrite Hin|done].
Qed.

Lemma local_idle X w w' I I' : local X w w' -> X ⊆ I' -> I ⊆ I' -> idle w I -> idle w' I'.
Proof.
  intros Hl HX HI Hi nr Hn Hnot. destruct (Hi nr Hn) as [H1 H2]; [set_solver|]. split.
  - eapply local_uncached; [exact Hl|set_solver|done].
  - by rewrite (lo_disk _ _ _ Hl) by (done || set_solver).
Qed.

(** the blocks that an operation on such a file may change *)
Definition touches (O : gset Z) (c : Z) : Prop := c < DATA_START \/ c ∈ O.

Lemma keeps_intro X O O' w I B w' I' B' : local X w w' ->
  (forall nr, nr ∈ I -> (nr ∉ X) -> nr ∈ I') ->
  dev_frame (touches (O ∪ O')) (fs_dev w) (fs_dev w') ->
  (forall b, b ∈ O' -> (b ∉ O) -> (b - DATA_START ∉ B)) ->
  (forall k, k ∈ B -> (DATA_START + k ∉ O) -> k ∈ B') -> keeps X O O' w I B w' I' B'.
Proof.
  intros Hlo HI Hdev Hfresh HB nr d O2 c Hn [[H1 H1'] H2 H3] Hdis. pose proof H3 as [H4 _ _ _].
  assert (Hdis' : O' ## O2).
  { intros b Hb1 Hb2. destruct (decide (b ∈ O)) as [Hin|Hnot]; [by apply (Hdis b)|].
    apply (Hfresh b Hb1 Hnot). by apply (tr_in _ _ _ _ H4). }
  split; [|done]. split; [auto|by eapply local_now; eauto|]. eapply data_frame; [exact H3| |apply Hdev|].
  - intros b Hb. apply (df_blk _ _ _ Hdev). pose proof (tr_pos _ _ _ _ H4 b Hb). intros [?|[?|?]%elem_of_union]; [lia| |].
    + by apply (Hdis b).
    + by apply (Hdis' b).
  - intros b Hb. apply HB; [by apply (tr_in _ _ _ _ H4)|]. replace (DATA_START + (b - DATA_START)) with b by lia.
    intros ?. by apply (Hdis b).
Qed.

Lemma meta_touches O c : is_meta c -> touches O c.
Proof. unfold is_meta, touches, INODE_START, DATA_START. lia. Qed.

Lemma inode_touches O nr : 0 <= nr < NR_INODES -> touches O (inode_block nr).
Proof. intros Hn. left. pose proof (inode_block_bound nr Hn). lia. Qed.

(** ** The operations *)

(** [effect X O O' ...]: an operation on the inodes [X] that keeps other files *)
Record effect (X O O' : gset Z) (w : fs) (I B : gset Z) (w' : fs) (I' B' : gset Z) : Prop := {
  ef_live : live w' I' B';
  ef_local : local X w w';
  ef_keeps : keeps X O O' w I B w' I' B';
}.

Lemma effect_trans X O1 O2 O3 w1 I1 B1 w2 I2 B2 w3 I3 B3 : effect X O1 O2 w1 I1 B1 w2 I2 B2 ->
  effect X O2 O3 w2 I2 B2 w3 I3 B3 -> effect X O1 O3 w1 I1 B1 w3 I3 B3.
Proof. intros [_ L1 K1] [L L2 K2]. split; [done|by eapply local_trans|by eapply keeps_trans]. Qed.

Lemma effect_more X Y E O O' w I B w' I' B' : effect X O O' w I B w' I' B' -> X ⊆ Y ->
  effect Y (O ∪ E) (O' ∪ E) w I B w' I' B'.
Proof. intros [L1 L2 K] H. split; [done|by eapply local_more|by eapply keeps_more]. Qed.

Lemma effect_on X Y O w I B w' I' B' : effect X ∅ ∅ w I B w' I' B' -> X ⊆ Y -> effect Y O O w I B w' I' B'.
Proof. intros H Hs. pose proof (effect_more _ Y O _ _ _ _ _ _ _ _ H Hs) as H'. by rewrite (union_empty_l_L O) in H'. Qed.

(** a file was written *)
Lemma written_effect w I B O p i buf start len w' i' B' O' : live w I B -> fs_heap w !! p = Some i ->
  written w I B O p i buf start len w' i' B' O' -> effect {[i_nr i]} O O' w I B w' I B'.
Proof.
  intros Hl Hp Hw. pose proof (wr_step _ _ _ _ _ _ _ _ _ _ _ _ _ Hw) as Hs. pose proof (wr_dev _ _ _ _ _ _ _ _ _ _ _ _ _ Hw) as Hd.
  pose proof (wr_tree _ _ _ _ _ _ _ _ _ _ _ _ _ Hw) as Ht.
  assert (Hlo : local {[i_nr i]} w w').
  { split.
    - eapply mem_others_insert; [apply Hs|rewrite (st_nr _ _ _ _ _ Hs); set_solver|]. intros j Hj. rewrite Hp in Hj. injection Hj as ->. set_solver.
    - intros nr Hn _. eapply disk_inode_frame; [exact Hd|done|]. intros c [Hm|Hc]; [by apply not_meta_block|right].
      apply (tr_pos _ _ _ _ Ht c Hc). }
  split; [eapply live_step; [exact Hl|done|done|apply Hw]|done|]. apply keeps_intro; [done|done| | |].
  - eapply dev_frame_weaken; [exact Hd|]. intros c [Hm|Hc]; [by apply meta_touches|right; set_solver].
  - apply (wr_fresh _ _ _ _ _ _ _ _ _ _ _ _ _ Hw).
  - intros k Hk _. by apply (wr_B _ _ _ _ _ _ _ _ _ _ _ _ _ Hw).
Qed.

(** an inode was created *)
Lemma created_effect w I B type p nr w' : created w I B type p nr w' -> effect {[nr]} ∅ ∅ w I B w' ({[nr]} ∪ I) B.
Proof.
  intros [C1 C2 C3 C4 C5 C6 (i & Hi & Hn & _) C8 C9].
  assert (Hlo : local {[nr]} w w').
  { split.
    - eapply mem_others_insert; [exact Hi|set_solver|]. intros j Hj. congruence.
    - intros n Hn' _. eapply disk_inode_frame; [exact C9|done|apply not_meta_block]. }
  split; [done|done|]. apply keeps_intro; [done|set_solver| |set_solver|done].
  eapply dev_frame_weaken; [exact C9|]. apply meta_touches.
Qed.

(** an inode is written back *)
Lemma sync_file w I B O p i c : live w I B -> is_file w I B p i O c ->
  wp (testfs_sync_inode p) w (fun _ w' => exists j, effect {[i_nr i]} ∅ ∅ w I B w' I B /\ fs_sb w' = fs_sb w /\
    is_file w' I B p j O c /\ in_ j = in_ i /\ i_nr j = i_nr i /\ i_count j = i_count i /\ is_dirty j = false /\
    fs_heap w' = <[p := j]> (fs_heap w) /\ (is_dirty i = true -> disk_inode (fs_dev w') (i_nr i) = in_ i)).
Proof.
  intros Hl (Hp & [HnI Hn] & Hda)%is_file_split. pose proof (da_tree _ _ _ _ _ Hda) as Ht.
  eapply wp_mono; [apply (sync_inode_spec w I B p i Hl Hp Hn (tr_d _ _ _ _ Ht))|].
  intros _ w' (S1 & S2 & _ & _ & S5 & (j & S6 & S7 & S8 & S9 & S10) & S11 & S12 & _). exists j.
  assert (Hlo : local {[i_nr i]} w w').
  { split.
    - eapply mem_others_insert; [exact S6|set_solver|]. intros k Hk. rewrite Hp in Hk. injection Hk as <-. set_solver.
    - intros nr Hnr Hne. apply S11; [done|set_solver]. }
  assert (Hdf : forall O', dev_frame (touches O') (fs_dev w) (fs_dev w')).
  { intros O'. eapply dev_frame_weaken; [exact S5|]. intros x ->. by apply inode_touches. }
  split; [|split; [done|split; [|done]]].
  - split; [done|done|]. apply keeps_intro; [done|done|apply Hdf|set_solver|done].
  - apply is_file_split. rewrite S6, lookup_insert_eq, S8, S9. split; [done|]. split; [done|].
    eapply data_frame; [exact Hda| |apply (df_nr _ _ _ S5)|apply (tr_in _ _ _ _ Ht)].
    intros b Hb. apply (df_blk _ _ _ (Hdf ∅)). pose proof (tr_pos _ _ _ _ Ht b Hb). intros [?|?]; [lia|set_solver].
Qed.

(** the last reference to an inode is dropped *)
Lemma put_file w I B p i : live w I B -> fs_heap w !! p = Some i -> is_dirty i = false -> i_count i = 1 ->
  wp (testfs_put_inode p) w (fun _ w' => effect {[i_nr i]} ∅ ∅ w I B w' I B /\ fs_sb w' = fs_sb w /\ fs_dev w' = fs_dev w /\
    fs_heap w' = delete p (fs_heap w) /\ forall q, ~ cached w' (i_nr i) q).
Proof.
  intros Hl Hp Hd Hc. eapply wp_mono; [by apply (put_inode_spec w I B p i)|].
  intros _ w' (H1 & H2 & H3 & _ & _ & H6). rewrite decide_True in H6 by done. split; [|split_and!; try done].
  - assert (Hlo : local {[i_nr i]} w w').
    { split; [|intros nr _ _; by rewrite H2]. eapply mem_others_delete; [exact H6|]. intros k Hk. rewrite Hp in Hk. injection Hk as <-. set_solver. }
    split; [done|done|]. apply keeps_intro; [done|done| |set_solver|done]. rewrite H2. apply dev_frame_refl.
  - intros q (j & Hj & Hn). rewrite H6 in Hj. apply lookup_delete_Some in Hj as [Hne Hj]. apply Hne.
    destruct Hl as [_ [t Ht]]. by eapply (cache_uniq w t Ht).
Qed.

(** a file is removed *)
Lemma removed_effect w I B O p i w' : fs_heap w !! p = Some i -> 0 <= i_nr i < NR_INODES -> i_count i = 1 ->
  removed w I B O p i w' -> exists B', (forall k, k ∈ B' <-> k ∈ B /\ (DATA_START + k ∉ O)) /\
    effect {[i_nr i]} O ∅ w I B w' (I ∖ {[i_nr i]}) B'.
Proof.
  intros Hp Hn Hc [(B' & R1 & R2) R3 (j0 & _ & _ & _ & _ & R4) R5 R6 R7]. rewrite decide_True in R4 by done.
  assert (Hlo : local {[i_nr i]} w w').
  { split.
    - eapply mem_others_delete; [exact R4|]. intros k Hk. rewrite Hp in Hk. injection Hk as <-. set_solver.
    - intros nr Hnr Hne. apply R6; [done|set_solver]. }
  exists B'. split; [done|]. split; [done|done|]. apply keeps_intro; [done|set_solver| |set_solver|].
  - eapply dev_frame_weaken; [exact R5|]. intros c [Hm|[Hin| ->]]; [by apply meta_touches|right; set_solver|by apply inode_touches].
  - intros k Hk Hno. by apply R2.
Qed.

Lemma effect_refl X O w I B : live w I B -> effect X O O w I B w I B.
Proof. intros Hl. split; [done|by split|apply keeps_refl]. Qed.

(** a new file is written back and closed *)
Lemma finish_file w I B O p i c : live w I B -> is_file w I B p i O c -> is_dirty i = true -> i_count i = 1 ->
  wp (testfs_sync_inode p;; testfs_put_inode p;; mret 0) w (fun r w' => r = 0 /\
    effect {[i_nr i]} ∅ ∅ w I B w' I B /\ fs_sb w' = fs_sb w /\ fs_heap w' = delete p (fs_heap w) /\
    has_file w' I B (i_nr i) (in_ i) O c /\ forall q, ~ cached w' (i_nr i) q).
Proof.
  intros Hl Hf Hd Hc. wsimpl. eapply wp_mono; [by apply (sync_file w I B O p i c)|].
  intros _ w1 (j & E1 & Hs1 & Hf1 & Hji & Hjn & Hjc & Hjd & Hh1 & Hdisk). wsimpl.
  pose proof (ef_live _ _ _ _ _ _ _ _ _ E1) as Hl1. apply is_file_split in Hf1 as (Hp1 & Hn1 & Hda).
  eapply wp_mono; [apply (put_file w1 I B p j Hl1 Hp1 Hjd)|]; [congruence|].
  intros _ w2 (E2 & Hs2 & Hd2 & Hh2 & Hno). wsimpl. rewrite Hjn in *. split; [done|]. split; [by eapply effect_trans|].
  split; [congruence|]. split; [by rewrite Hh2, Hh1, delete_insert_eq|]. split; [|done].
  split; [done| |by rewrite Hd2, <- Hji]. right. split; [done|]. rewrite Hd2. by apply Hdisk.
Qed.
