(* ===== verification/DirFiles.v ===== *)
(** * Directories in the file system

    [is_dir w I B p i O es]: the inode [i] at [p] is a directory with the entries
    [es].  Entries are added and removed without any effect on other files, and
    creating a file or directory combines this with a new inode. *)

From stdpp Require Import base gmap list list_numbers strings.
From Stdlib Require Import ZArith Lia.
From S2P Require Import Prelude Words Bitmap Block FsState InodeHash Super Inode ReadWrite Dir FileTree FileAlloc FileData FileFree DirSpec MkfsSpec FileSpec FileMap.
#[local] Open Scope Z_scope.

Record is_dir (w : fs) (I B : gset Z) (p : ptr) (i : inode) (O : gset Z) (es : list dirent) : Prop := {
  id_file : is_file w I B p i O (dir_bytes es);
  id_type : i_type (in_ i) = I_DIR;
  id_ok : Forall entry_ok es;
  id_max : zlen (dir_bytes es) < 1073741824;
}.

Lemma is_dir_rep w I B p i O es : is_dir w I B p i O es -> dir_rep (fs_dev w) (in_ i) es.
Proof.
  intros [Hf Ht Ho Hm]. pose proof (if_size _ _ _ _ _ _ _ Hf) as Hs. pose proof (zlen_nonneg (dir_bytes es)). split; try done; [lia|].
  rewrite (is_file_bytes _ _ _ _ _ _ _ _ _ Hf), Hs by lia. by apply zsub_all.
Qed.

Lemma has_dir w I B O p i es w' I' B' p' i' : is_dir w I B p i O es -> is_file w' I' B' p' i' O (dir_bytes es) ->
  in_ i' = in_ i -> is_dir w' I' B' p' i' O es.
Proof. intros [_ Ht Ho Hm] Hf Hi. split; [done|by rewrite Hi|done|done]. Qed.

(** a kept directory *)
Lemma effect_dir X O1 O1' w I B w' I' B' p i O es : effect X O1 O1' w I B w' I' B' -> is_dir w I B p i O es ->
  (i_nr i ∉ X) -> O1 ## O -> fs_heap w' !! p = Some i -> is_dir w' I' B' p i O es /\ O1' ## O.
Proof.
  intros [Hl _ Hk] Hd Hn Hdis Hp. destruct (Hk _ _ _ _ Hn (file_has _ _ _ _ _ _ _ (id_file _ _ _ _ _ _ _ Hd)) Hdis) as [Hf Hdis'].
  split; [|done]. destruct (has_cached _ _ _ _ _ _ _ _ _ Hl Hf Hp eq_refl) as [Hf' Hi]. by eapply has_dir.
Qed.

(** blocks that writing [n] bytes may take *)
Definition need (n : Z) : Z := 3 * (n / BLOCK_SIZE + 2).

Lemma need_pos n : 0 <= n -> 0 <= need n.
Proof. intros Hn. unfold need, BLOCK_SIZE. assert (0 <= n / 8192) by dlia. lia. Qed.

(** the directory after a change *)
Record dir_updated (w : fs) (I B O : gset Z) (p : ptr) (i : inode) (u : Z) (es' : list dirent)
    (w' : fs) (i' : inode) (B' O' : gset Z) : Prop := {
  du_effect : effect {[i_nr i]} O O' w I B w' I B';
  du_dir : is_dir w' I B' p i' O' es';
  du_nr : i_nr i' = i_nr i;
  du_count : i_count i' = i_count i;
  du_dirty : is_dirty i' = true;
  du_heap : fs_heap w' = <[p := i']> (fs_heap w);
  du_max : max_fs_blocks (fs_sb w') = max_fs_blocks (fs_sb w);
  du_used : Z.of_nat (size B') <= Z.of_nat (size B) + u;
}.

Section change.
Context (w : fs) (I B O : gset Z) (p : ptr) (i : inode) (es : list dirent).
Hypothesis Hl : live w I B.
Hypothesis Hd : is_dir w I B p i O es.

Lemma dir_written_updated n es' w' : dir_written w I B O p i n es' w' ->
  exists i' B' O', dir_updated w I B O p i (need n) es' w' i' B' O'.
Proof.
  intros (buf & start & i' & B' & O' & Hstart & Hn & Hw & [D1 D2 D3 D4 D5]). exists i', B', O'.
  pose proof Hd as [[F1 F2 F3 F4 F5 F6] _ _ _]. pose proof Hw as [W1 W2 W3 W4 W5 W6 W7 W8 W9 W10 W11 W12].
  assert (Hl' : live w' I B') by by eapply live_step.
  assert (Hf : is_file w' I B' p i' O' (dir_bytes es')).
  { split; try done; [by eapply file_step_lookup|by rewrite (st_nr _ _ _ _ _ W2)|apply W10; [lia|done]|].
    intros k Hk. destruct (Z.ltb_spec k (i_size (in_ i'))).
    - by rewrite <- D5, byte_at_fbytes by lia.
    - rewrite (byte_at_out (dir_bytes es')) by lia. rewrite decide_True in W8 by lia.
      rewrite (W9 k Hk), decide_False by (rewrite zlen_zsub; lia). rewrite F6 by done. apply byte_at_out. lia. }
  split; try done.
  - by eapply written_effect.
  - split; try done. lia.
  - apply W2.
  - apply W2.
  - apply W2.
  - apply W2.
Qed.

Lemma lookup_refines name : name_ok name ->
  wp (testfs_dir_name_to_inode_nr p name) w (fun r w' => r = default (- ENOENT) (find_name name es) /\ w' = w).
Proof.
  intros Hn. pose proof Hl as [Hr _]. pose proof Hd as [[F1 F2 F3 F4 F5 F6] _ _ _].
  apply (lookup_spec w I B O p i es Hr F1 F3 (is_dir_rep _ _ _ _ _ _ _ Hd) name Hn).
Qed.

Lemma add_refines name nr : name_ok name -> 0 <= nr < 2147483648 -> find_name name es = None ->
  zlen (dir_bytes es) + (sizeof_dirent + (zlen name + 1)) < 1073741824 ->
  Z.of_nat (size B) + need (sizeof_dirent + (zlen name + 1)) <= max_fs_blocks (fs_sb w) ->
  wp (testfs_add_dirent p name nr) w (fun r w' => r = sizeof_dirent + (zlen name + 1) /\
    exists i' B' O', dir_updated w I B O p i (need (sizeof_dirent + (zlen name + 1))) (add_entry (new_entry name nr) es) w' i' B' O').
Proof.
  intros Hn Hnr Hno Hmax Hroom. pose proof Hl as [Hr _]. pose proof Hd as [[F1 F2 F3 F4 F5 F6] _ _ _].
  eapply wp_mono; [apply (add_dirent_spec w I B O p i es name nr Hr F1 F3 (is_dir_rep _ _ _ _ _ _ _ Hd) Hn Hnr Hmax Hroom Hno)|].
  intros r w' [-> Hw]. split; [done|]. by apply dir_written_updated.
Qed.
End change.

(** ** Creating files and directories *)

Lemma dir_updated_trans w I B O p i u1 es1 w1 i1 B1 O1 u2 es2 w2 i2 B2 O2 :
  dir_updated w I B O p i u1 es1 w1 i1 B1 O1 -> dir_updated w1 I B1 O1 p i1 u2 es2 w2 i2 B2 O2 ->
  dir_updated w I B O p i (u1 + u2) es2 w2 i2 B2 O2.
Proof.
  intros [E1 D1 N1 C1 _ H1 M1 U1] [E2 D2 N2 C2 Y2 H2 M2 U2]. rewrite N1 in E2. split; try done; [|congruence|congruence| |congruence|lia].
  - by eapply effect_trans.
  - by rewrite H2, H1, insert_insert_eq.
Qed.

Lemma name_ok_dot : name_ok dot.
Proof. split; [by repeat constructor|done]. Qed.
Lemma name_ok_dotdot : name_ok dotdot.
Proof. split; [by repeat constructor|done]. Qed.

(** the entries of a directory without files *)
Definition empty_dir (nr parent : Z) : list dirent := [new_entry dot nr; new_entry dotdot parent].

Definition NEED_EMPTY : Z := need 10 + need 11.

Lemma create_empty_dir_spec w I B O p i parent : live w I B -> is_dir w I B p i O [] -> 0 <= parent < 2147483648 ->
  Z.of_nat (size B) + NEED_EMPTY <= max_fs_blocks (fs_sb w) ->
  wp (testfs_create_empty_dir parent p) w (fun r w' => r = 0 /\
    exists i' B' O', dir_updated w I B O p i NEED_EMPTY (empty_dir (i_nr i) parent) w' i' B' O').
Proof.
  intros Hl Hd Hpar Hroom. pose proof Hd as [Hf Hty _ _]. pose proof Hf as [Hp [HnI Hn] _ _ _ _].
  unfold NEED_EMPTY, NR_INODES in *. change (need 10) with 6 in *. change (need 11) with 6 in *.
  unfold testfs_create_empty_dir, testfs_inode_get_type, testfs_inode_get_nr. wsimpl.
  eapply wp_get_inode; [exact Hp|]. wsimpl. apply wp_assert; [by rewrite Hty|]. wsimpl.
  eapply wp_get_inode; [exact Hp|]. wsimpl.
  eapply wp_mono; [apply (add_refines w I B O p i [] Hl Hd dot (i_nr i) name_ok_dot)|]; [unfold NR_INODE_BLOCKS in *; rewrite ipb in *; lia|done|done|
    change (need (sizeof_dirent + (zlen dot + 1))) with 6; lia|].
  intros r w1 (-> & i1 & B1 & O1 & U1). pose proof U1 as [E1 D1 N1 C1 Y1 H1 M1 S1].
  change (need (sizeof_dirent + (zlen dot + 1))) with 6 in *. change (add_entry (new_entry dot (i_nr i)) []) with [new_entry dot (i_nr i)] in *.
  change (sizeof_dirent + (zlen dot + 1) <? 0) with false. cbv iota. wsimpl.
  eapply wp_mono; [apply (add_refines w1 I B1 O1 p i1 _ (ef_live _ _ _ _ _ _ _ _ _ E1) D1 dotdot parent name_ok_dotdot Hpar)|].
  - cbn [find_name]. by rewrite bool_decide_false by (intros [_ ?]; done).
  - done.
  - change (need (sizeof_dirent + (zlen dotdot + 1))) with 6. lia.
  - intros r w2 (-> & i2 & B2 & O2 & U2). change (sizeof_dirent + (zlen dotdot + 1) <? 0) with false. cbv iota. wsimpl. split; [done|].
    change (need (sizeof_dirent + (zlen dotdot + 1))) with 6 in *. exists i2, B2, O2.
    assert (He : add_entry (new_entry dotdot parent) [new_entry dot (i_nr i)] = empty_dir (i_nr i) parent).
    { cbn [add_entry]. by rewrite decide_False by (intros [_ ?]; done). }
    rewrite He in U2. by eapply (dir_updated_trans _ _ _ _ _ _ 6 _ _ _ _ _ 6).
Qed.

(** what a new file or directory holds *)
Definition initial (type nr parent : Z) : list Z := if type =? I_DIR then dir_bytes (empty_dir nr parent) else [].

(** the inode created is filled *)
Record filled (w : fs) (I B : gset Z) (type : Z) (p : ptr) (i : inode) (parent : Z) (w' : fs) (i' : inode) (B' O' : gset Z) : Prop := {
  fl_effect : effect {[i_nr i]} ∅ O' w I B w' I B';
  fl_file : is_file w' I B' p i' O' (initial type (i_nr i) parent);
  fl_nr : i_nr i' = i_nr i;
  fl_count : i_count i' = i_count i;
  fl_type : i_type (in_ i') = type;
  fl_dirty : is_dirty i' = true;
  fl_heap : fs_heap w' = <[p := i']> (fs_heap w);
  fl_max : max_fs_blocks (fs_sb w') = max_fs_blocks (fs_sb w);
  fl_used : Z.of_nat (size B') <= Z.of_nat (size B) + NEED_EMPTY;
}.

Lemma fill_spec w I B type p i parent : live w I B -> is_file w I B p i ∅ [] -> i_type (in_ i) = type -> is_dirty i = true ->
  0 <= parent < 2147483648 -> Z.of_nat (size B) + NEED_EMPTY <= max_fs_blocks (fs_sb w) ->
  wp (if type =? I_DIR then testfs_create_empty_dir parent p else mret 0) w (fun r w' => r = 0 /\
    exists i' B' O', filled w I B type p i parent w' i' B' O').
Proof.
  intros Hl Hf Hty Hdirty Hpar Hroom. unfold initial. destruct (Z.eqb_spec type I_DIR) as [E|E].
  - eapply wp_mono; [apply (create_empty_dir_spec w I B ∅ p i parent Hl); [|done|done]|].
    { split; [done|by rewrite Hty|done|done]. }
    intros r w' (-> & i' & B' & O' & [E1 [D1 D2 D3 D4] N1 C1 Y1 H1 M1 S1]). split; [done|]. exists i', B', O'. split; try done.
    + unfold initial. by rewrite (proj2 (Z.eqb_eq _ _) E).
    + congruence.
  - wsimpl. split; [done|]. exists i, B, ∅. split; try done.
    + unfold initial. by rewrite (proj2 (Z.eqb_neq _ _) E).
    + by rewrite insert_id by apply Hf.
    + unfold NEED_EMPTY. change (need 10) with 6. change (need 11) with 6. lia.
Qed.

(** the state after [name] was added to the directory, and the directory written back *)
Record entered (w : fs) (I B O : gset Z) (p : ptr) (i : inode) (name : list Z) (es' : list dirent)
    (w' : fs) (i' : inode) (B' O' : gset Z) : Prop := {
  en_effect : effect {[i_nr i]} O O' w I B w' I B';
  en_dir : is_dir w' I B' p i' O' es';
  en_nr : i_nr i' = i_nr i;
  en_count : i_count i' = i_count i;
  en_clean : is_dirty i' = false;
  en_disk : disk_inode (fs_dev w') (i_nr i) = in_ i';
  en_heap : fs_heap w' = <[p := i']> (fs_heap w);
  en_max : max_fs_blocks (fs_sb w') = max_fs_blocks (fs_sb w);
  en_used : Z.of_nat (size B') <= Z.of_nat (size B) + need (sizeof_dirent + (zlen name + 1));
}.

Lemma sync_dir w I B O p i es name w1 i1 B1 O1 : dir_updated w I B O p i (need (sizeof_dirent + (zlen name + 1))) es w1 i1 B1 O1 ->
  wp (testfs_sync_inode p) w1 (fun _ w' => exists i', entered w I B O p i name es w' i' B1 O1).
Proof.
  intros [E1 D1 N1 C1 Y1 H1 M1 S1]. eapply wp_mono; [apply (sync_file w1 I B1 O1 p i1 _ (ef_live _ _ _ _ _ _ _ _ _ E1) (id_file _ _ _ _ _ _ _ D1))|].
  intros _ w2 (j & E2 & Hs2 & Hf2 & Hji & Hjn & Hjc & Hjd & Hh2 & Hdisk). rewrite N1 in *. exists j.
  split; try done.
  - eapply effect_trans; [exact E1|]. by apply (effect_on {[i_nr i]}).
  - by eapply has_dir.
  - congruence.
  - rewrite Hji. auto.
  - by rewrite Hh2, H1, insert_insert_eq.
  - by rewrite Hs2.
Qed.

Lemma enter_spec w I B O p i es name nr : live w I B -> is_dir w I B p i O es -> name_ok name -> 0 <= nr < 2147483648 ->
  find_name name es = None -> zlen (dir_bytes es) + (sizeof_dirent + (zlen name + 1)) < 1073741824 ->
  Z.of_nat (size B) + need (sizeof_dirent + (zlen name + 1)) <= max_fs_blocks (fs_sb w) ->
  wp (ret ← testfs_add_dirent p name nr; if ret <? 0 then mret ret else testfs_sync_inode p;; mret ret) w (fun r w' => 0 <= r /\
    exists i' B' O', entered w I B O p i name (add_entry (new_entry name nr) es) w' i' B' O').
Proof.
  intros Hl Hd Hn Hnr Hno Hmax Hroom. pose proof (zlen_nonneg name). wsimpl.
  eapply wp_mono; [by apply (add_refines w I B O p i es Hl Hd name nr)|].
  intros r w1 (-> & i1 & B1 & O1 & U). assert (sizeof_dirent = 8) by done. rewrite (proj2 (Z.ltb_ge _ _)) by lia. wsimpl.
  eapply wp_mono; [by eapply (sync_dir w I B O p i)|]. intros _ w2 (i2 & U2). wsimpl. split; [lia|]. by exists i2, B1, O1.
Qed.

(** the new file [nr] called [name] in the directory *)
Record made (w : fs) (I B O : gset Z) (p : ptr) (i : inode) (es : list dirent) (name : list Z) (type nr : Z)
    (w' : fs) (i' : inode) (d : dinode) (B' O' Oc : gset Z) : Prop := {
  mk_new : nr ∉ I;
  mk_first : forall j, 0 <= j < nr -> j ∈ I;
  mk_effect : effect {[i_nr i; nr]} O (O' ∪ Oc) w I B w' ({[nr]} ∪ I) B';
  mk_idle : idle w' ({[nr]} ∪ I);
  mk_dir : is_dir w' ({[nr]} ∪ I) B' p i' O' (add_entry (new_entry name nr) es);
  mk_nr : i_nr i' = i_nr i;
  mk_count : i_count i' = i_count i;
  mk_clean : is_dirty i' = false;
  mk_disk : disk_inode (fs_dev w') (i_nr i) = in_ i';
  mk_child : has_file w' ({[nr]} ∪ I) B' nr d Oc (initial type nr (i_nr i));
  mk_type : i_type d = type;
  mk_closed : forall q, ~ cached w' nr q;
  mk_apart : O' ## Oc;
  mk_heap : fs_heap w' = <[p := i']> (fs_heap w);
  mk_max : max_fs_blocks (fs_sb w') = max_fs_blocks (fs_sb w);
  mk_used : Z.of_nat (size B') <= Z.of_nat (size B) + NEED_EMPTY + need (sizeof_dirent + (zlen name + 1));
}.

Section make.
Context (w : fs) (I B O : gset Z) (p : ptr) (i : inode) (es : list dirent) (name : list Z) (type : Z).
Hypothesis Hl : live w I B.
Hypothesis Hidle : idle w I.
Hypothesis Hd : is_dir w I B p i O es.
Hypothesis Hname : name_ok name.
Hypothesis Htype : s32_ok type.
Hypothesis Hno : find_name name es = None.
Hypothesis Hmax : zlen (dir_bytes es) + (sizeof_dirent + (zlen name + 1)) < 1073741824.
Hypothesis Hroom : Z.of_nat (size B) + NEED_EMPTY + need (sizeof_dirent + (zlen name + 1)) <= max_fs_blocks (fs_sb w).

(** the steps after the inode [nr] at [q] was created *)
Lemma make_spec nr q w1 : created w I B type q nr w1 ->
  wp (inode_nr ← testfs_inode_get_nr q;
      ret ← (if type =? I_DIR then
               p_inode_nr ← testfs_inode_get_nr p; testfs_create_empty_dir p_inode_nr q
             else mret 0);
      if ret <? 0 then testfs_remove_inode q;; mret ret else
      ret ← (ret ← testfs_add_dirent p name inode_nr; if ret <? 0 then mret ret else testfs_sync_inode p;; mret ret);
      if ret <? 0 then testfs_remove_inode q;; mret ret else
      testfs_sync_inode q;; testfs_put_inode q;; mret 0) w1
    (fun r w' => r = 0 /\ exists i' d B' O' Oc, made w I B O p i es name type nr w' i' d B' O' Oc).
Proof.
  intros Hc. pose proof (created_effect _ _ _ _ _ _ _ Hc) as E1.
  assert (Hneed : 0 <= need (sizeof_dirent + (zlen name + 1))) by (apply need_pos; pose proof (zlen_nonneg name); unfold sizeof_dirent; lia).
  destruct Hc as [C1 C2 C3 C4 C5 C6 (c & Hh & Hcn & Hcc & Hcd & Hci) C8 C9].
  pose proof Hd as [[Hp [HnI Hn] _ _ _ _] _ _ _]. assert (Hpq : q <> p) by (intros ->; congruence).
  assert (Hnn : i_nr i <> nr) by (intros E; by rewrite E in HnI). change NR_INODES with 16384 in *.
  assert (Hp1 : fs_heap w1 !! p = Some i) by by rewrite Hh, lookup_insert_ne.
  assert (Hq1 : fs_heap w1 !! q = Some c) by by rewrite Hh, lookup_insert_eq.
  assert (Hcf : is_file w1 ({[nr]} ∪ I) B q c ∅ []).
  { apply is_file_split. rewrite Hcn, Hci. split; [done|]. split; [set_solver|by apply data_new]. }
  destruct (effect_dir _ _ _ _ _ _ _ _ _ _ _ _ _ E1 Hd) as [Hd1 _]; [set_solver|set_solver|done|].
  unfold testfs_inode_get_nr. wsimpl. eapply wp_get_inode; [exact Hq1|]. wsimpl. rewrite Hcn.
  assert (Hpn : 0 <= i_nr i < 2147483648) by lia.
  pose proof (fill_spec w1 ({[nr]} ∪ I) B type q c (i_nr i) C4 Hcf ltac:(by rewrite Hci) Hcd Hpn ltac:(lia)) as Hfill.
  eapply (wp_mono _ _ (fun r w' => r = 0 /\ exists i' B' O', filled w1 ({[nr]} ∪ I) B type q c (i_nr i) w' i' B' O')).
  { destruct (type =? I_DIR); [|exact Hfill]. wsimpl. eapply wp_get_inode; [exact Hp1|]. wsimpl. exact Hfill. }
  intros r w2 (-> & c2 & B2 & Oc & [E2 F2 N2 Cc2 T2 Y2 H2 M2 S2]). rewrite Hcn, Hcc in *. change (0 <? 0) with false. cbv iota.
  destruct (effect_dir _ _ _ _ _ _ _ _ _ _ _ _ _ E2 Hd1) as [Hd2 Hdis2];
    [set_solver|set_solver|by rewrite H2, lookup_insert_ne|].
  apply wp_bind. eapply wp_mono; [apply (enter_spec w2 _ B2 O p i es name nr (ef_live _ _ _ _ _ _ _ _ _ E2) Hd2 Hname ltac:(lia) Hno Hmax); lia|].
  intros r w3 (Hr & i3 & B3 & O3 & [E3 D3 N3 Cc3 Y3 K3 H3 M3 S3]). rewrite (proj2 (Z.ltb_ge _ _)) by done.
  destruct ((ef_keeps _ _ _ _ _ _ _ _ _ E3) nr (in_ c2) Oc (initial type nr (i_nr i))) as [Hf3 Hdis3]; [set_solver| |done|].
  { pose proof (file_has _ _ _ _ _ _ _ F2) as Hx. by rewrite N2 in Hx. }
  pose proof (ef_live _ _ _ _ _ _ _ _ _ E3) as Hl3.
  assert (Hq3 : fs_heap w3 !! q = Some c2) by by rewrite H3, H2, lookup_insert_ne, lookup_insert_eq.
  destruct (has_cached _ _ _ _ _ _ _ _ _ Hl3 Hf3 Hq3 N2) as [Hf3' _].
  eapply wp_mono; [apply (finish_file w3 _ B3 Oc q c2 _ Hl3 Hf3' Y2 Cc2)|].
  intros r4 w4 (-> & E4 & M4 & H4 & Hf4 & Hno4). split; [done|]. rewrite N2 in *.
  assert (Hp4 : fs_heap w4 !! p = Some i3) by by rewrite H4, lookup_delete_ne, H3, lookup_insert_eq.
  exists i3, (in_ c2), B3, O3, Oc.
  assert (Eall : effect {[i_nr i; nr]} O (O3 ∪ Oc) w I B w4 ({[nr]} ∪ I) B3).
  { apply (effect_trans _ _ O _ _ _ _ w1 ({[nr]} ∪ I) B); [apply (effect_on {[nr]}); [done|set_solver]|].
    apply (effect_trans _ _ (O ∪ Oc) _ _ _ _ w2 ({[nr]} ∪ I) B2).
    { apply (effect_more _ {[i_nr i; nr]} O) in E2; [|set_solver]. by rewrite (union_empty_l_L O), (union_comm_L Oc O) in E2. }
    apply (effect_trans _ _ (O3 ∪ Oc) _ _ _ _ w3 ({[nr]} ∪ I) B3); [apply (effect_more {[i_nr i]}); [done|set_solver]|].
    apply (effect_on {[nr]}); [done|set_solver]. }
  split; try done.
  - apply (local_idle _ w w4 I _ (ef_local _ _ _ _ _ _ _ _ _ Eall)); [set_solver|set_solver|done].
  - by destruct (effect_dir _ _ _ _ _ _ _ _ _ _ _ _ _ E4 D3) as [Hx _]; [rewrite N3; by apply not_elem_of_singleton|apply disjoint_empty_l|exact Hp4|].
  - rewrite <- K3. apply (lo_disk _ _ _ (ef_local _ _ _ _ _ _ _ _ _ E4)); [done|set_solver].
  - by rewrite H4, H3, H2, Hh, insert_insert_eq, delete_insert_ne, delete_insert_id by done.
  - rewrite M4. lia.
  - lia.
Qed.
End make.

Section create.
Context (w : fs) (I B : gset Z) (type : Z).
Hypothesis Hl : live w I B.
Hypothesis Hidle : idle w I.
Hypothesis Htype : s32_ok type.

(** when every inode is in use *)
Definition no_inode (r : Z) (w' : fs) : Prop :=
  r = - ENOSPC /\ (forall j, 0 <= j < NR_INODES -> j ∈ I) /\ live w' I B /\ fs_heap w' = fs_heap w /\
  dev_frame is_meta (fs_dev w) (fs_dev w').

Lemma create_refines O p i es name : is_dir w I B p i O es -> name_ok name ->
  zlen (dir_bytes es) + (sizeof_dirent + (zlen name + 1)) < 1073741824 ->
  Z.of_nat (size B) + NEED_EMPTY + need (sizeof_dirent + (zlen name + 1)) <= max_fs_blocks (fs_sb w) ->
  wp (testfs_create_file_or_dir (Some p) type name) w (fun r w' =>
    match find_name name es with
    | Some _ => r = - EEXIST /\ w' = w
    | None => (r = 0 /\ exists nr i' d B' O' Oc, made w I B O p i es name type nr w' i' d B' O' Oc) \/ no_inode r w'
    end).
Proof.
  intros Hd Hname Hmax Hroom. unfold testfs_create_file_or_dir. wsimpl.
  eapply wp_mono; [by apply (lookup_refines w I B O p i es Hl Hd name)|]. intros r w0 [-> ->].
  destruct (find_name name es) as [nr|] eqn:Hf; cbn [default from_option]; wsimpl.
  { pose proof (find_name_nonneg _ _ _ Hf). by rewrite (proj2 (Z.leb_le _ _)) by done. }
  change (0 <=? - ENOENT) with false. cbv iota. wsimpl. eapply wp_mono; [by apply (create_inode_spec w I B type)|].
  intros [r q] w1 [(-> & nr & Hc)|(-> & _ & H)].
  - change (0 <? 0) with false. cbv iota. eapply wp_mono.
    + by apply (make_spec w I B O p i es name type Hl Hidle Hd Hname Htype Hf Hmax Hroom nr q w1).
    + intros r w' [-> (i' & d & B' & O' & Oc & H)]. left. split; [done|]. by exists nr, i', d, B', O', Oc.
  - change (- ENOSPC <? 0) with true. cbv iota. wsimpl. by right.
Qed.
End create.

(** the root directory of a new file system *)
Lemma make_root_spec w : live w ∅ ∅ -> idle w ∅ -> NEED_EMPTY <= max_fs_blocks (fs_sb w) ->
  wp testfs_make_root_dir w (fun r w' => r = 0 /\ exists d B O, live w' {[0]} B /\ idle w' {[0]} /\
    has_file w' {[0]} B 0 d O (dir_bytes (empty_dir 0 0)) /\ i_type d = I_DIR /\ fs_heap w' = fs_heap w /\
    max_fs_blocks (fs_sb w') = max_fs_blocks (fs_sb w) /\ Z.of_nat (size B) <= NEED_EMPTY).
Proof.
  intros Hl Hidle Hroom. unfold testfs_make_root_dir, testfs_create_file_or_dir. wsimpl.
  eapply wp_mono; [by apply (create_inode_spec w ∅ ∅ I_DIR)|].
  intros [r q] w1 [(-> & nr & Hc)|(_ & _ & H & _)]; [|exfalso; specialize (H 0 ltac:(change NR_INODES with 16384; lia)); set_solver].
  pose proof (created_effect _ _ _ _ _ _ _ Hc) as E1.
  destruct Hc as [C1 C2 C3 C4 C5 C6 (c & Hh & Hcn & Hcc & Hcd & Hci) C8 C9].
  assert (nr = 0) as ->.
  { destruct (decide (nr = 0)) as [|Hne]; [done|]. specialize (C3 0 ltac:(lia)). set_solver. }
  rewrite (union_empty_r_L {[0]}) in *. change (0 <? 0) with false. cbv iota.
  assert (Hq1 : fs_heap w1 !! q = Some c) by by rewrite Hh, lookup_insert_eq.
  assert (Hcf : is_file w1 {[0]} ∅ q c ∅ []).
  { apply is_file_split. rewrite Hcn, Hci. split; [done|]. split; [set_solver|by apply data_new]. }
  unfold testfs_inode_get_nr. wsimpl. eapply wp_get_inode; [exact Hq1|]. wsimpl. rewrite Hcn.
  eapply wp_mono; [apply (fill_spec w1 {[0]} ∅ I_DIR q c 0 C4 Hcf); [by rewrite Hci|done|done|by rewrite C8]|].
  intros r w2 (-> & c2 & B2 & Oc & [E2 F2 N2 Cc2 T2 Y2 H2 M2 S2]). rewrite Hcn, Hcc in *. change (0 <? 0) with false. cbv iota. wsimpl.
  change (0 <? 0) with false. cbv iota.
  eapply wp_mono; [apply (finish_file w2 _ B2 Oc q c2 _ (ef_live _ _ _ _ _ _ _ _ _ E2) F2 Y2 Cc2)|].
  intros r4 w4 (-> & E4 & M4 & H4 & Hf4 & Hno4). split; [done|]. rewrite N2 in *. exists (in_ c2), B2, Oc.
  split; [apply E4|]. split; [|split; [done|split; [done|split; [|split]]]].
  - apply (local_idle {[0]} w2 w4 {[0]} _ (ef_local _ _ _ _ _ _ _ _ _ E4)); [done|done|].
    apply (local_idle {[0]} w1 w2 {[0]} _ (ef_local _ _ _ _ _ _ _ _ _ E2)); done.
  - by rewrite H4, H2, Hh, insert_insert_eq, delete_insert_id.
  - by rewrite M4, M2, C8.
  - rewrite size_empty in S2. lia.
Qed.
