(* ===== verification/DirRemove.v ===== *)
(** * Removing files and directories

    [testfs_remove_dirent] marks the entry of a name free when the name denotes a
    file or a directory without files; [cmd_rm] then releases the inode and its
    blocks. *)

From stdpp Require Import base gmap list list_numbers strings.
From Stdlib Require Import ZArith Lia.
From S2P Require Import Prelude Words Bitmap Block FsState InodeHash Super Inode ReadWrite Dir FileTree FileAlloc FileData FileFree DirSpec MkfsSpec FileSpec FileMap DirFiles.
#[local] Open Scope Z_scope.

(** ** The specification *)

(** the entry of [name] becomes a free one *)
Fixpoint remove_entry (name : list Z) (es : list dirent) : list dirent :=
  match es with
  | [] => []
  | e :: es' =>
      if bool_decide (0 <= d_inode_nr e /\ d_name e = c_str name)
      then mk_dirent (d_name_len e) INVALID_INODE_NR (d_name e) :: es'
      else e :: remove_entry name es'
  end.

(** an entry that does not keep its directory from being removed *)
Definition spare (e : dirent) : Prop := d_inode_nr e < 0 \/ d_name e = c_str dot \/ d_name e = c_str dotdot.
#[global] Instance spare_dec e : Decision (spare e).
Proof. unfold spare. apply _. Defined.

(** what [testfs_remove_dirent_allowed] says of a file with inode [d] and contents [c] *)
Definition verdict (d : dinode) (c : list Z) (ret : Z) : Prop :=
  (i_type d <> I_DIR /\ ret = 0) \/
  (i_type d = I_DIR /\ exists es, c = dir_bytes es /\ Forall entry_ok es /\ zlen c < 1073741824 /\
     ret = if decide (Forall spare es) then 0 else - ENOTEMPTY).

Lemma remove_entry_split name es nr : find_name name es = Some nr -> exists pre e post, es = pre ++ e :: post /\
  find_name name pre = None /\ d_inode_nr e = nr /\ d_name e = c_str name /\
  remove_entry name es = pre ++ mk_dirent (d_name_len e) INVALID_INODE_NR (d_name e) :: post.
Proof.
  induction es as [|e es IH]; [done|]. cbn [find_name remove_entry]. case_bool_decide as E.
  - intros [= <-]. exists [], e, es. by destruct E.
  - intros (pre & e' & post & -> & H1 & H2 & H3 & ->)%IH. exists (e :: pre), e', post. split_and!; try done.
    cbn. by rewrite bool_decide_false.
Qed.

Lemma find_name_remove_other name name' es : name' <> name -> find_name name' (remove_entry name es) = find_name name' es.
Proof.
  intros Hn. induction es as [|e es IH]; [done|]. cbn [remove_entry find_name]. case_bool_decide as E; cbn [find_name].
  - rewrite !bool_decide_false; [done| |by intros [? _]].
    intros [_ E2]. destruct E as [_ E]. apply Hn, c_str_inj. congruence.
  - by rewrite IH.
Qed.

(** ** May a file be removed? *)

(** what only looks at files *)
Lemma same_effect w I B w' : live w' I B -> fs_dev w' = fs_dev w -> fs_heap w' = fs_heap w -> effect ∅ ∅ ∅ w I B w' I B.
Proof.
  intros Hl Hd Hh. assert (Hlo : local ∅ w w') by (split; [intros q i _; by rewrite Hh|intros nr _ _; by rewrite Hd]).
  split; [done|done|]. apply keeps_intro; [done|done| |set_solver|done]. rewrite Hd. apply dev_frame_refl.
Qed.

Lemma wp_strcmp_name {S} a b (s : S) (Q : bool -> S -> Prop) : name_ok a -> name_ok b -> Q (bool_decide (a = b)) s ->
  wp (strcmp_eq (c_str a) (c_str b)) s Q.
Proof.
  intros [Ha _] [Hb _] HQ. eapply wp_val; [|exact HQ]. rewrite <- (app_nil_r (c_str a)). by apply strcmp_eq_spec.
Qed.

Lemma allowed_loop w I B O p i es : live w I B -> is_dir w I B p i O es ->
  wp (while_ (allowed_round p) (0, 0)) w (fun r w' => r = (if decide (Forall spare es) then 0 else - ENOTEMPTY) /\ w' = w).
Proof.
  intros [Hr _] Hdir. pose proof (is_dir_rep _ _ _ _ _ _ _ Hdir) as Hd. pose proof Hdir as [[Hp _ Ht _ Hsz _] _ _ Hmax].
  apply (wp_while (fun '(ret, off) w' => w' = w /\
      ((ret = 0 /\ exists pre post, at_entry es off pre post /\ Forall spare pre) \/ (ret = - ENOTEMPTY /\ ~ Forall spare es)))
    (fun '(ret, off) => if ret =? 0 then 1 + (zlen (dir_bytes es) - off) else 0)).
  { split; [done|]. left. split; [done|]. by exists [], es. }
  { pose proof (zlen_nonneg (dir_bytes es)). change (0 =? 0) with true. cbv iota. change (2 ^ 64) with 18446744073709551616. lia. }
  intros [ret off] w' [-> Hst] _. unfold allowed_round. destruct Hst as [(-> & pre & post & Hat & Hpre)|[-> Hno]].
  2: { change (- ENOTEMPTY =? 0) with false. cbn [negb]. wsimpl. by rewrite decide_False. }
  change (0 =? 0) with true. cbn [negb]. wsimpl. pose proof (at_entry_bound w i es Hd _ _ _ Hat).
  eapply (next_at w I B O p i es); [done..| |].
  { intros _ ->. wsimpl. by rewrite decide_True. }
  intros e post' off' -> He Hat' Hlt. cbv beta iota. pose proof (at_entry_bound w i es Hd _ _ _ Hat').
  assert (Hgo : spare e -> (w = w /\ ((0 = 0 /\ exists pre post, at_entry es off' pre post /\ Forall spare pre) \/
      (0 = - ENOTEMPTY /\ ~ Forall spare es))) /\ 0 <= 1 + (zlen (dir_bytes es) - off') < 1 + (zlen (dir_bytes es) - off)).
  { intros Hs. split; [|lia]. split; [done|]. left. split; [done|]. exists (pre ++ [e]), post'. split; [done|].
    apply Forall_app_2; [done|by apply Forall_singleton]. }
  destruct (Z.ltb_spec (d_inode_nr e) 0); wsimpl; [by apply Hgo; left|].
  apply wp_strcmp; [done|apply name_ok_dot|]. case_bool_decide as E1; wsimpl; [by apply Hgo; right; left|].
  apply wp_strcmp; [done|apply name_ok_dotdot|]. case_bool_decide as E2; wsimpl; [by apply Hgo; right; right|].
  change (- ENOTEMPTY =? 0) with false. split; [|lia]. split; [done|]. right. split; [done|].
  destruct Hat as [-> _]. rewrite Forall_app, Forall_cons. intros (_ & [?|[?|?]] & _); [lia|done|done].
Qed.

(** an inode that is only opened and closed again *)
Lemma close_got w w1 I B p i nr : got_inode w nr p i -> (forall q, ~ cached w nr q) -> live w I B ->
  fs_heap w1 = <[p := i]> (fs_heap w) -> live w1 I B ->
  wp (testfs_put_inode p) w1 (fun _ w2 => live w2 I B /\ fs_dev w2 = fs_dev w1 /\ fs_sb w2 = fs_sb w1 /\ fs_heap w2 = fs_heap w).
Proof.
  intros Hg Hno Hl Hh Hl1. destruct Hg as [(j & Hj & Hjn & _)|(Hp & _ & ->)]; [exfalso; apply (Hno p); by exists j|].
  eapply wp_mono; [eapply (put_inode_spec w1 I B p); [done|by rewrite Hh, lookup_insert_eq|done]|].
  intros _ w3 (H1 & H2 & H3 & _ & _ & H6). rewrite decide_True in H6 by done. split_and!; try done.
  by rewrite H6, Hh, delete_insert_id.
Qed.

Lemma allowed_spec w I B nr d O c ret : live w I B -> has_file w I B nr d O c -> (forall q, ~ cached w nr q) -> verdict d c ret ->
  wp (testfs_remove_dirent_allowed nr) w (fun r w' => r = ret /\ live w' I B /\ fs_dev w' = fs_dev w /\ fs_sb w' = fs_sb w /\
    fs_heap w' = fs_heap w).
Proof.
  intros Hl Hf Hno Hv. unfold testfs_remove_dirent_allowed. wsimpl.
  eapply wp_mono; [by apply (open_file w I B nr d O c)|].
  intros p w1 (i & Hl1 & Hd1 & Hs1 & _ & Hg & Hh1 & Hf1 & Hid & Hin). wsimpl. unfold testfs_inode_get_type. wsimpl.
  eapply wp_get_inode; [by rewrite Hh1, lookup_insert_eq|]. wsimpl.
  eapply (wp_mono _ _ (fun r w' => r = ret /\ w' = w1)).
  - rewrite Hid. destruct Hv as [[Ht ->]|(Ht & es & -> & Hok & Hmax & ->)].
    + rewrite (proj2 (Z.eqb_neq _ _)) by done. cbn [negb]. by wsimpl.
    + rewrite (proj2 (Z.eqb_eq _ _)) by done. cbn [negb]. apply (allowed_loop w1 I B O p i es Hl1). split; [done|by rewrite Hid|done|done].
  - intros r w2 [-> ->]. wsimpl. eapply wp_mono; [by apply (close_got w w1 I B p i nr)|].
    intros _ w3 (H1 & H2 & H3 & H4). wsimpl. split_and!; congruence || done.
Qed.

(** ** Marking the entry free *)

Lemma free_entry_ok e : entry_ok e -> entry_ok (mk_dirent (d_name_len e) INVALID_INODE_NR (d_name e)).
Proof. intros [H1 H2 _]. split; [done|done|]. unfold s32_ok, INVALID_INODE_NR; simpl; lia. Qed.

Section remove.
Context (w : fs) (I B O : gset Z) (p : ptr) (i : inode) (es : list dirent) (name : list Z).
Hypothesis Hl : live w I B.
Hypothesis Hd : is_dir w I B p i O es.
Hypothesis Hname : name_ok name.

Abbreviation esize := (sizeof_dirent + (zlen name + 1)).

Lemma remove_special : name = dot \/ name = dotdot ->
  wp (testfs_remove_dirent p name) w (fun r w' => r = - EINVAL /\ w' = w).
Proof.
  intros Hs. unfold testfs_remove_dirent. wsimpl. apply wp_strcmp_name; [done|apply name_ok_dot|].
  case_bool_decide as E; wsimpl; [done|]. apply wp_strcmp_name; [done|apply name_ok_dotdot|].
  rewrite bool_decide_true by naive_solver. by wsimpl.
Qed.

(** the entry at [pre ++ e :: post] is written back as a free one *)
Lemma free_entry pre e post w2 : es = pre ++ e :: post -> d_name e = c_str name -> live w2 I B -> fs_dev w2 = fs_dev w ->
  fs_sb w2 = fs_sb w -> fs_heap w2 = fs_heap w -> zlen (dir_bytes es) + esize < 1073741824 ->
  Z.of_nat (size B) + need esize <= max_fs_blocks (fs_sb w) ->
  let e' := mk_dirent (d_name_len e) INVALID_INODE_NR (d_name e) in
  wp (testfs_write_data p (dirent_bytes e') (zlen (dir_bytes pre)) (u64 (sizeof_dirent + d_name_len e))) w2
    (fun r w' => 0 <= r /\ exists i' B' O', dir_updated w I B O p i (need esize) (pre ++ e' :: post) w' i' B' O').
Proof.
  intros Hes Hen Hl2 Hd2 Hs2 Hh2 Hmax Hroom e'. pose proof (same_effect w I B w2 Hl2 Hd2 Hh2) as E2.
  destruct (effect_dir _ _ _ _ _ _ _ _ _ _ _ _ _ E2 Hd) as [Hdir2 _]; [set_solver|set_solver|rewrite Hh2; apply Hd|].
  pose proof (id_ok _ _ _ _ _ _ _ Hd) as Hok. rewrite Hes, Forall_app, Forall_cons in Hok. destruct Hok as (_ & He & _).
  pose proof (entry_ok_len e He) as Hlen.
  assert (Hn : d_name_len e = zlen name + 1) by (rewrite (eo_len _ He), Hen; apply zlen_c_str).
  pose proof Hdir2 as [[F1 F2 F3 F4 F5 F6] _ _ _]. rewrite u64_small by (unfold sizeof_dirent; lia).
  eapply wp_mono.
  { apply (write_entry_spec w2 I B O p i es (proj1 Hl2) F1 F3 (is_dir_rep _ _ _ _ _ _ _ Hdir2) e' pre [e] post Hes (free_entry_ok e He)).
    - left. by exists e.
    - cbn. by rewrite Hn.
    - cbn. rewrite Hn, Hs2. exact Hroom. }
  intros r w' [-> Hw]. cbn [d_name_len e'] in *. rewrite Hn in Hw. split; [unfold sizeof_dirent; lia|].
  destruct (dir_written_updated w2 I B O p i es Hl2 Hdir2 _ _ _ Hw) as (i' & B' & O' & [U1 U2 U3 U4 U5 U6 U7 U8]).
  exists i', B', O'. split; try done; [|by rewrite U6, Hh2|by rewrite U7, Hs2].
  eapply effect_trans; [|exact U1]. apply (effect_on ∅); [done|set_solver].
Qed.

(** the outcome for the inode [nr] that the name denotes *)
Definition unlinked (nr ret r : Z) (w' : fs) : Prop :=
  if decide (ret = 0)
  then r = nr /\ exists i' B' O', dir_updated w I B O p i (need esize) (remove_entry name es) w' i' B' O'
  else r = ret /\ live w' I B /\ fs_dev w' = fs_dev w /\ fs_sb w' = fs_sb w /\ fs_heap w' = fs_heap w.

(** the search, up to the entry that is found *)
Lemma remove_loop (Q : Z -> fs -> Prop) :
  (find_name name es = None -> Q (- ENOENT) w) ->
  (forall pre e post, es = pre ++ e :: post -> find_name name pre = None -> 0 <= d_inode_nr e -> d_name e = c_str name ->
    let e' := mk_dirent (d_name_len e) INVALID_INODE_NR (d_name e) in
    wp (ret ← testfs_remove_dirent_allowed (d_inode_nr e);
        if ret <? 0 then mret ret else
        ret ← testfs_write_data p (dirent_bytes e') (zlen (dir_bytes pre)) (u64 (sizeof_dirent + d_name_len e));
        mret (if 0 <=? ret then d_inode_nr e else ret)) w Q) ->
  wp (while_ (remove_round p name) (INVALID_INODE_NR, - ENOENT, 0)) w Q.
Proof.
  intros Hnone Hfound. pose proof (is_dir_rep _ _ _ _ _ _ _ Hd) as Hrep. pose proof Hd as [[Hp _ Ht _ Hsz _] _ _ Hmax].
  apply (wp_while (fun '(nr, ret, off) w' => if nr =? INVALID_INODE_NR
      then w' = w /\ ret = - ENOENT /\ exists pre post, at_entry es off pre post /\ find_name name pre = None
      else Q ret w')
    (fun '(nr, _, off) => if nr =? INVALID_INODE_NR then 1 + (zlen (dir_bytes es) - off) else 0)).
  { rewrite Z.eqb_refl. split; [done|]. split; [done|]. by exists [], es. }
  { pose proof (zlen_nonneg (dir_bytes es)). rewrite Z.eqb_refl. change (2 ^ 64) with 18446744073709551616. lia. }
  intros [[nr ret] off] w' Hst _. unfold remove_round. destruct (Z.eqb_spec nr INVALID_INODE_NR) as [->|Hne]; cbn [negb].
  2: by wsimpl.
  destruct Hst as (-> & -> & pre & post & Hat & Hno). wsimpl. pose proof (at_entry_bound w i es Hrep _ _ _ Hat).
  eapply (next_at w I B O p i es (proj1 Hl) Hp Ht Hrep); [done| |].
  { intros _ ->. wsimpl. by apply Hnone. }
  intros e post' off' -> He Hat' Hlt. cbv beta iota. pose proof (at_entry_bound w i es Hrep _ _ _ Hat').
  assert (Hgo : ~ (0 <= d_inode_nr e /\ d_name e = c_str name) ->
    (w = w /\ - ENOENT = - ENOENT /\ exists pre post, at_entry es off' pre post /\ find_name name pre = None) /\
    0 <= 1 + (zlen (dir_bytes es) - off') < 1 + (zlen (dir_bytes es) - off)).
  { intros Hn. split; [|lia]. split; [done|]. split; [done|]. exists (pre ++ [e]), post'. split; [done|]. by apply find_name_snoc. }
  destruct (Z.ltb_spec (d_inode_nr e) 0); wsimpl; [by apply Hgo; lia|].
  apply wp_strcmp; [done|done|]. case_bool_decide as E; cbn [negb]; wsimpl; [|apply Hgo; tauto].
  destruct Hat as [Hes ->]. specialize (Hfound pre e post' Hes Hno ltac:(done) E). apply wp_bind_inv in Hfound.
  assert (Hnr : (d_inode_nr e =? INVALID_INODE_NR) = false) by (apply Z.eqb_neq; unfold INVALID_INODE_NR; lia).
  eapply wp_mono; [exact Hfound|]. intros ret w1 Hk. cbv beta in Hk. destruct (ret <? 0).
  - wsimpl. rewrite Hnr. split; [exact Hk|lia].
  - apply wp_bind_inv in Hk. wsimpl. eapply wp_mono; [exact Hk|]. intros r w2 Hk2. wsimpl. rewrite Hnr. split; [exact Hk2|lia].
Qed.

Lemma remove_missing : name <> dot -> name <> dotdot -> find_name name es = None ->
  wp (testfs_remove_dirent p name) w (fun r w' => r = - ENOENT /\ w' = w).
Proof.
  intros H1 H2 Hno. unfold testfs_remove_dirent. wsimpl.
  apply wp_strcmp_name; [done|apply name_ok_dot|]. rewrite bool_decide_false by done. wsimpl.
  apply wp_strcmp_name; [done|apply name_ok_dotdot|]. rewrite bool_decide_false by done. wsimpl.
  apply remove_loop; [done|]. intros pre e post -> Hpre He1 He2. exfalso. rewrite find_name_app in Hno by done. cbn in Hno.
  by rewrite bool_decide_true in Hno.
Qed.

Lemma remove_found nr d O2 c2 ret : name <> dot -> name <> dotdot -> find_name name es = Some nr ->
  zlen (dir_bytes es) + esize < 1073741824 -> Z.of_nat (size B) + need esize <= max_fs_blocks (fs_sb w) ->
  has_file w I B nr d O2 c2 -> (forall q, ~ cached w nr q) -> verdict d c2 ret ->
  wp (testfs_remove_dirent p name) w (unlinked nr ret).
Proof.
  intros H1 H2 Hfind Hmax Hroom Hf Hno Hv. unfold testfs_remove_dirent. wsimpl.
  apply wp_strcmp_name; [done|apply name_ok_dot|]. rewrite bool_decide_false by done. wsimpl.
  apply wp_strcmp_name; [done|apply name_ok_dotdot|]. rewrite bool_decide_false by done. wsimpl.
  apply remove_loop; [congruence|]. intros pre e post Hes Hpre He1 He2 e'.
  assert (Hnr : d_inode_nr e = nr).
  { rewrite Hes, find_name_app in Hfind by done. cbn in Hfind. rewrite bool_decide_true in Hfind by done. congruence. }
  assert (Hrm : remove_entry name es = pre ++ e' :: post).
  { rewrite Hes. clear -Hpre He1 He2. induction pre as [|x pre IH]; cbn in *.
    - by rewrite bool_decide_true.
    - case_bool_decide; [done|]. by rewrite IH. }
  rewrite Hnr in *. wsimpl. eapply wp_mono; [by apply (allowed_spec w I B nr d O2 c2 ret)|].
  intros r w2 (-> & Hl2 & Hd2 & Hs2 & Hh2). unfold unlinked.
  assert (Hret : ret = 0 \/ ret = - ENOTEMPTY).
  { destruct Hv as [[_ ->]|(_ & l & _ & _ & _ & ->)]; [by left|]. case_decide; auto. }
  destruct Hret as [-> | ->].
  - change (0 <? 0) with false. cbv iota. wsimpl.
    eapply wp_mono; [by apply (free_entry pre e post w2)|]. intros r w3 [Hr H3]. wsimpl.
    rewrite (proj2 (Z.leb_le _ _)) by done. rewrite decide_True by done. split; [done|]. rewrite Hrm. exact H3.
  - change (- ENOTEMPTY <? 0) with true. cbv iota. wsimpl. by rewrite decide_False.
Qed.
End remove.

(** ** Removing a file *)

Lemma opened_effect w I B q j w' : live w' I B -> fs_dev w' = fs_dev w -> fs_heap w' = <[q := j]> (fs_heap w) ->
  got_inode w (i_nr j) q j -> effect {[i_nr j]} ∅ ∅ w I B w' I B.
Proof.
  intros Hl Hd Hh Hg. assert (Hlo : local {[i_nr j]} w w').
  { split; [|intros nr _ _; by rewrite Hd]. eapply mem_others_insert; [exact Hh|set_solver|].
    intros k Hk. destruct Hg as [(k' & Hk' & Hn & _)|(Hnone & _)]; [|congruence]. rewrite Hk in Hk'. injection Hk' as <-. set_solver. }
  split; [done|done|]. apply keeps_intro; [done|done| |set_solver|done]. rewrite Hd. apply dev_frame_refl.
Qed.

(** the inode [nr] of a file that is not in use is opened and removed *)
Lemma unlink_spec w I B nr d O c : live w I B -> has_file w I B nr d O c -> (forall q, ~ cached w nr q) ->
  wp (p ← testfs_get_inode nr; testfs_remove_inode p) w (fun _ w' => exists B',
    effect {[nr]} O ∅ w I B w' (I ∖ {[nr]}) B' /\ (forall k, k ∈ B' <-> k ∈ B /\ (DATA_START + k ∉ O)) /\
    disk_inode (fs_dev w') nr = dinode_zero /\ fs_heap w' = fs_heap w).
Proof.
  intros Hl Hf Hno. wsimpl. eapply wp_mono; [by apply (open_file w I B nr d O c)|].
  intros q w1 (j & Hl1 & Hd1 & Hs1 & _ & Hg & Hh1 & Hf1 & Hjd & Hjn).
  assert (Hq : fs_heap w !! q = None /\ i_count j = 1).
  { destruct Hg as [(k & Hk & Hkn & _)|(Hn & _ & ->)]; [exfalso; apply (Hno q); by exists k|done]. }
  destruct Hq as [Hq Hc]. subst nr. pose proof Hf1 as [F1 [F2 F2'] F3 F4 _ _].
  eapply wp_mono; [by apply (remove_inode_spec w1 I B O q j)|].
  intros u w2 Hr. cbv beta in Hr. clear u. destruct (removed_effect w1 I B O q j w2 F1 F2' Hc Hr) as (B' & HB & E2).
  exists B'. split; [|split; [done|split; [apply Hr|]]].
  - apply (effect_trans _ _ O _ _ _ _ w1 I B); [|exact E2]. apply (effect_on {[i_nr j]}); [by eapply opened_effect|done].
  - destruct (rm_heap _ _ _ _ _ _ _ Hr) as (j0 & _ & _ & _ & _ & H4). by rewrite H4, decide_True, Hh1, delete_insert_id.
Qed.

(** the state after the file [nr] was removed from the directory *)
Record gone (w : fs) (I B O : gset Z) (p : ptr) (i : inode) (es : list dirent) (name : list Z) (nr : Z) (O2 : gset Z)
    (w' : fs) (i' : inode) (B' O' : gset Z) : Prop := {
  go_effect : effect {[i_nr i; nr]} (O ∪ O2) O' w I B w' (I ∖ {[nr]}) B';
  go_idle : idle w' (I ∖ {[nr]});
  go_dir : is_dir w' (I ∖ {[nr]}) B' p i' O' (remove_entry name es);
  go_nr : i_nr i' = i_nr i;
  go_count : i_count i' = i_count i;
  go_clean : is_dirty i' = false;
  go_disk : disk_inode (fs_dev w') (i_nr i) = in_ i';
  go_free : forall b, b ∈ O2 -> (b - DATA_START) ∉ B';
  go_heap : fs_heap w' = <[p := i']> (fs_heap w);
  go_used : Z.of_nat (size B') <= Z.of_nat (size B) + need (sizeof_dirent + (zlen name + 1));
}.

Lemma rm_spec w I B O p i es name nr d O2 c2 (c : context) s0 : live w I B -> idle w I -> is_dir w I B p i O es -> name_ok name ->
  name <> dot -> name <> dotdot -> find_name name es = Some nr -> has_file w I B nr d O2 c2 -> (forall q, ~ cached w nr q) ->
  verdict d c2 0 -> O ## O2 -> zlen (dir_bytes es) + (sizeof_dirent + (zlen name + 1)) < 1073741824 ->
  Z.of_nat (size B) + need (sizeof_dirent + (zlen name + 1)) <= max_fs_blocks (fs_sb w) ->
  nargs c = 2 -> take 2 (cmd c) = [s0; Some name] -> cur_dir c = p ->
  wp (cmd_rm c) w (fun r w' => r = 0 /\ exists i' B' O', gone w I B O p i es name nr O2 w' i' B' O').
Proof.
  intros Hl Hidle Hd Hname N1 N2 Hfind Hf Hno Hv Hdis Hmax Hroom Hargs Hcmd Hcur.
  assert (Hne : nr <> i_nr i).
  { intros ->. apply (Hno p). exists i. split; [apply Hd|done]. }
  destruct c as [na cm cd]. cbn [nargs cmd cur_dir] in *. subst na cd.
  destruct cm as [|s1 [|s2 cm]]; try done. injection Hcmd as -> ->.
  unfold cmd_rm, arg. cbn [nargs cmd cur_dir]. change (negb (2 =? 2)) with false. cbv iota. wsimpl.
  eapply wp_deref; [done|]. wsimpl. eapply wp_deref; [done|]. wsimpl.
  eapply wp_mono; [by apply (remove_found w I B O p i es name Hl Hd Hname nr d O2 c2 0)|].
  intros r w1 H1. unfold unlinked in H1. rewrite decide_True in H1 by done. destruct H1 as (-> & i1 & B1 & O1 & [E1 D1 M1 C1 Y1 H1 X1 U1]).
  pose proof (hf_nr _ _ _ _ _ _ _ Hf) as [HnI Hnb]. rewrite (proj2 (Z.ltb_ge _ _)) by lia.
  assert (Hx : nr ∉ ({[i_nr i]} : gset Z)) by by apply not_elem_of_singleton.
  destruct (ef_keeps _ _ _ _ _ _ _ _ _ E1 nr d O2 c2 Hx Hf Hdis) as [Hf1 Hdis1].
  pose proof (local_uncached _ _ _ nr (ef_local _ _ _ _ _ _ _ _ _ E1) Hx Hno) as Hno1.
  pose proof (unlink_spec w1 I B1 nr d O2 c2 (ef_live _ _ _ _ _ _ _ _ _ E1) Hf1 Hno1) as Hu. apply wp_bind_inv in Hu.
  wsimpl. eapply wp_mono; [exact Hu|]. intros q w2 Hu2. cbv beta in Hu2. wsimpl. eapply wp_mono; [exact Hu2|].
  clear Hu Hu2. intros _ w3 (B3 & E3 & HB3 & Z3 & H3).
  assert (Hp3 : fs_heap w3 !! p = Some i1) by by rewrite H3, H1, lookup_insert_eq.
  destruct (effect_dir _ _ _ _ _ _ _ _ _ _ _ _ _ E3 D1) as [D3 _]; [rewrite M1; set_solver|done|done|].
  wsimpl. eapply wp_mono; [apply (sync_file w3 _ B3 O1 p i1 _ (ef_live _ _ _ _ _ _ _ _ _ E3) (id_file _ _ _ _ _ _ _ D3))|].
  intros _ w4 (j & E4 & Hs4 & Hf4 & Hji & Hjn & Hjc & Hjd & Hh4 & Hdisk). wsimpl. split; [done|]. rewrite M1 in *. exists j, B3, O1.
  assert (Eall : effect {[i_nr i; nr]} (O ∪ O2) O1 w I B w4 (I ∖ {[nr]}) B3).
  { apply (effect_trans _ _ (O1 ∪ O2) _ _ _ _ w1 I B1); [apply (effect_more {[i_nr i]}); [done|set_solver]|].
    apply (effect_trans _ _ O1 _ _ _ _ w3 (I ∖ {[nr]}) B3); [|apply (effect_on {[i_nr i]}); [done|set_solver]].
    apply (effect_more _ {[i_nr i; nr]} O1) in E3; [|set_solver]. by rewrite (union_comm_L O2 O1), (union_empty_l_L O1) in E3. }
  split; try done.
  - intros n Hn Hnot. destruct (decide (n = nr)) as [->|Hnn].
    + pose proof (local_uncached _ _ _ nr (ef_local _ _ _ _ _ _ _ _ _ E4) Hx) as H5. split; [|rewrite (lo_disk _ _ _ (ef_local _ _ _ _ _ _ _ _ _ E4)) by done; exact Z3].
      apply H5. intros q' (k & Hk & Hkn). apply (Hno1 q'). exists k. by rewrite <- H3.
    + destruct (Hidle n Hn) as [H5 H6]; [set_solver|]. pose proof (if_nr _ _ _ _ _ _ _ (id_file _ _ _ _ _ _ _ Hd)) as [HiI _].
      assert (Hnx : n ∉ ({[i_nr i; nr]} : gset Z)) by set_solver. split.
      * by apply (local_uncached _ _ _ n (ef_local _ _ _ _ _ _ _ _ _ Eall) Hnx).
      * by rewrite (lo_disk _ _ _ (ef_local _ _ _ _ _ _ _ _ _ Eall)) by done.
  - by eapply has_dir.
  - congruence.
  - rewrite Hji. auto.
  - intros b Hb. intros [_ Hnb']%HB3. apply Hnb'. by replace (DATA_START + (b - DATA_START)) with b by lia.
  - by rewrite Hh4, H3, H1, insert_insert_eq.
  - assert (B3 ⊆ B1) as Hsub%subseteq_size by (intros k Hk; by apply HB3). lia.
Qed.
