(* ===== verification/MountSpec.v ===== *)
(** * Unmounting and mounting

    [testfs_close_super_block] writes what the disk already holds and leaves
    nothing in memory; mounting the disk again gives the same files.  mktestfs as a
    whole leaves a disk with an empty root directory. *)

From stdpp Require Import base gmap list list_numbers strings.
From Stdlib Require Import ZArith Lia.
From S2P Require Import Prelude Words Bitmap Block FsState InodeHash Super Inode ReadWrite Dir Mktestfs FileTree FileAlloc FileData FileFree DirSpec MkfsSpec FileSpec FileMap DirFiles DirRemove.
#[local] Open Scope Z_scope.

(** ** Writing a freemap *)

Lemma put_blocks_lookup k b buf (m : gmap Z (list Z)) c : zlen buf = Z.of_nat k * BLOCK_SIZE ->
  put_blocks k b buf m !! c = if decide (b <= c < b + Z.of_nat k) then Some (zsub buf ((c - b) * BLOCK_SIZE) BLOCK_SIZE) else m !! c.
Proof.
  revert b buf m. induction k as [|k IH]; intros b buf m Hz; cbn [put_blocks].
  { by rewrite decide_False by lia. }
  assert (Hd : zlen (drop (Z.to_nat BLOCK_SIZE) buf) = Z.of_nat k * BLOCK_SIZE).
  { rewrite zlen_length in *. rewrite length_drop. unfold BLOCK_SIZE in *. lia. }
  rewrite IH by done. destruct (decide (c = b)) as [->|Hc].
  - rewrite decide_False, decide_True, lookup_insert_eq by lia. f_equal. by rewrite Z.sub_diag, zsub_take.
  - rewrite lookup_insert_ne by done. destruct (decide (b + 1 <= c < b + 1 + Z.of_nat k)).
    + rewrite decide_True by lia. f_equal. rewrite zsub_drop by (unfold BLOCK_SIZE in *; lia). f_equal. unfold BLOCK_SIZE in *. lia.
    + by rewrite decide_False by lia.
Qed.

(** the blocks of a freemap are written over themselves *)
Lemma rewrite_map d start nr ws : dev_ok d -> 0 <= start -> 0 < nr -> start + nr <= d_nr d -> map_synced d start nr ws ->
  zlen ws = nr * BLOCK_SIZE ->
  wp (write_blocks ws start nr) d (fun _ d' => dev_ok d' /\ d_cap d' = d_cap d /\ d_nr d' = d_nr d /\ forall c, blk d' c = blk d c).
Proof.
  intros Hd Hs Hn Hle Hsync Hz. pose proof (dev_nr d Hd) as Hcap.
  eapply wp_val; [apply write_blocks_spec; [done|done|done|lia|lia]|].
  assert (Hp : forall c, d_blocks (dev_put (Z.to_nat nr) start ws d) !! c = if decide (start <= c < start + nr)
    then Some (zsub ws ((c - start) * BLOCK_SIZE) BLOCK_SIZE) else d_blocks d !! c).
  { intros c. cbn. rewrite put_blocks_lookup; rewrite Z2Nat.id by lia; done. }
  split; [|split; [done|split; [cbn; lia|]]].
  - destruct Hd as [D1 D2 D3]. split; [done| |cbn; lia]. intros c l. rewrite Hp. case_decide; [|by apply D2].
    intros [= <-]. apply zlen_zsub; unfold BLOCK_SIZE in *; lia.
  - intros c. unfold blk. rewrite Hp. case_decide; [|done]. cbn. rewrite <- Hsync by lia.
    replace (start + (c - start)) with c by lia. done.
Qed.

(** ** Unmounting *)

Lemma cache_ok_empty w t : cache_ok w t -> fs_heap w = ∅ -> forallb (fun l : list ptr => match l with [] => true | _ => false end) t = true.
Proof.
  intros Hc Hh. apply forallb_forall. intros l Hl. destruct l as [|p l]; [done|]. exfalso.
  apply list_elem_of_In, list_elem_of_lookup in Hl as [n Hn]. pose proof (lookup_lt_Some _ _ _ Hn) as Hlt.
  rewrite (cache_len w t Hc) in Hlt.
  destruct (cache_in w t Hc (Z.of_nat n) p) as (i & Hi & _).
  - lia.
  - unfold bucket. rewrite Nat2Z.id, Hn. by left.
  - by rewrite Hh, lookup_empty in Hi.
Qed.

(** the disk after unmounting holds the same super block, freemaps and blocks *)
Lemma close_spec w I B : live w I B -> fs_heap w = ∅ ->
  wp testfs_close_super_block w (fun _ w' => fs_host w' = [] /\ fs_heap w' = ∅ /\ fs_out w' = fs_out w /\
    (forall c, 1 <= c -> blk (fs_dev w') c = blk (fs_dev w) c) /\ d_nr (fs_dev w') = d_nr (fs_dev w) /\
    exists iws bws, disk_ok (fs_dev w') (fs_sb w) iws bws /\
      bm_set (mk_bitmap INODE_BITS iws) = I /\ bm_set (mk_bitmap BLOCK_BITS bws) = B).
Proof.
  intros [Hr [t Hc]] Hh. destruct (fs_rep_disk w I B Hr) as (iws & bws & Hok & Him & Hbm & HI & HBm).
  pose proof Hok as [K1 K2 K3 K4 K5 K6 K7 K8 K9 K10 K11].
  unfold testfs_close_super_block. wsimpl. eapply wp_val; [apply write_super_block_val; [exact K1|unfold_consts; lia]|].
  set (D1 := dev_write 0 _ _). unfold inode_hash_destroy. wsimpl. cbn [fs_hash with_dev]. rewrite (cache_tbl w t Hc). wsimpl.
  apply wp_assert; [by apply (cache_ok_empty w)|]. wsimpl. cbn [fs_imap with_hash with_dev fs_bmap fs_sb]. rewrite Him.
  assert (HD1 : dev_ok D1) by (apply dev_ok_write; [done|unfold_consts; lia|apply zlen_sb_block]).
  assert (HN1 : d_nr D1 = d_nr (fs_dev w)) by (cbn; unfold_consts; lia).
  assert (HB1 : forall c, 1 <= c -> blk D1 c = blk (fs_dev w) c) by (intros c Hc1; unfold D1; by rewrite blk_dev_write, decide_False by lia).
  pose proof (freemap_words _ INODE_FREEMAP_SIZE K8 eq_refl) as Hil. pose proof (freemap_words _ BLOCK_FREEMAP_SIZE K9 eq_refl) as Hbl. cbn in Hil, Hbl.
  unfold bitmap_getdata. cbn [bm_v fs_sb with_imap with_bmap with_hash with_dev]. rewrite (lay_ifs _ K4). wsimpl.
  pose proof (rewrite_map D1 1 INODE_FREEMAP_SIZE iws HD1 ltac:(lia) ltac:(done) ltac:(rewrite HN1; unfold_consts; lia)
    ltac:(intros k Hk; rewrite HB1 by lia; by apply K6) Hil) as H2.
  apply wp_inv in H2 as ([] & D2 & HR2 & HD2 & HC2 & HN2 & HB2). eapply wp_val; [by apply on_dev_val|]. wsimpl.
  cbn [fs_bmap fs_sb with_imap with_bmap with_hash with_dev]. rewrite Hbm. cbn [bm_v]. rewrite (lay_bfs _ K4). wsimpl.
  pose proof (rewrite_map D2 2 BLOCK_FREEMAP_SIZE bws HD2 ltac:(lia) ltac:(done) ltac:(rewrite HN2, HN1; unfold_consts; lia)
    ltac:(intros k Hk; rewrite HB2, HB1 by lia; by apply K7) Hbl) as H3.
  apply wp_inv in H3 as ([] & D3 & HR3 & HD3 & HC3 & HN3 & HB3). eapply wp_val; [by apply on_dev_val|]. wsimpl. cbn.
  assert (HBB : forall c, 1 <= c -> blk D3 c = blk (fs_dev w) c) by (intros c Hc1; by rewrite HB3, HB2, HB1).
  split; [apply Hr|]. split; [done|]. split; [done|]. split; [done|]. split; [lia|]. exists iws, bws. split; [|done].
  split; try done; [lia|rewrite HC3, HC2; done| | |].
  - rewrite HB3, HB2. unfold D1. rewrite blk_dev_write, decide_True by done. apply sb_block_read. by eapply rep_dsuper_ok.
  - intros k Hk. rewrite HBB by lia. by apply K6.
  - intros k Hk. rewrite HBB by lia. by apply K7.
Qed.

(** ** ... and mounting again *)

(** the same files are found in another process, when the blocks of the disk are the same *)
Definition same_disk (D D' : device) : Prop := d_nr D' = d_nr D /\ forall c, 1 <= c -> blk D' c = blk D c.

Lemma disk_inode_same_disk D D' nr : same_disk D D' -> 0 <= nr < NR_INODES -> disk_inode D' nr = disk_inode D nr.
Proof.
  intros [_ Hb] Hn. unfold disk_inode. rewrite Hb; [done|]. pose proof (inode_block_bound nr Hn). unfold INODE_START in *. lia.
Qed.

Lemma uncached_empty w : fs_heap w = ∅ -> forall nr q, ~ cached w nr q.
Proof. intros Hh nr q (i & Hi & _). by rewrite Hh, lookup_empty in Hi. Qed.

Lemma has_file_disk w w' I B nr d O c : fs_heap w = ∅ -> fs_heap w' = ∅ -> same_disk (fs_dev w) (fs_dev w') ->
  has_file w I B nr d O c -> has_file w' I B nr d O c.
Proof.
  intros Hh Hh' Hs [[H1 H1'] H2 H3]. pose proof (da_tree _ _ _ _ _ H3) as Ht. split; [done| |].
  - right. split; [by apply uncached_empty|]. destruct H2 as [(q & i & Hi & _)|[_ <-]].
    + by rewrite Hh, lookup_empty in Hi.
    + by apply disk_inode_same_disk.
  - eapply data_frame; [exact H3| |destruct Hs; lia|apply (tr_in _ _ _ _ Ht)].
    intros b Hb. apply Hs. pose proof (tr_pos _ _ _ _ Ht b Hb). unfold DATA_START in *. lia.
Qed.

(** a process that has the disk, and nothing in memory *)
Record unmounted (w : fs) (I B : gset Z) (D : device) (max : Z) : Prop := {
  un_host : fs_host w = [];
  un_heap : fs_heap w = ∅;
  un_same : same_disk D (fs_dev w);
  un_disk : exists s iws bws, disk_ok (fs_dev w) s iws bws /\ max_fs_blocks s = max /\
    bm_set (mk_bitmap INODE_BITS iws) = I /\ bm_set (mk_bitmap BLOCK_BITS bws) = B;
}.

Lemma close_unmounted w I B : live w I B -> fs_heap w = ∅ ->
  wp testfs_close_super_block w (fun _ w' => unmounted w' I B (fs_dev w) (max_fs_blocks (fs_sb w)) /\ fs_out w' = fs_out w).
Proof.
  intros Hl Hh. eapply wp_mono; [by apply (close_spec w I B)|].
  intros _ w' (H1 & H2 & H3 & H4 & H5 & iws & bws & H6 & H7 & H8). split; [|done]. split; try done. by exists (fs_sb w), iws, bws.
Qed.

Lemma wp_print_unmounted e w I B D max : unmounted w I B D max -> wp (print e) w (fun _ w' => unmounted w' I B D max).
Proof. intros []. unfold print. by wsimpl. Qed.

Lemma mount_unmounted w0 w I B max : unmounted w I B (fs_dev w0) max -> fs_heap w0 = ∅ ->
  wp testfs_init_super_block w (fun r w' => r = 0 /\ live w' I B /\ fs_heap w' = ∅ /\ max_fs_blocks (fs_sb w') = max /\
    fs_out w' = fs_out w /\ (idle w0 I -> idle w' I) /\ forall nr d O c, has_file w0 I B nr d O c -> has_file w' I B nr d O c).
Proof.
  intros [H1 H2 H3 (s & iws & bws & H4 & H5 & HI & HB)] H0. eapply wp_mono; [by apply (mount_spec w s iws bws)|].
  intros r w' (-> & Hr & Hs & Hd & Hh & _ & _ & Ho & _ & _ & Ht). rewrite HI, HB in Hr. rewrite H2 in Hh. split; [done|].
  split; [split; [done|eexists; by apply cache_empty]|]. split; [done|]. split; [by rewrite Hs|]. split; [done|]. rewrite <- Hd in H3. split.
  - intros Hi nr Hn Hnot. split; [by apply uncached_empty|]. destruct (Hi nr Hn Hnot) as [_ <-]. by apply disk_inode_same_disk.
  - intros nr d O c. by apply has_file_disk.
Qed.

(** ** mktestfs *)

Lemma main_spec w mb : 1 <= mb <= max_fs_size_mb -> fs_host w = [] -> DATA_START + BLOCK_BITS <= d_cap (fs_dev w) ->
  fs_heap w = ∅ ->
  wp (main mb true) w (fun r w' => r = 0 /\ exists w0 B d O, unmounted w' {[0]} B (fs_dev w0) (128 * mb) /\ fs_heap w0 = ∅ /\
    idle w0 {[0]} /\ has_file w0 {[0]} B 0 d O (dir_bytes (empty_dir 0 0)) /\ i_type d = I_DIR /\
    Z.of_nat (size B) <= NEED_EMPTY).
Proof.
  intros Hmb Hh Hc He. unfold main. rewrite (proj2 (Z.ltb_ge _ _)) by lia. rewrite (proj2 (Z.ltb_ge _ _)) by lia. cbn [negb].
  pose proof (mkfs_mount_spec w mb Hmb Hh Hc He) as Hm. apply wp_bind_inv in Hm. apply wp_bind. eapply wp_mono; [exact Hm|].
  clear Hm. cbv beta. intros _ w1 Hm. apply wp_bind. eapply wp_mono; [exact Hm|]. clear Hm. cbv beta.
  intros r w2 (-> & Hl2 & Hh2 & Hmax2 & Hz2). change (negb (0 =? 0)) with false. cbv iota.
  assert (Hidle : idle w2 ∅) by (intros nr Hn _; split; [by apply uncached_empty|by apply Hz2]).
  apply wp_bind. eapply wp_mono; [apply (make_root_spec w2 Hl2 Hidle); rewrite Hmax2; unfold NEED_EMPTY; change (need 10) with 6; change (need 11) with 6; lia|].
  intros r w3 (_ & d & B & O & Hl3 & Hi3 & Hf3 & Ht3 & Hh3 & Hmax3 & Hu3). apply wp_bind.
  eapply wp_mono; [apply (close_unmounted w3 _ _ Hl3); congruence|]. intros _ w4 [Hu _].
  rewrite Hmax3, Hmax2 in Hu. clear -Hu Hi3 Hf3 Ht3 Hh3 Hh2 Hu3.
  repeat (apply wp_bind; eapply wp_mono; [by apply (wp_print_unmounted _ w4)|]; clear w4 Hu; cbv beta; intros _ w4 Hu).
  apply wp_ret. split; [done|]. exists w3, B, d, O. split_and!; try done. congruence.
Qed.
