(* ===== verification/ShellSpec.v ===== *)
(** * What the command interpreter makes of a line

    A line of words separated by single blanks runs the command of the first word
    with the others as its arguments; a line with a command and nothing else hands
    [strtok_r] a null position. *)

From stdpp Require Import base gmap list list_numbers strings.
From Stdlib Require Import ZArith Lia.
From S2P Require Import Prelude Words Bitmap Block FsState InodeHash Super Inode ReadWrite Dir File Shell.
#[local] Open Scope Z_scope.

(** ** Words and lines *)

(** at least one byte, none of them a blank; a word does not start a comment *)
Definition word_ok (w : list Z) : Prop := w <> [] /\ Forall (fun x => x ∉ blank) w.

Fixpoint join (ws : list (list Z)) : list Z :=
  match ws with
  | [] => []
  | [w] => w
  | w :: ws' => w ++ 32 :: join ws'
  end.

Lemma join_cons w ws : ws <> [] -> join (w :: ws) = w ++ 32 :: join ws.
Proof. by destruct ws. Qed.

Lemma is_delim_false d x : x ∉ d -> is_delim d x = false.
Proof. intros. unfold is_delim. by rewrite bool_decide_false. Qed.
Lemma is_delim_true d x : x ∈ d -> is_delim d x = true.
Proof. intros. unfold is_delim. by rewrite bool_decide_true. Qed.

(** a token that ends at a delimiter, or with the string *)
Lemma token_delim d w x rest : Forall (fun y => y ∉ d) w -> x ∈ d -> token d (w ++ x :: rest) = (w, rest).
Proof.
  intros Hw Hx. induction Hw as [|y w Hy Hw IH]; cbn [app token]; [by rewrite is_delim_true|].
  by rewrite is_delim_false, IH by done.
Qed.
Lemma token_end d w : Forall (fun y => y ∉ d) w -> token d w = (w, []).
Proof.
  intros Hw. induction Hw as [|y w Hy Hw IH]; cbn [token]; [done|]. by rewrite is_delim_false, IH by done.
Qed.

Lemma skip_delims_head d x l : x ∉ d -> skip_delims d (x :: l) = x :: l.
Proof. intros Hx. cbn. by rewrite is_delim_false. Qed.

(** the position a scan starts from *)
Definition pos (s save : option (list Z)) : option (list Z) := match s with Some _ => s | None => save end.
Lemma strtok_pos {S} d o save l (s : S) : pos o save = Some l -> strtok_r d o save s = strtok_r d (Some l) None s.
Proof. unfold strtok_r, pos. by intros ->. Qed.

Lemma strtok_end {S} d o (s : S) : strtok_r d (Some []) o s = Val ((None, Some []), s).
Proof. done. Qed.

(** the first token of a string that starts with one *)
Lemma strtok_delim {S} d w x rest o (s : S) : w <> [] -> Forall (fun y => y ∉ d) w -> x ∈ d ->
  strtok_r d (Some (w ++ x :: rest)) o s = Val ((Some w, Some rest), s).
Proof.
  intros Hne Hw Hx. pose proof (token_delim d w x rest Hw Hx) as Ht. destruct w as [|y w]; [done|].
  unfold strtok_r, deref, mbind, M_bind, mret, M_ret. cbn [app] in *. apply Forall_cons in Hw as [Hy _].
  rewrite skip_delims_head by done. by rewrite Ht.
Qed.
Lemma strtok_last {S} d w o (s : S) : w <> [] -> Forall (fun y => y ∉ d) w ->
  strtok_r d (Some w) o s = Val ((Some w, Some []), s).
Proof.
  intros Hne Hw. pose proof (token_end d w Hw) as Ht. destruct w as [|y w]; [done|].
  unfold strtok_r, deref, mbind, M_bind, mret, M_ret. apply Forall_cons in Hw as [Hy _].
  rewrite skip_delims_head by done. by rewrite Ht.
Qed.

(** ** Parsing *)

Lemma blank_space : 32 ∈ blank.
Proof. unfold blank. set_solver. Qed.

Lemma parse_words_spec {S} n ws o save (s : S) : Forall word_ok ws -> (length ws <= n)%nat -> ws <> [] ->
  pos o save = Some (join ws) -> parse_words n o save s = Val ((ws, None, Some []), s).
Proof.
  revert n o save. induction ws as [|w ws IH]; intros n o save Hok Hn Hne Hpos; [done|]. clear Hne.
  apply Forall_cons in Hok as [[Hw1 Hw2] Hok]. cbn [length] in Hn. destruct n as [|n]; [lia|]. cbn [parse_words].
  unfold mbind, M_bind, mret, M_ret. rewrite (strtok_pos _ _ _ _ _ Hpos). destruct ws as [|w2 ws].
  - cbn [join]. rewrite strtok_last by done. destruct n as [|n]; done.
  - rewrite join_cons, strtok_delim by (done || apply blank_space). by rewrite IH by (done || (cbn in *; lia)).
Qed.

(** the context of a command and its arguments *)
Definition args_context (name : list Z) (ws : list (list Z)) (dir : ptr) : context :=
  mk_context (1 + Z.of_nat (length ws)) (map Some (name :: ws) ++ replicate (6 - length ws) None) dir.

Lemma parse_command_spec max c name ws s : Forall word_ok ws -> ws <> [] -> Z.of_nat (length ws) < max <= MAX_ARGS ->
  parse_command max c name (Some (join ws)) s = Val (args_context name ws (cur_dir c), s).
Proof.
  intros Hok Hne Hn. unfold parse_command, mbind, M_bind. unfold MAX_ARGS in *.
  rewrite (parse_words_spec (Z.to_nat (max - 1)) ws (Some (join ws)) None s Hok ltac:(lia) Hne eq_refl).
  rewrite (strtok_pos newline None (Some []) [] s eq_refl), strtok_end. cbv beta iota zeta. rewrite app_nil_r. cbn [length].
  rewrite (proj2 (Z.ltb_ge _ _)) by (unfold MAX_ARGS; lia). unfold mret, M_ret, args_context. cbn [map app]. do 3 f_equal. lia.
Qed.

(** ** Lines *)

Definition line_of (words : list (list Z)) : list Z := join words ++ [10].

Lemma join_no_newline ws : Forall word_ok ws -> Forall (fun x => x ∉ newline) (join ws).
Proof.
  assert (Hsub : forall w, word_ok w -> Forall (fun x => x ∉ newline) w).
  { intros w [_ Hw]. eapply Forall_impl; [exact Hw|]. intros x. unfold newline, blank. set_solver. }
  induction 1 as [|w ws Hw Hok IH]; [constructor|]. destruct ws as [|w2 ws]; [by apply Hsub|].
  rewrite join_cons by done. apply Forall_app. split; [by apply Hsub|]. apply Forall_cons. split; [unfold newline; set_solver|done].
Qed.

Lemma join_ne ws : Forall word_ok ws -> ws <> [] -> join ws <> [].
Proof. intros Hok Hne. destruct Hok as [|w ws [Hw _] _]; [done|]. destruct ws; cbn; destruct w; done. Qed.

Lemma not_comment name l : word_ok name -> head name <> Some 35 -> bool_decide (head (name ++ l) = Some 35) = false.
Proof. intros [Hne _] Hh. apply bool_decide_false. by destruct name. Qed.

Section line.
Context (e : cmd_entry) (name : list Z) (s : shell).
Hypothesis Hname : word_ok name.
Hypothesis Hhead : head name <> Some 35.
Hypothesis He : find_command cmdtable name = Some e.

Lemma entry_max : 0 < cmd_max_args e <= MAX_ARGS.
Proof.
  assert (H : Forall (fun e => 0 < cmd_max_args e <= MAX_ARGS) cmdtable) by (unfold MAX_ARGS; repeat constructor; cbn; lia).
  revert He. induction H as [|x l Hx Hl IH]; cbn [find_command]; [done|]. case_bool_decide; [by intros [= <-]|done].
Qed.

Lemma handle_line_spec ws : Forall word_ok ws -> ws <> [] -> Z.of_nat (length ws) < cmd_max_args e ->
  handle_line false (line_of (name :: ws)) s = (set_ctx (args_context name ws (cur_dir (sh_ctx s)));; run_command e name) s.
Proof.
  intros Hok Hne Hn. pose proof entry_max as Hmax. unfold handle_line, line_of. rewrite join_cons, <- app_assoc by done.
  rewrite not_comment by done. cbn [app]. destruct Hname as [Hne' Hw].
  unfold mbind at 1, M_bind at 1. unfold mret at 1, M_ret at 1. unfold mbind at 1, M_bind at 1.
  rewrite (strtok_delim blank name 32 (join ws ++ [10])) by (done || apply blank_space).
  unfold mbind at 1, M_bind at 1. rewrite (strtok_pos newline None _ _ s eq_refl).
  rewrite (strtok_delim newline (join ws) 10 []) by (by apply join_ne || by apply join_no_newline || (unfold newline; set_solver)).
  unfold handle_command. rewrite He. unfold gets. unfold mbind at 1, M_bind at 1.
  unfold mbind at 1, M_bind at 1. by rewrite parse_command_spec by lia || done.
Qed.

(** a command without arguments hands a null position to [strtok_r] *)
Lemma bare_command : handle_line false (line_of [name]) s = Fault Undefined.
Proof.
  unfold handle_line, line_of. cbn [join]. rewrite not_comment by done. destruct Hname as [Hne' Hw].
  unfold mbind at 1, M_bind at 1. unfold mret at 1, M_ret at 1. unfold mbind at 1, M_bind at 1.
  rewrite (strtok_delim blank name 10 []) by (done || (unfold blank; set_solver)).
  unfold mbind at 1, M_bind at 1. rewrite (strtok_pos newline None _ _ s eq_refl), strtok_end.
  unfold handle_command. rewrite He. unfold gets. unfold mbind at 1, M_bind at 1.
  unfold parse_command, mbind, M_bind. by destruct (Z.to_nat (cmd_max_args e - 1)).
Qed.
End line.
