(* ===== verification/ShellFiles.v ===== *)
(** * Command lines that create and remove files

    The lines "create NAME" and "rm NAME" act on the file system as
    [testfs_create_file_or_dir] and [cmd_rm] do; together they leave no trace but
    for a free entry in the directory. *)

From stdpp Require Import base gmap list list_numbers strings.
From Stdlib Require Import ZArith Lia.
From S2P Require Import Prelude Words Bitmap Block FsState InodeHash Super Inode ReadWrite Dir File Shell FileTree FileAlloc FileData FileFree DirSpec MkfsSpec FileSpec FileMap DirFiles DirRemove ShellSpec.
#[local] Open Scope Z_scope.

(** ** Entries added and removed *)

Lemma find_name_remove_add name nr es : 0 <= nr -> find_name name es = None ->
  find_name name (remove_entry name (add_entry (new_entry name nr) es)) = None.
Proof.
  intros Hnr. assert (Hn : 0 <= d_inode_nr (new_entry name nr) /\ d_name (new_entry name nr) = c_str name) by done.
  assert (Hfree : forall l, find_name name l = None ->
    find_name name (mk_dirent (d_name_len (new_entry name nr)) INVALID_INODE_NR (d_name (new_entry name nr)) :: l) = None).
  { intros l Hl. cbn [find_name]. by rewrite bool_decide_false by (intros [? _]; done). }
  induction es as [|x es IH]; cbn [add_entry].
  - intros _. cbn [remove_entry]. rewrite bool_decide_true by done. by apply Hfree.
  - cbn [find_name]. case_bool_decide as E; [done|]. intros Hno. case_decide as Hd.
    + cbn [remove_entry]. rewrite bool_decide_true by done. by apply Hfree.
    + cbn [remove_entry]. rewrite bool_decide_false by done. cbn [find_name]. rewrite bool_decide_false by done. by apply IH.
Qed.

Lemma add_entry_size e es : Forall entry_ok es -> entry_ok e ->
  zlen (dir_bytes (add_entry e es)) <= zlen (dir_bytes es) + zlen (dirent_bytes e).
Proof.
  intros Hok He. pose proof (zlen_nonneg (dirent_bytes e)) as H0. induction Hok as [|x es Hx Hok IH]; cbn [add_entry].
  - rewrite dir_bytes_cons, zlen_app. lia.
  - case_decide as Hd; rewrite !dir_bytes_cons, !zlen_app; [|lia]. destruct Hd as [_ Hl].
    pose proof (zlen_nonneg (dirent_bytes x)). lia.
Qed.

(** ** One line *)

Definition create_name : list Z := bytes_of "create".
Definition rm_name : list Z := bytes_of "rm".
Definition create_entry : cmd_entry := mk_cmd "create" F_create 2 "creates a new file FILE in the current directory." "usage: create FILE".
Definition rm_entry : cmd_entry := mk_cmd "rm" F_rm 2 "removes a file or directory with name NAME." "usage: rm NAME".

(** a line with one argument whose command returns 0 *)
Lemma wp_line1 e cname name s (Q : unit -> shell -> Prop) : word_ok cname -> head cname <> Some 35 -> find_command cmdtable cname = Some e ->
  word_ok name -> 1 < cmd_max_args e ->
  wp (call_func (cmd_func e)) (mk_shell (sh_fs s) (args_context cname [name] (cur_dir (sh_ctx s))) (can_quit s) (sh_err s))
    (fun r s' => r = 0 /\ Q tt s') ->
  wp (handle_line false (line_of [cname; name])) s Q.
Proof.
  intros Hc Hh He Hn Hm H. unfold wp. rewrite (handle_line_spec e cname s Hc Hh He [name]); [|by apply Forall_singleton|done|cbn; lia].
  change (wp (set_ctx (args_context cname [name] (cur_dir (sh_ctx s)));; run_command e cname) s Q).
  unfold set_ctx, run_command. wsimpl. eapply wp_mono; [exact H|]. intros r s' [-> HQ]. rewrite (Z.ltb_irrefl 0). by wsimpl.
Qed.

Section line.
Context (s : shell) (I B O : gset Z) (i : inode) (es : list dirent) (name : list Z).
Abbreviation p := (cur_dir (sh_ctx s)).
Abbreviation esize := (sizeof_dirent + (zlen name + 1)).
Hypothesis Hl : live (sh_fs s) I B.
Hypothesis Hidle : idle (sh_fs s) I.
Hypothesis Hd : is_dir (sh_fs s) I B p i O es.
Hypothesis Hw : word_ok name.
Hypothesis Hname : name_ok name.
Hypothesis Hmax : zlen (dir_bytes es) + esize < 1073741824.

Lemma create_line : find_name name es = None -> (exists j, 0 <= j < NR_INODES /\ (j ∉ I)) ->
  Z.of_nat (size B) + NEED_EMPTY + need esize <= max_fs_blocks (fs_sb (sh_fs s)) ->
  wp (handle_line false (line_of [create_name; name])) s (fun _ s' => can_quit s' = can_quit s /\ cur_dir (sh_ctx s') = p /\
    exists nr i' d B' O' Oc, made (sh_fs s) I B O p i es name I_FILE nr (sh_fs s') i' d B' O' Oc).
Proof.
  intros Hno (j & Hj & Hjn) Hroom. apply (wp_line1 create_entry); [split; [done|]|done|done|done|done|].
  { by apply (bool_decide_eq_true (Forall (fun x => x ∉ blank) create_name)). }
  unfold call_func. wsimpl. cbn [cmd_func create_entry sh_ctx]. unfold on_fs. apply wp_zoom. cbn [sh_fs].
  unfold cmd_create, arg, args_context. cbn [nargs length cmd cur_dir]. change (negb (1 + Z.of_nat 1 =? 2)) with false. cbv iota. wsimpl.
  eapply wp_deref; [done|]. wsimpl. eapply wp_deref; [done|]. wsimpl.
  eapply wp_mono; [by apply (create_refines (sh_fs s) I B I_FILE Hl Hidle ltac:(done) O p i es name Hd Hname)|].
  cbv beta. intros r w'. rewrite Hno. intros [[-> H]|(_ & H & _)]; [done|]. exfalso. by apply Hjn, H.
Qed.

Lemma rm_line nr d O2 c2 : name <> dot -> name <> dotdot -> find_name name es = Some nr -> has_file (sh_fs s) I B nr d O2 c2 ->
  (forall q, ~ cached (sh_fs s) nr q) -> verdict d c2 0 -> O ## O2 -> Z.of_nat (size B) + need esize <= max_fs_blocks (fs_sb (sh_fs s)) ->
  wp (handle_line false (line_of [rm_name; name])) s (fun _ s' => can_quit s' = can_quit s /\ cur_dir (sh_ctx s') = p /\
    exists i' B' O', gone (sh_fs s) I B O p i es name nr O2 (sh_fs s') i' B' O').
Proof.
  intros N1 N2 Hf Hh Hno Hv Hdis Hroom. apply (wp_line1 rm_entry); [split; [done|]|done|done|done|done|].
  { by apply (bool_decide_eq_true (Forall (fun x => x ∉ blank) rm_name)). }
  unfold call_func. wsimpl. cbn [cmd_func rm_entry sh_ctx]. unfold on_fs. apply wp_zoom. cbn [sh_fs].
  eapply wp_mono; [by eapply (rm_spec (sh_fs s) I B O p i es name nr d O2 c2)|]. cbv beta. intros r w' [-> H]. done.
Qed.
End line.

(** ** A file is created and removed *)

(** the other files after both lines *)
Definition kept_files (w : fs) (I B : gset Z) (dir : Z) (O : gset Z) (w' : fs) (B' : gset Z) : Prop :=
  forall nr d O2 c, nr ∈ I -> nr <> dir -> has_file w I B nr d O2 c -> O ## O2 -> has_file w' I B' nr d O2 c.

Lemma create_rm s I B O i es name : live (sh_fs s) I B -> idle (sh_fs s) I -> is_dir (sh_fs s) I B (cur_dir (sh_ctx s)) i O es ->
  can_quit s = false -> word_ok name -> name_ok name -> name <> dot -> name <> dotdot -> find_name name es = None ->
  (exists j, 0 <= j < NR_INODES /\ (j ∉ I)) -> zlen (dir_bytes es) + 2 * (sizeof_dirent + (zlen name + 1)) < 1073741824 ->
  Z.of_nat (size B) + NEED_EMPTY + 2 * need (sizeof_dirent + (zlen name + 1)) <= max_fs_blocks (fs_sb (sh_fs s)) ->
  wp (main_loop true false [line_of [create_name; name]; line_of [rm_name; name]]) s (fun _ s' => exists i' B' O' es',
    live (sh_fs s') I B' /\ idle (sh_fs s') I /\ is_dir (sh_fs s') I B' (cur_dir (sh_ctx s)) i' O' es' /\
    find_name name es' = None /\ (forall name', name' <> name -> find_name name' es' = find_name name' es) /\
    kept_files (sh_fs s) I B (i_nr i) O (sh_fs s') B').
Proof.
  intros Hl Hidle Hd Hq Hw Hname N1 N2 Hno Hfree Hmax Hroom. pose proof (zlen_nonneg name) as Hn0.
  assert (Hs8 : sizeof_dirent = 8) by done. assert (Hneed : 0 <= need (sizeof_dirent + (zlen name + 1))) by (apply need_pos; lia).
  cbn [main_loop]. apply wp_bind, wp_ret, wp_bind.
  eapply wp_mono; [apply (create_line s I B O i es name Hl Hidle Hd Hw Hname ltac:(lia) Hno Hfree ltac:(lia))|].
  cbv beta. intros _ s1 (Hq1 & Hc1 & nr & i1 & d & B1 & O1 & Oc & M). apply wp_bind, wp_gets. rewrite Hq1, Hq. cbv iota.
  apply wp_bind, wp_ret, wp_bind. destruct M as [M1 M2 M3 M4 M5 M6 M7 M8 M9 M10 M11 M12 M13 M14 M15 M16].
  pose proof (hf_nr _ _ _ _ _ _ _ M10) as [_ Hnr]. change NR_INODES with 16384 in Hnr.
  assert (HdI : i_nr i ∈ I) by (apply (if_nr _ _ _ _ _ _ _ (id_file _ _ _ _ _ _ _ Hd))).
  assert (Hsame : ({[nr]} ∪ I) ∖ {[nr]} = I) by set_solver. rewrite <- Hc1 in M5.
  assert (Hsz : zlen (dir_bytes (add_entry (new_entry name nr) es)) <= zlen (dir_bytes es) + (sizeof_dirent + (zlen name + 1))).
  { pose proof (new_entry_ok name nr Hname ltac:(lia)) as He. pose proof (zlen_dirent_bytes _ He) as Hz. cbn [d_name_len new_entry] in Hz.
    rewrite <- Hz. apply add_entry_size; [apply Hd|done]. }
  assert (Hv : verdict d (initial I_FILE nr (i_nr i)) 0) by (left; by rewrite M11).
  eapply wp_mono; [apply (rm_line s1 ({[nr]} ∪ I) B1 O1 i1 (add_entry (new_entry name nr) es) name (ef_live _ _ _ _ _ _ _ _ _ M3) M4 M5 Hw Hname ltac:(lia) nr d Oc (initial I_FILE nr (i_nr i)) N1 N2); [|done|done|exact Hv|done|lia]|].
  { apply find_name_add_same; first [lia|done]. }
  cbv beta. intros _ s2 (Hq2 & Hc2 & i2 & B2 & O2 & [G1 G2 G3 G4 G5 G6 G7 G8 G9 G10]). apply wp_bind, wp_gets. rewrite Hq2, Hq1, Hq. cbv iota.
  apply wp_bind, wp_ret, wp_ret. rewrite Hc1, Hsame in *. exists i2, B2, O2, (remove_entry name (add_entry (new_entry name nr) es)).
  split; [apply G1|]. split; [done|]. split; [done|]. split; [apply find_name_remove_add; [lia|done]|]. split.
  - intros name' Hne. rewrite find_name_remove_other by done. by apply find_name_add_other.
  - intros k dk Ok ck Hk Hkd Hf Hdis. destruct (ef_keeps _ _ _ _ _ _ _ _ _ M3 k dk Ok ck) as [Hf1 Hd1]; [set_solver|done|done|].
    rewrite M6 in G1. apply (ef_keeps _ _ _ _ _ _ _ _ _ G1 k dk Ok ck); [set_solver|done|done].
Qed.
