(* ===== verification/Quiet.v ===== *)
(** * What a computation leaves as it is

    [preserves R m]: every run of [m] that returns relates its states by [R].  The
    operations of the file system neither print nor change the size of the file
    system; the commands that print do it themselves. *)

From stdpp Require Import base gmap list list_numbers strings.
From Stdlib Require Import ZArith Lia.
From S2P Require Import Prelude Words Bitmap Block FsState InodeHash Super Inode ReadWrite Dir File.
#[local] Open Scope Z_scope.

Create HintDb quiet discriminated.
#[export] Hint Constants Opaque : quiet.

Section preserves.
Context {S : Type} (R : S -> S -> Prop) `{!PreOrder R}.

Definition preserves {A} (m : M S A) : Prop := forall s, wlp m s (fun _ s' => R s s').

Lemma preserves_intro {A} (m : M S A) : (forall s a s', m s = Val (a, s') -> R s s') -> preserves m.
Proof. intros H s. unfold wlp. destruct (m s) as [[a s']|f] eqn:E; [by eapply H|done]. Qed.

Lemma preserves_ret {A} (a : A) : preserves (mret a).
Proof. intros s. by apply wlp_ret. Qed.
Lemma preserves_stop {A} f : preserves (stop (A:=A) f).
Proof. intros s. by apply wlp_stop. Qed.
Lemma preserves_get : preserves get.
Proof. intros s. by apply wlp_get. Qed.
Lemma preserves_gets {A} (f : S -> A) : preserves (gets f).
Proof. intros s. by apply wlp_gets. Qed.
Lemma preserves_deref {A} (o : option A) : preserves (deref o).
Proof. intros s. by apply wlp_deref. Qed.
Lemma preserves_assert b : preserves (assert_ b).
Proof. intros s. by apply wlp_assert. Qed.

Lemma preserves_bind {A B} (m : M S A) (k : A -> M S B) : preserves m -> (forall a, preserves (k a)) -> preserves (m ≫= k).
Proof.
  intros Hm Hk s. apply wlp_bind. eapply wlp_mono; [apply Hm|]. intros a s' H1. cbv beta.
  eapply wlp_mono; [apply Hk|]. intros b s2 H2. cbv beta. by transitivity s'.
Qed.

Lemma preserves_while {X A} (body : X -> M S (X + A)) x : (forall x, preserves (body x)) -> preserves (while_ body x).
Proof.
  intros Hb s. apply (wlp_while (fun _ s' => R s s')); [done|]. intros y s1 H1. eapply wlp_mono; [apply Hb|].
  intros [x'|v] s2 H2; by transitivity s1.
Qed.

Lemma preserves_for n lo body : (forall i, preserves (body i)) -> preserves (for_ n lo body).
Proof.
  intros Hb. revert lo. induction n as [|n IH]; intros lo; [apply preserves_ret|]. cbn [for_].
  apply preserves_bind; [done|]. intros _. apply IH.
Qed.

(** a specification together with what is preserved *)
Lemma wp_preserves {A} (m : M S A) s (Q : A -> S -> Prop) : preserves m -> wp m s Q -> wp m s (fun a s' => Q a s' /\ R s s').
Proof. intros Hm. specialize (Hm s). unfold wp, wlp in *. destruct (m s) as [[a s']|f]; auto. Qed.
End preserves.

(** ** Computations of the file system that print nothing *)

Record unchanged (w w' : fs) : Prop := {
  un_out : fs_out w' = fs_out w;
  un_max : max_fs_blocks (fs_sb w') = max_fs_blocks (fs_sb w);
}.

#[export] Instance unchanged_preorder : PreOrder unchanged.
Proof. split; [by intros w|]. intros w1 w2 w3 [O1 M1] [O2 M2]. by split; congruence. Qed.

Definition quiet {A} (m : M fs A) : Prop := preserves unchanged m.

Lemma quiet_modify f : (forall w, unchanged w (f w)) -> quiet (modify f).
Proof. intros H w. apply wlp_modify, H. Qed.

Lemma quiet_zoom {T A} (proj : fs -> T) inj (m : M T A) : (forall t w, unchanged w (inj t w)) -> quiet (zoom proj inj m).
Proof. intros H w. unfold wlp, zoom. by destruct (m (proj w)) as [[a t]|f]. Qed.

(** computations that do not touch the state at all, whatever it is *)
Lemma quiet_pure {A} (m : M fs A) : (forall w, wlp m w (fun _ w' => w' = w)) -> quiet m.
Proof. intros H w. eapply wlp_mono; [apply H|]. by intros a w' ->. Qed.

Ltac quiet_step :=
  lazymatch goal with
  | |- quiet (_ ≫= _) => apply (preserves_bind unchanged); [|intros ?]
  | |- quiet (mret _) => apply (preserves_ret unchanged)
  | |- quiet (stop _) => apply (preserves_stop unchanged)
  | |- quiet get => apply (preserves_get unchanged)
  | |- quiet (gets _) => apply (preserves_gets unchanged)
  | |- quiet (deref _) => apply (preserves_deref unchanged)
  | |- quiet (assert_ _) => apply (preserves_assert unchanged)
  | |- quiet (while_ _ _) => apply (preserves_while unchanged); intros ?
  | |- quiet (for_ _ _ _) => apply (preserves_for unchanged); intros ?
  | |- quiet (modify _) => apply quiet_modify; intros ?; by split
  | |- quiet (zoom _ _ _) => apply quiet_zoom; intros ??; by split
  | |- quiet (match ?x with _ => _ end) => destruct x
  end.
Ltac quiet_auto :=
  try change (preserves unchanged ?m) with (quiet m);
  repeat first [solve [eauto 2 with quiet nocore] | progress quiet_step; try change (preserves unchanged ?m) with (quiet m) | progress cbv beta zeta].

(** *** Buffers and integers *)

Lemma quiet_buf_read l off n : quiet (buf_read l off n).
Proof. unfold buf_read. quiet_auto. Qed.
#[export] Hint Resolve quiet_buf_read : quiet.
Lemma quiet_buf_write l off x : quiet (buf_write l off x).
Proof. unfold buf_write. quiet_auto. Qed.
#[export] Hint Resolve quiet_buf_write : quiet.
Lemma quiet_int_read l i : quiet (int_read l i).
Proof. unfold int_read. quiet_auto. Qed.
#[export] Hint Resolve quiet_int_read : quiet.
Lemma quiet_int_write l i v : quiet (int_write l i v).
Proof. unfold int_write. quiet_auto. Qed.
#[export] Hint Resolve quiet_int_write : quiet.
Lemma quiet_strcmp_eq a b : quiet (strcmp_eq a b).
Proof. revert b. induction a as [|x a IH]; intros [|y b]; cbn [strcmp_eq]; quiet_auto. Qed.
#[export] Hint Resolve quiet_strcmp_eq : quiet.
Lemma quiet_str_of_buf l : quiet (str_of_buf l).
Proof. induction l as [|x l IH]; cbn [str_of_buf]; quiet_auto. Qed.
#[export] Hint Resolve quiet_str_of_buf : quiet.

(** *** The state, the device and the free maps *)

Lemma quiet_on_dev {A} (m : M device A) : quiet (on_dev m).
Proof. apply quiet_zoom. intros t w. by split. Qed.
#[export] Hint Resolve quiet_on_dev : quiet.
Lemma quiet_on_imap {A} (m : M bitmap A) : quiet (on_imap m).
Proof. unfold on_imap. quiet_auto. Qed.
#[export] Hint Resolve quiet_on_imap : quiet.
Lemma quiet_on_bmap {A} (m : M bitmap A) : quiet (on_bmap m).
Proof. unfold on_bmap. quiet_auto. Qed.
#[export] Hint Resolve quiet_on_bmap : quiet.
Lemma quiet_read_block b : quiet (read_block b).
Proof. unfold read_block. quiet_auto. Qed.
#[export] Hint Resolve quiet_read_block : quiet.
Lemma quiet_write_block l b : quiet (write_block l b).
Proof. unfold write_block. quiet_auto. Qed.
#[export] Hint Resolve quiet_write_block : quiet.
Lemma quiet_host_ok : quiet (host_ok).
Proof. unfold host_ok. quiet_auto. Qed.
#[export] Hint Resolve quiet_host_ok : quiet.
Lemma quiet_uninit n : quiet (uninit n).
Proof. unfold uninit. quiet_auto. Qed.
#[export] Hint Resolve quiet_uninit : quiet.
Lemma quiet_get_inode p : quiet (get_inode p).
Proof. unfold get_inode. quiet_auto. Qed.
#[export] Hint Resolve quiet_get_inode : quiet.
Lemma quiet_upd_inode p f : quiet (upd_inode p f).
Proof. unfold upd_inode. quiet_auto. Qed.
#[export] Hint Resolve quiet_upd_inode : quiet.
Lemma quiet_testfs_write_super_block : quiet (testfs_write_super_block).
Proof. unfold testfs_write_super_block. quiet_auto. Qed.
#[export] Hint Resolve quiet_testfs_write_super_block : quiet.
Lemma quiet_testfs_write_inode_freemap nr : quiet (testfs_write_inode_freemap nr).
Proof. unfold testfs_write_inode_freemap. quiet_auto. Qed.
#[export] Hint Resolve quiet_testfs_write_inode_freemap : quiet.
Lemma quiet_testfs_write_block_freemap nr : quiet (testfs_write_block_freemap nr).
Proof. unfold testfs_write_block_freemap. quiet_auto. Qed.
#[export] Hint Resolve quiet_testfs_write_block_freemap : quiet.
Lemma quiet_testfs_get_block_freemap : quiet (testfs_get_block_freemap).
Proof. unfold testfs_get_block_freemap. quiet_auto. Qed.
#[export] Hint Resolve quiet_testfs_get_block_freemap : quiet.
Lemma quiet_testfs_put_block_freemap nr : quiet (testfs_put_block_freemap nr).
Proof. unfold testfs_put_block_freemap. quiet_auto. Qed.
#[export] Hint Resolve quiet_testfs_put_block_freemap : quiet.
Lemma quiet_upd_sb f : (forall s, max_fs_blocks (f s) = max_fs_blocks s) -> quiet (upd_sb f).
Proof. intros Hf. apply quiet_modify. intros w. split; [done|apply Hf]. Qed.
Lemma quiet_testfs_get_inode_freemap : quiet (testfs_get_inode_freemap).
Proof. unfold testfs_get_inode_freemap. quiet_auto; by apply quiet_upd_sb. Qed.
#[export] Hint Resolve quiet_testfs_get_inode_freemap : quiet.
Lemma quiet_testfs_put_inode_freemap nr : quiet (testfs_put_inode_freemap nr).
Proof. unfold testfs_put_inode_freemap. quiet_auto; by apply quiet_upd_sb. Qed.
#[export] Hint Resolve quiet_testfs_put_inode_freemap : quiet.
Lemma quiet_testfs_alloc_block : quiet (testfs_alloc_block).
Proof. unfold testfs_alloc_block. quiet_auto; by apply quiet_upd_sb. Qed.
#[export] Hint Resolve quiet_testfs_alloc_block : quiet.
Lemma quiet_testfs_free_block nr : quiet (testfs_free_block nr).
Proof. unfold testfs_free_block. quiet_auto; by apply quiet_upd_sb. Qed.
#[export] Hint Resolve quiet_testfs_free_block : quiet.

(** *** Inodes *)

Lemma quiet_hash_scan l nr : quiet (hash_scan l nr).
Proof. induction l as [|p l IH]; cbn [hash_scan]; quiet_auto. Qed.
#[export] Hint Resolve quiet_hash_scan : quiet.
Lemma quiet_inode_hash_find nr : quiet (inode_hash_find nr).
Proof. unfold inode_hash_find. quiet_auto. Qed.
#[export] Hint Resolve quiet_inode_hash_find : quiet.
Lemma quiet_inode_hash_insert p : quiet (inode_hash_insert p).
Proof. unfold inode_hash_insert. quiet_auto. Qed.
#[export] Hint Resolve quiet_inode_hash_insert : quiet.
Lemma quiet_inode_hash_remove p : quiet (inode_hash_remove p).
Proof. unfold inode_hash_remove. quiet_auto. Qed.
#[export] Hint Resolve quiet_inode_hash_remove : quiet.
Lemma quiet_testfs_inode_to_block_nr p : quiet (testfs_inode_to_block_nr p).
Proof. unfold testfs_inode_to_block_nr. quiet_auto. Qed.
#[export] Hint Resolve quiet_testfs_inode_to_block_nr : quiet.
Lemma quiet_testfs_inode_to_block_offset p : quiet (testfs_inode_to_block_offset p).
Proof. unfold testfs_inode_to_block_offset. quiet_auto. Qed.
#[export] Hint Resolve quiet_testfs_inode_to_block_offset : quiet.
Lemma quiet_testfs_read_inode_block p : quiet (testfs_read_inode_block p).
Proof. unfold testfs_read_inode_block. quiet_auto. Qed.
#[export] Hint Resolve quiet_testfs_read_inode_block : quiet.
Lemma quiet_testfs_write_inode_block p l : quiet (testfs_write_inode_block p l).
Proof. unfold testfs_write_inode_block. quiet_auto. Qed.
#[export] Hint Resolve quiet_testfs_write_inode_block : quiet.
Lemma quiet_new_inode i : quiet (new_inode i).
Proof. unfold new_inode. quiet_auto. Qed.
#[export] Hint Resolve quiet_new_inode : quiet.
Lemma quiet_testfs_get_inode nr : quiet (testfs_get_inode nr).
Proof. unfold testfs_get_inode. quiet_auto. Qed.
#[export] Hint Resolve quiet_testfs_get_inode : quiet.
Lemma quiet_testfs_sync_inode p : quiet (testfs_sync_inode p).
Proof. unfold testfs_sync_inode. quiet_auto. Qed.
#[export] Hint Resolve quiet_testfs_sync_inode : quiet.
Lemma quiet_testfs_put_inode p : quiet (testfs_put_inode p).
Proof. unfold testfs_put_inode. quiet_auto. Qed.
#[export] Hint Resolve quiet_testfs_put_inode : quiet.
Lemma quiet_testfs_inode_get_nr p : quiet (testfs_inode_get_nr p).
Proof. unfold testfs_inode_get_nr. quiet_auto. Qed.
#[export] Hint Resolve quiet_testfs_inode_get_nr : quiet.
Lemma quiet_testfs_inode_get_type p : quiet (testfs_inode_get_type p).
Proof. unfold testfs_inode_get_type. quiet_auto. Qed.
#[export] Hint Resolve quiet_testfs_inode_get_type : quiet.
Lemma quiet_testfs_inode_get_size p : quiet (testfs_inode_get_size p).
Proof. unfold testfs_inode_get_size. quiet_auto. Qed.
#[export] Hint Resolve quiet_testfs_inode_get_size : quiet.
Lemma quiet_testfs_inode_get_block_count p : quiet (testfs_inode_get_block_count p).
Proof. unfold testfs_inode_get_block_count. quiet_auto. Qed.
#[export] Hint Resolve quiet_testfs_inode_get_block_count : quiet.
Lemma quiet_testfs_create_inode t : quiet (testfs_create_inode t).
Proof. unfold testfs_create_inode. quiet_auto. Qed.
#[export] Hint Resolve quiet_testfs_create_inode : quiet.
Lemma quiet_testfs_alloc_block_for_inode p : quiet (testfs_alloc_block_for_inode p).
Proof. unfold testfs_alloc_block_for_inode. quiet_auto. Qed.
#[export] Hint Resolve quiet_testfs_alloc_block_for_inode : quiet.
Lemma quiet_testfs_free_block_from_inode p nr : quiet (testfs_free_block_from_inode p nr).
Proof. unfold testfs_free_block_from_inode. quiet_auto. Qed.
#[export] Hint Resolve quiet_testfs_free_block_from_inode : quiet.

(** *** Data *)

Lemma quiet_direct_read d i : quiet (direct_read d i).
Proof. unfold direct_read. quiet_auto. Qed.
#[export] Hint Resolve quiet_direct_read : quiet.
Lemma quiet_upd_in p f : quiet (upd_in p f).
Proof. unfold upd_in. quiet_auto. Qed.
#[export] Hint Resolve quiet_upd_in : quiet.
Lemma quiet_testfs_read_block p n l : quiet (testfs_read_block p n l).
Proof. unfold testfs_read_block. quiet_auto. Qed.
#[export] Hint Resolve quiet_testfs_read_block : quiet.
Lemma quiet_read_round p start size x : quiet (read_round p start size x).
Proof. unfold read_round. quiet_auto. Qed.
#[export] Hint Resolve quiet_read_round : quiet.
Lemma quiet_testfs_read_data p l start size : quiet (testfs_read_data p l start size).
Proof. unfold testfs_read_data. quiet_auto. Qed.
#[export] Hint Resolve quiet_testfs_read_data : quiet.
Lemma quiet_test_flag f : quiet (test_flag f).
Proof. unfold test_flag. quiet_auto. Qed.
#[export] Hint Resolve quiet_test_flag : quiet.
Lemma quiet_allocate_direct p n : quiet (allocate_direct p n).
Proof. unfold allocate_direct. quiet_auto. Qed.
#[export] Hint Resolve quiet_allocate_direct : quiet.
Lemma quiet_allocate_indirect p n : quiet (allocate_indirect p n).
Proof. unfold allocate_indirect. quiet_auto. Qed.
#[export] Hint Resolve quiet_allocate_indirect : quiet.
Lemma quiet_allocate_dindirect p n : quiet (allocate_dindirect p n).
Proof. unfold allocate_dindirect. quiet_auto. Qed.
#[export] Hint Resolve quiet_allocate_dindirect : quiet.
Lemma quiet_testfs_allocate_block p n l : quiet (testfs_allocate_block p n l).
Proof. unfold testfs_allocate_block. quiet_auto. Qed.
#[export] Hint Resolve quiet_testfs_allocate_block : quiet.
Lemma quiet_write_round p l start size x : quiet (write_round p l start size x).
Proof. unfold write_round. quiet_auto. Qed.
#[export] Hint Resolve quiet_write_round : quiet.
Lemma quiet_testfs_write_data p l start size : quiet (testfs_write_data p l start size).
Proof. unfold testfs_write_data. quiet_auto. Qed.
#[export] Hint Resolve quiet_testfs_write_data : quiet.
Lemma quiet_free_entries n j p l : quiet (free_entries n j p l).
Proof. revert j l. induction n as [|n IH]; intros j l; cbn [free_entries]; quiet_auto. Qed.
#[export] Hint Resolve quiet_free_entries : quiet.
Lemma quiet_free_indirects p e i l n : quiet (free_indirects p e i l n).
Proof. revert i l. induction n as [|n IH]; intros i l; cbn [free_indirects]; quiet_auto. Qed.
#[export] Hint Resolve quiet_free_indirects : quiet.
Lemma quiet_free_direct_blocks p e : quiet (free_direct_blocks p e).
Proof. unfold free_direct_blocks. quiet_auto. Qed.
#[export] Hint Resolve quiet_free_direct_blocks : quiet.
Lemma quiet_free_indirect_blocks p e : quiet (free_indirect_blocks p e).
Proof. unfold free_indirect_blocks. quiet_auto. Qed.
#[export] Hint Resolve quiet_free_indirect_blocks : quiet.
Lemma quiet_free_dindirect_blocks p e : quiet (free_dindirect_blocks p e).
Proof. unfold free_dindirect_blocks. quiet_auto. Qed.
#[export] Hint Resolve quiet_free_dindirect_blocks : quiet.
Lemma quiet_testfs_free_blocks p : quiet (testfs_free_blocks p).
Proof. unfold testfs_free_blocks. quiet_auto. Qed.
#[export] Hint Resolve quiet_testfs_free_blocks : quiet.
Lemma quiet_testfs_remove_inode p : quiet (testfs_remove_inode p).
Proof. unfold testfs_remove_inode. quiet_auto. Qed.
#[export] Hint Resolve quiet_testfs_remove_inode : quiet.

(** *** Directories *)

Lemma quiet_testfs_next_dirent p off : quiet (testfs_next_dirent p off).
Proof. unfold testfs_next_dirent. quiet_auto. Qed.
#[export] Hint Resolve quiet_testfs_next_dirent : quiet.
Lemma quiet_testfs_write_dirent p name len nr off : quiet (testfs_write_dirent p name len nr off).
Proof. unfold testfs_write_dirent. quiet_auto. Qed.
#[export] Hint Resolve quiet_testfs_write_dirent : quiet.
Lemma quiet_add_round p name len x : quiet (add_round p name len x).
Proof. unfold add_round. quiet_auto. Qed.
#[export] Hint Resolve quiet_add_round : quiet.
Lemma quiet_testfs_add_dirent p name nr : quiet (testfs_add_dirent p name nr).
Proof. unfold testfs_add_dirent. quiet_auto. Qed.
#[export] Hint Resolve quiet_testfs_add_dirent : quiet.
Lemma quiet_allowed_round p x : quiet (allowed_round p x).
Proof. unfold allowed_round. quiet_auto. Qed.
#[export] Hint Resolve quiet_allowed_round : quiet.
Lemma quiet_testfs_remove_dirent_allowed nr : quiet (testfs_remove_dirent_allowed nr).
Proof. unfold testfs_remove_dirent_allowed. quiet_auto. Qed.
#[export] Hint Resolve quiet_testfs_remove_dirent_allowed : quiet.
Lemma quiet_remove_round p name x : quiet (remove_round p name x).
Proof. unfold remove_round. quiet_auto. Qed.
#[export] Hint Resolve quiet_remove_round : quiet.
Lemma quiet_testfs_remove_dirent p name : quiet (testfs_remove_dirent p name).
Proof. unfold testfs_remove_dirent. quiet_auto. Qed.
#[export] Hint Resolve quiet_testfs_remove_dirent : quiet.
Lemma quiet_testfs_create_empty_dir nr p : quiet (testfs_create_empty_dir nr p).
Proof. unfold testfs_create_empty_dir. quiet_auto. Qed.
#[export] Hint Resolve quiet_testfs_create_empty_dir : quiet.
Lemma quiet_lookup_round p name x : quiet (lookup_round p name x).
Proof. unfold lookup_round. quiet_auto. Qed.
#[export] Hint Resolve quiet_lookup_round : quiet.
Lemma quiet_testfs_dir_name_to_inode_nr p name : quiet (testfs_dir_name_to_inode_nr p name).
Proof. unfold testfs_dir_name_to_inode_nr. quiet_auto. Qed.
#[export] Hint Resolve quiet_testfs_dir_name_to_inode_nr : quiet.
Lemma quiet_testfs_create_file_or_dir p t name : quiet (testfs_create_file_or_dir p t name).
Proof. unfold testfs_create_file_or_dir. quiet_auto. Qed.
#[export] Hint Resolve quiet_testfs_create_file_or_dir : quiet.
Lemma quiet_testfs_get_file_inode p name : quiet (testfs_get_file_inode p name).
Proof. unfold testfs_get_file_inode. quiet_auto. Qed.
#[export] Hint Resolve quiet_testfs_get_file_inode : quiet.

(** *** Commands that print nothing *)

Lemma quiet_arg c i : quiet (arg c i).
Proof. unfold arg. quiet_auto. Qed.
#[export] Hint Resolve quiet_arg : quiet.
Lemma quiet_cmd_cd c : quiet (cmd_cd c).
Proof. unfold cmd_cd. quiet_auto. Qed.
#[export] Hint Resolve quiet_cmd_cd : quiet.
Lemma quiet_cmd_create c : quiet (cmd_create c).
Proof. unfold cmd_create. quiet_auto. Qed.
#[export] Hint Resolve quiet_cmd_create : quiet.
Lemma quiet_cmd_mkdir c : quiet (cmd_mkdir c).
Proof. unfold cmd_mkdir. quiet_auto. Qed.
#[export] Hint Resolve quiet_cmd_mkdir : quiet.
Lemma quiet_cmd_rm c : quiet (cmd_rm c).
Proof. unfold cmd_rm. quiet_auto. Qed.
#[export] Hint Resolve quiet_cmd_rm : quiet.
Lemma quiet_cmd_write c : quiet (cmd_write c).
Proof. unfold cmd_write. quiet_auto. Qed.
#[export] Hint Resolve quiet_cmd_write : quiet.
