(* ===== verification/Tree.v ===== *)
(** * The file system as a tree

    The abstract state of the shell: a finite map from inode numbers to files and
    directories, and what makes it a tree.  [tree_ok] is kept by entering a new
    file, removing an entry, and changing the data of a file. *)

From stdpp Require Import base gmap list list_numbers strings.
From Stdlib Require Import ZArith Lia.
From S2P Require Import Prelude Words Bitmap Block FsState InodeHash Super Inode ReadWrite Dir FileTree FileAlloc FileData DirSpec MkfsSpec FileSpec FileMap DirFiles DirRemove.
#[local] Open Scope Z_scope.

(** ** Nodes *)

Inductive node : Type :=
  | File (c : list Z)
  | Folder (es : list dirent).

Definition node_type (n : node) : Z := match n with File _ => I_FILE | Folder _ => I_DIR end.
Definition node_data (n : node) : list Z := match n with File c => c | Folder es => dir_bytes es end.

Abbreviation tree := (gmap Z node).

(** an entry in use, and one that names a file other than the directory itself and
    its parent *)
Definition in_use (e : dirent) : Prop := 0 <= d_inode_nr e.
Definition child (e : dirent) : Prop := in_use e /\ d_name e <> c_str dot /\ d_name e <> c_str dotdot.

#[global] Instance in_use_dec e : Decision (in_use e).
Proof. unfold in_use. apply _. Defined.
#[global] Instance child_dec e : Decision (child e).
Proof. unfold child. apply _. Defined.

Lemma spare_child e : spare e <-> ~ child e.
Proof.
  unfold spare, child, in_use. destruct (decide (d_name e = c_str dot)), (decide (d_name e = c_str dotdot)), (decide (0 <= d_inode_nr e));
    intuition (done || lia).
Qed.

(** the files below the root *)
Inductive reach (T : tree) : Z -> Prop :=
  | reach_root : reach T 0
  | reach_child d es k e : reach T d -> T !! d = Some (Folder es) -> es !! k = Some e -> child e ->
      reach T (d_inode_nr e).

(** where [e] is the entry at [k] of the directory [d] *)
Definition entry_at (T : tree) (d : Z) (k : nat) (e : dirent) : Prop :=
  exists es, T !! d = Some (Folder es) /\ es !! k = Some e.

Record tree_ok (T : tree) : Prop := {
  tk_root : exists es, T !! 0 = Some (Folder es);
  tk_entries : forall d es, T !! d = Some (Folder es) -> Forall entry_ok es;
  tk_special : forall d es, T !! d = Some (Folder es) -> find_name dot es = Some d /\ is_Some (find_name dotdot es);
  tk_dot : forall d k e, entry_at T d k e -> in_use e -> d_name e = c_str dot -> d_inode_nr e = d;
  tk_dotdot : forall d k e, entry_at T d k e -> in_use e -> d_name e = c_str dotdot ->
    if decide (d = 0) then d_inode_nr e = 0
    else exists k' e', entry_at T (d_inode_nr e) k' e' /\ child e' /\ d_inode_nr e' = d;
  tk_child : forall d k e, entry_at T d k e -> child e -> d_inode_nr e <> 0 /\ is_Some (T !! d_inode_nr e);
  tk_once : forall d1 k1 e1 d2 k2 e2, entry_at T d1 k1 e1 -> entry_at T d2 k2 e2 -> child e1 -> child e2 ->
    d_inode_nr e1 = d_inode_nr e2 -> d1 = d2 /\ k1 = k2;
  tk_names : forall d k1 e1 k2 e2, entry_at T d k1 e1 -> entry_at T d k2 e2 -> in_use e1 -> in_use e2 ->
    d_name e1 = d_name e2 -> k1 = k2;
  tk_reach : forall d, is_Some (T !! d) -> reach T d;
}.

(** every name in use denotes something *)
Lemma entry_target T d k e : tree_ok T -> entry_at T d k e -> in_use e -> is_Some (T !! d_inode_nr e).
Proof.
  intros HT He Hu. destruct (decide (d_name e = c_str dot)) as [Hd|Hd].
  - rewrite (tk_dot _ HT d k e He Hu Hd). destruct He as (es & -> & _). by eexists.
  - destruct (decide (d_name e = c_str dotdot)) as [Hdd|Hdd].
    + pose proof (tk_dotdot _ HT d k e He Hu Hdd) as Hp. case_decide as H0.
      * rewrite Hp. destruct (tk_root _ HT) as [es ->]. by eexists.
      * destruct Hp as (k' & e' & (es & -> & _) & _). by eexists.
    + by apply (tk_child _ HT d k e).
Qed.

Lemma find_name_at name es nr : find_name name es = Some nr -> exists k e, es !! k = Some e /\ in_use e /\
  d_name e = c_str name /\ d_inode_nr e = nr.
Proof.
  induction es as [|x es IH]; [done|]. cbn [find_name]. case_bool_decide as E.
  - intros [= <-]. exists 0%nat, x. split; [done|]. by destruct E.
  - intros (k & e & H1 & H2)%IH. by exists (S k), e.
Qed.
Lemma find_name_none name es k e : find_name name es = None -> es !! k = Some e -> in_use e -> d_name e <> c_str name.
Proof.
  revert k. induction es as [|x es IH]; [done|]. cbn [find_name]. case_bool_decide as E; [done|].
  intros [|k] Hno; cbn; [|by apply IH]. intros [= <-] Hu Hn. by apply E.
Qed.

Lemma find_target T d es name nr : tree_ok T -> T !! d = Some (Folder es) -> find_name name es = Some nr -> is_Some (T !! nr).
Proof.
  intros HT Hd (k & e & Hk & Hu & _ & <-)%find_name_at. apply (entry_target T d k e); [done| |done]. by exists es.
Qed.

(** ** One entry of a directory replaced or added *)

Definition set_at (n : nat) (e : dirent) (es es' : list dirent) : Prop :=
  es' !! n = Some e /\ forall k, k <> n -> es' !! k = es !! k.

Lemma set_at_cons x n e es es' : set_at n e es es' -> set_at (S n) e (x :: es) (x :: es').
Proof. intros [H1 H2]. split; [done|]. intros [|k] Hk; [done|]. cbn. apply H2. congruence. Qed.

Lemma add_entry_at e es : exists n, set_at n e es (add_entry e es) /\ forall y, es !! n = Some y -> ~ in_use y.
Proof.
  induction es as [|x es (n & H1 & H2)]; cbn [add_entry].
  - exists 0%nat. split; [|done]. split; [done|]. by intros [|k].
  - case_decide as Hd.
    + exists 0%nat. split; [split; [done|]; by intros [|k]|]. intros y [= <-]. unfold in_use. destruct Hd. lia.
    + exists (S n). split; [by apply set_at_cons|done].
Qed.

Definition freed (e : dirent) : dirent := mk_dirent (d_name_len e) INVALID_INODE_NR (d_name e).

Lemma freed_free e : ~ in_use (freed e).
Proof. unfold in_use, freed, INVALID_INODE_NR. cbn. lia. Qed.

Lemma remove_entry_at name es nr : find_name name es = Some nr -> exists n e, es !! n = Some e /\ in_use e /\
  d_name e = c_str name /\ d_inode_nr e = nr /\ set_at n (freed e) es (remove_entry name es).
Proof.
  induction es as [|x es IH]; [done|]. cbn [find_name remove_entry]. case_bool_decide as E.
  - intros [= <-]. exists 0%nat, x. split; [done|]. destruct E. split_and!; try done. split; [done|]. by intros [|k].
  - intros (n & e & H1 & H2 & H3 & H4 & H5)%IH. exists (S n), e. split_and!; try done; by apply set_at_cons.
Qed.

(** ** Entering a new file *)

Definition new_node (type nr parent : Z) : node := if type =? I_DIR then Folder (empty_dir nr parent) else File [].

Definition grow (T : tree) (d : Z) (es : list dirent) (name : list Z) (type nr : Z) : tree :=
  <[nr := new_node type nr d]> (<[d := Folder (add_entry (new_entry name nr) es)]> T).

Section grow.
Context (T : tree) (d : Z) (es : list dirent) (name : list Z) (type nr : Z).
Hypothesis HT : tree_ok T.
Hypothesis Hd : T !! d = Some (Folder es).
Hypothesis Hno : find_name name es = None.
Hypothesis Hname : name_ok name.
Hypothesis Hnr : T !! nr = None.
Hypothesis Hr : 0 <= nr < 2147483648.
Hypothesis Hdr : 0 <= d < 2147483648.

Abbreviation T' := (grow T d es name type nr).
Abbreviation new := (new_entry name nr).

Lemma grow_ne : d <> nr /\ nr <> 0.
Proof. destruct (tk_root _ HT) as [es0 H0]. split; intros ?; subst; congruence. Qed.

Lemma grow_child : child new.
Proof.
  destruct (tk_special _ HT d es Hd) as [H1 [x H2]]. split; [unfold in_use; cbn; lia|]. split; intros Heq; apply c_str_inj in Heq; congruence.
Qed.

(** the entries of the new directory *)
Lemma empty_dir_at parent k e : empty_dir nr parent !! k = Some e ->
  (k = 0%nat /\ d_name e = c_str dot /\ d_inode_nr e = nr) \/ (k = 1%nat /\ d_name e = c_str dotdot /\ d_inode_nr e = parent).
Proof. destruct k as [|[|k]]; [intros [= <-]; by left|intros [= <-]; by right|done]. Qed.

Lemma grow_lookup x : T' !! x = if decide (x = nr) then Some (new_node type nr d) else
  if decide (x = d) then Some (Folder (add_entry new es)) else T !! x.
Proof.
  unfold grow. repeat case_decide; subst; rewrite ?lookup_insert_eq, ?lookup_insert_ne by done; try done.
  by rewrite lookup_insert_eq.
Qed.

(** the place of the new entry *)
Lemma grow_at : exists n, entry_at T' d n new /\ (forall e, entry_at T d n e -> ~ in_use e) /\
  (forall x k e, entry_at T x k e -> in_use e -> entry_at T' x k e) /\
  (forall x k e, entry_at T' x k e ->
     (x = nr /\ empty_dir nr d !! k = Some e) \/ (x = d /\ k = n /\ e = new) \/
     (x <> nr /\ (x = d -> k <> n) /\ entry_at T x k e)).
Proof.
  destruct grow_ne as [Hne _]. destruct (add_entry_at new es) as (n & [A1 A2] & A3). exists n.
  assert (Hold : forall e, entry_at T d n e -> ~ in_use e).
  { intros e (es2 & E1 & E2). rewrite Hd in E1. injection E1 as <-. by apply A3. }
  split_and!; [|done| |].
  - exists (add_entry new es). split; [|done]. rewrite grow_lookup, decide_False, decide_True by done. done.
  - intros x k e He Hu. pose proof He as (es2 & E1 & E2).
    assert (Hx : x <> nr) by congruence. unfold entry_at. rewrite grow_lookup, decide_False by done.
    case_decide as Hxd; [|by exists es2]. subst x. rewrite Hd in E1. injection E1 as <-.
    exists (add_entry new es). split; [done|]. rewrite A2; [done|]. intros ->. by apply (Hold e).
  - intros x k e (es2 & E1 & E2). rewrite grow_lookup in E1. case_decide as Hxn.
    + subst x. left. split; [done|]. unfold new_node in E1. destruct (type =? I_DIR); [|done]. by injection E1 as <-.
    + right. case_decide as Hxd; [|right; by split_and!; [..|by exists es2]]. subst x. injection E1 as <-.
      destruct (decide (k = n)) as [->|Hk]; [left; split_and!; congruence|].
      right. split_and!; [done|done|]. exists es. by rewrite <- A2.
Qed.

Lemma grow_special x es' : T' !! x = Some (Folder es') -> Forall entry_ok es' /\ find_name dot es' = Some x /\ is_Some (find_name dotdot es').
Proof.
  rewrite grow_lookup. case_decide as Hxn; [|case_decide as Hxd].
  - subst x. unfold new_node. destruct (type =? I_DIR); [|done]. intros [= <-]. split_and!.
    + repeat constructor; try (apply new_entry_ok; (apply name_ok_dot || apply name_ok_dotdot || done)).
    + unfold empty_dir. cbn [find_name]. by rewrite bool_decide_true by (split; [cbn; lia|done]).
    + unfold empty_dir. cbn [find_name]. rewrite bool_decide_false by (intros [_ H]; by apply c_str_inj in H).
      rewrite bool_decide_true by (split; [cbn; lia|done]). by eexists.
  - subst x. intros [= <-]. destruct (tk_special _ HT d es Hd) as [H1 [y H2]].
    assert (Hn1 : dot <> name) by congruence. assert (Hn2 : dotdot <> name) by congruence.
    rewrite (find_name_add_other ∅ es name nr dot Hn1), (find_name_add_other ∅ es name nr dotdot Hn2), H1, H2. split_and!; [|done|by eexists].
    apply Forall_lookup. intros k e He. destruct (add_entry_at new es) as (n & [A1 A2] & _).
    destruct (decide (k = n)) as [->|Hk]; [assert (e = new) as -> by congruence; by apply new_entry_ok|].
    rewrite A2 in He by done. pose proof (tk_entries _ HT d es Hd) as Hok. rewrite Forall_lookup in Hok. by apply (Hok k).
  - intros Hx. split; [by apply (tk_entries _ HT x)|]. by apply (tk_special _ HT x).
Qed.

Lemma grow_reach x : reach T x -> reach T' x.
Proof.
  destruct grow_at as (n & _ & _ & Hup & _). induction 1 as [|x es2 k e _ IH Hx Hk He]; [constructor|].
  destruct (Hup x k e) as (es3 & H1 & H2); [by exists es2|apply He|]. by apply (reach_child T' x es3 k).
Qed.

Lemma grow_ok : tree_ok T'.
Proof.
  destruct grow_at as (n & Hnew & Hn & Hup & Hdown). destruct grow_ne as [Hne Hn0]. pose proof grow_child as Hch.
  assert (Hsub : forall x, is_Some (T !! x) -> is_Some (T' !! x)).
  { intros x [y Hx]. rewrite grow_lookup. repeat case_decide; by eexists. }
  assert (Hnotnr : forall x k e, entry_at T x k e -> child e -> d_inode_nr e <> nr).
  { intros x k e He Hc Heq. destruct (tk_child _ HT x k e He Hc) as [_ [y Hy]]. congruence. }
  assert (Hmt : forall k e, empty_dir nr d !! k = Some e -> ~ child e).
  { intros k e [(_ & H & _)|(_ & H & _)]%empty_dir_at (_ & H1 & H2); done. }
  split.
  - destruct (tk_root _ HT) as [es0 H0]. rewrite grow_lookup, decide_False by done. case_decide; by eexists.
  - intros x es' Hx. by apply grow_special in Hx as [? _].
  - intros x es' Hx. by apply grow_special in Hx as [_ ?].
  - intros x k e [[-> He]|[(-> & -> & ->)|(Hx & _ & He)]]%Hdown Hu Hdot.
    + by apply empty_dir_at in He as [(_ & _ & ->)|(_ & H & _)]; [|rewrite Hdot in H; apply c_str_inj in H].
    + by destruct Hch as (_ & H & _).
    + by apply (tk_dot _ HT x k).
  - intros x k e [[-> He]|[(-> & -> & ->)|(Hx & _ & He)]]%Hdown Hu Hdd.
    + rewrite decide_False by done. apply empty_dir_at in He as [(_ & H & _)|(_ & _ & ->)]; [rewrite Hdd in H; by apply c_str_inj in H|].
      by exists n, new.
    + by destruct Hch as (_ & _ & H).
    + pose proof (tk_dotdot _ HT x k e He Hu Hdd) as Hp. case_decide; [done|]. destruct Hp as (k' & e' & H1 & H2 & H3).
      exists k', e'. split; [|done]. apply Hup; [done|apply H2].
  - intros x k e [[-> He]|[(-> & -> & ->)|(Hx & _ & He)]]%Hdown Hc.
    + by destruct (Hmt k e He).
    + split; [done|]. change (d_inode_nr new) with nr. rewrite grow_lookup, decide_True by done. by eexists.
    + destruct (tk_child _ HT x k e He Hc). auto.
  - intros x1 k1 e1 x2 k2 e2 H1 H2 C1 C2 Heq.
    destruct (Hdown _ _ _ H1) as [[_ He1]|[(-> & -> & ->)|(_ & _ & He1)]]; [by destruct (Hmt k1 e1 He1)| |];
    (destruct (Hdown _ _ _ H2) as [[_ He2]|[(-> & -> & ->)|(_ & _ & He2)]]; [by destruct (Hmt k2 e2 He2)| |]).
    + done.
    + by destruct (Hnotnr _ _ _ He2 C2).
    + by destruct (Hnotnr _ _ _ He1 C1).
    + by apply (tk_once _ HT x1 k1 e1 x2 k2 e2).
  - intros x k1 e1 k2 e2 H1 H2 U1 U2 Heq. assert (Hnn : forall k e, entry_at T d k e -> in_use e -> d_name e <> c_str name).
    { intros k e (es2 & E1 & E2). rewrite Hd in E1. injection E1 as <-. by eapply find_name_none. }
    destruct (Hdown _ _ _ H1) as [[-> He1]|[(-> & -> & ->)|(N1 & _ & He1)]];
    (destruct (Hdown _ _ _ H2) as [[? He2]|[(? & -> & ->)|(? & _ & He2)]]; subst; try congruence).
    + apply empty_dir_at in He1 as [(-> & E1 & _)|(-> & E1 & _)]; apply empty_dir_at in He2 as [(-> & E2 & _)|(-> & E2 & _)]; try done;
        rewrite E1, E2 in Heq; by apply c_str_inj in Heq.
    + by destruct (Hnn k2 e2 He2 U2).
    + by destruct (Hnn k1 e1 He1 U1).
    + by apply (tk_names _ HT x k1 e1 k2 e2).
  - intros x [y Hx]. rewrite grow_lookup in Hx. case_decide as Hxn.
    + subst x. destruct Hnew as (es3 & E1 & E2). apply (reach_child T' d es3 n new); try done.
      apply grow_reach, (tk_reach _ HT). by eexists.
    + apply grow_reach, (tk_reach _ HT). case_decide; subst; by eexists.
Qed.
End grow.

(** ** Removing a file *)

Definition prune (T : tree) (d : Z) (es : list dirent) (name : list Z) (nr : Z) : tree :=
  delete nr (<[d := Folder (remove_entry name es)]> T).

(** a file, or a directory without files *)
Definition removable (n : node) : Prop := match n with File _ => True | Folder es => Forall spare es end.
#[global] Instance removable_dec n : Decision (removable n).
Proof. destruct n; cbn; apply _. Defined.

Section prune.
Context (T : tree) (d : Z) (es : list dirent) (name : list Z) (nr : Z) (n : node).
Hypothesis HT : tree_ok T.
Hypothesis Hd : T !! d = Some (Folder es).
Hypothesis Hfind : find_name name es = Some nr.
Hypothesis Hdot : name <> dot.
Hypothesis Hdotdot : name <> dotdot.
Hypothesis Hn : T !! nr = Some n.
Hypothesis Hrm : removable n.

Abbreviation T' := (prune T d es name nr).

(** what is removed is not the directory or the root, and nothing is below it *)
Lemma prune_entry : exists pos e, es !! pos = Some e /\ child e /\ d_inode_nr e = nr /\ entry_at T d pos e /\
  set_at pos (freed e) es (remove_entry name es).
Proof.
  destruct (remove_entry_at name es nr Hfind) as (pos & e & H1 & H2 & H3 & H4 & H5). exists pos, e. split_and!; try done; [|by exists es].
  split; [done|]. rewrite H3. split; intros E; apply c_str_inj in E; congruence.
Qed.

Lemma prune_no_child k e : entry_at T nr k e -> ~ child e.
Proof.
  intros (es2 & E1 & E2). rewrite Hn in E1. injection E1 as E1. rewrite E1 in Hrm. cbn in Hrm.
  rewrite Forall_lookup in Hrm. apply spare_child. by apply (Hrm k).
Qed.

Lemma prune_ne : d <> nr /\ nr <> 0.
Proof.
  destruct prune_entry as (pos & e & _ & Hc & He & Hat & _). split.
  - intros E. rewrite E in Hat. by apply (prune_no_child pos e).
  - rewrite <- He. by apply (tk_child _ HT d pos).
Qed.

Lemma prune_lookup x : T' !! x = if decide (x = nr) then None else
  if decide (x = d) then Some (Folder (remove_entry name es)) else T !! x.
Proof.
  unfold prune. repeat case_decide; subst; rewrite ?lookup_delete_eq, ?lookup_delete_ne by done; try done.
  - by rewrite lookup_insert_eq.
  - by rewrite lookup_insert_ne by done.
Qed.

(** the entries that are left *)
Lemma prune_at : exists pos e0, entry_at T d pos e0 /\ child e0 /\ d_inode_nr e0 = nr /\
  (forall x k e, entry_at T x k e -> x <> nr -> ~ (x = d /\ k = pos) -> entry_at T' x k e) /\
  (forall x k e, entry_at T' x k e -> in_use e -> x <> nr /\ ~ (x = d /\ k = pos) /\ entry_at T x k e).
Proof.
  destruct prune_entry as (pos & e0 & _ & Hc & He0 & Hat & [A1 A2]). destruct prune_ne as [Hne _]. exists pos, e0.
  split_and!; try done.
  - intros x k e (es2 & E1 & E2) Hx Hk. unfold entry_at. rewrite prune_lookup, decide_False by done.
    case_decide as Hxd; [|by exists es2]. subst x. rewrite Hd in E1. injection E1 as <-. exists (remove_entry name es).
    split; [done|]. rewrite A2; [done|]. intros ->. by apply Hk.
  - intros x k e (es2 & E1 & E2) Hu. rewrite prune_lookup in E1. case_decide as Hxn; [done|]. split; [done|].
    case_decide as Hxd; [|split; [by intros [? _]|by exists es2]]. subst x. injection E1 as <-.
    destruct (decide (k = pos)) as [->|Hk].
    + rewrite A1 in E2. injection E2 as <-. by apply freed_free in Hu.
    + split; [by intros [_ ?]|]. exists es. by rewrite <- A2.
Qed.

Lemma prune_special x es' : T' !! x = Some (Folder es') -> Forall entry_ok es' /\ find_name dot es' = Some x /\ is_Some (find_name dotdot es').
Proof.
  rewrite prune_lookup. case_decide as Hxn; [done|]. case_decide as Hxd.
  - subst x. intros [= <-]. destruct (tk_special _ HT d es Hd) as [H1 H2]. rewrite !find_name_remove_other by done. split; [|done].
    destruct prune_entry as (pos & e0 & E0 & _ & _ & _ & [A1 A2]). pose proof (tk_entries _ HT d es Hd) as Hok. rewrite Forall_lookup in *.
    intros k e He. destruct (decide (k = pos)) as [->|Hk].
    + rewrite A1 in He. injection He as <-. apply free_entry_ok. by apply (Hok pos).
    + rewrite A2 in He by done. by apply (Hok k).
  - intros Hx. split; [by apply (tk_entries _ HT x)|]. by apply (tk_special _ HT x).
Qed.

Lemma prune_ok : tree_ok T'.
Proof.
  destruct prune_at as (pos & e0 & Hat & Hc & He0 & Hup & Hdown). destruct prune_ne as [Hne Hn0].
  assert (Hlast : forall x k e, entry_at T x k e -> child e -> d_inode_nr e = nr -> x = d /\ k = pos).
  { intros x k e He Hce Heq. apply (tk_once _ HT x k e d pos e0); try done. congruence. }
  assert (Hkeep : forall x, x <> nr -> is_Some (T !! x) -> is_Some (T' !! x)).
  { intros x Hx Hs. rewrite prune_lookup, decide_False by done. by case_decide; [eexists|]. }
  split.
  - destruct (tk_root _ HT) as [es0 H0]. rewrite prune_lookup, decide_False by done. case_decide; by eexists.
  - intros x es' Hx. by apply prune_special in Hx as [? _].
  - intros x es' Hx. by apply prune_special in Hx as [_ ?].
  - intros x k e He Hu. destruct (Hdown x k e He Hu) as (_ & _ & H). by apply (tk_dot _ HT x k).
  - intros x k e He Hu Hdd. destruct (Hdown x k e He Hu) as (Hx & _ & H). pose proof (tk_dotdot _ HT x k e H Hu Hdd) as Hp.
    case_decide; [done|]. destruct Hp as (k' & e' & H1 & H2 & H3). exists k', e'. split; [|done]. apply Hup; [done| |].
    + intros E. rewrite E in H1. by apply (prune_no_child k' e').
    + intros [E1 ->]. rewrite E1 in H1. destruct H1 as (es2 & F1 & F2), Hat as (es3 & G1 & G2). congruence.
  - intros x k e He Hce. destruct (Hdown x k e He (proj1 Hce)) as (Hx & Hk & H). destruct (tk_child _ HT x k e H Hce) as [H1 H2].
    split; [done|]. apply Hkeep; [|done]. intros E. by apply Hk, (Hlast x k e).
  - intros x1 k1 e1 x2 k2 e2 H1 H2 C1 C2. destruct (Hdown _ _ _ H1 (proj1 C1)) as (_ & _ & F1), (Hdown _ _ _ H2 (proj1 C2)) as (_ & _ & F2).
    by apply (tk_once _ HT x1 k1 e1 x2 k2 e2).
  - intros x k1 e1 k2 e2 H1 H2 U1 U2. destruct (Hdown _ _ _ H1 U1) as (_ & _ & F1), (Hdown _ _ _ H2 U2) as (_ & _ & F2).
    by apply (tk_names _ HT x k1 e1 k2 e2).
  - assert (Hr : forall x, reach T x -> x <> nr -> reach T' x).
    { induction 1 as [|x es2 k e _ IH Hx Hk Hce]; intros Hxn; [constructor|]. assert (Hxe : entry_at T x k e) by by exists es2.
      assert (Hx' : x <> nr) by (intros E; rewrite E in Hxe; by apply (prune_no_child k e)).
      destruct (Hup x k e Hxe Hx') as (es3 & G1 & G2); [|by apply (reach_child T' x es3 k); [apply IH|..]].
      intros [E1 ->]. rewrite E1 in Hxe. apply Hxn. destruct Hxe as (es4 & F1 & F2), Hat as (es5 & G1 & G2). congruence. }
    intros x [y Hx]. rewrite prune_lookup in Hx. case_decide; [done|]. apply Hr; [|done]. apply (tk_reach _ HT).
    case_decide; subst; by eexists.
Qed.
End prune.

(** ** Changing the data of a file *)

Lemma file_ok T nr c c' : tree_ok T -> T !! nr = Some (File c) -> tree_ok (<[nr := File c']> T).
Proof.
  intros HT Hn. set (T' := <[nr := File c']> T).
  assert (Hf : forall d es, T' !! d = Some (Folder es) <-> T !! d = Some (Folder es)).
  { intros d es. unfold T'. destruct (decide (d = nr)) as [->|Hne]; [|by rewrite lookup_insert_ne]. rewrite lookup_insert_eq, Hn. done. }
  assert (He : forall d k e, entry_at T' d k e <-> entry_at T d k e).
  { intros d k e. unfold entry_at. by setoid_rewrite Hf. }
  assert (Hs : forall d, is_Some (T' !! d) <-> is_Some (T !! d)).
  { intros d. unfold T'. destruct (decide (d = nr)) as [->|Hne]; [|by rewrite lookup_insert_ne]. rewrite lookup_insert_eq, Hn. split; by eexists. }
  assert (Hr : forall d, reach T d -> reach T' d).
  { induction 1 as [|x es k e _ IH Hx Hk Hce]; [constructor|]. by apply (reach_child T' x es k); [|apply Hf|..]. }
  split.
  - destruct (tk_root _ HT) as [es H0]. exists es. by apply Hf.
  - intros d es H%Hf. by apply (tk_entries _ HT d).
  - intros d es H%Hf. by apply (tk_special _ HT d).
  - intros d k e H%He. by apply (tk_dot _ HT d k).
  - intros d k e H%He Hu Hdd. pose proof (tk_dotdot _ HT d k e H Hu Hdd) as Hp. case_decide; [done|].
    destruct Hp as (k' & e' & H1 & H2). exists k', e'. by rewrite He.
  - intros d k e H%He Hc. rewrite Hs. by apply (tk_child _ HT d k).
  - intros d1 k1 e1 d2 k2 e2 H1%He H2%He. by apply (tk_once _ HT).
  - intros d k1 e1 k2 e2 H1%He H2%He. by apply (tk_names _ HT d).
  - intros d H%Hs. by apply Hr, (tk_reach _ HT).
Qed.

(** ** The tree that mktestfs makes *)

Definition root_tree : tree := {[0 := Folder (empty_dir 0 0)]}.

Lemma root_tree_lookup d n : root_tree !! d = Some n <-> 0 = d /\ Folder (empty_dir 0 0) = n.
Proof. unfold root_tree. apply lookup_singleton_Some. Qed.

Lemma root_tree_at d k e : entry_at root_tree d k e -> d = 0 /\ empty_dir 0 0 !! k = Some e.
Proof.
  intros (es & [<- Hes]%root_tree_lookup & E2). injection Hes as <-. done.
Qed.

Lemma root_tree_ok : tree_ok root_tree.
Proof.
  assert (Hd : forall d es, root_tree !! d = Some (Folder es) -> d = 0 /\ es = empty_dir 0 0).
  { intros d es [<- Hes]%root_tree_lookup. by injection Hes as <-. }
  assert (Hc : forall d k e, entry_at root_tree d k e -> ~ child e).
  { intros d k e [_ He]%root_tree_at (_ & H1 & H2). by apply empty_dir_at in He as [(_ & ? & _)|(_ & ? & _)]. }
  split.
  - by eexists.
  - intros d es [-> ->]%Hd. repeat constructor; try (apply new_entry_ok; (apply name_ok_dot || apply name_ok_dotdot || done)).
  - intros d es [-> ->]%Hd. unfold empty_dir. cbn [find_name]. rewrite bool_decide_true by (split; [cbn; lia|done]).
    rewrite bool_decide_false by (intros [_ H]; by apply c_str_inj in H). rewrite bool_decide_true by (split; [cbn; lia|done]). split; [done|by eexists].
  - intros d k e [-> He]%root_tree_at _ _. by apply empty_dir_at in He as [(_ & _ & ->)|(_ & _ & ->)].
  - intros d k e [-> He]%root_tree_at _ _. rewrite decide_True by done. by apply empty_dir_at in He as [(_ & _ & ->)|(_ & _ & ->)].
  - intros d k e He%Hc. done.
  - intros d1 k1 e1 d2 k2 e2 H1%Hc _ C1. done.
  - intros d k1 e1 k2 e2 [-> H1]%root_tree_at [_ H2]%root_tree_at _ _ Heq.
    apply empty_dir_at in H1 as [(-> & E1 & _)|(-> & E1 & _)]; apply empty_dir_at in H2 as [(-> & E2 & _)|(-> & E2 & _)]; try done;
      rewrite E1, E2 in Heq; by apply c_str_inj in Heq.
  - intros d [n [<- _]%root_tree_lookup]. constructor.
Qed.
