(* ===== verification/TreeRep.v ===== *)
(** * The state of the shell represents a tree

    [tree_rep w T refs B]: the files of [T], and nothing else, are on the disk; [refs]
    are the references to inodes in memory, which are all written back; [B] are the
    blocks in use.  Opening and closing an inode change the references only. *)

From stdpp Require Import base gmap list list_numbers strings.
From Stdlib Require Import ZArith Lia.
From S2P Require Import Prelude Words Bitmap Block FsState InodeHash Super Inode ReadWrite Dir File FileTree FileAlloc FileData FileFree DirSpec MkfsSpec FileSpec FileMap DirFiles DirRemove Quiet Tree.
#[local] Open Scope Z_scope.

(** ** Files *)

Definition node_at (w : fs) (I B : gset Z) (nr : Z) (n : node) (O : gset Z) : Prop :=
  exists d, has_file w I B nr d O (node_data n) /\ i_type d = node_type n.

Record files (w : fs) (I B : gset Z) (T : tree) (Ob : Z -> gset Z) : Prop := {
  nf_node : forall nr n, T !! nr = Some n -> node_at w I B nr n (Ob nr);
  nf_apart : forall nr nr', nr <> nr' -> is_Some (T !! nr) -> is_Some (T !! nr') -> Ob nr ## Ob nr';
}.

Record tree_rep (w : fs) (T : tree) (refs : gmap Z Z) (B : gset Z) : Prop := {
  ts_live : live w (dom T) B;
  ts_idle : idle w (dom T);
  ts_mem : forall q i, fs_heap w !! q = Some i ->
    is_Some (T !! i_nr i) /\ is_dirty i = false /\ disk_inode (fs_dev w) (i_nr i) = in_ i /\ refs !! i_nr i = Some (i_count i);
  ts_refs : forall nr, is_Some (refs !! nr) -> exists q, cached w nr q;
  ts_files : exists Ob, files w (dom T) B T Ob;
  ts_ok : tree_ok T;
}.

Lemma files_effect w I B T Ob X O O' w' I' B' : files w I B T Ob -> effect X O O' w I B w' I' B' ->
  (forall k, is_Some (T !! k) -> (k ∉ X) -> O ## Ob k) ->
  forall k n, T !! k = Some n -> (k ∉ X) -> node_at w' I' B' k n (Ob k) /\ O' ## Ob k.
Proof.
  intros [F1 F2] E HX k n Hk Hx. destruct (F1 k n Hk) as (d & Hf & Ht).
  destruct (ef_keeps _ _ _ _ _ _ _ _ _ E k d (Ob k) _ Hx Hf) as [H1 H2]; [apply HX; [by eexists|done]|].
  split; [|done]. by exists d.
Qed.

Lemma rep_nr w T refs B nr : tree_rep w T refs B -> is_Some (T !! nr) -> nr ∈ dom T /\ 0 <= nr < NR_INODES.
Proof.
  intros HR [n Hn]. destruct (ts_files _ _ _ _ HR) as [Ob HF]. destruct (nf_node _ _ _ _ _ HF nr n Hn) as (d & Hf & _).
  apply (hf_nr _ _ _ _ _ _ _ Hf).
Qed.

Lemma rep_count w T refs B nr c : tree_rep w T refs B -> refs !! nr = Some c -> 0 < c /\ exists q, cached w nr q.
Proof.
  intros HR Hc. destruct (ts_refs _ _ _ _ HR nr) as (q & i & Hq & <-); [by eexists|]. split; [|by exists q, i].
  destruct (ts_mem _ _ _ _ HR q i Hq) as (_ & _ & _ & Hr). destruct (ts_live _ _ _ _ HR) as [_ [t Ht]].
  rewrite Hr in Hc. injection Hc as <-. by apply (cache_count w t Ht q).
Qed.

Lemma rep_uncached w T refs B nr : tree_rep w T refs B -> refs !! nr = None -> forall q, ~ cached w nr q.
Proof. intros HR Hn q (i & Hq & Hi). destruct (ts_mem _ _ _ _ HR q i Hq) as (_ & _ & _ & H). congruence. Qed.

(** an inode in memory *)
Lemma rep_file w T refs B Ob nr n q : tree_rep w T refs B -> files w (dom T) B T Ob -> T !! nr = Some n -> cached w nr q -> exists i,
  is_file w (dom T) B q i (Ob nr) (node_data n) /\ i_type (in_ i) = node_type n /\ i_nr i = nr /\ is_dirty i = false /\
  refs !! nr = Some (i_count i) /\ disk_inode (fs_dev w) nr = in_ i.
Proof.
  intros HR HF Hn (i & Hq & Hi). destruct (nf_node _ _ _ _ _ HF nr n Hn) as (d & Hf & Ht).
  destruct (has_cached _ _ _ _ _ _ _ _ _ (ts_live _ _ _ _ HR) Hf Hq Hi) as [H1 H2]. exists i.
  destruct (ts_mem _ _ _ _ HR q i Hq) as (_ & M1 & M2 & M3). rewrite Hi in *. split_and!; try done. by rewrite H2.
Qed.

(** ** References *)

Definition ref_up (refs : gmap Z Z) (nr : Z) : gmap Z Z := <[nr := default 0 (refs !! nr) + 1]> refs.
Definition ref_down (refs : gmap Z Z) (nr : Z) : gmap Z Z :=
  if decide (refs !! nr = Some 1) then delete nr refs else alter (fun c => c - 1) nr refs.

Lemma ref_down_up refs nr : (forall c, refs !! nr = Some c -> 0 < c) -> ref_down (ref_up refs nr) nr = refs.
Proof.
  intros Hpos. unfold ref_down, ref_up. rewrite lookup_insert_eq. destruct (refs !! nr) as [c|] eqn:E; cbn [default].
  - specialize (Hpos c eq_refl). rewrite decide_False by (intros [= ?]; lia). apply map_eq. intros k.
    destruct (decide (k = nr)) as [->|Hk]; [|by rewrite lookup_alter_ne, lookup_insert_ne].
    rewrite lookup_alter_eq, lookup_insert_eq, E. cbn. f_equal. lia.
  - rewrite decide_True by done. by rewrite delete_insert_id.
Qed.

(** ** Opening and closing *)

Definition still (w w' : fs) : Prop := forall nr q, cached w nr q -> cached w' nr q.

(** an operation on the inode [nr] that changes no data *)
Lemma files_same w I T Ob B w' nr n : files w I B T Ob -> T !! nr = Some n -> effect {[nr]} ∅ ∅ w I B w' I B ->
  node_at w' I B nr n (Ob nr) -> files w' I B T Ob.
Proof.
  intros HF Hn E Hf. split; [|apply HF]. intros k m Hk. destruct (decide (k = nr)) as [->|Hne].
  - rewrite Hn in Hk. by injection Hk as <-.
  - apply (files_effect _ _ _ _ _ _ _ _ _ _ _ HF E); [set_solver|done|set_solver].
Qed.

Lemma rep_idle w (T : tree) w' nr : idle w (dom T) -> is_Some (T !! nr) -> local {[nr]} w w' -> idle w' (dom T).
Proof. intros Hi Hs%elem_of_dom Hl. apply (local_idle {[nr]} w w' (dom T)); [done|set_solver|done|done]. Qed.

Lemma open_rep w T refs B nr n : tree_rep w T refs B -> T !! nr = Some n ->
  wp (testfs_get_inode nr) w (fun q w' => tree_rep w' T (ref_up refs nr) B /\ cached w' nr q /\ still w w' /\ unchanged w w').
Proof.
  intros HR Hn. pose proof (rep_nr _ _ _ _ nr HR ltac:(by eexists)) as [HnI Hnb]. pose proof HR as [Hl Hi Hm Hrf [Ob HF] HT].
  destruct (nf_node _ _ _ _ _ HF nr n Hn) as (d & Hf & Ht).
  eapply wp_mono; [apply (wp_preserves unchanged); [apply quiet_testfs_get_inode|by apply (open_file w (dom T) B nr d (Ob nr) (node_data n))]|].
  intros q w' [(i & Hl' & Hd & Hs & Ho & Hg & Hh & Hf' & Hid & Hin) Hu].
  assert (Hq : fs_heap w' !! q = Some i) by by rewrite Hh, lookup_insert_eq.
  assert (E : effect {[nr]} ∅ ∅ w (dom T) B w' (dom T) B) by (subst nr; by eapply opened_effect).
  pose proof (ef_local _ _ _ _ _ _ _ _ _ E) as Hlo.
  assert (Hci : is_dirty i = false /\ disk_inode (fs_dev w') nr = in_ i /\ i_count i = default 0 (refs !! nr) + 1).
  { rewrite Hd. destruct Hg as [(j & Hj & Hjn & ->)|(Hno & Hunc & ->)]; cbn [in_ is_dirty i_flags i_count set_i_count].
    - destruct (Hm q j Hj) as (_ & M1 & M2 & M3). rewrite Hjn in *. by rewrite M3.
    - split_and!; [done|done|]. destruct (refs !! nr) as [c|] eqn:Ec; [|done]. destruct (Hrf nr) as [q' Hq']; [by eexists|]. by destruct (Hunc q'). }
  destruct Hci as (C1 & C2 & C3).
  assert (Hst : still w w').
  { intros k q' (j & Hj & Hjk). unfold cached. rewrite Hh. destruct (decide (q' = q)) as [->|Hne].
    - exists i. split; [apply lookup_insert_eq|]. destruct Hg as [(j' & Hj' & Hjn & _)|(Hno & _ & _)]; congruence.
    - exists j. by rewrite lookup_insert_ne. }
  split_and!; try done; [|by exists i]. split; try done.
  - eapply rep_idle; [exact Hi|by eexists|exact Hlo].
  - intros q' j. rewrite Hh. destruct (decide (q' = q)) as [->|Hne].
    + rewrite lookup_insert_eq. intros [= <-]. rewrite Hin. unfold ref_up. rewrite lookup_insert_eq, C3. split; [by eexists|done].
    + rewrite lookup_insert_ne by done. intros Hj. destruct (Hm q' j Hj) as (M0 & M1 & M2 & M3). rewrite Hd. split_and!; [done|done|done|].
      unfold ref_up. rewrite lookup_insert_ne; [done|]. intros Heq. apply Hne. destruct Hl' as [_ [t Hc]].
      apply (cache_uniq w' t Hc q' q j i); [by rewrite Hh, lookup_insert_ne|done|congruence].
  - intros k [c Hk]. destruct (decide (k = nr)) as [->|Hne]; [by exists q, i|]. unfold ref_up in Hk. rewrite lookup_insert_ne in Hk by done.
    destruct (Hrf k) as [q' Hq']; [by eexists|]. exists q'. by apply Hst.
  - exists Ob. apply (files_same w (dom T) T Ob B w' nr n); try done. exists d. split; [|done].
    pose proof (file_has _ _ _ _ _ _ _ Hf') as H. by rewrite Hin, Hid in H.
Qed.

(** the other references to an inode, and those to other inodes, stay *)
Definition still_but (nr : Z) (refs : gmap Z Z) (w w' : fs) : Prop :=
  forall k q, cached w k q -> (k = nr -> refs !! nr <> Some 1) -> cached w' k q.

Lemma close_rep w T refs B nr n q : tree_rep w T refs B -> T !! nr = Some n -> cached w nr q ->
  wp (testfs_put_inode q) w (fun _ w' => tree_rep w' T (ref_down refs nr) B /\ still_but nr refs w w' /\ unchanged w w').
Proof.
  intros HR Hn Hq. pose proof HR as [Hl Hi Hm Hrf [Ob HF] HT].
  destruct (rep_file _ _ _ _ Ob nr n q HR HF Hn Hq) as (i & Hf & Ht & Hin & Hci & Hc & Hdk). pose proof (if_heap _ _ _ _ _ _ _ Hf) as Hh.
  destruct (nf_node _ _ _ _ _ HF nr n Hn) as (d & Hfd & Htd).
  assert (Hid : in_ i = d) by (by eapply (has_cached w (dom T) B nr d (Ob nr) (node_data n) q i)).
  eapply wp_mono; [apply (wp_preserves unchanged); [apply quiet_testfs_put_inode|by apply (put_inode_spec w (dom T) B q i)]|].
  intros _ w' [(Hl' & Hd & Hs & _ & _ & Hh') Hu]. pose proof Hl as [_ [t Hct]].
  assert (Hpos : 0 < i_count i) by by apply (cache_count w t Hct q).
  assert (Hlook : forall q' j, q' <> q -> fs_heap w' !! q' = Some j <-> fs_heap w !! q' = Some j).
  { intros q' j Hne. rewrite Hh'. case_decide; [by rewrite lookup_delete_ne|by rewrite lookup_insert_ne]. }
  assert (Hother : forall q' j, fs_heap w !! q' = Some j -> i_nr j = nr -> q' = q).
  { intros q' j Hj Hjn. apply (cache_uniq w t Hct q' q j i); congruence. }
  assert (E : effect {[nr]} ∅ ∅ w (dom T) B w' (dom T) B).
  { assert (Hlo : local {[nr]} w w').
    { split; [|intros k _ _; by rewrite Hd]. intros q' j Hj. destruct (decide (q' = q)) as [->|Hne]; [|by rewrite Hlook].
      split; intros Hx; exfalso; apply Hj, elem_of_singleton.
      - congruence.
      - rewrite Hh' in Hx. case_decide; [by rewrite lookup_delete_eq in Hx|]. rewrite lookup_insert_eq in Hx. by injection Hx as <-. }
    split; [done|done|]. apply keeps_intro; [done|done| |set_solver|done]. rewrite Hd. apply dev_frame_refl. }
  assert (Hst : still_but nr refs w w').
  { intros k q' (j & Hj & Hjk) Hk. destruct (decide (q' = q)) as [->|Hne]; [|exists j; by rewrite Hlook].
    assert (j = i) as -> by congruence. exists (set_i_count (i_count i - 1) i). rewrite Hh', decide_False by naive_solver congruence.
    by rewrite lookup_insert_eq. }
  split_and!; try done. split; try done.
  - eapply rep_idle; [exact Hi|by eexists|apply E].
  - intros q' j Hj. rewrite Hd. unfold ref_down. rewrite Hc. destruct (decide (q' = q)) as [->|Hne].
    + rewrite Hh' in Hj. case_decide as Hone; [by rewrite lookup_delete_eq in Hj|]. rewrite lookup_insert_eq in Hj. injection Hj as <-.
      cbn [in_ i_nr i_count set_i_count]. rewrite Hin. split_and!; [by eexists|done|done|]. rewrite decide_False by congruence.
      by rewrite lookup_alter_eq, Hc.
    + apply Hlook in Hj; [|done]. destruct (Hm q' j Hj) as (M0 & M1 & M2 & M3). split_and!; [done|done|done|].
      assert (Hjn : i_nr j <> nr) by (intros Heq; by apply Hne, (Hother q' j)).
      destruct (decide (Some _ = _)); [by rewrite lookup_delete_ne|by rewrite lookup_alter_ne].
  - intros k [c Hk]. unfold ref_down in Hk. destruct (decide (k = nr)) as [->|Hne].
    + destruct (decide (_ = Some 1)) as [|Hone]; [by rewrite lookup_delete_eq in Hk|]. exists q. by apply Hst.
    + assert (Hk' : is_Some (refs !! k)).
      { destruct (decide (_ = Some 1)); [rewrite lookup_delete_ne in Hk by done|rewrite lookup_alter_ne in Hk by done]; by eexists. }
      destruct (Hrf k Hk') as [q' Hq']. exists q'. by apply Hst.
  - exists Ob. apply (files_same w (dom T) T Ob B w' nr n); try done. exists d. split; [|done].
    destruct Hfd as [F1 F2 F3]. split; [done| |by rewrite Hd]. destruct (decide (i_count i = 1)) as [Hone|Hone].
    + right. split; [|rewrite Hd; congruence]. intros q' (j & Hj & Hjn). rewrite Hh' in Hj.
      apply lookup_delete_Some in Hj as [Hne Hj]. by apply Hne, eq_sym, (Hother q' j).
    + left. exists q, (set_i_count (i_count i - 1) i). rewrite Hh', lookup_insert_eq. done.
Qed.

Lemma rep_ref w T refs B nr q : tree_rep w T refs B -> cached w nr q -> exists c, refs !! nr = Some c /\ 0 < c.
Proof.
  intros HR (i & Hq & Hi). destruct (ts_mem _ _ _ _ HR q i Hq) as (_ & _ & _ & Hr). rewrite Hi in Hr. exists (i_count i).
  split; [done|]. by apply (rep_count _ _ _ _ _ _ HR Hr).
Qed.

Lemma still_trans w1 w2 w3 : still w1 w2 -> still w2 w3 -> still w1 w3.
Proof. intros H1 H2 k q H. by apply H2, H1. Qed.

(** closing what was opened from a state with the references [refs] *)
Lemma close_up w0 w T refs B nr n q : tree_rep w0 T refs B -> still w0 w -> tree_rep w T (ref_up refs nr) B -> T !! nr = Some n -> cached w nr q ->
  wp (testfs_put_inode q) w (fun _ w' => tree_rep w' T refs B /\ still w0 w' /\ unchanged w w').
Proof.
  intros H0 Hs HR Hn Hq. eapply wp_mono; [exact (close_rep w T (ref_up refs nr) B nr n q HR Hn Hq)|]. intros _ w' (H1 & H2 & H3).
  rewrite ref_down_up in H1 by (intros c Hc; by apply (rep_count _ _ _ _ _ _ H0 Hc)). split_and!; try done.
  intros k q' Hk. apply H2; [by apply Hs|]. intros ->. destruct (rep_ref _ _ _ _ _ _ H0 Hk) as (c & Hc & Hpos).
  unfold ref_up. rewrite lookup_insert_eq, Hc. cbn. intros [= ?]. lia.
Qed.
