(* ===== verification/TreeOps.v ===== *)
(** * The operations on the tree

    Creating, removing and writing files, on states that represent trees: the
    results of DirFiles.v, DirRemove.v and FileSpec.v put together with what they
    leave alone. *)

From stdpp Require Import base gmap list list_numbers strings.
From Stdlib Require Import ZArith Lia.
From S2P Require Import Prelude Words Bitmap Block FsState InodeHash Super Inode ReadWrite Dir File FileTree FileAlloc FileData FileFree DirSpec MkfsSpec FileSpec FileMap DirFiles DirRemove Quiet Tree TreeRep.
#[local] Open Scope Z_scope.

(** ** Directories *)

Lemma rep_dir w T refs B Ob d es p : tree_rep w T refs B -> files w (dom T) B T Ob -> T !! d = Some (Folder es) ->
  zlen (dir_bytes es) < 1073741824 -> cached w d p -> exists i, is_dir w (dom T) B p i (Ob d) es /\ i_nr i = d /\
  is_dirty i = false /\ refs !! d = Some (i_count i) /\ disk_inode (fs_dev w) d = in_ i.
Proof.
  intros HR HF Hd Hz Hp. destruct (rep_file _ _ _ _ Ob d _ p HR HF Hd Hp) as (i & H1 & H2 & H3 & H4 & H5 & H6). exists i. split; [|done].
  split; [done|done| |done]. by apply (tk_entries _ (ts_ok _ _ _ _ HR) d).
Qed.

Lemma rep_lookup w T refs B d es p name : tree_rep w T refs B -> T !! d = Some (Folder es) -> zlen (dir_bytes es) < 1073741824 ->
  cached w d p -> name_ok name ->
  wp (testfs_dir_name_to_inode_nr p name) w (fun r w' => r = default (- ENOENT) (find_name name es) /\ w' = w).
Proof.
  intros HR Hd Hz Hp Hn. destruct (ts_files _ _ _ _ HR) as [Ob HF]. destruct (rep_dir _ _ _ _ Ob d es p HR HF Hd Hz Hp) as (i & H & _).
  by apply (lookup_refines w (dom T) B (Ob d) p i es (ts_live _ _ _ _ HR) H).
Qed.

(** ** States that differ only in what an operation of no inode may change *)

Lemma rep_none w T refs B w' : tree_rep w T refs B -> effect ∅ ∅ ∅ w (dom T) B w' (dom T) B -> fs_heap w' = fs_heap w ->
  tree_rep w' T refs B /\ still w w'.
Proof.
  intros HR E Hh. pose proof HR as [Hl Hi Hm Hrf [Ob HF] HT].
  assert (Hst : still w w') by (intros k q (i & Hq & Hk); exists i; by rewrite Hh). split; [|done].
  split; try done.
  - apply E.
  - eapply (local_idle ∅); [apply E|set_solver|done|done].
  - intros q i. rewrite Hh. intros Hq. destruct (Hm q i Hq) as (M0 & M1 & M2 & M3). split_and!; try done.
    rewrite (lo_disk _ _ _ (ef_local _ _ _ _ _ _ _ _ _ E)); [done| |set_solver]. by apply (rep_nr _ _ _ _ _ HR).
  - intros k Hk. destruct (Hrf k Hk) as [q Hq]. exists q. by apply Hst.
  - exists Ob. split; [|apply HF]. intros k n Hk. apply (files_effect _ _ _ _ _ _ _ _ _ _ _ HF E); [set_solver|done|set_solver].
Qed.

Lemma meta_effect w I B w' : live w' I B -> fs_heap w' = fs_heap w -> dev_frame is_meta (fs_dev w) (fs_dev w') -> effect ∅ ∅ ∅ w I B w' I B.
Proof.
  intros Hl Hh Hd. assert (Hlo : local ∅ w w').
  { split; [intros q i _; by rewrite Hh|]. intros n Hn _. eapply disk_inode_frame; [exact Hd|done|apply not_meta_block]. }
  split; [done|done|]. apply keeps_intro; [done|done| |set_solver|done]. eapply dev_frame_weaken; [exact Hd|]. apply meta_touches.
Qed.

(** ** The inode [d] and perhaps another one, which is not in memory, change

    [T'] has the node [n] at [d], [w'] the inode [i'] at the same address, and the
    other files are those of [T] without [X]. *)
Section update.
Context (w : fs) (T : tree) (refs : gmap Z Z) (B : gset Z) (Ob : Z -> gset Z) (d : Z) (p : ptr) (i : inode).
Hypothesis HR : tree_rep w T refs B.
Hypothesis HF : files w (dom T) B T Ob.
Hypothesis Hp : fs_heap w !! p = Some i.
Hypothesis Hin : i_nr i = d.
Context (X O O' : gset Z) (w' : fs) (T' : tree) (B' : gset Z) (i' : inode).
Hypothesis HX : d ∈ X.
Hypothesis HXu : forall k, k ∈ X -> k <> d -> refs !! k = None.
Hypothesis Hdom : forall k, k ∉ X -> T' !! k = T !! k.
Hypothesis Hd' : is_Some (T' !! d).
Hypothesis E : effect X O O' w (dom T) B w' (dom T') B'.
Hypothesis Hh : fs_heap w' = <[p := i']> (fs_heap w).
Hypothesis Hin' : i_nr i' = d.
Hypothesis Hc' : i_count i' = i_count i.
Hypothesis Hcl : is_dirty i' = false.
Hypothesis Hdk : disk_inode (fs_dev w') d = in_ i'.

Lemma update_other q j : fs_heap w !! q = Some j -> q <> p -> (i_nr j ∉ X).
Proof using HR Hp Hin HXu.
  intros Hq Hne HjX. destruct (ts_live _ _ _ _ HR) as [_ [t Ht]].
  destruct (decide (i_nr j = d)) as [Heq|Hd]; [apply Hne, (cache_uniq w t Ht q p j i); congruence|].
  destruct (ts_mem _ _ _ _ HR q j Hq) as (_ & _ & _ & Hr). by rewrite (HXu _ HjX Hd) in Hr.
Qed.

Lemma update_still : still w w'.
Proof using Hp Hin Hh Hin'.
  intros k q (j & Hq & Hk). unfold cached. rewrite Hh. destruct (decide (q = p)) as [->|Hne].
  - exists i'. rewrite lookup_insert_eq. split; [done|congruence].
  - exists j. by rewrite lookup_insert_ne.
Qed.

Lemma update_rep : idle w' (dom T') -> tree_ok T' -> (exists Ob', files w' (dom T') B' T' Ob') -> tree_rep w' T' refs B'.
Proof using HR Hp Hin HXu Hdom Hd' E Hh Hin' Hc' Hcl Hdk.
  intros Hi HT Hf. pose proof (ef_local _ _ _ _ _ _ _ _ _ E) as Hlo. split; try done.
  - apply E.
  - intros q j. rewrite Hh. destruct (decide (q = p)) as [->|Hne].
    + rewrite lookup_insert_eq. intros [= <-]. rewrite Hin'. split_and!; try done.
      destruct (ts_mem _ _ _ _ HR p i Hp) as (_ & _ & _ & Hr). by rewrite Hc', <- Hin.
    + rewrite lookup_insert_ne by done. intros Hq. pose proof (update_other q j Hq Hne) as Hj.
      destruct (ts_mem _ _ _ _ HR q j Hq) as (M0 & M1 & M2 & M3). rewrite Hdom by done. split_and!; try done.
      rewrite (lo_disk _ _ _ Hlo); [done| |done]. by apply (rep_nr _ _ _ _ _ HR).
  - intros k Hk. destruct (ts_refs _ _ _ _ HR k Hk) as [q Hq]. exists q. by apply update_still.
Qed.

(** the files, from those of the inodes that change *)
Lemma update_files (Oc : Z -> gset Z) :
  (forall k, is_Some (T !! k) -> (k ∉ X) -> O ## Ob k) ->
  (forall k n, k ∈ X -> T' !! k = Some n -> node_at w' (dom T') B' k n (Oc k) /\ Oc k ⊆ O') ->
  (forall k k', k ∈ X -> k' ∈ X -> k <> k' -> is_Some (T' !! k) -> is_Some (T' !! k') -> Oc k ## Oc k') ->
  exists Ob', files w' (dom T') B' T' Ob'.
Proof using HF Hdom E.
  clear -HF Hdom E.
  intros HO Hnew Hapart. exists (fun k => if decide (k ∈ X) then Oc k else Ob k).
  assert (Hold : forall k n, (k ∉ X) -> T' !! k = Some n -> node_at w' (dom T') B' k n (Ob k) /\ O' ## Ob k).
  { intros k n Hk Hn. rewrite Hdom in Hn by done. by apply (files_effect _ _ _ _ _ _ _ _ _ _ _ HF E HO). }
  split.
  - intros k n Hn. destruct (decide (k ∈ X)) as [Hk|Hk]; [by apply Hnew|by apply Hold].
  - intros k k' Hne [n Hn] [n' Hn']. destruct (decide (k ∈ X)) as [Hk|Hk], (decide (k' ∈ X)) as [Hk'|Hk'].
    + apply Hapart; try done; by eexists.
    + destruct (Hnew k n Hk Hn) as [_ Hs]. destruct (Hold k' n' Hk' Hn') as [_ Hd2]. set_solver.
    + destruct (Hnew k' n' Hk' Hn') as [_ Hs]. destruct (Hold k n Hk Hn) as [_ Hd2]. set_solver.
    + apply (nf_apart _ _ _ _ _ HF); [done|rewrite <- Hdom by done; by eexists..].
Qed.
End update.

Lemma elem_pair (k x y : Z) : k ∈ ({[x; y]} : gset Z) <-> k = x \/ k = y.
Proof. by rewrite elem_of_union, !elem_of_singleton. Qed.
Lemma not_elem_pair (k x y : Z) : (k ∉ ({[x; y]} : gset Z)) <-> k <> x /\ k <> y.
Proof. rewrite elem_pair. tauto. Qed.

(** ** Creating *)

(** every inode number is in use *)
Definition full (T : tree) : Prop := forall j, 0 <= j < NR_INODES -> is_Some (T !! j).

(** the first number that is free *)
Definition first_free (T : tree) (nr : Z) : Prop := T !! nr = None /\ 0 <= nr < NR_INODES /\ forall j, 0 <= j < nr -> is_Some (T !! j).

Definition entry_bytes (name : list Z) : Z := sizeof_dirent + (zlen name + 1).

(** room for [n] more bytes in every directory, those to come included *)
Definition fits (T : tree) (n : Z) : Prop :=
  21 + n < 1073741824 /\ forall d es, T !! d = Some (Folder es) -> zlen (dir_bytes es) + n < 1073741824.

Lemma entry_bytes_pos name : 9 <= entry_bytes name.
Proof. pose proof (zlen_nonneg name). unfold entry_bytes, sizeof_dirent. lia. Qed.

Lemma fits_less T n m : fits T n -> m <= n -> fits T m.
Proof. intros [H1 H2] Hm. split; [lia|]. intros d es Hd. specialize (H2 d es Hd). lia. Qed.
Lemma fits_size T n d es : fits T n -> 0 <= n -> T !! d = Some (Folder es) -> zlen (dir_bytes es) < 1073741824.
Proof. intros [_ H] Hn Hd. specialize (H d es Hd). lia. Qed.

Section create.
Context (w : fs) (T : tree) (refs : gmap Z Z) (B : gset Z) (d : Z) (es : list dirent) (p : ptr) (name : list Z).
Hypothesis HR : tree_rep w T refs B.
Hypothesis Hd : T !! d = Some (Folder es).
Hypothesis Hp : cached w d p.
Hypothesis Hname : name_ok name.
Hypothesis Hfit : fits T (entry_bytes name).

Lemma made_rep Ob i type nr w' i' dn B' O' Oc : files w (dom T) B T Ob -> is_dir w (dom T) B p i (Ob d) es -> i_nr i = d ->
  type = I_FILE \/ type = I_DIR -> find_name name es = None -> made w (dom T) B (Ob d) p i es name type nr w' i' dn B' O' Oc ->
  first_free T nr /\ tree_rep w' (grow T d es name type nr) refs B' /\ still w w'.
Proof.
  intros HF Hdir Hin Ht Hno [M1 M2 M3 M4 M5 M6 M7 M8 M9 M10 M11 M12 M13 M14 M15 M16]. rewrite Hin in *.
  pose proof (if_heap _ _ _ _ _ _ _ (id_file _ _ _ _ _ _ _ Hdir)) as Hpi. pose proof (hf_nr _ _ _ _ _ _ _ M10) as [_ Hnb].
  destruct (rep_nr _ _ _ _ d HR ltac:(by eexists)) as [HdI Hdb].
  assert (Hnr : T !! nr = None) by by apply not_elem_of_dom. assert (Hne : d <> nr) by congruence.
  assert (Hdom : dom (grow T d es name type nr) = {[nr]} ∪ dom T) by (unfold grow; rewrite !dom_insert_L; clear -HdI; set_solver).
  rewrite <- Hdom in M3, M4, M5, M10.
  assert (HXu : forall k, k ∈ ({[d; nr]} : gset Z) -> k <> d -> refs !! k = None).
  { intros k Hk Hkd. destruct (refs !! k) as [c|] eqn:Ec; [|done]. destruct (rep_count _ _ _ _ k c HR Ec) as (_ & q & j & Hq & Hj).
    destruct (ts_mem _ _ _ _ HR q j Hq) as ([n Hn] & _). apply elem_pair in Hk as [-> | ->]; congruence. }
  assert (Hlook : forall k, k ∉ ({[d; nr]} : gset Z) -> grow T d es name type nr !! k = T !! k).
  { intros k [H1 H2]%not_elem_pair. rewrite grow_lookup by done. by rewrite !decide_False. }
  split; [split; [done|split; [exact Hnb|]]; intros j Hj; by apply elem_of_dom, M2|]. change NR_INODES with 16384 in *. split.
  2: { exact (update_still w d p i Hpi Hin w' i' M14 M6). }
  eapply (update_rep w T refs B d p i HR Hpi Hin {[d; nr]} _ _ w' _ B' i'); try done.
  - rewrite grow_lookup, decide_False, decide_True by done. by eexists.
  - apply grow_ok; try done; [apply HR|lia|lia].
  - eapply (update_files w T B Ob HF {[d; nr]} _ _ w' _ B' Hlook M3 (fun k => if decide (k = d) then O' else Oc)).
    + intros k Hk [H1 _]%not_elem_pair. apply (nf_apart _ _ _ _ _ HF); [congruence|by eexists|done].
    + intros k n [-> | ->]%elem_pair Hn; rewrite grow_lookup in Hn by done.
      * rewrite decide_False, decide_True in Hn by done. injection Hn as <-. rewrite decide_True by done.
        split; [|apply union_subseteq_l]. exists (in_ i'). split; [|by apply (id_type _ _ _ _ _ _ _ M5)].
        pose proof (file_has _ _ _ _ _ _ _ (id_file _ _ _ _ _ _ _ M5)) as H. by rewrite M6 in H.
      * rewrite decide_True in Hn by done. injection Hn as <-. rewrite decide_False by done. split; [|apply union_subseteq_r].
        exists dn. unfold new_node, initial in *. rewrite M11. by destruct Ht as [-> | ->].
    + intros k k' [-> | ->]%elem_pair [-> | ->]%elem_pair Hkk _ _; try done; destruct (decide (d = d)), (decide (nr = d)); done.
Qed.

Lemma grow_rep type : type = I_FILE \/ type = I_DIR ->
  Z.of_nat (size B) + NEED_EMPTY + need (entry_bytes name) <= max_fs_blocks (fs_sb w) ->
  wp (testfs_create_file_or_dir (Some p) type name) w (fun r w' => still w w' /\ unchanged w w' /\
    match find_name name es with
    | Some _ => r = - EEXIST /\ tree_rep w' T refs B
    | None =>
        (r = 0 /\ exists nr B', first_free T nr /\ tree_rep w' (grow T d es name type nr) refs B' /\
           Z.of_nat (size B') <= Z.of_nat (size B) + NEED_EMPTY + need (entry_bytes name)) \/
        (r = - ENOSPC /\ full T /\ tree_rep w' T refs B)
    end).
Proof.
  intros Ht Hroom. destruct (ts_files _ _ _ _ HR) as [Ob HF].
  pose proof (entry_bytes_pos name) as Hpos. pose proof (proj2 Hfit d es Hd) as Hmax.
  destruct (rep_dir _ _ _ _ Ob d es p HR HF Hd ltac:(lia) Hp) as (i & Hdir & Hin & _).
  assert (Hs : s32_ok type) by (destruct Ht as [-> | ->]; split; done).
  eapply wp_mono.
  { apply (wp_preserves unchanged); [apply quiet_testfs_create_file_or_dir|].
    apply (create_refines w (dom T) B type (ts_live _ _ _ _ HR) (ts_idle _ _ _ _ HR) Hs (Ob d) p i es name Hdir Hname Hmax Hroom). }
  intros r w' [H Hu]. destruct (find_name name es) as [nr|] eqn:Hf.
  { destruct H as [-> ->]. split_and!; try done. by intros k q. }
  destruct H as [(-> & nr & i' & dn & B' & O' & Oc & H)|(-> & Hfull & Hl & Hh & Hdf)].
  - destruct (made_rep Ob i type nr w' i' dn B' O' Oc HF Hdir Hin Ht Hf H) as (H1 & H2 & H3). split_and!; try done. left. split; [done|].
    exists nr, B'. split_and!; try done. apply (mk_used _ _ _ _ _ _ _ _ _ _ _ _ _ _ _ _ H).
  - destruct (rep_none w T refs B w' HR (meta_effect _ _ _ _ Hl Hh Hdf) Hh) as [H1 H2]. split_and!; try done. right. split_and!; try done.
    intros j Hj. by apply elem_of_dom, Hfull.
Qed.
End create.

(** ** Removing *)

Section remove.
Context (w : fs) (T : tree) (refs : gmap Z Z) (B : gset Z) (d : Z) (es : list dirent) (p : ptr) (name : list Z).
Hypothesis HR : tree_rep w T refs B.
Hypothesis Hd : T !! d = Some (Folder es).
Hypothesis Hp : cached w d p.
Hypothesis Hname : name_ok name.
Hypothesis Hfit : fits T (entry_bytes name).

Lemma gone_rep Ob i nr n w' i' B' O' : files w (dom T) B T Ob -> is_dir w (dom T) B p i (Ob d) es -> i_nr i = d ->
  name <> dot -> name <> dotdot -> find_name name es = Some nr -> T !! nr = Some n -> removable n -> refs !! nr = None ->
  gone w (dom T) B (Ob d) p i es name nr (Ob nr) w' i' B' O' ->
  tree_rep w' (prune T d es name nr) refs B' /\ still w w'.
Proof.
  intros HF Hdir Hin Hn1 Hn2 Hf Hn Hrm Hrf [M1 M2 M3 M4 M5 M6 M7 M8 M9 M10]. rewrite Hin in *. pose proof (ts_ok _ _ _ _ HR) as HT.
  pose proof (if_heap _ _ _ _ _ _ _ (id_file _ _ _ _ _ _ _ Hdir)) as Hpi.
  destruct (prune_ne T d es name nr n HT Hd Hf Hn1 Hn2 Hn Hrm) as [Hne _].
  assert (HdI : d ∈ dom T) by (apply elem_of_dom; by eexists).
  assert (Hdom : dom (prune T d es name nr) = dom T ∖ {[nr]}).
  { unfold prune. rewrite dom_delete_L, dom_insert_L. clear -HdI. set_solver. }
  rewrite <- Hdom in M1, M2, M3.
  assert (HXu : forall k, k ∈ ({[d; nr]} : gset Z) -> k <> d -> refs !! k = None) by (by intros k [-> | ->]%elem_pair).
  assert (Hlook : forall k, k ∉ ({[d; nr]} : gset Z) -> prune T d es name nr !! k = T !! k).
  { intros k [H1 H2]%not_elem_pair. rewrite (prune_lookup T d es name nr). by rewrite !decide_False. }
  assert (Hd' : prune T d es name nr !! d = Some (Folder (remove_entry name es))).
  { rewrite (prune_lookup T d es name nr). by rewrite decide_False, decide_True. }
  assert (Hno : prune T d es name nr !! nr = None) by apply lookup_delete_eq.
  split; [|exact (update_still w d p i Hpi Hin w' i' M9 M4)].
  eapply (update_rep w T refs B d p i HR Hpi Hin {[d; nr]} _ _ w' _ B' i'); try done.
  - by apply (prune_ok T d es name nr n).
  - eapply (update_files w T B Ob HF {[d; nr]} _ _ w' _ B' Hlook M1 (fun _ => O')).
    + intros k Hk [H1 H2]%not_elem_pair. apply disjoint_union_l. split; apply (nf_apart _ _ _ _ _ HF); try done; by eexists.
    + intros k m [-> | ->]%elem_pair Hm; [|congruence].
      rewrite Hd' in Hm. injection Hm as <-. split; [|done]. exists (in_ i'). split; [|by apply (id_type _ _ _ _ _ _ _ M3)].
      pose proof (file_has _ _ _ _ _ _ _ (id_file _ _ _ _ _ _ _ M3)) as H. by rewrite M4 in H.
    + intros k k' [-> | ->]%elem_pair [-> | ->]%elem_pair Hkk [m1 Hm1] [m2 Hm2]; congruence.
Qed.

(** what [rm] answers *)
Lemma rm_rep s0 l : (forall nr, name <> dot -> name <> dotdot -> find_name name es = Some nr -> refs !! nr = None) ->
  Z.of_nat (size B) + need (entry_bytes name) <= max_fs_blocks (fs_sb w) ->
  wp (cmd_rm (mk_context 2 (s0 :: Some name :: l) p)) w (fun r w' => still w w' /\ unchanged w w' /\
    if decide (name = dot \/ name = dotdot) then r = - EINVAL /\ tree_rep w' T refs B else
    match find_name name es with
    | None => r = - ENOENT /\ tree_rep w' T refs B
    | Some nr => exists n, T !! nr = Some n /\
        if decide (removable n) then r = 0 /\ exists B', tree_rep w' (prune T d es name nr) refs B' /\
          Z.of_nat (size B') <= Z.of_nat (size B) + need (entry_bytes name)
        else r = - ENOTEMPTY /\ tree_rep w' T refs B
    end).
Proof.
  intros Hrf Hroom. destruct (ts_files _ _ _ _ HR) as [Ob HF]. pose proof (ts_live _ _ _ _ HR) as Hl. pose proof (ts_ok _ _ _ _ HR) as HT.
  pose proof (entry_bytes_pos name) as Hpos. pose proof (proj2 Hfit d es Hd) as Hmax.
  destruct (rep_dir _ _ _ _ Ob d es p HR HF Hd ltac:(lia) Hp) as (i & Hdir & Hin & _).
  assert (Hst : still w w) by by intros k q.
  eapply wp_mono; [apply (wp_preserves unchanged); [apply quiet_cmd_rm|]|intros r w' [H Hu]; exact (conj (proj1 H) (conj Hu (proj2 H)))].
  assert (Herr : forall Q, wp (testfs_remove_dirent p name) w (fun r w' => r < 0 /\ Q r w') ->
    wp (cmd_rm (mk_context 2 (s0 :: Some name :: l) p)) w Q).
  { intros Q H. unfold cmd_rm, arg. cbn [nargs cmd cur_dir]. change (negb (2 =? 2)) with false. cbv iota. wsimpl.
    eapply wp_deref; [done|]. wsimpl. eapply wp_deref; [done|]. wsimpl. eapply wp_mono; [exact H|]. intros r w' [Hr HQ].
    rewrite (proj2 (Z.ltb_lt _ _)) by done. by wsimpl. }
  destruct (decide (name = dot \/ name = dotdot)) as [Hs|Hs].
  { apply Herr. eapply wp_mono; [by apply (remove_special w p name Hname)|]. by intros r w' [-> ->]. }
  assert (Hn1 : name <> dot) by tauto. assert (Hn2 : name <> dotdot) by tauto. destruct (find_name name es) as [nr|] eqn:Hf.
  2: { apply Herr. eapply wp_mono; [by eapply (remove_missing w (dom T) B (Ob d) p i es name)|]. by intros r w' [-> ->]. }
  destruct (find_target T d es name nr HT Hd Hf) as [n Hn]. specialize (Hrf nr Hn1 Hn2 eq_refl).
  pose proof (rep_uncached _ _ _ _ _ HR Hrf) as Hunc. destruct (nf_node _ _ _ _ _ HF nr n Hn) as (dn & Hfn & Htn).
  assert (Hv : verdict dn (node_data n) (if decide (removable n) then 0 else - ENOTEMPTY)).
  { destruct n as [c|es2]; cbn [node_data node_type removable] in *.
    - left. rewrite Htn. split; [done|]. by rewrite decide_True.
    - right. split; [done|]. exists es2. split_and!; try done; [by apply (tk_entries _ HT nr)|by eapply fits_size; [exact Hfit|lia|]]. }
  destruct (decide (removable n)) as [Hrm|Hrm].
  - assert (Hdis : Ob d ## Ob nr).
    { apply (nf_apart _ _ _ _ _ HF); [|by eexists..]. by apply (prune_ne T d es name nr n HT Hd Hf Hn1 Hn2 Hn Hrm). }
    eapply wp_mono; [by eapply (rm_spec w (dom T) B (Ob d) p i es name nr dn (Ob nr) (node_data n) _ s0 Hl (ts_idle _ _ _ _ HR) Hdir Hname)|].
    intros r w' (-> & i' & B' & O' & G). destruct (gone_rep Ob i nr n w' i' B' O') as [H1 H2]; try done. split; [done|]. exists n. split; [done|].
    rewrite decide_True by done. split; [done|]. exists B'. split; [done|]. apply (go_used _ _ _ _ _ _ _ _ _ _ _ _ _ _ G).
  - apply Herr. eapply wp_mono; [by eapply (remove_found w (dom T) B (Ob d) p i es name Hl Hdir Hname nr dn (Ob nr) (node_data n) (- ENOTEMPTY))|].
    intros r w' H. unfold unlinked in H. rewrite decide_False in H by done. destruct H as (-> & Hl' & Hdv & Hsb & Hh).
    destruct (rep_none w T refs B w' HR (same_effect _ _ _ _ Hl' Hdv Hh) Hh) as [H1 H2]. split; [done|]. split; [done|]. exists n. split; [done|].
    by rewrite decide_False.
Qed.
End remove.

(** ** Reading and writing *)

Section file.
Context (w : fs) (T : tree) (refs : gmap Z Z) (B : gset Z) (nr : Z) (c : list Z) (q : ptr).
Hypothesis HR : tree_rep w T refs B.
Hypothesis Hn : T !! nr = Some (File c).
Hypothesis Hq : cached w nr q.

Lemma read_rep start n buf : 0 <= start < MAX_FILE_SIZE -> start <= zlen c -> 0 <= n < 2147483648 -> n <= zlen buf ->
  wp (testfs_read_data q buf start n) w (fun r w' =>
    r = (zlen (read_at c start n), zsplice buf 0 (read_at c start n)) /\ w' = w).
Proof.
  intros H1 H2 H3 H4. destruct (ts_files _ _ _ _ HR) as [Ob HF]. destruct (rep_file _ _ _ _ Ob nr _ q HR HF Hn Hq) as (i & Hf & _).
  by apply (read_refines w (dom T) B (Ob nr) q i c (ts_live _ _ _ _ HR) Hf).
Qed.

(** the bytes written, and the inode written back *)
Lemma write_rep start len buf : 0 <= start -> 0 < len < 2147483648 -> start + len <= MAX_FILE_SIZE -> len <= zlen buf ->
  Z.of_nat (size B) + need len <= max_fs_blocks (fs_sb w) ->
  wp (ret ← testfs_write_data q buf start len; testfs_sync_inode q;; mret ret) w (fun r w' => r = len /\ still w w' /\ unchanged w w' /\
    exists B', tree_rep w' (<[nr := File (write_at c start (zsub buf 0 len))]> T) refs B' /\
      Z.of_nat (size B') <= Z.of_nat (size B) + need len).
Proof.
  intros Hs Hlen Hend Hb Hroom. destruct (ts_files _ _ _ _ HR) as [Ob HF]. pose proof (ts_live _ _ _ _ HR) as Hl.
  destruct (rep_file _ _ _ _ Ob nr _ q HR HF Hn Hq) as (i & Hf & Hty & Hin & _). pose proof Hf as [F1 _ F3 F4 _ _].
  eapply wp_mono; [apply (wp_preserves unchanged); [quiet_auto|]|intros r w' [H Hu]; exact (conj (proj1 H) (conj (proj1 (proj2 H)) (conj Hu (proj2 (proj2 H)))))].
  wsimpl. eapply wp_mono.
  { apply (write_data_spec w (dom T) B (Ob nr) q i (proj1 Hl) F1 F3 buf start len); try done; [lia|lia|apply F4]. }
  intros r w1 (-> & i1 & B1 & O1 & Hw). pose proof (written_is_file w (dom T) B (Ob nr) q i c Hf start len buf w1 i1 B1 O1 Hs Hlen Hend Hb Hw) as Hf1.
  pose proof (written_effect _ _ _ _ _ _ _ _ _ _ _ _ _ Hl F1 Hw) as E1. pose proof (wr_step _ _ _ _ _ _ _ _ _ _ _ _ _ Hw) as Hst.
  wsimpl. eapply wp_mono; [exact (sync_file w1 (dom T) B1 O1 q i1 _ (ef_live _ _ _ _ _ _ _ _ _ E1) Hf1)|].
  intros _ w2 (j & E2 & Hs2 & Hf2 & Hji & Hjn & Hjc & Hjd & Hh2 & Hdisk). wsimpl. specialize (Hdisk (wr_dirty _ _ _ _ _ _ _ _ _ _ _ _ _ Hw)).
  set (c' := write_at c start (zsub buf 0 len)) in *. set (T' := <[nr := File c']> T).
  rewrite (st_nr _ _ _ _ _ Hst), Hin in *. rewrite (st_count _ _ _ _ _ Hst) in Hjc. rewrite <- Hji in Hdisk.
  assert (E : effect {[nr]} (Ob nr) O1 w (dom T) B w2 (dom T) B1).
  { eapply effect_trans; [exact E1|]. apply (effect_on {[nr]}); done. }
  assert (Hdom : dom T = dom T').
  { unfold T'. rewrite dom_insert_L. assert (nr ∈ dom T) by (apply elem_of_dom; by eexists). clear -H. set_solver. }
  assert (Hh : fs_heap w2 = <[q := j]> (fs_heap w)) by by rewrite Hh2, (st_heap _ _ _ _ _ Hst), insert_insert_eq.
  assert (HXu : forall k, k ∈ ({[nr]} : gset Z) -> k <> nr -> refs !! k = None) by by intros k ->%elem_of_singleton.
  assert (Hlook : forall k, k ∉ ({[nr]} : gset Z) -> T' !! k = T !! k).
  { intros k Hk%not_elem_of_singleton. unfold T'. by rewrite lookup_insert_ne. }
  assert (Hn' : T' !! nr = Some (File c')) by apply lookup_insert_eq.
  assert (Hidle : idle w2 (dom T')).
  { rewrite <- Hdom. eapply rep_idle; [apply HR|by eexists|apply E]. }
  rewrite Hdom in E at 2. rewrite Hdom in Hf2. split; [done|]. split; [exact (update_still w nr q i F1 Hin w2 j Hh Hjn)|].
  exists B1. split; [|apply Hw].
  eapply (update_rep w T refs B nr q i HR F1 Hin {[nr]} _ _ w2 T' B1 j); try done.
  - by eapply file_ok; [apply HR|].
  - eapply (update_files w T B Ob HF {[nr]} _ _ w2 T' B1 Hlook E (fun _ => O1)).
    + intros k Hk Hne%not_elem_of_singleton. apply (nf_apart _ _ _ _ _ HF); [congruence|by eexists|done].
    + intros k m ->%elem_of_singleton Hm. rewrite Hn' in Hm. injection Hm as <-. split; [|done]. exists (in_ j). split.
      * pose proof (file_has _ _ _ _ _ _ _ Hf2) as H. by rewrite Hjn in H.
      * by rewrite Hji, (st_type _ _ _ _ _ Hst).
    + intros k k' ->%elem_of_singleton ->%elem_of_singleton. done.
Qed.
End file.
