(* ===== verification/TreeList.v ===== *)
(** * Listing directories

    [testfs_ls] prints the entries of a directory, and those of the directories
    below it when it is recursive.  On a tree the recursion ends: a directory is
    less deep than there are inodes. *)

From stdpp Require Import base gmap list list_numbers strings.
From Stdlib Require Import ZArith Lia.
From S2P Require Import Prelude Words Bitmap Block FsState InodeHash Super Inode ReadWrite Dir File FileTree FileAlloc FileData FileFree DirSpec MkfsSpec FileSpec FileMap DirFiles DirRemove Quiet Tree TreeRep TreeOps.
#[local] Open Scope Z_scope.

(** ** Depth *)

Inductive depth (T : tree) : Z -> nat -> Prop :=
  | depth_root : depth T 0 0
  | depth_child d k e n : depth T d n -> entry_at T d k e -> child e -> depth T (d_inode_nr e) (S n).

Section depth.
Context (T : tree).
Hypothesis HT : tree_ok T.

Lemma depth_ex x : is_Some (T !! x) -> exists n, depth T x n.
Proof.
  intros Hx. apply (tk_reach _ HT) in Hx. induction Hx as [|d es k e _ [n IH] Hd Hk Hc]; [exists 0%nat; constructor|].
  exists (S n). apply (depth_child T d k e n IH); [by exists es|done].
Qed.

Lemma depth_fun x n m : depth T x n -> depth T x m -> n = m.
Proof.
  intros H1. revert m. induction H1 as [|d k e n H1 IH He Hc]; intros m H2.
  - inversion H2 as [E|d k e n' H3 He Hc E]; [done|]. destruct (tk_child _ HT d k e He Hc) as [H _]. congruence.
  - inversion H2 as [E|d2 k2 e2 n' H3 He2 Hc2 E].
    + destruct (tk_child _ HT d k e He Hc) as [H _]. congruence.
    + destruct (tk_once _ HT d k e d2 k2 e2) as [<- _]; try done. f_equal. by apply IH.
Qed.

(** a file and the directories above it *)
Lemma depth_path x n : depth T x n -> is_Some (T !! x) -> exists l, length l = S n /\ NoDup l /\
  forall y, y ∈ l -> is_Some (T !! y) /\ exists k, (k <= n)%nat /\ depth T y k.
Proof.
  intros H Hx. induction H as [|d k e n H IH He Hc].
  - exists [0]. split; [done|]. split; [apply NoDup_singleton|]. intros y ->%list_elem_of_singleton. split; [done|].
    exists 0%nat. split; [lia|constructor].
  - destruct IH as (l & Hl & Hnd & Hin); [destruct He as (es & -> & _); by eexists|]. exists (d_inode_nr e :: l).
    cbn [length]. split; [lia|]. assert (Hde : depth T (d_inode_nr e) (S n)) by by eapply depth_child. split.
    + apply NoDup_cons. split; [|done]. intros Hy. destruct (Hin _ Hy) as (_ & k' & Hk & Hd).
      pose proof (depth_fun _ _ _ Hde Hd). lia.
    + intros y [->|Hy]%elem_of_cons; [split; [done|by exists (S n)]|]. destruct (Hin y Hy) as (H1 & k' & Hk & Hd).
      split; [done|]. exists k'. split; [lia|done].
Qed.

Lemma depth_bound x n N : 0 <= N -> (forall y, is_Some (T !! y) -> 0 <= y < N) -> depth T x n -> is_Some (T !! x) -> Z.of_nat n < N.
Proof.
  intros HN Hb H Hx. destruct (depth_path x n H Hx) as (l & Hl & Hnd & Hin).
  assert (Hs : (length l <= length (seqZ 0 N))%nat).
  { apply submseteq_length, NoDup_submseteq; [done|]. intros y Hy. apply elem_of_seqZ. destruct (Hin y Hy) as [H1 _].
    specialize (Hb y H1). lia. }
  rewrite length_seqZ in Hs. lia.
Qed.
End depth.

(** a walk from [d] ends within [fuel] levels *)
Fixpoint levels (T : tree) (fuel : nat) (d : Z) : Prop :=
  match fuel with
  | O => False
  | S fuel => forall k e, entry_at T d k e -> child e -> levels T fuel (d_inode_nr e)
  end.

Lemma levels_depth T N fuel d n : tree_ok T -> 0 <= N -> (forall y, is_Some (T !! y) -> 0 <= y < N) -> depth T d n -> is_Some (T !! d) ->
  N <= Z.of_nat n + Z.of_nat fuel -> levels T fuel d.
Proof.
  intros HT HN Hb. revert d n. induction fuel as [|fuel IH]; intros d n H Hd Hle; cbn [levels].
  - pose proof (depth_bound T HT d n N HN Hb H Hd). lia.
  - intros k e He Hc. apply (IH _ (S n)); [by eapply depth_child|by apply (tk_child _ HT d k)|lia].
Qed.

Lemma levels_enough w T refs B d : tree_rep w T refs B -> is_Some (T !! d) -> levels T MAX_DEPTH d.
Proof.
  intros HR Hd. pose proof (ts_ok _ _ _ _ HR) as HT. destruct (depth_ex T HT d Hd) as [n Hn].
  apply (levels_depth T NR_INODES MAX_DEPTH d n); try done. { intros y Hy. by apply (rep_nr _ _ _ _ _ HR). }
  change NR_INODES with 16384. unfold MAX_DEPTH. lia.
Qed.

(** ** What is printed *)

Definition entry_name (e : dirent) : list Z := removelast (d_name e).

Section listing.
Context (T : tree) (recursive : bool) (sub : Z -> list event).

Definition list_entry (e : dirent) : list event :=
  if d_inode_nr e <? 0 then [] else
  match T !! d_inode_nr e with
  | Some n =>
      [OutBytes (entry_name e); OutStr (if node_type n =? I_DIR then "/" else ""); OutBytes [10]] ++
      (if recursive && (node_type n =? I_DIR) && bool_decide (child e) then sub (d_inode_nr e) else [])
  | None => []
  end.
End listing.

Fixpoint listing (T : tree) (recursive : bool) (fuel : nat) (d : Z) : list event :=
  match fuel with
  | O => []
  | S fuel =>
      match T !! d with
      | Some (Folder es) => concat (map (list_entry T recursive (listing T recursive fuel)) es)
      | _ => []
      end
  end.

(** more levels than there are change nothing *)
Lemma levels_mono T n m d : levels T n d -> (n <= m)%nat -> levels T m d.
Proof.
  revert m d. induction n as [|n IH]; intros m d H Hle; [done|]. destruct m as [|m]; [lia|]. intros k e He Hc. apply IH; [by eapply H|lia].
Qed.

Lemma listing_enough T recursive n m d : levels T n d -> (n <= m)%nat -> listing T recursive m d = listing T recursive n d.
Proof.
  revert m d. induction n as [|n IH]; intros m d H Hle; [done|]. destruct m as [|m]; [lia|]. cbn [listing].
  destruct (T !! d) as [[c|es]|] eqn:Hd; [done| |done]. f_equal. apply map_ext_in. intros e He%list_elem_of_In%list_elem_of_lookup.
  destruct He as [k He]. unfold list_entry. destruct (d_inode_nr e <? 0); [done|]. destruct (T !! d_inode_nr e); [|done]. f_equal.
  destruct (bool_decide_reflect (child e)) as [Hc|]; [|by rewrite andb_false_r]. destruct (recursive && _); [|done]. cbn [andb].
  apply IH; [|lia]. apply (H k e); [by exists es|done].
Qed.

(** printing [l], in this order, after what [w] printed *)
Record printed (l : list event) (w w' : fs) : Prop := {
  pr_out : fs_out w' = rev l ++ fs_out w;
  pr_max : max_fs_blocks (fs_sb w') = max_fs_blocks (fs_sb w);
}.

Lemma printed_nil w w' : unchanged w w' -> printed [] w w'.
Proof. by intros [H1 H2]. Qed.
Lemma printed_app l1 l2 w1 w2 w3 : printed l1 w1 w2 -> printed l2 w2 w3 -> printed (l1 ++ l2) w1 w3.
Proof. intros [O1 M1] [O2 M2]. split; [|congruence]. by rewrite O2, O1, rev_app_distr, app_assoc. Qed.

Lemma print_event e w : printed [e] w (with_out (e :: fs_out w) w).
Proof. by split. Qed.

Lemma rep_out w T refs B l : tree_rep w T refs B -> tree_rep (with_out l w) T refs B /\ still w (with_out l w).
Proof.
  intros HR. apply rep_none; [done| |done]. apply meta_effect; [|done|apply dev_frame_refl].
  destruct (ts_live _ _ _ _ HR) as [[] [t []]]. split; [by split|]. exists t. by split.
Qed.

Lemma str_of_c_str {S} name rest (s : S) : Forall (fun x => x <> 0) name -> str_of_buf (c_str name ++ rest) s = Val (name, s).
Proof.
  unfold c_str. rewrite <- app_assoc. change ([0] ++ rest) with (0 :: rest). induction 1 as [|x name Hx Hn IH]; [done|]. cbn [app str_of_buf].
  rewrite (proj2 (Z.eqb_neq x 0)) by done. unfold mbind, M_bind. by rewrite IH.
Qed.

Lemma wp_entry_name {S} e (s : S) (Q : list Z -> S -> Prop) : entry_ok e -> Q (entry_name e) s -> wp (str_of_buf (d_name e)) s Q.
Proof.
  intros [(name & [Hn _] & He) _ _] HQ. unfold entry_name in HQ. rewrite He in *. unfold c_str in HQ. rewrite removelast_last in HQ.
  eapply wp_val; [|exact HQ]. rewrite <- (app_nil_r (c_str name)). by apply str_of_c_str.
Qed.

(** ** [testfs_ls] *)

Section ls.
Context (T : tree) (refs : gmap Z Z) (B : gset Z) (recursive : bool).

(** what a walk below [d] does *)
Definition lists (fuel : nat) (d : Z) : Prop := forall w q, tree_rep w T refs B -> cached w d q ->
  wp (testfs_ls fuel q recursive) w (fun r w' => r = 0 /\ tree_rep w' T refs B /\ still w w' /\ printed (listing T recursive fuel d) w w').
End ls.

(** one entry in use, whose inode is open as [q] *)
Lemma entry_shown {X} (x : X) w T refs B recursive fuel e n q w0 (Q : X -> fs -> Prop) : entry_ok e -> in_use e ->
  tree_rep w0 T refs B -> T !! d_inode_nr e = Some n ->
  tree_rep w T (ref_up refs (d_inode_nr e)) B -> cached w (d_inode_nr e) q -> still w0 w ->
  (child e -> recursive = true -> node_type n = I_DIR -> lists T (ref_up refs (d_inode_nr e)) B recursive fuel (d_inode_nr e)) ->
  (forall w', tree_rep w' T refs B -> still w0 w' ->
     printed (list_entry T recursive (listing T recursive fuel) e) w w' -> Q x w') ->
  wp (s ← str_of_buf (d_name e);
      type ← testfs_inode_get_type q;
      print (OutBytes s);;
      print (OutStr (if type =? I_DIR then "/" else ""));;
      print (OutBytes [10]);;
      deeper ←
        (if recursive && (type =? I_DIR) then
           is_dot ← strcmp_eq (d_name e) (c_str dot);
           is_dotdot ← (if is_dot : bool then mret true else strcmp_eq (d_name e) (c_str dotdot));
           mret (negb is_dotdot)
         else mret false);
      (if deeper : bool then testfs_ls fuel q recursive;; mret tt else mret tt);;
      testfs_put_inode q;; mret x) w Q.
Proof.
  intros He Hu HR0 Hn HR Hq Hs Hsub HQ. destruct (ts_files _ _ _ _ HR) as [Ob HF].
  destruct (rep_file _ _ _ _ Ob _ n q HR HF Hn Hq) as (i & Hf & Hty & _). pose proof (if_heap _ _ _ _ _ _ _ Hf) as Hqi.
  wsimpl. apply wp_entry_name; [done|]. wsimpl. unfold testfs_inode_get_type. wsimpl. eapply wp_get_inode; [done|]. wsimpl.
  rewrite Hty. unfold print. wsimpl. unfold list_entry in HQ. rewrite (proj2 (Z.ltb_ge _ _)), Hn in HQ by exact Hu.
  set (head := [OutBytes (entry_name e); OutStr (if node_type n =? I_DIR then "/" else ""); OutBytes [10]]) in *.
  match goal with |- wp _ ?w1 _ => set (w1' := w1) end.
  assert (Hp : printed head w w1') by by split.
  assert (H1 : tree_rep w1' T (ref_up refs (d_inode_nr e)) B /\ still w w1').
  { exact (rep_out w T _ B (OutBytes [10] :: OutStr (if node_type n =? I_DIR then "/" else "") :: OutBytes (entry_name e) :: fs_out w) HR). }
  destruct H1 as [HR1 Hs1]. clearbody w1'. clear HF Hf Hqi.
  apply (wp_mono _ _ (fun b w2 => w2 = w1' /\ b = recursive && (node_type n =? I_DIR) && bool_decide (child e))).
  { destruct (recursive && (node_type n =? I_DIR)); [|by wsimpl]. wsimpl. apply wp_strcmp; [done|apply name_ok_dot|].
    destruct (bool_decide_reflect (d_name e = c_str dot)) as [E1|E1]; wsimpl.
    { split; [done|]. rewrite bool_decide_false; [done|]. by intros (_ & H & _). }
    apply wp_strcmp; [done|apply name_ok_dotdot|]. wsimpl. split; [done|]. destruct (bool_decide_reflect (d_name e = c_str dotdot)) as [E2|E2].
    - rewrite bool_decide_false; [done|]. by intros (_ & _ & H).
    - by rewrite bool_decide_true by done. }
  intros b w2 [-> ->]. wsimpl.
  apply (wp_mono _ _ (fun _ w2 => tree_rep w2 T (ref_up refs (d_inode_nr e)) B /\ still w1' w2 /\
    printed (if recursive && (node_type n =? I_DIR) && bool_decide (child e) then listing T recursive fuel (d_inode_nr e) else []) w1' w2)).
  { destruct (recursive && (node_type n =? I_DIR) && bool_decide (child e)) eqn:Eb; [|wsimpl; split_and!; try done; by intros k].
    apply andb_true_iff in Eb as [[Er Et%Z.eqb_eq]%andb_true_iff Ec%bool_decide_eq_true]. wsimpl.
    eapply wp_mono; [apply (Hsub Ec Er Et w1' q HR1); by apply Hs1|]. intros r w2 (_ & H1 & H2 & H3). by wsimpl. }
  intros _ w2 (HR2 & Hs2 & Hp2). assert (Hs02 : still w0 w2) by (eapply still_trans; [exact Hs|by eapply still_trans]).
  wsimpl. eapply wp_mono; [apply (close_up w0 w2 T refs B _ n q HR0 Hs02 HR2 Hn); apply Hs2, Hs1, Hq|].
  intros [] w3 (HR3 & Hs3 & Hu3). wsimpl. apply HQ; try done. rewrite <- (app_nil_r (head ++ _)). eapply printed_app; [|by apply printed_nil].
  by eapply printed_app.
Qed.

Lemma ls_rep T B recursive fuel : (forall d es, T !! d = Some (Folder es) -> zlen (dir_bytes es) < 1073741824) ->
  forall refs d es, T !! d = Some (Folder es) -> (recursive = true -> levels T fuel d) -> (0 < fuel)%nat -> lists T refs B recursive fuel d.
Proof.
  intros Hz. induction fuel as [|fuel IH]; intros refs d es Hd Hlev Hpos w q HR Hq; [lia|]. cbn [testfs_ls listing]. rewrite Hd.
  assert (Hlen : forall es', Forall entry_ok es' -> 0 <= zlen (dir_bytes es')) by (intros; apply zlen_nonneg).
  pose proof (tk_entries _ (ts_ok _ _ _ _ HR) d es Hd) as Hok.
  apply (wp_while (fun off w' => tree_rep w' T refs B /\ still w w' /\ exists pre post, at_entry es off pre post /\
      printed (concat (map (list_entry T recursive (listing T recursive fuel)) pre)) w w')
    (fun off => zlen (dir_bytes es) - off)).
  { split; [done|]. split; [by intros k|]. exists [], es. by split. }
  { pose proof (Hz d es Hd). pose proof (zlen_nonneg (dir_bytes es)). change (2 ^ 64) with 18446744073709551616. lia. }
  intros off w1 (HR1 & Hs1 & pre & post & Hat & Hp1) _. destruct (ts_files _ _ _ _ HR1) as [Ob HF].
  destruct (rep_dir w1 T refs B Ob d es q HR1 HF Hd (Hz d es Hd) (Hs1 _ _ Hq)) as (i & Hdir & _).
  pose proof (is_dir_rep _ _ _ _ _ _ _ Hdir) as Hrep. pose proof Hdir as [[Hp _ Ht _ _ _] _ _ _].
  pose proof (at_entry_bound w1 i es Hrep _ _ _ Hat) as Hb1. wsimpl.
  eapply (next_at w1 (dom T) B _ q i es (proj1 (ts_live _ _ _ _ HR1)) Hp Ht Hrep); [exact Hat| |].
  { intros _ ->. wsimpl. by split_and!. }
  intros e post' off' -> He Hat' Hlt. cbv beta iota. pose proof (at_entry_bound w1 i es Hrep _ _ _ Hat') as Hb2.
  assert (Hgo : forall w2, tree_rep w2 T refs B -> still w1 w2 -> printed (list_entry T recursive (listing T recursive fuel) e) w1 w2 ->
    (tree_rep w2 T refs B /\ still w w2 /\ exists pre post, at_entry es off' pre post /\
      printed (concat (map (list_entry T recursive (listing T recursive fuel)) pre)) w w2) /\
    0 <= zlen (dir_bytes es) - off' < zlen (dir_bytes es) - off).
  { intros w2 HR2 Hs2 Hp2. split; [|lia]. split; [done|]. split; [by eapply still_trans|]. exists (pre ++ [e]), post'. split; [done|].
    rewrite map_app, concat_app. cbn [map concat]. rewrite app_nil_r. by eapply printed_app. }
  destruct (Z.ltb_spec (d_inode_nr e) 0) as [Hneg|Hnn]; wsimpl.
  { apply Hgo; [done|by intros k|]. unfold list_entry. rewrite (proj2 (Z.ltb_lt _ _)) by done. by split. }
  assert (Hat_e : entry_at T d (length pre) e).
  { exists es. split; [done|]. destruct Hat as [-> _]. rewrite lookup_app_r, Nat.sub_diag by lia. done. }
  destruct (entry_target T d (length pre) e (ts_ok _ _ _ _ HR) Hat_e Hnn) as [n Hn].
  eapply wp_mono; [by apply (open_rep w1 T refs B _ n)|]. intros c w2 (HR2 & Hc & Hs2 & Hu2). cbv beta.
  pose proof (entry_shown (inl off' : Z + Z) w2 T refs B recursive fuel e n c w1) as Hshow.
  apply Hshow; try done.
  - intros Hc2 Hrec Hty. destruct n as [|es2]; [done|]. specialize (Hlev Hrec). cbn in Hlev. specialize (Hlev _ _ Hat_e Hc2).
    apply (IH _ _ es2); [done|done|]. destruct fuel; [done|lia].
  - intros w3 HR3 Hs3 Hp3. apply Hgo; [done|done|]. apply (printed_app [] _ _ w2); [by apply printed_nil|done].
Qed.
