(* ===== verification/TreeShell.v ===== *)
(** * The commands of the shell on the tree

    What each command answers, prints and leaves, as functions on the abstract state:
    the tree, the references to inodes in memory, and the current directory.  The
    commands of dir.c and file.c do what these functions say. *)

From stdpp Require Import base gmap list list_numbers strings.
From Stdlib Require Import ZArith Lia.
From S2P Require Import Prelude Words Numbers Bitmap Block FsState InodeHash Super Inode ReadWrite Dir File Shell FileTree FileAlloc FileData FileFree DirSpec MkfsSpec FileSpec FileMap DirFiles DirRemove ShellSpec Quiet Tree TreeRep TreeOps TreeList.
#[local] Open Scope Z_scope.

(** ** Commands *)

Record volume : Type := mk_volume {
  v_tree : tree;
  v_refs : gmap Z Z;
  v_cur : Z;
}.

Inductive command : Type :=
  | Cd (name : list Z)
  | Ls (name : list Z)
  | Lsr (name : list Z)
  | Create (name : list Z)
  | Mkdir (name : list Z)
  | Rm (name : list Z)
  | Stat (name : list Z)
  | Read (name offset size : list Z)
  | Write (name offset data : list Z).

Definition command_name (x : command) : string :=
  match x with
  | Cd _ => "cd" | Ls _ => "ls" | Lsr _ => "lsr" | Create _ => "create" | Mkdir _ => "mkdir" | Rm _ => "rm"
  | Stat _ => "stat" | Read _ _ _ => "read" | Write _ _ _ => "write"
  end.
Definition command_args (x : command) : list (list Z) :=
  match x with
  | Cd n | Ls n | Lsr n | Create n | Mkdir n | Rm n | Stat n => [n]
  | Read n a b | Write n a b => [n; a; b]
  end.

(** the inode number of a name in the current directory, and its node *)
Definition look (v : volume) (name : list Z) : option (Z * node) :=
  match v_tree v !! v_cur v with
  | Some (Folder es) =>
      match find_name name es with
      | Some nr => match v_tree v !! nr with Some n => Some (nr, n) | None => None end
      | None => None
      end
  | _ => None
  end.

(** the smallest number that is not in use *)
Fixpoint free_from (T : tree) (n : nat) (k : Z) : option Z :=
  match n with
  | O => None
  | S n => match T !! k with None => Some k | Some _ => free_from T n (k + 1) end
  end.
Definition next_free (T : tree) : option Z := free_from T (Z.to_nat NR_INODES) 0.


Definition set_tree (T : tree) (v : volume) : volume := mk_volume T (v_refs v) (v_cur v).

Definition make (type : Z) (name : list Z) (v : volume) : Z * volume :=
  match v_tree v !! v_cur v with
  | Some (Folder es) =>
      match find_name name es with
      | Some _ => (- EEXIST, v)
      | None =>
          match next_free (v_tree v) with
          | Some nr => (0, set_tree (grow (v_tree v) (v_cur v) es name type nr) v)
          | None => (- ENOSPC, v)
          end
      end
  | _ => (0, v)
  end.

Definition unmake (name : list Z) (v : volume) : Z * volume :=
  match v_tree v !! v_cur v with
  | Some (Folder es) =>
      if decide (name = dot \/ name = dotdot) then (- EINVAL, v) else
      match look v name with
      | None => (- ENOENT, v)
      | Some (nr, n) =>
          if decide (removable n) then (0, set_tree (prune (v_tree v) (v_cur v) es name nr) v) else (- ENOTEMPTY, v)
      end
  | _ => (0, v)
  end.

(** the file a name denotes, or the error number *)
Definition look_file (v : volume) (name : list Z) : Z + Z * list Z :=
  match look v name with
  | None => inl (- ENOENT)
  | Some (_, Folder _) => inl (- EISDIR)
  | Some (nr, File c) => inr (nr, c)
  end.

(** the file, offset and size of a read that is carried out, or the error number *)
Definition read_args (v : volume) (name offset size : list Z) : Z + list Z * Z * Z :=
  let '(ret, off) := str_to_offset offset in
  if ret <? 0 then inl ret else
  if off <? 0 then inl (- EINVAL) else
  let '(ret, n) := str_to_size size in
  if ret <? 0 then inl ret else
  match look_file v name with
  | inl ret => inl ret
  | inr (_, c) => if zlen c <? off + n then inl (- EINVAL) else inr (c, off, n)
  end.

Definition write_args (v : volume) (name offset : list Z) : Z + Z * list Z * Z :=
  let '(ret, off) := str_to_offset offset in
  if ret <? 0 then inl ret else
  if off <? 0 then inl (- EINVAL) else
  match look_file v name with
  | inl ret => inl ret
  | inr (nr, c) => inr (nr, c, off)
  end.

(** the answer and the new state *)
Definition perform (x : command) (v : volume) : Z * volume :=
  match x with
  | Cd name =>
      match look v name with
      | None => (- ENOENT, v)
      | Some (nr, Folder _) => (0, mk_volume (v_tree v) (ref_down (ref_up (v_refs v) nr) (v_cur v)) nr)
      | Some (_, File _) => (- ENOTDIR, v)
      end
  | Ls name | Lsr name =>
      match look v name with
      | None => (- ENOENT, v)
      | Some (_, Folder _) => (0, v)
      | Some (nr, File _) => (- ENOTDIR, mk_volume (v_tree v) (ref_up (v_refs v) nr) (v_cur v))
      end
  | Create name => make I_FILE name v
  | Mkdir name => make I_DIR name v
  | Rm name => unmake name v
  | Stat name => match look v name with None => (- ENOENT, v) | Some _ => (0, v) end
  | Read name offset size =>
      match read_args v name offset size with inl ret => (ret, v) | inr (_, _, n) => (n, v) end
  | Write name offset data =>
      match write_args v name offset with
      | inl ret => (ret, v)
      | inr (nr, c, off) => (zlen data, set_tree (<[nr := File (write_at c off data)]> (v_tree v)) v)
      end
  end.

(** what is printed; [k] is the number of blocks of the file, which the contents do
    not determine *)
Definition until_zero (l : list Z) : list Z :=
  (fix go l := match l with [] => [] | x :: l' => if x =? 0 then [] else x :: go l' end) l.

Definition prints (x : command) (v : volume) (k : Z) : list event :=
  match x with
  | Ls name => match look v name with Some (nr, Folder _) => listing (v_tree v) false MAX_DEPTH nr | _ => [] end
  | Lsr name => match look v name with Some (nr, Folder _) => listing (v_tree v) true MAX_DEPTH nr | _ => [] end
  | Stat name =>
      match look v name with
      | Some (nr, n) =>
          [OutBytes name; OutStr ": i_nr = "; OutDec nr; OutStr ", i_type = "; OutDec (node_type n);
           OutStr ", i_size = "; OutDec (zlen (node_data n)); OutStr ", block_count = "; OutDec k; OutBytes [10]]
      | None => []
      end
  | Read name offset size =>
      match read_args v name offset size with
      | inl _ => []
      | inr (c, off, n) => [OutBytes (until_zero (zsub c off n)); OutBytes [10]]
      end
  | _ => []
  end.

(** ** Bounds *)

(** a word of a line that is a C string *)
Definition arg_ok (w : list Z) : Prop := word_ok w /\ Forall (fun x => 0 < x < 256) w.

(** the arguments that the commands are specified for *)
Definition arguments_ok (x : command) : Prop :=
  Forall arg_ok (command_args x) /\ name_ok (hd [] (command_args x)) /\
  match x with
  | Read _ offset size => (str_to_offset offset).2 < MAX_FILE_SIZE /\ 0 <= (str_to_size size).2 < 2147483648
  | Write _ offset data => zlen data < 2147483648 /\ (str_to_offset offset).2 + zlen data <= MAX_FILE_SIZE
  | _ => True
  end.

(** what is removed is not open *)
Definition allowed (x : command) (v : volume) : Prop :=
  arguments_ok x /\
  match x with
  | Rm name => forall nr n, name <> dot -> name <> dotdot -> look v name = Some (nr, n) -> v_refs v !! nr = None
  | _ => True
  end.

(** the blocks and the bytes of a directory that a command can take *)
Definition blocks_of (x : command) : Z :=
  match x with
  | Create name | Mkdir name => NEED_EMPTY + need (entry_bytes name)
  | Rm name => need (entry_bytes name)
  | Write _ _ data => need (zlen data)
  | _ => 0
  end.
Definition bytes_taken (x : command) : Z :=
  match x with
  | Create name | Mkdir name | Rm name => entry_bytes name
  | _ => 0
  end.

(** ** The state of a running shell *)

Record holds (w : fs) (v : volume) (p : ptr) (B : gset Z) : Prop := {
  ho_rep : tree_rep w (v_tree v) (v_refs v) B;
  ho_cur : cached w (v_cur v) p;
  ho_dir : exists es, v_tree v !! v_cur v = Some (Folder es);
}.

(** a command has done what it should *)
Definition performed (x : command) (w : fs) (v : volume) (B : gset Z) (r : Z) (w' : fs) (p' : ptr) : Prop :=
  r = (perform x v).1 /\ (exists k, 0 <= k /\ printed (prints x v k) w w') /\
  exists B', holds w' (perform x v).2 p' B' /\ Z.of_nat (size B') <= Z.of_nat (size B) + blocks_of x.

Lemma free_from_spec T n k : match free_from T n k with
  | Some x => T !! x = None /\ k <= x < k + Z.of_nat n /\ forall j, k <= j < x -> is_Some (T !! j)
  | None => forall j, k <= j < k + Z.of_nat n -> is_Some (T !! j)
  end.
Proof.
  revert k. induction n as [|n IH]; intros k; cbn [free_from]; [lia|]. destruct (T !! k) as [m|] eqn:Hk; [|split; [done|]; split; [lia|]; intros; lia].
  specialize (IH (k + 1)). destruct (free_from T n (k + 1)) as [x|].
  - destruct IH as (H1 & H2 & H3). split; [done|]. split; [lia|]. intros j Hj. destruct (decide (j = k)) as [->|]; [by eexists|]. apply H3. lia.
  - intros j Hj. destruct (decide (j = k)) as [->|]; [by eexists|]. apply IH. lia.
Qed.

Lemma next_free_result T : match next_free T with Some nr => first_free T nr | None => full T end.
Proof.
  unfold next_free. pose proof (free_from_spec T (Z.to_nat NR_INODES) 0) as H. rewrite Z2Nat.id, Z.add_0_l in H by done.
  destruct (free_from _ _ _); [|done]. done.
Qed.

Lemma next_free_first T nr : next_free T = Some nr -> first_free T nr.
Proof. intros E. pose proof (next_free_result T) as H. by rewrite E in H. Qed.

Lemma next_free_full T : full T -> next_free T = None.
Proof.
  intros H. destruct (next_free T) as [nr|] eqn:E; [|done]. apply next_free_first in E as (H1 & H2 & _). destruct (H nr H2). congruence.
Qed.

Lemma next_free_spec T nr : first_free T nr -> next_free T = Some nr.
Proof.
  intros (H1 & H2 & H3). destruct (next_free T) as [k|] eqn:E.
  - apply next_free_first in E as (K1 & K2 & K3). f_equal. destruct (Z.lt_total k nr) as [Hlt|[->|Hgt]]; [|done|].
    + destruct (H3 k); [lia|]. congruence.
    + destruct (K3 nr); [lia|]. congruence.
  - pose proof (next_free_result T) as H. rewrite E in H. destruct (H nr H2). congruence.
Qed.

Section commands.
Context (w : fs) (v : volume) (p : ptr) (B : gset Z).
Hypothesis Hv : holds w v p B.

Abbreviation T := (v_tree v).

Lemma holds_still w' refs B' T' : tree_rep w' T' refs B' -> still w w' -> (exists es, T' !! v_cur v = Some (Folder es)) ->
  holds w' (mk_volume T' refs (v_cur v)) p B'.
Proof. intros H1 H2 H3. split; [done|by apply H2, Hv|done]. Qed.

Lemma holds_same w' B' : tree_rep w' T (v_refs v) B' -> still w w' -> holds w' v p B'.
Proof. intros H1 H2. split; [done|by apply H2, Hv|apply Hv]. Qed.

Lemma look_rep name n : fits T n -> 0 <= n -> name_ok name -> wp (testfs_dir_name_to_inode_nr p name) w (fun r w' => w' = w /\
  match look v name with
  | None => r = - ENOENT
  | Some (nr, n) => r = nr /\ 0 <= nr /\ T !! nr = Some n
  end).
Proof.
  intros Hfit Hn Hname. destruct (ho_dir _ _ _ _ Hv) as [es Hes]. pose proof (ho_rep _ _ _ _ Hv) as HR.
  eapply wp_mono; [apply (rep_lookup w T _ B (v_cur v) es p name HR Hes (fits_size T n _ _ Hfit Hn Hes) (ho_cur _ _ _ _ Hv) Hname)|].
  intros r w' [-> ->]. split; [done|]. unfold look. rewrite Hes. destruct (find_name name es) as [nr|] eqn:Hf; [|done].
  destruct (find_target T (v_cur v) es name nr (ts_ok _ _ _ _ HR) Hes Hf) as [m Hm]. rewrite Hm. cbn. split_and!; [done| |done].
  by eapply find_name_nonneg.
Qed.

(** the type of an open inode *)
Lemma wp_type_of w1 refs B1 nr n q (Q : Z -> fs -> Prop) : tree_rep w1 T refs B1 -> T !! nr = Some n -> cached w1 nr q ->
  Q (node_type n) w1 -> wp (testfs_inode_get_type q) w1 Q.
Proof.
  intros HR Hn Hq HQ. destruct (ts_files _ _ _ _ HR) as [Ob HF]. destruct (rep_file _ _ _ _ Ob nr n q HR HF Hn Hq) as (i & Hf & Ht & _).
  unfold testfs_inode_get_type. wsimpl. eapply wp_get_inode; [apply Hf|]. wsimpl. by rewrite Ht.
Qed.
Lemma wp_size_of w1 refs B1 nr n q (Q : Z -> fs -> Prop) : tree_rep w1 T refs B1 -> T !! nr = Some n -> cached w1 nr q ->
  Q (zlen (node_data n)) w1 -> wp (testfs_inode_get_size q) w1 Q.
Proof.
  intros HR Hn Hq HQ. destruct (ts_files _ _ _ _ HR) as [Ob HF]. destruct (rep_file _ _ _ _ Ob nr n q HR HF Hn Hq) as (i & Hf & Ht & _).
  unfold testfs_inode_get_size. wsimpl. eapply wp_get_inode; [apply Hf|]. wsimpl. by rewrite (if_size _ _ _ _ _ _ _ Hf).
Qed.

Lemma performed_0 x r w' p' v' : prints x v 0 = [] -> perform x v = (r, v') -> unchanged w w' ->
  (exists B', holds w' v' p' B' /\ Z.of_nat (size B') <= Z.of_nat (size B) + blocks_of x) -> performed x w v B r w' p'.
Proof.
  intros Hp Hx Hu HB. unfold performed. rewrite Hx. split; [done|]. split; [|done]. exists 0. split; [done|]. rewrite Hp. by apply printed_nil.
Qed.

Lemma performed_err x r w' : prints x v 0 = [] -> perform x v = (r, v) -> unchanged w w' -> tree_rep w' T (v_refs v) B -> still w w' ->
  0 <= blocks_of x -> performed x w v B r w' p.
Proof. intros Hp Hx Hu HR Hs Hb. apply (performed_0 x r w' p v); try done. exists B. split; [by apply holds_same|lia]. Qed.
End commands.

Ltac run_arg := unfold arg, args_context; cbn [nargs length cmd cur_dir];
  repeat match goal with |- context [negb (1 + Z.of_nat ?n =? ?m)] => change (negb (1 + Z.of_nat n =? m)) with false end; cbv iota; wsimpl.
Ltac take_arg := eapply wp_deref; [reflexivity|]; wsimpl; eapply wp_deref; [reflexivity|]; wsimpl.

Section one.
Context (w : fs) (v : volume) (p : ptr) (B : gset Z) (cname : list Z).
Hypothesis Hv : holds w v p B.

Abbreviation T := (v_tree v).

Lemma cd_rep name : allowed (Cd name) v -> fits T 0 ->
  wp (cmd_cd (args_context cname [name] p)) w (fun '(r, p') w' => performed (Cd name) w v B r w' p').
Proof.
  intros [(_ & Hname & _) _] Hfit. pose proof (ho_rep _ _ _ _ Hv) as HR. unfold cmd_cd. run_arg. take_arg.
  eapply wp_mono; [by apply (look_rep w v p B Hv name 0)|]. intros r w0 [-> Hl]. assert (Hu0 : unchanged w w) by done.
  destruct (look v name) as [[nr n]|] eqn:El.
  2: { subst r. change (- ENOENT <? 0) with true. cbv iota. wsimpl. apply performed_err; try done; [|by intros k]. cbn. by rewrite El. }
  destruct Hl as (-> & H0 & Hn). rewrite (proj2 (Z.ltb_ge _ _)) by done. wsimpl.
  eapply wp_mono; [by apply (open_rep w T (v_refs v) B nr n)|]. intros q w1 (HR1 & Hq & Hs1 & Hu1). wsimpl.
  eapply wp_type_of; [exact HR1|exact Hn|exact Hq|]. destruct n as [c|es]; cbn [node_type].
  - change (negb (I_FILE =? I_DIR)) with true. cbv iota. wsimpl.
    eapply wp_mono; [by apply (close_up w w1 T (v_refs v) B nr (File c) q)|]. intros _ w2 (HR2 & Hs2 & Hu2). wsimpl.
    apply performed_err; try done; [|by etransitivity]. cbn. by rewrite El.
  - change (negb (I_DIR =? I_DIR)) with false. cbv iota. wsimpl. destruct (ho_dir _ _ _ _ Hv) as [ecur Hcur].
    eapply wp_mono; [apply (close_rep w1 T _ B (v_cur v) (Folder ecur) p HR1 Hcur); apply Hs1, Hv|]. intros _ w2 (HR2 & Hs2 & Hu2). wsimpl.
    apply (performed_0 w v B (Cd name) 0 w2 q (mk_volume T (ref_down (ref_up (v_refs v) nr) (v_cur v)) nr)); [done|cbn; by rewrite El|by etransitivity|].
    exists B. cbn [blocks_of]. split; [|lia]. split; [done| |by exists es]. cbn. apply Hs2; [done|]. intros ->.
    destruct (rep_ref _ _ _ _ _ _ HR (ho_cur _ _ _ _ Hv)) as (c & Hc & Hpos). unfold ref_up. rewrite lookup_insert_eq, Hc. cbn. intros [= ?]. lia.
Qed.

Lemma ls_command_rep (recursive : bool) name : let x := if recursive then Lsr name else Ls name in allowed x v -> fits T 0 ->
  wp (cmd_ls_internal (args_context cname [name] p) recursive) w (fun r w' => performed x w v B r w' p).
Proof.
  intros x Ha Hfit. assert (Hname : name_ok name) by (unfold x in Ha; destruct recursive; apply Ha).
  assert (Hx : perform x v = match look v name with
    | None => (- ENOENT, v)
    | Some (_, Folder _) => (0, v)
    | Some (nr, File _) => (- ENOTDIR, mk_volume (v_tree v) (ref_up (v_refs v) nr) (v_cur v)) end) by (unfold x; by destruct recursive).
  assert (Hp : forall k, prints x v k = match look v name with Some (nr, Folder _) => listing (v_tree v) recursive MAX_DEPTH nr | _ => [] end)
    by (unfold x; by destruct recursive).
  assert (Hb : blocks_of x = 0) by (unfold x; by destruct recursive). clearbody x.
  pose proof (ho_rep _ _ _ _ Hv) as HR. unfold cmd_ls_internal. run_arg. take_arg.
  eapply wp_mono; [by apply (look_rep w v p B Hv name 0)|]. intros r w0 [-> Hl]. assert (Hu0 : unchanged w w) by done.
  destruct (look v name) as [[nr n]|] eqn:El.
  2: { subst r. change (- ENOENT <? 0) with true. cbv iota. wsimpl. apply performed_err; try done; [by intros k|lia]. }
  destruct Hl as (-> & H0 & Hn). rewrite (proj2 (Z.ltb_ge _ _)) by done. wsimpl.
  eapply wp_mono; [by apply (open_rep w T (v_refs v) B nr n)|]. intros q w1 (HR1 & Hq & Hs1 & Hu1). wsimpl.
  eapply wp_type_of; [exact HR1|exact Hn|exact Hq|]. destruct n as [c|es]; cbn [node_type].
  - change (I_FILE =? I_DIR) with false. cbv iota. wsimpl.
    eapply (performed_0 w v B x _ w1 p); [by rewrite Hp|exact Hx|done|]. exists B. split; [|lia].
    by apply (holds_still w v p B Hv); [..|apply Hv].
  - change (I_DIR =? I_DIR) with true. cbv iota. wsimpl.
    assert (Hz : forall d es, T !! d = Some (Folder es) -> zlen (dir_bytes es) < 1073741824) by (intros d es' Hd'; by eapply fits_size).
    assert (Hlist : lists T (ref_up (v_refs v) nr) B recursive MAX_DEPTH nr).
    { apply (ls_rep T B recursive MAX_DEPTH Hz _ nr es Hn); [|unfold MAX_DEPTH; lia]. intros _. eapply levels_enough; [exact HR|by eexists]. }
    eapply wp_mono; [exact (Hlist w1 q HR1 Hq)|]. intros r2 w2 (-> & HR2 & Hs2 & Hp2). wsimpl.
    assert (Hs02 : still w w2) by by eapply still_trans.
    eapply wp_mono; [apply (close_up w w2 T (v_refs v) B nr (Folder es) q HR Hs02 HR2 Hn); by apply Hs2|]. intros _ w3 (HR3 & Hs3 & Hu3). wsimpl.
    unfold performed. rewrite Hx. split; [done|]. split; [|exists B; split; [by apply (holds_same w v p B Hv)|lia]].
    exists 0. split; [done|]. rewrite Hp, ?El. cbv iota. apply (printed_app [] (listing T recursive MAX_DEPTH nr) w w1 w3 (printed_nil _ _ Hu1)).
    rewrite <- (app_nil_r (listing T recursive MAX_DEPTH nr)). exact (printed_app _ [] w1 w2 w3 Hp2 (printed_nil _ _ Hu3)).
Qed.

Lemma make_rep type name x : type = I_FILE /\ x = Create name \/ type = I_DIR /\ x = Mkdir name -> name_ok name ->
  fits T (entry_bytes name) -> Z.of_nat (size B) + NEED_EMPTY + need (entry_bytes name) <= max_fs_blocks (fs_sb w) ->
  wp (testfs_create_file_or_dir (Some p) type name) w (fun r w' => performed x w v B r w' p).
Proof.
  intros Hx Hname Hfit Hroom. pose proof (ho_rep _ _ _ _ Hv) as HR. destruct (ho_dir _ _ _ _ Hv) as [es Hes].
  assert (Ht : type = I_FILE \/ type = I_DIR) by (destruct Hx as [[-> _]|[-> _]]; auto).
  assert (Hperf : perform x v = make type name v /\ (forall k, prints x v k = []) /\ blocks_of x = NEED_EMPTY + need (entry_bytes name)).
  { by destruct Hx as [[-> ->]|[-> ->]]. }
  destruct Hperf as (Hp & Hpr & Hb). clear Hx. unfold make in Hp. rewrite Hes in Hp.
  assert (Hne : 0 <= need (entry_bytes name)) by (apply need_pos; pose proof (entry_bytes_pos name); lia).
  eapply wp_mono; [by apply (grow_rep w T (v_refs v) B (v_cur v) es p name HR Hes (ho_cur _ _ _ _ Hv) Hname Hfit type Ht)|].
  intros r w' (Hs & Hu & H). destruct (find_name name es) as [nr|] eqn:Hf.
  { destruct H as [-> HR']. apply performed_err; try done. rewrite Hb. change NEED_EMPTY with 12. lia. }
  destruct H as [(-> & nr & B' & Hff & HR' & Hsz)|(-> & Hfull & HR')].
  - rewrite (next_free_spec T nr Hff) in Hp. eapply (performed_0 w v B x _ w' p); [done|exact Hp|done|]. exists B'. split; [|lia].
    apply (holds_still w v p B Hv); [done|done|]. destruct Hff as (Hnone & _). rewrite grow_lookup by done.
    rewrite decide_False, decide_True by (done || congruence). by eexists.
  - rewrite (next_free_full T Hfull) in Hp. apply performed_err; try done. rewrite Hb. change NEED_EMPTY with 12. lia.
Qed.

Lemma create_rep name : allowed (Create name) v -> fits T (bytes_taken (Create name)) ->
  Z.of_nat (size B) + blocks_of (Create name) <= max_fs_blocks (fs_sb w) ->
  wp (cmd_create (args_context cname [name] p)) w (fun r w' => performed (Create name) w v B r w' p).
Proof.
  intros [(_ & Hname & _) _] Hfit Hroom. unfold cmd_create. run_arg. take_arg. cbn [blocks_of] in Hroom.
  apply make_rep; [by left|done|done|lia].
Qed.

Lemma mkdir_rep name : allowed (Mkdir name) v -> fits T (bytes_taken (Mkdir name)) ->
  Z.of_nat (size B) + blocks_of (Mkdir name) <= max_fs_blocks (fs_sb w) ->
  wp (cmd_mkdir (args_context cname [name] p)) w (fun r w' => performed (Mkdir name) w v B r w' p).
Proof.
  intros [(_ & Hname & _) _] Hfit Hroom. unfold cmd_mkdir. run_arg. take_arg. cbn [blocks_of] in Hroom.
  apply make_rep; [by right|done|done|lia].
Qed.

Lemma rm_command_rep name : allowed (Rm name) v -> fits T (bytes_taken (Rm name)) ->
  Z.of_nat (size B) + blocks_of (Rm name) <= max_fs_blocks (fs_sb w) ->
  wp (cmd_rm (args_context cname [name] p)) w (fun r w' => performed (Rm name) w v B r w' p).
Proof.
  intros [(_ & Hname & _) Hrf] Hfit Hroom. pose proof (ho_rep _ _ _ _ Hv) as HR. destruct (ho_dir _ _ _ _ Hv) as [es Hes].
  pose proof (ts_ok _ _ _ _ HR) as HT. cbn [blocks_of bytes_taken] in *.
  assert (Hne : 0 <= need (entry_bytes name)) by (apply need_pos; pose proof (entry_bytes_pos name); lia).
  assert (Hlook : forall nr, find_name name es = Some nr -> exists n, T !! nr = Some n /\ look v name = Some (nr, n)).
  { intros nr Hf. destruct (find_target T (v_cur v) es name nr HT Hes Hf) as [n Hn]. exists n. split; [done|]. unfold look. by rewrite Hes, Hf, Hn. }
  assert (Hrf' : forall nr, name <> dot -> name <> dotdot -> find_name name es = Some nr -> v_refs v !! nr = None).
  { intros nr N1 N2 Hf. destruct (Hlook nr Hf) as (n & Hn & Hl). by apply (Hrf nr n). }
  eapply wp_mono; [by apply (rm_rep w T (v_refs v) B (v_cur v) es p name HR Hes (ho_cur _ _ _ _ Hv) Hname Hfit (Some cname) _ Hrf')|].
  intros r w' (Hs & Hu & H). assert (Hperf : perform (Rm name) v = unmake name v) by done. unfold unmake in Hperf. rewrite Hes in Hperf.
  destruct (decide (name = dot \/ name = dotdot)) as [Hsp|Hsp].
  { destruct H as [-> HR']. by apply performed_err. }
  destruct (find_name name es) as [nr|] eqn:Hf.
  2: { destruct H as [-> HR']. unfold look in Hperf. rewrite Hes, Hf in Hperf. by apply performed_err. }
  destruct H as (n & Hn & H). destruct (Hlook nr eq_refl) as (n' & Hn' & Hl). rewrite Hn in Hn'. injection Hn' as <-. rewrite Hl in Hperf.
  destruct (decide (removable n)) as [Hrm|Hrm].
  - destruct H as (-> & B' & HR' & Hsz). eapply (performed_0 w v B (Rm name) _ w' p); [done|exact Hperf|done|]. exists B'. split; [|done].
    apply (holds_still w v p B Hv); [done|done|]. assert (Hn1 : name <> dot) by tauto. assert (Hn2 : name <> dotdot) by tauto.
    destruct (prune_ne T (v_cur v) es name nr n HT Hes Hf Hn1 Hn2 Hn Hrm) as [Hne2 _]. rewrite (prune_lookup T (v_cur v) es name nr).
    rewrite decide_False, decide_True by done. by eexists.
  - destruct H as [-> HR']. by apply performed_err.
Qed.

Lemma stat_rep name : allowed (Stat name) v -> fits T 0 ->
  wp (cmd_stat (args_context cname [name] p)) w (fun r w' => performed (Stat name) w v B r w' p).
Proof.
  intros [(_ & Hname & _) _] Hfit. pose proof (ho_rep _ _ _ _ Hv) as HR. unfold cmd_stat. run_arg. take_arg.
  eapply wp_mono; [by apply (look_rep w v p B Hv name 0)|]. intros r w0 [-> Hl]. assert (Hu0 : unchanged w w) by done.
  destruct (look v name) as [[nr n]|] eqn:El.
  2: { subst r. change (- ENOENT <? 0) with true. cbv iota. wsimpl. apply performed_err; try done; [cbn; by rewrite El..|by intros k]. }
  destruct Hl as (-> & H0 & Hn). rewrite (proj2 (Z.ltb_ge _ _)) by done. wsimpl.
  eapply wp_mono; [by apply (open_rep w T (v_refs v) B nr n)|]. intros q w1 (HR1 & Hq & Hs1 & Hu1).
  destruct (ts_files _ _ _ _ HR1) as [Ob HF]. destruct (rep_file _ _ _ _ Ob nr n q HR1 HF Hn Hq) as (i & Hf & Ht & Hin & _).
  pose proof (is_file_size _ _ _ _ _ _ _ Hf) as Hmax. rewrite MAX_FILE_SIZE_val in Hmax. pose proof (zlen_nonneg (node_data n)) as H0z.
  pose proof Hf as [F1 _ F3 _ F5 _].
  unfold testfs_inode_get_nr, testfs_inode_get_type, testfs_inode_get_size, testfs_inode_get_block_count.
  do 4 (wsimpl; eapply wp_get_inode; [exact F1|]). unfold print. wsimpl. rewrite Hin, Ht, F5, u64_small by lia.
  match goal with |- wp _ ?w1 _ => set (w2 := w1) end. set (k := block_count (in_ i)) in *.
  assert (Hpr : printed (prints (Stat name) v k) w1 w2).
  { cbn [prints]. rewrite El. by split. }
  assert (H2 : tree_rep w2 T (ref_up (v_refs v) nr) B /\ still w1 w2).
  { exact (rep_out w1 T _ B (fs_out w2) HR1). }
  destruct H2 as [HR2 Hs2]. clearbody w2. assert (Hs02 : still w w2) by by eapply still_trans.
  eapply wp_mono; [apply (close_up w w2 T (v_refs v) B nr n q HR Hs02 HR2 Hn); by apply Hs2|]. intros _ w3 (HR3 & Hs3 & Hu3). wsimpl.
  unfold performed. cbn [perform]. rewrite El. split; [done|]. split; [|exists B; split; [by apply (holds_same w v p B Hv)|cbn; lia]].
  exists k. split; [unfold k; rewrite (tr_cnt _ _ _ _ F3); lia|]. rewrite <- (app_nil_r (prints _ _ _)).
  apply (printed_app (prints (Stat name) v k) [] w w2 w3); [|by apply printed_nil].
  exact (printed_app [] (prints (Stat name) v k) w w1 w2 (printed_nil _ _ Hu1) Hpr).
Qed.

(** the file of [read] and [write] *)
Lemma file_inode_rep name : name_ok name -> fits T 0 -> wp (testfs_get_file_inode p name) w (fun '(r, q) w' => unchanged w w' /\ still w w' /\
  match look_file v name with
  | inl e => r = e /\ e < 0 /\ tree_rep w' T (v_refs v) B
  | inr (nr, c) => r = 0 /\ T !! nr = Some (File c) /\ cached w' nr q /\ tree_rep w' T (ref_up (v_refs v) nr) B
  end).
Proof.
  intros Hname Hfit. pose proof (ho_rep _ _ _ _ Hv) as HR. unfold testfs_get_file_inode, look_file. wsimpl.
  eapply wp_mono; [by apply (look_rep w v p B Hv name 0)|]. intros r w0 [-> Hl].
  destruct (look v name) as [[nr n]|] eqn:El.
  2: { subst r. change (- ENOENT <? 0) with true. cbv iota. wsimpl. split_and!; try done. by intros k. }
  destruct Hl as (-> & H0 & Hn). rewrite (proj2 (Z.ltb_ge _ _)) by done. wsimpl.
  eapply wp_mono; [by apply (open_rep w T (v_refs v) B nr n)|]. intros q w1 (HR1 & Hq & Hs1 & Hu1). wsimpl.
  eapply wp_type_of; [exact HR1|exact Hn|exact Hq|]. destruct n as [c|es]; cbn [node_type].
  - change (I_FILE =? I_DIR) with false. cbv iota. wsimpl. by split_and!.
  - change (I_DIR =? I_DIR) with true. cbv iota. wsimpl.
    eapply wp_mono; [by apply (close_up w w1 T (v_refs v) B nr (Folder es) q)|]. intros _ w2 (HR2 & Hs2 & Hu2). wsimpl.
    split_and!; try done. by etransitivity.
Qed.

Lemma zsplice_end buf d : zlen buf = zlen d + 1 -> zsplice (zsplice buf 0 d) (zlen d) [0] = d ++ [0].
Proof.
  intros Hb. pose proof (zlen_nonneg d). assert (H1 : zlen [0] = 1) by done.
  assert (Hl : zlen (zsplice buf 0 d) = zlen buf) by (apply zlen_zsplice; lia). apply list_eq_bytes.
  - rewrite zlen_zsplice, zlen_app; lia.
  - rewrite zlen_zsplice by lia. intros i Hi. rewrite !byte_at_zsplice, byte_at_app by lia.
    destruct (decide (i < zlen d)); [rewrite decide_False, decide_True by lia; f_equal; lia|by rewrite decide_True by lia].
Qed.

Lemma str_until_zero {S} l (s : S) : str_of_buf (l ++ [0]) s = Val (until_zero l, s).
Proof.
  induction l as [|x l IH]; [done|]. cbn [app str_of_buf until_zero]. destruct (x =? 0); [done|]. unfold mbind, M_bind. by rewrite IH.
Qed.

Lemma read_command_rep name offset size : allowed (Read name offset size) v -> fits T 0 ->
  wp (cmd_read (args_context cname [name; offset; size] p)) w (fun r w' => performed (Read name offset size) w v B r w' p).
Proof.
  intros [(_ & Hname & Hoff & Hsize) _] Hfit. pose proof (ho_rep _ _ _ _ Hv) as HR. unfold cmd_read. run_arg. take_arg. take_arg.
  assert (Hx : perform (Read name offset size) v = match read_args v name offset size with inl ret => (ret, v) | inr (_, _, n) => (n, v) end) by done.
  assert (Hp : forall k, prints (Read name offset size) v k = match read_args v name offset size with inl _ => []
    | inr (c, off, n) => [OutBytes (until_zero (zsub c off n)); OutBytes [10]] end) by done.
  assert (Hu0 : unchanged w w) by done. assert (Hs0 : still w w) by by intros k.
  match goal with H : str_to_offset offset = (?a, ?b) |- _ => rename a into r1; rename b into off; rename H into E1 end.
  unfold read_args in Hx, Hp. rewrite ?E1 in Hx, Hp.
  destruct (r1 <? 0) eqn:L1; [wsimpl; by apply performed_err|]. destruct (Z.ltb_spec off 0) as [|Hoff0]; [wsimpl; by apply performed_err|].
  cbn [snd] in Hoff. wsimpl. take_arg. match goal with H : str_to_size size = (?a, ?b) |- _ => rename a into r2; rename b into n; rename H into E2 end.
  rewrite ?E2 in Hx, Hp. cbn [snd] in Hsize. destruct (r2 <? 0) eqn:L2; [wsimpl; by apply performed_err|].
  wsimpl. eapply wp_mono; [by apply file_inode_rep|]. intros [r q] w1 (Hu1 & Hs1 & H1). destruct (look_file v name) as [e|[nr c]].
  { destruct H1 as (-> & He & HR1). rewrite (proj2 (Z.ltb_lt _ _)) by done. wsimpl. by apply performed_err. }
  destruct H1 as (-> & Hn & Hq & HR1). change (0 <? 0) with false. cbv iota. wsimpl.
  eapply wp_size_of; [exact HR1|exact Hn|exact Hq|]. cbn [node_data].
  rewrite MAX_FILE_SIZE_val in Hoff. rewrite (s64_small n), (s64_small (off + n)) by lia.
  assert (Hclose : forall w2, tree_rep w2 T (ref_up (v_refs v) nr) B -> still w1 w2 -> forall r l, printed l w w2 ->
    perform (Read name offset size) v = (r, v) -> (forall k, prints (Read name offset size) v k = l) ->
    wp (testfs_put_inode q;; mret r) w2 (fun r w' => performed (Read name offset size) w v B r w' p)).
  { intros w2 HR2 Hs2 r l Hpr Hr Hl. assert (Hs02 : still w w2) by by eapply still_trans.
    wsimpl. eapply wp_mono; [apply (close_up w w2 T (v_refs v) B nr (File c) q HR Hs02 HR2 Hn); by apply Hs2|]. intros _ w3 (HR3 & Hs3 & Hu3). wsimpl.
    unfold performed. rewrite Hr. split; [done|]. split; [|exists B; split; [by apply (holds_same w v p B Hv)|cbn; lia]].
    exists 0. split; [done|]. rewrite Hl, <- (app_nil_r l). exact (printed_app l [] w w2 w3 Hpr (printed_nil _ _ Hu3)). }
  destruct (Z.ltb_spec (zlen c) (off + n)) as [Hbig|Hfit2].
  { apply (Hclose w1 HR1 ltac:(by intros k) (- EINVAL) [] (printed_nil _ _ Hu1) Hx Hp). }
  destruct (ts_live _ _ _ _ HR1) as [Hr1 _]. wsimpl. apply wp_host_ok; [apply Hr1|]. cbn [negb]. wsimpl.
  rewrite u64_small by lia. unfold uninit. wsimpl.
  set (buf := replicate (Z.to_nat (n + 1)) (fs_junk w1)).
  assert (Hbuf : zlen buf = n + 1) by (unfold buf; rewrite zlen_length, length_replicate; lia).
  eapply wp_mono; [apply (read_rep w1 T _ B nr c q HR1 Hn Hq off n buf); rewrite ?MAX_FILE_SIZE_val; lia|]. intros [r2' b2] w2 [[= -> ->] ->].
  assert (Hread : read_at c off n = zsub c off n) by (unfold read_at; f_equal; lia).
  assert (Hzl : zlen (zsub c off n) = n) by (apply zlen_zsub; lia).
  rewrite Hread, Hzl. wsimpl. rewrite (proj2 (Z.leb_le 0 n)) by lia. wsimpl.
  apply wp_buf_write; [lia|rewrite zlen_zsplice by lia; change (zlen [0]) with 1; lia|]. wsimpl.
  pose proof (zsplice_end buf (zsub c off n) ltac:(lia)) as Hend. rewrite Hzl in Hend. rewrite Hend.
  eapply wp_val; [apply str_until_zero|]. unfold print. wsimpl.
  set (l := [OutBytes (until_zero (zsub c off n)); OutBytes [10]]) in *.
  match goal with |- wp _ ?w2 _ => set (w2' := w2) end.
  assert (H2 : tree_rep w2' T (ref_up (v_refs v) nr) B /\ still w1 w2') by exact (rep_out w1 T _ B (fs_out w2') HR1).
  destruct H2 as [HR2 Hs2]. apply (wp_bind_inv (testfs_put_inode q)), (Hclose w2' HR2 Hs2 n l); [|done|done].
  apply (printed_app [] l w w1 w2' (printed_nil _ _ Hu1)). by split.
Qed.

Lemma write_command_rep name offset data : allowed (Write name offset data) v -> fits T 0 ->
  Z.of_nat (size B) + blocks_of (Write name offset data) <= max_fs_blocks (fs_sb w) ->
  wp (cmd_write (args_context cname [name; offset; data] p)) w (fun r w' => performed (Write name offset data) w v B r w' p).
Proof.
  intros [(Hwords & Hname & Hlen & Hend) _] Hfit Hroom. pose proof (ho_rep _ _ _ _ Hv) as HR. unfold cmd_write. run_arg. take_arg. take_arg.
  assert (Hx : perform (Write name offset data) v = match write_args v name offset with inl ret => (ret, v)
    | inr (nr, c, off) => (zlen data, set_tree (<[nr := File (write_at c off data)]> (v_tree v)) v) end) by done.
  assert (Hu0 : unchanged w w) by done. assert (Hs0 : still w w) by by intros k.
  assert (Hpos : 0 < zlen data).
  { apply Forall_inv_tail, Forall_inv_tail, Forall_inv in Hwords. destruct Hwords as [[Hne _] _]. destruct data; [done|]. rewrite zlen_cons. pose proof (zlen_nonneg data). lia. }
  assert (Hb0 : 0 <= blocks_of (Write name offset data)) by (apply need_pos; lia). cbn [blocks_of] in Hroom.
  match goal with H : str_to_offset offset = (?a, ?b) |- _ => rename a into r1; rename b into off; rename H into E1 end.
  unfold write_args in Hx. rewrite ?E1 in Hx. cbn [snd] in Hend.
  destruct (r1 <? 0) eqn:L1; [wsimpl; by apply performed_err|]. destruct (Z.ltb_spec off 0) as [|Hoff0]; [wsimpl; by apply performed_err|].
  wsimpl. take_arg. eapply wp_mono; [by apply file_inode_rep|]. intros [r q] w1 (Hu1 & Hs1 & H1). destruct (look_file v name) as [e|[nr c]].
  { destruct H1 as (-> & He & HR1). rewrite (proj2 (Z.ltb_lt _ _)) by done. wsimpl. by apply performed_err. }
  destruct H1 as (-> & Hn & Hq & HR1). change (0 <? 0) with false. cbv iota.
  assert (Hbuf : zsub (c_str data) 0 (zlen data) = data) by by apply zsub_app_l.
  pose proof (write_rep w1 T _ B nr c q HR1 Hn Hq off (zlen data) (c_str data) Hoff0 ltac:(lia) Hend
    ltac:(rewrite zlen_c_str; lia) ltac:(rewrite (un_max _ _ Hu1); lia)) as Hw.
  apply wp_bind_inv in Hw. wsimpl. eapply wp_mono; [exact Hw|]. clear Hw. intros r w2 Hw. cbv beta in Hw. apply wp_bind_inv in Hw.
  wsimpl. eapply wp_mono; [exact Hw|]. clear Hw. intros u w3 Hw. cbv beta in Hw.
  destruct Hw as (-> & Hs3 & Hu3 & B' & HR3 & Hsz). rewrite Hbuf in HR3. set (T' := <[nr := File (write_at c off data)]> T) in *.
  assert (Hn' : T' !! nr = Some (File (write_at c off data))) by apply lookup_insert_eq.
  wsimpl. eapply wp_mono; [apply (close_rep w3 T' _ B' nr _ q HR3 Hn'); by apply Hs3|]. intros _ w4 (HR4 & Hs4 & Hu4). wsimpl.
  rewrite ref_down_up in HR4 by (intros k Hk; by apply (rep_count _ _ _ _ _ _ HR Hk)).
  apply (performed_0 w v B (Write name offset data) (zlen data) w4 p (set_tree T' v)); [done|exact Hx|by repeat (etransitivity; [eassumption|])|].
  exists B'. split; [|cbn [blocks_of]; lia]. destruct (ho_dir _ _ _ _ Hv) as [es Hes]. split; [done| |].
  - cbn. apply Hs4; [by apply Hs3, Hs1, Hv|]. intros Heq. exfalso. rewrite Heq in Hes. congruence.
  - exists es. cbn. unfold T'. rewrite lookup_insert_ne; [done|]. intros Heq. rewrite <- Heq in Hes. congruence.
Qed.
End one.
