(* ===== verification/DirProps.v ===== *)
(** * Directories: what the commands guarantee

    The contract of fs/dir.c and of mktestfs as a whole, over the file system as a
    set of numbered files: names are looked up, entered and removed, and no other
    file is affected.  The theorems are applied to the disk that mktestfs makes,
    and to one on which a file was created. *)

From stdpp Require Import base gmap list list_numbers strings.
From Stdlib Require Import ZArith Lia.
From S2P Require Import Prelude Words Bitmap Block FsState InodeHash Super Inode ReadWrite Dir File Shell Mktestfs FileTree FileAlloc FileData FileFree DirSpec MkfsSpec FileSpec FileMap DirFiles DirRemove MountSpec ShellSpec ShellFiles.
#[local] Open Scope Z_scope.

(** ** Two concrete file systems *)

Lemma empty_dir_ok nr parent : 0 <= nr < 2147483648 -> 0 <= parent < 2147483648 -> Forall entry_ok (empty_dir nr parent).
Proof.
  intros H1 H2. repeat constructor; try (apply new_entry_ok; (apply name_ok_dot || apply name_ok_dotdot || done)).
Qed.

Lemma entry_size name nr : zlen (dirent_bytes (new_entry name nr)) = 8 + (zlen name + 1).
Proof. unfold dirent_bytes, new_entry. cbn [d_name_len d_inode_nr d_name]. rewrite !zlen_app, !zlen_le_bytes, zlen_c_str. lia. Qed.

Lemma empty_dir_size nr parent : zlen (dir_bytes (empty_dir nr parent)) = 21.
Proof. unfold empty_dir. rewrite !dir_bytes_cons, !zlen_app, !entry_size. done. Qed.

Lemma empty_dir_fits nr parent n : n <= 100 -> zlen (dir_bytes (empty_dir nr parent)) + (sizeof_dirent + (n + 1)) < 1073741824.
Proof. intros Hn. rewrite empty_dir_size. unfold sizeof_dirent. lia. Qed.

(** a new inode number when the first ones are taken *)
Lemma next_nr (I : gset Z) n nr : 0 <= n -> (forall j, j ∈ I <-> 0 <= j < n) -> (nr ∉ I) -> (forall j, 0 <= j < nr -> j ∈ I) -> 0 <= nr -> nr = n.
Proof.
  intros Hn HI Hnot Hall H0. destruct (Z.lt_total nr n) as [|[|]]; [|done|].
  - exfalso. apply Hnot, HI. lia.
  - specialize (Hall n ltac:(lia)). apply HI in Hall. lia.
Qed.

Lemma in_0 j : j ∈ ({[0]} : gset Z) <-> 0 <= j < 1.
Proof. rewrite elem_of_singleton. lia. Qed.
Lemma in_01 j : j ∈ ({[1]} ∪ {[0]} : gset Z) <-> 0 <= j < 2.
Proof. rewrite elem_of_union, !elem_of_singleton. lia. Qed.

Lemma some_left (I : gset Z) n : 0 <= n < 16384 -> (forall j, j ∈ I <-> 0 <= j < n) -> (forall j, 0 <= j < NR_INODES -> j ∈ I) -> False.
Proof. intros Hn HI Hall. specialize (Hall n ltac:(change NR_INODES with 16384; lia)). apply HI in Hall. lia. Qed.

(** the outcome of a run that returns *)
Definition run_or {A S} (m : M S A) (s : S) (d : A * S) : A * S := match m s with Val x => x | Fault _ => d end.

Definition made_fs : fs := (run_or (make_fs 1;; testfs_init_super_block;; testfs_make_root_dir) blank_fs (0, blank_fs)).2.

Lemma made_example : exists d B O, live made_fs {[0]} B /\ idle made_fs {[0]} /\ fs_heap made_fs = ∅ /\
  has_file made_fs {[0]} B 0 d O (dir_bytes (empty_dir 0 0)) /\ i_type d = I_DIR /\ Z.of_nat (size B) <= NEED_EMPTY /\
  max_fs_blocks (fs_sb made_fs) = 128.
Proof.
  assert (H : wp (make_fs 1;; testfs_init_super_block;; testfs_make_root_dir) blank_fs (fun _ w => exists d B O, live w {[0]} B /\
    idle w {[0]} /\ fs_heap w = ∅ /\ has_file w {[0]} B 0 d O (dir_bytes (empty_dir 0 0)) /\ i_type d = I_DIR /\
    Z.of_nat (size B) <= NEED_EMPTY /\ max_fs_blocks (fs_sb w) = 128)).
  { pose proof (mkfs_mount_spec blank_fs 1 ltac:(change max_fs_size_mb with 8192; lia) eq_refl (Z.le_refl _) eq_refl) as Hm.
    apply wp_bind_inv in Hm. apply wp_bind. eapply wp_mono; [exact Hm|]. clear Hm. cbv beta. intros _ w1 Hm.
    apply wp_bind. eapply wp_mono; [exact Hm|]. clear Hm. cbv beta. intros _ w2 (_ & Hl2 & Hh2 & Hmax2 & Hz).
    assert (Hidle : idle w2 ∅) by (intros nr Hn _; split; [by apply uncached_empty|by apply Hz]).
    eapply wp_mono; [apply (make_root_spec w2 Hl2 Hidle); rewrite Hmax2; unfold NEED_EMPTY; change (need 10) with 6; change (need 11) with 6; lia|].
    intros r w3 (_ & d & B & O & Hl3 & Hi3 & Hf3 & Ht3 & Hh3 & Hmax3 & Hu3). exists d, B, O. split_and!; try done; [congruence|].
    by rewrite Hmax3, Hmax2. }
  apply wp_inv in H as (r & w & Hrun & H). unfold made_fs, run_or. rewrite Hrun. exact H.
Qed.
#[global] Opaque made_fs.

Definition root_state : ptr * fs := run_or (testfs_get_inode 0) made_fs (0, made_fs).
Definition root_fs : fs := root_state.2.
Definition root_p : ptr := root_state.1.

Lemma root_example : exists i B O, live root_fs {[0]} B /\ idle root_fs {[0]} /\
  is_dir root_fs {[0]} B root_p i O (empty_dir 0 0) /\ Z.of_nat (size B) <= NEED_EMPTY /\
  max_fs_blocks (fs_sb root_fs) = 128 /\ i_nr i = 0.
Proof.
  destruct made_example as (d & B & O & Hl3 & Hi3 & Hh3 & Hf3 & Ht3 & Hu3 & Hmax3).
  assert (H : wp (testfs_get_inode 0) made_fs (fun p w => exists i B O, live w {[0]} B /\ idle w {[0]} /\
    is_dir w {[0]} B p i O (empty_dir 0 0) /\ Z.of_nat (size B) <= NEED_EMPTY /\ max_fs_blocks (fs_sb w) = 128 /\ i_nr i = 0)).
  { generalize dependent made_fs. intros w3 Hl3 Hi3 Hh3 Hf3 Hmax3.
    eapply wp_mono; [by apply (open_file w3 {[0]} B 0 d O (dir_bytes (empty_dir 0 0)))|].
    intros p w (i & Hl & Hd & Hs & _ & Hg & Hh & Hf & Hid & Hin). exists i, B, O. split; [done|]. split.
    { apply (local_idle {[0]} w3 w {[0]}); [|done|done|exact Hi3]. rewrite <- Hin. eapply ef_local, (opened_effect w3 {[0]} B p i w); rewrite ?Hin; done. }
    split; [|split; [done|split; [by rewrite Hs|done]]]. split; [done|by rewrite Hid|by apply empty_dir_ok|done]. }
  apply wp_inv in H as (p & w & Hrun & H). unfold root_fs, root_p, root_state, run_or. rewrite Hrun. exact H.
Qed.
#[global] Opaque root_state root_fs root_p.

(** "foo" *)
Definition foo : list Z := [102; 111; 111].
Lemma name_ok_foo : name_ok foo.
Proof. split; [by repeat constructor|done]. Qed.

Definition foo_fs : fs := (run_or (testfs_create_file_or_dir (Some root_p) I_FILE foo) root_fs (0, root_fs)).2.
Definition foo_dir : list dirent := add_entry (new_entry foo 1) (empty_dir 0 0).

Lemma find_foo_root : find_name foo (empty_dir 0 0) = None.
Proof. reflexivity. Qed.

Lemma foo_example : exists i d B O Oc, live foo_fs ({[1]} ∪ {[0]}) B /\ idle foo_fs ({[1]} ∪ {[0]}) /\
  is_dir foo_fs ({[1]} ∪ {[0]}) B root_p i O foo_dir /\ has_file foo_fs ({[1]} ∪ {[0]}) B 1 d Oc [] /\ i_type d = I_FILE /\
  (forall q, ~ cached foo_fs 1 q) /\ O ## Oc /\ Z.of_nat (size B) <= 30 /\ max_fs_blocks (fs_sb foo_fs) = 128 /\ i_nr i = 0.
Proof.
  destruct root_example as (i & B & O & Hl & Hi & Hd & Hu & Hm & Hn).
  assert (HE : NEED_EMPTY = 12) by done. rewrite HE in Hu.
  assert (Hneed : need (sizeof_dirent + (zlen foo + 1)) = 6) by done.
  pose proof (create_refines root_fs {[0]} B I_FILE Hl Hi ltac:(unfold s32_ok, I_FILE; lia) O root_p i _ foo Hd name_ok_foo
    (empty_dir_fits 0 0 (zlen foo) ltac:(vm_compute; discriminate)) ltac:(rewrite HE, Hneed, Hm; lia)) as Hc.
  rewrite find_foo_root in Hc. apply wp_inv in Hc as (r & w & Hrun & [(_ & nr & i' & d & B' & O' & Oc & H)|(_ & H & _)]).
  2: { by destruct (some_left _ 1 ltac:(lia) in_0 H). }
  unfold foo_fs, run_or. rewrite Hrun. cbn [snd]. destruct H as [M1 M2 M3 M4 M5 M6 M7 M8 M9 M10 M11 M12 M13 M14 M15 M16].
  pose proof (hf_nr _ _ _ _ _ _ _ M10) as [_ Hnr]. rewrite (next_nr _ 1 nr ltac:(lia) in_0 M1 M2 ltac:(lia)) in *.
  exists i', d, B', O', Oc. split; [apply M3|]. do 2 (split; [done|]). split; [exact M10|]. split; [exact M11|]. split; [exact M12|]. split; [exact M13|].
  split; [rewrite HE, Hneed in M16; lia|]. split; [congruence|congruence].
Qed.
#[global] Opaque foo_fs.

(** a directory "b" with a file in it *)
Definition sub_run : M fs Z :=
  testfs_create_file_or_dir (Some root_p) I_DIR [98];;
  q ← testfs_get_inode 1;
  testfs_create_file_or_dir (Some q) I_FILE foo;;
  testfs_put_inode q;;
  mret 0.
Definition sub_fs : fs := (run_or sub_run root_fs (0, root_fs)).2.

(** closing a directory that was opened once *)
Lemma close_dir w I B p i O es : live w I B -> is_dir w I B p i O es -> is_dirty i = false -> i_count i = 1 ->
  disk_inode (fs_dev w) (i_nr i) = in_ i ->
  wp (testfs_put_inode p) w (fun _ w' => effect {[i_nr i]} ∅ ∅ w I B w' I B /\ fs_sb w' = fs_sb w /\ fs_heap w' = delete p (fs_heap w) /\
    has_file w' I B (i_nr i) (in_ i) O (dir_bytes es) /\ forall q, ~ cached w' (i_nr i) q).
Proof.
  intros Hl Hd Hc Hn Hdisk. pose proof (id_file _ _ _ _ _ _ _ Hd) as (Hp & Hnr & Hda)%is_file_split.
  eapply wp_mono; [by apply (put_file w I B p i)|]. intros _ w' (E & Hs & Hdev & Hh & Hno). split_and!; try done.
  split; [done| |by rewrite Hdev]. right. split; [done|]. by rewrite Hdev.
Qed.

Definition sub_dir : list dirent := add_entry (new_entry foo 2) (empty_dir 1 0).

Lemma sub_example : exists i d B O Os, live sub_fs ({[2]} ∪ ({[1]} ∪ {[0]})) B /\
  is_dir sub_fs ({[2]} ∪ ({[1]} ∪ {[0]})) B root_p i O (add_entry (new_entry [98] 1) (empty_dir 0 0)) /\
  has_file sub_fs ({[2]} ∪ ({[1]} ∪ {[0]})) B 1 d Os (dir_bytes sub_dir) /\ i_type d = I_DIR /\
  (forall q, ~ cached sub_fs 1 q) /\ Z.of_nat (size B) <= 48 /\ max_fs_blocks (fs_sb sub_fs) = 128.
Proof.
  destruct root_example as (i & B & O & Hl & Hi & Hd & Hu & Hm & Hn).
  assert (HE : NEED_EMPTY = 12) by done. rewrite HE in Hu.
  assert (Hok : name_ok [98]) by (split; [repeat constructor; discriminate|reflexivity]).
  assert (H98 : need (sizeof_dirent + (zlen [98] + 1)) = 6) by done.
  assert (Hfoo : need (sizeof_dirent + (zlen foo + 1)) = 6) by done.
  assert (H : wp sub_run root_fs (fun _ w => exists i d B O Os, live w ({[2]} ∪ ({[1]} ∪ {[0]})) B /\
    is_dir w ({[2]} ∪ ({[1]} ∪ {[0]})) B root_p i O (add_entry (new_entry [98] 1) (empty_dir 0 0)) /\
    has_file w ({[2]} ∪ ({[1]} ∪ {[0]})) B 1 d Os (dir_bytes sub_dir) /\ i_type d = I_DIR /\
    (forall q, ~ cached w 1 q) /\ Z.of_nat (size B) <= 48 /\ max_fs_blocks (fs_sb w) = 128)).
  2: { apply wp_inv in H as (r & w & Hrun & H). unfold sub_fs, run_or. rewrite Hrun. exact H. }
  unfold sub_run. generalize dependent root_fs. generalize root_p. intros p w Hl Hi Hd Hm. apply wp_bind. eapply wp_mono.
  { assert (Ht : s32_ok I_DIR) by (unfold s32_ok, I_DIR; lia).
    assert (Hfit : zlen (dir_bytes (empty_dir 0 0)) + (sizeof_dirent + (zlen [98] + 1)) < 1073741824) by (apply empty_dir_fits; vm_compute; discriminate).
    assert (Hroom : Z.of_nat (size B) + NEED_EMPTY + need (sizeof_dirent + (zlen [98] + 1)) <= max_fs_blocks (fs_sb w)) by (rewrite HE, H98, Hm; lia).
    exact (create_refines w {[0]} B I_DIR Hl Hi Ht O p i (empty_dir 0 0) [98] Hd Hok Hfit Hroom). }
  cbv beta. intros r w1 Hw1. change (find_name [98] (empty_dir 0 0)) with (@None Z) in Hw1. cbv iota in Hw1.
  destruct Hw1 as [(_ & nr & i1 & d1 & B1 & O1 & Oc & [M1 M2 M3 M4 M5 M6 M7 M8 M9 M10 M11 M12 M13 M14 M15 M16])|(_ & H & _)].
  2: { by destruct (some_left _ 1 ltac:(lia) in_0 H). }
  pose proof (hf_nr _ _ _ _ _ _ _ M10) as [_ Hnr]. rewrite (next_nr _ 1 nr ltac:(lia) in_0 M1 M2 ltac:(lia)) in *.
  rewrite Hn in *. cbn [initial Z.eqb] in M10. apply wp_bind.
  eapply wp_mono; [by apply (open_file w1 _ B1 1 d1 Oc _ (ef_live _ _ _ _ _ _ _ _ _ M3) M10)|].
  intros q w2 (i2 & Hl2 & Hd2 & Hs2 & _ & Hg2 & Hh2 & Hf2 & Hi2 & Hn2).
  assert (Hq : fs_heap w1 !! q = None /\ i_count i2 = 1).
  { destruct Hg2 as [(k & Hk & Hkn & _)|(Hq & _ & ->)]; [exfalso; apply (M12 q); by exists k|done]. }
  destruct Hq as [Hq Hc2]. pose proof (id_file _ _ _ _ _ _ _ M5) as [Hp1 _ _ _ _ _].
  assert (Hqp : q <> p) by (intros ->; congruence). rewrite <- Hn2 in Hg2.
  pose proof (opened_effect w1 _ B1 q i2 w2 Hl2 Hd2 Hh2 Hg2) as E2. rewrite Hn2 in E2.
  destruct (effect_dir _ _ _ _ _ _ _ _ _ _ _ _ _ E2 M5) as [Dp2 _]; [rewrite M6; by apply not_elem_of_singleton|apply disjoint_empty_l|by rewrite Hh2, lookup_insert_ne|].
  assert (Dq2 : is_dir w2 ({[1]} ∪ {[0]}) B1 q i2 Oc (empty_dir 1 0)).
  { split; [exact Hf2|by rewrite Hi2|by apply empty_dir_ok|by rewrite empty_dir_size]. }
  assert (Hi2' : idle w2 ({[1]} ∪ {[0]})).
  { apply (local_idle {[1]} w1 w2 ({[1]} ∪ {[0]}) _ (ef_local _ _ _ _ _ _ _ _ _ E2)); [apply union_subseteq_l|done|done]. }
  apply wp_bind. eapply wp_mono.
  { apply (create_refines w2 ({[1]} ∪ {[0]}) B1 I_FILE Hl2 Hi2' ltac:(unfold s32_ok, I_FILE; lia) Oc q i2 _ foo Dq2 name_ok_foo);
      [by apply empty_dir_fits|rewrite HE, Hfoo, Hs2, M15, Hm; rewrite HE, H98 in M16; lia]. }
  cbv beta. intros r3 w3 Hw3. change (find_name foo (empty_dir 1 0)) with (@None Z) in Hw3. cbv iota in Hw3.
  destruct Hw3 as [(_ & nr3 & i3 & d3 & B3 & O3 & Of & [N1 N2 N3 N4 N5 N6 N7 N8 N9 N10 N11 N12 N13 N14 N15 N16])|(_ & H & _)].
  2: { by destruct (some_left _ 2 ltac:(lia) in_01 H). }
  pose proof (hf_nr _ _ _ _ _ _ _ N10) as [_ Hnr3]. rewrite (next_nr _ 2 nr3 ltac:(lia) in_01 N1 N2 ltac:(lia)) in *.
  rewrite Hn2 in *. fold sub_dir in N5.
  destruct (effect_dir _ _ _ _ _ _ _ _ _ _ _ _ _ N3 Dp2) as [Dp3 _]; [rewrite M6; set_solver|done|by rewrite N14, lookup_insert_ne, Hh2, lookup_insert_ne|].
  apply wp_bind. eapply wp_mono; [apply (close_dir w3 _ B3 q i3 O3 sub_dir (ef_live _ _ _ _ _ _ _ _ _ N3) N5 N8); [congruence|by rewrite N6]|].
  intros _ w4 (E4 & Hs4 & Hh4 & Hf4 & Hno4). wsimpl. rewrite N6 in *.
  destruct (effect_dir _ _ _ _ _ _ _ _ _ _ _ _ _ E4 Dp3) as [Dp4 _]; [rewrite M6; by apply not_elem_of_singleton|apply disjoint_empty_l|
    by rewrite Hh4, lookup_delete_ne, N14, lookup_insert_ne, Hh2, lookup_insert_ne|].
  exists i1, (in_ i3), B3, O1, O3. split; [apply E4|]. split; [exact Dp4|]. split; [exact Hf4|]. split; [apply (id_type _ _ _ _ _ _ _ N5)|].
  split; [exact Hno4|]. split; [rewrite HE, Hfoo in N16; rewrite HE, H98 in M16; lia|]. by rewrite Hs4, N15, Hs2, M15.
Qed.
#[global] Opaque sub_fs.

Lemma sub_dir_ok : Forall entry_ok sub_dir.
Proof.
  assert (sub_dir = empty_dir 1 0 ++ [new_entry foo 2]) as -> by reflexivity. apply Forall_app_2; [by apply empty_dir_ok|].
  apply Forall_singleton, new_entry_ok; [apply name_ok_foo|done].
Qed.

Lemma sub_dir_busy : ~ Forall spare sub_dir.
Proof.
  assert (sub_dir = empty_dir 1 0 ++ [new_entry foo 2]) as -> by reflexivity. rewrite Forall_app, Forall_singleton.
  intros [_ [H|[H|H]]]; [cbn in H; lia|discriminate H|discriminate H].
Qed.

(** the bounds of the theorems hold there *)
Lemma foo_dir_size n : n <= 100 -> zlen (dir_bytes foo_dir) + (sizeof_dirent + (n + 1)) < 1073741824.
Proof. intros Hn. assert (H : zlen (dir_bytes foo_dir) = 33) by (vm_compute; reflexivity). rewrite H. unfold sizeof_dirent. lia. Qed.

Lemma foo_room (B : gset Z) n : Z.of_nat (size B) <= 30 -> 0 <= n <= 100 ->
  Z.of_nat (size B) + NEED_EMPTY + need (sizeof_dirent + (n + 1)) <= max_fs_blocks (fs_sb foo_fs).
Proof.
  intros Hu Hn. destruct foo_example as (i & d & B' & O & Oc & _ & _ & _ & _ & _ & _ & _ & _ & Hm & _). rewrite Hm.
  change NEED_EMPTY with 12. unfold need, sizeof_dirent, BLOCK_SIZE. rewrite Z.div_small by lia. lia.
Qed.

(** ** Names *)

(** C10: looking a name up returns the inode number of the first entry in use that
    has the name, or ENOENT when there is none, and changes nothing. *)
Theorem dir_lookup_refines w I B O p i es name : live w I B -> is_dir w I B p i O es -> name_ok name ->
  testfs_dir_name_to_inode_nr p name w = Val (default (- ENOENT) (find_name name es), w).
Proof.
  intros Hl Hd Hn. pose proof (lookup_refines w I B O p i es Hl Hd name Hn) as H.
  by apply wp_inv in H as (r & w' & Hrun & -> & ->).
Qed.

Lemma dir_lookup_refines_witness :
  testfs_dir_name_to_inode_nr root_p foo foo_fs = Val (1, foo_fs) /\
  testfs_dir_name_to_inode_nr root_p dotdot foo_fs = Val (0, foo_fs) /\
  testfs_dir_name_to_inode_nr root_p [98] foo_fs = Val (- ENOENT, foo_fs).
Proof.
  destruct foo_example as (i & d & B & O & Oc & Hl & _ & Hd & _). split; [|split].
  - exact (dir_lookup_refines foo_fs _ B O root_p i foo_dir foo Hl Hd name_ok_foo).
  - exact (dir_lookup_refines foo_fs _ B O root_p i foo_dir dotdot Hl Hd name_ok_dotdot).
  - refine (dir_lookup_refines foo_fs _ B O root_p i foo_dir [98] Hl Hd _). split; [repeat constructor; discriminate|reflexivity].
Defined.

(** C11: creating a file or directory fails with EEXIST when the name is taken and
    with ENOSPC when every inode is in use; otherwise it enters the name with the
    first free inode number, which then denotes an empty file, or a directory with
    the entries for itself and its parent; both inodes are on the disk, and every
    other file is as it was. *)
Theorem create_adds w I B O p i es name type : live w I B -> idle w I -> s32_ok type -> is_dir w I B p i O es -> name_ok name ->
  zlen (dir_bytes es) + (sizeof_dirent + (zlen name + 1)) < 1073741824 ->
  Z.of_nat (size B) + NEED_EMPTY + need (sizeof_dirent + (zlen name + 1)) <= max_fs_blocks (fs_sb w) ->
  wp (testfs_create_file_or_dir (Some p) type name) w (fun r w' =>
    match find_name name es with
    | Some _ => r = - EEXIST /\ w' = w
    | None =>
        (r = 0 /\ exists nr i' d B' O' Oc, (nr ∉ I) /\ (forall j, 0 <= j < nr -> j ∈ I) /\
          effect {[i_nr i; nr]} O (O' ∪ Oc) w I B w' ({[nr]} ∪ I) B' /\ idle w' ({[nr]} ∪ I) /\ O' ## Oc /\
          is_dir w' ({[nr]} ∪ I) B' p i' O' (add_entry (new_entry name nr) es) /\
          disk_inode (fs_dev w') (i_nr i) = in_ i' /\
          has_file w' ({[nr]} ∪ I) B' nr d Oc (initial type nr (i_nr i)) /\ i_type d = type /\ disk_inode (fs_dev w') nr = d) \/
        (r = - ENOSPC /\ (forall j, 0 <= j < NR_INODES -> j ∈ I) /\ live w' I B /\ fs_heap w' = fs_heap w)
    end).
Proof.
  intros Hl Hi Ht Hd Hn Hmax Hroom. eapply wp_mono; [by apply (create_refines w I B type Hl Hi Ht O p i es name)|].
  intros r w'. destruct (find_name name es); [done|].
  intros [(-> & nr & i' & d & B' & O' & Oc & H)|(H1 & H2 & H3 & H4 & _)]; [left|by right]. split; [done|]. exists nr, i', d, B', O', Oc.
  destruct H. split_and!; try done. destruct (hf_now _ _ _ _ _ _ _ mk_child) as [(q & j & Hq & Hj & _)|[_ ?]]; [|done].
  exfalso. apply (mk_closed q). by exists j.
Qed.

Lemma create_adds_witness :
  testfs_create_file_or_dir (Some root_p) I_FILE foo foo_fs = Val (- EEXIST, foo_fs) /\
  wp (testfs_create_file_or_dir (Some root_p) I_DIR [98]) foo_fs (fun r w' => r = 0 \/ r = - ENOSPC).
Proof.
  destruct foo_example as (i & d & B & O & Oc & Hl & Hi & Hd & _ & _ & _ & _ & Hu & Hm & _).
  assert (Hok : name_ok [98]) by (split; [repeat constructor; discriminate|reflexivity]).
  assert (Ht : forall t, 0 <= t <= 2 -> s32_ok t) by (intros t Ht; unfold s32_ok; lia).
  assert (Hf1 : zlen [98] <= 100) by (vm_compute; discriminate). assert (Hf2 : 0 <= zlen [98] <= 100) by (split; vm_compute; discriminate).
  assert (Hf3 : zlen foo <= 100) by (vm_compute; discriminate). assert (Hf4 : 0 <= zlen foo <= 100) by (split; vm_compute; discriminate).
  split.
  - pose proof (create_adds foo_fs _ B O root_p i foo_dir foo I_FILE Hl Hi (Ht I_FILE ltac:(split; discriminate)) Hd name_ok_foo
      (foo_dir_size (zlen foo) Hf3) (foo_room B (zlen foo) Hu Hf4)) as H.
    apply wp_inv in H as (r & w' & Hrun & H). destruct H as [-> ->]. exact Hrun.
  - pose proof (create_adds foo_fs _ B O root_p i foo_dir [98] I_DIR Hl Hi (Ht I_DIR ltac:(split; discriminate)) Hd Hok
      (foo_dir_size (zlen [98]) Hf1) (foo_room B (zlen [98]) Hu Hf2)) as H.
    eapply wp_mono; [exact H|]. intros r w' [[H0 _]|[H0 _]]; [left|right]; exact H0.
Defined.

(** C12: [rm] of a name that denotes a file, or a directory without files, makes its
    entry free, releases the inode number and the blocks of the file, writes the
    directory back, and leaves every other file alone. *)
Theorem rm_removes w I B O p i es name nr d O2 c2 s0 cmds : live w I B -> idle w I -> is_dir w I B p i O es -> name_ok name ->
  name <> dot -> name <> dotdot -> find_name name es = Some nr -> has_file w I B nr d O2 c2 -> (forall q, ~ cached w nr q) ->
  verdict d c2 0 -> O ## O2 -> zlen (dir_bytes es) + (sizeof_dirent + (zlen name + 1)) < 1073741824 ->
  Z.of_nat (size B) + need (sizeof_dirent + (zlen name + 1)) <= max_fs_blocks (fs_sb w) ->
  wp (cmd_rm (mk_context 2 (s0 :: Some name :: cmds) p)) w (fun r w' => r = 0 /\ exists i' B' O',
    effect {[i_nr i; nr]} (O ∪ O2) O' w I B w' (I ∖ {[nr]}) B' /\ idle w' (I ∖ {[nr]}) /\
    (forall b, b ∈ O2 -> (b - DATA_START) ∉ B') /\ is_dir w' (I ∖ {[nr]}) B' p i' O' (remove_entry name es) /\
    disk_inode (fs_dev w') (i_nr i) = in_ i' /\ fs_heap w' = <[p := i']> (fs_heap w)).
Proof.
  intros Hl Hi Hd Hn N1 N2 Hf Hh Hno Hv Hdis Hmax Hroom.
  eapply wp_mono; [by eapply (rm_spec w I B O p i es name nr d O2 c2 _ s0)|].
  intros r w' (-> & i' & B' & O' & []). split; [done|]. by exists i', B', O'.
Qed.

Lemma rm_removes_witness : exists (B O : gset Z) i, is_dir foo_fs ({[1]} ∪ {[0]}) B root_p i O foo_dir /\
  wp (cmd_rm (mk_context 2 [None; Some foo] root_p)) foo_fs (fun r w' => r = 0 /\ exists i' B' O',
    is_dir w' (({[1]} ∪ {[0]}) ∖ {[1]}) B' root_p i' O' (remove_entry foo foo_dir)).
Proof.
  destruct foo_example as (i & d & B & O & Oc & Hl & Hi & Hd & Hf & Ht & Hno & Hdis & Hu & Hm & _). exists B, O, i. split; [exact Hd|].
  assert (Hf3 : zlen foo <= 100) by (vm_compute; discriminate). assert (Hf4 : 0 <= zlen foo <= 100) by (split; vm_compute; discriminate).
  assert (Hv : verdict d [] 0) by (left; rewrite Ht; split; [discriminate|reflexivity]).
  pose proof (foo_room B (zlen foo) Hu Hf4) as Hroom. change NEED_EMPTY with 12 in Hroom.
  eapply wp_mono; [apply (rm_removes foo_fs _ B O root_p i foo_dir foo 1 d Oc [] None [] Hl Hi Hd name_ok_foo
    ltac:(discriminate) ltac:(discriminate) eq_refl Hf Hno Hv Hdis (foo_dir_size (zlen foo) Hf3) ltac:(lia))|].
  intros r w' (H0 & i' & B' & O' & _ & _ & _ & H & _). split; [exact H0|]. exists i', B', O'. exact H.
Defined.


(** Removing the entry of a name fails with EINVAL for the entries a directory
    has for itself and its parent, with ENOENT when the name is not there, and with
    ENOTEMPTY when it denotes a directory with files; nothing changes then. *)
Theorem remove_refuses w I B O p i es name : live w I B -> is_dir w I B p i O es -> name_ok name ->
  (name = dot \/ name = dotdot -> testfs_remove_dirent p name w = Val (- EINVAL, w)) /\
  (name <> dot -> name <> dotdot -> find_name name es = None -> testfs_remove_dirent p name w = Val (- ENOENT, w)) /\
  (forall nr d O2 sub, name <> dot -> name <> dotdot -> find_name name es = Some nr -> has_file w I B nr d O2 (dir_bytes sub) ->
     (forall q, ~ cached w nr q) -> i_type d = I_DIR -> Forall entry_ok sub -> ~ Forall spare sub ->
     zlen (dir_bytes sub) < 1073741824 -> zlen (dir_bytes es) + (sizeof_dirent + (zlen name + 1)) < 1073741824 ->
     Z.of_nat (size B) + need (sizeof_dirent + (zlen name + 1)) <= max_fs_blocks (fs_sb w) ->
     wp (testfs_remove_dirent p name) w (fun r w' => r = - ENOTEMPTY /\ live w' I B /\ fs_dev w' = fs_dev w /\ fs_heap w' = fs_heap w)).
Proof.
  intros Hl Hd Hn. split_and!.
  - intros Hs. pose proof (remove_special w p name Hn Hs) as H. by apply wp_inv in H as (r & w' & Hrun & -> & ->).
  - intros H1 H2 Hno. pose proof (remove_missing w I B O p i es name Hl Hd Hn H1 H2 Hno) as H.
    by apply wp_inv in H as (r & w' & Hrun & -> & ->).
  - intros nr d O2 sub H1 H2 Hf Hh Hno Ht Hok Hsp Hsz Hmax Hroom.
    eapply wp_mono; [apply (remove_found w I B O p i es name Hl Hd Hn nr d O2 (dir_bytes sub) (- ENOTEMPTY) H1 H2 Hf Hmax Hroom Hh Hno)|].
    + right. split; [done|]. exists sub. split_and!; try done. by rewrite decide_False.
    + intros r w' H. unfold unlinked in H. rewrite decide_False in H by done. naive_solver.
Qed.

Lemma remove_refuses_witness :
  testfs_remove_dirent root_p dot foo_fs = Val (- EINVAL, foo_fs) /\
  testfs_remove_dirent root_p [98] foo_fs = Val (- ENOENT, foo_fs) /\
  wp (testfs_remove_dirent root_p [98]) sub_fs (fun r w' => r = - ENOTEMPTY /\ fs_heap w' = fs_heap sub_fs).
Proof.
  assert (Hok : name_ok [98]) by (split; [repeat constructor; discriminate|reflexivity]).
  destruct foo_example as (i & d & B & O & Oc & Hl & _ & Hd & _). split; [|split].
  - exact (proj1 (remove_refuses foo_fs _ B O root_p i foo_dir dot Hl Hd name_ok_dot) (or_introl eq_refl)).
  - exact (proj1 (proj2 (remove_refuses foo_fs _ B O root_p i foo_dir [98] Hl Hd Hok)) ltac:(discriminate) ltac:(discriminate) eq_refl).
  - clear -Hok. destruct sub_example as (i & d & B & O & Os & Hl & Hd & Hf & Ht & Hno & Hu & Hm).
    pose proof (proj2 (proj2 (remove_refuses sub_fs _ B O root_p i _ [98] Hl Hd Hok)) 1 d Os sub_dir ltac:(discriminate) ltac:(discriminate)
      eq_refl Hf Hno Ht sub_dir_ok sub_dir_busy) as H.
    eapply wp_mono; [apply H|].
    + vm_compute. reflexivity.
    + vm_compute. reflexivity.
    + rewrite Hm. change (need _) with 6. lia.
    + intros r w' (H0 & _ & _ & H1). split; [exact H0|exact H1].
Defined.

(** ** Disks *)

(** Unmounting and mounting again, in any process, keeps every file: the same
    inodes and blocks are in use, and every inode number denotes the same contents. *)
Theorem unmount_mount w I B : live w I B -> fs_heap w = ∅ ->
  wp (testfs_close_super_block;; testfs_init_super_block) w (fun r w' => r = 0 /\ live w' I B /\ fs_heap w' = ∅ /\
    max_fs_blocks (fs_sb w') = max_fs_blocks (fs_sb w) /\ (idle w I -> idle w' I) /\
    forall nr d O c, has_file w I B nr d O c -> has_file w' I B nr d O c).
Proof.
  intros Hl Hh. apply wp_bind. eapply wp_mono; [by apply (close_unmounted w I B)|].
  intros _ w1 [Hu _]. eapply wp_mono; [by apply (mount_unmounted w w1)|]. intros r w2 (H1 & H2 & H3 & H4 & _ & H5 & H6). by split_and!.
Qed.

Lemma unmount_mount_witness : exists (B : gset Z), wp (testfs_close_super_block;; testfs_init_super_block) made_fs (fun r w' =>
  r = 0 /\ exists d O, has_file w' {[0]} B 0 d O (dir_bytes (empty_dir 0 0))).
Proof.
  destruct made_example as (d & B & O & Hl & _ & Hh & Hf & _). exists B.
  eapply wp_mono; [exact (unmount_mount made_fs {[0]} B Hl Hh)|]. intros r w' (H0 & _ & _ & _ & _ & H). split; [exact H0|].
  exists d, O. exact (H 0 d O _ Hf).
Defined.

(** C13: mktestfs leaves a disk that can be mounted, on which only inode 0 is in
    use: a directory whose two entries, for itself and its parent, denote itself. *)
Theorem mktestfs_root w mb : 1 <= mb <= max_fs_size_mb -> fs_host w = [] -> DATA_START + BLOCK_BITS <= d_cap (fs_dev w) ->
  fs_heap w = ∅ ->
  wp (Mktestfs.main mb true;; testfs_init_super_block;; testfs_get_inode 0) w (fun p w' => exists i B O, live w' {[0]} B /\
    idle w' {[0]} /\ is_dir w' {[0]} B p i O (empty_dir 0 0) /\ Z.of_nat (size B) <= 12 /\ max_fs_blocks (fs_sb w') = 128 * mb).
Proof.
  intros Hmb Hh Hc He. apply wp_bind. eapply wp_mono; [by apply (main_spec w mb)|].
  intros r w1 (_ & w0 & B & d & O & Hu & H0 & Hi & Hf & Ht & HB). apply wp_bind.
  eapply wp_mono; [by apply (mount_unmounted w0 w1)|]. intros r2 w2 (_ & Hl2 & Hh2 & Hm2 & _ & Hi2 & Hf2).
  specialize (Hi2 Hi). specialize (Hf2 0 d O _ Hf).
  eapply wp_mono; [by apply (open_file w2 {[0]} B 0 d O (dir_bytes (empty_dir 0 0)))|].
  intros p w3 (i & Hl3 & Hd3 & Hs3 & _ & Hg & Hh3 & Hf3 & Hid & Hin). exists i, B, O. split; [done|]. split; [|split; [|split]].
  - apply (local_idle {[0]} w2 w3 {[0]}); [|done|done|exact Hi2]. rewrite <- Hin. eapply ef_local, (opened_effect w2 {[0]} B p i w3); rewrite ?Hin; done.
  - split; [done|by rewrite Hid|by apply empty_dir_ok|done].
  - exact HB.
  - by rewrite Hs3.
Qed.

Lemma mktestfs_root_witness : 1 <= 8 <= max_fs_size_mb /\
  wp (Mktestfs.main 8 true;; testfs_init_super_block;; testfs_get_inode 0) blank_fs (fun p w' => exists i B O,
    is_dir w' {[0]} B p i O (empty_dir 0 0)).
Proof.
  assert (H : 1 <= 8 <= max_fs_size_mb) by (change max_fs_size_mb with 8192; lia). split; [exact H|].
  eapply wp_mono; [exact (mktestfs_root blank_fs 8 H eq_refl (Z.le_refl _) eq_refl)|].
  intros p w' (i & B & O & _ & _ & Hd & _). exists i, B, O. exact Hd.
Defined.

(** ** Command lines *)

Lemma word_ok_dec w : bool_decide (w <> [] /\ Forall (fun x => x ∉ blank) w) = true -> word_ok w.
Proof. by intros H%bool_decide_eq_true. Qed.

(** A line of words, the first the name of a command and not more of them than
    the command takes, runs that command once, with the words as [c->cmd] and their
    number as [c->nargs]. *)
Theorem line_runs_command e name ws s : word_ok name -> head name <> Some 35 -> find_command cmdtable name = Some e ->
  Forall word_ok ws -> ws <> [] -> Z.of_nat (length ws) < cmd_max_args e ->
  handle_line false (line_of (name :: ws)) s = (set_ctx (args_context name ws (cur_dir (sh_ctx s)));; run_command e name) s.
Proof. intros. by apply (handle_line_spec e). Qed.

(** a shell that has just started *)
Definition new_shell : shell := mk_shell blank_fs (mk_context 0 [] 0) false [].

Lemma line_runs_command_witness : handle_line false (bytes_of "cd .." ++ [10]) new_shell =
  (set_ctx (mk_context 2 ([Some (bytes_of "cd"); Some dotdot] ++ replicate 5 None) 0);;
   run_command (mk_cmd "cd" F_cd 2 "changes to directory DIR." "usage: cd DIR") (bytes_of "cd")) new_shell.
Proof.
  assert (Hcd : word_ok (bytes_of "cd")) by (apply word_ok_dec; reflexivity).
  assert (Hdd : word_ok dotdot) by (apply word_ok_dec; reflexivity).
  exact (line_runs_command (mk_cmd "cd" F_cd 2 "changes to directory DIR." "usage: cd DIR") (bytes_of "cd") [dotdot] new_shell Hcd
    ltac:(discriminate) eq_refl (Forall_cons_2 _ _ _ Hdd (Forall_nil_2 _)) ltac:(discriminate) eq_refl).
Defined.

(** C14: every command without arguments, the only form of [help], [pwd], [fsstat]
    and [quit], makes [strtok_r] start from a null position. *)
Theorem bare_command_faults e name s : word_ok name -> head name <> Some 35 -> find_command cmdtable name = Some e ->
  handle_line false (line_of [name]) s = Fault Undefined.
Proof. intros. by apply (bare_command e). Qed.

Lemma bare_command_faults_witness : handle_line false (bytes_of "pwd" ++ [10]) new_shell = Fault Undefined.
Proof.
  assert (Hw : word_ok (bytes_of "pwd")) by (apply word_ok_dec; reflexivity).
  exact (bare_command_faults _ (bytes_of "pwd") new_shell Hw ltac:(discriminate) eq_refl).
Defined.

(** A file that is created and removed again by two command lines leaves the
    same inode numbers in use, its name free, the other names of the directory as
    they were, and every other file as it was. *)
Theorem create_rm_lines s I B O i es name : live (sh_fs s) I B -> idle (sh_fs s) I -> is_dir (sh_fs s) I B (cur_dir (sh_ctx s)) i O es ->
  can_quit s = false -> word_ok name -> name_ok name -> name <> dot -> name <> dotdot -> find_name name es = None ->
  (exists j, 0 <= j < NR_INODES /\ (j ∉ I)) -> zlen (dir_bytes es) + 2 * (sizeof_dirent + (zlen name + 1)) < 1073741824 ->
  Z.of_nat (size B) + NEED_EMPTY + 2 * need (sizeof_dirent + (zlen name + 1)) <= max_fs_blocks (fs_sb (sh_fs s)) ->
  wp (main_loop true false [line_of [create_name; name]; line_of [rm_name; name]]) s (fun _ s' => exists i' B' O' es',
    live (sh_fs s') I B' /\ idle (sh_fs s') I /\ is_dir (sh_fs s') I B' (cur_dir (sh_ctx s)) i' O' es' /\
    find_name name es' = None /\ (forall name', name' <> name -> find_name name' es' = find_name name' es) /\
    forall nr d O2 c, nr ∈ I -> nr <> i_nr i -> has_file (sh_fs s) I B nr d O2 c -> O ## O2 -> has_file (sh_fs s') I B' nr d O2 c).
Proof. intros. by apply (create_rm s I B O i es name). Qed.

Lemma create_rm_lines_witness : exists (B O : gset Z) i,
  wp (main_loop true false [line_of [create_name; foo]; line_of [rm_name; foo]]) (mk_shell root_fs (mk_context 0 [] root_p) false [])
    (fun _ s' => exists i' B' O' es', is_dir root_fs {[0]} B root_p i O (empty_dir 0 0) /\
      is_dir (sh_fs s') {[0]} B' root_p i' O' es' /\ find_name foo es' = None /\ find_name dotdot es' = Some 0).
Proof.
  destruct root_example as (i & B & O & Hl & Hi & Hd & Hu & Hm & _). exists B, O, i.
  assert (Hw : word_ok foo) by (apply word_ok_dec; reflexivity).
  assert (Hfree : exists j, 0 <= j < NR_INODES /\ (j ∉ ({[0]} : gset Z))).
  { exists 1. split; [change NR_INODES with 16384; lia|]. apply not_elem_of_singleton. discriminate. }
  assert (Hsz : zlen (dir_bytes (empty_dir 0 0)) + 2 * (sizeof_dirent + (zlen foo + 1)) < 1073741824) by (vm_compute; reflexivity).
  assert (Hroom : Z.of_nat (size B) + NEED_EMPTY + 2 * need (sizeof_dirent + (zlen foo + 1)) <= max_fs_blocks (fs_sb root_fs)).
  { rewrite Hm. change NEED_EMPTY with 12 in *. change (need _) with 6. lia. }
  eapply wp_mono; [exact (create_rm_lines (mk_shell root_fs (mk_context 0 [] root_p) false []) {[0]} B O i (empty_dir 0 0) foo
    Hl Hi Hd eq_refl Hw name_ok_foo ltac:(discriminate) ltac:(discriminate) find_foo_root Hfree Hsz Hroom)|].
  intros u s' (i' & B' & O' & es' & _ & _ & H1 & H2 & H3 & _). exists i', B', O', es'. split; [exact Hd|]. split; [exact H1|].
  split; [exact H2|]. rewrite (H3 dotdot ltac:(discriminate)). reflexivity.
Defined.
