(* ===== verification/TreeSession.v ===== *)
(** * Sessions of the shell on the tree

    A line of the input runs a command; a session is a list of commands.  What the
    whole program answers, prints and leaves is the fold of [perform] over them. *)

From stdpp Require Import base gmap list list_numbers strings.
From Stdlib Require Import ZArith Lia.
From S2P Require Import Prelude Words Numbers Bitmap Block FsState InodeHash Super Inode ReadWrite Dir File Shell FileTree FileAlloc FileData FileFree DirSpec MkfsSpec FileSpec FileMap DirFiles DirRemove MountSpec ShellSpec ShellFiles DirProps Quiet Tree TreeRep TreeOps TreeList TreeShell.
#[local] Open Scope Z_scope.

(** ** Lines *)

Definition line_of_command (x : command) : list Z := line_of (bytes_of (command_name x) :: command_args x).

Definition func_of (x : command) : func :=
  match x with
  | Cd _ => F_cd | Ls _ => F_ls | Lsr _ => F_lsr | Create _ => F_create | Mkdir _ => F_mkdir | Rm _ => F_rm
  | Stat _ => F_stat | Read _ _ _ => F_read | Write _ _ _ => F_write
  end.
Definition usage_of (x : command) : string :=
  match find_command cmdtable (bytes_of (command_name x)) with Some e => cmd_usage e | None => "" end.

(** what is written to stderr *)
Definition complaint (x : command) (r : Z) : list event :=
  if r <? 0 then [OutBytes (bytes_of (command_name x)); OutStr ": "; OutDec (- r); OutBytes [10]; OutStr (usage_of x); OutBytes [10]]
  else [].

Lemma command_entry x : exists e, find_command cmdtable (bytes_of (command_name x)) = Some e /\ cmd_func e = func_of x /\
  cmd_usage e = usage_of x /\ Z.of_nat (length (command_args x)) < cmd_max_args e.
Proof. destruct x; by eexists. Qed.

Lemma command_word x : word_ok (bytes_of (command_name x)) /\ head (bytes_of (command_name x)) <> Some 35.
Proof.
  destruct x; (split; [split; [done|]|done]).
  all: apply (bool_decide_eq_true (Forall (fun x => x ∉ blank) _)); by vm_compute.
Qed.

(** ** One command *)

Definition shell_holds (s : shell) (v : volume) (B : gset Z) : Prop := holds (sh_fs s) v (cur_dir (sh_ctx s)) B.

(** a command on the shell: what it answers, and the state it leaves *)
Definition answers (x : command) (s : shell) (v : volume) (B : gset Z) (r : Z) (s' : shell) : Prop :=
  performed x (sh_fs s) v B r (sh_fs s') (cur_dir (sh_ctx s')) /\ can_quit s' = can_quit s /\ sh_err s' = sh_err s.

Section line.
Context (x : command) (s : shell) (v : volume) (B : gset Z).
Hypothesis Hs : shell_holds s v B.
Hypothesis Hx : allowed x v.
Hypothesis Hfit : fits (v_tree v) (bytes_taken x).
Hypothesis Hroom : Z.of_nat (size B) + blocks_of x <= max_fs_blocks (fs_sb (sh_fs s)).

Abbreviation cname := (bytes_of (command_name x)).
Abbreviation s1 := (mk_shell (sh_fs s) (args_context cname (command_args x) (cur_dir (sh_ctx s))) (can_quit s) (sh_err s)).

Lemma call_rep : wp (call_func (func_of x)) s1 (fun r s' => answers x s v B r s').
Proof.
  pose proof Hs as H. unfold shell_holds in H. unfold call_func, answers. wsimpl. cbn [sh_ctx sh_fs can_quit sh_err].
  destruct x; cbn [func_of bytes_taken command_name command_args] in *; unfold on_fs; wsimpl; apply wp_zoom; cbn [sh_fs].
  1: { eapply wp_mono; [by eapply cd_rep|]. intros [r p'] w' Hp. unfold set_ctx. by wsimpl. }
  1: eapply wp_mono; [by eapply (ls_command_rep _ v _ B _ H false)|].
  2: eapply wp_mono; [by eapply (ls_command_rep _ v _ B _ H true)|].
  3: eapply wp_mono; [by eapply create_rep|].
  4: eapply wp_mono; [by eapply mkdir_rep|].
  5: eapply wp_mono; [by eapply rm_command_rep|].
  6: eapply wp_mono; [by eapply stat_rep|].
  7: eapply wp_mono; [by eapply read_command_rep|].
  8: eapply wp_mono; [by eapply write_command_rep|].
  all: by intros r w' Hp.
Qed.

Lemma line_rep : wp (handle_line false (line_of_command x)) s (fun _ s' => exists r k B', r = (perform x v).1 /\ 0 <= k /\
  shell_holds s' (perform x v).2 B' /\ Z.of_nat (size B') <= Z.of_nat (size B) + blocks_of x /\
  printed (prints x v k) (sh_fs s) (sh_fs s') /\ sh_err s' = rev (complaint x r) ++ sh_err s /\ can_quit s' = can_quit s).
Proof.
  destruct (command_entry x) as (e & He & Hf & Hu & Hn). destruct (command_word x) as [Hw Hh]. destruct Hx as [[Hargs _] _].
  assert (Hok : Forall word_ok (command_args x)) by (eapply Forall_impl; [exact Hargs|]; unfold arg_ok; tauto).
  unfold wp, line_of_command. rewrite (handle_line_spec e cname s Hw Hh He) by (done || by destruct x).
  change (wp (set_ctx (args_context cname (command_args x) (cur_dir (sh_ctx s)));; run_command e cname) s
    (fun _ s' => exists r k B', r = (perform x v).1 /\ 0 <= k /\
    shell_holds s' (perform x v).2 B' /\ Z.of_nat (size B') <= Z.of_nat (size B) + blocks_of x /\
    printed (prints x v k) (sh_fs s) (sh_fs s') /\ sh_err s' = rev (complaint x r) ++ sh_err s /\ can_quit s' = can_quit s)).
  unfold set_ctx, run_command. rewrite Hf. wsimpl. eapply wp_mono; [exact call_rep|].
  intros r s' ((Hr & (k & Hk & Hp) & B' & Hv & HB) & Hq & Herr). rewrite Hu. unfold complaint.
  destruct s' as [w' c' q' err]. cbn [sh_fs sh_ctx can_quit sh_err] in *. subst q' err.
  destruct (r <? 0) eqn:Er; unfold eprint; wsimpl; exists r, k, B'; split_and!; try done; by rewrite Er.
Qed.
End line.

(** ** Bounds *)

Lemma blocks_of_nonneg x v : allowed x v -> 0 <= blocks_of x.
Proof.
  intros _. assert (HE : NEED_EMPTY = 12) by done.
  assert (H : forall name, 0 <= need (entry_bytes name)) by (intros name; apply need_pos; pose proof (entry_bytes_pos name); lia).
  destruct x; cbn [blocks_of]; try lia; try apply H; try (specialize (H name); lia). apply need_pos, zlen_nonneg.
Qed.

Lemma bytes_taken_nonneg x : 0 <= bytes_taken x.
Proof. destruct x; cbn [bytes_taken]; try lia; pose proof (entry_bytes_pos name); lia. Qed.

Lemma remove_entry_size name es : Forall entry_ok es -> zlen (dir_bytes (remove_entry name es)) = zlen (dir_bytes es).
Proof.
  induction 1 as [|e es He Hes IH]; cbn [remove_entry]; [done|]. destruct (bool_decide _).
  - by rewrite !dir_bytes_cons, !zlen_app, (zlen_dirent_bytes _ (free_entry_ok e He)), (zlen_dirent_bytes _ He).
  - rewrite !dir_bytes_cons, !zlen_app. lia.
Qed.

Lemma next_free_bound T nr : next_free T = Some nr -> 0 <= nr < NR_INODES.
Proof. by intros (_ & H & _)%next_free_first. Qed.

(** a command takes no more of the directories than [bytes_taken] *)
Lemma perform_fits x v n : tree_ok (v_tree v) -> allowed x v -> fits (v_tree v) (bytes_taken x + n) -> fits (v_tree (perform x v).2) n.
Proof.
  intros HT [(_ & Hname & _) _] [H1 H2]. pose proof (bytes_taken_nonneg x) as H0.
  assert (Hsame : fits (v_tree v) n) by (split; [lia|]; intros d es Hd; specialize (H2 d es Hd); lia).
  assert (Hmake : forall type name, bytes_taken x = entry_bytes name -> name_ok name -> fits (v_tree (make type name v).2) n).
  { intros type name Hb Hn. unfold make. destruct (v_tree v !! v_cur v) as [[|es]|] eqn:Hes; [done| |done].
    destruct (find_name name es); [done|]. destruct (next_free (v_tree v)) as [nr|] eqn:Hnr; [|done]. apply next_free_bound in Hnr.
    change NR_INODES with 16384 in Hnr. split; [lia|]. intros d es'. cbn [snd set_tree v_tree]. rewrite grow_lookup. destruct (decide (d = nr)).
    - unfold new_node. destruct (type =? I_DIR); intros [= <-]. rewrite empty_dir_size. lia.
    - destruct (decide (d = v_cur v)); [|by intros Hd; specialize (H2 d es' Hd); lia]. intros [= <-].
      pose proof (new_entry_ok name nr Hn ltac:(lia)) as He. pose proof (add_entry_size _ es (tk_entries _ HT _ _ Hes) He) as Hs.
      rewrite (zlen_dirent_bytes _ He) in Hs. cbn [d_name_len new_entry] in Hs. specialize (H2 _ _ Hes). unfold entry_bytes in Hb. lia. }
  destruct x; cbn [perform]; try done; try (by apply Hmake).
  - destruct (look v name) as [[nr [|]]|]; done.
  - destruct (look v name) as [[nr [|]]|]; done.
  - destruct (look v name) as [[nr [|]]|]; done.
  - unfold unmake. destruct (v_tree v !! v_cur v) as [[|es]|] eqn:Hes; [done| |done].
    destruct (decide _); [done|]. destruct (look v name) as [[nr m]|]; [|done]. destruct (decide _); [|done].
    split; [lia|]. intros d es'. cbn [snd set_tree v_tree]. rewrite prune_lookup. destruct (decide (d = nr)); [done|].
    destruct (decide (d = v_cur v)); [|by intros Hd; specialize (H2 d es' Hd); lia]. intros [= <-].
    rewrite remove_entry_size by apply (tk_entries _ HT _ _ Hes). specialize (H2 _ _ Hes). lia.
  - by destruct (look v name).
  - destruct (read_args _ _ _ _) as [|[[??]?]]; done.
  - destruct (write_args _ _ _) as [|[[nr c] off]]; [done|]. split; [lia|]. intros d es. cbn [snd set_tree v_tree].
    destruct (decide (d = nr)) as [->|Hne]; [by rewrite lookup_insert_eq|rewrite lookup_insert_ne by done]. intros Hd. specialize (H2 d es Hd). lia.
Qed.

(** ** Sessions *)

Fixpoint run (xs : list command) (v : volume) : volume :=
  match xs with
  | [] => v
  | x :: xs' => run xs' (perform x v).2
  end.

(** the standard output: a prompt before every line, and before the end of the input *)
Fixpoint output (prompt : list event) (xs : list command) (ks : list Z) (v : volume) : list event :=
  prompt ++ match xs with
            | [] => []
            | x :: xs' => prints x v (hd 0 ks) ++ output prompt xs' (tl ks) (perform x v).2
            end.
Fixpoint complaints (xs : list command) (v : volume) : list event :=
  match xs with
  | [] => []
  | x :: xs' => complaint x (perform x v).1 ++ complaints xs' (perform x v).2
  end.

Fixpoint all_allowed (xs : list command) (v : volume) : Prop :=
  match xs with
  | [] => True
  | x :: xs' => allowed x v /\ all_allowed xs' (perform x v).2
  end.

Definition sum_of (f : command -> Z) (xs : list command) : Z := foldr (fun x n => f x + n) 0 xs.

Lemma bytes_taken_sum xs : 0 <= sum_of bytes_taken xs.
Proof. induction xs as [|x xs IH]; cbn; [lia|]. pose proof (bytes_taken_nonneg x). fold (sum_of bytes_taken xs). lia. Qed.
Lemma blocks_of_sum xs v : all_allowed xs v -> 0 <= sum_of blocks_of xs.
Proof.
  revert v. induction xs as [|x xs IH]; intros v H; cbn; [lia|]. destruct H as [H1 H2]. pose proof (blocks_of_nonneg x v H1).
  specialize (IH _ H2). fold (sum_of blocks_of xs). lia.
Qed.

Definition prompt_of (hide_prompt : bool) : list event := if hide_prompt then [] else [OutStr "% "].

Lemma wp_prompt hide s v B (Q : unit -> shell -> Prop) : shell_holds s v B ->
  (forall s', shell_holds s' v B -> printed (prompt_of hide) (sh_fs s) (sh_fs s') -> sh_err s' = sh_err s -> can_quit s' = can_quit s -> Q tt s') ->
  wp (if hide then mret tt else out "% ") s Q.
Proof.
  intros Hs HQ. destruct hide; [apply wp_ret; by apply HQ|]. unfold out, on_fs, print. apply wp_zoom. wsimpl. apply HQ; try done.
  unfold shell_holds. cbn [sh_fs sh_ctx]. destruct Hs as [H1 H2 H3]. destruct (rep_out _ _ _ _ (OutStr "% " :: fs_out (sh_fs s)) H1) as [R S].
  split; [exact R|by apply S|done].
Qed.

(** what a session does *)
Definition session (hide : bool) (xs : list command) (s : shell) (v : volume) (B : gset Z) (s' : shell) : Prop :=
  exists ks B', Forall (fun k => 0 <= k) ks /\ shell_holds s' (run xs v) B' /\
    Z.of_nat (size B') <= Z.of_nat (size B) + sum_of blocks_of xs /\
    printed (output (prompt_of hide) xs ks v) (sh_fs s) (sh_fs s') /\
    sh_err s' = rev (complaints xs v) ++ sh_err s.

Lemma session_rep hide xs : forall s v B, shell_holds s v B -> can_quit s = false -> all_allowed xs v ->
  fits (v_tree v) (sum_of bytes_taken xs) -> Z.of_nat (size B) + sum_of blocks_of xs <= max_fs_blocks (fs_sb (sh_fs s)) ->
  wp (main_loop hide false (map line_of_command xs)) s (fun _ s' => session hide xs s v B s').
Proof.
  induction xs as [|x xs IH]; intros s v B Hs Hq Hall Hfit Hroom; cbn [map main_loop]; apply wp_bind.
  - eapply wp_prompt; [exact Hs|]. intros s' Hs' Hp He _. apply wp_ret. exists [], B. cbn [output complaints run sum_of foldr].
    rewrite app_nil_r. split_and!; [constructor|done|lia|done|done].
  - eapply wp_prompt; [exact Hs|]. intros s1 Hs1 Hp1 He1 Hq1. destruct Hall as [Hx Hall].
    cbn [sum_of foldr] in *. fold (sum_of bytes_taken xs) in Hfit. fold (sum_of blocks_of xs) in *.
    pose proof (bytes_taken_sum xs) as H0. pose proof (blocks_of_sum xs _ Hall) as H0'. apply wp_bind.
    eapply wp_mono; [apply (line_rep x s1 v B Hs1 Hx); [eapply fits_less; [exact Hfit|lia]|rewrite (pr_max _ _ _ Hp1); lia]|].
    intros _ s2 (r & k & B2 & -> & Hk & Hs2 & HB2 & Hp2 & He2 & Hq2). apply wp_bind, wp_gets. rewrite Hq2, Hq1, Hq.
    pose proof (perform_fits x v _ (ts_ok _ _ _ _ (ho_rep _ _ _ _ Hs)) Hx Hfit) as Hfit2.
    eapply wp_mono; [apply (IH s2 _ B2 Hs2 ltac:(congruence) Hall Hfit2); rewrite (pr_max _ _ _ Hp2), (pr_max _ _ _ Hp1); lia|].
    intros _ s3 (ks & B3 & Hks & Hs3 & HB3 & Hp3 & He3). exists (k :: ks), B3. cbn [output complaints run hd tl].
    split_and!; [by constructor|done|cbn [sum_of foldr]; fold (sum_of blocks_of xs); lia| |].
    + eapply printed_app; [exact Hp1|]. by eapply printed_app.
    + by rewrite He3, He2, He1, rev_app_distr, app_assoc.
Qed.
