(* ===== verification/TreeDisk.v ===== *)
(** * The program on a disk that holds a tree

    [stored w T B max]: nothing is in memory, and the disk holds the tree [T].  The
    whole program takes a stored tree to the one that its commands make of it. *)

From stdpp Require Import base gmap list list_numbers strings.
From Stdlib Require Import ZArith Lia.
From S2P Require Import Prelude Words Numbers Bitmap Block FsState InodeHash Super Inode ReadWrite Dir File Shell Mktestfs FileTree FileAlloc FileData FileFree DirSpec MkfsSpec FileSpec FileMap DirFiles DirRemove MountSpec ShellSpec ShellFiles Quiet Tree TreeRep TreeOps TreeList TreeShell DirProps TreeSession.
#[local] Open Scope Z_scope.

(** ** Disks *)

Definition stored (w : fs) (T : tree) (B : gset Z) (max : Z) : Prop :=
  exists w0, fs_heap w0 = ∅ /\ idle w0 (dom T) /\ (exists Ob, files w0 (dom T) B T Ob) /\ tree_ok T /\
    unmounted w (dom T) B (fs_dev w0) max.

Lemma stored_tree w T B max : stored w T B max -> tree_ok T.
Proof. by intros (w0 & _ & _ & _ & HT & _). Qed.

Lemma rep_no_heap w T B : tree_rep w T ∅ B -> fs_heap w = ∅.
Proof.
  intros HR. apply map_eq. intros q. rewrite lookup_empty. destruct (fs_heap w !! q) as [i|] eqn:Hq; [|done].
  by destruct (ts_mem _ _ _ _ HR q i Hq) as (_ & _ & _ & H).
Qed.

Lemma mount_rep w T B max : stored w T B max ->
  wp testfs_init_super_block w (fun r w' => r = 0 /\ tree_rep w' T ∅ B /\ max_fs_blocks (fs_sb w') = max /\ fs_out w' = fs_out w).
Proof.
  intros (w0 & Hh & Hi & (Ob & F1 & F2) & HT & Hu). eapply wp_mono; [by apply (mount_unmounted w0 w _ _ _ Hu)|].
  intros r w' (H0 & Hl & Hh' & Hm & Ho & Hi' & Hf). split_and!; try done. split; try done.
  - by apply Hi'.
  - intros q i. by rewrite Hh', lookup_empty.
  - by intros nr [c Hc].
  - exists Ob. split; [|done]. intros nr n Hn. destruct (F1 nr n Hn) as (d & Hd & Ht). exists d. split; [by apply Hf|done].
Qed.

Lemma close_rep_stored w T B : tree_rep w T ∅ B ->
  wp testfs_close_super_block w (fun _ w' => stored w' T B (max_fs_blocks (fs_sb w)) /\ fs_out w' = fs_out w).
Proof.
  intros HR. pose proof (rep_no_heap w T B HR) as Hh. eapply wp_mono; [by apply (close_unmounted w (dom T) B), Hh; apply HR|].
  intros _ w' [Hu Ho]. split; [|done]. exists w. split_and!; try done; apply HR.
Qed.

(** mktestfs stores the tree that has nothing but a root *)
Lemma mktestfs_rep w mb : 1 <= mb <= max_fs_size_mb -> fs_host w = [] -> DATA_START + BLOCK_BITS <= d_cap (fs_dev w) -> fs_heap w = ∅ ->
  wp (Mktestfs.main mb true) w (fun r w' => r = 0 /\ exists B, stored w' root_tree B (128 * mb) /\ Z.of_nat (size B) <= NEED_EMPTY).
Proof.
  intros H1 H2 H3 H4. eapply wp_mono; [by apply main_spec|]. intros r w' (H0 & w0 & B & d & O & Hu & Hh & Hi & Hf & Ht & HB).
  split; [done|]. exists B. split; [|done]. assert (Hd : dom root_tree = ({[0]} : gset Z)) by (unfold root_tree; by rewrite dom_singleton_L).
  exists w0. rewrite <- Hd in *. split_and!; try done; [|apply root_tree_ok]. exists (fun _ => O).
  assert (Hin : forall k n, root_tree !! k = Some n -> k = 0 /\ n = Folder (empty_dir 0 0)) by (by intros k n [<- <-]%root_tree_lookup).
  split; [|by intros k k' Hne [n [-> _]%Hin] [n' [-> _]%Hin]]. intros k n [-> ->]%Hin. by exists d.
Qed.

(** ** Sessions that leave no inode open *)

(** the shell at the root *)
Definition at_root (T : tree) : volume := mk_volume T {[0 := 1]} 0.

(** "ls" of a file that is not a directory leaves its inode open *)
Definition tame (x : command) (v : volume) : Prop :=
  arguments_ok x /\
  match x with
  | Ls name | Lsr name => forall nr c, look v name <> Some (nr, File c)
  | _ => True
  end.

Fixpoint all_tame (xs : list command) (v : volume) : Prop :=
  match xs with
  | [] => True
  | x :: xs' => tame x v /\ all_tame xs' (perform x v).2
  end.

(** whether a session is tame is decidable *)
#[export] Instance name_ok_dec name : Decision (name_ok name).
Proof. unfold name_ok. apply _. Defined.
#[export] Instance arg_ok_dec w : Decision (arg_ok w).
Proof. unfold arg_ok, word_ok. apply _. Defined.
#[export] Instance arguments_ok_dec x : Decision (arguments_ok x).
Proof. unfold arguments_ok. destruct x; apply _. Defined.

Definition is_file_node (o : option (Z * node)) : bool := match o with Some (_, File _) => true | _ => false end.
Lemma not_file_node o : is_file_node o = false <-> forall nr c, o <> Some (nr, File c).
Proof. destruct o as [[nr [c|es]]|]; cbn; split; try done. intros H. by destruct (H nr c). Qed.
#[export] Instance tame_dec x v : Decision (tame x v).
Proof.
  apply and_dec; [apply arguments_ok_dec|]. destruct x; try (left; exact I).
  all: destruct (is_file_node (look v name)) eqn:E; [right; intros H; apply not_file_node in H; congruence|left; by apply not_file_node].
Defined.
#[export] Instance all_tame_dec xs : forall v, Decision (all_tame xs v).
Proof.
  induction xs as [|x xs IH]; intros v; [left; exact I|]. exact (and_dec (tame_dec x v) (IH (perform x v).2)).
Defined.

Lemma no_self T x : tree_ok T -> reach T x -> forall k e, entry_at T x k e -> child e -> d_inode_nr e <> x.
Proof.
  intros HT. induction 1 as [|d es k e Hd IH Hes Hk Hc]; intros k' e' He' Hc' Heq.
  - by apply (tk_child _ HT 0 k' e').
  - assert (Hat : entry_at T d k e) by by exists es.
    destruct (tk_once _ HT d k e _ k' e' Hat He' Hc Hc' ltac:(congruence)) as [Ed _]. apply (IH k e Hat Hc). congruence.
Qed.

Lemma tame_allowed x v : tree_ok (v_tree v) -> v_refs v = {[v_cur v := 1]} -> tame x v -> allowed x v.
Proof.
  intros HT Hr [Hx _]. split; [done|]. destruct x; try done. intros nr n N1 N2 Hl. rewrite Hr. apply lookup_singleton_ne. intros Heq.
  unfold look in Hl. destruct (v_tree v !! v_cur v) as [[|es]|] eqn:Hes; [done| |done]. destruct (find_name name es) as [k|] eqn:Hf; [|done].
  destruct (v_tree v !! k); [|done]. injection Hl as -> ->. apply find_name_at in Hf as (pos & e & H1 & H2 & H3 & H4).
  apply (no_self _ (v_cur v) HT ltac:(by apply (tk_reach _ HT); eexists) pos e); [by exists es| |congruence].
  split; [done|]. rewrite H3. split; intros E; apply c_str_inj in E; congruence.
Qed.

Lemma tame_refs x v : v_refs v = {[v_cur v := 1]} -> tame x v -> v_refs (perform x v).2 = {[v_cur (perform x v).2 := 1]}.
Proof.
  intros Hr [_ Hx]. assert (Hmake : forall type name, v_refs (make type name v).2 = {[v_cur (make type name v).2 := 1]}).
  { intros type name. unfold make. destruct (v_tree v !! v_cur v) as [[|es]|]; [done| |done]. destruct (find_name name es); [done|].
    by destruct (next_free (v_tree v)). }
  destruct x; cbn [perform]; try apply Hmake.
  - destruct (look v name) as [[nr [|es]]|]; [done| |done]. cbn [snd v_refs v_cur]. rewrite Hr. unfold ref_up.
    destruct (decide (nr = v_cur v)) as [->|Hne].
    + fold (ref_up {[v_cur v := 1]} (v_cur v)). rewrite ref_down_up; [done|]. intros c Hc. rewrite lookup_singleton_eq in Hc. by injection Hc as <-.
    + rewrite lookup_singleton_ne by done. cbn [default]. unfold ref_down. rewrite lookup_insert_ne, lookup_singleton_eq, decide_True by done.
      rewrite delete_insert_ne, delete_singleton_eq by done. done.
  - destruct (look v name) as [[nr [c|es]]|] eqn:El; [|done..]. by destruct (Hx nr c).
  - destruct (look v name) as [[nr [c|es]]|] eqn:El; [|done..]. by destruct (Hx nr c).
  - unfold unmake. destruct (v_tree v !! v_cur v) as [[|es]|]; [done| |done]. destruct (decide _); [done|].
    destruct (look v name) as [[nr m]|]; [|done]. by destruct (decide _).
  - by destruct (look v name).
  - by destruct (read_args _ _ _ _) as [|[[]]].
  - by destruct (write_args _ _ _) as [|[[]]].
Qed.

Definition numbers_ok (T : tree) : Prop := forall nr, is_Some (T !! nr) -> 0 <= nr < NR_INODES.

Lemma rep_numbers w T refs B : tree_rep w T refs B -> numbers_ok T.
Proof. intros HR nr Hn. by apply (rep_nr w T refs B). Qed.

Lemma numbers_set T T' nr : numbers_ok T -> 0 <= nr < NR_INODES -> (forall k, k <> nr -> is_Some (T' !! k) -> is_Some (T !! k)) -> numbers_ok T'.
Proof. intros H1 H2 H3 k Hk. destruct (decide (k = nr)) as [->|Hne]; [done|]. by apply H1, H3. Qed.

Lemma next_free_free T nr : next_free T = Some nr -> T !! nr = None.
Proof. by intros (H & _)%next_free_first. Qed.

(** the commands keep a tree a tree *)
Lemma perform_ok x v : tree_ok (v_tree v) -> numbers_ok (v_tree v) -> arguments_ok x ->
  tree_ok (v_tree (perform x v).2) /\ numbers_ok (v_tree (perform x v).2).
Proof.
  intros HT HN (_ & Hname & _). change NR_INODES with 16384 in *.
  assert (Hmake : forall type name, name_ok name -> tree_ok (v_tree (make type name v).2) /\ numbers_ok (v_tree (make type name v).2)).
  { intros type name Hn. unfold make. destruct (v_tree v !! v_cur v) as [[|es]|] eqn:Hes; [done| |done].
    destruct (find_name name es) eqn:Hf; [done|]. destruct (next_free (v_tree v)) as [nr|] eqn:Hnr; [|done].
    pose proof (next_free_bound _ _ Hnr) as Hb. pose proof (next_free_free _ _ Hnr) as Hfree.
    pose proof (HN (v_cur v) ltac:(by eexists)) as Hc. change NR_INODES with 16384 in *. cbn [snd set_tree v_tree].
    split; [apply grow_ok; by first [lia|done]|]. apply (numbers_set (v_tree v) _ nr HN); [change NR_INODES with 16384; lia|].
    intros k Hk. rewrite grow_lookup, decide_False by done. destruct (decide (k = v_cur v)) as [->|]; [by eexists|done]. }
  destruct x; cbn [perform hd command_args] in *; try (by apply Hmake).
  - by destruct (look v name) as [[nr [|]]|].
  - by destruct (look v name) as [[nr [|]]|].
  - by destruct (look v name) as [[nr [|]]|].
  - unfold unmake. destruct (v_tree v !! v_cur v) as [[|es]|] eqn:Hes; [done| |done].
    destruct (decide (name = dot \/ name = dotdot)) as [|Hsp]; [done|]. destruct (look v name) as [[nr m]|] eqn:Hl; [|done].
    destruct (decide (removable m)) as [Hrm|]; [|done]. cbn [snd set_tree v_tree]. unfold look in Hl. rewrite Hes in Hl.
    destruct (find_name name es) as [k|] eqn:Hf; [|done]. destruct (v_tree v !! k) eqn:Hk; [|done]. injection Hl as -> ->.
    split; [by eapply prune_ok; eauto|]. intros k. rewrite prune_lookup. destruct (decide (k = nr)); [by intros [? ?]|].
    destruct (decide (k = v_cur v)) as [->|]; [intros _; apply HN; by eexists|apply HN].
  - by destruct (look v name).
  - by destruct (read_args _ _ _ _) as [|[[]]].
  - destruct (write_args v name offset) as [|[[nr c] off]] eqn:Hw; [done|]. cbn [snd set_tree v_tree].
    assert (Hn : v_tree v !! nr = Some (File c)).
    { unfold write_args, look_file in Hw. destruct (str_to_offset offset) as [r1 o1]. destruct (r1 <? 0); [done|]. destruct (o1 <? 0); [done|].
      destruct (look v name) as [[k [c'|]]|] eqn:Hl; [|done..]. injection Hw as -> -> ->. unfold look in Hl.
      destruct (v_tree v !! v_cur v) as [[|es]|]; [done| |done]. destruct (find_name name es) as [k|]; [|done].
      destruct (v_tree v !! k) eqn:Hk; [|done]. by injection Hl as -> ->. }
    split; [by apply file_ok with c|]. apply (numbers_set (v_tree v) _ nr HN); [apply HN; by eexists|].
    intros k Hk. by rewrite lookup_insert_ne.
Qed.

Lemma tame_session xs : forall v, tree_ok (v_tree v) -> numbers_ok (v_tree v) -> v_refs v = {[v_cur v := 1]} -> all_tame xs v ->
  all_allowed xs v /\ v_refs (run xs v) = {[v_cur (run xs v) := 1]}.
Proof.
  induction xs as [|x xs IH]; intros v HT HN Hr H; [done|]. destruct H as [Hx H].
  destruct (perform_ok x v HT HN (proj1 Hx)) as [HT' HN']. destruct (IH _ HT' HN' (tame_refs x v Hr Hx) H) as [H1 H2].
  split; [|done]. split; [by apply tame_allowed|done].
Qed.

Lemma run_fits xs n : forall v, tree_ok (v_tree v) -> numbers_ok (v_tree v) -> all_allowed xs v ->
  fits (v_tree v) (sum_of bytes_taken xs + n) -> fits (v_tree (run xs v)) n.
Proof.
  induction xs as [|x xs IH]; intros v HT HN H Hf; [exact Hf|]. destruct H as [Hx H]. cbn [sum_of foldr] in Hf. rewrite <- Z.add_assoc in Hf.
  destruct (perform_ok x v HT HN (proj1 Hx)) as [HT' HN']. apply IH; [done|done|done|]. by apply perform_fits.
Qed.

(** ** The whole program *)

(** what a run of the program on the disk of [T] does *)
Definition ran (hide : bool) (xs : list command) (s : shell) (T : tree) (B : gset Z) (max : Z) (s' : shell) : Prop :=
  exists ks B', Forall (fun k => 0 <= k) ks /\ stored (sh_fs s') (v_tree (run xs (at_root T))) B' max /\
    Z.of_nat (size B') <= Z.of_nat (size B) + sum_of blocks_of xs /\
    fs_out (sh_fs s') = rev (output (prompt_of hide) xs ks (at_root T)) ++ fs_out (sh_fs s) /\
    sh_err s' = rev (complaints xs (at_root T)) ++ sh_err s.

(** the state after the current directory of the session is closed *)
Lemma close_session w v p B : holds w v p B -> v_refs v = {[v_cur v := 1]} ->
  wp (testfs_put_inode p;; testfs_close_super_block) w (fun _ w' => stored w' (v_tree v) B (max_fs_blocks (fs_sb w)) /\ fs_out w' = fs_out w).
Proof.
  intros [HR Hc [es Hd]] Hr. apply wp_bind. eapply wp_mono; [by apply (close_rep w _ _ B _ _ p HR Hd Hc)|].
  intros _ w1 (HR1 & _ & [Ho Hm]). cbv beta. unfold ref_down in HR1. rewrite Hr, lookup_singleton_eq, decide_True, delete_singleton_eq in HR1 by done.
  eapply wp_mono; [by apply close_rep_stored|]. intros _ w2 [H1 H2]. rewrite Hm in H1. split; [done|congruence].
Qed.

(** [Shell.main] before its loop, and after it *)
Definition start : M shell unit :=
  ret ← on_fs testfs_init_super_block;
  if negb (ret =? 0) then stop Exited else
  root ← on_fs (testfs_get_inode 0);
  set_ctx (mk_context 0 [] root).
Definition finish : M shell Z :=
  c ← gets sh_ctx;
  on_fs (testfs_put_inode (cur_dir c));;
  on_fs testfs_close_super_block;;
  mret 0.

Lemma main_split hide verbose stdin s :
  Shell.main hide verbose stdin s = (start;; main_loop hide verbose stdin;; finish) s.
Proof.
  unfold Shell.main, start, mbind, M_bind. destruct (on_fs testfs_init_super_block s) as [[r s1]|f]; [|done].
  destruct (negb (r =? 0)); [done|]. by destruct (on_fs (testfs_get_inode 0) s1) as [[p s2]|f].
Qed.

Lemma main_start hide xs s T B max : stored (sh_fs s) T B max -> can_quit s = false -> all_allowed xs (at_root T) ->
  fits T (sum_of bytes_taken xs) -> Z.of_nat (size B) + sum_of blocks_of xs <= max ->
  exists s1 s2, session hide xs s1 (at_root T) B s2 /\ fs_out (sh_fs s1) = fs_out (sh_fs s) /\ sh_err s1 = sh_err s /\
    max_fs_blocks (fs_sb (sh_fs s1)) = max /\ start s = Val (tt, s1) /\
    main_loop hide false (map line_of_command xs) s1 = Val (tt, s2) /\ Shell.main hide false (map line_of_command xs) s = finish s2.
Proof.
  intros Hst Hq Hall Hfit Hroom. pose proof (mount_rep _ _ _ _ Hst) as Hmount. apply wp_inv in Hmount as (r & w1 & Hr1 & -> & HR1 & Hm1 & Ho1).
  destruct (tk_root _ (ts_ok _ _ _ _ HR1)) as [es H0].
  pose proof (open_rep w1 T ∅ B 0 (Folder es) HR1 H0) as Hopen. apply wp_inv in Hopen as (p & w2 & Hr2 & HR2 & Hc2 & _ & [Ho2 Hm2]).
  set (s1 := mk_shell w2 (mk_context 0 [] p) (can_quit s) (sh_err s)).
  assert (Hs1 : shell_holds s1 (at_root T) B) by (split; [exact HR2|exact Hc2|by exists es]).
  pose proof (session_rep hide xs s1 (at_root T) B Hs1 Hq Hall Hfit ltac:(cbn [s1 sh_fs]; congruence)) as Hses.
  apply wp_inv in Hses as ([] & s2 & Hr3 & Hses). exists s1, s2. split; [exact Hses|]. cbn [s1 sh_fs sh_err].
  assert (Hstart : start s = Val (tt, s1)).
  { unfold start, on_fs, set_ctx, modify, mbind, M_bind, zoom. rewrite Hr1. change (negb (0 =? 0)) with false. cbv iota beta.
    cbn [sh_fs]. by rewrite Hr2. }
  split_and!; [congruence|done|congruence|exact Hstart|exact Hr3|].
  rewrite main_split. unfold mbind, M_bind. by rewrite Hstart, Hr3.
Qed.

Lemma stored_numbers w T B max : stored w T B max -> numbers_ok T.
Proof.
  intros (w0 & _ & _ & (Ob & F & _) & _) nr [n Hn]. destruct (F nr n Hn) as (d & Hf & _). apply (hf_nr _ _ _ _ _ _ _ Hf).
Qed.

Lemma tame_start w T B max xs : stored w T B max -> all_tame xs (at_root T) ->
  all_allowed xs (at_root T) /\ v_refs (run xs (at_root T)) = {[v_cur (run xs (at_root T)) := 1]}.
Proof.
  intros Hst Hxs. apply tame_session; try done; [by apply (stored_tree w T B max)|by apply (stored_numbers w T B max)].
Qed.

Lemma main_rep hide xs s T B max : stored (sh_fs s) T B max -> can_quit s = false -> all_tame xs (at_root T) ->
  fits T (sum_of bytes_taken xs) -> Z.of_nat (size B) + sum_of blocks_of xs <= max ->
  wp (Shell.main hide false (map line_of_command xs)) s (fun r s' => r = 0 /\ ran hide xs s T B max s').
Proof.
  intros Hst Hq Hxs Hfit Hroom. destruct (tame_start _ _ _ _ _ Hst Hxs) as [Hall Hrefs].
  destruct (main_start hide xs s T B max) as (s1 & s2 & (ks & B2 & Hks & Hs2 & HB2 & [Ho2 Hm2] & He2) & Ho1 & He1 & Hm1 & _ & _ & Hrun); try done.
  unfold wp. rewrite Hrun. change (wp finish s2 (fun r s' => r = 0 /\ ran hide xs s T B max s')). unfold finish, on_fs.
  pose proof (close_session _ _ _ _ Hs2 Hrefs) as Hclose. apply wp_bind_inv in Hclose.
  apply wp_bind, wp_gets, wp_bind, wp_zoom. eapply wp_mono; [exact Hclose|]. clear Hclose. cbv beta. intros _ w4 H4.
  apply wp_bind, wp_zoom. cbn [sh_fs]. eapply wp_mono; [exact H4|]. intros _ w5 [H5 Ho5].
  apply wp_ret. split; [done|]. exists ks, B2. cbn [sh_fs sh_err]. rewrite Hm2, Hm1 in H5. split_and!; try done; congruence.
Qed.

(** ** Inodes that stay open *)

(** a host that takes no block from [cap] on *)
Definition limit (cap : Z) (w : fs) : fs :=
  with_dev (mk_device (d_blocks (fs_dev w)) (d_nr (fs_dev w)) cap (d_pos (fs_dev w))) w.

Lemma limit_same w : limit (d_cap (fs_dev w)) w = w.
Proof. unfold limit. destruct w as [[] ? ? ? ? ? ? ? ? ? ?]. done. Qed.

Lemma hash_busy w I B q i h : live w I B -> fs_heap w !! q = Some i -> fs_hash h = fs_hash w ->
  inode_hash_destroy h = Fault AssertFailed.
Proof.
  intros [Hr [t Hc]] Hq Hh. unfold inode_hash_destroy, mbind, M_bind, get. rewrite Hh, (cache_tbl w t Hc). unfold assert_.
  destruct (forallb _ t) eqn:Hf; [|done]. exfalso. rewrite forallb_forall in Hf. pose proof (cache_all w t Hc q i Hq) as Hin. unfold bucket in Hin.
  destruct (t !! Z.to_nat (inode_hashfn (i_nr i))) as [l|] eqn:Hl; [|by apply not_elem_of_nil in Hin].
  apply list_elem_of_lookup_2, list_elem_of_In, Hf in Hl. destruct l; [by apply not_elem_of_nil in Hin|done].
Qed.

(** The super block is written, and then the assertion fails: the freemaps are not
    written, as no other block need be taken by the host. *)
Lemma close_busy w I B q i cap : live w I B -> fs_heap w !! q = Some i -> 0 < cap ->
  exists w4, testfs_write_super_block (limit cap w) = Val (tt, w4) /\
    fs_dev w4 = dev_write 0 (sb_block (fs_sb w)) (fs_dev (limit cap w)) /\
    inode_hash_destroy w4 = Fault AssertFailed /\ testfs_close_super_block (limit cap w) = Fault AssertFailed.
Proof.
  intros Hl Hq Hcap. pose proof Hl as [Hr _]. destruct (fs_rep_disk w I B Hr) as (iws & bws & Hok & _).
  pose proof Hok as [K1 _ _ _ _ _ _ _ _ _ _]. set (w3 := limit cap w).
  assert (Hsb : testfs_write_super_block w3 = Val (tt, with_dev (dev_write 0 (sb_block (fs_sb w)) (fs_dev w3)) w3)).
  { unfold testfs_write_super_block, mbind, M_bind, get.
    change (assert_ (sizeof_dsuper <=? BLOCK_SIZE) w3) with (Val (tt, w3)). cbv beta iota.
    unfold buf_write. rewrite in_buf_true by (done || rewrite ?zlen_dsuper_bytes, ?zlen_zeros; done).
    unfold mret, M_ret. apply on_dev_val, write_blocks_at; [apply K1|done|done|cbn; lia|].
    pose proof (zlen_sb_block (fs_sb w3)) as Hz. unfold sb_block in Hz. lia. }
  exists (with_dev (dev_write 0 (sb_block (fs_sb w)) (fs_dev w3)) w3). split_and!; [done|done|by apply (hash_busy w I B q i)|].
  unfold testfs_close_super_block, mbind, M_bind. rewrite Hsb. by rewrite (hash_busy w I B q i) by done.
Qed.

(** ** The disk in another process *)

Lemma stored_again w w' T B max : stored w T B max -> fs_dev w' = fs_dev w -> fs_host w' = [] -> fs_heap w' = ∅ -> stored w' T B max.
Proof.
  intros (w0 & H1 & H2 & H3 & H4 & [U1 U2 U3 U4]) Hd Hh He. exists w0. split_and!; try done. by split; rewrite ?Hd.
Qed.

(** ** A file that is written and read *)

Lemma zsub_write_at off data : 0 <= off -> zsub (write_at [] off data) off (zlen data) = data.
Proof.
  intros Ho. pose proof (zlen_nonneg data). pose proof (zlen_write_at [] off data Ho) as Hl. change (zlen []) with 0 in Hl.
  apply list_eq_bytes; [rewrite zlen_zsub; lia|]. rewrite zlen_zsub by lia. intros i Hi. rewrite byte_at_zsub, byte_at_write_at by lia.
  rewrite decide_True by lia. f_equal. lia.
Qed.

Lemma until_zero_all l : Forall (fun x => x <> 0) l -> until_zero l = l.
Proof. induction 1 as [|x l Hx Hl IH]; [done|]. cbn [until_zero]. rewrite (proj2 (Z.eqb_neq x 0)) by done. by f_equal. Qed.

Section written.
Context (T : tree) (es : list dirent) (name offset size data : list Z) (off nr : Z).
Hypothesis Hroot : T !! 0 = Some (Folder es).
Hypothesis Hnew : find_name name es = None.
Hypothesis Hfree : next_free T = Some nr.
Hypothesis Hoff : str_to_offset offset = (0, off).
Hypothesis Hsize : str_to_size size = (0, zlen data).
Hypothesis H0 : 0 <= off.

Abbreviation xs := [Create name; Write name offset data].
Abbreviation T' := (<[nr := File (write_at [] off data)]> (grow T 0 es name I_FILE nr)).

Lemma look_grown T2 : T2 !! 0 = Some (Folder (add_entry (new_entry name nr) es)) -> look (at_root T2) name =
  match T2 !! nr with Some n => Some (nr, n) | None => None end.
Proof.
  intros H. unfold look, at_root. cbn [v_tree v_cur]. rewrite H, (find_name_add_same es name nr); [done| |done].
  apply next_free_bound in Hfree. change NR_INODES with 16384 in Hfree. lia.
Qed.

Lemma nr_root : nr <> 0.
Proof. intros E. apply next_free_free in Hfree. congruence. Qed.

Lemma grown_root : grow T 0 es name I_FILE nr !! 0 = Some (Folder (add_entry (new_entry name nr) es)).
Proof. pose proof nr_root. by rewrite grow_lookup, decide_False, decide_True by done. Qed.

Lemma create_step : perform (Create name) (at_root T) = (0, at_root (grow T 0 es name I_FILE nr)).
Proof. cbn [perform]. unfold make, at_root. cbn [v_tree v_cur]. by rewrite Hroot, Hnew, Hfree. Qed.

Lemma write_step : perform (Write name offset data) (at_root (grow T 0 es name I_FILE nr)) = (zlen data, at_root T').
Proof.
  cbn [perform]. unfold write_args, look_file. rewrite Hoff. change (0 <? 0) with false. rewrite (proj2 (Z.ltb_ge _ _)) by done.
  rewrite (look_grown _ grown_root), grow_lookup, decide_True by done. done.
Qed.

Lemma read_step k : perform (Read name offset size) (at_root T') = (zlen data, at_root T') /\
  prints (Read name offset size) (at_root T') k = [OutBytes (until_zero data); OutBytes [10]].
Proof.
  pose proof nr_root as Hne. assert (Hr : T' !! 0 = Some (Folder (add_entry (new_entry name nr) es))) by (rewrite lookup_insert_ne by done; apply grown_root).
  assert (Ha : read_args (at_root T') name offset size = inr (write_at [] off data, off, zlen data)).
  { unfold read_args, look_file. rewrite Hoff, Hsize. change (0 <? 0) with false. rewrite (proj2 (Z.ltb_ge _ _)) by done.
    rewrite (look_grown _ Hr), lookup_insert_eq. rewrite zlen_write_at by done. change (zlen []) with 0. pose proof (zlen_nonneg data).
    rewrite (proj2 (Z.ltb_ge _ _)) by lia. done. }
  cbn [perform prints]. rewrite Ha. split; [done|]. by rewrite zsub_write_at.
Qed.
End written.

(** a listing of a file leaves one reference too many: the file is still referred to
    when the current directory is closed *)
Lemma ref_up_other (c nr : Z) : nr <> c -> is_Some (ref_down (ref_up {[c := 1]} nr) c !! nr).
Proof.
  intros Hne. unfold ref_down, ref_up. destruct (decide _).
  - rewrite lookup_delete_ne, lookup_insert_eq by done. by eexists.
  - rewrite lookup_alter_ne, lookup_insert_eq by done. by eexists.
Qed.

Lemma run_app xs ys v : run (xs ++ ys) v = run ys (run xs v).
Proof. revert v. induction xs as [|x xs IH]; intros v; [done|]. apply IH. Qed.
Lemma all_allowed_app xs ys v : all_allowed xs v -> all_allowed ys (run xs v) -> all_allowed (xs ++ ys) v.
Proof. revert v. induction xs as [|x xs IH]; intros v H1 H2; [done|]. destruct H1 as [Hx H1]. split; [done|]. by apply IH. Qed.
Lemma sum_of_app f xs ys : sum_of f (xs ++ ys) = sum_of f xs + sum_of f ys.
Proof. induction xs as [|x xs IH]; [done|]. unfold sum_of in *. cbn [foldr app]. lia. Qed.

Lemma output_app p xs y : forall ks v, exists k, output p (xs ++ [y]) ks v = output p xs ks v ++ prints y (run xs v) k ++ p.
Proof.
  induction xs as [|x xs IH]; intros ks v; cbn [app output run].
  - exists (hd 0 ks). by rewrite !app_nil_r.
  - destruct (IH (tl ks) (perform x v).2) as [k ->]. exists k. by rewrite <- !app_assoc.
Qed.
Lemma complaints_app xs y v : complaints (xs ++ [y]) v = complaints xs v ++ complaint y (perform y (run xs v)).1.
Proof. revert v. induction xs as [|x xs IH]; intros v; cbn [app complaints run]; [by rewrite app_nil_r|]. by rewrite IH, app_assoc. Qed.

(** the session up to the end of the input: an inode with more references than the
    current directory takes is still in memory after the current directory is closed *)
Lemma main_busy_at hide xs s T B max nr : stored (sh_fs s) T B max -> can_quit s = false -> all_allowed xs (at_root T) ->
  fits T (sum_of bytes_taken xs) -> Z.of_nat (size B) + sum_of blocks_of xs <= max ->
  is_Some (ref_down (v_refs (run xs (at_root T))) (v_cur (run xs (at_root T))) !! nr) ->
  exists s1 s2 ks w3 q, start s = Val (tt, s1) /\ main_loop hide false (map line_of_command xs) s1 = Val (tt, s2) /\
    fs_out (sh_fs s2) = rev (output (prompt_of hide) xs ks (at_root T)) ++ fs_out (sh_fs s) /\
    sh_err s2 = rev (complaints xs (at_root T)) ++ sh_err s /\
    testfs_put_inode (cur_dir (sh_ctx s2)) (sh_fs s2) = Val (tt, w3) /\ cached w3 nr q /\
    (forall cap, 0 < cap -> exists w4, testfs_write_super_block (limit cap w3) = Val (tt, w4) /\
      inode_hash_destroy w4 = Fault AssertFailed /\ testfs_close_super_block (limit cap w3) = Fault AssertFailed) /\
    Shell.main hide false (map line_of_command xs) s = Fault AssertFailed.
Proof.
  intros Hst Hq Hall Hfit Hroom Hopen. set (v := run xs (at_root T)) in *.
  destruct (main_start hide xs s T B max) as (s1 & s2 & (ks & B2 & _ & Hs2 & _ & [Ho2 _] & He2) & Ho1 & He1 & _ & Hst1 & Hloop & Hmain); try done.
  fold v in Hs2. destruct Hs2 as [HR Hc [es Hd]].
  pose proof (close_rep _ _ _ _ _ _ _ HR Hd Hc) as Hput. apply wp_inv in Hput as ([] & w3 & Hr3 & HR3 & _).
  destruct (ts_refs _ _ _ _ HR3 nr Hopen) as [q Hq3]. pose proof Hq3 as (i & Hi & _).
  pose proof (fun cap => close_busy _ _ _ _ _ cap (ts_live _ _ _ _ HR3) Hi) as Hclose.
  exists s1, s2, ks, w3, q. split; [done|]. split; [done|]. split; [congruence|]. split; [congruence|]. split; [done|]. split; [done|]. split.
  - intros cap Hcap. destruct (Hclose cap Hcap) as (w4 & H1 & _ & H2 & H3). by exists w4.
  - rewrite Hmain. unfold finish, gets, on_fs, mbind, M_bind, zoom. rewrite Hr3. cbn [sh_fs].
    assert (Hcap : 0 < d_cap (fs_dev w3)).
    { destruct (fs_rep_disk w3 _ _ (proj1 (ts_live _ _ _ _ HR3))) as (iws & bws & [K1 K2 K3 _ _ _ _ _ _ _ _] & _). unfold_consts. lia. }
    destruct (Hclose _ Hcap) as (w4 & _ & _ & _ & Hb). rewrite limit_same in Hb. by rewrite Hb.
Qed.

