(* ===== verification/TreeProps.v ===== *)
(** * The program on a tree: what the shell guarantees

    The contract of the whole program, from the command lines to the disk: its state is
    a tree of files and directories, every command line does on the tree what
    [perform] says, and a run of the program takes the tree on the disk to the tree
    that its commands make. *)

From stdpp Require Import base gmap list list_numbers strings.
From Stdlib Require Import ZArith Lia.
From S2P Require Import Prelude Words Numbers Bitmap Block FsState InodeHash Super Inode ReadWrite Dir File Shell Mktestfs FileTree FileAlloc FileData FileFree DirSpec MkfsSpec FileSpec FileMap DirFiles DirRemove MountSpec ShellSpec ShellFiles Quiet Tree TreeRep TreeOps TreeList TreeShell DirProps TreeSession TreeDisk.
#[local] Open Scope Z_scope.

(** ** A disk made by mktestfs *)

Definition tree_fs : fs := (run_or (Mktestfs.main 1 true) blank_fs (0, blank_fs)).2.

Lemma tree_disk : exists B, stored tree_fs root_tree B 128 /\ Z.of_nat (size B) <= 12.
Proof.
  pose proof (mktestfs_rep blank_fs 1 ltac:(change max_fs_size_mb with 8192; lia) eq_refl (Z.le_refl _) eq_refl) as H.
  apply wp_inv in H as (r & w & Hrun & _ & B & Hst & HB). exists B. unfold tree_fs, run_or. rewrite Hrun. by split.
Qed.
#[global] Opaque tree_fs.

Definition first_shell : shell := mk_shell tree_fs (mk_context 0 [] 0) false [].

Definition hello : list Z := [104; 101; 108; 108; 111].

Lemma fits_root n : n <= 1000 -> fits root_tree n.
Proof.
  intros Hn. split; [lia|]. intros d es [<- Hes]%root_tree_lookup. injection Hes as <-. rewrite empty_dir_size. lia.
Qed.

(** "mkdir b", "cd b", "create foo", "write foo 0 hello", "cd ..", "lsr ." *)
Definition demo : list command :=
  [Mkdir [98]; Cd [98]; Create foo; Write foo [48] hello; Cd dotdot; Lsr dot].

Lemma demo_tame : all_tame demo (at_root root_tree).
Proof. apply (bool_decide_eq_true (all_tame demo (at_root root_tree))). vm_compute. reflexivity. Qed.

Definition demo_output : list event :=
  [OutBytes dot; OutStr "/"; OutBytes [10]; OutBytes dotdot; OutStr "/"; OutBytes [10];
   OutBytes [98]; OutStr "/"; OutBytes [10]; OutBytes dot; OutStr "/"; OutBytes [10];
   OutBytes dotdot; OutStr "/"; OutBytes [10]; OutBytes foo; OutStr ""; OutBytes [10]].
Lemma demo_prints ks : output [] demo ks (at_root root_tree) = demo_output.
Proof. vm_compute. reflexivity. Qed.
Lemma demo_complains : complaints demo (at_root root_tree) = [].
Proof. vm_compute. reflexivity. Qed.
Lemma demo_fits : fits root_tree (sum_of bytes_taken demo).
Proof. apply fits_root. by vm_compute. Qed.
Lemma demo_room (B : gset Z) : Z.of_nat (size B) <= 12 -> Z.of_nat (size B) + sum_of blocks_of demo <= 128.
Proof. intros H. change (sum_of blocks_of demo) with 42. lia. Qed.

(** ** The whole program *)

(** C1: a run of the program on a disk that holds a tree does with it what its
    command lines say, each on the tree that the ones before it left: the answers on
    the standard output, in order, are those of [perform] and [prints], every refused
    command is reported on the standard error, and at the end nothing is in memory and
    the disk holds the tree that the commands make.  This is for commands whose
    arguments are words of one line, with no ls of a file (cf. C5), on a disk that has
    the inode bytes and blocks they can take, and a host whose reads and writes do not
    fail and whose memory does not run out. *)
Theorem program_refines hide xs s T B max : stored (sh_fs s) T B max -> can_quit s = false -> all_tame xs (at_root T) ->
  fits T (sum_of bytes_taken xs) -> Z.of_nat (size B) + sum_of blocks_of xs <= max ->
  wp (Shell.main hide false (map line_of_command xs)) s (fun r s' => r = 0 /\ exists ks B',
    stored (sh_fs s') (v_tree (run xs (at_root T))) B' max /\ Forall (fun k => 0 <= k) ks /\
    Z.of_nat (size B') <= Z.of_nat (size B) + sum_of blocks_of xs /\
    fs_out (sh_fs s') = rev (output (prompt_of hide) xs ks (at_root T)) ++ fs_out (sh_fs s) /\
    sh_err s' = rev (complaints xs (at_root T)) ++ sh_err s).
Proof.
  intros Hst Hq Hxs Hfit Hroom. eapply wp_mono; [by apply (main_rep hide xs s T B max)|].
  intros r s' (H0 & ks & B' & H1 & H2 & H3 & H4 & H5). split; [done|]. by exists ks, B'.
Qed.

Lemma program_refines_witness :
  wp (Shell.main true false (map line_of_command demo)) first_shell (fun r s' => r = 0 /\ fs_out (sh_fs s') = rev demo_output ++ fs_out tree_fs /\
    sh_err s' = [] /\ exists B, stored (sh_fs s') (v_tree (run demo (at_root root_tree))) B 128).
Proof.
  destruct tree_disk as (B & Hst & HB).
  eapply wp_mono; [exact (program_refines true demo first_shell root_tree B 128 Hst eq_refl demo_tame demo_fits (demo_room B HB))|].
  intros r s' (H0 & ks & B' & H1 & _ & _ & H2 & H3). split; [exact H0|]. rewrite demo_prints in H2. rewrite demo_complains in H3.
  split; [exact H2|]. split; [exact H3|]. exists B'. exact H1.
Defined.

(** C2: a command line keeps the state a well formed tree: every name in use denotes
    an inode of a type, "." the directory itself and ".." the one it is in, names are
    unique in a directory, every file but the root has one place, and every file can
    be reached from the root; what the line answers and leaves is what [perform] says. *)
Theorem line_keeps_tree x s v B : shell_holds s v B -> allowed x v -> fits (v_tree v) (bytes_taken x) ->
  Z.of_nat (size B) + blocks_of x <= max_fs_blocks (fs_sb (sh_fs s)) ->
  wp (handle_line false (line_of_command x)) s (fun _ s' => exists k B', shell_holds s' (perform x v).2 B' /\
    tree_ok (v_tree (perform x v).2) /\ printed (prints x v k) (sh_fs s) (sh_fs s') /\
    sh_err s' = rev (complaint x (perform x v).1) ++ sh_err s /\ can_quit s' = can_quit s).
Proof.
  intros Hs Hx Hfit Hroom. eapply wp_mono; [by apply (line_rep x s v B)|].
  intros _ s' (r & k & B' & -> & _ & H1 & _ & H2 & H3 & H4). exists k, B'. split_and!; try done. apply (ts_ok _ _ _ _ (ho_rep _ _ _ _ H1)).
Qed.

(** the shell of a disk, at its first prompt *)
Lemma mounted_shell : exists s B, shell_holds s (at_root root_tree) B /\ Z.of_nat (size B) <= 12 /\ max_fs_blocks (fs_sb (sh_fs s)) = 128.
Proof.
  destruct tree_disk as (B & Hst & HB). pose proof (mount_rep _ _ _ _ Hst) as H. apply wp_inv in H as (r & w & _ & _ & HR & Hm & _).
  assert (H0 : root_tree !! 0 = Some (Folder (empty_dir 0 0))) by done.
  pose proof (open_rep w root_tree ∅ B 0 _ HR H0) as H. apply wp_inv in H as (p & w2 & _ & HR2 & Hc & _ & Hu).
  exists (mk_shell w2 (mk_context 0 [] p) false []), B. split; [|split; [exact HB|cbn; rewrite (un_max _ _ Hu); exact Hm]].
  split; [exact HR2|exact Hc|by eexists].
Qed.

Lemma line_keeps_tree_witness : exists s, wp (handle_line false (line_of_command (Mkdir [98]))) s (fun _ s' => exists B',
  shell_holds s' (perform (Mkdir [98]) (at_root root_tree)).2 B').
Proof.
  destruct mounted_shell as (s & B & Hs & HB & Hm). exists s.
  assert (Ha : allowed (Mkdir [98]) (at_root root_tree)).
  { split; [|exact I]. apply (bool_decide_eq_true (arguments_ok (Mkdir [98]))). vm_compute. reflexivity. }
  eapply wp_mono; [apply (line_keeps_tree (Mkdir [98]) s (at_root root_tree) B Hs Ha)|].
  - apply fits_root. vm_compute. discriminate.
  - rewrite Hm. change (blocks_of (Mkdir [98])) with 18. lia.
  - intros _ s' (k & B' & H & _). exists B'. exact H.
Defined.

(** C3: what one run of the program writes to a new file of the root directory, at
    any offset, the next run on the same disk reads and prints. *)
Theorem file_survives s T B max es nr name offset len data off : stored (sh_fs s) T B max -> can_quit s = false ->
  T !! 0 = Some (Folder es) -> find_name name es = None -> next_free T = Some nr ->
  arguments_ok (Write name offset data) -> arguments_ok (Read name offset len) ->
  str_to_offset offset = (0, off) -> 0 <= off -> str_to_size len = (0, zlen data) -> fits T (entry_bytes name) ->
  Z.of_nat (size B) + (NEED_EMPTY + need (entry_bytes name) + need (zlen data)) <= max ->
  wp (Shell.main true false (map line_of_command [Create name; Write name offset data])) s (fun r s1 => r = 0 /\ sh_err s1 = sh_err s /\
    forall s2, fs_dev (sh_fs s2) = fs_dev (sh_fs s1) -> fs_host (sh_fs s2) = [] -> fs_heap (sh_fs s2) = ∅ -> can_quit s2 = false ->
    wp (Shell.main true false (map line_of_command [Read name offset len])) s2 (fun r s3 => r = 0 /\ sh_err s3 = sh_err s2 /\
      fs_out (sh_fs s3) = [OutBytes [10]; OutBytes data] ++ fs_out (sh_fs s2))).
Proof.
  intros Hst Hq Hroot Hnew Hfree Hw Hr Hoff H0 Hlen Hfit Hroom. set (xs := [Create name; Write name offset data]).
  set (T' := <[nr := File (write_at [] off data)]> (grow T 0 es name I_FILE nr)).
  pose proof (create_step T es name nr Hroot Hnew Hfree) as Hs1. pose proof (write_step T es name offset data off nr Hroot Hnew Hfree Hoff H0) as Hs2.
  assert (Hc : arguments_ok (Create name)) by (destruct Hr as (Ha & Hn & _); split; [|done]; apply Forall_singleton; by apply Forall_inv in Ha).
  assert (Hxs : all_tame xs (at_root T)) by (cbn [all_tame xs]; rewrite Hs1; by split_and!).
  assert (Hrun : run xs (at_root T) = at_root T') by (cbn [run xs]; rewrite Hs1; cbn [snd]; by rewrite Hs2).
  assert (Hcomp : complaints xs (at_root T) = []).
  { cbn [complaints xs]. rewrite Hs1. cbn [fst snd]. rewrite Hs2. unfold complaint. cbn [fst]. by rewrite (proj2 (Z.ltb_ge (zlen data) 0)) by apply zlen_nonneg. }
  assert (Hsum : sum_of bytes_taken xs = entry_bytes name) by (cbn; lia).
  eapply wp_mono; [apply (main_rep true xs s T B max Hst Hq Hxs); [by rewrite Hsum|cbn [xs sum_of foldr blocks_of]; lia]|].
  intros r s1 (-> & ks & B1 & _ & Hst1 & HB1 & _ & He1). rewrite Hrun in Hst1. rewrite Hcomp in He1. split; [done|]. split; [done|].
  intros s2 Hd Hh He Hq2. destruct (tame_start _ _ _ _ _ Hst Hxs) as [Hall _].
  pose proof (run_fits xs 0 (at_root T) (stored_tree _ _ _ _ Hst) (stored_numbers _ _ _ _ Hst) Hall) as Hf. rewrite Hsum, Hrun, Z.add_0_r in Hf.
  eapply wp_mono; [apply (main_rep true [Read name offset len] s2 T' B1 max (stored_again _ _ _ _ _ Hst1 Hd Hh He) Hq2); [by split|by apply Hf|]|].
  { cbn [sum_of foldr blocks_of xs] in *. lia. }
  intros r s3 (-> & ks3 & B3 & _ & _ & _ & Ho3 & He3). cbn [complaints output prompt_of app] in He3, Ho3.
  destruct (read_step T es name offset len data off nr Hroot Hnew Hfree Hoff Hlen H0 (hd 0 ks3)) as [Hs3 Hp3].
  fold T' in Hs3, Hp3. rewrite Hp3 in Ho3. rewrite Hs3 in He3. cbn [fst snd app] in *. split; [done|]. split.
  - rewrite He3. unfold complaint. by rewrite (proj2 (Z.ltb_ge (zlen data) 0)) by apply zlen_nonneg.
  - rewrite Ho3, until_zero_all; [done|]. destruct Hw as (Ha & _). do 2 apply Forall_inv_tail in Ha. apply Forall_inv in Ha as [_ Ha].
    eapply Forall_impl; [exact Ha|]. cbv beta. lia.
Qed.

Lemma next_free_root : next_free root_tree = Some 1.
Proof. vm_compute. reflexivity. Qed.
Lemma arguments_by x : bool_decide (arguments_ok x) = true -> arguments_ok x.
Proof. apply bool_decide_eq_true. Qed.

Lemma file_survives_witness :
  wp (Shell.main true false (map line_of_command [Create foo; Write foo [51] hello])) first_shell (fun r s1 => r = 0 /\
    wp (Shell.main true false (map line_of_command [Read foo [51] [53]])) (mk_shell (with_dev (fs_dev (sh_fs s1)) blank_fs) (mk_context 0 [] 0) false [])
      (fun r s3 => r = 0 /\ fs_out (sh_fs s3) = [OutBytes [10]; OutBytes hello])).
Proof.
  destruct tree_disk as (B & Hst & HB).
  assert (Hw : arguments_ok (Write foo [51] hello)) by (apply arguments_by; vm_compute; reflexivity).
  assert (Hr : arguments_ok (Read foo [51] [53])) by (apply arguments_by; vm_compute; reflexivity).
  eapply wp_mono; [apply (file_survives first_shell root_tree B 128 (empty_dir 0 0) 1 foo [51] [53] hello 3 Hst eq_refl
    ltac:(reflexivity) find_foo_root next_free_root Hw Hr ltac:(reflexivity) ltac:(lia) ltac:(reflexivity))|].
  - apply fits_root. vm_compute. discriminate.
  - change (NEED_EMPTY + need (entry_bytes foo) + need (zlen hello)) with 24. lia.
  - intros r s1 (H0 & _ & H). split; [exact H0|].
    eapply wp_mono; [exact (H (mk_shell (with_dev (fs_dev (sh_fs s1)) blank_fs) (mk_context 0 [] 0) false []) eq_refl eq_refl eq_refl eq_refl)|].
    intros r' s3 (H1 & _ & H2). split; [exact H1|exact H2].
Defined.

(** ** Listings *)

(** C4: on a tree the recursive listing ends, in no more nested calls than there are
    inode numbers, whatever the bound on the nesting: it prints the entries of the
    directory and of all those below it, and leaves every file, the references
    to the inodes in memory, and those that are open as they were. *)
Theorem lsr_ends w T refs B d es q fuel : tree_rep w T refs B -> T !! d = Some (Folder es) -> cached w d q -> fits T 0 ->
  (MAX_DEPTH <= fuel)%nat ->
  wp (testfs_ls fuel q true) w (fun r w' => r = 0 /\ fs_out w' = rev (listing T true MAX_DEPTH d) ++ fs_out w /\
    tree_rep w' T refs B /\ forall nr q, cached w nr q -> cached w' nr q).
Proof.
  intros HR Hd Hq Hfit Hle. assert (Hlev : levels T MAX_DEPTH d) by (eapply levels_enough; [exact HR|by eexists]).
  assert (Hz : forall k es', T !! k = Some (Folder es') -> zlen (dir_bytes es') < 1073741824) by (intros k es' Hk; by eapply fits_size).
  assert (Hpos : (0 < fuel)%nat) by (unfold MAX_DEPTH in Hle; lia).
  pose proof (ls_rep T B true fuel Hz refs d es Hd (fun _ => levels_mono T MAX_DEPTH fuel d Hlev Hle) Hpos w q HR Hq) as H.
  eapply wp_mono; [exact H|]. intros r w' (H0 & H1 & H2 & [H3 _]). rewrite (listing_enough T true MAX_DEPTH fuel d Hlev Hle) in H3.
  exact (conj H0 (conj H3 (conj H1 H2))).
Qed.

Lemma lsr_ends_witness : exists s, wp (testfs_ls (S MAX_DEPTH) (cur_dir (sh_ctx s)) true) (sh_fs s) (fun r w' => r = 0 /\
  fs_out w' = [OutBytes [10]; OutStr "/"; OutBytes dotdot; OutBytes [10]; OutStr "/"; OutBytes dot] ++ fs_out (sh_fs s)).
Proof.
  destruct mounted_shell as (s & B & [HR Hc _] & _). exists s.
  assert (H0 : root_tree !! 0 = Some (Folder (empty_dir 0 0))) by reflexivity.
  assert (Hf : fits root_tree 0) by (apply fits_root; discriminate).
  eapply wp_mono; [exact (lsr_ends (sh_fs s) root_tree _ B 0 (empty_dir 0 0) (cur_dir (sh_ctx s)) (S MAX_DEPTH) HR H0 Hc Hf (Nat.le_succ_diag_r _))|].
  intros r w' (Hr & H1 & _). split; [exact Hr|]. assert (El : listing root_tree true MAX_DEPTH 0 =
      [OutBytes dot; OutStr "/"; OutBytes [10]; OutBytes dotdot; OutStr "/"; OutBytes [10]]) by (vm_compute; reflexivity).
  rewrite El in H1. exact H1.
Defined.

(** C5: the listing of a name that denotes a file answers ENOTDIR, prints nothing and
    keeps the inode of the file open: all the lines of the session run, the shell
    reports the errors of those before it and then ENOTDIR, and when the current
    directory is closed at the end of the input the file is still in memory.  Closing
    the disk then writes the super block and fails in the assertion that no inode is in
    memory, before it writes a freemap: it fails there on a host that takes any number
    [cap] of blocks from one, where a write of a freemap could exit the program. *)
Theorem ls_of_file_aborts hide xs s T B max name nr c : stored (sh_fs s) T B max -> can_quit s = false -> all_tame xs (at_root T) ->
  arguments_ok (Ls name) -> look (run xs (at_root T)) name = Some (nr, File c) ->
  fits T (sum_of bytes_taken xs) -> Z.of_nat (size B) + sum_of blocks_of xs <= max ->
  exists s1 s2 ks w3 q, start s = Val (tt, s1) /\
    main_loop hide false (map line_of_command (xs ++ [Ls name])) s1 = Val (tt, s2) /\
    fs_out (sh_fs s2) = rev (output (prompt_of hide) xs ks (at_root T) ++ prompt_of hide) ++ fs_out (sh_fs s) /\
    sh_err s2 = rev (complaints xs (at_root T) ++ complaint (Ls name) (- ENOTDIR)) ++ sh_err s /\
    testfs_put_inode (cur_dir (sh_ctx s2)) (sh_fs s2) = Val (tt, w3) /\ cached w3 nr q /\
    (forall cap, 0 < cap -> exists w4, testfs_write_super_block (limit cap w3) = Val (tt, w4) /\
      inode_hash_destroy w4 = Fault AssertFailed /\ testfs_close_super_block (limit cap w3) = Fault AssertFailed) /\
    Shell.main hide false (map line_of_command (xs ++ [Ls name])) s = Fault AssertFailed.
Proof.
  intros Hst Hq Hxs Hn Hl Hfit Hroom. destruct (tame_start _ _ _ _ _ Hst Hxs) as [Hall Hrefs]. set (v := run xs (at_root T)) in *.
  assert (Hv : perform (Ls name) v = (- ENOTDIR, mk_volume (v_tree v) (ref_up (v_refs v) nr) (v_cur v))) by (cbn [perform]; by rewrite Hl).
  assert (Hne : nr <> v_cur v).
  { intros ->. unfold look in Hl. destruct (v_tree v !! v_cur v) as [[|es]|] eqn:E; [done| |done].
    destruct (find_name name es) as [k|]; [|done]. destruct (v_tree v !! k) eqn:Ek; [|done]. injection Hl as -> ->. congruence. }
  destruct (main_busy_at hide (xs ++ [Ls name]) s T B max nr) as (s1 & s2 & ks & w3 & q & H1 & H2 & H3 & H4 & H5); try done.
  - apply all_allowed_app; [done|]. by repeat split; try apply Hn.
  - by rewrite sum_of_app, Z.add_0_r.
  - rewrite sum_of_app. cbn. lia.
  - rewrite run_app. cbn [run]. fold v. rewrite Hv. cbn [snd v_refs v_cur]. rewrite Hrefs. by apply ref_up_other.
  - rewrite complaints_app in H4. fold v in H4. rewrite Hv in H4.
    destruct (output_app (prompt_of hide) xs (Ls name) ks (at_root T)) as [k Hk]. fold v in Hk. cbn [prints] in Hk. rewrite Hl in Hk.
    rewrite Hk in H3. by exists s1, s2, ks, w3, q.
Qed.

Lemma ls_of_file_aborts_witness : exists s1 s2 w3 q, start first_shell = Val (tt, s1) /\
  main_loop true false (map line_of_command [Create foo; Ls foo]) s1 = Val (tt, s2) /\
  sh_err s2 = rev [OutBytes (bytes_of "ls"); OutStr ": "; OutDec ENOTDIR; OutBytes [10]; OutStr (usage_of (Ls foo)); OutBytes [10]] /\
  testfs_put_inode (cur_dir (sh_ctx s2)) (sh_fs s2) = Val (tt, w3) /\ cached w3 1 q /\
  Shell.main true false (map line_of_command [Create foo; Ls foo]) first_shell = Fault AssertFailed.
Proof.
  destruct tree_disk as (B & Hst & HB).
  assert (Hxs : all_tame [Create foo] (at_root root_tree)) by (apply (bool_decide_eq_true (all_tame _ _)); vm_compute; reflexivity).
  assert (Hn : arguments_ok (Ls foo)) by (apply arguments_by; vm_compute; reflexivity).
  assert (Hl : look (run [Create foo] (at_root root_tree)) foo = Some (1, File [])) by (vm_compute; reflexivity).
  assert (Hc : complaints [Create foo] (at_root root_tree) = []) by (vm_compute; reflexivity).
  destruct (ls_of_file_aborts true [Create foo] first_shell root_tree B 128 foo 1 [] Hst eq_refl Hxs Hn Hl) as
    (s1 & s2 & ks & w3 & q & H1 & H2 & _ & H3 & H4 & H5 & _ & H6).
  - apply fits_root. vm_compute. discriminate.
  - change (sum_of blocks_of [Create foo]) with 18. lia.
  - rewrite Hc in H3. exists s1, s2, w3, q. split; [exact H1|]. split; [exact H2|]. split; [exact H3|]. split; [exact H4|]. split; [exact H5|exact H6].
Defined.
