(* ===== verification/ListSpec.v ===== *)
(** * Linked lists refine sequences

    [chain N P L]: the pointers link the nodes of [L] in both directions.
    [dlist s h l]: the circular list of the head [h] has the entries [l].
    [hlist s h l]: the hash list of [h] has the entries [l]. *)

From stdpp Require Import base gmap list.
From Stdlib Require Import ZArith Lia.
From S2P Require Import Prelude Words FsState HList.
#[local] Open Scope Z_scope.

(** ** Fields *)

Lemma wp_get_next s p v (Q : ptr -> lists -> Prop) : nexts s !! p = Some v -> Q v s -> wp (get_next p) s Q.
Proof. intros H HQ. unfold get_next. wsimpl. by eapply wp_deref. Qed.
Lemma wp_get_prev s p v (Q : ptr -> lists -> Prop) : prevs s !! p = Some v -> Q v s -> wp (get_prev p) s Q.
Proof. intros H HQ. unfold get_prev. wsimpl. by eapply wp_deref. Qed.
Lemma wp_get_first s p v (Q : ptr -> lists -> Prop) : firsts s !! p = Some v -> Q v s -> wp (get_first p) s Q.
Proof. intros H HQ. unfold get_first. wsimpl. by eapply wp_deref. Qed.
Lemma wp_get_hnext s p v (Q : ptr -> lists -> Prop) : hnexts s !! p = Some v -> Q v s -> wp (get_hnext p) s Q.
Proof. intros H HQ. unfold get_hnext. wsimpl. by eapply wp_deref. Qed.
Lemma wp_get_pprev s p v (Q : option place -> lists -> Prop) : pprevs s !! p = Some v -> Q v s -> wp (get_pprev p) s Q.
Proof. intros H HQ. unfold get_pprev. wsimpl. by eapply wp_deref. Qed.

Lemma wp_set_list_next s p v (Q : unit -> lists -> Prop) : is_Some (nexts s !! p) ->
  Q tt (with_nexts (<[p := v]> (nexts s)) s) -> wp (set_next p v) s Q.
Proof. intros [x H] HQ. unfold set_next. wsimpl. eapply wp_get_next; [done|]. by wsimpl. Qed.
Lemma wp_set_prev s p v (Q : unit -> lists -> Prop) : is_Some (prevs s !! p) ->
  Q tt (with_prevs (<[p := v]> (prevs s)) s) -> wp (set_prev p v) s Q.
Proof. intros [x H] HQ. unfold set_prev. wsimpl. eapply wp_get_prev; [done|]. by wsimpl. Qed.
Lemma wp_set_first s p v (Q : unit -> lists -> Prop) : is_Some (firsts s !! p) ->
  Q tt (with_firsts (<[p := v]> (firsts s)) s) -> wp (set_first p v) s Q.
Proof. intros [x H] HQ. unfold set_first. wsimpl. eapply wp_get_first; [done|]. by wsimpl. Qed.
Lemma wp_set_hnext s p v (Q : unit -> lists -> Prop) : is_Some (hnexts s !! p) ->
  Q tt (with_hnexts (<[p := v]> (hnexts s)) s) -> wp (set_hnext p v) s Q.
Proof. intros [x H] HQ. unfold set_hnext. wsimpl. eapply wp_get_hnext; [done|]. by wsimpl. Qed.
Lemma wp_set_pprev s p v (Q : unit -> lists -> Prop) : is_Some (pprevs s !! p) ->
  Q tt (with_pprevs (<[p := v]> (pprevs s)) s) -> wp (set_pprev p v) s Q.
Proof. intros [x H] HQ. unfold set_pprev. wsimpl. eapply wp_get_pprev; [done|]. by wsimpl. Qed.

(** writes keep nodes nodes *)
Lemma is_Some_upd {A} (m : gmap ptr A) p q v : is_Some (m !! q) -> is_Some (<[p := v]> m !! q).
Proof. rewrite lookup_insert_is_Some'. auto. Qed.
Lemma is_Some_of {A} (o : option A) a : o = Some a -> is_Some o.
Proof. intros ->. by eexists. Qed.

(** ** Chains *)

Section chain.
Context (N P : gmap ptr ptr).

Fixpoint chain (L : list ptr) : Prop :=
  match L with
  | p :: (q :: _) as L' => N !! p = Some q /\ P !! q = Some p /\ chain L'
  | _ => True
  end.

Lemma chain_cons p q L : chain (p :: q :: L) <-> N !! p = Some q /\ P !! q = Some p /\ chain (q :: L).
Proof. done. Qed.

Lemma chain_cut L1 p q L2 : chain (L1 ++ p :: q :: L2) <->
  chain (L1 ++ [p]) /\ N !! p = Some q /\ P !! q = Some p /\ chain (q :: L2).
Proof.
  induction L1 as [|a L1 IH]; [cbn; tauto|]. destruct L1 as [|b L1]; cbn [app] in *.
  - rewrite !chain_cons. cbn [chain]. tauto.
  - rewrite chain_cons, IH, (chain_cons a b). tauto.
Qed.

Lemma chain_left L1 L2 : chain (L1 ++ L2) -> chain L1.
Proof.
  induction L1 as [|a L1 IH]; [done|]. destruct L1 as [|b L1]; [done|]. cbn [app] in *. rewrite !chain_cons. tauto.
Qed.
Lemma chain_right L1 L2 : chain (L1 ++ L2) -> chain L2.
Proof.
  induction L1 as [|a L1 IH]; [done|]. intros H. apply IH. cbn [app] in H.
  destruct (L1 ++ L2) as [|b L]; [done|]. by apply chain_cons in H as (_ & _ & H).
Qed.
End chain.

(** a chain reads [N] of all nodes but the last and [P] of all but the first *)
Lemma links_frame N P N' P' L : chain N P L -> (forall p, p ∈ removelast L -> N' !! p = N !! p) ->
  (forall p, p ∈ tail L -> P' !! p = P !! p) -> chain N' P' L.
Proof.
  induction L as [|a L IH]; [done|]. destruct L as [|b L]; [done|]. rewrite !chain_cons. intros (H1 & H2 & H3) HN HP.
  rewrite HN by (cbn; set_solver). rewrite HP by (cbn; set_solver). split; [done|]. split; [done|].
  apply IH; [done| |].
  - intros p Hp. apply HN. change (removelast (a :: b :: L)) with (a :: removelast (b :: L)). set_solver.
  - intros p Hp. apply HP. cbn in *. set_solver.
Qed.

Lemma removelast_snoc (L : list ptr) x : removelast (L ++ [x]) = L.
Proof. by rewrite removelast_app, app_nil_r. Qed.

(** the same frame for a list with known ends *)
Lemma chain_frame_snoc N P N' P' a L b : chain N P (a :: L ++ [b]) ->
  (forall x, x ∈ a :: L -> N' !! x = N !! x) -> (forall x, x ∈ L ++ [b] -> P' !! x = P !! x) -> chain N' P' (a :: L ++ [b]).
Proof.
  intros C HN HP. eapply links_frame; [exact C| |]; [|exact HP].
  intros x Hx. apply HN. by rewrite app_comm_cons, removelast_snoc in Hx.
Qed.

(** chains joined at a common node *)
Lemma chain_join N P L1 p L2 : chain N P (L1 ++ [p]) -> chain N P (p :: L2) -> chain N P (L1 ++ p :: L2).
Proof. destruct L2 as [|q L2]; [done|]. rewrite chain_cut, chain_cons. tauto. Qed.

(** every nonempty list has a last and a first element *)
Lemma last_split (a : ptr) l : exists L p, a :: l = L ++ [p].
Proof. destruct (exists_last (l := a :: l)) as (L & p & ->); [done|]. by exists L, p. Qed.
Lemma first_split l (b : ptr) : exists q L, l ++ [b] = q :: L.
Proof. destruct l; eauto. Qed.

(** Between the nodes [p] and [q] of a chain the piece [m] is put in place of what
    was there: the rest of the chain is kept by writes to [p], [q] and elsewhere. *)
Lemma chain_patch N P N' P' a l1 m l2 b L1 p q L2 : a :: l1 = L1 ++ [p] -> l2 ++ [b] = q :: L2 ->
  chain N P (a :: l1) -> chain N P (l2 ++ [b]) -> chain N' P' (p :: m ++ [q]) ->
  (forall x, x ∈ L1 -> N' !! x = N !! x) -> (forall x, x ∈ l1 -> P' !! x = P !! x) ->
  (forall x, x ∈ l2 -> N' !! x = N !! x) -> (forall x, x ∈ L2 -> P' !! x = P !! x) ->
  chain N' P' (a :: l1 ++ m ++ l2 ++ [b]).
Proof.
  intros E1 E2 C1 C2 C HN1 HP1 HN2 HP2. rewrite app_comm_cons, E1, E2, <- app_assoc. cbn [app]. apply chain_join.
  - rewrite <- E1. eapply links_frame; [exact C1| |]; [|exact HP1]. intros x Hx. rewrite E1, removelast_snoc in Hx. auto.
  - rewrite app_comm_cons. apply chain_join; [exact C|]. rewrite <- E2. eapply links_frame; [exact C2| |].
    + intros x Hx. rewrite removelast_snoc in Hx. auto.
    + intros x Hx. rewrite E2 in Hx. auto.
Qed.

(** the inside of a chain with new ends *)
Lemma chain_ends N P N' P' a l1 b p q x L1 z L2 : l1 = x :: L1 -> l1 = L2 ++ [z] -> chain N P (a :: l1 ++ [b]) ->
  N' !! p = Some x -> P' !! x = Some p -> N' !! z = Some q -> P' !! q = Some z ->
  (forall y, y ∈ L2 -> N' !! y = N !! y) -> (forall y, y ∈ L1 -> P' !! y = P !! y) -> chain N' P' (p :: l1 ++ [q]).
Proof.
  intros E1 E2 C Hp Hx Hz Hq HN HP. apply (chain_right _ _ [a]), chain_left in C.
  rewrite E1. cbn [app]. apply chain_cons. split_and!; try done. rewrite app_comm_cons, <- E1, E2, <- app_assoc. cbn [app].
  apply chain_cut. split_and!; try done. rewrite <- E2. eapply links_frame; [exact C| |].
  - intros y Hy. rewrite E2, removelast_snoc in Hy. auto.
  - intros y Hy. rewrite E1 in Hy. auto.
Qed.

(** the same when only the first link is new *)
Lemma chain_first N P N' P' a l b q L2 p : l ++ [b] = q :: L2 -> chain N P (a :: l ++ [b]) ->
  N' !! p = Some q -> P' !! q = Some p ->
  (forall y, y ∈ l -> N' !! y = N !! y) -> (forall y, y ∈ L2 -> P' !! y = P !! y) -> chain N' P' (p :: l ++ [b]).
Proof.
  intros E C Hp Hq HN HP. apply (chain_right _ _ [a]) in C. rewrite E. apply chain_cons. split_and!; try done. rewrite <- E.
  eapply links_frame; [exact C| |].
  - intros y Hy. rewrite removelast_snoc in Hy. auto.
  - intros y Hy. rewrite E in Hy. auto.
Qed.

(** ** Circular lists *)

Definition dlist (s : lists) (h : ptr) (l : list ptr) : Prop := NoDup (h :: l) /\ chain (nexts s) (prevs s) (h :: l ++ [h]).

Definition node (s : lists) (p : ptr) : Prop := is_Some (nexts s !! p) /\ is_Some (prevs s !! p).

(** only the nodes of [D] may differ *)
Record changed (D : list ptr) (s s' : lists) : Prop := {
  changed_next : forall x, (x ∉ D) -> nexts s' !! x = nexts s !! x;
  changed_prev : forall x, (x ∉ D) -> prevs s' !! x = prevs s !! x;
  changed_node : forall x, node s x -> node s' x;
  changed_first : firsts s' = firsts s;
  changed_hnext : hnexts s' = hnexts s;
  changed_pprev : pprevs s' = pprevs s;
}.

Lemma changed_refl D s : changed D s s.
Proof. by split. Qed.
Lemma changed_trans D s1 s2 s3 : changed D s1 s2 -> changed D s2 s3 -> changed D s1 s3.
Proof. intros [] []. split; intros; try congruence; [by rewrite changed_next1, changed_next0|by rewrite changed_prev1, changed_prev0|auto]. Qed.
Lemma changed_mono D D' s s' : changed D s s' -> (forall x, x ∈ D -> x ∈ D') -> changed D' s s'.
Proof. intros [] H. split; auto. Qed.
Lemma changed_set_next D s p v : p ∈ D -> changed D s (with_nexts (<[p := v]> (nexts s)) s).
Proof.
  intros Hp. split; try done; cbn.
  - intros x Hx. rewrite lookup_insert_ne; [done|]. intros ->. done.
  - intros x [H1 H2]. split; [by apply is_Some_upd|done].
Qed.
Lemma changed_set_prev D s p v : p ∈ D -> changed D s (with_prevs (<[p := v]> (prevs s)) s).
Proof.
  intros Hp. split; try done; cbn.
  - intros x Hx. rewrite lookup_insert_ne; [done|]. intros ->. done.
  - intros x [H1 H2]. split; [done|by apply is_Some_upd].
Qed.

(** writing the links of nodes of [D] *)
Lemma wp_link_next D s0 s p v (Q : unit -> lists -> Prop) : changed D s0 s -> node s0 p -> p ∈ D ->
  (changed D s0 (with_nexts (<[p := v]> (nexts s)) s) -> Q tt (with_nexts (<[p := v]> (nexts s)) s)) -> wp (set_next p v) s Q.
Proof.
  intros C Hn Hp HQ. apply wp_set_list_next; [by apply (changed_node _ _ _ C)|]. apply HQ.
  eapply changed_trans; [exact C|by apply changed_set_next].
Qed.
Lemma wp_link_prev D s0 s p v (Q : unit -> lists -> Prop) : changed D s0 s -> node s0 p -> p ∈ D ->
  (changed D s0 (with_prevs (<[p := v]> (prevs s)) s) -> Q tt (with_prevs (<[p := v]> (prevs s)) s)) -> wp (set_prev p v) s Q.
Proof.
  intros C Hn Hp HQ. apply wp_set_prev; [by apply (changed_node _ _ _ C)|]. apply HQ.
  eapply changed_trans; [exact C|by apply changed_set_prev].
Qed.

Lemma dlist_frame D s s' h l : changed D s s' -> dlist s h l -> (forall x, x ∈ h :: l -> x ∉ D) -> dlist s' h l.
Proof.
  intros C [H1 H2] HD. split; [done|]. eapply chain_frame_snoc; [exact H2| |]; intros x Hx.
  - apply (changed_next _ _ _ C). auto.
  - apply (changed_prev _ _ _ C), HD. set_solver.
Qed.

(** every node of a list has both links *)
Lemma chain_has_next N P L b x : chain N P (L ++ [b]) -> x ∈ L -> is_Some (N !! x).
Proof.
  intros C (L1 & L2 & ->)%list_elem_of_split. rewrite <- app_assoc in C. cbn [app] in C.
  destruct (first_split L2 b) as (q & L & E). rewrite E in C. apply chain_cut in C as (_ & H & _). by eexists.
Qed.
Lemma chain_has_prev N P a L x : chain N P (a :: L) -> x ∈ L -> is_Some (P !! x).
Proof.
  intros C (L1 & L2 & ->)%list_elem_of_split. rewrite app_comm_cons in C. destruct (last_split a L1) as (L & p & E).
  rewrite E, <- app_assoc in C. cbn [app] in C. apply chain_cut in C as (_ & _ & H & _). by eexists.
Qed.
Lemma dlist_node s h l p : dlist s h l -> p ∈ h :: l -> node s p.
Proof.
  intros [_ C] Hp. split.
  - rewrite app_comm_cons in C. by eapply chain_has_next.
  - eapply chain_has_prev; [exact C|]. set_solver.
Qed.

(** what the neighbours of a place in a list are *)
Lemma gap_nodes (h : ptr) l1 l2 L1 (p q : ptr) L2 : NoDup (h :: l1 ++ l2) -> h :: l1 = L1 ++ [p] -> l2 ++ [h] = q :: L2 ->
  p ∈ h :: l1 /\ q ∈ h :: l2 /\ (p ∉ L1) /\ (q ∉ L2) /\ (p ∉ l2) /\ (q ∉ l1) /\
  (forall x : ptr, x ∈ L1 -> x ∈ h :: l1) /\ (forall x : ptr, x ∈ L2 -> x ∈ h :: l2).
Proof.
  intros HN E1 E2. assert (HN' := HN). rewrite app_comm_cons, E1, <- app_assoc in HN'.
  apply NoDup_app in HN' as (_ & Hd & HN'). cbn [app] in *. apply NoDup_cons in HN' as [Hp2 _].
  assert (Hp : p ∈ h :: l1) by (rewrite E1; set_solver). assert (Hq : q ∈ l2 ++ [h]) by (rewrite E2; set_solver).
  apply NoDup_cons in HN as [Hh HN]. apply NoDup_app in HN as (_ & Hl & Hl2).
  assert (HN2 : NoDup (l2 ++ [h])). { apply NoDup_app. split; [done|]. split; [set_solver|apply NoDup_singleton]. }
  rewrite E2 in HN2. apply NoDup_cons in HN2 as [Hq2 _]. split_and!; try done.
  - set_solver.
  - intros H. apply (Hd p H). set_solver.
  - intros H. apply elem_of_app in Hq as [Hq| ->%list_elem_of_singleton]; [by apply (Hl q)|set_solver].
  - intros x Hx. rewrite E1. set_solver.
  - intros x Hx. assert (x ∈ l2 ++ [h]) by (rewrite E2; set_solver). set_solver.
Qed.

Lemma NoDup_plus (h : ptr) l1 x l2 : NoDup (h :: l1 ++ l2) -> (x ∉ h :: l1 ++ l2) -> NoDup (h :: l1 ++ x :: l2).
Proof. rewrite <- Permutation_middle. intros [H1 H2]%NoDup_cons H3. apply NoDup_cons. split; [set_solver|]. apply NoDup_cons. split; [set_solver|done]. Qed.
Lemma NoDup_minus (h : ptr) l1 x l2 : NoDup (h :: l1 ++ x :: l2) -> NoDup (h :: l1 ++ l2) /\ (x ∉ h :: l1 ++ l2).
Proof.
  rewrite <- Permutation_middle. intros [H1 [H2 H3]%NoDup_cons]%NoDup_cons. split; [apply NoDup_cons; set_solver|set_solver].
Qed.

(** [chain_patch] for a circular list: only [p]'s and [q]'s link to each other change *)
Lemma ring_patch N P N' P' h l1 m l2 L1 p q L2 : NoDup (h :: l1 ++ l2) -> h :: l1 = L1 ++ [p] -> l2 ++ [h] = q :: L2 ->
  chain N P (h :: l1) -> chain N P (l2 ++ [h]) -> chain N' P' (p :: m ++ [q]) ->
  (forall x, x ∈ h :: l1 ++ l2 -> x <> p -> N' !! x = N !! x) ->
  (forall x, x ∈ h :: l1 ++ l2 -> x <> q -> P' !! x = P !! x) ->
  chain N' P' (h :: (l1 ++ m ++ l2) ++ [h]).
Proof.
  intros HN E1 E2 C1 C2 C FN FP. destruct (gap_nodes h l1 l2 L1 p q L2 HN E1 E2) as (Hp & Hq & F1 & F2 & F3 & F4 & S1 & S2).
  rewrite <- !app_assoc. apply (chain_patch N P _ _ h l1 m l2 h L1 p q L2); try done; intros x Hx.
  - apply FN; [specialize (S1 x Hx); set_solver|congruence].
  - apply FP; [set_solver|congruence].
  - apply FN; [set_solver|congruence].
  - apply FP; [specialize (S2 x Hx); set_solver|congruence].
Qed.

Ltac lookups_by tac := rewrite ?lookup_insert_eq; repeat (rewrite lookup_insert_ne by tac; rewrite ?lookup_insert_eq); try done.
Ltac lookups := lookups_by ltac:(first [congruence | set_solver]).

(** all entries but one *)
Lemma filter_other (x : ptr) (m : list ptr) : (x ∉ m) -> filter (fun y => y <> x) m = m.
Proof. induction m as [|y m IH]; [done|]. intros Hm. rewrite filter_cons_True by set_solver. by rewrite IH by set_solver. Qed.

(** ** Insertion *)

Lemma __list_add_spec s h l1 l2 L1 p q L2 new : dlist s h (l1 ++ l2) -> h :: l1 = L1 ++ [p] -> l2 ++ [h] = q :: L2 ->
  node s new -> (new ∉ h :: l1 ++ l2) ->
  wp (__list_add new p q) s (fun _ s' => dlist s' h (l1 ++ new :: l2) /\ changed (new :: h :: l1 ++ l2) s s').
Proof.
  intros HD E1 E2 Hn Hnew. destruct (gap_nodes h l1 l2 L1 p q L2) as (Hp & Hq & F1 & F2 & F3 & F4 & S1 & S2); [apply HD|done..|].
  assert (Np : node s p) by (eapply dlist_node; [exact HD|set_solver]).
  assert (Nq : node s q) by (eapply dlist_node; [exact HD|set_solver]).
  unfold __list_add. wsimpl. eapply (wp_link_prev (new :: h :: l1 ++ l2)); [apply changed_refl|done|set_solver|]. intros C1.
  wsimpl. eapply wp_link_next; [exact C1|done|set_solver|]. intros C2.
  wsimpl. eapply wp_link_prev; [exact C2|done|set_solver|]. intros C3.
  eapply wp_link_next; [exact C3|done|set_solver|]. intros C4. split; [|done]. destruct HD as [HN HC]. split.
  - by apply NoDup_plus.
  - cbn [nexts prevs with_nexts with_prevs]. rewrite <- app_assoc in HC. assert (p <> new) by set_solver. assert (q <> new) by set_solver.
    apply (ring_patch (nexts s) (prevs s) _ _ h l1 [new] l2 L1 p q L2); try done.
    + rewrite app_comm_cons in HC. by apply chain_left in HC.
    + rewrite app_comm_cons in HC. by apply chain_right in HC.
    + cbn [app chain]. split_and!; lookups.
    + intros x Hx Hxp. lookups.
    + intros x Hx Hxq. lookups.
Qed.

Lemma dlist_gap s h l1 l2 L1 p q L2 : dlist s h (l1 ++ l2) -> h :: l1 = L1 ++ [p] -> l2 ++ [h] = q :: L2 ->
  nexts s !! p = Some q /\ prevs s !! q = Some p.
Proof.
  intros [_ C] E1 E2. rewrite <- app_assoc, app_comm_cons, E1, E2, <- app_assoc in C. apply chain_cut in C. tauto.
Qed.

Lemma list_add_spec s h l new : dlist s h l -> node s new -> (new ∉ h :: l) ->
  wp (list_add new h) s (fun _ s' => dlist s' h (new :: l) /\ changed (new :: h :: l) s s').
Proof.
  intros HD Hn Hnew. destruct (first_split l h) as (q & L2 & E).
  destruct (dlist_gap s h [] l [] h q L2 HD eq_refl E) as [H1 _]. unfold list_add. wsimpl. eapply wp_get_next; [done|].
  eapply (__list_add_spec s h [] l []); eauto.
Qed.

Lemma list_add_tail_spec s h l new : dlist s h l -> node s new -> (new ∉ h :: l) ->
  wp (list_add_tail new h) s (fun _ s' => dlist s' h (l ++ [new]) /\ changed (new :: h :: l) s s').
Proof.
  intros HD Hn Hnew. destruct (last_split h l) as (L1 & p & E). rewrite <- (app_nil_r l) in HD, Hnew |- *.
  destruct (dlist_gap s h l [] L1 p h [] HD E eq_refl) as [_ H2]. unfold list_add_tail. wsimpl. eapply wp_get_prev; [done|].
  eapply wp_mono; [by eapply (__list_add_spec s h l [])|]. intros ? s' H. by rewrite <- app_assoc.
Qed.

(** ** Removal and replacement *)

(** the neighbours of an entry *)
Lemma dlist_around s h l1 x l2 L1 p q L2 : dlist s h (l1 ++ x :: l2) -> h :: l1 = L1 ++ [p] -> l2 ++ [h] = q :: L2 ->
  nexts s !! x = Some q /\ prevs s !! x = Some p.
Proof.
  intros HD E1 E2. split.
  - destruct (dlist_gap s h (l1 ++ [x]) l2 (h :: l1) x q L2); [by rewrite <- app_assoc|done|done|done].
  - destruct (dlist_gap s h l1 (x :: l2) L1 p x (l2 ++ [h])); [done|done|done|done].
Qed.

Lemma list_del_spec s h l1 x l2 : dlist s h (l1 ++ x :: l2) -> (NULL ∉ h :: l1 ++ x :: l2) ->
  wp (list_del x) s (fun _ s' => dlist s' h (l1 ++ l2) /\ changed (x :: h :: l1 ++ l2) s s' /\
    nexts s' !! x = Some NULL /\ prevs s' !! x = Some NULL).
Proof.
  intros HD H0. destruct (last_split h l1) as (L1 & p & E1). destruct (first_split l2 h) as (q & L2 & E2).
  destruct (dlist_around s h l1 x l2 L1 p q L2 HD E1 E2) as [Hnx Hpx].
  destruct (NoDup_minus h l1 x l2 (proj1 HD)) as [HN Hx].
  destruct (gap_nodes h l1 l2 L1 p q L2 HN E1 E2) as (Hp & Hq & F1 & F2 & F3 & F4 & S1 & S2).
  assert (Np : node s p) by (eapply dlist_node; [exact HD|set_solver]).
  assert (Nq : node s q) by (eapply dlist_node; [exact HD|set_solver]).
  assert (Nx : node s x) by (eapply dlist_node; [exact HD|set_solver]).
  assert (Ep : p <> NULL) by set_solver. assert (Eq : q <> NULL) by set_solver.
  unfold list_del. wsimpl. eapply wp_get_prev; [done|]. wsimpl. apply wp_assert; [by apply negb_true_iff, Z.eqb_neq|].
  wsimpl. eapply wp_get_next; [done|]. wsimpl. apply wp_assert; [by apply negb_true_iff, Z.eqb_neq|]. unfold __list_del.
  wsimpl. eapply (wp_link_prev (x :: h :: l1 ++ l2)); [apply changed_refl|done|set_solver|]. intros C1.
  wsimpl. eapply wp_link_next; [exact C1|done|set_solver|]. intros C2.
  wsimpl. eapply wp_link_prev; [exact C2|done|set_solver|]. intros C3.
  eapply wp_link_next; [exact C3|done|set_solver|]. intros C4. split; [|split; [done|cbn; split; lookups]].
  destruct HD as [_ HC]. split; [done|]. cbn [nexts prevs with_nexts with_prevs]. rewrite <- app_assoc in HC. cbn [app] in HC.
  assert (p <> x) by set_solver. assert (q <> x) by set_solver.
  apply (ring_patch (nexts s) (prevs s) _ _ h l1 [] l2 L1 p q L2); try done.
  - rewrite app_comm_cons in HC. by apply chain_left in HC.
  - rewrite app_comm_cons in HC. apply chain_right in HC. by apply (chain_right _ _ [x]) in HC.
  - cbn [app chain]. split_and!; lookups.
  - intros y Hy Hyp. lookups.
  - intros y Hy Hyq. lookups.
Qed.

Lemma list_replace_spec s h l1 old l2 new : dlist s h (l1 ++ old :: l2) -> node s new -> (new ∉ h :: l1 ++ old :: l2) ->
  wp (list_replace old new) s (fun _ s' => dlist s' h (l1 ++ new :: l2) /\ changed (new :: h :: l1 ++ l2) s s').
Proof.
  intros HD Nn Hnew. destruct (last_split h l1) as (L1 & p & E1). destruct (first_split l2 h) as (q & L2 & E2).
  destruct (dlist_around s h l1 old l2 L1 p q L2 HD E1 E2) as [Hnx Hpx].
  destruct (NoDup_minus h l1 old l2 (proj1 HD)) as [HN Hx].
  destruct (gap_nodes h l1 l2 L1 p q L2 HN E1 E2) as (Hp & Hq & F1 & F2 & F3 & F4 & S1 & S2).
  assert (Np : node s p) by (eapply dlist_node; [exact HD|set_solver]).
  assert (Nq : node s q) by (eapply dlist_node; [exact HD|set_solver]).
  assert (p <> new) by set_solver. assert (q <> new) by set_solver. assert (old <> q) by set_solver.
  assert (old <> new) by set_solver.
  unfold list_replace. wsimpl. eapply wp_get_next; [done|].
  wsimpl. eapply (wp_link_next (new :: h :: l1 ++ l2)); [apply changed_refl|done|set_solver|]. intros C1.
  wsimpl. eapply wp_get_next; [cbn; lookups|].
  wsimpl. eapply wp_link_prev; [exact C1|done|set_solver|]. intros C2.
  wsimpl. eapply (wp_get_prev _ old p); [cbn; lookups|].
  wsimpl. eapply wp_link_prev; [exact C2|done|set_solver|]. intros C3.
  wsimpl. eapply (wp_get_prev _ new p); [cbn; lookups|].
  eapply wp_link_next; [exact C3|done|set_solver|]. intros C4. split; [|done].
  destruct HD as [_ HC]. split; [by apply NoDup_plus; [|set_solver]|]. cbn [nexts prevs with_nexts with_prevs].
  rewrite <- app_assoc in HC. cbn [app] in HC.
  apply (ring_patch (nexts s) (prevs s) _ _ h l1 [new] l2 L1 p q L2); try done.
  - rewrite app_comm_cons in HC. by apply chain_left in HC.
  - rewrite app_comm_cons in HC. apply chain_right in HC. by apply (chain_right _ _ [old]) in HC.
  - cbn [app chain]. split_and!; lookups.
  - intros y Hy Hyp. lookups.
  - intros y Hy Hyq. lookups.
Qed.

(** ** Queries *)

Lemma dlist_next s h l q L2 : dlist s h l -> l ++ [h] = q :: L2 -> nexts s !! h = Some q.
Proof. intros HD E. by destruct (dlist_gap s h [] l [] h q L2). Qed.
Lemma dlist_prev s h l L1 p : dlist s h l -> h :: l = L1 ++ [p] -> prevs s !! h = Some p.
Proof. intros HD E. rewrite <- (app_nil_r l) in HD. by destruct (dlist_gap s h l [] L1 p h []). Qed.

Lemma list_empty_spec s h l : dlist s h l -> wp (list_empty h) s (fun r s' => r = bool_decide (l = []) /\ s' = s).
Proof.
  intros HD. destruct (first_split l h) as (q & L & E). unfold list_empty. wsimpl. eapply wp_get_next; [by eapply dlist_next|].
  apply wp_ret. split; [|done]. destruct HD as [[Hh _]%NoDup_cons _]. apply eq_true_iff_eq. rewrite Z.eqb_eq, bool_decide_eq_true.
  destruct l as [|x l]; cbn in E; injection E as <- <-; [done|]. split; [|done]. intros ->. set_solver.
Qed.

Lemma list_is_last_spec s h l1 x l2 : dlist s h (l1 ++ x :: l2) ->
  wp (list_is_last x h) s (fun r s' => r = bool_decide (l2 = []) /\ s' = s).
Proof.
  intros HD. destruct (first_split l2 h) as (q & L & E). destruct (last_split h l1) as (L1 & p & E1).
  destruct (dlist_around s h l1 x l2 L1 p q L HD E1 E) as [Hq _]. unfold list_is_last. wsimpl. eapply wp_get_next; [done|].
  apply wp_ret. split; [|done]. destruct HD as [[Hh _]%NoDup_cons _]. apply eq_true_iff_eq. rewrite Z.eqb_eq, bool_decide_eq_true.
  destruct l2 as [|y l2]; cbn in E; injection E as <- <-; [done|]. split; [|done]. intros ->. set_solver.
Qed.

Lemma list_is_singular_spec s h l : dlist s h l -> wp (list_is_singular h) s (fun r s' => r = bool_decide (length l = 1%nat) /\ s' = s).
Proof.
  intros HD. unfold list_is_singular. wsimpl. eapply wp_mono; [by apply list_empty_spec|]. intros ? s' [-> ->].
  destruct l as [|x l]; [by apply wp_ret|]. rewrite bool_decide_eq_false_2 by done.
  destruct (last_split x l) as (L & p & E). wsimpl. eapply wp_get_next; [by eapply dlist_next|].
  wsimpl. eapply (wp_get_prev _ h p). { eapply (dlist_prev _ _ _ (h :: L)); [done|]. by rewrite E. }
  apply wp_ret. split; [|done]. apply eq_true_iff_eq. rewrite Z.eqb_eq, bool_decide_eq_true. destruct HD as [[_ HN]%NoDup_cons _].
  destruct L as [|y L]; cbn in E; injection E; [by intros -> ->|]. intros -> <-. split.
  - intros <-. apply NoDup_cons in HN as [HN _]. set_solver.
  - cbn. rewrite length_app. cbn. lia.
Qed.

(** ** Cutting and joining *)

Lemma dlist_init s h l : node s h -> l = [] -> wp (INIT_LIST_HEAD h) s (fun _ s' => dlist s' h l /\ changed [h] s s').
Proof.
  intros Hn ->. unfold INIT_LIST_HEAD. wsimpl. eapply (wp_link_next [h]); [apply changed_refl|done|set_solver|]. intros C1.
  eapply wp_link_prev; [exact C1|done|set_solver|]. intros C2. split; [|done].
  split; [apply NoDup_singleton|]. cbn. split_and!; lookups.
Qed.

Lemma __list_cut_position_spec s g h l1 e l2 : dlist s h (l1 ++ e :: l2) -> node s g -> (g ∉ h :: l1 ++ e :: l2) ->
  wp (__list_cut_position g h e) s (fun _ s' => dlist s' g (l1 ++ [e]) /\ dlist s' h l2 /\ changed (g :: h :: l1 ++ e :: l2) s s').
Proof.
  intros HD Ng Hg. destruct (last_split h l1) as (L1 & p & E1). destruct (first_split l2 h) as (q & L2 & E2).
  destruct (dlist_around s h l1 e l2 L1 p q L2 HD E1 E2) as [He _].
  destruct (first_split l1 e) as (f & F & Ef).
  assert (Hf : nexts s !! h = Some f). { eapply dlist_next; [done|]. rewrite <- app_assoc. cbn. rewrite (cons_middle e), app_assoc, Ef. done. }
  assert (HDN := proj1 HD). apply NoDup_cons in HDN as [Hh HDN]. apply NoDup_app in HDN as (HN1 & Hd & [He2 HN2]%NoDup_cons).
  assert (If : f ∈ l1 ++ [e]) by (rewrite Ef; set_solver). assert (Iq : q ∈ l2 ++ [h]) by (rewrite E2; set_solver).
  assert (NF : NoDup (l1 ++ [e])). { apply NoDup_app. split; [done|]. split; [set_solver|apply NoDup_singleton]. }
  assert (NQ : NoDup (l2 ++ [h])). { apply NoDup_app. split; [done|]. split; [set_solver|apply NoDup_singleton]. }
  assert (Nf : node s f) by (eapply dlist_node; [exact HD|set_solver]).
  assert (Nq : node s q) by (eapply dlist_node; [exact HD|set_solver]).
  assert (Ne : node s e) by (eapply dlist_node; [exact HD|set_solver]).
  assert (Nh : node s h) by (eapply dlist_node; [exact HD|set_solver]).
  assert (g <> f) by set_solver. assert (g <> q) by set_solver. assert (g <> e) by set_solver. assert (g <> h) by set_solver.
  assert (f <> q) by set_solver. assert (e <> h) by set_solver.
  assert (D1 : forall y, y ∈ l1 -> y <> h /\ y <> e /\ y <> g) by set_solver.
  assert (D2 : forall y, y ∈ F -> y <> f /\ y <> q /\ y <> g).
  { intros y Hy. assert (y ∈ l1 ++ [e]) by (rewrite Ef; set_solver). rewrite Ef in NF. apply NoDup_cons in NF as [NF _]. set_solver. }
  assert (D3 : forall y, y ∈ l2 -> y <> h /\ y <> e /\ y <> g) by set_solver.
  assert (D4 : forall y, y ∈ L2 -> y <> f /\ y <> q /\ y <> g).
  { intros y Hy. assert (y ∈ l2 ++ [h]) by (rewrite E2; set_solver). rewrite E2 in NQ. apply NoDup_cons in NQ as [NQ _]. set_solver. }
  unfold __list_cut_position. wsimpl. eapply wp_get_next; [done|]. wsimpl. eapply wp_get_next; [done|].
  wsimpl. eapply (wp_link_next (g :: h :: l1 ++ e :: l2)); [apply changed_refl|done|set_solver|]. intros C1.
  wsimpl. eapply (wp_get_next _ g f); [cbn; lookups_by congruence|].
  wsimpl. eapply wp_link_prev; [exact C1|done|set_solver|]. intros C2.
  wsimpl. eapply wp_link_prev; [exact C2|done|set_solver|]. intros C3.
  wsimpl. eapply wp_link_next; [exact C3|done|set_solver|]. intros C4.
  wsimpl. eapply wp_link_next; [exact C4|done|set_solver|]. intros C5.
  eapply wp_link_prev; [exact C5|done|set_solver|]. intros C6. destruct HD as [_ HC].
  split; [split|split; [split|done]]; cbn [nexts prevs with_nexts with_prevs].
  - apply NoDup_cons. split; [set_solver|done].
  - apply (chain_ends (nexts s) (prevs s) _ _ h (l1 ++ [e]) q g g f F e l1); try done; [|lookups_by congruence..| |].
    + apply (chain_left _ _ _ L2). replace ((h :: (l1 ++ [e]) ++ [q]) ++ L2) with (h :: (l1 ++ e :: l2) ++ [h]); [done|].
      cbn [app]. rewrite <- !app_assoc. cbn [app]. by rewrite E2.
    + intros y Hy. destruct (D1 y Hy) as (? & ? & ?). lookups_by congruence.
    + intros y Hy. destruct (D2 y Hy) as (? & ? & ?). lookups_by congruence.
  - apply NoDup_cons. split; [set_solver|done].
  - apply (chain_first (nexts s) (prevs s) _ _ e l2 h q L2 h); try done.
    + rewrite <- app_assoc, app_comm_cons in HC. by apply chain_right in HC.
    + lookups_by congruence.
    + lookups_by congruence.
    + intros y Hy. destruct (D3 y Hy) as (? & ? & ?). lookups_by congruence.
    + intros y Hy. destruct (D4 y Hy) as (? & ? & ?). lookups_by congruence.
Qed.

Lemma list_cut_position_spec s g h l1 e l2 : dlist s h (l1 ++ e :: l2) -> node s g -> (g ∉ h :: l1 ++ e :: l2) ->
  wp (list_cut_position g h e) s (fun _ s' => dlist s' g (l1 ++ [e]) /\ dlist s' h l2 /\ changed (g :: h :: l1 ++ e :: l2) s s').
Proof.
  intros HD Ng Hg. assert (Eh : e <> h). { intros ->. destruct HD as [[HN _]%NoDup_cons _]. set_solver. }
  destruct (first_split (l1 ++ e :: l2) h) as (f & F & Ef).
  unfold list_cut_position. wsimpl. eapply wp_mono; [by apply list_empty_spec|]. intros ? ? [-> ->].
  rewrite bool_decide_eq_false_2 by (by destruct l1). wsimpl. eapply wp_mono; [by apply list_is_singular_spec|]. intros ? ? [-> ->].
  wsimpl. eapply wp_get_next; [by eapply dlist_next|].
  case_bool_decide as Hs; cbn [andb].
  - rewrite length_app in Hs. cbn in Hs. destruct l1; [|cbn in Hs; lia]. cbn in Ef. injection Ef as <- _. rewrite Z.eqb_refl. cbn [negb andb].
    apply Z.eqb_neq in Eh as ->. by apply __list_cut_position_spec.
  - apply Z.eqb_neq in Eh as ->. by apply __list_cut_position_spec.
Qed.

(** cutting at the head *)
Lemma list_cut_nothing s g h l : dlist s h l -> node s g -> (l <> []) -> (g ∉ h :: l) ->
  wp (list_cut_position g h h) s (fun _ s' => dlist s' g [] /\ dlist s' h l /\ changed [g] s s').
Proof.
  intros HD Ng Hl Hg. destruct (first_split l h) as (f & F & Ef).
  unfold list_cut_position. wsimpl. eapply wp_mono; [by apply list_empty_spec|]. intros ? ? [-> ->].
  rewrite bool_decide_eq_false_2 by done. wsimpl. eapply wp_mono; [by apply list_is_singular_spec|]. intros ? ? [-> ->].
  wsimpl. eapply wp_get_next; [by eapply dlist_next|]. rewrite Z.eqb_refl. cbn [negb]. rewrite !andb_false_r.
  eapply wp_mono; [by apply dlist_init|]. cbn beta. intros _ s' [H1 H2]. split; [done|]. split; [|done].
  eapply dlist_frame; [done|done|]. set_solver.
Qed.

Lemma __list_splice_spec s g m h l1 l2 L1 p q L2 : dlist s g m -> (m <> []) -> dlist s h (l1 ++ l2) ->
  (forall x, x ∈ m -> x ∉ h :: l1 ++ l2) -> h :: l1 = L1 ++ [p] -> l2 ++ [h] = q :: L2 ->
  wp (__list_splice g p q) s (fun _ s' => dlist s' h (l1 ++ m ++ l2) /\ changed (h :: m ++ l1 ++ l2) s s').
Proof.
  intros HG Hm HD Hdis E1 E2. destruct m as [|f m]; [done|]. destruct (last_split f m) as (G & z & Ez).
  destruct (gap_nodes h l1 l2 L1 p q L2 (proj1 HD) E1 E2) as (Hp & Hq & _).
  assert (Hz : z ∈ f :: m) by (rewrite Ez; set_solver).
  assert (HF : nexts s !! g = Some f) by (by eapply dlist_next).
  assert (HL : prevs s !! g = Some z). { eapply (dlist_prev _ _ _ (g :: G)); [done|]. by rewrite Ez. }
  assert (Np : node s p) by (eapply dlist_node; [exact HD|set_solver]).
  assert (Nq : node s q) by (eapply dlist_node; [exact HD|set_solver]).
  assert (Nf : node s f) by (eapply dlist_node; [exact HG|set_solver]).
  assert (Nz : node s z) by (eapply dlist_node; [exact HG|set_solver]).
  assert (HNm := proj1 HG). apply NoDup_cons in HNm as [_ HNm].
  assert (D1 : forall y, y ∈ h :: l1 ++ l2 -> y <> f /\ y <> z) by set_solver.
  assert (D2 : forall y, y ∈ m -> y <> f /\ y <> q). { apply NoDup_cons in HNm. set_solver. }
  assert (D3 : forall y, y ∈ G -> y <> z /\ y <> p).
  { intros y Hy. assert (y ∈ f :: m) by (rewrite Ez; set_solver). rewrite Ez in HNm. apply NoDup_app in HNm as (_ & HNm & _). set_solver. }
  assert (f <> q) by set_solver. assert (z <> p) by set_solver.
  assert (HN : NoDup (h :: l1 ++ (f :: m) ++ l2)).
  { destruct HD as [HN _]. apply NoDup_cons in HN as [H1 H2]. apply NoDup_app in H2 as (H2 & H3 & H4).
    apply NoDup_cons. split; [set_solver|]. apply NoDup_app. split; [done|]. split; [set_solver|]. apply NoDup_app. split; [done|]. split; [set_solver|done]. }
  unfold __list_splice. wsimpl. eapply wp_get_next; [done|]. wsimpl. eapply wp_get_prev; [done|].
  wsimpl. eapply (wp_link_prev (h :: (f :: m) ++ l1 ++ l2)); [apply changed_refl|done|set_solver|]. intros C1.
  wsimpl. eapply wp_link_next; [exact C1|done|set_solver|]. intros C2.
  wsimpl. eapply wp_link_next; [exact C2|done|set_solver|]. intros C3.
  eapply wp_link_prev; [exact C3|done|set_solver|]. intros C4. split; [|done].
  split; [done|]. cbn [nexts prevs with_nexts with_prevs]. destruct HD as [HND HC]. destruct HG as [_ HG].
  rewrite <- app_assoc in HC.
  apply (ring_patch (nexts s) (prevs s) _ _ h l1 (f :: m) l2 L1 p q L2); try done.
  - rewrite app_comm_cons in HC. by apply chain_left in HC.
  - rewrite app_comm_cons in HC. by apply chain_right in HC.
  - apply (chain_ends (nexts s) (prevs s) _ _ g (f :: m) g p q f m z G); try done; [lookups_by congruence..| |].
    + intros y Hy. destruct (D3 y Hy). lookups_by congruence.
    + intros y Hy. destruct (D2 y Hy). lookups_by congruence.
  - intros y Hy Hyp. destruct (D1 y Hy). lookups_by congruence.
  - intros y Hy Hyq. destruct (D1 y Hy). lookups_by congruence.
Qed.

Lemma list_splice_spec s g m h l : dlist s g m -> dlist s h l -> (forall x, x ∈ m -> x ∉ h :: l) ->
  wp (list_splice g h) s (fun _ s' => dlist s' h (m ++ l) /\ changed (h :: m ++ l) s s').
Proof.
  intros HG HD Hdis. destruct (first_split l h) as (q & L2 & E2). unfold list_splice.
  wsimpl. eapply wp_mono; [by apply list_empty_spec|]. intros ? ? [-> ->].
  case_bool_decide as Hm; [subst m; apply wp_ret; split; [done|apply changed_refl]|].
  wsimpl. eapply wp_get_next; [by eapply dlist_next|]. by eapply (__list_splice_spec s g m h [] l []).
Qed.

Lemma list_splice_tail_spec s g m h l : dlist s g m -> dlist s h l -> (forall x, x ∈ m -> x ∉ h :: l) ->
  wp (list_splice_tail g h) s (fun _ s' => dlist s' h (l ++ m) /\ changed (h :: m ++ l) s s').
Proof.
  intros HG HD Hdis. destruct (last_split h l) as (L1 & p & E1). unfold list_splice_tail.
  wsimpl. eapply wp_mono; [by apply list_empty_spec|]. intros ? ? [-> ->].
  case_bool_decide as Hm; [subst m; apply wp_ret; split; [by rewrite app_nil_r|apply changed_refl]|].
  wsimpl. eapply wp_get_prev; [by eapply dlist_prev|].
  eapply wp_mono; [eapply (__list_splice_spec s g m h l [] L1 p h []); rewrite ?app_nil_r; done|].
  intros ? s'. by rewrite !app_nil_r.
Qed.

(** ** Loops over a list *)

Lemma dlist_after s h l1 x l2 q L2 : dlist s h (l1 ++ x :: l2) -> l2 ++ [h] = q :: L2 -> nexts s !! x = Some q.
Proof. intros HD E. destruct (last_split h l1) as (L1 & p & E1). by destruct (dlist_around s h l1 x l2 L1 p q L2 HD E1 E). Qed.

(** the body sees the entries in order, and may change what hangs off them *)
Lemma list_for_each_entry_spec (Inv : list ptr -> lists -> Prop) s h l body : dlist s h l -> zlen l + 1 < 2 ^ 64 -> Inv [] s ->
  (forall l1 x l2 s, l = l1 ++ x :: l2 -> dlist s h l -> Inv l1 s ->
    wp (body x) s (fun _ s' => dlist s' h l /\ Inv (l1 ++ [x]) s')) ->
  wp (list_for_each_entry body h) s (fun _ s' => dlist s' h l /\ Inv l s').
Proof.
  intros HD Hlen HI Hb. assert (Hh : h ∉ l) by (by destruct HD as [[HN _]%NoDup_cons _]).
  destruct (first_split l h) as (q & L & E). unfold list_for_each_entry. wsimpl. eapply wp_get_next; [by eapply dlist_next|].
  apply (wp_while_var (fun n pos s => exists l1 l2 L2, l = l1 ++ l2 /\ l2 ++ [h] = pos :: L2 /\ n = zlen l2 /\ dlist s h l /\ Inv l1 s) (zlen l)).
  - by exists [], l, L.
  - pose proof (zlen_nonneg l). lia.
  - clear s HD HI q L E. intros n pos s (l1 & l2 & L2 & -> & E & -> & HD & HI) _.
    destruct l2 as [|x l2]; cbn in E; injection E as <- _.
    { rewrite Z.eqb_refl. apply wp_ret. rewrite app_nil_r in *. done. }
    destruct (Z.eqb_spec x h) as [->|_]; [exfalso; set_solver|].
    wsimpl. eapply wp_mono; [by eapply Hb|]. intros _ s' [HD' HI'].
    destruct (first_split l2 h) as (q & L & E). wsimpl. eapply wp_get_next; [by eapply dlist_after|].
    apply wp_ret. exists (zlen l2). split; [|rewrite zlen_cons; pose proof (zlen_nonneg l2); lia].
    exists (l1 ++ [x]), l2, L. by rewrite <- app_assoc.
Qed.

(** the body may also remove the entry it gets *)
Lemma safe_loop_spec (Inv : list ptr -> list ptr -> lists -> Prop) s h l0 l q L body : dlist s h (l0 ++ l) -> zlen l + 1 < 2 ^ 64 -> Inv l0 l s ->
  l ++ [h] = q :: L ->
  (forall l1 x l2 s, dlist s h (l1 ++ x :: l2) -> Inv l1 (x :: l2) s ->
    wp (body x) s (fun _ s' => exists l1', dlist s' h (l1' ++ l2) /\ Inv l1' l2 s')) ->
  wp (safe_loop body h q) s (fun _ s' => exists l', dlist s' h l' /\ Inv l' [] s').
Proof.
  intros HD Hlen HI E Hb. unfold safe_loop.
  assert (Hn : exists n, nexts s !! q = Some n /\ (l <> [] -> head L = Some n)).
  { destruct l as [|x l]; cbn in E; injection E as <- <-.
    - rewrite app_nil_r in HD. destruct (dlist_node s h l0 h HD) as [[n Hn] _]; [set_solver|]. by exists n.
    - destruct (first_split l h) as (n & L & E). exists n. split; [by eapply (dlist_after s h l0)|by rewrite E]. }
  destruct Hn as (n0 & Hn & Hh0). wsimpl. eapply wp_get_next; [done|].
  apply (wp_while_var (fun k '(pos, n) s => exists l1 l2 L2, dlist s h (l1 ++ l2) /\ l2 ++ [h] = pos :: L2 /\
    (l2 <> [] -> head L2 = Some n) /\ k = zlen l2 /\ Inv l1 l2 s) (zlen l)).
  - by exists l0, l, L.
  - pose proof (zlen_nonneg l). lia.
  - clear s HD HI q L E n0 Hn Hh0. intros k [pos n] s (l1 & l2 & L2 & HD & E & Hn & -> & HI) _.
    assert (Hh : h ∉ l1 ++ l2) by (by destruct HD as [[HN _]%NoDup_cons _]).
    destruct l2 as [|x l2]; cbn in E; injection E as <- <-.
    { rewrite Z.eqb_refl. apply wp_ret. rewrite app_nil_r in HD. by exists l1. }
    destruct (Z.eqb_spec x h) as [->|_]; [exfalso; set_solver|]. specialize (Hn ltac:(done)).
    wsimpl. eapply wp_mono; [by eapply Hb|]. intros _ s' (l1' & HD' & HI').
    destruct l2 as [|y l2]; cbn in Hn; injection Hn as <-.
    + destruct (dlist_node s' h _ h HD') as [[n Hn] _]; [set_solver|]. wsimpl. eapply wp_get_next; [done|].
      apply wp_ret. exists 0. split; [by exists l1', [], []|done].
    + destruct (first_split l2 h) as (q & L & E). wsimpl. eapply wp_get_next; [by eapply dlist_after|].
      apply wp_ret. exists (zlen (y :: l2)). rewrite !zlen_cons. split; [|pose proof (zlen_nonneg l2); lia].
      exists l1', (y :: l2), (l2 ++ [h]). split_and!; try done; [by rewrite E|by rewrite zlen_cons].
Qed.

Lemma list_for_each_entry_safe_spec (Inv : list ptr -> list ptr -> lists -> Prop) s h l body : dlist s h l -> zlen l + 1 < 2 ^ 64 -> Inv [] l s ->
  (forall l1 x l2 s, dlist s h (l1 ++ x :: l2) -> Inv l1 (x :: l2) s ->
    wp (body x) s (fun _ s' => exists l1', dlist s' h (l1' ++ l2) /\ Inv l1' l2 s')) ->
  wp (list_for_each_entry_safe body h) s (fun _ s' => exists l', dlist s' h l' /\ Inv l' [] s').
Proof.
  intros HD Hlen HI Hb. destruct (first_split l h) as (q & L & E). unfold list_for_each_entry_safe. wsimpl.
  eapply wp_get_next; [by eapply dlist_next|]. by eapply (safe_loop_spec Inv s h [] l q L).
Qed.

(** the loop goes on behind an entry *)
Lemma list_for_each_entry_safe_continue_spec (Inv : list ptr -> list ptr -> lists -> Prop) s h l1 pos l2 body :
  dlist s h (l1 ++ pos :: l2) -> zlen l2 + 1 < 2 ^ 64 -> Inv (l1 ++ [pos]) l2 s ->
  (forall l1 x l2 s, dlist s h (l1 ++ x :: l2) -> Inv l1 (x :: l2) s ->
    wp (body x) s (fun _ s' => exists l1', dlist s' h (l1' ++ l2) /\ Inv l1' l2 s')) ->
  wp (list_for_each_entry_safe_continue body pos h) s (fun _ s' => exists l', dlist s' h l' /\ Inv l' [] s').
Proof.
  intros HD Hlen HI Hb. destruct (first_split l2 h) as (q & L & E). unfold list_for_each_entry_safe_continue. wsimpl.
  eapply wp_get_next; [by eapply dlist_after|]. eapply (safe_loop_spec Inv s h (l1 ++ [pos]) l2 q L); try done. by rewrite <- app_assoc.
Qed.

(** the usual loop that empties a list *)
Lemma list_del_all s h l : dlist s h l -> (NULL ∉ h :: l) -> zlen l + 1 < 2 ^ 64 ->
  wp (list_for_each_entry_safe list_del h) s (fun _ s' => dlist s' h [] /\ changed (h :: l) s s').
Proof.
  intros HD H0 Hlen. eapply wp_mono.
  - apply (list_for_each_entry_safe_spec (fun l1 l2 s' => l1 = [] /\ (exists l0, l = l0 ++ l2) /\ changed (h :: l) s s') s h l); [done..| |].
    + split_and!; [done|by exists []|apply changed_refl].
    + intros l1 x l2 s1 HD1 (-> & [l0 El] & HC). cbn [app] in HD1.
      eapply wp_mono; [apply (list_del_spec s1 h [] x l2 HD1); subst l; set_solver|].
      cbn beta. intros _ s2 (HD2 & HC2 & _). exists []. split_and!; try done.
      * exists (l0 ++ [x]). by rewrite <- app_assoc.
      * eapply changed_trans; [exact HC|]. eapply changed_mono; [exact HC2|]. subst l. set_solver.
  - cbn beta. intros _ s' (l' & HD' & -> & _ & HC). done.
Qed.
