(* ===== verification/HashSpec.v ===== *)
(** * Hash lists refine the buckets of the inode table

    [hlist s h l]: the hash list of the head [h] has the nodes [l].  Every operation of
    list.h on it is a change of [l]; [tables] relates the array of heads to the
    buckets of InodeHash, and the pointer functions of inode.c to the ones there. *)

From stdpp Require Import base gmap list.
From Stdlib Require Import ZArith Lia.
From S2P Require Import Prelude Words FsState InodeHash HList ListSpec.
#[local] Open Scope Z_scope.

(** ** Hash lists *)

(** the pointer stored in a place *)
Definition at_ (s : lists) (pl : place) : option ptr :=
  match pl with First h => firsts s !! h | Next n => hnexts s !! n end.

(** from the place [pl] on, the nodes are [l] *)
Fixpoint hseg (s : lists) (pl : place) (l : list ptr) : Prop :=
  match l with
  | [] => at_ s pl = Some NULL
  | x :: l' => at_ s pl = Some x /\ pprevs s !! x = Some (Some pl) /\ hseg s (Next x) l'
  end.

Lemma hseg_cons s pl x l : hseg s pl (x :: l) <-> at_ s pl = Some x /\ pprevs s !! x = Some (Some pl) /\ hseg s (Next x) l.
Proof. done. Qed.

Definition hlist (s : lists) (h : ptr) (l : list ptr) : Prop := NoDup l /\ (NULL ∉ l) /\ hseg s (First h) l.

Definition hnode (s : lists) (x : ptr) : Prop := is_Some (hnexts s !! x) /\ is_Some (pprevs s !! x).

(** the part of a list before a place *)
Fixpoint hpath (s : lists) (pl : place) (l : list ptr) : Prop :=
  match l with
  | [] => True
  | x :: l' => at_ s pl = Some x /\ pprevs s !! x = Some (Some pl) /\ hpath s (Next x) l'
  end.
Fixpoint end_of (pl : place) (l : list ptr) : place :=
  match l with [] => pl | x :: l' => end_of (Next x) l' end.

Lemma hseg_app s pl l1 l2 : hseg s pl (l1 ++ l2) <-> hpath s pl l1 /\ hseg s (end_of pl l1) l2.
Proof. revert pl. induction l1 as [|x l1 IH]; intros pl; cbn; [tauto|]. rewrite IH. tauto. Qed.
Lemma end_of_in pl l : end_of pl l = pl \/ exists x, x ∈ l /\ end_of pl l = Next x.
Proof.
  revert pl. induction l as [|x l IH]; intros pl; cbn; [by left|]. destruct (IH (Next x)) as [-> |(y & Hy & ->)]; right.
  - exists x. split; [set_solver|done].
  - exists y. split; [set_solver|done].
Qed.

(** the places before the last are kept, the last one may change *)
Lemma hpath_frame s s' pl l : hpath s pl l -> (forall q, q = pl \/ (exists x, x ∈ l /\ q = Next x) -> q <> end_of pl l -> at_ s' q = at_ s q) ->
  (forall x, x ∈ l -> pprevs s' !! x = pprevs s !! x) -> NoDup l -> (forall x, x ∈ l -> pl <> Next x) -> hpath s' pl l.
Proof.
  revert pl. induction l as [|x l IH]; intros pl; cbn [hpath end_of]; [done|]. intros (H1 & H2 & H3) HA HP [Hx HN]%NoDup_cons Hpl.
  split_and!.
  - rewrite HA; [done|by left|]. destruct (end_of_in (Next x) l) as [E|(y & Hy & E)]; rewrite E; apply Hpl; set_solver.
  - rewrite HP; [done|set_solver].
  - apply IH; [done| | |done|].
    + intros q Hq Hne. apply HA; [|done]. right. destruct Hq as [-> |(y & Hy & ->)]; [exists x|exists y]; set_solver.
    + intros y Hy. apply HP. set_solver.
    + intros y Hy [= <-]. done.
Qed.

(** a rest of a list hangs off another place *)
Lemma hseg_move s s' pl pl' l : hseg s pl l -> at_ s' pl' = at_ s pl ->
  (forall x, head l = Some x -> pprevs s' !! x = Some (Some pl')) ->
  (forall x, x ∈ l -> at_ s' (Next x) = at_ s (Next x)) -> (forall x, x ∈ tail l -> pprevs s' !! x = pprevs s !! x) -> hseg s' pl' l.
Proof.
  revert pl pl'. induction l as [|x l IH]; intros pl pl'; cbn [hseg head tail]; [intros H1 ->; done|].
  intros (H1 & H2 & H3) HA HH HN HP. split_and!; [by rewrite HA|by apply HH|].
  apply (IH (Next x)); [done| | | |].
  - cbn. apply HN. set_solver.
  - intros y Hy. assert (y ∈ l) by (destruct l; [done|injection Hy as ->; set_solver]).
    rewrite HP by done. destruct l as [|z l]; [done|]. injection Hy as ->. by destruct H3 as (_ & H3 & _).
  - intros y Hy. apply HN. set_solver.
  - intros y Hy. apply HP. destruct l; [done|]. set_solver.
Qed.

(** only the head [h] and the nodes of [D] may differ *)
Record hchanged (h : ptr) (D : list ptr) (s s' : lists) : Prop := {
  hchanged_first : forall x, x <> h -> firsts s' !! x = firsts s !! x;
  hchanged_next : forall x, (x ∉ D) -> hnexts s' !! x = hnexts s !! x;
  hchanged_pprev : forall x, (x ∉ D) -> pprevs s' !! x = pprevs s !! x;
  hchanged_head : forall x, is_Some (firsts s !! x) -> is_Some (firsts s' !! x);
  hchanged_node : forall x, hnode s x -> hnode s' x;
  hchanged_nexts : nexts s' = nexts s;
  hchanged_prevs : prevs s' = prevs s;
}.

Lemma hchanged_refl h D s : hchanged h D s s.
Proof. by split. Qed.
Lemma hchanged_trans h D s1 s2 s3 : hchanged h D s1 s2 -> hchanged h D s2 s3 -> hchanged h D s1 s3.
Proof.
  intros [A1 A2 A3 A4 A5 A6 A7] [B1 B2 B3 B4 B5 B6 B7]. split; intros; try congruence; [by rewrite B1, A1|by rewrite B2, A2|by rewrite B3, A3|auto..].
Qed.
Lemma hchanged_mono h D D' s s' : hchanged h D s s' -> (forall x, x ∈ D -> x ∈ D') -> hchanged h D' s s'.
Proof. intros [] H. split; auto. Qed.

Lemma hlist_frame h D s s' h' l : hchanged h D s s' -> hlist s h' l -> h' <> h -> (forall x, x ∈ l -> x ∉ D) -> hlist s' h' l.
Proof.
  intros C (H1 & H2 & H3) Hh HD. split_and!; [done..|].
  eapply (hseg_move s s' (First h')); [done| | | |].
  - by apply (hchanged_first _ _ _ _ C).
  - intros x Hx. destruct l as [|y l]; [done|]. injection Hx as ->. rewrite (hchanged_pprev _ _ _ _ C) by set_solver. by destruct H3 as (_ & H3 & _).
  - intros x Hx. apply (hchanged_next _ _ _ _ C). auto.
  - intros x Hx. apply (hchanged_pprev _ _ _ _ C), HD. destruct l; [done|]. set_solver.
Qed.

(** ** Writing the places and the back pointers *)

Definition put_at (pl : place) (v : ptr) (s : lists) : lists :=
  match pl with
  | First h => with_firsts (<[h := v]> (firsts s)) s
  | Next n => with_hnexts (<[n := v]> (hnexts s)) s
  end.
Definition put_pprev (x : ptr) (v : option place) (s : lists) : lists := with_pprevs (<[x := v]> (pprevs s)) s.

Lemma at_put_eq pl v s : at_ (put_at pl v s) pl = Some v.
Proof. destruct pl; cbn; by rewrite lookup_insert_eq. Qed.
Lemma at_put_ne pl q v s : q <> pl -> at_ (put_at pl v s) q = at_ s q.
Proof. intros H. destruct pl, q; cbn; try done; rewrite lookup_insert_ne; congruence. Qed.
Lemma at_pprev x v s q : at_ (put_pprev x v s) q = at_ s q.
Proof. by destruct q. Qed.
Lemma pprevs_at pl v s : pprevs (put_at pl v s) = pprevs s.
Proof. by destruct pl. Qed.
Lemma pprevs_pprev x v s : pprevs (put_pprev x v s) = <[x := v]> (pprevs s).
Proof. done. Qed.

Ltac places :=
  rewrite ?pprevs_pprev, ?pprevs_at, ?pprevs_pprev, ?pprevs_at, ?pprevs_pprev, ?lookup_insert_eq, ?at_pprev, ?at_put_eq, ?at_pprev;
  repeat (first [rewrite lookup_insert_ne by congruence | rewrite at_put_ne by congruence]; rewrite ?lookup_insert_eq, ?at_pprev, ?at_put_eq, ?pprevs_at, ?pprevs_pprev);
  try done.

(** a place that an operation on [h] and [D] may write *)
Definition own_place (h : ptr) (D : list ptr) (s : lists) (pl : place) : Prop :=
  match pl with First x => x = h /\ is_Some (firsts s !! h) | Next n => n ∈ D /\ hnode s n end.

Lemma wp_set_place h D s0 s pl v (Q : unit -> lists -> Prop) : hchanged h D s0 s -> own_place h D s0 pl ->
  (hchanged h D s0 (put_at pl v s) -> Q tt (put_at pl v s)) -> wp (set_place (Some pl) v) s Q.
Proof.
  intros C Hpl HQ. destruct pl as [x|n]; destruct Hpl as [Hpl Hs]; cbn [set_place].
  - subst x. apply wp_set_first; [by apply (hchanged_head _ _ _ _ C)|]. apply HQ. eapply hchanged_trans; [exact C|].
    split; try done; cbn; intros y Hy; [by rewrite lookup_insert_ne|by apply is_Some_upd].
  - apply wp_set_hnext; [by apply (hchanged_node _ _ _ _ C)|]. apply HQ. eapply hchanged_trans; [exact C|].
    split; try done; cbn.
    + intros y Hy. rewrite lookup_insert_ne; [done|]. by intros ->.
    + intros y [H1 H2]. split; [by apply is_Some_upd|done].
Qed.
Lemma wp_put_pprev h D s0 s x v (Q : unit -> lists -> Prop) : hchanged h D s0 s -> x ∈ D -> hnode s0 x ->
  (hchanged h D s0 (put_pprev x v s) -> Q tt (put_pprev x v s)) -> wp (set_pprev x v) s Q.
Proof.
  intros C Hx Hn HQ. apply wp_set_pprev; [by apply (hchanged_node _ _ _ _ C)|]. apply HQ. eapply hchanged_trans; [exact C|].
  split; try done; cbn.
  - intros y Hy. rewrite lookup_insert_ne; [done|]. by intros ->.
  - intros y [H1 H2]. split; [done|by apply is_Some_upd].
Qed.
Lemma wp_put_first h D s0 s v (Q : unit -> lists -> Prop) : hchanged h D s0 s -> is_Some (firsts s0 !! h) ->
  (hchanged h D s0 (put_at (First h) v s) -> Q tt (put_at (First h) v s)) -> wp (set_first h v) s Q.
Proof. intros C H. by apply (wp_set_place h D s0 s (First h)). Qed.
Lemma wp_put_hnext h D s0 s n v (Q : unit -> lists -> Prop) : hchanged h D s0 s -> n ∈ D -> hnode s0 n ->
  (hchanged h D s0 (put_at (Next n) v s) -> Q tt (put_at (Next n) v s)) -> wp (set_hnext n v) s Q.
Proof. intros C H1 H2. by apply (wp_set_place h D s0 s (Next n)). Qed.

Lemma hseg_at s pl l : hseg s pl l -> at_ s pl = Some (hd NULL l).
Proof. destruct l; cbn; [done|]. tauto. Qed.
Lemma hseg_node s pl l x : hseg s pl l -> x ∈ l -> hnode s x.
Proof.
  revert pl. induction l as [|y l IH]; intros pl; cbn [hseg]; [set_solver|]. intros (_ & H2 & H3) [-> |Hx]%elem_of_cons; [|by eapply IH].
  split; [|by eexists]. apply hseg_at in H3. by eexists.
Qed.
Lemma hlist_head s h l : hlist s h l -> is_Some (firsts s !! h).
Proof. intros (_ & _ & H%hseg_at). by eexists. Qed.
(** the test for the end of a list *)
Lemma hd_null (l : list ptr) : (NULL ∉ l) -> negb (hd NULL l =? NULL) = match l with [] => false | _ => true end.
Proof. destruct l as [|x l]; [done|]. intros H. cbn. apply negb_true_iff, Z.eqb_neq. set_solver. Qed.

(** ** Operations *)

Lemma INIT_HLIST_NODE_spec h D s0 s x (Q : unit -> lists -> Prop) : hchanged h D s0 s -> x ∈ D -> hnode s0 x ->
  (hchanged h D s0 (put_pprev x None (put_at (Next x) NULL s)) -> Q tt (put_pprev x None (put_at (Next x) NULL s))) ->
  wp (INIT_HLIST_NODE x) s Q.
Proof.
  intros C Hx Hn HQ. unfold INIT_HLIST_NODE. wsimpl. eapply wp_put_hnext; [exact C|done|done|]. intros C1.
  by eapply wp_put_pprev; [exact C1|done|done|].
Qed.

Lemma hlist_init_spec s h : is_Some (firsts s !! h) ->
  wp (INIT_HLIST_HEAD h) s (fun _ s' => hlist s' h [] /\ hchanged h [] s s').
Proof.
  intros Hh. eapply (wp_put_first h []); [apply hchanged_refl|done|]. intros C. split; [|done].
  split_and!; [apply NoDup_nil_2|set_solver|]. cbn. by rewrite lookup_insert_eq.
Qed.

Lemma hlist_empty_spec s h l : hlist s h l -> wp (hlist_empty h) s (fun r s' => r = bool_decide (l = []) /\ s' = s).
Proof.
  intros (_ & H0 & Hl). apply hseg_at in Hl. unfold hlist_empty. wsimpl. eapply wp_get_first; [done|]. apply wp_ret. split; [|done].
  apply hd_null in H0. destruct l; [done|]. by apply negb_true_iff in H0 as ->.
Qed.

Lemma hlist_add_head_spec s h l n : hlist s h l -> hnode s n -> (n ∉ l) -> n <> NULL ->
  wp (hlist_add_head n h) s (fun _ s' => hlist s' h (n :: l) /\ hchanged h (n :: l) s s').
Proof.
  intros HL Hn Hnl Hn0. assert (Hh := hlist_head s h l HL). destruct HL as (HN & H0 & HS).
  unfold hlist_add_head. wsimpl. eapply wp_get_first; [by apply hseg_at in HS|].
  wsimpl. eapply (wp_put_hnext h (n :: l)); [apply hchanged_refl|set_solver|done|]. intros C1. rewrite hd_null by done.
  assert (HND : NoDup (n :: l)) by (by apply NoDup_cons). assert (HNU : NULL ∉ n :: l) by set_solver.
  destruct l as [|y l].
  - wsimpl. eapply wp_put_first; [exact C1|done|]. intros C2. eapply wp_put_pprev; [exact C2|set_solver|done|]. intros C3.
    split; [|done]. split_and!; try done. cbn [hseg hd]. split_and!; places.
  - assert (Hy : hnode s y) by (eapply hseg_node; [exact HS|set_solver]). apply NoDup_cons in HN as [HN1 HN2].
    wsimpl. eapply wp_put_pprev; [exact C1|set_solver|done|]. intros C2.
    wsimpl. eapply wp_put_first; [exact C2|done|]. intros C3. eapply wp_put_pprev; [exact C3|set_solver|done|]. intros C4.
    split; [|done]. split_and!; try done. assert (n <> y) by set_solver.
    assert (D : forall x, x ∈ l -> x <> n /\ x <> y) by set_solver.
    cbn [hd]. apply hseg_cons. split; [places|]. split; [places|]. apply (hseg_move s _ (First h)); [done| | | |].
    + apply hseg_at in HS as ->. places.
    + intros x [= <-]. places.
    + intros x Hx. assert (x <> n) by set_solver. places.
    + intros x Hx. destruct (D x Hx). places.
Qed.

(** *** The place before a node *)

(** a node [x] between [l1] and [l2], and the place [e] that points to it *)
Record around (s : lists) (h : ptr) (l1 : list ptr) (x : ptr) (l2 : list ptr) (e : place) : Prop := {
  ar_nodup : NoDup (l1 ++ x :: l2);
  ar_null : (NULL ∉ l1 ++ x :: l2);
  ar_end : end_of (First h) l1 = e;
  ar_path : hpath s (First h) l1;
  ar_at : at_ s e = Some x;
  ar_back : pprevs s !! x = Some (Some e);
  ar_rest : hseg s (Next x) l2;
  ar_node : forall y, y ∈ l1 ++ x :: l2 -> hnode s y;
  ar_own : forall D, (forall y, y ∈ l1 -> y ∈ D) -> own_place h D s e;
  ar_not : forall y, (y ∉ l1) -> e <> Next y;
}.

Lemma around_intro s h l1 x l2 : hlist s h (l1 ++ x :: l2) -> exists e, around s h l1 x l2 e.
Proof.
  intros HL. assert (Hh := hlist_head _ _ _ HL). destruct HL as (HN & H0 & HS). exists (end_of (First h) l1).
  assert (HA : forall y, y ∈ l1 ++ x :: l2 -> hnode s y) by (intros y; by eapply hseg_node).
  apply hseg_app in HS as (HP & H1 & H2 & H3). split; try done.
  - intros D HD. destruct (end_of_in (First h) l1) as [-> |(y & Hy & ->)]; [done|]. split; [auto|]. apply HA. set_solver.
  - intros y Hy. destruct (end_of_in (First h) l1) as [-> |(z & Hz & ->)]; [done|]. intros [= ->]. done.
Qed.

(** the list again, with [m] in the place of [x]: all but the place before [x] and the
    pointer back from the rest is kept *)
Lemma around_change s s' h l1 x l2 e m : around s h l1 x l2 e -> NoDup (l1 ++ m ++ l2) -> (NULL ∉ m) ->
  (forall y, y ∈ l1 ++ l2 -> e <> Next y -> at_ s' (Next y) = at_ s (Next y)) ->
  (e <> First h -> at_ s' (First h) = at_ s (First h)) ->
  (forall y, y ∈ l1 ++ tail l2 -> pprevs s' !! y = pprevs s !! y) ->
  hpath s' e m -> at_ s' (end_of e m) = at_ s (Next x) -> (forall y, head l2 = Some y -> pprevs s' !! y = Some (Some (end_of e m))) ->
  hlist s' h (l1 ++ m ++ l2).
Proof.
  intros [A1 A2 A3 A4 A5 A6 A7 A8 A9 A10] HN H0 HA HF HP Hm Hend Hback. split_and!; [done|set_solver|].
  apply NoDup_app in A1 as (N1 & N2 & N3). apply hseg_app. split; [|rewrite A3; apply hseg_app; split; [done|]].
  - apply (hpath_frame s); try done.
    + rewrite A3. intros q [-> |(y & Hy & ->)] Hq; [by apply HF|]. apply HA; [set_solver|done].
    + intros y Hy. apply HP. set_solver.
  - apply (hseg_move s _ (Next x)); try done.
    + intros y Hy. apply HA; [set_solver|]. apply A10. intros Hy1. apply (N2 y Hy1). set_solver.
    + intros y Hy. apply HP. set_solver.
Qed.

Lemma hlist_del_spec s h l1 x l2 : hlist s h (l1 ++ x :: l2) ->
  wp (hlist_del x) s (fun _ s' => hlist s' h (l1 ++ l2) /\ hchanged h (l1 ++ x :: l2) s s' /\
    hnexts s' !! x = Some NULL /\ pprevs s' !! x = Some None).
Proof.
  intros HL. destruct (around_intro s h l1 x l2 HL) as [e A].
  assert (Ox := ar_own _ _ _ _ _ _ A (l1 ++ x :: l2) ltac:(set_solver)). assert (Nx := ar_node _ _ _ _ _ _ A).
  assert (HN := ar_nodup _ _ _ _ _ _ A). assert (HN' := HN). apply NoDup_app in HN' as (N1 & N2 & [N3 N4]%NoDup_cons).
  assert (HNn : NoDup (l1 ++ [] ++ l2)) by (apply NoDup_app; split; [done|split; [set_solver|done]]).
  assert (D : forall y, y ∈ l1 ++ l2 -> y <> x) by set_solver.
  assert (Ex : e <> Next x) by (apply (ar_not _ _ _ _ _ _ A); set_solver).
  assert (H0 : NULL ∉ l2) by (pose proof (ar_null _ _ _ _ _ _ A); set_solver).
  unfold hlist_del. wsimpl. eapply wp_get_hnext; [by apply (hseg_at s (Next x)), (ar_rest _ _ _ _ _ _ A)|].
  wsimpl. eapply wp_get_pprev; [apply (ar_back _ _ _ _ _ _ A)|].
  wsimpl. eapply (wp_set_place h (l1 ++ x :: l2)); [apply hchanged_refl|done|]. intros C1. rewrite hd_null by done.
  destruct l2 as [|y l2].
  - wsimpl. eapply INIT_HLIST_NODE_spec; [exact C1|set_solver|apply Nx; set_solver|]. intros C2.
    split; [|split; [done|split; [apply (at_put_eq (Next x))|cbn; by rewrite lookup_insert_eq]]].
    apply (around_change s _ h l1 x [] e []); try done; cbn [end_of hd app].
    + intros y Hy Hey. specialize (D y Hy). places.
    + intros He. places.
    + intros y Hy. specialize (D y Hy). places.
    + rewrite (hseg_at s (Next x) []) by (apply (ar_rest _ _ _ _ _ _ A)). places.
  - wsimpl. eapply wp_put_pprev; [exact C1|cbn; set_solver|apply Nx; cbn; set_solver|]. intros C2.
    eapply INIT_HLIST_NODE_spec; [exact C2|set_solver|apply Nx; set_solver|]. intros C3.
    split; [|split; [done|split; [apply (at_put_eq (Next x))|cbn; by rewrite lookup_insert_eq]]].
    assert (Dy : forall z, z ∈ l1 ++ l2 -> z <> y). { apply NoDup_cons in N4. set_solver. }
    apply (around_change s _ h l1 x (y :: l2) e []); try done; cbn [end_of hd app].
    + apply not_elem_of_nil.
    + intros z Hz Hey. specialize (D z Hz). places.
    + intros He. places.
    + intros z Hz. assert (z <> x) by (apply D; set_solver). specialize (Dy z Hz). places.
    + rewrite (hseg_at s (Next x) (y :: l2)) by (apply (ar_rest _ _ _ _ _ _ A)). places.
    + intros z [= <-]. assert (y <> x) by (apply D; set_solver). places.
Qed.

Lemma hlist_replace_spec s h l1 x l2 n : hlist s h (l1 ++ x :: l2) -> hnode s n -> (n ∉ l1 ++ x :: l2) -> n <> NULL ->
  wp (hlist_replace x n) s (fun _ s' => hlist s' h (l1 ++ n :: l2) /\ hchanged h (n :: l1 ++ l2) s s').
Proof.
  intros HL Hn Hnl Hn0. destruct (around_intro s h l1 x l2 HL) as [e A].
  assert (Ox := ar_own _ _ _ _ _ _ A (n :: l1 ++ l2) ltac:(set_solver)). assert (Nx := ar_node _ _ _ _ _ _ A).
  assert (HN := ar_nodup _ _ _ _ _ _ A). assert (HN' := HN). apply NoDup_app in HN' as (N1 & N2 & [N3 N4]%NoDup_cons).
  assert (HNn : NoDup (l1 ++ [n] ++ l2)).
  { apply NoDup_app. split; [done|]. split; [set_solver|]. apply NoDup_cons. split; [set_solver|done]. }
  assert (Dn : forall y, y ∈ l1 ++ l2 -> y <> n) by set_solver.
  assert (En : e <> Next n) by (apply (ar_not _ _ _ _ _ _ A); set_solver).
  assert (H0 : NULL ∉ l2) by (pose proof (ar_null _ _ _ _ _ _ A); set_solver).
  assert (H1 : NULL ∉ [n]) by (intros E%list_elem_of_singleton; by rewrite E in Hn0).
  assert (Hx := hseg_at _ _ _ (ar_rest _ _ _ _ _ _ A)).
  unfold hlist_replace. wsimpl. eapply wp_get_hnext; [done|]. wsimpl. eapply wp_get_pprev; [apply (ar_back _ _ _ _ _ _ A)|].
  wsimpl. eapply (wp_put_hnext h (n :: l1 ++ l2)); [apply hchanged_refl|apply elem_of_cons; by left|done|]. intros C1.
  wsimpl. eapply wp_put_pprev; [exact C1|apply elem_of_cons; by left|done|]. intros C2.
  wsimpl. eapply (wp_set_place h (n :: l1 ++ l2)); [exact C2|done|]. intros C3. rewrite hd_null by done.
  destruct l2 as [|y l2].
  - apply wp_ret. split; [|done]. apply (around_change s _ h l1 x [] e [n]); try done; cbn [end_of hd hpath]; rewrite ?Hx; cbn [hd].
    + intros y Hy Hey. specialize (Dn y Hy). places.
    + intros He. places.
    + intros y Hy. specialize (Dn y Hy). places.
    + split; [places|]. split; [places|done].
    + places.
  - eapply wp_put_pprev; [exact C3|set_solver|apply Nx; set_solver|]. intros C4.
    assert (Dy : forall z, z ∈ l1 ++ l2 -> z <> y). { apply NoDup_cons in N4. set_solver. }
    assert (n <> y) by (apply not_eq_sym, Dn; set_solver).
    split; [|done]. apply (around_change s _ h l1 x (y :: l2) e [n]); try done; cbn [end_of hd hpath tail]; rewrite ?Hx; cbn [hd].
    + intros z Hz Hey. specialize (Dn z Hz). places.
    + intros He. places.
    + intros z Hz. assert (z <> n) by (apply Dn; set_solver). specialize (Dy z Hz). places.
    + split; [places|]. split; [places|done].
    + places.
    + intros z [= <-]. places.
Qed.

Lemma NoDup_two (l1 : list ptr) a b l2 : NoDup (l1 ++ a :: l2) -> (b ∉ l1 ++ a :: l2) -> NoDup (l1 ++ [b; a] ++ l2) /\ NoDup (l1 ++ [a; b] ++ l2).
Proof.
  intros (N1 & N2 & [N3 N4]%NoDup_cons)%NoDup_app Hb. split; apply NoDup_app; (split; [done|]); (split; [set_solver|]); cbn [app].
  - apply NoDup_cons. split; [set_solver|]. by apply NoDup_cons.
  - apply NoDup_cons. split; [set_solver|]. apply NoDup_cons. split; [set_solver|done].
Qed.

Lemma hlist_add_before_spec s h l1 x l2 n : hlist s h (l1 ++ x :: l2) -> hnode s n -> (n ∉ l1 ++ x :: l2) -> n <> NULL ->
  wp (hlist_add_before n x) s (fun _ s' => hlist s' h (l1 ++ n :: x :: l2) /\ hchanged h (n :: l1 ++ x :: l2) s s').
Proof.
  intros HL Hn Hnl Hn0. destruct (around_intro s h l1 x l2 HL) as [e A].
  assert (Ox := ar_own _ _ _ _ _ _ A (n :: l1 ++ x :: l2) ltac:(set_solver)). assert (Nx := ar_node _ _ _ _ _ _ A).
  assert (HN := ar_nodup _ _ _ _ _ _ A). destruct (NoDup_two l1 x n l2 HN Hnl) as [HNn _].
  apply NoDup_app in HN as (N1 & N2 & [N3 N4]%NoDup_cons).
  assert (Dn : forall y, y ∈ l1 ++ x :: l2 -> y <> n) by set_solver. assert (Dx : forall y, y ∈ l1 ++ l2 -> y <> x) by set_solver.
  assert (Enx : x <> n) by (apply Dn; set_solver).
  assert (En : e <> Next n) by (apply (ar_not _ _ _ _ _ _ A); set_solver).
  assert (Ex : e <> Next x) by (apply (ar_not _ _ _ _ _ _ A); set_solver).
  assert (H1 : NULL ∉ [n; x]) by (pose proof (ar_null _ _ _ _ _ _ A); set_solver).
  unfold hlist_add_before. wsimpl. eapply wp_get_pprev; [apply (ar_back _ _ _ _ _ _ A)|].
  wsimpl. eapply (wp_put_pprev h (n :: l1 ++ x :: l2)); [apply hchanged_refl|apply elem_of_cons; by left|done|]. intros C1.
  wsimpl. eapply wp_put_hnext; [exact C1|apply elem_of_cons; by left|done|]. intros C2.
  wsimpl. eapply wp_put_pprev; [exact C2|set_solver|apply Nx; set_solver|]. intros C3.
  wsimpl. eapply (wp_get_pprev _ n (Some e)); [places|].
  eapply (wp_set_place h (n :: l1 ++ x :: l2)); [exact C3|done|]. intros C4. split; [|done].
  assert (D : forall y, y ∈ l1 ++ l2 -> y <> x /\ y <> n). { intros y Hy. split; [by apply Dx|apply Dn; set_solver]. }
  apply (around_change s _ h l1 x l2 e [n; x]); try done; cbn [end_of hpath].
  - intros y Hy Hey. destruct (D y Hy). places.
  - intros He. places.
  - intros y Hy. destruct (D y). { destruct l2; [done|set_solver]. } places.
  - split_and!; places.
  - places.
  - intros y Hy. destruct l2 as [|z l2]; [done|]. injection Hy as ->. destruct (D y); [set_solver|].
    destruct (ar_rest _ _ _ _ _ _ A) as (_ & Hy & _). places.
Qed.

Lemma hlist_add_after_spec s h l1 x l2 n : hlist s h (l1 ++ x :: l2) -> hnode s n -> (n ∉ l1 ++ x :: l2) -> n <> NULL ->
  wp (hlist_add_after x n) s (fun _ s' => hlist s' h (l1 ++ x :: n :: l2) /\ hchanged h (n :: l1 ++ x :: l2) s s').
Proof.
  intros HL Hn Hnl Hn0. destruct (around_intro s h l1 x l2 HL) as [e A]. assert (Nx := ar_node _ _ _ _ _ _ A).
  assert (HN := ar_nodup _ _ _ _ _ _ A). destruct (NoDup_two l1 x n l2 HN Hnl) as [_ HNn].
  apply NoDup_app in HN as (N1 & N2 & [N3 N4]%NoDup_cons).
  assert (D : forall y, y ∈ l1 ++ l2 -> y <> x /\ y <> n) by set_solver. assert (Enx : x <> n) by set_solver.
  assert (En : e <> Next n) by (apply (ar_not _ _ _ _ _ _ A); set_solver).
  assert (Ex : e <> Next x) by (apply (ar_not _ _ _ _ _ _ A); set_solver).
  assert (H0 : NULL ∉ l2) by (pose proof (ar_null _ _ _ _ _ _ A); set_solver).
  assert (H1 : NULL ∉ [x; n]) by (pose proof (ar_null _ _ _ _ _ _ A); set_solver).
  assert (Hx := hseg_at _ _ _ (ar_rest _ _ _ _ _ _ A)). assert (Ha := ar_at _ _ _ _ _ _ A). assert (Hb := ar_back _ _ _ _ _ _ A).
  unfold hlist_add_after. wsimpl. eapply wp_get_hnext; [done|].
  wsimpl. eapply (wp_put_hnext h (n :: l1 ++ x :: l2)); [apply hchanged_refl|apply elem_of_cons; by left|done|]. intros C1.
  wsimpl. eapply wp_put_hnext; [exact C1|set_solver|apply Nx; set_solver|]. intros C2.
  wsimpl. eapply wp_put_pprev; [exact C2|apply elem_of_cons; by left|done|]. intros C3.
  wsimpl. eapply (wp_get_hnext _ n (hd NULL l2)).
  { change (at_ (put_pprev n (Some (Next x)) (put_at (Next x) n (put_at (Next n) (hd NULL l2) s))) (Next n) = Some (hd NULL l2)). places. }
  rewrite hd_null by done. destruct l2 as [|y l2].
  - apply wp_ret. split; [|done]. apply (around_change s _ h l1 x [] e [x; n]); try done; cbn [end_of hd hpath]; rewrite ?Hx; cbn [hd].
    + intros y Hy Hey. destruct (D y Hy). places.
    + intros y Hy. destruct (D y Hy). places.
    + split_and!; places.
    + places.
  - eapply wp_put_pprev; [exact C3|set_solver|apply Nx; set_solver|]. intros C4.
    assert (Dy : forall z, z ∈ l1 ++ l2 -> z <> y). { apply NoDup_cons in N4. set_solver. }
    destruct (D y); [set_solver|].
    split; [|done]. apply (around_change s _ h l1 x (y :: l2) e [x; n]); try done; cbn [end_of hd hpath tail]; rewrite ?Hx; cbn [hd].
    + intros z Hz Hey. destruct (D z Hz). places.
    + intros z Hz. destruct (D z); [set_solver|]. specialize (Dy z Hz). places.
    + split_and!; places.
    + places.
    + intros z [= <-]. places.
Qed.

(** ** Loops over a hash list *)

Lemma hlist_for_each_entry_spec {R} (Inv : list ptr -> lists -> Prop) s h l (body : ptr -> M lists (option R)) Q :
  hlist s h l -> zlen l < 2 ^ 64 -> Inv [] s ->
  (forall l1 x l2 s, l = l1 ++ x :: l2 -> hlist s h l -> Inv l1 s ->
    wp (body x) s (fun r s' => match r with Some _ => Q r s' | None => hlist s' h l /\ Inv (l1 ++ [x]) s' end)) ->
  (forall s, hlist s h l -> Inv l s -> Q None s) -> wp (hlist_for_each_entry body h) s Q.
Proof.
  intros HL Hlen HI Hb HQ. unfold hlist_for_each_entry. wsimpl.
  eapply wp_get_first; [destruct HL as (_ & _ & HS); by apply (hseg_at s (First h))|].
  apply (wp_while_var (fun n pos s => exists l1 l2, l = l1 ++ l2 /\ pos = hd NULL l2 /\ n = zlen l2 /\ hlist s h l /\ Inv l1 s) (zlen l)).
  - by exists [], l.
  - pose proof (zlen_nonneg l). lia.
  - clear s HL HI. intros n pos s (l1 & l2 & E & -> & -> & HL & HI) _.
    assert (H0 : NULL ∉ l2) by (destruct HL as (_ & H0 & _); set_solver).
    apply hd_null in H0. destruct l2 as [|x l2]; cbn [hd] in *.
    { apply wp_ret. rewrite app_nil_r in E. subst l1. by apply HQ. }
    apply negb_true_iff in H0 as ->. wsimpl. eapply wp_mono; [by eapply Hb|]. intros [r|] s'; cbn [is_some]; [by intros; apply wp_ret|].
    intros [HL' HI']. wsimpl. eapply wp_get_hnext.
    { destruct HL' as (_ & _ & HS). rewrite E in HS. apply hseg_app in HS as (_ & _ & _ & HS). by apply (hseg_at s' (Next x)). }
    apply wp_ret. exists (zlen l2). split; [|rewrite zlen_cons; pose proof (zlen_nonneg l2); lia].
    exists (l1 ++ [x]), l2. by rewrite <- app_assoc.
Qed.

(** the body may also remove the node it gets *)
Lemma hlist_for_each_entry_safe_spec (Inv : list ptr -> list ptr -> lists -> Prop) s h l body : hlist s h l -> zlen l < 2 ^ 64 -> Inv [] l s ->
  (forall l1 x l2 s, hlist s h (l1 ++ x :: l2) -> Inv l1 (x :: l2) s ->
    wp (body x) s (fun _ s' => exists l1', hlist s' h (l1' ++ l2) /\ Inv l1' l2 s')) ->
  wp (hlist_for_each_entry_safe body h) s (fun _ s' => exists l', hlist s' h l' /\ Inv l' [] s').
Proof.
  intros HL Hlen HI Hb. unfold hlist_for_each_entry_safe. wsimpl.
  eapply wp_get_first; [destruct HL as (_ & _ & HS); by apply (hseg_at s (First h))|].
  apply (wp_while_var (fun n pos s => exists l1 l2, pos = hd NULL l2 /\ n = zlen l2 /\ hlist s h (l1 ++ l2) /\ Inv l1 l2 s) (zlen l)).
  - by exists [], l.
  - pose proof (zlen_nonneg l). lia.
  - clear s HL HI. intros n pos s (l1 & l2 & -> & -> & HL & HI) _.
    assert (H0 : NULL ∉ l2) by (destruct HL as (_ & H0 & _); set_solver).
    apply hd_null in H0. destruct l2 as [|x l2]; cbn [hd] in *.
    { apply wp_ret. rewrite app_nil_r in HL. by exists l1. }
    apply negb_true_iff in H0 as ->. wsimpl. eapply wp_get_hnext.
    { destruct HL as (_ & _ & HS). apply hseg_app in HS as (_ & _ & _ & HS). by apply (hseg_at s (Next x)). }
    wsimpl. eapply wp_mono; [by eapply Hb|]. intros _ s' (l1' & HL' & HI').
    apply wp_ret. exists (zlen l2). split; [by exists l1', l2|rewrite zlen_cons; pose proof (zlen_nonneg l2); lia].
Qed.

(** ** The inode table *)
#[local] Opaque inode_hashfn.

Section table.
Context (inode_hash_table : ptr).

(** the array of heads holds the buckets *)
Record tables (s : lists) (t : list (list ptr)) : Prop := {
  tb_len : length t = Z.to_nat inode_hash_size;
  tb_list : forall k l, t !! k = Some l -> hlist s (table_head inode_hash_table (Z.of_nat k)) l;
  tb_disj : forall k1 k2 l1 l2 x, t !! k1 = Some l1 -> t !! k2 = Some l2 -> x ∈ l1 -> x ∈ l2 -> k1 = k2;
  tb_addr : forall k l x, t !! k = Some l -> x ∈ l -> 0 < x < 2 ^ 64;
}.

Lemma tb_size s t k l : tables s t -> t !! k = Some l -> zlen l < 2 ^ 64.
Proof.
  intros HT Hk. destruct (tb_list _ _ HT _ _ Hk) as (HN & _).
  assert (Hl : (length l <= length (seqZ 1 (2 ^ 64 - 1)))%nat).
  { apply submseteq_length, NoDup_submseteq; [done|]. intros x Hx. apply elem_of_seqZ. pose proof (tb_addr _ _ HT _ _ _ Hk Hx). lia. }
  rewrite length_seqZ in Hl. rewrite zlen_length. lia.
Qed.

(** the store of the lists implements the table of the file system *)
Definition table_of (w : fs) (s : lists) : Prop :=
  exists t, fs_hash w = Some t /\ tables s t.

Lemma table_head_inj i j : table_head inode_hash_table i = table_head inode_hash_table j -> i = j.
Proof. unfold table_head. lia. Qed.

(** one bucket changes *)
Lemma tables_insert s s' t k l l' D : tables s t -> t !! k = Some l ->
  hchanged (table_head inode_hash_table (Z.of_nat k)) D s s' -> hlist s' (table_head inode_hash_table (Z.of_nat k)) l' ->
  (forall j m x, j <> k -> t !! j = Some m -> x ∈ m -> (x ∉ D) /\ (x ∉ l')) -> (forall x, x ∈ l' -> 0 < x < 2 ^ 64) ->
  tables s' (<[k := l']> t).
Proof.
  intros [T1 T2 T3 T4] Hk C HL HD Haddr. assert (Hlt : (k < length t)%nat) by (by apply lookup_lt_Some in Hk).
  split.
  - by rewrite length_insert.
  - intros j m. destruct (decide (j = k)) as [-> |Hjk].
    + rewrite list_lookup_insert_eq by done. by intros [= <-].
    + rewrite list_lookup_insert_ne by done. intros Hj. eapply hlist_frame; [exact C|by apply T2| |].
      * intros E%table_head_inj. lia.
      * intros x Hx. by destruct (HD j m x Hjk Hj Hx).
  - intros k1 k2 l1 l2 x. destruct (decide (k1 = k)) as [-> |H1], (decide (k2 = k)) as [-> |H2]; try done.
    + rewrite list_lookup_insert_eq, list_lookup_insert_ne by done. intros [= <-] E2 X1 X2. by destruct (HD k2 l2 x H2 E2 X2).
    + rewrite list_lookup_insert_eq, list_lookup_insert_ne by done. intros E1 [= <-] X1 X2. by destruct (HD k1 l1 x H1 E1 X1).
    + rewrite !list_lookup_insert_ne by done. apply T3.
  - intros j m x. destruct (decide (j = k)) as [-> |Hjk].
    + rewrite list_lookup_insert_eq by done. intros [= <-]. apply Haddr.
    + rewrite list_lookup_insert_ne by done. apply T4.
Qed.

Lemma table_init_spec s : (forall i, 0 <= i < inode_hash_size -> is_Some (firsts s !! table_head inode_hash_table i)) ->
  wp (table_init inode_hash_table) s (fun _ s' => tables s' (replicate (Z.to_nat inode_hash_size) []) /\ forall x, hnode s x -> hnode s' x).
Proof.
  intros Hh. assert (Hsz : 0 <= inode_hash_size) by done. unfold table_init.
  apply (wp_for (fun i s' => (forall j, 0 <= j < i -> hlist s' (table_head inode_hash_table j) []) /\
    (forall j, 0 <= j < inode_hash_size -> is_Some (firsts s' !! table_head inode_hash_table j)) /\
    forall x, hnode s x -> hnode s' x)).
  - split; [lia|done].
  - intros i s1 Hi (H1 & H2 & H3). eapply wp_mono; [apply hlist_init_spec, H2; lia|]. cbn beta. intros _ s2 [HL C]. split_and!.
    + intros j Hj. destruct (decide (j = i)) as [-> |Hji]; [done|].
      eapply hlist_frame; [exact C|apply H1; lia| |set_solver]. intros E%table_head_inj. done.
    + intros j Hj. by apply (hchanged_head _ _ _ _ C), H2.
    + intros x Hx. by apply (hchanged_node _ _ _ _ C), H3.
  - intros s' (H1 & _ & H3). rewrite Z2Nat.id in H1 by done. split; [|done]. split.
    + by rewrite length_replicate.
    + intros k l [-> Hk]%lookup_replicate. apply H1. lia.
    + intros k1 k2 l1 l2 x [-> _]%lookup_replicate _ Hx. set_solver.
    + intros k l x [-> _]%lookup_replicate Hx. set_solver.
Qed.

Lemma table_destroy_spec s t : tables s t ->
  forallb (fun l : list ptr => match l with [] => true | _ => false end) t = true ->
  wp (table_destroy inode_hash_table) s (fun _ s' => s' = s).
Proof.
  intros HT Hall. unfold table_destroy. apply (wp_for (fun _ s' => s' = s)); [done| |done].
  intros i s1 Hi ->. destruct (lookup_lt_is_Some_2 t (Z.to_nat i)) as [l Hl]. { rewrite (tb_len _ _ HT). lia. }
  assert (Hb := tb_list _ _ HT _ _ Hl). rewrite Z2Nat.id in Hb by lia.
  wsimpl. eapply wp_mono; [by apply hlist_empty_spec|]. cbn beta. intros ? ? [-> ->]. apply wp_assert; [|done].
  apply bool_decide_eq_true. assert (Hin : In l t) by (apply list_elem_of_In, list_elem_of_lookup; by eexists).
  apply (proj1 (forallb_forall _ _) Hall) in Hin. by destruct l.
Qed.

Lemma table_find_spec w s nr r w' : table_of w s -> inode_hash_find nr w = Val (r, w') ->
  w' = w /\ wp (table_find inode_hash_table (fs_heap w) nr) s (fun r' s' => r' = r /\ s' = s).
Proof.
  intros (t & Ht & HT). unfold inode_hash_find, mbind, M_bind, get. rewrite Ht. unfold deref at 1, mret, M_ret.
  destruct (t !! Z.to_nat (inode_hashfn nr)) as [l|] eqn:El; [|done]. unfold deref, mret, M_ret. intros Hs.
  assert (Hw : w' = w).
  { revert Hs. clear. induction l as [|p l IH]; cbn [hash_scan]; [by intros [= _ ->]|].
    unfold get_inode, mbind, M_bind, get, deref. destruct (fs_heap w !! p) as [i|]; [|done]. unfold mret, M_ret.
    destruct (i_nr i =? nr); [by intros [= _ ->]|done]. }
  split; [done|]. subst w'. pose proof (inode_hashfn_bound nr) as Hb. assert (HL := tb_list _ _ HT _ _ El). rewrite Z2Nat.id in HL by lia.
  eapply (hlist_for_each_entry_spec (fun l1 s' => s' = s /\ forall l2, l = l1 ++ l2 -> hash_scan l2 nr w = Val (r, w))).
  - exact HL.
  - by eapply tb_size.
  - split; [done|]. cbn [app]. by intros l2 <-.
  - intros l1 x l2 s1 E HL1 [-> HI]. specialize (HI _ E). cbn [hash_scan] in HI.
    unfold get_inode, mbind, M_bind, get, deref in HI. destruct (fs_heap w !! x) as [i|]; [|done]. unfold mret, M_ret in HI.
    wsimpl. eapply wp_deref; [done|]. apply wp_ret. destruct (i_nr i =? nr); [by injection HI as <-|].
    split; [done|]. split; [done|]. intros l3 E3. rewrite E, <- app_assoc in E3. apply app_inv_head in E3. cbn in E3. by injection E3 as <-.
  - intros s1 _ [-> HI]. specialize (HI [] (eq_sym (app_nil_r l))). cbn in HI. by injection HI as <-.
Qed.

Lemma hash_insert_spec w s p w' : table_of w s -> hnode s p -> 0 < p < 2 ^ 64 ->
  (forall t l, fs_hash w = Some t -> l ∈ t -> p ∉ l) -> inode_hash_insert p w = Val (tt, w') ->
  wp (table_insert inode_hash_table (fs_heap w) p) s (fun _ s' => table_of w' s' /\ forall x, hnode s x -> hnode s' x).
Proof.
  intros (t & Ht & HT) Hn Hp Hfresh. unfold inode_hash_insert, get_inode, mbind, M_bind, get, deref.
  destruct (fs_heap w !! p) as [i|] eqn:Ei; [|done]. unfold mret, M_ret. rewrite Ht.
  destruct (t !! Z.to_nat (inode_hashfn (i_nr i))) as [l|] eqn:El; [|done]. unfold modify. intros Hw. apply val_inv in Hw as [_ <-].
  pose proof (inode_hashfn_bound (i_nr i)) as Hb. assert (HL := tb_list _ _ HT _ _ El). rewrite Z2Nat.id in HL by lia.
  set (h := table_head inode_hash_table (inode_hashfn (i_nr i))) in *.
  assert (Hpl : forall k m, t !! k = Some m -> p ∉ m). { intros k m Hk. apply (Hfresh t m Ht). by eapply list_elem_of_lookup_2. }
  unfold table_insert. wsimpl. eapply (INIT_HLIST_NODE_spec h [p]); [apply hchanged_refl|set_solver|done|]. intros C1.
  set (s1 := put_pprev p None (put_at (Next p) NULL s)) in *.
  assert (HL1 : hlist s1 h l).
  { destruct HL as (L1 & L2 & L3). split_and!; [done..|]. apply (hseg_move s s1 (First h)); [done| | | |]; unfold s1.
    - places.
    - intros x Hx. destruct l as [|y l]; [done|]. injection Hx as ->. assert (p <> x) by (intros ->; apply (Hpl _ _ El), elem_of_cons; by left).
      destruct L3 as (_ & L3 & _). places.
    - intros x Hx. assert (x <> p) by (intros ->; by apply (Hpl _ _ El)). places.
    - intros x Hx. assert (x <> p) by (intros ->; apply (Hpl _ _ El); destruct l; [done|set_solver]). places. }
  wsimpl. eapply wp_deref; [exact Ei|]. eapply wp_mono.
  { apply (hlist_add_head_spec s1 h l p HL1); [by apply (hchanged_node _ _ _ _ C1)|by apply (Hpl _ _ El)|]. unfold NULL. lia. }
  cbn beta. intros _ s2 [HL2 C2].
  assert (C : hchanged h (p :: l) s s2). { eapply hchanged_trans; [|exact C2]. eapply hchanged_mono; [exact C1|set_solver]. }
  split; [|apply (hchanged_node _ _ _ _ C)]. exists (<[Z.to_nat (inode_hashfn (i_nr i)) := p :: l]> t). split; [done|].
  eapply (tables_insert s s2); [done|exact El|by rewrite Z2Nat.id by lia|by rewrite Z2Nat.id by lia| |].
  - intros j m x Hj Hm Hx. assert (x ∉ p :: l); [|done]. intros [-> |Hxl]%elem_of_cons; [by apply (Hpl _ _ Hm)|].
    apply Hj. by eapply (tb_disj _ _ HT).
  - intros x [-> |Hx]%elem_of_cons; [done|]. by eapply (tb_addr _ _ HT).
Qed.

Lemma table_remove_spec w s p w' : table_of w s -> inode_hash_remove p w = Val (tt, w') ->
  wp (table_remove p) s (fun _ s' => table_of w' s' /\ (forall x, hnode s x -> hnode s' x) /\ hnexts s' !! p = Some NULL /\ pprevs s' !! p = Some None).
Proof.
  intros (t & Ht & HT). unfold inode_hash_remove, mbind, M_bind, get, deref, mret, M_ret. rewrite Ht.
  destruct (existsb (existsb (Z.eqb p)) t) eqn:Ex; [|done]. unfold modify. intros Hw. apply val_inv in Hw as [_ <-].
  apply existsb_exists in Ex as (l & Hin & Hpl). apply existsb_exists in Hpl as (p' & Hpl & Ep). apply Z.eqb_eq in Ep. subst p'.
  apply list_elem_of_In in Hin, Hpl. apply list_elem_of_lookup in Hin as [k Hk]. assert (HL := tb_list _ _ HT _ _ Hk).
  apply list_elem_of_split in Hpl as (l1 & l2 & ->). eapply wp_mono; [apply (hlist_del_spec s _ l1 p l2 HL)|].
  cbn beta. intros _ s' (HL' & C & H1 & H2). split; [|split; [apply (hchanged_node _ _ _ _ C)|done]]. exists (map (filter (fun q => q <> p)) t). split; [done|].
  assert (HN : p ∉ l1 ++ l2). { destruct HL as [HN _]. rewrite <- Permutation_middle in HN. by apply NoDup_cons in HN as [HN _]. }
  assert (Et : map (filter (fun q => q <> p)) t = <[k := l1 ++ l2]> t).
  { apply list_eq. intros j. destruct (decide (j = k)) as [-> |Hj].
    - rewrite list_lookup_fmap, Hk, list_lookup_insert_eq by (by apply lookup_lt_Some in Hk). cbn. f_equal.
      rewrite filter_app, filter_cons_False by (intros H; by apply H). rewrite <- filter_app. by apply filter_other.
    - rewrite list_lookup_fmap, list_lookup_insert_ne by done. destruct (t !! j) as [m|] eqn:Em; [|done]. cbn. f_equal. apply filter_other.
      intros Hm. apply Hj. eapply (tb_disj _ _ HT); [exact Em|exact Hk|exact Hm|]. rewrite elem_of_app, elem_of_cons. tauto. }
  rewrite Et. eapply (tables_insert s s'); [done|exact Hk|exact C|exact HL'| |].
  - intros j m x Hj Hm Hx. assert (Hxl : x ∉ l1 ++ p :: l2) by (intros Hxl; apply Hj; by eapply (tb_disj _ _ HT)).
    split; [done|]. rewrite elem_of_app, elem_of_cons in Hxl. rewrite elem_of_app. tauto.
  - intros x Hx. eapply (tb_addr _ _ HT); [exact Hk|]. rewrite elem_of_app, elem_of_cons. apply elem_of_app in Hx. tauto.
Qed.
End table.
