(* ===== verification/ListProps.v ===== *)
(** * Properties of the linked lists of fs/list.h *)

From stdpp Require Import base gmap list.
From Stdlib Require Import ZArith Lia.
From S2P Require Import Prelude Words Bitmap Block FsState InodeHash HList ListSpec HashSpec.
#[local] Open Scope Z_scope.

(** ** Circular lists as sequences *)

Inductive list_call : Type :=
  | Add (new : ptr)
  | AddTail (new : ptr)
  | Del (entry : ptr)
  | Replace (old new : ptr).

(** the calls on the pointers *)
Definition call_list (h : ptr) (c : list_call) : M lists unit :=
  match c with
  | Add new => list_add new h
  | AddTail new => list_add_tail new h
  | Del entry => list_del entry
  | Replace old new => list_replace old new
  end.

(** the same calls on the sequence of the entries; [None] is a call the contract of
    list.h does not allow: adding a node that is in the list, or removing one that is
    not *)
Definition spec_list (h : ptr) (c : list_call) (l : list ptr) : option (list ptr) :=
  match c with
  | Add new => if bool_decide (new ∈ h :: l) then None else Some (new :: l)
  | AddTail new => if bool_decide (new ∈ h :: l) then None else Some (l ++ [new])
  | Del entry => if bool_decide (entry ∈ l) then Some (filter (fun x => x <> entry) l) else None
  | Replace old new =>
      if bool_decide (old ∈ l) then
        if bool_decide (new ∈ h :: l) then None else Some (map (fun x => if decide (x = old) then new else x) l)
      else None
  end.

Fixpoint call_lists (h : ptr) (cs : list list_call) : M lists unit :=
  match cs with [] => mret tt | c :: cs' => call_list h c;; call_lists h cs' end.
Fixpoint spec_lists (h : ptr) (cs : list list_call) (l : list ptr) : option (list ptr) :=
  match cs with [] => Some l | c :: cs' => l' ← spec_list h c l; spec_lists h cs' l' end.

(** the nodes of a store: what calls may use *)
Definition call_node (c : list_call) : ptr := match c with Add n | AddTail n | Del n | Replace _ n => n end.

Lemma filter_mid (l1 : list ptr) x l2 : NoDup (l1 ++ x :: l2) -> filter (fun y => y <> x) (l1 ++ x :: l2) = l1 ++ l2.
Proof.
  intros HN. rewrite <- Permutation_middle in HN. apply NoDup_cons in HN as [Hx _].
  rewrite filter_app, filter_cons_False by (intros H; by apply H). rewrite !filter_other by set_solver. done.
Qed.
Lemma map_mid (l1 : list ptr) x n l2 : NoDup (l1 ++ x :: l2) -> map (fun y => if decide (y = x) then n else y) (l1 ++ x :: l2) = l1 ++ n :: l2.
Proof.
  intros HN. rewrite <- Permutation_middle in HN. apply NoDup_cons in HN as [Hx _].
  assert (Hkeep : forall m : list ptr, (x ∉ m) -> map (fun y => if decide (y = x) then n else y) m = m).
  { intros m. induction m as [|y m IH]; [done|]. intros Hm. cbn. rewrite decide_False by set_solver. by rewrite IH by set_solver. }
  rewrite map_app. cbn. rewrite decide_True by done. rewrite !Hkeep by set_solver. done.
Qed.

Lemma call_list_spec s h c l l' : dlist s h l -> (NULL ∉ h :: l) -> node s (call_node c) -> call_node c <> NULL ->
  spec_list h c l = Some l' -> wp (call_list h c) s (fun _ s' => dlist s' h l' /\ (NULL ∉ h :: l') /\ forall x, node s x -> node s' x).
Proof.
  intros HD H0 Hn Hn0 Hs. destruct c as [n|n|x|x n]; cbn [call_list spec_list call_node] in *.
  - case_bool_decide as Hin; [done|]. injection Hs as <-. eapply wp_mono; [by apply list_add_spec|]. cbn beta.
    intros _ s' [HD' C]. split; [done|]. split; [set_solver|apply (changed_node _ _ _ C)].
  - case_bool_decide as Hin; [done|]. injection Hs as <-. eapply wp_mono; [by apply list_add_tail_spec|]. cbn beta.
    intros _ s' [HD' C]. split; [done|]. split; [set_solver|apply (changed_node _ _ _ C)].
  - case_bool_decide as Hin; [|done]. injection Hs as <-. assert (HN := proj1 HD). apply NoDup_cons in HN as [_ HN].
    apply list_elem_of_split in Hin as (l1 & l2 & ->). rewrite filter_mid by done.
    eapply wp_mono; [by apply list_del_spec|]. cbn beta. intros _ s' (HD' & C & _). split; [done|]. split; [set_solver|apply (changed_node _ _ _ C)].
  - case_bool_decide as Hin; [|done]. case_bool_decide as Hnew; [done|]. injection Hs as <-. assert (HN := proj1 HD). apply NoDup_cons in HN as [_ HN].
    apply list_elem_of_split in Hin as (l1 & l2 & ->). rewrite map_mid by done.
    eapply wp_mono; [by apply list_replace_spec|]. cbn beta. intros _ s' (HD' & C). split; [done|]. split; [set_solver|apply (changed_node _ _ _ C)].
Qed.

(** C16: every sequence of allowed calls of [list_add], [list_add_tail], [list_del] and
    [list_replace] on a circular list returns, and the pointers again form the list of
    exactly the entries the sequence of the entries has after the same calls. *)
Theorem list_calls_refine s h cs l l' : dlist s h l -> (NULL ∉ h :: l) -> Forall (fun c => node s (call_node c) /\ call_node c <> NULL) cs ->
  spec_lists h cs l = Some l' -> wp (call_lists h cs) s (fun _ s' => dlist s' h l').
Proof.
  revert s l. induction cs as [|c cs IH]; intros s l HD H0 HF Hs; cbn [call_lists spec_lists] in *.
  { injection Hs as <-. by apply wp_ret. }
  apply Forall_cons in HF as [[Hn Hn0] HF]. destruct (spec_list h c l) as [l1|] eqn:E; [|done]. cbn in Hs.
  wsimpl. eapply wp_mono; [by apply (call_list_spec s h c l l1)|]. cbn beta. intros _ s' (HD' & H0' & HK).
  apply (IH s' l1); try done. eapply Forall_impl; [exact HF|]. cbn beta. intros c' [? ?]. auto.
Qed.

(** a store of four nodes, all linked to themselves *)
Definition four_nodes : gmap ptr ptr := {[10 := 10; 20 := 20; 30 := 30; 40 := 40]}.
Definition four : lists := mk_lists four_nodes four_nodes ∅ ∅ ∅.

Lemma four_empty : dlist four 10 [].
Proof. split; [apply NoDup_singleton|]. by cbn. Qed.
Lemma four_node p : p = 10 \/ p = 20 \/ p = 30 \/ p = 40 -> node four p /\ p <> NULL.
Proof. intros [-> |[-> |[-> | ->]]]; (split; [split; eexists; reflexivity|done]). Qed.

Lemma list_calls_refine_witness :
  wp (call_lists 10 [AddTail 20; Add 30; Replace 20 40; Del 30; Add 20]) four (fun _ s' => dlist s' 10 [20; 40]).
Proof.
  apply (list_calls_refine four 10 [AddTail 20; Add 30; Replace 20 40; Del 30; Add 20] [] [20; 40] four_empty).
  - intros [H|H]%elem_of_cons; [discriminate|]. by apply elem_of_nil in H.
  - repeat (apply Forall_cons; split; [apply four_node; cbn; lia|]). apply Forall_nil_2.
  - reflexivity.
Defined.

(** C17: cutting a list after one of its entries moves the entries up to that one to
    the new list, in order, and leaves the rest in the old one; cutting at the head
    moves nothing; no other node is touched.  Splicing the part that was cut off in at
    the front again gives back the same entries in the same order. *)
Theorem cut_splice s g h l1 e l2 : dlist s h (l1 ++ e :: l2) -> node s g -> (g ∉ h :: l1 ++ e :: l2) ->
  wp (list_cut_position g h e) s (fun _ s1 =>
    dlist s1 g (l1 ++ [e]) /\ dlist s1 h l2 /\ changed (g :: h :: l1 ++ e :: l2) s s1 /\
    wp (list_splice g h) s1 (fun _ s2 => dlist s2 h (l1 ++ e :: l2))) /\
  wp (list_cut_position g h h) s (fun _ s1 => dlist s1 g [] /\ dlist s1 h (l1 ++ e :: l2) /\ changed [g] s s1).
Proof.
  intros HD Hg Hn. split; [|apply list_cut_nothing; try done; by destruct l1].
  eapply wp_mono; [by apply list_cut_position_spec|]. cbn beta. intros _ s1 (H1 & H2 & H3). split_and!; try done.
  assert (HN := proj1 HD). apply NoDup_cons in HN as [Hh HN]. apply NoDup_app in HN as (N1 & N2 & [N3 N4]%NoDup_cons).
  eapply wp_mono; [apply (list_splice_spec s1 g (l1 ++ [e]) h l2 H1 H2); set_solver|]. cbn beta.
  intros _ s2 [H4 _]. by rewrite <- app_assoc in H4.
Qed.

(** the list of 10 with the entries 20 and 30 *)
Definition ring_nodes : gmap ptr ptr := {[10 := 20; 20 := 30; 30 := 10; 40 := 40]}.
Definition ring_back : gmap ptr ptr := {[20 := 10; 30 := 20; 10 := 30; 40 := 40]}.
Definition ring_store : lists := mk_lists ring_nodes ring_back ∅ ∅ ∅.
Lemma ring_list : dlist ring_store 10 [20; 30].
Proof. split; [by apply (bool_decide_unpack _)|]. by cbn. Qed.

Lemma cut_splice_witness : wp (list_cut_position 40 10 20) ring_store (fun _ s1 =>
  dlist s1 40 [20] /\ dlist s1 10 [30] /\ wp (list_splice 40 10) s1 (fun _ s2 => dlist s2 10 [20; 30])).
Proof.
  eapply wp_mono; [refine (proj1 (cut_splice ring_store 40 10 [] 20 [30] ring_list _ _))|].
  - split; eexists; reflexivity.
  - apply (bool_decide_unpack _). reflexivity.
  - intros _ s1 (H1 & H2 & _ & H3). split; [exact H1|]. split; [exact H2|exact H3].
Defined.

(** The loop that removes every entry it visits ends, also for the longest list,
    empties the list, and changes no other node. *)
Theorem delete_loop_ends s h l : dlist s h l -> (NULL ∉ h :: l) -> zlen l + 1 < 2 ^ 64 ->
  wp (list_for_each_entry_safe list_del h) s (fun _ s' => dlist s' h [] /\ changed (h :: l) s s').
Proof. apply list_del_all. Qed.

Lemma delete_loop_ends_witness : wp (list_for_each_entry_safe list_del 10) ring_store (fun _ s' => dlist s' 10 []).
Proof.
  eapply wp_mono; [apply (delete_loop_ends ring_store 10 [20; 30] ring_list)|].
  - apply (bool_decide_unpack _). reflexivity.
  - rewrite zlen_length. reflexivity.
  - intros _ s' [H _]. exact H.
Defined.

(** ** The hash table of the inodes *)

Inductive cache_call : Type :=
  | Find (inode_nr : Z)
  | Insert (p : ptr)
  | Remove (p : ptr).

(** the calls on the buckets of InodeHash and on the pointers *)
Definition bucket_call (c : cache_call) : M fs (option ptr) :=
  match c with
  | Find nr => inode_hash_find nr
  | Insert p => inode_hash_insert p;; mret None
  | Remove p => inode_hash_remove p;; mret None
  end.
Definition pointer_call (tbl : ptr) (heap : gmap ptr inode) (c : cache_call) : M lists (option ptr) :=
  match c with
  | Find nr => table_find tbl heap nr
  | Insert p => table_insert tbl heap p;; mret None
  | Remove p => table_remove p;; mret None
  end.

(** an inode is not inserted twice; [inode_hash_insert] does not look *)
Definition linked (w : fs) (p : ptr) : bool := match fs_hash w with Some t => existsb (existsb (Z.eqb p)) t | None => false end.
Definition in_order (w : fs) (c : cache_call) : bool := match c with Insert p => negb (linked w p) | _ => true end.

Fixpoint bucket_calls (cs : list cache_call) : M fs (list (option ptr)) :=
  match cs with
  | [] => mret []
  | c :: cs' => w ← get; assert_ (in_order w c);; r ← bucket_call c; rs ← bucket_calls cs'; mret (r :: rs)
  end.
Fixpoint pointer_calls (tbl : ptr) (heap : gmap ptr inode) (cs : list cache_call) : M lists (list (option ptr)) :=
  match cs with
  | [] => mret []
  | c :: cs' => r ← pointer_call tbl heap c; rs ← pointer_calls tbl heap cs'; mret (r :: rs)
  end.

(** the nodes of the inodes the calls insert exist *)
Definition cache_node (s : lists) (c : cache_call) : Prop := match c with Insert p => hnode s p /\ 0 < p < 2 ^ 64 | _ => True end.

Lemma linked_fresh w p t l : linked w p = false -> fs_hash w = Some t -> l ∈ t -> p ∉ l.
Proof.
  unfold linked. intros H Ht Hl Hp. rewrite Ht in H. assert (existsb (existsb (Z.eqb p)) t = true); [|congruence].
  apply existsb_exists. exists l. split; [by apply list_elem_of_In|]. apply existsb_exists. exists p. split; [by apply list_elem_of_In|apply Z.eqb_refl].
Qed.

Lemma insert_heap w p u w' : inode_hash_insert p w = Val (u, w') -> fs_heap w' = fs_heap w.
Proof.
  unfold inode_hash_insert. intros (i & s1 & H1 & H)%val_bind. unfold get_inode in H1. apply val_bind in H1 as (? & ? & H2 & H1).
  apply val_inv in H2 as [<- <-]. destruct (fs_heap w !! p); [|done]. apply val_inv in H1 as [<- <-].
  apply val_bind in H as (? & ? & H2 & H). apply val_inv in H2 as [<- <-].
  destruct (fs_hash w) as [t|]; [|done]. apply val_bind in H as (? & ? & H2 & H). apply val_inv in H2 as [<- <-].
  apply val_bind in H as (l & ? & H2 & H). destruct (t !! _); [|done]. apply val_inv in H2 as [<- <-]. by apply val_inv in H as [_ <-].
Qed.
Lemma remove_heap w p u w' : inode_hash_remove p w = Val (u, w') -> fs_heap w' = fs_heap w.
Proof.
  unfold inode_hash_remove. intros (? & ? & H2 & H)%val_bind. apply val_inv in H2 as [<- <-].
  destruct (fs_hash w) as [t|]; [|done]. apply val_bind in H as (? & ? & H2 & H). apply val_inv in H2 as [<- <-].
  destruct (existsb _ _); [|done]. by apply val_inv in H as [_ <-].
Qed.

Lemma pointer_call_spec tbl w s c r w' : table_of tbl w s -> cache_node s c -> in_order w c = true -> bucket_call c w = Val (r, w') ->
  fs_heap w' = fs_heap w /\
  wp (pointer_call tbl (fs_heap w) c) s (fun r' s' => r' = r /\ table_of tbl w' s' /\ forall x, hnode s x -> hnode s' x).
Proof.
  intros HT Hc Ho H. destruct c as [nr|p|p]; cbn [bucket_call pointer_call cache_node in_order] in *.
  - destruct (table_find_spec tbl w s nr r w' HT H) as [-> Hf]. split; [done|]. eapply wp_mono; [exact Hf|]. cbn beta. by intros ? ? [-> ->].
  - apply val_bind in H as ([] & w1 & H & H1). apply val_inv in H1 as [<- <-]. split; [by eapply insert_heap|]. destruct Hc as [Hn Hp].
    wsimpl. eapply wp_mono; [eapply (hash_insert_spec tbl w s p); [done..| |exact H]|].
    + intros t l. apply linked_fresh. by apply negb_true_iff.
    + cbn beta. intros _ s' [H1 H2]. by apply wp_ret.
  - apply val_bind in H as ([] & w1 & H & H1). apply val_inv in H1 as [<- <-]. split; [by eapply remove_heap|].
    wsimpl. eapply wp_mono; [by eapply (table_remove_spec tbl w s p)|]. cbn beta. intros _ s' (H1 & H2 & _). by apply wp_ret.
Qed.

Lemma pointer_calls_spec tbl w s cs rs w' : table_of tbl w s -> Forall (cache_node s) cs -> bucket_calls cs w = Val (rs, w') ->
  wp (pointer_calls tbl (fs_heap w) cs) s (fun rs' s' => rs' = rs /\ table_of tbl w' s').
Proof.
  revert w s rs. induction cs as [|c cs IH]; intros w s rs HT HF H; cbn [bucket_calls pointer_calls] in *.
  { apply val_inv in H as [<- <-]. by apply wp_ret. }
  apply Forall_cons in HF as [Hc HF]. apply val_bind in H as (w0 & ? & H0 & H). apply val_inv in H0 as [<- <-].
  apply val_bind in H as (u & ? & H0 & H). destruct (in_order w c) eqn:Ho; [|done]. apply val_inv in H0 as [_ <-].
  apply val_bind in H as (r & w1 & H1 & H). apply val_bind in H as (rs' & w2 & H2 & H). apply val_inv in H as [<- <-].
  destruct (pointer_call_spec tbl w s c r w1 HT Hc Ho H1) as [Hw Hp]. wsimpl. eapply wp_mono; [exact Hp|]. cbn beta. intros ? s1 (-> & HT1 & HK).
  wsimpl. rewrite <- Hw. eapply wp_mono; [eapply (IH w1 s1); [done| |done]|].
  - eapply Forall_impl; [exact HF|]. intros [nr|p|p]; cbn; try done. intros [? ?]. auto.
  - cbn beta. intros ? s2 [-> HT2]. by apply wp_ret.
Qed.

(** C15: started by [inode_hash_init], every sequence of searches, insertions and
    removals on the pointers of the hash table answers what it answers on the lists
    of addresses of InodeHash, on which the file system is proved, and the pointers
    still form those lists at the end. *)
Theorem hash_table_refines tbl w0 w s cs rs w' : inode_hash_init w0 = Val (tt, w) ->
  (forall i, 0 <= i < inode_hash_size -> is_Some (firsts s !! table_head tbl i)) -> Forall (cache_node s) cs ->
  bucket_calls cs w = Val (rs, w') ->
  wp (table_init tbl;; pointer_calls tbl (fs_heap w) cs) s (fun rs' s' => rs' = rs /\ table_of tbl w' s').
Proof.
  intros Hi Hh HF Hc. unfold inode_hash_init in Hi. apply val_bind in Hi as (b & w1 & _ & Hi). destruct b; [|done].
  apply val_inv in Hi as [_ <-]. wsimpl. eapply wp_mono; [by apply table_init_spec|]. cbn beta. intros _ s1 [HT HK].
  apply pointer_calls_spec; [|eapply Forall_impl; [exact HF|]|done].
  - eexists. split; [reflexivity|done].
  - intros [nr|p|p]; cbn; try done. intros [? ?]. auto.
Qed.

(** two inodes whose numbers fall in the same bucket, and the array of heads at 4096 *)
Definition two_inodes : fs :=
  mk_fs (mk_device ∅ 0 0 0) (mk_dsuper 0 0 0 0 0 0 0) None None None
    {[100 := mk_inode (mk_dinode I_FILE [] 0 0 0 0) 0 1 1; 200 := mk_inode (mk_dinode I_FILE [] 0 0 0 0) 0 234 1]} 300 [] 0 0 [].
Definition heads : gmap ptr ptr := list_to_map (map (fun k => (table_head 4096 k, 0)) (seqZ 0 256)).
Definition two_nodes : lists := mk_lists ∅ ∅ heads {[100 := 0; 200 := 0]} {[100 := None; 200 := None]}.

Lemma hash_table_refines_witness :
  wp (table_init 4096;; pointer_calls 4096 (fs_heap two_inodes) [Find 1; Insert 100; Insert 200; Find 1; Find 234; Remove 100; Find 1; Find 234])
    two_nodes (fun rs _ => rs = [None; None; None; Some 100; Some 200; None; None; Some 200]).
Proof.
  set (cs := [Find 1; Insert 100; Insert 200; Find 1; Find 234; Remove 100; Find 1; Find 234]).
  assert (H : exists w', bucket_calls cs (with_hash (Some (replicate (Z.to_nat inode_hash_size) [])) two_inodes) =
    Val ([None; None; None; Some 100; Some 200; None; None; Some 200], w')) by (eexists; vm_compute; reflexivity).
  destruct H as [w' H]. eapply wp_mono; [apply (hash_table_refines 4096 two_inodes _ two_nodes cs
    [None; None; None; Some 100; Some 200; None; None; Some 200] w' eq_refl)|].
  - intros i Hi. exists 0. apply elem_of_list_to_map_1'.
    + intros y (k & E & _)%list_elem_of_fmap. by injection E as _ ->.
    + apply list_elem_of_fmap. exists i. split; [reflexivity|]. apply elem_of_seqZ. change inode_hash_size with 256 in Hi. lia.
  - repeat (apply Forall_cons; split; [first [exact I | split; [split; eexists; reflexivity|lia]]|]). apply Forall_nil_2.
  - exact H.
  - intros rs s' [-> _]. reflexivity.
Defined.
