(* ===== verification/FsProps.v ===== *)
(** * The file system: what the operations guarantee

    The theorems of this file are the contract of fs/: files are byte strings,
    directories are sequences of entries, and blocks and inode numbers are
    allocated from freemaps that the disk always agrees with.  They follow from the
    specifications of the components; each one with hypotheses is applied to the
    concrete file system [example_fs] in a witness. *)

From stdpp Require Import base gmap list list_numbers strings.
From Stdlib Require Import ZArith Lia.
From S2P Require Import Prelude Words Bitmap Block FsState InodeHash Super Inode ReadWrite Dir File Shell Mktestfs FileTree FileAlloc FileData FileFree DirSpec MkfsSpec FileSpec FileMap.
#[local] Open Scope Z_scope.

(** ** Files *)

(** C6: a write of [len > 0] bytes into a file with contents [c] succeeds when the
    file system has room, returns [len], leaves the file with the contents
    [write_at c start ...] (a gap behind the old end reads as zeros), keeps the file
    system consistent, and changes no other file in memory. *)
Theorem write_data_refines w I B O p i c start len buf : live w I B -> is_file w I B p i O c ->
  0 <= start -> 0 < len < 2147483648 -> start + len <= MAX_FILE_SIZE -> len <= zlen buf ->
  Z.of_nat (size B) + 3 * (len / BLOCK_SIZE + 2) <= max_fs_blocks (fs_sb w) ->
  exists w' I' B' O' i', testfs_write_data p buf start len w = Val (len, w') /\ I' = I /\ live w' I' B' /\
    is_file w' I' B' p i' O' (write_at c start (zsub buf 0 len)) /\
    forall q j O2 c2, q <> p -> is_file w I B q j O2 c2 -> O ## O2 -> is_file w' I' B' q j O2 c2 /\ O' ## O2.
Proof.
  intros Hl Hf Hs Hlen Hend Hb Hroom.
  pose proof (write_refines w I B O p i c Hl Hf start len buf Hs Hlen Hend Hb Hroom) as Hw.
  apply wp_inv in Hw as (r & w' & Hrun & -> & [(B' & O' & i' & H1 & H2 & _ & _ & _ & H3) _ _]).
  exists w', I, B', O', i'. by split_and!.
Qed.

Lemma write_data_refines_witness :
  exists w' B' O' i', testfs_write_data example_p hello 3 5 example_fs = Val (5, w') /\ live w' {[0]} B' /\
    is_file w' {[0]} B' example_p i' O' (write_at [] 3 (zsub hello 0 5)).
Proof.
  destruct example_file as (i & Hl & Hf & _ & Hm & _).
  destruct (write_data_refines example_fs {[0]} ∅ ∅ example_p i [] 3 5 hello Hl Hf) as (w' & I' & B' & O' & i' & H1 & -> & H2 & H3 & _).
  - lia.
  - lia.
  - rewrite MAX_FILE_SIZE_val. lia.
  - vm_compute. discriminate.
  - rewrite Hm. vm_compute. discriminate.
  - exists w', B', O', i'. split; [exact H1|]. split; [exact H2|exact H3].
Defined.

(** C7: a read inside a file returns the bytes of the file there, as many as were
    asked for and as the file has, stores them at the start of the buffer, and
    changes nothing. *)
Theorem read_data_refines w I B O p i c start n buf : live w I B -> is_file w I B p i O c ->
  0 <= start < MAX_FILE_SIZE -> start <= zlen c -> 0 <= n < 2147483648 -> n <= zlen buf ->
  testfs_read_data p buf start n w = Val ((zlen (read_at c start n), zsplice buf 0 (read_at c start n)), w).
Proof.
  intros Hl Hf Hs Hc Hn Hb. pose proof (read_refines w I B O p i c Hl Hf start n buf Hs Hc Hn Hb) as Hr.
  by apply wp_inv in Hr as (r & w' & Hrun & -> & ->).
Qed.

Lemma read_data_refines_witness :
  testfs_read_data example_p [0; 0; 0; 0; 0; 0] 2 6 written_fs = Val ((6, [0; 104; 101; 108; 108; 111]), written_fs).
Proof.
  destruct written_file as (i & O & B & Hl & Hf).
  exact (read_data_refines written_fs {[0]} B O example_p i [0; 0; 0; 104; 101; 108; 108; 111] 2 6 [0; 0; 0; 0; 0; 0] Hl Hf
    ltac:(rewrite MAX_FILE_SIZE_val; lia) ltac:(vm_compute; discriminate) ltac:(lia) ltac:(vm_compute; discriminate)).
Defined.

(** C8: what was written is what is read: reading the range of a write back gives
    the bytes that were written, whatever was in the file before. *)
Theorem write_read_roundtrip w I B O p i c start len buf out : live w I B -> is_file w I B p i O c ->
  0 <= start -> 0 < len < 2147483648 -> start + len <= MAX_FILE_SIZE -> zlen buf = len -> zlen out = len ->
  Z.of_nat (size B) + 3 * (len / BLOCK_SIZE + 2) <= max_fs_blocks (fs_sb w) ->
  wp (r ← testfs_write_data p buf start len; testfs_read_data p out start r) w (fun r _ => r = (len, buf)).
Proof.
  intros Hl Hf Hs Hlen Hend Hb Ho Hroom. apply wp_bind.
  eapply wp_mono; [apply (write_refines w I B O p i c Hl Hf start len buf); lia|].
  intros r w' (-> & [(B' & O' & i' & Hl' & Hf' & _) _ _]). rewrite zsub_all in Hf' by done.
  pose proof (is_file_size _ _ _ _ _ _ _ Hf') as Hmax. pose proof (zlen_write_at c start buf Hs) as Hz.
  eapply wp_mono; [apply (read_refines w' I B' O' p i' _ Hl' Hf' start len out); lia|].
  intros r w2 [-> ->]. unfold read_at. rewrite Z.min_l by lia. rewrite zlen_zsub by lia. f_equal.
  unfold write_at. rewrite <- Hb. pose proof (zlen_nonneg c).
  rewrite zsub_zsplice_eq by (rewrite ?zlen_app, ?zlen_zeros by lia; lia).
  rewrite zsplice_0, drop_ge, app_nil_r; [done|]. rewrite !zlen_length in *. lia.
Qed.

Lemma write_read_roundtrip_witness :
  wp (r ← testfs_write_data example_p hello 8190 5; testfs_read_data example_p (zeros 5) 8190 r) example_fs
    (fun r _ => r = (5, hello)).
Proof.
  destruct example_file as (i & Hl & Hf & _ & Hm & _).
  apply (write_read_roundtrip example_fs {[0]} ∅ ∅ example_p i [] 8190 5 hello (zeros 5) Hl Hf); try reflexivity; try lia.
  - rewrite MAX_FILE_SIZE_val. lia.
  - rewrite Hm. vm_compute. discriminate.
Defined.

(** C9: removing a file that is not used elsewhere releases its inode number and
    exactly its blocks, zeroes its inode on the disk, and changes no other file, be it
    in memory or only on the disk: all other inodes of the disk keep their contents,
    also those in the same block of inodes, and so do the inodes in memory and the data
    of the other files. *)
Theorem remove_inode_refines w I B O p i c : live w I B -> is_file w I B p i O c -> i_count i = 1 ->
  wp (testfs_remove_inode p) w (fun _ w' => exists B', live w' (I ∖ {[i_nr i]}) B' /\
    (forall k, k ∈ B' <-> k ∈ B /\ (DATA_START + k ∉ O)) /\
    disk_inode (fs_dev w') (i_nr i) = dinode_zero /\ fs_heap w' = delete p (fs_heap w) /\
    (forall nr, 0 <= nr < NR_INODES -> nr <> i_nr i -> disk_inode (fs_dev w') nr = disk_inode (fs_dev w) nr) /\
    effect {[i_nr i]} O ∅ w I B w' (I ∖ {[i_nr i]}) B' /\
    forall q j O2 c2, q <> p -> is_file w I B q j O2 c2 -> O ## O2 -> is_file w' (I ∖ {[i_nr i]}) B' q j O2 c2).
Proof.
  intros Hl Hf Hc. pose proof Hf as [F1 [F2 F2'] F3 F4 _ _].
  eapply wp_mono; [apply wp_and; [by apply (remove_inode_spec w I B O p i)|by apply (remove_refines w I B O p i c)]|].
  intros u w' [Hr (B2 & _ & H2 & _ & _ & H5)]. cbv beta in Hr. clear u.
  destruct (removed_effect w I B O p i w' F1 F2' Hc Hr) as (B' & HB & E).
  assert (B2 = B') as -> by (apply set_eq; intros k; by rewrite H2, HB).
  exists B'. split_and!; try done; [apply E|apply Hr| |apply Hr].
  destruct (rm_heap _ _ _ _ _ _ _ Hr) as (j0 & _ & _ & _ & _ & H4). by rewrite H4, decide_True.
Qed.

Lemma remove_inode_refines_witness : exists (B0 O0 : gset Z), live written_fs {[0]} B0 /\
  wp (testfs_remove_inode example_p) written_fs (fun _ w' => exists B', live w' ({[0]} ∖ {[0]}) B' /\
    (forall k, k ∈ B' <-> k ∈ B0 /\ (DATA_START + k ∉ O0)) /\ disk_inode (fs_dev w') 0 = dinode_zero).
Proof.
  destruct written_file_count as (i & O & B & Hl & Hf & Hn & Hc & _). exists B, O. split; [exact Hl|].
  pose proof (remove_inode_refines written_fs {[0]} B O example_p i _ Hl Hf Hc) as H. rewrite Hn in H.
  eapply wp_mono; [exact H|]. intros _ w' (B' & H1 & H2 & H3 & _). exists B'. split; [exact H1|]. split; [exact H2|exact H3].
Defined.

(** Creating an inode takes the first free number and yields an empty file of
    the requested type with one reference, or fails with ENOSPC when every inode of
    the disk is in use, and then changes neither the files nor the inodes. *)
Theorem create_inode_refines w I B type : live w I B -> idle w I -> s32_ok type ->
  wp (testfs_create_inode type) w (fun '(r, p) w' =>
    (r = 0 /\ exists nr i, (nr ∉ I) /\ (forall j, 0 <= j < nr -> j ∈ I) /\
       live w' ({[nr]} ∪ I) B /\ idle w' ({[nr]} ∪ I) /\
       is_file w' ({[nr]} ∪ I) B p i ∅ [] /\ i_nr i = nr /\ i_type (in_ i) = type /\ i_count i = 1 /\
       forall q j O c, is_file w I B q j O c -> is_file w' ({[nr]} ∪ I) B q j O c) \/
    (r = - ENOSPC /\ (forall j, 0 <= j < NR_INODES -> j ∈ I) /\ live w' I B /\ fs_heap w' = fs_heap w)).
Proof.
  intros Hl Hi Ht. eapply wp_mono; [by apply (create_inode_spec w I B type)|].
  intros [r p] w' [(-> & nr & [C1 C2 C3 C4 C5 C6 (i & Hh & Hn & Hc & _ & Hin) C8 C9])|(-> & _ & H1 & H2 & H3 & _)]; [left|by right].
  split; [done|]. exists nr, i. split_and!; try done.
  - apply (new_is_file _ _ _ _ _ type); rewrite ?Hn; try done; [rewrite Hh; apply lookup_insert_eq|set_solver].
  - by rewrite Hin.
  - intros q j O c Hf. pose proof Hf as [F1 [F2 _] F3 _ _ _]. eapply is_file_frame; [exact Hf| |set_solver| |apply C9|apply F3].
    + rewrite Hh, lookup_insert_ne; [done|]. intros ->. congruence.
    + intros b Hb. apply (df_blk _ _ _ C9). pose proof (tr_pos _ _ _ _ F3 b Hb).
      unfold is_meta, DATA_START, INODE_START in *. unfold NR_INODE_BLOCKS in *. lia.
Qed.

Lemma create_inode_refines_witness :
  wp (testfs_create_inode I_DIR) example_fs (fun '(r, p) w' => (r = 0 /\ exists nr i, is_file w' ({[nr]} ∪ {[0]}) ∅ p i ∅ []) \/
    (r = - ENOSPC /\ forall j, 0 <= j < NR_INODES -> j ∈ ({[0]} : gset Z))).
Proof.
  destruct example_file as (i & Hl & _ & Hi & _).
  eapply wp_mono; [apply (create_inode_refines example_fs {[0]} ∅ I_DIR Hl Hi); unfold s32_ok, I_DIR; lia|].
  intros [r p] w' [(H0 & nr & j & _ & _ & _ & _ & H & _)|(H0 & H & _)]; [left|right]; (split; [exact H0|]).
  - exists nr, j. exact H.
  - exact H.
Defined.

(** A block of a file that is missing gets a block of the device that was free,
    with at most two index blocks, and a block that is there is found again; all
    other blocks of the file keep their contents once the caller has written the
    new one. *)
Theorem allocate_block_refines w I B O p i n block l : fs_rep w I B -> fs_heap w !! p = Some i ->
  ftree (fs_dev w) (in_ i) B O -> 0 <= n < MAX_BLOCK_NR -> zlen l = BLOCK_SIZE ->
  Z.of_nat (size B) + 3 <= max_fs_blocks (fs_sb w) ->
  wp (testfs_allocate_block p n block) w (fun '(r, old) w' =>
    old = fblock (fs_dev w) (in_ i) n /\ DATA_START <= r /\ exists i' B' O', fs_rep w' I B' /\ B ⊆ B' /\ O ⊆ O' /\
      Z.of_nat (size B') <= Z.of_nat (size B) + 3 /\ (forall b, b ∈ O' -> (b ∉ O) -> (b - DATA_START ∉ B)) /\
      let D' := dev_write r l (fs_dev w') in
      ftree D' (in_ i') B' O' /\ phys D' (in_ i') n = r /\
      forall m, 0 <= m < MAX_BLOCK_NR -> fblock D' (in_ i') m = if decide (m = n) then l else fblock (fs_dev w) (in_ i) m).
Proof.
  intros Hr Hp Ht Hn Hz Hroom. eapply wp_mono; [by apply (allocate_block_spec w I B O p i n block)|].
  intros [r old] w' (-> & i' & B' & O' & [G1 G2 G3 G4 G5 G6 G7] & A1 & A2 & A3 & A4 & A5). destruct (A5 l Hz) as (T1 & T2 & T3 & T4).
  split; [done|]. split; [lia|]. exists i', B', O'. by split_and!.
Qed.

Lemma allocate_block_refines_witness :
  wp (testfs_allocate_block example_p 11 []) example_fs (fun '(r, old) w' => old = zero /\ DATA_START <= r).
Proof.
  destruct example_file as (i & [Hr _] & Hf & _ & Hm & _).
  assert (Hz : fblock (fs_dev example_fs) (in_ i) 11 = zero) by exact (empty_block _ _ _ _ _ 11 Hf ltac:(rewrite MAX_BLOCK_NR_val; lia)).
  eapply wp_mono; [apply (allocate_block_refines example_fs {[0]} ∅ ∅ example_p i 11 [] zero Hr)|].
  - apply Hf.
  - apply Hf.
  - rewrite MAX_BLOCK_NR_val. lia.
  - apply zlen_zeros. unfold BLOCK_SIZE. lia.
  - rewrite Hm. vm_compute. discriminate.
  - intros [r old] w' (-> & Hr' & _). split; [exact Hz|exact Hr'].
Defined.

(** ** Blocks and inode numbers *)

(** Allocating a block returns the first free one and marks it in the freemap
    in memory and on the disk (which the new state represents); when
    [max_fs_blocks] blocks are in use it fails with ENOSPC and changes nothing. *)
Theorem alloc_block_first_free w I B : fs_rep w I B ->
  wp testfs_alloc_block w (fun r w' =>
    (Z.of_nat (size B) < max_fs_blocks (fs_sb w) /\ exists i, 0 <= i < BLOCK_BITS /\ (i ∉ B) /\
       (forall j, 0 <= j < i -> j ∈ B) /\ r = DATA_START + i /\ fs_rep w' I ({[i]} ∪ B) /\
       fs_heap w' = fs_heap w /\ (forall c, INODE_START <= c -> blk (fs_dev w') c = blk (fs_dev w) c)) \/
    (max_fs_blocks (fs_sb w) <= Z.of_nat (size B) /\ r = - ENOSPC /\ w' = w)).
Proof.
  intros Hr. eapply wp_mono; [by apply (alloc_block_spec w I B)|].
  intros r w' [(Hlt & i & H1 & H2 & H3 & H4 & H5 & H6 & _ & H8 & _)|H]; [left|by right].
  split; [done|]. exists i. split_and!; try done; [lia|lia|apply H6|]. intros c Hc. apply (df_blk _ _ _ H8). unfold is_meta. lia.
Qed.

Lemma alloc_block_first_free_witness :
  wp testfs_alloc_block example_fs (fun r w' => r = DATA_START /\ fs_rep w' {[0]} ({[0]} ∪ ∅)).
Proof.
  destruct example_file as (i & [Hr _] & _ & _ & Hm & _).
  eapply wp_mono; [exact (alloc_block_first_free example_fs {[0]} ∅ Hr)|].
  intros r w' [(_ & k & Hk & Hk2 & Hk3 & -> & H5 & _)|(H & _)].
  - assert (k = 0) as ->; [|split; [reflexivity|exact H5]].
    destruct (decide (k = 0)) as [E|E]; [exact E|]. exfalso. specialize (Hk3 0 ltac:(lia)). set_solver.
  - rewrite Hm in H. vm_compute in H. destruct (H eq_refl).
Defined.

(** Freeing a block in use returns it to the freemap in memory and on the disk,
    and zeroes it. *)
Theorem free_block_returns w I B i : fs_rep w I B -> i ∈ B ->
  wp (testfs_free_block (DATA_START + i)) w (fun r w' =>
    r = 0 /\ fs_rep w' I (B ∖ {[i]}) /\ blk (fs_dev w') (DATA_START + i) = zero /\
    forall c, INODE_START <= c -> c <> DATA_START + i -> blk (fs_dev w') c = blk (fs_dev w) c).
Proof.
  intros Hr Hi. eapply wp_mono; [by apply (free_block_spec w I B i)|].
  intros r w' (-> & H1 & H2 & _ & H4 & H5). split_and!; try done. intros c Hc Hne. apply (df_blk _ _ _ H4).
  unfold is_meta. lia.
Qed.

Lemma free_block_returns_witness : exists (B : gset Z) b, b ∈ B /\
  wp (testfs_free_block (DATA_START + b)) written_fs (fun r w' => r = 0 /\ fs_rep w' {[0]} (B ∖ {[b]})).
Proof.
  destruct written_file as (i & O & B & [Hr _] & Hf).
  destruct (written_block written_fs {[0]} B example_p i O _ 3 Hf) as (b & Hb).
  - rewrite MAX_FILE_SIZE_val. lia.
  - vm_compute. discriminate.
  - exists B, b. split; [exact Hb|]. eapply wp_mono; [exact (free_block_returns written_fs {[0]} B b Hr Hb)|].
    intros r w' (H0 & H1 & _). split; [exact H0|exact H1].
Defined.

(** Allocating an inode number returns the first free one and marks it in
    memory and on the disk; with all of them in use it fails with ENOSPC. *)
Theorem get_inode_freemap_first_free w I B : fs_rep w I B ->
  wp testfs_get_inode_freemap w (fun r w' =>
    (0 <= r < INODE_BITS /\ (r ∉ I) /\ (forall j, 0 <= j < r -> j ∈ I) /\ fs_rep w' ({[r]} ∪ I) B) \/
    (r = - ENOSPC /\ w' = w /\ Z.of_nat (size I) = INODE_BITS)).
Proof.
  intros Hr. eapply wp_mono; [by apply (get_inode_freemap_spec w I B)|].
  intros r w' [(i & -> & H1 & H2 & H3 & H4 & _)|H]; [left|by right]. split; [exact H1|]. by split_and!.
Qed.

Lemma get_inode_freemap_first_free_witness :
  wp testfs_get_inode_freemap example_fs (fun r w' => (0 <= r < INODE_BITS /\ (r ∉ ({[0]} : gset Z)) /\ fs_rep w' ({[r]} ∪ {[0]}) ∅) \/
    Z.of_nat (size ({[0]} : gset Z)) = INODE_BITS).
Proof.
  destruct example_file as (i & [Hr _] & _).
  eapply wp_mono; [exact (get_inode_freemap_first_free example_fs {[0]} ∅ Hr)|].
  intros r w' [(H1 & H2 & _ & H4)|(_ & _ & H)]; [left|right; exact H]. split; [exact H1|]. split; [exact H2|exact H4].
Defined.

(** ** The disk *)

(** Mktestfs followed by a mount gives a file system in which no block and no
    inode is in use, with 128 blocks for each megabyte. *)
Theorem mkfs_mount_empty w mb : 1 <= mb <= max_fs_size_mb -> fs_host w = [] ->
  DATA_START + BLOCK_BITS <= d_cap (fs_dev w) -> fs_heap w = ∅ ->
  wp (make_fs mb;; testfs_init_super_block) w (fun r w' => r = 0 /\ live w' ∅ ∅ /\ idle w' ∅ /\
    max_fs_blocks (fs_sb w') = 128 * mb).
Proof.
  intros Hmb Hh Hc He. eapply wp_mono; [by apply (mkfs_mount_spec w mb)|].
  intros r w' (-> & H1 & H2 & H3 & H4). split; [done|]. split; [done|]. split; [|done].
  intros nr Hn _. split; [|by apply H4]. intros q (i & Hi & _). by rewrite H2, lookup_empty in Hi.
Qed.

Lemma mkfs_mount_empty_witness : 1 <= 8 <= max_fs_size_mb /\
  wp (make_fs 8;; testfs_init_super_block) blank_fs (fun r w' => r = 0 /\ live w' ∅ ∅ /\ idle w' ∅ /\
    max_fs_blocks (fs_sb w') = 1024).
Proof.
  assert (H : 1 <= 8 <= max_fs_size_mb) by (change max_fs_size_mb with 8192; lia). split; [exact H|].
  exact (mkfs_mount_empty blank_fs 8 H eq_refl (Z.le_refl _) eq_refl).
Defined.

(** At every moment the disk alone determines the state of the freemaps and of
    the super block: mounting the device of a represented state, in any process,
    succeeds and represents the same sets of inodes and blocks. *)
Theorem remount w I B w0 : fs_rep w I B -> fs_dev w0 = fs_dev w -> fs_host w0 = [] ->
  wp testfs_init_super_block w0 (fun r w' => r = 0 /\ fs_rep w' I B /\ fs_sb w' = fs_sb w /\ fs_dev w' = fs_dev w).
Proof.
  intros Hr Hd Hh. destruct (fs_rep_disk w I B Hr) as (iws & bws & Hok & _ & _ & <- & <-). rewrite <- Hd in Hok.
  eapply wp_mono; [by apply (mount_spec w0 _ _ _ Hok)|]. intros r w' (-> & H1 & H2 & H3 & _). split_and!; congruence || done.
Qed.

Lemma remount_witness : exists B : gset Z,
  wp testfs_init_super_block (with_dev (fs_dev written_fs) blank_fs) (fun r w' => r = 0 /\ fs_rep w' {[0]} B).
Proof.
  destruct written_file as (i & O & B & [Hr _] & _). exists B.
  eapply wp_mono; [exact (remount written_fs {[0]} B (with_dev (fs_dev written_fs) blank_fs) Hr eq_refl eq_refl)|].
  intros r w' (H0 & H1 & _). split; [exact H0|exact H1].
Defined.

(** a file that was synchronised survives: mounting the disk in a process that
    has nothing in memory and looking its inode up gives the same contents. *)
Theorem synced_file_survives w I B O p i c : live w I B -> is_file w I B p i O c -> is_dirty i = true ->
  wp (testfs_sync_inode p) w (fun _ w' => forall w0, fs_dev w0 = fs_dev w' -> fs_host w0 = [] -> fs_heap w0 = ∅ ->
    wp (testfs_init_super_block;; testfs_get_inode (i_nr i)) w0 (fun q w2 =>
      live w2 I B /\ exists j, is_file w2 I B q j O c)).
Proof.
  intros Hl Hf Hd. eapply wp_mono; [by apply (sync_refines w I B O p i c)|].
  intros _ w' (Hl' & (j & Hf' & _ & Hin & Hn) & Hdisk & _) w0 Hd0 Hh0 He0. rewrite <- Hn, <- Hin in Hdisk. rewrite <- Hn.
  by apply (mount_get w' I B O p j c).
Qed.

Lemma synced_file_survives_witness :
  wp (testfs_sync_inode example_p) written_fs (fun _ w' => exists (B O : gset Z),
    wp (testfs_init_super_block;; testfs_get_inode 0) (with_dev (fs_dev w') blank_fs) (fun q w2 =>
      exists j, is_file w2 {[0]} B q j O [0; 0; 0; 104; 101; 108; 108; 111])).
Proof.
  destruct written_file_count as (i & O & B & Hl & Hf & Hn & _ & Hd).
  eapply wp_mono; [exact (synced_file_survives written_fs {[0]} B O example_p i _ Hl Hf Hd)|].
  intros u w' H. cbv beta in H. clear u. exists B, O. specialize (H (with_dev (fs_dev w') blank_fs) eq_refl eq_refl eq_refl). rewrite Hn in H.
  eapply wp_mono; [exact H|]. intros q w2 [_ Hj]. exact Hj.
Defined.

(** looking an inode up returns the copy in memory, with one more reference,
    when there is one, and otherwise a fresh clean copy of the inode on the disk; the
    cache stays well formed: one copy for each inode. *)
Theorem get_inode_cached_or_disk w I B nr : live w I B -> 0 <= nr < NR_INODES ->
  wp (testfs_get_inode nr) w (fun p w' => live w' I B /\ fs_dev w' = fs_dev w /\ cached w' nr p /\
    (forall q, cached w nr q -> q = p) /\
    exists i, fs_heap w' = <[p := i]> (fs_heap w) /\ is_dirty i = match fs_heap w !! p with Some j => is_dirty j | None => false end /\
      match fs_heap w !! p with
      | Some j => in_ i = in_ j /\ i_count i = i_count j + 1
      | None => in_ i = disk_inode (fs_dev w) nr /\ i_count i = 1
      end).
Proof.
  intros Hl Hn. pose proof Hl as [_ [t Hc]]. eapply wp_mono; [by apply (get_inode_spec w I B nr)|].
  intros p w' (i & H1 & H2 & _ & H4 & H5 & _). split; [done|]. split; [done|].
  destruct H4 as [(j & Hj & Hjn & ->)|(Hp & Hno & ->)].
  - split; [eexists; rewrite H5, lookup_insert_eq; by split|]. split.
    + intros q (k & Hk & Hkn). eapply (cache_uniq w t Hc); [done|done|congruence].
    + eexists. rewrite Hj. by split_and!.
  - split; [eexists; rewrite H5, lookup_insert_eq; by split|]. split; [by intros q ?%Hno|].
    eexists. rewrite Hp. by split_and!.
Qed.

Lemma get_inode_cached_or_disk_witness :
  wp (testfs_get_inode 0) example_fs (fun p w' => p = example_p /\ live w' {[0]} ∅) /\
  wp (testfs_get_inode 5) example_fs (fun p w' => live w' {[0]} ∅ /\ cached w' 5 p).
Proof.
  destruct example_file as (i & Hl & Hf & _ & _ & _ & Hn). change NR_INODES with 16384 in *. split.
  - eapply wp_mono; [apply (get_inode_cached_or_disk example_fs {[0]} ∅ 0 Hl); change NR_INODES with 16384; lia|].
    intros p w' (H1 & _ & _ & H2 & _). split; [|exact H1]. symmetry. apply H2. exists i. split; [apply Hf|exact Hn].
  - eapply wp_mono; [apply (get_inode_cached_or_disk example_fs {[0]} ∅ 5 Hl); change NR_INODES with 16384; lia|].
    intros p w' (H1 & _ & H2 & _). split; [exact H1|exact H2].
Defined.

(** Releasing a clean inode drops one reference; with the last one the copy
    leaves the memory and the hash table, and nothing changes on the disk. *)
Theorem put_inode_releases w I B p i : live w I B -> fs_heap w !! p = Some i -> is_dirty i = false ->
  wp (testfs_put_inode p) w (fun _ w' => live w' I B /\ fs_dev w' = fs_dev w /\
    fs_heap w' = if decide (i_count i = 1) then delete p (fs_heap w)
                 else <[p := set_i_count (i_count i - 1) i]> (fs_heap w)).
Proof.
  intros Hl Hp Hd. eapply wp_mono; [by apply (put_inode_spec w I B p i)|]. intros _ w' (H1 & H2 & _ & _ & _ & H6). done.
Qed.

Lemma put_inode_releases_witness :
  wp (p ← testfs_get_inode 5; testfs_put_inode p) example_fs (fun _ w' => live w' {[0]} ∅ /\ fs_dev w' = fs_dev example_fs).
Proof.
  destruct example_file as (i & Hl & _ & _ & _ & _ & _). apply wp_bind.
  eapply wp_mono; [apply (get_inode_spec example_fs {[0]} ∅ 5 Hl); change NR_INODES with 16384; lia|].
  intros p w (j & Hl' & Hd & _ & Hgot & Hh & _). destruct (is_dirty j) eqn:E.
  - exfalso. destruct Hgot as [(j' & Hj' & Hn' & _)|(_ & _ & ->)]; [|discriminate E].
    destruct example_spec as (i' & Hi' & Hi0 & _). rewrite Hi' in Hj'. apply lookup_singleton_Some in Hj' as [_ <-]. lia.
  - eapply wp_mono; [apply (put_inode_releases w {[0]} ∅ p j Hl'); [rewrite Hh; apply lookup_insert_eq|exact E]|].
    intros _ w' (H1 & H2 & _). split; [exact H1|]. rewrite H2. exact Hd.
Defined.
