(* ===== verification/Ample.v ===== *)
(** * Calls in which malloc fails (threads/thread.c)

    The library tests the result of malloc only in thread_create, and asserts it in
    the calls that create locks, condition variables and wait queues; elsewhere a
    null pointer is followed.  So a call that returns although malloc may fail does
    what it does when malloc never fails, except thread_create, which may give up:
    [mono] is the first statement, a relation between the runs from [s] and from
    [ample s], and it is proved along the structure of the calls. *)

From stdpp Require Import base gmap list list_numbers.
From Stdlib Require Import ZArith Lia.
From S2P Require Import Prelude Words Threads.
#[local] Open Scope Z_scope.

(** the state in which every malloc to come succeeds *)
Definition ample (s : st) : st := with_mallocs [] s.

Definition mono {A} (m : M st A) : Prop := forall s r s', m s = Val (r, s') -> m (ample s) = Val (r, ample s').

Lemma bind_val {A B} (m : M st A) (k : A -> M st B) s r s' : (m ≫= k) s = Val (r, s') ->
  exists a s1, m s = Val (a, s1) /\ k a s1 = Val (r, s').
Proof. unfold mbind, M_bind. destruct (m s) as [[a s1]|f]; [|done]. eauto. Qed.

Lemma run_bind {A B} (m : M st A) (k : A -> M st B) s a s1 : m s = Val (a, s1) -> (m ≫= k) s = k a s1.
Proof. unfold mbind, M_bind. by intros ->. Qed.

(** ** The structure of a computation *)

Lemma mono_ret {A} (a : A) : mono (mret a).
Proof. intros s r s' [= -> ->]. done. Qed.
Lemma mono_stop {A} f : mono (stop f : M st A).
Proof. done. Qed.
Lemma mono_bind {A B} (m : M st A) (k : A -> M st B) : mono m -> (forall a, mono (k a)) -> mono (m ≫= k).
Proof. intros Hm Hk s r s' (a & s1 & H1%Hm & H2%Hk)%bind_val. by rewrite (run_bind _ _ _ _ _ H1). Qed.
Lemma mono_get {A} (f : st -> M st A) : (forall s, f (ample s) = f s) -> (forall s, mono (f s)) -> mono (get ≫= f).
Proof. intros E Hf s r s' H. unfold mbind, M_bind, get in *. rewrite E. by apply Hf. Qed.
Lemma mono_gets {A} (f : st -> A) : (forall s, f (ample s) = f s) -> mono (gets f).
Proof. intros E s r s' [= <- <-]. unfold gets. by rewrite E. Qed.
Lemma mono_modify f : (forall s, f (ample s) = ample (f s)) -> mono (modify f).
Proof. intros E s r s' [= <- <-]. unfold modify. by rewrite E. Qed.
Lemma mono_deref {A} (o : option A) : mono (deref o).
Proof. destruct o; [apply mono_ret|apply mono_stop]. Qed.
Lemma mono_assert b : mono (assert_ b).
Proof. destruct b; [apply mono_ret|apply mono_stop]. Qed.
Lemma mono_if {A} (b : bool) (m1 m2 : M st A) : mono m1 -> mono m2 -> mono (if b then m1 else m2).
Proof. by destruct b. Qed.

Lemma mono_while {X R} (body : X -> M st (X + R)) x : (forall x, mono (body x)) -> mono (while_ body x).
Proof.
  intros Hb. assert (Hl : forall n x, mono (loop n body x)).
  { induction n as [|n IH]; intros y; [apply Hb|]. apply mono_bind; [done|]. intros [z|v]; [done|apply mono_ret]. }
  apply mono_bind; [done|]. intros [z|v]; [apply mono_stop|apply mono_ret].
Qed.

Lemma mono_for n i body : (forall i, mono (body i)) -> mono (for_ n i body).
Proof.
  intros Hb. revert i. induction n as [|n IH]; intros i; [apply mono_ret|]. apply mono_bind; [done|]. intros _. apply IH.
Qed.

Lemma mono_first f l i : (forall p, mono (f p)) -> mono (first_thread f l i).
Proof.
  intros Hf. revert i. induction l as [|p l IH]; intros i; [apply mono_ret|]. apply mono_bind; [done|].
  intros b. apply mono_if; [apply mono_ret|apply IH].
Qed.

(** ** malloc *)

(** it gives the same address, or the null pointer *)
Lemma malloc_cases s p s' : malloc s = Val (p, s') ->
  malloc (ample s) = Val (p, ample s') \/ p = 0 /\ exists l, s' = with_mallocs l s.
Proof.
  unfold malloc, mbind, M_bind, get. cbn [mallocs ample with_mallocs].
  destruct (mallocs s) as [|[] l]; cbn; intros [= <- <-]; eauto.
Qed.

Lemma mono_malloc_used : mono malloc_used.
Proof.
  intros s r s' (p & s1 & Hm & Hk)%bind_val. unfold malloc_used. destruct (malloc_cases _ _ _ Hm) as [H1|[-> _]]; [|done].
  rewrite (run_bind _ _ _ _ _ H1). destruct (p =? 0); [done|]. by injection Hk as -> ->.
Qed.

Lemma mono_malloc_assert {A} (k : Z -> M st A) : (forall p, mono (k p)) ->
  mono (p ← malloc; assert_ (negb (p =? 0));; k p).
Proof.
  intros Hk s r s' (p & s1 & Hm & H2)%bind_val. destruct (malloc_cases _ _ _ Hm) as [H1|[-> _]]; [|done].
  rewrite (run_bind _ _ _ _ _ H1). revert H2. apply mono_bind; [apply mono_assert|]. intros _. apply Hk.
Qed.

Create HintDb mono.
#[export] Hint Resolve mono_ret mono_stop mono_deref mono_assert mono_malloc_used : mono.

(** follows the structure of the computation; the hints prove the calls in it *)
Ltac mono :=
  lazymatch goal with
  | |- mono (malloc ≫= _) => apply mono_malloc_assert; intros ?; mono
  | |- mono (get ≫= _) => apply mono_get; [intros ?; reflexivity|intros ?; mono]
  | |- mono (_ ≫= _) => apply mono_bind; [mono|intros ?; mono]
  | |- mono (gets _) => apply mono_gets; intros ?; reflexivity
  | |- mono (modify _) => apply mono_modify; intros ?; reflexivity
  | |- mono (while_ _ _) => apply mono_while; intros ?; mono
  | |- mono (for_ _ _ _) => apply mono_for; intros ?; mono
  | |- mono (first_thread _ _ _) => apply mono_first; intros ?; mono
  | |- mono (if ?b then _ else _) => apply mono_if; mono
  | |- mono (match ?x with _ => _ end) => destruct x; mono
  | |- _ => first [solve [auto with mono]|idtac]
  end.

(** ** The calls *)

Lemma mono_add_count_stack x : mono (add_count_stack x).
Proof. unfold add_count_stack. mono. Qed.
Lemma mono_add_count_thread x : mono (add_count_thread x).
Proof. unfold add_count_thread. mono. Qed.
Lemma mono_add_count_queue x : mono (add_count_queue x).
Proof. unfold add_count_queue. mono. Qed.
Lemma mono_fresh : mono fresh.
Proof. unfold fresh. mono. Qed.
#[export] Hint Resolve mono_add_count_stack mono_add_count_thread mono_add_count_queue mono_fresh : mono.

Lemma mono_get_tcb p : mono (get_tcb p).
Proof. unfold get_tcb. mono. Qed.
Lemma mono_get_node p : mono (get_node p).
Proof. unfold get_node. mono. Qed.
Lemma mono_wait_of wq : mono (wait_of wq).
Proof. unfold wait_of. mono. Qed.
Lemma mono_get_lock l : mono (get_lock l).
Proof. unfold get_lock. mono. Qed.
Lemma mono_get_cv c : mono (get_cv c).
Proof. unfold get_cv. mono. Qed.
#[export] Hint Resolve mono_get_tcb mono_get_node mono_wait_of mono_get_lock mono_get_cv : mono.

Lemma mono_upd_tcb p f : mono (upd_tcb p f).
Proof. unfold upd_tcb. mono. Qed.
Lemma mono_upd_node p f : mono (upd_node p f).
Proof. unfold upd_node. mono. Qed.
Lemma mono_put_node p q : mono (put_node p q).
Proof. unfold put_node. mono. Qed.
Lemma mono_put_lock l x : mono (put_lock l x).
Proof. unfold put_lock. mono. Qed.
Lemma mono_free_node p : mono (free_node p).
Proof. unfold free_node. mono. Qed.
Lemma mono_next_of p : mono (next_of p).
Proof. unfold next_of. mono. Qed.
Lemma mono_thread_of p : mono (thread_of p).
Proof. unfold thread_of. mono. Qed.
Lemma mono_thread_at i : mono (thread_at i).
Proof. unfold thread_at. mono. Qed.
#[export] Hint Resolve mono_upd_tcb mono_upd_node mono_put_node mono_put_lock mono_free_node mono_next_of mono_thread_of mono_thread_at : mono.

Lemma mono_set_next p x : mono (set_next p x).
Proof. unfold set_next. mono. Qed.
Lemma mono_set_thread_at i p : mono (set_thread_at i p).
Proof. unfold set_thread_at. mono. Qed.
Lemma mono_interrupts_set x : mono (interrupts_set x).
Proof. unfold interrupts_set. mono. Qed.
#[export] Hint Resolve mono_set_next mono_set_thread_at mono_interrupts_set : mono.

Lemma mono_interrupts_on : mono interrupts_on.
Proof. unfold interrupts_on. mono. Qed.
Lemma mono_interrupts_off : mono interrupts_off.
Proof. unfold interrupts_off. mono. Qed.
Lemma mono_interrupts_enabled : mono interrupts_enabled.
Proof. unfold interrupts_enabled. mono. Qed.
#[export] Hint Resolve mono_interrupts_on mono_interrupts_off mono_interrupts_enabled : mono.

Lemma mono_queue_count q : mono (queue_count q).
Proof. unfold queue_count. mono. Qed.
Lemma mono_get_first q : mono (get_first q).
Proof. unfold get_first. mono. Qed.
Lemma mono_add_to_queue q p : mono (add_to_queue q p).
Proof. unfold add_to_queue. mono. Qed.
Lemma mono_node_id p : mono (node_id p).
Proof. unfold node_id. mono. Qed.
#[export] Hint Resolve mono_queue_count mono_get_first mono_add_to_queue mono_node_id : mono.

Lemma mono_delete_from_queue q i : mono (delete_from_queue q i).
Proof. unfold delete_from_queue. mono. Qed.
#[export] Hint Resolve mono_delete_from_queue : mono.

Lemma mono_delete_from_all_queues i : mono (delete_from_all_queues i).
Proof. unfold delete_from_all_queues. mono. Qed.
#[export] Hint Resolve mono_delete_from_all_queues : mono.

Lemma mono_has_status x p : mono (has_status x p).
Proof. unfold has_status. mono. Qed.
#[export] Hint Resolve mono_has_status : mono.

Lemma mono_thread_id : mono thread_id.
Proof. unfold thread_id. mono. Qed.
Lemma mono_get_id : mono get_id.
Proof. unfold get_id. mono. Qed.
#[export] Hint Resolve mono_thread_id mono_get_id : mono.

Lemma mono_current : mono current.
Proof. unfold current. mono. Qed.
#[export] Hint Resolve mono_current : mono.

Lemma mono_wait_queue_create : mono wait_queue_create.
Proof. unfold wait_queue_create. mono. Qed.
Lemma mono_wait_queue_destroy wq : mono (wait_queue_destroy wq).
Proof. unfold wait_queue_destroy. mono. Qed.
#[export] Hint Resolve mono_wait_queue_create mono_wait_queue_destroy : mono.

Lemma mono_thread_wakeup q all : mono (thread_wakeup q all).
Proof. unfold thread_wakeup. mono. Qed.
#[export] Hint Resolve mono_thread_wakeup : mono.

Lemma mono_free_thread i : mono (free_thread i).
Proof. unfold free_thread. mono. Qed.
#[export] Hint Resolve mono_free_thread : mono.

Lemma mono_free_exited : mono free_exited.
Proof. unfold free_exited. mono. Qed.
#[export] Hint Resolve mono_free_exited : mono.

Lemma mono_thread_init : mono thread_init.
Proof. unfold thread_init. mono. Qed.
#[export] Hint Resolve mono_thread_init : mono.

Lemma mono_getcontext p c : mono (getcontext p c).
Proof. unfold getcontext. mono. Qed.
Lemma mono_setcontext p : mono (setcontext p).
Proof. unfold setcontext. mono. Qed.
#[export] Hint Resolve mono_getcontext mono_setcontext : mono.

Lemma mono_thread_yield w k : mono (thread_yield w k).
Proof. unfold thread_yield. mono. Qed.
Lemma mono_thread_sleep q k : mono (thread_sleep q k).
Proof. unfold thread_sleep. mono. Qed.
Lemma mono_yeet : mono yeet.
Proof. unfold yeet. mono. Qed.
#[export] Hint Resolve mono_thread_yield mono_thread_sleep mono_yeet : mono.

Lemma mono_thread_exit : mono thread_exit.
Proof. unfold thread_exit. mono. Qed.
Lemma mono_thread_kill i : mono (thread_kill i).
Proof. unfold thread_kill. mono. Qed.
Lemma mono_thread_wait i : mono (thread_wait i).
Proof. unfold thread_wait. mono. Qed.
#[export] Hint Resolve mono_thread_exit mono_thread_kill mono_thread_wait : mono.

Lemma mono_lock_create : mono lock_create.
Proof. unfold lock_create. mono. Qed.
Lemma mono_lock_destroy l : mono (lock_destroy l).
Proof. unfold lock_destroy. mono. Qed.
Lemma mono_acquire_loop l e k : mono (acquire_loop l e k).
Proof. unfold acquire_loop. mono. Qed.
#[export] Hint Resolve mono_lock_create mono_lock_destroy mono_acquire_loop : mono.

Lemma mono_lock_acquire l k : mono (lock_acquire l k).
Proof. unfold lock_acquire. mono. Qed.
Lemma mono_lock_release l : mono (lock_release l).
Proof. unfold lock_release. mono. Qed.
Lemma mono_holds l : mono (holds l).
Proof. unfold holds. mono. Qed.
#[export] Hint Resolve mono_lock_acquire mono_lock_release mono_holds : mono.

Lemma mono_cv_create : mono cv_create.
Proof. unfold cv_create. mono. Qed.
Lemma mono_cv_destroy c : mono (cv_destroy c).
Proof. unfold cv_destroy. mono. Qed.
Lemma mono_cv_acquire l e k : mono (cv_acquire l e k).
Proof. unfold cv_acquire. mono. Qed.
#[export] Hint Resolve mono_cv_create mono_cv_destroy mono_cv_acquire : mono.

Lemma mono_cv_wait c l : mono (cv_wait c l).
Proof. unfold cv_wait. mono. Qed.
Lemma mono_cv_notify all c l : mono (cv_notify all c l).
Proof. unfold cv_notify. mono. Qed.
#[export] Hint Resolve mono_cv_wait mono_cv_notify : mono.

Lemma mono_interrupt_handler : mono interrupt_handler.
Proof. unfold interrupt_handler. mono. Qed.
#[export] Hint Resolve mono_interrupt_handler : mono.

Lemma mono_timer_signal : mono timer_signal.
Proof. unfold timer_signal. mono. Qed.
#[export] Hint Resolve mono_timer_signal : mono.

Lemma mono_run_frames k v : mono (run_frames k v).
Proof. revert v. induction k as [|[] k IH]; intros v; cbn [run_frames]; mono. Qed.
#[export] Hint Resolve mono_run_frames : mono.
Lemma mono_resume : mono resume.
Proof. unfold resume. mono. Qed.
