(* ===== verification/QueueSpec.v ===== *)
(** * The queues of threads/thread.c refine lists

    A queue is a head node followed by one node per thread, linked by [next].
    [chain ns h l] says that the nodes [ns] hold the queue with head [h] and the
    entries [l], pairs of a node and the thread in it.  [queues s Q] collects all
    the queues of a state, which share no node, and each operation on one of them
    is the list operation it should be and leaves the others alone. *)

From stdpp Require Import base gmap list list_numbers.
From Stdlib Require Import ZArith Lia.
From S2P Require Import Prelude Words Threads.
#[local] Open Scope Z_scope.

(** ** One queue *)

Fixpoint chain (ns : gmap Z queue) (h : Z) (l : list (Z * Z)) : Prop :=
  match l with
  | [] => exists t, ns !! h = Some (mk_queue t (Some 0))
  | (a, p) :: l' =>
      (exists t, ns !! h = Some (mk_queue t (Some a))) /\ a <> 0 /\
      (exists x, ns !! a = Some (mk_queue (Some p) x)) /\ chain ns a l'
  end.

(** the address that [next] of the last node of [h, pre...] holds *)
Definition link (l : list (Z * Z)) : Z := match l with [] => 0 | (a, _) :: _ => a end.
(** the last node of [h, l...] *)
Definition tail_addr (h : Z) (l : list (Z * Z)) : Z := default h (fst <$> last l).

Section chain.
Implicit Types (ns : gmap Z queue) (h a p : Z) (l pre post : list (Z * Z)).

Lemma tail_addr_cons h a p l : tail_addr h ((a, p) :: l) = tail_addr a l.
Proof. unfold tail_addr. destruct l as [|x l] using rev_ind; [done|]. by rewrite app_comm_cons, !last_snoc. Qed.

Lemma tail_addr_snoc h l a p : tail_addr h (l ++ [(a, p)]) = a.
Proof. unfold tail_addr. by rewrite last_snoc. Qed.

Lemma tail_addr_in h l : tail_addr h l ∈ h :: l.*1.
Proof.
  revert h. induction l as [|[a p] l IH]; intros h; [by left|]. rewrite tail_addr_cons. right. apply IH.
Qed.

Lemma chain_head ns h l : chain ns h l -> exists t, ns !! h = Some (mk_queue t (Some (link l))).
Proof. destruct l as [|[a p] l]; simpl; [done|]. by intros (? & _). Qed.

Lemma chain_app ns h pre post : chain ns h (pre ++ post) -> chain ns (tail_addr h pre) post.
Proof.
  revert h. induction pre as [|[a p] pre IH]; intros h; [done|]. simpl. intros (_ & _ & _ & Hc).
  rewrite tail_addr_cons. by apply IH.
Qed.

(** the part of a queue behind [pre] is exchanged *)
Lemma chain_replace ns ns' h pre post post' : chain ns h (pre ++ post) ->
  (forall a, a ∈ h :: pre.*1 -> a <> tail_addr h pre -> ns' !! a = ns !! a) ->
  q_thread <$> ns' !! tail_addr h pre = q_thread <$> ns !! tail_addr h pre ->
  NoDup (h :: pre.*1) -> chain ns' (tail_addr h pre) post' -> chain ns' h (pre ++ post').
Proof.
  revert h. induction pre as [|[a p] pre IH]; intros h; [done|]. cbn [app chain fmap list_fmap fst].
  rewrite tail_addr_cons. intros (Hh & Ha & (x & Hx) & Hc) Hsame Ht Hnd Hc'.
  apply NoDup_cons in Hnd as [Hnot Hnd]. pose proof (tail_addr_in a pre) as Hin.
  assert (Hne : h <> tail_addr a pre) by (intros ->; done). split_and!; [|done| |].
  - destruct Hh as [t Hh]. exists t. rewrite Hsame; [done|by left|done].
  - destruct (decide (a = tail_addr a pre)) as [E|E].
    + rewrite <- E, Hx in Ht. destruct (ns' !! a) as [[t' x']|]; [|done]. injection Ht as ->. by exists x'.
    + exists x. rewrite Hsame; [done|right; by left|done].
  - apply (IH a); try done. intros b Hb. apply Hsame. by right.
Qed.

Lemma chain_frame ns ns' h l : (forall a, a ∈ h :: l.*1 -> ns' !! a = ns !! a) -> chain ns h l -> chain ns' h l.
Proof.
  revert h. induction l as [|[a p] l IH]; intros h Hs; cbn [chain].
  - intros [t Ht]. exists t. rewrite Hs; [done|by left].
  - intros ((t & Ht) & Ha & (x & Hx) & Hc). split_and!; [|done| |].
    + exists t. rewrite Hs; [done|by left].
    + exists x. rewrite Hs; [done|right; by left].
    + apply IH; [|done]. intros b Hb. apply Hs. by right.
Qed.

Lemma chain_dom ns h l a : chain ns h l -> a ∈ h :: l.*1 -> is_Some (ns !! a).
Proof.
  revert h. induction l as [|[b p] l IH]; intros h Hc Ha.
  - apply list_elem_of_singleton in Ha as ->. destruct Hc as [t ->]. done.
  - destruct Hc as ((t & Ht) & _ & _ & Hc). apply elem_of_cons in Ha as [->|Ha]; [by rewrite Ht|].
    by apply (IH b).
Qed.

(** a node at the end, a node taken out *)
Lemma chain_push ns h l n p t x : chain ns h l -> NoDup (h :: l.*1) -> ns !! n = None -> n <> 0 ->
  ns !! tail_addr h l = Some (mk_queue t x) ->
  chain (<[tail_addr h l := mk_queue t (Some n)]> (<[n := mk_queue (Some p) (Some 0)]> ns)) h (l ++ [(n, p)]).
Proof.
  intros Hc Hnd Hn Hn0 Ht. assert (Hne : n <> tail_addr h l) by (intros ->; congruence).
  assert (Hnin : forall a, a ∈ h :: l.*1 -> a <> n).
  { intros a Ha ->. destruct (chain_dom _ _ _ _ Hc Ha) as [? ?]. congruence. }
  apply (chain_replace ns _ h l [] [(n, p)]); [by rewrite app_nil_r| | |done|].
  - intros a Ha Hat. by rewrite !lookup_insert_ne by (try apply not_eq_sym; auto).
  - by rewrite lookup_insert_eq, Ht.
  - cbn [chain]. rewrite lookup_insert_eq, lookup_insert_ne, lookup_insert_eq by done. split_and!; eauto; done.
Qed.

Lemma chain_unlink ns h pre c p post t x : chain ns h (pre ++ (c, p) :: post) ->
  NoDup (h :: (pre ++ (c, p) :: post).*1) -> ns !! tail_addr h pre = Some (mk_queue t x) ->
  chain (delete c (<[tail_addr h pre := mk_queue t (Some (link post))]> ns)) h (pre ++ post).
Proof.
  intros Hc Hnd Ht. rewrite fmap_app in Hnd. cbn [fmap list_fmap fst] in Hnd.
  change (NoDup ((h :: pre.*1) ++ c :: post.*1)) in Hnd. apply NoDup_app in Hnd as (Hn1 & Hdis & Hn2).
  assert (Hct : c <> tail_addr h pre).
  { intros ->. apply (Hdis (tail_addr h pre)); [apply tail_addr_in|by left]. }
  apply NoDup_cons in Hn2 as [Hcp Hn2].
  apply (chain_replace ns _ h pre ((c, p) :: post) post); [done| | |done|].
  - intros a Ha Hat. rewrite lookup_delete_ne, lookup_insert_ne; [done|done|]. intros ->. apply (Hdis a Ha). by left.
  - rewrite lookup_delete_ne, lookup_insert_eq, Ht by done. done.
  - apply chain_app in Hc. cbn [chain] in Hc. destruct Hc as (_ & Hc0 & _ & Hc).
    assert (Htn : tail_addr h pre ∉ post.*1).
    { intros Hin. apply (Hdis _ (tail_addr_in h pre)). by right. }
    destruct post as [|[b q] post]; cbn [chain link].
    + exists t. by rewrite lookup_delete_ne, lookup_insert_eq.
    + destruct Hc as (_ & Hb & (y & Hy) & Hc). cbn [fmap list_fmap fst] in *.
      apply not_elem_of_cons in Hcp as [Hcb Hcp]. apply not_elem_of_cons in Htn as [Htb Htn].
      split_and!; [|done| |].
      * exists t. by rewrite lookup_delete_ne, lookup_insert_eq.
      * exists y. by rewrite lookup_delete_ne, lookup_insert_ne.
      * apply (chain_frame ns); [|done]. intros a Ha. apply elem_of_cons in Ha as [->|Ha].
        -- by rewrite lookup_delete_ne, lookup_insert_ne.
        -- rewrite lookup_delete_ne, lookup_insert_ne; [done| |]; intros E; by rewrite <- E in Ha.
Qed.
End chain.

(** ** All queues of a state *)

Record queues (s : st) (Q : gmap Z (list (Z * Z))) : Prop := {
  qs_chain : forall h l, Q !! h = Some l -> chain (nodes s) h l /\ NoDup (h :: l.*1);
  qs_disj : forall h h' l l' a, Q !! h = Some l -> Q !! h' = Some l' -> a ∈ h :: l.*1 -> a ∈ h' :: l'.*1 -> h = h';
  qs_addr : forall a, is_Some (nodes s !! a) -> 0 < a < next_addr s;
  qs_next : 0 < next_addr s;
}.

(** the operations only change the nodes, what [malloc] returns next, and a
    counter *)
Definition with_q (ns : gmap Z queue) (na c : Z) (s : st) : st :=
  mk_st (threads s) (tcbs s) ns (wqs s) (locks s) (cvs s) (ready_queue s) na (mallocs s) (zeroed s) (enabled s)
    (pending s) (count_stack s) (count_thread s) c.

(** a node keeps its thread as long as it is there, and a node whose [next] was
    never written is not touched at all *)
Record nodes_kept (s : st) (ns : gmap Z queue) : Prop := {
  nk_thread : forall a n', ns !! a = Some n' -> a < next_addr s -> exists n, nodes s !! a = Some n /\ q_thread n' = q_thread n;
  nk_raw : forall a n, nodes s !! a = Some n -> q_next n = None -> ns !! a = Some n;
}.

Definition q_step (s s' : st) : Prop := exists ns na c,
  next_addr s <= na /\ nodes_kept s ns /\ s' = with_q ns na c s.

#[export] Instance q_step_preorder : PreOrder q_step.
Proof.
  split.
  - intros s. exists (nodes s), (next_addr s), (count_queue s). split; [lia|]. split; [split; eauto|]. by destruct s.
  - intros s1 s2 s3 (ns1 & ? & ? & ? & [K1 R1] & ->) (ns & na & c & ? & [K2 R2] & ->). exists ns, na, c. cbn in *.
    split; [lia|]. split; [|done]. split; [|eauto]. intros a n3 H3 Ha. destruct (K2 a n3) as (n2 & H2 & E2); [done|lia|].
    destruct (K1 a n2 H2 Ha) as (n1 & ? & ?). exists n1. split; [done|congruence].
Qed.

(** the link of a node that is in a queue is changed *)
Lemma kept_link s ns a t x y : nodes_kept s ns -> ns !! a = Some (mk_queue t (Some x)) ->
  nodes_kept s (<[a := mk_queue t (Some y)]> ns).
Proof.
  intros [K R] Ha. split.
  - intros b n'. rewrite lookup_insert_Some. intros [[<- <-]|[_ Hb]]; [|by apply K]. intros Hlt. by apply (K a _ Ha Hlt).
  - intros b n Hb Hn. destruct (decide (a = b)) as [->|Hne]; [|rewrite lookup_insert_ne; auto].
    pose proof (R b n Hb Hn) as E. rewrite Ha in E. injection E as <-. discriminate.
Qed.

Lemma kept_fresh s q : nodes s !! next_addr s = None -> nodes_kept s (<[next_addr s := q]> (nodes s)).
Proof.
  intros Hf. split.
  - intros b n'. rewrite lookup_insert_Some. intros [[<- <-]|[_ Hb]]; [lia|eauto].
  - intros b n Hb Hn. rewrite lookup_insert_ne; [done|]. intros E. by rewrite E, Hb in Hf.
Qed.

Lemma kept_delete s ns a q : nodes_kept s ns -> nodes s !! a = Some q -> q_next q <> None -> nodes_kept s (delete a ns).
Proof.
  intros [K R] Ha Hq. split.
  - intros b n'. rewrite lookup_delete_Some. intros [_ Hb]. by apply K.
  - intros b n Hb Hn. rewrite lookup_delete_ne; [auto|]. intros ->. congruence.
Qed.

Lemma kept_refl s : nodes_kept s (nodes s).
Proof. split; eauto. Qed.

(** [l] without its first element that satisfies [P] *)
Fixpoint remove_first {A} (P : A -> bool) (l : list A) : list A :=
  match l with
  | [] => []
  | x :: l' => if P x then l' else x :: remove_first P l'
  end.

Lemma remove_first_split {A} (P : A -> bool) pre x post : Forall (fun y => P y = false) pre -> P x = true ->
  remove_first P (pre ++ x :: post) = pre ++ post.
Proof. intros Hpre Hx. induction Hpre as [|y pre Hy _ IH]; simpl; [by rewrite Hx|]. by rewrite Hy, IH. Qed.

Lemma remove_first_none {A} (P : A -> bool) l : Forall (fun y => P y = false) l -> remove_first P l = l.
Proof. induction 1 as [|y l Hy _ IH]; simpl; [done|]. by rewrite Hy, IH. Qed.

Lemma remove_first_sublist {A} (P : A -> bool) l : sublist (remove_first P l) l.
Proof.
  induction l as [|x l IH]; simpl; [constructor|]. destruct (P x); [apply sublist_cons; done|by apply sublist_skip].
Qed.

(** the entry is of the thread [id] *)
Definition has_id (s : st) (id : Z) (x : Z * Z) : bool := bool_decide (t_id <$> tcbs s !! x.2 = Some id).

Lemma wp_get_node s a q (P : queue -> st -> Prop) : nodes s !! a = Some q -> P q s -> wp (get_node a) s P.
Proof. intros Ha HP. unfold get_node. wsimpl. by eapply wp_deref. Qed.
Lemma wp_get_tcb s p t (P : thread -> st -> Prop) : tcbs s !! p = Some t -> P t s -> wp (get_tcb p) s P.
Proof. intros Hp HP. unfold get_tcb. wsimpl. by eapply wp_deref. Qed.

Lemma q_cases (l : list (Z * Z)) : l = [] \/ exists a p l', l = (a, p) :: l'.
Proof. destruct l as [|[a p] l']; [by left|]. right. eauto. Qed.

Section ops.
Context (s : st) (Q : gmap Z (list (Z * Z))) (h : Z) (l : list (Z * Z)).
Hypothesis HQ : queues s Q.
Hypothesis Hl : Q !! h = Some l.

Lemma q_nonzero : (h =? 0) = false.
Proof.
  destruct (qs_chain _ _ HQ _ _ Hl) as [Hc _]. destruct (chain_dom _ _ _ h Hc) as [q Hq]; [by left|].
  destruct (qs_addr _ _ HQ h) as [? _]; [by rewrite Hq|]. apply Z.eqb_neq. lia.
Qed.

Lemma wp_next_of pre post (P : Z -> st -> Prop) : l = pre ++ post -> P (link post) s ->
  wp (next_of (tail_addr h pre)) s P.
Proof.
  intros E HP. destruct (qs_chain _ _ HQ _ _ Hl) as [Hc _]. rewrite E in Hc.
  destruct (chain_head _ _ _ (chain_app _ _ _ _ Hc)) as [t Ht]. unfold next_of. wsimpl.
  eapply wp_get_node; [done|]. by eapply wp_deref.
Qed.

Lemma wp_next_of_head (P : Z -> st -> Prop) : P (link l) s -> wp (next_of h) s P.
Proof. by apply (wp_next_of [] l). Qed.

Lemma wp_thread_of pre c p post (P : Z -> st -> Prop) : l = pre ++ (c, p) :: post -> P p s -> wp (thread_of c) s P.
Proof.
  intros E HP. destruct (qs_chain _ _ HQ _ _ Hl) as [Hc _]. rewrite E in Hc. apply chain_app in Hc.
  destruct Hc as (_ & _ & (x & Hx) & _). unfold thread_of. wsimpl. eapply wp_get_node; [done|]. by eapply wp_deref.
Qed.

Lemma link_nonzero pre c p post : l = pre ++ (c, p) :: post -> (c =? 0) = false.
Proof.
  intros E. destruct (qs_chain _ _ HQ _ _ Hl) as [Hc _]. rewrite E in Hc. apply chain_app in Hc.
  destruct Hc as (_ & Hc & _). by apply Z.eqb_neq.
Qed.

Lemma link_eqb_0 pre post : l = pre ++ post -> (link post =? 0) = match post with [] => true | _ => false end.
Proof. intros E. destruct post as [|[c p] post]; [done|]. by apply (link_nonzero pre c p post). Qed.

(** the first thread *)
Lemma get_first_spec (P : Z -> st -> Prop) :
  (l = [] -> P THREAD_NONE s) ->
  (forall a p l' t, l = (a, p) :: l' -> tcbs s !! p = Some t -> P (t_id t) s) ->
  Forall (fun x => is_Some (tcbs s !! x.2)) l ->
  wp (get_first h) s P.
Proof.
  intros Hnil Hcons Hall. unfold get_first. rewrite q_nonzero. wsimpl. apply wp_next_of_head.
  rewrite (link_eqb_0 [] l) by done. destruct (q_cases l) as [E|(a & p & l' & E)]; rewrite E; wsimpl; [by apply Hnil|].
  apply (wp_thread_of [] a p l'); [done|]. wsimpl. rewrite E in Hall. apply Forall_cons in Hall as [[t Ht] _].
  eapply wp_get_tcb; [done|]. wsimpl. by eapply Hcons.
Qed.

(** the number of threads *)
Lemma queue_count_spec : Z.of_nat (length l) < 2147483648 ->
  wp (queue_count h) s (fun r s' => r = Z.of_nat (length l) /\ s' = s).
Proof.
  intros Hlen. unfold queue_count. rewrite q_nonzero. wsimpl. apply wp_next_of_head.
  rewrite (link_eqb_0 [] l) by done. destruct (q_cases l) as [E|(a & p & l' & E)]; rewrite E at 1; wsimpl; [by rewrite E|].
  clear E.
  apply (wp_while (fun '(curr, count) s' => s' = s /\ exists pre post, l = pre ++ post /\ curr = tail_addr h pre /\
      count = Z.of_nat (length pre)) (fun '(_, count) => Z.of_nat (length l) - count)).
  - split; [done|]. by exists [], l.
  - change (2 ^ 64) with 18446744073709551616. lia.
  - intros [curr count] s' (-> & pre & post & E & -> & ->) _. wsimpl. eapply wp_next_of; [exact E|].
    rewrite (link_eqb_0 pre post) by done. destruct post as [|[c q] post]; cbn [link]; wsimpl.
    + rewrite app_nil_r in E. by subst.
    + rewrite E, length_app in *. cbn [length] in *. rewrite s32_small by lia. split; [split; [done|]|lia].
      exists (pre ++ [(c, q)]), post. rewrite <- app_assoc, tail_addr_snoc, length_app. split_and!; try done.
      cbn [length]. lia.
Qed.

(** one queue is changed and the others are kept *)
Lemma queues_change l' ns na c : chain ns h l' -> NoDup (h :: l'.*1) ->
  (forall a, a ∈ l'.*1 -> a ∈ l.*1 \/ nodes s !! a = None) ->
  (forall a, (a ∉ h :: l.*1) -> (a ∉ l'.*1) -> ns !! a = nodes s !! a) ->
  (forall a, is_Some (ns !! a) -> 0 < a < na) -> 0 < na ->
  queues (with_q ns na c s) (<[h := l']> Q).
Proof.
  intros Hc Hnd Hnew Hsame Hns Hna.
  assert (Hout : forall h2 l2 a, h2 <> h -> Q !! h2 = Some l2 -> a ∈ h2 :: l2.*1 -> (a ∉ h :: l.*1) /\ (a ∉ l'.*1)).
  { intros h2 l2 a Hne H2 Ha. assert (Ha1 : a ∉ h :: l.*1) by (intros Hin; by eapply Hne, (qs_disj _ _ HQ)).
    split; [done|]. intros [Hin|Hin]%Hnew; [apply Ha1; by right|].
    destruct (qs_chain _ _ HQ _ _ H2) as [Hc2 _]. destruct (chain_dom _ _ _ _ Hc2 Ha). congruence. }
  assert (Hin' : forall a, a ∈ h :: l'.*1 -> (a ∈ h :: l.*1) \/ a ∈ l'.*1).
  { intros a [->|Ha]%elem_of_cons; [left; by left|by right]. }
  split; simpl; [| |done|done].
  - intros h2 l2. rewrite lookup_insert_Some. intros [[<- <-]|[Hne H2]]; [done|].
    destruct (qs_chain _ _ HQ _ _ H2) as [Hc2 Hnd2]. split; [|done]. apply (chain_frame (nodes s)); [|done].
    intros a Ha. by apply Hsame; eapply Hout.
  - intros h1 h2 l1 l2 a. rewrite !lookup_insert_Some. intros [[<- <-]|[H1 H1']] [[<- <-]|[H2 H2']] Ha1 Ha2; [done| | |].
    + destruct (Hout h2 l2 a) as [? ?]; try done. destruct (Hin' a Ha1); done.
    + destruct (Hout h1 l1 a) as [? ?]; try done. destruct (Hin' a Ha2); done.
    + by eapply (qs_disj _ _ HQ).
Qed.

(** the walk to the last node *)
Lemma wp_walk (P : Z -> st -> Prop) : Z.of_nat (length l) < 2147483648 -> P (tail_addr h l) s ->
  wp (while_ (fun temp => next ← next_of temp; if next =? 0 then mret (inr temp) else mret (inl next)) h) s P.
Proof.
  intros Hlen HP.
  apply (wp_while_var (fun n temp s' => s' = s /\ exists pre post, l = pre ++ post /\ temp = tail_addr h pre /\
    n = Z.of_nat (length post)) (Z.of_nat (length l))).
  - split; [done|]. by exists [], l.
  - change (2 ^ 64) with 18446744073709551616. lia.
  - intros n temp s' (-> & pre & post & E & -> & ->) _. wsimpl. eapply wp_next_of; [exact E|].
    rewrite (link_eqb_0 pre post) by done. destruct post as [|[c q] post]; cbn [link]; wsimpl.
    + rewrite app_nil_r in E. by subst.
    + exists (Z.of_nat (length post)). cbn [length]. split; [|lia]. split; [done|].
      exists (pre ++ [(c, q)]), post. by rewrite <- app_assoc, tail_addr_snoc.
Qed.
End ops.

(** the node [malloc] returned belongs to no queue yet *)
Lemma queues_fresh s Q p c : queues s Q ->
  queues (with_q (<[next_addr s := mk_queue (Some p) (Some 0)]> (nodes s)) (next_addr s + 1) c s) Q.
Proof.
  intros [H1 H2 H3 H4]. assert (Hn : nodes s !! next_addr s = None).
  { destruct (nodes s !! next_addr s) eqn:E; [|done]. destruct (H3 (next_addr s)); [by rewrite E|lia]. }
  split; simpl; [|done| |lia].
  - intros h l Hl. destruct (H1 h l Hl) as [Hc Hnd]. split; [|done]. apply (chain_frame (nodes s)); [|done].
    intros a Ha. apply lookup_insert_ne. intros <-. destruct (chain_dom _ _ _ _ Hc Ha). congruence.
  - intros a. destruct (decide (a = next_addr s)) as [->|Hne]; [lia|]. rewrite lookup_insert_ne by done.
    intros Ha%H3. lia.
Qed.

Lemma wp_set_next s a t x n (P : unit -> st -> Prop) : nodes s !! a = Some (mk_queue t x) ->
  P tt (with_nodes (<[a := mk_queue t (Some n)]> (nodes s)) s) -> wp (set_next a n) s P.
Proof. intros Ha HP. unfold set_next, upd_node. wsimpl. eapply wp_get_node; [done|]. by wsimpl. Qed.

(** a thread is added at the end *)
Lemma add_to_queue_spec s Q h l p : mallocs s = [] -> queues s Q -> Q !! h = Some l -> Z.of_nat (length l) < 2147483648 ->
  wp (add_to_queue h p) s (fun _ s' => q_step s s' /\ exists n, queues s' (<[h := l ++ [(n, p)]]> Q)).
Proof.
  intros Hm HQ Hl Hlen. unfold add_to_queue. rewrite (q_nonzero s Q h l) by done. unfold malloc_used, malloc. wsimpl.
  rewrite Hm. wsimpl. pose proof (qs_next _ _ HQ).
  rewrite (proj2 (Z.eqb_neq _ 0)) by lia. wsimpl. unfold add_count_queue, put_node. wsimpl.
  set (n := next_addr s). set (c := s32 (count_queue s + 1)).
  pose proof (queues_fresh s Q p c HQ) as HQ1. fold n in HQ1. set (s1 := with_q _ _ c s) in HQ1.
  destruct (qs_chain _ _ HQ _ _ Hl) as [Hc Hnd].
  destruct (qs_chain _ _ HQ1 _ _ Hl) as [Hc1 _]. rewrite <- (app_nil_r l) in Hc1.
  destruct (chain_head _ _ _ (chain_app _ _ _ _ Hc1)) as [t Ht].
  assert (Hn : nodes s !! n = None).
  { destruct (nodes s !! n) eqn:E; [|done]. destruct (qs_addr _ _ HQ n) as [_ Hlt]; [by rewrite E|]. lia. }
  match goal with |- wp _ ?x _ => replace x with s1
    by (subst s1; unfold with_q; rewrite Hm; done) end.
  assert (Hend : wp (set_next (tail_addr h l) n) s1 (fun _ s' => q_step s s' /\ exists n, queues s' (<[h := l ++ [(n, p)]]> Q))).
  { eapply wp_set_next; [exact Ht|].
    split; [eexists _, _, _; split; [|split; [|done]]; [cbn; lia|by eapply kept_link; [apply kept_fresh|exact Ht]]|]. exists n.
    assert (Hdom : forall a, a ∈ h :: l.*1 -> n <> a).
    { intros a Ha <-. destruct (chain_dom _ _ _ _ Hc Ha). congruence. }
    pose proof (tail_addr_in h l) as Hin. cbn in Ht. rewrite lookup_insert_ne in Ht by auto.
    apply (queues_change s Q h l HQ Hl); cbn.
    - eapply chain_push; try done. lia.
    - rewrite fmap_app. cbn. rewrite app_comm_cons. apply NoDup_app. split_and!; [done| |apply NoDup_singleton].
      intros a Ha ->%list_elem_of_singleton. by apply (Hdom n).
    - intros a. rewrite fmap_app, elem_of_app. intros [?| ->%list_elem_of_singleton]; [by left|by right].
    - intros a Ha. rewrite fmap_app, not_elem_of_app. intros [_ Han%not_elem_of_cons]. cbn in Han.
      rewrite !lookup_insert_ne; [done|naive_solver|]. intros E. by rewrite <- E in Ha.
    - intros a. rewrite !lookup_insert_is_Some. intros [<-|[_ [<-|[_ Ha]]]]; [|lia|apply (qs_addr _ _ HQ) in Ha; lia].
      destruct (qs_addr _ _ HQ (tail_addr h l)); [by rewrite Ht|]. lia.
    - lia. }
  apply (wp_next_of_head s1 Q h l); [done..|]. rewrite (link_eqb_0 s1 Q h l HQ1 Hl [] l) by done.
  destruct l as [|x l']; [exact Hend|]. wsimpl. by apply (wp_walk s1 Q h (x :: l')).
Qed.

Lemma q_step_tcbs s s' : q_step s s' -> tcbs s' = tcbs s.
Proof. by intros (? & ? & ? & ? & ? & ->). Qed.

(** the search for the entry of the thread [id] *)
Section delete.
Context (s : st) (Q : gmap Z (list (Z * Z))) (h : Z) (l : list (Z * Z)) (id : Z).
Hypothesis HQ : queues s Q.
Hypothesis Hl : Q !! h = Some l.
Hypothesis Hlen : Z.of_nat (length l) < 2147483648.
Hypothesis Hall : Forall (fun x => is_Some (tcbs s !! x.2)) l.

Lemma wp_node_id pre c q post (P : Z -> st -> Prop) : l = pre ++ (c, q) :: post ->
  (forall i, (i =? id) = has_id s id (c, q) -> P i s) -> wp (node_id c) s P.
Proof.
  intros E' HP. unfold node_id. wsimpl. eapply (wp_thread_of s Q h l HQ Hl); [exact E'|]. wsimpl.
  pose proof Hall as Ha. rewrite E' in Ha. apply Forall_app in Ha as [_ [[t Ht] _]%Forall_cons].
  eapply wp_get_tcb; [exact Ht|].
  wsimpl. apply HP. unfold has_id. cbn [snd] in *. rewrite Ht. cbn. destruct (Z.eqb_spec (t_id t) id) as [->|Hne].
  - by rewrite bool_decide_true.
  - rewrite bool_decide_false; [done|]. congruence.
Qed.

(** the loop stops at the first entry of [id], or at the last entry *)
Definition stopped (prev curr : Z) : Prop := exists pre q post, l = pre ++ (curr, q) :: post /\
  prev = tail_addr h pre /\ Forall (fun y => has_id s id y = false) pre /\
  (has_id s id (curr, q) = true \/ post = []).

Lemma delete_search a p l' : l = (a, p) :: l' ->
  wp (while_ (fun '(prev, curr) =>
    i ← node_id curr;
    if i =? id then mret (inr (prev, curr)) else
    next ← next_of curr;
    if next =? 0 then mret (inr (prev, curr)) else mret (inl (curr, next))) (h, a)) s
    (fun '(prev, curr) s' => s' = s /\ stopped prev curr).
Proof.
  intros E.
  apply (wp_while_var (fun n '(prev, curr) s' => s' = s /\ exists pre q post, l = pre ++ (curr, q) :: post /\
    prev = tail_addr h pre /\ Forall (fun y => has_id s id y = false) pre /\ n = Z.of_nat (length post))
    (Z.of_nat (length l'))).
  - split; [done|]. exists [], p, l'. split_and!; try done.
  - rewrite E in Hlen. cbn [length] in Hlen. change (2 ^ 64) with 18446744073709551616. lia.
  - intros n [prev curr] s' (-> & pre & q & post & E' & -> & Hpre & ->) _. wsimpl.
    eapply wp_node_id; [exact E'|]. intros i Hi. rewrite Hi. destruct (has_id s id (curr, q)) eqn:Hid.
    + wsimpl. split; [done|]. exists pre, q, post. split_and!; try done. by left.
    + wsimpl. replace curr with (tail_addr h (pre ++ [(curr, q)])) at 1 by apply tail_addr_snoc.
      rewrite cons_middle, app_assoc in E'. eapply (wp_next_of s Q h l HQ Hl); [exact E'|].
      rewrite (link_eqb_0 s Q h l HQ Hl _ post E'). rewrite <- app_assoc in E'.
      destruct post as [|[c r] post]; wsimpl.
      * split; [done|]. exists pre, q, []. split_and!; try done. by right.
      * exists (Z.of_nat (length post)). cbn [link length]. split; [split; [done|]|lia].
        exists (pre ++ [(curr, q)]), r, post. rewrite tail_addr_snoc, <- app_assoc. split_and!; try done.
        apply Forall_app_2; [done|]. by apply Forall_singleton.
Qed.

(** the first entry of the thread [id] is taken out *)
Lemma delete_from_queue_spec : wp (delete_from_queue h id) s (fun _ s' =>
    q_step s s' /\ queues s' (<[h := remove_first (has_id s id) l]> Q)).
Proof.
  unfold delete_from_queue. rewrite (q_nonzero s Q h l) by done. wsimpl. apply (wp_next_of_head s Q h l); [done..|].
  rewrite (link_eqb_0 s Q h l HQ Hl [] l) by done. destruct (q_cases l) as [E|(a & p & l' & E)]; rewrite E at 1; wsimpl.
  { split; [done|]. rewrite E. simpl. by rewrite insert_id by congruence. }
  eapply wp_mono; [rewrite E; by eapply delete_search|].
  intros [prev curr] s' (-> & pre & q & post & E' & -> & Hpre & Hor). wsimpl.
  eapply wp_node_id; [exact E'|]. intros i ->. destruct (has_id s id (curr, q)) eqn:Hid.
  2: { wsimpl. split; [done|]. destruct Hor as [?| ->]; [done|]. rewrite remove_first_none; [by rewrite insert_id|].
    rewrite E'. apply Forall_app_2; [done|]. by apply Forall_singleton. }
  rewrite E', remove_first_split by done. destruct (qs_chain _ _ HQ _ _ Hl) as [Hc Hnd].
  assert (E2 : l = (pre ++ [(curr, q)]) ++ post) by by rewrite <- app_assoc.
  wsimpl. replace (next_of curr) with (next_of (tail_addr h (pre ++ [(curr, q)]))) by by rewrite tail_addr_snoc.
  eapply (wp_next_of s Q h l HQ Hl); [exact E2|]. wsimpl.
  destruct (chain_head _ _ _ (chain_app _ _ pre _ (eq_ind l (chain (nodes s) h) Hc _ E'))) as [t Ht].
  eapply wp_set_next; [exact Ht|]. wsimpl. unfold free_node. wsimpl.
  pose proof Hc as Hc2. rewrite E' in Hc2, Hnd. pose proof (chain_unlink _ _ _ _ _ _ _ _ Hc2 Hnd Ht) as Hc3.
  destruct (chain_dom _ _ _ curr Hc2) as [x Hx].
  { right. rewrite fmap_app, elem_of_app. right. by left. }
  assert (Hne : tail_addr h pre <> curr).
  { intros E3. rewrite fmap_app, app_comm_cons in Hnd. apply NoDup_app in Hnd as (_ & Hd & _).
    apply (Hd curr); [|by left]. rewrite <- E3. apply tail_addr_in. }
  eapply wp_get_node; [cbn; by rewrite lookup_insert_ne by done|]. wsimpl. unfold add_count_queue. wsimpl.
  assert (Hqx : q_next x <> None).
  { pose proof (chain_app _ _ _ _ Hc2) as (_ & _ & _ & Hcc). apply chain_head in Hcc as [y Hcc].
    rewrite Hx in Hcc. by injection Hcc as ->. }
  split; [eexists _, _, _; split; [|split; [|done]]; [cbn; lia|]|rewrite <- E' in *].
  { eapply kept_delete; [by eapply kept_link; [apply kept_refl|exact Ht]|exact Hx|done]. }
  apply (queues_change s Q h l HQ Hl); cbn; [done| | | | |apply (qs_next _ _ HQ)].
  - revert Hnd. rewrite E', !fmap_app. cbn. rewrite !NoDup_cons, !NoDup_app, NoDup_cons, !not_elem_of_app, not_elem_of_cons.
    intros ([? [? ?]] & ? & Hdis & ? & ?). split_and!; try done. intros b Ha Hb. apply (Hdis b Ha). by right.
  - intros b. rewrite E', !fmap_app, !elem_of_app. cbn. rewrite elem_of_cons. tauto.
  - intros b Ha _. assert (Hca : curr <> b).
    { intros <-. apply Ha. rewrite E', fmap_app. right. apply elem_of_app. right. by left. }
    rewrite lookup_delete_ne, lookup_insert_ne; [done| |done]. intros E3. apply Ha. rewrite <- E3, E', fmap_app.
    rewrite app_comm_cons. apply elem_of_app. left. apply tail_addr_in.
  - intros b [Hac Ha]%lookup_delete_is_Some. rewrite lookup_insert_is_Some' in Ha. apply (qs_addr _ _ HQ).
    destruct Ha as [<-|Ha]; [by rewrite Ht|done].
Qed.
End delete.
