(* ===== verification/ThreadSpec.v ===== *)
(** * The scheduler that threads/thread.c implements

    [sched] is the abstract state of the library: the status of each thread, the
    ready queue and the wait queues, as sequences of thread identifiers.
    [repr s a] says that the storage of [s] represents it, and the operations of
    threads/thread.c are shown to implement operations on [sched]: first in,
    first out. *)

From stdpp Require Import base gmap list list_numbers.
From Stdlib Require Import ZArith Lia.
From S2P Require Import Prelude Words Threads QueueSpec.
#[local] Open Scope Z_scope.

(** ** The abstract scheduler *)

Record sched : Type := mk_sched {
  table : gmap Z Status;             (* the threads that exist *)
  ready : list Z;                    (* the ready queue *)
  waiting : gmap Z (list Z);         (* the wait queues, by address *)
}.

(** exactly one thread runs, and every other one is in the queue of its status *)
Record sched_ok (a : sched) (cur : Z) : Prop := {
  so_running : forall i, table a !! i = Some RUNNING <-> i = cur;
  so_ready : forall i, i ∈ ready a <-> table a !! i = Some READY;
  so_blocked : forall i, (exists wq ids, waiting a !! wq = Some ids /\ i ∈ ids) <-> table a !! i = Some BLOCKED;
  so_ready_nodup : NoDup (ready a);
  so_wait_nodup : forall wq ids, waiting a !! wq = Some ids -> NoDup ids;
  so_wait_disj : forall wq wq' ids ids' i, waiting a !! wq = Some ids -> waiting a !! wq' = Some ids' ->
    i ∈ ids -> i ∈ ids' -> wq = wq';
}.

(** the running thread [cur] goes to the end of the ready queue and [id] runs *)
Definition switch_to (cur id : Z) (a : sched) : sched :=
  mk_sched (<[cur := READY]> (<[id := RUNNING]> (table a)))
    (remove_first (fun j => j =? id) (ready a) ++ [cur]) (waiting a).

(** the running thread [cur] waits in [wq] and [id] runs *)
Definition sleep_on (wq cur id : Z) (a : sched) : sched :=
  mk_sched (<[cur := BLOCKED]> (<[id := RUNNING]> (table a)))
    (remove_first (fun j => j =? id) (ready a))
    (<[wq := default [] (waiting a !! wq) ++ [cur]]> (waiting a)).

(** the first thread of [wq] becomes ready *)
Definition wake_one (wq : Z) (a : sched) : sched :=
  match waiting a !! wq with
  | Some (i :: ids) => mk_sched (<[i := READY]> (table a)) (ready a ++ [i]) (<[wq := ids]> (waiting a))
  | _ => a
  end.

(** all threads of [wq] become ready, in order *)
Fixpoint wake_list (ids : list Z) (T : gmap Z Status) : gmap Z Status :=
  match ids with
  | [] => T
  | i :: ids' => wake_list ids' (<[i := READY]> T)
  end.
Definition wake_all (wq : Z) (a : sched) : sched :=
  let ids := default [] (waiting a !! wq) in
  mk_sched (wake_list ids (table a)) (ready a ++ ids) (<[wq := []]> (waiting a)).

(** ** Representation *)

(** the thread [i] is the control block [p] *)
Definition tcb_at (s : st) (i p : Z) : Prop := 0 <= i /\ threads s !! Z.to_nat i = Some p /\ p <> 0.

(** the entries [l] of a queue are those of the threads [ids] *)
Definition of_ids (s : st) : list Z -> list (Z * Z) -> Prop := Forall2 (fun i x => tcb_at s i x.2).

Record tstat (s : st) (T : gmap Z Status) : Prop := {
  ts_len : length (threads s) = 1024%nat;
  ts_dom : forall i, is_Some (T !! i) -> 0 <= i < 1024;
  ts_none : forall i, 0 <= i < 1024 -> T !! i = None -> threads s !! Z.to_nat i = Some 0;
  ts_some : forall i x, T !! i = Some x ->
    exists p t, tcb_at s i p /\ tcbs s !! p = Some t /\ t_id t = i /\ t_status t = x;
  ts_addr : forall p, is_Some (tcbs s !! p) -> 0 < p < next_addr s;
}.

(** the head of a wait queue whose [next] was never written: thread_create and
    thread_init leave it as malloc returned it *)
Definition raw (s : st) (h : Z) : Prop := exists t, nodes s !! h = Some (mk_queue t None).

Record qrep (s : st) (R : list Z) (W : gmap Z (list Z)) (Q : gmap Z (list (Z * Z))) : Prop := {
  qr_q : queues s Q;
  qr_ready : exists l, Q !! ready_queue s = Some l /\ of_ids s R l;
  qr_wait : forall wq ids, W !! wq = Some ids -> exists h l, wqs s !! wq = Some h /\ Q !! h = Some l /\ of_ids s ids l;
  qr_ne : forall wq, is_Some (W !! wq) -> wqs s !! wq <> Some (ready_queue s);
  qr_inj : forall wq wq' h, is_Some (W !! wq) -> is_Some (W !! wq') ->
    wqs s !! wq = Some h -> wqs s !! wq' = Some h -> wq = wq';
  qr_null : W !! 0 = None;
  qr_addr : forall wq, is_Some (wqs s !! wq) -> 0 < wq < next_addr s;
  qr_dom : forall wq h, wqs s !! wq = Some h -> is_Some (W !! wq) \/ zeroed s = false /\ raw s h;
  qr_heads : zeroed s = true -> forall wq h, wqs s !! wq = Some h -> exists x, nodes s !! h = Some (mk_queue (Some 0) x);
}.

Definition repr (s : st) (a : sched) : Prop :=
  tstat s (table a) /\ exists Q, qrep s (ready a) (waiting a) Q.

(** ** Threads and their control blocks *)

Section tstat.
Context (s : st) (T : gmap Z Status).
Hypothesis HT : tstat s T.

Lemma tcb_lookup i p : tcb_at s i p -> exists t x, tcbs s !! p = Some t /\ T !! i = Some x /\ t_id t = i /\ t_status t = x.
Proof.
  intros (Hi & Hp & Hp0).
  assert (Hlt : 0 <= i < 1024).
  { apply lookup_lt_Some in Hp. rewrite (ts_len _ _ HT) in Hp. lia. }
  destruct (T !! i) as [x|] eqn:E.
  - destruct (ts_some _ _ HT _ _ E) as (p' & t & (_ & Hp' & _) & Ht & Hid & Hx).
    replace p' with p in Ht by congruence. eauto 10.
  - apply (ts_none _ _ HT) in E; [|done]. congruence.
Qed.

Lemma tcb_inj i j p : tcb_at s i p -> tcb_at s j p -> i = j.
Proof.
  intros (t & x & Ht & _ & <- & _)%tcb_lookup (t' & x' & Ht' & _ & <- & _)%tcb_lookup. congruence.
Qed.

Lemma tcb_fun i p p' : tcb_at s i p -> tcb_at s i p' -> p = p'.
Proof. intros (_ & H1 & _) (_ & H2 & _). congruence. Qed.

Lemma tcb_of i x : T !! i = Some x -> exists p, tcb_at s i p.
Proof. intros (p & t & Hp & _)%(ts_some _ _ HT). eauto. Qed.

Lemma wp_thread_at i p (P : Z -> st -> Prop) : tcb_at s i p -> P p s -> wp (thread_at i) s P.
Proof.
  intros (Hi & Hp & _) HP. unfold thread_at. wsimpl. rewrite (proj2 (Z.ltb_ge i 0)) by done.
  by eapply wp_deref.
Qed.

Lemma wp_status p i x (P : unit -> st -> Prop) t : tcb_at s i p -> tcbs s !! p = Some t ->
  P tt (with_tcbs (<[p := set_t_status x t]> (tcbs s)) s) -> wp (upd_tcb p (set_t_status x)) s P.
Proof. intros Hp Ht HP. unfold upd_tcb. wsimpl. eapply wp_get_tcb; [done|]. by wsimpl. Qed.

(** changing the control block of the thread [i] *)
Lemma tstat_upd i p t t' : tcb_at s i p -> tcbs s !! p = Some t -> t_id t' = t_id t ->
  tstat (with_tcbs (<[p := t']> (tcbs s)) s) (<[i := t_status t']> T).
Proof.
  intros Hp Ht Hid. destruct (tcb_lookup i p Hp) as (t1 & x & Ht1 & Hx & Hi & _).
  replace t1 with t in * by congruence. pose proof HT as [H1 H2 H3 H4 H5]. split; simpl; [done| | | |].
  - intros j. rewrite lookup_insert_is_Some'. intros [<-|?]; [|by apply H2]. apply H2. by rewrite Hx.
  - intros j Hj. rewrite lookup_insert_None. intros [? _]. by apply H3.
  - intros j y. rewrite lookup_insert_Some. intros [[<- <-]|[Hne Hy]].
    + exists p, t'. rewrite lookup_insert_eq. split_and!; try done. congruence.
    + destruct (H4 j y Hy) as (q & u & Hq & Hu & ? & ?). exists q, u. split_and!; try done.
      rewrite lookup_insert_ne; [done|]. intros <-. by apply Hne, (tcb_inj i j p).
  - intros q. rewrite lookup_insert_is_Some'. intros [<-|?]; apply H5; [by rewrite Ht|done].
Qed.

Lemma tstat_keep i p t t' : tcb_at s i p -> tcbs s !! p = Some t -> t_id t' = t_id t -> t_status t' = t_status t ->
  tstat (with_tcbs (<[p := t']> (tcbs s)) s) T.
Proof.
  intros Hp Ht Hid Hs. pose proof (tstat_upd i p t t' Hp Ht Hid) as H.
  destruct (tcb_lookup i p Hp) as (t1 & x & Ht1 & Hx & _ & Hst). replace t1 with t in * by congruence.
  rewrite (insert_id T) in H; [done|]. congruence.
Qed.
End tstat.

Lemma tstat_q_step s s' T : q_step s s' -> tstat s T -> tstat s' T.
Proof. intros (ns & na & c & Hna & Hnk & ->) [H1 H2 H3 H4 H5]. split; try done. cbn. intros p Hp%H5. lia. Qed.

(** ** The queues *)

Lemma of_ids_q_step s s' ids l : q_step s s' -> of_ids s ids l -> of_ids s' ids l.
Proof. by intros (ns & na & c & Hna & Hnk & ->). Qed.

(** what the representation of the queues depends on *)
Definition same_queues (s s' : st) : Prop :=
  threads s' = threads s /\ nodes s' = nodes s /\ wqs s' = wqs s /\ ready_queue s' = ready_queue s /\
  next_addr s' = next_addr s /\ zeroed s' = zeroed s.

(** solves [same_queues s s'] when [s'] updates other fields of [s] *)
Ltac same_q := unfold same_queues; split_and!; reflexivity.

Lemma qrep_same s s' R W Q : same_queues s s' -> qrep s R W Q -> qrep s' R W Q.
Proof.
  intros (E1 & E2 & E3 & E4 & E5 & E7) [[H1 H2 H3 H4] Hr Hw Hne Hi Hn Ha Hd Hz].
  assert (Ho : of_ids s' = of_ids s) by (unfold of_ids, tcb_at; by rewrite E1).
  assert (Er : raw s' = raw s) by (unfold raw; by rewrite E2).
  split; rewrite ?E2, ?E3, ?E4, ?E5, ?E7, ?Ho, ?Er; try done. by split; rewrite ?E2, ?E5.
Qed.

(** the heads of the wait queues after an operation on the queues *)
Lemma heads_step s s' R W Q Q' : qrep s R W Q -> q_step s s' -> queues s' Q' ->
  (forall h, is_Some (Q !! h) -> is_Some (Q' !! h)) ->
  (forall h, raw s h -> raw s' h) /\
  (zeroed s' = true -> forall wq h, wqs s' !! wq = Some h -> exists x, nodes s' !! h = Some (mk_queue (Some 0) x)).
Proof.
  intros HQ (ns & na & c & Hna & [K1 K2] & ->) HQ' HQQ. split.
  - intros h [t Ht]. exists t. by apply K2.
  - cbn. intros Hz wq h Hh. destruct (qr_dom _ _ _ _ HQ wq h Hh) as [[ids Hids]|[? _]]; [|congruence].
    destruct (qr_wait _ _ _ _ HQ _ _ Hids) as (h' & l & Hh' & Hl & _). replace h' with h in * by congruence.
    destruct (HQQ h) as [l' Hl']; [by rewrite Hl|]. destruct (qs_chain _ _ HQ' _ _ Hl') as [Hc _].
    destruct (chain_head _ _ _ Hc) as [t Ht]. destruct (qr_heads _ _ _ _ HQ Hz wq h Hh) as [x Hx].
    destruct (K1 h _ Ht) as (n & Hn & En); [apply (qs_addr _ _ (qr_q _ _ _ _ HQ)); by rewrite Hx|].
    cbn in Ht. rewrite Ht. replace n with (mk_queue (Some 0) x) in En by congruence. cbn in En. subst t. by eexists.
Qed.

Lemma is_Some_insert_queue (Q : gmap Z (list (Z * Z))) i x j : is_Some (Q !! j) -> is_Some (<[i := x]> Q !! j).
Proof. rewrite lookup_insert_is_Some'. auto. Qed.

Lemma qrep_set_ready s s' R W Q R' l' : qrep s R W Q -> q_step s s' -> queues s' (<[ready_queue s := l']> Q) ->
  of_ids s R' l' -> qrep s' R' W (<[ready_queue s := l']> Q).
Proof.
  intros HQ Hst Hq' Ho. destruct (heads_step _ _ _ _ _ _ HQ Hst Hq') as [Hraw Hhd]; [intros h; apply is_Some_insert_queue|].
  destruct HQ as [Hq Hr Hw Hne Hi Hn Ha Hdm Hz]. destruct Hst as (ns & na & c & Hna & Hnk & ->).
  split; simpl; try done.
  - exists l'. by rewrite lookup_insert_eq.
  - intros wq ids Hids. destruct (Hw wq ids Hids) as (h & l & Hh & Hl & Hids'). exists h, l. split_and!; [done| |done].
    rewrite lookup_insert_ne; [done|]. intros E. apply (Hne wq); [by rewrite Hids|]. congruence.
  - intros wq Hwq%Ha. lia.
  - intros wq h [?|[? ?]]%Hdm; auto.
Qed.

Lemma qrep_set_wait s s' R W Q wq h ids ids' l' : qrep s R W Q -> q_step s s' -> W !! wq = Some ids ->
  wqs s !! wq = Some h -> queues s' (<[h := l']> Q) -> of_ids s ids' l' -> qrep s' R (<[wq := ids']> W) (<[h := l']> Q).
Proof.
  intros HQ Hst Hids Hh Hq' Ho. destruct (heads_step _ _ _ _ _ _ HQ Hst Hq') as [Hraw Hhd]; [intros g; apply is_Some_insert_queue|].
  destruct HQ as [Hq Hr Hw Hne Hi Hn Ha Hdm Hz]. destruct Hst as (ns & na & c & Hna & Hnk & ->).
  assert (Hs : forall v, is_Some (<[wq := ids']> W !! v) <-> is_Some (W !! v)).
  { intros v. rewrite lookup_insert_is_Some'. split; [|by right]. intros [<-|?]; [by rewrite Hids|done]. }
  split; simpl; [done|..|done].
  - destruct Hr as (l & Hl & Hlo). exists l. split; [|done]. rewrite lookup_insert_ne; [done|].
    intros E. apply (Hne wq); [by rewrite Hids|]. congruence.
  - intros v vs. rewrite lookup_insert_Some. intros [[<- <-]|[Hv Hvs]].
    + exists h, l'. by rewrite lookup_insert_eq.
    + destruct (Hw v vs Hvs) as (h' & l & Hh' & Hl & Hvo). exists h', l. split_and!; [done| |done].
      rewrite lookup_insert_ne; [done|]. intros <-. apply Hv, (Hi wq v h); [by rewrite Hids|by rewrite Hvs|done|done].
  - intros v Hv%Hs. by apply Hne.
  - intros v v' h' Hv%Hs Hv'%Hs. by apply Hi.
  - apply lookup_insert_None. split; [done|]. intros ->. congruence.
  - intros v Hv%Ha. lia.
  - intros v g [Hv|[? ?]]%Hdm; [left; by apply Hs|auto].
Qed.

Section queue_ops.
Context (s : st) (T : gmap Z Status) (R : list Z) (W : gmap Z (list Z)) (Q : gmap Z (list (Z * Z))).
Hypothesis HT : tstat s T.
Hypothesis HQ : qrep s R W Q.

Lemma of_ids_tcbs ids l : of_ids s ids l -> Forall (fun x => is_Some (tcbs s !! x.2)) l.
Proof.
  induction 1 as [|i x ids l Hx _ IH]; constructor; [|done].
  destruct (tcb_lookup s T HT _ _ Hx) as (t & _ & Ht & _). by rewrite Ht.
Qed.

Lemma has_id_eqb i j p a : tcb_at s i p -> has_id s j (a, p) = (i =? j).
Proof.
  intros (t & x & Ht & _ & <- & _)%(tcb_lookup s T HT). unfold has_id. cbn [snd]. rewrite Ht. cbn.
  destruct (Z.eqb_spec (t_id t) j) as [->|Hne]; [by apply bool_decide_true|]. apply bool_decide_false. congruence.
Qed.

Lemma of_ids_remove id ids l : of_ids s ids l ->
  of_ids s (remove_first (fun j => j =? id) ids) (remove_first (has_id s id) l).
Proof.
  induction 1 as [|i [a p] ids l Hx Hids IH]; cbn [remove_first]; [constructor|]. rewrite (has_id_eqb i) by done.
  destruct (i =? id); [done|]. by constructor.
Qed.

Lemma of_ids_snoc ids l i n p : of_ids s ids l -> tcb_at s i p -> of_ids s (ids ++ [i]) (l ++ [(n, p)]).
Proof. intros H1 H2. apply Forall2_app; [done|]. by constructor. Qed.

Lemma ids_bound ids l : NoDup ids -> of_ids s ids l -> Z.of_nat (length l) <= 1024.
Proof.
  intros Hnd Ho. rewrite <- (Forall2_length _ _ _ Ho).
  assert (Hsub : ids ⊆+ seqZ 0 1024).
  { apply NoDup_submseteq; [done|]. intros i Hi. apply elem_of_seqZ.
    assert (Hall : Forall (fun i => 0 <= i < 1024) ids); [|by eapply Forall_forall in Hall].
    clear -Ho HT. induction Ho as [|i x ids l Hx _ IH]; constructor; [|done].
    destruct (tcb_lookup s T HT _ _ Hx) as (t & y & _ & Hy & _). apply (ts_dom _ _ HT). by rewrite Hy. }
  apply submseteq_length in Hsub. rewrite length_seqZ in Hsub. lia.
Qed.

(** the first thread of a queue *)
Lemma first_spec h l ids (P : Z -> st -> Prop) : Q !! h = Some l -> of_ids s ids l ->
  P (default THREAD_NONE (head ids)) s -> wp (get_first h) s P.
Proof.
  intros Hl Ho HP. eapply get_first_spec; [apply HQ|exact Hl| | |by eapply of_ids_tcbs].
  - intros ->. inversion Ho; subst. done.
  - intros a p l' t -> Ht. inversion Ho as [|i ? ids' ? Hi]; subst.
    destruct (tcb_lookup s T HT _ _ Hi) as (t' & _ & Ht' & _ & Hid & _). cbn in *. congruence.
Qed.

Lemma ready_first (P : Z -> st -> Prop) : P (default THREAD_NONE (head R)) s -> wp (get_first (ready_queue s)) s P.
Proof. destruct (qr_ready _ _ _ _ HQ) as (l & Hl & Ho). by apply (first_spec _ l). Qed.

Lemma ready_delete id : NoDup R -> wp (delete_from_queue (ready_queue s) id) s (fun _ s' =>
  q_step s s' /\ exists Q', qrep s' (remove_first (fun j => j =? id) R) W Q').
Proof.
  intros Hnd. destruct (qr_ready _ _ _ _ HQ) as (l & Hl & Ho). pose proof (ids_bound _ _ Hnd Ho).
  eapply wp_mono; [apply (delete_from_queue_spec s Q _ l); [apply HQ|done|lia|by eapply of_ids_tcbs]|].
  intros _ s' [Hs Hq]. split; [done|]. eexists. eapply qrep_set_ready; try done. by apply of_ids_remove.
Qed.

Lemma ready_add i p : mallocs s = [] -> NoDup R -> tcb_at s i p -> wp (add_to_queue (ready_queue s) p) s (fun _ s' =>
  q_step s s' /\ exists Q', qrep s' (R ++ [i]) W Q').
Proof.
  intros Hm Hnd Hp. destruct (qr_ready _ _ _ _ HQ) as (l & Hl & Ho). pose proof (ids_bound _ _ Hnd Ho).
  eapply wp_mono; [apply (add_to_queue_spec s Q _ l); [done|apply HQ|done|lia]|].
  intros _ s' [Hs (n & Hq)]. split; [done|]. eexists. eapply qrep_set_ready; try done. by apply of_ids_snoc.
Qed.

Lemma wait_first wq h ids (P : Z -> st -> Prop) : W !! wq = Some ids -> wqs s !! wq = Some h ->
  P (default THREAD_NONE (head ids)) s -> wp (get_first h) s P.
Proof.
  intros Hids Hh HP. destruct (qr_wait _ _ _ _ HQ _ _ Hids) as (h' & l & Hh' & Hl & Ho).
  replace h' with h in * by congruence. by apply (first_spec _ l ids).
Qed.

Lemma wait_delete wq h ids id : W !! wq = Some ids -> wqs s !! wq = Some h -> NoDup ids ->
  wp (delete_from_queue h id) s (fun _ s' =>
    q_step s s' /\ exists Q', qrep s' R (<[wq := remove_first (fun j => j =? id) ids]> W) Q').
Proof.
  intros Hids Hh Hnd. destruct (qr_wait _ _ _ _ HQ _ _ Hids) as (h' & l & Hh' & Hl & Ho).
  replace h' with h in * by congruence. pose proof (ids_bound _ _ Hnd Ho).
  eapply wp_mono; [apply (delete_from_queue_spec s Q _ l); [apply HQ|done|lia|by eapply of_ids_tcbs]|].
  intros _ s' [Hs Hq]. split; [done|]. eexists. eapply qrep_set_wait; try done. by apply of_ids_remove.
Qed.

Lemma wait_add wq h ids i p : mallocs s = [] -> W !! wq = Some ids -> wqs s !! wq = Some h -> NoDup ids -> tcb_at s i p ->
  wp (add_to_queue h p) s (fun _ s' =>
    q_step s s' /\ exists Q', qrep s' R (<[wq := ids ++ [i]]> W) Q').
Proof.
  intros Hm Hids Hh Hnd Hp. destruct (qr_wait _ _ _ _ HQ _ _ Hids) as (h' & l & Hh' & Hl & Ho).
  replace h' with h in * by congruence. pose proof (ids_bound _ _ Hnd Ho).
  eapply wp_mono; [apply (add_to_queue_spec s Q _ l); [done|apply HQ|done|lia]|].
  intros _ s' [Hs (n & Hq)]. split; [done|]. eexists. eapply qrep_set_wait; try done. by apply of_ids_snoc.
Qed.
End queue_ops.

(** ** Searching the array of threads *)

Fixpoint first_ix (b : Z -> bool) (n : nat) (from : Z) : option Z :=
  match n with
  | O => None
  | S n' => if b from then Some from else first_ix b n' (from + 1)
  end.

Lemma first_ix_None b n from : (forall i, from <= i < from + Z.of_nat n -> b i = false) -> first_ix b n from = None.
Proof.
  revert from. induction n as [|n IH]; intros from Hb; simpl; [done|]. rewrite Hb by lia. apply IH. intros i Hi. apply Hb. lia.
Qed.

Lemma first_ix_Some b n from i : from <= i < from + Z.of_nat n -> b i = true ->
  (forall j, from <= j < i -> b j = false) -> first_ix b n from = Some i.
Proof.
  revert from. induction n as [|n IH]; intros from Hi Hbi Hb; [lia|]. simpl.
  destruct (decide (from = i)) as [->|Hne]; [by rewrite Hbi|]. rewrite Hb by lia. apply IH; [lia|done|].
  intros j Hj. apply Hb. lia.
Qed.

Lemma first_ix_inv b n from i : first_ix b n from = Some i ->
  from <= i < from + Z.of_nat n /\ b i = true /\ forall j, from <= j < i -> b j = false.
Proof.
  revert from. induction n as [|n IH]; intros from; simpl; [done|]. destruct (b from) eqn:E.
  - intros [= <-]. split_and!; [lia|lia|done|]. intros j Hj. lia.
  - intros (Hi & Hbi & Hb)%IH. split_and!; [lia|lia|done|]. intros j Hj.
    destruct (decide (j = from)) as [->|Hne]; [done|]. apply Hb. lia.
Qed.

Section search.
Context (s : st) (T : gmap Z Status).
Hypothesis HT : tstat s T.

Lemma first_thread_spec g b (P : option Z -> st -> Prop) :
  (forall i, 0 <= i < 1024 -> exists p, threads s !! Z.to_nat i = Some p /\ g p s = Val (b i, s)) ->
  P (first_ix b 1024 0) s -> wp (first_thread g (threads s) 0) s P.
Proof.
  intros Hg. rewrite <- (ts_len _ _ HT).
  assert (Hg' : forall k p, threads s !! k = Some p -> g p s = Val (b (0 + Z.of_nat k), s)).
  { intros k p Hk. pose proof (lookup_lt_Some _ _ _ Hk) as Hlt. rewrite (ts_len _ _ HT) in Hlt.
    destruct (Hg (Z.of_nat k)) as (q & Hq & Hgq); [lia|]. rewrite Nat2Z.id in Hq. rewrite Z.add_0_l. by simplify_eq. }
  clear Hg. revert Hg'. generalize (threads s) as l. generalize 0 as from.
  intros from l. revert from. induction l as [|p l IH]; intros from Hg; simpl; [done|]. intros HP. apply wp_bind.
  eapply wp_val; [exact (Hg 0%nat p eq_refl)|]. rewrite Z.add_0_r. destruct (b from); [by wsimpl|].
  apply IH; [|done]. intros k q Hk. rewrite (Hg (S k) q Hk). do 3 f_equal. lia.
Qed.

(** the entry of the array for [i], as the table has it *)
Lemma has_status_spec x i : 0 <= i < 1024 -> exists p, threads s !! Z.to_nat i = Some p /\
  has_status x p s = Val (bool_decide (T !! i = Some x), s).
Proof.
  intros Hi. destruct (T !! i) as [y|] eqn:E.
  - destruct (ts_some _ _ HT _ _ E) as (p & t & Hp & Ht & _ & Hy). exists p. destruct Hp as (_ & Hp & Hp0).
    split; [done|]. unfold has_status. rewrite (proj2 (Z.eqb_neq p 0)) by done.
    unfold get_tcb, mbind, M_bind, get. rewrite Ht. simpl. unfold mret, M_ret. do 2 f_equal.
    apply bool_decide_ext. rewrite Hy. split; congruence.
  - exists 0. split; [by apply (ts_none _ _ HT)|]. by rewrite bool_decide_false.
Qed.

Lemma wp_has_status x i p (P : bool -> st -> Prop) : 0 <= i < 1024 -> threads s !! Z.to_nat i = Some p ->
  P (bool_decide (T !! i = Some x)) s -> wp (has_status x p) s P.
Proof.
  intros Hi Hp HP. destruct (has_status_spec x i Hi) as (q & Hq & Hs). replace q with p in Hs by congruence.
  by eapply wp_val.
Qed.

(** the running thread *)
Lemma thread_id_spec cur (P : Z -> st -> Prop) : (forall i, T !! i = Some RUNNING <-> i = cur) ->
  P cur s -> wp thread_id s P.
Proof.
  intros Hrun HP. unfold thread_id. wsimpl.
  apply (first_thread_spec _ (fun i => bool_decide (T !! i = Some RUNNING))); [apply has_status_spec|].
  assert (Hcur : 0 <= cur < 1024) by (apply (ts_dom _ _ HT); rewrite (proj2 (Hrun cur)); done).
  rewrite (first_ix_Some _ _ _ cur); [by wsimpl|lia|by apply bool_decide_true, Hrun|].
  intros j Hj. apply bool_decide_false. rewrite Hrun. lia.
Qed.

(** no thread waits to be freed *)
Lemma free_exited_none (P : Z -> st -> Prop) : (forall i, T !! i <> Some EXITED) ->
  P THREAD_NONE s -> wp free_exited s P.
Proof.
  intros Hex HP. unfold free_exited. wsimpl.
  apply (first_thread_spec _ (fun i => bool_decide (T !! i = Some EXITED))); [apply has_status_spec|].
  rewrite first_ix_None; [by wsimpl|]. intros i _. apply bool_decide_false, Hex.
Qed.

(** the first identifier that is not in use *)
Definition first_free : option Z :=
  first_ix (fun i => bool_decide (T !! i = None \/ T !! i = Some EXITED)) 1024 0.

Lemma get_id_spec (P : Z -> st -> Prop) : P (default THREAD_NOMORE first_free) s -> wp get_id s P.
Proof.
  intros HP. unfold get_id. wsimpl.
  apply (first_thread_spec _ (fun i => bool_decide (T !! i = None \/ T !! i = Some EXITED))); [|by wsimpl].
  intros i Hi. destruct (T !! i) as [y|] eqn:E.
  - destruct (ts_some _ _ HT _ _ E) as (p & t & (_ & Hp & Hp0) & Ht & _ & Hy). exists p. split; [done|].
    rewrite (proj2 (Z.eqb_neq p 0)) by done. unfold get_tcb, mbind, M_bind, get. rewrite Ht. simpl.
    unfold mret, M_ret. do 2 f_equal. rewrite Hy. apply bool_decide_ext. destruct y; naive_solver.
  - exists 0. split; [by apply (ts_none _ _ HT)|]. rewrite bool_decide_true by by left. done.
Qed.
End search.

(** ** The table of statuses after an operation *)

Lemma tstat_same s s' T : threads s' = threads s -> tcbs s' = tcbs s -> next_addr s' = next_addr s -> tstat s T -> tstat s' T.
Proof.
  intros E1 E2 E3 [H1 H2 H3 H4 H5]. split; rewrite ?E1, ?E2, ?E3; try done. intros i x Hx.
  unfold tcb_at. rewrite E1. by apply H4.
Qed.

Lemma repr_same s s' a : same_queues s s' -> tcbs s' = tcbs s -> repr s a -> repr s' a.
Proof.
  intros Hs Ht [HT [Q HQ]]. split; [|exists Q; by eapply qrep_same]. by eapply tstat_same; [apply Hs| |apply Hs|].
Qed.

Lemma with_enabled_id s : with_enabled (enabled s) (with_enabled false s) = s.
Proof. by destruct s. Qed.

Lemma remove_first_elem ids (id i : Z) : NoDup ids ->
  i ∈ remove_first (fun j => j =? id) ids <-> i ∈ ids /\ i <> id.
Proof.
  induction 1 as [|x ids Hx Hnd IH]; simpl; [set_solver|]. destruct (Z.eqb_spec x id) as [->|Hne]; set_solver.
Qed.

Lemma remove_first_nodup {A} (P : A -> bool) (l : list A) : NoDup l -> NoDup (remove_first P l).
Proof. intros H. by eapply sublist_NoDup, remove_first_sublist. Qed.

Lemma nodup_snoc (ids : list Z) i : NoDup ids -> (i ∉ ids) -> NoDup (ids ++ [i]).
Proof. intros. apply NoDup_app. split_and!; [done| |apply NoDup_singleton]. set_solver. Qed.

(** what [thread_yield] decides: a result, or the thread to switch to *)
Definition yield_choice (cur want : Z) (a : sched) : Z + Z :=
  if decide (want = THREAD_SELF \/ want = cur) then inl cur
  else if decide (want = THREAD_ANY) then
    match ready a with [] => inl THREAD_NONE | id :: _ => inr id end
  else if decide (want ∈ ready a) then inr want else inl THREAD_INVALID.

(** the locks, the condition variables and the wait queues of the threads stay *)
Record sframe (s s' : st) : Prop := {
  sf_locks : locks s' = locks s;
  sf_cvs : cvs s' = cvs s;
  sf_next : next_addr s <= next_addr s';
  sf_mallocs : mallocs s' = mallocs s;
  sf_zeroed : zeroed s' = zeroed s;
  sf_wqs : forall wq, is_Some (wqs s !! wq) -> is_Some (wqs s' !! wq);
  sf_tcbs : forall p t', tcbs s' !! p = Some t' -> exists t, tcbs s !! p = Some t /\ t_queue t' = t_queue t;
}.

#[export] Instance sframe_preorder : PreOrder sframe.
Proof.
  split.
  - intros s. split; [done|done|lia|done|done|done|eauto].
  - intros s1 s2 s3 [L1 C1 N1 M1 Z1 W1 T1] [L2 C2 N2 M2 Z2 W2 T2]. split; [congruence|congruence|lia|congruence|congruence|auto|].
    intros p t3 (t2 & H2 & E2)%T2. destruct (T1 p t2 H2) as (t1 & ? & ?). exists t1. split; congruence.
Qed.

Lemma sframe_upd s p t t' : tcbs s !! p = Some t -> t_queue t' = t_queue t -> sframe s (with_tcbs (<[p := t']> (tcbs s)) s).
Proof.
  intros Hp Ht. split; [done|done|cbn; lia|done..|]. intros r v. cbn. rewrite lookup_insert_Some. intros [[<- <-]|[_ Hv]]; eauto.
Qed.

Lemma sframe_q_step s s' : q_step s s' -> sframe s s'.
Proof. intros (ns & na & c & ? & Hnk & ->). split; [done..|cbn; eauto]. Qed.

(** the running thread's context was saved as [c], and [id] is to be resumed *)
Definition switched (s s' : st) (cur id : Z) (c : Z -> ucontext) : Prop :=
  exists p q t u, tcb_at s id p /\ tcb_at s cur q /\ tcbs s !! p = Some t /\ pending s' = Some (t_context t) /\
    tcbs s' !! q = Some u /\ t_context u = c p /\ enabled s' = false /\ sframe s s'.

(** two control blocks were rewritten *)
Lemma sframe_two s s' p q t u t' u' : tcbs s !! p = Some t -> tcbs s !! q = Some u ->
  t_queue t' = t_queue t -> t_queue u' = t_queue u -> locks s' = locks s -> cvs s' = cvs s -> next_addr s <= next_addr s' ->
  mallocs s' = mallocs s -> zeroed s' = zeroed s -> wqs s' = wqs s ->
  (forall r v, tcbs s' !! r = Some v -> v = t' /\ r = p \/ v = u' /\ r = q \/ tcbs s !! r = Some v) -> sframe s s'.
Proof.
  intros Hp Hq Ht Hu Hl Hc Hn Hm Hz Hw Hs. split; [done..|by rewrite Hw|]. intros r v [[-> ->]|[[-> ->]|Hv]]%Hs; eauto.
Qed.

Section yield.
Context (s : st) (a : sched) (cur : Z) (k : list frame).
Hypothesis Hr : repr s a.
Hypothesis Hok : sched_ok a cur.
Hypothesis Hm : mallocs s = [].
Hypothesis Hex : forall i, table a !! i <> Some EXITED.

Lemma cur_bound : 0 <= cur < 1024.
Proof. destruct Hr as [HT _]. apply (ts_dom _ _ HT). by rewrite (proj2 (so_running _ _ Hok cur)). Qed.

Lemma ready_bound i : i ∈ ready a -> 0 <= i < 1024 /\ i <> cur.
Proof.
  intros Hi%(so_ready _ _ Hok). destruct Hr as [HT _]. split; [apply (ts_dom _ _ HT); by rewrite Hi|].
  intros ->. rewrite (proj2 (so_running _ _ Hok cur)) in Hi; done.
Qed.

(** the end of [thread_yield], when it has chosen [id] *)
Definition do_switch (id running_id : Z) (enabled : bool) (ready : Z) : M st control :=
  ready_thread ← thread_at id;
  delete_from_queue ready id;;
  free_exited;;
  running_thread ← thread_at running_id;
  getcontext running_thread (C_yield enabled ready_thread k);;
  upd_tcb ready_thread (set_t_status RUNNING);;
  upd_tcb running_thread (set_t_status READY);;
  add_to_queue ready running_thread;;
  setcontext ready_thread.

Lemma do_switch_spec id : id ∈ ready a ->
  wp (do_switch id cur (enabled s) (ready_queue s)) (with_enabled false s) (fun r s' =>
    r = Switched /\ repr s' (switch_to cur id a) /\ switched s s' cur id (fun p => C_yield (enabled s) p k)).
Proof.
  intros Hid. destruct (ready_bound id Hid) as [Hidb Hne]. destruct Hr as [HT [Q HQ]].
  set (s0 := with_enabled false s).
  assert (HT0 : tstat s0 (table a)) by by apply (tstat_same s).
  assert (HQ0 : qrep s0 (ready a) (waiting a) Q) by (apply (qrep_same s); [same_q|done]).
  destruct (tcb_of s _ HT id READY) as [p Hp]; [by apply (so_ready _ _ Hok)|].
  destruct (tcb_of s _ HT cur RUNNING) as [q Hq]; [by apply (so_running _ _ Hok)|].
  destruct (tcb_lookup s _ HT _ _ Hp) as (t & x & Ht & Hx & Hti & Htx).
  destruct (tcb_lookup s _ HT _ _ Hq) as (u & y & Hu & Hy & Hui & Huy).
  assert (Hpq : q <> p) by (intros ->; by apply Hne, (tcb_inj s _ HT _ _ p)).
  unfold do_switch. wsimpl. apply (wp_thread_at s0 id p); [done|]. wsimpl.
  pose proof (so_ready_nodup _ _ Hok) as Hnd.
  eapply wp_mono; [apply (ready_delete s0 (table a) (ready a) (waiting a) Q); done|].
  intros _ s1 [Hs1 [Q1 HQ1]]. pose proof (tstat_q_step _ _ _ Hs1 HT0) as HT1. wsimpl.
  apply (free_exited_none s1 (table a)); [done..|]. wsimpl. destruct Hs1 as (ns & na & c & Hna & Hnk & ->).
  apply (wp_thread_at _ cur q); [done|]. wsimpl. unfold getcontext, upd_tcb at 1. wsimpl.
  eapply wp_get_tcb; [exact Hu|]. wsimpl.
  set (s1 := with_q ns na c s0) in *. set (u1 := set_t_context _ u). set (s2 := with_tcbs _ s1).
  assert (HT2 : tstat s2 (table a)) by (eapply (tstat_keep s1 _ HT1 cur q u u1); done).
  unfold upd_tcb at 1. wsimpl. eapply (wp_get_tcb s2 p t); [cbn; by rewrite lookup_insert_ne|]. wsimpl.
  set (s3 := with_tcbs _ s2).
  assert (HT3 : tstat s3 (<[id := RUNNING]> (table a))).
  { apply (tstat_upd s2 _ HT2 id p t (set_t_status RUNNING t)); [done|cbn; by rewrite lookup_insert_ne|done]. }
  unfold upd_tcb at 1. wsimpl.
  eapply (wp_get_tcb s3 q u1); [cbn; rewrite lookup_insert_ne, lookup_insert_eq by done; done|]. wsimpl.
  set (s4 := with_tcbs _ s3).
  assert (HT4 : tstat s4 (<[cur := READY]> (<[id := RUNNING]> (table a)))).
  { apply (tstat_upd s3 _ HT3 cur q u1 (set_t_status READY u1)); [done| |done].
    cbn; by rewrite lookup_insert_ne, lookup_insert_eq by done. }
  assert (HQ4 : qrep s4 (remove_first (fun j => j =? id) (ready a)) (waiting a) Q1) by (apply (qrep_same s1); [same_q|done]).
  eapply wp_mono; [apply (ready_add s4 _ _ _ _ HT4 HQ4 cur q); [done|by apply remove_first_nodup|done]|].
  intros _ s5 [Hs5 [Q5 HQ5]]. pose proof (tstat_q_step _ _ _ Hs5 HT4) as HT5.
  destruct Hs5 as (ns5 & na5 & c5 & Hna5 & Hnk5 & ->). unfold setcontext. wsimpl.
  eapply (wp_get_tcb _ p (set_t_status RUNNING t)).
  { cbn. by rewrite lookup_insert_ne, lookup_insert_eq by done. }
  wsimpl. split; [done|]. split.
  - split; [by eapply tstat_same; [| | |exact HT5]|]. exists Q5. eapply qrep_same; [|exact HQ5]. same_q.
  - exists p, q, t, (set_t_status READY u1). split_and!; try done; [cbn; by rewrite lookup_insert_eq|].
    apply (sframe_two _ _ p q t u (set_t_status RUNNING t) (set_t_status READY u1)); try done; [cbn in *; lia|].
    intros r v. cbn. rewrite !lookup_insert_Some. naive_solver.
Qed.

Lemma want_lookup want (P : bool -> st -> Prop) s0 : tstat s0 (table a) ->
  P (bool_decide (0 <= want < 1024 /\ want ∈ ready a)) s0 ->
  wp (if (0 <=? want) && (want <? THREAD_MAX_THREADS) then p ← thread_at want; has_status READY p else mret false) s0 P.
Proof.
  intros HT0 HP. change THREAD_MAX_THREADS with 1024.
  destruct (Z.leb_spec 0 want); cbn [andb]; [|wsimpl; by rewrite bool_decide_false in HP by lia].
  destruct (Z.ltb_spec want 1024); [|wsimpl; by rewrite bool_decide_false in HP by lia]. wsimpl.
  destruct (has_status_spec s0 _ HT0 READY want) as (p & Hp & Hs); [lia|].
  unfold thread_at. wsimpl. rewrite (proj2 (Z.ltb_ge want 0)) by lia. eapply wp_deref; [exact Hp|].
  eapply wp_val; [exact Hs|]. rewrite (bool_decide_ext _ (0 <= want < 1024 /\ want ∈ ready a)); [done|].
  rewrite (so_ready _ _ Hok). split; [|tauto]. intros. split; [lia|done].
Qed.

(** [thread_yield] does what [yield_choice] says *)
Lemma thread_yield_spec want :
  wp (thread_yield want k) s (fun r s' =>
    match yield_choice cur want a with
    | inl v => r = Done v /\ s' = s
    | inr id => r = Switched /\ repr s' (switch_to cur id a) /\ switched s s' cur id (fun p => C_yield (enabled s) p k)
    end).
Proof.
  pose proof cur_bound as Hcb. destruct Hr as [HT [Q HQ]]. set (s0 := with_enabled false s).
  assert (HT0 : tstat s0 (table a)) by by apply (tstat_same s).
  assert (HQ0 : qrep s0 (ready a) (waiting a) Q) by (apply (qrep_same s); [same_q|done]).
  unfold thread_yield, interrupts_off, interrupts_set. wsimpl. fold s0.
  apply (thread_id_spec s0 _ HT0 cur); [apply (so_running _ _ Hok)|]. wsimpl.
  apply (free_exited_none s0 _ HT0); [done|]. wsimpl.
  apply (thread_id_spec s0 _ HT0 cur); [apply (so_running _ _ Hok)|]. wsimpl.
  apply want_lookup; [done|]. unfold yield_choice. change THREAD_MAX_THREADS with 1024.
  assert (Hself : (want =? THREAD_SELF) || ((0 <=? want) && (want <? 1024)) && (cur =? want) =
    bool_decide (want = THREAD_SELF \/ want = cur)).
  { apply Bool.eq_true_iff_eq. rewrite bool_decide_eq_true. unfold THREAD_SELF. lia. }
  rewrite Hself. destruct (decide (want = THREAD_SELF \/ want = cur)) as [Hs|Hns].
  { rewrite (bool_decide_true _ Hs). wsimpl. split; [done|]. apply with_enabled_id. }
  rewrite (bool_decide_false _ Hns). wsimpl. cbn [ready_queue with_enabled s0].
  destruct (Z.eqb_spec want THREAD_ANY) as [->|Hna].
  - rewrite (decide_True (P := THREAD_ANY = THREAD_ANY)) by done. apply (ready_first s0 _ _ _ _ HT0 HQ0).
    cbn [negb andb]. destruct (ready a) as [|id R] eqn:ER.
    { change (default THREAD_NONE (head []) =? THREAD_NONE) with true. cbv iota. wsimpl. split; [done|]. apply with_enabled_id. }
    destruct (ready_bound id) as [Hid _]; [rewrite ER; by left|].
    change (default THREAD_NONE (head (id :: R))) with id. rewrite (proj2 (Z.eqb_neq id THREAD_NONE)) by (unfold THREAD_NONE; lia).
    apply do_switch_spec. rewrite ER. by left.
  - rewrite (decide_False (P := want = THREAD_ANY)) by done. cbn [negb andb].
    destruct (decide (want ∈ ready a)) as [Hin|Hnin].
    + destruct (ready_bound want Hin) as [Hb _]. rewrite bool_decide_true by done. wsimpl. cbn [negb].
      rewrite (proj2 (Z.eqb_neq want THREAD_NONE)) by (unfold THREAD_NONE; lia). by apply do_switch_spec.
    + rewrite bool_decide_false by tauto. wsimpl. cbn [negb]. wsimpl. split; [done|]. apply with_enabled_id.
Qed.
End yield.

(** the new table and queues are again those of a scheduler *)
Lemma switch_to_ok a cur id : sched_ok a cur -> id ∈ ready a -> sched_ok (switch_to cur id a) id.
Proof.
  intros [H1 H2 H3 H4 H5 H6] Hid. pose proof (proj1 (H2 id) Hid) as Hir. pose proof (proj2 (H1 cur) eq_refl) as Hcr.
  assert (Hne : cur <> id) by congruence.
  assert (Hcn : cur ∉ ready a) by (rewrite H2; congruence).
  split; cbn; try done.
  - intros i. rewrite lookup_insert_Some, lookup_insert_Some, H1. naive_solver.
  - intros i. rewrite elem_of_app, remove_first_elem, list_elem_of_singleton, H2 by done.
    rewrite lookup_insert_Some, lookup_insert_Some. destruct (decide (i = cur)); naive_solver.
  - intros i. rewrite H3, lookup_insert_Some, lookup_insert_Some. destruct (decide (i = cur)), (decide (i = id)); naive_solver.
  - apply nodup_snoc; [by apply remove_first_nodup|]. rewrite remove_first_elem by done. tauto.
Qed.

(** ** Sleeping *)

Section sleep.
Context (s : st) (a : sched) (cur : Z) (k : list frame) (wq : Z) (ids : list Z).
Hypothesis Hr : repr s a.
Hypothesis Hok : sched_ok a cur.
Hypothesis Hm : mallocs s = [].
Hypothesis Hwq : waiting a !! wq = Some ids.

Lemma current_spec s0 q (P : Z -> st -> Prop) : tstat s0 (table a) -> tcb_at s0 cur q -> P q s0 -> wp current s0 P.
Proof.
  intros HT0 Hq HP. unfold current. wsimpl. apply (thread_id_spec s0 _ HT0 cur); [apply (so_running _ _ Hok)|]. wsimpl.
  apply (wp_thread_at s0 cur q); [done|]. wsimpl. destruct Hq as (_ & _ & Hq0).
  rewrite (proj2 (Z.eqb_neq q 0)) by done. by wsimpl.
Qed.

(** without another thread to run nothing happens *)
Lemma thread_sleep_idle : ready a = [] -> wp (thread_sleep wq k) s (fun r s' => r = Done THREAD_NONE /\ s' = s).
Proof.
  intros ER. pose proof Hr as [HT [Q HQ]]. set (s0 := with_enabled false s).
  assert (HT0 : tstat s0 (table a)) by by apply (tstat_same s).
  assert (HQ0 : qrep s0 (ready a) (waiting a) Q) by (apply (qrep_same s); [same_q|done]).
  assert (Hwq0 : wq <> 0) by (intros E; pose proof (qr_null _ _ _ _ HQ); congruence).
  unfold thread_sleep, interrupts_off, interrupts_set. wsimpl. fold s0.
  rewrite (proj2 (Z.eqb_neq wq 0)) by done. wsimpl. cbn [ready_queue with_enabled s0].
  apply (ready_first s0 _ _ _ _ HT0 HQ0). rewrite ER. change (default THREAD_NONE (head []) =? THREAD_NONE) with true.
  cbv iota. wsimpl. split; [done|]. apply with_enabled_id.
Qed.

Lemma thread_sleep_null : wp (thread_sleep 0 k) s (fun r s' => r = Done THREAD_INVALID /\ s' = s).
Proof. unfold thread_sleep, interrupts_off, interrupts_set. wsimpl. cbn. split; [done|]. apply with_enabled_id. Qed.

Lemma thread_sleep_spec :
  wp (thread_sleep wq k) s (fun r s' =>
    match ready a with
    | [] => r = Done THREAD_NONE /\ s' = s
    | id :: _ => r = Switched /\ repr s' (sleep_on wq cur id a) /\ switched s s' cur id (fun _ => C_sleep (enabled s) id k)
    end).
Proof.
  pose proof Hr as [HT [Q HQ]]. set (s0 := with_enabled false s).
  assert (HT0 : tstat s0 (table a)) by by apply (tstat_same s).
  assert (HQ0 : qrep s0 (ready a) (waiting a) Q) by (apply (qrep_same s); [same_q|done]).
  assert (Hwq0 : wq <> 0) by (intros E; pose proof (qr_null _ _ _ _ HQ); congruence).
  unfold thread_sleep, interrupts_off, interrupts_set. wsimpl. fold s0.
  rewrite (proj2 (Z.eqb_neq wq 0)) by done. wsimpl. cbn [ready_queue with_enabled s0].
  apply (ready_first s0 _ _ _ _ HT0 HQ0). pose proof (ready_bound s a cur Hr Hok) as Hrb.
  pose proof (so_ready_nodup _ _ Hok) as Hnd. unfold sleep_on.
  destruct (ready a) as [|id R] eqn:ER; cbn [head].
  { change (default THREAD_NONE None =? THREAD_NONE) with true. cbv iota. wsimpl. split; [done|]. apply with_enabled_id. }
  change (default THREAD_NONE (Some id)) with id.
  destruct (Hrb id) as [Hid Hne]; [by left|].
  rewrite (proj2 (Z.eqb_neq id THREAD_NONE)) by (unfold THREAD_NONE; lia).
  destruct (tcb_of s _ HT id READY) as [p Hp]; [apply (so_ready _ _ Hok); rewrite ER; by left|].
  destruct (tcb_of s _ HT cur RUNNING) as [q Hq]; [by apply (so_running _ _ Hok)|].
  destruct (tcb_lookup s _ HT _ _ Hp) as (t & x & Ht & Hx & Hti & Htx).
  destruct (tcb_lookup s _ HT _ _ Hq) as (u & y & Hu & Hy & Hui & Huy).
  assert (Hpq : q <> p) by (intros ->; by apply Hne, (tcb_inj s _ HT _ _ p)).
  wsimpl. apply (wp_thread_at s0 id p); [done|]. wsimpl. eapply (current_spec s0 q); [done|done|]. wsimpl.
  unfold getcontext, upd_tcb at 1. wsimpl. eapply wp_get_tcb; [exact Hu|]. wsimpl.
  set (u1 := set_t_context _ u). set (s1 := with_tcbs _ s0).
  assert (HT1 : tstat s1 (table a)) by (eapply (tstat_keep s0 _ HT0 cur q u u1); done).
  assert (HQ1 : qrep s1 (id :: R) (waiting a) Q) by (apply (qrep_same s0); [same_q|done]).
  destruct (qr_wait _ _ _ _ HQ wq ids Hwq) as (h & _ & Hh & _). unfold wait_of. wsimpl.
  apply (wp_deref _ h); [done|]. wsimpl.
  eapply wp_mono; [apply (wait_add s1 _ _ _ _ HT1 HQ1 wq h ids cur q Hm Hwq Hh); [by apply (so_wait_nodup _ _ Hok wq)|done]|].
  intros _ s2 [Hs2 [Q2 HQ2]]. pose proof (tstat_q_step _ _ _ Hs2 HT1) as HT2. destruct Hs2 as (ns & na & c & Hna & Hnk & ->).
  wsimpl. eapply (wp_get_tcb _ p t); [cbn; by rewrite lookup_insert_ne|]. wsimpl. rewrite Hti.
  set (s2 := with_q ns na c s1) in *.
  eapply wp_mono; [apply (ready_delete s2 _ _ _ _ HT2 HQ2 id Hnd)|].
  intros _ s3 [Hs3 [Q3 HQ3]]. pose proof (tstat_q_step _ _ _ Hs3 HT2) as HT3. destruct Hs3 as (ns3 & na3 & c3 & Hna3 & Hnk3 & ->).
  set (s3 := with_q ns3 na3 c3 s2) in *. wsimpl. unfold upd_tcb at 1. wsimpl.
  eapply (wp_get_tcb s3 p t); [cbn; by rewrite lookup_insert_ne|]. wsimpl. set (s4 := with_tcbs _ s3).
  assert (HT4 : tstat s4 (<[id := RUNNING]> (table a))).
  { apply (tstat_upd s3 _ HT3 id p t (set_t_status RUNNING t)); [done|cbn; by rewrite lookup_insert_ne|done]. }
  assert (Hu4 : tcbs s4 !! q = Some u1) by (cbn; by rewrite lookup_insert_ne, lookup_insert_eq by done).
  unfold upd_tcb at 1. wsimpl. eapply (wp_get_tcb s4 q u1); [done|]. wsimpl. set (s5 := with_tcbs _ s4).
  assert (HT5 : tstat s5 (<[cur := BLOCKED]> (<[id := RUNNING]> (table a)))).
  { by apply (tstat_upd s4 _ HT4 cur q u1 (set_t_status BLOCKED u1)). }
  unfold setcontext. wsimpl. eapply (wp_get_tcb _ p (set_t_status RUNNING t)).
  { cbn. by rewrite lookup_insert_ne, lookup_insert_eq by done. }
  wsimpl. split; [done|]. split.
  - split; [by eapply tstat_same; [| | |exact HT5]|]. exists Q3. rewrite Hwq.
    eapply qrep_same; [|exact HQ3]. same_q.
  - exists p, q, t, (set_t_status BLOCKED u1). split_and!; try done; [cbn; by rewrite lookup_insert_eq|].
    apply (sframe_two _ _ p q t u (set_t_status RUNNING t) (set_t_status BLOCKED u1)); try done; [cbn in *; lia|].
    intros r v. cbn. rewrite !lookup_insert_Some. naive_solver.
Qed.
End sleep.

Lemma sleep_on_ok a cur id R wq ids : sched_ok a cur -> ready a = id :: R -> waiting a !! wq = Some ids ->
  sched_ok (sleep_on wq cur id a) id.
Proof.
  intros [H1 H2 H3 H4 H5 H6] ER Hwq. assert (Hid : id ∈ ready a) by (rewrite ER; by left).
  pose proof (proj1 (H2 id) Hid) as Hir. pose proof (proj2 (H1 cur) eq_refl) as Hcr.
  assert (Hne : cur <> id) by congruence.
  assert (Hcn : cur ∉ ready a) by (rewrite H2; congruence).
  assert (Hcw : forall v vs, waiting a !! v = Some vs -> cur ∉ vs).
  { intros v vs Hv Hin. assert (table a !! cur = Some BLOCKED) by (apply H3; eauto). congruence. }
  unfold sleep_on. rewrite Hwq. cbn [default]. split; cbn; try done.
  - intros i. rewrite lookup_insert_Some, lookup_insert_Some, H1. naive_solver.
  - intros i. rewrite remove_first_elem, H2, lookup_insert_Some, lookup_insert_Some by done.
    destruct (decide (i = cur)); naive_solver.
  - intros i. rewrite lookup_insert_Some, lookup_insert_Some, <- H3. split.
    + intros (v & vs & Hv & Hi). rewrite lookup_insert_Some in Hv.
      destruct Hv as [[<- <-]|[Hv Hvs]]; [|destruct (decide (i = cur)) as [->|]; [by destruct (Hcw v vs)|]].
      * apply elem_of_app in Hi as [Hi| ->%list_elem_of_singleton]; [|by left]. right.
        split; [intros ->; by destruct (Hcw wq ids)|]. right. split; [|eauto].
        intros ->. assert (table a !! i = Some BLOCKED) by (apply H3; eauto). congruence.
      * right. split; [done|]. right. split; [|eauto].
        intros ->. assert (table a !! i = Some BLOCKED) by (apply H3; eauto). congruence.
    + intros [[<- _]|(Hi & [[_ ?]|(Hi2 & v & vs & Hv & Hin)])]; [|done|].
      * exists wq, (ids ++ [cur]). rewrite lookup_insert_eq. split; [done|]. set_solver.
      * destruct (decide (v = wq)) as [->|Hvn].
        -- exists wq, (ids ++ [cur]). rewrite lookup_insert_eq. split; [done|]. set_solver.
        -- exists v, vs. by rewrite lookup_insert_ne.
  - by apply remove_first_nodup.
  - intros v vs. rewrite lookup_insert_Some. intros [[<- <-]|[_ ?]]; [|by eapply H5].
    apply nodup_snoc; [by eapply H5|by eapply Hcw].
  - intros v v' vs vs' i. rewrite !lookup_insert_Some. intros [[<- <-]|[? Hv]] [[<- <-]|[? Hv']]; [done| | |by eapply H6].
    + intros [Hi| ->%list_elem_of_singleton]%elem_of_app Hi'; [by eapply H6|]. by destruct (Hcw v' vs').
    + intros Hi [Hi'| ->%list_elem_of_singleton]%elem_of_app; [by eapply H6|]. by destruct (Hcw v vs).
Qed.

(** ** Waking up *)

(** only statuses and queues change *)
Record keeps (s s' : st) : Prop := {
  kp_threads : threads s' = threads s;
  kp_wqs : wqs s' = wqs s;
  kp_locks : locks s' = locks s;
  kp_cvs : cvs s' = cvs s;
  kp_ready : ready_queue s' = ready_queue s;
  kp_enabled : enabled s' = enabled s;
  kp_pending : pending s' = pending s;
  kp_mallocs : mallocs s' = mallocs s;
  kp_zeroed : zeroed s' = zeroed s;
  kp_next : next_addr s <= next_addr s';
  kp_tcbs : forall p t', tcbs s' !! p = Some t' -> exists t x, tcbs s !! p = Some t /\ t' = set_t_status x t;
}.

#[export] Instance keeps_preorder : PreOrder keeps.
Proof.
  split.
  - intros s. split; try done; try lia. intros p t Ht. exists t, (t_status t). split; [done|]. by destruct t.
  - intros s1 s2 s3 [] []. split; try congruence; try lia. intros p t3 (t2 & x & Ht2 & ->)%kp_tcbs1.
    apply kp_tcbs0 in Ht2 as (t1 & y & Ht1 & ->). by exists t1, x.
Qed.

Lemma keeps_q_step s s' : q_step s s' -> keeps s s'.
Proof.
  intros (ns & na & c & Hna & Hnk & ->). split; try done. intros p t Ht. exists t, (t_status t). split; [done|]. by destruct t.
Qed.

Lemma keeps_enabled s s' x : keeps s s' -> keeps (with_enabled x s) (with_enabled x s').
Proof. intros []. by split. Qed.

(** setting the status of the thread [i] *)
Lemma set_status_spec s T i p x : tstat s T -> tcb_at s i p ->
  wp (upd_tcb p (set_t_status x)) s (fun _ s' => keeps s s' /\ same_queues s s' /\ tstat s' (<[i := x]> T)).
Proof.
  intros HT Hp. destruct (tcb_lookup s T HT _ _ Hp) as (t & y & Ht & _). unfold upd_tcb. wsimpl.
  eapply wp_get_tcb; [exact Ht|]. wsimpl. split_and!; [|same_q|].
  - split; try done; cbn; try lia. intros q u. rewrite lookup_insert_Some. intros [[<- <-]|[_ Hu]]; [eauto|].
    exists u, (t_status u). split; [done|]. by destruct u.
  - by apply (tstat_upd s T HT i p t (set_t_status x t)).
Qed.

Lemma wake_list_snoc l i T : wake_list (l ++ [i]) T = <[i := READY]> (wake_list l T).
Proof. revert T. induction l as [|j l IH]; intros T; simpl; [done|]. apply IH. Qed.

Lemma wake_one_ok a cur wq : sched_ok a cur -> sched_ok (wake_one wq a) cur.
Proof.
  intros Hok. unfold wake_one. destruct (waiting a !! wq) as [[|i ids]|] eqn:Hwq; [done| |done].
  destruct Hok as [H1 H2 H3 H4 H5 H6].
  assert (Hib : table a !! i = Some BLOCKED) by (apply H3; exists wq, (i :: ids); split; [done|by left]).
  assert (Hnd : NoDup (i :: ids)) by by eapply H5. apply NoDup_cons in Hnd as [Hni Hnd].
  split; cbn.
  - intros j. rewrite lookup_insert_Some, <- H1. naive_solver.
  - intros j. rewrite elem_of_app, list_elem_of_singleton, H2, lookup_insert_Some. destruct (decide (j = i)); naive_solver.
  - intros j. rewrite lookup_insert_Some, <- H3. split.
    + intros (v & vs & Hv & Hj). right. rewrite lookup_insert_Some in Hv. destruct Hv as [[<- <-]|[Hv Hvs]].
      * split; [by intros ->|]. exists wq, (i :: ids). split; [done|by right].
      * split; [|eauto]. intros <-. apply Hv. apply (H6 wq v (i :: ids) vs i); [done|done|by left|done].
    + intros [[? ?]|(Hji & v & vs & Hv & Hj)]; [done|]. destruct (decide (v = wq)) as [->|Hvn].
      * exists wq, ids. rewrite lookup_insert_eq. split; [done|]. rewrite Hwq in Hv. set_solver.
      * exists v, vs. by rewrite lookup_insert_ne.
  - apply nodup_snoc; [done|]. rewrite H2. congruence.
  - intros v vs. rewrite lookup_insert_Some. intros [[<- <-]|[_ ?]]; [done|by eapply H5].
  - assert (Hold : forall v vs j, <[wq := ids]> (waiting a) !! v = Some vs -> j ∈ vs ->
      exists us, waiting a !! v = Some us /\ j ∈ us).
    { intros v vs j. rewrite lookup_insert_Some. intros [[<- <-]|[_ ?]] Hj; [|eauto]. exists (i :: ids). split; [done|by right]. }
    intros v v' vs vs' j Hv Hv' Hj Hj'. destruct (Hold v vs j Hv Hj) as (us & ? & ?).
    destruct (Hold v' vs' j Hv' Hj') as (us' & ? & ?). by eapply H6.
Qed.

Section wakeup.
Context (cur wq h : Z).

(** one thread is taken from the wait queue to the ready queue *)
Definition wake_step (i : Z) (ready : Z) : M st unit :=
  delete_from_queue h i;;
  p ← thread_at i;
  add_to_queue ready p;;
  upd_tcb p (set_t_status READY).

Lemma wake_step_spec s a i ids : mallocs s = [] -> repr s a -> sched_ok a cur -> wqs s !! wq = Some h -> waiting a !! wq = Some (i :: ids) ->
  wp (wake_step i (ready_queue s)) s (fun _ s' => keeps s s' /\ repr s' (wake_one wq a)).
Proof.
  intros Hm [HT [Q HQ]] Hok Hh Hwq. unfold wake_one. rewrite Hwq.
  destruct (tcb_of s _ HT i BLOCKED) as [p Hp].
  { apply (so_blocked _ _ Hok). exists wq, (i :: ids). split; [done|by left]. }
  unfold wake_step. wsimpl.
  eapply wp_mono; [apply (wait_delete s _ _ _ _ HT HQ wq h _ i Hwq Hh), (so_wait_nodup _ _ Hok wq _ Hwq)|].
  intros _ s1 [Hs1 [Q1 HQ1]]. cbn [remove_first] in HQ1. rewrite Z.eqb_refl in HQ1.
  pose proof (tstat_q_step _ _ _ Hs1 HT) as HT1. pose proof (keeps_q_step _ _ Hs1) as K1.
  assert (Hp1 : tcb_at s1 i p) by (unfold tcb_at; by rewrite (kp_threads _ _ K1)).
  wsimpl. apply (wp_thread_at s1 i p); [done|]. wsimpl. rewrite <- (kp_ready _ _ K1).
  eapply wp_mono; [apply (ready_add s1 _ _ _ _ HT1 HQ1 i p); [by rewrite (kp_mallocs _ _ K1)|apply (so_ready_nodup _ _ Hok)|done]|].
  intros _ s2 [Hs2 [Q2 HQ2]]. pose proof (tstat_q_step _ _ _ Hs2 HT1) as HT2. pose proof (keeps_q_step _ _ Hs2) as K2.
  eapply wp_mono; [apply (set_status_spec s2 _ i p READY HT2)|].
  { unfold tcb_at. by rewrite (kp_threads _ _ K2). }
  intros _ s3 (K3 & Hsq & HT3). split; [by transitivity s1; [|transitivity s2]|].
  split; [done|]. exists Q2. by apply (qrep_same s2).
Qed.

(** the state after the threads [l] were woken up, with [rest] still waiting *)
Definition woken (a : sched) (l rest : list Z) : sched :=
  mk_sched (wake_list l (table a)) (ready a ++ l) (<[wq := rest]> (waiting a)).

Lemma woken_step a l i rest : wake_one wq (woken a l (i :: rest)) = woken a (l ++ [i]) rest.
Proof.
  unfold wake_one, woken. cbn. by rewrite lookup_insert_eq, insert_insert_eq, wake_list_snoc, app_assoc.
Qed.

Lemma wake_loop s a ids : mallocs s = [] -> repr s a -> sched_ok a cur -> wqs s !! wq = Some h -> waiting a !! wq = Some ids ->
  wp (while_ (fun '(wake_id, count) =>
    if wake_id =? THREAD_NONE then mret (inr count) else
    delete_from_queue h wake_id;;
    p ← thread_at wake_id;
    add_to_queue (ready_queue s) p;;
    upd_tcb p (set_t_status READY);;
    wake_id ← get_first h;
    mret (inl (wake_id, s32 (count + 1)))) (default THREAD_NONE (head ids), 0)) s (fun count s' =>
    count = Z.of_nat (length ids) /\ keeps s s' /\ repr s' (woken a ids [])).
Proof.
  intros Hm Hr Hok Hh Hwq.
  assert (Hlen : Z.of_nat (length ids) <= 1024).
  { pose proof Hr as [HT [Q HQ]]. destruct (qr_wait _ _ _ _ HQ _ _ Hwq) as (h' & l & _ & _ & Ho).
    pose proof (ids_bound s _ HT _ _ (so_wait_nodup _ _ Hok _ _ Hwq) Ho). by rewrite (Forall2_length _ _ _ Ho). }
  apply (wp_while_var (fun n '(wake_id, count) s' => exists l rest, ids = l ++ rest /\
    wake_id = default THREAD_NONE (head rest) /\ count = Z.of_nat (length l) /\ n = Z.of_nat (length rest) /\
    keeps s s' /\ repr s' (woken a l rest) /\ sched_ok (woken a l rest) cur) (Z.of_nat (length ids))).
  { exists [], ids. assert (Ha : woken a [] ids = a).
    { unfold woken. cbn. rewrite app_nil_r, insert_id by done. by destruct a. }
    rewrite Ha. by split_and!. }
  { change (2 ^ 64) with 18446744073709551616. lia. }
  intros n [wake_id count] s' (l & rest & -> & -> & -> & -> & K & Hr' & Hok') _.
  destruct rest as [|i rest].
  { change (default THREAD_NONE (head []) =? THREAD_NONE) with true. cbv iota. wsimpl. rewrite app_nil_r. by split_and!. }
  change (default THREAD_NONE (head (i :: rest))) with i.
  assert (Hw : waiting (woken a l (i :: rest)) !! wq = Some (i :: rest)) by apply lookup_insert_eq.
  assert (Hi : 0 <= i < 1024).
  { destruct Hr' as [HT' _]. apply (ts_dom _ _ HT'). rewrite (proj1 (so_blocked _ _ Hok' i)); [done|].
    exists wq, (i :: rest). split; [done|by left]. }
  rewrite (proj2 (Z.eqb_neq i THREAD_NONE)) by (unfold THREAD_NONE; lia).
  rewrite <- (kp_ready _ _ K). pose proof Hh as Hh'. rewrite <- (kp_wqs _ _ K) in Hh'.
  pose proof (wake_step_spec s' _ i rest (eq_trans (kp_mallocs _ _ K) Hm) Hr' Hok' Hh' Hw) as Hstep. rewrite woken_step in Hstep.
  pose proof (wake_one_ok _ _ wq Hok') as Hok2. rewrite woken_step in Hok2. unfold wake_step in Hstep.
  rewrite length_app in Hlen. cbn [length] in Hlen.
  do 3 (apply wp_bind_inv in Hstep; apply wp_bind; eapply wp_mono; [exact Hstep|]; clear Hstep; intros ? ? Hstep;
    cbv beta in Hstep).
  apply wp_bind. eapply wp_mono; [exact Hstep|]. intros _ s2 [K2 Hr2]. wsimpl.
  pose proof Hr2 as [HT2 [Q2 HQ2]].
  eapply (wait_first s2 _ _ _ _ HT2 HQ2 wq h rest); [apply lookup_insert_eq|by rewrite (kp_wqs _ _ K2)|].
  wsimpl. exists (Z.of_nat (length rest)). cbn [length]. split; [|lia]. exists (l ++ [i]), rest.
  rewrite <- app_assoc, length_app, s32_small by lia. cbn [length].
  split_and!; try done; [lia|by transitivity s'].
Qed.
End wakeup.

Lemma keeps_restore s s' : keeps (with_enabled false s) s' -> keeps s (with_enabled (enabled s) s').
Proof. intros []. by split. Qed.

Lemma repr_enabled s a x : repr s a -> repr (with_enabled x s) a.
Proof. apply repr_same; [same_q|done]. Qed.

(** the test for an empty wait queue *)
Lemma wait_empty_spec s a wq ids (P : bool -> st -> Prop) : repr s a -> waiting a !! wq = Some ids ->
  P (match ids with [] => true | _ => false end) s ->
  wp (if wq =? 0 then mret true else
      wait ← wait_of wq; if wait =? 0 then mret true else next ← next_of wait; mret (next =? 0)) s P.
Proof.
  intros [HT [Q HQ]] Hwq HP. destruct (qr_wait _ _ _ _ HQ _ _ Hwq) as (h & l & Hh & Hl & Ho).
  assert (Hwq0 : wq <> 0) by (intros E; pose proof (qr_null _ _ _ _ HQ); congruence).
  rewrite (proj2 (Z.eqb_neq wq 0)) by done. unfold wait_of. wsimpl. eapply wp_deref; [exact Hh|]. wsimpl.
  pose proof (qr_q _ _ _ _ HQ) as Hq. rewrite (q_nonzero s Q h l Hq Hl). wsimpl.
  apply (wp_next_of_head s Q h l Hq Hl). wsimpl. rewrite (link_eqb_0 s Q h l Hq Hl [] l) by done.
  by destruct Ho.
Qed.

Lemma thread_wakeup_null s all : wp (thread_wakeup 0 all) s (fun r s' => r = 0 /\ s' = s).
Proof. unfold thread_wakeup, interrupts_off, interrupts_set. wsimpl. cbn. split; [done|]. apply with_enabled_id. Qed.

Lemma thread_wakeup_spec s a cur wq ids all : mallocs s = [] -> repr s a -> sched_ok a cur -> waiting a !! wq = Some ids ->
  wp (thread_wakeup wq all) s (fun r s' =>
    match ids with
    | [] => r = 0 /\ s' = s
    | _ => keeps s s' /\
        if all : bool then r = Z.of_nat (length ids) /\ repr s' (wake_all wq a) else r = 1 /\ repr s' (wake_one wq a)
    end).
Proof.
  intros Hm Hr Hok Hwq. unfold thread_wakeup, interrupts_off, interrupts_set. wsimpl. set (s0 := with_enabled false s).
  assert (Hr0 : repr s0 a) by by apply repr_enabled.
  eapply (wait_empty_spec s0 a wq ids); [done|done|].
  destruct ids as [|i ids].
  { wsimpl. split; [done|]. apply with_enabled_id. }
  pose proof Hr0 as [HT [Q HQ]]. destruct (qr_wait _ _ _ _ HQ _ _ Hwq) as (h & l & Hh & Hl & Ho).
  unfold wait_of. wsimpl. eapply wp_deref; [exact Hh|]. wsimpl. destruct all; wsimpl;
    (apply (wait_first s0 _ _ _ _ HT HQ wq h (i :: ids)); [done|done|]).
  - wsimpl. eapply wp_mono; [by apply (wake_loop cur wq h s0 a (i :: ids))|]. intros count s' (-> & K & Hr'). wsimpl.
    split; [by apply keeps_restore|]. split; [done|]. unfold wake_all. rewrite Hwq. by apply repr_enabled.
  - change (default THREAD_NONE (head (i :: ids))) with i. wsimpl.
    assert (Hi : 0 <= i < 1024).
    { apply (ts_dom _ _ HT). rewrite (proj1 (so_blocked _ _ Hok i)); [done|]. exists wq, (i :: ids). split; [done|by left]. }
    rewrite (proj2 (Z.eqb_neq i THREAD_NONE)) by (unfold THREAD_NONE; lia).
    eapply wp_mono; [by apply (wake_step_spec cur wq h s0 a i ids)|]. intros _ s' [K Hr']. wsimpl.
    split; [by apply keeps_restore|]. split; [done|]. by apply repr_enabled.
Qed.

Lemma wake_all_ok a cur wq ids : sched_ok a cur -> waiting a !! wq = Some ids -> sched_ok (wake_all wq a) cur.
Proof.
  intros Hok Hwq. assert (Hgen : forall l rest, sched_ok (woken wq a l rest) cur -> sched_ok (woken wq a (l ++ rest) []) cur).
  { intros l rest. revert l. induction rest as [|i rest IH]; intros l Hl; [by rewrite app_nil_r|].
    rewrite cons_middle, app_assoc. apply IH. rewrite <- woken_step. by apply wake_one_ok. }
  unfold wake_all. rewrite Hwq. apply (Hgen [] ids). unfold woken. cbn. rewrite app_nil_r, insert_id by done. by destruct a.
Qed.

(** ** Creating threads and wait queues *)

Lemma wp_malloc s (P : Z -> st -> Prop) : mallocs s = [] ->
  P (next_addr s) (with_next_addr (next_addr s + 1) s) -> wp malloc s P.
Proof. intros Hm HP. unfold malloc. wsimpl. rewrite Hm. wsimpl. destruct s; cbn in *. by subst. Qed.

Lemma wp_malloc_used s (P : Z -> st -> Prop) : mallocs s = [] -> 0 < next_addr s ->
  P (next_addr s) (with_next_addr (next_addr s + 1) s) -> wp malloc_used s P.
Proof.
  intros Hm Hn HP. unfold malloc_used. wsimpl. apply wp_malloc; [done|].
  rewrite (proj2 (Z.eqb_neq _ 0)) by lia. by wsimpl.
Qed.

Lemma of_ids_same s s' ids l : (forall i p, i ∈ ids -> tcb_at s i p -> tcb_at s' i p) -> of_ids s ids l -> of_ids s' ids l.
Proof.
  intros Hs Ho. induction Ho as [|i x ids l Hx _ IH]; constructor; [apply Hs; [by left|done]|].
  apply IH. intros j p Hj. apply Hs. by right.
Qed.

(** the storage at [wq] and [h] is new *)
Definition fresh_at (s s' : st) (wq h : Z) : Prop := next_addr s <= next_addr s' /\ wqs s !! wq = None /\
  nodes s !! h = None /\ 0 < wq < next_addr s' /\ 0 < h < next_addr s'.

Lemma fresh_next s s' R W Q wq h : qrep s R W Q -> next_addr s <= wq < next_addr s' ->
  next_addr s <= h < next_addr s' -> fresh_at s s' wq h.
Proof.
  intros HQ Hwq Hh. pose proof (qs_next _ _ (qr_q _ _ _ _ HQ)). split_and!; try lia.
  - destruct (wqs s !! wq) eqn:E; [|done]. destruct (qr_addr _ _ _ _ HQ wq); [by rewrite E|lia].
  - destruct (nodes s !! h) eqn:E; [|done]. destruct (qs_addr _ _ (qr_q _ _ _ _ HQ) h); [by rewrite E|lia].
Qed.

(** a new wait queue, with the head [h] *)
Lemma qrep_new s s' R W Q wq h x : qrep s R W Q ->
  (forall i p, (i ∈ R \/ exists v vs, W !! v = Some vs /\ i ∈ vs) -> tcb_at s i p -> tcb_at s' i p) ->
  nodes s' = <[h := mk_queue x (Some 0)]> (nodes s) -> wqs s' = <[wq := h]> (wqs s) ->
  ready_queue s' = ready_queue s -> zeroed s' = zeroed s -> (zeroed s = true -> x = Some 0) ->
  fresh_at s s' wq h ->
  qrep s' R (<[wq := []]> W) (<[h := []]> Q).
Proof.
  intros [[H1 H2 H3 H4] Hr Hw Hne Hi Hn Ha Hdm Hz] Hs En Ew Er Ez Hx (Hna & Fw & Fh & Hwq & Hh).
  assert (Hfresh : forall g l b, Q !! g = Some l -> b ∈ g :: l.*1 -> b <> h).
  { intros g l b Hl Hb ->. destruct (H1 g l Hl) as [Hc _]. destruct (chain_dom _ _ _ _ Hc Hb). congruence. }
  assert (Hwf : forall v g, wqs s !! v = Some g -> v <> wq).
  { intros v g Hv ->. congruence. }
  assert (Hold : forall v, is_Some (W !! v) -> v <> wq /\ exists g l, wqs s !! v = Some g /\ Q !! g = Some l /\ g <> h).
  { intros v [vs Hvs]. destruct (Hw v vs Hvs) as (g & l & Hg & Hl & _). split; [by eapply Hwf|].
    exists g, l. split_and!; try done. apply (Hfresh g l); [done|by left]. }
  destruct Hr as (lr & Hlr & Hor). assert (Hrh : ready_queue s <> h) by (apply (Hfresh (ready_queue s) lr); [done|by left]).
  split; rewrite ?En, ?Ew, ?Er, ?Ez.
  - split; rewrite ?En; [| | |lia].
    + intros g l. rewrite lookup_insert_Some. intros [[<- <-]|[Hg Hl]].
      * split; [|apply NoDup_singleton]. exists x. apply lookup_insert_eq.
      * destruct (H1 g l Hl) as [Hc Hnd]. split; [|done]. apply (chain_frame (nodes s)); [|done].
        intros b Hb. apply lookup_insert_ne. apply not_eq_sym. by eapply Hfresh.
    + intros g g' l l' b. rewrite !lookup_insert_Some. intros [[<- <-]|[Hg Hl]] [[<- <-]|[Hg' Hl']]; [done| | |by apply H2].
      * intros ->%list_elem_of_singleton Hb. by destruct (Hfresh g' l' h).
      * intros Hb ->%list_elem_of_singleton. by destruct (Hfresh g l h).
    + intros b. rewrite lookup_insert_is_Some'. intros [<-|Hb%H3]; lia.
  - exists lr. split; [by rewrite lookup_insert_ne|]. eapply of_ids_same; [|done]. eauto.
  - intros v vs. rewrite lookup_insert_Some. intros [[<- <-]|[Hv Hvs]].
    + exists h, []. rewrite !lookup_insert_eq. split_and!; try done. constructor.
    + destruct (Hw v vs Hvs) as (g & l & Hg & Hl & Ho). exists g, l. rewrite !lookup_insert_ne; try done.
      * split_and!; try done. eapply of_ids_same; [|done]. eauto 10.
      * apply not_eq_sym, (Hfresh g l); [done|by left].
  - intros v. rewrite lookup_insert_is_Some'. intros [<-|Hv]; [rewrite lookup_insert_eq; congruence|].
    destruct (Hold v Hv) as [? _]. rewrite lookup_insert_ne by done. by apply Hne.
  - assert (Hcase : forall v g, is_Some (<[wq := []]> W !! v) -> <[wq := h]> (wqs s) !! v = Some g ->
      (v = wq /\ g = h) \/ (v <> wq /\ g <> h /\ is_Some (W !! v) /\ wqs s !! v = Some g)).
    { intros v g. rewrite lookup_insert_is_Some', !lookup_insert_Some. intros Hv [[<- <-]|[Hvn Hg]]; [by left|].
      destruct Hv as [<-|Hv]; [done|]. right. destruct (Hold v Hv) as (_ & g' & l & Hg' & _ & Hgh).
      split_and!; try done. congruence. }
    intros v v' g Hv Hv' Hg Hg'. destruct (Hcase v g Hv Hg), (Hcase v' g Hv' Hg'); naive_solver.
  - rewrite lookup_insert_ne; [done|lia].
  - intros v. rewrite lookup_insert_is_Some'. intros [<-|Hv%Ha]; lia.
  - intros v g. rewrite lookup_insert_is_Some', lookup_insert_Some. intros [[<- <-]|[Hv Hg]]; [by left; left|].
    destruct (Hdm v g Hg) as [?|[? [t Ht]]]; [by left; right|right]. split; [done|]. exists t. rewrite En, lookup_insert_ne; [done|].
    intros <-. congruence.
  - intros Hzt v g. rewrite lookup_insert_Some. intros [[<- <-]|[Hv Hg]].
    + exists (Some 0). by rewrite lookup_insert_eq, Hx.
    + destruct (Hz Hzt v g Hg) as [y Hy]. exists y. rewrite lookup_insert_ne; [done|]. intros <-. congruence.
Qed.

(** a new wait queue whose head is as malloc returned it *)
Lemma qrep_raw s s' R W Q wq h x : qrep s R W Q ->
  (forall i p, (i ∈ R \/ exists v vs, W !! v = Some vs /\ i ∈ vs) -> tcb_at s i p -> tcb_at s' i p) ->
  nodes s' = <[h := mk_queue x None]> (nodes s) -> wqs s' = <[wq := h]> (wqs s) ->
  ready_queue s' = ready_queue s -> zeroed s = false -> zeroed s' = false ->
  fresh_at s s' wq h -> qrep s' R W Q.
Proof.
  intros [[H1 H2 H3 H4] Hr Hw Hne Hi Hn Ha Hdm Hz] Hs En Ew Er Ez Ez' (Hna & Fw & Fh & Hwq & Hh).
  assert (Hfresh : forall b, is_Some (nodes s !! b) -> b <> h) by (intros b [n Hb] ->; congruence).
  assert (Hold : forall v, is_Some (W !! v) -> v <> wq).
  { intros v [vs Hvs] ->. destruct (Hw wq vs Hvs) as (g & l & Hg & _). congruence. }
  split; rewrite ?En, ?Ew, ?Er.
  - split; rewrite ?En; [| done| |lia].
    + intros g l Hl. destruct (H1 g l Hl) as [Hc Hnd]. split; [|done]. apply (chain_frame (nodes s)); [|done].
      intros b Hb. apply lookup_insert_ne, not_eq_sym, Hfresh. by eapply chain_dom.
    + intros b. rewrite lookup_insert_is_Some'. intros [<-|Hb%H3]; lia.
  - destruct Hr as (lr & Hlr & Hor). exists lr. split; [done|]. eapply of_ids_same; [|done]. eauto.
  - intros v vs Hvs. destruct (Hw v vs Hvs) as (g & l & Hg & Hl & Ho). exists g, l.
    rewrite lookup_insert_ne by (apply not_eq_sym, Hold; by rewrite Hvs). split_and!; try done.
    eapply of_ids_same; [|done]. eauto 10.
  - intros v Hv. rewrite lookup_insert_ne by (by apply not_eq_sym, Hold). by apply Hne.
  - intros v v' g Hv Hv'. rewrite !lookup_insert_ne by (by apply not_eq_sym, Hold). by apply Hi.
  - done.
  - intros v. rewrite lookup_insert_is_Some'. intros [<-|Hv%Ha]; lia.
  - intros v g. rewrite lookup_insert_Some. intros [[<- <-]|[Hv Hg]].
    + right. split; [done|]. exists x. by rewrite En, lookup_insert_eq.
    + destruct (Hdm v g Hg) as [?|[? [t Ht]]]; [by left|right]. split; [done|]. exists t.
      rewrite En, lookup_insert_ne; [done|]. apply not_eq_sym, Hfresh. by rewrite Ht.
  - congruence.
Qed.

Definition new_wait (wq : Z) (a : sched) : sched := mk_sched (table a) (ready a) (<[wq := []]> (waiting a)).

Lemma wait_queue_create_spec s a : mallocs s = [] -> repr s a ->
  wp wait_queue_create s (fun wq s' => wq = next_addr s /\ waiting a !! wq = None /\ repr s' (new_wait wq a) /\
    enabled s' = enabled s /\ pending s' = pending s /\ tcbs s' = tcbs s /\ locks s' = locks s /\ cvs s' = cvs s /\
    next_addr s < next_addr s' /\ mallocs s' = [] /\ zeroed s' = zeroed s /\ exists h, wqs s' = <[wq := h]> (wqs s)).
Proof.
  intros Hm [HT [Q HQ]]. pose proof (qr_q _ _ _ _ HQ) as Hq. pose proof (qs_next _ _ Hq).
  unfold wait_queue_create, interrupts_off, interrupts_set, fresh, put_node. wsimpl. apply wp_malloc; [done|]. wsimpl.
  apply wp_assert; [cbn; by rewrite (proj2 (Z.eqb_neq _ 0)) by lia|]. wsimpl.
  apply wp_malloc_used; [done|cbn; lia|]. wsimpl. split_and!; try done.
  - destruct (waiting a !! next_addr s) as [ids|] eqn:E; [|done].
    destruct (qr_wait _ _ _ _ HQ _ _ E) as (h & _ & Hh & _). destruct (qr_addr _ _ _ _ HQ (next_addr s)); [by rewrite Hh|lia].
  - split; cbn.
    + destruct HT as [H1 H2 H3 H4 H5]. split; try done. cbn. intros p Hp%H5. lia.
    + eexists. eapply (qrep_new s _ _ _ _ _ (next_addr s + 1)); try done; cbn.
      * by intros ->.
      * by apply (fresh_next s _ _ _ _ _ _ HQ); cbn; lia.
  - cbn. lia.
  - by eexists.
Qed.

(** The new thread [id] is the last to run.  Its wait queue [wq] can be used, and is
    empty, only if malloc returned zeroed storage ([z]). *)
Definition add_wait (z : bool) (wq : Z) (W : gmap Z (list Z)) : gmap Z (list Z) := if z then <[wq := []]> W else W.
Definition create (z : bool) (id wq : Z) (a : sched) : sched :=
  mk_sched (<[id := READY]> (table a)) (ready a ++ [id]) (add_wait z wq (waiting a)).

(** a wait queue with the head [h], as malloc returned it ([x]) *)
Lemma qrep_add s s' R W Q wq h x : qrep s R W Q ->
  (forall i p, (i ∈ R \/ exists v vs, W !! v = Some vs /\ i ∈ vs) -> tcb_at s i p -> tcb_at s' i p) ->
  x = (if zeroed s then Some 0 else None) ->
  nodes s' = <[h := mk_queue x x]> (nodes s) -> wqs s' = <[wq := h]> (wqs s) ->
  ready_queue s' = ready_queue s -> zeroed s' = zeroed s -> fresh_at s s' wq h ->
  exists Q', qrep s' R (add_wait (zeroed s) wq W) Q'.
Proof.
  intros HQ Hs Ex En Ew Er Ez Hf. unfold add_wait. destruct (zeroed s) eqn:Z; subst x.
  - eexists. by eapply (qrep_new s s' R W Q wq h (Some 0)); rewrite ?Ez, ?Z.
  - exists Q. by eapply (qrep_raw s s' R W Q wq h None).
Qed.

Section create.
Context (s : st) (a : sched) (cur fn parg : Z).
Hypothesis Hr : repr s a.
Hypothesis Hok : sched_ok a cur.

Lemma thread_create_full : first_free (table a) = None ->
  wp (thread_create fn parg) s (fun r s' => r = THREAD_NOMORE /\ s' = s).
Proof.
  intros Hf. pose proof Hr as [HT _]. unfold thread_create, interrupts_off, interrupts_set. wsimpl.
  eapply (get_id_spec (with_enabled false s) (table a)); [by apply (tstat_same s)|]. rewrite Hf. wsimpl.
  change (default THREAD_NOMORE None =? THREAD_NOMORE) with true. cbv iota. wsimpl. split; [done|]. apply with_enabled_id.
Qed.

Lemma free_id id : first_free (table a) = Some id -> 0 <= id < 1024 /\
  (table a !! id = None \/ table a !! id = Some EXITED) /\ (id ∉ ready a) /\
  (forall wq ids, waiting a !! wq = Some ids -> id ∉ ids).
Proof.
  intros (Hb & Hx%bool_decide_eq_true & _)%first_ix_inv. split; [lia|]. split; [done|].
  split; [rewrite (so_ready _ _ Hok); destruct Hx; congruence|].
  intros wq ids Hw Hin. assert (table a !! id = Some BLOCKED) by (apply (so_blocked _ _ Hok); eauto).
  destruct Hx; congruence.
Qed.

(** the control block that is put in the table *)
Lemma tstat_new s' id p t : first_free (table a) = Some id ->
  threads s' = <[Z.to_nat id := p]> (threads s) -> tcbs s' = <[p := t]> (tcbs s) ->
  next_addr s <= p < next_addr s' -> t_id t = id -> tstat s' (<[id := t_status t]> (table a)).
Proof.
  intros Hf Et Ec Hp Hid. pose proof Hr as [[H1 H2 H3 H4 H5] [Q HQ]]. destruct (free_id id Hf) as (Hb & _).
  pose proof (qs_next _ _ (qr_q _ _ _ _ HQ)).
  assert (Hat : threads s' !! Z.to_nat id = Some p).
  { rewrite Et. apply list_lookup_insert_eq. lia. }
  split; rewrite ?Et, ?Ec.
  - by rewrite length_insert.
  - intros i. rewrite lookup_insert_is_Some'. intros [<-|?]; [done|by apply H2].
  - intros i Hi. rewrite lookup_insert_None. intros [Hn Hne]. rewrite list_lookup_insert_ne by lia. by apply H3.
  - intros i x. rewrite lookup_insert_Some. intros [[<- <-]|[Hne Hx]].
    + exists p, t. rewrite lookup_insert_eq. split_and!; try done. split; [lia|]. split; [done|lia].
    + destruct (H4 i x Hx) as (q & u & (Hq1 & Hq2 & Hq3) & Hu & ? & ?). exists q, u.
      rewrite lookup_insert_ne. 2: { intros <-. destruct (H5 p); [by rewrite Hu|lia]. }
      split_and!; try done. split_and!; try done. rewrite Et, list_lookup_insert_ne by lia. done.
  - intros q. rewrite lookup_insert_is_Some'. intros [<-|Hq%H5]; lia.
Qed.

Lemma ample_id s0 l : mallocs s0 = l -> with_mallocs l s0 = s0.
Proof. intros <-. by destruct s0. Qed.

(** without storage for the stack, or for the control block, nothing is created *)
Lemma thread_create_nomem id ms : first_free (table a) = Some id ->
  (mallocs s = false :: ms -> wp (thread_create fn parg) s (fun r s' => r = THREAD_NOMEMORY /\
    exists c, s' = with_mallocs ms (with_count_stack c s))) /\
  (mallocs s = true :: false :: ms -> wp (thread_create fn parg) s (fun r s' => r = THREAD_NOMEMORY /\
    exists c d, s' = with_mallocs ms (with_next_addr (next_addr s + 1) (with_count_stack c (with_count_thread d s))))).
Proof.
  intros Hf. destruct (free_id id Hf) as (Hb & _). pose proof Hr as [HT [Q HQ]].
  pose proof (qs_next _ _ (qr_q _ _ _ _ HQ)) as Hna.
  split; intros Hm'; unfold thread_create, interrupts_off, interrupts_set; wsimpl;
    (eapply (get_id_spec (with_enabled false s) (table a)); [by apply (tstat_same s)|]); rewrite Hf;
    change (default THREAD_NOMORE (Some id)) with id;
    rewrite (proj2 (Z.eqb_neq id THREAD_NOMORE)) by (unfold THREAD_NOMORE; lia); wsimpl;
    unfold malloc, add_count_stack, add_count_thread; wsimpl; cbn; rewrite Hm'; wsimpl; cbn.
  - split; [done|]. by eexists.
  - rewrite (proj2 (Z.eqb_neq _ 0)) by lia. wsimpl. cbn. split; [done|]. by do 2 eexists.
Qed.

Lemma thread_create_spec id : mallocs s = [] -> first_free (table a) = Some id ->
  wp (thread_create fn parg) s (fun r s' =>
    r = id /\ enabled s' = enabled s /\ pending s' = pending s /\
    exists wq p t h, repr s' (create (zeroed s) id wq a) /\ waiting a !! wq = None /\
      tcb_at s' id p /\ tcbs s' = <[p := t]> (tcbs s) /\ t_context t = C_start fn parg /\ t_queue t = wq /\
      wqs s' = <[wq := h]> (wqs s) /\ next_addr s <= wq /\ locks s' = locks s /\ cvs s' = cvs s /\
      next_addr s <= next_addr s' /\ mallocs s' = [] /\ zeroed s' = zeroed s).
Proof.
  intros Hm Hf. destruct (free_id id Hf) as (Hb & Hx & Hnr & Hnw). pose proof Hr as [HT [Q HQ]].
  pose proof (qr_q _ _ _ _ HQ) as Hq. pose proof (qs_next _ _ Hq) as Hna.
  unfold thread_create, interrupts_off, interrupts_set. wsimpl.
  eapply (get_id_spec (with_enabled false s) (table a)); [by apply (tstat_same s)|]. rewrite Hf.
  change (default THREAD_NOMORE (Some id)) with id.
  rewrite (proj2 (Z.eqb_neq id THREAD_NOMORE)) by (unfold THREAD_NOMORE; lia). wsimpl.
  apply wp_malloc; [done|]. unfold add_count_stack, add_count_thread, fresh, put_node. wsimpl.
  rewrite (proj2 (Z.eqb_neq _ 0)) by (cbn; lia). wsimpl. apply wp_malloc; [done|]. wsimpl.
  rewrite (proj2 (Z.eqb_neq _ 0)) by (cbn; lia). wsimpl.
  match goal with |- wp get_id ?x _ => set (s1 := x) end.
  assert (HT1 : tstat s1 (table a)).
  { destruct HT as [H1 H2 H3 H4 H5]. split; try done. cbn. intros p Hp%H5. lia. }
  apply (get_id_spec s1 _ HT1). rewrite Hf. change (default THREAD_NOMORE (Some id)) with id. wsimpl.
  apply wp_malloc_used; [done|cbn; lia|]. wsimpl. apply wp_malloc_used; [done|cbn; lia|]. wsimpl. cbn.
  unfold set_thread_at, thread_at. wsimpl. rewrite (proj2 (Z.ltb_ge id 0)) by lia.
  destruct (threads s !! Z.to_nat id) as [old|] eqn:Hold.
  2: { apply lookup_ge_None in Hold. rewrite (ts_len _ _ HT) in Hold. lia. }
  eapply wp_deref; [exact Hold|]. wsimpl. match goal with |- wp _ ?x _ => set (s2 := x) end.
  set (t := mk_thread id READY _ _ _ _ _) in *.
  assert (HT2 : tstat s2 (<[id := READY]> (table a))).
  { apply (tstat_new s2 id (next_addr s + 1) t); try done. cbn. lia. }
  assert (HQ2 : exists Q', qrep s2 (ready a) (add_wait (zeroed s) (next_addr s + 1 + 1) (waiting a)) Q').
  { eapply (qrep_add s s2 _ _ _ _ (next_addr s + 1 + 1 + 1)); [exact HQ| |reflexivity|done..|by apply (fresh_next s _ _ _ _ _ _ HQ); cbn; lia].
    intros i p Hi (H1 & H2 & H3). split_and!; try done. cbn. rewrite list_lookup_insert_ne; [done|].
    assert (i <> id); [|lia]. intros ->. destruct Hi as [?|(v & vs & Hv & Hin)]; [done|]. by apply (Hnw v vs). }
  destruct HQ2 as [Q2 HQ2].
  assert (Hat : tcb_at s2 id (next_addr s + 1)).
  { split; [lia|]. cbn. rewrite list_lookup_insert_eq; [split; [done|lia]|]. apply lookup_lt_Some in Hold. lia. }
  eapply wp_mono; [apply (ready_add s2 _ _ _ _ HT2 HQ2 id); [done|apply (so_ready_nodup _ _ Hok)|exact Hat]|].
  intros _ s3 [Hs3 [Q3 HQ3]]. pose proof (tstat_q_step _ _ _ Hs3 HT2) as HT3. destruct Hs3 as (ns & na & c & ? & Hnk & ->).
  wsimpl. split_and!; try done. exists (next_addr s + 1 + 1), (next_addr s + 1), t, (next_addr s + 1 + 1 + 1).
  split_and!; try done.
  - apply repr_enabled. split; [done|]. by exists Q3.
  - destruct (waiting a !! (next_addr s + 1 + 1)) as [ids|] eqn:E; [|done].
    destruct (qr_wait _ _ _ _ HQ _ _ E) as (h & _ & Hh & _).
    destruct (qr_addr _ _ _ _ HQ (next_addr s + 1 + 1)); [by rewrite Hh|lia].
  - lia.
  - cbn in *. lia.
Qed.
End create.
