(* ===== verification/LockSpec.v ===== *)
(** * Waiting, locks and condition variables (threads/thread.c)

    On top of the scheduler of ThreadSpec: [thread_init] establishes it,
    [thread_wait], the locks and the condition variables are operations on it, and
    every sequence of calls keeps exactly one thread running. *)

From stdpp Require Import base gmap list list_numbers.
From Stdlib Require Import ZArith Lia.
From S2P Require Import Prelude Words Threads QueueSpec ThreadSpec.
#[local] Open Scope Z_scope.

Lemma create_ok z a cur id wq : sched_ok a cur -> first_free (table a) = Some id -> waiting a !! wq = None ->
  sched_ok (create z id wq a) cur.
Proof.
  intros Hok Hf Hwq. destruct (free_id a cur Hok id Hf) as (_ & Hx & Hnr & Hnw). destruct Hok as [H1 H2 H3 H4 H5 H6].
  assert (Hold : forall v vs, add_wait z wq (waiting a) !! v = Some vs -> vs = [] \/ waiting a !! v = Some vs).
  { intros v vs. destruct z; cbn; [|by right]. rewrite lookup_insert_Some. intros [[_ <-]|[_ ?]]; auto. }
  split; cbn.
  - intros i. rewrite lookup_insert_Some, <- H1. destruct Hx; naive_solver.
  - intros i. rewrite elem_of_app, list_elem_of_singleton, lookup_insert_Some, H2. destruct (decide (i = id)); naive_solver.
  - intros i. rewrite lookup_insert_Some, <- H3. split.
    + intros (v & vs & [-> |Hv]%Hold & Hi); [set_solver|]. right. split; [|eauto]. intros ->. by apply (Hnw v vs).
    + intros [[_ ?]|(_ & v & vs & Hv & Hi)]; [done|]. exists v, vs. split; [|done]. destruct z; cbn; [|done].
      rewrite lookup_insert_ne; [done|]. intros ->. congruence.
  - by apply nodup_snoc.
  - intros v vs [-> |Hv]%Hold; [constructor|by eapply H5].
  - intros v v' vs vs' i [-> |Hv]%Hold [-> |Hv']%Hold; [set_solver..|]. by eapply H6.
Qed.

Lemma new_wait_ok a cur wq : sched_ok a cur -> waiting a !! wq = None -> sched_ok (new_wait wq a) cur.
Proof.
  intros [H1 H2 H3 H4 H5 H6] Hwq.
  assert (Hold : forall v vs, <[wq := []]> (waiting a) !! v = Some vs -> vs = [] \/ waiting a !! v = Some vs).
  { intros v vs. rewrite lookup_insert_Some. intros [[_ <-]|[_ ?]]; auto. }
  split; cbn; try done.
  - intros i. rewrite <- H3. split.
    + intros (v & vs & [-> |Hv]%Hold & Hi); [set_solver|eauto].
    + intros (v & vs & Hv & Hi). exists v, vs. split; [|done]. rewrite lookup_insert_ne; [done|]. intros ->. congruence.
  - intros v vs [-> |Hv]%Hold; [constructor|by eapply H5].
  - intros v v' vs vs' i [-> |Hv]%Hold [-> |Hv']%Hold; [set_solver..|]. by eapply H6.
Qed.

(** ** The start *)

(** the state in which [thread_init] is called: malloc may return any storage *)
Definition initial (s : st) : Prop :=
  threads s = replicate 1024 0 /\ tcbs s = ∅ /\ nodes s = ∅ /\ wqs s = ∅ /\ 0 < next_addr s.

Definition started (z : bool) (wq : Z) : sched := mk_sched {[0 := RUNNING]} [] (add_wait z wq ∅).

Lemma started_ok z wq : sched_ok (started z wq) 0.
Proof.
  assert (Hs : forall v vs, add_wait z wq ∅ !! v = Some vs -> vs = []).
  { intros v vs. destruct z; cbn; [|by rewrite lookup_empty]. rewrite lookup_insert_Some, lookup_empty. naive_solver. }
  split; cbn.
  - intros i. rewrite lookup_singleton_Some. naive_solver.
  - intros i. rewrite lookup_singleton_Some. set_solver.
  - intros i. rewrite lookup_singleton_Some. split; [|naive_solver]. intros (v & vs & ->%Hs & Hi). set_solver.
  - constructor.
  - intros v vs ->%Hs. constructor.
  - intros v v' vs vs' i ->%Hs _ Hi. set_solver.
Qed.

(** the ready queue and nothing else *)
Lemma qrep_start s rq x : nodes s = {[rq := mk_queue x (Some 0)]} -> wqs s = ∅ -> ready_queue s = rq ->
  0 < rq < next_addr s -> qrep s [] ∅ {[rq := []]}.
Proof.
  intros En Ew Er Hrq. split; rewrite ?En, ?Ew, ?Er; try done.
  - split; rewrite ?En; [| | |lia].
    + intros g l. rewrite lookup_singleton_Some. intros [<- <-]. split; [|apply NoDup_singleton].
      exists x. apply lookup_singleton_eq.
    + intros g g' l l' b. rewrite !lookup_singleton_Some. naive_solver.
    + intros b. rewrite lookup_singleton_is_Some. by intros <-.
  - exists []. rewrite lookup_singleton_eq. split; [done|constructor].
  - intros v [g Hg]. by rewrite lookup_empty in Hg.
Qed.

Lemma thread_init_spec s : mallocs s = [] -> initial s ->
  wp thread_init s (fun _ s' => repr s' (started (zeroed s) (next_addr s + 1)) /\ enabled s' = enabled s /\
    zeroed s' = zeroed s /\ mallocs s' = [] /\ locks s' = locks s /\ cvs s' = cvs s /\
    is_Some (wqs s' !! (next_addr s + 1)) /\ forall p t, tcbs s' !! p = Some t -> t_queue t = next_addr s + 1).
Proof.
  intros Hm (Et & Ec & En & Ew & Hna). unfold thread_init, fresh, put_node, set_thread_at, thread_at. wsimpl.
  apply wp_malloc_used; [done|done|]. wsimpl. apply wp_malloc_used; [done|cbn; lia|]. wsimpl.
  apply wp_malloc_used; [done|cbn; lia|]. wsimpl. cbn. rewrite Et. wsimpl.
  apply (wp_deref _ 0); [done|]. wsimpl. apply wp_malloc_used; [done|cbn; lia|]. wsimpl.
  set (x := if zeroed s then Some 0 else None). split_and!; try done; [split| |].
  - split; cbn; rewrite ?Ec, ?Et.
    + by rewrite length_insert, length_replicate.
    + intros i. rewrite lookup_singleton_is_Some. lia.
    + intros i Hi. rewrite lookup_singleton_None. intros Hne. rewrite list_lookup_insert_ne by lia.
      apply lookup_replicate_2. lia.
    + intros i y. rewrite lookup_singleton_Some. intros [<- <-].
      exists (next_addr s). eexists. rewrite lookup_insert_eq. split_and!; try done. split; [done|]. cbn. split; [done|lia].
    + intros p. rewrite lookup_insert_is_Some'. intros [<-|Hp]; [lia|]. by rewrite lookup_empty in Hp; destruct Hp.
  - set (rq := next_addr s + 1 + 1 + 1). set (h := next_addr s + 1 + 1).
    set (s0 := with_nodes {[rq := mk_queue x (Some 0)]} (with_ready_queue rq (with_next_addr (rq + 1) (with_wqs ∅ s)))).
    assert (H0 : qrep s0 [] ∅ {[rq := []]}) by (apply (qrep_start s0 rq x); try done; cbn; lia).
    eapply (qrep_add s0 _ _ _ _ (next_addr s + 1) h x H0); cbn; rewrite ?Ew, ?En; try done.
    + intros i p [Hi|(v & vs & Hv & _)]; [by apply not_elem_of_nil in Hi|by rewrite lookup_empty in Hv].
    + rewrite insert_insert_ne by lia. done.
    + split_and!; cbn; try lia; [done|]. apply lookup_singleton_None. lia.
  - cbn. rewrite lookup_insert_eq. done.
  - intros p t. cbn. rewrite Ec. intros Hp. apply lookup_insert_Some in Hp as [[_ <-]|[_ Hp]]; [done|].
    by rewrite lookup_empty in Hp.
Qed.

(** ** Waiting for a thread *)

Section wait.
Context (s : st) (a : sched) (cur : Z).
Hypothesis Hr : repr s a.
Hypothesis Hok : sched_ok a cur.

(** the test that [thread_kill] and [thread_wait] start with *)
Definition valid_tid (tid : Z) : bool := bool_decide (is_Some (table a !! tid) /\ tid <> cur).

Lemma valid_tid_spec tid (P : bool -> st -> Prop) : P (valid_tid tid) (with_enabled false s) ->
  wp (if (0 <=? tid) && (tid <? THREAD_MAX_THREADS) then
        p ← thread_at tid; running ← thread_id; mret (negb (p =? 0) && negb (tid =? running))
      else mret false) (with_enabled false s) P.
Proof.
  intros HP. set (s0 := with_enabled false s) in *. pose proof Hr as [HT _].
  assert (HT0 : tstat s0 (table a)) by by apply (tstat_same s).
  assert (Hout : ~ (0 <= tid < 1024) -> valid_tid tid = false).
  { intros Hn. apply bool_decide_false. intros [Hs _]. by apply Hn, (ts_dom _ _ HT). }
  change THREAD_MAX_THREADS with 1024.
  destruct (Z.leb_spec 0 tid), (Z.ltb_spec tid 1024); cbn [andb]; wsimpl; try (by rewrite Hout in HP by lia).
  assert (Hat : exists p, threads s0 !! Z.to_nat tid = Some p /\ negb (p =? 0) = bool_decide (is_Some (table a !! tid))).
  { destruct (table a !! tid) as [x|] eqn:E.
    - destruct (ts_some _ _ HT0 _ _ E) as (p & t & (_ & Hp & Hp0) & _). exists p. split; [done|].
      rewrite (proj2 (Z.eqb_neq p 0)) by done. by rewrite bool_decide_true.
    - exists 0. split; [apply (ts_none _ _ HT0); [lia|done]|]. rewrite bool_decide_false; [done|]. by intros [? ?]. }
  destruct Hat as (p & Hp & Hb). unfold thread_at. wsimpl. rewrite (proj2 (Z.ltb_ge tid 0)) by done.
  eapply wp_deref; [exact Hp|]. wsimpl. apply (thread_id_spec s0 _ HT0 cur); [apply (so_running _ _ Hok)|]. wsimpl.
  rewrite Hb. unfold valid_tid in HP. replace (bool_decide _ && _) with (bool_decide (is_Some (table a !! tid) /\ tid <> cur)); [done|].
  rewrite bool_decide_and. f_equal. destruct (Z.eqb_spec tid cur); [rewrite bool_decide_false; [done|tauto]|by rewrite bool_decide_true].
Qed.

Lemma thread_wait_invalid tid : valid_tid tid = false ->
  wp (thread_wait tid) s (fun r s' => r = Done THREAD_INVALID /\ s' = s).
Proof.
  intros Hv. unfold thread_wait, interrupts_off, interrupts_set. wsimpl. apply valid_tid_spec. rewrite Hv. cbn [negb].
  wsimpl. split; [done|]. apply with_enabled_id.
Qed.

Lemma thread_kill_invalid tid : valid_tid tid = false ->
  wp (thread_kill tid) s (fun r s' => r = THREAD_INVALID /\ s' = s).
Proof.
  intros Hv. unfold thread_kill, interrupts_off, interrupts_set. wsimpl. apply valid_tid_spec. rewrite Hv. cbn [negb].
  wsimpl. split; [done|]. apply with_enabled_id.
Qed.

(** it sleeps in the wait queue of the thread it waits for; without another
    thread to run it returns at once *)
Lemma thread_wait_spec tid p t ids : mallocs s = [] -> tcb_at s tid p -> tcbs s !! p = Some t -> tid <> cur ->
  waiting a !! t_queue t = Some ids ->
  wp (thread_wait tid) s (fun r s' =>
    match ready a with
    | [] => r = Done tid /\ s' = s
    | id :: _ => r = Switched /\ repr s' (sleep_on (t_queue t) cur id a) /\
        switched (with_enabled false s) s' cur id (fun _ => C_sleep false id [F_wait tid (enabled s)])
    end).
Proof.
  intros Hm Hp Ht Hne Hw. pose proof Hr as [HT _]. destruct (tcb_lookup s _ HT _ _ Hp) as (t' & x & Ht' & Hx & _).
  assert (Hv : valid_tid tid = true) by (apply bool_decide_true; rewrite Hx; done).
  unfold thread_wait, interrupts_off, interrupts_set. wsimpl. apply valid_tid_spec. rewrite Hv. cbn [negb].
  wsimpl. set (s0 := with_enabled false s). apply (wp_thread_at s0 tid p); [done|]. wsimpl.
  eapply wp_get_tcb; [exact Ht|]. wsimpl.
  eapply wp_mono; [apply (thread_sleep_spec s0 a cur _ (t_queue t) ids); [by apply repr_enabled|done|done|done]|].
  intros r s'. destruct (ready a) as [|id R].
  - intros [-> ->]. wsimpl. split; [done|]. apply with_enabled_id.
  - intros (-> & Hr' & Hsw). wsimpl. done.
Qed.
End wait.

(** ** Locks *)

Section lock.
Context (s : st) (a : sched) (cur : Z) (l : Z) (x : lock) (ids : list Z).
Hypothesis Hr : repr s a.
Hypothesis Hok : sched_ok a cur.
Hypothesis Hm : mallocs s = [].
Hypothesis Hl0 : l <> 0.
Hypothesis Hl : locks s !! l = Some x.
Hypothesis Hw : waiting a !! l_queue x = Some ids.

Lemma wp_get_lock s0 (P : lock -> st -> Prop) : locks s0 !! l = Some x -> P x s0 -> wp (get_lock l) s0 P.
Proof. intros H HP. unfold get_lock. wsimpl. by eapply wp_deref. Qed.

(** a free lock is taken *)
Lemma lock_acquire_free k : l_acquired x = 0 ->
  wp (lock_acquire l k) s (fun r s' => r = Done 0 /\
    s' = with_locks (<[l := mk_lock (l_queue x) (Some cur) 1]> (locks s)) s).
Proof.
  intros Hx. pose proof Hr as [HT _]. unfold lock_acquire, interrupts_off, interrupts_set. wsimpl.
  apply wp_assert; [by rewrite (proj2 (Z.eqb_neq l 0))|]. wsimpl. unfold acquire_loop.
  apply (wp_while_var (fun n _ s' => n = 0 /\ s' = with_enabled false s) 0); [done|lia|].
  intros n [] s' [-> ->] _. wsimpl. apply wp_get_lock; [done|]. rewrite Hx. cbn. wsimpl.
  apply (thread_id_spec _ (table a) (tstat_same s (with_enabled false s) _ eq_refl eq_refl eq_refl HT) cur); [apply (so_running _ _ Hok)|].
  unfold put_lock, interrupts_set. wsimpl. split; [done|]. by destruct s.
Qed.

(** a lock that is held makes the caller sleep; it is not handed out *)
Lemma lock_acquire_held k id R : l_acquired x = 1 -> ready a = id :: R ->
  wp (lock_acquire l k) s (fun r s' => r = Switched /\ repr s' (sleep_on (l_queue x) cur id a) /\
    switched (with_enabled false s) s' cur id (fun _ => C_sleep false id (F_lock l (enabled s) :: k))).
Proof.
  intros Hx Hrd. unfold lock_acquire, interrupts_off, interrupts_set. wsimpl.
  apply wp_assert; [by rewrite (proj2 (Z.eqb_neq l 0))|]. wsimpl. unfold acquire_loop. set (s0 := with_enabled false s).
  apply (wp_while_var (fun n _ s' => n = 0 /\ s' = s0) 0); [done|lia|].
  intros n [] s' [-> ->] _. wsimpl. apply wp_get_lock; [done|]. rewrite Hx. cbn [Z.eqb Pos.eqb]. wsimpl.
  eapply wp_mono; [apply (thread_sleep_spec s0 a cur _ (l_queue x) ids); [by apply repr_enabled|done|done|done]|].
  rewrite Hrd. intros r s' (-> & ? & ?). wsimpl. done.
Qed.

(** with no other thread ready the loop never ends *)
Lemma lock_acquire_spins k : l_acquired x = 1 -> ready a = [] -> lock_acquire l k s = Fault OutOfFuel.
Proof.
  intros Hx Hrd. unfold lock_acquire, interrupts_off, interrupts_set.
  unfold mbind, M_bind, get, modify, mret, M_ret, assert_. rewrite (proj2 (Z.eqb_neq l 0)) by done. cbn [negb].
  set (s0 := with_enabled false s). unfold acquire_loop, while_. match goal with |- context [loop 64 ?b] => set (body := b) end.
  assert (Hb : body tt s0 = Val (inl tt, s0)).
  { pose proof (thread_sleep_idle s0 a (F_lock l (enabled s) :: k) (l_queue x) ids (repr_enabled _ _ _ Hr) Hw Hrd) as Hs.
    apply wp_inv in Hs as (r & s' & Hs & -> & ->).
    subst body. unfold get_lock, mbind, M_bind, get, deref. change (locks s0 !! l) with (locks s !! l). rewrite Hl.
    unfold mret, M_ret. rewrite Hx. cbn [Z.eqb Pos.eqb]. by rewrite Hs. }
  assert (Hloop : forall n, loop n body tt s0 = Val (inl tt, s0)).
  { induction n as [|n IH]; [exact Hb|]. cbn [loop]. unfold mbind, M_bind. by rewrite IH. }
  unfold mbind, M_bind, mret, M_ret. by rewrite Hloop.
Qed.

(** the holder releases the lock, and every thread waiting for it is ready *)
Lemma lock_release_holder : l_acquired x = 1 -> l_thread x = Some cur ->
  wp (lock_release l) s (fun _ s' => repr s' (wake_all (l_queue x) a) /\ enabled s' = enabled s /\
    pending s' = pending s /\ locks s' = <[l := mk_lock (l_queue x) (Some cur) 0]> (locks s) /\ mallocs s' = []).
Proof.
  intros Hx Ht. pose proof Hr as [HT _]. unfold lock_release, interrupts_off, interrupts_set. wsimpl.
  apply wp_assert; [by rewrite (proj2 (Z.eqb_neq l 0))|]. wsimpl. set (s0 := with_enabled false s).
  apply wp_get_lock; [done|]. rewrite Hx. cbn [Z.eqb Pos.eqb]. wsimpl.
  apply (thread_id_spec s0 (table a) (tstat_same s s0 _ eq_refl eq_refl eq_refl HT) cur); [apply (so_running _ _ Hok)|]. wsimpl.
  apply (wp_deref _ cur); [done|]. wsimpl. rewrite Z.eqb_refl. unfold put_lock. wsimpl. rewrite Ht.
  match goal with |- wp _ ?y _ => set (s1 := y) end.
  assert (Hr1 : repr s1 a) by (apply (repr_same s); [same_q|done|done]).
  eapply wp_mono; [apply (thread_wakeup_spec s1 a cur (l_queue x) ids true Hm Hr1 Hok Hw)|].
  intros r s' Hs'. wsimpl. destruct ids as [|i ids'].
  - destruct Hs' as [-> ->]. split_and!; try done. unfold wake_all. rewrite Hw. cbn. rewrite app_nil_r, insert_id by done.
    apply (repr_same s1); [same_q|done|]. by destruct a.
  - destruct Hs' as (K & _ & Hr'). split_and!; [by apply repr_enabled|done|apply (kp_pending _ _ K)|apply (kp_locks _ _ K)|].
    exact (eq_trans (kp_mallocs _ _ K) Hm).
Qed.

(** nobody else can *)
Lemma lock_release_other j : l_acquired x = 1 -> l_thread x = Some j -> j <> cur ->
  wp (lock_release l) s (fun _ s' => s' = s).
Proof.
  intros Hx Ht Hj. pose proof Hr as [HT _]. unfold lock_release, interrupts_off, interrupts_set. wsimpl.
  apply wp_assert; [by rewrite (proj2 (Z.eqb_neq l 0))|]. wsimpl. set (s0 := with_enabled false s).
  apply wp_get_lock; [done|]. rewrite Hx. cbn [Z.eqb Pos.eqb]. wsimpl.
  apply (thread_id_spec s0 (table a) (tstat_same s s0 _ eq_refl eq_refl eq_refl HT) cur); [apply (so_running _ _ Hok)|]. wsimpl.
  apply (wp_deref _ j); [done|]. wsimpl. rewrite (proj2 (Z.eqb_neq cur j)) by done. wsimpl. apply with_enabled_id.
Qed.
End lock.

(** ** Creating a lock *)

Lemma repr_next s a n : next_addr s <= n -> repr s a -> repr (with_next_addr n s) a.
Proof.
  intros Hn [[T1 T2 T3 T4 T5] (Q & [[H1 H2 H3 H4] Hr Hw Hne Hi Hn0 Ha Hd Hz])]. split.
  - split; try done. cbn. intros p Hp%T5. lia.
  - exists Q. split; try done; [split; try done; cbn|cbn].
    + intros b Hb%H3. lia.
    + lia.
    + intros v Hv%Ha. lia.
Qed.

Lemma repr_locks s a x : repr s a -> repr (with_locks x s) a.
Proof. apply repr_same; [same_q|done..]. Qed.

Lemma lock_create_spec s a : mallocs s = [] -> repr s a ->
  wp lock_create s (fun l s' => l = next_addr s /\ exists wq, waiting a !! wq = None /\ repr s' (new_wait wq a) /\
    locks s' = <[l := mk_lock wq (if zeroed s then Some 0 else None) 0]> (locks s) /\ enabled s' = enabled s /\ pending s' = pending s /\
    tcbs s' = tcbs s /\ cvs s' = cvs s /\ 0 < l < next_addr s' /\ mallocs s' = [] /\ zeroed s' = zeroed s /\
    next_addr s <= next_addr s' /\ next_addr s <= wq /\ exists h, wqs s' = <[wq := h]> (wqs s)).
Proof.
  intros Hm Hr. pose proof Hr as [_ [Q HQ]]. pose proof (qr_q _ _ _ _ HQ) as Hq. pose proof (qs_next _ _ Hq).
  unfold lock_create, interrupts_off, interrupts_set, fresh, put_lock. wsimpl.
  apply wp_malloc; [done|]. wsimpl. assert (Hl0 : next_addr s <> 0) by lia.
  apply wp_assert; [cbn; by rewrite (proj2 (Z.eqb_neq _ 0)) by lia|]. wsimpl.
  eapply wp_mono; [apply (wait_queue_create_spec _ a); [done|apply (repr_next _ a); [cbn; lia|by apply repr_enabled]]|].
  intros wq s' (Ewq & Hwq & Hr' & _ & Hp & Ht & Hl & Hc & Hn & Hm' & Hz & Hqs). cbn in *. wsimpl. rewrite Hz. split; [done|]. exists wq.
  split; [done|]. split; [apply (repr_same s'); [same_q|done|done]|]. split_and!; try done; [by rewrite Hl|cbn; lia..].
Qed.
