(* ===== verification/SyncSpec.v ===== *)
(** * Every sequence of calls

    [live s cur]: the state represents a scheduler in which [cur] runs, no thread
    has exited, and every lock, condition variable and thread refers to a wait
    queue that exists.  Every call of threads/thread.c that does not end a thread
    or destroy an object keeps it, through sleeping, waking, context switches,
    resumed calls and timer signals, and leaves alone the locks that other threads
    hold. *)

From stdpp Require Import base gmap list list_numbers.
From Stdlib Require Import ZArith Lia.
From S2P Require Import Prelude Words Threads Ample QueueSpec ThreadSpec LockSpec.
#[local] Open Scope Z_scope.

(** ** The invariant *)

Record synced (s : st) (a : sched) : Prop := {
  sy_locks : forall l x, locks s !! l = Some x -> 0 < l < next_addr s /\ is_Some (waiting a !! l_queue x) /\
    (l_acquired x = 0 \/ l_acquired x = 1 /\ exists i, l_thread x = Some i /\ is_Some (table a !! i));
  sy_cvs : forall c q, cvs s !! c = Some q -> 0 < c < next_addr s /\ is_Some (waiting a !! q);
  sy_tcbs : forall p t, tcbs s !! p = Some t -> is_Some (wqs s !! t_queue t) /\
    (zeroed s = false -> waiting a !! t_queue t = None);   (* then its head was never initialised *)
}.

Record live_with (a : sched) (s : st) (cur : Z) : Prop := {
  lv_repr : repr s a;
  lv_ok : sched_ok a cur;
  lv_exited : forall i, table a !! i <> Some EXITED;
  lv_synced : synced s a;
  lv_mallocs : mallocs s = [];       (* malloc does not fail *)
}.
Definition live (s : st) (cur : Z) : Prop := exists a, live_with a s cur.

(** the locks that threads other than [cur] hold *)
Definition kept (cur : Z) (s s' : st) : Prop := forall l x i,
  locks s !! l = Some x -> l_acquired x = 1 -> l_thread x = Some i -> i <> cur -> locks s' !! l = Some x.

Definition after (cur : Z) (s s' : st) : Prop := kept cur s s' /\ live s' cur.
Definition after_call (cur : Z) (s : st) (r : control) (s' : st) : Prop := kept cur s s' /\
  match r with Switched => exists cur', live s' cur' | _ => live s' cur end.

#[export] Instance kept_preorder cur : PreOrder (kept cur).
Proof. split; [by intros s l x i|]. intros s1 s2 s3 H1 H2 l x i Hl Hx Hi Hn. eapply H2; eauto. Qed.

Lemma kept_locks cur s s' : locks s' = locks s -> kept cur s s'.
Proof. by intros E l x i Hl _ _ _; rewrite E. Qed.

Lemma after_trans cur s s1 r s2 : after cur s s1 -> after_call cur s1 r s2 -> after_call cur s r s2.
Proof. intros [K1 _] [K2 H]. split; [by etrans|done]. Qed.
Lemma after_trans0 cur s s1 s2 : after cur s s1 -> after cur s1 s2 -> after cur s s2.
Proof. intros [K1 _] [K2 H]. split; [by etrans|done]. Qed.
Lemma after_done cur s v s' : after cur s s' -> after_call cur s (Done v) s'.
Proof. by intros []. Qed.
Lemma after_refl cur s : live s cur -> after cur s s.
Proof. by split. Qed.
Lemma after_call_refl cur s v : live s cur -> after_call cur s (Done v) s.
Proof. by split. Qed.

(** wait queues that are new are at [n] or behind it *)
Definition grows (n : Z) (a a' : sched) : Prop :=
  (forall i, is_Some (table a !! i) -> is_Some (table a' !! i)) /\
  (forall wq, is_Some (waiting a !! wq) -> is_Some (waiting a' !! wq)) /\
  (forall wq, is_Some (waiting a' !! wq) -> is_Some (waiting a !! wq) \/ n <= wq).

Lemma grows_same n a a' : (forall i, is_Some (table a !! i) -> is_Some (table a' !! i)) -> waiting a' = waiting a -> grows n a a'.
Proof. intros H E. unfold grows. rewrite E. auto. Qed.

Lemma grows_insert n a a' wq ids ids' : (forall i, is_Some (table a !! i) -> is_Some (table a' !! i)) ->
  waiting a !! wq = Some ids -> waiting a' = <[wq := ids']> (waiting a) -> grows n a a'.
Proof.
  intros H Hw E. unfold grows. rewrite E. split_and!; [done| |].
  - intros v. rewrite lookup_insert_is_Some'. by right.
  - intros v. rewrite lookup_insert_is_Some'. intros [<-|?]; left; [by rewrite Hw|done].
Qed.

Lemma synced_frame s s' a a' : repr s a -> synced s a -> sframe s s' -> grows (next_addr s) a a' -> synced s' a'.
Proof.
  intros [_ [Q HQ]] [L C T] [EL EC EN EM EZ EW ET] (G1 & G2 & G3). split.
  - intros l x. rewrite EL. intros (H0 & H1 & H2)%L. split_and!; [lia|lia|auto|]. naive_solver.
  - intros c q. rewrite EC. intros [H0 H1]%C. split; [lia|auto].
  - intros p t' (t & Ht & ->)%ET. destruct (T p t Ht) as [T1 T2]. split; [auto|]. rewrite EZ. intros Hz.
    destruct (waiting a' !! t_queue t) as [ids|] eqn:E; [|done]. destruct (G3 (t_queue t)) as [H|H]; [by rewrite E| |].
    + rewrite (T2 Hz) in H. by destruct H.
    + destruct (qr_addr _ _ _ _ HQ _ T1). lia.
Qed.

Lemma live_frame a a' s s' cur cur' : live_with a s cur -> repr s' a' -> sched_ok a' cur' ->
  (forall i, table a' !! i <> Some EXITED) -> sframe s s' -> grows (next_addr s) a a' -> live_with a' s' cur'.
Proof.
  intros [H1 H2 H3 H4 H5] Hr Hok Hex Hf Hg. split; [done..|by apply (synced_frame s s' a a')|by rewrite (sf_mallocs _ _ Hf)].
Qed.

Lemma grows_refl n a : grows n a a.
Proof. by apply grows_same. Qed.
#[local] Hint Resolve grows_refl : core.

Lemma is_Some_insert (m : gmap Z Status) i x j : is_Some (m !! j) -> is_Some (<[i := x]> m !! j).
Proof. rewrite lookup_insert_is_Some'. auto. Qed.
Lemma is_Some_insert_wait (m : gmap Z (list Z)) i x j : is_Some (m !! j) -> is_Some (<[i := x]> m !! j).
Proof. rewrite lookup_insert_is_Some'. auto. Qed.
#[local] Hint Resolve is_Some_insert is_Some_insert_wait : core.

(** the state changes in fields that the invariant does not read *)
Ltac same_sframe := split; cbn; [done|done|lia|done|done|done|eauto].

Lemma wake_list_grows ids T j : is_Some (T !! j) -> is_Some (wake_list ids T !! j).
Proof. revert T. induction ids as [|i ids IH]; intros T H; simpl; [done|]. apply IH. auto. Qed.
Lemma wake_list_live ids T : (forall i, T !! i <> Some EXITED) -> forall i, wake_list ids T !! i <> Some EXITED.
Proof.
  revert T. induction ids as [|j ids IH]; intros T Hex i; simpl; [done|]. apply IH. intros i'.
  rewrite lookup_insert_Some. naive_solver.
Qed.

Lemma yield_choice_ready a cur want id : yield_choice cur want a = inr id -> id ∈ ready a.
Proof.
  unfold yield_choice. repeat case_decide; try done; [|by intros [= <-]].
  destruct (ready a); [done|]. intros [= ->]. by left.
Qed.

Lemma live_with_enabled a s x cur : live_with a s cur -> live_with a (with_enabled x s) cur.
Proof.
  intros Hl. eapply live_frame; [done|apply repr_enabled, Hl|apply Hl|apply Hl|same_sframe|done].
Qed.
Lemma live_enabled s x cur : live s cur -> live (with_enabled x s) cur.
Proof. intros (a & Hl). exists a. by apply live_with_enabled. Qed.
Lemma after_enabled s s' x cur : after cur s s' -> after cur s (with_enabled x s').
Proof. intros [K H]. split; [done|by apply live_enabled]. Qed.
Lemma after_off s x cur : live s cur -> after cur s (with_enabled x s).
Proof. intros H. by apply after_enabled, after_refl. Qed.
Lemma after_call_off s x cur r s' : after_call cur (with_enabled x s) r s' -> after_call cur s r s'.
Proof. by intros [K H]. Qed.
Lemma live_pending s x cur : live s cur -> live (with_pending x s) cur.
Proof.
  intros (a & Hl). exists a. eapply live_frame; [done|apply (repr_same s); [same_q|done|apply Hl]|apply Hl|apply Hl|same_sframe|done].
Qed.

(** the head of the wait queue [wq] was initialised *)
Definition initialised (s : st) (wq : Z) : Prop :=
  exists h t n, wqs s !! wq = Some h /\ nodes s !! h = Some (mk_queue t (Some n)).

Lemma live_wq a s cur wq : live_with a s cur -> is_Some (waiting a !! wq) <-> initialised s wq.
Proof.
  intros [[_ [Q HQ]] _ _ _ _]. split.
  - intros [ids Hids]. destruct (qr_wait _ _ _ _ HQ _ _ Hids) as (h & l & Hh & Hl & _).
    destruct (qs_chain _ _ (qr_q _ _ _ _ HQ) _ _ Hl) as [Hc _]. apply chain_head in Hc as [t Ht]. by exists h, t, (link l).
  - intros (h & t & n & Hh & Hn). destruct (qr_dom _ _ _ _ HQ wq h Hh) as [?|[_ [t' Ht']]]; [done|]. congruence.
Qed.

(** a wait queue that is not usable, because malloc did not return zeroed storage *)
Lemma live_raw a s cur wq : live_with a s cur -> is_Some (wqs s !! wq) -> waiting a !! wq = None ->
  zeroed s = false /\ exists h, wqs s !! wq = Some h /\ raw s h.
Proof.
  intros [[_ [Q HQ]] _ _ _ _] [h Hh] Hn. destruct (qr_dom _ _ _ _ HQ wq h Hh) as [[ids Hi]|[Hz Hraw]]; [congruence|].
  split; [done|]. by exists h.
Qed.

Lemma wlp_next_raw s h (P : Z -> st -> Prop) : raw s h -> wlp (next_of h) s P.
Proof.
  intros [t Ht]. unfold next_of, get_node. lsimpl. apply wlp_deref. intros q Hq. lsimpl. apply wlp_deref.
  intros x Hx. rewrite Ht in Hq. by injection Hq as <-.
Qed.

Lemma live_thread_id s cur (P : Z -> st -> Prop) : live s cur -> P cur s -> wp thread_id s P.
Proof. intros (a & Hl) HP. pose proof (lv_repr _ _ _ Hl) as [HT _]. eapply (thread_id_spec s _ HT cur); [apply (so_running _ _ (lv_ok _ _ _ Hl))|done]. Qed.

Lemma wlp_thread_id s cur (P : Z -> st -> Prop) : live s cur -> P cur s -> wlp thread_id s P.
Proof. intros. by apply wp_wlp, (live_thread_id s cur). Qed.

Lemma wlp_add_raw s h p (P : unit -> st -> Prop) : raw s h -> 0 < h < next_addr s -> wlp (add_to_queue h p) s P.
Proof.
  intros [t Ht] Hh. unfold add_to_queue, malloc_used, malloc. rewrite (proj2 (Z.eqb_neq h 0)) by lia. lsimpl.
  unfold add_count_queue, put_node.
  destruct (mallocs s) as [|[] l]; lsimpl; [| |done];
    rewrite (proj2 (Z.eqb_neq (next_addr s) 0)) by lia; lsimpl;
    apply wlp_next_raw; exists t; cbn; by rewrite lookup_insert_ne by lia.
Qed.

(** ** Scheduling calls *)

Section calls.
Context (s : st) (cur : Z).
Hypothesis Hs : live s cur.

Lemma yield_live want k : wp (thread_yield want k) s (after_call cur s).
Proof.
  destruct Hs as (a & Hl). pose proof Hl as [Hr Hok Hex Hsy Hm].
  eapply wp_mono; [by apply (thread_yield_spec s a cur)|]. intros r s'. destruct (yield_choice cur want a) as [v|id] eqn:E.
  - intros [-> ->]. by apply after_call_refl.
  - intros (-> & Hr' & p & q & t & u & _ & _ & _ & _ & _ & _ & _ & Hf). split; [apply kept_locks, Hf|].
    exists id, (switch_to cur id a). eapply live_frame; [exact Hl|done| | |exact Hf|].
    + by eapply switch_to_ok, yield_choice_ready.
    + intros i. cbn. rewrite !lookup_insert_Some. naive_solver.
    + apply grows_same; cbn; auto.
Qed.

Lemma create_live fn parg : wp (thread_create fn parg) s (fun _ s' => after cur s s').
Proof.
  destruct Hs as (a & Hl). pose proof Hl as [Hr Hok Hex Hsy Hm]. destruct (first_free (table a)) as [id|] eqn:E.
  - eapply wp_mono; [by apply (thread_create_spec s a cur fn parg Hr Hok id)|].
    intros r s' (_ & _ & _ & wq & p & t & h & Hr' & Hwq & _ & Ht & _ & Hq & Ew & Ewn & El & Ec & En & Em & Ez). split; [by apply kept_locks|].
    exists (create (zeroed s) id wq a).
    assert (Hg : forall v, is_Some (waiting a !! v) -> is_Some (add_wait (zeroed s) wq (waiting a) !! v)).
    { intros v. unfold add_wait. destruct (zeroed s); auto. }
    split; [done|by apply create_ok| | |done].
    + intros i. cbn. rewrite lookup_insert_Some. naive_solver.
    + destruct Hsy as [L C T]. split; rewrite ?El, ?Ec, ?Ht, ?Ew, ?Ez; cbn.
      * intros l x (H0 & H1 & H2)%L. split_and!; [lia|lia|auto|]. naive_solver.
      * intros c q [H0 H1]%C. split; [lia|auto].
      * intros p' t'. rewrite lookup_insert_Some. intros [[_ <-]|[_ [T1 T2]%T]].
        -- rewrite Hq, lookup_insert_eq. split; [done|]. by intros ->.
        -- split; [rewrite lookup_insert_is_Some'; by right|]. intros Hz. rewrite Hz. by apply T2.
  - eapply wp_mono; [by apply (thread_create_full s a)|]. intros r s' [_ ->]. by apply after_refl.
Qed.

Lemma wait_queue_live : wp wait_queue_create s (fun wq s' => after cur s s' /\ initialised s' wq /\
  next_addr s < next_addr s').
Proof.
  destruct Hs as (a & Hl). pose proof Hl as [Hr Hok Hex Hsy Hm]. eapply wp_mono; [by apply (wait_queue_create_spec s a)|].
  intros wq s' (Ewq & Hwq & Hr' & _ & _ & Et & El & Ec & En & Em & Ez & h & Ew).
  assert (Hl' : live_with (new_wait wq a) s' cur).
  { eapply live_frame; [exact Hl|done|by apply new_wait_ok|done| |].
    - split; [done|done|lia|congruence|done| |rewrite Et; eauto]. intros v. rewrite Ew, lookup_insert_is_Some'. by right.
    - split_and!; cbn; [done|auto|]. intros v. rewrite lookup_insert_is_Some'. intros [<-|?]; [right; lia|by left]. }
  split; [split; [by apply kept_locks|by eexists]|]. split; [|done]. eapply (live_wq _ s' cur); [exact Hl'|]. cbn. by rewrite lookup_insert_eq.
Qed.

Lemma sleep_live wq k : initialised s wq -> wp (thread_sleep wq k) s (after_call cur s).
Proof.
  intros Hw. destruct Hs as (a & Hl). pose proof Hl as [Hr Hok Hex Hsy Hm]. apply (live_wq a s cur _ Hl) in Hw. destruct Hw as [ids Hids].
  eapply wp_mono; [by apply (thread_sleep_spec s a cur k wq ids)|]. intros r s'. destruct (ready a) as [|id R] eqn:E.
  - intros [-> ->]. by apply after_call_refl.
  - intros (-> & Hr' & p & q & t & u & _ & _ & _ & _ & _ & _ & _ & Hf). split; [apply kept_locks, Hf|].
    exists id, (sleep_on wq cur id a). eapply live_frame; [exact Hl|done| | |exact Hf|].
    + by eapply sleep_on_ok.
    + intros i. cbn. rewrite !lookup_insert_Some. naive_solver.
    + eapply grows_insert; [cbn; auto|exact Hids|reflexivity].
Qed.

Lemma wakeup_live wq all : initialised s wq -> wp (thread_wakeup wq all) s (fun _ s' => after cur s s').
Proof.
  intros Hw. destruct Hs as (a & Hl). pose proof Hl as [Hr Hok Hex Hsy Hm]. apply (live_wq a s cur _ Hl) in Hw. destruct Hw as [ids Hids].
  eapply wp_mono; [by apply (thread_wakeup_spec s a cur wq ids all)|]. intros r s'. destruct ids as [|i ids].
  - intros [_ ->]. by apply after_refl.
  - intros [Hk Hw']. assert (Hf : sframe s s').
    { split; [apply Hk..|by rewrite (kp_wqs _ _ Hk)|]. intros p t' Ht. destruct (kp_tcbs _ _ Hk p t' Ht) as (t & x & Ht0 & ->). by exists t. }
    split; [apply kept_locks, Hk|]. destruct all; destruct Hw' as [_ Hr'].
    + exists (wake_all wq a). eapply live_frame; [exact Hl|done|by eapply wake_all_ok|by apply wake_list_live|done|].
      eapply grows_insert; [cbn; apply wake_list_grows|exact Hids|reflexivity].
    + exists (wake_one wq a). eapply live_frame; [exact Hl|done|by apply wake_one_ok| |done|].
      * unfold wake_one. rewrite Hids. intros j. cbn. rewrite lookup_insert_Some. naive_solver.
      * eapply (grows_insert _ _ _ wq _ ids); [|exact Hids|]; unfold wake_one; rewrite Hids; cbn; auto.
Qed.

(** a wait queue that was not initialised cannot be used: either nothing is done
    with it, or its head is read and the call does not return *)
Lemma sleep_wlp wq k : is_Some (wqs s !! wq) -> wlp (thread_sleep wq k) s (after_call cur s).
Proof.
  intros Hw. destruct Hs as (a & Hl). destruct (waiting a !! wq) as [ids|] eqn:E.
  { apply wp_wlp, sleep_live, (live_wq a s cur wq Hl). by rewrite E. }
  destruct (live_raw a s cur wq Hl Hw E) as (_ & h & Hh & Hraw). pose proof Hl as [[HT [Q HQ]] Hok Hex Hsy Hm].
  set (s0 := with_enabled false s).
  assert (HT0 : tstat s0 (table a)) by by apply (tstat_same s).
  assert (HQ0 : qrep s0 (ready a) (waiting a) Q) by (apply (qrep_same s); [same_q|done]).
  unfold thread_sleep, interrupts_off, interrupts_set. lsimpl. fold s0. destruct (wq =? 0) eqn:E0; lsimpl.
  { apply after_done, after_enabled, (after_off s false). by exists a. }
  apply wp_wlp, (ready_first s0 _ _ _ _ HT0 HQ0). destruct (_ =? THREAD_NONE); lsimpl.
  { apply after_done, after_enabled, (after_off s false). by exists a. }
  unfold thread_at. lsimpl. destruct (_ <? 0); lsimpl. apply wlp_deref. intros p Hp. lsimpl.
  unfold current. lsimpl. apply (wlp_thread_id s0 cur); [by apply live_enabled; exists a|]. lsimpl.
  unfold thread_at. lsimpl. destruct (cur <? 0); lsimpl. apply wlp_deref. intros q Hq. lsimpl.
  destruct (q =? 0); lsimpl. unfold getcontext, upd_tcb, get_tcb, wait_of. lsimpl. apply wlp_deref. intros u Hu. lsimpl.
  apply wlp_deref. intros h' Hh'. cbn in Hh'. replace h' with h by congruence. lsimpl. apply wlp_add_raw; [done|].
  destruct Hraw as [t Ht]. apply (qs_addr _ _ (qr_q _ _ _ _ HQ)). by rewrite Ht.
Qed.

Lemma wakeup_wlp wq all : is_Some (wqs s !! wq) -> wlp (thread_wakeup wq all) s (fun _ s' => after cur s s').
Proof.
  intros Hw. destruct Hs as (a & Hl). destruct (waiting a !! wq) as [ids|] eqn:E.
  { apply wp_wlp, wakeup_live, (live_wq a s cur wq Hl). by rewrite E. }
  destruct (live_raw a s cur wq Hl Hw E) as (_ & h & Hh & Hraw). pose proof Hl as [[_ [Q HQ]] _ _ _ _].
  unfold thread_wakeup, interrupts_off, interrupts_set. lsimpl.
  assert (H0 : (wq =? 0) = false) by (apply Z.eqb_neq; destruct (qr_addr _ _ _ _ HQ wq Hw); lia).
  assert (H1 : (h =? 0) = false).
  { apply Z.eqb_neq. destruct Hraw as [t Ht]. destruct (qs_addr _ _ (qr_q _ _ _ _ HQ) h); [by rewrite Ht|lia]. }
  rewrite H0. unfold wait_of at 1. lsimpl. apply wlp_deref. intros h' Hh'. cbn in Hh'. replace h' with h by congruence. lsimpl.
  rewrite H1. lsimpl. by apply wlp_next_raw.
Qed.
End calls.

Lemma timer_live s cur : live s cur -> wp timer_signal s (after_call cur s).
Proof.
  intros Hs. unfold timer_signal, interrupt_handler, interrupts_enabled, interrupts_off, interrupts_on, interrupts_set.
  wsimpl. apply wp_assert; [done|]. wsimpl. pose proof (live_enabled s false cur Hs) as H0.
  eapply wp_mono; [apply (yield_live _ cur H0)|].
  intros [v| |fn arg] s' [K H]; wsimpl; split; try done. by apply live_enabled.
Qed.

(** ** Locks, waiting and condition variables *)

Lemma after_call_enabled s s' v x cur : after cur s s' -> after_call cur s (Done v) (with_enabled x s').
Proof. intros H. by apply after_done, after_enabled. Qed.

Lemma live_lock s cur l x : live s cur -> locks s !! l = Some x ->
  initialised s (l_queue x) /\ (l_acquired x = 0 \/ l_acquired x = 1 /\ exists i, l_thread x = Some i).
Proof.
  intros (a & Hl) Hx. destruct (sy_locks _ _ (lv_synced _ _ _ Hl) _ _ Hx) as (_ & Hq & Ha).
  split; [by apply (live_wq a s cur)|]. naive_solver.
Qed.

(** the running thread takes or releases a lock that nobody else holds *)
Lemma live_put_lock s cur l x x' : live s cur -> locks s !! l = Some x -> l_queue x' = l_queue x ->
  (l_acquired x = 0 \/ l_thread x = Some cur) ->
  (l_acquired x' = 0 \/ l_acquired x' = 1 /\ l_thread x' = Some cur) ->
  after cur s (with_locks (<[l := x']> (locks s)) s).
Proof.
  intros (a & Hl) Hx Eq Hfree Hx'. destruct Hl as [Hr Hok Hex [L C T] Hma]. split.
  - intros m y i. cbn. rewrite lookup_insert_Some. intros Hm Ha Hi Hn. right. split; [|done].
    intros <-. destruct Hfree; congruence.
  - exists a. split; [apply (repr_same s); [same_q|done|done]|done|done| |done]. split; [|done|done].
    intros m y. cbn. rewrite lookup_insert_Some. intros [[<- <-]|[_ Hm]]; [|by apply L].
    destruct (L l x Hx) as (H0 & H1 & _). rewrite Eq. split; [done|]. split; [done|].
    destruct Hx' as [?|[? ?]]; [by left|right]. split; [done|]. exists cur. split; [done|].
    by rewrite (proj2 (so_running _ _ Hok cur) eq_refl).
Qed.

Lemma lock_create_live s cur : live s cur -> wp lock_create s (fun _ s' => after cur s s').
Proof.
  intros (a & Hl). pose proof Hl as [Hr Hok Hex [L C T] Hm]. eapply wp_mono; [by apply (lock_create_spec s a)|].
  intros l s' (El & wq & Hwq & Hr' & Elk & _ & _ & Et & Ec & Hl0 & Em & Ez & En & Ewn & h & Ew).
  assert (Hn : locks s !! l = None).
  { destruct (locks s !! l) as [x|] eqn:E; [|done]. destruct (L l x E). lia. }
  split.
  - intros m y i Hm' _ _ _. rewrite Elk, lookup_insert_ne; [done|]. intros ->. congruence.
  - exists (new_wait wq a). split; [done|by apply new_wait_ok|done| |done]. split; rewrite ?Elk, ?Et, ?Ec, ?Ew, ?Ez; cbn.
    + intros m y. rewrite lookup_insert_Some. intros [[<- <-]|[_ (H0 & H1 & H2)%L]]; cbn.
      * rewrite lookup_insert_eq. split_and!; [lia|lia|done|by left].
      * split_and!; [lia|lia|auto|done].
    + intros c q [H0 H1]%C. split; [lia|auto].
    + intros p t [T1 T2]%T. split; [rewrite lookup_insert_is_Some'; by right|]. intros Hz.
      rewrite lookup_insert_ne; [by apply T2|]. intros E.
      destruct Hr as [_ [Q HQ]]. rewrite <- E in T1. destruct (qr_addr _ _ _ _ HQ _ T1). lia.
Qed.

Lemma acquire_live s cur l e k : live s cur -> wlp (acquire_loop l e k) s (after_call cur s).
Proof.
  intros Hs. unfold acquire_loop. apply (wlp_while (fun _ s1 => after cur s s1)); [by apply after_refl|].
  intros _ s1 H1. pose proof H1 as [_ Hs1]. unfold get_lock. lsimpl. apply wlp_deref. intros x Hx.
  destruct (live_lock _ _ _ _ Hs1 Hx) as [Hq Ha]. destruct (Z.eqb_spec (l_acquired x) 1) as [E|E]; lsimpl.
  - eapply wlp_mono; [apply wp_wlp, (sleep_live s1 cur Hs1); exact Hq|].
    intros r s2 H2. pose proof (after_trans _ _ _ _ _ H1 H2) as H. by destruct r; lsimpl.
  - apply (wlp_thread_id s1 cur); [done|]. unfold put_lock, interrupts_set. lsimpl.
    apply after_call_enabled. eapply after_trans0; [exact H1|]. eapply live_put_lock; [done|done|done| |by right].
    left. lia.
Qed.

Lemma lock_acquire_live s cur l k : live s cur -> wlp (lock_acquire l k) s (after_call cur s).
Proof.
  intros Hs. unfold lock_acquire, interrupts_off, interrupts_set. lsimpl. apply wlp_assert. intros _.
  eapply wlp_mono; [by apply acquire_live, live_enabled|]. by intros r s'.
Qed.

Lemma lock_release_live s cur l : live s cur -> wlp (lock_release l) s (fun _ s' => after cur s s').
Proof.
  intros Hs. unfold lock_release, interrupts_off, interrupts_set, get_lock. lsimpl. apply wlp_assert. intros _. lsimpl.
  apply wlp_deref. intros x Hx. pose proof (live_enabled s false cur Hs) as Hs0. set (s0 := with_enabled false s) in *.
  destruct (live_lock _ _ _ _ Hs0 Hx) as [Hq _].
  lsimpl. eapply (wlp_mono _ _ (fun b s' => s' = s0 /\ (b = true -> l_thread x = Some cur))).
  { destruct (l_acquired x =? 1); lsimpl; [|done]. apply (wlp_thread_id s0 cur); [done|]. lsimpl.
    apply wlp_deref. intros h Hh. lsimpl. split; [done|]. by intros ->%Z.eqb_eq. }
  intros b s1 [-> Hb]. destruct b; lsimpl; [|by apply after_enabled, (after_off s false)].
  unfold put_lock. lsimpl. set (s1 := with_locks _ s0).
  assert (H1 : after cur s0 s1) by (eapply live_put_lock; [done|done|done|right; by apply Hb|by left]).
  eapply wlp_mono; [apply wp_wlp, (wakeup_live s1 cur (proj2 H1)); exact Hq|].
  intros r s2 H2. lsimpl. apply after_enabled. apply (after_trans0 _ s0 s1 s2 H1 H2).
Qed.

Lemma thread_wait_live s cur tid : live s cur -> wlp (thread_wait tid) s (after_call cur s).
Proof.
  intros Hs. pose proof Hs as (a & Hl). unfold thread_wait, interrupts_off, interrupts_set. lsimpl.
  eapply wlp_mono.
  { apply wp_wlp, (valid_tid_spec s a cur (lv_repr _ _ _ Hl) (lv_ok _ _ _ Hl) tid (fun _ s' => s' = with_enabled false s)). done. }
  intros b s0 ->. pose proof (live_enabled s false cur Hs) as Hs0. set (s0 := with_enabled false s) in *.
  destruct b; cbn [negb]; lsimpl; [|by apply after_done, after_enabled, (after_off s false)].
  unfold thread_at. lsimpl. destruct (tid <? 0); lsimpl. apply wlp_deref. intros p _. unfold get_tcb. lsimpl.
  apply wlp_deref. intros t Ht.
  assert (Hq : is_Some (wqs s0 !! t_queue t)) by apply (sy_tcbs _ _ (lv_synced _ _ _ Hl) p t Ht).
  lsimpl. eapply wlp_mono; [apply (sleep_wlp s0 cur Hs0); exact Hq|].
  intros r s1 H1. destruct r; lsimpl; [by apply (after_call_enabled s)|done|done].
Qed.

Lemma live_next s cur n : next_addr s <= n -> live s cur -> live (with_next_addr n s) cur.
Proof.
  intros Hn (a & Hl). exists a. eapply live_frame; [done|apply repr_next; [done|apply Hl]|apply Hl|apply Hl| |done].
  split; cbn; eauto.
Qed.

(** a condition variable at an address that [malloc] returned *)
Lemma live_put_cv s cur c q : live s cur -> initialised s q -> 0 < c < next_addr s ->
  after cur s (with_cvs (<[c := q]> (cvs s)) s).
Proof.
  intros (a & Hl) Hq Hc. split; [by apply kept_locks|]. exists a. apply (live_wq a s cur) in Hq; [|done].
  destruct Hl as [Hr Hok Hex [L C T] Hm]. split; [apply (repr_same s); [same_q|done|done]|done|done| |done].
  split; [done| |done]. intros d v. cbn. rewrite lookup_insert_Some. intros [[<- <-]|[_ Hd]]; [done|by apply C].
Qed.

Lemma cv_create_live s cur : live s cur -> wp cv_create s (fun _ s' => after cur s s').
Proof.
  intros Hs. unfold cv_create, interrupts_off, interrupts_set. wsimpl. pose proof (live_enabled s false cur Hs) as Hs0.
  set (s0 := with_enabled false s) in *. pose proof Hs0 as (a & [[_ [Q HQ]] _ _ _ Hm]).
  pose proof (qr_q _ _ _ _ HQ) as Hq. pose proof (qs_next _ _ Hq) as Hn.
  apply wp_malloc; [exact Hm|]. wsimpl. apply wp_assert; [by rewrite (proj2 (Z.eqb_neq _ 0)) by lia|]. wsimpl.
  set (s1 := with_next_addr _ s0). assert (H1 : live s1 cur) by (apply live_next; [lia|done]).
  eapply wp_mono; [apply (wait_queue_live s1 cur H1)|].
  intros q s2 (H2 & Hwq & Hnext). wsimpl. apply after_enabled. eapply after_trans0; [exact H2|].
  apply live_put_cv; [apply H2|done|].
  change (next_addr s1) with (next_addr s0 + 1) in Hnext. lia.
Qed.

Lemma holds_live s cur l : live s cur -> wlp (holds l) s (fun b s' => s' = s).
Proof.
  intros Hs. unfold holds, get_lock. lsimpl. apply wlp_deref. intros x Hx. lsimpl. apply wlp_deref. intros h Hh. lsimpl.
  apply (wlp_thread_id s cur); [done|]. by lsimpl.
Qed.

Lemma live_cv s cur c q : live s cur -> cvs s !! c = Some q -> initialised s q.
Proof. intros (a & Hl) Hc. apply (live_wq a s cur _ Hl). by apply (sy_cvs _ _ (lv_synced _ _ _ Hl) c). Qed.

Lemma cv_notify_live s cur all c l : live s cur -> wlp (cv_notify all c l) s (fun _ s' => after cur s s').
Proof.
  intros Hs. unfold cv_notify, interrupts_off, interrupts_set. lsimpl. apply wlp_assert. intros _. lsimpl.
  apply wlp_assert. intros _. lsimpl. pose proof (live_enabled s false cur Hs) as Hs0. set (s0 := with_enabled false s) in *.
  eapply wlp_mono; [by apply (holds_live s0 cur)|]. intros b s1 ->. destruct b; lsimpl; [|by apply after_enabled, (after_off s false)].
  unfold get_cv. lsimpl. apply wlp_deref. intros q Hq. lsimpl.
  eapply wlp_mono; [apply wp_wlp, (wakeup_live s0 cur Hs0); by eapply (live_cv s0 cur)|]. intros r s2 H2. lsimpl.
  by apply after_enabled.
Qed.

Lemma cv_acquire_live s cur l e k : live s cur -> wlp (cv_acquire l e k) s (after_call cur s).
Proof.
  intros Hs. unfold cv_acquire, interrupts_set. lsimpl. eapply wlp_mono; [by apply lock_acquire_live|].
  intros r s1 H1. destruct r; lsimpl; [|done|done]. destruct H1. by split; [|apply live_enabled].
Qed.

Lemma cv_wait_live s cur c l : live s cur -> wlp (cv_wait c l) s (after_call cur s).
Proof.
  intros Hs. unfold cv_wait, interrupts_off, interrupts_set. lsimpl. apply wlp_assert. intros _. lsimpl.
  apply wlp_assert. intros _. lsimpl. pose proof (live_enabled s false cur Hs) as Hs0. set (s0 := with_enabled false s) in *.
  eapply wlp_mono; [by apply (holds_live s0 cur)|]. intros b s1 ->. destruct b.
  2: { eapply wlp_mono; [by apply (cv_acquire_live s0 cur)|]. intros r s2. apply after_call_off. }
  lsimpl.
  eapply wlp_mono; [by apply lock_release_live|]. intros [] s1 H1. pose proof H1 as [_ Hs1]. lsimpl.
  unfold get_cv. lsimpl. apply wlp_deref. intros q Hq. lsimpl.
  eapply wlp_mono; [apply wp_wlp, (sleep_live s1 cur Hs1); by eapply (live_cv s1 cur)|]. intros r s2 H2.
  pose proof (after_trans _ _ _ _ _ H1 H2) as H. destruct r as [v| |fn arg]; lsimpl;
    [|by apply (after_call_off s false)|by apply (after_call_off s false)].
  eapply wlp_mono; [apply (cv_acquire_live s2 cur), H|]. intros r s3 H3.
  apply (after_call_off s false), (after_trans cur s0 s2 r s3); [exact H|exact H3].
Qed.

(** ** Resuming *)

Lemma run_frames_live k v s cur : live s cur -> wlp (run_frames k v) s (after_call cur s).
Proof.
  revert v s. induction k as [|f k IH]; intros v s Hs; [by apply after_call_refl|].
  assert (Hgo : forall r s1, after_call cur s r s1 ->
    wlp (match r with Done y => run_frames k y | _ => mret r end) s1 (after_call cur s)).
  { intros r s1 [K H]. destruct r as [y| |fn arg]; [|done|done].
    eapply wlp_mono; [by apply IH|]. intros r s2 H2. by apply (after_trans _ s s1). }
  assert (Hon : forall x y, wlp (run_frames k y) (with_enabled x s) (after_call cur s)).
  { intros x y. by apply (Hgo (Done y)), after_done, after_off. }
  destruct f as [tid e|l e|l e|e|]; cbn [run_frames]; unfold interrupts_on, interrupts_set; lsimpl; try apply Hon.
  - eapply wlp_mono; [by apply acquire_live|]. apply Hgo.
  - eapply wlp_mono; [by apply cv_acquire_live|]. apply Hgo.
Qed.

Lemma resume_live s cur : live s cur -> wlp resume s (after_call cur s).
Proof.
  intros Hs. unfold resume. lsimpl. apply wlp_deref. intros c _. lsimpl. pose proof (live_pending s None cur Hs) as Hp.
  destruct c as [|fn arg|e p k|e id k]; unfold interrupts_on, interrupts_set; lsimpl.
  - split; [by apply kept_locks|by apply live_enabled].
  - unfold get_tcb. lsimpl. apply wlp_deref. intros t _. lsimpl.
    eapply wlp_mono; [by apply run_frames_live, live_enabled|]. intros r s'. apply after_call_off.
  - pose proof Hp as (a & [[HT _] _ Hex _ _]).
    eapply wlp_mono.
    { apply wp_wlp, (free_exited_none _ (table a) HT (fun _ s' => s' = with_pending None s) Hex). done. }
    intros _ s' ->. lsimpl.
    eapply wlp_mono; [by apply run_frames_live, live_enabled|]. intros r s'. apply after_call_off.
Qed.

(** ** Calls that return *)

Lemma wp_and_wlp {A} (m : M st A) s (P : A -> st -> Prop) : wp m s (fun _ _ => True) -> wlp m s P -> wp m s P.
Proof. unfold wp, wlp. by destruct (m s) as [[r s']|f]. Qed.

Lemma lock_release_safe s cur l x : live s cur -> locks s !! l = Some x -> wp (lock_release l) s (fun _ s' => after cur s s').
Proof.
  intros Hs Hx. apply wp_and_wlp; [|by apply lock_release_live]. destruct Hs as (a & Hl).
  destruct (sy_locks _ _ (lv_synced _ _ _ Hl) l x Hx) as (Hl0 & [ids Hids] & Ha). destruct Hl as [Hr Hok _ _ Hm].
  destruct Ha as [Ha|(Ha & j & Hj & _)].
  - unfold lock_release, interrupts_off, interrupts_set. wsimpl. apply wp_assert; [by rewrite (proj2 (Z.eqb_neq l 0)) by lia|].
    wsimpl. apply (wp_get_lock l x); [done|]. rewrite Ha. cbn [Z.eqb]. by wsimpl.
  - destruct (decide (j = cur)) as [->|Hne].
    + eapply wp_mono; [exact (lock_release_holder s a cur l x ids Hr Hok Hm ltac:(lia) Hx Hids Ha Hj)|done].
    + eapply wp_mono; [exact (lock_release_other s a cur l x Hr Hok ltac:(lia) Hx j Ha Hj Hne)|done].
Qed.

Lemma lock_acquire_safe a s cur l x k : live_with a s cur -> locks s !! l = Some x ->
  l_acquired x = 0 \/ ready a <> [] -> wp (lock_acquire l k) s (after_call cur s).
Proof.
  intros Hl Hx Hor. apply wp_and_wlp; [|by apply lock_acquire_live; exists a].
  destruct (sy_locks _ _ (lv_synced _ _ _ Hl) l x Hx) as (Hl0 & [ids Hids] & Ha). destruct Hl as [Hr Hok _ _ Hm].
  destruct Ha as [Ha|(Ha & _)].
  - eapply wp_mono; [by apply (lock_acquire_free s a cur l x Hr Hok Hm ltac:(lia) Hx k)|done].
  - destruct Hor as [?|Hrd]; [congruence|]. destruct (ready a) as [|id R] eqn:E; [done|].
    eapply wp_mono; [by eapply (lock_acquire_held s a cur l x ids Hr Hok Hm ltac:(lia) Hx Hids)|done].
Qed.

(** with zeroed storage the wait queue of every thread can be used *)
Lemma thread_wait_safe s cur tid : live s cur -> zeroed s = true -> wp (thread_wait tid) s (after_call cur s).
Proof.
  intros Hs Hz. apply wp_and_wlp; [|by apply thread_wait_live]. destruct Hs as (a & Hl).
  pose proof Hl as [Hr Hok Hex Hsy Hm]. destruct (valid_tid a cur tid) eqn:Hv.
  - apply bool_decide_eq_true in Hv as [[x Hx] Hne]. pose proof Hr as [HT [Q HQ]].
    destruct (ts_some _ _ HT tid x Hx) as (p & t & Hp & Ht & _). destruct (sy_tcbs _ _ Hsy p t Ht) as [[h Hh] _].
    destruct (qr_dom _ _ _ _ HQ _ _ Hh) as [[ids Hids]|[? _]]; [|congruence].
    eapply wp_mono; [exact (thread_wait_spec s a cur Hr Hok tid p t ids Hm Hp Ht Hne Hids)|done].
  - eapply wp_mono; [by apply (thread_wait_invalid s a cur)|done].
Qed.

(** ** Wait queues whose head was never initialised *)

Lemma next_raw_fault s h : raw s h -> next_of h s = Fault Undefined.
Proof. intros [t Ht]. unfold next_of, get_node, mbind, M_bind, get, deref. by rewrite Ht. Qed.

Lemma add_raw_fault s h p : mallocs s = [] -> raw s h -> 0 < h < next_addr s -> add_to_queue h p s = Fault Undefined.
Proof.
  intros Hm [t Ht] Hh. unfold add_to_queue. rewrite (proj2 (Z.eqb_neq h 0)) by lia.
  apply fault_bind, wp_malloc_used; [done|lia|]. apply fault_bind. unfold add_count_queue. wsimpl.
  apply fault_bind. unfold put_node. wsimpl. apply bind_fault, next_raw_fault. exists t. cbn. by rewrite lookup_insert_ne by lia.
Qed.

Lemma sleep_raw_fault a s cur wq k h : live_with a s cur -> wqs s !! wq = Some h -> raw s h -> ready a <> [] ->
  thread_sleep wq k s = Fault Undefined.
Proof.
  intros Hl Hh Hraw Hrd. pose proof Hl as [[HT [Q HQ]] Hok Hex Hsy Hm]. set (s0 := with_enabled false s).
  assert (HT0 : tstat s0 (table a)) by by apply (tstat_same s).
  assert (HQ0 : qrep s0 (ready a) (waiting a) Q) by (apply (qrep_same s); [same_q|done]).
  pose proof (ready_bound s a cur (conj HT (ex_intro _ Q HQ)) Hok) as Hrb.
  destruct (qr_addr _ _ _ _ HQ wq) as [Hwq _]; [by rewrite Hh|].
  unfold thread_sleep, interrupts_off, interrupts_set. apply fault_bind. wsimpl. fold s0.
  rewrite (proj2 (Z.eqb_neq wq 0)) by lia. apply fault_bind. wsimpl. apply fault_bind, (ready_first s0 _ _ _ _ HT0 HQ0).
  destruct (ready a) as [|id R] eqn:ER; [done|]. cbn [head]. change (default THREAD_NONE (Some id)) with id.
  destruct (Hrb id) as [Hid Hne]; [by left|]. rewrite (proj2 (Z.eqb_neq id THREAD_NONE)) by (unfold THREAD_NONE; lia).
  destruct (tcb_of s _ HT id READY) as [p Hp]; [apply (so_ready _ _ Hok); rewrite ER; by left|].
  destruct (tcb_of s _ HT cur RUNNING) as [q Hq]; [by apply (so_running _ _ Hok)|].
  destruct (tcb_lookup s _ HT _ _ Hq) as (u & y & Hu & _).
  apply fault_bind, (wp_thread_at s0 id p); [done|]. apply fault_bind, (current_spec a cur Hok s0 q); [done|done|].
  apply fault_bind. unfold getcontext, upd_tcb. wsimpl. eapply wp_get_tcb; [exact Hu|]. wsimpl.
  apply fault_bind. unfold wait_of. wsimpl. apply (wp_deref _ h); [done|].
  apply bind_fault, add_raw_fault; [done|done|]. destruct Hraw as [t Ht]. apply (qs_addr _ _ (qr_q _ _ _ _ HQ)). by rewrite Ht.
Qed.

Lemma wait_raw_fault a s cur tid : live_with a s cur -> zeroed s = false -> is_Some (table a !! tid) -> tid <> cur -> ready a <> [] ->
  thread_wait tid s = Fault Undefined.
Proof.
  intros Hl Hz Ht Hne Hrd. pose proof Hl as [Hr Hok Hex Hsy Hm]. pose proof Hr as [HT _]. destruct Ht as [x Hx].
  destruct (ts_some _ _ HT tid x Hx) as (p & t & Hp & Ht & _). destruct (sy_tcbs _ _ Hsy p t Ht) as [Hq Hn].
  assert (Hv : valid_tid a cur tid = true) by (apply bool_decide_true; rewrite Hx; done).
  destruct (live_raw a s cur _ Hl Hq (Hn Hz)) as (_ & h & Hh & Hraw).
  unfold thread_wait, interrupts_off, interrupts_set. apply fault_bind. wsimpl.
  apply fault_bind, (valid_tid_spec s a cur Hr Hok tid). rewrite Hv. cbn [negb].
  apply fault_bind, (wp_thread_at _ tid p); [done|]. apply fault_bind. eapply wp_get_tcb; [exact Ht|].
  apply bind_fault. by apply (sleep_raw_fault a _ cur _ _ h (live_with_enabled a s false cur Hl)).
Qed.

(** ** Steps of the program *)

(** The running thread makes a call, a signal arrives, or the thread that was
    switched to continues.  No object is destroyed and no thread ends. *)
Inductive step : st -> st -> Prop :=
  | step_create fn parg s r s' : pending s = None -> thread_create fn parg s = Val (r, s') -> step s s'
  | step_yield want s r s' : pending s = None -> thread_yield want [] s = Val (r, s') -> step s s'
  | step_timer s r s' : pending s = None -> enabled s = true -> timer_signal s = Val (r, s') -> step s s'
  | step_wait tid s r s' : pending s = None -> thread_wait tid s = Val (r, s') -> step s s'
  | step_wait_queue s r s' : pending s = None -> wait_queue_create s = Val (r, s') -> step s s'
  | step_sleep wq s r s' : pending s = None -> is_Some (wqs s !! wq) -> thread_sleep wq [] s = Val (r, s') -> step s s'
  | step_wakeup wq all s r s' : pending s = None -> is_Some (wqs s !! wq) -> thread_wakeup wq all s = Val (r, s') -> step s s'
  | step_lock_create s r s' : pending s = None -> lock_create s = Val (r, s') -> step s s'
  | step_acquire l s r s' : pending s = None -> lock_acquire l [] s = Val (r, s') -> step s s'
  | step_release l s r s' : pending s = None -> lock_release l s = Val (r, s') -> step s s'
  | step_cv_create s r s' : pending s = None -> cv_create s = Val (r, s') -> step s s'
  | step_cv_wait c l s r s' : pending s = None -> cv_wait c l s = Val (r, s') -> step s s'
  | step_cv_notify all c l s r s' : pending s = None -> cv_notify all c l s = Val (r, s') -> step s s'
  | step_interrupts x s r s' : pending s = None -> interrupts_set x s = Val (r, s') -> step s s'
  | step_resume s r s' : is_Some (pending s) -> resume s = Val (r, s') -> step s s'.

Lemma after_live cur s r s' : after_call cur s r s' -> kept cur s s' /\ exists cur', live s' cur'.
Proof. intros [K H]. split; [done|]. destruct r; [by exists cur|done|by exists cur]. Qed.

Lemma step_live s s' cur : step s s' -> live s cur -> kept cur s s' /\ exists cur', live s' cur'.
Proof.
  intros Hstep Hs.
  assert (Hc : forall (m : M st control) r, wlp m s (after_call cur s) -> m s = Val (r, s') -> kept cur s s' /\ exists cur', live s' cur').
  { intros m r Hm Hr. apply (after_live cur s r). by apply (wlp_run m s r s'). }
  assert (Hd : forall A (m : M st A) r, wlp m s (fun _ s' => after cur s s') -> m s = Val (r, s') -> kept cur s s' /\ exists cur', live s' cur').
  { intros A m r Hm Hr. apply (after_live cur s (Done 0)), after_done. by apply (wlp_run m s r s' (fun _ s' => after cur s s')). }
  destruct Hstep; try (by eapply Hc; [|eassumption]; auto using wp_wlp, yield_live, timer_live, sleep_wlp,
    thread_wait_live, lock_acquire_live, cv_wait_live, resume_live);
  try (by eapply Hd; [|eassumption]; auto using wp_wlp, create_live, wakeup_wlp, lock_create_live, lock_release_live,
    cv_create_live, cv_notify_live).
  - eapply Hd; [|eassumption]. apply wp_wlp. eapply wp_mono; [by apply wait_queue_live|]. by intros ? ? [].
  - eapply Hd; [|eassumption]. unfold interrupts_set. lsimpl. by apply after_off.
Qed.

(** ** When malloc fails *)

Lemma repr_ample s a : repr (ample s) a <-> repr s a.
Proof. split; (apply repr_same; [same_q|done]). Qed.

Lemma synced_ample s a : synced (ample s) a <-> synced s a.
Proof. split; intros [L C T]; by split. Qed.

(** a thread is created as if malloc did not fail, or not created at all *)
Lemma create_ample s a fn parg r s' : repr s a -> thread_create fn parg s = Val (r, s') ->
  thread_create fn parg (ample s) = Val (r, ample s') \/
  exists n c d, next_addr s <= n /\ ample s' = with_next_addr n (with_count_stack c (with_count_thread d (ample s))).
Proof.
  intros Hr H. unfold thread_create in *. apply bind_val in H as (e & s1 & H1 & H).
  rewrite (run_bind _ _ _ _ _ (mono_interrupts_off _ _ _ H1)). injection H1 as <- <-.
  set (s1 := with_enabled false s) in *. apply bind_val in H as (id & s2 & H2 & H).
  rewrite (run_bind _ _ _ _ _ (mono_get_id _ _ _ H2)).
  assert (s2 = s1) as ->.
  { pose proof Hr as [HT _]. assert (HT1 : tstat s1 (table a)) by by apply (tstat_same s).
    apply (wlp_run _ _ _ _ (fun _ s2 => s2 = s1) H2), wp_wlp. by apply (get_id_spec s1 _ HT1). }
  destruct (id =? THREAD_NOMORE).
  { left. revert H. match goal with |- ?m s1 = _ -> _ => assert (Hm : mono m) by mono end. apply Hm. }
  apply bind_val in H as (p & s3 & H3 & H). destruct (malloc_cases _ _ _ H3) as [H3'|(-> & l & ->)].
  2: { right. cbn in H. injection H as <- <-. exists (next_addr s). do 2 eexists. split; [lia|]. reflexivity. }
  rewrite (run_bind _ _ _ _ _ H3').
  apply bind_val in H as ([] & s4 & H4 & H). rewrite (run_bind _ _ _ _ _ (mono_add_count_stack _ _ _ _ H4)).
  destruct (p =? 0).
  { left. revert H. match goal with |- ?m s4 = _ -> _ => assert (Hm : mono m) by mono end. apply Hm. }
  apply bind_val in H as (q & s5 & H5 & H). destruct (malloc_cases _ _ _ H5) as [H5'|(-> & l & ->)].
  - rewrite (run_bind _ _ _ _ _ H5'). left. revert H.
    match goal with |- ?m s5 = _ -> _ => assert (Hm : mono m) by mono end. apply Hm.
  - right. cbn in H. injection H as <- <-. injection H4 as <-.
    assert (E : exists n, next_addr s <= n /\ ample s3 = with_next_addr n (ample s1)).
    { revert H3. unfold malloc, mbind, M_bind, get, s1. cbn. destruct (mallocs s) as [|[] l']; cbn; intros [= <- <-];
        eexists; (split; [|reflexivity]); cbn; lia. }
    destruct E as (n & Hn & E). exists n. do 2 eexists. split; [done|]. 
    refine (eq_trans (y := with_enabled (enabled s) (with_count_stack _ (with_count_thread _ (ample s3)))) eq_refl _).
    by rewrite E.
Qed.

Lemma live_counts s cur n c d : next_addr s <= n -> live s cur ->
  live (with_next_addr n (with_count_stack c (with_count_thread d s))) cur.
Proof.
  intros Hn Hs. apply live_next; [done|]. destruct Hs as (a & Hl). exists a.
  eapply live_frame; [done|apply (repr_same s); [same_q|done|apply Hl]|apply Hl|apply Hl|same_sframe|done].
Qed.

(** whatever malloc does, a step that returns keeps the invariant *)
Lemma step_ample s s' cur : step s s' -> live (ample s) cur -> kept cur s s' /\ exists cur', live (ample s') cur'.
Proof.
  intros Hstep Hs. assert (Hgo : step (ample s) (ample s') -> kept cur s s' /\ exists cur', live (ample s') cur').
  { intros H. by destruct (step_live _ _ _ H Hs). }
  destruct Hstep.
  - destruct Hs as (a & Hl). destruct (create_ample s a fn parg r s') as [Hc|(n & c & d & Hn & E)].
    + apply repr_ample, Hl.
    + done.
    + apply Hgo. by eapply step_create.
    + rewrite E. split; [|exists cur; apply live_counts; [done|by exists a]]. apply kept_locks.
      change (locks (ample s') = locks s). by rewrite E.
  - apply Hgo. eapply step_yield; [done|by apply mono_thread_yield].
  - apply Hgo. eapply step_timer; [done..|by apply mono_timer_signal].
  - apply Hgo. eapply step_wait; [done|by apply mono_thread_wait].
  - apply Hgo. eapply step_wait_queue; [done|by apply mono_wait_queue_create].
  - apply Hgo. eapply step_sleep; [done|done|by apply mono_thread_sleep].
  - apply Hgo. eapply step_wakeup; [done|done|by apply mono_thread_wakeup].
  - apply Hgo. eapply step_lock_create; [done|by apply mono_lock_create].
  - apply Hgo. eapply step_acquire; [done|by apply mono_lock_acquire].
  - apply Hgo. eapply step_release; [done|by apply mono_lock_release].
  - apply Hgo. eapply step_cv_create; [done|by apply mono_cv_create].
  - apply Hgo. eapply step_cv_wait; [done|by apply mono_cv_wait].
  - apply Hgo. eapply step_cv_notify; [done|by apply mono_cv_notify].
  - apply Hgo. eapply step_interrupts; [done|by apply mono_interrupts_set].
  - apply Hgo. eapply step_resume; [done|by apply mono_resume].
Qed.


Lemma started_live s0 s1 : initial s0 -> locks s0 = ∅ -> cvs s0 = ∅ -> thread_init s0 = Val (tt, s1) -> live (ample s1) 0.
Proof.
  intros H0 Hlk Hcv Hinit. apply mono_thread_init in Hinit. pose proof (thread_init_spec (ample s0) eq_refl H0) as Hw.
  apply wp_inv in Hw as ([] & s & Hrun & Hr & _ & Hz & Hm & Hl & Hc & Hq & Ht). rewrite Hinit in Hrun. injection Hrun as <-.
  exists (started (zeroed s0) (next_addr s0 + 1)). split; [done|apply started_ok| | |done].
  - intros i. cbn. rewrite lookup_singleton_Some. naive_solver.
  - cbn in *. split; cbn; rewrite ?Hl, ?Hc, ?Hlk, ?Hcv; [done|done|]. intros p t Hp. rewrite (Ht p t Hp). split; [done|].
    rewrite Hz. by intros ->.
Qed.

Lemma reachable_live s0 s1 s : initial s0 -> locks s0 = ∅ -> cvs s0 = ∅ -> thread_init s0 = Val (tt, s1) ->
  rtc step s1 s -> exists cur, live (ample s) cur.
Proof.
  intros H0 Hlk Hcv Hinit Hsteps. assert (H1 : exists cur, live (ample s1) cur) by (exists 0; by apply (started_live s0)).
  clear Hinit. induction Hsteps as [|x y z Hxy _ IH]; [done|]. destruct H1 as [cur H1]. apply IH. by apply (step_ample x y cur).
Qed.
