(* ===== verification/ThreadProps.v ===== *)
(** * Threads: what the library guarantees

    The theorems of this file are the contract of threads/thread.c: the calls
    implement the abstract scheduler [sched], in which exactly one thread runs and
    every queue is first in, first out.  The last section proves where the code
    leaves the contract. *)

From stdpp Require Import base gmap list list_numbers.
From Stdlib Require Import ZArith Lia.
From S2P Require Import Prelude Words Threads Ample QueueSpec ThreadSpec LockSpec SyncSpec.
#[local] Open Scope Z_scope.

(** ** A program for the witnesses *)

(** a process before [thread_init]; [z]: storage from malloc is zeroed *)
Definition boot (z : bool) : st := mk_st (replicate 1024 0) ∅ ∅ ∅ ∅ ∅ 0 1 [] z false None 0 0 0.

Definition two_threads : M st (Z * Z * Z) :=
  thread_init;; l ← lock_create; i ← thread_create 100 7; j ← thread_create 101 8; mret (l, i, j).
Definition two_state : st := match two_threads (boot true) with Val (_, s) => s | Fault _ => boot true end.

Lemma boot_initial z : initial (boot z).
Proof. unfold initial. by split_and!. Qed.

Lemma two_state_run : two_threads (boot true) = Val ((5, 1, 2), two_state).
Proof. vm_compute. reflexivity. Qed.

Lemma two_state_facts : locks two_state = {[5 := mk_lock 6 (Some 0) 0]} /\ wqs two_state !! 6 = Some 7 /\
  nodes two_state !! 7 = Some (mk_queue (Some 0) (Some 0)).
Proof. vm_compute. split; [reflexivity|]. split; reflexivity. Qed.

(** the wait queues of the threads, checked by evaluation *)
Definition in_three (q : Z) : bool := (q =? 2) || (q =? 10) || (q =? 15).
Definition has_wq (s : st) (q : Z) : bool := bool_decide (is_Some (wqs s !! q)).

Lemma check_queues s : forallb (fun x => in_three (t_queue x.2)) (map_to_list (tcbs s)) = true ->
  forallb (has_wq s) [2; 6; 10; 15] = true ->
  (forall p t, tcbs s !! p = Some t -> is_Some (wqs s !! t_queue t)) /\ is_Some (wqs s !! 6).
Proof.
  intros H Hq. rewrite forallb_forall in H. cbn [forallb] in Hq.
  rewrite !andb_true_iff in Hq. destruct Hq as (H1 & H2 & H3 & H4 & _). unfold has_wq in *.
  apply bool_decide_eq_true in H1, H2, H3, H4. split; [|done].
  intros p t Hp%elem_of_map_to_list%list_elem_of_In%H. cbn [snd] in Hp. unfold in_three in Hp.
  rewrite !orb_true_iff, !Z.eqb_eq in Hp. destruct Hp as [[->| ->]| ->]; done.
Qed.

Lemma two_state_malloc : mallocs two_state = [] /\ zeroed two_state = true.
Proof. vm_compute. split; reflexivity. Qed.

Lemma two_state_sync : next_addr two_state = 18 /\ cvs two_state = ∅ /\
  (forall p t, tcbs two_state !! p = Some t -> is_Some (wqs two_state !! t_queue t)) /\ is_Some (wqs two_state !! 6).
Proof.
  split; [vm_compute; reflexivity|]. split; [vm_compute; reflexivity|].
  apply check_queues; vm_compute; reflexivity.
Qed.
#[global] Opaque two_state two_threads.

(** the main thread runs, threads 1 and 2 are ready, and lock 5 is free *)
Definition two_sched (W : gmap Z (list Z)) : sched :=
  mk_sched (<[2 := READY]> (<[1 := READY]> {[0 := RUNNING]})) [1; 2] W.

Lemma two_state_repr : exists W, repr two_state (two_sched W) /\ sched_ok (two_sched W) 0 /\
  locks two_state = {[5 := mk_lock 6 (Some 0) 0]} /\ W !! 6 = Some [].
Proof.
  assert (Hw : wp two_threads (boot true) (fun _ s => exists W, repr s (two_sched W) /\ sched_ok (two_sched W) 0)).
  { Transparent two_threads. unfold two_threads. Opaque two_threads. wsimpl. eapply wp_mono; [exact (thread_init_spec (boot true) eq_refl (boot_initial true))|].
    intros _ s (H1 & _ & _ & M1 & _). wsimpl. eapply wp_mono; [exact (lock_create_spec s _ M1 H1)|].
    intros l s2 (_ & wq & Hwq & H2 & _ & _ & _ & _ & _ & _ & M2 & _). wsimpl.
    pose proof (new_wait_ok _ _ _ (started_ok _ _) Hwq) as Hok2.
    eapply wp_mono; [exact (thread_create_spec s2 _ 0 100 7 H2 Hok2 1 M2 eq_refl)|].
    intros i s3 (_ & _ & _ & q & p & t & h & H3 & Hq & _ & _ & _ & _ & _ & _ & _ & _ & _ & M3 & _). wsimpl.
    pose proof (create_ok (zeroed s2) _ _ 1 q Hok2 eq_refl Hq) as Hok3.
    eapply wp_mono; [exact (thread_create_spec s3 _ 0 101 8 H3 Hok3 2 M3 eq_refl)|].
    intros j s4 (_ & _ & _ & q' & p' & t' & h' & H4 & Hq' & _). wsimpl. eexists. split; [exact H4|].
    exact (create_ok (zeroed s3) _ _ 2 q' Hok3 eq_refl Hq'). }
  apply wp_inv in Hw as (r & s & Hrun & W & H1 & H2). rewrite two_state_run in Hrun.
  assert (s = two_state) as -> by congruence. destruct two_state_facts as (Hlk & H6 & Hn7).
  exists W. split; [exact H1|]. split; [exact H2|]. split; [exact Hlk|]. destruct H1 as [_ [Q HQ]].
  destruct two_state_malloc as [_ Hz].
  destruct (qr_dom _ _ _ _ HQ 6 7 H6) as [[ids Hids]|[Hzf _]]; [|congruence]. change (W !! 6 = Some ids) in Hids. rewrite Hids. f_equal.
  destruct (qr_wait _ _ _ _ HQ _ _ Hids) as (h & l & Hh & Hl & Ho). rewrite H6 in Hh. injection Hh as <-.
  destruct (qs_chain _ _ (qr_q _ _ _ _ HQ) _ _ Hl) as [Hc _].
  assert (l = []) as ->.
  { destruct l as [|[b p] l]; [done|]. exfalso. destruct Hc as ((t & Hn) & H0 & _).
    rewrite Hn7 in Hn. congruence. }
  by inversion Ho.
Qed.

Lemma two_state_live_with W : repr two_state (two_sched W) -> sched_ok (two_sched W) 0 -> live_with (two_sched W) two_state 0.
Proof.
  intros H1 H2. split; [exact H1|exact H2| | |exact (proj1 two_state_malloc)].
  - intros i. cbn. rewrite !lookup_insert_Some, lookup_singleton_Some. naive_solver.
  - destruct two_state_sync as (Hn & Hc & Ht & H6). destruct two_state_facts as (Hl & _).
    assert (Hd : forall q, is_Some (wqs two_state !! q) -> is_Some (W !! q)).
    { destruct H1 as [_ [Q HQ]]. intros q [h Hh]. destruct (qr_dom _ _ _ _ HQ q h Hh) as [?|[Hzf _]]; [done|].
      pose proof (proj2 two_state_malloc). congruence. }
    split; cbn [waiting two_sched].
    + intros l x. rewrite Hl. intros [<- <-]%lookup_singleton_Some. rewrite Hn. split; [lia|]. split; [exact (Hd 6 H6)|by left].
    + intros c q. rewrite Hc, lookup_empty. discriminate.
    + intros p t Hp. split; [exact (Ht p t Hp)|]. pose proof (proj2 two_state_malloc). congruence.
Qed.

Lemma two_state_live : live two_state 0.
Proof. destruct two_state_repr as (W & H1 & H2 & _). exists (two_sched W). exact (two_state_live_with W H1 H2). Qed.

(** ** Every sequence of calls *)

(** C18: after [thread_init], whatever calls the threads make, whenever the timer
    interrupts them, whatever malloc returned and whenever it failed, exactly one
    thread runs, [thread_id] finds it, every other thread is in the one queue of its
    status and nowhere twice, and every lock and condition variable refers to a wait
    queue that exists.  It holds between calls that returned, as long as no thread
    ends and no object is destroyed. *)
Theorem one_thread_runs s0 s1 s : initial s0 -> locks s0 = ∅ -> cvs s0 = ∅ -> thread_init s0 = Val (tt, s1) ->
  rtc step s1 s ->
  exists a cur, repr s a /\ sched_ok a cur /\ synced s a /\ thread_id s = Val (cur, s).
Proof.
  intros H0 Hl Hc Hi Hs. destruct (reachable_live s0 s1 s H0 Hl Hc Hi Hs) as (cur & a & Hlv). exists a, cur.
  pose proof (proj1 (repr_ample s a) (lv_repr _ _ _ Hlv)) as Hr. pose proof (lv_ok _ _ _ Hlv) as Hok.
  split_and!; [done|done|by apply synced_ample, Hlv|].
  assert (Hw : wp thread_id s (fun r s' => r = cur /\ s' = s)).
  { destruct Hr as [HT _]. by apply (thread_id_spec s _ HT cur); [apply (so_running _ _ Hok)|]. }
  by apply wp_inv in Hw as (r & s' & Hr' & -> & ->).
Qed.

(** the state after a call *)
Definition exec {A} (m : M st A) (s : st) : st := match m s with Val (_, s') => s' | Fault _ => s end.
Definition returns {A} (m : M st A) (s : st) : bool := match m s with Val _ => true | Fault _ => false end.
Lemma exec_val {A} (m : M st A) s : returns m s = true -> exists r, m s = Val (r, exec m s).
Proof. unfold returns, exec. destruct (m s) as [[r s']|]; [by exists r|done]. Qed.

Definition not_pending (s : st) : bool := match pending s with None => true | Some _ => false end.
Lemma not_pending_none s : not_pending s = true -> pending s = None.
Proof. unfold not_pending. by destruct (pending s). Qed.

(** a program: a lock and a thread are created, the lock is taken, the main thread
    yields to the new thread, which starts *)
Definition p1 : st := exec thread_init (boot true).
Definition p2 : st := exec lock_create p1.
Definition p3 : st := exec (thread_create 100 7) p2.
Definition p4 : st := exec (lock_acquire 5 []) p3.
Definition p5 : st := exec (thread_yield THREAD_ANY []) p4.
Definition p6 : st := exec resume p5.

Definition runs_well (s1 s2 s3 s4 s5 s6 : st) : bool :=
  returns lock_create s1 && not_pending s1 && returns (thread_create 100 7) s2 && not_pending s2 &&
  returns (lock_acquire 5 []) s3 && not_pending s3 && returns (thread_yield THREAD_ANY []) s4 && not_pending s4 &&
  returns resume s5 && negb (not_pending s5).

Lemma program_rtc s1 s2 s3 s4 s5 s6 : s2 = exec lock_create s1 -> s3 = exec (thread_create 100 7) s2 ->
  s4 = exec (lock_acquire 5 []) s3 -> s5 = exec (thread_yield THREAD_ANY []) s4 -> s6 = exec resume s5 ->
  runs_well s1 s2 s3 s4 s5 s6 = true -> rtc step s1 s6.
Proof.
  intros E2 E3 E4 E5 E6 H. unfold runs_well in H. rewrite !andb_true_iff in H.
  destruct H as [[[[[[[[[R1 N1] R2] N2] R3] N3] R4] N4] R5] N5].
  apply exec_val in R1 as [r1 R1], R2 as [r2 R2], R3 as [r3 R3], R4 as [r4 R4], R5 as [r5 R5].
  rewrite <- E2 in R1. rewrite <- E3 in R2. rewrite <- E4 in R3. rewrite <- E5 in R4. rewrite <- E6 in R5.
  eapply rtc_l; [exact (step_lock_create s1 r1 s2 (not_pending_none _ N1) R1)|].
  eapply rtc_l; [exact (step_create 100 7 s2 r2 s3 (not_pending_none _ N2) R2)|].
  eapply rtc_l; [exact (step_acquire 5 s3 r3 s4 (not_pending_none _ N3) R3)|].
  eapply rtc_l; [exact (step_yield THREAD_ANY s4 r4 s5 (not_pending_none _ N4) R4)|].
  eapply rtc_l; [|apply rtc_refl]. refine (step_resume s5 r5 s6 _ R5).
  unfold not_pending in N5. destruct (pending s5) as [c|]; [by exists c|discriminate N5].
Qed.

Lemma program_init : thread_init (boot true) = Val (tt, p1).
Proof. vm_compute. reflexivity. Qed.

Lemma program_runs : runs_well p1 p2 p3 p4 p5 p6 = true.
Proof. vm_compute. reflexivity. Qed.

(** thread 1 runs and the main thread holds the lock *)
Lemma program_lock : locks p6 !! 5 = Some (mk_lock 6 (Some 0) 1) /\ thread_id p6 = Val (1, p6).
Proof. vm_compute. split; reflexivity. Qed.

Lemma program_mallocs : mallocs p6 = [].
Proof. vm_compute. reflexivity. Qed.

Lemma program_queue : initialised p6 6.
Proof. vm_compute. do 3 eexists. split; reflexivity. Qed.

Lemma program_steps : rtc step p1 p6.
Proof.
  refine (program_rtc p1 p2 p3 p4 p5 p6 _ _ _ _ _ program_runs);
    [unfold p2|unfold p3|unfold p4|unfold p5|unfold p6]; reflexivity.
Qed.
#[global] Opaque p1 p2 p3 p4 p5 p6.

Lemma one_thread_runs_witness : exists a cur, repr p6 a /\ sched_ok a cur /\ synced p6 a /\ thread_id p6 = Val (cur, p6).
Proof. exact (one_thread_runs (boot true) p1 p6 (boot_initial true) (@eq_refl _ ∅) (@eq_refl _ ∅) program_init program_steps). Defined.

(** C19: in every state that such a sequence of calls reaches, as long as malloc does
    not fail now, no call faults and all of them keep the invariant: creating a
    thread, a lock, a condition variable or a wait queue, yielding, a timer signal,
    sleeping on and waking a wait queue that was initialised, releasing a lock, and
    acquiring one that is free or while another thread is ready.  [thread_wait] is
    safe only if malloc returns zeroed storage: otherwise it reads the
    uninitialised pointer that [thread_create] left in the queue of the thread. *)
Theorem calls_are_safe s0 s1 s : initial s0 -> locks s0 = ∅ -> cvs s0 = ∅ -> thread_init s0 = Val (tt, s1) ->
  rtc step s1 s -> mallocs s = [] -> exists a cur, live_with a s cur /\
    (forall fn parg, wp (thread_create fn parg) s (fun _ s' => live s' cur)) /\
    (forall want k, wp (thread_yield want k) s (after_call cur s)) /\
    wp timer_signal s (after_call cur s) /\
    wp lock_create s (fun _ s' => live s' cur) /\ wp cv_create s (fun _ s' => live s' cur) /\
    wp wait_queue_create s (fun wq s' => live s' cur /\ initialised s' wq) /\
    (forall wq, initialised s wq ->
      (forall k, wp (thread_sleep wq k) s (after_call cur s)) /\
      (forall all, wp (thread_wakeup wq all) s (fun _ s' => live s' cur))) /\
    (forall l x, locks s !! l = Some x ->
      wp (lock_release l) s (fun _ s' => after cur s s') /\
      (l_acquired x = 0 \/ ready a <> [] -> forall k, wp (lock_acquire l k) s (after_call cur s))) /\
    forall tid, if zeroed s then wp (thread_wait tid) s (after_call cur s) else
      is_Some (table a !! tid) -> tid <> cur -> ready a <> [] -> thread_wait tid s = Fault Undefined.
Proof.
  intros H0 Hl Hc Hi Hs Hm. destruct (reachable_live s0 s1 s H0 Hl Hc Hi Hs) as (cur & a & Hlv).
  unfold ample in Hlv. rewrite (ample_id s []) in Hlv by done. assert (Hv : live s cur) by by exists a.
  exists a, cur. split; [done|].
  assert (Ha : forall A (m : M st A), wp m s (fun _ s' => after cur s s') -> wp m s (fun _ s' => live s' cur)).
  { intros A m Hw. eapply wp_mono; [exact Hw|]. by intros r s' []. }
  split_and!; auto using create_live, yield_live, timer_live, lock_create_live, cv_create_live.
  - eapply wp_mono; [by apply wait_queue_live|]. by intros wq s' ([_ H1] & H2 & _).
  - intros wq Hwq. split; auto using sleep_live, wakeup_live.
  - intros l x Hx. split; [by eapply lock_release_safe|]. intros Hor k. by eapply lock_acquire_safe.
  - intros tid. destruct (zeroed s) eqn:Hz; [by eapply thread_wait_safe|]. by eapply wait_raw_fault.
Qed.

Lemma calls_are_safe_witness : exists cur, live p6 cur /\ wp (thread_sleep 6 []) p6 (after_call cur p6) /\
  wp (thread_create 9 9) p6 (fun _ s' => live s' cur).
Proof.
  destruct (calls_are_safe (boot true) p1 p6 (boot_initial true) (@eq_refl _ ∅) (@eq_refl _ ∅) program_init program_steps
    program_mallocs) as (a & cur & H1 & H2 & _ & _ & _ & _ & _ & H3 & _).
  exists cur. split; [exists a; exact H1|]. split; [exact (proj1 (H3 6 program_queue) [])|exact (H2 9 9)].
Defined.

(** C20: mutual exclusion: a lock that a thread holds keeps its holder and stays
    taken through every step in which another thread runs. *)
Theorem lock_stays_held s0 s1 s s' cur l x i : initial s0 -> locks s0 = ∅ -> cvs s0 = ∅ ->
  thread_init s0 = Val (tt, s1) -> rtc step s1 s -> step s s' -> thread_id s = Val (cur, s) ->
  locks s !! l = Some x -> l_acquired x = 1 -> l_thread x = Some i -> i <> cur -> locks s' !! l = Some x.
Proof.
  intros H0 Hl Hc Hi Hs Hstep Hcur Hx Ha Hh Hne. destruct (reachable_live s0 s1 s H0 Hl Hc Hi Hs) as (c & Hlv).
  assert (Hw : wp thread_id (ample s) (fun r _ => r = c)) by by apply (live_thread_id (ample s) c).
  apply mono_thread_id in Hcur.
  apply wp_inv in Hw as (r & s2 & Hr & ->). assert (c = cur) as -> by congruence.
  destruct (step_ample s s' cur Hstep Hlv) as [Hk _]. by apply (Hk l x i).
Qed.

Definition p7 : st := exec (lock_release 5) p6.
Lemma program_release : lock_release 5 p6 = Val (tt, p7) /\ pending p6 = None.
Proof. vm_compute. split; reflexivity. Qed.
#[global] Opaque p7.

(** thread 1 cannot release the lock of the main thread *)
Lemma lock_stays_held_witness : locks p7 !! 5 = Some (mk_lock 6 (Some 0) 1).
Proof.
  destruct program_lock as (Hl & Hid). destruct program_release as [Hr Hp].
  exact (lock_stays_held (boot true) p1 p6 p7 1 5 (mk_lock 6 (Some 0) 1) 0 (boot_initial true) (@eq_refl _ ∅) (@eq_refl _ ∅)
    program_init program_steps (step_release 5 p6 tt p7 Hp Hr) Hid Hl eq_refl eq_refl ltac:(discriminate)).
Defined.

(** ** Single calls *)

(** C21: [thread_yield] does what the scheduler says: it stays for the running thread
    or THREAD_SELF, answers THREAD_NONE when no thread is ready and THREAD_INVALID
    for a thread that is not ready, changing nothing; otherwise it runs the wanted
    thread, or the first ready one, puts the running one at the end of the ready
    queue and saves where it continues.  It is stated for states in which no thread
    has exited ([free_exited], which runs first, frees those) and malloc does not
    fail. *)
Theorem thread_yield_refines s a cur k want : repr s a -> sched_ok a cur -> mallocs s = [] -> (forall i, table a !! i <> Some EXITED) ->
  wp (thread_yield want k) s (fun r s' =>
    match yield_choice cur want a with
    | inl v => r = Done v /\ s' = s
    | inr id => r = Switched /\ repr s' (switch_to cur id a) /\ sched_ok (switch_to cur id a) id /\
        switched s s' cur id (fun p => C_yield (enabled s) p k)
    end).
Proof.
  intros Hr Hok Hm Hex. eapply wp_mono; [by apply (thread_yield_spec s a cur)|]. intros r s'.
  destruct (yield_choice cur want a) as [v|id] eqn:E; [done|]. intros (H1 & H2 & H3). split_and!; try done.
  by eapply switch_to_ok, yield_choice_ready.
Qed.

Lemma two_sched_live W i : table (two_sched W) !! i <> Some EXITED.
Proof. cbn. rewrite !lookup_insert_Some, lookup_singleton_Some. naive_solver. Qed.

Lemma thread_yield_refines_witness : exists W,
  wp (thread_yield 2 []) two_state (fun r s' => r = Switched /\
    repr s' (mk_sched (<[0 := READY]> (<[2 := RUNNING]> (table (two_sched W)))) [1; 0] W)) /\
  wp (thread_yield 7 []) two_state (fun r s' => r = Done THREAD_INVALID /\ s' = two_state).
Proof.
  destruct two_state_repr as (W & H1 & H2 & _). exists W. split.
  - eapply wp_mono; [exact (thread_yield_refines two_state (two_sched W) 0 [] 2 H1 H2 (proj1 two_state_malloc) (two_sched_live W))|].
    intros r s' (Hr & Hs & _). split; [exact Hr|exact Hs].
  - eapply wp_mono; [exact (thread_yield_refines two_state (two_sched W) 0 [] 7 H1 H2 (proj1 two_state_malloc) (two_sched_live W))|].
    intros r s' H. exact H.
Defined.

(** C22: [thread_sleep] puts the running thread at the end of the wait queue and
    runs the first ready thread; without one it answers THREAD_NONE, and for a null
    queue THREAD_INVALID, and changes nothing.  The wait queue is one that was
    initialised, and malloc does not fail. *)
Theorem thread_sleep_refines s a cur k wq ids : repr s a -> sched_ok a cur -> mallocs s = [] -> waiting a !! wq = Some ids ->
  wp (thread_sleep wq k) s (fun r s' =>
    match ready a with
    | [] => r = Done THREAD_NONE /\ s' = s
    | id :: _ => r = Switched /\ repr s' (sleep_on wq cur id a) /\ sched_ok (sleep_on wq cur id a) id /\
        switched s s' cur id (fun _ => C_sleep (enabled s) id k)
    end) /\
  wp (thread_sleep 0 k) s (fun r s' => r = Done THREAD_INVALID /\ s' = s).
Proof.
  intros Hr Hok Hm Hw. split; [|apply thread_sleep_null].
  eapply wp_mono; [by apply (thread_sleep_spec s a cur k wq ids)|]. intros r s'. destruct (ready a) as [|id R] eqn:E; [done|].
  intros (H1 & H2 & H3). split_and!; try done. by eapply sleep_on_ok.
Qed.

Lemma thread_sleep_refines_witness : exists W,
  wp (thread_sleep 6 []) two_state (fun r s' => r = Switched /\ repr s' (sleep_on 6 0 1 (two_sched W))).
Proof.
  destruct two_state_repr as (W & H1 & H2 & _ & H6). exists W.
  eapply wp_mono; [exact (proj1 (thread_sleep_refines two_state (two_sched W) 0 [] 6 [] H1 H2 (proj1 two_state_malloc) H6))|].
  intros r s' (Hr & Hs & _). split; [exact Hr|exact Hs].
Defined.

(** C23: [thread_wakeup] moves all the threads of a wait queue, or the first one, to
    the end of the ready queue in their order and answers how many; for an empty
    queue it answers 0 and changes nothing.  The wait queue is one that was
    initialised, and malloc does not fail. *)
Theorem thread_wakeup_refines s a cur wq ids all : repr s a -> sched_ok a cur -> mallocs s = [] -> waiting a !! wq = Some ids ->
  wp (thread_wakeup wq all) s (fun r s' =>
    match ids with
    | [] => r = 0 /\ s' = s
    | _ => keeps s s' /\
        if all : bool then r = Z.of_nat (length ids) /\ repr s' (wake_all wq a) /\ sched_ok (wake_all wq a) cur
        else r = 1 /\ repr s' (wake_one wq a) /\ sched_ok (wake_one wq a) cur
    end).
Proof.
  intros Hr Hok Hm Hw. eapply wp_mono; [by apply (thread_wakeup_spec s a cur wq ids all)|]. intros r s'.
  destruct ids as [|i ids]; [done|]. intros [Hk H]. split; [done|].
  destruct all; destruct H; split_and!; try done; [by eapply wake_all_ok|by apply wake_one_ok].
Qed.

(** the main thread sleeps on queue 6 and thread 1 wakes it *)
Lemma thread_wakeup_refines_witness : exists W,
  wp (thread_sleep 6 [];; thread_wakeup 6 true) two_state (fun r s' => r = 1 /\
    exists T V, repr s' (mk_sched T [2; 0] V) /\ T !! 0 = Some READY /\ V !! 6 = Some [] /\
      waiting (two_sched W) !! 6 = Some []).
Proof.
  destruct two_state_repr as (W & H1 & H2 & _ & H6). exists W. apply wp_bind.
  eapply wp_mono; [exact (thread_sleep_spec two_state (two_sched W) 0 [] 6 [] H1 H2 (proj1 two_state_malloc) H6)|].
  intros r s (_ & Hs & p & q & t & u & _ & _ & _ & _ & _ & _ & _ & Hf). pose proof (sf_mallocs _ _ Hf) as Hm.
  rewrite (proj1 two_state_malloc) in Hm.
  pose proof (sleep_on_ok (two_sched W) 0 1 [2] 6 [] H2 eq_refl H6) as Hok.
  assert (Hw : waiting (sleep_on 6 0 1 (two_sched W)) !! 6 = Some [0]).
  { unfold sleep_on. cbn [waiting two_sched]. rewrite H6. apply lookup_insert_eq. }
  eapply wp_mono; [exact (thread_wakeup_refines s _ 1 6 [0] true Hs Hok Hm Hw)|].
  intros n s' (_ & Hn & Hr & _). split; [exact Hn|].
  exists (wake_list [0] (table (sleep_on 6 0 1 (two_sched W)))), (<[6 := []]> (waiting (sleep_on 6 0 1 (two_sched W)))).
  split.
  - unfold wake_all in Hr. rewrite Hw in Hr. exact Hr.
  - split; [cbn; apply lookup_insert_eq|]. split; [apply lookup_insert_eq|exact H6].
Defined.

Lemma repr_mallocs s a l : repr s a -> repr (with_mallocs l s) a.
Proof. apply repr_same; [same_q|done]. Qed.

(** C24: [thread_create] gives the new thread the smallest identifier in use by
    nobody, puts it at the end of the ready queue with a wait queue of its own, and
    lets the caller continue; the wait queue is empty if malloc returns zeroed
    storage, and otherwise its head is left uninitialised, so that it is no queue at
    all (thread.c:263).  With 1024 threads it answers THREAD_NOMORE and changes
    nothing; when malloc has no storage for the stack or for the control block it
    answers THREAD_NOMEMORY, no thread is created and everything that threads can see
    is kept. *)
Theorem thread_create_refines s a cur fn parg : repr s a -> sched_ok a cur ->
  match first_free (table a) with
  | None => wp (thread_create fn parg) s (fun r s' => r = THREAD_NOMORE /\ s' = s)
  | Some id =>
      (mallocs s = [] -> wp (thread_create fn parg) s (fun r s' =>
        r = id /\ enabled s' = enabled s /\ pending s' = pending s /\ 0 <= id < 1024 /\ (id ∉ ready a) /\
        exists wq, waiting a !! wq = None /\ repr s' (create (zeroed s) id wq a) /\ sched_ok (create (zeroed s) id wq a) cur /\
          (exists h, wqs s' !! wq = Some h /\ (zeroed s = false -> raw s' h)) /\
          exists p t, tcb_at s' id p /\ tcbs s' = <[p := t]> (tcbs s) /\ t_context t = C_start fn parg /\ t_queue t = wq)) /\
      (forall ms, mallocs s = false :: ms \/ mallocs s = true :: false :: ms -> wp (thread_create fn parg) s (fun r s' =>
        r = THREAD_NOMEMORY /\ repr s' a /\ mallocs s' = ms /\ enabled s' = enabled s /\ pending s' = pending s /\
        threads s' = threads s /\ tcbs s' = tcbs s /\ nodes s' = nodes s /\ wqs s' = wqs s /\ locks s' = locks s /\ cvs s' = cvs s))
  end.
Proof.
  intros Hr Hok. destruct (first_free (table a)) as [id|] eqn:E; [|by apply (thread_create_full s a)].
  destruct (free_id a cur Hok id E) as (Hb & _ & Hn & _). split.
  - intros Hm. eapply wp_mono; [by apply (thread_create_spec s a cur fn parg Hr Hok id)|].
    intros r s' (-> & H1 & H2 & wq & p & t & h & H3 & H4 & H5 & H6 & H7 & H8 & H9 & _). split_and!; try done; [lia|lia|].
    exists wq. split_and!; try done; [by apply create_ok| |exists p, t; by split_and!].
    exists h. rewrite H9, lookup_insert_eq. split; [done|]. intros Hz. rewrite Hz in H3. destruct H3 as [_ [Q HQ]].
    destruct (qr_dom _ _ _ _ HQ wq h) as [[ids Hi]|[_ ?]]; [by rewrite H9, lookup_insert_eq| |done].
    cbn in Hi. congruence.
  - intros ms Hm. destruct (thread_create_nomem s a cur fn parg Hr Hok id ms E) as [N1 N2].
    destruct Hm as [Hm|Hm]; [eapply wp_mono; [exact (N1 Hm)|]|eapply wp_mono; [exact (N2 Hm)|]].
    + intros r s' (-> & c & ->). split_and!; try done. apply (repr_same s); [same_q|done|done].
    + intros r s' (-> & c & d & ->). split_and!; try done. apply (repr_same (with_next_addr (next_addr s + 1) s)); [same_q|done|].
      apply repr_next; [lia|done].
Qed.

Lemma thread_create_refines_witness : exists W,
  wp (thread_create 50 51) two_state (fun r s' => r = 3 /\ exists wq, repr s' (create true 3 wq (two_sched W))) /\
  wp (thread_create 50 51) (with_mallocs [true; false] two_state) (fun r s' => r = THREAD_NOMEMORY /\ repr s' (two_sched W)).
Proof.
  destruct two_state_repr as (W & H1 & H2 & _). exists W. split.
  - pose proof (thread_create_refines two_state (two_sched W) 0 50 51 H1 H2) as H.
    change (first_free (table (two_sched W))) with (Some 3) in H. cbv iota in H.
    eapply wp_mono; [exact (proj1 H (proj1 two_state_malloc))|].
    intros r s' (Hr & _ & _ & _ & _ & wq & _ & Hs & _). split; [exact Hr|]. exists wq.
    rewrite (proj2 two_state_malloc) in Hs. exact Hs.
  - pose proof (repr_mallocs two_state (two_sched W) [true; false] H1) as H3.
    pose proof (thread_create_refines _ (two_sched W) 0 50 51 H3 H2) as H.
    change (first_free (table (two_sched W))) with (Some 3) in H. cbv iota in H.
    eapply wp_mono; [exact (proj2 H [] (or_intror eq_refl))|].
    intros r s' (Hr & Hs & _). split; [exact Hr|exact Hs].
Defined.

(** A queue of threads is first in, first out: [add_to_queue] appends,
    [get_first] answers the thread at the head or THREAD_NONE, [queue_count] the
    length, and [delete_from_queue] takes out the first entry of a thread and
    leaves all other queues alone. *)
Theorem queue_refines s Q h l p id : mallocs s = [] -> queues s Q -> Q !! h = Some l -> Z.of_nat (length l) < 2147483648 ->
  Forall (fun x => is_Some (tcbs s !! x.2)) l ->
  wp (add_to_queue h p) s (fun _ s' => q_step s s' /\ exists n, queues s' (<[h := l ++ [(n, p)]]> Q)) /\
  wp (delete_from_queue h id) s (fun _ s' => q_step s s' /\ queues s' (<[h := remove_first (has_id s id) l]> Q)) /\
  wp (queue_count h) s (fun r s' => r = Z.of_nat (length l) /\ s' = s) /\
  wp (get_first h) s (fun r s' => s' = s /\
    match l with [] => r = THREAD_NONE | (_, q) :: _ => exists t, tcbs s !! q = Some t /\ r = t_id t end).
Proof.
  intros Hm HQ Hl Hlen Hall. split_and!.
  - by apply (add_to_queue_spec s Q h l p).
  - by apply (delete_from_queue_spec s Q h l id).
  - by apply (queue_count_spec s Q h l).
  - apply (get_first_spec s Q h l HQ Hl _); [|intros a q l' t -> Ht; split; [done|by exists t]|done]. by intros ->.
Qed.

Lemma queue_refines_witness : exists Q l,
  wp (queue_count (ready_queue two_state)) two_state (fun r s' => r = Z.of_nat (length l) /\ s' = two_state) /\
  wp (delete_from_queue (ready_queue two_state) 1) two_state (fun _ s' =>
    queues s' (<[ready_queue two_state := remove_first (has_id two_state 1) l]> Q)) /\ length l = 2%nat.
Proof.
  destruct two_state_repr as (W & [HT [Q HQ]] & _). destruct (qr_ready _ _ _ _ HQ) as (l & Hl & Ho).
  change (ready (two_sched W)) with [1; 2] in Ho. pose proof (Forall2_length _ _ _ Ho) as Hlen. cbn [length] in Hlen.
  assert (Hall : Forall (fun x => is_Some (tcbs two_state !! x.2)) l).
  { apply Forall_forall. intros x Hx. apply (Forall2_Forall_r _ (fun y => is_Some (tcbs two_state !! y.2))) in Ho.
    - rewrite Forall_forall in Ho. exact (Ho x Hx).
    - apply Forall_forall. intros i _ y Hy. destruct (tcb_lookup two_state _ HT _ _ Hy) as (t & _ & Ht & _). by exists t. }
  assert (Hb : Z.of_nat (length l) < 2147483648) by (rewrite <- Hlen; reflexivity).
  destruct (queue_refines two_state Q _ l 0 1 (proj1 two_state_malloc) (qr_q _ _ _ _ HQ) Hl Hb Hall) as (_ & H2 & H3 & _).
  exists Q, l. split; [exact H3|]. split; [|exact (eq_sym Hlen)].
  eapply wp_mono; [exact H2|]. intros u s' [_ H]. exact H.
Defined.

(** [lock_acquire] takes a free lock at once and changes nothing else; when the
    lock is held and another thread is ready it sleeps in the queue of the lock, to
    try again when it is woken. *)
Theorem lock_acquire_refines s a cur l x ids k : repr s a -> sched_ok a cur -> mallocs s = [] -> l <> 0 -> locks s !! l = Some x ->
  waiting a !! l_queue x = Some ids ->
  (l_acquired x = 0 -> wp (lock_acquire l k) s (fun r s' => r = Done 0 /\
    s' = with_locks (<[l := mk_lock (l_queue x) (Some cur) 1]> (locks s)) s)) /\
  (forall id R, l_acquired x = 1 -> ready a = id :: R ->
    wp (lock_acquire l k) s (fun r s' => r = Switched /\ repr s' (sleep_on (l_queue x) cur id a) /\
      switched (with_enabled false s) s' cur id (fun _ => C_sleep false id (F_lock l (enabled s) :: k)))).
Proof.
  intros Hr Hok Hm Hl0 Hl Hw. split.
  - intros Hx. by apply (lock_acquire_free s a cur l x).
  - intros id R Hx HR. by eapply (lock_acquire_held s a cur l x ids).
Qed.

Lemma lock_acquire_refines_witness : wp (lock_acquire 5 []) two_state (fun r s' => r = Done 0 /\
  locks s' = <[5 := mk_lock 6 (Some 0) 1]> (locks two_state)).
Proof.
  destruct two_state_repr as (W & H1 & H2 & Hl & H6).
  assert (Hx : locks two_state !! 5 = Some (mk_lock 6 (Some 0) 0)) by (rewrite Hl; apply lookup_singleton_eq).
  eapply wp_mono; [exact (proj1 (lock_acquire_refines two_state (two_sched W) 0 5 (mk_lock 6 (Some 0) 0) [] [] H1 H2
    (proj1 two_state_malloc) ltac:(discriminate) Hx H6) eq_refl)|].
  intros r s' [Hr ->]. split; [exact Hr|reflexivity].
Defined.

(** [lock_release] by the holder frees the lock and makes all the threads that
    wait for it ready, in order; by another thread it changes nothing. *)
Theorem lock_release_refines s a cur l x ids j : repr s a -> sched_ok a cur -> mallocs s = [] -> l <> 0 -> locks s !! l = Some x ->
  waiting a !! l_queue x = Some ids -> l_acquired x = 1 -> l_thread x = Some j ->
  wp (lock_release l) s (fun _ s' =>
    if decide (j = cur) then
      repr s' (wake_all (l_queue x) a) /\ enabled s' = enabled s /\ pending s' = pending s /\
      locks s' = <[l := mk_lock (l_queue x) (Some cur) 0]> (locks s)
    else s' = s).
Proof.
  intros Hr Hok Hm Hl0 Hl Hw Hx Hj. destruct (decide (j = cur)) as [->|Hne].
  - eapply wp_mono; [by apply (lock_release_holder s a cur l x ids)|]. intros r s' (H1 & H2 & H3 & H4 & _). by split_and!.
  - by apply (lock_release_other s a cur l x Hr Hok Hl0 Hl j).
Qed.

Lemma locks_mallocs s x : mallocs s = [] -> mallocs (with_locks x s) = [].
Proof. done. Qed.

Lemma lock_release_refines_witness : wp (lock_acquire 5 [];; lock_release 5) two_state (fun _ s' =>
  locks s' !! 5 = Some (mk_lock 6 (Some 0) 0)).
Proof.
  destruct two_state_repr as (W & H1 & H2 & Hl & H6).
  assert (Hx : locks two_state !! 5 = Some (mk_lock 6 (Some 0) 0)) by (rewrite Hl; apply lookup_singleton_eq).
  apply wp_bind. eapply wp_mono; [exact (lock_acquire_free two_state (two_sched W) 0 5 _ H1 H2 (proj1 two_state_malloc) ltac:(discriminate) Hx [] eq_refl)|].
  intros r s [_ ->]. set (s := with_locks _ two_state).
  assert (Hs : repr s (two_sched W)) by exact (repr_locks two_state _ _ H1).
  assert (Hm : mallocs s = []) by exact (locks_mallocs two_state _ (proj1 two_state_malloc)).
  eapply wp_mono; [exact (lock_release_refines s (two_sched W) 0 5 (mk_lock 6 (Some 0) 1) [] 0 Hs H2 Hm ltac:(discriminate)
    (lookup_insert_eq _ _ _) H6 eq_refl eq_refl)|].
  intros u s' H. cbv beta in H. destruct (decide (0 = 0)) as [_|Hn]; [|destruct (Hn eq_refl)].
  destruct H as (_ & _ & _ & E). rewrite E. apply lookup_insert_eq.
Defined.

(** [thread_wait] for itself, for a number that is not a thread, and
    [thread_kill] of those answer THREAD_INVALID and change nothing. *)
Theorem invalid_tid s a cur tid : repr s a -> sched_ok a cur -> ~ (is_Some (table a !! tid) /\ tid <> cur) ->
  wp (thread_wait tid) s (fun r s' => r = Done THREAD_INVALID /\ s' = s) /\
  wp (thread_kill tid) s (fun r s' => r = THREAD_INVALID /\ s' = s).
Proof.
  intros Hr Hok Hn. assert (Hv : valid_tid a cur tid = false) by by apply bool_decide_false.
  split; [by apply (thread_wait_invalid s a cur)|by apply (thread_kill_invalid s a cur)].
Qed.

Lemma invalid_tid_witness :
  wp (thread_wait 0) two_state (fun r s' => r = Done THREAD_INVALID /\ s' = two_state) /\
  wp (thread_kill 3000) two_state (fun r s' => r = THREAD_INVALID /\ s' = two_state).
Proof.
  destruct two_state_repr as (W & H1 & H2 & _). split.
  - refine (proj1 (invalid_tid two_state (two_sched W) 0 0 H1 H2 _)). intros [_ H]. exact (H eq_refl).
  - refine (proj2 (invalid_tid two_state (two_sched W) 0 3000 H1 H2 _)). intros [H _]. cbn in H. destruct H as [x H]. discriminate H.
Defined.

(** [thread_wait] for another thread sleeps in that thread's own wait queue
    until it is woken; when no other thread is ready it returns at once, although
    the thread it waits for has not exited. *)
Theorem thread_wait_refines s a cur tid p t ids : repr s a -> sched_ok a cur -> mallocs s = [] -> tcb_at s tid p ->
  tcbs s !! p = Some t -> tid <> cur -> waiting a !! t_queue t = Some ids ->
  wp (thread_wait tid) s (fun r s' =>
    match ready a with
    | [] => r = Done tid /\ s' = s
    | id :: _ => r = Switched /\ repr s' (sleep_on (t_queue t) cur id a) /\
        switched (with_enabled false s) s' cur id (fun _ => C_sleep false id [F_wait tid (enabled s)])
    end).
Proof. intros Hr Hok Hm Hp Ht Hne Hw. by apply (thread_wait_spec s a cur Hr Hok tid p t ids). Qed.

Lemma thread_wait_refines_witness : exists W wq,
  wp (thread_wait 2) two_state (fun r s' => r = Switched /\ repr s' (sleep_on wq 0 1 (two_sched W))).
Proof.
  destruct two_state_repr as (W & H1 & H2 & _). pose proof H1 as [HT HQ].
  destruct (ts_some _ _ HT 2 READY) as (p & t & Hp & Ht & _); [cbn; apply lookup_insert_eq|].
  destruct two_state_sync as (_ & _ & Hall & _). destruct HQ as [Q HQ].
  destruct (Hall p t Ht) as [h Hh]. destruct two_state_malloc as [Hm Hz].
  destruct (qr_dom _ _ _ _ HQ _ h Hh) as [[ids Hids]|[Hzf _]]; [|congruence]. exists W, (t_queue t).
  eapply wp_mono; [exact (thread_wait_refines two_state (two_sched W) 0 2 p t ids H1 H2 Hm Hp Ht ltac:(discriminate) Hids)|].
  intros r s' (Hr & Hs & _). split; [exact Hr|exact Hs].
Defined.

(** ** Where the code leaves the contract *)

(** C26: [lock_acquire] of a held lock never returns when no other thread is ready:
    [thread_sleep] answers at once and the loop spins with interrupts disabled, so
    that the holder, asleep in another queue, can never be woken. *)
Theorem lock_acquire_diverges s a cur l x ids k : repr s a -> sched_ok a cur -> l <> 0 -> locks s !! l = Some x ->
  waiting a !! l_queue x = Some ids -> l_acquired x = 1 -> ready a = [] -> lock_acquire l k s = Fault OutOfFuel.
Proof. intros Hr Hok Hl0 Hl Hw Hx HR. by apply (lock_acquire_spins s a l x ids). Qed.

(** the main thread alone takes a lock twice *)
Lemma lock_acquire_diverges_witness : exists l s, lock_acquire l [] s = Fault OutOfFuel.
Proof.
  assert (Hw : wp (thread_init;; l ← lock_create; lock_acquire l [];; mret l) (boot true) (fun l s =>
    lock_acquire l [] s = Fault OutOfFuel)).
  { apply wp_bind. eapply wp_mono; [exact (thread_init_spec (boot true) eq_refl (boot_initial true))|]. intros u s (H1 & _ & Hz & M1 & _).
    apply wp_bind. eapply wp_mono; [exact (lock_create_spec s _ M1 H1)|].
    intros l s2 (_ & wq & Hwq & H2 & Hl2 & _ & _ & _ & _ & Hl0 & M2 & _). pose proof (new_wait_ok _ _ _ (started_ok _ _) Hwq) as Hok.
    rewrite Hz in Hl2. assert (Hx : locks s2 !! l = Some (mk_lock wq (Some 0) 0)) by (rewrite Hl2; apply lookup_insert_eq).
    assert (Hq : waiting (new_wait wq (started true (next_addr (boot true) + 1))) !! wq = Some []) by apply lookup_insert_eq.
    apply wp_bind. eapply wp_mono; [apply (lock_acquire_free s2 _ 0 l _ H2 Hok M2 ltac:(lia) Hx [] eq_refl)|].
    intros r s3 [_ ->]. apply wp_ret.
    refine (lock_acquire_diverges _ _ 0 l (mk_lock wq (Some 0) 1) [] [] _ Hok _ (lookup_insert_eq _ _ _) Hq eq_refl eq_refl);
      [|lia]. exact (repr_locks s2 _ _ H2). }
  apply wp_inv in Hw as (l & s & _ & H). exists l, s. exact H.
Defined.

(** The wait queue of a thread starts with the pointer [next] that malloc
    returned: unless that storage happens to be zero, [thread_kill] of a thread
    reads it uninitialised. *)
Theorem kill_reads_uninitialised :
  (thread_init;; thread_create 100 7;; thread_kill 1) (boot false) = Fault Undefined /\
  exists s, (thread_init;; thread_create 100 7;; thread_kill 1) (boot true) = Val (1, s).
Proof. split; [vm_compute; reflexivity|]. eexists. vm_compute. reflexivity. Qed.

(** killing a thread that sleeps in the wait queue of another one frees the
    queue node and then reads it: after thread 1 called [thread_wait] for the main
    thread, [thread_kill] of thread 1 follows a freed pointer. *)
Theorem kill_of_waiting_thread_faults :
  (thread_init;; interrupts_on;; thread_create 100 7;; thread_create 101 8;; thread_yield THREAD_ANY [];; resume;;
   thread_wait 0;; resume;; thread_yield 0 [];; resume;; thread_kill 1) (boot true) = Fault Undefined /\
  exists r s, (thread_init;; interrupts_on;; thread_create 100 7;; thread_create 101 8;; thread_yield THREAD_ANY [];;
   resume;; thread_wait 0;; resume;; thread_yield 0 [];; resume) (boot true) = Val (r, s).
Proof. split; [vm_compute; reflexivity|]. do 2 eexists. vm_compute. reflexivity. Qed.
