(* ===== verification/ExitSpec.v ===== *)
(** * What thread_exit does

    The running thread leaves every queue, the threads that wait for it become ready,
    and the first ready thread runs; without one the process ends, also when threads
    are blocked.  All this needs the heads of the queues of new threads to be null,
    as they are in zeroed storage: otherwise the walk over them faults. *)

From stdpp Require Import base gmap list list_numbers.
From Stdlib Require Import ZArith Lia.
From S2P Require Import Prelude Words Threads Ample QueueSpec ThreadSpec LockSpec SyncSpec ThreadProps.
#[local] Open Scope Z_scope.

(** ** A thread that is in no wait queue *)

(** the first node of a wait queue, which stands for no thread, holds the null pointer;
    the search of an empty queue reads it *)
Definition heads_null (s : st) : Prop := forall wq h n, wqs s !! wq = Some h -> nodes s !! h = Some n -> q_thread n = Some 0.

Lemma heads_of_zeroed s a : repr s a -> zeroed s = true -> heads_null s.
Proof.
  intros [_ [Q HQ]] Hz wq h n Hh Hn. destruct (qr_heads _ _ _ _ HQ Hz wq h Hh) as [x Hx]. rewrite Hn in Hx. by injection Hx as ->.
Qed.

Section absent.
Context (s : st) (a : sched) (cur id : Z).
Hypothesis Hr : repr s a.
Hypothesis Hok : sched_ok a cur.
Hypothesis Hwqs : forall p t, tcbs s !! p = Some t -> is_Some (waiting a !! t_queue t).
Hypothesis Hid : table a !! id <> Some BLOCKED.
Hypothesis Hnull : heads_null s.

(** one wait queue is searched *)
Lemma search_queue i wq ids h : waiting a !! wq = Some ids -> wqs s !! wq = Some h ->
  wp (next ← next_of h;
      while_ (fun curr =>
        if curr =? 0 then mret (inr tt) else
        thread ← thread_of curr;
        same ← (if thread =? 0 then mret false else t' ← get_tcb thread; mret (t_id t' =? id));
        (if same : bool then
           p ← thread_at i;
           t ← get_tcb p;
           wait ← wait_of (t_queue t);
           delete_from_queue wait id
         else mret tt);;
        next ← next_of curr;
        mret (inl next)) (if next =? 0 then h else next)) s (fun _ s' => s' = s).
Proof.
  intros Hw Hh. destruct Hr as [HT [Q HQ]]. pose proof (qr_q _ _ _ _ HQ) as Hq.
  destruct (qr_wait _ _ _ _ HQ _ _ Hw) as (h' & l & Hh' & Hl & Ho). replace h' with h in * by congruence. clear h' Hh'.
  pose proof (ids_bound s _ HT _ _ (so_wait_nodup _ _ Hok _ _ Hw) Ho) as Hlen.
  wsimpl. apply (wp_next_of_head s Q h l Hq Hl). rewrite (link_eqb_0 s Q h l Hq Hl [] l) by done.
  destruct l as [|x0 l0] eqn:El; [|rewrite <- El in *; clear x0 l0 El].
  { destruct (qs_chain _ _ Hq _ _ Hl) as [Hc _]. destruct (chain_head _ _ _ Hc) as [t0 Hn0]. pose proof (Hnull wq h _ Hh Hn0) as Hz. cbn in Hz. subst t0.
    apply (wp_while_rounds 2); [done|]. cbn [wp_rounds]. rewrite (q_nonzero s Q h [] Hq Hl). unfold thread_of. wsimpl.
    eapply wp_get_node; [exact Hn0|]. wsimpl. eapply wp_deref; [reflexivity|]. wsimpl. change (0 =? 0) with true. cbv iota. wsimpl.
    apply (wp_next_of_head s Q h [] Hq Hl). by wsimpl. }
  apply (wp_while_var (fun n curr s' => s' = s /\ exists pre post, l = pre ++ post /\ curr = link post /\ n = Z.of_nat (length post))
    (Z.of_nat (length l))); [split; [done|by exists [], l]|change (2 ^ 64) with 18446744073709551616; lia|].
  intros n curr s' (-> & pre & post & E & -> & ->) _. rewrite (link_eqb_0 s Q h l Hq Hl pre post E).
  destruct post as [|[c q] post]; [by wsimpl|]. cbn [link]. wsimpl.
  apply (wp_thread_of s Q h l Hq Hl pre c q post _ E). wsimpl.
  assert (Hj : exists j, j ∈ ids /\ tcb_at s j q).
  { assert (Hin : (c, q) ∈ l) by (rewrite E; apply elem_of_app; right; by left).
    apply list_elem_of_lookup in Hin as [k Hk]. destruct (Forall2_lookup_r _ _ _ _ _ Ho Hk) as (j & Hj & Hjq).
    exists j. split; [by eapply list_elem_of_lookup_2|done]. }
  destruct Hj as (j & Hj & Hjq). destruct (tcb_lookup s _ HT j q Hjq) as (t & x & Ht & _ & Hti & _).
  destruct Hjq as (_ & _ & Hq0). rewrite (proj2 (Z.eqb_neq q 0)) by done. wsimpl. eapply wp_get_tcb; [exact Ht|]. wsimpl.
  assert (Hne : t_id t <> id).
  { rewrite Hti. intros ->. apply Hid, (so_blocked _ _ Hok). by exists wq, ids. }
  rewrite (proj2 (Z.eqb_neq (t_id t) id)) by done. wsimpl.
  assert (E2 : l = (pre ++ [(c, q)]) ++ post) by (by rewrite <- app_assoc).
  pose proof (wp_next_of s Q h l Hq Hl (pre ++ [(c, q)]) post) as Hnext. rewrite tail_addr_snoc in Hnext. apply Hnext; [done|]. wsimpl.
  exists (Z.of_nat (length post)). split; [split; [done|by exists (pre ++ [(c, q)]), post]|cbn [length]; lia].
Qed.

Lemma absent_spec : wp (delete_from_all_queues id) s (fun _ s' => s' = s).
Proof.
  destruct Hr as [HT HQ]. unfold delete_from_all_queues.
  apply (wp_for (fun _ s' => s' = s)); [done| |by intros s' ->]. intros i s' Hi ->. cbn in Hi. change (Z.of_nat (Z.to_nat THREAD_MAX_THREADS)) with 1024 in Hi.
  destruct (table a !! i) as [x|] eqn:Hx.
  - destruct (ts_some _ _ HT _ _ Hx) as (p & t & Hp & Ht & _). wsimpl. apply (wp_thread_at s i p); [done|]. wsimpl.
    destruct Hp as (_ & _ & Hp0). rewrite (proj2 (Z.eqb_neq p 0)) by done. wsimpl. eapply wp_get_tcb; [exact Ht|]. wsimpl.
    destruct (Hwqs p t Ht) as [ids Hw]. destruct HQ as [Q HQ]. destruct (qr_wait _ _ _ _ HQ _ _ Hw) as (h & _ & Hh & _).
    unfold wait_of at 1. wsimpl. eapply wp_deref; [exact Hh|]. exact (search_queue i (t_queue t) ids h Hw Hh).
  - pose proof (ts_none _ _ HT i ltac:(lia) Hx) as Hp. unfold thread_at. wsimpl. rewrite (proj2 (Z.ltb_ge i 0)) by lia.
    eapply wp_deref; [exact Hp|]. by wsimpl.
Qed.
End absent.

(** ** The next thread runs *)

(** the running thread ends and [id], which is ready, runs *)
Definition leave_to (cur id : Z) (a : sched) : sched :=
  mk_sched (<[id := RUNNING]> (<[cur := EXITED]> (table a))) (remove_first (fun j => j =? id) (ready a)) (waiting a).

Lemma leave_to_ok a cur id : sched_ok a cur -> id ∈ ready a -> sched_ok (leave_to cur id a) id.
Proof.
  intros [H1 H2 H3 H4 H5 H6] Hid. pose proof (proj1 (H2 id) Hid) as Hir. pose proof (proj2 (H1 cur) eq_refl) as Hcr.
  assert (Hne : cur <> id) by congruence. unfold leave_to. split; cbn; try done.
  - intros i. rewrite lookup_insert_Some, lookup_insert_Some, H1. naive_solver.
  - intros i. rewrite remove_first_elem, H2, lookup_insert_Some, lookup_insert_Some by done.
    destruct (decide (i = cur)); naive_solver.
  - intros i. rewrite lookup_insert_Some, lookup_insert_Some, H3. split; [|naive_solver].
    intros Hb. right. split; [congruence|]. right. split; [congruence|done].
  - by apply remove_first_nodup.
Qed.

(** ** thread_exit *)

(** what a thread leaves behind: those that waited for it are ready *)
Definition left (s : st) (a : sched) (cur : Z) (wq : Z) (s3 : st) : Prop :=
  tstat s3 (<[cur := EXITED]> (table (wake_all wq a))) /\ (exists Q, qrep s3 (ready (wake_all wq a)) (waiting (wake_all wq a)) Q) /\
  enabled s3 = false /\ threads s3 = threads s /\
  (forall i p t, i <> cur -> tcb_at s i p -> tcbs s !! p = Some t -> exists t', tcbs s3 !! p = Some t' /\ t_context t' = t_context t).

Definition exit_end : M st control :=
  r ← yeet;
  match r with
  | Done _ => stop Exited
  | _ => mret r
  end.

(** the part before the switch *)
Definition exit_work : M st unit :=
  interrupts_off;;
  free_exited;;
  p ← current;
  upd_tcb p (set_t_killmepls 1);;
  id ← thread_id;
  delete_from_all_queues id;;
  p ← current;
  t ← get_tcb p;
  thread_wakeup (t_queue t) true;;
  p ← current;
  upd_tcb p (set_t_status EXITED).

Lemma exit_split s : thread_exit s = (exit_work;; exit_end) s.
Proof.
  unfold thread_exit, exit_work, mbind, M_bind.
  repeat match goal with |- match ?m with Val _ => _ | Fault _ => _ end = _ => destruct m as [[? ?]|f]; [|done] end. done.
Qed.

Section exit.
Context (s : st) (a : sched) (cur : Z) (q : Z) (u : thread) (ids : list Z).
Hypothesis Hr : repr s a.
Hypothesis Hok : sched_ok a cur.
Hypothesis Hex : forall i, table a !! i <> Some EXITED.
Hypothesis Hm : mallocs s = [].
Hypothesis Hwqs : forall p t, tcbs s !! p = Some t -> is_Some (waiting a !! t_queue t).
Hypothesis Hnull : heads_null s.
Hypothesis Hq : tcb_at s cur q.
Hypothesis Hu : tcbs s !! q = Some u.
Hypothesis Hids : waiting a !! t_queue u = Some ids.

Abbreviation wq := (t_queue u).

Lemma wakeup_all s1 : mallocs s1 = [] -> repr s1 a -> wp (thread_wakeup wq true) s1 (fun _ s2 => keeps s1 s2 /\ repr s2 (wake_all wq a)).
Proof.
  intros Hm1 Hr1. eapply wp_mono; [by apply (thread_wakeup_spec s1 a cur wq ids true)|]. intros r s2. destruct ids as [|i ids'] eqn:E; [|tauto].
  intros [_ ->]. split; [done|]. unfold wake_all. rewrite Hids. cbn. rewrite app_nil_r, insert_id by done. by destruct a.
Qed.

Lemma exit_work_spec : wp exit_work s (fun _ s3 => left s a cur wq s3 /\ ready_queue s3 = ready_queue s).
Proof.
  set (s0 := with_enabled false s). assert (Hr0 : repr s0 a) by by apply repr_enabled. pose proof Hr0 as [HT0 [Q0 HQ0]].
  assert (Hcb : table a !! cur <> Some BLOCKED) by (rewrite (proj2 (so_running _ _ Hok cur) eq_refl); done).
  set (u1 := set_t_killmepls 1 u). set (s1 := with_tcbs (<[q := u1]> (tcbs s0)) s0).
  assert (Hr1 : repr s1 a).
  { split; [by apply (tstat_keep s0 _ HT0 cur q u u1)|]. exists Q0. apply (qrep_same s0); [same_q|done]. }
  assert (Hwqs1 : forall p t, tcbs s1 !! p = Some t -> is_Some (waiting a !! t_queue t)).
  { intros p t. cbn. rewrite lookup_insert_Some. intros [[<- <-]|[_ Ht]]; [by eexists|by apply (Hwqs p)]. }
  assert (Hrun : forall i, table a !! i = Some RUNNING <-> i = cur) by apply Hok.
  unfold exit_work, interrupts_off, interrupts_set. wsimpl. fold s0. apply (free_exited_none s0 _ HT0); [done|]. wsimpl.
  eapply (current_spec a cur Hok s0 q); [done|done|]. wsimpl. unfold upd_tcb at 1. wsimpl. eapply wp_get_tcb; [exact Hu|]. wsimpl. fold u1 s1.
  apply (thread_id_spec s1 _ (proj1 Hr1) cur); [done|]. wsimpl.
  eapply wp_mono; [by apply (absent_spec s1 a cur cur Hr1 Hok Hwqs1 Hcb)|]. intros _ s' ->. wsimpl.
  eapply (current_spec a cur Hok s1 q); [apply Hr1|done|]. wsimpl. eapply wp_get_tcb; [cbn; apply lookup_insert_eq|]. wsimpl.
  change (t_queue u1) with wq. eapply wp_mono; [by apply wakeup_all|]. intros _ s2 [K [HT2 [Q2 HQ2]]]. wsimpl.
  assert (Hok2 : sched_ok (wake_all wq a) cur) by by eapply wake_all_ok.
  assert (Hat2 : forall i p, tcb_at s i p -> tcb_at s2 i p) by (intros i p; unfold tcb_at; by rewrite (kp_threads _ _ K)).
  eapply (current_spec (wake_all wq a) cur Hok2 s2 q); [done|by apply Hat2|]. wsimpl.
  eapply wp_mono; [by apply (set_status_spec s2 _ cur q EXITED HT2), Hat2|]. intros _ s3 (K3 & S3 & HT3).
  split; [|by rewrite (kp_ready _ _ K3), (kp_ready _ _ K)]. split; [done|]. split; [exists Q2; by apply (qrep_same s2)|].
  split; [by rewrite (kp_enabled _ _ K3), (kp_enabled _ _ K)|]. split; [by rewrite (kp_threads _ _ K3), (kp_threads _ _ K)|].
  intros i p t Hi Hp Ht. assert (Hp3 : tcb_at s3 i p) by (pose proof (Hat2 i p Hp) as H2; unfold tcb_at in *; by rewrite (kp_threads _ _ K3)).
  destruct (tcb_lookup s3 _ HT3 i p Hp3) as (t3 & _ & Ht3 & _). exists t3. split; [done|].
  destruct (kp_tcbs _ _ K3 p t3 Ht3) as (t2 & x & Ht2 & ->). destruct (kp_tcbs _ _ K p t2 Ht2) as (t1 & y & Ht1 & ->).
  cbn in Ht1. rewrite lookup_insert_ne in Ht1; [|intros <-; by apply Hi, (tcb_inj s _ (proj1 Hr) i cur q)]. cbn. congruence.
Qed.

(** [id] is the first of the threads that are ready, when there is one *)
Lemma exit_end_spec s3 : left s a cur wq s3 -> match ready (wake_all wq a) with
  | [] => exit_end s3 = Fault Exited
  | id :: _ => wp exit_end s3 (fun r s' => r = Switched /\ repr s' (leave_to cur id (wake_all wq a)) /\ enabled s' = false /\
      forall p t, tcb_at s id p -> tcbs s !! p = Some t -> pending s' = Some (t_context t))
  end.
Proof.
  intros (HT & [Q HQ] & Hen & Hth & Hctx). set (b := wake_all wq a) in *. assert (Hokb : sched_ok b cur) by by eapply wake_all_ok.
  pose proof (so_ready_nodup _ _ Hokb) as Hnd. unfold exit_end, yeet. destruct (ready b) as [|id R] eqn:ER; rewrite ?ER in HQ, Hnd.
  - assert (H : wp (get_first (ready_queue s3)) s3 (fun r s' => r = THREAD_NONE /\ s' = s3)).
    { apply (ready_first s3 _ _ _ _ HT HQ). done. }
    apply wp_inv in H as (r & s' & Hrun & -> & ->). unfold gets, mbind, M_bind. by rewrite Hrun.
  - assert (Hid : id ∈ ready b) by (rewrite ER; by left). pose proof (leave_to_ok b cur id Hokb Hid) as Hok'.
    pose proof (proj1 (so_ready _ _ Hokb id) Hid) as Hir. pose proof (proj2 (so_running _ _ Hokb cur) eq_refl) as Hcr.
    assert (Hne : id <> cur) by congruence.
    assert (HidT : <[cur := EXITED]> (table b) !! id = Some READY) by by rewrite lookup_insert_ne.
    destruct (tcb_of s3 _ HT id READY HidT) as [p Hp]. destruct (tcb_lookup s3 _ HT id p Hp) as (t & x & Ht & _ & Hti & _).
    pose proof (ts_dom _ _ HT id ltac:(by eexists)) as Hidb. wsimpl. apply (ready_first s3 _ _ _ _ HT HQ). cbn [head].
    change (default THREAD_NONE (Some id)) with id. rewrite (proj2 (Z.eqb_neq id THREAD_NONE)) by (unfold THREAD_NONE; lia).
    wsimpl. apply (wp_thread_at s3 id p); [done|]. wsimpl. unfold upd_tcb at 1. wsimpl. eapply wp_get_tcb; [exact Ht|]. wsimpl.
    set (t4 := set_t_status RUNNING t). set (s4 := with_tcbs _ s3).
    assert (HT4 : tstat s4 (<[id := RUNNING]> (<[cur := EXITED]> (table b)))) by by apply (tstat_upd s3 _ HT id p t t4).
    assert (HQ4 : qrep s4 (id :: R) (waiting b) Q) by (apply (qrep_same s3); [same_q|done]).
    eapply wp_get_tcb; [cbn; apply lookup_insert_eq|]. wsimpl. change (t_id t4) with (t_id t). rewrite Hti.
    eapply wp_mono; [apply (ready_delete s4 _ _ _ _ HT4 HQ4 id Hnd)|]. intros _ s5 [Hs5 [Q5 HQ5]].
    pose proof (tstat_q_step _ _ _ Hs5 HT4) as HT5. destruct Hs5 as (ns & na & c & Hna & Hnk & ->). wsimpl. unfold setcontext. wsimpl.
    eapply (wp_get_tcb _ p t4); [cbn; apply lookup_insert_eq|]. wsimpl. split; [done|]. split; [|split; [done|]].
    + split; [by eapply tstat_same; [| | |exact HT5]|]. exists Q5. cbn [leave_to ready waiting]. rewrite ER. eapply qrep_same; [|exact HQ5]. same_q.
    + intros p' t' Hp' Ht'. cbn. destruct (Hctx id p' t' Hne Hp' Ht') as (t3 & Ht3 & Hc3).
      assert (Hpp : p' = p) by (destruct Hp as (_ & Hp & _), Hp' as (_ & Hp' & _); congruence). subst p'. change (t_context t4) with (t_context t). congruence.
Qed.
End exit.

(** ** Without zeroed storage *)

(** a loop stops at the first round that faults *)
Lemma for_fault n lo (body : Z -> M st unit) s f i : lo <= i < lo + Z.of_nat n -> body i s = Fault f ->
  (forall j, lo <= j < i -> body j s = Val (tt, s) \/ body j s = Fault f) -> for_ n lo body s = Fault f.
Proof.
  revert lo. induction n as [|n IH]; intros lo Hi Hf Hall; [lia|]. cbn [for_]. destruct (decide (lo = i)) as [->|Hne].
  - by apply bind_fault.
  - destruct (Hall lo ltac:(lia)) as [H|H]; [|by apply bind_fault]. rewrite (run_bind _ _ _ _ _ H).
    apply IH; [lia|done|]. intros j Hj. apply Hall. lia.
Qed.

(** the search for the thread that ends reads the wait queue of a thread that exists *)
Lemma search_faults s a cur id : repr s a -> sched_ok a cur -> synced s a -> zeroed s = false ->
  delete_from_all_queues id s = Fault Undefined.
Proof.
  intros [HT [Q HQ]] Hok Hsy Hz. pose proof (ts_dom _ _ HT cur) as Hc. unfold delete_from_all_queues.
  assert (Hround : forall i, 0 <= i < 1024 -> match table a !! i with
    | Some _ => exists p t h, thread_at i s = Val (p, s) /\ (p =? 0) = false /\ tcbs s !! p = Some t /\
        wqs s !! t_queue t = Some h /\ raw s h
    | None => thread_at i s = Val (0, s) end).
  { intros i Hi. destruct (table a !! i) as [x|] eqn:Hx.
    - destruct (ts_some _ _ HT i x Hx) as (p & t & Hp & Ht & _). destruct (sy_tcbs _ _ Hsy p t Ht) as [[h Hh] Hn].
      exists p, t, h. split_and!; [|by apply Z.eqb_neq, Hp|done|done|].
      + assert (Hw : wp (thread_at i) s (fun r s' => r = p /\ s' = s)) by by apply (wp_thread_at s i p).
        by apply wp_inv in Hw as (r & s' & E & -> & ->).
      + destruct (qr_dom _ _ _ _ HQ _ _ Hh) as [[ids Hids]|[_ ?]]; [|done]. rewrite (Hn Hz) in Hids. done.
    - pose proof (ts_none _ _ HT i Hi Hx) as Hp. unfold thread_at, mbind, M_bind, get.
      rewrite (proj2 (Z.ltb_ge i 0)) by lia. by rewrite Hp. }
  assert (Hcur : is_Some (table a !! cur)) by (rewrite (proj2 (so_running _ _ Hok cur)); done).
  apply (for_fault _ _ _ _ _ cur); [change (Z.of_nat (Z.to_nat THREAD_MAX_THREADS)) with 1024; specialize (Hc Hcur); lia| |].
  - destruct Hcur as [x Hx]. pose proof (Hround cur ltac:(apply Hc; by eexists)) as H. rewrite Hx in H.
    destruct H as (p & t & h & Hp & Hp0 & Ht & Hh & Hraw). rewrite (run_bind _ _ _ _ _ Hp), Hp0.
    apply fault_bind. eapply wp_get_tcb; [exact Ht|]. apply fault_bind. unfold wait_of. wsimpl. apply (wp_deref _ h); [done|].
    by apply bind_fault, next_raw_fault.
  - intros j Hj. specialize (Hc Hcur). pose proof (Hround j ltac:(lia)) as H. destruct (table a !! j) as [x|].
    + right. destruct H as (p & t & h & Hp & Hp0 & Ht & Hh & Hraw). rewrite (run_bind _ _ _ _ _ Hp), Hp0.
      apply fault_bind. eapply wp_get_tcb; [exact Ht|]. apply fault_bind. unfold wait_of. wsimpl. apply (wp_deref _ h); [done|].
      by apply bind_fault, next_raw_fault.
    + left. by rewrite (run_bind _ _ _ _ _ H).
Qed.

Lemma exit_faults s a cur q u : repr s a -> sched_ok a cur -> (forall i, table a !! i <> Some EXITED) -> synced s a ->
  zeroed s = false -> tcb_at s cur q -> tcbs s !! q = Some u -> thread_exit s = Fault Undefined.
Proof.
  intros Hr Hok Hex Hsy Hz Hq Hu. set (s0 := with_enabled false s). assert (Hr0 : repr s0 a) by by apply repr_enabled.
  pose proof Hr0 as [HT0 [Q0 HQ0]]. set (u1 := set_t_killmepls 1 u). set (s1 := with_tcbs (<[q := u1]> (tcbs s0)) s0).
  assert (Hr1 : repr s1 a).
  { split; [by apply (tstat_keep s0 _ HT0 cur q u u1)|]. exists Q0. apply (qrep_same s0); [same_q|done]. }
  assert (Hsy1 : synced s1 a).
  { destruct Hsy as [L C T]. split; [done|done|]. intros p t. cbn. rewrite lookup_insert_Some.
    intros [[<- <-]|[_ Ht]]; [by apply (T q u)|by apply (T p t)]. }
  unfold thread_exit, interrupts_off, interrupts_set. apply fault_bind. wsimpl. fold s0.
  apply fault_bind, (free_exited_none s0 _ HT0); [done|]. apply fault_bind, (current_spec a cur Hok s0 q); [done|done|].
  apply fault_bind. unfold upd_tcb at 1. wsimpl. eapply wp_get_tcb; [exact Hu|]. wsimpl. fold u1 s1.
  apply fault_bind, (thread_id_spec s1 _ (proj1 Hr1) cur); [apply Hok|].
  apply bind_fault. by apply (search_faults s1 a cur cur).
Qed.

(** C25: when malloc returns zeroed storage, [thread_exit] makes ready, in their order,
    the threads that wait for the running one, and runs the first of the threads that
    are ready then, at the point where it left off; the thread that exits stays in the
    table, in no queue, for [free_exited].  When no thread is ready then the process
    exits, even if there are threads that are blocked.  When malloc returns other
    storage every [thread_exit] reads an uninitialised pointer (thread.c:263).  It is
    stated for states in which no other thread has exited, and malloc does not fail. *)
Theorem thread_exit_refines s a cur q u : repr s a -> sched_ok a cur -> (forall i, table a !! i <> Some EXITED) ->
  synced s a -> mallocs s = [] -> tcb_at s cur q -> tcbs s !! q = Some u ->
  let b := wake_all (t_queue u) a in
  if zeroed s then
    match ready b with
    | [] => thread_exit s = Fault Exited
    | id :: _ => wp thread_exit s (fun r s' => r = Switched /\ repr s' (leave_to cur id b) /\ sched_ok (leave_to cur id b) id /\
        forall p t, tcb_at s id p -> tcbs s !! p = Some t -> pending s' = Some (t_context t))
    end
  else thread_exit s = Fault Undefined.
Proof.
  intros Hr Hok Hex Hsy Hm Hq Hu b. destruct (zeroed s) eqn:Hz; [|by eapply exit_faults].
  assert (Hwqs : forall p t, tcbs s !! p = Some t -> is_Some (waiting a !! t_queue t)).
  { intros p t Ht. destruct (sy_tcbs _ _ Hsy p t Ht) as [[h Hh] _]. pose proof Hr as [_ [Q HQ]].
    destruct (qr_dom _ _ _ _ HQ _ _ Hh) as [?|[? _]]; [done|congruence]. }
  destruct (Hwqs q u Hu) as [ids Hids].
  pose proof (exit_work_spec s a cur q u ids Hr Hok Hex Hm Hwqs (heads_of_zeroed s a Hr Hz) Hq Hu Hids) as Hwork.
  apply wp_inv in Hwork as ([] & s3 & Hrun & Hl & _). pose proof (exit_end_spec s a cur u ids Hok Hids s3 Hl) as Hend. fold b in Hend.
  assert (E : thread_exit s = exit_end s3) by (rewrite exit_split; unfold mbind, M_bind; by rewrite Hrun).
  destruct (ready b) as [|id R] eqn:ER; [by rewrite E|]. unfold wp. rewrite E. eapply wp_mono; [exact Hend|].
  intros r s' (H1 & H2 & _ & H3). split_and!; try done. apply leave_to_ok; [by eapply wake_all_ok|rewrite ER; by left].
Qed.

(** thread 0 exits and thread 1 runs *)
Lemma thread_exit_refines_witness : wp thread_exit two_state (fun r s' => r = Switched /\ exists a, repr s' a /\ sched_ok a 1 /\
  table a !! 0 = Some EXITED /\ table a !! 1 = Some RUNNING /\ ready a <> []).
Proof.
  destruct two_state_repr as (W & H1 & H2 & _). pose proof (two_state_live_with W H1 H2) as Hl.
  destruct (tcb_of two_state _ (proj1 H1) 0 RUNNING ltac:(reflexivity)) as [q Hq].
  destruct (tcb_lookup two_state _ (proj1 H1) 0 q Hq) as (u & x & Hu & _).
  pose proof (thread_exit_refines two_state (two_sched W) 0 q u H1 H2 (two_sched_live W) (lv_synced _ _ _ Hl)
    (proj1 two_state_malloc) Hq Hu) as H.
  cbv zeta in H. rewrite (proj2 two_state_malloc) in H. set (b := wake_all (t_queue u) (two_sched W)) in H.
  assert (E : ready b = 1 :: 2 :: default [] (W !! t_queue u)) by reflexivity. rewrite E in H. cbv beta iota in H.
  eapply wp_mono; [exact H|]. intros r s' (Hr & Hs & Hok & _). split; [exact Hr|]. exists (leave_to 0 1 b). split; [exact Hs|]. split; [exact Hok|].
  split; [apply lookup_insert_Some; right; split; [discriminate|apply lookup_insert_eq]|]. split; [apply lookup_insert_eq|].
  cbn [leave_to ready]. rewrite E. discriminate.
Defined.
