(* ===== verification/Interrupts.v ===== *)
(** * Timer interrupts (threads/interrupt.c)

    The signal mask of the process, the registered handler and the timer.  The
    functions of <signal.h> and <sys/time.h> are modelled as POSIX describes them: a
    [sigset_t] is a set of signal numbers, [sigprocmask] never blocks SIGKILL and
    SIGSTOP, and while a handler runs its signal and its [sa_mask] are blocked.  The
    readings of the clock are an argument.  Threads.v sees the mask as one flag;
    [interrupts_set_refines] says that this is enough. *)

From stdpp Require Import base gmap sets list.
From Stdlib Require Import ZArith Lia.
From S2P Require Import Prelude Words Threads.
#[local] Open Scope Z_scope.

Definition SIGALRM : Z := 14.
Definition SIG_TYPE : Z := SIGALRM.
(** in microseconds *)
Definition SIG_INTERVAL : Z := 200.

Record timeval : Type := mk_timeval {
  tv_sec : Z;
  tv_usec : Z;
}.

Record action : Type := mk_action {
  sa_mask : gset Z;
  sa_siginfo : bool;       (* SA_SIGINFO: [sa_sigaction] is the handler *)
}.

(** what is printed *)
Inductive message : Type :=
  | Text (l : list Z)
  | TimeDiff (usecs : Z).  (* the message of the handler, without the address *)

Record proc : Type := mk_proc {
  blocked : gset Z;              (* the signal mask *)
  installed : option action;     (* the action for SIG_TYPE; [None] is the default *)
  init : bool;                   (* static of register_interrupt_handler *)
  loud : Z;
  first : bool;
  start : timeval;
  diff : timeval;
  ticks : nat;                   (* how often the clock was read *)
  alarm : option (Z * Z);        (* the timer: interval and value in microseconds *)
  stdout : list message;         (* latest first *)
}.

Definition with_blocked x p := mk_proc x (installed p) (init p) (loud p) (first p) (start p) (diff p) (ticks p) (alarm p) (stdout p).
Definition with_installed x p := mk_proc (blocked p) x (init p) (loud p) (first p) (start p) (diff p) (ticks p) (alarm p) (stdout p).
Definition with_init x p := mk_proc (blocked p) (installed p) x (loud p) (first p) (start p) (diff p) (ticks p) (alarm p) (stdout p).
Definition with_loud x p := mk_proc (blocked p) (installed p) (init p) x (first p) (start p) (diff p) (ticks p) (alarm p) (stdout p).
Definition with_first x p := mk_proc (blocked p) (installed p) (init p) (loud p) x (start p) (diff p) (ticks p) (alarm p) (stdout p).
Definition with_start x p := mk_proc (blocked p) (installed p) (init p) (loud p) (first p) x (diff p) (ticks p) (alarm p) (stdout p).
Definition with_diff x p := mk_proc (blocked p) (installed p) (init p) (loud p) (first p) (start p) x (ticks p) (alarm p) (stdout p).
Definition with_ticks x p := mk_proc (blocked p) (installed p) (init p) (loud p) (first p) (start p) (diff p) x (alarm p) (stdout p).
Definition with_alarm x p := mk_proc (blocked p) (installed p) (init p) (loud p) (first p) (start p) (diff p) (ticks p) x (stdout p).
Definition with_stdout x p := mk_proc (blocked p) (installed p) (init p) (loud p) (first p) (start p) (diff p) (ticks p) (alarm p) x.

(** ** <signal.h> *)

(** SIGKILL and SIGSTOP *)
Definition unblockable : gset Z := {[9; 19]}.

Inductive how : Type := SIG_BLOCK | SIG_UNBLOCK.

Definition new_mask (h : how) (set mask : gset Z) : gset Z :=
  match h with
  | SIG_BLOCK => mask ∪ (set ∖ unblockable)
  | SIG_UNBLOCK => mask ∖ set
  end.

(** returns 0 and the previous mask; without a set the mask is only read *)
Definition sigprocmask (change : option (how * gset Z)) : M proc (Z * gset Z) :=
  omask ← gets blocked;
  (match change with
   | Some (h, set) => modify (with_blocked (new_mask h set omask))
   | None => mret tt
   end);;
  mret (0, omask).

(** each returns 0 and the new set *)
Definition sigemptyset : Z * gset Z := (0, ∅).
Definition sigaddset (set : gset Z) (signo : Z) : Z * gset Z := (0, {[signo]} ∪ set).
Definition sigismember (set : gset Z) (signo : Z) : Z := if decide (signo ∈ set) then 1 else 0.

Definition sigaction (signo : Z) (a : action) : M proc Z :=
  (if signo =? SIG_TYPE then modify (with_installed (Some a)) else mret tt);;
  mret 0.

(** ** <sys/time.h> *)

Definition setitimer (interval value : timeval) : M proc Z :=
  let usecs t := tv_sec t * 1000000 + tv_usec t in
  modify (with_alarm (if usecs value =? 0 then None else Some (usecs interval, usecs value)));;
  mret 0.

Definition timersub (a b : timeval) : timeval :=
  let sec := tv_sec a - tv_sec b in
  let usec := tv_usec a - tv_usec b in
  if usec <? 0 then mk_timeval (sec - 1) (usec + 1000000) else mk_timeval sec usec.

Section clock.
Context (clock : nat -> timeval).

Definition gettimeofday : M proc (Z * timeval) :=
  n ← gets ticks;
  modify (with_ticks (S n));;
  mret (0, clock n).

(** ** interrupt.c *)

Definition set_interrupt : M proc unit :=
  ret ← setitimer (mk_timeval 0 0) (mk_timeval 0 SIG_INTERVAL);
  assert_ (ret =? 0).

Definition set_signal : M proc (gset Z) :=
  let '(ret, set) := sigemptyset in
  assert_ (ret =? 0);;
  let '(ret, set) := sigaddset set SIG_TYPE in
  assert_ (ret =? 0);;
  mret set.

Definition interrupts_set (enabled : Z) : M proc Z :=
  mask ← set_signal;
  '(ret, omask) ← sigprocmask (Some (if enabled =? 0 then SIG_BLOCK else SIG_UNBLOCK, mask));
  assert_ (ret =? 0);;
  mret (if sigismember omask SIG_TYPE =? 0 then 1 else 0).

Definition interrupts_on : M proc Z := interrupts_set 1.
Definition interrupts_off : M proc Z := interrupts_set 0.

Definition interrupts_enabled : M proc Z :=
  '(ret, mask) ← sigprocmask None;
  assert_ (ret =? 0);;
  mret (if sigismember mask SIG_TYPE =? 0 then 1 else 0).

Definition interrupts_quiet : M proc unit := modify (with_loud 0).

Definition register_interrupt_handler (verbose : Z) : M proc unit :=
  i ← gets init;
  assert_ (negb i);;
  modify (with_init true);;
  modify (with_loud verbose);;
  let '(error, mask) := sigemptyset in
  assert_ (error =? 0);;
  ret ← sigaction SIG_TYPE (mk_action mask true);
  assert_ (ret =? 0);;
  set_interrupt.

(** microseconds, as a long *)
Definition usecs_of (t : timeval) : Z := s64 (s64 (tv_sec t * 1000000) + tv_usec t).

Definition spin (usecs : Z) : M proc unit :=
  '(ret, start) ← gettimeofday;
  assert_ (ret =? 0);;
  while_ (fun _ : unit =>
    '(_, end_) ← gettimeofday;
    if usecs <=? usecs_of (timersub end_ start) then mret (inr tt) else mret (inl tt)) tt.

(** [text] is what [vprintf] makes of the format and the arguments *)
Definition unintr_printf (text : list Z) : M proc Z :=
  enabled ← interrupts_off;
  p ← get;
  modify (with_stdout (Text text :: stdout p));;
  let ret := zlen text in
  interrupts_set enabled;;
  mret ret.

(** the handler; [yield] is the call of [thread_yield] at its end *)
Definition interrupt_handler (yield : M proc unit) : M proc unit :=
  enabled ← interrupts_enabled;
  assert_ (enabled =? 0);;
  l ← gets loud;
  (if negb (l =? 0) then
     '(ret, end_) ← gettimeofday;
     assert_ (ret =? 0);;
     p ← get;
     (if first p then modify (with_first false) else modify (with_diff (timersub end_ (start p))));;
     modify (with_start end_);;
     p ← get;
     modify (with_stdout (TimeDiff (usecs_of (diff p)) :: stdout p))
   else mret tt);;
  set_interrupt;;
  yield.

(** ** The kernel *)

(** The timer runs out: the signal waits while it is blocked; the default action ends
    the process; otherwise the handler runs with its signal and [sa_mask] blocked, and
    its return restores the mask. *)
Definition deliver (yield : M proc unit) : M proc unit :=
  p ← get;
  if decide (SIG_TYPE ∈ blocked p) then mret tt else
  match installed p with
  | None => stop Exited
  | Some a =>
      modify (with_alarm None);;
      modify (with_blocked ({[SIG_TYPE]} ∪ sa_mask a ∪ blocked p));;
      interrupt_handler yield;;
      modify (with_blocked (blocked p))
  end.
End clock.

(** ** The mask *)

Lemma set_signal_val p : set_signal p = Val ({[SIG_TYPE]}, p).
Proof. unfold set_signal. done. Qed.

Definition mask_set (x : Z) (mask : gset Z) : gset Z := if x =? 0 then {[SIG_TYPE]} ∪ mask else mask ∖ {[SIG_TYPE]}.

Lemma interrupts_set_val x p :
  interrupts_set x p = Val (if decide (SIG_TYPE ∈ blocked p) then 0 else 1, with_blocked (mask_set x (blocked p)) p).
Proof.
  unfold interrupts_set, mbind, M_bind. rewrite set_signal_val. unfold sigprocmask, gets, modify, mbind, M_bind, mret, M_ret. cbv beta iota zeta.
  change (assert_ (0 =? 0)) with (fun p : proc => Val (tt, p)). cbv beta iota. do 2 f_equal.
  - unfold sigismember. by destruct (decide _).
  - f_equal. unfold mask_set. destruct (x =? 0); cbn [new_mask]; [|done].
    assert (H : ({[SIG_TYPE]} : gset Z) ∖ unblockable = {[SIG_TYPE]}) by (vm_compute; reflexivity).
    by rewrite H, (comm_L (∪)).
Qed.

Lemma interrupts_enabled_val p : interrupts_enabled p = Val (if decide (SIG_TYPE ∈ blocked p) then 0 else 1, p).
Proof.
  unfold interrupts_enabled, sigprocmask, sigismember, gets, mbind, M_bind, mret, M_ret. cbv beta iota zeta.
  change (assert_ (0 =? 0)) with (fun p : proc => Val (tt, p)). by destruct (decide (SIG_TYPE ∈ blocked p)).
Qed.

Lemma mask_set_in x mask : SIG_TYPE ∈ mask_set x mask <-> x = 0.
Proof. unfold mask_set. destruct (Z.eqb_spec x 0); set_solver. Qed.
Lemma mask_set_other x mask n : n <> SIG_TYPE -> n ∈ mask_set x mask <-> n ∈ mask.
Proof. unfold mask_set. destruct (x =? 0); set_solver. Qed.

(** the flag of Threads.v *)
Definition agrees (p : proc) (s : st) : Prop := Threads.enabled s = negb (bool_decide (SIG_TYPE ∈ blocked p)).

(** a section between [interrupts_off] and [interrupts_set] of what it returned *)
Definition section {A} (m : M proc A) : M proc A :=
  enabled ← interrupts_off;
  a ← m;
  interrupts_set enabled;;
  mret a.

Lemma section_restores {A} (m : M proc A) p (Q : A -> proc -> Prop) :
  wp m (with_blocked ({[SIG_TYPE]} ∪ blocked p) p) (fun a p' => blocked p' = {[SIG_TYPE]} ∪ blocked p /\ Q a (with_blocked (blocked p) p')) ->
  wp (section m) p Q.
Proof.
  intros H. unfold section, interrupts_off. apply wp_bind. eapply wp_val; [apply interrupts_set_val|].
  apply wp_bind. eapply wp_mono; [exact H|]. intros a p' [Hb HQ]. apply wp_bind. eapply wp_val; [apply interrupts_set_val|]. apply wp_ret.
  assert (Hm : mask_set (if decide (SIG_TYPE ∈ blocked p) then 0 else 1) (blocked p') = blocked p); [|by rewrite Hm].
  rewrite Hb. unfold mask_set. destruct (decide (SIG_TYPE ∈ blocked p)) as [Hin|Hout]; cbn [Z.eqb].
  - clear -Hin. set_solver.
  - clear -Hout. set_solver.
Qed.

(** ** The clock *)

Definition time_ok (t : timeval) : Prop := 0 <= tv_sec t < 2 ^ 40 /\ 0 <= tv_usec t < 1000000.
Definition micros (t : timeval) : Z := tv_sec t * 1000000 + tv_usec t.

Lemma usecs_of_sub a b : time_ok a -> time_ok b -> usecs_of (timersub a b) = micros a - micros b.
Proof.
  intros [A1 A2] [B1 B2]. change (2 ^ 40) with 1099511627776 in *. unfold usecs_of, timersub, micros.
  destruct (Z.ltb_spec (tv_usec a - tv_usec b) 0); cbn [tv_sec tv_usec]; rewrite !s64_small by (rewrite ?s64_small by lia; lia); lia.
Qed.

Section proofs.
Context (clock : nat -> timeval).
Hypothesis Hclock : forall n, time_ok (clock n).

Definition elapsed (k n : nat) : Z := micros (clock n) - micros (clock k).

Lemma spin_rounds usecs k m (Q : unit -> proc -> Prop) p : usecs <= elapsed k (ticks p + m) ->
  (forall j, (j < m)%nat -> elapsed k (ticks p + j) < usecs) -> Q tt (with_ticks (S (ticks p + m)) p) ->
  wp_rounds (S m) (fun _ : unit =>
    '(_, end_) ← gettimeofday clock;
    if usecs <=? usecs_of (timersub end_ (clock k)) then mret (inr tt) else mret (inl tt)) tt p Q.
Proof.
  unfold elapsed. revert p. induction m as [|m IH]; intros p Hend Hbefore HQ; cbn [wp_rounds]; unfold gettimeofday at 1; wsimpl; rewrite usecs_of_sub by done.
  - rewrite Nat.add_0_r in *. rewrite (proj2 (Z.leb_le _ _)) by done. by wsimpl.
  - rewrite (proj2 (Z.leb_gt _ _)) by (specialize (Hbefore 0%nat ltac:(lia)); by rewrite Nat.add_0_r in Hbefore). wsimpl.
    apply IH; cbn [ticks with_ticks].
    + by rewrite Nat.add_succ_comm.
    + intros j Hj. rewrite Nat.add_succ_comm. apply Hbefore. lia.
    + rewrite Nat.add_succ_comm. exact HQ.
Qed.

Lemma handler_spec yield p (Q : unit -> proc -> Prop) : SIG_TYPE ∈ blocked p ->
  (forall p', blocked p' = blocked p -> installed p' = installed p -> alarm p' = Some (0, SIG_INTERVAL) -> wp yield p' Q) -> wp (interrupt_handler clock yield) p Q.
Proof.
  intros Hin Hy. unfold interrupt_handler, set_interrupt, setitimer. apply wp_bind. eapply wp_val; [apply interrupts_enabled_val|].
  rewrite decide_True by done. change (assert_ (0 =? 0)) with (mret tt : M proc unit). wsimpl.
  destruct (negb (loud p =? 0)); unfold gettimeofday; wsimpl; [|by apply Hy].
  change (assert_ (0 =? 0)) with (mret tt : M proc unit). wsimpl.
  match goal with |- context [if first ?q then _ else _] => destruct (first q) end; wsimpl; by apply Hy.
Qed.
End proofs.
