(* ===== verification/TimerProps.v ===== *)
(** * Timer interrupts: what the functions guarantee

    The one flag of Threads.v is a faithful view of the signal mask; sections with
    interrupts off nest; the timer keeps ticking; [spin] waits as long as it should. *)

From stdpp Require Import base gmap sets list.
From Stdlib Require Import ZArith Lia.
From S2P Require Import Prelude Words Threads Interrupts.
#[local] Open Scope Z_scope.

(** ** Concrete processes *)

Definition zero_time : timeval := mk_timeval 0 0.
Definition first_proc : proc := mk_proc ∅ None false 0 true zero_time zero_time 0 None [].
(** the clock advances by 30 microseconds between two readings *)
Definition steady (n : nat) : timeval :=
  let us := 999990 + 30 * Z.of_nat n in mk_timeval (us / 1000000) (us mod 1000000).
Definition slow (n : nat) : timeval := if (n <? 10)%nat then steady n else mk_timeval 7 0.

Lemma slow_ok n : time_ok (slow n).
Proof.
  unfold slow, time_ok. destruct (Nat.ltb_spec n 10); [|cbn; lia]. unfold steady. cbn [tv_sec tv_usec].
  assert (H1 : 0 <= (999990 + 30 * Z.of_nat n) / 1000000 < 2) by (split; [apply Z.div_pos; lia|apply Z.div_lt_upper_bound; lia]).
  pose proof (Z.mod_pos_bound (999990 + 30 * Z.of_nat n) 1000000 ltac:(lia)). lia.
Qed.

(** ** The mask *)

(** C27: the calls that switch interrupts on and off act on the signal mask as those of
    Threads.v act on its flag, with the same answers, and leave all other signals and
    the rest of the process alone. *)
Theorem interrupts_set_refines p s x : agrees p s -> exists p',
  interrupts_set x p = Val (Z.b2z (Threads.enabled s), p') /\
  Threads.interrupts_set (negb (x =? 0)) s = Val (Threads.enabled s, with_enabled (negb (x =? 0)) s) /\
  agrees p' (with_enabled (negb (x =? 0)) s) /\ p' = with_blocked (blocked p') p /\
  (forall n, n <> SIG_TYPE -> n ∈ blocked p' <-> n ∈ blocked p) /\
  interrupts_enabled p' = Val (Z.b2z (negb (x =? 0)), p').
Proof.
  unfold agrees. intros Ha. exists (with_blocked (mask_set x (blocked p)) p). rewrite interrupts_set_val, interrupts_enabled_val, Ha.
  assert (Hb : forall m : gset Z, (if decide (SIG_TYPE ∈ m) then 0 else 1) = Z.b2z (negb (bool_decide (SIG_TYPE ∈ m)))).
  { intros m. by destruct (decide (SIG_TYPE ∈ m)), (bool_decide_reflect (SIG_TYPE ∈ m)). }
  assert (Hx : bool_decide (SIG_TYPE ∈ mask_set x (blocked p)) = (x =? 0)).
  { pose proof (mask_set_in x (blocked p)) as Hin. destruct (bool_decide_reflect (SIG_TYPE ∈ mask_set x (blocked p))), (Z.eqb_spec x 0); tauto. }
  cbn [blocked with_blocked]. rewrite !Hb, Hx. split_and!; try done; [by rewrite <- Ha|]. intros n Hn. by apply mask_set_other.
Qed.

Definition first_state : st := mk_st (replicate 1024 0) ∅ ∅ ∅ ∅ ∅ 0 1 [] false true None 0 0 0.

Lemma interrupts_set_refines_witness : exists p', interrupts_set 0 first_proc = Val (1, p') /\
  Threads.interrupts_set false first_state = Val (true, with_enabled false first_state) /\ agrees p' (with_enabled false first_state).
Proof.
  destruct (interrupts_set_refines first_proc first_state 0 ltac:(reflexivity)) as (p' & H1 & H2 & H3 & _).
  exists p'. split; [exact H1|]. split; [exact H2|exact H3].
Defined.

(** ** Sections *)

(** Text is printed with the timer signal blocked, and the mask is then what it
    was, also inside a section in which interrupts are off already. *)
Theorem printf_restores p text : unintr_printf text p = Val (zlen text, with_stdout (Text text :: stdout p) p).
Proof.
  assert (H : wp (section (p ← get; modify (with_stdout (Text text :: stdout p));; mret (zlen text) : M proc Z)) p
    (fun n p' => n = zlen text /\ p' = with_stdout (Text text :: stdout p) p)).
  { apply section_restores. wsimpl. cbn [blocked with_stdout with_blocked]. split; [done|]. split; [done|]. by destruct p. }
  apply wp_inv in H as (n & p' & Hrun & -> & ->). exact Hrun.
Qed.

(** ** The timer *)

(** the timer runs out several times; each time the handler ends in another call *)
Fixpoint deliveries (clock : nat -> timeval) (yields : list (M proc unit)) : M proc unit :=
  match yields with
  | [] => mret tt
  | y :: ys => deliver clock y;; deliveries clock ys
  end.

(** a call that is made with the timer signal blocked and the timer set *)
Definition polite (y : M proc unit) : Prop := forall p, SIG_TYPE ∈ blocked p -> alarm p = Some (0, SIG_INTERVAL) ->
  wp y p (fun _ p' => alarm p' = alarm p /\ installed p' = installed p).

Lemma deliver_spec clock y a p : polite y -> (SIG_TYPE ∉ blocked p) -> installed p = Some a -> (forall n, time_ok (clock n)) ->
  wp (deliver clock y) p (fun _ p' => blocked p' = blocked p /\ installed p' = Some a /\ alarm p' = Some (0, SIG_INTERVAL)).
Proof.
  intros Hy Hb Ha Hclock. unfold deliver. wsimpl. rewrite decide_False, Ha by done. wsimpl.
  apply handler_spec; [cbn; set_solver|]. intros p1 Hb1 Hi1 Ha1. eapply wp_mono; [apply Hy; [rewrite Hb1; cbn; set_solver|done]|].
  intros _ p2 [H1 H2]. wsimpl. cbn [blocked installed alarm with_blocked]. split_and!; try done; [rewrite H2, Hi1; cbn; done|congruence].
Qed.

Lemma register_val verbose p : init p = false -> register_interrupt_handler verbose p =
  Val (tt, with_alarm (Some (0, SIG_INTERVAL)) (with_installed (Some (mk_action ∅ true)) (with_loud verbose (with_init true p)))).
Proof. intros Hi. unfold register_interrupt_handler, gets, mbind, M_bind. rewrite Hi. reflexivity. Qed.

(** C28: once the handler is registered the timer never stops: every time it runs
    out the handler finds its own signal blocked, sets the timer again before it
    calls [thread_yield], and the signal is unblocked when it returns. *)
Theorem ticks_keep_coming clock verbose ys p : init p = false -> (SIG_TYPE ∉ blocked p) -> (forall n, time_ok (clock n)) -> Forall polite ys ->
  wp (register_interrupt_handler verbose;; deliveries clock ys) p (fun _ p' =>
    alarm p' = Some (0, SIG_INTERVAL) /\ blocked p' = blocked p /\ installed p' = Some (mk_action ∅ true)).
Proof.
  intros Hi Hb Hclock Hys. apply wp_bind. eapply wp_val; [by apply register_val|]. set (a := mk_action ∅ true).
  match goal with |- wp _ ?p1 _ => set (p1' := p1) end.
  assert (H : blocked p1' = blocked p /\ installed p1' = Some a /\ alarm p1' = Some (0, SIG_INTERVAL)) by done. clearbody p1'.
  revert p1' H. induction Hys as [|y ys Hy Hys IH]; intros p1 (H1 & H2 & H3); cbn [deliveries]; wsimpl; [by split_and!|].
  eapply wp_mono; [apply (deliver_spec clock y a p1 Hy); [by rewrite H1|done|done]|]. intros _ p2 (K1 & K2 & K3).
  apply IH. split_and!; congruence.
Qed.

Lemma ticks_keep_coming_witness : wp (register_interrupt_handler 1;; deliveries slow [mret tt; modify (with_start zero_time); mret tt]) first_proc
  (fun _ p' => alarm p' = Some (0, SIG_INTERVAL) /\ blocked p' = ∅).
Proof.
  assert (Hy : Forall polite [mret tt; modify (with_start zero_time); mret tt]).
  { repeat apply Forall_cons_2; [..|apply Forall_nil_2]; intros p _ _; wsimpl; split; reflexivity. }
  eapply wp_mono; [exact (ticks_keep_coming slow 1 _ first_proc eq_refl (not_elem_of_empty _) slow_ok Hy)|].
  intros _ p' (H1 & H2 & _). split; [exact H1|exact H2].
Defined.

(** A second registration is refused. *)
Theorem registers_once verbose p : init p = true -> register_interrupt_handler verbose p = Fault AssertFailed.
Proof. intros H. unfold register_interrupt_handler, gets, mbind, M_bind. by rewrite H. Qed.

(** [spin] reads the clock until, for the first time, as many microseconds have passed
    as it should wait; it returns when there is such a reading. *)
Theorem spin_waits clock usecs p m : (forall n, time_ok (clock n)) -> Z.of_nat m < 2 ^ 63 ->
  usecs <= elapsed clock (ticks p) (S (ticks p) + m) -> (forall j, (j < m)%nat -> elapsed clock (ticks p) (S (ticks p) + j) < usecs) ->
  wp (spin clock usecs) p (fun _ p' => p' = with_ticks (S (S (ticks p) + m)) p).
Proof.
  intros Hclock Hm Hend Hbefore. unfold spin. apply wp_bind. unfold gettimeofday at 1. wsimpl. apply wp_assert; [done|].
  apply (wp_while_rounds (S m)); [change (2 ^ 63) with 9223372036854775808 in Hm; change (2 ^ 64) with 18446744073709551616; lia|].
  by apply (spin_rounds clock Hclock usecs (ticks p) m).
Qed.

Lemma spin_waits_witness : wp (spin slow 100) first_proc (fun _ p' => ticks p' = 5%nat).
Proof.
  eapply wp_mono; [apply (spin_waits slow 100 first_proc 3 slow_ok)|].
  - vm_compute. reflexivity.
  - vm_compute. discriminate.
  - intros [|[|[|j]]] Hj; [vm_compute; reflexivity..|lia].
  - intros _ p' ->. reflexivity.
Defined.
