(* ===== verification/LruSpec.v ===== *)
(** * The LRU queue of the file cache refines a list

    [lru m q l]: the storage [m] holds the queue with head [q] and the entries [l],
    pairs of a node and an index of the table.  Its nodes are read as those of
    threads/thread.c, so that the lemmas on [QueueSpec.chain] apply.  Both functions
    that add put the index at the end; [delete_from_queue] takes out the first entry
    of an index and frees its node. *)

From stdpp Require Import base gmap list list_numbers.
From Stdlib Require Import ZArith Lia.
From S2P Require Import Prelude Words Threads QueueSpec.
From S2P Require Import Cache.
#[local] Open Scope Z_scope.

(** ** The LRU queue *)

(** the nodes as those of [QueueSpec.chain] *)
Definition to_queue (n : lru_node) : queue := mk_queue (n_index n) (Some (n_next n)).

Record lru (m : mem) (q : Z) (l : list (Z * Z)) : Prop := {
  lr_chain : chain (to_queue <$> m_nodes m) q l;
  lr_nodup : NoDup (q :: l.*1);
  lr_head : q <> 0;
  lr_addr : forall a, is_Some (m_nodes m !! a) -> 0 < a < m_next m;
}.

Lemma to_queue_lookup m a t x : (to_queue <$> m_nodes m) !! a = Some (mk_queue t x) ->
  exists n, m_nodes m !! a = Some n /\ n_index n = t /\ Some (n_next n) = x.
Proof.
  rewrite lookup_fmap. intros (n & Hn & E)%fmap_Some. unfold to_queue in E. simplify_eq. by exists n.
Qed.

Lemma wp_get_lru m a n (P : lru_node -> mem -> Prop) : m_nodes m !! a = Some n -> P n m -> wp (Cache.get_node a) m P.
Proof. intros Ha HP. unfold Cache.get_node. wsimpl. by eapply wp_deref. Qed.

Section lru.
Context (m : mem) (q : Z) (l : list (Z * Z)).
Hypothesis Hl : lru m q l.

Lemma lru_next pre post (P : Z -> mem -> Prop) : l = pre ++ post -> P (link post) m ->
  wp (Cache.next_of (tail_addr q pre)) m P.
Proof.
  intros E HP. pose proof (lr_chain _ _ _ Hl) as Hc. rewrite E in Hc. apply chain_app, chain_head in Hc as [t Ht].
  apply to_queue_lookup in Ht as (n & Hn & _ & [= Hx]). unfold Cache.next_of. wsimpl. eapply wp_get_lru; [exact Hn|].
  wsimpl. by rewrite Hx.
Qed.

Lemma lru_next_head (P : Z -> mem -> Prop) : P (link l) m -> wp (Cache.next_of q) m P.
Proof. by apply (lru_next [] l). Qed.

Lemma lru_index pre a i post (P : Z -> mem -> Prop) : l = pre ++ (a, i) :: post -> P i m -> wp (index_of a) m P.
Proof.
  intros E HP. pose proof (lr_chain _ _ _ Hl) as Hc. rewrite E in Hc. apply chain_app in Hc as (_ & _ & (x & Hx) & _).
  apply to_queue_lookup in Hx as (n & Hn & Hi & _). unfold index_of. wsimpl. eapply wp_get_lru; [exact Hn|]. wsimpl.
  by apply (wp_deref _ i).
Qed.

Lemma lru_link pre post : l = pre ++ post -> (link post =? 0) = match post with [] => true | _ => false end.
Proof.
  intros E. destruct post as [|[a i] post]; [done|]. pose proof (lr_chain _ _ _ Hl) as Hc. rewrite E in Hc.
  apply chain_app in Hc as (_ & Ha & _). by apply Z.eqb_neq.
Qed.

(** the walk to the last node, from any node *)
Lemma last_node_spec pre post (P : Z -> mem -> Prop) : l = pre ++ post -> Z.of_nat (length l) < 2147483648 ->
  P (tail_addr q l) m -> wp (last_node (tail_addr q pre)) m P.
Proof.
  intros E Hlen HP. unfold last_node.
  apply (wp_while_var (fun n temp s' => s' = m /\ exists pre post, l = pre ++ post /\ temp = tail_addr q pre /\
    n = Z.of_nat (length post)) (Z.of_nat (length post))).
  - split; [done|]. by exists pre, post.
  - change (2 ^ 64) with 18446744073709551616. rewrite E, length_app in Hlen. lia.
  - clear pre post E. intros n temp s' (-> & pre & post & E & -> & ->) _. wsimpl. eapply lru_next; [exact E|].
    rewrite (lru_link pre post) by done. destruct post as [|[c j] post]; cbn [link]; wsimpl.
    + rewrite app_nil_r in E. by subst.
    + exists (Z.of_nat (length post)). cbn [length]. split; [|lia]. split; [done|].
      exists (pre ++ [(c, j)]), post. by rewrite <- app_assoc, tail_addr_snoc.
Qed.
End lru.

(** what an operation on the queue changes *)
Definition lru_mem (ns : gmap Z lru_node) (na : Z) (m : mem) : mem := with_next na (Cache.with_nodes ns m).

Lemma wp_set_next_lru m a n x (P : unit -> mem -> Prop) : m_nodes m !! a = Some n ->
  P tt (Cache.with_nodes (<[a := mk_lru (n_index n) x]> (m_nodes m)) m) -> wp (Cache.set_next a x) m P.
Proof. intros Ha HP. unfold Cache.set_next, Cache.put_node. wsimpl. eapply wp_get_lru; [exact Ha|]. by wsimpl. Qed.

(** the node [malloc] returned is linked behind the last one *)
Lemma lru_push m q l i : lru m q l ->
  let n := m_next m in
  let ns := <[n := mk_lru (Some i) 0]> (m_nodes m) in
  exists x, ns !! tail_addr q l = Some x /\
    lru (lru_mem (<[tail_addr q l := mk_lru (n_index x) n]> ns) (n + 1) m) q (l ++ [(n, i)]) /\
    lru (lru_mem ns (n + 1) m) q l.
Proof.
  intros [Hc Hnd Hq Ha] n ns.
  assert (Hn : m_nodes m !! n = None).
  { destruct (m_nodes m !! n) eqn:E; [|done]. destruct (Ha n); [by rewrite E|lia]. }
  pose proof (chain_app _ _ l [] ltac:(by rewrite app_nil_r)) as [t Ht].
  apply to_queue_lookup in Ht as (x & Hx & Ei & [= En]).
  assert (Hlast : tail_addr q l <> n) by (intros E; congruence).
  assert (Hin : forall a, a ∈ q :: l.*1 -> a <> n).
  { intros a Hin ->. destruct (chain_dom _ _ _ _ Hc Hin) as [? H]. rewrite lookup_fmap, Hn in H. done. }
  assert (Hpos : 0 < n). { destruct (Ha (tail_addr q l)); [by rewrite Hx|]. subst n. lia. }
  exists x. subst ns. rewrite lookup_insert_ne by done. split; [done|]. split.
  - split; [|rewrite fmap_app, app_comm_cons; apply NoDup_app; split_and!; [done| |apply NoDup_singleton]|done|].
    + cbn [m_nodes lru_mem with_next Cache.with_nodes]. rewrite !fmap_insert.
      apply (chain_push (to_queue <$> m_nodes m) q l n i (n_index x) (Some 0)); try done; [|lia|].
      * by rewrite lookup_fmap, Hn.
      * rewrite lookup_fmap, Hx. unfold to_queue. cbn. by rewrite En.
    + intros a Ha' ->%list_elem_of_singleton. by apply (Hin n).
    + cbn. intros a. rewrite !lookup_insert_is_Some'. intros [<-|[<-|Hs%Ha]]; [|lia|lia].
      destruct (Ha (tail_addr q l)); [by rewrite Hx|lia].
  - split; [|done|done|].
    + cbn [m_nodes lru_mem with_next Cache.with_nodes]. apply (chain_frame (to_queue <$> m_nodes m)); [|done].
      intros a Hin'. rewrite fmap_insert, lookup_insert_ne; [done|]. by apply not_eq_sym, Hin.
    + cbn. intros a. rewrite lookup_insert_is_Some'. intros [<-|Hs%Ha]; lia.
Qed.

(** an index is added at the end, by both functions *)
Section add.
Context (m : mem) (q : Z) (l : list (Z * Z)) (i : Z).
Hypothesis Hl : lru m q l.
Hypothesis Hlen : Z.of_nat (length l) < 2147483648.

Definition added (m' : mem) : Prop := exists ns n, m' = lru_mem ns (m_next m + 1) m /\ lru m' q (l ++ [(n, i)]).

(** with the new node in [m1], the last node gets its address *)
Lemma link_last (P : unit -> mem -> Prop) : (forall m', added m' -> P tt m') ->
  let m1 := lru_mem (<[m_next m := mk_lru (Some i) 0]> (m_nodes m)) (m_next m + 1) m in
  lru m1 q l /\ wp (Cache.set_next (tail_addr q l) (m_next m)) m1 P.
Proof.
  intros HP m1. destruct (lru_push m q l i Hl) as (x & Hx & Hend & Hmid). split; [exact Hmid|].
  eapply wp_set_next_lru; [exact Hx|]. apply HP. by eexists _, (m_next m).
Qed.

Lemma add_to_front_spec : wp (add_to_front q i) m (fun _ m' => added m').
Proof.
  destruct (link_last (fun _ m' => added m') ltac:(done)) as [Hmid Hset]. unfold add_to_front.
  rewrite (proj2 (Z.eqb_neq q 0) (lr_head _ _ _ Hl)). unfold malloc, Cache.put_node. wsimpl.
  match type of Hmid with lru ?s _ _ => match goal with |- wp _ ?s2 _ => change s2 with s end end.
  eapply lru_next_head; [exact Hmid|]. rewrite (lru_link _ _ _ Hmid [] l eq_refl).
  destruct l as [|y l'] eqn:El; wsimpl; [exact Hset|].
  apply (last_node_spec _ _ _ Hmid [] (y :: l')); [done|done|]. exact Hset.
Qed.

Lemma add_to_end_spec : wp (add_to_end q i) m (fun _ m' => added m').
Proof.
  destruct (link_last (fun _ m' => added m') ltac:(done)) as [Hmid Hset]. unfold add_to_end, malloc, Cache.put_node. wsimpl.
  match type of Hmid with lru ?s _ _ => match goal with |- wp _ ?s2 _ => change s2 with s end end.
  eapply lru_next_head; [exact Hmid|]. rewrite (lru_link _ _ _ Hmid [] l eq_refl).
  destruct l as [|[a j] l'] eqn:El; wsimpl; [exact Hset|]. cbn [link].
  apply (last_node_spec _ _ _ Hmid [(a, j)] l'); [done|done|]. exact Hset.
Qed.
End add.

(** the first entry of an index is taken out *)
Definition at_index (i : Z) (x : Z * Z) : bool := x.2 =? i.

Section remove.
Context (m : mem) (q : Z) (l : list (Z * Z)) (i : Z).
Hypothesis Hl : lru m q l.
Hypothesis Hlen : Z.of_nat (length l) < 2147483648.

(** the loop stops at the first entry of [i], or at the last entry *)
Definition stopped_at (prev curr : Z) : Prop := exists pre j post, l = pre ++ (curr, j) :: post /\
  prev = tail_addr q pre /\ Forall (fun y => at_index i y = false) pre /\ (at_index i (curr, j) = true \/ post = []).

Lemma lru_search a j0 l' : l = (a, j0) :: l' ->
  wp (while_ (fun '(prev, curr) =>
    j ← index_of curr;
    if j =? i then mret (inr (prev, curr)) else
    next ← Cache.next_of curr;
    if next =? 0 then mret (inr (prev, curr)) else mret (inl (curr, next))) (q, a)) m
    (fun '(prev, curr) m' => m' = m /\ stopped_at prev curr).
Proof.
  intros E.
  apply (wp_while_var (fun n '(prev, curr) m' => m' = m /\ exists pre j post, l = pre ++ (curr, j) :: post /\
    prev = tail_addr q pre /\ Forall (fun y => at_index i y = false) pre /\ n = Z.of_nat (length post))
    (Z.of_nat (length l'))).
  - split; [done|]. exists [], j0, l'. split_and!; try done.
  - rewrite E in Hlen. cbn [length] in Hlen. change (2 ^ 64) with 18446744073709551616. lia.
  - intros n [prev curr] m' (-> & pre & j & post & E' & -> & Hpre & ->) _. wsimpl.
    eapply (lru_index m q l Hl); [exact E'|]. destruct (j =? i) eqn:Hid; wsimpl.
    + split; [done|]. exists pre, j, post. split_and!; try done. by left.
    + replace curr with (tail_addr q (pre ++ [(curr, j)])) at 1 by apply tail_addr_snoc.
      rewrite cons_middle, app_assoc in E'. eapply (lru_next m q l Hl); [exact E'|].
      rewrite (lru_link m q l Hl _ post E'). rewrite <- app_assoc in E'.
      destruct post as [|[c r] post]; wsimpl.
      * split; [done|]. exists pre, j, []. split_and!; try done. by right.
      * exists (Z.of_nat (length post)). cbn [link length]. split; [split; [done|]|lia].
        exists (pre ++ [(curr, j)]), r, post. rewrite tail_addr_snoc, <- app_assoc. split_and!; try done.
        apply Forall_app_2; [done|]. by apply Forall_singleton.
Qed.

Lemma lru_unlink pre c j post n : l = pre ++ (c, j) :: post -> m_nodes m !! tail_addr q pre = Some n ->
  tail_addr q pre <> c /\
  lru (lru_mem (delete c (<[tail_addr q pre := mk_lru (n_index n) (link post)]> (m_nodes m))) (m_next m) m) q (pre ++ post).
Proof.
  intros E Hn. destruct Hl as [Hc Hnd Hq Ha]. rewrite E in Hc, Hnd.
  assert (Hnd' : NoDup ((q :: pre.*1) ++ c :: post.*1)) by by rewrite fmap_app in Hnd.
  pose proof Hnd' as (_ & Hd & [_ Hp]%NoDup_cons)%NoDup_app. split; [|split; [| |done|]].
  - intros E3. apply (Hd c); [|by left]. rewrite <- E3. apply tail_addr_in.
  - cbn [m_nodes lru_mem with_next Cache.with_nodes]. rewrite fmap_delete, fmap_insert.
    apply (chain_unlink _ _ _ _ j _ (n_index n) (Some (n_next n)) Hc Hnd). by rewrite lookup_fmap, Hn.
  - rewrite fmap_app. change (NoDup ((q :: pre.*1) ++ post.*1)). revert Hnd'. rewrite !NoDup_app, (NoDup_cons c).
    intros (? & Hdis & ? & ?). split_and!; try done. intros b Hb Hb2. apply (Hdis b Hb). by right.
  - cbn. intros b [_ Hb]%lookup_delete_is_Some. rewrite lookup_insert_is_Some' in Hb. apply Ha.
    destruct Hb as [<-|Hb]; [by rewrite Hn|done].
Qed.

Lemma lru_remove_spec : wp (Cache.delete_from_queue q i) m (fun _ m' => exists ns,
  m' = lru_mem ns (m_next m) m /\ lru m' q (remove_first (at_index i) l) /\
  (forall a, (a, i) ∈ l -> NoDup l.*2 -> ns !! a = None)).
Proof.
  assert (Hid : m = lru_mem (m_nodes m) (m_next m) m) by by destruct m.
  unfold Cache.delete_from_queue. rewrite (proj2 (Z.eqb_neq q 0) (lr_head _ _ _ Hl)). wsimpl.
  apply (lru_next_head m q l Hl). rewrite (lru_link m q l Hl [] l eq_refl).
  destruct (q_cases l) as [E|(a & p & l' & E)]; rewrite E at 1; wsimpl.
  { exists (m_nodes m). split; [done|]. split; [by rewrite E in *|]. rewrite E. by intros ? ?%elem_of_nil. }
  eapply wp_mono; [rewrite E; by eapply lru_search|].
  intros [prev curr] m' (-> & pre & j & post & E' & -> & Hpre & Hor). wsimpl.
  eapply (lru_index m q l Hl); [exact E'|]. unfold at_index in Hor. cbn in Hor. destruct (j =? i) eqn:Hji.
  2: { wsimpl. exists (m_nodes m). split; [done|]. destruct Hor as [?| ->]; [done|].
    assert (Hall : Forall (fun y => at_index i y = false) l).
    { rewrite E'. apply Forall_app_2; [done|]. by apply Forall_singleton. }
    rewrite remove_first_none by done. split; [exact Hl|]. intros b Hb _.
    rewrite Forall_forall in Hall. specialize (Hall _ Hb). unfold at_index in Hall. cbn in Hall. lia. }
  apply Z.eqb_eq in Hji as ->. rewrite E'. rewrite remove_first_split; [|done|apply Z.eqb_refl].
  assert (E2 : l = (pre ++ [(curr, i)]) ++ post) by by rewrite <- app_assoc.
  wsimpl. replace (Cache.next_of curr) with (Cache.next_of (tail_addr q (pre ++ [(curr, i)]))) by by rewrite tail_addr_snoc.
  eapply (lru_next m q l Hl); [exact E2|]. wsimpl.
  destruct (chain_head _ _ _ (chain_app _ _ pre _ (eq_ind l (chain _ q) (lr_chain _ _ _ Hl) _ E'))) as [t Ht].
  apply to_queue_lookup in Ht as (n & Hn & _). destruct (lru_unlink _ _ _ _ _ E' Hn) as [Hne Hu].
  destruct (chain_dom _ _ _ curr (lr_chain _ _ _ Hl)) as [x Hx].
  { right. rewrite E', fmap_app, elem_of_app. right. by left. }
  destruct x as [xt xn]. apply to_queue_lookup in Hx as (y & Hy & _).
  eapply wp_set_next_lru; [exact Hn|]. unfold Cache.free_node. wsimpl.
  eapply wp_get_lru; [cbn; by rewrite lookup_insert_ne, Hy by done|]. wsimpl.
  exists (delete curr (<[tail_addr q pre := mk_lru (n_index n) (link post)]> (m_nodes m))). split; [done|]. split; [exact Hu|].
  intros b Hb Hnd. replace b with curr; [by rewrite lookup_delete_eq|].
  rewrite fmap_app in Hnd. cbn in Hnd. apply NoDup_app in Hnd as (_ & Hd & [Hnp _]%NoDup_cons).
  apply elem_of_app in Hb as [Hb|[[= ->]|Hb]%elem_of_cons]; [|done|].
  - exfalso. apply (Hd i); [|by left]. by apply (list_elem_of_fmap_2 snd _ (b, i)).
  - exfalso. apply Hnp. by apply (list_elem_of_fmap_2 snd _ (b, i)).
Qed.
End remove.
