(* ===== verification/CacheSpec.v ===== *)
(** * The file cache implements a map from names to files

    [cache_rep m c K F L]: the storage [m] holds the cache [c].  [F] is the map from
    names to files that it stands for, [L] the names in the order of the LRU queue,
    and [K] gives the name at each used index of the hash table, which is open
    addressed with linear probing. *)

From stdpp Require Import base gmap list list_numbers.
From Stdlib Require Import ZArith Lia.
From S2P Require Import Prelude Words QueueSpec Cache LruSpec.
#[local] Open Scope Z_scope.

(** ** The abstract cache *)

Record entry : Type := mk_entry { e_file : Z; e_data : Z; e_size : Z }.

(** the bytes that the files of [L] take *)
Definition size_of (F : gmap (list Z) entry) (name : list Z) : Z := default 0 (e_size <$> F !! name).
Definition used (F : gmap (list Z) entry) (L : list (list Z)) : Z := foldr (fun name n => size_of F name + n) 0 L.

(** the [k]th index that the search for [name] visits *)
Definition slot (c : cache_struct) (name : list Z) (k : Z) : Z := (djb2 name mod table_size c + k) mod table_size c.

(** the storage of a file in the cache *)
Definition file_at (m : mem) (e : entry) (name : list Z) : Prop := exists f d,
  m_files m !! e_file e = Some f /\ f_data f = e_data e /\ m_chars m !! f_key f = Some name /\
  m_datas m !! e_data e = Some d /\ file_size d = e_size e.

Record cache_rep (m : mem) (c : cache_struct) (K : gmap Z (list Z)) (F : gmap (list Z) entry) (L : list (list Z)) : Prop := {
  cr_cache : m_cache m = Some c;
  cr_table : 0 < table_size c < 2147483648;
  cr_slot : forall i name, K !! i = Some name -> 0 <= i < table_size c;
  cr_none : forall i, K !! i = None -> c_table c !! i = None;
  cr_entry : forall i name, K !! i = Some name -> exists e, F !! name = Some e /\ c_table c !! i = Some (e_file e) /\
    e_file e <> 0 /\ file_at m e name;
  cr_index : forall name e, F !! name = Some e -> exists i, K !! i = Some name;
  cr_unique : forall i j name, K !! i = Some name -> K !! j = Some name -> i = j;
  cr_probe : forall i name, K !! i = Some name -> exists k, 0 <= k /\ i = slot c name k /\
    forall k', 0 <= k' < k -> is_Some (K !! slot c name k');
  cr_room : Z.of_nat (size K) < table_size c;
  cr_queue : exists l, lru m (c_queue c) l /\ NoDup l.*2 /\ (forall i, i ∈ l.*2 <-> is_Some (K !! i)) /\
    (fun i => default [] (K !! i)) <$> l.*2 = L;
  cr_used : curr_size c = used F L;
  cr_max : used F L <= max_size c < 2147483648;
  cr_sizes : forall name e, F !! name = Some e -> 0 <= e_size e;
  cr_addr : forall a, is_Some (m_files m !! a) \/ is_Some (m_chars m !! a) \/ is_Some (m_datas m !! a) -> 0 < a < m_next m;
}.

Lemma wp_get_cache m c (P : cache_struct -> mem -> Prop) : m_cache m = Some c -> P c m -> wp get_cache m P.
Proof. intros Hc HP. unfold get_cache. wsimpl. by apply (wp_deref _ c). Qed.

(** ** The search *)

Section search.
Context (m : mem) (c : cache_struct) (K : gmap Z (list Z)) (F : gmap (list Z) entry) (L : list (list Z)).
Hypothesis HR : cache_rep m c K F L.

Lemma slot_range name k : 0 <= slot c name k < table_size c.
Proof. pose proof (cr_table _ _ _ _ _ HR). apply Z.mod_pos_bound. lia. Qed.

Lemma slot_next name k : Z.rem (slot c name k + 1) (table_size c) = slot c name (k + 1).
Proof.
  pose proof (cr_table _ _ _ _ _ HR). pose proof (slot_range name k). rewrite Z.rem_mod_nonneg by lia.
  unfold slot at 1. rewrite Zplus_mod_idemp_l. unfold slot. f_equal. lia.
Qed.

Lemma slot_0 name : slot c name 0 = djb2 name mod table_size c.
Proof. pose proof (cr_table _ _ _ _ _ HR). unfold slot. rewrite Z.add_0_r. apply Z.mod_mod. lia. Qed.

Lemma empty_slot : exists i, 0 <= i < table_size c /\ K !! i = None.
Proof.
  pose proof (cr_table _ _ _ _ _ HR). pose proof (cr_room _ _ _ _ _ HR) as Hroom.
  destruct (decide (Forall (fun i => is_Some (K !! i)) (seqZ 0 (table_size c)))) as [Hall|Hex].
  - assert (Hs : (list_to_set (seqZ 0 (table_size c)) : gset Z) ⊆ dom K).
    { intros i Hi%elem_of_list_to_set. apply elem_of_dom. rewrite Forall_forall in Hall. by apply Hall. }
    apply subseteq_size in Hs. rewrite size_list_to_set, length_seqZ, size_dom in Hs by apply NoDup_seqZ. lia.
  - apply not_Forall_Exists, Exists_exists in Hex as (i & Hi%elem_of_seqZ & Hn); [|apply _].
    exists i. split; [lia|]. by apply eq_None_not_Some.
Qed.

(** an empty index ends the search *)
Lemma empty_step name : exists k, 0 <= k < table_size c /\ K !! slot c name k = None.
Proof.
  destruct empty_slot as (i & Hi & Hn). pose proof (slot_range name 0). rewrite slot_0 in H.
  exists ((i - djb2 name mod table_size c) mod table_size c). split; [apply Z.mod_pos_bound; lia|].
  unfold slot. rewrite Zplus_mod_idemp_r. replace (_ + (i - _)) with i by lia. by rewrite Z.mod_small.
Qed.

Lemma key_at_spec i (P : option (list Z) -> mem -> Prop) : 0 <= i < table_size c -> P (K !! i) m -> wp (key_at i) m P.
Proof.
  intros Hi HP. unfold key_at, table_at. wsimpl. eapply wp_get_cache; [apply HR|].
  rewrite (proj2 (Z.leb_le 0 i)), (proj2 (Z.ltb_lt i _)) by lia. cbn [andb]. wsimpl.
  destruct (K !! i) as [name|] eqn:E.
  - destruct (cr_entry _ _ _ _ _ HR i name E) as (e & _ & Ht & Hne & f & d & Hf & _ & Hk & _). rewrite Ht.
    change (default 0 (Some (e_file e))) with (e_file e).
    rewrite (proj2 (Z.eqb_neq _ 0) Hne). unfold get_file, get_chars. wsimpl. eapply wp_deref; [exact Hf|]. wsimpl.
    eapply wp_deref; [exact Hk|]. by wsimpl.
  - rewrite (cr_none _ _ _ _ _ HR i E). cbn. by wsimpl.
Qed.

(** the first index on the way that is free or has the name *)
Definition found (name : list Z) (k : Z) : Prop := 0 <= k < table_size c /\
  (forall k', 0 <= k' < k -> exists other, K !! slot c name k' = Some other /\ other <> name) /\
  (K !! slot c name k = None \/ K !! slot c name k = Some name).

Lemma probe_spec name (P : Z -> mem -> Prop) : (forall k, found name k -> P (slot c name k) m) ->
  wp (probe name (slot c name 0)) m P.
Proof.
  intros HP. pose proof (cr_table _ _ _ _ _ HR). destruct (empty_step name) as (e & He & Hempty). unfold probe.
  apply (wp_while_var (fun n i m' => m' = m /\ exists k, 0 <= k <= e /\ i = slot c name k /\ n = e - k /\
    (forall k', 0 <= k' < k -> exists other, K !! slot c name k' = Some other /\ other <> name)) e).
  - split; [done|]. exists 0. split_and!; try done; lia.
  - change (2 ^ 64) with 18446744073709551616. lia.
  - intros n i m' (-> & k & Hk & -> & -> & Hbefore) _. wsimpl. apply key_at_spec; [apply slot_range|].
    destruct (K !! slot c name k) as [other|] eqn:E.
    + destruct (decide (other = name)) as [->|Hne]; wsimpl.
      { apply HP. split_and!; [lia|lia|done|by right]. }
      eapply wp_get_cache; [apply HR|]. wsimpl.
      assert (k <> e) by (intros ->; congruence). rewrite slot_next.
      exists (e - (k + 1)). split; [|lia]. split; [done|]. exists (k + 1). split_and!; try done; try lia.
      intros k' Hk'. destruct (decide (k' = k)) as [->|]; [by exists other|]. apply Hbefore. lia.
    + wsimpl. apply HP. split_and!; [lia|lia|done|by left].
Qed.

(** what is found is the index of the name, when it has one *)
Lemma found_index name k : found name k -> forall i, K !! i = Some name -> i = slot c name k.
Proof.
  intros (Hk & Hbefore & Hor) i Hi. destruct (cr_probe _ _ _ _ _ HR i name Hi) as (k0 & Hk0 & -> & Hall).
  destruct (Z.lt_trichotomy k k0) as [Hlt|[->|Hgt]]; [|done|].
  - destruct Hor as [Hn|Hs]; [|by eapply (cr_unique _ _ _ _ _ HR)]. destruct (Hall k ltac:(lia)). congruence.
  - destruct (Hbefore k0 ltac:(lia)) as (other & Ho & Hne). congruence.
Qed.

Lemma found_key name k : found name k -> K !! slot c name k = Some name <-> is_Some (F !! name).
Proof.
  intros Hf. split.
  - intros Hs. destruct (cr_entry _ _ _ _ _ HR _ _ Hs) as (e & -> & _). done.
  - intros [e He]. destruct (cr_index _ _ _ _ _ HR _ _ He) as [i Hi]. by rewrite <- (found_index name k Hf i Hi).
Qed.

Lemma get_index_spec name (P : Z -> mem -> Prop) : P (slot c name 0) m -> wp (get_index name) m P.
Proof. intros HP. unfold get_index. wsimpl. eapply wp_get_cache; [apply HR|]. wsimpl. by rewrite <- slot_0. Qed.

Lemma slot_s32 name k : s32 (slot c name k) = slot c name k.
Proof. pose proof (cr_table _ _ _ _ _ HR). pose proof (slot_range name k). apply s32_small. lia. Qed.

Lemma table_at_spec i name e (P : Z -> mem -> Prop) : K !! i = Some name -> F !! name = Some e ->
  P (e_file e) m -> wp (table_at i) m P.
Proof.
  intros Hi He HP. pose proof (cr_slot _ _ _ _ _ HR _ _ Hi). unfold table_at. wsimpl.
  eapply wp_get_cache; [apply HR|]. rewrite (proj2 (Z.leb_le 0 i)), (proj2 (Z.ltb_lt i _)) by lia. cbn [andb]. wsimpl.
  destruct (cr_entry _ _ _ _ _ HR _ _ Hi) as (e' & He' & -> & _). cbn. congruence.
Qed.

Lemma cache_lookup_spec name (P : Z -> mem -> Prop) : P (default 0 (e_file <$> F !! name)) m ->
  wp (cache_lookup name) m P.
Proof.
  intros HP. unfold cache_lookup. wsimpl. apply get_index_spec. wsimpl. rewrite slot_s32. apply probe_spec.
  intros k Hf. wsimpl. apply key_at_spec; [apply slot_range|]. pose proof (found_key name k Hf) as Hkey.
  destruct (F !! name) as [e|] eqn:E.
  - assert (Hs : K !! slot c name k = Some name) by by apply Hkey. rewrite Hs, decide_True by done.
    by eapply table_at_spec.
  - rewrite decide_False; [by wsimpl|]. intros Hs%Hkey. by destruct Hs.
Qed.
End search.

(** ** Adding a file *)

Lemma lru_frame m m' q l : lru m q l -> m_nodes m' = m_nodes m -> m_next m <= m_next m' -> lru m' q l.
Proof. intros [H1 H2 H3 H4] E Hn. split; rewrite ?E; try done. intros a Ha%H4. lia. Qed.

Lemma queue_length (T : Z) (K : gmap Z (list Z)) l : (forall i name, K !! i = Some name -> 0 <= i < T) -> NoDup l ->
  (forall i, i ∈ l -> is_Some (K !! i)) -> Z.of_nat (length l) <= Z.max 0 T.
Proof.
  intros HK Hnd Hin. assert (Hsub : l ⊆+ seqZ 0 T).
  { apply NoDup_submseteq; [done|]. intros i Hi. destruct (Hin i Hi) as [name Hn]. apply elem_of_seqZ.
    pose proof (HK i name Hn). lia. }
  apply submseteq_length in Hsub. rewrite length_seqZ in Hsub. lia.
Qed.

Lemma used_snoc F L name e : (name ∉ L) -> used (<[name := e]> F) (L ++ [name]) = used F L + e_size e.
Proof.
  intros Hn. induction L as [|x L IH]; unfold used in *; cbn [foldr app].
  - unfold size_of. rewrite lookup_insert_eq. cbn. lia.
  - apply not_elem_of_cons in Hn as [Hx Hn]. rewrite IH by done. unfold size_of at 1. rewrite lookup_insert_ne by done.
    unfold size_of at 2. lia.
Qed.

Lemma used_nonneg F L : (forall name e, F !! name = Some e -> 0 <= e_size e) -> 0 <= used F L.
Proof.
  intros HF. induction L as [|x L IH]; unfold used in *; cbn [foldr]; [lia|]. unfold size_of at 1.
  destruct (F !! x) eqn:E; cbn; [|lia]. specialize (HF _ _ E). lia.
Qed.

Lemma file_at_frame m m' e name : file_at m e name -> (forall a x, m_files m !! a = Some x -> m_files m' !! a = Some x) ->
  (forall a x, m_chars m !! a = Some x -> m_chars m' !! a = Some x) ->
  (forall a x, m_datas m !! a = Some x -> m_datas m' !! a = Some x) -> file_at m' e name.
Proof. intros (f & d & Hf & Ed & Hk & Hd & Es) H1 H2 H3. exists f, d. split_and!; auto. Qed.

Section insert.
Context (m : mem) (c : cache_struct) (K : gmap Z (list Z)) (F : gmap (list Z) entry) (L : list (list Z)).
Hypothesis HR : cache_rep m c K F L.

Lemma names_elem name : name ∈ L <-> is_Some (F !! name).
Proof.
  destruct (cr_queue _ _ _ _ _ HR) as (l & _ & _ & Hdom & <-). split.
  - intros (i & -> & Hi)%list_elem_of_fmap. apply Hdom in Hi as [n Hn]. rewrite Hn. cbn.
    destruct (cr_entry _ _ _ _ _ HR _ _ Hn) as (e & -> & _). done.
  - intros [e He]. destruct (cr_index _ _ _ _ _ HR _ _ He) as [i Hi]. apply list_elem_of_fmap. exists i.
    rewrite Hi. split; [done|]. apply Hdom. by rewrite Hi.
Qed.

Lemma lru_short l : lru m (c_queue c) l -> NoDup l.*2 -> (forall i, i ∈ l.*2 <-> is_Some (K !! i)) ->
  Z.of_nat (length l) < 2147483648.
Proof.
  intros _ Hnd Hdom. pose proof (cr_table _ _ _ _ _ HR).
  pose proof (queue_length (table_size c) K l.*2 (cr_slot _ _ _ _ _ HR) Hnd (fun i => proj1 (Hdom i))) as Hl.
  rewrite length_fmap in Hl. lia.
Qed.

Context (data : Z) (d : file_data) (name : list Z).
Hypothesis Hd : m_datas m !! data = Some d.
Hypothesis Hnew : F !! name = None.
Hypothesis Hsize : 0 <= file_size d.
Hypothesis Hroom : used F L + file_size d <= max_size c.
Hypothesis Hfree : Z.of_nat (size K) + 1 < table_size c.

Lemma next_positive : 0 < m_next m.
Proof. destruct (cr_addr _ _ _ _ _ HR data); [right; right; by rewrite Hd|lia]. Qed.

Section at_slot.
Context (k : Z).
Hypothesis Hk : found c K name k.
Let i := slot c name k.
Definition inserted : entry := mk_entry (m_next m) data (file_size d).
Definition with_file : cache_struct :=
  mk_cache (curr_size c + file_size d) (max_size c) (table_size c) (c_queue c) (<[i := m_next m]> (c_table c)).
(** the storage before the queue is changed *)
Definition file_stored : mem :=
  mk_mem (Some with_file) (<[m_next m := mk_file (m_next m + 1) data 0]> (m_files m)) (m_datas m)
    (<[m_next m + 1 := name]> (m_chars m)) (m_nodes m) (m_next m + 2).

Lemma new_index : K !! i = None.
Proof.
  pose proof Hk as (_ & _ & [Hn|Hs]); [done|].
  apply (found_key m c K F L HR name k Hk) in Hs as [e He]. congruence.
Qed.

Lemma fresh_file a x : m_files m !! a = Some x -> <[m_next m := mk_file (m_next m + 1) data 0]> (m_files m) !! a = Some x.
Proof.
  intros Ha. rewrite lookup_insert_ne; [done|]. intros <-.
  destruct (cr_addr _ _ _ _ _ HR (m_next m)); [left; by rewrite Ha|lia].
Qed.
Lemma fresh_chars a x : m_chars m !! a = Some x -> <[m_next m + 1 := name]> (m_chars m) !! a = Some x.
Proof.
  intros Ha. rewrite lookup_insert_ne; [done|]. intros <-.
  destruct (cr_addr _ _ _ _ _ HR (m_next m + 1)); [right; left; by rewrite Ha|lia].
Qed.

(** the order of the queue *)
Lemma insert_order (l : list (Z * Z)) (n : Z) : NoDup l.*2 -> (forall j, j ∈ l.*2 <-> is_Some (K !! j)) ->
  (fun j => default [] (K !! j)) <$> l.*2 = L ->
  NoDup (l ++ [(n, i)]).*2 /\ (forall j, j ∈ (l ++ [(n, i)]).*2 <-> is_Some (<[i := name]> K !! j)) /\
  (fun j => default [] (<[i := name]> K !! j)) <$> (l ++ [(n, i)]).*2 = L ++ [name].
Proof.
  intros Hnd Hdom HL. pose proof new_index as Hi. rewrite fmap_app. cbn. split_and!.
  - apply NoDup_app. split_and!; [done| |apply NoDup_singleton]. intros j Hj%Hdom ->%list_elem_of_singleton.
    rewrite Hi in Hj. by destruct Hj.
  - intros j. rewrite elem_of_app, list_elem_of_singleton, lookup_insert_is_Some', Hdom. split; intros [?| ?]; auto.
  - rewrite fmap_app. cbn. rewrite lookup_insert_eq. f_equal. rewrite <- HL. apply list_fmap_ext.
    intros x j Hj%list_elem_of_lookup_2%Hdom. cbn. rewrite lookup_insert_ne; [done|]. intros <-. rewrite Hi in Hj.
    by destruct Hj.
Qed.

Lemma insert_rep ns n l : lru m (c_queue c) l -> NoDup l.*2 -> (forall i, i ∈ l.*2 <-> is_Some (K !! i)) ->
  (fun i => default [] (K !! i)) <$> l.*2 = L ->
  let m' := lru_mem ns (m_next file_stored + 1) file_stored in
  lru m' (c_queue c) (l ++ [(n, i)]) ->
  cache_rep m' with_file (<[i := name]> K) (<[name := inserted]> F) (L ++ [name]).
Proof.
  intros Hl Hnd Hdom HL m' Hl'. pose proof new_index as Hi. pose proof (cr_table _ _ _ _ _ HR) as HT.
  pose proof (slot_range m c K F L HR name k) as Hir. fold i in Hir. pose proof next_positive.
  assert (Hne : forall j x, K !! j = Some x -> x <> name).
  { intros j x Hj ->. destruct (cr_entry _ _ _ _ _ HR _ _ Hj) as (e & He & _). congruence. }
  assert (HnL : name ∉ L) by (rewrite names_elem, Hnew; by intros []).
  split.
  - done.
  - exact HT.
  - intros j x. rewrite lookup_insert_Some. intros [[<- <-]|[_ Hj]]; [done|]. by eapply (cr_slot _ _ _ _ _ HR).
  - intros j. rewrite lookup_insert_None. intros [Hj Hji]. cbn. rewrite lookup_insert_ne by done. by apply (cr_none _ _ _ _ _ HR).
  - intros j x. rewrite lookup_insert_Some. intros [[<- <-]|[Hij Hj]].
    + exists inserted. rewrite !lookup_insert_eq. cbn. rewrite lookup_insert_eq. split_and!; [done|done|lia|].
      exists (mk_file (m_next m + 1) data 0), d. cbn. rewrite !lookup_insert_eq. done.
    + destruct (cr_entry _ _ _ _ _ HR _ _ Hj) as (e & He & Ht & He0 & Hf). exists e.
      rewrite lookup_insert_ne by by apply not_eq_sym, (Hne j). cbn. rewrite lookup_insert_ne by done. split_and!; try done.
      eapply file_at_frame; [exact Hf|apply fresh_file|apply fresh_chars|done].
  - intros x e. rewrite lookup_insert_Some. intros [[<- <-]|[Hx He]].
    + exists i. by rewrite lookup_insert_eq.
    + destruct (cr_index _ _ _ _ _ HR _ _ He) as [j Hj]. exists j. rewrite lookup_insert_ne; [done|congruence].
  - intros j1 j2 x. rewrite !lookup_insert_Some. intros [[<- <-]|[H1 H1']] [[<- E]|[H2 H2']]; [done| | |].
    + by destruct (Hne _ _ H2').
    + rewrite <- E in H1'. by destruct (Hne _ _ H1').
    + by eapply (cr_unique _ _ _ _ _ HR).
  - intros j x. rewrite lookup_insert_Some. intros [[<- <-]|[Hij Hj]].
    + pose proof Hk as (Hkr & Hbefore & _). exists k. split_and!; [lia|done|]. intros k' Hk'.
      destruct (Hbefore k' Hk') as (o & Ho & _). apply lookup_insert_is_Some'. right. unfold slot in *. cbn. by rewrite Ho.
    + destruct (cr_probe _ _ _ _ _ HR _ _ Hj) as (k0 & Hk0 & E & Hall). exists k0. split_and!; [done|done|].
      intros k' Hk'. apply lookup_insert_is_Some'. right. by apply Hall.
  - rewrite map_size_insert_None by done. cbn. lia.
  - exists (l ++ [(n, i)]). split; [done|]. by apply insert_order.
  - cbn. rewrite used_snoc by done. cbn. by rewrite (cr_used _ _ _ _ _ HR).
  - rewrite used_snoc by done. cbn. pose proof (cr_max _ _ _ _ _ HR). lia.
  - intros x e. rewrite lookup_insert_Some. intros [[<- <-]|[_ He]]; [done|]. by eapply (cr_sizes _ _ _ _ _ HR).
  - intros a. cbn. rewrite !lookup_insert_is_Some'. pose proof (cr_addr _ _ _ _ _ HR a) as Ha.
    intros [[<-|?]|[[<-|?]|?]]; [lia| |lia| |]; assert (0 < a < m_next m) by (apply Ha; auto); lia.
Qed.
End at_slot.

(** the file is added at the end of the queue, and its structure is new *)
Lemma table_insert_spec : m_chars m !! file_name d = Some name ->
  wp (table_insert data) m (fun r m' => r = m_next m /\ m_datas m' = m_datas m /\
    (forall a x, m_chars m !! a = Some x -> m_chars m' !! a = Some x) /\
    exists c' K', curr_size c' = curr_size c + file_size d /\ max_size c' = max_size c /\ table_size c' = table_size c /\
      size K' = S (size K) /\ cache_rep m' c' K' (<[name := inserted]> F) (L ++ [name])).
Proof.
  intros Hname. pose proof (cr_table _ _ _ _ _ HR). unfold table_insert, get_data, get_chars. wsimpl.
  eapply wp_deref; [exact Hd|]. wsimpl. eapply wp_deref; [exact Hname|]. wsimpl.
  apply (get_index_spec m c K F L HR). wsimpl. apply (probe_spec m c K F L HR). intros k Hk.
  pose proof (slot_range m c K F L HR name k) as Hir. pose proof (cr_used _ _ _ _ _ HR) as Hu.
  pose proof (cr_max _ _ _ _ _ HR) as Hmax. pose proof (used_nonneg F L (cr_sizes _ _ _ _ _ HR)). destruct (cr_queue _ _ _ _ _ HR) as (l & Hl & Hnd & Hdom & HL).
  unfold malloc, put_chars, put_file, table_set, table_at, set_curr_size, put_cache. wsimpl.
  eapply wp_get_cache; [cbn; apply HR|]. rewrite (proj2 (Z.leb_le 0 _)), (proj2 (Z.ltb_lt _ (table_size c))) by lia.
  cbn [andb]. wsimpl. do 2 (eapply wp_get_cache; [cbn; apply HR|]; wsimpl).
  assert (Hp : (m_next m =? 0) = false). { apply Z.eqb_neq. pose proof next_positive. lia. }
  rewrite Hp. do 3 (eapply wp_get_cache; [cbn; reflexivity|]; wsimpl). cbn [curr_size max_size table_size c_queue c_table].
  rewrite (s32_small (curr_size c + file_size d)) by lia.
  match goal with |- wp _ ?s _ => assert (Es : s = file_stored k) end.
  { unfold file_stored, with_file. cbn. replace (m_next m + 1 + 1) with (m_next m + 2) by lia. done. }
  rewrite Es. unfold LRU_add. rewrite (slot_s32 m c K F L HR). wsimpl. eapply wp_get_cache; [reflexivity|]. cbn [c_queue with_file].
  eapply wp_mono; [apply (add_to_front_spec _ _ l)|].
  - eapply lru_frame; [exact Hl|done|cbn; lia].
  - by eapply lru_short.
  - intros [] m' (ns & n & -> & Hl'). wsimpl. pose proof (insert_rep k Hk ns n l Hl Hnd Hdom HL Hl') as Hrep.
    eapply wp_get_cache; [reflexivity|]. cbn [table_size with_file].
    rewrite (proj2 (Z.ltb_lt _ (table_size c))) by lia. wsimpl.
    cbn [c_table with_file]. rewrite lookup_insert_eq. cbn. split_and!; [done|done| |].
    + intros a x. by apply fresh_chars.
    + eexists (with_file k), _. split_and!; [..|exact Hrep]; try done.
      apply map_size_insert_None. by apply new_index.
Qed.
End insert.

(** ** Making room *)

(** what freeing a file leaves alone *)
Lemma free_cache_element_frame m p : wlp (free_cache_element p) m (fun _ m' =>
  m_cache m' = m_cache m /\ m_nodes m' = m_nodes m /\ m_next m' = m_next m).
Proof.
  assert (Hc : forall a s (P : unit -> mem -> Prop), (forall x, P tt (with_chars x s)) -> P tt s -> wlp (free_chars a) s P).
  { intros a s P H1 H2. unfold free_chars, get_chars. destruct (a =? 0); lsimpl; [done|]. apply wlp_deref. intros x _. lsimpl.
    apply H1. }
  unfold free_cache_element, file_data_free, free_data, get_file, get_data. lsimpl. apply wlp_deref. intros f _. lsimpl.
  apply Hc; [intros x|]; lsimpl; apply wlp_deref; intros d _; lsimpl;
    (apply Hc; [intros y|]); lsimpl; (apply Hc; [intros z|]); lsimpl; apply wlp_deref; intros d' _; by lsimpl.
Qed.

Section evict.
Context (m : mem) (c : cache_struct) (K : gmap Z (list Z)) (F : gmap (list Z) entry) (L : list (list Z)).
Hypothesis HR : cache_rep m c K F L.

(** the number of requests that use the file *)
Definition active (e : entry) : option Z := f_active <$> m_files m !! e_file e.

Lemma free_space : s32 (max_size c - curr_size c) = max_size c - used F L.
Proof.
  rewrite (cr_used _ _ _ _ _ HR). pose proof (cr_max _ _ _ _ _ HR).
  pose proof (used_nonneg F L (cr_sizes _ _ _ _ _ HR)). apply s32_small. lia.
Qed.

Lemma evict_room n (P : Z -> mem -> Prop) : n <= max_size c - used F L -> P 1 m -> wp (cache_evict n) m P.
Proof.
  intros Hn HP. pose proof (used_nonneg F L (cr_sizes _ _ _ _ _ HR)). unfold cache_evict. wsimpl.
  eapply wp_get_cache; [apply HR|]. rewrite (proj2 (Z.ltb_ge _ _)) by lia. rewrite free_space, (proj2 (Z.leb_le _ _)) by lia.
  by wsimpl.
Qed.

Lemma evict_too_large n (P : Z -> mem -> Prop) : max_size c < n -> P 0 m -> wp (cache_evict n) m P.
Proof.
  intros Hn HP. unfold cache_evict. wsimpl. eapply wp_get_cache; [apply HR|]. rewrite (proj2 (Z.ltb_lt _ _)) by lia.
  by wsimpl.
Qed.

(** an entry of the queue *)
Lemma queue_entry (l pre : list (Z * Z)) (a i : Z) post : NoDup l.*2 -> (forall i, i ∈ l.*2 <-> is_Some (K !! i)) -> l = pre ++ (a, i) :: post ->
  exists name e f, K !! i = Some name /\ F !! name = Some e /\ e_file e <> 0 /\ m_files m !! e_file e = Some f /\
    file_at m e name.
Proof.
  intros Hnd Hdom E. assert (Hi : i ∈ l.*2).
  { rewrite E, fmap_app. apply elem_of_app. right. by left. }
  apply Hdom in Hi as [name Hn]. destruct (cr_entry _ _ _ _ _ HR _ _ Hn) as (e & He & _ & Hne & Hf).
  pose proof Hf as (f & d & Hfile & _). by exists name, e, f.
Qed.

(** while all files are in use nothing is evicted *)
Lemma evict_busy n (P : Z -> mem -> Prop) : max_size c - used F L < n ->
  (forall name e, F !! name = Some e -> active e <> Some 0) -> P 0 m -> wp (cache_evict n) m P.
Proof.
  intros Hn Hact HP. pose proof (cr_table _ _ _ _ _ HR). unfold cache_evict. wsimpl. eapply wp_get_cache; [apply HR|].
  destruct (max_size c <? n); [by wsimpl|]. rewrite free_space, (proj2 (Z.leb_gt _ _)) by lia. wsimpl.
  destruct (cr_queue _ _ _ _ _ HR) as (l & Hl & Hnd & Hdom & _). pose proof (lru_short m c K F L HR l Hl Hnd Hdom) as Hlen.
  eapply lru_next_head; [exact Hl|]. rewrite (lru_link _ _ _ Hl [] l eq_refl).
  assert (HP' : wp (LRU_delete n) m P); [|destruct l; by wsimpl]. unfold LRU_delete. wsimpl.
  eapply wp_get_cache; [apply HR|]. wsimpl. eapply lru_next_head; [exact Hl|]. wsimpl.
  apply (wp_while_var (fun v curr m' => m' = m /\ exists pre post, l = pre ++ post /\ curr = link post /\
    v = Z.of_nat (length post)) (Z.of_nat (length l))).
  - split; [done|]. by exists [], l.
  - change (2 ^ 64) with 18446744073709551616. lia.
  - intros v curr m' (-> & pre & post & E & -> & ->) _. wsimpl. eapply wp_get_cache; [apply HR|].
    rewrite free_space, (proj2 (Z.ltb_lt _ _)), (lru_link m _ l Hl pre post E) by lia.
    destruct post as [|[a i] post]; cbn [negb andb]; wsimpl.
    + eapply wp_get_cache; [apply HR|]. rewrite free_space, (proj2 (Z.leb_gt _ _)) by lia. by wsimpl.
    + destruct (queue_entry l pre a i post Hnd Hdom E) as (name & e & f & Hi & He & Hne & Hf & _).
      eapply (lru_index m _ l Hl); [exact E|]. wsimpl. eapply (table_at_spec m c K F L HR); [exact Hi|exact He|].
      rewrite (proj2 (Z.eqb_neq _ 0) Hne). unfold get_file. wsimpl. eapply wp_deref; [exact Hf|]. wsimpl.
      assert (Ha : (f_active f =? 0) = false).
      { apply Z.eqb_neq. intros E0. apply (Hact _ _ He). unfold active. rewrite Hf. cbn. by rewrite E0. }
      rewrite Ha. wsimpl. cbn [link].
      replace (Cache.next_of a) with (Cache.next_of (tail_addr (c_queue c) (pre ++ [(a, i)]))) by by rewrite tail_addr_snoc.
      eapply (lru_next m _ l Hl _ post); [by rewrite <- app_assoc|]. wsimpl. exists (Z.of_nat (length post)).
      cbn [length]. split; [|lia]. split; [done|]. exists (pre ++ [(a, i)]), post. by rewrite <- app_assoc.
Qed.

(** evicting a file frees its node *)
Lemma evict_step l pre a i post p : lru m (c_queue c) l -> NoDup l.*2 -> l = pre ++ (a, i) :: post ->
  Z.of_nat (length l) < 2147483648 ->
  wlp (f ← get_file p;
       d ← get_data (f_data f);
       set_curr_size (curr_size c - file_size d);;
       free_cache_element p;;
       table_set i 0;;
       Cache.delete_from_queue (c_queue c) i) m (fun _ m' => m_nodes m' !! a = None).
Proof.
  intros Hl Hnd E Hlen. unfold get_file at 1, get_data at 1, set_curr_size, put_cache, get_cache. lsimpl.
  apply wlp_deref. intros f _. lsimpl. apply wlp_deref. intros d _. lsimpl.
  apply wlp_deref. intros c1 _. lsimpl. apply wlp_deref. intros c2 _. lsimpl.
  eapply wlp_mono; [apply free_cache_element_frame|]. cbn. intros [] m1 (_ & Hn1 & Hx1). lsimpl.
  unfold table_set, table_at, put_cache, get_cache. lsimpl. apply wlp_deref. intros c3 _. lsimpl.
  destruct (_ && _); lsimpl. apply wlp_deref. intros c4 _. lsimpl. apply wlp_deref. intros c5 _. lsimpl.
  apply wp_wlp. eapply wp_mono; [apply (lru_remove_spec _ _ l); [|done]|].
  - eapply lru_frame; [exact Hl|done|cbn; lia].
  - intros [] m' (ns & -> & _ & Hfreed). apply Hfreed; [|done]. rewrite E. apply elem_of_app. right. by left.
Qed.

(** with a file that is not in use, eviction starts, and [LRU_delete] goes on from
    the node that it freed *)
Lemma evict_stuck n name e : max_size c - used F L < n <= max_size c -> F !! name = Some e -> active e = Some 0 ->
  wlp (cache_evict n) m (fun _ _ => False).
Proof.
  intros Hn He Hact. pose proof (cr_table _ _ _ _ _ HR).
  destruct (cr_queue _ _ _ _ _ HR) as (l & Hl & Hnd & Hdom & _). pose proof (lru_short m c K F L HR l Hl Hnd Hdom) as Hlen.
  destruct (cr_index _ _ _ _ _ HR _ _ He) as [i Hi].
  assert (Hil : exists pre a post, l = pre ++ (a, i) :: post).
  { assert (Hi2 : i ∈ l.*2) by (apply Hdom; by rewrite Hi).
    apply list_elem_of_fmap in Hi2 as ([a j] & -> & Ha). apply list_elem_of_split in Ha as (pre & post & ->). eauto. }
  destruct Hil as (pre & a & post & E). unfold cache_evict. apply wlp_bind_wp. eapply wp_get_cache; [apply HR|].
  rewrite (proj2 (Z.ltb_ge _ _)), free_space, (proj2 (Z.leb_gt _ _)) by lia. apply wlp_bind_wp.
  eapply lru_next_head; [exact Hl|]. rewrite (lru_link _ _ _ Hl [] l eq_refl).
  destruct l as [|x l'] eqn:El; [by destruct pre|]. rewrite <- El in *. clear x l' El. unfold LRU_delete.
  apply wlp_bind_wp. eapply wp_get_cache; [apply HR|]. apply wlp_bind_wp. eapply lru_next_head; [exact Hl|].
  apply wlp_bind. apply (wlp_while (fun curr m' => m' = m /\ exists pre1 pre2, l = pre1 ++ pre2 ++ (a, i) :: post /\
    curr = link (pre2 ++ (a, i) :: post))).
  - split; [done|]. exists [], pre. by rewrite <- E.
  - intros curr m' (-> & pre1 & pre2 & E2 & ->). apply wlp_bind_wp. eapply wp_get_cache; [apply HR|].
    rewrite free_space, (proj2 (Z.ltb_lt _ _)), (lru_link m _ l Hl pre1 _ E2) by lia.
    assert (Hb : exists b j rest, pre2 ++ (a, i) :: post = (b, j) :: rest /\
      (j <> i -> exists pre3, pre2 = (b, j) :: pre3)).
    { destruct pre2 as [|[b j] pre3]; [by exists a, i, post|]. exists b, j, (pre3 ++ (a, i) :: post). split; [done|].
      by exists pre3. }
    destruct Hb as (b & j & rest & Eb & Hpre3). rewrite Eb in E2 |- *. cbn [negb andb link].
    destruct (queue_entry l pre1 b j rest Hnd Hdom E2) as (x & ex & f & Hj & Hx & Hne & Hf & _).
    apply wlp_bind_wp. eapply (lru_index m _ l Hl); [exact E2|].
    apply wlp_bind_wp. eapply (table_at_spec m c K F L HR); [exact Hj|exact Hx|].
    rewrite (proj2 (Z.eqb_neq _ 0) Hne). apply wlp_bind_wp. unfold get_file at 1. wsimpl. eapply wp_deref; [exact Hf|].
    wsimpl. apply wlp_bind. destruct (f_active f =? 0) eqn:Ea.
    + eapply wlp_mono; [apply (evict_step l pre1 b j rest); done|]. cbn. intros [] m' Hfreed. lsimpl.
      unfold Cache.next_of, Cache.get_node. lsimpl. apply wlp_deref. intros y Hy. congruence.
    + lsimpl. destruct Hpre3 as [pre3 ->].
      { intros ->. rewrite Hi in Hj. injection Hj as ->. rewrite He in Hx. injection Hx as ->. unfold active in Hact.
        rewrite Hf in Hact. cbn in Hact. injection Hact as Hact. lia. }
      cbn in Eb. injection Eb as <-. apply wp_wlp.
      replace (Cache.next_of b) with (Cache.next_of (tail_addr (c_queue c) (pre1 ++ [(b, j)]))) by by rewrite tail_addr_snoc.
      eapply (lru_next m _ l Hl _ (pre3 ++ (a, i) :: post)); [by rewrite <- app_assoc|]. lsimpl. split; [done|].
      exists (pre1 ++ [(b, j)]), pre3. by rewrite <- app_assoc.
Qed.
End evict.

(** ** Inserting *)

Section cache_insert.
Context (m : mem) (c : cache_struct) (K : gmap Z (list Z)) (F : gmap (list Z) entry) (L : list (list Z)).
Context (data : Z) (d : file_data) (name : list Z).
Hypothesis HR : cache_rep m c K F L.
Hypothesis Hd : m_datas m !! data = Some d.
Hypothesis Hname : m_chars m !! file_name d = Some name.

Lemma file_nonzero e : F !! name = Some e -> e_file e <> 0.
Proof.
  intros He. destruct (cr_index _ _ _ _ _ HR _ _ He) as [i Hi].
  destruct (cr_entry _ _ _ _ _ HR _ _ Hi) as (e' & He' & _ & Hne & _). congruence.
Qed.

(** the file is there already *)
Lemma insert_old e (P : Z -> mem -> Prop) : F !! name = Some e -> P (e_file e) m -> wp (cache_insert data) m P.
Proof.
  intros He HP. unfold cache_insert, get_data, get_chars. wsimpl. eapply wp_deref; [exact Hd|]. wsimpl.
  eapply wp_deref; [exact Hname|]. wsimpl. apply (cache_lookup_spec m c K F L HR). rewrite He.
  change (default 0 (e_file <$> Some e)) with (e_file e). rewrite (proj2 (Z.eqb_neq _ 0) (file_nonzero e He)). cbn [negb].
  apply (cache_lookup_spec m c K F L HR). by rewrite He.
Qed.

(** otherwise it depends on the room that [cache_evict] finds *)
Lemma insert_new : F !! name = None -> cache_insert data m =
  (room ← cache_evict (file_size d); if room =? 1 then table_insert data else mret 0) m.
Proof.
  intros Hnew. pose proof (cache_lookup_spec m c K F L HR name (fun r m' => r = 0 /\ m' = m)) as Hlook. rewrite Hnew in Hlook.
  specialize (Hlook (conj eq_refl eq_refl)). apply wp_inv in Hlook as (r & m' & E & -> & ->).
  unfold cache_insert, get_data, get_chars, mbind, M_bind, get. rewrite Hd. cbn. rewrite Hname. cbn. by rewrite E.
Qed.
End cache_insert.

(** ** Touching a file *)

(** [name] becomes the most recently used one *)
Definition touch (name : list Z) (L : list (list Z)) : list (list Z) := filter (fun x => x <> name) L ++ [name].

#[export] Instance used_perm F : Proper ((≡ₚ) ==> eq) (used F).
Proof. intros L L' H. unfold used. induction H; cbn [foldr]; lia. Qed.

Section touch.
Context (m : mem) (c : cache_struct) (K : gmap Z (list Z)) (F : gmap (list Z) entry) (L : list (list Z)).
Hypothesis HR : cache_rep m c K F L.

(** only the queue changes *)
Lemma cache_rep_queue ns na l L' : m_next m <= na -> lru (lru_mem ns na m) (c_queue c) l -> NoDup l.*2 ->
  (forall i, i ∈ l.*2 <-> is_Some (K !! i)) -> (fun i => default [] (K !! i)) <$> l.*2 = L' -> L' ≡ₚ L ->
  cache_rep (lru_mem ns na m) c K F L'.
Proof.
  intros Hna Hl Hnd Hdom HL HP. destruct HR. split; try done.
  - by exists l.
  - by rewrite HP.
  - by rewrite HP.
  - intros a Ha. cbn in *. specialize (cr_addr0 a Ha). lia.
Qed.

Lemma touch_names (f : Z -> list Z) pre i post : (f i ∉ f <$> pre) -> (f i ∉ f <$> post) ->
  touch (f i) (f <$> pre ++ i :: post) = f <$> (pre ++ post) ++ [i].
Proof.
  intros H1 H2. assert (Hf : forall l : list Z, (f i ∉ f <$> l) -> filter (fun x => x <> f i) (f <$> l) = f <$> l).
  { intros l Hn. induction l as [|x l IH]; [done|]. cbn in Hn. apply not_elem_of_cons in Hn as [Hx Hn].
    cbn [fmap list_fmap]. rewrite filter_cons_True by (intros E; by apply Hx). by rewrite IH. }
  unfold touch. rewrite !fmap_app, fmap_cons, filter_app, filter_cons_False by (intros Hd; by apply Hd).
  by rewrite !Hf.
Qed.

Lemma LRU_update_spec i name : K !! i = Some name ->
  wp (LRU_update i) m (fun _ m' => exists ns na, m' = lru_mem ns na m /\ cache_rep m' c K F (touch name L)).
Proof.
  intros Hi. destruct (cr_queue _ _ _ _ _ HR) as (l & Hl & Hnd & Hdom & HL).
  pose proof (lru_short m c K F L HR l Hl Hnd Hdom) as Hlen.
  assert (Hil : i ∈ l.*2) by (apply Hdom; by rewrite Hi).
  apply list_elem_of_fmap in Hil as ([a j] & Ej & Ha). cbn in Ej. subst j.
  apply list_elem_of_split in Ha as (pre & post & E).
  assert (Hnd2 : (i ∉ pre.*2) /\ (i ∉ post.*2) /\ NoDup (pre.*2 ++ post.*2)).
  { rewrite E, fmap_app in Hnd. cbn in Hnd. rewrite <- Permutation_middle in Hnd.
    apply NoDup_cons in Hnd as [[? ?]%not_elem_of_app ?]. done. }
  destruct Hnd2 as (Hpre & Hpost & Hnd2).
  assert (Hrm : remove_first (at_index i) l = pre ++ post).
  { rewrite E. apply remove_first_split; [|by apply Z.eqb_refl]. apply Forall_forall. intros [b j] Hb. unfold at_index. cbn.
    apply Z.eqb_neq. intros ->. apply Hpre. by apply (list_elem_of_fmap_2 snd _ (b, i)). }
  unfold LRU_update. wsimpl. eapply wp_get_cache; [apply HR|]. wsimpl.
  eapply wp_mono; [by apply (lru_remove_spec m (c_queue c) l i)|]. intros [] m1 (ns & -> & Hl1 & _). rewrite Hrm in Hl1.
  eapply wp_mono; [apply (add_to_end_spec _ _ _ i Hl1)|].
  { rewrite E, !length_app in *. cbn in *. lia. }
  intros [] m2 (ns2 & n & -> & Hl2). exists ns2, (m_next m + 1). split; [done|]. cbn in Hl2.
  set (f := fun i => default [] (K !! i)). assert (Hfi : f i = name) by (unfold f; by rewrite Hi).
  assert (Hinj : forall l' : list (Z * Z), (forall x, x ∈ l' -> x ∈ l) -> (i ∉ l'.*2) -> f i ∉ f <$> l'.*2).
  { intros l' Hsub Hn Hin. apply list_elem_of_fmap in Hin as (j & Ej & Hj). rewrite Hfi in Ej.
    assert (Hjl : j ∈ l.*2).
    { apply list_elem_of_fmap in Hj as (x & -> & Hx). by apply list_elem_of_fmap_2, Hsub. }
    apply Hdom in Hjl as [x Hx]. unfold f in Ej. rewrite Hx in Ej. cbn in Ej. subst x. apply Hn.
    by rewrite (cr_unique _ _ _ _ _ HR _ _ _ Hi Hx). }
  assert (Ht : touch name L = f <$> ((pre ++ post) ++ [(n, i)]).*2).
  { rewrite <- HL, E, <- Hfi, (fmap_app snd). cbn [fmap list_fmap snd].
    rewrite touch_names; [by rewrite !(fmap_app snd)|apply Hinj; [|done]..].
    - intros x Hx. rewrite E. apply elem_of_app. by left.
    - intros x Hx. rewrite E. apply elem_of_app. right. by right. }
  apply (cache_rep_queue ns2 (m_next m + 1) ((pre ++ post) ++ [(n, i)])); [lia|exact Hl2| | |by rewrite Ht|].
  - rewrite !fmap_app. apply NoDup_app. split_and!; [done| |apply NoDup_singleton].
    intros j Hj ->%list_elem_of_singleton. apply elem_of_app in Hj as [?| ?]; done.
  - intros j. rewrite <- Hdom, E, !fmap_app, !elem_of_app. cbn. rewrite !elem_of_cons, elem_of_nil. tauto.
  - rewrite Ht, <- HL, E. apply Permutation_map. rewrite !fmap_app. cbn. by rewrite <- !Permutation_middle, app_nil_r.
Qed.
End touch.
