(* ===== verification/RioSpec.v ===== *)
(** * Robust I/O is independent of how the system splits the data

    [bytes answers] is all that a descriptor delivers.  Reading it in pieces, with
    interrupted calls in between, gives the same bytes; so the functions of Rio.v
    refine functions on lists of bytes. *)

From stdpp Require Import base list.
From Stdlib Require Import ZArith Lia.
From S2P Require Import Prelude Words Rio.
#[local] Open Scope Z_scope.

(** ** Reading *)

Fixpoint bytes (l : list read_answer) : list Z :=
  match l with
  | [] => []
  | Data x :: l' => x ++ bytes l'
  | _ :: l' => bytes l'
  end.

(** no call fails, and no call answers with the end of the file before the end *)
Definition clean_answer (a : read_answer) : Prop :=
  match a with Data x => x <> [] | Read_eintr => True | Read_error => False end.
Definition clean (l : list read_answer) : Prop := Forall clean_answer l.

(** a bound on the number of calls *)
Definition weight (l : list read_answer) : Z := Z.of_nat (length l) + zlen (bytes l).

Lemma weight_nonneg l : 0 <= weight l.
Proof. unfold weight. pose proof (zlen_nonneg (bytes l)). lia. Qed.

Lemma sys_read_spec n l : 0 < n -> clean l -> wp (sys_read n) l (fun r l' => clean l' /\
  match r with
  | Got [] => bytes l = [] /\ bytes l' = [] /\ weight l' <= weight l
  | Got x => bytes l = x ++ bytes l' /\ zlen x <= n /\ weight l' < weight l
  | Failed eintr => eintr = true /\ bytes l' = bytes l /\ weight l' < weight l
  end).
Proof.
  intros Hn Hl. unfold sys_read, weight. wsimpl. destruct Hl as [|[x| |] l Hx Hl].
  - wsimpl. split; [constructor|]. done.
  - destruct (Z.leb_spec (zlen x) n) as [Hle|Hgt]; wsimpl.
    + split; [done|]. destruct x as [|y x]; [done|]. cbn [bytes length]. rewrite zlen_app, zlen_cons in *.
      pose proof (zlen_nonneg x). split_and!; try done. lia.
    + assert (Hsplit : x = take (Z.to_nat n) x ++ drop (Z.to_nat n) x) by by rewrite take_drop.
      assert (Ht : zlen (take (Z.to_nat n) x) = n) by (rewrite !zlen_length in *; rewrite length_take; lia).
      assert (Hd : zlen (drop (Z.to_nat n) x) = zlen x - n) by (rewrite !zlen_length in *; rewrite length_drop; lia).
      split.
      * constructor; [|done]. cbn. intros E. rewrite E, zlen_nil in Hd. lia.
      * remember (take (Z.to_nat n) x) as y eqn:Ey. remember (drop (Z.to_nat n) x) as z eqn:Ez. subst x.
        destruct y as [|b y]; [rewrite zlen_nil in Ht; lia|]. cbn [bytes length]. rewrite !zlen_app in *. rewrite <- app_assoc.
        split_and!; [done|lia|lia].
  - wsimpl. split; [done|]. split_and!; [done|done|]. cbn [bytes length]. lia.
  - by destruct Hx.
Qed.

(** the first [n] bytes, or all when there are fewer *)
Lemma rio_read_spec n l : 0 <= n -> clean l -> weight l < 18446744073709551616 -> wp (rio_read n) l (fun r l' =>
  r = Some (take (Z.to_nat n) (bytes l)) /\ bytes l' = drop (Z.to_nat n) (bytes l) /\ clean l').
Proof.
  intros Hn Hl Hw. pose proof (weight_nonneg l). unfold rio_read.
  apply (wp_while_var (fun v '(nleft, got) l' => clean l' /\ v = weight l' /\ 0 <= nleft /\
    take (Z.to_nat n) (bytes l) = got ++ take (Z.to_nat nleft) (bytes l') /\
    drop (Z.to_nat n) (bytes l) = drop (Z.to_nat nleft) (bytes l')) (weight l)).
  - by split_and!.
  - change (2 ^ 64) with 18446744073709551616. lia.
  - clear Hl. intros v [nleft got] l' (Hl & -> & Hnl & Ht & Hd) _. destruct (Z.leb_spec nleft 0) as [H0|H0]; wsimpl.
    { replace nleft with 0 in * by lia. rewrite app_nil_r in Ht. by rewrite Ht, Hd. }
    eapply wp_mono; [apply sys_read_spec; [lia|done]|]. intros [x|e] l2 [Hl2 Hr].
    + destruct x as [|y x]; wsimpl.
      * destruct Hr as (E & E2 & _). rewrite E, take_nil, app_nil_r in Ht. rewrite E, drop_nil in Hd. by rewrite Ht, Hd, E2.
      * destruct Hr as (E & Hx & Hw2). exists (weight l2). pose proof (weight_nonneg l2). split; [|lia]. rewrite E in Ht, Hd.
        assert (Hlen : (length (y :: x) <= Z.to_nat nleft)%nat) by (rewrite zlen_length in Hx; lia).
        replace (Z.to_nat (nleft - zlen (y :: x))) with (Z.to_nat nleft - length (y :: x))%nat by (rewrite zlen_length; lia).
        split_and!; [done|done|rewrite zlen_length; lia| |].
        -- rewrite Ht, take_app, (take_ge (y :: x)) by lia. by rewrite app_assoc.
        -- rewrite Hd, drop_app, (drop_ge (y :: x)) by lia. done.
    + destruct Hr as (-> & E & Hw2). wsimpl. exists (weight l2). pose proof (weight_nonneg l2). split; [|lia].
      rewrite E. by split_and!.
Qed.

(** ** Writing *)

Definition accepting (l : list write_answer) : Prop := Forall (fun a => a <> Write_error) l.

Lemma rio_write_spec x s : accepting (answers s) -> zlen x + Z.of_nat (length (answers s)) < 18446744073709551616 ->
  wp (rio_write x) s (fun r s' => r = Some (zlen x) /\ written s' = written s ++ x /\ accepting (answers s') /\
    (length (answers s') <= length (answers s))%nat).
Proof.
  intros Hs Hw. unfold rio_write. pose proof (zlen_nonneg x).
  apply (wp_while_var (fun v '(nleft, rest) s' => accepting (answers s') /\ nleft = zlen rest /\
    written s ++ x = written s' ++ rest /\ (length (answers s') <= length (answers s))%nat /\ v = zlen rest + Z.of_nat (length (answers s')))
    (zlen x + Z.of_nat (length (answers s)))).
  - by split_and!.
  - change (2 ^ 64) with 18446744073709551616. lia.
  - clear Hs. intros v [nleft rest] s' (Hs & -> & Hx & Hlen & ->) _. pose proof (zlen_nonneg rest).
    destruct (Z.leb_spec (zlen rest) 0) as [Hz|Hz]; wsimpl.
    { destruct rest as [|y rest]; [|rewrite zlen_cons in Hz; pose proof (zlen_nonneg rest); lia].
      by rewrite app_nil_r in Hx. }
    unfold sys_write. wsimpl. destruct s' as [w [|[k| |] l]]; cbn in *; wsimpl; cbn.
    + assert (Hd : drop (Z.to_nat (zlen rest)) rest = []) by (rewrite zlen_length, Nat2Z.id; apply drop_all).
      exists 0. split; [|lia]. replace (zlen rest - zlen rest) with 0 by lia. rewrite Hd, zlen_nil.
      split_and!; [constructor|done|by rewrite app_nil_r|lia|done].
    + apply Forall_cons in Hs as [_ Hs]. set (k' := Z.max 1 (Z.min k (zlen rest))).
      assert (Hk : 1 <= k' <= zlen rest) by lia. clearbody k'.
      exists (zlen (drop (Z.to_nat k') rest) + Z.of_nat (length l)). pose proof (zlen_nonneg (drop (Z.to_nat k') rest)).
      assert (Hd : zlen (drop (Z.to_nat k') rest) = zlen rest - k') by (rewrite !zlen_length in *; rewrite length_drop; lia).
      split; [|lia]. split_and!; [done|by rewrite Hd| |lia|done]. by rewrite Hx, <- app_assoc, take_drop.
    + apply Forall_cons in Hs as [_ Hs]. exists (zlen rest + Z.of_nat (length l)). split; [split_and!; try done; lia|lia].
    + apply Forall_cons in Hs as [Hs _]. done.
Qed.

(** ** Reading lines *)

(** what is still to be read *)
Definition unread (r : rio) : list Z := if rio_cnt r <=? 0 then [] else zsub (rio_buf r) (rio_bufptr r) (rio_cnt r).
Definition pending (s : source) : list Z := unread (src_rio s) ++ bytes (src_answers s).

Record good (s : source) : Prop := {
  gd_clean : clean (src_answers s);
  gd_weight : weight (src_answers s) < 18446744073709551616;
  gd_buf : 0 < rio_cnt (src_rio s) -> in_buf (rio_buf (src_rio s)) (rio_bufptr (src_rio s)) (rio_cnt (src_rio s)) = true;
}.

(** the buffer is filled, unless the end is reached *)
Lemma rio_refill s : good s -> wp (while_ (fun _ : unit =>
    s ← get;
    if 0 <? rio_cnt (src_rio s) then mret (inr (Some true)) else
    r ← source_read RIO_BUFSIZE;
    match r with
    | Failed eintr =>
        modify (fun s => with_rio (mk_rio (-1) (rio_bufptr (src_rio s)) (rio_buf (src_rio s))) s);;
        (if (eintr : bool) then mret (inl tt) else mret (inr None))
    | Got [] =>
        modify (fun s => with_rio (mk_rio 0 (rio_bufptr (src_rio s)) (rio_buf (src_rio s))) s);; mret (inr (Some false))
    | Got l => modify (with_rio (mk_rio (zlen l) 0 l));; mret (inl tt)
    end) tt) s (fun r s' => good s' /\ pending s' = pending s /\
      ((r = Some true /\ 0 < rio_cnt (src_rio s')) \/ (r = Some false /\ pending s = []))).
Proof.
  intros Hs. pose proof (weight_nonneg (src_answers s)).
  apply (wp_while_var (fun n _ s' => good s' /\ pending s' = pending s /\ n = weight (src_answers s')) (weight (src_answers s))).
  - done.
  - change (2 ^ 64) with 18446744073709551616. destruct Hs. lia.
  - intros n [] s' (Hs' & Hp & ->) _. wsimpl. destruct (Z.ltb_spec 0 (rio_cnt (src_rio s'))) as [Hc|Hc]; wsimpl.
    { split; [done|]. split; [done|by left]. }
    assert (Hu : unread (src_rio s') = []) by (unfold unread; by rewrite (proj2 (Z.leb_le _ _)) by lia).
    unfold source_read. apply wp_zoom. destruct Hs' as [Hcl Hw Hb].
    assert (H8 : 0 < RIO_BUFSIZE) by done. eapply wp_mono; [by apply sys_read_spec|]. intros [x|e] l2 [Hl2 Hr].
    + destruct x as [|y x]; wsimpl.
      * destruct Hr as (E & E2 & Hw2). split.
        { split; cbn; [done|lia|lia]. }
        assert (Hp0 : pending s' = []) by (unfold pending; by rewrite Hu, E).
        split; [|right; split; [done|by rewrite <- Hp]]. rewrite <- Hp, Hp0. unfold pending, unread. cbn. done.
      * destruct Hr as (E & Hx & Hw2). exists (weight l2). pose proof (weight_nonneg l2). split; [|lia].
        pose proof (zlen_nonneg x). split; [|split; [|done]].
        { split; cbn; [done|lia|]. intros _. apply in_buf_true; rewrite zlen_cons in *; lia. }
        rewrite <- Hp. unfold pending at 2. rewrite Hu, E. unfold pending, unread.
        cbn [src_rio src_answers with_rio rio_cnt rio_buf rio_bufptr].
        rewrite (proj2 (Z.leb_gt _ _)) by (rewrite zlen_cons in *; lia). by rewrite zsub_all.
    + destruct Hr as (-> & E & Hw2). wsimpl. exists (weight l2). pose proof (weight_nonneg l2). split; [|lia].
      split; [|split; [|done]].
      { split; cbn; [done|lia|lia]. }
      rewrite <- Hp. unfold pending. rewrite Hu. cbn. by rewrite E.
Qed.

(** one byte *)
Lemma rio_readb_1 s : good s -> wp (rio_readb 1) s (fun r s' => good s' /\
  match pending s with
  | [] => r = Some [] /\ pending s' = []
  | x :: rest => r = Some [x] /\ pending s' = rest
  end).
Proof.
  intros Hs. unfold rio_readb. wsimpl. eapply wp_mono; [by apply rio_refill|].
  intros r s' (Hs' & Hp & [[-> Hc]|[-> Hp0]]); wsimpl; [|by rewrite Hp0 in *].
  assert (Hif : (if rio_cnt (src_rio s') <? 1 then rio_cnt (src_rio s') else 1) = 1).
  { by rewrite (proj2 (Z.ltb_ge _ _)) by lia. }
  rewrite Hif. destruct Hs' as [Hcl Hw Hb]. specialize (Hb Hc). apply in_buf_spec in Hb. destruct Hb as (H0 & _ & Hb).
  set (b := rio_buf (src_rio s')) in *. set (p := rio_bufptr (src_rio s')) in *. set (cnt := rio_cnt (src_rio s')) in *.
  apply wp_buf_read; [lia|lia|lia|]. wsimpl.
  assert (Hz : zsub b p cnt = byte_at b p :: zsub b (p + 1) (cnt - 1)) by (apply zsub_cons; lia).
  assert (Hu : pending s' = byte_at b p :: zsub b (p + 1) (cnt - 1) ++ bytes (src_answers s')).
  { unfold pending, unread. fold b p cnt. by rewrite (proj2 (Z.leb_gt _ _)), Hz by lia. }
  rewrite <- Hp, Hu. split; [|split].
  - split; [done|done|]. cbn. intros Hc2. apply in_buf_true; lia.
  - rewrite zsub_cons by lia. done.
  - unfold pending, unread. cbn [src_rio src_answers with_rio rio_cnt rio_buf rio_bufptr]. fold cnt b p.
    destruct (Z.leb_spec (cnt - 1) 0) as [Hz0|]; [|done]. replace (cnt - 1) with 0 by lia. done.
Qed.

(** the first line of at most [n] bytes, with its line end *)
Fixpoint first_line (n : nat) (l : list Z) : list Z :=
  match n, l with
  | S n', x :: l' => if x =? 10 then [x] else x :: first_line n' l'
  | _, _ => []
  end.

Lemma first_line_length n l : (length (first_line n l) <= n)%nat.
Proof.
  revert l. induction n as [|n IH]; intros [|x l]; cbn; [lia..|]. destruct (x =? 10); cbn; [lia|]. specialize (IH l). lia.
Qed.

(** the loop collects the first line *)
Lemma collect_line maxlen s : good s -> 0 < maxlen < 2147483648 -> wp (while_ (fun line =>
    if maxlen <=? zlen line then mret (inr (Some (Some line))) else
    c ← rio_readb 1;
    match c with
    | None => mret (inr None)
    | Some [] => if zlen line =? 0 then mret (inr (Some None)) else mret (inr (Some (Some line)))
    | Some (c :: _) =>
        if maxlen <=? zlen line then stop Undefined else
        if c =? 10 then mret (inr (Some (Some (line ++ [c])))) else mret (inl (line ++ [c]))
    end) []) s (fun r s' => let line := first_line (Z.to_nat maxlen) (pending s) in
      r = Some (match pending s with [] => None | _ => Some line end) /\ good s' /\
      pending s' = drop (length line) (pending s)).
Proof.
  intros Hs Hm. set (all := first_line (Z.to_nat maxlen) (pending s)). cbv zeta.
  apply (wp_while_var (fun v line s' => good s' /\ 0 <= v /\ v = maxlen - zlen line /\
    all = line ++ first_line (Z.to_nat v) (pending s') /\ pending s = line ++ pending s') maxlen).
  - split_and!; [done|lia|rewrite zlen_nil; lia|done|done].
  - change (2 ^ 64) with 18446744073709551616. lia.
  - clear Hs. intros v line s' (Hs & Hv & Ev & Hall & Hp) _. destruct (Z.leb_spec maxlen (zlen line)) as [Hge|Hlt]; wsimpl.
    { replace v with 0 in Hall by lia. cbn [Z.to_nat first_line] in Hall. rewrite app_nil_r in Hall.
      rewrite Hp, Hall, drop_app_length. split_and!; [|done|done].
      destruct line; [rewrite zlen_nil in Hge; lia|done]. }
    eapply wp_mono; [by apply rio_readb_1|]. intros r s2 [Hs2 Hr].
    destruct (pending s') as [|x rest] eqn:Ep; destruct Hr as [-> Hp2].
    + assert (Ha : all = line) by (rewrite Hall; destruct (Z.to_nat v); apply app_nil_r). rewrite app_nil_r in Hp.
      rewrite Hp, Ha, drop_all. destruct line as [|y line].
      * rewrite (proj2 (Z.eqb_eq _ 0)) by apply zlen_nil. by wsimpl.
      * rewrite (proj2 (Z.eqb_neq _ 0)) by (rewrite zlen_cons; pose proof (zlen_nonneg line); lia). by wsimpl.
    + replace (Z.to_nat v) with (S (Z.to_nat (v - 1))) in Hall by lia. cbn [first_line] in Hall.
      destruct (x =? 10); wsimpl.
      * rewrite Hp, Hall, drop_app. rewrite drop_ge, length_app, Nat.add_comm, Nat.add_sub by (rewrite length_app; lia).
        split_and!; [by destruct line|done|done].
      * exists (v - 1). rewrite zlen_app, zlen_cons, zlen_nil, Hp2, <- !app_assoc. split; [|lia]. split_and!; try done; lia.
Qed.

(** ** Lines *)

Definition is_line (l : list Z) : Prop := exists p, l = p ++ [10] /\ (10 ∉ p).

Lemma first_line_is_line n l rest : is_line l -> (length l <= n)%nat -> first_line n (l ++ rest) = l.
Proof.
  intros (p & -> & Hp). revert n. induction p as [|x p IH]; intros [|n] Hn; cbn in *; try lia; [done|].
  apply not_elem_of_cons in Hp as [Hx Hp]. rewrite (proj2 (Z.eqb_neq x 10)) by done. f_equal. apply IH; [done|lia].
Qed.

Lemma is_line_cons l : is_line l -> exists x l', l = x :: l'.
Proof. intros (p & -> & _). destruct p as [|x p]; by eexists _, _. Qed.

(** a line that is shorter than the buffer is read *)
Lemma readlineb_line n s line rest : good s -> 0 < n < 2147483648 -> pending s = line ++ rest -> is_line line -> zlen line < n ->
  wp (rio_readlineb n n) s (fun r s' => r = Some (zlen line, Some line) /\ good s' /\ pending s' = rest).
Proof.
  intros Hs Hn Hp Hline Hlen. unfold rio_readlineb. wsimpl. eapply wp_mono; [by apply collect_line|].
  intros r s' (-> & Hs' & Hp'). rewrite Hp, first_line_is_line in * by (try done; rewrite zlen_length in Hlen; lia).
  destruct (is_line_cons line Hline) as (x & l' & E). rewrite drop_app_length in Hp'. rewrite E at 1. cbn [app].
  rewrite (proj2 (Z.leb_gt _ _) Hlen). by wsimpl.
Qed.

(** at the end of the data the buffer is not touched *)
Lemma readlineb_eof n s : good s -> 0 < n < 2147483648 -> pending s = [] ->
  wp (rio_readlineb n n) s (fun r s' => r = Some (0, None) /\ good s' /\ pending s' = []).
Proof.
  intros Hs Hn Hp. unfold rio_readlineb. wsimpl. eapply wp_mono; [by apply collect_line|].
  intros r s' (-> & Hs' & Hp'). rewrite Hp in *. wsimpl. by rewrite drop_nil in Hp'.
Qed.

(** when the first [n] bytes hold no line end, the terminator is stored behind the
    buffer *)
Lemma readlineb_overflow n s : good s -> 0 < n < 2147483648 -> zlen (first_line (Z.to_nat n) (pending s)) = n ->
  rio_readlineb n n s = Fault Undefined.
Proof.
  intros Hs Hn Hlen. unfold rio_readlineb. apply fault_bind. eapply wp_mono; [by apply collect_line|].
  intros r s' (-> & _ & _). destruct (pending s) as [|x l] eqn:E.
  - replace (first_line _ _) with (@nil Z) in Hlen by by destruct (Z.to_nat n). rewrite zlen_nil in Hlen. lia.
  - by rewrite (proj2 (Z.leb_le _ _)) by lia.
Qed.
