(* ===== verification/RequestSpec.v ===== *)
(** * Requests are read and answered as intended

    The specifications of the functions of request.c on a connection whose data is a
    request: the line, the header lines and an empty line. *)

From stdpp Require Import base gmap list strings.
From Stdlib Require Import ZArith Lia Decimal DecimalString.
From S2P Require Import Prelude Words Cache Rio Request RioSpec.
#[local] Open Scope Z_scope.

(** ** One connection *)

(** everything written so far, when the client takes what is sent to it *)
Record takes (k : sink) : Prop := {
  tk_accepting : accepting (answers k);
  tk_answers : Z.of_nat (length (answers k)) < 9223372036854775808;
}.

Lemma Rio_write_spec x k : takes k -> zlen x < 9223372036854775808 ->
  wp (Rio_write x) k (fun _ k' => takes k' /\ written k' = written k ++ x).
Proof.
  intros [Ha Hn] Hx. unfold Rio_write. wsimpl. eapply wp_mono; [apply rio_write_spec; [done|lia]|].
  intros r k' (-> & Hw & Ha' & Hl). rewrite decide_True by done. wsimpl. split; [|done]. split; [done|lia].
Qed.

Lemma read_line_into_spec buf s line rest : good s -> pending s = line ++ rest -> is_line line -> zlen line < MAXLINE ->
  wp (read_line_into buf) s (fun r s' => r = Some line /\ good s' /\ pending s' = rest).
Proof.
  intros Hs Hp Hline Hlen. unfold read_line_into, Rio_readlineb. wsimpl.
  eapply wp_mono; [by apply (readlineb_line MAXLINE s line rest)|]. intros r s' (-> & Hs' & Hp'). by wsimpl.
Qed.

Lemma read_line_into_eof buf s : good s -> pending s = [] ->
  wp (read_line_into buf) s (fun r s' => r = buf /\ good s' /\ pending s' = []).
Proof.
  intros Hs Hp. unfold read_line_into, Rio_readlineb. wsimpl.
  eapply wp_mono; [by apply (readlineb_eof MAXLINE s)|]. intros r s' (-> & Hs' & Hp'). by wsimpl.
Qed.

(** a line of the header, which is not the empty line *)
Definition header (h : list Z) : Prop := is_line h /\ zlen h < MAXLINE /\ cut h <> CRLF.

Lemma crlf_line : is_line CRLF /\ zlen CRLF < MAXLINE.
Proof. split; [|done]. exists [13]. split; [done|]. by intros ?%list_elem_of_singleton. Qed.

(** the next line of a header, whose last line is empty *)
Lemma next_header buf s hdrs rest : good s -> pending s = concat hdrs ++ CRLF ++ rest -> Forall header hdrs ->
  wp (read_line_into buf) s (fun r s' => good s' /\
    match hdrs with
    | [] => r = Some CRLF /\ pending s' = rest
    | h :: hdrs' => r = Some h /\ header h /\ Forall header hdrs' /\ pending s' = concat hdrs' ++ CRLF ++ rest
    end).
Proof.
  intros Hs Hp Hall. destruct crlf_line as [Hc1 Hc2]. destruct hdrs as [|h hdrs].
  - eapply wp_mono; [by apply (read_line_into_spec buf s CRLF rest)|]. by intros r s' (-> & ? & ?).
  - apply Forall_cons in Hall as [Hh Hall]. pose proof Hh as (H1 & H2 & _). cbn [concat] in Hp. rewrite <- app_assoc in Hp.
    eapply wp_mono; [by eapply (read_line_into_spec buf s h)|]. by intros r s' (-> & ? & ?).
Qed.

Lemma request_read_headers_spec s hdrs rest : good s -> pending s = concat hdrs ++ CRLF ++ rest -> Forall header hdrs ->
  Z.of_nat (length hdrs) < 9223372036854775808 ->
  wp request_read_headers s (fun _ s' => good s' /\ pending s' = rest).
Proof.
  intros Hs Hp Hall Hlen. unfold request_read_headers. wsimpl.
  eapply wp_mono; [by eapply next_header|]. intros r s' (Hs' & Hr).
  apply (wp_while_var (fun n buf s => good s /\ ((n = 0 /\ buf = Some CRLF /\ pending s = rest) \/
    exists h hdrs, buf = Some h /\ header h /\ Forall header hdrs /\ pending s = concat hdrs ++ CRLF ++ rest /\
      n = Z.of_nat (length hdrs) + 1)) (Z.of_nat (length hdrs))).
  - split; [done|]. destruct hdrs as [|h hdrs]; [left; naive_solver|right]. exists h, hdrs.
    destruct Hr as (? & ? & ? & ?). cbn [length]. split_and!; try done. lia.
  - change (2 ^ 64) with 18446744073709551616. lia.
  - clear. intros n buf s (Hs & [(-> & -> & Hp)|(h & hdrs & -> & (_ & _ & Hh) & Hall & Hp & ->)]) _; wsimpl;
      (eapply wp_deref; [done|]).
    + rewrite decide_True by done. by wsimpl.
    + rewrite decide_False by done. wsimpl. eapply wp_mono; [by eapply next_header|]. intros r s' (Hs' & Hr). wsimpl.
      destruct hdrs as [|h' hdrs].
      * exists 0. split; [|cbn; lia]. split; [done|]. left. naive_solver.
      * exists (Z.of_nat (length hdrs) + 1). cbn [length]. split; [|lia]. split; [done|]. right. exists h', hdrs. naive_solver.
Qed.

(** with the connection at its end the loop goes on for ever *)
Lemma read_headers_eof n s line : good s -> pending s = [] -> cut line <> CRLF ->
  wp (loop n (fun buf =>
    line ← deref buf;
    if decide (cut line = CRLF) then mret (inr tt) else
    buf ← read_line_into (Some line);
    mret (inl buf)) (Some line)) s (fun r s' => r = inl (Some line) /\ good s' /\ pending s' = []).
Proof.
  intros Hs Hp Hline. revert s Hs Hp. induction n as [|n IH]; intros s Hs Hp; cbn [loop]; wsimpl.
  - eapply wp_deref; [done|]. rewrite decide_False by done. wsimpl. eapply wp_mono; [by apply read_line_into_eof|].
    intros r s' (-> & ? & ?). by wsimpl.
  - eapply wp_mono; [by apply IH|]. intros r s' (-> & ? & ?). by apply IH.
Qed.

(** ** [request_init] *)

Definition with_k_source (s : source) (k : conn) : conn := mk_conn s (k_sink k) (k_open k).

Lemma on_source_spec {A} (x : M source A) w (P : A -> world -> Prop) :
  wp x (k_source (w_conn w)) (fun a s => P a (mk_world (w_mem w) (with_k_source s (w_conn w)))) -> wp (on_source x) w P.
Proof. intros H. unfold on_source. by apply wp_zoom. Qed.
Lemma on_mem_spec {A} (x : M mem A) w (P : A -> world -> Prop) :
  wp x (w_mem w) (fun a m => P a (mk_world m (w_conn w))) -> wp (on_mem x) w P.
Proof. intros H. unfold on_mem. by apply wp_zoom. Qed.
Lemma on_sink_spec {A} (x : M sink A) w (P : A -> world -> Prop) :
  wp x (k_sink (w_conn w)) (fun a k => P a (mk_world (w_mem w) (mk_conn (k_source (w_conn w)) k (k_open (w_conn w))))) ->
  wp (on_sink x) w P.
Proof. intros H. unfold on_sink. by apply wp_zoom. Qed.

(** a request as the client sends it *)
Record sends (l : list read_answer) (line : list Z) (hdrs : list (list Z)) : Prop := {
  sn_clean : clean l;
  sn_weight : weight l < 9223372036854775808;
  sn_line : is_line line /\ zlen line < MAXLINE;
  sn_headers : Forall header hdrs;
  sn_bytes : exists rest, bytes l = line ++ concat hdrs ++ CRLF ++ rest;
}.

Lemma concat_length (l : list (list Z)) : Forall (fun x => x <> []) l -> Z.of_nat (length l) <= zlen (concat l).
Proof.
  induction 1 as [|x l Hx _ IH]; [done|]. cbn. rewrite zlen_app. destruct x as [|y x]; [done|]. rewrite zlen_cons.
  pose proof (zlen_nonneg x). lia.
Qed.

Lemma sends_headers l line hdrs : sends l line hdrs -> Z.of_nat (length hdrs) < 9223372036854775808.
Proof.
  intros [Hc Hw _ Hh [rest Hb]]. assert (Hle : Z.of_nat (length hdrs) <= zlen (concat hdrs)).
  { apply concat_length. eapply Forall_impl; [exact Hh|]. intros h ((p & -> & _) & _) E. by destruct p. }
  unfold weight in Hw. rewrite Hb, !zlen_app in Hw. pose proof (zlen_nonneg line). pose proof (zlen_nonneg CRLF).
  pose proof (zlen_nonneg rest). lia.
Qed.

(** the storage after a request for [uri] is read *)
Definition requested (data : Z) (uri : list Z) (m : mem) : mem :=
  mk_mem (m_cache m) (m_files m) (<[data := mk_data (m_next m) 0 0]> (m_datas m))
    (<[m_next m := request_parse_URI uri MAXLINE]> (m_chars m)) (m_nodes m) (m_next m + 1).

Lemma request_init_spec w fd data line hdrs method uri ws : data <> 0 ->
  sends (src_answers (k_source (w_conn w))) line hdrs ->
  words_of (cut line) [] = method :: uri :: ws -> strcasecmp_eq method (bytes_of "GET") = true ->
  wp (request_init fd data) w (fun r w' => r = Some (mk_request fd data) /\
    w_mem w' = requested data uri (w_mem w) /\ k_sink (w_conn w') = k_sink (w_conn w) /\
    k_open (w_conn w') = k_open (w_conn w)).
Proof.
  intros Hd Hsend Hwords Hget. pose proof (sends_headers _ _ _ Hsend) as Hlen.
  destruct Hsend as [Hc Hw [Hl Hl2] Hh [rest Hb]]. unfold request_init.
  rewrite (proj2 (Z.eqb_neq data 0) Hd). wsimpl. apply wp_assert; [done|]. wsimpl.
  unfold malloc, put_chars, put_data. apply on_mem_spec. wsimpl. apply on_mem_spec. wsimpl. apply on_mem_spec. wsimpl.
  apply on_source_spec. wsimpl. apply on_source_spec. cbn [w_conn k_source with_k_source with_rio w_mem].
  set (s := mk_source Rio_init (src_answers (k_source (w_conn w)))).
  assert (Hs : good s) by (split; cbn; [done|lia|lia]).
  assert (Hp : pending s = line ++ concat hdrs ++ CRLF ++ rest) by exact Hb.
  eapply wp_mono; [by apply (read_line_into_spec None s line _ Hs Hp)|]. intros r s' (-> & Hs' & Hp'). wsimpl.
  eapply wp_deref; [done|]. wsimpl. rewrite Hwords. eapply wp_deref; [done|]. rewrite Hget. cbn [negb].
  wsimpl. apply on_source_spec.
  cbn [w_conn k_source with_k_source w_mem]. eapply wp_mono; [by eapply request_read_headers_spec|].
  intros [] s2 _. wsimpl. eapply wp_deref; [done|]. wsimpl. apply on_mem_spec. wsimpl. split_and!; try done.
  cbn. unfold requested. by rewrite insert_insert_eq.
Qed.

(** ** Numbers in decimal *)

Lemma nb_double d : (nb_digits (Little.double d) <= S (nb_digits d))%nat /\ (nb_digits (Little.succ_double d) <= S (nb_digits d))%nat.
Proof. induction d; cbn; lia. Qed.
Lemma nb_revapp d d' : nb_digits (revapp d d') = (nb_digits d + nb_digits d')%nat.
Proof. revert d'. induction d; intros d'; cbn; rewrite ?IHd; cbn; lia. Qed.
Lemma nb_pos p : (nb_digits (Pos.to_uint p) <= Pos.size_nat p)%nat.
Proof.
  unfold Pos.to_uint, Decimal.rev. rewrite nb_revapp. cbn. rewrite Nat.add_0_r.
  induction p; cbn [Pos.to_little_uint Pos.size_nat]; [pose proof (nb_double (Pos.to_little_uint p)); lia..|]. cbn. lia.
Qed.
Lemma size_nat_bound p n : Zpos p < 2 ^ Z.of_nat n -> (Pos.size_nat p <= n)%nat.
Proof.
  revert n. induction p as [p IH|p IH|]; intros [|n] Hp; cbn [Pos.size_nat]; try lia.
  - rewrite Nat2Z.inj_succ, Z.pow_succ_r in Hp by lia. specialize (IH n ltac:(lia)). lia.
  - rewrite Nat2Z.inj_succ, Z.pow_succ_r in Hp by lia. specialize (IH n ltac:(lia)). lia.
Qed.
Lemma length_uint d : String.length (NilEmpty.string_of_uint d) = nb_digits d.
Proof. induction d; cbn; congruence. Qed.
Lemma length_zero_uint d : (String.length (NilZero.string_of_uint d) <= Nat.max 1 (nb_digits d))%nat.
Proof. rewrite <- length_uint. destruct d; cbn; lia. Qed.
Lemma length_bytes_of s : length (bytes_of s) = String.length s.
Proof. unfold bytes_of. rewrite length_map. induction s; cbn; congruence. Qed.

Lemma dec_length z n : (0 < n)%nat -> 0 <= z < 2 ^ Z.of_nat n -> (length (dec z) <= n)%nat.
Proof.
  intros Hn Hz. unfold dec. rewrite length_bytes_of. destruct z as [|p|p]; [cbn; lia| |lia].
  pose proof (nb_pos p). pose proof (size_nat_bound p n (proj2 Hz)). cbn [Z.to_int NilZero.string_of_int].
  pose proof (length_zero_uint (Pos.to_uint p)). lia.
Qed.

Lemma checksum_bound l : 0 <= checksum l < 2 ^ 32.
Proof.
  unfold checksum. assert (H : forall csum, 0 <= csum < 2 ^ 32 -> 0 <= fold_left (fun csum x => u32 (csum + u8 x)) l csum < 2 ^ 32).
  { induction l as [|x l IH]; intros csum Hc; cbn; [done|]. apply IH. apply wrap_bound. lia. }
  by apply H.
Qed.

(** the header fits the buffer of [request_sendfile] *)
Lemma header_length name size csum : 0 <= size < 2147483648 -> 0 <= csum < 2 ^ 32 ->
  zlen (response_header (request_get_file_type name) size csum) < MAXBUF.
Proof.
  intros Hs Hc. pose proof (dec_length size 32 ltac:(lia) ltac:(change (2 ^ Z.of_nat 32) with 4294967296; lia)).
  pose proof (dec_length csum 32 ltac:(lia) ltac:(done)).
  assert (Ht : (length (request_get_file_type name) <= 10)%nat).
  { unfold request_get_file_type. repeat (destruct (strstr name _); [vm_compute; lia|]). vm_compute. lia. }
  unfold response_header. rewrite zlen_length, !length_app, !length_bytes_of. change MAXBUF with 8192. cbn [length CRLF String.length]. lia.
Qed.

(** ** The file and the response *)

(** a file that is served: what [stat] says is what reading it gives *)
Record serves (info : file_info) (content : list Z) : Prop := {
  sv_regular : fi_regular info = true;
  sv_readable : fi_readable info = true;
  sv_size : fi_size info = zlen content;
  sv_bound : zlen content < 2147483648;
  sv_clean : clean (fi_answers info);
  sv_weight : weight (fi_answers info) < 9223372036854775808;
  sv_bytes : bytes (fi_answers info) = content;
}.

(** the name and the contents that the storage holds for a [file_data] *)
Record holds (m : mem) (data : Z) (name content : list Z) : Prop := {
  hd_nonzero : data <> 0;
  hd_data : exists d, m_datas m !! data = Some d /\ m_chars m !! file_name d = Some name /\ file_size d = zlen content /\
    (content <> [] -> m_chars m !! file_buf d = Some content);
}.

Lemma request_readfile_spec fs rq w d name info content : rq_data rq <> 0 -> m_datas (w_mem w) !! rq_data rq = Some d ->
  m_chars (w_mem w) !! file_name d = Some name -> file_name d < m_next (w_mem w) ->
  refused name = None -> fs name = Some info -> serves info content ->
  wp (request_readfile fs rq) w (fun r w' => r = 1 /\ holds (w_mem w') (rq_data rq) name content /\
    w_conn w' = w_conn w /\ m_cache (w_mem w') = m_cache (w_mem w)).
Proof.
  intros Hnz Hd Hname Hnext Href Hfs [Hr1 Hr2 Hsz Hb Hc Hw Hbytes]. pose proof (zlen_nonneg content).
  unfold request_readfile. rewrite (proj2 (Z.eqb_neq _ 0) Hnz). wsimpl. apply wp_assert; [done|]. wsimpl.
  apply on_mem_spec. unfold get_data, get_chars. wsimpl. eapply wp_deref; [exact Hd|]. wsimpl. apply on_mem_spec. wsimpl.
  eapply wp_deref; [exact Hname|]. rewrite Href, Hfs, Hr1, Hr2, Hsz. cbn [negb orb].
  replace (s32 (zlen content)) with (zlen content) by (symmetry; apply s32_small; lia). wsimpl. apply on_mem_spec. unfold put_data. wsimpl.
  destruct (Z.eqb_spec (zlen content) 0) as [Hz|Hz]; wsimpl.
  - split_and!; try done. split; [done|]. eexists. cbn. rewrite lookup_insert_eq. split; [done|]. cbn.
    split_and!; [done|done|]. intros Hne. destruct content as [|x l]; [done|]. rewrite zlen_cons in Hz.
    pose proof (zlen_nonneg l). lia.
  - rewrite (proj2 (Z.ltb_ge _ _)) by lia. wsimpl. apply on_mem_spec. unfold malloc. wsimpl.
    pose proof (rio_read_spec (zlen content) (fi_answers info) ltac:(lia) Hc ltac:(lia)) as Hread.
    apply wp_inv in Hread as (r & l' & Er & -> & _). rewrite Hbytes in Er.
    rewrite take_ge in Er by (rewrite zlen_length; lia).
    eapply wp_lift; [unfold Rio_read, mbind, M_bind; by rewrite Er|]. wsimpl. apply on_mem_spec. unfold put_chars. wsimpl.
    apply on_mem_spec. wsimpl. split_and!; try done. split; [done|]. eexists. cbn. rewrite lookup_insert_eq. split; [done|].
    cbn. rewrite lookup_insert_ne by lia. split_and!; [done|done|]. intros _. by rewrite lookup_insert_eq.
Qed.

Definition response (name content : list Z) : list Z :=
  response_header (request_get_file_type name) (zlen content) (checksum content) ++ content.

Lemma request_sendfile_spec rq w name content : holds (w_mem w) (rq_data rq) name content -> zlen content < 2147483648 ->
  takes (k_sink (w_conn w)) ->
  wp (request_sendfile rq) w (fun _ w' => w_mem w' = w_mem w /\ k_open (w_conn w') = k_open (w_conn w) /\
    takes (k_sink (w_conn w')) /\ written (k_sink (w_conn w')) = written (k_sink (w_conn w)) ++ response name content).
Proof.
  intros [Hnz (d & Hd & Hname & Hsz & Hbuf)] Hb Ht. pose proof (zlen_nonneg content).
  pose proof (header_length name (zlen content) (checksum content) ltac:(lia) (checksum_bound content)) as Hh.
  change MAXBUF with 8192 in Hh. unfold request_sendfile.
  rewrite (proj2 (Z.eqb_neq _ 0) Hnz). wsimpl. apply wp_assert; [done|]. wsimpl. apply on_mem_spec. unfold get_data, get_chars.
  wsimpl. eapply wp_deref; [exact Hd|]. wsimpl. apply on_mem_spec. wsimpl. eapply wp_deref; [exact Hname|]. wsimpl.
  apply on_mem_spec. cbn [w_mem w_conn]. rewrite Hsz.
  apply (wp_mono _ _ (fun r m => r = content /\ m = w_mem w)).
  { unfold file_bytes. rewrite Hsz. destruct (Z.leb_spec (zlen content) 0) as [Hz|Hz]; wsimpl.
    - destruct content as [|x l]; [done|]. rewrite zlen_cons in Hz. pose proof (zlen_nonneg l). lia.
    - assert (Hne : content <> []) by (intros ->; rewrite zlen_nil in Hz; lia). unfold get_chars. wsimpl.
      eapply wp_deref; [by apply Hbuf|]. apply wp_buf_read; [lia|lia|lia|]. by rewrite zsub_all. }
  intros r m [-> ->]. wsimpl. apply on_sink_spec. cbn [w_mem w_conn].
  eapply wp_mono; [apply Rio_write_spec; [done|lia]|]. intros [] k (Ht' & Hk). cbn [k_source k_sink k_open].
  destruct (Z.ltb_spec 0 (zlen content)) as [Hz|Hz].
  - apply on_sink_spec. cbn [w_conn k_sink]. eapply wp_mono; [apply Rio_write_spec; [done|lia]|].
    intros [] k2 (Ht2 & Hk2). cbn. split_and!; [done|done|done|]. unfold response. by rewrite Hk2, Hk, <- app_assoc.
  - wsimpl. cbn. split_and!; [done|done|done|]. rewrite Hk. unfold response. destruct content as [|x l]; [by rewrite app_nil_r|].
    rewrite zlen_cons in Hz. pose proof (zlen_nonneg l). lia.
Qed.

Lemma request_destroy_spec rq w : k_open (w_conn w) = true ->
  wp (request_destroy rq) w (fun _ w' => w_mem w' = w_mem w /\ k_open (w_conn w') = false /\
    k_sink (w_conn w') = k_sink (w_conn w)).
Proof. intros Ho. unfold request_destroy. wsimpl. rewrite Ho. by wsimpl. Qed.
