(* ===== verification/ServeSpec.v ===== *)
(** * Serving a request

    A request for a file is answered with its contents, read from the disk or taken
    from the cache.  The steps of [do_server_request] are run one after the other. *)

From stdpp Require Import base gmap list strings.
From Stdlib Require Import ZArith Lia.
From S2P Require Import Prelude Words Cache Rio Request Server QueueSpec LruSpec CacheSpec RioSpec RequestSpec.
#[local] Open Scope Z_scope.

(** ** Changes of the storage that the cache does not see *)

Record extends (m m' : mem) : Prop := {
  ex_cache : m_cache m' = m_cache m;
  ex_nodes : m_nodes m' = m_nodes m;
  ex_next : m_next m <= m_next m';
  ex_files : forall a f, m_files m !! a = Some f -> exists f', m_files m' !! a = Some f' /\ f_key f' = f_key f /\ f_data f' = f_data f;
  ex_chars : forall a x, m_chars m !! a = Some x -> m_chars m' !! a = Some x;
  ex_datas : forall a x, m_datas m !! a = Some x -> m_datas m' !! a = Some x;
  ex_addr : forall a, is_Some (m_files m' !! a) \/ is_Some (m_chars m' !! a) \/ is_Some (m_datas m' !! a) -> 0 < a < m_next m';
}.

Lemma cache_rep_extends m m' c K F L : cache_rep m c K F L -> extends m m' -> cache_rep m' c K F L.
Proof.
  intros [] []. split; try done.
  - by rewrite ex_cache0.
  - intros i name Hi. destruct (cr_entry i name Hi) as (e & He & Ht & Hne & f & d & Hf & Hfd & Hk & Hd & Hs). exists e.
    split_and!; try done. destruct (ex_files0 _ _ Hf) as (f' & Hf' & E1 & E2). exists f', d. rewrite E1, E2.
    split_and!; auto.
  - destruct cr_queue as (l & Hl & ? & ? & ?). exists l. split; [|done]. by eapply lru_frame.
Qed.

Lemma holds_extends m m' data name content : holds m data name content -> extends m m' -> holds m' data name content.
Proof.
  intros [Hnz (d & Hd & Hn & Hs & Hb)] []. split; [done|]. exists d. split_and!; auto.
Qed.

(** ** The new request *)

(** addresses are below what [malloc] returns next *)
Definition bounded (m : mem) : Prop :=
  0 < m_next m /\ forall a, is_Some (m_files m !! a) \/ is_Some (m_chars m !! a) \/ is_Some (m_datas m !! a) -> 0 < a < m_next m.

Definition named (name : list Z) (m : mem) : mem :=
  mk_mem (m_cache m) (m_files m) (<[m_next m := mk_data (m_next m + 1) 0 0]> (m_datas m))
    (<[m_next m + 1 := name]> (m_chars m)) (m_nodes m) (m_next m + 2).

Lemma named_extends name m : bounded m -> extends m (named name m).
Proof.
  intros [Hn Ha]. split; try done; cbn; [lia|eauto| | |].
  - intros a x Hx. rewrite lookup_insert_ne; [done|]. intros <-. destruct (Ha (m_next m + 1)); [|lia]. right; left. by rewrite Hx.
  - intros a x Hx. rewrite lookup_insert_ne; [done|]. intros <-. destruct (Ha (m_next m)); [|lia]. right; right. by rewrite Hx.
  - intros a. rewrite !lookup_insert_is_Some'. pose proof (Ha a). intros [?|[[<-|?]|[<-|?]]]; [| lia| |lia|];
      assert (0 < a < m_next m) by auto; lia.
Qed.

Section start.
Context (fs : list Z -> option file_info) (max : Z) (w : world) (fd : Z).
Context (line : list Z) (hdrs : list (list Z)) (method uri : list Z) (ws : list (list Z)).
Hypothesis Hsend : sends (src_answers (k_source (w_conn w))) line hdrs.
Hypothesis Hwords : words_of (cut line) [] = method :: uri :: ws.
Hypothesis Hget : strcasecmp_eq method (bytes_of "GET") = true.
Hypothesis Hbounded : bounded (w_mem w).
Hypothesis Htakes : takes (k_sink (w_conn w)).
Hypothesis Hopen : k_open (w_conn w) = true.

Let name := request_parse_URI uri MAXLINE.

Lemma start_spec : wp (do_server_request fs max (D_start fd)) w (fun r w' =>
  r = Some (if 0 <? max then D_lookup (mk_request fd (m_next (w_mem w))) else D_read (mk_request fd (m_next (w_mem w)))) /\
  w_mem w' = named name (w_mem w) /\ k_sink (w_conn w') = k_sink (w_conn w) /\ k_open (w_conn w') = true).
Proof.
  destruct Hbounded as [Hn _]. cbn [do_server_request]. wsimpl. unfold file_data_init, malloc, put_data. apply on_mem_spec. wsimpl.
  eapply wp_mono; [eapply (request_init_spec _ fd _ line hdrs method uri ws); [lia|done..]|].
  intros r w' (-> & Hm & Hk & Ho). wsimpl. split; [done|]. rewrite Hm, Hk, Ho. split; [|done]. unfold requested, named. cbn.
  rewrite insert_insert_eq. f_equal. lia.
Qed.
End start.

(** sending the contents and closing the connection *)
Lemma finish_spec fs max rq w name content : holds (w_mem w) (rq_data rq) name content -> zlen content < 2147483648 ->
  takes (k_sink (w_conn w)) -> k_open (w_conn w) = true ->
  wp (do_server_request fs max (D_send rq false 0)) w (fun r w' => r = Some (D_destroy rq) /\
    wp (do_server_request fs max (D_destroy rq)) w' (fun r w' => r = None /\ k_open (w_conn w') = false /\
      written (k_sink (w_conn w')) = written (k_sink (w_conn w)) ++ response name content)).
Proof.
  intros Hh Hb Ht Ho. cbn [do_server_request]. wsimpl. eapply wp_mono; [by eapply request_sendfile_spec|].
  intros [] w1 (Hm1 & Ho1 & Ht1 & Hw1). wsimpl. split; [done|]. wsimpl. eapply wp_mono; [apply request_destroy_spec; congruence|].
  intros [] w2 (Hm2 & Ho2 & Hk2). wsimpl. by rewrite Hk2.
Qed.

(** ** Without a cache *)

Section uncached.
Context (fs : list Z -> option file_info) (max : Z) (w : world) (fd : Z).
Context (line : list Z) (hdrs : list (list Z)) (method uri : list Z) (ws : list (list Z)) (info : file_info) (content : list Z).
Hypothesis Hsend : sends (src_answers (k_source (w_conn w))) line hdrs.
Hypothesis Hwords : words_of (cut line) [] = method :: uri :: ws.
Hypothesis Hget : strcasecmp_eq method (bytes_of "GET") = true.
Hypothesis Hbounded : bounded (w_mem w).
Hypothesis Htakes : takes (k_sink (w_conn w)).
Hypothesis Hopen : k_open (w_conn w) = true.
Let name := request_parse_URI uri MAXLINE.
Hypothesis Hallowed : refused name = None.
Hypothesis Hfile : fs name = Some info.
Hypothesis Hserves : serves info content.

Lemma serve_uncached : max <= 0 -> wp (serve fs max fd) w (fun _ w' => k_open (w_conn w') = false /\
  written (k_sink (w_conn w')) = written (k_sink (w_conn w)) ++ response name content).
Proof.
  intros Hmax. unfold serve. apply (wp_while_rounds 4); [done|]. cbn [wp_rounds]. wsimpl.
  eapply wp_mono; [by eapply start_spec|]. rewrite (proj2 (Z.ltb_ge 0 max)) by lia. fold name.
  intros r w1 (-> & Hm1 & Hk1 & Ho1). wsimpl. cbn [do_server_request]. wsimpl. destruct Hbounded as [Hn _].
  eapply wp_mono.
  { apply (request_readfile_spec fs _ w1 (mk_data (m_next (w_mem w) + 1) 0 0) name info content); try done; cbn; rewrite ?Hm1; cbn.
    - lia.
    - by rewrite lookup_insert_eq.
    - by rewrite lookup_insert_eq.
    - lia. }
  intros r w2 (-> & Hh & Hk2 & _). rewrite (proj2 (Z.ltb_ge 0 max)) by lia. wsimpl.
  eapply wp_mono; [apply (finish_spec fs max _ w2 name content); [exact Hh|by destruct Hserves|by rewrite Hk2, Hk1|by rewrite Hk2]|].
  intros r w3 (-> & H3). wsimpl. eapply wp_mono; [exact H3|]. intros r w4 (-> & Ho4 & Hw4). wsimpl. rewrite Hw4, Hk2, Hk1.
  done.
Qed.
End uncached.

(** ** From the cache *)

Lemma add_active_spec m file f n : m_files m !! file = Some f ->
  (forall a, is_Some (m_files m !! a) \/ is_Some (m_chars m !! a) \/ is_Some (m_datas m !! a) -> 0 < a < m_next m) ->
  wp (add_active file n) m (fun _ m' => extends m m').
Proof.
  intros Hf Ha. unfold add_active, get_file, put_file. wsimpl. eapply wp_deref; [exact Hf|]. wsimpl. split; try done; cbn.
  - intros a g Hg. destruct (decide (a = file)) as [->|Hne].
    + rewrite lookup_insert_eq. eexists. split; [done|]. cbn. by rewrite Hf in Hg; injection Hg as <-.
    + rewrite lookup_insert_ne by done. by exists g.
  - intros a. rewrite lookup_insert_is_Some'. intros [[<-|?]|?]; apply Ha; [left; by rewrite Hf|auto..].
Qed.

(** the first index of the search for a name in the cache is used *)
Lemma home_used m c K F L name e : cache_rep m c K F L -> F !! name = Some e -> is_Some (K !! slot c name 0).
Proof.
  intros HR He. destruct (cr_index _ _ _ _ _ HR _ _ He) as [i Hi]. destruct (cr_probe _ _ _ _ _ HR _ _ Hi) as (k & Hk & E & Hall).
  destruct (decide (k = 0)) as [->|]; [by rewrite E in Hi; rewrite Hi|]. apply Hall. lia.
Qed.

Lemma lru_mem_holds m ns na data name content : holds m data name content -> holds (lru_mem ns na m) data name content.
Proof. by intros []. Qed.

(** a file in the cache is taken into use *)
Lemma use_file_spec m c K F L name e d : cache_rep m c K F L -> F !! name = Some e ->
  m_datas m !! e_data e = Some d -> m_chars m !! file_name d = Some name ->
  wp (use_file (e_file e) (e_data e)) m (fun _ m' => exists m1 ns na other, extends m m1 /\ m' = lru_mem ns na m1 /\
    K !! slot c name 0 = Some other /\ cache_rep m' c K F (touch other L)).
Proof.
  intros HR He Hd Hname. destruct (cr_index _ _ _ _ _ HR _ _ He) as [i Hi].
  destruct (cr_entry _ _ _ _ _ HR _ _ Hi) as (e' & He' & _ & _ & f & _ & Hf & _). rewrite He in He'. injection He' as <-.
  destruct (home_used _ _ _ _ _ _ _ HR He) as [other Ho]. unfold use_file. wsimpl.
  eapply wp_mono; [by apply (add_active_spec m (e_file e) f 1 Hf (cr_addr _ _ _ _ _ HR))|]. intros [] m1 Hext.
  pose proof (cache_rep_extends _ _ _ _ _ _ HR Hext) as HR1. unfold get_data, get_chars. wsimpl.
  eapply wp_deref; [by apply (ex_datas _ _ Hext)|]. wsimpl. eapply wp_deref; [by apply (ex_chars _ _ Hext)|]. wsimpl.
  apply (get_index_spec m1 c K F L HR1). rewrite (slot_s32 m1 c K F L HR1).
  eapply wp_mono; [by apply (LRU_update_spec m1 c K F L HR1 _ other)|]. intros [] m' (ns & na & -> & HR2).
  by exists m1, ns, na, other.
Qed.

Section cached.
Context (fs : list Z -> option file_info) (max : Z) (w : world) (fd : Z).
Context (line : list Z) (hdrs : list (list Z)) (method uri : list Z) (ws : list (list Z)) (content : list Z).
Context (c : cache_struct) (K : gmap Z (list Z)) (F : gmap (list Z) entry) (L : list (list Z)) (e : entry).
Hypothesis Hsend : sends (src_answers (k_source (w_conn w))) line hdrs.
Hypothesis Hwords : words_of (cut line) [] = method :: uri :: ws.
Hypothesis Hget : strcasecmp_eq method (bytes_of "GET") = true.
Hypothesis Htakes : takes (k_sink (w_conn w)).
Hypothesis Hopen : k_open (w_conn w) = true.
Let name := request_parse_URI uri MAXLINE.
Hypothesis HR : cache_rep (w_mem w) c K F L.
Hypothesis He : F !! name = Some e.
Hypothesis Hholds : holds (w_mem w) (e_data e) name content.
Hypothesis Hlen : zlen content < 2147483648.

Lemma hit_bounded : bounded (w_mem w).
Proof.
  split; [|apply HR]. destruct Hholds as [_ (d & Hd & _)].
  destruct (cr_addr _ _ _ _ _ HR (e_data e)); [right; right; by rewrite Hd|lia].
Qed.

Lemma lookup_hit m p d : extends (w_mem w) m -> m_datas m !! p = Some d -> m_chars m !! file_name d = Some name ->
  wp (lookup_section p) m (fun r m' => r = Some (e_file e, e_data e) /\ exists other, K !! slot c name 0 = Some other /\
    cache_rep m' c K F (touch other L) /\ holds m' (e_data e) name content).
Proof.
  intros Hext Hp Hn. pose proof (cache_rep_extends _ _ _ _ _ _ HR Hext) as HR1.
  pose proof (holds_extends _ _ _ _ _ Hholds Hext) as Hh1. destruct (cr_index _ _ _ _ _ HR1 _ _ He) as [i Hi].
  destruct (cr_entry _ _ _ _ _ HR1 _ _ Hi) as (e' & He' & _ & Hne & f & _ & Hf & Hfd & _). rewrite He in He'. injection He' as <-.
  unfold lookup_section, get_data, get_chars, get_file. wsimpl. eapply wp_deref; [exact Hp|]. wsimpl.
  eapply wp_deref; [exact Hn|]. wsimpl. apply (cache_lookup_spec m c K F L HR1). rewrite He.
  change (default 0 (e_file <$> Some e)) with (e_file e). rewrite (proj2 (Z.eqb_neq _ 0) Hne). wsimpl.
  eapply wp_deref; [exact Hf|]. wsimpl. rewrite Hfd. pose proof Hh1 as [_ (d1 & Hd1 & Hn1 & _)].
  eapply wp_mono; [by eapply use_file_spec|]. intros [] m' (m1 & ns & na & other & Hext1 & -> & Ho & HR2). wsimpl.
  split; [done|]. exists other. split_and!; [done|done|]. apply lru_mem_holds. by eapply holds_extends.
Qed.

Lemma serve_cached : 0 < max -> wp (serve fs max fd) w (fun _ w' => k_open (w_conn w') = false /\
  written (k_sink (w_conn w')) = written (k_sink (w_conn w)) ++ response name content /\
  exists other, K !! slot c name 0 = Some other /\ cache_rep (w_mem w') c K F (touch other L)).
Proof.
  intros Hmax. unfold serve. apply (wp_while_rounds 5); [done|]. cbn [wp_rounds]. wsimpl. pose proof hit_bounded as Hb.
  eapply wp_mono; [by eapply start_spec|]. rewrite (proj2 (Z.ltb_lt 0 max)) by lia. fold name.
  intros r w1 (-> & Hm1 & Hk1 & Ho1). wsimpl. cbn [do_server_request]. wsimpl. apply on_mem_spec. rewrite Hm1. wsimpl.
  set (d := mk_data (m_next (w_mem w) + 1) 0 0).
  assert (Hd : m_datas (named name (w_mem w)) !! m_next (w_mem w) = Some d) by apply lookup_insert_eq.
  assert (Hn : m_chars (named name (w_mem w)) !! file_name d = Some name) by apply lookup_insert_eq.
  eapply wp_mono; [apply (lookup_hit _ _ d (named_extends name _ Hb) Hd Hn)|].
  intros r m2 (-> & other & Hother & HR2 & Hh2). wsimpl. cbn [do_server_request]. wsimpl.
  eapply wp_mono; [apply (request_sendfile_spec _ _ name content); cbn; [exact Hh2|exact Hlen|by rewrite Hk1]|].
  intros [] w3 (Hm3 & Ho3 & Ht3 & Hw3). wsimpl. cbn [do_server_request]. wsimpl. apply on_mem_spec. cbn in Hm3, Ho3, Hw3.
  destruct (cr_index _ _ _ _ _ HR2 _ _ He) as [i Hi].
  destruct (cr_entry _ _ _ _ _ HR2 _ _ Hi) as (e' & He' & _ & Hne & f & _ & Hf & _). rewrite He in He'. injection He' as <-.
  rewrite (proj2 (Z.eqb_neq _ 0) Hne), Hm3.
  eapply wp_mono; [apply (add_active_spec m2 _ f _ Hf (cr_addr _ _ _ _ _ HR2))|]. intros [] m4 Hext4. wsimpl. cbn [do_server_request]. wsimpl.
  eapply wp_mono; [apply request_destroy_spec; cbn; by rewrite Ho3|]. intros [] w5 (Hm5 & Ho5 & Hk5). wsimpl.
  rewrite Hk5. cbn. split; [done|]. split; [by rewrite Hw3, Hk1|]. exists other. split; [done|]. rewrite Hm5. cbn.
  by eapply cache_rep_extends.
Qed.
End cached.
