(* ===== verification/ServerSpec.v ===== *)
(** * The bounded buffer and the threads of the web server

    [ring sv]: the circular buffer holds [queued sv], the descriptors in the order
    they were put in.  [inv s] is what holds in every state that the server reaches:
    the buffer is a ring, [lock] has one owner, workers wait only for an empty buffer
    and the main thread only for a full one. *)

From stdpp Require Import base gmap list list_numbers.
From Stdlib Require Import ZArith Lia.
From S2P Require Import Prelude Words Cache Rio Request Server.
#[local] Open Scope Z_scope.

(** ** The ring *)

Definition cell (sv : server) (k : Z) : Z := (sv_out sv + k) mod max_requests sv.

Definition queued (sv : server) : list Z :=
  match buffer sv with
  | Some cells => (fun k => default 0 (cells !! cell sv k)) <$> seqZ 0 (request_counter sv)
  | None => []
  end.

Record ring (sv : server) : Prop := {
  rg_max : 0 <= max_requests sv < 2147483648;
  rg_counter : 0 <= request_counter sv <= max_requests sv;
  rg_buffer : 0 < max_requests sv -> exists cells, buffer sv = Some cells /\ 0 <= sv_out sv < max_requests sv /\
    sv_in sv = cell sv (request_counter sv) /\ forall k, 0 <= k < request_counter sv -> is_Some (cells !! cell sv k);
}.

Lemma mod_eq_small a b m : 0 < m -> -m < a - b < m -> a mod m = b mod m -> a = b.
Proof.
  intros Hm Hab E. pose proof (Z.div_mod a m ltac:(lia)). pose proof (Z.div_mod b m ltac:(lia)).
  destruct (Z.lt_trichotomy (a / m) (b / m)) as [H1|[H1|H1]]; [nia| |nia]. rewrite H1 in *. lia.
Qed.

Lemma cell_inj sv j k : 0 < max_requests sv -> 0 <= j < max_requests sv -> 0 <= k < max_requests sv ->
  cell sv j = cell sv k -> j = k.
Proof. intros Hm Hj Hk E. unfold cell in E. apply mod_eq_small in E; lia. Qed.

(** a descriptor at the end *)
Definition sent (sv : server) (connfd : Z) (cells : gmap Z Z) : server :=
  mk_server (nr_threads sv) (max_requests sv) (max_cache_size sv) (exiting sv)
    (Some (<[sv_in sv := connfd]> cells)) (Z.rem (sv_in sv + 1) (max_requests sv)) (sv_out sv) (s32 (request_counter sv + 1)).

Lemma ring_sent sv connfd cells : ring sv -> request_counter sv < max_requests sv -> buffer sv = Some cells ->
  ring (sent sv connfd cells) /\ queued (sent sv connfd cells) = queued sv ++ [connfd] /\
  request_counter (sent sv connfd cells) = request_counter sv + 1.
Proof.
  intros [Hm Hc Hb] Hlt Hcells. destruct Hb as (cells' & E & Hout & Hin & Hsome); [lia|].
  rewrite Hcells in E. injection E as <-.
  assert (Hn : s32 (request_counter sv + 1) = request_counter sv + 1) by (apply s32_small; lia).
  assert (Hother : forall k, 0 <= k < request_counter sv -> sv_in sv <> cell sv k).
  { intros k Hk E. rewrite Hin in E. apply cell_inj in E; lia. }
  assert (Hpos : 0 <= sv_in sv) by (rewrite Hin; apply Z.mod_pos_bound; lia).
  split; [split; cbn; rewrite ?Hn|split]; [lia|lia| | |exact Hn].
  - intros _. eexists. split; [done|]. split; [done|]. split.
    + rewrite Z.rem_mod_nonneg by lia. unfold cell. cbn. rewrite ?Hn, Hin. unfold cell. rewrite Zplus_mod_idemp_l. f_equal. lia.
    + intros k Hk. unfold cell. cbn. fold (cell sv k). apply lookup_insert_is_Some'.
      destruct (decide (k = request_counter sv)) as [->|]; [by left|right]. apply Hsome. lia.
  - unfold queued. rewrite Hcells. cbn. rewrite Hn, seqZ_app, fmap_app by lia. cbn [Z.add]. f_equal.
    + apply list_fmap_ext. intros i k Hk%list_elem_of_lookup_2%elem_of_seqZ. unfold cell at 1. cbn. fold (cell sv k).
      rewrite lookup_insert_ne; [done|]. apply Hother. lia.
    + rewrite seqZ_cons by lia. change (Z.pred 1) with 0. cbn. unfold cell. cbn. fold (cell sv (request_counter sv)).
      by rewrite Hin, lookup_insert_eq.
Qed.

(** the first descriptor is taken *)
Definition received (sv : server) : server :=
  mk_server (nr_threads sv) (max_requests sv) (max_cache_size sv) (exiting sv)
    (buffer sv) (sv_in sv) (Z.rem (sv_out sv + 1) (max_requests sv)) (s32 (request_counter sv - 1)).

Lemma ring_received sv : ring sv -> 0 < request_counter sv ->
  exists cells connfd, buffer sv = Some cells /\ cells !! sv_out sv = Some connfd /\ 0 <= sv_out sv <= max_requests sv /\
    ring (received sv) /\ queued sv = connfd :: queued (received sv) /\
    request_counter (received sv) = request_counter sv - 1.
Proof.
  intros [Hm Hc Hb] Hlt. destruct Hb as (cells & Hcells & Hout & Hin & Hsome); [lia|].
  assert (Hn : s32 (request_counter sv - 1) = request_counter sv - 1) by (apply s32_small; lia).
  assert (H0 : cell sv 0 = sv_out sv) by (unfold cell; rewrite Z.add_0_r; by apply Z.mod_small).
  assert (Hnext : forall k, cell (received sv) k = cell sv (k + 1)).
  { intros k. unfold cell. cbn. rewrite Z.rem_mod_nonneg, Zplus_mod_idemp_l by lia. f_equal. lia. }
  destruct (Hsome 0) as [connfd Hfd]; [lia|]. rewrite H0 in Hfd. exists cells, connfd. split_and!; [done|done|lia|lia| | |exact Hn].
  - split; [exact Hm|cbn; rewrite Hn; lia|]. intros _. exists cells. split; [done|]. split; [|split].
    + cbn. rewrite Z.rem_mod_nonneg by lia. apply Z.mod_pos_bound. lia.
    + rewrite Hnext. cbn. rewrite Hn, Hin. f_equal. lia.
    + intros k Hk. cbn in Hk. rewrite Hn in Hk. rewrite Hnext. apply Hsome. lia.
  - unfold queued. cbn [buffer received request_counter]. rewrite Hcells, Hn, (seqZ_cons 0) by lia. rewrite fmap_cons, H0, Hfd. cbn [default].
    f_equal. change (Z.succ 0) with (1 + 0). rewrite <- fmap_add_seqZ, <- list_fmap_compose.
    replace (Z.pred (request_counter sv)) with (request_counter sv - 1) by lia. apply list_fmap_ext.
    intros i k _. cbn. rewrite Hnext. by rewrite Z.add_comm.
Qed.

(** ** The invariant *)

Definition has_lock (w : worker_pc) : bool := match w with W_test | W_wait | W_exiting => true | _ => false end.
Definition main_has_lock (m : main_pc) : bool := match m with M_test _ | M_wait _ | M_exiting _ => true | _ => false end.
Definition waits (w : worker_pc) : bool := match w with W_wait | W_waiting => true | _ => false end.
Definition main_waits (m : main_pc) : bool := match m with M_wait _ | M_waiting _ => true | _ => false end.
Definition after_exit (m : main_pc) : bool :=
  match m with M_wake_empty | M_wake_full | M_join _ | M_free | M_done => true | _ => false end.
(** in [server_request] *)
Definition requesting (m : main_pc) : bool :=
  match m with M_lock _ | M_test _ | M_wait _ | M_waiting _ | M_woken _ | M_exiting _ => true | _ => false end.

Record inv_of (sv : server) (l : option thread) (ws : list worker_pc) (m : main_pc) : Prop := {
  iv_ring : ring sv;
  iv_lock : forall i w, ws !! i = Some w -> has_lock w = true <-> l = Some (Worker i);
  iv_lock_main : main_has_lock m = true <-> l = Some Main;
  iv_lock_worker : forall i, l = Some (Worker i) -> is_Some (ws !! i);
  iv_wait : forall i w, ws !! i = Some w -> waits w = true -> request_counter sv = 0;
  iv_wait_main : main_waits m = true -> request_counter sv = max_requests sv;
  iv_exit : exiting sv = after_exit m;
  iv_alive : forall i, ws !! i = Some W_exited -> exiting sv = true;
  iv_gone : m <> M_gone;
  iv_threads : Z.of_nat (length ws) = Z.max 0 (nr_threads sv);
}.
Definition inv (s : st) : Prop := inv_of (s_sv s) (s_lock s) (s_workers s) (s_main s).

(** [lock] after a thread that had it or not goes to a place where it has it or not *)
Definition lock_after (had has : bool) (t : thread) (l : option thread) : option thread :=
  if had then (if has then l else None) else if has then Some t else l.

Lemma inv_worker sv l ws m i w w' : inv_of sv l ws m -> ws !! i = Some w ->
  (has_lock w' = true -> has_lock w = true \/ l = None) -> (waits w' = true -> request_counter sv = 0) ->
  (w' = W_exited -> exiting sv = true) ->
  inv_of sv (lock_after (has_lock w) (has_lock w') (Worker i) l) (<[i := w']> ws) m.
Proof.
  intros Hinv Hi Hget Hwait Hexit. pose proof (iv_lock _ _ _ _ Hinv i w Hi) as Hwi.
  assert (Hil : (i < length ws)%nat) by by eapply lookup_lt_Some.
  assert (Hl : (has_lock w = true /\ l = Some (Worker i)) \/ (has_lock w = false /\ l <> Some (Worker i))).
  { destruct (has_lock w); [left; split; [done|by apply Hwi]|right]. split; [done|]. intros E. by apply Hwi in E. }
  assert (Ela : lock_after (has_lock w) (has_lock w') (Worker i) l =
    if has_lock w' then Some (Worker i) else if has_lock w then None else l).
  { unfold lock_after. destruct Hl as [[-> ->]|[-> _]]; by destruct (has_lock w'). }
  rewrite Ela. clear Ela. destruct Hinv. split; try done.
  - intros j wj. rewrite list_lookup_insert_Some. intros [(<- & <- & _)|[Hij Hj]].
    + destruct (has_lock w'); [done|]. split; [done|]. destruct Hl as [[-> ->]|[-> Hl]]; done.
    + rewrite (iv_lock0 j wj Hj). destruct (has_lock w') eqn:E.
      * split; [|congruence]. intros ->. destruct (Hget eq_refl) as [Hh|?]; [|done]. destruct Hl as [[_ [= ->]]|[? _]]; congruence.
      * destruct Hl as [[-> ->]|[-> _]]; [|done]. split; congruence.
  - rewrite iv_lock_main0. destruct (has_lock w') eqn:E.
    + split; [|done]. intros ->. destruct (Hget eq_refl) as [Hh|?]; [|done]. destruct Hl as [[_ ?]|[? _]]; congruence.
    + destruct Hl as [[-> ->]|[-> _]]; [|done]. done.
  - intros j Hj. apply list_lookup_insert_is_Some. destruct (has_lock w'); [injection Hj as <-; by rewrite Hi|].
    destruct (has_lock w); [done|]. by apply iv_lock_worker0.
  - intros j wj. rewrite list_lookup_insert_Some. intros [(<- & <- & _)|[Hij Hj]]; [done|]. by apply (iv_wait0 j).
  - intros j. rewrite list_lookup_insert_Some. intros [(<- & Hw & _)|[Hij Hj]]; [by apply Hexit|]. by apply (iv_alive0 j).
  - by rewrite length_insert.
Qed.

Lemma inv_main sv l ws m m' : inv_of sv l ws m ->
  (main_has_lock m' = true -> main_has_lock m = true \/ l = None) ->
  (main_waits m' = true -> request_counter sv = max_requests sv) -> after_exit m' = after_exit m -> m' <> M_gone ->
  inv_of sv (lock_after (main_has_lock m) (main_has_lock m') Main l) ws m'.
Proof.
  intros Hinv Hget Hwait Hexit Hgone. pose proof (iv_lock_main _ _ _ _ Hinv) as Hm.
  assert (Hl : (main_has_lock m = true /\ l = Some Main) \/ (main_has_lock m = false /\ l <> Some Main)).
  { destruct (main_has_lock m); [left; split; [done|by apply Hm]|right]. split; [done|]. intros E. by apply Hm in E. }
  assert (Ela : lock_after (main_has_lock m) (main_has_lock m') Main l =
    if main_has_lock m' then Some Main else if main_has_lock m then None else l).
  { unfold lock_after. destruct Hl as [[-> ->]|[-> _]]; by destruct (main_has_lock m'). }
  rewrite Ela. clear Ela. destruct Hinv. split; try done.
  - intros j wj Hj. rewrite (iv_lock0 j wj Hj). destruct (main_has_lock m') eqn:E.
    + split; [|done]. intros ->. destruct (Hget eq_refl) as [Hh|?]; [|done]. destruct Hl as [[_ ?]|[? _]]; congruence.
    + destruct Hl as [[-> ->]|[-> _]]; [|done]. done.
  - destruct (main_has_lock m'); [done|]. destruct Hl as [[-> ->]|[-> Hl]]; done.
  - intros j. destruct (main_has_lock m'); [done|]. destruct (main_has_lock m); [done|]. apply iv_lock_worker0.
  - by rewrite iv_exit0.
Qed.

(** ** Broadcasts *)

Lemma has_lock_wake w : has_lock (wake_worker w) = has_lock w.
Proof. by destruct w. Qed.
Lemma waits_wake w : waits (wake_worker w) = true -> w = W_wait.
Proof. by destruct w. Qed.

(** all workers are woken, and the counter may change when no worker is about to wait *)
Lemma inv_wake_workers sv l ws m : inv_of sv l ws m -> inv_of sv l (wake_worker <$> ws) m.
Proof.
  intros []. split; try done.
  - intros i w (w0 & -> & Hi)%list_lookup_fmap_Some. rewrite has_lock_wake. by apply iv_lock0.
  - intros i Hi. rewrite list_lookup_fmap, fmap_is_Some. by apply iv_lock_worker0.
  - intros i w (w0 & -> & Hi)%list_lookup_fmap_Some Hw%waits_wake. subst. by apply (iv_wait0 i W_wait).
  - intros i (w0 & E & Hi)%list_lookup_fmap_Some. apply (iv_alive0 i). rewrite Hi. by destruct w0.
  - by rewrite length_fmap.
Qed.

Lemma inv_received sv i ws m : inv_of sv (Some (Worker i)) ws m -> 0 < request_counter sv -> ring (received sv) ->
  inv_of (received sv) (Some (Worker i)) ws (if request_counter sv =? max_requests sv then wake_main m else m).
Proof.
  intros [] Hc Hr. assert (Hm : main_has_lock m = false).
  { destruct (main_has_lock m); [|done]. by specialize (proj1 iv_lock_main0 eq_refl). }
  assert (Hwake : forall b : bool, main_has_lock (if b then wake_main m else m) = main_has_lock m /\
    after_exit (if b then wake_main m else m) = after_exit m /\
    ((if b then wake_main m else m) <> M_gone)).
  { intros []; [|done]. by destruct m. }
  destruct (Hwake (request_counter sv =? max_requests sv)) as (E1 & E2 & E3). split; try done.
  - by rewrite E1.
  - intros j w Hj Hw. specialize (iv_wait0 j w Hj Hw). lia.
  - intros Hw. destruct (Z.eqb_spec (request_counter sv) (max_requests sv)) as [|Hne]; [|by specialize (iv_wait_main0 Hw)].
    by destruct m.
  - cbn. by rewrite E2.
Qed.

Lemma inv_sent sv connfd cells ws m : inv_of sv (Some Main) ws m -> ring (sent sv connfd cells) -> main_waits m = false ->
  inv_of (sent sv connfd cells) (Some Main) (if request_counter sv =? 0 then wake_worker <$> ws else ws) m.
Proof.
  intros Hinv Hr Hm. assert (Hno : forall i w, ws !! i = Some w -> has_lock w = false).
  { intros i w Hi. destruct (has_lock w) eqn:E; [|done]. by apply (iv_lock _ _ _ _ Hinv i w Hi) in E. }
  assert (Hwake : forall i w, (if request_counter sv =? 0 then wake_worker <$> ws else ws) !! i = Some w -> waits w = false).
  { intros i w Hi. destruct (waits w) eqn:E; [|done]. destruct (Z.eqb_spec (request_counter sv) 0) as [|Hne].
    - apply list_lookup_fmap_Some in Hi as (w0 & -> & Hi). apply waits_wake in E as ->. by apply Hno in Hi.
    - by apply (iv_wait _ _ _ _ Hinv i w Hi) in E. }
  assert (Hinv' : inv_of sv (Some Main) (if request_counter sv =? 0 then wake_worker <$> ws else ws) m).
  { destruct (request_counter sv =? 0); [by apply inv_wake_workers|done]. }
  destruct Hinv'. split; try done.
  - intros i w Hi Hw. by rewrite (Hwake i w Hi) in Hw.
  - by rewrite Hm.
Qed.

Lemma inv_exit sv l ws : inv_of sv l ws M_exit ->
  inv_of (mk_server (nr_threads sv) (max_requests sv) (max_cache_size sv) true (buffer sv) (sv_in sv) (sv_out sv)
    (request_counter sv)) l ws M_wake_empty.
Proof. intros []. split; try done. by destruct iv_ring0. Qed.

(** ** The steps keep the invariant *)

Definition shows (ev : option event) (sv sv' : server) : Prop :=
  nr_threads sv' = nr_threads sv /\ max_requests sv' = max_requests sv /\
  match ev with
  | Some (Accepted_fd connfd) => queued sv' = queued sv ++ [connfd]
  | Some (Taken_fd connfd) => queued sv = connfd :: queued sv'
  | _ => queued sv' = queued sv
  end.

Lemma buffer_at_spec sv index cells s (P : gmap Z Z -> st -> Prop) : buffer sv = Some cells ->
  0 <= index <= max_requests sv -> P cells s -> wp (buffer_at sv index) s P.
Proof.
  intros Hb Hi HP. unfold buffer_at. wsimpl. eapply wp_deref; [exact Hb|].
  rewrite (proj2 (Z.leb_le _ _)), (proj2 (Z.leb_le _ _)) by lia. by wsimpl.
Qed.

Lemma advance_spec sv index s (P : Z -> st -> Prop) : 0 < max_requests sv ->
  P (Z.rem (index + 1) (max_requests sv)) s -> wp (advance sv index) s P.
Proof. intros Hm HP. unfold advance. rewrite (proj2 (Z.eqb_neq _ _)) by lia. by wsimpl. Qed.

(** neither function leaves the buffer *)
Lemma read_from_buffer_spec s : ring (s_sv s) -> 0 < request_counter (s_sv s) ->
  wp read_from_buffer s (fun connfd s' => ring (received (s_sv s)) /\
    queued (s_sv s) = connfd :: queued (received (s_sv s)) /\
    s' = mk_st (received (s_sv s)) (s_lock s) (s_workers s)
      (if request_counter (s_sv s) =? max_requests (s_sv s) then wake_main (s_main s) else s_main s) (s_mem s) (s_conns s)).
Proof.
  intros Hr Hc. pose proof (rg_counter _ Hr). destruct (ring_received _ Hr Hc) as (cells & connfd & Hb & Hfd & Ho & Hr' & Hq & _).
  unfold read_from_buffer. wsimpl. eapply buffer_at_spec; [exact Hb|exact Ho|]. wsimpl. eapply wp_deref; [exact Hfd|].
  wsimpl. unfold broadcast_full, set_sv.
  destruct (request_counter (s_sv s) =? max_requests (s_sv s)); wsimpl; apply advance_spec; try lia; wsimpl; done.
Qed.

Lemma send_to_buffer_spec s connfd : ring (s_sv s) -> request_counter (s_sv s) < max_requests (s_sv s) ->
  wp (send_to_buffer connfd) s (fun _ s' => exists cells, ring (sent (s_sv s) connfd cells) /\
    queued (sent (s_sv s) connfd cells) = queued (s_sv s) ++ [connfd] /\
    s' = mk_st (sent (s_sv s) connfd cells) (s_lock s)
      (if request_counter (s_sv s) =? 0 then wake_worker <$> s_workers s else s_workers s) (s_main s) (s_mem s) (s_conns s)).
Proof.
  intros Hr Hc. pose proof (rg_counter _ Hr). destruct (rg_buffer _ Hr) as (cells & Hb & Ho & Hin & _); [lia|].
  assert (Hi : 0 <= sv_in (s_sv s) < max_requests (s_sv s)) by (rewrite Hin; apply Z.mod_pos_bound; lia).
  destruct (ring_sent _ connfd cells Hr Hc Hb) as (Hr' & Hq & _).
  unfold send_to_buffer. wsimpl. eapply buffer_at_spec; [exact Hb|lia|]. wsimpl. unfold broadcast_empty, set_sv.
  destruct (request_counter (s_sv s) =? 0); wsimpl; apply advance_spec; try lia; wsimpl; by exists cells.
Qed.

Lemma on_world_frame {A} connfd (x : M world A) s : wlp (on_world connfd x) s (fun _ s' =>
  s_sv s' = s_sv s /\ s_lock s' = s_lock s /\ s_workers s' = s_workers s /\ s_main s' = s_main s).
Proof.
  unfold on_world. lsimpl. apply wlp_deref. intros k _. destruct (x _) as [[a w]|f]; by lsimpl.
Qed.

Section preserve.
Context (fs : list Z -> option file_info) (s : st).
Hypothesis Hinv : inv s.

Lemma worker_step_inv i w : s_workers s !! i = Some w -> worker_ready (s_lock s) w = true ->
  wlp (worker_step fs i w) s (fun ev s' => inv s' /\ shows ev (s_sv s) (s_sv s')).
Proof.
  intros Hi Hready. unfold inv in *. destruct w; cbn in Hready; try done; cbn [worker_step set_pc]; unfold set_lock; lsimpl.
  - apply bool_decide_eq_true in Hready. split; [|done].
    apply (inv_worker _ _ _ _ i W_lock W_test Hinv Hi); [by right|done|done].
  - destruct (Z.eqb_spec (request_counter (s_sv s)) 0) as [Hz|Hz]; lsimpl.
    { split; [|done]. apply (inv_worker _ _ _ _ i W_test W_wait Hinv Hi); [by left|done|done]. }
    pose proof (iv_ring _ _ _ _ Hinv) as Hr. pose proof (rg_counter _ Hr). apply wp_wlp.
    assert (Hl : s_lock s = Some (Worker i)) by by apply (iv_lock _ _ _ _ Hinv i W_test).
    eapply wp_mono; [apply read_from_buffer_spec; [done|lia]|]. intros connfd s' (Hr' & Hq & ->). wsimpl.
    split; [|by split_and!]. cbn. rewrite Hl in Hinv. pose proof (inv_received _ i _ _ Hinv ltac:(lia) Hr') as Hinv'.
    apply (inv_worker _ _ _ _ i W_test (W_serve connfd (D_start connfd)) Hinv' Hi); done.
  - split; [|done]. apply (inv_worker _ _ _ _ i W_wait W_waiting Hinv Hi); [done| |done].
    intros _. by apply (iv_wait _ _ _ _ Hinv i W_wait).
  - apply bool_decide_eq_true in Hready. split; [|done].
    apply (inv_worker _ _ _ _ i W_woken W_exiting Hinv Hi); [by right|done|done].
  - destruct (exiting (s_sv s)) eqn:E; lsimpl; (split; [|done]).
    + by apply (inv_worker _ _ _ _ i W_exiting W_exited Hinv Hi).
    + apply (inv_worker _ _ _ _ i W_exiting W_test Hinv Hi); [by left|done|done].
  - eapply wlp_mono; [apply on_world_frame|]. intros next s' (E1 & E2 & E3 & E4). lsimpl. unfold shows. cbn. rewrite E1, E2, E3, E4.
    split; [|done]. destruct next as [p'|].
    + apply (inv_worker _ _ _ _ i (W_serve connfd p) (W_serve connfd p') Hinv Hi); done.
    + apply (inv_worker _ _ _ _ i (W_serve connfd p) W_lock Hinv Hi); done.
Qed.

Lemma main_step_inv input : main_ready s input = true ->
  wlp (main_step fs input) s (fun ev s' => inv s' /\ shows ev (s_sv s) (s_sv s')).
Proof.
  intros Hready. unfold inv in *. unfold main_ready in Hready. unfold main_step, set_pc, set_lock. lsimpl.
  assert (Hgo : forall m', main_has_lock (s_main s) = false -> main_has_lock m' = false -> main_waits m' = false ->
    after_exit m' = after_exit (s_main s) -> m' <> M_gone -> inv_of (s_sv s) (s_lock s) (s_workers s) m').
  { intros m' H1 H2 H3 H4 H5. pose proof (inv_main _ _ _ _ m' Hinv) as Hi. rewrite H1, H2, H3 in Hi. cbn in Hi. by apply Hi. }
  pose proof (iv_ring _ _ _ _ Hinv) as Hr. pose proof (iv_exit _ _ _ _ Hinv) as Hex.
  destruct (s_main s) as [ |fd p|fd|fd|fd|fd|fd|fd| | | | |i| | ] eqn:Em; try done; lsimpl.
  - destruct input as [[fd k]|]; unfold server_request; lsimpl; (split; [|done]); [|by apply Hgo].
    cbn. destruct (nr_threads (s_sv s) =? 0); by apply Hgo.
  - eapply wlp_mono; [apply on_world_frame|]. intros next s' (E1 & E2 & E3 & E4). lsimpl. unfold shows. cbn. rewrite E1, E2, E3.
    split; [|done]. destruct next; by apply Hgo.
  - apply bool_decide_eq_true in Hready. split; [|done]. apply (inv_main _ _ _ _ (M_test fd) Hinv); [by right|done..].
  - destruct (Z.eqb_spec (request_counter (s_sv s)) (max_requests (s_sv s))) as [Hz|Hz]; lsimpl.
    { split; [|done]. apply (inv_main _ _ _ _ (M_wait fd) Hinv); [by left|done..]. }
    pose proof (rg_counter _ Hr). apply wp_wlp. assert (Hl : s_lock s = Some Main) by by apply (iv_lock_main _ _ _ _ Hinv).
    eapply wp_mono; [apply send_to_buffer_spec; [done|lia]|]. intros [] s' (cells & Hr' & Hq & ->). wsimpl.
    split; [|by split_and!]. cbn. rewrite Hl in Hinv. pose proof (inv_sent _ fd cells _ _ Hinv Hr' eq_refl) as Hinv'.
    apply (inv_main _ _ _ _ M_poll Hinv'); done.
  - split; [|done]. apply (inv_main _ _ _ _ (M_waiting fd) Hinv); [done| |done..].
    intros _. by apply (iv_wait_main _ _ _ _ Hinv).
  - apply bool_decide_eq_true in Hready. split; [|done]. apply (inv_main _ _ _ _ (M_exiting fd) Hinv); [by right|done..].
  - cbn in Hex. rewrite Hex. lsimpl. split; [|done]. apply (inv_main _ _ _ _ (M_test fd) Hinv); [by left|done..].
  - split; [|done]. by apply inv_exit.
  - unfold broadcast_empty. lsimpl. split; [|done]. apply inv_wake_workers. by apply Hgo.
  - unfold broadcast_full. lsimpl. split; [|done]. by apply Hgo.
  - destruct (Z.of_nat i <? nr_threads (s_sv s)); lsimpl; (split; [|done]); by apply Hgo.
  - eapply (wlp_mono _ _ (fun _ s' => s_sv s' = s_sv s /\ s_lock s' = s_lock s /\ s_workers s' = s_workers s)).
    { destruct (0 <? _); [|by lsimpl]. destruct (cache_destroy _) as [[[] m]|f]; by lsimpl. }
    intros [] s' (E1 & E2 & E3). lsimpl. unfold shows. cbn. rewrite E1, E2, E3. split; [|done]. by apply Hgo.
Qed.
End preserve.

Lemma step_inv fs s ev s' : inv s -> step fs s ev s' -> inv s' /\ shows ev (s_sv s) (s_sv s').
Proof.
  intros Hinv Hstep. destruct Hstep as [i w s ev s' Hi Hr E|input s ev s' Hr E|i s Hi|s fd Hm].
  - apply (wlp_run _ _ _ _ (fun ev s' => inv s' /\ shows ev (s_sv s) (s_sv s')) E). by apply worker_step_inv.
  - apply (wlp_run _ _ _ _ (fun ev s' => inv s' /\ shows ev (s_sv s) (s_sv s')) E). by apply main_step_inv.
  - split; [|done]. apply (inv_worker _ _ _ _ i W_waiting W_woken Hinv Hi); done.
  - split; [|done]. unfold inv in Hinv. rewrite Hm in Hinv. apply (inv_main _ _ _ _ (M_woken fd) Hinv); done.
Qed.

(** every run from the start *)
Definition accepted (tr : list event) : list Z := omap (fun ev => match ev with Accepted_fd fd => Some fd | _ => None end) tr.
Definition taken (tr : list event) : list Z := omap (fun ev => match ev with Taken_fd fd => Some fd | _ => None end) tr.

Lemma start_inv nr max cache s : 0 <= nr < 2147483648 -> 0 <= max < 2147483648 -> server_init nr max cache = Val s ->
  inv s /\ queued (s_sv s) = [].
Proof.
  intros Hnr Hmax Hs.
  assert (E : exists m, s = mk_st (if 0 <? max then mk_server nr max cache false (Some ∅) 0 0 0 else server_basic_init nr max cache)
    None (replicate (Z.to_nat nr) W_lock) M_poll m ∅).
  { unfold server_init in Hs. destruct (0 <? cache); injection Hs as <-; eexists; done. }
  destruct E as [m ->]. split; [|by destruct (0 <? max)]. unfold inv. cbn [s_sv s_lock s_workers s_main].
  assert (Hw : forall i w, replicate (Z.to_nat nr) W_lock !! i = Some w -> w = W_lock).
  { by intros i w [-> _]%lookup_replicate. }
  assert (Hsv : forall sv, max_requests sv = max -> request_counter sv = 0 -> exiting sv = false -> nr_threads sv = nr -> ring sv ->
    inv_of sv None (replicate (Z.to_nat nr) W_lock) M_poll).
  { intros sv E1 E2 E3 E4 Hr. split; try done.
    - by intros i w ->%Hw.
    - intros i ?%Hw. done.
    - rewrite length_replicate. lia. }
  destruct (Z.ltb_spec 0 max); apply Hsv; try done; (split; cbn; [lia|lia|]); intros ?; [|lia].
  exists ∅. split; [done|]. split; [lia|]. split; [done|]. intros k Hk. lia.
Qed.

Lemma run_inv fs s tr s' : inv s -> queued (s_sv s) = [] -> run fs s tr s' ->
  inv s' /\ accepted tr = taken tr ++ queued (s_sv s') /\ nr_threads (s_sv s') = nr_threads (s_sv s) /\
  max_requests (s_sv s') = max_requests (s_sv s).
Proof.
  intros Hinv Hq Hrun. induction Hrun as [s|s tr s1 ev s2 Hrun IH Hstep]; [by rewrite Hq|].
  destruct (IH Hinv Hq) as (Hinv1 & E & E1 & E2). destruct (step_inv _ _ _ _ Hinv1 Hstep) as (Hinv2 & E3 & E4 & Hs).
  split; [done|]. rewrite E3, E4. split; [|done].
  unfold accepted, taken in *. rewrite !omap_app, E. destruct ev as [[fd|fd| ]|]; cbn in *; rewrite ?app_nil_r.
  - by rewrite Hs, app_assoc.
  - by rewrite Hs, <- app_assoc.
  - by rewrite Hs.
  - by rewrite Hs.
Qed.

(** ** Who can run *)

Definition can_run (s : st) : Prop :=
  (exists i w, s_workers s !! i = Some w /\ worker_ready (s_lock s) w = true) \/ exists input, main_ready s input = true.

(** while the main thread has a request to hand over, some thread is not blocked *)
Lemma requesting_can_run s : inv s -> requesting (s_main s) = true -> 0 < max_requests (s_sv s) -> 0 < nr_threads (s_sv s) ->
  can_run s.
Proof.
  intros [] Hm Hmax Hnr. unfold can_run, main_ready. destruct (s_lock s) as [[|i]|] eqn:El.
  - right. exists None. assert (Hl : main_has_lock (s_main s) = true) by by apply iv_lock_main0. by destruct (s_main s).
  - left. destruct (iv_lock_worker0 i eq_refl) as [w Hw]. exists i, w. split; [done|].
    assert (Hl : has_lock w = true) by by apply (iv_lock0 i w Hw). by destruct w.
  - assert (Hnl : main_has_lock (s_main s) = false).
    { destruct (main_has_lock (s_main s)); [|done]. by specialize (proj1 iv_lock_main0 eq_refl). }
    destruct (s_main s) as [ |?|fd|fd|fd|fd|fd|fd| | | | |?| | ] eqn:Em; try done; try (right; by exists None).
    left. destruct (s_workers s) as [|w ws]; [cbn in *; lia|]. exists 0%nat, w. split; [done|].
    specialize (iv_wait_main0 eq_refl). cbn in iv_exit0.
    assert (Hc : waits w = false).
    { destruct (waits w) eqn:E; [|done]. specialize (iv_wait0 0%nat w eq_refl E). lia. }
    assert (Ha : w <> W_exited).
    { intros ->. specialize (iv_alive0 0%nat eq_refl). congruence. }
    assert (Hh : has_lock w = false).
    { destruct (has_lock w) eqn:E; [|done]. by apply (iv_lock0 0%nat w eq_refl) in E. }
    by destruct w.
Qed.

(** with a worker that waits, [server_exit] waits for ever, unless a worker is woken
    without a signal *)
Lemma join_stuck fs s i : s_main s = M_join i -> Z.of_nat i < nr_threads (s_sv s) -> s_workers s !! i = Some W_waiting ->
  Forall (fun w => w = W_waiting \/ w = W_exited) (s_workers s) ->
  forall ev s', step fs s ev s' -> ev = Some Spurious.
Proof.
  intros Hm Hi Hw Hall ev s' Hstep. destruct Hstep as [j w s ev s' Hj Hr E|input s ev s' Hr E|j s Hj|s fd Hm2]; try done.
  - rewrite Forall_lookup in Hall. by destruct (Hall j w Hj) as [-> | ->].
  - unfold main_ready in Hr. by rewrite Hm, (proj2 (Z.ltb_lt _ _) Hi), Hw in Hr.
Qed.

(** ** Schedules *)

Inductive action : Type :=
  | Run_worker (i : nat)
  | Run_main (input : option (Z * conn)).

(** the events and the state after the actions, when all of them can be taken *)
Fixpoint schedule (fs : list Z -> option file_info) (l : list action) (s : st) : option (list event * st) :=
  match l with
  | [] => Some ([], s)
  | a :: l' =>
      let r := match a with
        | Run_worker i =>
            w ← s_workers s !! i;
            if worker_ready (s_lock s) w then Some (worker_step fs i w s) else None
        | Run_main input => if main_ready s input then Some (main_step fs input s) else None
        end in
      match r with
      | Some (Val (ev, s')) => '(tr, s'') ← schedule fs l' s'; Some (option_list ev ++ tr, s'')
      | _ => None
      end
  end.

Lemma run_cons fs s s1 ev tr s2 : step fs s ev s1 -> run fs s1 tr s2 -> run fs s (option_list ev ++ tr) s2.
Proof.
  intros Hstep Hrun. induction Hrun as [s1|s1 tr s2 ev2 s3 Hrun IH Hstep2].
  - rewrite app_nil_r. apply (run_step fs s [] s ev s1); [constructor|done].
  - rewrite app_assoc. eapply run_step; [by apply IH|done].
Qed.

Lemma schedule_run fs l s tr s' : schedule fs l s = Some (tr, s') -> run fs s tr s'.
Proof.
  revert s tr. induction l as [|a l IH]; intros s tr; cbn [schedule].
  - intros [= <- <-]. constructor.
  - assert (Hrest : forall ev s1, step fs s ev s1 ->
      ('(tr, s'') ← schedule fs l s1; Some (option_list ev ++ tr, s'')) = Some (tr, s') -> run fs s tr s').
    { intros ev s1 Hstep. destruct (schedule fs l s1) as [[tr1 s2]|] eqn:E; cbn; [|done]. intros [= <- ->].
      eapply run_cons; [done|]. by apply IH. }
    destruct a as [i|input].
    + destruct (s_workers s !! i) as [w|] eqn:Hw; cbn; [|done]. destruct (worker_ready (s_lock s) w) eqn:Hr; [|done].
      destruct (worker_step fs i w s) as [[ev s1]|f] eqn:E; [|done]. apply Hrest. by eapply step_worker.
    + destruct (main_ready s input) eqn:Hr; [|done].
      destruct (main_step fs input s) as [[ev s1]|f] eqn:E; [|done]. apply Hrest. by eapply step_main.
Qed.
