(* ===== verification/ClientSpec.v ===== *)
(** * What the clients read and write

    Numbers in decimal are read back; the header and the body of a response, and the
    lines of an index file, are read as they were written, in whatever pieces they
    arrive. *)

From stdpp Require Import base gmap list strings.
From Stdlib Require Import ZArith Lia DecimalString DecimalPos.
From S2P Require Import Prelude Words Numbers Cache Rio Request Client RioSpec RequestSpec.
#[local] Open Scope Z_scope.

(** ** Numbers *)

Definition no_digit (l : list Z) : Prop := match l with x :: _ => isdigit x = false | [] => True end.

Lemma digits_end acc l : no_digit l -> digits acc l = (acc, l).
Proof. destruct l as [|x l]; [done|]. cbn. by intros ->. Qed.

Lemma bytes_of_cons c s : bytes_of (String c s) = Z.of_nat (Ascii.nat_of_ascii c) :: bytes_of s.
Proof. done. Qed.
Lemma digits_cons acc x l : isdigit x = true -> digits acc (x :: l) = digits (10 * acc + (x - 48)) l.
Proof. cbn. by intros ->. Qed.

Ltac ascii_value := match goal with |- context [Z.of_nat ?n] => let v := eval vm_compute in (Z.of_nat n) in change (Z.of_nat n) with v end.

Lemma digits_acc d acc l : no_digit l ->
  digits (Zpos acc) (bytes_of (NilEmpty.string_of_uint d) ++ l) = (Zpos (Pos.of_uint_acc d acc), l).
Proof.
  intros Hl. revert acc. induction d; intros acc; cbn [NilEmpty.string_of_uint]; [by apply digits_end|..];
    rewrite bytes_of_cons; cbn [app]; rewrite digits_cons by done; cbn [Pos.of_uint_acc]; rewrite <- IHd; f_equal; ascii_value; lia.
Qed.

Lemma digits_uint d l : no_digit l -> digits 0 (bytes_of (NilEmpty.string_of_uint d) ++ l) = (Z.of_N (Pos.of_uint d), l).
Proof.
  intros Hl. induction d; cbn [NilEmpty.string_of_uint]; [by apply digits_end|..];
    rewrite bytes_of_cons; cbn [app]; rewrite digits_cons by done; cbn [Pos.of_uint]; [exact IHd|by apply (digits_acc _ _ l)..].
Qed.

Lemma to_uint_not_nil p : Pos.to_uint p <> Decimal.Nil.
Proof. intros E. pose proof (DecimalPos.Unsigned.of_to p) as H. rewrite E in H. done. Qed.

Lemma dec_pos p : dec (Zpos p) = bytes_of (NilEmpty.string_of_uint (Pos.to_uint p)).
Proof. unfold dec. cbn [Z.to_int NilZero.string_of_int]. pose proof (to_uint_not_nil p). by destruct (Pos.to_uint p). Qed.

Lemma digits_dec z l : 0 <= z -> no_digit l -> digits 0 (dec z ++ l) = (z, l).
Proof.
  intros Hz Hl. destruct z as [|p|p]; [|rewrite dec_pos|lia].
  - change (dec 0) with [48]. cbn [app]. rewrite digits_cons by done. by apply digits_end.
  - by rewrite digits_uint, DecimalPos.Unsigned.of_to.
Qed.

(** every character of a number is a digit, and there is one *)
Lemma uint_digits d : Forall (fun x => isdigit x = true) (bytes_of (NilEmpty.string_of_uint d)).
Proof. induction d; cbn [NilEmpty.string_of_uint]; [constructor|..]; rewrite bytes_of_cons; by constructor. Qed.
Lemma dec_digits z : 0 <= z -> Forall (fun x => isdigit x = true) (dec z).
Proof. intros Hz. destruct z as [|p|p]; [by repeat constructor|rewrite dec_pos; apply uint_digits|lia]. Qed.
Lemma dec_ahead z : 0 <= z -> exists x l, dec z = x :: l /\ isdigit x = true.
Proof.
  intros Hz. pose proof (dec_digits z Hz) as H. destruct z as [|p|p]; [by exists 48, []| |lia].
  destruct (dec (Zpos p)) as [|x l] eqn:E; [|exists x, l; by inversion H].
  rewrite dec_pos in E. pose proof (to_uint_not_nil p). by destruct (Pos.to_uint p).
Qed.

Lemma digit_facts x : isdigit x = true -> 48 <= x <= 57.
Proof. unfold isdigit. rewrite andb_true_iff, !Z.leb_le. lia. Qed.

Lemma strto_dec z l : 0 <= z -> no_digit l -> strto (dec z ++ l) = (false, z, l).
Proof.
  intros Hz Hl. pose proof (digits_dec z l Hz Hl) as Hd. destruct (dec_ahead z Hz) as (x & r & E & Hx). rewrite E in *.
  pose proof (digit_facts x Hx). unfold strto. cbn [app skip_space] in *.
  assert (Hs : isspace x = false).
  { unfold isspace. rewrite orb_false_iff, andb_false_iff. rewrite Z.eqb_neq, !Z.leb_gt. lia. }
  rewrite Hs. rewrite (proj2 (Z.eqb_neq x 45)), (proj2 (Z.eqb_neq x 43)) by lia. by rewrite Hx, Hd.
Qed.
Lemma strtoll_dec z l : 0 <= z <= LLONG_MAX -> no_digit l -> strtoll (dec z ++ l) = (z, l).
Proof. intros Hz Hl. unfold strtoll. rewrite strto_dec by (done || lia). f_equal. unfold LLONG_MIN, LLONG_MAX in *. lia. Qed.
Lemma strtoull_dec z l : 0 <= z <= ULLONG_MAX -> no_digit l -> strtoull (dec z ++ l) = (z, l).
Proof. intros Hz Hl. unfold strtoull. rewrite strto_dec by (done || lia). by rewrite (proj2 (Z.ltb_ge _ _)) by lia. Qed.
Lemma atoi_dec z l : 0 <= z < 2147483648 -> no_digit l -> atoi (dec z ++ l) = z.
Proof. intros Hz Hl. unfold atoi. rewrite strtoll_dec by (done || unfold LLONG_MAX; lia). cbn. apply s32_small. lia. Qed.

Lemma ahead_dec z l : 0 <= z -> number_ahead (dec z ++ l) = true /\ skip_space (dec z ++ l) = dec z ++ l.
Proof.
  intros Hz. destruct (dec_ahead z Hz) as (x & r & -> & Hx). pose proof (digit_facts x Hx). cbn. rewrite Hx. split; [done|].
  assert (Hs : isspace x = false).
  { unfold isspace. rewrite orb_false_iff, andb_false_iff. rewrite Z.eqb_neq, !Z.leb_gt. lia. }
  by rewrite Hs.
Qed.

(** ** [sscanf] *)

Lemma scan_lits ls ds l : scan (map Lit ls ++ ds) (ls ++ l) = scan ds l.
Proof. induction ls as [|x ls IH]; [done|]. cbn. by rewrite Z.eqb_refl. Qed.
Lemma scan_space ds l : scan (White :: ds) ([32] ++ l) = scan ds (skip_space l).
Proof. done. Qed.
Lemma scan_d z ds l : 0 <= z < 2147483648 -> no_digit l -> scan (Percent_d :: ds) (dec z ++ l) = Int z :: scan ds l.
Proof.
  intros Hz Hl. destruct (ahead_dec z l ltac:(lia)) as [H1 H2]. cbn [scan]. rewrite H2, H1, strtoll_dec by (done || unfold LLONG_MAX; lia).
  cbn [fst snd]. by rewrite s32_small by lia.
Qed.
Lemma scan_u z ds l : 0 <= z < 4294967296 -> no_digit l -> scan (Percent_u :: ds) (dec z ++ l) = Int z :: scan ds l.
Proof.
  intros Hz Hl. destruct (ahead_dec z l ltac:(lia)) as [H1 H2]. cbn [scan]. rewrite H2, H1, strtoull_dec by (done || unfold ULLONG_MAX; lia).
  cbn [fst snd]. by rewrite u32_small by lia.
Qed.

(** ** Reading from the connection *)

Lemma on_connection_spec {A} (x : M source A) t (P : A -> terminal -> Prop) :
  wp x (t_source t) (fun a s => P a (mk_terminal s (t_printed t) (t_stdout t))) -> wp (on_connection x) t P.
Proof. intros H. unfold on_connection. by apply wp_zoom. Qed.
Lemma on_stdout_spec {A} (x : M sink A) t (P : A -> terminal -> Prop) :
  wp x (t_stdout t) (fun a k => P a (mk_terminal (t_source t) (t_printed t) k)) -> wp (on_stdout x) t P.
Proof. intros H. unfold on_stdout. by apply wp_zoom. Qed.

(** some bytes, when they fit the buffer *)
Lemma readlineb_some n s line : good s -> 0 < n < 2147483648 -> (pending s <> []) -> first_line (Z.to_nat n) (pending s) = line -> zlen line < n ->
  wp (rio_readlineb n n) s (fun r s' => r = Some (zlen line, Some line) /\ good s' /\ pending s' = drop (length line) (pending s)).
Proof.
  intros Hs Hn Hp <- Hlen. unfold rio_readlineb. wsimpl. eapply wp_mono; [by apply collect_line|]. intros r s' (-> & Hs' & Hp').
  destruct (pending s) as [|x l]; [done|]. rewrite (proj2 (Z.leb_gt _ _) Hlen). by wsimpl.
Qed.

Lemma read_buf_line buf t line rest : good (t_source t) -> pending (t_source t) = line ++ rest -> is_line line -> zlen line < MAXBUF ->
  wp (read_buf MAXBUF buf) t (fun r t' => r = (zlen line, Some line) /\ good (t_source t') /\ pending (t_source t') = rest /\
    t_printed t' = t_printed t /\ t_stdout t' = t_stdout t).
Proof.
  intros Hs Hp Hline Hlen. unfold read_buf, Rio_readlineb. wsimpl. apply on_connection_spec. wsimpl.
  eapply wp_mono; [by apply (readlineb_line MAXBUF _ line rest)|]. intros r s' (-> & Hs' & Hp'). by wsimpl.
Qed.
Lemma read_buf_some buf t line : good (t_source t) -> (pending (t_source t) <> []) -> first_line (Z.to_nat MAXBUF) (pending (t_source t)) = line ->
  zlen line < MAXBUF ->
  wp (read_buf MAXBUF buf) t (fun r t' => r = (zlen line, Some line) /\ good (t_source t') /\
    pending (t_source t') = drop (length line) (pending (t_source t)) /\ t_printed t' = t_printed t /\ t_stdout t' = t_stdout t).
Proof.
  intros Hs Hp Hline Hlen. unfold read_buf, Rio_readlineb. wsimpl. apply on_connection_spec. wsimpl.
  eapply wp_mono; [by apply (readlineb_some MAXBUF _ line)|]. intros r s' (-> & Hs' & Hp'). by wsimpl.
Qed.
Lemma read_buf_eof buf t : good (t_source t) -> pending (t_source t) = [] ->
  wp (read_buf MAXBUF buf) t (fun r t' => r = (0, buf) /\ good (t_source t') /\ pending (t_source t') = [] /\
    t_printed t' = t_printed t /\ t_stdout t' = t_stdout t).
Proof.
  intros Hs Hp. unfold read_buf, Rio_readlineb. wsimpl. apply on_connection_spec. wsimpl.
  eapply wp_mono; [by apply (readlineb_eof MAXBUF)|]. intros r s' (-> & Hs' & Hp'). by wsimpl.
Qed.

(** ** The header *)

(** what the lines behind the first one set a tag to *)
Definition tags (fmt : list Z) (lines : list (list Z)) (old : Z) : Z := fold_left (fun old line => tag line fmt old) lines old.
Definition shown (print : bool) (hdrs : list (list Z)) : list Z :=
  if print then concat (map (fun h => bytes_of "Header: " ++ cut h) hdrs) else [].

Lemma tags_step fmt hs old : fmt = LENGTH_TAG \/ fmt = CSUM_TAG -> tags fmt (tail hs) (tag (hd CRLF hs) fmt old) = tags fmt hs old.
Proof. intros H. destruct hs as [|h hs]; [|done]. cbn [tail hd tags fold_left]. by destruct H as [-> | ->]. Qed.
#[local] Opaque tag tags.

Lemma shown_cons print h hdrs : shown print (h :: hdrs) = (if print then bytes_of "Header: " ++ cut h else []) ++ shown print hdrs.
Proof. by destruct print. Qed.

(** the line that was read, [h], and the rest of the header *)
Definition at_line (rest : list Z) (hdrs : list (list Z)) (buf : option (list Z)) (n : Z) (t : terminal) : Prop :=
  good (t_source t) /\ match hdrs with
  | [] => buf = Some CRLF /\ pending (t_source t) = rest
  | h :: hdrs' => buf = Some h /\ n = zlen h /\ pending (t_source t) = concat hdrs' ++ CRLF ++ rest
  end.

Lemma read_header_line buf t hdrs rest : good (t_source t) -> pending (t_source t) = concat hdrs ++ CRLF ++ rest -> Forall header hdrs ->
  wp (read_buf MAXBUF buf) t (fun r t' => at_line rest hdrs r.2 r.1 t' /\ r.2 = Some (hd CRLF hdrs) /\
    t_printed t' = t_printed t /\ t_stdout t' = t_stdout t).
Proof.
  intros Hs Hp Hall. destruct crlf_line as [Hc1 Hc2]. destruct hdrs as [|h hdrs].
  - eapply wp_mono; [by apply (read_buf_line buf t CRLF rest)|]. intros r t' (-> & ? & ? & ? & ?). by split_and!.
  - apply Forall_cons in Hall as [(H1 & H2 & _) Hall]. cbn [concat] in Hp. rewrite <- app_assoc in Hp.
    eapply wp_mono; [by eapply (read_buf_line buf t h)|]. intros r t' (-> & ? & ? & ? & ?). by split_and!.
Qed.

Lemma client_headers_spec print t hdrs rest : good (t_source t) -> pending (t_source t) = concat hdrs ++ CRLF ++ rest -> Forall header hdrs ->
  Z.of_nat (length hdrs) < 9223372036854775808 ->
  wp (client_headers print) t (fun r t' => r = (tags LENGTH_TAG (tail hdrs) 0, tags CSUM_TAG (tail hdrs) 0, Some CRLF) /\
    good (t_source t') /\ pending (t_source t') = rest /\ t_printed t' = t_printed t ++ shown print hdrs /\ t_stdout t' = t_stdout t).
Proof.
  intros Hs Hp Hall Hlen. unfold client_headers. wsimpl. eapply wp_mono; [by eapply read_header_line|].
  intros [n buf] t1 (Hat & _ & Hpr & Hso). wsimpl. cbn [fst snd] in Hat.
  apply (wp_while_var (fun v '(n, buf, len, csum) t' => exists hs, v = Z.of_nat (length hs) /\ Forall header hs /\ at_line rest hs buf n t' /\
    tags LENGTH_TAG (tail hs) len = tags LENGTH_TAG (tail hdrs) 0 /\ tags CSUM_TAG (tail hs) csum = tags CSUM_TAG (tail hdrs) 0 /\
    t_printed t' ++ shown print hs = t_printed t ++ shown print hdrs /\ t_stdout t' = t_stdout t) (Z.of_nat (length hdrs))).
  - exists hdrs. by rewrite Hpr.
  - change (2 ^ 64) with 18446744073709551616. lia.
  - clear. intros v [[[n buf] len] csum] t' (hs & -> & Hall & [Hs Hat] & Hlen & Hcs & Hpr & Hso) _. destruct hs as [|h hs].
    + destruct Hat as [-> Hp]. wsimpl. eapply wp_deref; [done|]. rewrite decide_True by done. wsimpl. cbn [tail] in *.
      rewrite <- Hlen, <- Hcs, <- Hpr. change (shown print []) with (if print then @nil Z else []).
      replace (t_printed t' ++ (if print then [] else [])) with (t_printed t') by (by destruct print; rewrite app_nil_r). by split_and!.
    + destruct Hat as (-> & -> & Hp). apply Forall_cons in Hall as [(H1 & H2 & H3) Hall]. wsimpl. eapply wp_deref; [done|].
      rewrite decide_False by done. rewrite (proj2 (Z.ltb_lt 0 (zlen h))).
      2: { destruct (is_line_cons h H1) as (x & l & ->). rewrite zlen_cons. pose proof (zlen_nonneg l). lia. }
      cbn [negb]. wsimpl.
      apply (wp_mono _ _ (fun _ t1 => t_source t1 = t_source t' /\ t_stdout t1 = t_stdout t' /\ t_printed t1 ++ shown print hs = t_printed t' ++ shown print (h :: hs))).
      { rewrite shown_cons. destruct print; unfold printf; wsimpl; cbn; by rewrite <- ?app_assoc. }
      intros _ t1 (E1 & E2 & E3). wsimpl. rewrite <- E1 in Hs, Hp. eapply wp_mono; [by eapply read_header_line|].
      intros [n buf] t2 (Hat & Hbuf & Hpr2 & Hso2). cbn [fst snd] in *. wsimpl. rewrite Hbuf. wsimpl. eapply wp_deref; [done|]. wsimpl.
      exists (Z.of_nat (length hs)). cbn [length]. split; [|lia]. exists hs. rewrite <- Hbuf. cbn [tail] in *.
      split; [reflexivity|]. split; [exact Hall|]. split; [exact Hat|]. split; [rewrite <- Hlen; apply tags_step; by left|].
      split; [rewrite <- Hcs; apply tags_step; by right|]. split; [by rewrite Hpr2, E3|by rewrite Hso2, E2].
Qed.

#[local] Transparent tag tags.

(** ** The body *)

(** the lines of a text fit the buffer with their terminator *)
Inductive fits : list Z -> Prop :=
  | fits_end : fits []
  | fits_line l line : l <> [] -> first_line (Z.to_nat MAXBUF) l = line -> zlen line < MAXBUF -> fits (drop (length line) l) -> fits l.

Lemma first_line_prefix n l : l = first_line n l ++ drop (length (first_line n l)) l.
Proof.
  revert l. induction n as [|n IH]; intros [|x l]; cbn [first_line]; try done. destruct (x =? 10); cbn; [done|]. f_equal. apply IH.
Qed.
Lemma first_line_cons n x l : (0 < n)%nat -> first_line n (x :: l) <> [].
Proof. destruct n; [lia|]. cbn. by destruct (x =? 10). Qed.

Lemma fits_short l : zlen l < MAXBUF -> fits l.
Proof.
  intros Hl. remember (length l) as n eqn:Hn. revert l Hl Hn. induction (Nat.lt_wf_0 n) as [n _ IH]. intros l Hl ->.
  destruct l as [|x l]; [apply fits_end|]. assert (Hp := first_line_prefix (Z.to_nat MAXBUF) (x :: l)).
  eapply fits_line; [done|reflexivity| |].
  - rewrite Hp, zlen_app in Hl. pose proof (zlen_nonneg (drop (length (first_line (Z.to_nat MAXBUF) (x :: l))) (x :: l))). lia.
  - assert (Hne : first_line (Z.to_nat MAXBUF) (x :: l) <> []) by (by apply first_line_cons; change MAXBUF with 8192; lia).
    assert (Hlt : (length (drop (length (first_line (Z.to_nat MAXBUF) (x :: l))) (x :: l)) < length (x :: l))%nat).
    { rewrite length_drop. destruct (first_line _ _); [done|]. cbn [length]. lia. }
    eapply IH; [exact Hlt| |reflexivity]. rewrite zlen_length in *. lia.
Qed.

(** the sum of the client goes on where that of the last line ended *)
Definition sum (csum : Z) (l : list Z) : Z := fold_left (fun csum x => u32 (csum + u8 x)) l csum.
Lemma sum_app csum l1 l2 : sum csum (l1 ++ l2) = sum (sum csum l1) l2.
Proof. apply fold_left_app. Qed.

Lemma client_body_spec print buf t content : good (t_source t) -> pending (t_source t) = content -> fits content -> zlen content < 2147483648 ->
  takes (t_stdout t) ->
  wp (client_body print buf) t (fun r t' => r = (zlen content, checksum content) /\ good (t_source t') /\ pending (t_source t') = [] /\
    t_printed t' = t_printed t /\ takes (t_stdout t') /\ written (t_stdout t') = written (t_stdout t) ++ (if print then content else [])).
Proof.
  intros Hs Hp Hf Hlen Ht. unfold client_body. pose proof (zlen_nonneg content).
  apply (wp_while_var (fun v '(_, received, csum) t' => exists rest, v = zlen rest /\ good (t_source t') /\ pending (t_source t') = rest /\ fits rest /\
    0 <= received /\ received + zlen rest = zlen content /\ sum csum rest = checksum content /\ t_printed t' = t_printed t /\ takes (t_stdout t') /\
    written (t_stdout t') ++ (if print then rest else []) = written (t_stdout t) ++ (if print then content else [])) (zlen content)).
  - exists content. split_and!; try done; lia.
  - change (2 ^ 64) with 18446744073709551616. lia.
  - clear Hs Hp Hf Ht buf. intros v [[buf received] csum] t' (rest & -> & Hs & Hp & Hf & Hr & Hsz & Hsum & Hpr & Ht & Hw) _.
    destruct Hf as [|l line Hne Hline Hfit Hf]; wsimpl.
    + eapply wp_mono; [by apply read_buf_eof|]. intros [n buf'] t1 (Hr1 & Hs1 & Hp1 & Hpr1 & Hso1). injection Hr1 as -> ->. wsimpl.
      change (0 <? 0) with false. cbv beta iota. wsimpl.
      apply (wp_mono _ _ (fun _ t2 => t_source t2 = t_source t1 /\ t_printed t2 = t_printed t1 /\ takes (t_stdout t2) /\ written (t_stdout t2) = written (t_stdout t1))).
      { destruct print; wsimpl; [|split_and!; rewrite ?Hso1; done]. apply on_stdout_spec. eapply wp_mono; [apply Rio_write_spec; [by rewrite Hso1|done]|].
        intros [] k [Ht2 Hw2]. rewrite app_nil_r in Hw2. rewrite Hso1 in *. done. }
      intros _ t2 (E1 & E2 & E3 & E4). unfold add_int. rewrite zlen_nil in Hsz. rewrite (proj2 (Z.ltb_ge _ _)) by lia. wsimpl.
      rewrite E1, E2, E4, Hso1, Hpr1, Hpr. replace (received + 0) with (zlen content) by lia. cbn [sum fold_left] in *. rewrite <- Hsum.
      split_and!; try done. rewrite <- Hw. destruct print; by rewrite app_nil_r.
    + eapply wp_mono; [apply (read_buf_some buf t' line); [done|by rewrite Hp|by rewrite Hp|done]|].
      intros [n buf'] t1 (Hr1 & Hs1 & Hp1 & Hpr1 & Hso1). injection Hr1 as -> ->. rewrite Hp in Hp1. wsimpl.
      assert (El := first_line_prefix (Z.to_nat MAXBUF) l). rewrite Hline in El. assert (Hl := Hsz). rewrite El, zlen_app in Hl.
      pose proof (zlen_nonneg (drop (length line) l)) as Hd. assert (Hpos : 0 < zlen line).
      { destruct l as [|x l]; [done|]. pose proof (first_line_cons (Z.to_nat MAXBUF) x l ltac:(change MAXBUF with 8192; lia)) as Hc.
        rewrite Hline in Hc. destruct line as [|y line]; [done|]. rewrite zlen_cons. pose proof (zlen_nonneg line). lia. }
      rewrite (proj2 (Z.ltb_lt 0 (zlen line)) Hpos). cbv beta iota. wsimpl. eapply wp_deref; [done|]. apply wp_buf_read; [lia..|]. rewrite zsub_all by done. wsimpl.
      apply (wp_mono _ _ (fun _ t2 => t_source t2 = t_source t1 /\ t_printed t2 = t_printed t1 /\ takes (t_stdout t2) /\
        written (t_stdout t2) = written (t_stdout t1) ++ (if print then line else []))).
      { destruct print; wsimpl; [|split_and!; rewrite ?Hso1, ?app_nil_r; done]. apply on_stdout_spec.
        eapply wp_mono; [apply Rio_write_spec; [by rewrite Hso1|]; change MAXBUF with 8192 in *; lia|]. intros [] k [Ht2 Hw2]. done. }
      intros _ t2 (E1 & E2 & E3 & E4). wsimpl. unfold add_int. rewrite (proj2 (Z.ltb_ge _ _)) by lia. wsimpl.
      exists (zlen (drop (length line) l)). split; [|lia]. exists (drop (length line) l). rewrite E1, E2, E4, Hso1, Hpr1, Hpr.
      rewrite El, sum_app in Hsum. split_and!; try done; try lia. rewrite <- Hw, <- app_assoc. destruct print; [|done]. by rewrite <- El.
Qed.

(** ** A response of the server *)

Definition response_lines (filetype : list Z) (size csum : Z) : list (list Z) :=
  [bytes_of "HTTP/1.0 200 OK" ++ CRLF; bytes_of "Server: OS Web Server" ++ CRLF; bytes_of "Content-Type: " ++ filetype ++ CRLF;
   bytes_of "Content-Length: " ++ dec size ++ CRLF; bytes_of "Content-Csum: " ++ dec csum ++ CRLF].

Lemma response_header_lines filetype size csum : response_header filetype size csum = concat (response_lines filetype size csum) ++ CRLF.
Proof. unfold response_header, response_lines. cbn [concat]. by rewrite app_nil_r, <- !app_assoc. Qed.

(** characters of a line of the header *)
Definition plain (l : list Z) : Prop := Forall (fun x => x <> 0 /\ x <> 10) l.

Lemma cut_plain l r : plain l -> cut (l ++ r) = l ++ cut r.
Proof. induction 1 as [|x l [Hx _] _ IH]; [done|]. cbn. by rewrite (proj2 (Z.eqb_neq x 0)), IH by done. Qed.
Lemma cut_crlf l : plain l -> cut (l ++ CRLF) = l ++ CRLF.
Proof. intros H. by rewrite cut_plain. Qed.
Lemma plain_app l1 l2 : plain l1 -> plain l2 -> plain (l1 ++ l2).
Proof. apply Forall_app_2. Qed.
Lemma plain_dec z : 0 <= z -> plain (dec z).
Proof. intros Hz. eapply Forall_impl; [by apply dec_digits|]. intros x Hx%digit_facts. lia. Qed.

Lemma header_plain l : plain l -> l <> [] -> zlen l + 2 < MAXLINE -> header (l ++ CRLF).
Proof.
  intros Hl Hne Hlen. split; [|split].
  - exists (l ++ [13]). rewrite <- app_assoc. split; [done|]. intros [Hin|Hin]%elem_of_app; [|by apply list_elem_of_singleton in Hin].
    unfold plain in Hl. rewrite Forall_forall in Hl. by destruct (Hl 10).
  - rewrite zlen_app. change (zlen CRLF) with 2. lia.
  - rewrite cut_crlf by done. intros E. apply (f_equal length) in E. rewrite length_app in E. cbn in E. destruct l; [done|cbn in E; lia].
Qed.

Lemma tag_length size : 0 <= size < 2147483648 -> forall old, tag (bytes_of "Content-Length: " ++ dec size ++ CRLF) LENGTH_TAG old = size.
Proof.
  intros Hs old. unfold tag. rewrite app_assoc, cut_crlf, <- app_assoc.
  2: { apply plain_app; [by repeat (constructor; [by vm_compute|])|apply plain_dec; lia]. }
  unfold sscanf. change (directives LENGTH_TAG) with (map Lit (bytes_of "Content-Length:") ++ [White; Percent_d; White]).
  change (bytes_of "Content-Length: ") with (bytes_of "Content-Length:" ++ [32]). rewrite <- app_assoc, scan_lits.
  rewrite scan_space. destruct (ahead_dec size CRLF ltac:(lia)) as [_ ->]. by rewrite scan_d.
Qed.
Lemma tag_csum csum : 0 <= csum < 4294967296 -> forall old, tag (bytes_of "Content-Csum: " ++ dec csum ++ CRLF) CSUM_TAG old = csum.
Proof.
  intros Hs old. unfold tag. rewrite app_assoc, cut_crlf, <- app_assoc.
  2: { apply plain_app; [by repeat (constructor; [by vm_compute|])|apply plain_dec; lia]. }
  unfold sscanf. change (directives CSUM_TAG) with (map Lit (bytes_of "Content-Csum:") ++ [White; Percent_u; White]).
  change (bytes_of "Content-Csum: ") with (bytes_of "Content-Csum:" ++ [32]). rewrite <- app_assoc, scan_lits.
  rewrite scan_space. destruct (ahead_dec csum CRLF ltac:(lia)) as [_ ->]. by rewrite scan_u.
Qed.
Lemma tag_other csum old : 0 <= csum -> tag (bytes_of "Content-Csum: " ++ dec csum ++ CRLF) LENGTH_TAG old = old.
Proof.
  intros Hs. unfold tag. rewrite app_assoc, cut_crlf, <- app_assoc; [done|].
  apply plain_app; [by repeat (constructor; [by vm_compute|])|apply plain_dec; lia].
Qed.

Lemma type_plain name : plain (request_get_file_type name) /\ zlen (request_get_file_type name) <= 10 /\
  forall fmt old, fmt = LENGTH_TAG \/ fmt = CSUM_TAG -> tag (bytes_of "Content-Type: " ++ request_get_file_type name ++ CRLF) fmt old = old.
Proof.
  assert (H : forall l, l = bytes_of "text/html" \/ l = bytes_of "image/gif" \/ l = bytes_of "image/jpeg" \/ l = bytes_of "text/plain" ->
    plain l /\ zlen l <= 10 /\ forall fmt old, fmt = LENGTH_TAG \/ fmt = CSUM_TAG -> tag (bytes_of "Content-Type: " ++ l ++ CRLF) fmt old = old).
  { intros l Hl. destruct Hl as [-> |[-> |[-> | ->]]]; (split; [by repeat (constructor; [by vm_compute|])|]);
      (split; [by vm_compute|]); intros fmt old [-> | ->]; reflexivity. }
  unfold request_get_file_type. repeat (case_match; [apply H; tauto|]). apply H; tauto.
Qed.

Lemma response_headers name size csum : 0 <= size < 2147483648 -> 0 <= csum < 4294967296 ->
  let hdrs := response_lines (request_get_file_type name) size csum in
  Forall header hdrs /\ tags LENGTH_TAG (tail hdrs) 0 = size /\ tags CSUM_TAG (tail hdrs) 0 = csum.
Proof.
  intros Hs Hc. destruct (type_plain name) as (Ht1 & Ht2 & Ht3). cbv zeta.
  pose proof (dec_length size 32 ltac:(lia) ltac:(change (2 ^ Z.of_nat 32) with 4294967296; lia)) as Hd1.
  pose proof (dec_length csum 32 ltac:(lia) ltac:(done)) as Hd2.
  assert (Hp1 := plain_dec size ltac:(lia)). assert (Hp2 := plain_dec csum ltac:(lia)).
  split; [|split].
  - unfold response_lines. repeat (apply Forall_cons; split); [..|apply Forall_nil_2].
    + apply header_plain; [by repeat (constructor; [by vm_compute|])|done|by vm_compute].
    + apply header_plain; [by repeat (constructor; [by vm_compute|])|done|by vm_compute].
    + rewrite app_assoc. apply header_plain; [apply plain_app; [by repeat (constructor; [by vm_compute|])|done]|done|].
      rewrite zlen_app. change (zlen (bytes_of "Content-Type: ")) with 14. change MAXLINE with 8192. lia.
    + rewrite app_assoc. apply header_plain; [apply plain_app; [by repeat (constructor; [by vm_compute|])|done]|done|].
      rewrite zlen_app. change (zlen (bytes_of "Content-Length: ")) with 16. change MAXLINE with 8192. rewrite zlen_length. lia.
    + rewrite app_assoc. apply header_plain; [apply plain_app; [by repeat (constructor; [by vm_compute|])|done]|done|].
      rewrite zlen_app. change (zlen (bytes_of "Content-Csum: ")) with 14. change MAXLINE with 8192. rewrite zlen_length. lia.
  - cbn [tail response_lines tags fold_left]. rewrite tag_other, tag_length by lia. done.
  - cbn [tail response_lines tags fold_left]. by rewrite tag_csum by lia.
Qed.

(** ** [client_print] on a response *)

(** the connection delivers [l], in pieces *)
Record carries (answers : list read_answer) (l : list Z) : Prop := {
  cr_clean : clean answers;
  cr_weight : weight answers < 9223372036854775808;
  cr_bytes : bytes answers = l;
}.

Lemma carries_start r a l : carries a l -> good (with_rio Rio_init (mk_source r a)) /\ pending (with_rio Rio_init (mk_source r a)) = l.
Proof. intros [Hc Hw Hb]. split; [split; cbn; [done|lia|lia]|done]. Qed.

Section response.
Context (name content : list Z) (print : bool) (t : terminal).
Hypothesis Hcarries : carries (src_answers (t_source t)) (response name content).
Hypothesis Hlen : zlen content < 2147483648.
Let hdrs := response_lines (request_get_file_type name) (zlen content) (checksum content).

(** the header is read *)
Lemma print_headers t0 : src_answers (t_source t0) = src_answers (t_source t) -> src_rio (t_source t0) = Rio_init ->
  t_printed t0 = t_printed t -> t_stdout t0 = t_stdout t ->
  wp (client_headers print) t0 (fun r t' => r = (zlen content, checksum content, Some CRLF) /\ good (t_source t') /\
    pending (t_source t') = content /\ t_printed t' = t_printed t ++ shown print hdrs /\ t_stdout t' = t_stdout t).
Proof.
  intros Ha Hr Hp Ho. pose proof (zlen_nonneg content). pose proof (checksum_bound content) as Hcs.
  destruct (response_headers name (zlen content) (checksum content) ltac:(lia) ltac:(done)) as (Hh & Hl & Hc).
  destruct Hcarries as [Hcl Hw Hb]. eapply wp_mono; [apply (client_headers_spec print t0 hdrs content)|].
  - destruct t0 as [[r a] pr so]. cbn [t_source src_answers src_rio t_printed t_stdout] in *. subst. split; cbn; [done|lia|lia].
  - destruct t0 as [[r a] pr so]. cbn [t_source src_answers src_rio t_printed t_stdout] in *. subst. unfold pending. cbn. rewrite Hb. unfold response.
    by rewrite response_header_lines, <- app_assoc.
  - done.
  - done.
  - intros r t' (-> & Hs & Hpe & Hpr & Hso). subst hdrs. rewrite Hl, Hc, Hpr, Hso, Hp, Ho. done.
Qed.

Lemma client_print_spec : fits content -> takes (t_stdout t) ->
  wp (client_print (checksum content) (zlen content) print) t (fun _ t' =>
    t_printed t' = t_printed t ++ shown print hdrs /\ takes (t_stdout t') /\
    written (t_stdout t') = written (t_stdout t) ++ (if print then content else [])).
Proof.
  intros Hf Ht. unfold client_print. wsimpl. apply on_connection_spec. wsimpl.
  eapply wp_mono; [by apply print_headers|]. intros r t1 (-> & Hs & Hp & Hpr & Hso). wsimpl.
  eapply wp_mono; [apply (client_body_spec print _ t1 content); try done; by rewrite Hso|].
  intros r t2 (-> & _ & _ & Hpr2 & Ht2 & Hw2). wsimpl. repeat (apply wp_assert; [apply Z.eqb_refl|try wsimpl]).
  by rewrite Hpr2, Hpr, Hw2, Hso.
Qed.

(** another file than the one that was expected *)
Lemma client_print_other orig_csum orig_length : fits content -> takes (t_stdout t) ->
  orig_csum <> checksum content \/ orig_length <> zlen content ->
  client_print orig_csum orig_length print t = Fault AssertFailed.
Proof.
  intros Hf Ht Ho. unfold client_print. apply fault_bind. apply on_connection_spec. wsimpl.
  apply fault_bind. eapply wp_mono; [by apply print_headers|]. intros r t1 (-> & Hs & Hp & Hpr & Hso). cbv beta iota.
  apply fault_bind. eapply wp_mono; [apply (client_body_spec print _ t1 content); try done; by rewrite Hso|].
  intros r t2 (-> & _). cbv beta iota. destruct (Z.eqb_spec orig_csum (checksum content)) as [E1|E1]; [|done].
  destruct (Z.eqb_spec orig_length (zlen content)) as [E2|E2]; [|done]. naive_solver.
Qed.

(** a first line of the body that does not fit the buffer with its terminator *)
Lemma client_print_overflow orig_csum orig_length : zlen (first_line (Z.to_nat MAXBUF) content) = MAXBUF ->
  client_print orig_csum orig_length print t = Fault Undefined.
Proof.
  intros Hf. unfold client_print. apply fault_bind. apply on_connection_spec. wsimpl.
  apply fault_bind. eapply wp_mono; [by apply print_headers|]. intros r t1 (-> & Hs & Hp & Hpr & Hso). cbv beta iota.
  apply bind_fault. unfold client_body. apply while_fault. cbv beta iota. apply bind_fault. unfold read_buf. apply bind_fault. unfold on_connection, zoom.
  assert (E : Rio_readlineb MAXBUF MAXBUF (t_source t1) = Fault Undefined); [|by rewrite E].
  unfold Rio_readlineb. apply bind_fault. apply (readlineb_overflow MAXBUF); [done|done|by rewrite Hp].
Qed.
End response.

(** ** [client_send] *)

Definition request_line (filename : list Z) : list Z := bytes_of "GET " ++ filename ++ bytes_of " HTTP/1.0" ++ CRLF.
Definition host_line (host : list Z) : list Z := bytes_of "host: " ++ host ++ CRLF.

Lemma client_send_spec host filename k : takes k -> zlen filename + zlen host + 25 < MAXLINE ->
  wp (client_send host filename) k (fun _ k' => takes k' /\ written k' = written k ++ request_line filename ++ host_line host ++ CRLF).
Proof.
  intros Hk Hlen. unfold client_send.
  assert (E : (bytes_of "GET " ++ filename ++ bytes_of " HTTP/1.0" ++ CRLF) ++ bytes_of "host: " ++ host ++ CRLF ++ CRLF =
    request_line filename ++ host_line host ++ CRLF) by (unfold request_line, host_line; by rewrite <- !app_assoc).
  rewrite E. assert (Hl : zlen (request_line filename ++ host_line host ++ CRLF) = zlen filename + zlen host + 25).
  { unfold request_line, host_line. rewrite !zlen_app. change (zlen (bytes_of "GET ")) with 4. change (zlen (bytes_of " HTTP/1.0")) with 9.
    change (zlen (bytes_of "host: ")) with 6. change (zlen CRLF) with 2. lia. }
  rewrite Hl, (proj2 (Z.leb_gt _ _)) by lia. apply Rio_write_spec; [done|]. change MAXLINE with 8192 in *. lia.
Qed.

(** a name that is one word *)
Definition is_word (l : list Z) : Prop := l <> [] /\ Forall (fun x => x <> 0 /\ is_space x = false) l.

Lemma words_of_word w l cur : Forall (fun x => x <> 0 /\ is_space x = false) w -> words_of (w ++ l) cur = words_of l (cur ++ w).
Proof.
  intros Hw. revert cur. induction Hw as [|x w [_ Hx] _ IH]; intros cur; [by rewrite app_nil_r|].
  cbn. by rewrite Hx, IH, <- app_assoc.
Qed.

Lemma word_plain w : is_word w -> plain w.
Proof.
  intros [_ Hw]. eapply Forall_impl; [exact Hw|]. intros x [H1 H2]. split; [done|]. intros ->. done.
Qed.

Lemma request_line_words filename : is_word filename ->
  words_of (cut (request_line filename)) [] = [bytes_of "GET"; filename; bytes_of "HTTP/1.0"].
Proof.
  intros Hf. unfold request_line. rewrite !app_assoc, cut_crlf, <- !app_assoc.
  2: { repeat apply plain_app; [by repeat (constructor; [by vm_compute|])|by apply word_plain|by repeat (constructor; [by vm_compute|])]. }
  change (words_of (bytes_of "GET " ++ filename ++ bytes_of " HTTP/1.0" ++ CRLF) []) with
    (bytes_of "GET" :: words_of (filename ++ bytes_of " HTTP/1.0" ++ CRLF) []).
  destruct Hf as [Hne Hf]. rewrite words_of_word by done. destruct filename as [|x l]; [done|]. reflexivity.
Qed.
