(* ===== verification/FilesetSpec.v ===== *)
(** * File sets are read back as they were made

    [fileset_main] writes an index file whose lines [init_fileset] of the client
    reads; the sums and lengths in it are those of the files. *)

From stdpp Require Import base gmap list strings.
From Stdlib Require DecimalFacts.
From Stdlib Require Import ZArith Lia DecimalString DecimalPos.
From S2P Require Import Prelude Words Numbers Cache Rio Request Client Fileset RioSpec RequestSpec ClientSpec.
#[local] Open Scope Z_scope.

(** ** The length of a number *)

Lemma of_uint_acc_lower d acc : Zpos acc * 10 ^ Z.of_nat (Decimal.nb_digits d) <= Zpos (Pos.of_uint_acc d acc).
Proof.
  revert acc. induction d; intros acc; cbn [Decimal.nb_digits Pos.of_uint_acc]; [lia|..];
    rewrite Nat2Z.inj_succ, Z.pow_succ_r by lia; (eapply Z.le_trans; [|apply IHd]);
    pose proof (Z.pow_pos_nonneg 10 (Z.of_nat (Decimal.nb_digits d)) ltac:(lia) ltac:(lia)); nia.
Qed.

Lemma to_uint_lower p : 10 ^ (Z.of_nat (Decimal.nb_digits (Pos.to_uint p)) - 1) <= Zpos p.
Proof.
  pose proof (Unsigned.of_to p) as Hof. assert (Hto := Unsigned.to_of (Pos.to_uint p)). rewrite Hof in Hto. cbn in Hto.
  assert (Hu : forall d acc, Pos.of_uint_acc d acc = p -> 10 ^ (Z.of_nat (S (Decimal.nb_digits d)) - 1) <= Zpos p).
  { intros d acc <-. rewrite Nat2Z.inj_succ, Z.sub_1_r, Z.pred_succ. eapply Z.le_trans; [|apply of_uint_acc_lower].
    pose proof (Z.pow_pos_nonneg 10 (Z.of_nat (Decimal.nb_digits d)) ltac:(lia) ltac:(lia)). nia. }
  destruct (Pos.to_uint p) as [|d|d|d|d|d|d|d|d|d|d] eqn:E; cbn [Decimal.nb_digits Pos.of_uint] in *; try done;
    try (injection Hof as Hof; by eapply Hu).
  exfalso. rewrite DecimalFacts.unorm_D0 in Hto. assert (Hd : d <> Decimal.Nil) by (by intros ->).
  pose proof (DecimalFacts.nb_digits_unorm d Hd) as Hn. rewrite <- Hto in Hn. cbn in Hn. lia.
Qed.

Lemma dec_width z n : 0 < n -> 0 <= z < 10 ^ n -> zlen (dec z) <= n.
Proof.
  intros Hn Hz. rewrite zlen_length. destruct z as [|p|p]; [cbn; lia| |lia]. rewrite dec_pos, length_bytes_of, length_uint.
  pose proof (to_uint_lower p) as Hl. assert (Hlt : 10 ^ (Z.of_nat (Decimal.nb_digits (Pos.to_uint p)) - 1) < 10 ^ n) by lia.
  destruct (Z.le_gt_cases (Z.of_nat (Decimal.nb_digits (Pos.to_uint p))) n); [done|].
  pose proof (Z.pow_le_mono_r 10 n (Z.of_nat (Decimal.nb_digits (Pos.to_uint p)) - 1) ltac:(lia) ltac:(lia)). lia.
Qed.

(** ** Names *)

Lemma digits_zeros m l : digits 0 (replicate m 48 ++ l) = digits 0 l.
Proof. by induction m. Qed.
Lemma digits_pad5 z : 0 <= z -> digits 0 (pad5 z) = (z, []).
Proof. intros Hz. unfold pad5. rewrite digits_zeros, <- (app_nil_r (dec z)). by apply digits_dec. Qed.
Lemma pad5_inj x y : 0 <= x -> 0 <= y -> pad5 x = pad5 y -> x = y.
Proof. intros Hx Hy E. apply (f_equal (digits 0)) in E. rewrite !digits_pad5 in E by done. by injection E. Qed.
Lemma pad5_width z : 0 <= z < 10 ^ 8 -> zlen (pad5 z) <= 8.
Proof.
  intros Hz. pose proof (dec_width z 8 ltac:(lia) Hz). unfold pad5. rewrite !zlen_length in *. rewrite length_app, length_replicate. lia.
Qed.
Lemma pad5_digits z : 0 <= z -> Forall (fun x => isdigit x = true) (pad5 z).
Proof. intros Hz. apply Forall_app_2; [by apply Forall_replicate|by apply dec_digits]. Qed.

(** ** The contents of a file *)

(** the characters that files consist of; no line end is among them *)
Definition printable (x : Z) : Prop := 32 <= x < 115.

Section generate.
Context (random size : Z -> Z).
Hypothesis Hrandom : forall i, 0 <= random i.

(** only the number of draws changes *)
Definition drawn (s s' : storage) : Prop := st_dir s' = st_dir s /\ st_idx s' = st_idx s /\ st_out s' = st_out s.
Lemma drawn_trans s1 s2 s3 : drawn s1 s2 -> drawn s2 s3 -> drawn s1 s3.
Proof. unfold drawn. intuition congruence. Qed.

Lemma rem_printable r : 0 <= r -> printable (Z.rem r (115 - 32) + 32).
Proof. intros Hr. unfold printable. pose proof (Z.rem_bound_pos r 83 Hr ltac:(lia)). change (115 - 32) with 83. lia. Qed.

Lemma fill_bytes_spec n c s : 0 <= n < 2147483648 -> wp (fill random n c) s (fun r s' => drawn s s' /\
  exists buf, r = (buf, sum c buf) /\ zlen buf = n /\ Forall printable buf).
Proof.
  intros Hn. unfold fill.
  apply (wp_while_var (fun v '(j, buf, csum) s' => drawn s s' /\ v = n - j /\ 0 <= j <= n /\ zlen buf = j /\ csum = sum c buf /\ Forall printable buf) n).
  - split_and!; try done; lia.
  - change (2 ^ 64) with 18446744073709551616. lia.
  - intros v [[j buf] csum] s' (Hd & -> & Hj & Hl & -> & Hp) _. destruct (Z.leb_spec n j); wsimpl.
    { split; [done|]. exists buf. split_and!; try done. lia. }
    unfold draw. wsimpl. exists (n - (j + 1)). split; [|lia].
    split_and!; [apply (drawn_trans s s'); done|done|lia|lia| | |].
    + rewrite zlen_app, Hl. done.
    + by rewrite sum_app.
    + apply Forall_app_2; [done|]. constructor; [by apply rem_printable|done].
Qed.

Lemma fill_file_spec n s : 0 <= n < 2147483648 -> wp (fill_file random n) s (fun r s' => drawn s s' /\
  exists content, r = (content, checksum content) /\ zlen content = n /\ Forall printable content).
Proof.
  intros Hn. unfold fill_file.
  apply (wp_while_var (fun v '(remaining, content, csum) s' => drawn s s' /\ v = remaining /\ 0 <= remaining /\ zlen content = n - remaining /\
    csum = checksum content /\ Forall printable content) n).
  - split_and!; try done; [lia|]. rewrite zlen_nil. lia.
  - change (2 ^ 64) with 18446744073709551616. lia.
  - intros v [[remaining content] csum] s' (Hd & -> & Hr & Hl & -> & Hp) _. destruct (Z.leb_spec remaining 0); wsimpl.
    { split; [done|]. exists content. split_and!; try done. lia. }
    set (sz := if remaining <? 4096 then remaining else 4096). assert (Hsz : 1 <= sz <= remaining).
    { subst sz. destruct (Z.ltb_spec remaining 4096); lia. }
    clearbody sz. pose proof (zlen_nonneg content). wsimpl. eapply wp_mono; [apply fill_bytes_spec; lia|]. intros r s2 (Hd2 & buf & -> & Hl2 & Hp2). wsimpl.
    exists (remaining - sz). split; [|lia]. split_and!; [by eapply drawn_trans|done|lia|rewrite zlen_app; lia| |by apply Forall_app_2].
    symmetry. apply sum_app.
Qed.

(** ** The files *)

(** the line of file [k] *)
Definition entry_name (dir : list Z) (k : nat) : list Z := dir ++ bytes_of "/" ++ pad5 (Z.of_nat k).
Definition entry_line (dir : list Z) (k : nat) (content : list Z) : list Z :=
  index_line (entry_name dir k) (checksum content) (zlen content).

(** the files of the contents [cs] are in the directory *)
Definition made_files (s : storage) (cs : list (list Z)) : Prop := exists files, st_dir s = Entries files /\
  (forall k c, cs !! k = Some c -> files !! pad5 (Z.of_nat k) = Some (Some c)) /\
  forall k, files !! pad5 (Z.of_nat k) <> Some None.

Definition total_len (cs : list (list Z)) : Z := fold_left (fun n c => n + zlen c) cs 0.
Lemma total_len_snoc cs c : total_len (cs ++ [c]) = total_len cs + zlen c.
Proof. unfold total_len. by rewrite fold_left_app. Qed.

Lemma write_file_spec s cs c : made_files s cs -> wp (write_file (pad5 (Z.of_nat (length cs))) c) s (fun _ s' =>
  made_files s' (cs ++ [c]) /\ st_idx s' = st_idx s).
Proof.
  intros (files & Hd & Hf & Hn). unfold write_file. wsimpl. rewrite Hd.
  assert (Hgoal : made_files (with_dir (Entries (<[pad5 (Z.of_nat (length cs)) := Some c]> files)) s) (cs ++ [c])).
  { eexists. split; [reflexivity|]. split.
    - intros k c' Hk. apply lookup_app_Some in Hk as [Hk|[Hk1 Hk2]].
      + apply lookup_lt_Some in Hk as Hlt. rewrite lookup_insert_ne; [by apply Hf|]. intros E. apply pad5_inj in E; lia.
      + assert (E : (k - length cs = 0)%nat) by (apply lookup_lt_Some in Hk2; cbn in Hk2; lia). rewrite E in Hk2. injection Hk2 as <-.
        replace k with (length cs) by lia. apply lookup_insert_eq.
    - intros k. rewrite lookup_insert. case_decide; [done|apply Hn]. }
  specialize (Hn (length cs)). destruct (files !! pad5 (Z.of_nat (length cs))) as [[c'|]|]; [|done|]; wsimpl; done.
Qed.

(** one more file, and its line *)
Definition index_of (dir : list Z) (cs : list (list Z)) : list Z := concat (imap (entry_line dir) cs).
Lemma index_snoc dir cs c : index_of dir (cs ++ [c]) = index_of dir cs ++ entry_line dir (length cs) c.
Proof. unfold index_of. rewrite imap_app, concat_app. cbn. by rewrite Nat.add_0_r, app_nil_r. Qed.

Lemma entry_line_width dir k c : zlen c < 2147483648 -> Z.of_nat k < 10 ^ 8 -> zlen (entry_line dir k c) <= zlen dir + 40.
Proof.
  intros Hc Hk. pose proof (pad5_width (Z.of_nat k) ltac:(lia)). pose proof (checksum_bound c). pose proof (zlen_nonneg c).
  pose proof (dec_width (checksum c) 10 ltac:(lia) ltac:(lia)). pose proof (dec_width (zlen c) 10 ltac:(lia) ltac:(lia)).
  unfold entry_line, entry_name, index_line. rewrite !zlen_app. change (zlen (bytes_of "/")) with 1. change (zlen (bytes_of " ")) with 1.
  change (zlen [10]) with 1. lia.
Qed.

(** ** The loop of [main] *)
Context (dir : list Z) (most total : Z).
Hypothesis Hdir : zlen dir <= DIR_NAME_MAX.
Hypothesis Hsize : forall k, 4096 <= size k <= most.
Hypothesis Htotal : 0 < total /\ total + most <= 2147483647.
Hypothesis Hindex : (total / 4096 + 1) * (zlen dir + 40) < IDX_BUFFER - 1.

(** the files so far, of the lengths that [size] gives *)
Definition files_ok (s : storage) (cs : list (list Z)) : Prop := made_files s cs /\
  forall k c, cs !! k = Some c -> zlen c = size (Z.of_nat k) /\ Forall printable c.

Lemma files_ok_snoc s s' cs c : files_ok s' cs -> zlen c = size (Z.of_nat (length cs)) -> Forall printable c ->
  made_files s (cs ++ [c]) -> files_ok s (cs ++ [c]).
Proof.
  intros [_ H] Hl Hp Hm. split; [done|]. intros k c' Hk. apply lookup_app_Some in Hk as [Hk|[Hk1 Hk2]]; [by apply H|].
  assert (E : (k - length cs = 0)%nat) by (apply lookup_lt_Some in Hk2; cbn in Hk2; lia). rewrite E in Hk2. injection Hk2 as <-.
  by replace k with (length cs) by lia.
Qed.

Lemma make_files_spec s : files_ok s [] -> wp (make_files random size dir total) s (fun r s' => exists cs,
  r = (total_len cs, Z.of_nat (length cs), index_of dir cs) /\ files_ok s' cs /\ st_idx s' = st_idx s /\ cs <> [] /\ Z.of_nat (length cs) * 4096 <= 2147483647).
Proof.
  intros Hs. unfold make_files. wsimpl. pose proof (zlen_nonneg dir). change IDX_BUFFER with 1048576 in Hindex. change DIR_NAME_MAX with 1000 in Hdir.
  pose proof (Hsize 0). assert (Hdiv : 0 <= total / 4096) by (apply Z.div_pos; lia).
  apply (wp_while_var (fun v '(current, nr, cur_size, idx) s' => exists cs, v = Z.max 0 (total - current) /\
    current = total_len cs /\ nr = Z.of_nat (length cs) /\ idx = index_of dir cs /\ 0 <= cur_size <= nr * (zlen dir + 40) /\ nr * 4096 <= current /\
    current < total + most /\ files_ok s' cs /\ st_idx s' = st_idx s /\ (cs = [] -> current < total)) total).
  - exists []. change (total_len []) with 0. split_and!; try done; lia.
  - change (2 ^ 64) with 18446744073709551616. lia.
  - clear Hs. intros v [[[current nr] cur_size] idx] s' (cs & -> & -> & -> & -> & Hcur & Hnr & Hlt & Hmade & Hidx & Hne) _.
    destruct (Z.ltb_spec (total_len cs) total) as [Hlo|Hhi]; cbn [negb]; wsimpl.
    2: { exists cs. split_and!; try done; [|lia]. intros ->. specialize (Hne eq_refl). lia. }
    set (nr := Z.of_nat (length cs)) in *. assert (Hnr2 : nr <= total / 4096) by (apply Z.div_le_lower_bound; lia).
    assert (Hsmall : nr < 10 ^ 8) by (change (10 ^ 8) with 100000000; nia). pose proof (pad5_width nr ltac:(lia)) as Hw.
    pose proof (zlen_nonneg (pad5 nr)).
    unfold sprintf at 1. rewrite zlen_app. change (zlen (bytes_of "/")) with 1. rewrite (proj2 (Z.leb_gt _ _)) by lia. wsimpl.
    unfold sprintf at 1. rewrite !zlen_app. change (zlen (bytes_of "/")) with 1. rewrite (proj2 (Z.leb_gt _ _)) by lia. wsimpl.
    replace (nr + 1 - 1) with nr by lia. specialize (Hsize nr) as Hsz. unfold add_int. rewrite (proj2 (Z.ltb_ge _ _)) by lia. wsimpl.
    eapply wp_mono; [apply fill_file_spec; lia|]. intros r s1 ((Hd1 & Hi1 & _) & content & -> & Hl & Hp). wsimpl.
    assert (Hmade1 : made_files s1 cs) by (destruct Hmade as [(files & E & Hf) _]; exists files; by rewrite Hd1).
    change (drop 1 (bytes_of "/" ++ pad5 nr)) with (pad5 nr). subst nr. eapply wp_mono; [by apply write_file_spec|].
    intros _ s2 [Hmade2 Hi2]. wsimpl. unfold say. wsimpl.
    pose proof (entry_line_width dir (length cs) content ltac:(lia) Hsmall) as Hline. unfold entry_line, entry_name in Hline. rewrite Hl in Hline.
    pose proof (zlen_nonneg (index_line (dir ++ bytes_of "/" ++ pad5 (Z.of_nat (length cs))) (checksum content) (size (Z.of_nat (length cs))))).
    unfold sprintf. rewrite (proj2 (Z.leb_gt _ _)) by lia. wsimpl. apply wp_assert; [apply Z.ltb_lt; change IDX_BUFFER with 1048576; nia|]. wsimpl.
    exists (Z.max 0 (total - (total_len cs + size (Z.of_nat (length cs))))). split; [|lia]. exists (cs ++ [content]).
    assert (Hn : Z.of_nat (length (cs ++ [content])) = Z.of_nat (length cs) + 1) by (rewrite length_app; cbn; lia).
    rewrite total_len_snoc, Hl, Hn, index_snoc. unfold entry_line at 1, entry_name. rewrite Hl.
    split_and!; try done; try lia.
    + by apply (files_ok_snoc _ s').
    + by rewrite Hi2, Hi1.
    + intros E. by destruct cs.
Qed.
End generate.

(** the directory can be made, or has nothing but regular files under the names of the
    new ones *)
Definition can_start (s : storage) : Prop :=
  match st_dir s with
  | Missing => True
  | Entries files => forall k, files !! pad5 (Z.of_nat k) <> Some None
  | Other => False
  end.

Lemma clear_dir_spec s : can_start s -> wp clear_dir s (fun _ s' => made_files s' [] /\ st_idx s' = st_idx s).
Proof.
  unfold can_start, clear_dir. intros Hs. wsimpl. destruct (st_dir s) as [|files|]; [| |done]; wsimpl.
  - split; [|done]. exists ∅. split; [done|]. split; [done|]. intros k. by rewrite lookup_empty.
  - split; [|done]. eexists. split; [reflexivity|]. split; [done|]. intros k. rewrite map_lookup_filter. intros H.
    destruct (files !! pad5 (Z.of_nat k)) as [o|] eqn:E; [|done]. cbn in H. case_guard; [|done].
    cbn in H. injection H as ->. by apply (Hs k).
Qed.

(** the index file: the number of files and their lines *)
Definition index_file (dir : list Z) (cs : list (list Z)) : list Z := dec (Z.of_nat (length cs)) ++ [10] ++ index_of dir cs.

Lemma fileset_main_spec random size most m n dir s : (forall i, 0 <= random i) -> (forall k, 4096 <= size k <= most) ->
  1 < m -> 1 <= n <= 99999 -> zlen dir <= DIR_NAME_MAX -> m * 4096 * n + most <= 2147483647 ->
  (m * n + 1) * (zlen dir + 40) < IDX_BUFFER - 1 -> can_start s ->
  wp (fileset_main random size m n dir) s (fun _ s' => exists cs, files_ok size s' cs /\ cs <> [] /\
    Z.of_nat (length cs) * 4096 <= 2147483647 /\ st_idx s' = Some (index_file dir cs)).
Proof.
  intros Hr Hs Hm Hn Hd Ht Hi Hstart. pose proof (Hs 0). unfold fileset_main.
  rewrite (proj2 (Z.leb_gt _ _)) by lia. rewrite (proj2 (Z.ltb_ge n 1)), (proj2 (Z.ltb_ge 99999 n)), (proj2 (Z.ltb_ge _ (zlen dir))) by lia.
  cbn [orb]. wsimpl. eapply wp_mono; [by apply clear_dir_spec|]. intros _ s1 [Hmade Hidx]. unfold fileset_total, mul_int. wsimpl.
  rewrite (proj2 (Z.ltb_ge _ (m * 4096))) by nia. wsimpl. rewrite (proj2 (Z.ltb_ge _ (m * 4096 * n))) by lia. wsimpl.
  assert (Hdiv : m * 4096 * n / 4096 = m * n) by (replace (m * 4096 * n) with (m * n * 4096) by lia; by apply Z.div_mul).
  eapply wp_mono; [apply (make_files_spec random size Hr dir most (m * 4096 * n)); try done; [split; [nia|lia]|by rewrite Hdiv]|].
  intros r s2 (cs & -> & [(files & E & Hf) Hok] & Hi2 & Hne & Hcount). wsimpl. unfold say. wsimpl. exists cs. split; [|split_and!; done].
  split; [exists files; by rewrite <- E|done].
Qed.

(** ** The client reads the index *)

Lemma word_space x : isspace x = is_space x.
Proof. done. Qed.

Lemma skip_word w l : is_word w -> skip_space (w ++ l) = w ++ l.
Proof. intros [Hne Hw]. destruct w as [|x w]; [done|]. apply Forall_cons in Hw as [[_ Hx] _]. cbn. rewrite word_space. by rewrite Hx. Qed.
Lemma span_word_app w l : is_word w -> span_word (w ++ [32] ++ l) = (w, [32] ++ l).
Proof.
  intros [_ Hw]. induction Hw as [|x w [_ Hx] _ IH]; [done|]. cbn [app span_word] in *. rewrite word_space, Hx.
  by rewrite IH.
Qed.
Lemma scan_s w ds l : is_word w -> scan (Percent_s :: ds) (w ++ [32] ++ l) = Str w :: scan ds ([32] ++ l).
Proof.
  intros Hw. cbn [scan]. rewrite skip_word, span_word_app by done. destruct w as [|x w]; [by destruct Hw|done].
Qed.

Lemma scan_index_line name csum len : is_word name -> 0 <= csum < 4294967296 -> 0 <= len < 2147483648 ->
  scan_fileinfo (index_line name csum len) = mk_fileinfo (Some name) (Some csum) (Some len).
Proof.
  intros Hn Hc Hl. unfold scan_fileinfo, index_line.
  assert (Hcut : cut (name ++ bytes_of " " ++ dec csum ++ bytes_of " " ++ dec len ++ [10]) = name ++ [32] ++ dec csum ++ [32] ++ dec len ++ [10]).
  { rewrite cut_plain by (by apply word_plain). f_equal. rewrite cut_plain by (by repeat (constructor; [by vm_compute|])). f_equal.
    rewrite cut_plain by (apply plain_dec; lia). f_equal. rewrite cut_plain by (by repeat (constructor; [by vm_compute|])). f_equal.
    rewrite cut_plain by (apply plain_dec; lia). done. }
  rewrite Hcut. unfold sscanf. change (directives (bytes_of "%s %u %d")) with [Percent_s; White; Percent_u; White; Percent_d].
  rewrite scan_s by done. rewrite scan_space. destruct (ahead_dec csum ([32] ++ dec len ++ [10]) ltac:(lia)) as [_ ->].
  rewrite scan_u by done. rewrite scan_space. destruct (ahead_dec len [10] ltac:(lia)) as [_ ->]. by rewrite scan_d.
Qed.

(** one entry of an index: name, sum, length *)
Record entry : Type := mk_entry { en_name : list Z; en_csum : Z; en_len : Z }.
Definition en_line (e : entry) : list Z := index_line (en_name e) (en_csum e) (en_len e).
Definition en_info (e : entry) : fileinfo := mk_fileinfo (Some (en_name e)) (Some (en_csum e)) (Some (en_len e)).
Record entry_ok (e : entry) : Prop := {
  eo_word : is_word (en_name e);
  eo_csum : 0 <= en_csum e < 4294967296;
  eo_len : 0 <= en_len e < 2147483648;
  eo_line : zlen (en_line e) < MAXLINE;
}.

Lemma plain_line l : plain l -> is_line (l ++ [10]).
Proof.
  intros Hl. exists l. split; [done|]. intros Hin. unfold plain in Hl. rewrite Forall_forall in Hl. by destruct (Hl 10 Hin).
Qed.
Lemma entry_is_line e : entry_ok e -> is_line (en_line e).
Proof.
  intros [Hw Hc Hl _]. unfold en_line, index_line. rewrite !app_assoc. apply plain_line.
  repeat apply plain_app; try (apply plain_dec; lia); [by apply word_plain|by repeat (constructor; [by vm_compute|])..].
Qed.

Lemma last_byte l : byte_at (l ++ [10]) (zlen (l ++ [10]) - 1) = 10.
Proof. rewrite zlen_app. change (zlen [10]) with 1. rewrite byte_at_app by (pose proof (zlen_nonneg l); lia). rewrite decide_False by lia. by replace (zlen l + 1 - 1 - zlen l) with 0 by lia. Qed.

Lemma init_fileset_spec s es : Forall entry_ok es -> es <> [] -> Z.of_nat (length es) < 2147483648 ->
  carries (src_answers s) (dec (Z.of_nat (length es)) ++ [10] ++ concat (map en_line es)) ->
  wp init_fileset s (fun r _ => r = map en_info es).
Proof.
  intros Hes Hne Hn Hc. destruct s as [r0 a]. destruct (carries_start r0 a _ Hc) as [Hs Hp]. unfold init_fileset. wsimpl.
  set (n := Z.of_nat (length es)) in *. assert (Hn0 : 0 < n) by (destruct es; [done|]; subst n; cbn; lia).
  apply (wp_while_var (fun v '(nr, fs) s => good s /\ ((v = n + 2 /\ nr = 0 /\ fs = [] /\ pending s = dec n ++ [10] ++ concat (map en_line es)) \/
    exists old todo, v = Z.of_nat (length todo) + 1 /\ es = old ++ todo /\ nr = n /\ fs = map en_info old /\ pending s = concat (map en_line todo))) (n + 2)).
  - split; [done|]. by left.
  - change (2 ^ 64) with 18446744073709551616. lia.
  - clear Hs Hp Hc. intros v [nr fs] s (Hs & Hcase) _. unfold Rio_readlineb. wsimpl. destruct Hcase as [(-> & -> & -> & Hp)|(old & todo & -> & E & -> & -> & Hp)].
    + pose proof (dec_width n 10 ltac:(lia) ltac:(lia)) as Hw. assert (Hz : zlen (dec n ++ [10]) = zlen (dec n) + 1) by (rewrite zlen_app; done).
      pose proof (zlen_nonneg (dec n)).
      eapply wp_mono; [apply (readlineb_line MAXLINE s (dec n ++ [10]) (concat (map en_line es))); try done|].
      { by rewrite <- app_assoc. } { apply plain_line, plain_dec. lia. } { rewrite Hz. change MAXLINE with 8192. lia. }
      intros r s1 (-> & Hs1 & Hp1). wsimpl. rewrite Hz, (proj2 (Z.eqb_neq _ 0)) by lia. wsimpl. eapply wp_deref; [done|].
      cbn [Z.eqb]. rewrite cut_plain by (apply plain_dec; lia). change (cut [10]) with [10]. rewrite atoi_dec by (done || lia).
      wsimpl. apply wp_assert; [by apply Z.ltb_lt|]. wsimpl. exists (n + 1). split; [|lia]. split; [done|]. right. by exists [], es.
    + destruct todo as [|e todo].
      * eapply wp_mono; [by apply (readlineb_eof MAXLINE s)|]. intros r s1 (-> & Hs1 & Hp1). wsimpl. rewrite Z.eqb_refl. wsimpl.
        apply wp_assert; [by apply Z.ltb_lt|]. wsimpl. rewrite app_nil_r in E. subst old. apply wp_assert; [rewrite length_map; by apply Z.eqb_eq|].
        by wsimpl.
      * assert (He : entry_ok e). { rewrite E in Hes. by apply Forall_app in Hes as [_ [He _]%Forall_cons]. }
        assert (Hl := entry_is_line e He). destruct He as [H1 H2 H3 H4].
        eapply wp_mono; [by apply (readlineb_line MAXLINE s (en_line e) (concat (map en_line todo)))|].
        intros r s1 (-> & Hs1 & Hp1). wsimpl. unfold en_line in *.
        assert (Hname : zlen (en_name e) + 1 <= zlen (index_line (en_name e) (en_csum e) (en_len e))).
        { unfold index_line. rewrite !zlen_app. change (zlen [10]) with 1. pose proof (zlen_nonneg (bytes_of " ")).
          pose proof (zlen_nonneg (dec (en_csum e))). pose proof (zlen_nonneg (dec (en_len e))). lia. }
        assert (Hlast : byte_at (index_line (en_name e) (en_csum e) (en_len e)) (zlen (index_line (en_name e) (en_csum e) (en_len e)) - 1) = 10).
        { unfold index_line. rewrite !app_assoc. apply last_byte. }
        pose proof (zlen_nonneg (en_name e)).
        rewrite (proj2 (Z.eqb_neq _ 0)) by lia. wsimpl. eapply wp_deref; [done|]. cbv zeta. rewrite Hlast, scan_index_line by done.
        rewrite (proj2 (Z.eqb_neq n 0)) by lia. change (10 =? 10) with true. cbv iota. wsimpl.
        assert (Hlen : n = Z.of_nat (length old) + Z.of_nat (length todo) + 1) by (subst n; rewrite E, length_app; cbn [length]; lia).
        apply wp_assert; [rewrite length_map; apply Z.ltb_lt; lia|]. wsimpl. cbn [name from_option id]. unfold id.
        rewrite (proj2 (Z.ltb_ge _ _)) by lia. wsimpl. exists (Z.of_nat (length todo) + 1). split; [|cbn [length]; lia].
        split; [done|]. right. exists (old ++ [e]), todo. by rewrite map_app, <- app_assoc.
Qed.

(** the index of the files [cs], as entries *)
Definition entry_of (dir : list Z) (k : nat) (c : list Z) : entry := mk_entry (entry_name dir k) (checksum c) (zlen c).

Lemma entry_name_word dir k : is_word dir -> is_word (entry_name dir k).
Proof.
  intros [Hne Hd]. unfold entry_name. split; [by destruct dir|]. apply Forall_app_2; [done|]. apply Forall_app_2.
  - by repeat (constructor; [by vm_compute|]).
  - eapply Forall_impl; [apply pad5_digits; lia|]. intros x Hx%digit_facts. split; [lia|]. unfold is_space.
    rewrite orb_false_iff, andb_false_iff, Z.eqb_neq, !Z.leb_gt. lia.
Qed.

Lemma index_entries_ok dir size s cs : is_word dir -> zlen dir <= DIR_NAME_MAX -> (forall k, size k < 2147483648) -> files_ok size s cs ->
  Z.of_nat (length cs) * 4096 <= 2147483647 -> Forall entry_ok (imap (entry_of dir) cs).
Proof.
  intros Hw Hd Hs [_ Hok] Hc. apply Forall_lookup. intros k e He. rewrite list_lookup_imap in He.
  destruct (cs !! k) as [c|] eqn:Ek; [|done]. cbn in He. injection He as <-. destruct (Hok k c Ek) as [Hl _]. pose proof (Hs (Z.of_nat k)).
  apply lookup_lt_Some in Ek. pose proof (zlen_nonneg c). split; cbn.
  - by apply entry_name_word.
  - apply checksum_bound.
  - lia.
  - change (zlen (entry_line dir k c) < 8192). change DIR_NAME_MAX with 1000 in Hd.
    assert (Hk : Z.of_nat k < 10 ^ 8) by (change (10 ^ 8) with 100000000; lia).
    pose proof (entry_line_width dir k c ltac:(lia) Hk). lia.
Qed.
