(* ===== verification/WebProps.v ===== *)
(** * The web server: what its parts guarantee

    The theorems of this file: the cache is a map from names to files with an LRU
    order, a request is answered with the file, from the disk or from the cache,
    connections are served in the order of their arrival, and the places where the
    code leaves this contract. *)

From stdpp Require Import base gmap list list_numbers strings.
From Stdlib Require Import ZArith Lia.
From S2P Require Import Prelude Words Numbers Cache Rio Request Server QueueSpec LruSpec CacheSpec RioSpec RequestSpec ServeSpec ServerSpec.
#[local] Open Scope Z_scope.

(** ** A cache for the witnesses

    The names "./ar" and "./c0" have the same hash, so the second is stored behind
    the first.  [a] is the number of requests that use the first file.  The storage
    also has data that is not in the cache. *)

Definition name1 : list Z := bytes_of "./ar".
Definition name2 : list Z := bytes_of "./c0".
Definition name3 : list Z := bytes_of "./d".

Definition cache2 : cache_struct := mk_cache 2 10 2147000 1 {[117501 := 10; 117502 := 20]}.
Definition mem2 (a : Z) : mem := mk_mem (Some cache2)
  {[10 := mk_file 11 12 a; 20 := mk_file 21 22 1]}
  {[12 := mk_data 13 14 1; 22 := mk_data 23 24 1; 32 := mk_data 33 0 3; 42 := mk_data 33 0 9; 52 := mk_data 13 0 3]}
  {[11 := name1; 13 := name1; 14 := [65]; 21 := name2; 23 := name2; 24 := [66]; 33 := name3]}
  {[1 := mk_lru None 30; 30 := mk_lru (Some 117501) 31; 31 := mk_lru (Some 117502) 0]} 60.
Definition keys2 : gmap Z (list Z) := {[117501 := name1; 117502 := name2]}.
Definition files2 : gmap (list Z) entry := {[name1 := mk_entry 10 12 1; name2 := mk_entry 20 22 1]}.

Lemma keys2_cases i x : keys2 !! i = Some x -> (i = 117501 /\ x = name1) \/ (i = 117502 /\ x = name2).
Proof.
  unfold keys2. rewrite lookup_insert_Some, lookup_singleton_Some. intros [[<- <-]|[_ [<- <-]]]; auto.
Qed.
Lemma files2_cases x e : files2 !! x = Some e -> (x = name1 /\ e = mk_entry 10 12 1) \/ (x = name2 /\ e = mk_entry 20 22 1).
Proof.
  unfold files2. rewrite lookup_insert_Some, lookup_singleton_Some. intros [[<- <-]|[_ [<- <-]]]; auto.
Qed.

(** the keys of a map are addresses, checked by evaluation *)
Definition address (x : Z) : bool := (0 <? x) && (x <? 60).
Lemma check_keys {A} (x : gmap Z A) : forallb address (map_to_list x).*1 = true -> forall a, is_Some (x !! a) -> 0 < a < 60.
Proof.
  rewrite forallb_forall. intros H a [y Hy]. assert (Ha : address a = true); [|unfold address in Ha; lia].
  apply H, list_elem_of_In, list_elem_of_fmap. exists (a, y). split; [done|]. by apply elem_of_map_to_list.
Qed.

Lemma lru2 a : lru (mem2 a) 1 [(30, 117501); (31, 117502)].
Proof.
  split.
  - cbn [chain]. repeat split; try (by eexists); try done.
  - vm_compute. repeat constructor; set_solver.
  - done.
  - apply check_keys. vm_compute. reflexivity.
Qed.

Lemma rep2 a : cache_rep (mem2 a) cache2 keys2 files2 [name1; name2].
Proof.
  split; try done.
  - by intros i x [[-> ->]|[-> ->]]%keys2_cases.
  - intros i. unfold keys2. cbn. rewrite !lookup_insert_None, !lookup_singleton_None. tauto.
  - intros i x [[-> ->]|[-> ->]]%keys2_cases; eexists; (split; [vm_compute; reflexivity|]); (split; [reflexivity|]);
      (split; [done|]); do 2 eexists; repeat split; vm_compute; reflexivity.
  - intros x e [[-> _]|[-> _]]%files2_cases; [by exists 117501|by exists 117502].
  - intros i j x [[-> ->]|[-> ->]]%keys2_cases [[-> E]|[-> E]]%keys2_cases; try done.
  - intros i x [[-> ->]|[-> ->]]%keys2_cases.
    + exists 0. split; [done|]. split; [vm_compute; reflexivity|]. lia.
    + exists 1. split; [done|]. split; [vm_compute; reflexivity|]. intros k Hk. replace k with 0 by lia.
      exists name1. vm_compute. reflexivity.
  - exists [(30, 117501); (31, 117502)]. split; [apply lru2|]. split; [|split; [|done]].
    + vm_compute. repeat constructor; set_solver.
    + intros i. cbn. rewrite !elem_of_cons, elem_of_nil. unfold keys2. rewrite lookup_insert_is_Some'.
      split; [|intros [<-|[x [<- _]%lookup_singleton_Some]]; tauto]. intros [->|[->|[]]]; [by left|right; done].
  - by intros x e [[_ ->]|[_ ->]]%files2_cases.
  - intros x [Hx|[Hx|Hx]]; revert x Hx; apply check_keys; vm_compute; reflexivity.
Qed.

(** ** The cache *)

(** C29: [cache_lookup] refines the lookup of the abstract map: for a name in the cache it
    returns the file stored under it, which is not NULL, and otherwise NULL; it
    changes nothing, and the search ends although the table is open addressed. *)
Theorem cache_lookup_refines m c K F L name : cache_rep m c K F L ->
  wp (cache_lookup name) m (fun r m' => m' = m /\ r = default 0 (e_file <$> F !! name) /\ (r <> 0 <-> is_Some (F !! name))).
Proof.
  intros HR. apply (cache_lookup_spec m c K F L HR). split; [done|]. split; [done|].
  destruct (F !! name) as [e|] eqn:E; cbn; [|split; [done|by intros []]]. split; [done|]. intros _.
  by apply (file_nonzero m c K F L name HR).
Qed.

Lemma cache_lookup_refines_witness : cache_rep (mem2 0) cache2 keys2 files2 [name1; name2] /\
  wp (cache_lookup name2) (mem2 0) (fun r m' => m' = mem2 0 /\ r = default 0 (e_file <$> files2 !! name2) /\
    (r <> 0 <-> is_Some (files2 !! name2))).
Proof. split; [apply rep2|]. exact (cache_lookup_refines (mem2 0) cache2 keys2 files2 [name1; name2] name2 (rep2 0)). Defined.

(** C30: [cache_insert] of a file that is not in the cache and fits adds it: the name is mapped
    to a new entry with the data, it becomes the most recently used one, the space in
    use grows by the size of the file and all other files stay. *)
Theorem cache_insert_adds m c K F L data d name : cache_rep m c K F L ->
  m_datas m !! data = Some d -> m_chars m !! file_name d = Some name -> F !! name = None ->
  0 <= file_size d -> used F L + file_size d <= max_size c -> Z.of_nat (size K) + 1 < table_size c ->
  wp (cache_insert data) m (fun r m' => exists c' K',
    cache_rep m' c' K' (<[name := mk_entry r data (file_size d)]> F) (L ++ [name]) /\
    curr_size c' = curr_size c + file_size d /\ max_size c' = max_size c /\ m_datas m' = m_datas m).
Proof.
  intros HR Hd Hn Hnew Hs Hroom Hfree. unfold wp. rewrite (insert_new m c K F L data d name HR Hd Hn Hnew).
  change (wp (room ← cache_evict (file_size d); if room =? 1 then table_insert data else mret 0) m (fun r m' => exists c' K',
    cache_rep m' c' K' (<[name := mk_entry r data (file_size d)]> F) (L ++ [name]) /\
    curr_size c' = curr_size c + file_size d /\ max_size c' = max_size c /\ m_datas m' = m_datas m)).
  wsimpl. apply (evict_room m c K F L HR); [lia|]. cbn [Z.eqb Pos.eqb].
  eapply wp_mono; [by eapply table_insert_spec|]. intros r m' (-> & Hdatas & _ & c' & K' & E1 & E2 & _ & _ & HR').
  by exists c', K'.
Qed.

Lemma cache_insert_adds_witness : cache_rep (mem2 0) cache2 keys2 files2 [name1; name2] /\
  wp (cache_insert 32) (mem2 0) (fun r m' => exists c' K',
    cache_rep m' c' K' (<[name3 := mk_entry r 32 3]> files2) [name1; name2; name3] /\
    curr_size c' = 5 /\ max_size c' = 10 /\ m_datas m' = m_datas (mem2 0)).
Proof.
  split; [apply rep2|].
  apply (cache_insert_adds (mem2 0) cache2 keys2 files2 [name1; name2] 32 (mk_data 33 0 3) name3 (rep2 0));
    vm_compute; (reflexivity || discriminate).
Defined.

(** [cache_insert] answers without any change when the name is in the cache already (with the
    file there), when the file is larger than the cache (with NULL), and when there is
    no room and all files are in use (with NULL). *)
Theorem cache_insert_refuses m c K F L data d name : cache_rep m c K F L ->
  m_datas m !! data = Some d -> m_chars m !! file_name d = Some name ->
  is_Some (F !! name) \/ max_size c < file_size d \/
    (max_size c - used F L < file_size d /\ forall name e, F !! name = Some e -> active m e <> Some 0) ->
  wp (cache_insert data) m (fun r m' => m' = m /\ r = default 0 (e_file <$> F !! name)).
Proof.
  intros HR Hd Hn Hor. destruct (F !! name) as [e|] eqn:He.
  { by apply (insert_old m c K F L data d name HR Hd Hn e _ He). }
  unfold wp. rewrite (insert_new m c K F L data d name HR Hd Hn He).
  apply (wp_bind (cache_evict (file_size d)) _ m (fun r m' => m' = m /\ r = 0)).
  destruct Hor as [[? ?]|[Hlarge|[Hfull Hact]]]; [done| |].
  - by apply (evict_too_large m c K F L HR).
  - by apply (evict_busy m c K F L HR).
Qed.

Lemma cache_insert_refuses_witness :
  wp (cache_insert 52) (mem2 0) (fun r m' => m' = mem2 0 /\ r = 10) /\
  wp (cache_insert 42) (mem2 1) (fun r m' => m' = mem2 1 /\ r = 0).
Proof.
  split.
  - apply (cache_insert_refuses (mem2 0) cache2 keys2 files2 [name1; name2] 52 (mk_data 13 0 3) name1 (rep2 0));
      [reflexivity|reflexivity|]. left. by exists (mk_entry 10 12 1).
  - apply (cache_insert_refuses (mem2 1) cache2 keys2 files2 [name1; name2] 42 (mk_data 33 0 9) name3 (rep2 1));
      [reflexivity|reflexivity|]. right. right. split; [by vm_compute|].
    intros x e [[_ ->]|[_ ->]]%files2_cases; vm_compute; discriminate.
Defined.

(** C31: When there is no room and some file is not in use, [cache_insert] does not return: after
    evicting a file [LRU_delete] reads the queue node that it has freed. *)
Theorem eviction_never_returns m c K F L data d name other e : cache_rep m c K F L ->
  m_datas m !! data = Some d -> m_chars m !! file_name d = Some name -> F !! name = None ->
  max_size c - used F L < file_size d <= max_size c -> F !! other = Some e -> active m e = Some 0 ->
  forall r m', cache_insert data m <> Val (r, m').
Proof.
  intros HR Hd Hn Hnew Hsize He Ha r m'. rewrite (insert_new m c K F L data d name HR Hd Hn Hnew). intros E.
  apply (wlp_run _ _ _ _ (fun _ _ => False) E). apply wlp_bind.
  eapply wlp_mono; [by apply (evict_stuck m c K F L HR _ other e)|done].
Qed.

Lemma eviction_never_returns_witness : (forall r m', cache_insert 42 (mem2 0) <> Val (r, m')) /\
  cache_insert 42 (mem2 0) = Fault Undefined.
Proof.
  split; [|vm_compute; reflexivity].
  apply (eviction_never_returns (mem2 0) cache2 keys2 files2 [name1; name2] 42 (mk_data 33 0 9) name3 name1
    (mk_entry 10 12 1) (rep2 0)); try reflexivity. by vm_compute.
Defined.

(** Marking a file as used makes the file at the home index of its name the most recently
    used one; the map stays.  When the name is stored behind its home index because
    of a collision, that is another file. *)
Theorem use_moves_home_index m c K F L name e : cache_rep m c K F L -> F !! name = Some e ->
  exists other, K !! (djb2 name mod table_size c) = Some other /\ other ∈ L /\
    wp (index ← get_index name; LRU_update (s32 index)) m (fun _ m' => cache_rep m' c K F (touch other L)).
Proof.
  intros HR He. destruct (home_used _ _ _ _ _ _ _ HR He) as [other Ho]. pose proof (slot_0 m c K F L HR name) as E0.
  exists other. rewrite <- E0. split; [done|]. split.
  { apply (names_elem m c K F L HR). destruct (cr_entry _ _ _ _ _ HR _ _ Ho) as (e' & -> & _). done. }
  wsimpl. apply (get_index_spec m c K F L HR). rewrite (slot_s32 m c K F L HR).
  eapply wp_mono; [by apply (LRU_update_spec m c K F L HR _ other)|]. by intros [] m' (ns & na & -> & HR').
Qed.

Lemma use_moves_home_index_witness : files2 !! name2 = Some (mk_entry 20 22 1) /\
  wp (index ← get_index name2; LRU_update (s32 index)) (mem2 0) (fun _ m' =>
    cache_rep m' cache2 keys2 files2 [name2; name1]).
Proof.
  split; [vm_compute; reflexivity|].
  destruct (use_moves_home_index (mem2 0) cache2 keys2 files2 [name1; name2] name2 (mk_entry 20 22 1) (rep2 0)) as
    (other & Ho & _ & H); [vm_compute; reflexivity|].
  assert (E : other = name1); [|by rewrite E in H].
  assert (Hk : keys2 !! (djb2 name2 mod table_size cache2) = Some name1) by (vm_compute; reflexivity). congruence.
Defined.

(** ** Requests *)

(** a client that asks for "ar", in two pieces with an interrupted call in between *)
Definition line1 : list Z := bytes_of "GET ar HTTP/1.0" ++ CRLF.
Definition client : conn := mk_conn (mk_source Rio_init [Data line1; Read_eintr; Data CRLF]) (mk_sink [] []) true.
Definition disk (content : list Z) (name : list Z) : option file_info :=
  if decide (name = name1) then Some (mk_info true true (zlen content) [Data content]) else None.

Lemma client_sends : sends (src_answers (k_source client)) line1 [].
Proof.
  split.
  - unfold clean. repeat constructor; by vm_compute.
  - by vm_compute.
  - split; [|by vm_compute]. exists (bytes_of "GET ar HTTP/1.0" ++ [13]). split; [by vm_compute|].
    apply (bool_decide_eq_true_1 (10 ∉ _)). by vm_compute.
  - done.
  - exists []. by vm_compute.
Qed.

Lemma client_takes : takes (k_sink client).
Proof. split; [constructor|by vm_compute]. Qed.

(** Without a cache, a GET request for a file that may be served is answered with the
    header and the contents of the file, and the connection is closed; it does not
    matter in which pieces the request and the file are delivered, how many header
    lines there are, and which calls are interrupted. *)
Theorem request_answered_from_disk fs max w fd line hdrs method uri ws info content :
  sends (src_answers (k_source (w_conn w))) line hdrs -> words_of (cut line) [] = method :: uri :: ws ->
  strcasecmp_eq method (bytes_of "GET") = true -> bounded (w_mem w) -> takes (k_sink (w_conn w)) ->
  k_open (w_conn w) = true -> refused (request_parse_URI uri MAXLINE) = None ->
  fs (request_parse_URI uri MAXLINE) = Some info -> serves info content -> max <= 0 ->
  wp (serve fs max fd) w (fun _ w' => k_open (w_conn w') = false /\
    written (k_sink (w_conn w')) =
      written (k_sink (w_conn w)) ++ response (request_parse_URI uri MAXLINE) content).
Proof. intros. by eapply serve_uncached. Qed.

Lemma request_answered_from_disk_witness :
  wp (serve (disk [65; 66]) 0 5) (mk_world (mk_mem None ∅ ∅ ∅ ∅ 1) client) (fun _ w' => k_open (w_conn w') = false /\
    written (k_sink (w_conn w')) = response name1 [65; 66]).
Proof.
  apply (request_answered_from_disk (disk [65; 66]) 0 (mk_world (mk_mem None ∅ ∅ ∅ ∅ 1) client) 5 line1 [] (bytes_of "GET")
    (bytes_of "ar") [bytes_of "HTTP/1.0"] (mk_info true true 2 [Data [65; 66]]) [65; 66]).
  - exact client_sends.
  - vm_compute; reflexivity.
  - vm_compute; reflexivity.
  - split; [done|]. cbn. intros a [[? Ha]|[[? Ha]|[? Ha]]]; by rewrite lookup_empty in Ha.
  - exact client_takes.
  - done.
  - vm_compute; reflexivity.
  - vm_compute; reflexivity.
  - split; try done; vm_compute; repeat constructor; discriminate.
  - done.
Defined.

(** C34: With the cache, a GET request for a file that is in it is answered from the cache, whatever
    the disk holds; afterwards the cache has the same files, and the one at the home
    index of the name is the most recently used one. *)
Theorem request_answered_from_cache fs max w fd line hdrs method uri ws content c K F L e :
  sends (src_answers (k_source (w_conn w))) line hdrs -> words_of (cut line) [] = method :: uri :: ws ->
  strcasecmp_eq method (bytes_of "GET") = true -> takes (k_sink (w_conn w)) -> k_open (w_conn w) = true ->
  cache_rep (w_mem w) c K F L -> F !! request_parse_URI uri MAXLINE = Some e ->
  holds (w_mem w) (e_data e) (request_parse_URI uri MAXLINE) content -> zlen content < 2147483648 -> 0 < max ->
  wp (serve fs max fd) w (fun _ w' => k_open (w_conn w') = false /\
    written (k_sink (w_conn w')) =
      written (k_sink (w_conn w)) ++ response (request_parse_URI uri MAXLINE) content /\
    exists other, K !! slot c (request_parse_URI uri MAXLINE) 0 = Some other /\
      cache_rep (w_mem w') c K F (touch other L)).
Proof. intros. by eapply serve_cached. Qed.

Lemma request_answered_from_cache_witness :
  wp (serve (fun _ => None) 10 5) (mk_world (mem2 0) client) (fun _ w' => k_open (w_conn w') = false /\
    written (k_sink (w_conn w')) = response name1 [65] /\
    exists other, keys2 !! slot cache2 name1 0 = Some other /\
      cache_rep (w_mem w') cache2 keys2 files2 (touch other [name1; name2])).
Proof.
  apply (request_answered_from_cache (fun _ => None) 10 (mk_world (mem2 0) client) 5 line1 [] (bytes_of "GET")
    (bytes_of "ar") [bytes_of "HTTP/1.0"] [65] cache2 keys2 files2 [name1; name2] (mk_entry 10 12 1)).
  - exact client_sends.
  - vm_compute; reflexivity.
  - vm_compute; reflexivity.
  - exact client_takes.
  - done.
  - exact (rep2 0).
  - vm_compute; reflexivity.
  - split; [done|]. exists (mk_data 13 14 1). split; [vm_compute; reflexivity|]. split; [vm_compute; reflexivity|].
    split; [vm_compute; reflexivity|]. intros _. vm_compute. reflexivity.
  - by vm_compute.
  - done.
Defined.

(** C37: [rio_readlineb] reads one line, in whatever pieces the data arrives: when the data is at
    its end it returns 0 and leaves the buffer alone, when a line end comes among the first
    [n - 1] bytes (or the data ends) it returns the line with its line end, and when
    the first [n] bytes have none it stores the terminator behind the [n] bytes of the
    buffer. *)
Theorem readlineb_first_line n s : good s -> 0 < n < 2147483648 ->
  let line := first_line (Z.to_nat n) (pending s) in
  if zlen line <? n then
    wp (rio_readlineb n n) s (fun r s' =>
      r = Some (zlen line, match pending s with [] => None | _ => Some line end) /\
      good s' /\ pending s' = drop (length line) (pending s))
  else rio_readlineb n n s = Fault Undefined.
Proof.
  intros Hs Hn line. pose proof (first_line_length (Z.to_nat n) (pending s)) as Hlen. fold line in Hlen.
  destruct (Z.ltb_spec (zlen line) n) as [Hlt|Hge].
  - unfold rio_readlineb. wsimpl. eapply wp_mono; [by apply collect_line|]. fold line. intros r s' (-> & Hs' & Hp').
    destruct (pending s) as [|x l] eqn:E.
    + assert (El : line = []) by (unfold line; by destruct (Z.to_nat n)). rewrite El, zlen_nil in *. wsimpl. done.
    + rewrite (proj2 (Z.leb_gt _ _)) by lia. by wsimpl.
  - apply readlineb_overflow; [done|done|]. fold line. rewrite zlen_length in *. lia.
Qed.

Lemma readlineb_first_line_witness :
  wp (rio_readlineb 8 8) (mk_source Rio_init [Data [65]; Read_eintr; Data [10; 66]]) (fun r s' =>
    r = Some (2, Some [65; 10]) /\ good s' /\ pending s' = [66]) /\
  rio_readlineb 2 2 (mk_source Rio_init [Data [65; 66]]) = Fault Undefined.
Proof.
  split.
  - apply (readlineb_first_line 8 (mk_source Rio_init [Data [65]; Read_eintr; Data [10; 66]])); [|done].
    split; [repeat constructor; discriminate|by vm_compute|by cbn].
  - apply (readlineb_first_line 2 (mk_source Rio_init [Data [65; 66]])); [|done].
    split; [repeat constructor; discriminate|by vm_compute|by cbn].
Defined.

(** ** The threads *)

(** one worker takes a connection from a buffer of one cell *)
Definition first_request : list action :=
  [Run_worker 0; Run_worker 0; Run_worker 0;                     (* the worker waits *)
   Run_main (Some (5, client)); Run_main None; Run_main None;    (* a connection is put in the buffer *)
   Run_worker 0; Run_worker 0; Run_worker 0].                    (* the worker is woken and takes it out *)

(** the numbers [main] accepts are [int]s that are not negative *)
Lemma server_main_start argv s0 : server_main argv = Val s0 -> exists nr max cache,
  0 <= nr < 2147483648 /\ 0 <= max < 2147483648 /\ server_init nr max cache = Val s0.
Proof.
  unfold server_main. destruct argv as [|? [|a1 [|a2 [|a3 [|a4 [|]]]]]]; try done. destruct (atoi a1 <? 1024); [done|].
  destruct (Z.ltb_spec (atoi a2) 0); [done|]. destruct (Z.ltb_spec (atoi a3) 0); [done|]. destruct (Z.ltb_spec (atoi a4) 0); [done|].
  cbn [orb]. intros Hs. exists (atoi a2), (atoi a3), (atoi a4).
  pose proof (s32_bound (strtoll a2).1). pose proof (s32_bound (strtoll a3).1). unfold atoi in *. split; [lia|]. split; [lia|done].
Qed.

(** C38: Connections are served in the order of their arrival, each once: in every run of a server
    started by any command line that [main] accepts,
    the descriptors put in the buffer are those taken out by the workers, in this
    order, followed by those in the buffer; the buffer never holds more than
    [max_requests], and [lock] never has two owners among the workers and the main thread. *)
Theorem connections_in_order fs argv s0 tr s : server_main argv = Val s0 -> run fs s0 tr s ->
  accepted tr = taken tr ++ queued (s_sv s) /\ Z.of_nat (length (queued (s_sv s))) <= max_requests (s_sv s0) /\
  (forall i j w w', s_workers s !! i = Some w -> s_workers s !! j = Some w' -> has_lock w = true -> has_lock w' = true -> i = j) /\
  (forall i w, s_workers s !! i = Some w -> has_lock w = true -> main_has_lock (s_main s) = false).
Proof.
  intros Hmain Hrun. destruct (server_main_start argv s0 Hmain) as (nr & max & cache & Hnr & Hmax & Hinit).
  destruct (start_inv nr max cache s0 Hnr Hmax Hinit) as [Hinv Hq].
  destruct (run_inv fs s0 tr s Hinv Hq Hrun) as (Hinv' & Htr & _ & Em). split; [exact Htr|].
  assert (Em0 : max_requests (s_sv s0) = max).
  { unfold server_init in Hinit. destruct (0 <? cache); injection Hinit as <-; cbn; by destruct (0 <? max). }
  split_and!.
  - destruct (iv_ring _ _ _ _ Hinv') as [_ Hc _]. unfold queued. destruct (buffer (s_sv s)); [|cbn; lia].
    rewrite length_fmap, length_seqZ. lia.
  - intros i j w w' Hi Hj Hw Hw'. apply (iv_lock _ _ _ _ Hinv' _ _ Hi) in Hw. apply (iv_lock _ _ _ _ Hinv' _ _ Hj) in Hw'.
    congruence.
  - intros i w Hi Hw. apply (iv_lock _ _ _ _ Hinv' _ _ Hi) in Hw. apply not_true_is_false.
    intros Hm%(iv_lock_main _ _ _ _ Hinv'). congruence.
Qed.

Definition command_line : list (list Z) := [bytes_of "server"; bytes_of "2000"; bytes_of "1"; bytes_of "1"; bytes_of "0"].

Lemma connections_in_order_witness : exists s0 s tr, server_main command_line = Val s0 /\ run (fun _ => None) s0 tr s /\
  taken tr = [5] /\ accepted tr = taken tr ++ queued (s_sv s).
Proof.
  destruct (server_main command_line) as [s0|f] eqn:E0; [|discriminate].
  destruct (schedule (fun _ => None) first_request s0) as [[tr s]|] eqn:E; [|vm_compute in E0; injection E0 as <-; vm_compute in E; discriminate].
  pose proof (schedule_run _ _ _ _ _ E) as Hrun. exists s0, s, tr. split; [done|]. split; [exact Hrun|]. split.
  - vm_compute in E0. injection E0 as <-. vm_compute in E. injection E as <- <-. reflexivity.
  - exact (proj1 (connections_in_order (fun _ => None) command_line s0 tr s E0 Hrun)).
Defined.

(** C39: The main thread is never stuck with a connection: whenever it hands one over, with workers
    and a buffer there, some thread is unblocked, that is not waiting for a signal or for the
    lock of another; no signal is lost. *)
Theorem handover_progress fs nr max cache s0 tr s : 0 < nr < 2147483648 -> 0 < max < 2147483648 ->
  server_init nr max cache = Val s0 -> run fs s0 tr s -> requesting (s_main s) = true -> can_run s.
Proof.
  intros Hnr Hmax Hinit Hrun Hm. destruct (start_inv nr max cache s0 ltac:(lia) ltac:(lia) Hinit) as [Hinv Hq].
  destruct (run_inv fs s0 tr s Hinv Hq Hrun) as (Hinv' & _ & En & Em).
  assert (E0 : nr_threads (s_sv s0) = nr /\ max_requests (s_sv s0) = max).
  { unfold server_init in Hinit. destruct (0 <? cache); injection Hinit as <-; cbn; by destruct (0 <? max). }
  destruct E0 as [E1 E2]. apply requesting_can_run; [done|done|lia|lia].
Qed.

Lemma handover_progress_witness : exists s0 s tr, server_init 1 1 0 = Val s0 /\ run (fun _ => None) s0 tr s /\
  requesting (s_main s) = true /\ can_run s.
Proof.
  destruct (server_init 1 1 0) as [s0|f] eqn:E0; [|discriminate].
  destruct (schedule (fun _ => None) [Run_main (Some (5, client))] s0) as [[tr s]|] eqn:E;
    [|vm_compute in E0; injection E0 as <-; vm_compute in E; discriminate].
  assert (Hm : requesting (s_main s) = true).
  { vm_compute in E0. injection E0 as <-. vm_compute in E. injection E as <- <-. reflexivity. }
  pose proof (schedule_run _ _ _ _ _ E) as Hrun. exists s0, s, tr. split; [done|]. split; [exact Hrun|]. split; [exact Hm|].
  apply (handover_progress (fun _ => None) 1 1 0 s0 tr s); try done; lia.
Defined.

(** the worker serves the connection while [server_exit] signals, and then waits *)
Definition late_worker : list action :=
  first_request ++
  [Run_main None; Run_main None; Run_main None; Run_main None;  (* [server_exit] up to [pthread_join] *)
   Run_worker 0; Run_worker 0; Run_worker 0;                    (* the request is answered *)
   Run_worker 0; Run_worker 0; Run_worker 0].                   (* the buffer is empty *)

(** C40: [server_exit] can wait for ever: there is a run in which a worker serves a request while the
    signals are sent; it then waits for a connection, and from there the only step is a
    spurious wakeup, although no thread has ended. *)
Theorem server_exit_can_hang : exists fs s0 tr s, server_init 1 1 0 = Val s0 /\ run fs s0 tr s /\ s_main s = M_join 0 /\
  exiting (s_sv s) = true /\ s_workers s = [W_waiting] /\ forall ev s', step fs s ev s' -> ev = Some Spurious.
Proof.
  destruct (server_init 1 1 0) as [s0|f] eqn:E0; [|discriminate].
  destruct (schedule (fun _ => None) late_worker s0) as [[tr s]|] eqn:E;
    [|vm_compute in E0; injection E0 as <-; vm_compute in E; discriminate].
  assert (Hs : s_main s = M_join 0 /\ exiting (s_sv s) = true /\ s_workers s = [W_waiting] /\ nr_threads (s_sv s) = 1).
  { vm_compute in E0. injection E0 as <-. vm_compute in E. injection E as <- <-. done. }
  destruct Hs as (H1 & H2 & H3 & H4). exists (fun _ => None), s0, tr, s.
  split; [done|]. split; [by eapply schedule_run|]. split_and!; try done.
  apply (join_stuck _ s 0 H1); [rewrite H4; lia|by rewrite H3|rewrite H3]. constructor; [by left|constructor].
Qed.
