(* ===== verification/ClientProps.v ===== *)
(** * Properties of the clients and the file sets *)

From stdpp Require Import base gmap list strings.
From Stdlib Require Import ZArith Lia.
From S2P Require Import Prelude Words Numbers Cache Rio Request Client Fileset Server RioSpec RequestSpec ServeSpec ClientSpec FilesetSpec.
#[local] Open Scope Z_scope.

(** ** Client and server *)

(** what [client_send] sends for a file *)
Definition request_text (host filename : list Z) : list Z := request_line filename ++ host_line host ++ CRLF.

Lemma request_sends a host filename : is_word filename -> plain host -> zlen filename + zlen host + 25 < MAXLINE ->
  carries a (request_text host filename) -> sends a (request_line filename) [host_line host].
Proof.
  intros Hf Hh Hlen [Hc Hw Hb]. pose proof (zlen_nonneg host). pose proof (zlen_nonneg filename). change MAXLINE with 8192 in *. split; try done.
  - split.
    + exists (bytes_of "GET " ++ filename ++ bytes_of " HTTP/1.0" ++ [13]). split; [unfold request_line; by rewrite <- !app_assoc|].
      intros Hin. assert (Hp : plain (bytes_of "GET " ++ filename ++ bytes_of " HTTP/1.0" ++ [13])).
      { repeat apply plain_app; [by repeat (constructor; [by vm_compute|])|by apply word_plain|by repeat (constructor; [by vm_compute|])..]. }
      unfold plain in Hp. rewrite Forall_forall in Hp. by destruct (Hp 10 Hin).
    + unfold request_line. rewrite !zlen_app. change (zlen (bytes_of "GET ")) with 4. change (zlen (bytes_of " HTTP/1.0")) with 9.
      change (zlen CRLF) with 2. change MAXLINE with 8192. lia.
  - apply Forall_cons. split; [|done]. unfold host_line. rewrite app_assoc. apply header_plain.
    + apply plain_app; [by repeat (constructor; [by vm_compute|])|done].
    + done.
    + rewrite zlen_app. change (zlen (bytes_of "host: ")) with 6. change MAXLINE with 8192. lia.
  - exists []. rewrite Hb. unfold request_text. cbn [concat]. by rewrite !app_nil_r.
Qed.

(** C32: client, server and client again, over connections that deliver the bytes in any
    pieces: the client asks for a file with [client_send]; the server, without a
    cache, answers what it was sent; and [client_print] reads that answer, finds the
    sum and the length of the file in the header and counts the same of the body, so
    that none of its assertions fails, and shows the contents on the terminal.  The
    request is shorter than a line of the server may be, and every line of the file is shorter than the buffer
    of the client ([fits]; C33 is what happens to a longer one). *)
Theorem file_is_fetched fs max fd host filename info content k print :
  is_word filename -> plain host -> zlen filename + zlen host + 25 < MAXLINE -> takes k -> written k = [] ->
  refused (request_parse_URI filename MAXLINE) = None -> fs (request_parse_URI filename MAXLINE) = Some info ->
  serves info content -> fits content -> max <= 0 ->
  wp (client_send host filename) k (fun _ k' => forall w,
    carries (src_answers (k_source (w_conn w))) (written k') -> bounded (w_mem w) -> takes (k_sink (w_conn w)) ->
    written (k_sink (w_conn w)) = [] -> k_open (w_conn w) = true ->
    wp (serve fs max fd) w (fun _ w' => k_open (w_conn w') = false /\ forall t,
      carries (src_answers (t_source t)) (written (k_sink (w_conn w'))) -> takes (t_stdout t) ->
      wp (client_print (checksum content) (zlen content) print) t (fun _ t' =>
        written (t_stdout t') = written (t_stdout t) ++ (if print then content else [])))).
Proof.
  intros Hf Hh Hlen Hk Hk0 Hr Hfs Hs Hfit Hmax. eapply wp_mono; [by apply client_send_spec|].
  intros _ k' [_ Hw] w Hc Hb Ht Hw0 Ho. rewrite Hk0 in Hw. cbn [app] in Hw. rewrite Hw in Hc.
  eapply wp_mono.
  { apply (serve_uncached fs max w fd (request_line filename) [host_line host] (bytes_of "GET") filename [bytes_of "HTTP/1.0"] info content); try done.
    - by apply request_sends.
    - by apply request_line_words. }
  intros _ w' [Ho' Hw']. split; [done|]. intros t Hct Htt. rewrite Hw', Hw0 in Hct. cbn [app] in Hct.
  eapply wp_mono; [eapply (client_print_spec _ content print t Hct); try done; by destruct Hs|]. intros _ t' (_ & _ & H). exact H.
Qed.

(** the file "ar" with the contents "AB" *)
Definition ar : list Z := bytes_of "ar".
Definition small_disk (content : list Z) (name : list Z) : option file_info :=
  if decide (name = bytes_of "./ar") then Some (mk_info true true (zlen content) [Data content]) else None.
Definition quiet : sink := mk_sink [] [].
Lemma quiet_takes : takes quiet.
Proof. split; [constructor|done]. Qed.
Lemma word_check w : bool_decide (w <> [] /\ Forall (fun x => x <> 0 /\ is_space x = false) w) = true -> is_word w.
Proof. by intros H%bool_decide_eq_true. Qed.
Lemma plain_check l : bool_decide (Forall (fun x => x <> 0 /\ x <> 10) l) = true -> plain l.
Proof. by intros H%bool_decide_eq_true. Qed.

Lemma file_is_fetched_witness :
  wp (client_send (bytes_of "localhost") ar) quiet (fun _ k' => forall w,
    carries (src_answers (k_source (w_conn w))) (written k') -> bounded (w_mem w) -> takes (k_sink (w_conn w)) ->
    written (k_sink (w_conn w)) = [] -> k_open (w_conn w) = true ->
    wp (serve (small_disk [65; 66]) 0 5) w (fun _ w' => k_open (w_conn w') = false /\ forall t,
      carries (src_answers (t_source t)) (written (k_sink (w_conn w'))) -> takes (t_stdout t) ->
      wp (client_print 131 2 true) t (fun _ t' => written (t_stdout t') = written (t_stdout t) ++ [65; 66]))).
Proof.
  apply (file_is_fetched (small_disk [65; 66]) 0 5 (bytes_of "localhost") ar (mk_info true true 2 [Data [65; 66]]) [65; 66] quiet true).
  - apply word_check. reflexivity.
  - apply plain_check. reflexivity.
  - reflexivity.
  - exact quiet_takes.
  - reflexivity.
  - vm_compute; reflexivity.
  - vm_compute; reflexivity.
  - split; try done; vm_compute; repeat constructor; discriminate.
  - apply fits_short. reflexivity.
  - done.
Defined.

(** On a response of the server whose lines fit its buffer, [client_print] returns exactly when it
    is given the sum and the length of the file it gets; given other values it
    stops at an assertion.  It is total: it also ends. *)
Theorem client_print_checks name content print t orig_csum orig_length :
  carries (src_answers (t_source t)) (response name content) -> zlen content < 2147483648 -> fits content -> takes (t_stdout t) ->
  (exists r, client_print orig_csum orig_length print t = Val r) <-> orig_csum = checksum content /\ orig_length = zlen content.
Proof.
  intros Hc Hl Hf Ht. split.
  - intros [r Hr]. destruct (decide (orig_csum = checksum content /\ orig_length = zlen content)) as [|Hne]; [done|].
    rewrite (client_print_other name content print t Hc Hl orig_csum orig_length Hf Ht) in Hr; [done|].
    destruct (decide (orig_csum = checksum content)); [right|left]; tauto.
  - intros [-> ->]. pose proof (client_print_spec name content print t Hc Hl Hf Ht) as H. apply wp_inv in H as (a & s' & E & _). by exists (a, s').
Qed.

(** a terminal whose connection delivers [l] in two pieces, with an interrupted call in between *)
Definition delivers (l : list Z) : terminal := mk_terminal (mk_source Rio_init [Data (take 10 l); Read_eintr; Data (drop 10 l)]) [] quiet.
Definition response_ar : list Z := response (bytes_of "./ar") [65; 66].
Lemma carries_ar : carries (src_answers (t_source (delivers response_ar))) response_ar.
Proof. split; [repeat constructor; by vm_compute|by vm_compute|by vm_compute]. Qed.

Lemma client_print_checks_witness : (exists r, client_print 131 2 true (delivers response_ar) = Val r) /\
  ~ (exists r, client_print 131 3 true (delivers response_ar) = Val r).
Proof.
  split.
  - apply (client_print_checks (bytes_of "./ar") [65; 66] true (delivers response_ar) 131 2 carries_ar eq_refl (fits_short [65; 66] eq_refl) quiet_takes).
    split; reflexivity.
  - intros H. apply (client_print_checks (bytes_of "./ar") [65; 66] true (delivers response_ar) 131 3 carries_ar eq_refl (fits_short [65; 66] eq_refl) quiet_takes) in H.
    destruct H as [_ H]. by vm_compute in H.
Defined.

(** C33: the files that fileset makes consist of printable characters only; when such a
    file has 8192 bytes or more, [client_print] stores the terminator of its first
    "line" behind its buffer. *)
Theorem generated_file_overflows name content print t orig_csum orig_length :
  carries (src_answers (t_source t)) (response name content) -> zlen content < 2147483648 ->
  Forall printable content -> MAXBUF <= zlen content ->
  client_print orig_csum orig_length print t = Fault Undefined.
Proof.
  intros Hc Hl Hp Hlen. eapply client_print_overflow; [exact Hc|done|]. change MAXBUF with 8192 in *.
  assert (H : forall n l, Forall printable l -> (n <= length l)%nat -> length (first_line n l) = n).
  { induction n as [|n IH]; intros [|x l] HF Hn; cbn in *; try done; try lia. apply Forall_cons in HF as [Hx HF].
    rewrite (proj2 (Z.eqb_neq x 10)) by (unfold printable in Hx; lia). cbn. f_equal. apply IH; [done|lia]. }
  rewrite zlen_length, H; [done|done|]. rewrite zlen_length in Hlen. lia.
Qed.

(** a file of 8192 times the letter A *)
Definition big : list Z := replicate 8192 65.
Definition response_big : list Z := response (bytes_of "./ar") big.
Lemma generated_file_overflows_witness : client_print 532480 8192 true (delivers response_big) = Fault Undefined.
Proof.
  apply (generated_file_overflows (bytes_of "./ar") big true (delivers response_big) 532480 8192).
  - split; [repeat constructor; by vm_compute|by vm_compute|by vm_compute].
  - by vm_compute.
  - apply Forall_replicate. unfold printable. lia.
  - by vm_compute.
Defined.

(** ** File sets *)

(** C35: [fileset_main] ends for every valid choice of sizes whose total and index fit, and
    the client reads back what it made: [init_fileset] on its index file, delivered in
    any pieces, gives one entry for each file, in order, with its path, sum and length;
    the files are in the directory with these contents, of the lengths that were drawn.
    The directory name must be one word. *)
Theorem fileset_read_back random size most m n dir s : (forall i, 0 <= random i) -> (forall k, 4096 <= size k <= most) ->
  1 < m -> 1 <= n <= 99999 -> zlen dir <= DIR_NAME_MAX -> is_word dir -> m * 4096 * n + most <= 2147483647 ->
  (m * n + 1) * (zlen dir + 40) < IDX_BUFFER - 1 -> can_start s ->
  wp (fileset_main random size m n dir) s (fun _ s' => exists cs idx, files_ok size s' cs /\ st_idx s' = Some idx /\
    forall src, carries (src_answers src) idx -> wp init_fileset src (fun r _ =>
      r = imap (fun k c => mk_fileinfo (Some (entry_name dir k)) (Some (checksum c)) (Some (zlen c))) cs)).
Proof.
  intros Hr Hs Hm Hn Hd Hw Ht Hi Hstart. pose proof (Hs 0).
  eapply wp_mono; [by apply (fileset_main_spec random size most m n dir)|]. cbn beta. intros _ s' (cs & Hok & Hne & Hcount & Hidx).
  exists cs, (index_file dir cs). split; [done|]. split; [done|]. intros src Hc.
  assert (Hsz : forall k, size k < 2147483648) by (intros k; pose proof (Hs k); nia).
  eapply wp_mono; [apply (init_fileset_spec src (imap (entry_of dir) cs))|].
  - by eapply index_entries_ok.
  - by destruct cs.
  - rewrite length_imap. lia.
  - rewrite length_imap. change (map en_line (imap (entry_of dir) cs)) with (en_line <$> imap (entry_of dir) cs). by rewrite fmap_imap.
  - intros r _ ->. change (map en_info (imap (entry_of dir) cs)) with (en_info <$> imap (entry_of dir) cs). by rewrite fmap_imap.
Qed.

(** two files of 8192 bytes each, in a directory that does not exist yet *)
Definition no_dir : storage := mk_storage Missing None 0 [].
Definition set_dir : list Z := bytes_of "set".

Lemma fileset_read_back_witness :
  wp (fileset_main Z.abs (fun _ => 8192) 2 2 set_dir) no_dir (fun _ s' => exists cs idx, files_ok (fun _ => 8192) s' cs /\ st_idx s' = Some idx /\
    forall src, carries (src_answers src) idx -> wp init_fileset src (fun r _ =>
      r = imap (fun k c => mk_fileinfo (Some (entry_name set_dir k)) (Some (checksum c)) (Some (zlen c))) cs)).
Proof.
  apply (fileset_read_back Z.abs (fun _ => 8192) 8192 2 2 set_dir no_dir).
  - intros i. apply Z.abs_nonneg.
  - intros k. lia.
  - lia.
  - lia.
  - by vm_compute.
  - apply word_check. reflexivity.
  - lia.
  - by vm_compute.
  - done.
Defined.

(** C36: [default_file_sz * 4096 * default_nr_files] is computed in [int]: for choices the checks
    of [main] allow, such as 6 and 99999, it overflows.  The directory comes first: its
    regular files are removed, with the subdirectories kept and the index and the
    output as they were, and it is in that state that the product is undefined, before a
    new file is made; a directory that cannot be made or opened ends the program before
    the product is computed. *)
Theorem fileset_total_overflows random size m n dir s : 1 < m < 524288 -> 1 <= n <= 99999 -> zlen dir <= DIR_NAME_MAX ->
  2147483647 < m * 4096 * n ->
  match st_dir s with
  | Other => fileset_main random size m n dir s = Fault Exited
  | d => exists s1 kept, clear_dir s = Val (tt, s1) /\ s1 = with_dir (Entries kept) s /\
      (forall name, kept !! name = match d with Entries files => if decide (files !! name = Some None) then Some None else None | _ => None end) /\
      fileset_total m n s1 = Fault Undefined /\ fileset_main random size m n dir s = Fault Undefined
  end.
Proof.
  intros Hm Hn Hd Ht.
  assert (Htot : forall s1 : storage, fileset_total m n s1 = Fault Undefined).
  { intros s1. unfold fileset_total. apply fault_bind. unfold mul_int at 1. rewrite (proj2 (Z.ltb_ge _ (m * 4096))) by lia. wsimpl.
    unfold mul_int. by rewrite (proj2 (Z.ltb_lt _ (m * 4096 * n))) by lia. }
  assert (Hgo : fileset_main random size m n dir s = (clear_dir;; total ← fileset_total m n;
    '(current_fileset_sz, nr_files, idx_buffer) ← make_files random size dir total;
    modify (fun s => mk_storage (st_dir s) (Some (dec nr_files ++ [10] ++ idx_buffer)) (st_drawn s) (st_out s));;
    say (bytes_of "file set size = " ++ dec current_fileset_sz ++ bytes_of ", nr files = " ++ dec nr_files ++ [10] ++
       bytes_of "mean file size = " ++ dec (current_fileset_sz / nr_files) ++ bytes_of ", expected mean file size = " ++
       dec (m * 4096) ++ [10])) s).
  { unfold fileset_main. rewrite (proj2 (Z.leb_gt _ _)) by lia.
    by rewrite (proj2 (Z.ltb_ge n 1)), (proj2 (Z.ltb_ge 99999 n)), (proj2 (Z.ltb_ge _ (zlen dir))) by lia. }
  rewrite Hgo. clear Hgo.
  assert (Hc : forall kept, clear_dir s = Val (tt, with_dir (Entries kept) s) ->
    forall k : Z -> M storage unit, (clear_dir;; total ← fileset_total m n; k total) s = Fault Undefined).
  { intros kept E k. apply fault_bind. unfold wp. rewrite E. by apply bind_fault. }
  destruct (st_dir s) as [|files|] eqn:Es.
  - assert (E : clear_dir s = Val (tt, with_dir (Entries ∅) s)) by (unfold clear_dir, mbind, M_bind, get; by rewrite Es).
    exists (with_dir (Entries ∅) s), ∅. split_and!; [done|done|done|done|by eapply Hc].
  - set (kept := filter (fun e => e.2 = None) files).
    assert (E : clear_dir s = Val (tt, with_dir (Entries kept) s)) by (unfold clear_dir, mbind, M_bind, get; by rewrite Es).
    exists (with_dir (Entries kept) s), kept. split_and!; [done|done| |done|by eapply Hc].
    intros name. subst kept. rewrite map_lookup_filter. destruct (files !! name) as [[c|]|]; cbn; by repeat case_decide || case_guard.
  - apply bind_fault. unfold clear_dir, mbind, M_bind, get. by rewrite Es.
Qed.

(** a directory with an old file [a] and a subdirectory [b] *)
Definition old_dir : storage := mk_storage (Entries (<[[97] := Some [1]]> (<[[98] := None]> ∅))) None 0 [].

Lemma fileset_total_overflows_witness : exists s1 kept, clear_dir old_dir = Val (tt, s1) /\ s1 = with_dir (Entries kept) old_dir /\
  kept !! [97] = None /\ kept !! [98] = Some None /\
  fileset_main (fun _ => 0) (fun _ => 4096) 6 99999 set_dir old_dir = Fault Undefined.
Proof.
  destruct (fileset_total_overflows (fun _ => 0) (fun _ => 4096) 6 99999 set_dir old_dir) as (s1 & kept & H1 & H2 & H3 & _ & H4);
    [lia|lia|by vm_compute|lia|].
  exists s1, kept. split; [exact H1|]. split; [exact H2|]. split; [rewrite (H3 [97]); reflexivity|].
  split; [rewrite (H3 [98]); reflexivity|exact H4].
Defined.
